(* ===== verification/_CoqProject ===== *)
-Q . S2P
Prelude.v
CMem.v
MQTTPacket.v
MQTTPublish.v
MQTTConnect.v
MQTTSubscribe.v
PacketRead.v
Platform.v
MQTTClient.v
Exchange.v
TopicMatch.v
ClientLogic.v
Handlers.v
Cycle.v
ClientOps.v
CppClient.v
CppLogic.v
CppHandlers.v
CppCycle.v
CppOps.v
CppSubscribe.v
CppProps.v
Clock.v
Yield.v
SNPacket.v
SNPublish.v
SNConnect.v
SNSubscribe.v
SNClient.v
SNClientLogic.v
SNClientCycle.v
SNClientEvents.v
SNClientOps.v
SNClientProps.v
SNYield.v
MbedNet.v
MbedClient.v
GWHeap.v
GWTables.v
GWTopic.v
GWPacket.v
GWSNPacket.v
GWClient.v
GWGateway.v
GWConnect.v
GWPublish.v
GWSubscribe.v
GWTask.v
GWFlow.v
GWEncap.v
GWStrings.v
GWSensorNet.v
GWForwarder.v
GWClientList.v
GWConfig.v
GWAdapter.v
GWEntrance.v
GWSystem.v
GWSession.v
GWXBee.v
GWLog.v
GWAggregate.v
GWNetwork.v
