(* ===== verification/Prelude.v ===== *)
(** * Verification of the MQTT embedded C libraries

    The repository packages two libraries for small devices, and a wrapper of
    them for Mbed OS: MQTT 3.1/3.1.1 clients in C and C++ (paho_mqtt_embedded_c),
    and for MQTT-SN the packets, a client in C++ and a gateway to MQTT
    (paho_mqtt-sn_embedded_c).  This development models the code from the
    characters on the wire up to the operations of the three clients, the wrapper
    and the running gateway, and proves what the code does, its overruns and
    unchecked cases included.

    ** The program and its model

    - Prelude: bytes, machine integers and bit fields, lists as buffers
      ([splice]), and the tactics the other files share.
    - CMem: memory as a map from blocks to bytes, pointers with offsets, the
      state-and-fault monad [M], and the rules for code that reads from a buffer
      ([bytes_at]) or fills one from left to right ([writes], [serializes]).
    - MQTTPacket: the first half of MQTTPacket/src/MQTTPacket.c: header byte,
      remaining length, integers and length-delimited strings.
    - PacketRead: its second half: MQTTPacket_read, and MQTTPacket_readnb with
      MQTTPacket_decodenb, over the interface [Transport] of a source of bytes.
    - MQTTPublish, MQTTConnect, MQTTSubscribe: the serializers and deserializers
      of MQTTSerializePublish.c and MQTTDeserializePublish.c,
      MQTTConnectClient.c and MQTTConnectServer.c, MQTTSubscribe*.c and
      MQTTUnsubscribe*.c.
    - Platform: the interface of timers, network and handlers both clients are
      written against ([Platform]), its laws, and the program logic [total] on
      views of the state.  Exchange: the packets both clients exchange.
    - MQTTClient: every operation of MQTTClient-C/src/MQTTClient.c on the
      record of its state; TopicMatch: its matching of topic filters;
      ClientLogic: the reads and writes of the client; Handlers: delivery of
      messages and the table of handlers; Cycle: one turn of the event loop,
      its invariant and its answers; ClientOps: connect, publish, subscribe.
    - CppClient: every operation of the class template MQTT::Client of
      MQTTClient/src/MQTTClient.h, the template parameters and build macros being
      the class [ClientParams]; CppLogic, CppHandlers, CppCycle, CppOps,
      CppSubscribe: its sends and reads, topics and handlers, event loop, connect
      and publish, subscriptions; CppProps: its properties.
    - Clock: platforms whose time advances, and what an operation may change of
      the world; Yield: the loops of MQTTYield and yield end.
    - SNPacket, SNPublish, SNConnect, SNSubscribe: MQTTSNPacket/src/*.c of
      MQTT-SN, on the primitives of MQTTPacket.c, which that library shares.
    - SNClient: every operation of the class template MQTTSN::Client of
      MQTTSNClient/src/MQTTSNClient.h.  SNClientLogic: its sends and reads on a
      network of datagrams ([Datagrams]); SNClientCycle: its invariant [sn_ok] and
      cycle on any input; SNClientEvents: the packets of the gateway ([event]) and
      what each does to the client ([ev_effect]); SNClientOps: connect, publish,
      subscribe, unsubscribe; SNClientProps: its properties; SNYield: yield ends.
    - MbedNet: the network layer of Mbed OS, src/MQTTNetworkUtil.h, MQTTNetwork*.h,
      the class MQTTNetworkMbedOs and Countdown of MQTTmbed.h, over sockets, timers
      and handlers whose documented behaviour is the classes [SocketSpec],
      [MbedTimerSpec], [HandlersSpec]; it is a [Platform].  MbedClient:
      src/MQTTClientMbedOs.cpp, which owns such a network and one of the C++ clients,
      whose operations run on its part of the state ([through]).
    - GWHeap: linked lists of the gateway as cells of an explicit heap with
      first and last pointer and a counter, over a state-and-fault monad [st];
      what they represent ([seg], [represents], [owns]) and the run lemmas of
      the steps the classes share.  GWTables: MQTTSNGWMessageIdTable.cpp,
      TopicIdMap of MQTTSNGWTopic.cpp, the list of packets that wait for a
      REGACK and the packet queue (MQTTSNGWClient.cpp, MQTTSNGWProcess.h).
      GWTopic: Topic and Topics of MQTTSNGWTopic.cpp.  GWPacket: the MQTT
      packets of the gateway, MQTTGWPacket.cpp, built, read and received.
      GWSNPacket: its MQTT-SN packets, MQTTSNGWPacket.cpp, which call the
      functions of the packet library on a block of their own.
    - GWClient: the class Client of MQTTSNGWClient.cpp, its status and its
      tables.  GWGateway: the events and their queues (MQTTSNGateway.cpp) and
      the state [Gateway] the handlers share.  GWConnect, GWPublish, GWSubscribe:
      the packet handlers, MQTTSNGW*Handler.cpp for the packets of clients,
      MQTTGW*Handler.cpp for those of the broker, the aggregating ones included.
      GWTask: MQTTSNGWPacketHandleTask.cpp and MQTTSNGWBrokerSendTask.cpp, their
      steps as a relation [gw_step] and what every step keeps.  GWFlow: exchanges
      of several events.
    - The surroundings of the handlers.  GWEncap: MQTTSNGWEncapsulatedPacket.cpp.
      GWStrings: the strings, numbers and files the gateway reads.  GWSensorNet:
      linux/udp/SensorNetwork.cpp over the sockets [UdpSockets] and [InetAddr].
      GWForwarder: MQTTSNGWForwarder.cpp.  GWClientList: MQTTSNGWClientList.cpp, the
      list of clients.  GWConfig: parameters and lists read from files ([Files]),
      Process::getParam, Gateway::initialize, SensorNetwork::initialize.
      GWAdapter: MQTTSNGWAdapter.cpp, MQTTSNGWAdapterManager.cpp,
      MQTTSNGWQoSm1Proxy.cpp, linux/Timer.cpp.  GWEntrance: a turn of
      MQTTSNGWClientRecvTask.cpp, MQTTSNGWClientSendTask.cpp and
      MQTTSNGWBrokerRecvTask.cpp.  GWSystem: the turns of all tasks in any order,
      from the state the configuration sets up.  GWSession: a connection through
      all tasks.
    - GWNetwork: linux/Network.cpp, TCP and TLS towards the broker, over the system
      and the TLS library ([TlsHost]); without TLS it is the [Socket] GWPacket sends
      and receives with.  GWXBee: linux/xbee/SensorNetwork.cpp, frames on a serial
      line.  GWLog: the RingBuffer of linux/Threading.cpp that carries the log to
      the monitor.  GWAggregate: MQTTSNGWAggregateTopicTable.cpp.

    A deserializer is a function from the caller's variables (a record) to their
    new values; a serializer is a function from the memory to the memory.  The
    client calls the packet functions, the packet functions call the primitives;
    the same definitions are used at all levels, so what is proved of a packet
    is what the client sends and receives.

    ** What the theorems show

    - Round trips: for every packet the serializer of one side and the
      deserializer of the other agree on the wire format, and the fields come
      back ([publish_roundtrip], [connect_roundtrip], [subscribe_roundtrip],
      [remlen_roundtrip], [sn_publish_roundtrip], ...).
    - Exact behaviour of the serializers, the refusals included, and no write
      outside the buffer ([publish_serialize_spec], [connect_serialize_spec]).
    - Deserializers on arbitrary bytes ([publish_parse_safe],
      [connect_parse_safe], [sn_publish_parse_safe], [remlen_decode_safe]): they
      terminate, stay inside the buffer and report strings inside it.
    - The readers: MQTTPacket_read takes one packet off a blocking transport;
      MQTTPacket_readnb yields the same packet whatever pieces it arrives in, and
      completes on a transport that keeps delivering.
    - The client: [client_ok] is an invariant of cycle on any input, given two
      readable bytes behind the receive buffer ([cycle_safe]), which it needs
      ([cycle_overread]); what is sent, delivered and returned by cycle, keepalive,
      MQTTConnect, MQTTPublish and MQTTSubscribe on a transport that answers; the
      handler table refines an association list; topic matching equals a
      reference definition and refines the rules of the standard.
    - The C++ client: [object_ok] is an invariant of cycle on any input and any
      network that makes progress, with the same two bytes ([client_cycle_safe],
      [client_cycle_overread]); sendPacket copes with
      partial writes ([client_send_parts]); a QoS 2 message is delivered once
      however often it arrives before its release ([client_qos2_once]); what
      connect, publish, subscribe, unsubscribe and disconnect send, keep for the
      next connection and leave ([client_connect_spec], [client_connect_resend],
      [client_publish_spec], [client_subscribe_spec], [client_unsubscribe_spec]);
      its topic matching against the standard ([client_topic_mqtt]).
    - The MQTT-SN client: cycle on any input as long as there are no subscriptions
      ([sn_cycle_safe]); with one, a PUBLISH on another topic makes it read a name
      that was never assigned ([sn_other_topic_faults]); what one turn does with
      every packet of the gateway ([sn_cycle_spec]); what connect, publish,
      subscribe and unsubscribe send, handle before their answer and return
      ([sn_connect_spec], [sn_publish_spec], [sn_subscribe_spec],
      [sn_unsubscribe_spec]), and where they cannot succeed
      ([sn_publish_qos1_fails], [sn_connect_inflight_fails]).
    - Mbed OS: the network layer over documented sockets and timers fulfils the
      contract of the clients ([mbed_network_refines], [countdown_spec]), so their
      theorems hold on it: an object connected over a socket sends the CONNECT of its
      options ([mbed_connect_spec]).  In every state the socket decides on the
      protocol of an object and on what each call does ([protocol_call],
      [mbed_protocol]), and over datagrams the MQTT-SN client is deaf
      ([mbed_sn_deaf]).
    - Termination: MQTTYield and yield return on a clock that advances
      ([mqtt_yield_returns], [client_yield_returns], [sn_yield_returns]), with
      SUCCESS only once their time has passed.
    - The gateway: each linked structure refines a list, a finite map or a
      bounded queue, and what it allocates is what is linked
      ([topics_spec], [topic_id_map_spec], [message_id_table_spec],
      [packet_que_spec], [wait_regack_spec]); identifiers of registered topics
      stay unique in every reachable state ([topic_ids_invariant]); its own
      topic matching is that of the standard but for + in front of #
      ([isMatch_mqtt]); its packets are those of the client library
      ([gw_packets_wire]) and are received as they were sent
      ([gw_recv_packet]).
    - The running gateway: the tables and queues of all clients stay well formed
      and within their bounds in every state the tasks can reach
      ([gateway_invariant]), and the events of one client neither change another
      nor send anything to it ([client_isolation]).  Whole exchanges, with any
      other events between their steps: connecting with and without a will,
      registering and publishing, subscribing, messages for unknown names,
      sleeping, the handshake of QoS 2 ([connect_flow], [will_flow],
      [register_publish_flow], [subscribe_flow], [wildcard_flow], [sleep_flow],
      [ack_relay]).
    - The whole gateway: from any configuration it starts with, through any turns
      of its tasks, the list of clients and the clients, forwarders and queues stay
      in order and within their bounds ([system_invariant]); a client connects from
      its datagram to the broker and back through all five tasks
      ([client_connects]).  The list of clients and the forwarders refine lists
      ([client_list_spec], [forwarder_spec]); whose a packet from the sensor network
      is, and where one for a client goes ([connect_received],
      [forwarded_received], [client_send_spec], [encap_roundtrip]); the files give
      the parameters and clients they name ([getParam_spec], [client_entry_spec],
      [predefined_entry_spec]); the keep-alive of a proxy, whenever the gateway checks
      it ([proxy_gives_up]).
    - The connections of the gateway: the TLS connections of any number of objects
      are counted and share their context through any operations and answers, one
      operation after the other ([tls_invariant]), send writes the
      whole packet ([tls_send_spec]), recv stores what is there but writes before
      the array after it had to wait ([tls_recv_spec]); frames of the XBee module
      come back as they were sent ([xbee_frame_roundtrip], [xbee_recv_spec],
      [xbee_send_spec]); the log is delivered in order and stays inside its memory
      ([log_spec], [log_delivers]).
    - Where the code misbehaves the theorem states the misbehaviour
      ([send_partial_overrun], [subscribe_refused], [sn_publish_overrun],
      [sn_connect_cstring], [read_length_overrun], [setMsgId_publish],
      [client_topic_slash], [client_qos2_full], [erased_client_dangles],
      [getParam_overrun], [xbee_recv_overrun], [connect_after_failed_lookup],
      [tls_eof], [log_rereads], [cycle_overread], [topic_match_empty_level],
      [predefined_shadowed], ...).

    The most important of these are numbered C1, C2, ... in the doc comments of
    their theorems; each has a witness ([<theorem>_witness]) at a concrete input.

    ** Modelling choices

    - Undefined behaviour is visible: an access outside an object, an overlap in
      memcpy, a signed overflow of an [int] and the use of an unassigned variable
      are the outcome [Fault].  Forming a pointer outside an object is not
      checked, using it is.  memcpy of no bytes reads no pointer.
    - [int] has 32 bits and so has [size_t]; [unsigned short] and
      [unsigned char] wrap.  Signedness of char ([CharSign]), byte order
      ([ByteOrder], seen by the union of an MQTT-SN topic and by the return code
      of a CONNACK in the C++ client) and what an unassigned local holds are
      parameters.
    - A callback that fills a buffer returns the bytes it delivers ([getfn_t]);
      the caller stores them.  Sockets, timers and handlers of the application
      are the class [Platform]; its laws ([Observed], [PlatformSpec],
      [Progress], [WholeWrites], [Responsive], [Expired] in Platform, [Clock]
      in Clock, [Datagrams] in SNClientLogic) state what a theorem needs of them,
      of writes only what holds of writing something, and of time only that a read
      that comes back with less than was asked for has taken time or input.
      [plain_platform], [ticking_platform], [datagram_platform] and [mbed_platform]
      are implementations with these laws.
      Handlers do not call back into the client.  The socket of the gateway is
      the class [Socket] with the law [StreamSocket].
    - The array members of a C++ client are memory blocks of their own; the
      receive buffer is followed by the rest of the object ([l_spare]), into
      which the reader of a PUBLISH may look two bytes far.  The static variable
      of keepalive is a member, as if there were one client.
    - A gateway object is a record of its members, its elements are cells of a
      heap; following a null or freed pointer and freeing twice are undefined
      (no result).  The mutexes around the operations are left out: an operation
      is one step.
    - A task of the gateway handles one event in one step: the queues and the
      clients are seen by all tasks, what happens between two of their accesses
      inside one handler is not.  Memory for packets is found or not
      ([HeapSpace]); the theorems on exchanges assume it is found.
    - A client of the gateway is a cell of the list of clients, with its address and
      its place, and an object of the shared state at the same address; the text
      of log entries is left out, except where preparing it writes into an array.
    - Loops without a structural bound carry fuel.  Five digits of the remaining
      length are more than the code reads before it gives up at four; the fuel of
      the client's loops is the argument [fuel], and the theorems that promise a
      result say how much is enough.  Walks through a list of the gateway have one
      more than the cells there are; reading from the network layer of Mbed OS one
      more than the bytes asked for; reading from a serial line one more than what
      the line has; sending over TLS more than the bytes and the waits
      ([tls_send_spec]); the states a TLS connection can be left in are those that
      some fuel leads to ([net_moves], [tls_invariant]).

    ** Not modelled

    MQTTFormat.c and the log entries of the gateway (text only), the platform
    ports (sockets, clocks and threads, whose contract is [Platform]), MQTTRun and
    MQTTStartTask (the endless background loop and its mutex).  Of the gateway: the
    sensor network over IPv6, the opening of a serial line and getting the shared
    memory of the log (calls of the operating system), threads, mutexes,
    semaphores and signals, the light indicator, and GatewayTester, a client for
    tests on a console.  Test programs, samples and build files are left aside. *)

From Stdlib Require Export ZArith Lia.
From Stdlib Require Import Strings.Byte.
From stdpp Require Export prelude gmap list numbers.

#[export] Set Default Goal Selector "!".
#[global] Open Scope Z_scope.

(** ** Bytes and machine integers

    A memory cell is an [Init.Byte.byte]; integer values are [Z], and every
    conversion the C code performs is written out: [u8], [u16], [u32] wrap
    modulo the width, [i8] and [i32] are the two's complement readings. *)

Abbreviation byte := Corelib.Init.Byte.byte.

#[export] Instance byte_eq_dec : EqDecision byte := Byte.byte_eq_dec.

Definition Z_of_byte (b : byte) : Z := Z.of_N (Byte.to_N b).

Definition byte_of_Z (z : Z) : byte :=
  match Byte.of_N (Z.to_N (z mod 256)) with
  | Some b => b
  | None => Corelib.Init.Byte.x00
  end.

Definition u8 (z : Z) : Z := z mod 256.
Definition u16 (z : Z) : Z := z mod 65536.
Definition u32 (z : Z) : Z := z mod 4294967296.
Definition i8 (z : Z) : Z := (z + 128) mod 256 - 128.
Definition i32 (z : Z) : Z := (z + 2147483648) mod 4294967296 - 2147483648.

Definition INT_MAX : Z := 2147483647.
Definition INT_MIN : Z := -2147483648.

(** Is the mathematical value representable as a 32-bit [int]? *)
Definition in_int (z : Z) : bool := (INT_MIN <=? z) && (z <=? INT_MAX).

(** ** Bit fields

    [bf_get h pos w] reads the [w]-bit unsigned field of [h] whose least
    significant bit is bit [pos]; [bf_set] writes it, truncating the value to
    the width of the field, as an assignment to a C bit field does. *)

Definition bf_get (h pos w : Z) : Z := Z.land (Z.shiftr h pos) (Z.ones w).

Definition bf_set (h pos w v : Z) : Z :=
  Z.lor (Z.ldiff h (Z.shiftl (Z.ones w) pos))
        (Z.shiftl (Z.land v (Z.ones w)) pos).

(** ** Lists of bytes *)

Abbreviation zlen l := (Z.of_nat (length l)).

(** Overwrite the cells of [l] from index [o] on with [bs]. *)
Definition splice {A} (l : list A) (o : Z) (bs : list A) : list A :=
  take (Z.to_nat o) l ++ bs ++ drop (Z.to_nat o + length bs) l.

(** ** Shared automation *)

Create HintDb mqtt.
Create Rewrite HintDb zlen.

#[export] Hint Rewrite @length_app @length_cons @length_nil @length_take
  @length_drop @length_insert @length_replicate @length_map
  Nat2Z.inj_add Nat2Z.inj_succ Nat2Z.inj_0 : zlen.

(** Arithmetic over list lengths. *)
Ltac zlen_lia :=
  intros; autorewrite with zlen in *; simpl length in *; lia.

(** Split a boolean test of the code into its two branches, keeping the
    comparison as a proposition. *)
Ltac case_test :=
  match goal with
  | |- context [if ?a <? ?b then _ else _] => destruct (Z.ltb_spec a b)
  | |- context [if ?a <=? ?b then _ else _] => destruct (Z.leb_spec a b)
  | |- context [if ?a =? ?b then _ else _] => destruct (Z.eqb_spec a b)
  end.

(** Arithmetic over division and remainder. *)
Ltac divmod_lia := Z.div_mod_to_equations; lia.

(** Decide a boolean comparison that arithmetic settles. *)
Ltac test_true t :=
  let H := fresh "Htest" in
  assert (H : t = true) by (first [apply Z.ltb_lt | apply Z.leb_le | apply Z.eqb_eq];
                       first [zlen_lia | divmod_lia]);
  rewrite H; clear H.
Ltac test_false t :=
  let H := fresh "Htest" in
  assert (H : t = false) by (first [apply Z.ltb_ge | apply Z.leb_gt | apply Z.eqb_neq];
                        first [zlen_lia | divmod_lia]);
  rewrite H; clear H.

(** ** Facts about bytes and integers *)

Lemma Z_of_byte_range b : 0 <= Z_of_byte b < 256.
Proof. unfold Z_of_byte. pose proof (Byte.to_N_bounded b). lia. Qed.

Lemma Z_of_byte_of_Z z : Z_of_byte (byte_of_Z z) = z mod 256.
Proof.
  unfold Z_of_byte, byte_of_Z.
  pose proof (Z.mod_pos_bound z 256 eq_refl).
  destruct (Byte.of_N _) as [b|] eqn:E.
  - apply Byte.to_of_N in E. rewrite E. lia.
  - apply Byte.of_N_None_iff in E. lia.
Qed.

Lemma byte_of_Z_of_byte b : byte_of_Z (Z_of_byte b) = b.
Proof.
  unfold byte_of_Z. rewrite Z.mod_small by apply Z_of_byte_range.
  unfold Z_of_byte. by rewrite N2Z.id, Byte.of_to_N.
Qed.

Lemma Z_of_byte_small z : 0 <= z < 256 -> Z_of_byte (byte_of_Z z) = z.
Proof. intros. by rewrite Z_of_byte_of_Z, Z.mod_small. Qed.

Lemma byte_of_Z_mod z : byte_of_Z (z mod 256) = byte_of_Z z.
Proof. unfold byte_of_Z. by rewrite Z.mod_mod. Qed.

Lemma byte_of_Z_i8 z : byte_of_Z (i8 z) = byte_of_Z z.
Proof.
  rewrite <- (byte_of_Z_mod (i8 z)), <- (byte_of_Z_mod z). f_equal. unfold i8.
  Z.div_mod_to_equations. lia.
Qed.

Lemma u8_range z : 0 <= u8 z < 256.
Proof. unfold u8. by apply Z.mod_pos_bound. Qed.

Lemma u8_Z_of_byte b : u8 (Z_of_byte b) = Z_of_byte b.
Proof. apply Z.mod_small, Z_of_byte_range. Qed.

Lemma u8_i8 z : u8 (i8 z) = u8 z.
Proof. unfold u8, i8. Z.div_mod_to_equations. lia. Qed.

Lemma u16_small z : 0 <= z < 65536 -> u16 z = z.
Proof. apply Z.mod_small. Qed.

Lemma i32_small z : INT_MIN <= z <= INT_MAX -> i32 z = z.
Proof. unfold i32, INT_MIN, INT_MAX. intros. rewrite Z.mod_small; lia. Qed.

Lemma in_int_spec z : in_int z = true <-> INT_MIN <= z <= INT_MAX.
Proof. unfold in_int. rewrite andb_true_iff, !Z.leb_le. done. Qed.

Lemma in_int_true z : INT_MIN <= z <= INT_MAX -> in_int z = true.
Proof. apply in_int_spec. Qed.

(** ** Facts about bit fields *)

Lemma bf_get_mod h pos w : 0 <= w -> bf_get h pos w = Z.shiftr h pos mod 2 ^ w.
Proof. intros. unfold bf_get. by rewrite Z.land_ones. Qed.

Lemma bf_get_range h pos w : 0 <= w -> 0 <= bf_get h pos w < 2 ^ w.
Proof.
  intros. rewrite bf_get_mod by done. apply Z.mod_pos_bound, Z.pow_pos_nonneg; lia.
Qed.

Lemma testbit_bf_set h pos w v i :
  0 <= pos -> 0 <= w -> 0 <= i ->
  Z.testbit (bf_set h pos w v) i =
    if (pos <=? i) && (i <? pos + w) then Z.testbit v (i - pos) else Z.testbit h i.
Proof.
  intros. unfold bf_set.
  rewrite Z.lor_spec, Z.ldiff_spec, !Z.shiftl_spec by done.
  destruct (Z.leb_spec pos i); simpl.
  - rewrite Z.land_spec, Z.testbit_ones_nonneg by lia.
    destruct (Z.ltb_spec (i - pos) w), (Z.ltb_spec i (pos + w)); try lia;
      by rewrite ?andb_true_r, ?andb_false_r, ?orb_false_r.
  - rewrite !(Z.testbit_neg_r _ (i - pos)) by lia.
    by rewrite andb_true_r, orb_false_r.
Qed.

Lemma testbit_bf_get h pos w i :
  0 <= w -> 0 <= i ->
  Z.testbit (bf_get h pos w) i = if i <? w then Z.testbit h (i + pos) else false.
Proof.
  intros. unfold bf_get. rewrite Z.land_spec, Z.shiftr_spec, Z.testbit_ones_nonneg by lia.
  destruct (Z.ltb_spec i w); by rewrite ?andb_true_r, ?andb_false_r.
Qed.

Lemma bf_get_set_same h pos w v :
  0 <= pos -> 0 <= w -> bf_get (bf_set h pos w v) pos w = v mod 2 ^ w.
Proof.
  intros. rewrite <- Z.land_ones by done. apply Z.bits_inj'. intros i Hi.
  rewrite testbit_bf_get, testbit_bf_set, Z.land_spec, Z.testbit_ones_nonneg by lia.
  destruct (Z.ltb_spec i w); [|by rewrite andb_false_r].
  replace (pos <=? i + pos) with true by lia. replace (i + pos <? pos + w) with true by lia.
  cbn [andb]. rewrite andb_true_r. f_equal. lia.
Qed.

Lemma bf_get_set_other h pos w v pos' w' :
  0 <= pos -> 0 <= w -> 0 <= pos' -> 0 <= w' ->
  pos' + w' <= pos \/ pos + w <= pos' ->
  bf_get (bf_set h pos w v) pos' w' = bf_get h pos' w'.
Proof.
  intros. apply Z.bits_inj'. intros i Hi.
  rewrite !testbit_bf_get, testbit_bf_set by lia.
  destruct (Z.ltb_spec i w'); [|done].
  replace ((pos <=? i + pos') && (i + pos' <? pos + w)) with false; [done|]. lia.
Qed.

Lemma bf_get_0 pos w : bf_get 0 pos w = 0.
Proof. unfold bf_get. by rewrite Z.shiftr_0_l. Qed.

(** Assigning a field whose bits are still zero adds the shifted value. *)
Lemma bf_set_clear h pos w v :
  0 <= pos -> 0 <= w -> (h / 2 ^ pos) mod 2 ^ w = 0 ->
  bf_set h pos w v = h + (v mod 2 ^ w) * 2 ^ pos.
Proof.
  intros Hp Hw Hz. rewrite <- Z.land_ones, <- Z.shiftl_mul_pow2 by lia.
  rewrite <- Z.shiftr_div_pow2, <- Z.land_ones in Hz by lia.
  assert (Hbit : forall i, 0 <= i -> pos <= i < pos + w -> Z.testbit h i = false).
  { intros i Hi Hr. apply (f_equal (fun z => Z.testbit z (i - pos))) in Hz.
    rewrite Z.land_spec, Z.shiftr_spec, Z.testbit_ones_nonneg, Z.bits_0 in Hz by lia.
    replace (i - pos <? w) with true in Hz by lia. rewrite andb_true_r in Hz.
    by replace (i - pos + pos) with i in Hz by lia. }
  rewrite <- Z.add_lor_land.
  assert (Z.land h (Z.shiftl (Z.land v (Z.ones w)) pos) = 0) as ->.
  { apply Z.bits_inj'. intros i Hi.
    rewrite Z.land_spec, Z.shiftl_spec, Z.bits_0 by lia.
    destruct (Z.lt_ge_cases i pos); [rewrite (Z.testbit_neg_r _ (i - pos)) by lia; apply andb_false_r|].
    rewrite Z.land_spec, Z.testbit_ones_nonneg by lia.
    destruct (Z.ltb_spec (i - pos) w); [|by rewrite !andb_false_r].
    by rewrite Hbit by lia. }
  rewrite Z.add_0_r. apply Z.bits_inj'. intros i Hi.
  rewrite testbit_bf_set, Z.lor_spec, Z.shiftl_spec by lia.
  destruct (Z.leb_spec pos i); cbn [andb].
  - rewrite Z.land_spec, Z.testbit_ones_nonneg by lia.
    destruct (Z.ltb_spec i (pos + w)), (Z.ltb_spec (i - pos) w); try lia.
    + by rewrite Hbit, andb_true_r by lia.
    + by rewrite andb_false_r, orb_false_r.
  - rewrite (Z.testbit_neg_r _ (i - pos)) by lia. by rewrite orb_false_r.
Qed.

Lemma bf_get_div h pos w : 0 <= pos -> 0 <= w -> bf_get h pos w = (h / 2 ^ pos) mod 2 ^ w.
Proof. intros. by rewrite bf_get_mod, Z.shiftr_div_pow2. Qed.

(** Reading the low byte of a field assignment: a field inside bits 0..7 is
    the same before and after the value is stored in an [unsigned char]. *)
Lemma bf_get_u8 h pos w : 0 <= pos -> 0 <= w -> pos + w <= 8 ->
  bf_get (h mod 256) pos w = bf_get h pos w.
Proof.
  intros. apply Z.bits_inj'. intros i Hi. rewrite !testbit_bf_get by lia.
  destruct (Z.ltb_spec i w); [|done].
  change 256 with (2 ^ 8). rewrite Z.mod_pow2_bits_low by lia. done.
Qed.

(** ** Facts about [splice] *)

Section Splice.
Context {A : Type}.
Implicit Types l bs : list A.

Lemma splice_length l o bs :
  0 <= o -> o + zlen bs <= zlen l -> length (splice l o bs) = length l.
Proof. intros. unfold splice. rewrite !length_app, length_take, length_drop. lia. Qed.

Lemma splice_nil l o : splice l o [] = l.
Proof. unfold splice. simpl. rewrite Nat.add_0_r. apply take_drop. Qed.

Lemma splice_app l o bs1 bs2 :
  0 <= o -> o + zlen bs1 + zlen bs2 <= zlen l ->
  splice (splice l o bs1) (o + zlen bs1) bs2 = splice l o (bs1 ++ bs2).
Proof.
  intros. unfold splice.
  replace (Z.to_nat (o + zlen bs1)) with (Z.to_nat o + length bs1)%nat by lia.
  rewrite (app_assoc _ bs1).
  assert (length (take (Z.to_nat o) l ++ bs1) = Z.to_nat o + length bs1)%nat
    by (rewrite length_app, length_take; lia).
  rewrite take_app_length' by done. rewrite drop_app_ge by lia.
  rewrite drop_drop, <- !app_assoc. do 4 f_equal. rewrite !length_app in *. lia.
Qed.

Lemma splice_one l o x :
  0 <= o -> o < zlen l -> splice l o [x] = <[Z.to_nat o := x]> l.
Proof.
  intros. unfold splice. rewrite insert_take_drop by lia. simpl.
  do 3 f_equal. lia.
Qed.

Lemma splice_lookup l o bs i x :
  0 <= o -> o + zlen bs <= zlen l -> bs !! i = Some x ->
  splice l o bs !! (Z.to_nat o + i)%nat = Some x.
Proof.
  intros ?? Hi. unfold splice. pose proof (lookup_lt_Some _ _ _ Hi).
  rewrite lookup_app_r by (rewrite length_take; lia).
  rewrite length_take, lookup_app_l by lia.
  rewrite <- Hi. f_equal. lia.
Qed.

Lemma splice_lookup_out l o bs (i : nat) :
  0 <= o -> o + zlen bs <= zlen l -> Z.of_nat i < o \/ o + zlen bs <= Z.of_nat i ->
  splice l o bs !! i = l !! i.
Proof.
  intros ?? [Hi|Hi]; unfold splice.
  - rewrite lookup_app_l by (rewrite length_take; lia). apply lookup_take_lt. lia.
  - rewrite lookup_app_r by (rewrite length_take; lia).
    rewrite length_take, lookup_app_r by lia. rewrite lookup_drop. f_equal. lia.
Qed.
End Splice.
