(* ===== verification/CMem.v ===== *)
(** * C memory, pointers and effects

    The C code is modelled in a state-and-fault monad.  Memory is a finite map
    from blocks (one per C object: a buffer, a string literal, a payload) to
    their bytes; a pointer is a block with an offset.  Every dereference is
    checked against the size of the block, so an access outside an object is
    the observable outcome [Fault OutOfBounds] and not a silent success.  The
    state also holds [bufptr], the static variable of MQTTPacket.c, and a
    [world], whatever the environment of the program (transport, clock, client
    object) keeps.  The second half is the small program logic the components
    use: [bytes_at] for reading, [writes] and [serializes] for code that fills
    a buffer from left to right. *)

From S2P Require Import Prelude.

(** ** Outcomes *)

(** What the C standard leaves undefined and the models make visible, and the
    exhaustion of the fuel of a loop. *)
Inductive fault :=
  | OutOfBounds     (* access outside the object, or through NULL *)
  | IntOverflow     (* a signed int computation left the 32-bit range *)
  | Overlap         (* memcpy between overlapping ranges *)
  | Indeterminate   (* a local variable read before it was assigned *)
  | BadPointer      (* difference of pointers into different objects *)
  | Divergence.     (* the loop used up its fuel *)

Inductive outcome (S A : Type) :=
  | Done (a : A) (s : S)
  | Fault (f : fault).
Arguments Done {S A} a s.
Arguments Fault {S A} f.

Definition block := positive.
Bind Scope positive_scope with block.

Inductive ptr :=
  | NULL
  | Ptr (b : block) (o : Z).

#[export] Instance fault_eq_dec : EqDecision fault.
Proof. solve_decision. Defined.
#[export] Instance ptr_eq_dec : EqDecision ptr.
Proof. solve_decision. Defined.

(** C's truth value of a pointer. *)
Definition is_null (p : ptr) : bool := match p with NULL => true | _ => false end.

(** Pointer arithmetic.  Forming a pointer is never checked, using it is. *)
Definition padd (p : ptr) (n : Z) : ptr :=
  match p with
  | NULL => NULL
  | Ptr b o => Ptr b (o + n)
  end.

Record state (W : Type) := State {
  mem : gmap block (list byte);
  bufptr : ptr;
  world : W
}.
Arguments State {W} _ _ _.
Arguments mem {W} _.
Arguments bufptr {W} _.
Arguments world {W} _.

Definition M (W A : Type) := state W -> outcome (state W) A.

(** Signedness of plain [char]: a choice of the platform ABI (unsigned on ARM,
    signed on x86). *)
Class CharSign := char_signed : bool.

(** The byte order of integers: another choice of the platform. *)
Class ByteOrder := big_endian : bool.

Definition little_endian_order : ByteOrder := false.
Definition big_endian_order : ByteOrder := true.

Section Monad.
Context {W : Type}.

Definition ret {A} (a : A) : M W A := fun s => Done a s.

Definition bind {A B} (c : M W A) (k : A -> M W B) : M W B := fun s =>
  match c s with
  | Done a s' => k a s'
  | Fault f => Fault f
  end.

Definition throw {A} (f : fault) : M W A := fun _ => Fault f.

Definition get_bufptr : M W ptr := fun s => Done (bufptr s) s.
Definition set_bufptr (p : ptr) : M W unit := fun s =>
  Done tt (State (mem s) p (world s)).

Definition get_world : M W W := fun s => Done (world s) s.
Definition set_world (w : W) : M W unit := fun s =>
  Done tt (State (mem s) (bufptr s) w).
End Monad.

Declare Scope c_scope.
Delimit Scope c_scope with C.
Notation "'let*' p ':=' c 'in' k" := (bind c (fun p => k))
  (at level 10, p pattern, c at level 100, k at level 200,
   format "'[v' 'let*'  p  ':='  c  'in'  '/' k ']'") : c_scope.
Notation "c ;;; k" := (bind c (fun _ => k))
  (at level 100, k at level 200, right associativity) : c_scope.
#[global] Open Scope c_scope.

Section Memory.
Context {W : Type}.

Definition lookupZ {A} (l : list A) (o : Z) : option A :=
  if 0 <=? o then l !! Z.to_nat o else None.

Definition set_block (s : state W) (b : block) (l : list byte) : state W :=
  State (<[b := l]> (mem s)) (bufptr s) (world s).

(** [*p] as an [unsigned char]. *)
Definition load (p : ptr) : M W Z := fun s =>
  match p with
  | NULL => Fault OutOfBounds
  | Ptr b o =>
      match mem s !! b ≫= fun l => lookupZ l o with
      | Some x => Done (Z_of_byte x) s
      | None => Fault OutOfBounds
      end
  end.

(** [*p = v] where [*p] is an [unsigned char]. *)
Definition store (p : ptr) (v : Z) : M W unit := fun s =>
  match p with
  | NULL => Fault OutOfBounds
  | Ptr b o =>
      match mem s !! b with
      | Some l =>
          if (0 <=? o) && (o <? zlen l)
          then Done tt (set_block s b (<[Z.to_nat o := byte_of_Z v]> l))
          else Fault OutOfBounds
      | None => Fault OutOfBounds
      end
  end.

(** The [n] bytes from [p] on. *)
Definition load_bytes (p : ptr) (n : Z) : M W (list byte) := fun s =>
  match p with
  | NULL => Fault OutOfBounds
  | Ptr b o =>
      match mem s !! b with
      | Some l =>
          if (0 <=? o) && (o + n <=? zlen l)
          then Done (take (Z.to_nat n) (drop (Z.to_nat o) l)) s
          else Fault OutOfBounds
      | None => Fault OutOfBounds
      end
  end.

Definition store_bytes (p : ptr) (bs : list byte) : M W unit := fun s =>
  match bs, p with
  | [], _ => Done tt s
  | _, NULL => Fault OutOfBounds
  | _, Ptr b o =>
      match mem s !! b with
      | Some l =>
          if (0 <=? o) && (o + zlen bs <=? zlen l)
          then Done tt (set_block s b (splice l o bs))
          else Fault OutOfBounds
      | None => Fault OutOfBounds
      end
  end.

(** [p - q]; the operands must point into the same object. *)
Definition psub (p q : ptr) : M W Z :=
  match p, q with
  | NULL, NULL => ret 0
  | Ptr b o, Ptr b' o' => if decide (b = b') then ret (o - o') else throw BadPointer
  | _, _ => throw BadPointer
  end.

(** A signed computation whose mathematical result is [z]. *)
Definition int (z : Z) : M W Z :=
  if in_int z then ret z else throw IntOverflow.

(** [p < q], for pointers into the same object. *)
Definition plt (p q : ptr) : M W bool := let* d := psub p q in ret (d <? 0).

(** The caller's array [a], as the list of its elements: reading and assigning
    [a[i]]. *)
Definition arr_get {A} (a : list A) (i : Z) : M W A :=
  match lookupZ a i with Some x => ret x | None => throw OutOfBounds end.

Definition arr_set {A} (a : list A) (i : Z) (x : A) : M W (list A) :=
  if (0 <=? i) && (i <? zlen a) then ret (<[Z.to_nat i := x]> a) else throw OutOfBounds.

(** The value of a local variable, [None] before its first assignment. *)
Definition use {A} (v : option A) : M W A :=
  match v with Some a => ret a | None => throw Indeterminate end.

(** *** The functions of <string.h> the sources call *)

Definition ranges_overlap (p q : ptr) (n : Z) : bool :=
  match p, q with
  | Ptr b o, Ptr b' o' =>
      bool_decide (b = b') && (o <? o' + n) && (o' <? o + n)
  | _, _ => false
  end.

(** [n] is the [int] the caller passes; a negative one is a huge [size_t]. *)
Definition memcpy (dst src : ptr) (n : Z) : M W unit :=
  if n <? 0 then throw OutOfBounds
  else if n =? 0 then ret tt
  else let* bs := load_bytes src n in
       if ranges_overlap dst src n then throw Overlap else store_bytes dst bs.

(** Position of the first zero byte. *)
Fixpoint nul_index (l : list byte) : option nat :=
  match l with
  | [] => None
  | x :: l' => if bool_decide (x = Corelib.Init.Byte.x00) then Some 0%nat
               else S <$> nul_index l'
  end.

Definition strlen (p : ptr) : M W Z := fun s =>
  match p with
  | NULL => Fault OutOfBounds
  | Ptr b o =>
      match mem s !! b with
      | Some l =>
          if 0 <=? o then
            match nul_index (drop (Z.to_nat o) l) with
            | Some n => Done (Z.of_nat n) s
            | None => Fault OutOfBounds
            end
          else Fault OutOfBounds
      | None => Fault OutOfBounds
      end
  end.

(** Compare at most [n] bytes; [stop] says whether a common zero byte ends
    the comparison ([strncmp]) or not ([memcmp]). *)
Fixpoint compare_loop (stop : bool) (n : nat) (p q : ptr) : M W Z :=
  match n with
  | O => ret 0
  | S n' =>
      let* x := load p in
      let* y := load q in
      if negb (x =? y) then ret (x - y)
      else if stop && (x =? 0) then ret 0
      else compare_loop stop n' (padd p 1) (padd q 1)
  end.

Definition strncmp (p q : ptr) (n : Z) : M W Z := compare_loop true (Z.to_nat n) p q.
Definition memcmp (p q : ptr) (n : Z) : M W Z := compare_loop false (Z.to_nat n) p q.

(** The comparison ends at a zero byte of [p] at the latest, so the bytes of
    [p]'s object bound the number of steps. *)
Definition strcmp (p q : ptr) : M W Z := fun s =>
  match p with
  | NULL => Fault OutOfBounds
  | Ptr b o =>
      match mem s !! b with
      | Some l => compare_loop true (S (Z.to_nat (zlen l - o))) p q s
      | None => Fault OutOfBounds
      end
  end.
End Memory.

(** [char] values of a byte, by the platform's signedness. *)
Definition to_char `{CharSign} (z : Z) : Z := if char_signed then i8 z else u8 z.

(** The state after a deserializer ran: only the static cursor has moved. *)
Definition cursor_moved {W} (s : state W) (b : block) (o : Z) : state W :=
  State (mem s) (Ptr b o) (world s).

(** ** Reading: the bytes a block holds *)

Definition bytes_at (m : gmap block (list byte)) (b : block) (o : Z) (bs : list byte) : Prop :=
  0 <= o /\ exists l, m !! b = Some l /\
    forall i x, bs !! i = Some x -> l !! (Z.to_nat o + i)%nat = Some x.

(** The NUL-terminated string at [p]. *)
Definition cstring_at (m : gmap block (list byte)) (p : ptr) (bs : list byte) : Prop :=
  exists b o, p = Ptr b o /\ bytes_at m b o (bs ++ [Corelib.Init.Byte.x00]) /\
    Corelib.Init.Byte.x00 ∉ bs.

(** ** Writing: code that fills block [b] from left to right

    [writes s b c bs]: from any position inside the block, [c] stores exactly
    the bytes [bs] and leaves the pointer behind them if they fit in the block,
    and is an out-of-bounds access if they do not.  [s] fixes everything but
    the contents of [b]. *)

Definition writes {W} (s : state W) (b : block) (c : ptr -> M W ptr) (bs : list byte) : Prop :=
  forall l o, 0 <= o <= zlen l ->
    c (Ptr b o) (set_block s b l) =
      if o + zlen bs <=? zlen l
      then Done (Ptr b (o + zlen bs)) (set_block s b (splice l o bs))
      else Fault OutOfBounds.

(** The same for a serializer, which ends with [return ptr - buf]. *)
Definition serializes {W} (s : state W) (b : block) (base : Z)
    (c : ptr -> M W Z) (bs : list byte) : Prop :=
  forall l o, 0 <= base -> base <= o <= zlen l ->
    c (Ptr b o) (set_block s b l) =
      if o + zlen bs <=? zlen l
      then Done (o + zlen bs - base) (set_block s b (splice l o bs))
      else Fault OutOfBounds.

(** ** Concrete states for the examples

    [mem_of] numbers the objects from block 1 on. *)

Definition bytes (zs : list Z) : list byte := byte_of_Z <$> zs.

Definition mem_of (blocks : list (list byte)) : gmap block (list byte) :=
  list_to_map (zip (Pos.of_succ_nat <$> seq 0 (length blocks)) blocks).

Definition state_of (blocks : list (list byte)) : state unit := State (mem_of blocks) NULL tt.

Definition char_is_unsigned : CharSign := false.
Definition char_is_signed : CharSign := true.

(** ** Monad laws and states *)

Section MonadLaws.
Context {W : Type}.

Lemma bind_done {A B} (c : M W A) (k : A -> M W B) s a s' :
  c s = Done a s' -> bind c k s = k a s'.
Proof. unfold bind. by intros ->. Qed.

Lemma bind_fault {A B} (c : M W A) (k : A -> M W B) s f :
  c s = Fault f -> bind c k s = Fault f.
Proof. unfold bind. by intros ->. Qed.

Lemma bind_assoc {A B C} (c : M W A) (f : A -> M W B) (g : B -> M W C) s :
  bind (bind c f) g s = bind c (fun x => bind (f x) g) s.
Proof. unfold bind. by destruct (c s). Qed.

Lemma set_block_id (s : state W) b l : mem s !! b = Some l -> set_block s b l = s.
Proof. destruct s. intros. unfold set_block. simpl. by rewrite insert_id. Qed.

Lemma set_block_idemp (s : state W) b l l' :
  set_block (set_block s b l) b l' = set_block s b l'.
Proof. unfold set_block. simpl. by rewrite insert_insert_eq. Qed.

Lemma mem_set_block_eq (s : state W) b l : mem (set_block s b l) !! b = Some l.
Proof. apply lookup_insert_eq. Qed.

Lemma mem_set_block_ne (s : state W) b b' l :
  b <> b' -> mem (set_block s b l) !! b' = mem s !! b'.
Proof. apply lookup_insert_ne. Qed.

Lemma psub_same b o o' (s : state W) : psub (Ptr b o) (Ptr b o') s = Done (o - o') s.
Proof. unfold psub. by rewrite decide_True. Qed.

Lemma int_done z (s : state W) : INT_MIN <= z <= INT_MAX -> int z s = Done z s.
Proof. intros. unfold int. by rewrite in_int_true. Qed.

Lemma bind_ret {A B} (a : A) (k : A -> M W B) s : bind (ret a) k s = k a s.
Proof. done. Qed.

Lemma bind_int {B} z (k : Z -> M W B) s :
  INT_MIN <= z <= INT_MAX -> bind (int z) k s = k z s.
Proof. intros. by erewrite bind_done by by apply int_done. Qed.
End MonadLaws.

(** ** Arrays *)

Section Arrays.
Context {W A : Type}.
Implicit Types (s : state W) (a : list A).

Lemma plt_same b o o' s : plt (Ptr b o) (Ptr b o') s = Done (o <? o') s.
Proof.
  unfold plt. rewrite (bind_done _ _ _ _ _ (psub_same _ _ _ _)). unfold ret. f_equal. lia.
Qed.

Lemma arr_get_done s a (i : nat) x : a !! i = Some x -> arr_get a (Z.of_nat i) s = Done x s.
Proof.
  intros Hi. unfold arr_get, lookupZ. destruct (Z.leb_spec 0 (Z.of_nat i)) as [_|]; [|lia].
  by rewrite Nat2Z.id, Hi.
Qed.

Lemma arr_get_any s a i : 0 <= i < zlen a -> exists x, arr_get a i s = Done x s.
Proof.
  intros Hi. destruct (lookup_lt_is_Some_2 a (Z.to_nat i)) as [x Hx]; [lia|]. exists x.
  rewrite <- (arr_get_done s _ _ _ Hx). f_equal. lia.
Qed.

Lemma arr_get_out s a i : i < 0 \/ zlen a <= i -> arr_get a i s = Fault OutOfBounds.
Proof.
  intros Hi. unfold arr_get, lookupZ. destruct (Z.leb_spec 0 i); [|done].
  by rewrite lookup_ge_None_2 by lia.
Qed.

Lemma arr_set_done s a i x : 0 <= i < zlen a -> arr_set a i x s = Done (splice a i [x]) s.
Proof.
  intros Hi. unfold arr_set. replace ((0 <=? i) && (i <? zlen a)) with true by lia.
  by rewrite splice_one by lia.
Qed.

Lemma arr_set_out s a i x : i < 0 \/ zlen a <= i -> arr_set a i x s = Fault OutOfBounds.
Proof. intros Hi. unfold arr_set. by replace ((0 <=? i) && (i <? zlen a)) with false by lia. Qed.
End Arrays.

(** ** Reading *)

Section Reading.
Context {W : Type}.
Implicit Types (m : gmap block (list byte)) (s : state W) (b : block) (o : Z) (bs : list byte).

Lemma bytes_at_nonneg m b o bs : bytes_at m b o bs -> 0 <= o.
Proof. by intros [? _]. Qed.

Lemma bytes_at_eq m b o o' bs : bytes_at m b o bs -> o = o' -> bytes_at m b o' bs.
Proof. by intros ? <-. Qed.

Lemma bytes_at_app m b o bs1 bs2 :
  bytes_at m b o (bs1 ++ bs2) <-> bytes_at m b o bs1 /\ bytes_at m b (o + zlen bs1) bs2.
Proof.
  split.
  - intros [? (l & ? & Hl)]. split; (split; [lia|]); exists l; (split; [done|]).
    + intros i x Hi. apply Hl. by apply lookup_app_l_Some.
    + intros i x Hi.
      replace (Z.to_nat (o + zlen bs1) + i)%nat
        with (Z.to_nat o + (length bs1 + i))%nat by lia.
      apply Hl. rewrite lookup_app_r by lia. rewrite <- Hi. f_equal. lia.
  - intros [[? (l & Hb & H1)] [_ (l' & Hb' & H2)]]. simplify_eq.
    split; [done|]. exists l. split; [done|]. intros i x [Hi|[Hge Hi]]%lookup_app_Some.
    + by apply H1.
    + rewrite <- (H2 _ _ Hi). f_equal. lia.
Qed.

Lemma bytes_at_cons m b o x bs :
  bytes_at m b o (x :: bs) <-> bytes_at m b o [x] /\ bytes_at m b (o + 1) bs.
Proof. apply (bytes_at_app m b o [x] bs). Qed.

Lemma bytes_at_tail m b o x bs : bytes_at m b o (x :: bs) -> bytes_at m b (o + 1) bs.
Proof. by intros [_ ?]%bytes_at_cons. Qed.

Lemma bytes_at_block m b o bs l :
  m !! b = Some l -> 0 <= o -> o + zlen bs <= zlen l ->
  take (length bs) (drop (Z.to_nat o) l) = bs -> bytes_at m b o bs.
Proof.
  intros Hb ?? Hbs. split; [done|]. exists l. split; [done|]. intros i x Hi.
  rewrite <- Hbs in Hi. apply lookup_take_Some in Hi as [Hi _].
  by rewrite lookup_drop in Hi.
Qed.

Lemma bytes_at_bound m b o bs l :
  bytes_at m b o bs -> m !! b = Some l -> bs <> [] -> o + zlen bs <= zlen l.
Proof.
  intros [? (l' & Hb & Hl)] ? Hne. simplify_eq.
  destruct (lookup_lt_is_Some_2 bs (length bs - 1)) as [x Hx].
  { destruct bs; [done|simpl; lia]. }
  apply Hl, lookup_lt_Some in Hx. destruct bs; [done|simpl in *; lia].
Qed.

Lemma bytes_at_take m b o bs l :
  bytes_at m b o bs -> m !! b = Some l -> bs <> [] ->
  take (length bs) (drop (Z.to_nat o) l) = bs.
Proof.
  intros Hat Hb Hne. pose proof (bytes_at_bound _ _ _ _ _ Hat Hb Hne).
  destruct Hat as [? (l' & ? & Hl)]. simplify_eq.
  apply list_eq_same_length with (n := length bs); [done| |].
  - rewrite length_take, length_drop. lia.
  - intros i x y Hi Hx Hy. apply lookup_take_Some in Hx as [Hx _].
    rewrite lookup_drop in Hx. apply Hl in Hy. congruence.
Qed.

Lemma bytes_at_splice s b l o bs :
  0 <= o -> o + zlen bs <= zlen l ->
  bytes_at (mem (set_block s b (splice l o bs))) b o bs.
Proof.
  intros. split; [done|]. exists (splice l o bs). split; [apply mem_set_block_eq|].
  intros. by apply splice_lookup.
Qed.

Lemma bytes_at_set_block_ne s b b' l o bs :
  b <> b' -> bytes_at (mem s) b' o bs -> bytes_at (mem (set_block s b l)) b' o bs.
Proof.
  intros ? [? (l' & ? & ?)]. split; [done|]. exists l'. by rewrite mem_set_block_ne.
Qed.

Lemma lookupZ_at m b o x bs :
  bytes_at m b o (x :: bs) -> (m !! b ≫= fun l => lookupZ l o) = Some x.
Proof.
  intros [? (l & Hb & Hl)]. rewrite Hb. simpl. unfold lookupZ.
  replace (0 <=? o) with true by lia.
  specialize (Hl 0%nat x eq_refl). by rewrite Nat.add_0_r in Hl.
Qed.

Lemma load_at s b o x bs :
  bytes_at (mem s) b o (x :: bs) -> load (Ptr b o) s = Done (Z_of_byte x) s.
Proof. intros H. unfold load. by rewrite (lookupZ_at _ _ _ _ _ H). Qed.

Lemma load_bytes_at s b o bs n :
  bytes_at (mem s) b o bs -> n = zlen bs -> bs <> [] ->
  load_bytes (Ptr b o) n s = Done bs s.
Proof.
  intros Hat -> Hne. pose proof (bytes_at_nonneg _ _ _ _ Hat).
  pose proof Hat as [_ (l & Hb & _)].
  pose proof (bytes_at_bound _ _ _ _ _ Hat Hb Hne).
  unfold load_bytes. rewrite Hb.
  replace ((0 <=? o) && (o + zlen bs <=? zlen l)) with true by lia.
  rewrite Nat2Z.id. by rewrite (bytes_at_take _ _ _ _ _ Hat Hb Hne).
Qed.

(** Any range inside a block can be read. *)
Lemma bytes_at_any m b o l (k : nat) :
  m !! b = Some l -> 0 <= o -> o + Z.of_nat k <= zlen l ->
  exists bs, length bs = k /\ bytes_at m b o bs.
Proof.
  intros Hb ??. exists (take k (drop (Z.to_nat o) l)).
  assert (length (take k (drop (Z.to_nat o) l)) = k) as Hk
    by (rewrite length_take, length_drop; lia).
  split; [done|]. eapply bytes_at_block; [done..|rewrite Hk; lia|by rewrite Hk].
Qed.

Lemma load_total s b o l :
  mem s !! b = Some l -> 0 <= o -> o + 1 <= zlen l ->
  exists x, bytes_at (mem s) b o [x] /\ load (Ptr b o) s = Done (Z_of_byte x) s.
Proof.
  intros Hb ??. destruct (bytes_at_any _ _ o l 1 Hb) as ([|x [|]] & ? & ?); try done; try lia.
  exists x. split; [done|]. by eapply load_at.
Qed.

Lemma load_out s b o l :
  mem s !! b = Some l -> o < 0 \/ zlen l <= o -> load (Ptr b o) s = Fault OutOfBounds.
Proof.
  intros Hb Ho. unfold load. rewrite Hb. simpl. unfold lookupZ.
  destruct (Z.leb_spec 0 o); [|done]. by rewrite lookup_ge_None_2 by lia.
Qed.

Lemma nul_index_app (bs rest : list byte) :
  Corelib.Init.Byte.x00 ∉ bs ->
  nul_index (bs ++ Corelib.Init.Byte.x00 :: rest) = Some (length bs).
Proof.
  induction bs as [|x bs IH]; intros Hnot; [done|].
  simpl. rewrite bool_decide_eq_false_2 by (intros ->; apply Hnot; constructor).
  rewrite IH; [done|]. intros ?. apply Hnot. by constructor.
Qed.

Lemma strlen_at s p bs :
  cstring_at (mem s) p bs -> strlen p s = Done (zlen bs) s.
Proof.
  intros (b & o & -> & Hat & Hnot). pose proof (bytes_at_nonneg _ _ _ _ Hat).
  pose proof Hat as [_ (l & Hb & _)].
  assert (bs ++ [Corelib.Init.Byte.x00] <> []) by (by destruct bs).
  pose proof (bytes_at_take _ _ _ _ _ Hat Hb ltac:(done)) as Htake.
  unfold strlen. rewrite Hb. replace (0 <=? o) with true by lia.
  rewrite <- (take_drop (length (bs ++ [Corelib.Init.Byte.x00])) (drop (Z.to_nat o) l)).
  rewrite Htake, <- app_assoc. simpl. by rewrite nul_index_app.
Qed.
End Reading.

(** ** Writing *)

Section Writing.
Context {W : Type}.
Implicit Types (s : state W) (b : block) (bs : list byte).

Lemma writes_nil s b : writes s b ret [].
Proof.
  intros l o Ho. simpl. rewrite Z.add_0_r, splice_nil.
  by replace (o <=? zlen l) with true by lia.
Qed.

(** Sequencing: the second writer starts where the first one stopped. *)
Lemma splice_seq s b l o bs1 bs2 {A} (f : Z -> A) :
  0 <= o <= zlen l -> o + zlen bs1 <= zlen l ->
  (if o + zlen bs1 + zlen bs2 <=? zlen (splice l o bs1)
   then Done (f (o + zlen bs1 + zlen bs2))
          (set_block s b (splice (splice l o bs1) (o + zlen bs1) bs2))
   else Fault OutOfBounds) =
  (if o + zlen (bs1 ++ bs2) <=? zlen l
   then Done (f (o + zlen (bs1 ++ bs2))) (set_block s b (splice l o (bs1 ++ bs2)))
   else Fault OutOfBounds).
Proof.
  intros. rewrite splice_length, length_app, Nat2Z.inj_add, Z.add_assoc by lia.
  case_test; [|done]. by rewrite splice_app by lia.
Qed.

Lemma writes_bind s b c1 c2 bs1 bs2 :
  writes s b c1 bs1 -> writes s b c2 bs2 ->
  writes s b (fun p => bind (c1 p) c2) (bs1 ++ bs2).
Proof.
  intros H1 H2 l o Ho. unfold bind. rewrite H1 by done. case_test.
  - rewrite H2 by (rewrite splice_length by lia; lia).
    by apply (splice_seq s b l o bs1 bs2 (Ptr b)).
  - rewrite length_app, Nat2Z.inj_add. by test_false (o + (zlen bs1 + zlen bs2) <=? zlen l).
Qed.

Lemma store_run s b v l o :
  0 <= o ->
  store (Ptr b o) v (set_block s b l) =
    if o + 1 <=? zlen l
    then Done tt (set_block s b (splice l o [byte_of_Z v]))
    else Fault OutOfBounds.
Proof.
  intros. unfold store. rewrite mem_set_block_eq.
  replace ((0 <=? o) && (o <? zlen l)) with (o + 1 <=? zlen l) by lia.
  case_test; [|done]. by rewrite set_block_idemp, splice_one by lia.
Qed.

Lemma writes_store s b v : writes s b (fun p => store p v ;;; ret (padd p 1)) [byte_of_Z v].
Proof.
  intros l o Ho. unfold bind. rewrite store_run by lia.
  change (zlen [byte_of_Z v]) with 1. by case_test.
Qed.

Lemma writes_ext s b c c' bs :
  (forall p s', c p s' = c' p s') -> writes s b c bs -> writes s b c' bs.
Proof. intros Hc Hw l o Ho. rewrite <- Hc. by apply Hw. Qed.

Lemma writes_store_bind s b v c bs :
  writes s b c bs -> writes s b (fun p => store p v ;;; c (padd p 1)) (byte_of_Z v :: bs).
Proof.
  intros Hc. eapply writes_ext, (writes_bind s b _ c [_] bs (writes_store s b v) Hc).
  intros p s'. apply bind_assoc.
Qed.

Lemma writes_if s b (t : bool) c1 c2 bs1 bs2 :
  writes s b c1 bs1 -> writes s b c2 bs2 ->
  writes s b (fun p => if t then c1 p else c2 p) (if t then bs1 else bs2).
Proof. by destruct t. Qed.

Lemma writes_memcpy s b bsrc osrc bs n :
  bsrc <> b -> n = zlen bs -> bs <> [] -> bytes_at (mem s) bsrc osrc bs ->
  writes s b (fun p => memcpy p (Ptr bsrc osrc) n ;;; ret (padd p n)) bs.
Proof.
  intros Hb -> Hne Hat l o Ho.
  assert (0 < zlen bs) by (destruct bs; [done|simpl; lia]).
  unfold bind, memcpy, bind. test_false (zlen bs <? 0). test_false (zlen bs =? 0).
  rewrite (load_bytes_at _ _ _ bs) by (done || apply bytes_at_set_block_ne; done).
  unfold ranges_overlap. rewrite bool_decide_eq_false_2 by done. simpl.
  unfold store_bytes. destruct bs as [|x bs]; [done|]. rewrite mem_set_block_eq.
  replace ((0 <=? o) && (o + zlen (x :: bs) <=? zlen l)) with (o + zlen (x :: bs) <=? zlen l)
    by lia.
  case_test; [|done]. by rewrite set_block_idemp.
Qed.

(** [memcpy] of a range that may be empty. *)
Lemma writes_memcpy' s b src bs n :
  (bs = [] \/ exists bsrc osrc, src = Ptr bsrc osrc /\ bsrc <> b /\ bytes_at (mem s) bsrc osrc bs) ->
  n = zlen bs -> writes s b (fun p => memcpy p src n ;;; ret (padd p n)) bs.
Proof.
  intros Hsrc ->. destruct bs as [|x bs].
  - intros l o Ho. unfold bind, memcpy. simpl.
    rewrite Z.add_0_r, splice_nil. by test_true (o <=? zlen l).
  - destruct Hsrc as [?|(bsrc & osrc & -> & ? & ?)]; [done|]. by apply writes_memcpy.
Qed.

Lemma serializes_end s b base : serializes s b base (fun p => psub p (Ptr b base)) [].
Proof.
  intros l o ? Ho. rewrite psub_same. simpl. rewrite Z.add_0_r, splice_nil.
  by test_true (o <=? zlen l).
Qed.

Lemma serializes_bind s b base c1 c2 bs1 bs2 :
  writes s b c1 bs1 -> serializes s b base c2 bs2 ->
  serializes s b base (fun p => bind (c1 p) c2) (bs1 ++ bs2).
Proof.
  intros H1 H2 l o ? Ho. unfold bind. rewrite H1 by lia. case_test.
  - rewrite H2 by (rewrite ?splice_length by lia; lia).
    apply (splice_seq s b l o bs1 bs2 (fun n => n - base)); lia.
  - rewrite length_app, Nat2Z.inj_add. by test_false (o + (zlen bs1 + zlen bs2) <=? zlen l).
Qed.

Lemma serializes_last s b base c bs :
  writes s b c bs -> serializes s b base (fun p => bind (c p) (fun q => psub q (Ptr b base))) bs.
Proof.
  intros. rewrite <- (app_nil_r bs). by apply serializes_bind; [|apply serializes_end].
Qed.

(** Running a serializer on a block of known contents. *)
Lemma serializes_run s b base c bs l :
  serializes s b base c bs -> mem s !! b = Some l -> 0 <= base <= zlen l ->
  c (Ptr b base) s =
    if base + zlen bs <=? zlen l
    then Done (zlen bs) (set_block s b (splice l base bs))
    else Fault OutOfBounds.
Proof.
  intros Hc Hb ?. rewrite <- (set_block_id s b l Hb) at 1.
  rewrite Hc by lia. case_test; [|done]. f_equal. lia.
Qed.
End Writing.

#[export] Hint Resolve writes_nil writes_store serializes_end : mqtt.

(** View a serializer's body as a function of its first cursor. *)
Ltac start_writing :=
  match goal with
  | |- bind (?c (Ptr ?b ?o) ?v) ?k ?s = _ =>
      apply (serializes_run s b o (fun p => bind (c p v) k))
  end.

(** Run the first call of a program by a lemma about it. *)
Tactic Notation "call" uconstr(lem) := erewrite bind_done by (eapply lem; eauto with mqtt lia);
  cbv beta iota zeta; cbn [padd fst snd].
Ltac run_ret := rewrite bind_ret; cbv beta iota zeta.
Ltac run_psub := rewrite (bind_done _ _ _ _ _ (psub_same _ _ _ _)); cbv beta iota zeta.

(** Contents of a concrete block. *)
Ltac bytes_at_concrete := eapply bytes_at_block; [reflexivity|lia|vm_compute; discriminate|reflexivity].
