(* ===== verification/MQTTPacket.v ===== *)
(** * MQTTPacket.c: the primitives of the MQTT packet library

    The remaining-length codec, the cursor primitives ([readInt], [writeChar],
    ...) and the length-delimited strings of
    paho_mqtt_embedded_c/MQTTPacket/src/MQTTPacket.c and MQTTPacket.h.  A
    function that takes [unsigned char** pptr] returns the advanced pointer
    next to its result; an output parameter is a component of the result. *)

From S2P Require Import Prelude CMem.

(** ** Constants and data of MQTTPacket.h *)

Definition MQTTPACKET_BUFFER_TOO_SHORT : Z := -2.
Definition MQTTPACKET_READ_ERROR : Z := -1.

Inductive msgTypes :=
  | CONNECT | CONNACK | PUBLISH | PUBACK | PUBREC | PUBREL | PUBCOMP
  | SUBSCRIBE | SUBACK | UNSUBSCRIBE | UNSUBACK | PINGREQ | PINGRESP | DISCONNECT.

Definition msg_code (t : msgTypes) : Z :=
  match t with
  | CONNECT => 1 | CONNACK => 2 | PUBLISH => 3 | PUBACK => 4 | PUBREC => 5
  | PUBREL => 6 | PUBCOMP => 7 | SUBSCRIBE => 8 | SUBACK => 9
  | UNSUBSCRIBE => 10 | UNSUBACK => 11 | PINGREQ => 12 | PINGRESP => 13
  | DISCONNECT => 14
  end.
Coercion msg_code : msgTypes >-> Z.

(** The union MQTTHeader, as its byte; the fields are in the order of the
    layout without REVERSED. *)
Definition header_retain (h : Z) : Z := bf_get h 0 1.
Definition header_qos (h : Z) : Z := bf_get h 1 2.
Definition header_dup (h : Z) : Z := bf_get h 3 1.
Definition header_type (h : Z) : Z := bf_get h 4 4.
Definition set_header_retain (h v : Z) : Z := bf_set h 0 1 v.
Definition set_header_qos (h v : Z) : Z := bf_set h 1 2 v.
Definition set_header_dup (h v : Z) : Z := bf_set h 3 1 v.
Definition set_header_type (h v : Z) : Z := bf_set h 4 4 v.

Record MQTTLenString := { len : Z; data : ptr }.
Record MQTTString := { cstring : ptr; lenstring : MQTTLenString }.

Definition MQTTString_initializer : MQTTString :=
  {| cstring := NULL; lenstring := {| len := 0; data := NULL |} |}.

Definition MAX_NO_OF_REMAINING_LENGTH_BYTES : Z := 4.

Section Packet.
Context {W : Type} `{CharSign}.

(** A callback [int getfn(unsigned char* buf, int count)]: asked for [count]
    bytes, it yields its return value and the bytes it stored from [buf] on. *)
Definition getfn_t : Type := Z -> M W (Z * list byte).

(** [ptr += n] where [n] is the result of a call. *)
Definition advance (p : ptr) (c : M W Z) : M W ptr :=
  let* n := c in ret (padd p n).

(** ** The remaining-length codec *)

(** The do-while loop of MQTTPacket_encode; each turn divides the length by
    128, so five turns exhaust any [int]. *)
Fixpoint encode_loop (fuel : nat) (buf : ptr) (rc length : Z) : M W Z :=
  match fuel with
  | O => throw Divergence
  | S fuel =>
      let d := to_char (Z.rem length 128) in
      let length := Z.quot length 128 in
      let d := if 0 <? length then to_char (Z.lor d 128) else d in
      store (padd buf rc) d ;;;
      if 0 <? length then encode_loop fuel buf (rc + 1) length else ret (rc + 1)
  end.

Definition MQTTPacket_encode (buf : ptr) (length : Z) : M W Z := encode_loop 5 buf 0 length.

(** The effect of the callback on the local variable [c] whose address it is
    given. *)
Definition recv_char (c : option Z) (bs : list byte) : M W (option Z) :=
  match bs with
  | [] => ret c
  | [x] => ret (Some (Z_of_byte x))
  | _ => throw OutOfBounds
  end.

(** The do-while loop of MQTTPacket_decode; the counter [len] ends it after
    at most five turns.  Result: the returned length and [*value]. *)
Fixpoint decode_loop (fuel : nat) (getcharfn : getfn_t) (c : option Z)
    (multiplier len value : Z) : M W (Z * Z) :=
  match fuel with
  | O => throw Divergence
  | S fuel =>
      let len := len + 1 in
      if MAX_NO_OF_REMAINING_LENGTH_BYTES <? len then ret (len, value)
      else
        let* (rc, bs) := getcharfn 1 in
        let* c := recv_char c bs in
        if negb (rc =? 1) then ret (len, value)
        else
          let* cv := use c in
          let* value := int (value + Z.land cv 127 * multiplier) in
          let* multiplier := int (multiplier * 128) in
          if negb (Z.land cv 128 =? 0)
          then decode_loop fuel getcharfn c multiplier len value
          else ret (len, value)
  end.

Definition MQTTPacket_decode (getcharfn : getfn_t) : M W (Z * Z) :=
  decode_loop 5 getcharfn None 1 0 0.

Definition MQTTPacket_len (rem_len : Z) : M W Z :=
  let* rem_len := int (rem_len + 1) in
  if rem_len <? 128 then int (rem_len + 1)
  else if rem_len <? 16384 then int (rem_len + 2)
  else if rem_len <? 2097151 then int (rem_len + 3)
  else int (rem_len + 4).

(** [*c = *bufptr++], [count] times: the bytes all land in the same [*c]. *)
Fixpoint bufchar_loop (count : nat) (c : list byte) : M W (list byte) :=
  match count with
  | O => ret c
  | S count =>
      let* p := get_bufptr in
      let* x := load p in
      set_bufptr (padd p 1) ;;;
      bufchar_loop count [byte_of_Z x]
  end.

Definition bufchar : getfn_t := fun count =>
  let* c := bufchar_loop (Z.to_nat count) [] in ret (count, c).

Definition MQTTPacket_decodeBuf (buf : ptr) : M W (Z * Z) :=
  set_bufptr buf ;;; MQTTPacket_decode bufchar.

(** ** Cursor primitives *)

Definition readInt (pptr : ptr) : M W (Z * ptr) :=
  let* hi := load pptr in
  let* lo := load (padd pptr 1) in
  ret (256 * hi + lo, padd pptr 2).

Definition readChar (pptr : ptr) : M W (Z * ptr) :=
  let* c := load pptr in ret (to_char c, padd pptr 1).

Definition writeChar (pptr : ptr) (c : Z) : M W ptr :=
  store pptr c ;;; ret (padd pptr 1).

Definition writeInt (pptr : ptr) (anInt : Z) : M W ptr :=
  store pptr (Z.quot anInt 256) ;;;
  let pptr := padd pptr 1 in
  store pptr (Z.rem anInt 256) ;;;
  ret (padd pptr 1).

Definition writeCString (pptr string : ptr) : M W ptr :=
  let* n := strlen string in
  let len := i32 n in
  let* pptr := writeInt pptr len in
  memcpy pptr string len ;;; ret (padd pptr len).

Definition getLenStringLen (p : ptr) : M W Z :=
  let* hi := load p in
  let* lo := load (padd p 1) in
  ret (256 * hi + lo).

(** ** Length-delimited strings *)

Definition writeMQTTString (pptr : ptr) (mqttstring : MQTTString) : M W ptr :=
  if 0 <? len (lenstring mqttstring) then
    let* pptr := writeInt pptr (len (lenstring mqttstring)) in
    memcpy pptr (data (lenstring mqttstring)) (len (lenstring mqttstring)) ;;;
    ret (padd pptr (len (lenstring mqttstring)))
  else if negb (is_null (cstring mqttstring)) then writeCString pptr (cstring mqttstring)
  else writeInt pptr 0.

(** Result: the return code, the string structure and the cursor. *)
Definition readMQTTLenString (mqttstring : MQTTString) (pptr enddata : ptr) :
    M W (Z * MQTTString * ptr) :=
  let* avail := psub enddata pptr in
  if 1 <? avail then
    let* (n, pptr) := readInt pptr in
    let mqttstring := {| cstring := cstring mqttstring;
                         lenstring := {| len := n; data := data (lenstring mqttstring) |} |} in
    let* rest := psub enddata (padd pptr n) in
    if 0 <=? rest then
      ret (1, {| cstring := NULL; lenstring := {| len := n; data := pptr |} |}, padd pptr n)
    else ret (0, {| cstring := NULL; lenstring := lenstring mqttstring |}, pptr)
  else ret (0, {| cstring := NULL; lenstring := lenstring mqttstring |}, pptr).

Definition MQTTstrlen (mqttstring : MQTTString) : M W Z :=
  if negb (is_null (cstring mqttstring)) then
    let* n := strlen (cstring mqttstring) in ret (i32 n)
  else ret (len (lenstring mqttstring)).

(** The result is C's truth value of [(alen == blen) && (strncmp(...) == 0)]. *)
Definition MQTTPacket_equals (a : MQTTString) (bptr : ptr) : M W bool :=
  let* (aptr, alen) :=
    (if negb (is_null (cstring a)) then
       let* n := strlen (cstring a) in ret (cstring a, i32 n)
     else ret (data (lenstring a), len (lenstring a))) in
  let* blen := strlen bptr in
  if alen =? i32 blen then
    let* r := strncmp aptr bptr alen in ret (r =? 0)
  else ret false.
End Packet.

Arguments getfn_t : clear implicits.

(** ** Reference definitions *)

(** The remaining length of MQTT: base-128 digits, least significant first,
    the top bit set on every digit but the last. *)
Fixpoint remlen_digits (k : nat) (n : Z) : list byte :=
  match k with
  | O => []
  | S k =>
      if n <? 128 then [byte_of_Z n]
      else byte_of_Z (n mod 128 + 128) :: remlen_digits k (n / 128)
  end.

Definition remlen_bytes (n : Z) : list byte := remlen_digits 5 n.

(** The largest remaining length four digits can carry. *)
Definition REMLEN_MAX : Z := 268435455.

(** The number of digits and the value at the head of [bs]: at most [k] digits
    are read; if the last of them still announces another one, the count is
    one more than the digits read.  [None] when [bs] ends too early. *)
Fixpoint parse_remlen (k : nat) (bs : list byte) : option (Z * Z) :=
  match k, bs with
  | O, _ => Some (1, 0)
  | S _, [] => None
  | S k, x :: bs =>
      if Z_of_byte x <? 128 then Some (1, Z_of_byte x)
      else match parse_remlen k bs with
           | Some (n, v) => Some (1 + n, Z_of_byte x - 128 + 128 * v)
           | None => None
           end
  end.

(** A 16-bit big-endian integer and a length-delimited string on the wire. *)
Definition int_bytes (n : Z) : list byte := [byte_of_Z (n / 256); byte_of_Z n].
Definition utf_bytes (bs : list byte) : list byte := int_bytes (zlen bs) ++ bs.

(** The size of a packet with the given remaining length. *)
Definition packet_size (rem_len : Z) : Z := 1 + zlen (remlen_bytes rem_len) + rem_len.

(** The first byte of a packet, and a whole packet. *)
Definition mqtt_header (type dup qos retain : Z) : Z :=
  type mod 16 * 16 + dup mod 2 * 8 + qos mod 4 * 2 + retain mod 2.

Definition mqtt_packet (h : Z) (body : list byte) : list byte :=
  byte_of_Z h :: remlen_bytes (zlen body) ++ body.

(** The structure denotes the bytes [bs], held outside block [b]. *)
Definition mqttstring_is (m : gmap block (list byte)) (b : block)
    (str : MQTTString) (bs : list byte) : Prop :=
  (cstring str = NULL /\ len (lenstring str) = zlen bs /\
     (bs = [] \/ exists b' o', data (lenstring str) = Ptr b' o' /\ b' <> b /\ bytes_at m b' o' bs)) \/
  (len (lenstring str) <= 0 /\
     exists b' o', cstring str = Ptr b' o' /\ b' <> b /\ cstring_at m (cstring str) bs).

(** A string the deserializer found: bytes of the packet buffer, in place. *)
Definition held (m : gmap block (list byte)) (b : block) (str : MQTTString) (bs : list byte) : Prop :=
  cstring str = NULL /\ len (lenstring str) = zlen bs /\
  exists o, data (lenstring str) = Ptr b o /\ bytes_at m b o bs.

(** The string lies in the buffer between two offsets. *)
Definition inside (b : block) (lo hi : Z) (str : MQTTString) : Prop :=
  cstring str = NULL /\ 0 <= len (lenstring str) /\
  exists o, data (lenstring str) = Ptr b o /\ lo <= o /\ o + len (lenstring str) <= hi.

(** ** Characters and bits *)

Section CharFacts.
Context `{CharSign}.

Lemma byte_of_to_char z : byte_of_Z (to_char z) = byte_of_Z z.
Proof.
  unfold to_char. destruct char_signed; [apply byte_of_Z_i8|]. apply byte_of_Z_mod.
Qed.

Lemma u8_to_char z : u8 (to_char z) = u8 z.
Proof. unfold to_char. destruct char_signed; [apply u8_i8|]. unfold u8. by rewrite Z.mod_mod. Qed.

Lemma to_char_mod z : to_char (z mod 256) = to_char z.
Proof. unfold to_char, i8, u8. destruct char_signed; divmod_lia. Qed.

Lemma to_char_ascii z : 0 <= z < 128 -> to_char z = z.
Proof.
  intros. unfold to_char, i8, u8. destruct char_signed.
  - rewrite Z.mod_small; lia.
  - apply Z.mod_small. lia.
Qed.
End CharFacts.

Lemma land_127_byte x :
  Z.land (Z_of_byte x) 127 = if Z_of_byte x <? 128 then Z_of_byte x else Z_of_byte x - 128.
Proof. destruct x; reflexivity. Qed.

Lemma land_128_byte x : (Z.land (Z_of_byte x) 128 =? 0) = (Z_of_byte x <? 128).
Proof. destruct x; reflexivity. Qed.

Lemma lor_128 z : 0 <= z < 128 -> Z.lor z 128 = z + 128.
Proof.
  intros. rewrite <- Z.add_lor_land.
  assert (Z.land z 128 = 0) as ->; [|lia].
  apply Z.bits_inj'. intros i Hi. rewrite Z.land_spec, Z.bits_0.
  change 128 with (2 ^ 7). rewrite Z.pow2_bits_eqb by lia.
  destruct (Z.eqb_spec 7 i); [|apply andb_false_r]. subst.
  rewrite andb_true_r. apply Z.bits_above_log2; [lia|].
  destruct (Z.eq_dec z 0) as [->|]; [done|]. apply Z.log2_lt_pow2; lia.
Qed.

(** ** The remaining-length codec *)

Lemma remlen_digits_short k n : n < 128 -> remlen_digits (S k) n = [byte_of_Z n].
Proof. intros. cbn [remlen_digits]. by test_true (n <? 128). Qed.

Lemma remlen_digits_long k n :
  128 <= n -> remlen_digits (S k) n = byte_of_Z (n mod 128 + 128) :: remlen_digits k (n / 128).
Proof. intros. cbn [remlen_digits]. by test_false (n <? 128). Qed.

Lemma remlen_bytes_length n :
  0 <= n <= REMLEN_MAX ->
  zlen (remlen_bytes n) =
    if n <? 128 then 1 else if n <? 16384 then 2 else if n <? 2097152 then 3 else 4.
Proof.
  unfold REMLEN_MAX, remlen_bytes. intros Hn.
  case_test; [by rewrite remlen_digits_short|]. rewrite remlen_digits_long by lia.
  case_test; [by rewrite remlen_digits_short by divmod_lia|].
  rewrite remlen_digits_long by divmod_lia.
  case_test; [by rewrite remlen_digits_short by divmod_lia|].
  rewrite remlen_digits_long by divmod_lia.
  by rewrite remlen_digits_short by divmod_lia.
Qed.

(** Reading back the digits of any [n] that [k] digits can carry. *)
Lemma parse_remlen_digits k n rest :
  (0 < k)%nat -> 0 <= n < 128 ^ Z.of_nat k ->
  parse_remlen k (remlen_digits (S k) n ++ rest) = Some (zlen (remlen_digits (S k) n), n).
Proof.
  revert n. induction k as [|k IH]; intros n Hk Hn; [lia|].
  destruct (Z.lt_ge_cases n 128).
  - rewrite remlen_digits_short by done. cbn [app parse_remlen].
    rewrite Z_of_byte_small by lia. by test_true (n <? 128).
  - rewrite remlen_digits_long by done. cbn [app parse_remlen].
    pose proof (Z.mod_pos_bound n 128 eq_refl).
    rewrite Z_of_byte_small by lia. test_false (n mod 128 + 128 <? 128).
    rewrite Nat2Z.inj_succ, Z.pow_succ_r in Hn by lia.
    destruct k as [|k]; [simpl in Hn; lia|].
    rewrite IH by (lia || divmod_lia). do 2 f_equal; [zlen_lia|divmod_lia].
Qed.

Lemma parse_remlen_bytes n rest :
  0 <= n <= REMLEN_MAX -> parse_remlen 4 (remlen_bytes n ++ rest) = Some (zlen (remlen_bytes n), n).
Proof. unfold REMLEN_MAX. intros. apply parse_remlen_digits; simpl; lia. Qed.

Lemma parse_remlen_bounds k bs n v :
  parse_remlen k bs = Some (n, v) -> 1 <= n <= Z.of_nat k + 1 /\ 0 <= v < 128 ^ Z.of_nat k.
Proof.
  revert bs n v. induction k as [|k IH]; intros bs n v; [simpl; intros [= <- <-]; lia|].
  destruct bs as [|x bs]; [done|]. cbn [parse_remlen].
  pose proof (Z_of_byte_range x). rewrite Nat2Z.inj_succ, Z.pow_succ_r by lia.
  assert (0 < 128 ^ Z.of_nat k) by (apply Z.pow_pos_nonneg; lia).
  case_test; [intros [= <- <-]; nia|].
  destruct (parse_remlen k bs) as [[n' v']|] eqn:E; [|done]. intros [= <- <-].
  apply IH in E. nia.
Qed.

(** Four bytes are always enough for the reference parser. *)
Lemma parse_remlen_total k bs :
  (k <= length bs)%nat -> exists n v, parse_remlen k bs = Some (n, v).
Proof.
  revert bs. induction k as [|k IH]; intros bs Hlen; [by eexists _, _|].
  destruct bs as [|x bs]; [simpl in Hlen; lia|]. cbn [parse_remlen].
  case_test; [eauto|]. destruct (IH bs) as (n & v & ->); [simpl in Hlen; lia|]. eauto.
Qed.

Lemma utf_bytes_length bs : zlen (utf_bytes bs) = 2 + zlen bs.
Proof. unfold utf_bytes, int_bytes. zlen_lia. Qed.

Section PacketFacts.
Context {W : Type} `{CharSign}.
Implicit Types (s : state W) (b : block) (bs : list byte).

(** The digit the loop stores. *)
Lemma encode_digit n :
  0 <= n ->
  byte_of_Z (to_char (Z.lor (to_char (Z.rem n 128)) 128)) = byte_of_Z (n mod 128 + 128).
Proof.
  intros. pose proof (Z.mod_pos_bound n 128 eq_refl).
  rewrite byte_of_to_char, Z.rem_mod_nonneg by lia.
  by rewrite to_char_ascii, lor_128 by lia.
Qed.

(** One turn of the encoding loop stores the first digit. *)
Lemma encode_loop_step k p rc n s :
  0 <= n ->
  encode_loop (S k) p rc n s =
    bind (store (padd p rc) (if n <? 128 then n else n mod 128 + 128))
      (fun _ => if n <? 128 then ret (rc + 1) else encode_loop k p (rc + 1) (n / 128)) s.
Proof.
  intros. cbn [encode_loop]. rewrite Z.quot_div_nonneg by lia.
  assert (forall q v v', byte_of_Z v = byte_of_Z v' -> store (W := W) q v = store q v') as Hst.
  { intros q v v' E. unfold store. by rewrite E. }
  destruct (Z.ltb_spec n 128).
  - rewrite Z.div_small by lia. cbn [Z.ltb Z.compare]. unfold bind.
    rewrite (Hst _ _ n); [done|]. rewrite byte_of_to_char, Z.rem_mod_nonneg by lia.
    by rewrite Z.mod_small by lia.
  - test_true (0 <? n / 128).
    unfold bind. by rewrite (Hst _ _ _ (encode_digit n ltac:(lia))).
Qed.
Lemma encode_loop_run k s b base rc n l :
  (0 < k)%nat -> 0 <= n < 128 ^ Z.of_nat k -> 0 <= base + rc <= zlen l ->
  encode_loop k (Ptr b base) rc n (set_block s b l) =
    if base + rc + zlen (remlen_digits k n) <=? zlen l
    then Done (rc + zlen (remlen_digits k n))
           (set_block s b (splice l (base + rc) (remlen_digits k n)))
    else Fault OutOfBounds.
Proof.
  revert n rc l. induction k as [|k IH]; intros n rc l Hk Hn Ho; [lia|].
  rewrite Nat2Z.inj_succ, Z.pow_succ_r in Hn by lia.
  rewrite encode_loop_step by lia. unfold bind. cbn [padd]. rewrite store_run by lia.
  destruct (Z.ltb_spec n 128).
  - rewrite remlen_digits_short by done. change (zlen [byte_of_Z n]) with 1. by case_test.
  - rewrite remlen_digits_long by done. destruct k as [|k]; [simpl in Hn; lia|].
    set (x := byte_of_Z _). set (ds := remlen_digits _ _).
    pose proof (splice_seq s b l (base + rc) [x] ds (fun n => n - base)) as Hseq.
    change (zlen [x]) with 1 in Hseq. cbn [app] in Hseq.
    replace (rc + zlen (x :: ds)) with (base + rc + zlen (x :: ds) - base) by zlen_lia.
    case_test.
    + rewrite <- Hseq, IH by (rewrite ?splice_length by zlen_lia; divmod_lia).
      fold ds. replace (base + (rc + 1)) with (base + rc + 1) by lia.
      case_test; [|done]. f_equal. lia.
    + by test_false (base + rc + zlen (x :: ds) <=? zlen l).
Qed.

Lemma encode_writes s b n :
  0 <= n <= INT_MAX ->
  writes s b (fun p => advance p (MQTTPacket_encode p n)) (remlen_bytes n).
Proof.
  unfold INT_MAX. intros Hn l o Ho. unfold advance, MQTTPacket_encode, bind.
  rewrite encode_loop_run by (simpl; lia). fold (remlen_bytes n).
  rewrite Z.add_0_r. by case_test.
Qed.

(** ** Decoding from a buffer *)

Lemma bufchar_run s b o x bs :
  bufptr s = Ptr b o -> bytes_at (mem s) b o (x :: bs) ->
  bufchar 1 s = Done (1, [x]) (State (mem s) (Ptr b (o + 1)) (world s)).
Proof.
  intros Hp Hat. unfold bufchar. change (Z.to_nat 1) with 1%nat. cbn [bufchar_loop].
  unfold bind, get_bufptr. rewrite Hp, (load_at _ _ _ _ _ Hat).
  by rewrite byte_of_Z_of_byte.
Qed.

Lemma decode_loop_parse k s b o bs c n v mult len value :
  bufptr s = Ptr b o -> bytes_at (mem s) b o bs -> parse_remlen k bs = Some (n, v) ->
  (k <= 4)%nat -> len = 4 - Z.of_nat k -> mult = 128 ^ len -> 0 <= value < mult ->
  decode_loop (S k) bufchar c mult len value s =
    Done (len + n, value + mult * v)
      (State (mem s) (Ptr b (o + Z.min n (Z.of_nat k))) (world s)).
Proof.
  revert s o bs c n v mult len value.
  induction k as [|k IH]; intros s o bs c n v mult len value Hp Hat Hparse Hk Hlen Hmult Hval.
  - simpl in Hparse. injection Hparse as <- <-. cbn [decode_loop].
    replace len with 4 in * by lia. simpl. destruct s; simpl in *; subst.
    f_equal; [f_equal; lia|f_equal; f_equal; lia].
  - destruct bs as [|x bs]; [done|]. cbn [parse_remlen] in Hparse.
    pose proof (Z_of_byte_range x) as Hx.
    assert (0 < mult) by (subst mult; apply Z.pow_pos_nonneg; lia).
    assert (mult * 128 <= 128 ^ 4) by
      (subst mult; rewrite Z.mul_comm, <- Z.pow_succ_r by lia; apply Z.pow_le_mono_r; lia).
    remember (S k) as fuel eqn:Hfuel. cbn [decode_loop]. unfold MAX_NO_OF_REMAINING_LENGTH_BYTES. test_false (4 <? len + 1).
    rewrite (bind_done _ _ _ _ _ (bufchar_run _ _ _ _ _ Hp Hat)).
    cbn [recv_char]. unfold bind at 1, ret at 1. cbn [Z.eqb Pos.eqb negb use].
    unfold bind at 1, ret at 1. rewrite land_127_byte, land_128_byte.
    set (d := if Z_of_byte x <? 128 then _ else _).
    assert (0 <= d < 128) by (unfold d; case_test; lia).
    assert (0 <= value + d * mult < mult * 128) by nia. change (128 ^ 4) with 268435456 in *.
    rewrite !bind_int by (unfold INT_MIN, INT_MAX; lia).
    destruct (Z.ltb_spec (Z_of_byte x) 128); cbn [negb].
    + injection Hparse as <- <-. unfold ret, d.
      f_equal; [f_equal; lia|]. do 2 f_equal. lia.
    + destruct (parse_remlen k bs) as [[n' v']|] eqn:E; [|done]. injection Hparse as <- <-.
      pose proof (parse_remlen_bounds _ _ _ _ E).
      subst fuel. erewrite IH; [|done|eapply bytes_at_tail, Hat|exact E|lia|lia| |nia].
      * cbn [mem world]. unfold d.
        f_equal; [f_equal; nia|]. do 2 f_equal. lia.
      * subst mult. rewrite Z.mul_comm, <- Z.pow_succ_r by lia. done.
Qed.

(** The code reads what the reference parser reads, and moves the static
    cursor behind it. *)
Lemma decodeBuf_parse s b o bs n v :
  bytes_at (mem s) b o bs -> parse_remlen 4 bs = Some (n, v) ->
  MQTTPacket_decodeBuf (Ptr b o) s =
    Done (n, v) (State (mem s) (Ptr b (o + Z.min n 4)) (world s)).
Proof.
  intros Hat Hparse. unfold MQTTPacket_decodeBuf, bind, set_bufptr, MQTTPacket_decode.
  erewrite (decode_loop_parse 4); [| |exact Hat|exact Hparse|..]; try done.
  cbn [mem world]. do 2 f_equal; lia.
Qed.

Lemma decodeBuf_remlen s b o n rest :
  bytes_at (mem s) b o (remlen_bytes n ++ rest) -> 0 <= n <= REMLEN_MAX ->
  MQTTPacket_decodeBuf (Ptr b o) s =
    Done (zlen (remlen_bytes n), n)
      (State (mem s) (Ptr b (o + zlen (remlen_bytes n))) (world s)).
Proof.
  intros Hat Hn. erewrite decodeBuf_parse; [|exact Hat|by apply parse_remlen_bytes].
  rewrite remlen_bytes_length by done. do 3 f_equal. repeat case_test; lia.
Qed.

(** ** Cursor primitives *)

Lemma writes_char s b c : writes s b (fun p => writeChar p c) [byte_of_Z c].
Proof. apply writes_store. Qed.

Lemma writes_int s b n : 0 <= n -> writes s b (fun p => writeInt p n) (int_bytes n).
Proof.
  intros. unfold writeInt, int_bytes.
  rewrite Z.quot_div_nonneg, Z.rem_mod_nonneg, <- (byte_of_Z_mod n) by lia.
  apply (writes_store_bind s b _ (fun p => store p (n mod 256) ;;; ret (padd p 1))), writes_store.
Qed.

Lemma readInt_at s b o hi lo bs :
  bytes_at (mem s) b o (hi :: lo :: bs) ->
  readInt (Ptr b o) s = Done (256 * Z_of_byte hi + Z_of_byte lo, Ptr b (o + 2)) s.
Proof.
  intros Hat. unfold readInt, bind. cbn [padd].
  rewrite (load_at _ _ _ _ _ Hat), (load_at _ _ _ _ _ (bytes_at_tail _ _ _ _ _ Hat)). done.
Qed.

Lemma int_bytes_value n :
  0 <= n < 65536 -> 256 * Z_of_byte (byte_of_Z (n / 256)) + Z_of_byte (byte_of_Z n) = n.
Proof. intros. rewrite !Z_of_byte_of_Z. divmod_lia. Qed.

Lemma readInt_int_bytes s b o n bs :
  bytes_at (mem s) b o (int_bytes n ++ bs) -> 0 <= n < 65536 ->
  readInt (Ptr b o) s = Done (n, Ptr b (o + 2)) s.
Proof. intros Hat Hn. erewrite readInt_at by exact Hat. by rewrite int_bytes_value. Qed.

Lemma readChar_at s b o x bs :
  bytes_at (mem s) b o (x :: bs) ->
  readChar (Ptr b o) s = Done (to_char (Z_of_byte x), Ptr b (o + 1)) s.
Proof. intros Hat. unfold readChar, bind. by rewrite (load_at _ _ _ _ _ Hat). Qed.

(** ** Strings *)

Lemma cstring_at_set_block s b l b' o bs :
  b' <> b -> cstring_at (mem s) (Ptr b' o) bs -> cstring_at (mem (set_block s b l)) (Ptr b' o) bs.
Proof.
  intros Hne (b'' & o'' & [= <- <-] & Hat & Hnot). exists b', o.
  split_and!; [done| |done]. by apply bytes_at_set_block_ne.
Qed.

Lemma MQTTstrlen_is s b str bs :
  mqttstring_is (mem s) b str bs -> zlen bs <= INT_MAX ->
  MQTTstrlen str s = Done (zlen bs) s.
Proof.
  intros [(Hc & Hl & _)|(Hl & b' & o' & Hc & _ & Hs)] Hmax; unfold MQTTstrlen.
  - by rewrite Hc, <- Hl.
  - rewrite Hc in *. cbn [is_null negb]. erewrite bind_done by by apply strlen_at.
    unfold ret. rewrite i32_small; [done|]. unfold INT_MIN. lia.
Qed.

Lemma writes_cstring s b b' o' bs :
  b' <> b -> cstring_at (mem s) (Ptr b' o') bs -> zlen bs <= INT_MAX ->
  writes s b (fun p => writeCString p (Ptr b' o')) (utf_bytes bs).
Proof.
  intros Hne Hs Hmax. unfold utf_bytes.
  pose proof Hs as (b'' & o'' & [= <- <-] & [Hat _]%bytes_at_app & _).
  assert (Hw : writes s b (fun p => let* q := writeInt p (zlen bs) in
    (memcpy q (Ptr b' o') (zlen bs) ;;; ret (padd q (zlen bs)))) (int_bytes (zlen bs) ++ bs)).
  { apply writes_bind; [apply writes_int; lia|]. apply writes_memcpy'; [|done]. right. eauto. }
  intros l o Ho. rewrite <- (Hw l o Ho). unfold writeCString.
  erewrite bind_done by by apply strlen_at, cstring_at_set_block.
  rewrite i32_small by (unfold INT_MIN; lia). done.
Qed.

Lemma writes_mqttstring s b str bs :
  mqttstring_is (mem s) b str bs -> zlen bs <= INT_MAX ->
  writes s b (fun p => writeMQTTString p str) (utf_bytes bs).
Proof.
  intros [(Hc & Hl & Hd)|(Hl & b' & o' & Hc & Hne & Hs)] Hmax; unfold writeMQTTString.
  - rewrite Hl, Hc. cbn [is_null negb]. destruct (Z.ltb_spec 0 (zlen bs)).
    + apply writes_bind; [apply writes_int; lia|]. apply writes_memcpy'; [|done].
      destruct Hd as [?|(b' & o' & ? & ? & ?)]; [by left|right; eauto].
    + destruct bs; [|simpl in *; lia]. by apply writes_int.
  - test_false (0 <? len (lenstring str)). rewrite Hc in *. cbn [is_null negb].
    by apply writes_cstring.
Qed.

(** Reading a string from arbitrary bytes: the length must fit before
    [enddata]. *)
Lemma readMQTTLenString_at s b o e hi lo bs str :
  bytes_at (mem s) b o (hi :: lo :: bs) -> o + 1 < e ->
  readMQTTLenString str (Ptr b o) (Ptr b e) s =
    let n := 256 * Z_of_byte hi + Z_of_byte lo in
    if o + 2 + n <=? e
    then Done (1, {| cstring := NULL; lenstring := {| len := n; data := Ptr b (o + 2) |} |},
               Ptr b (o + 2 + n)) s
    else Done (0, {| cstring := NULL;
                     lenstring := {| len := n; data := data (lenstring str) |} |},
               Ptr b (o + 2)) s.
Proof.
  intros Hat He. unfold readMQTTLenString.
  rewrite (bind_done _ _ _ _ _ (psub_same _ _ _ _)). test_true (1 <? e - o).
  rewrite (bind_done _ _ _ _ _ (readInt_at _ _ _ _ _ _ Hat)). cbn [padd lenstring data].
  rewrite (bind_done _ _ _ _ _ (psub_same _ _ _ _)).
  set (n := 256 * _ + _). cbv zeta.
  replace (0 <=? e - (o + 2 + n)) with (o + 2 + n <=? e) by lia.
  by case_test.
Qed.

Lemma readMQTTLenString_short s b o e str :
  e <= o + 1 ->
  readMQTTLenString str (Ptr b o) (Ptr b e) s =
    Done (0, {| cstring := NULL; lenstring := lenstring str |}, Ptr b o) s.
Proof.
  intros He. unfold readMQTTLenString.
  rewrite (bind_done _ _ _ _ _ (psub_same _ _ _ _)). by test_false (1 <? e - o).
Qed.

(** Whatever the bytes are: the string lies before [enddata] or is refused. *)
Lemma readMQTTLenString_total s b o e l str :
  mem s !! b = Some l -> 0 <= o -> e <= zlen l ->
  exists rc str' o', readMQTTLenString str (Ptr b o) (Ptr b e) s = Done (rc, str', Ptr b o') s /\
    cstring str' = NULL /\
    (rc = 0 \/ rc = 1 /\ 0 <= len (lenstring str') < 65536 /\
       data (lenstring str') = Ptr b (o + 2) /\ o' = o + 2 + len (lenstring str') /\ o' <= e).
Proof.
  intros Hb Ho He. destruct (Z.lt_ge_cases (o + 1) e).
  - destruct (bytes_at_any _ _ o l 2 Hb) as ([|hi [|lo [|]]] & ? & Hat); try done; try lia.
    erewrite readMQTTLenString_at by (exact Hat || lia). cbv zeta.
    pose proof (Z_of_byte_range hi). pose proof (Z_of_byte_range lo).
    case_test; do 3 eexists; (split; [done|]); cbn [cstring lenstring len data];
      (split; [done|]); [right; split_and!; try done; lia|by left].
  - rewrite readMQTTLenString_short by lia. do 3 eexists. split; [done|]. eauto.
Qed.

Lemma readInt_total s b o l :
  mem s !! b = Some l -> 0 <= o -> o + 2 <= zlen l ->
  exists n, 0 <= n < 65536 /\ readInt (Ptr b o) s = Done (n, Ptr b (o + 2)) s.
Proof.
  intros Hb ??. destruct (bytes_at_any _ _ o l 2 Hb) as ([|hi [|lo [|]]] & ? & Hat); try done; try lia.
  pose proof (Z_of_byte_range hi). pose proof (Z_of_byte_range lo).
  eexists. split; [|by eapply readInt_at]. lia.
Qed.

Lemma readInt_out s b o l :
  mem s !! b = Some l -> 0 <= o -> zlen l < o + 2 -> readInt (Ptr b o) s = Fault OutOfBounds.
Proof.
  intros Hb ??. unfold readInt. destruct (Z.lt_ge_cases o (zlen l)).
  - destruct (load_total s b o l Hb ltac:(done) ltac:(lia)) as (x & _ & Hx).
    rewrite (bind_done _ _ _ _ _ Hx). cbn [padd].
    by rewrite (bind_fault _ _ _ _ (load_out s b (o + 1) l Hb ltac:(lia))).
  - by rewrite (bind_fault _ _ _ _ (load_out s b o l Hb ltac:(lia))).
Qed.

(** Reading back what [writeMQTTString] wrote. *)
Lemma readMQTTLenString_utf s b o e bs rest str :
  bytes_at (mem s) b o (utf_bytes bs ++ rest) -> zlen bs <= 65535 -> o + 2 + zlen bs <= e ->
  readMQTTLenString str (Ptr b o) (Ptr b e) s =
    Done (1, {| cstring := NULL; lenstring := {| len := zlen bs; data := Ptr b (o + 2) |} |},
          Ptr b (o + 2 + zlen bs)) s.
Proof.
  intros Hat Hmax He. erewrite readMQTTLenString_at by (exact Hat || lia). cbv zeta.
  rewrite int_bytes_value by lia. by test_true (o + 2 + zlen bs <=? e).
Qed.

Lemma held_utf s b o e bs rest str :
  bytes_at (mem s) b o (utf_bytes bs ++ rest) -> zlen bs <= 65535 -> o + 2 + zlen bs <= e ->
  exists str', readMQTTLenString str (Ptr b o) (Ptr b e) s =
      Done (1, str', Ptr b (o + 2 + zlen bs)) s /\
    held (mem s) b str' bs /\ bytes_at (mem s) b (o + 2 + zlen bs) rest.
Proof.
  intros Hat Hmax He. eexists. split; [by eapply readMQTTLenString_utf|].
  apply bytes_at_app in Hat as [Hs Hrest]. rewrite utf_bytes_length, Z.add_assoc in Hrest.
  split; [|done]. split_and!; [done..|]. eexists. split; [done|].
  by apply bytes_at_app in Hs as [_ ?].
Qed.

Lemma inside_weaken b lo lo' hi str : lo <= lo' -> inside b lo' hi str -> inside b lo hi str.
Proof. intros ? (? & ? & o & ? & ? & ?). split_and!; try done. exists o. split_and!; (done || lia). Qed.

Lemma readMQTTLenString_inside s b o e l str :
  mem s !! b = Some l -> 0 <= o -> e <= zlen l ->
  exists rc str' o', readMQTTLenString str (Ptr b o) (Ptr b e) s = Done (rc, str', Ptr b o') s /\
    (rc = 0 \/ rc = 1 /\ inside b o e str' /\ o <= o' <= e).
Proof.
  intros Hb Ho He.
  destruct (readMQTTLenString_total s b o e l str Hb Ho He) as (rc & str' & o' & Hrun & Hc & Hres).
  do 3 eexists. split; [exact Hrun|]. destruct Hres as [?|(? & ? & ? & ? & ?)]; [by left|right].
  split_and!; [done| |lia|lia]. split; [done|split; [lia|]]. eexists. split_and!; [done|lia..].
Qed.

(** ** Packet sizes *)

Lemma packet_len_run n s :
  0 <= n <= REMLEN_MAX ->
  MQTTPacket_len n s =
    Done (packet_size n + if decide (n = 127 \/ n = 16383 \/ n = 2097150 \/ n = 2097151)
                          then 1 else 0) s.
Proof.
  intros Hn. unfold packet_size. rewrite remlen_bytes_length by done.
  unfold REMLEN_MAX in Hn. unfold MQTTPacket_len.
  rewrite bind_int by (unfold INT_MIN, INT_MAX; lia).
  repeat case_test; case_decide; rewrite int_done by (unfold INT_MIN, INT_MAX; lia);
    f_equal; lia.
Qed.

(** The guard of the serializers: a packet that passes it fits. *)
Lemma packet_len_guard n s m s' :
  0 <= n <= REMLEN_MAX -> MQTTPacket_len n s = Done m s' -> s' = s /\ packet_size n <= m <= packet_size n + 1.
Proof.
  intros Hn Hl. rewrite packet_len_run in Hl by done. injection Hl as <- <-.
  split; [done|]. case_decide; lia.
Qed.

Lemma mqtt_packet_length h body : zlen (mqtt_packet h body) = packet_size (zlen body).
Proof. unfold mqtt_packet, packet_size. zlen_lia. Qed.

(** ** Headers *)

Lemma mqtt_header_range t d q r : 0 <= mqtt_header t d q r < 256.
Proof. unfold mqtt_header. divmod_lia. Qed.

Lemma header_assign t d q r :
  set_header_retain (set_header_qos (set_header_dup (set_header_type 0 t) d) q) r =
    mqtt_header t d q r.
Proof.
  unfold set_header_type, set_header_dup, set_header_qos, set_header_retain, mqtt_header.
  rewrite (bf_set_clear _ 4) by (simpl; divmod_lia). rewrite (bf_set_clear _ 3) by (simpl; divmod_lia).
  rewrite (bf_set_clear _ 1) by (simpl; divmod_lia).
  rewrite (bf_set_clear _ 0) by (simpl; divmod_lia). simpl. divmod_lia.
Qed.

Lemma header_assign_qos t d q :
  set_header_qos (set_header_dup (set_header_type 0 t) d) q = mqtt_header t d q 0.
Proof.
  unfold set_header_type, set_header_dup, set_header_qos, mqtt_header.
  rewrite (bf_set_clear _ 4) by (simpl; divmod_lia). rewrite (bf_set_clear _ 3) by (simpl; divmod_lia).
  rewrite (bf_set_clear _ 1) by (simpl; divmod_lia). simpl. divmod_lia.
Qed.

Lemma header_assign_type t : set_header_type 0 t = mqtt_header t 0 0 0.
Proof.
  unfold set_header_type, mqtt_header. rewrite (bf_set_clear _ 4) by (simpl; divmod_lia). simpl. divmod_lia.
Qed.

Lemma header_type_is t d q r : header_type (mqtt_header t d q r) = t mod 16.
Proof. unfold header_type, mqtt_header. rewrite bf_get_div by lia. simpl. divmod_lia. Qed.
Lemma header_dup_is t d q r : header_dup (mqtt_header t d q r) = d mod 2.
Proof. unfold header_dup, mqtt_header. rewrite bf_get_div by lia. simpl. divmod_lia. Qed.
Lemma header_qos_is t d q r : header_qos (mqtt_header t d q r) = q mod 4.
Proof. unfold header_qos, mqtt_header. rewrite bf_get_div by lia. simpl. divmod_lia. Qed.
Lemma header_retain_is t d q r : header_retain (mqtt_header t d q r) = r mod 2.
Proof. unfold header_retain, mqtt_header. rewrite bf_get_div by lia. simpl. divmod_lia. Qed.

(** ** Reading a frame *)

Lemma readChar_byte s b o z bs :
  bytes_at (mem s) b o (byte_of_Z z :: bs) ->
  readChar (Ptr b o) s = Done (to_char z, Ptr b (o + 1)) s.
Proof.
  intros Hat. erewrite readChar_at by exact Hat. by rewrite Z_of_byte_of_Z, to_char_mod.
Qed.

Lemma u8_readChar z : 0 <= z < 256 -> u8 (to_char z) = z.
Proof. intros. rewrite u8_to_char. by apply Z.mod_small. Qed.

Lemma frame_at m b o h body rest :
  bytes_at m b o (mqtt_packet h body ++ rest) ->
  bytes_at m b o [byte_of_Z h] /\
  bytes_at m b (o + 1) (remlen_bytes (zlen body) ++ body ++ rest) /\
  bytes_at m b (o + 1 + zlen (remlen_bytes (zlen body))) (body ++ rest).
Proof.
  unfold mqtt_packet. cbn [app]. rewrite <- app_assoc. intros [Hh Ht]%bytes_at_cons.
  split_and!; [done..|]. by apply bytes_at_app in Ht as [_ ?].
Qed.

(** Header byte and remaining length of an arbitrary frame: the first byte is
    [x], the length field parses to [n] bytes of value [v]. *)
Lemma u8_readChar_byte x : u8 (to_char (Z_of_byte x)) = Z_of_byte x.
Proof. rewrite u8_to_char. apply u8_Z_of_byte. Qed.

Lemma decodeBuf_frame s b o bs n v :
  bytes_at (mem s) b o bs -> parse_remlen 4 bs = Some (n, v) -> n <= 4 ->
  MQTTPacket_decodeBuf (Ptr b o) s = Done (n, v) (State (mem s) (Ptr b (o + n)) (world s)).
Proof.
  intros Hat Hp Hn. erewrite decodeBuf_parse by done. by rewrite Z.min_l by lia.
Qed.

(** Whatever the bytes are, four readable ones suffice. *)
Lemma decodeBuf_total s b o l :
  mem s !! b = Some l -> 0 <= o -> o + 4 <= zlen l ->
  exists n v s', MQTTPacket_decodeBuf (Ptr b o) s = Done (n, v) s' /\
    1 <= n <= 5 /\ 0 <= v <= REMLEN_MAX /\ mem s' = mem s /\ world s' = world s.
Proof.
  intros Hb Ho Hl. destruct (bytes_at_any _ _ o l 4 Hb Ho ltac:(lia)) as (bs & Hlen & Hat).
  destruct (parse_remlen_total 4 bs ltac:(lia)) as (n & v & Hp).
  pose proof (parse_remlen_bounds _ _ _ _ Hp). unfold REMLEN_MAX.
  do 3 eexists. split; [by eapply decodeBuf_parse|]. split_and!; done || (simpl in *; lia).
Qed.
End PacketFacts.

#[export] Hint Resolve writes_char encode_writes : mqtt.
#[export] Hint Extern 2 (writes _ _ (fun p => writeInt p _) _) => apply writes_int; lia : mqtt.

(** ** Comparing strings *)

Section EqualsFacts.
Context {W : Type}.
Implicit Types (s : state W) (b : block).

(** [strncmp] over two strings of the same length, the second without zero
    bytes: zero exactly when they are equal. *)
Lemma compare_loop_at s b o b' o' xs ys :
  bytes_at (mem s) b o xs -> bytes_at (mem s) b' o' ys -> length xs = length ys ->
  Corelib.Init.Byte.x00 ∉ ys ->
  exists r, compare_loop true (length xs) (Ptr b o) (Ptr b' o') s = Done r s /\ (r = 0 <-> xs = ys).
Proof.
  revert o o' ys. induction xs as [|x xs IH]; intros o o' [|y ys] Hx Hy Hlen Hnot; try done.
  { by exists 0. }
  cbn [length compare_loop]. rewrite (bind_done _ _ _ _ _ (load_at _ _ _ _ _ Hx)).
  rewrite (bind_done _ _ _ _ _ (load_at _ _ _ _ _ Hy)).
  destruct (Z.eqb_spec (Z_of_byte x) (Z_of_byte y)) as [Heq|Hne]; cbn [negb].
  - assert (x = y) as -> by (rewrite <- (byte_of_Z_of_byte x), Heq; apply byte_of_Z_of_byte).
    apply not_elem_of_cons in Hnot as [Hy0 Hnot]. destruct (Z.eqb_spec (Z_of_byte y) 0) as [H0|_].
    { exfalso. apply Hy0. rewrite <- (byte_of_Z_of_byte y), H0. done. }
    cbn [andb padd].
    destruct (IH (o + 1) (o' + 1) ys) as (r & Hr & Hiff);
      [by eapply bytes_at_tail|by eapply bytes_at_tail|simpl in Hlen; lia|done|].
    exists r. split; [done|]. rewrite Hiff. split; [by intros ->|by intros [=]].
  - eexists. split; [done|]. split; [lia|]. by intros [= -> ->].
Qed.

(** The string structure denotes [bs]; the empty length-delimited one may have
    no data. *)
Definition string_is (m : gmap block (list byte)) (str : MQTTString) (bs : list byte) : Prop :=
  (cstring str = NULL /\ len (lenstring str) = zlen bs /\
     (bs = [] \/ exists b o, data (lenstring str) = Ptr b o /\ bytes_at m b o bs)) \/
  (exists b o, cstring str = Ptr b o /\ cstring_at m (cstring str) bs).

Lemma strncmp_at s p b o xs ys :
  (xs = [] \/ exists b' o', p = Ptr b' o' /\ bytes_at (mem s) b' o' xs) ->
  bytes_at (mem s) b o ys -> length xs = length ys -> Corelib.Init.Byte.x00 ∉ ys ->
  exists r, strncmp p (Ptr b o) (zlen xs) s = Done r s /\ (r = 0 <-> xs = ys).
Proof.
  intros Hx Hy Hlen Hnot. unfold strncmp. rewrite Nat2Z.id.
  destruct Hx as [->|(b' & o' & -> & Hx)]; [|by apply compare_loop_at].
  exists 0. by destruct ys.
Qed.
(** MQTTPacket_equals compares the bytes. *)
Lemma equals_run s str bs bptr ys :
  string_is (mem s) str bs -> cstring_at (mem s) bptr ys -> zlen bs <= INT_MAX -> zlen ys <= INT_MAX ->
  MQTTPacket_equals str bptr s = Done (bool_decide (bs = ys)) s.
Proof.
  unfold INT_MAX. intros Hstr Hy Hbs Hys. unfold MQTTPacket_equals.
  pose proof Hy as (b & o & -> & [Hat _]%bytes_at_app & Hnot).
  assert (exists p, (if negb (is_null (cstring str))
     then let* n := strlen (cstring str) in ret (cstring str, i32 n)
     else ret (data (lenstring str), len (lenstring str))) s = Done (p, zlen bs) s /\
     (bs = [] \/ exists b' o', p = Ptr b' o' /\ bytes_at (mem s) b' o' bs)) as (p & Hp & Hpat).
  { destruct Hstr as [(-> & Hl & Hd)|(b' & o' & Hc & Hs)].
    - eexists. split; [cbn [is_null negb]; rewrite Hl; done|done].
    - rewrite Hc in *. cbn [is_null negb]. erewrite bind_done by by apply strlen_at.
      rewrite i32_small by (unfold INT_MIN, INT_MAX; lia). eexists. split; [done|].
      right. destruct Hs as (b'' & o'' & [= <- <-] & [? _]%bytes_at_app & _). eauto. }
  rewrite (bind_done _ _ _ _ _ Hp). erewrite bind_done by by apply strlen_at.
  rewrite i32_small by (unfold INT_MIN, INT_MAX; lia).
  destruct (Z.eqb_spec (zlen bs) (zlen ys)) as [Hlen|Hne].
  - destruct (strncmp_at s p b o bs ys Hpat Hat ltac:(lia) Hnot) as (r & Hr & Hiff).
    rewrite (bind_done _ _ _ _ _ Hr). unfold ret. f_equal.
    destruct (Z.eqb_spec r 0); [rewrite bool_decide_eq_true_2|rewrite bool_decide_eq_false_2]; tauto.
  - unfold ret. rewrite bool_decide_eq_false_2; [done|]. by intros ->.
Qed.
End EqualsFacts.

(** ** Properties *)

Section PacketProperties.
Context {W : Type} `{CharSign}.
Implicit Types (s : state W) (b : block).

(** Every remaining length the protocol allows is encoded in one to four
    bytes, and decoding them gives back the value and their number. *)
Theorem remlen_roundtrip s b o l n :
  mem s !! b = Some l -> 0 <= o -> 0 <= n <= REMLEN_MAX -> o + zlen (remlen_bytes n) <= zlen l ->
  exists k s1 s2, 1 <= k <= 4 /\
    MQTTPacket_encode (Ptr b o) n s = Done k s1 /\ MQTTPacket_decodeBuf (Ptr b o) s1 = Done (k, n) s2.
Proof.
  intros Hb Ho Hn Hroom. exists (zlen (remlen_bytes n)). unfold REMLEN_MAX in Hn. do 2 eexists. split_and!.
  - rewrite remlen_bytes_length by done. repeat case_test; lia.
  - rewrite remlen_bytes_length by done. repeat case_test; lia.
  - unfold MQTTPacket_encode. rewrite <- (set_block_id s b l Hb) at 1.
    rewrite encode_loop_run by (simpl; lia). fold (remlen_bytes n). rewrite Z.add_0_r.
    by rewrite (proj2 (Z.leb_le _ _)) by lia.
  - apply decodeBuf_remlen with (rest := []); [|done]. rewrite app_nil_r. by apply bytes_at_splice.
Qed.

(** Decoding a remaining length from arbitrary bytes terminates, reads at
    most four bytes, cannot overflow an [int], changes no memory and reports
    one to four bytes read, or five for a fourth byte that announces another
    one. *)
Theorem remlen_decode_safe s b o l :
  mem s !! b = Some l -> 0 <= o -> o + 4 <= zlen l ->
  exists n v s', MQTTPacket_decodeBuf (Ptr b o) s = Done (n, v) s' /\
    1 <= n <= 5 /\ 0 <= v <= REMLEN_MAX /\ mem s' = mem s /\ world s' = world s.
Proof. apply decodeBuf_total. Qed.

(** MQTTPacket_len gives the size of the packet with the given remaining
    length, except at the four values where its tests, which count the header
    byte in, make it one byte too long; it is never too short. *)
Theorem packet_len_spec n s :
  0 <= n <= REMLEN_MAX ->
  MQTTPacket_len n s =
    Done (packet_size n + if decide (n = 127 \/ n = 16383 \/ n = 2097150 \/ n = 2097151)
                          then 1 else 0) s.
Proof. apply packet_len_run. Qed.

(** A string of at most 65535 bytes, given as C string or with its length,
    is written behind its two-byte length and read back as a pointer to its
    bytes; both cursors stop behind it. *)
Theorem mqttstring_roundtrip s b o l e str bs str0 :
  mem s !! b = Some l -> 0 <= o -> o + 2 + zlen bs <= e <= zlen l ->
  mqttstring_is (mem s) b str bs -> zlen bs <= 65535 ->
  exists s1 str',
    writeMQTTString (Ptr b o) str s = Done (Ptr b (o + 2 + zlen bs)) s1 /\
    readMQTTLenString str0 (Ptr b o) (Ptr b e) s1 = Done (1, str', Ptr b (o + 2 + zlen bs)) s1 /\
    held (mem s1) b str' bs.
Proof.
  intros Hb Ho He Hstr Hmax.
  pose proof (writes_mqttstring s b str bs Hstr ltac:(unfold INT_MAX; lia) l o ltac:(lia)) as Hw.
  rewrite utf_bytes_length, (proj2 (Z.leb_le _ _)), (set_block_id _ _ _ Hb), Z.add_assoc in Hw by lia.
  set (s1 := set_block _ _ _) in *.
  destruct (held_utf s1 b o e bs [] str0) as (str' & Hrun & Hheld & _); [|done|lia|].
  { rewrite app_nil_r. apply bytes_at_splice; [done|]. rewrite utf_bytes_length. lia. }
  by exists s1, str'.
Qed.

(** MQTTPacket_equals decides whether an MQTT string, in either of its
    forms, has the bytes of a C string. *)
Theorem equals_spec s str bs bptr ys :
  string_is (mem s) str bs -> cstring_at (mem s) bptr ys -> zlen bs <= INT_MAX -> zlen ys <= INT_MAX ->
  MQTTPacket_equals str bptr s = Done (bool_decide (bs = ys)) s.
Proof. apply equals_run. Qed.
End PacketProperties.

(** ** Witnesses *)

Section PacketWitnesses.
#[local] Existing Instance char_is_signed.

(* block 1: an 8-byte buffer, 2: the C string "a/b", 3: the bytes of "a/b" and more *)
Definition ex_packet_state : state unit :=
  state_of [replicate 8 (byte_of_Z 170); bytes [97; 47; 98; 0]; bytes [97; 47; 98; 99]].

Lemma ex_cstring_at : cstring_at (mem ex_packet_state) (Ptr 2 0) (bytes [97; 47; 98]).
Proof.
  exists 2%positive, 0. split_and!; [done|bytes_at_concrete|].
  intros Hin. apply list_elem_of_In in Hin. simpl in Hin. intuition discriminate.
Qed.

Lemma remlen_roundtrip_witness :
  exists k s1 s2, 1 <= k <= 4 /\
    MQTTPacket_encode (Ptr 1 1) 268435455 ex_packet_state = Done k s1 /\
    MQTTPacket_decodeBuf (Ptr 1 1) s1 = Done (k, 268435455) s2.
Proof. by apply (remlen_roundtrip ex_packet_state 1 1 (replicate 8 (byte_of_Z 170))). Defined.

Lemma remlen_decode_safe_witness :
  exists n v s', MQTTPacket_decodeBuf (Ptr 1 4) ex_packet_state = Done (n, v) s' /\
    1 <= n <= 5 /\ 0 <= v <= REMLEN_MAX /\ mem s' = mem ex_packet_state /\
    world s' = world ex_packet_state.
Proof. by apply (remlen_decode_safe ex_packet_state 1 4 (replicate 8 (byte_of_Z 170))). Defined.

Lemma packet_len_spec_witness : MQTTPacket_len 127 ex_packet_state = Done 130 ex_packet_state.
Proof. by apply (packet_len_spec 127). Defined.

Lemma mqttstring_roundtrip_witness :
  exists s1 str',
    writeMQTTString (Ptr 1 2) {| cstring := Ptr 2 0; lenstring := {| len := 0; data := NULL |} |}
      ex_packet_state = Done (Ptr 1 7) s1 /\
    readMQTTLenString MQTTString_initializer (Ptr 1 2) (Ptr 1 8) s1 = Done (1, str', Ptr 1 7) s1 /\
    held (mem s1) 1 str' (bytes [97; 47; 98]).
Proof.
  apply (mqttstring_roundtrip ex_packet_state 1 2 (replicate 8 (byte_of_Z 170)) 8
    {| cstring := Ptr 2 0; lenstring := {| len := 0; data := NULL |} |} (bytes [97; 47; 98])); try done.
  right. split; [done|]. exists 2%positive, 0. split_and!; [done..|apply ex_cstring_at].
Defined.

Lemma equals_spec_witness :
  MQTTPacket_equals {| cstring := NULL; lenstring := {| len := 3; data := Ptr 3 0 |} |} (Ptr 2 0)
    ex_packet_state = Done true ex_packet_state.
Proof.
  apply (equals_spec ex_packet_state _ (bytes [97; 47; 98]) (Ptr 2 0) (bytes [97; 47; 98])); try done.
  - left. split_and!; [done..|]. right. exists 3%positive, 0. split; [done|bytes_at_concrete].
  - apply ex_cstring_at.
Defined.
End PacketWitnesses.
