(* ===== verification/MQTTPublish.v ===== *)
(** * PUBLISH and the acknowledgements

    MQTTSerializePublish.c and MQTTDeserializePublish.c: the serializers of
    PUBLISH, PUBACK, PUBREL and PUBCOMP and the deserializers of PUBLISH and of
    the acknowledgements.  The output parameters of a deserializer form a
    record, passed in with the values the caller's variables hold and returned
    with the ones the function assigned. *)

From S2P Require Import Prelude CMem MQTTPacket.

(** Output parameters of MQTTDeserialize_publish. *)
Record publish_out := {
  pub_dup : Z; pub_qos : Z; pub_retained : Z; pub_packetid : Z;
  pub_topicName : MQTTString; pub_payload : ptr; pub_payloadlen : Z
}.

Definition set_pub_flags (o : publish_out) (dup qos retained : Z) : publish_out :=
  {| pub_dup := dup; pub_qos := qos; pub_retained := retained;
     pub_packetid := pub_packetid o; pub_topicName := pub_topicName o;
     pub_payload := pub_payload o; pub_payloadlen := pub_payloadlen o |}.
Definition set_pub_topicName (o : publish_out) (t : MQTTString) : publish_out :=
  {| pub_dup := pub_dup o; pub_qos := pub_qos o; pub_retained := pub_retained o;
     pub_packetid := pub_packetid o; pub_topicName := t;
     pub_payload := pub_payload o; pub_payloadlen := pub_payloadlen o |}.
Definition set_pub_packetid (o : publish_out) (id : Z) : publish_out :=
  {| pub_dup := pub_dup o; pub_qos := pub_qos o; pub_retained := pub_retained o;
     pub_packetid := id; pub_topicName := pub_topicName o;
     pub_payload := pub_payload o; pub_payloadlen := pub_payloadlen o |}.
Definition set_pub_payload (o : publish_out) (p : ptr) (n : Z) : publish_out :=
  {| pub_dup := pub_dup o; pub_qos := pub_qos o; pub_retained := pub_retained o;
     pub_packetid := pub_packetid o; pub_topicName := pub_topicName o;
     pub_payload := p; pub_payloadlen := n |}.

(** Output parameters of MQTTDeserialize_ack. *)
Record ack_out := { ack_packettype : Z; ack_dup : Z; ack_packetid : Z }.

Section Publish.
Context {W : Type} `{CharSign}.

(** ** MQTTSerializePublish.c *)

Definition MQTTSerialize_publishLength (qos : Z) (topicName : MQTTString) (payloadlen : Z) :
    M W Z :=
  let* n := MQTTstrlen topicName in
  let* n := int (2 + n) in
  let* len := int (n + payloadlen) in
  if 0 <? qos then int (len + 2) else ret len.

Definition MQTTSerialize_publish (buf : ptr) (buflen dup qos retained packetid : Z)
    (topicName : MQTTString) (payload : ptr) (payloadlen : Z) : M W Z :=
  let ptr := buf in
  let* rem_len := MQTTSerialize_publishLength qos topicName payloadlen in
  let* total := MQTTPacket_len rem_len in
  if buflen <? total then ret MQTTPACKET_BUFFER_TOO_SHORT
  else
    let header := set_header_type 0 PUBLISH in
    let header := set_header_dup header dup in
    let header := set_header_qos header qos in
    let header := set_header_retain header retained in
    let* ptr := writeChar ptr header in
    let* ptr := advance ptr (MQTTPacket_encode ptr rem_len) in
    let* ptr := writeMQTTString ptr topicName in
    let* ptr := (if 0 <? qos then writeInt ptr packetid else ret ptr) in
    let* ptr := (memcpy ptr payload payloadlen ;;; ret (padd ptr payloadlen)) in
    psub ptr buf.

Definition MQTTSerialize_ack (buf : ptr) (buflen packettype dup packetid : Z) : M W Z :=
  let ptr := buf in
  if buflen <? 4 then ret MQTTPACKET_BUFFER_TOO_SHORT
  else
    let header := set_header_type 0 packettype in
    let header := set_header_dup header dup in
    let header := set_header_qos header (if packettype =? PUBREL then 1 else 0) in
    let* ptr := writeChar ptr header in
    let* ptr := advance ptr (MQTTPacket_encode ptr 2) in
    let* ptr := writeInt ptr packetid in
    psub ptr buf.

Definition MQTTSerialize_puback (buf : ptr) (buflen packetid : Z) : M W Z :=
  MQTTSerialize_ack buf buflen PUBACK 0 packetid.

Definition MQTTSerialize_pubrel (buf : ptr) (buflen dup packetid : Z) : M W Z :=
  MQTTSerialize_ack buf buflen PUBREL dup packetid.

Definition MQTTSerialize_pubcomp (buf : ptr) (buflen packetid : Z) : M W Z :=
  MQTTSerialize_ack buf buflen PUBCOMP 0 packetid.

(** ** MQTTDeserializePublish.c *)

Definition MQTTDeserialize_publish (out : publish_out) (buf : ptr) (buflen : Z) :
    M W (Z * publish_out) :=
  let* (c, curdata) := readChar buf in
  let header := u8 c in
  if negb (header_type header =? PUBLISH) then ret (0, out)
  else
    let out := set_pub_flags out (header_dup header) (header_qos header) (header_retain header) in
    let* (rc, mylen) := MQTTPacket_decodeBuf curdata in
    let curdata := padd curdata rc in
    let enddata := padd curdata mylen in
    let* (ok, topicName, curdata) := readMQTTLenString (pub_topicName out) curdata enddata in
    let out := set_pub_topicName out topicName in
    let* bad := (if ok =? 0 then ret true
                 else let* d := psub enddata curdata in ret (d <? 0)) in
    if bad : bool then ret (0, out)
    else
      let* (out, curdata) :=
        (if 0 <? pub_qos out then
           let* (id, curdata) := readInt curdata in ret (set_pub_packetid out (u16 id), curdata)
         else ret (out, curdata)) in
      let* payloadlen := psub enddata curdata in
      ret (1, set_pub_payload out curdata payloadlen).

Definition MQTTDeserialize_ack (out : ack_out) (buf : ptr) (buflen : Z) : M W (Z * ack_out) :=
  let* (c, curdata) := readChar buf in
  let header := u8 c in
  let out := {| ack_packettype := header_type header; ack_dup := header_dup header;
                ack_packetid := ack_packetid out |} in
  let* (rc, mylen) := MQTTPacket_decodeBuf curdata in
  let curdata := padd curdata rc in
  let enddata := padd curdata mylen in
  let* d := psub enddata curdata in
  if d <? 2 then ret (rc, out)
  else
    let* (id, curdata) := readInt curdata in
    ret (1, {| ack_packettype := ack_packettype out; ack_dup := ack_dup out;
               ack_packetid := u16 id |}).
End Publish.

(** ** The packets on the wire *)

Definition publish_body (qos packetid : Z) (topic payload : list byte) : list byte :=
  utf_bytes topic ++ (if 0 <? qos then int_bytes packetid else []) ++ payload.

Definition publish_packet (dup qos retained packetid : Z) (topic payload : list byte) : list byte :=
  mqtt_packet (mqtt_header PUBLISH dup qos retained) (publish_body qos packetid topic payload).

Definition ack_packet (packettype dup packetid : Z) : list byte :=
  mqtt_packet (mqtt_header packettype dup (if packettype =? PUBREL then 1 else 0) 0)
    (int_bytes packetid).

(** A caller's payload: [n] bytes outside block [b]. *)
Definition payload_is (m : gmap block (list byte)) (b : block) (p : ptr) (bs : list byte) : Prop :=
  bs = [] \/ exists b' o', p = Ptr b' o' /\ b' <> b /\ bytes_at m b' o' bs.

(** The outputs describe a PUBLISH whose variable header and payload lie between
    two offsets of block [b]. *)
Definition publish_inside (b : block) (start stop : Z) (out : publish_out) : Prop :=
  let tlen := len (lenstring (pub_topicName out)) in
  cstring (pub_topicName out) = NULL /\ data (lenstring (pub_topicName out)) = Ptr b (start + 2) /\
  0 <= tlen < 65536 /\ start + 2 + tlen <= stop /\
  0 <= pub_qos out < 4 /\ (0 < pub_qos out -> 0 <= pub_packetid out < 65536) /\
  let payload := start + 2 + tlen + (if 0 <? pub_qos out then 2 else 0) in
  pub_payload out = Ptr b payload /\ pub_payloadlen out = stop - payload.

(** Where the deserializer finds the parts of a PUBLISH packet at offset [o]. *)
Definition publish_result (out : publish_out) (b : block) (o dup qos retained packetid : Z)
    (topic payload : list byte) : publish_out :=
  let start := o + 1 + zlen (remlen_bytes (zlen (publish_body qos packetid topic payload))) in
  {| pub_dup := dup mod 2; pub_qos := qos; pub_retained := retained mod 2;
     pub_packetid := if 0 <? qos then packetid else pub_packetid out;
     pub_topicName := {| cstring := NULL;
                         lenstring := {| len := zlen topic; data := Ptr b (start + 2) |} |};
     pub_payload := Ptr b (start + 2 + zlen topic + if 0 <? qos then 2 else 0);
     pub_payloadlen := zlen payload |}.

Section PublishFacts.
Context {W : Type} `{CharSign}.
Implicit Types (s : state W) (b : block).

Lemma publish_body_length qos packetid topic payload :
  zlen (publish_body qos packetid topic payload) =
    2 + zlen topic + (if 0 <? qos then 2 else 0) + zlen payload.
Proof. unfold publish_body, utf_bytes, int_bytes. destruct (0 <? qos); zlen_lia. Qed.

Lemma publish_packet_length dup qos retained packetid topic payload :
  zlen (publish_packet dup qos retained packetid topic payload) =
    packet_size (zlen (publish_body qos packetid topic payload)).
Proof. apply mqtt_packet_length. Qed.

Lemma publishLength_run s b qos str topic payloadlen packetid payload :
  mqttstring_is (mem s) b str topic -> payloadlen = zlen payload ->
  zlen (publish_body qos packetid topic payload) <= INT_MAX ->
  MQTTSerialize_publishLength qos str payloadlen s =
    Done (zlen (publish_body qos packetid topic payload)) s.
Proof.
  intros Hstr -> Hmax. rewrite publish_body_length in *.
  unfold INT_MAX in Hmax. unfold MQTTSerialize_publishLength.
  erewrite bind_done by (eapply MQTTstrlen_is; [done|unfold INT_MAX; destruct (0 <? qos); lia]).
  rewrite !bind_int by (unfold INT_MAX, INT_MIN; destruct (0 <? qos); lia).
  destruct (0 <? qos).
  - rewrite int_done by (unfold INT_MAX, INT_MIN; lia). f_equal. lia.
  - unfold ret. f_equal. lia.
Qed.

(** The exact behaviour of the PUBLISH serializer. *)
Lemma serialize_publish_run s b o l buflen dup qos retained packetid str topic pl payload :
  mem s !! b = Some l -> 0 <= o <= zlen l ->
  mqttstring_is (mem s) b str topic -> payload_is (mem s) b pl payload -> 0 <= packetid ->
  zlen (publish_body qos packetid topic payload) <= REMLEN_MAX ->
  exists total,
    packet_size (zlen (publish_body qos packetid topic payload)) <= total <=
      packet_size (zlen (publish_body qos packetid topic payload)) + 1 /\
    MQTTSerialize_publish (Ptr b o) buflen dup qos retained packetid str pl (zlen payload) s =
      let wire := publish_packet dup qos retained packetid topic payload in
      if buflen <? total then Done MQTTPACKET_BUFFER_TOO_SHORT s
      else if o + zlen wire <=? zlen l
           then Done (zlen wire) (set_block s b (splice l o wire))
           else Fault OutOfBounds.
Proof.
  intros Hb Ho Hstr Hpl Hid Hmax.
  set (body := publish_body qos packetid topic payload) in *.
  assert (Hrem : 0 <= zlen body <= REMLEN_MAX) by lia. unfold REMLEN_MAX in Hmax.
  assert (zlen topic <= INT_MAX).
  { unfold body, INT_MAX in *. rewrite publish_body_length in Hmax. destruct (0 <? qos); lia. }
  destruct (MQTTPacket_len (zlen body) s) as [total s'|] eqn:Elen;
    [|by rewrite packet_len_run in Elen].
  pose proof (packet_len_guard _ _ _ _ Hrem Elen) as [-> Htotal].
  exists total. split; [done|]. unfold MQTTSerialize_publish.
  erewrite bind_done by (eapply (publishLength_run _ _ _ _ _ _ packetid payload);
                         [done..|fold body; unfold INT_MAX; lia]).
  fold body. erewrite bind_done by exact Elen. cbv zeta. case_test; [done|].
  rewrite header_assign. unfold publish_packet, mqtt_packet. fold body.
  start_writing; [|done..].
  eapply (serializes_bind s b o _ _ [_]); [apply writes_char|].
  eapply (serializes_bind s b o); [apply encode_writes; unfold INT_MAX; lia|].
  unfold body, publish_body.
  eapply (serializes_bind s b o); [by apply writes_mqttstring|].
  eapply (serializes_bind s b o); [apply writes_if; [by apply writes_int|apply writes_nil]|].
  by apply serializes_last, writes_memcpy'.
Qed.

Lemma deserialize_publish_packet s b o out buflen dup qos retained packetid topic payload rest :
  bytes_at (mem s) b o (publish_packet dup qos retained packetid topic payload ++ rest) ->
  0 <= qos < 4 -> 0 <= packetid < 65536 -> zlen topic <= 65535 ->
  zlen (publish_body qos packetid topic payload) <= REMLEN_MAX ->
  MQTTDeserialize_publish out (Ptr b o) buflen s =
    Done (1, publish_result out b o dup qos retained packetid topic payload)
      (cursor_moved s b
         (o + 1 + zlen (remlen_bytes (zlen (publish_body qos packetid topic payload))))).
Proof.
  intros Hat Hq Hid Ht Hmax. unfold publish_packet in Hat.
  pose proof (publish_body_length qos packetid topic payload) as Hlen.
  assert (0 <= (if 0 <? qos then 2 else 0) <= 2) by (destruct (0 <? qos); lia).
  unfold publish_result, cursor_moved.
  set (body := publish_body qos packetid topic payload) in *.
  apply frame_at in Hat as (Hh & Hrem & Hbody).
  set (k := zlen (remlen_bytes (zlen body))) in *.
  unfold MQTTDeserialize_publish.
  call readChar_byte.
  rewrite u8_readChar by apply mqtt_header_range.
  rewrite header_type_is, header_dup_is, header_qos_is, header_retain_is.
  rewrite (Z.mod_small qos) by lia. change (negb (PUBLISH mod 16 =? PUBLISH)) with false. cbv iota.
  call decodeBuf_remlen. fold k.
  unfold body, publish_body in Hbody. rewrite <- app_assoc in Hbody.
  call readMQTTLenString_utf. cbn [Z.eqb].
  rewrite bind_assoc. run_psub.
  test_false (o + 1 + k + zlen body - (o + 1 + k + 2 + zlen topic) <? 0). run_ret.
  cbn [pub_qos set_pub_topicName set_pub_flags].
  apply bytes_at_app in Hbody as [_ Hbody]. rewrite utf_bytes_length, <- !app_assoc in Hbody.
  destruct (0 <? qos); cbv iota.
  - rewrite bind_assoc. replace (o + 1 + k + (2 + zlen topic)) with (o + 1 + k + 2 + zlen topic)
      in Hbody by lia.
    call readInt_int_bytes. rewrite u16_small by lia.
    run_ret. run_psub. unfold ret.
    do 2 f_equal. unfold set_pub_payload, set_pub_packetid.
    cbn [pub_dup pub_qos pub_retained pub_packetid pub_topicName].
    f_equal. lia.
  - run_ret. run_psub. unfold ret.
    do 2 f_equal. unfold set_pub_payload.
    cbn [pub_dup pub_qos pub_retained pub_packetid pub_topicName].
    rewrite Z.add_0_r. f_equal. lia.
Qed.

(** Whatever the bytes of a frame are, with the two bytes behind it readable:
    the deserializer terminates without an out-of-bounds access, and what it
    reports lies inside the frame up to the missing packet identifier. *)
Lemma deserialize_publish_any s b o l out buflen x bs n v :
  mem s !! b = Some l -> bytes_at (mem s) b o (x :: bs) ->
  parse_remlen 4 bs = Some (n, v) -> n <= 4 -> o + 1 + n + v + 2 <= zlen l ->
  exists rc out' s', MQTTDeserialize_publish out (Ptr b o) buflen s = Done (rc, out') s' /\
    mem s' = mem s /\ world s' = world s /\
    (rc = 0 \/ rc = 1 /\ publish_inside b (o + 1 + n) (o + 1 + n + v) out').
Proof.
  intros Hb Hat Hparse Hn Hroom.
  pose proof (bytes_at_nonneg _ _ _ _ Hat). pose proof (parse_remlen_bounds _ _ _ _ Hparse).
  unfold MQTTDeserialize_publish. call readChar_at. rewrite u8_readChar_byte.
  destruct (_ =? _); cbn [negb]; [|do 3 eexists; split_and!; by eauto].
  apply bytes_at_tail in Hat. call decodeBuf_frame.
  set (s' := State _ _ _). set (out1 := set_pub_flags _ _ _ _).
  destruct (readMQTTLenString_total s' b (o + 1 + n) (o + 1 + n + v) l (pub_topicName out1)
              Hb ltac:(lia) ltac:(lia)) as (rc & str & o' & Hrun & Hnull & Hres).
  rewrite (bind_done _ _ _ _ _ Hrun). cbv beta iota zeta.
  destruct Hres as [->|(-> & Ht & Hd & -> & He)]; cbn [Z.eqb].
  { run_ret. do 3 eexists. split_and!; by eauto. }
  rewrite bind_assoc. run_psub. test_false (o + 1 + n + v - (o + 1 + n + 2 + len (lenstring str)) <? 0).
  run_ret. change (pub_qos (set_pub_topicName out1 str)) with (pub_qos out1).
  pose proof (bf_get_range (Z_of_byte x) 1 2 ltac:(lia)) as Hqos.
  destruct (0 <? pub_qos out1) eqn:Eq; cbv iota.
  - destruct (readInt_total s' b (o + 1 + n + 2 + len (lenstring str)) l Hb ltac:(lia) ltac:(lia))
      as (id & Hid & Hint).
    rewrite bind_assoc, (bind_done _ _ _ _ _ Hint). cbv beta iota zeta. run_ret. run_psub.
    do 3 eexists. split_and!; [done..|]. right. split; [done|]. unfold publish_inside.
    cbn [pub_topicName set_pub_topicName set_pub_packetid set_pub_payload pub_qos pub_payload
         pub_payloadlen pub_packetid].
    change (pub_qos (set_pub_topicName out1 str)) with (pub_qos out1). rewrite Eq, (u16_small id Hid).
    split_and!; try done; try lia; apply Hqos.
  - run_ret. run_psub. do 3 eexists. split_and!; [done..|]. right. split; [done|]. unfold publish_inside.
    cbn [pub_topicName set_pub_topicName set_pub_packetid set_pub_payload pub_qos pub_payload
         pub_payloadlen pub_packetid].
    change (pub_qos (set_pub_topicName out1 str)) with (pub_qos out1). rewrite Eq, Z.add_0_r.
    split_and!; try done; try lia; apply Hqos.
Qed.

(** ** Acknowledgements *)

Lemma serialize_ack_run s b o l buflen packettype dup packetid :
  mem s !! b = Some l -> 0 <= o <= zlen l -> 0 <= packetid ->
  MQTTSerialize_ack (Ptr b o) buflen packettype dup packetid s =
    let wire := ack_packet packettype dup packetid in
    if buflen <? 4 then Done MQTTPACKET_BUFFER_TOO_SHORT s
    else if o + 4 <=? zlen l
         then Done 4 (set_block s b (splice l o wire))
         else Fault OutOfBounds.
Proof.
  intros Hb Ho Hid. unfold MQTTSerialize_ack. cbv zeta. case_test; [done|].
  rewrite header_assign_qos. unfold ack_packet. set (h := mqtt_header _ _ _ _).
  change 4 with (zlen (mqtt_packet h (int_bytes packetid))).
  unfold mqtt_packet. change (zlen (int_bytes packetid)) with 2.
  start_writing; [|done..].
  eapply (serializes_bind s b o _ _ [_]); [apply writes_char|].
  eapply (serializes_bind s b o); [apply encode_writes; unfold INT_MAX; lia|].
  by apply serializes_last, writes_int.
Qed.

Lemma deserialize_ack_frame s b o out buflen x bs n v :
  bytes_at (mem s) b o (x :: bs) -> parse_remlen 4 bs = Some (n, v) -> n <= 4 ->
  MQTTDeserialize_ack out (Ptr b o) buflen s =
    let h := Z_of_byte x in
    if v <? 2
    then Done (n, {| ack_packettype := header_type h; ack_dup := header_dup h;
                     ack_packetid := ack_packetid out |}) (cursor_moved s b (o + 1 + n))
    else (let* (id, curdata) := readInt (Ptr b (o + 1 + n)) in
          ret (1, {| ack_packettype := header_type h; ack_dup := header_dup h;
                     ack_packetid := u16 id |})) (cursor_moved s b (o + 1 + n)).
Proof.
  intros Hat Hparse Hn. unfold MQTTDeserialize_ack. call readChar_at.
  rewrite u8_readChar_byte. apply bytes_at_tail in Hat. call decodeBuf_frame. run_psub.
  replace (o + 1 + n + v - (o + 1 + n)) with v by lia. by case_test.
Qed.

(** On arbitrary bytes, eight of them readable. *)
Lemma deserialize_ack_any s b o l out buflen :
  mem s !! b = Some l -> 0 <= o -> o + 8 <= zlen l ->
  exists rc out' s', MQTTDeserialize_ack out (Ptr b o) buflen s = Done (rc, out') s' /\
    mem s' = mem s /\ world s' = world s /\ (rc = 1 -> ack_packetid out' = ack_packetid out \/ 0 <= ack_packetid out').
Proof.
  intros Hb Ho Hl. destruct (bytes_at_any _ _ o l 1 Hb ltac:(lia) ltac:(lia)) as (bs & Hlen & Hat).
  destruct bs as [|x [|]]; try done. unfold MQTTDeserialize_ack. call readChar_at.
  destruct (decodeBuf_total s b (o + 1) l Hb ltac:(lia) ltac:(lia)) as (n & v & s1 & Hrun & Hn & Hv & Hm & Hw).
  rewrite (bind_done _ _ _ _ _ Hrun). cbv beta iota. cbn [padd]. run_psub.
  destruct (_ <? 2); [exists n; do 2 eexists; split_and!; [done..|by left]|].
  rewrite <- Hm in Hb. destruct (readInt_total s1 b (o + 1 + n) l Hb ltac:(lia) ltac:(lia)) as (z & Hz & Hr).
  rewrite (bind_done _ _ _ _ _ Hr). cbv beta iota. exists 1. do 2 eexists. split_and!; [done..|].
  intros _. right. apply Z.mod_pos_bound. lia.
Qed.

Lemma deserialize_ack_packet s b o out buflen packettype dup packetid rest :
  bytes_at (mem s) b o (ack_packet packettype dup packetid ++ rest) ->
  0 <= packettype < 16 -> 0 <= packetid < 65536 ->
  MQTTDeserialize_ack out (Ptr b o) buflen s =
    Done (1, {| ack_packettype := packettype; ack_dup := dup mod 2; ack_packetid := packetid |})
      (cursor_moved s b (o + 2)).
Proof.
  intros Hat Ht Hid. unfold ack_packet in Hat. set (q := if _ =? _ then _ else _) in *.
  pose proof (frame_at _ _ _ _ _ _ Hat) as (_ & _ & Hbody).
  unfold mqtt_packet in Hat. cbn [app] in Hat.
  erewrite deserialize_ack_frame;
    [|exact Hat|rewrite <- app_assoc; apply parse_remlen_bytes; unfold REMLEN_MAX; done|done].
  cbv zeta. change (zlen (int_bytes packetid)) with 2 in *.
  change (zlen (remlen_bytes 2)) with 1 in *. cbn [Z.ltb Z.compare Pos.compare Pos.compare_cont].
  call readInt_int_bytes. unfold ret.
  rewrite Z_of_byte_small by apply mqtt_header_range.
  rewrite header_type_is, header_dup_is, u16_small, Z.mod_small by lia.
  by replace (o + 1 + 1) with (o + 2) by lia.
Qed.
End PublishFacts.

(** ** Properties *)

Section PublishProperties.
Context {W : Type} `{CharSign}.
Implicit Types (s : state W) (b : block).

(** With a buffer that really has [buflen] bytes, MQTTSerialize_publish
    never writes out of bounds: it refuses, leaving memory alone, only when
    the buffer has no byte to spare, and otherwise stores exactly the wire
    format of the packet and returns its length. *)
Theorem publish_serialize_spec s b o l buflen dup qos retained packetid str topic pl payload :
  mem s !! b = Some l -> 0 <= o -> 0 <= buflen <= zlen l - o ->
  mqttstring_is (mem s) b str topic -> payload_is (mem s) b pl payload -> 0 <= packetid ->
  zlen (publish_body qos packetid topic payload) <= REMLEN_MAX ->
  let wire := publish_packet dup qos retained packetid topic payload in
  let r := MQTTSerialize_publish (Ptr b o) buflen dup qos retained packetid str pl
             (zlen payload) s in
  (r = Done MQTTPACKET_BUFFER_TOO_SHORT s /\ buflen <= zlen wire) \/
  (r = Done (zlen wire) (set_block s b (splice l o wire)) /\ zlen wire <= buflen).
Proof.
  intros Hb Ho Hbuf Hstr Hpl Hid Hmax wire r.
  destruct (serialize_publish_run s b o l buflen dup qos retained packetid str topic pl payload
              Hb ltac:(lia) Hstr Hpl Hid Hmax) as (total & Htot & Hrun).
  assert (zlen wire = packet_size (zlen (publish_body qos packetid topic payload))) as Hw
    by apply publish_packet_length.
  unfold r. rewrite Hrun. cbv zeta. fold wire. case_test; [left; split; [done|lia]|].
  right. split; [|lia]. by test_true (o + zlen wire <=? zlen l).
Qed.

(** C34: Deserializing what MQTTSerialize_publish wrote succeeds and gives back
    the flags, the packet identifier, the topic and the payload, as pointers
    to their bytes inside the buffer; no other block is touched. *)
Theorem publish_roundtrip s b o l buflen dup qos retained packetid str topic pl payload out :
  mem s !! b = Some l -> 0 <= o -> buflen <= zlen l - o ->
  mqttstring_is (mem s) b str topic -> payload_is (mem s) b pl payload ->
  0 <= qos < 4 -> 0 <= packetid < 65536 -> zlen topic <= 65535 ->
  zlen (publish_body qos packetid topic payload) <= REMLEN_MAX ->
  packet_size (zlen (publish_body qos packetid topic payload)) < buflen ->
  let res := publish_result out b o dup qos retained packetid topic payload in
  exists n s1 s2 to po,
    MQTTSerialize_publish (Ptr b o) buflen dup qos retained packetid str pl (zlen payload) s =
      Done n s1 /\
    MQTTDeserialize_publish out (Ptr b o) n s1 = Done (1, res) s2 /\
    data (lenstring (pub_topicName res)) = Ptr b to /\ bytes_at (mem s2) b to topic /\
    pub_payload res = Ptr b po /\ bytes_at (mem s2) b po payload /\
    (forall b', b' <> b -> mem s2 !! b' = mem s !! b').
Proof.
  intros Hb Ho Hbuf Hstr Hpl Hq Hid Ht Hmax Hsize res.
  destruct (serialize_publish_run s b o l buflen dup qos retained packetid str topic pl payload
              Hb ltac:(unfold packet_size in *; lia) Hstr Hpl ltac:(lia) Hmax) as (total & Htot & Hrun).
  cbv zeta in Hrun. rewrite publish_packet_length in Hrun.
  rewrite (proj2 (Z.ltb_ge buflen total)), (proj2 (Z.leb_le _ _)) in Hrun by lia.
  set (wire := publish_packet dup qos retained packetid topic payload) in *.
  set (s1 := set_block s b (splice l o wire)) in *.
  assert (Hat : bytes_at (mem s1) b o (wire ++ [])).
  { rewrite app_nil_r. apply bytes_at_splice; [done|]. unfold wire. rewrite publish_packet_length. lia. }
  pose proof (deserialize_publish_packet s1 b o out (packet_size (zlen
    (publish_body qos packetid topic payload))) _ _ _ _ _ _ _ Hat Hq Hid Ht Hmax) as Hde.
  apply frame_at in Hat as (_ & _ & Hbody). rewrite app_nil_r in Hbody.
  apply bytes_at_app in Hbody as [Htopic Hrest]. apply bytes_at_app in Htopic as [_ Htopic].
  apply bytes_at_app in Hrest as [_ Hrest]. rewrite utf_bytes_length in Hrest.
  do 5 eexists. split_and!; [exact Hrun|exact Hde|done|exact Htopic|done| |].
  - eapply bytes_at_eq; [exact Hrest|]. destruct (0 <? qos); zlen_lia.
  - intros. by apply mem_set_block_ne.
Qed.

(** A PUBLISH frame of arbitrary bytes with two readable bytes behind it
    is parsed without an out-of-bounds access; on success the topic lies
    inside the frame and the payload runs from there to its end. *)
Theorem publish_parse_safe s b o l out buflen x bs n v :
  mem s !! b = Some l -> bytes_at (mem s) b o (x :: bs) ->
  parse_remlen 4 bs = Some (n, v) -> n <= 4 -> o + 1 + n + v + 2 <= zlen l ->
  exists rc out' s', MQTTDeserialize_publish out (Ptr b o) buflen s = Done (rc, out') s' /\
    mem s' = mem s /\ world s' = world s /\
    (rc = 0 \/ rc = 1 /\ publish_inside b (o + 1 + n) (o + 1 + n + v) out').
Proof. apply deserialize_publish_any. Qed.

(** A PUBLISH with QoS above 0 whose frame ends after the topic: the
    packet identifier is read past the end of the frame without a check.  The
    read leaves the buffer when nothing follows, and otherwise the call
    reports success with a payload length of -2. *)
Theorem publish_missing_packetid s b o l out buflen dup qos retained topic :
  mem s !! b = Some l -> 0 < qos < 4 -> zlen topic <= 65535 ->
  let frame := mqtt_packet (mqtt_header PUBLISH dup qos retained) (utf_bytes topic) in
  bytes_at (mem s) b o frame ->
  let r := MQTTDeserialize_publish out (Ptr b o) buflen s in
  (zlen l < o + zlen frame + 2 -> r = Fault OutOfBounds) /\
  (o + zlen frame + 2 <= zlen l ->
     exists out' s', r = Done (1, out') s' /\ pub_payloadlen out' = -2).
Proof.
  intros Hb Hq Ht frame Hat. pose proof (bytes_at_nonneg _ _ _ _ Hat).
  assert (zlen frame = packet_size (2 + zlen topic)) as Hf
    by (unfold frame; by rewrite mqtt_packet_length, utf_bytes_length).
  unfold frame in Hat. rewrite <- (app_nil_r (mqtt_packet _ _)) in Hat.
  apply frame_at in Hat as (Hh & Hrem & Hbody). unfold packet_size in Hf.
  rewrite utf_bytes_length in *.
  set (k := zlen (remlen_bytes (2 + zlen topic))) in *.
  assert (Hq' : qos mod 4 = qos) by (apply Z.mod_small; lia).
  unfold MQTTDeserialize_publish.
  call readChar_byte. rewrite u8_readChar by apply mqtt_header_range.
  rewrite header_type_is, header_dup_is, header_qos_is, header_retain_is, Hq'.
  change (negb (PUBLISH mod 16 =? PUBLISH)) with false. cbv iota.
  erewrite bind_done by (eapply (decodeBuf_remlen _ _ _ (2 + zlen topic));
                         [exact Hrem|unfold REMLEN_MAX; lia]).
  cbv beta iota zeta. cbn [padd]. fold k.
  call readMQTTLenString_utf. cbn [Z.eqb]. rewrite bind_assoc. run_psub.
  test_false (o + 1 + k + (2 + zlen topic) - (o + 1 + k + 2 + zlen topic) <? 0). run_ret.
  cbn [pub_qos set_pub_topicName set_pub_flags]. test_true (0 <? qos). rewrite bind_assoc.
  set (s' := State _ _ _). set (e := o + 1 + k + 2 + zlen topic).
  split; intros Hroom.
  - by rewrite (bind_fault _ _ _ _ (readInt_out s' b e l Hb ltac:(lia) ltac:(lia))).
  - destruct (readInt_total s' b e l Hb ltac:(lia) ltac:(lia)) as (id & _ & Hint).
    rewrite (bind_done _ _ _ _ _ Hint). cbv beta iota zeta. run_ret. run_psub.
    do 2 eexists. split; [done|]. cbn [set_pub_payload pub_payloadlen]. lia.
Qed.

(** Every acknowledgement the serializer builds in a buffer of at least
    four bytes is read back with its type, its dup flag and its packet
    identifier. *)
Theorem ack_roundtrip s b o l buflen packettype dup packetid out :
  mem s !! b = Some l -> 0 <= o -> 4 <= buflen <= zlen l - o ->
  0 <= packettype < 16 -> 0 <= packetid < 65536 ->
  exists s1 s2,
    MQTTSerialize_ack (Ptr b o) buflen packettype dup packetid s = Done 4 s1 /\
    bytes_at (mem s1) b o (ack_packet packettype dup packetid) /\
    MQTTDeserialize_ack out (Ptr b o) 4 s1 =
      Done (1, {| ack_packettype := packettype; ack_dup := dup mod 2;
                  ack_packetid := packetid |}) s2.
Proof.
  intros Hb Ho Hbuf Ht Hid.
  pose proof (serialize_ack_run s b o l buflen packettype dup packetid Hb ltac:(lia) ltac:(lia)) as Hrun.
  cbv zeta in Hrun.
  rewrite (proj2 (Z.ltb_ge buflen 4)), (proj2 (Z.leb_le _ _)) in Hrun by lia.
  set (wire := ack_packet packettype dup packetid) in *.
  assert (zlen wire = 4) by done.
  assert (Hat : bytes_at (mem (set_block s b (splice l o wire))) b o wire)
    by (apply bytes_at_splice; lia).
  do 2 eexists. split_and!; [exact Hrun|exact Hat|].
  rewrite <- (app_nil_r wire) in Hat. by eapply deserialize_ack_packet.
Qed.

(** An acknowledgement whose one-byte remaining length is 0 or 1 carries
    no packet identifier, yet MQTTDeserialize_ack returns 1, its success
    code, and leaves the packet identifier of the caller as it was. *)
Theorem ack_short_accepted s b o out buflen h n rest :
  0 <= h < 256 -> 0 <= n < 2 ->
  bytes_at (mem s) b o (byte_of_Z h :: byte_of_Z n :: rest) ->
  MQTTDeserialize_ack out (Ptr b o) buflen s =
    Done (1, {| ack_packettype := header_type h; ack_dup := header_dup h;
                ack_packetid := ack_packetid out |}) (cursor_moved s b (o + 2)).
Proof.
  intros Hh Hn Hat. erewrite deserialize_ack_frame with (n := 1) (v := n); [|exact Hat| |done].
  - cbv zeta. rewrite Z_of_byte_small by lia. test_true (n <? 2).
    by replace (o + 1 + 1) with (o + 2) by lia.
  - cbn [parse_remlen]. rewrite Z_of_byte_small by lia. by test_true (n <? 128).
Qed.
End PublishProperties.

(** ** Witnesses *)

Section Witnesses.
(* block 1: a 32-byte buffer, block 2: the C string "a/b", block 3: a payload *)
Definition ex_state : state unit :=
  state_of [replicate 32 (byte_of_Z 170); bytes [97; 47; 98; 0]; bytes [1; 2; 3]].
Definition ex_topic : MQTTString :=
  {| cstring := Ptr 2 0; lenstring := {| len := 0; data := NULL |} |}.
Definition ex_out : publish_out :=
  {| pub_dup := 0; pub_qos := 0; pub_retained := 0; pub_packetid := 0;
     pub_topicName := MQTTString_initializer; pub_payload := NULL; pub_payloadlen := 0 |}.
#[local] Existing Instance char_is_signed.

Lemma ex_topic_is : mqttstring_is (mem ex_state) 1 ex_topic (bytes [97; 47; 98]).
Proof.
  right. split; [done|]. exists 2%positive, 0. split_and!; [done..|].
  exists 2%positive, 0. split_and!; [done|bytes_at_concrete|].
  intros Hin. apply list_elem_of_In in Hin. simpl in Hin. intuition discriminate.
Qed.

Lemma ex_payload_is : payload_is (mem ex_state) 1 (Ptr 3 0) (bytes [1; 2; 3]).
Proof. right. exists 3%positive, 0. split_and!; [done..|bytes_at_concrete]. Qed.

Lemma publish_serialize_spec_witness :
  let wire := publish_packet 0 1 0 258 (bytes [97; 47; 98]) (bytes [1; 2; 3]) in
  let r := MQTTSerialize_publish (Ptr 1 0) 32 0 1 0 258 ex_topic (Ptr 3 0) 3 ex_state in
  (r = Done MQTTPACKET_BUFFER_TOO_SHORT ex_state /\ 32 <= zlen wire) \/
  (r = Done (zlen wire) (set_block ex_state 1
          (splice (replicate 32 (byte_of_Z 170)) 0 wire)) /\ zlen wire <= 32).
Proof.
  apply (publish_serialize_spec ex_state 1 0 _ 32 0 1 0 258 ex_topic (bytes [97; 47; 98])
           (Ptr 3 0) (bytes [1; 2; 3])); try done.
  - apply ex_topic_is.
  - apply ex_payload_is.
Defined.

Lemma publish_roundtrip_witness :
  let res := publish_result ex_out 1 0 0 2 1 258 (bytes [97; 47; 98]) (bytes [1; 2; 3]) in
  exists n s1 s2 to po,
    MQTTSerialize_publish (Ptr 1 0) 32 0 2 1 258 ex_topic (Ptr 3 0) 3 ex_state = Done n s1 /\
    MQTTDeserialize_publish ex_out (Ptr 1 0) n s1 = Done (1, res) s2 /\
    data (lenstring (pub_topicName res)) = Ptr 1 to /\
    bytes_at (mem s2) 1 to (bytes [97; 47; 98]) /\
    pub_payload res = Ptr 1 po /\ bytes_at (mem s2) 1 po (bytes [1; 2; 3]) /\
    (forall b', b' <> 1%positive -> mem s2 !! b' = mem ex_state !! b').
Proof.
  apply (publish_roundtrip ex_state 1 0 (replicate 32 (byte_of_Z 170)) 32 0 2 1 258 ex_topic
           (bytes [97; 47; 98]) (Ptr 3 0) (bytes [1; 2; 3]) ex_out); try done.
  - apply ex_topic_is.
  - apply ex_payload_is.
Defined.

(* a QoS 1 PUBLISH of topic "a" without packet identifier, at the end of its buffer *)
Definition ex_short : state unit := state_of [bytes [50; 3; 0; 1; 97]].
(* the same frame with two bytes behind it *)
Definition ex_slack : state unit := state_of [bytes [50; 3; 0; 1; 97; 7; 9]].

Lemma publish_parse_safe_witness :
  exists rc out' s', MQTTDeserialize_publish ex_out (Ptr 1 0) 7 ex_slack = Done (rc, out') s' /\
    mem s' = mem ex_slack /\ world s' = world ex_slack /\
    (rc = 0 \/ rc = 1 /\ publish_inside 1 (0 + 1 + 1) (0 + 1 + 1 + 3) out').
Proof.
  apply (publish_parse_safe ex_slack 1 0 (bytes [50; 3; 0; 1; 97; 7; 9]) ex_out 7
           (byte_of_Z 50) (bytes [3; 0; 1; 97]) 1 3); try done.
  bytes_at_concrete.
Defined.

Lemma publish_missing_packetid_witness :
  MQTTDeserialize_publish ex_out (Ptr 1 0) 5 ex_short = Fault OutOfBounds.
Proof.
  apply (publish_missing_packetid ex_short 1 0 (bytes [50; 3; 0; 1; 97]) ex_out 5 0 1 0
           (bytes [97])); try done.
  bytes_at_concrete.
Defined.

Lemma ack_roundtrip_witness :
  exists s1 s2,
    MQTTSerialize_ack (Ptr 1 0) 32 PUBREL 0 65535 ex_state = Done 4 s1 /\
    bytes_at (mem s1) 1 0 (ack_packet PUBREL 0 65535) /\
    MQTTDeserialize_ack {| ack_packettype := 0; ack_dup := 0; ack_packetid := 0 |} (Ptr 1 0) 4 s1 =
      Done (1, {| ack_packettype := PUBREL; ack_dup := 0; ack_packetid := 65535 |}) s2.
Proof.
  apply (ack_roundtrip ex_state 1 0 (replicate 32 (byte_of_Z 170)) 32 PUBREL 0 65535); done.
Defined.

Lemma ack_short_accepted_witness :
  let s := state_of [bytes [64; 1; 7]] in
  MQTTDeserialize_ack {| ack_packettype := 0; ack_dup := 0; ack_packetid := 99 |} (Ptr 1 0) 3 s =
    Done (1, {| ack_packettype := 4; ack_dup := 0; ack_packetid := 99 |}) (cursor_moved s 1 2).
Proof.
  apply (ack_short_accepted (state_of [bytes [64; 1; 7]]) 1 0
           {| ack_packettype := 0; ack_dup := 0; ack_packetid := 99 |} 3 64 1 [byte_of_Z 7]); try done.
  bytes_at_concrete.
Defined.
End Witnesses.
