(* ===== verification/MQTTConnect.v ===== *)
(** * CONNECT, CONNACK and the packets without a body

    MQTTConnectClient.c and MQTTConnectServer.c with the structures of
    MQTTConnect.h: the serializers and deserializers of CONNECT and CONNACK,
    DISCONNECT and PINGREQ.  String literals of the sources are byte lists. *)

From S2P Require Import Prelude CMem MQTTPacket.

(** ** MQTTConnect.h *)

(** The union MQTTConnectFlags, as its byte. *)
Definition flag_cleansession (f : Z) : Z := bf_get f 1 1.
Definition flag_will (f : Z) : Z := bf_get f 2 1.
Definition flag_willQoS (f : Z) : Z := bf_get f 3 2.
Definition flag_willRetain (f : Z) : Z := bf_get f 5 1.
Definition flag_password (f : Z) : Z := bf_get f 6 1.
Definition flag_username (f : Z) : Z := bf_get f 7 1.
Definition set_flag_cleansession (f v : Z) : Z := bf_set f 1 1 v.
Definition set_flag_will (f v : Z) : Z := bf_set f 2 1 v.
Definition set_flag_willQoS (f v : Z) : Z := bf_set f 3 2 v.
Definition set_flag_willRetain (f v : Z) : Z := bf_set f 5 1 v.
Definition set_flag_password (f v : Z) : Z := bf_set f 6 1 v.
Definition set_flag_username (f v : Z) : Z := bf_set f 7 1 v.

(** The union MQTTConnackFlags. *)
Definition flag_sessionpresent (f : Z) : Z := bf_get f 0 1.
Definition set_flag_sessionpresent (f v : Z) : Z := bf_set f 0 1 v.

Record MQTTPacket_willOptions := {
  will_struct_id : list byte; will_struct_version : Z;
  topicName : MQTTString; message : MQTTString; retained : Z; qos : Z
}.

Record MQTTPacket_connectData := {
  struct_id : list byte; struct_version : Z; MQTTVersion : Z;
  clientID : MQTTString; keepAliveInterval : Z; cleansession : Z; willFlag : Z;
  will : MQTTPacket_willOptions; username : MQTTString; password : MQTTString
}.

Definition MQTTPacket_willOptions_initializer : MQTTPacket_willOptions :=
  {| will_struct_id := bytes [77; 81; 84; 87]; will_struct_version := 0;
     topicName := MQTTString_initializer; message := MQTTString_initializer;
     retained := 0; qos := 0 |}.

Definition MQTTPacket_connectData_initializer : MQTTPacket_connectData :=
  {| struct_id := bytes [77; 81; 84; 67]; struct_version := 0; MQTTVersion := 4;
     clientID := MQTTString_initializer; keepAliveInterval := 60; cleansession := 1;
     willFlag := 0; will := MQTTPacket_willOptions_initializer;
     username := MQTTString_initializer; password := MQTTString_initializer |}.

(** Assignments to members of [*data]. *)
Definition set_session (d : MQTTPacket_connectData) (clean keepalive : Z) :=
  {| struct_id := struct_id d; struct_version := struct_version d; MQTTVersion := MQTTVersion d;
     clientID := clientID d; keepAliveInterval := keepalive; cleansession := clean;
     willFlag := willFlag d; will := will d; username := username d; password := password d |}.
Definition set_clientID (d : MQTTPacket_connectData) (str : MQTTString) :=
  {| struct_id := struct_id d; struct_version := struct_version d; MQTTVersion := MQTTVersion d;
     clientID := str; keepAliveInterval := keepAliveInterval d; cleansession := cleansession d;
     willFlag := willFlag d; will := will d; username := username d; password := password d |}.
Definition set_willFlag (d : MQTTPacket_connectData) (v : Z) :=
  {| struct_id := struct_id d; struct_version := struct_version d; MQTTVersion := MQTTVersion d;
     clientID := clientID d; keepAliveInterval := keepAliveInterval d; cleansession := cleansession d;
     willFlag := v; will := will d; username := username d; password := password d |}.
Definition set_will (d : MQTTPacket_connectData) (w : MQTTPacket_willOptions) :=
  {| struct_id := struct_id d; struct_version := struct_version d; MQTTVersion := MQTTVersion d;
     clientID := clientID d; keepAliveInterval := keepAliveInterval d; cleansession := cleansession d;
     willFlag := willFlag d; will := w; username := username d; password := password d |}.
Definition set_username (d : MQTTPacket_connectData) (str : MQTTString) :=
  {| struct_id := struct_id d; struct_version := struct_version d; MQTTVersion := MQTTVersion d;
     clientID := clientID d; keepAliveInterval := keepAliveInterval d; cleansession := cleansession d;
     willFlag := willFlag d; will := will d; username := str; password := password d |}.
Definition set_password (d : MQTTPacket_connectData) (str : MQTTString) :=
  {| struct_id := struct_id d; struct_version := struct_version d; MQTTVersion := MQTTVersion d;
     clientID := clientID d; keepAliveInterval := keepAliveInterval d; cleansession := cleansession d;
     willFlag := willFlag d; will := will d; username := username d; password := str |}.
Definition set_will_flags (w : MQTTPacket_willOptions) (q r : Z) :=
  {| will_struct_id := will_struct_id w; will_struct_version := will_struct_version w;
     topicName := topicName w; message := message w; retained := r; qos := q |}.
Definition set_will_topicName (w : MQTTPacket_willOptions) (str : MQTTString) :=
  {| will_struct_id := will_struct_id w; will_struct_version := will_struct_version w;
     topicName := str; message := message w; retained := retained w; qos := qos w |}.
Definition set_will_message (w : MQTTPacket_willOptions) (str : MQTTString) :=
  {| will_struct_id := will_struct_id w; will_struct_version := will_struct_version w;
     topicName := topicName w; message := str; retained := retained w; qos := qos w |}.

Definition lit_MQTT : list byte := bytes [77; 81; 84; 84].
Definition lit_MQIsdp : list byte := bytes [77; 81; 73; 115; 100; 112].

(** [str.cstring || str.lenstring.data] *)
Definition string_given (str : MQTTString) : bool :=
  negb (is_null (cstring str)) || negb (is_null (data (lenstring str))).

Section Connect.
Context {W : Type} `{CharSign}.

(** writeCString applied to a string literal. *)
Definition writeCLiteral (pptr : ptr) (lit : list byte) : M W ptr :=
  let* pptr := writeInt pptr (zlen lit) in
  store_bytes pptr lit ;;; ret (padd pptr (zlen lit)).

(** memcmp of the bytes at [p] with a string literal, which ends in a zero. *)
Fixpoint memcmp_literal (p : ptr) (lit : list byte) (n : nat) {struct n} : M W Z :=
  match n with
  | O => ret 0
  | S n' =>
      let* x := load p in
      match lit with
      | [] => if x =? 0 then throw OutOfBounds else ret x
      | y :: lit' =>
          if negb (x =? Z_of_byte y) then ret (x - Z_of_byte y)
          else memcmp_literal (padd p 1) lit' n'
      end
  end.

(** ** MQTTConnectClient.c *)

Definition MQTTSerialize_connectLength (options : MQTTPacket_connectData) : M W Z :=
  let len := if MQTTVersion options =? 3 then 12
             else if MQTTVersion options =? 4 then 10 else 0 in
  let* n := MQTTstrlen (clientID options) in
  let* n := int (n + 2) in
  let* len := int (len + n) in
  let* len :=
    (if negb (willFlag options =? 0) then
       let* t := MQTTstrlen (topicName (will options)) in
       let* n := int (t + 2) in
       let* m := MQTTstrlen (message (will options)) in
       let* n := int (n + m) in
       let* n := int (n + 2) in
       int (len + n)
     else ret len) in
  let* len :=
    (if string_given (username options) then
       let* n := MQTTstrlen (username options) in
       let* n := int (n + 2) in int (len + n)
     else ret len) in
  if string_given (password options) then
    let* n := MQTTstrlen (password options) in
    let* n := int (n + 2) in int (len + n)
  else ret len.

(** The flags byte the serializer assembles. *)
Definition connect_flags (options : MQTTPacket_connectData) : Z :=
  let flags := 0 in
  let flags := set_flag_cleansession flags (cleansession options) in
  let flags := set_flag_will flags (if negb (willFlag options =? 0) then 1 else 0) in
  let flags := if negb (flag_will flags =? 0)
               then set_flag_willRetain (set_flag_willQoS flags (qos (will options)))
                      (retained (will options))
               else flags in
  let flags := if string_given (username options) then set_flag_username flags 1 else flags in
  if string_given (password options) then set_flag_password flags 1 else flags.

Definition MQTTSerialize_connect (buf : ptr) (buflen : Z) (options : MQTTPacket_connectData) :
    M W Z :=
  let ptr := buf in
  let* len := MQTTSerialize_connectLength options in
  let* total := MQTTPacket_len len in
  if buflen <? total then ret MQTTPACKET_BUFFER_TOO_SHORT
  else
    let header := set_header_type 0 CONNECT in
    let* ptr := writeChar ptr header in
    let* ptr := advance ptr (MQTTPacket_encode ptr len) in
    let* ptr :=
      (if MQTTVersion options =? 4 then
         let* ptr := writeCLiteral ptr lit_MQTT in writeChar ptr 4
       else
         let* ptr := writeCLiteral ptr lit_MQIsdp in writeChar ptr 3) in
    let flags := connect_flags options in
    let* ptr := writeChar ptr flags in
    let* ptr := writeInt ptr (keepAliveInterval options) in
    let* ptr := writeMQTTString ptr (clientID options) in
    let* ptr :=
      (if negb (willFlag options =? 0) then
         let* ptr := writeMQTTString ptr (topicName (will options)) in
         writeMQTTString ptr (message (will options))
       else ret ptr) in
    let* ptr := (if negb (flag_username flags =? 0)
                 then writeMQTTString ptr (username options) else ret ptr) in
    let* ptr := (if negb (flag_password flags =? 0)
                 then writeMQTTString ptr (password options) else ret ptr) in
    psub ptr buf.

(** Output parameters: [*sessionPresent] and [*connack_rc]. *)
Definition MQTTDeserialize_connack (out : Z * Z) (buf : ptr) (buflen : Z) : M W (Z * (Z * Z)) :=
  let* (c, curdata) := readChar buf in
  let header := u8 c in
  if negb (header_type header =? CONNACK) then ret (0, out)
  else
    let* (rc, mylen) := MQTTPacket_decodeBuf curdata in
    let curdata := padd curdata rc in
    let enddata := padd curdata mylen in
    let* d := psub enddata curdata in
    if d <? 2 then ret (rc, out)
    else
      let* (c, curdata) := readChar curdata in
      let flags := u8 c in
      let* (c, curdata) := readChar curdata in
      ret (1, (flag_sessionpresent flags, u8 c)).

Definition MQTTSerialize_zero (buf : ptr) (buflen packettype : Z) : M W Z :=
  let ptr := buf in
  if buflen <? 2 then ret MQTTPACKET_BUFFER_TOO_SHORT
  else
    let header := set_header_type 0 packettype in
    let* ptr := writeChar ptr header in
    let* ptr := advance ptr (MQTTPacket_encode ptr 0) in
    psub ptr buf.

Definition MQTTSerialize_disconnect (buf : ptr) (buflen : Z) : M W Z :=
  MQTTSerialize_zero buf buflen DISCONNECT.

Definition MQTTSerialize_pingreq (buf : ptr) (buflen : Z) : M W Z :=
  MQTTSerialize_zero buf buflen PINGREQ.

(** ** MQTTConnectServer.c *)

Definition MQTTPacket_checkVersion (protocol : MQTTString) (version : Z) : M W Z :=
  let name := data (lenstring protocol) in
  let n := len (lenstring protocol) in
  let* v3 := (if version =? 3 then
                let* r := memcmp_literal name lit_MQIsdp (Z.to_nat (if 6 <? n then 6 else n)) in
                ret (r =? 0)
              else ret false) in
  if v3 : bool then ret 1
  else
    let* v4 := (if version =? 4 then
                  let* r := memcmp_literal name lit_MQTT (Z.to_nat (if 4 <? n then 4 else n)) in
                  ret (r =? 0)
                else ret false) in
    if v4 : bool then ret 1 else ret 0.

(** [enddata - curdata < 3 || !readMQTTLenString(...)], negated: the string and
    the cursor when the field is there. *)
Definition read_credential (str : MQTTString) (curdata enddata : ptr) :
    M W (bool * MQTTString * ptr) :=
  let* d := psub enddata curdata in
  if d <? 3 then ret (false, str, curdata)
  else
    let* (ok, str, curdata) := readMQTTLenString str curdata enddata in
    ret (negb (ok =? 0), str, curdata).

(** The will of the variable header's flags; [false] when a field is missing. *)
Definition read_will (data : MQTTPacket_connectData) (flags : Z) (curdata enddata : ptr) :
    M W (bool * MQTTPacket_connectData * ptr) :=
  if negb (flag_will flags =? 0) then
    let w := set_will_flags (will data) (flag_willQoS flags) (flag_willRetain flags) in
    let* (ok, str, curdata) := readMQTTLenString (topicName w) curdata enddata in
    let w := set_will_topicName w str in
    if ok =? 0 then ret (false, set_will data w, curdata)
    else
      let* (ok, str, curdata) := readMQTTLenString (message w) curdata enddata in
      ret (negb (ok =? 0), set_will data (set_will_message w str), curdata)
  else ret (true, data, curdata).

(** User name and password, and with them the return code. *)
Definition read_credentials (data : MQTTPacket_connectData) (flags : Z) (curdata enddata : ptr) :
    M W (Z * MQTTPacket_connectData) :=
  if negb (flag_username flags =? 0) then
    let* (ok, str, curdata) := read_credential (username data) curdata enddata in
    let data := set_username data str in
    if negb ok then ret (0, data)
    else if negb (flag_password flags =? 0) then
      let* (ok, str, curdata) := read_credential (password data) curdata enddata in
      let data := set_password data str in
      if negb ok then ret (0, data) else ret (1, data)
    else ret (1, data)
  else if negb (flag_password flags =? 0) then ret (0, data)
  else ret (1, data).

(** The block guarded by MQTTPacket_checkVersion: all that follows the protocol
    level. *)
Definition read_connect_data (data : MQTTPacket_connectData) (curdata enddata : ptr) :
    M W (Z * MQTTPacket_connectData) :=
  let* (c, curdata) := readChar curdata in
  let flags := u8 c in
  let* (keepalive, curdata) := readInt curdata in
  let data := set_session data (flag_cleansession flags) (u16 keepalive) in
  let* (ok, str, curdata) := readMQTTLenString (clientID data) curdata enddata in
  let data := set_clientID data str in
  if ok =? 0 then ret (0, data)
  else
    let data := set_willFlag data (flag_will flags) in
    let* (ok, data, curdata) := read_will data flags curdata enddata in
    if negb ok then ret (0, data)
    else read_credentials data flags curdata enddata.

(** The local [Protocol] is only used when its read succeeded, which assigns
    all of it; its initial value is irrelevant. *)
Definition MQTTDeserialize_connect (data : MQTTPacket_connectData) (buf : ptr) (len : Z) :
    M W (Z * MQTTPacket_connectData) :=
  let enddata := padd buf len in
  let* (c, curdata) := readChar buf in
  let header := u8 c in
  if negb (header_type header =? CONNECT) then ret (0, data)
  else
    let* (n, mylen) := MQTTPacket_decodeBuf curdata in
    let curdata := padd curdata n in
    let* (ok, Protocol, curdata) := readMQTTLenString MQTTString_initializer curdata enddata in
    let* bad := (if ok =? 0 then ret true
                 else let* d := psub enddata curdata in ret (d <? 0)) in
    if bad : bool then ret (0, data)
    else
      let* (version, curdata) := readChar curdata in
      let* known := MQTTPacket_checkVersion Protocol version in
      if known =? 0 then ret (0, data) else read_connect_data data curdata enddata.

Definition MQTTSerialize_connack (buf : ptr) (buflen connack_rc sessionPresent : Z) : M W Z :=
  let ptr := buf in
  if buflen <? 2 then ret MQTTPACKET_BUFFER_TOO_SHORT
  else
    let header := set_header_type 0 CONNACK in
    let* ptr := writeChar ptr header in
    let* ptr := advance ptr (MQTTPacket_encode ptr 2) in
    let flags := set_flag_sessionpresent 0 sessionPresent in
    let* ptr := writeChar ptr flags in
    let* ptr := writeChar ptr connack_rc in
    psub ptr buf.

End Connect.

(** ** The packets on the wire *)

Record will_info := {
  wi_topic : list byte; wi_message : list byte; wi_qos : Z; wi_retained : Z
}.

Record connect_info := {
  ci_version : Z; ci_clean : Z; ci_keepalive : Z; ci_client : list byte;
  ci_will : option will_info; ci_user : option (list byte); ci_password : option (list byte)
}.

Definition given {A} (o : option A) : bool := match o with Some _ => true | None => false end.

Definition opt_utf (o : option (list byte)) : list byte :=
  match o with Some bs => utf_bytes bs | None => [] end.

Definition will_bytes (o : option will_info) : list byte :=
  match o with Some w => utf_bytes (wi_topic w) ++ utf_bytes (wi_message w) | None => [] end.

Definition connect_flags_byte (i : connect_info) : Z :=
  ci_clean i mod 2 * 2 +
  match ci_will i with
  | Some w => 4 + wi_qos w mod 4 * 8 + wi_retained w mod 2 * 32
  | None => 0
  end +
  (if given (ci_user i) then 128 else 0) + (if given (ci_password i) then 64 else 0).

(** Protocol name and level: MQTT 3.1.1 for version 4, MQTT 3.1 otherwise. *)
Definition connect_protocol (version : Z) : list byte :=
  if version =? 4 then utf_bytes lit_MQTT ++ [byte_of_Z 4] else utf_bytes lit_MQIsdp ++ [byte_of_Z 3].

Definition connect_payload (i : connect_info) : list byte :=
  utf_bytes (ci_client i) ++ will_bytes (ci_will i) ++ opt_utf (ci_user i) ++ opt_utf (ci_password i).

Definition connect_body (i : connect_info) : list byte :=
  connect_protocol (ci_version i) ++ [byte_of_Z (connect_flags_byte i)] ++
  int_bytes (ci_keepalive i) ++ connect_payload i.

(** The length MQTTSerialize_connectLength computes. *)
Definition connect_length (i : connect_info) : Z :=
  (if ci_version i =? 3 then 12 else if ci_version i =? 4 then 10 else 0) + zlen (connect_payload i).

(** The packet the serializer writes: its length field holds [connect_length]. *)
Definition connect_wire (i : connect_info) : list byte :=
  byte_of_Z (mqtt_header CONNECT 0 0 0) :: remlen_bytes (connect_length i) ++ connect_body i.

Definition credential_is (m : gmap block (list byte)) (b : block) (str : MQTTString)
    (o : option (list byte)) : Prop :=
  match o with
  | Some bs => string_given str = true /\ mqttstring_is m b str bs
  | None => string_given str = false
  end.

Definition will_is (m : gmap block (list byte)) (b : block) (d : MQTTPacket_connectData)
    (o : option will_info) : Prop :=
  match o with
  | Some w => willFlag d <> 0 /\ mqttstring_is m b (topicName (will d)) (wi_topic w) /\
              mqttstring_is m b (message (will d)) (wi_message w) /\
              qos (will d) = wi_qos w /\ retained (will d) = wi_retained w
  | None => willFlag d = 0
  end.

(** The options structure denotes [i]; its strings are outside block [b]. *)
Definition options_denote (m : gmap block (list byte)) (b : block)
    (d : MQTTPacket_connectData) (i : connect_info) : Prop :=
  MQTTVersion d = ci_version i /\ cleansession d = ci_clean i /\
  keepAliveInterval d = ci_keepalive i /\ mqttstring_is m b (clientID d) (ci_client i) /\
  will_is m b d (ci_will i) /\
  credential_is m b (username d) (ci_user i) /\ credential_is m b (password d) (ci_password i).

(** ** The flags byte *)

Lemma connect_flags_range i : 0 <= connect_flags_byte i < 256.
Proof.
  unfold connect_flags_byte.
  destruct (ci_will i), (ci_user i), (ci_password i); cbn [given]; divmod_lia.
Qed.

Lemma connect_flags_is m b d i : options_denote m b d i -> connect_flags d = connect_flags_byte i.
Proof.
  intros (_ & Hc & _ & _ & Hw & Hu & Hp). unfold connect_flags, connect_flags_byte. rewrite Hc.
  assert (string_given (username d) = given (ci_user i)) as ->
    by (destruct (ci_user i); [apply Hu|done]).
  assert (string_given (password d) = given (ci_password i)) as ->
    by (destruct (ci_password i); [apply Hp|done]).
  unfold set_flag_cleansession, set_flag_will, set_flag_willQoS, set_flag_willRetain,
    set_flag_username, set_flag_password, flag_will. cbv zeta.
  rewrite (bf_set_clear 0 1 1) by (simpl; divmod_lia).
  destruct (ci_will i) as [w|]; unfold will_is in Hw.
  - destruct Hw as (Hf & _ & _ & -> & ->). test_false (willFlag d =? 0). cbn [negb].
    rewrite (bf_set_clear _ 2 1) by (simpl; divmod_lia).
    rewrite (bf_get_div _ 2 1) by lia.
    match goal with |- context [negb ?t] => test_false t end. cbn [negb].
    rewrite (bf_set_clear _ 3 2) by (simpl; divmod_lia).
    rewrite (bf_set_clear _ 5 1) by (simpl; divmod_lia).
    destruct (ci_user i), (ci_password i);
      rewrite ?(bf_set_clear _ 7 1) by (simpl; divmod_lia);
      rewrite ?(bf_set_clear _ 6 1) by (simpl; divmod_lia); simpl; divmod_lia.
  - rewrite Hw. cbn [Z.eqb negb]. rewrite (bf_set_clear _ 2 1) by (simpl; divmod_lia).
    rewrite (bf_get_div _ 2 1) by lia.
    match goal with |- context [negb ?t] => test_true t end. cbn [negb].
    destruct (ci_user i), (ci_password i);
      rewrite ?(bf_set_clear _ 7 1) by (simpl; divmod_lia);
      rewrite ?(bf_set_clear _ 6 1) by (simpl; divmod_lia); simpl; divmod_lia.
Qed.

Lemma flag_fields i :
  let f := connect_flags_byte i in
  flag_cleansession f = ci_clean i mod 2 /\
  flag_will f = (if given (ci_will i) then 1 else 0) /\
  flag_willQoS f = match ci_will i with Some w => wi_qos w mod 4 | None => 0 end /\
  flag_willRetain f = match ci_will i with Some w => wi_retained w mod 2 | None => 0 end /\
  flag_username f = (if given (ci_user i) then 1 else 0) /\
  flag_password f = (if given (ci_password i) then 1 else 0).
Proof.
  cbv zeta. unfold flag_cleansession, flag_will, flag_willQoS, flag_willRetain, flag_username,
    flag_password, connect_flags_byte. rewrite !bf_get_div by lia.
  split_and!; destruct (ci_will i), (ci_user i), (ci_password i); simpl; divmod_lia.
Qed.

Lemma connect_length_payload i :
  zlen (connect_payload i) <= connect_length i <= zlen (connect_payload i) + 12.
Proof. unfold connect_length. repeat case_test; lia. Qed.

(** ** The CONNECT serializer *)

Section ConnectSerialize.
Context {W : Type} `{CharSign}.
Implicit Types (s : state W) (b : block).

Lemma writes_literal s b lit : writes s b (fun p => writeCLiteral p lit) (utf_bytes lit).
Proof.
  apply writes_bind; [apply writes_int; lia|]. intros l o Ho.
  unfold bind, store_bytes. destruct lit as [|x lit].
  - rewrite splice_nil. simpl. rewrite Z.add_0_r. by replace (o <=? zlen l) with true by lia.
  - rewrite mem_set_block_eq, set_block_idemp.
    replace ((0 <=? o) && (o + zlen (x :: lit) <=? zlen l)) with (o + zlen (x :: lit) <=? zlen l) by lia.
    by case_test.
Qed.

(** Adding the length of an optional field. *)
Lemma add_credential_run s b str o n :
  credential_is (mem s) b str o -> 0 <= n -> n + zlen (opt_utf o) <= INT_MAX ->
  (if string_given str then
     let* k := MQTTstrlen str in let* k := int (k + 2) in int (n + k)
   else ret n) s = Done (n + zlen (opt_utf o)) s.
Proof.
  unfold INT_MAX. intros Hc Hn Hmax. destruct o as [bs|]; cbn [opt_utf] in *.
  - destruct Hc as [-> Hs]. rewrite utf_bytes_length in *.
    erewrite bind_done by (eapply MQTTstrlen_is; [done|unfold INT_MAX; lia]).
    rewrite bind_int, int_done by (unfold INT_MIN, INT_MAX; lia). f_equal. lia.
  - rewrite Hc. simpl. by rewrite Z.add_0_r.
Qed.

(** Adding the lengths of the will topic and message. *)
Lemma add_will_run s b d o n :
  will_is (mem s) b d o -> 0 <= n -> n + zlen (will_bytes o) <= INT_MAX ->
  (if negb (willFlag d =? 0) then
     let* t := MQTTstrlen (topicName (will d)) in
     let* k := int (t + 2) in
     let* m := MQTTstrlen (message (will d)) in
     let* k := int (k + m) in
     let* k := int (k + 2) in
     int (n + k)
   else ret n) s = Done (n + zlen (will_bytes o)) s.
Proof.
  unfold INT_MAX. intros Hw Hn Hmax. destruct o as [w|]; cbn [will_bytes will_is] in *.
  - destruct Hw as (Hf & Ht & Hm & _). test_false (willFlag d =? 0). cbn [negb].
    rewrite !length_app, !Nat2Z.inj_add, !utf_bytes_length in *.
    erewrite bind_done by (eapply MQTTstrlen_is; [exact Ht|unfold INT_MAX; lia]).
    rewrite bind_int by (unfold INT_MIN, INT_MAX; lia).
    erewrite bind_done by (eapply MQTTstrlen_is; [exact Hm|unfold INT_MAX; lia]).
    rewrite !bind_int, int_done by (unfold INT_MIN, INT_MAX; lia). f_equal. lia.
  - rewrite Hw. simpl. by rewrite Z.add_0_r.
Qed.

Lemma connectLength_run s b d i :
  options_denote (mem s) b d i -> connect_length i <= INT_MAX ->
  MQTTSerialize_connectLength d s = Done (connect_length i) s.
Proof.
  intros (Hv & _ & _ & Hc & Hw & Hu & Hp) Hmax.
  unfold connect_length, connect_payload, INT_MAX in *. unfold MQTTSerialize_connectLength. rewrite Hv.
  set (base := if ci_version i =? 3 then 12 else _) in *.
  assert (0 <= base <= 12) by (unfold base; repeat case_test; lia).
  rewrite !length_app, !Nat2Z.inj_add, utf_bytes_length in *.
  erewrite bind_done by (eapply MQTTstrlen_is; [done|unfold INT_MAX; lia]).
  rewrite !bind_int by (unfold INT_MIN, INT_MAX; lia).
  erewrite bind_done by (eapply add_will_run; [exact Hw|lia|unfold INT_MAX; lia]).
  erewrite bind_done by (eapply add_credential_run; [exact Hu|lia|unfold INT_MAX; lia]).
  erewrite add_credential_run by (exact Hp || (unfold INT_MAX; lia)). f_equal. lia.
Qed.

Lemma writes_credential s b str o (flag : Z) :
  credential_is (mem s) b str o -> zlen (opt_utf o) <= INT_MAX ->
  flag = (if given o then 1 else 0) ->
  writes s b (fun p => if negb (flag =? 0) then writeMQTTString p str else ret p) (opt_utf o).
Proof.
  intros Hc Hmax ->. destruct o as [bs|]; cbn [given opt_utf Z.eqb negb] in *; [|apply writes_nil].
  rewrite utf_bytes_length in Hmax. apply writes_mqttstring; [apply Hc|unfold INT_MAX in *; lia].
Qed.

Lemma writes_will s b d o :
  will_is (mem s) b d o -> zlen (will_bytes o) <= INT_MAX ->
  writes s b (fun p =>
    if negb (willFlag d =? 0) then
      let* p := writeMQTTString p (topicName (will d)) in writeMQTTString p (message (will d))
    else ret p) (will_bytes o).
Proof.
  intros Hw Hmax. unfold INT_MAX in Hmax. destruct o as [w|]; cbn [will_is will_bytes] in *.
  - destruct Hw as (Hf & Ht & Hm & _). test_false (willFlag d =? 0). cbn [negb].
    rewrite length_app, Nat2Z.inj_add, !utf_bytes_length in Hmax.
    apply (writes_bind s b (fun p => writeMQTTString p _));
      apply writes_mqttstring; (done || unfold INT_MAX; lia).
  - rewrite Hw. apply writes_nil.
Qed.

Lemma writes_protocol s b d v :
  MQTTVersion d = v ->
  writes s b (fun p =>
    if MQTTVersion d =? 4 then let* p := writeCLiteral p lit_MQTT in writeChar p 4
    else let* p := writeCLiteral p lit_MQIsdp in writeChar p 3) (connect_protocol v).
Proof.
  intros ->. unfold connect_protocol. apply writes_if;
    (apply (writes_bind s b (fun p => writeCLiteral p _)); [apply writes_literal|apply writes_char]).
Qed.

(** The exact behaviour of the CONNECT serializer, for every protocol version
    the caller asks for. *)
Lemma serialize_connect_run s b o l buflen d i :
  mem s !! b = Some l -> 0 <= o <= zlen l -> options_denote (mem s) b d i ->
  0 <= ci_keepalive i -> connect_length i <= REMLEN_MAX ->
  exists total,
    packet_size (connect_length i) <= total <= packet_size (connect_length i) + 1 /\
    MQTTSerialize_connect (Ptr b o) buflen d s =
      if buflen <? total then Done MQTTPACKET_BUFFER_TOO_SHORT s
      else if o + zlen (connect_wire i) <=? zlen l
           then Done (zlen (connect_wire i)) (set_block s b (splice l o (connect_wire i)))
           else Fault OutOfBounds.
Proof.
  intros Hb Ho Hd Hka Hmax.
  assert (Hrem : 0 <= connect_length i <= REMLEN_MAX).
  { split; [|done]. pose proof (connect_length_payload i). lia. }
  destruct (MQTTPacket_len (connect_length i) s) as [total s'|] eqn:Elen;
    [|by rewrite packet_len_run in Elen].
  pose proof (packet_len_guard _ _ _ _ Hrem Elen) as [-> Htotal].
  exists total. split; [done|]. unfold REMLEN_MAX in *. unfold MQTTSerialize_connect.
  erewrite bind_done by (eapply connectLength_run; [exact Hd|unfold INT_MAX; lia]).
  erewrite bind_done by exact Elen. cbv zeta. case_test; [done|].
  rewrite header_assign_type. unfold connect_wire, connect_body, connect_payload.
  assert (Hpay : zlen (connect_payload i) <= 268435455)
    by (pose proof (connect_length_payload i); lia).
  unfold connect_payload in Hpay. rewrite !length_app, !Nat2Z.inj_add, utf_bytes_length in Hpay.
  pose proof (connect_flags_is _ _ _ _ Hd) as Hflags.
  destruct (flag_fields i) as (_ & _ & _ & _ & Hfu & Hfp).
  destruct Hd as (Hv & _ & Hk & Hc & Hw & Hu & Hp). rewrite Hflags, Hk.
  start_writing; [|done..].
  eapply (serializes_bind s b o _ _ [_]); [apply writes_char|].
  eapply (serializes_bind s b o); [apply encode_writes; unfold INT_MAX; lia|].
  eapply (serializes_bind s b o); [by apply writes_protocol|].
  eapply (serializes_bind s b o); [apply writes_char|].
  eapply (serializes_bind s b o); [by apply writes_int|].
  eapply (serializes_bind s b o); [apply writes_mqttstring; [done|unfold INT_MAX; lia]|].
  eapply (serializes_bind s b o); [apply writes_will; [done|unfold INT_MAX; lia]|].
  eapply (serializes_bind s b o); [apply writes_credential; [done|unfold INT_MAX; lia|done]|].
  apply serializes_last, writes_credential; [done|unfold INT_MAX; lia|done].
Qed.
End ConnectSerialize.


(** ** The CONNECT deserializer *)

Definition will_held (m : gmap block (list byte)) (b : block) (d : MQTTPacket_connectData)
    (o : option will_info) : Prop :=
  match o with
  | Some w => willFlag d = 1 /\ qos (will d) = wi_qos w mod 4 /\
              retained (will d) = wi_retained w mod 2 /\
              held m b (topicName (will d)) (wi_topic w) /\ held m b (message (will d)) (wi_message w)
  | None => willFlag d = 0
  end.

Definition opt_held (m : gmap block (list byte)) (b : block) (str : MQTTString)
    (o : option (list byte)) : Prop :=
  match o with Some bs => held m b str bs | None => True end.

(** What a successful CONNECT deserialization put into the structure. *)
Definition connect_held (m : gmap block (list byte)) (b : block) (d : MQTTPacket_connectData)
    (i : connect_info) : Prop :=
  cleansession d = ci_clean i mod 2 /\ keepAliveInterval d = ci_keepalive i /\
  held m b (clientID d) (ci_client i) /\ will_held m b d (ci_will i) /\
  opt_held m b (username d) (ci_user i) /\ opt_held m b (password d) (ci_password i).

(** The credentials the deserializer accepts: no password without a user name,
    and the last field of the packet not empty. *)
Definition credentials_ok (i : connect_info) : Prop :=
  match ci_user i, ci_password i with
  | None, None => True
  | Some u, None => u <> []
  | Some _, Some p => p <> []
  | None, Some _ => False
  end.

(** Every string of the packet can be written with a 16-bit length. *)
Definition strings_short (i : connect_info) : Prop :=
  zlen (ci_client i) <= 65535 /\
  match ci_will i with
  | Some w => zlen (wi_topic w) <= 65535 /\ zlen (wi_message w) <= 65535
  | None => True
  end /\
  match ci_user i with Some u => zlen u <= 65535 | None => True end /\
  match ci_password i with Some p => zlen p <= 65535 | None => True end.

Section ConnectDeserialize.
Context {W : Type} `{CharSign}.
Implicit Types (s : state W) (b : block).

Lemma memcmp_literal_eq s b o lit :
  bytes_at (mem s) b o lit -> memcmp_literal (Ptr b o) lit (length lit) s = Done 0 s.
Proof.
  revert o. induction lit as [|x lit IH]; intros o Hat; [done|]. cbn [length memcmp_literal].
  rewrite (bind_done _ _ _ _ _ (load_at _ _ _ _ _ Hat)), Z.eqb_refl.
  apply IH. by eapply bytes_at_tail.
Qed.

Lemma read_credential_utf s b o e bs rest str :
  bytes_at (mem s) b o (utf_bytes bs ++ rest) -> zlen bs <= 65535 -> o + 2 + zlen bs <= e ->
  o + 3 <= e ->
  exists str', read_credential str (Ptr b o) (Ptr b e) s =
      Done (true, str', Ptr b (o + 2 + zlen bs)) s /\
    held (mem s) b str' bs /\ bytes_at (mem s) b (o + 2 + zlen bs) rest.
Proof.
  intros Hat Hmax He H3. destruct (held_utf s b o e bs rest str Hat Hmax He) as (str' & Hrun & ? & ?).
  exists str'. split; [|done]. unfold read_credential. run_psub. test_false (e - o <? 3).
  by rewrite (bind_done _ _ _ _ _ Hrun).
Qed.

Definition will_fields_held (m : gmap block (list byte)) (b : block) (w : MQTTPacket_willOptions)
    (o : option will_info) : Prop :=
  match o with
  | Some wi => qos w = wi_qos wi mod 4 /\ retained w = wi_retained wi mod 2 /\
               held m b (topicName w) (wi_topic wi) /\ held m b (message w) (wi_message wi)
  | None => True
  end.

Lemma read_will_run s b o e d i rest :
  strings_short i -> bytes_at (mem s) b o (will_bytes (ci_will i) ++ rest) ->
  o + zlen (will_bytes (ci_will i)) <= e ->
  exists w, read_will d (connect_flags_byte i) (Ptr b o) (Ptr b e) s =
      Done (true, set_will d w, Ptr b (o + zlen (will_bytes (ci_will i)))) s /\
    will_fields_held (mem s) b w (ci_will i) /\
    bytes_at (mem s) b (o + zlen (will_bytes (ci_will i))) rest.
Proof.
  intros (_ & Hshort & _) Hat He. destruct (flag_fields i) as (_ & Hf & Hq & Hr & _).
  unfold read_will. rewrite Hf. destruct (ci_will i) as [wi|] eqn:Ew; cbn [will_bytes given] in *.
  - cbn [Z.eqb negb]. rewrite Hq, Hr. rewrite length_app, Nat2Z.inj_add, !utf_bytes_length in *.
    rewrite <- app_assoc in Hat. destruct Hshort as [Ht Hm].
    set (w := set_will_flags _ _ _).
    destruct (held_utf s b o e _ _ (topicName w) Hat Ht ltac:(lia)) as (t & Hrun & Hheld & Hat').
    rewrite (bind_done _ _ _ _ _ Hrun). cbn [Z.eqb].
    destruct (held_utf s b _ e _ _ (message (set_will_topicName w t)) Hat' Hm ltac:(lia))
      as (g & Hrun' & Hheld' & Hrest).
    rewrite (bind_done _ _ _ _ _ Hrun'). unfold ret. cbn [Z.eqb negb].
    eexists. split_and!.
    + do 3 f_equal. lia.
    + by split_and!.
    + eapply bytes_at_eq; [exact Hrest|lia].
  - exists (will d). cbn [Z.eqb negb length]. rewrite Z.add_0_r.
    split_and!; [by destruct d|done|done].
Qed.

Lemma opt_utf_length o : zlen (opt_utf o) = match o with Some bs => 2 + zlen bs | None => 0 end.
Proof. destruct o; [apply utf_bytes_length|done]. Qed.

(** What the deserializer says of the credentials, which are all that is left of the packet. *)
Definition credentials_read (i : connect_info) (rc : Z) (found : Prop) : Prop :=
  credentials_ok i /\ rc = 1 /\ found \/ ~ credentials_ok i /\ rc = 0.

Lemma credentials_read_mono i rc (found found' : Prop) :
  credentials_read i rc found -> (found -> found') -> credentials_read i rc found'.
Proof. intros [(? & ? & ?)|?] Hf; [left; auto|by right]. Qed.

Lemma read_credential_short s b o e str :
  e < o + 3 -> read_credential str (Ptr b o) (Ptr b e) s = Done (false, str, Ptr b o) s.
Proof. intros He. unfold read_credential. run_psub. by test_true (e - o <? 3). Qed.

Lemma read_credentials_run s b o d i rest :
  strings_short i ->
  bytes_at (mem s) b o (opt_utf (ci_user i) ++ opt_utf (ci_password i) ++ rest) ->
  let e := o + zlen (opt_utf (ci_user i)) + zlen (opt_utf (ci_password i)) in
  exists rc d', read_credentials d (connect_flags_byte i) (Ptr b o) (Ptr b e) s = Done (rc, d') s /\
    credentials_read i rc (exists u p, d' = set_password (set_username d u) p /\
      opt_held (mem s) b u (ci_user i) /\ opt_held (mem s) b p (ci_password i)).
Proof.
  intros (_ & _ & Hsu & Hsp) Hat e. destruct (flag_fields i) as (_ & _ & _ & _ & Hu & Hp).
  unfold read_credentials. rewrite Hu, Hp. unfold credentials_read, credentials_ok.
  unfold e. rewrite !opt_utf_length. clear e.
  destruct (ci_user i) as [bs|]; cbn [opt_utf given Z.eqb negb] in *.
  2: { destruct (ci_password i); do 2 eexists; (split; [done|]); [right; tauto|left]. split_and!; [done..|].
       exists (username d), (password d). by destruct d. }
  set (e := o + (2 + zlen bs) + _). assert (Hroom : o + 2 + zlen bs <= e) by (unfold e; destruct (ci_password i); lia).
  destruct (decide (o + 3 <= e)) as [He|He].
  - destruct (read_credential_utf s b o e bs _ (username d) Hat Hsu Hroom He)
      as (u & Hrun & Hheld & Hat').
    rewrite (bind_done _ _ _ _ _ Hrun). cbn [negb]. set (d' := set_username d u).
    destruct (ci_password i) as [bp|]; cbn [opt_utf given Z.eqb negb] in *; unfold e in *.
    + destruct (decide (bp = [])) as [->|Hbp].
      * erewrite bind_done by (apply read_credential_short; simpl; lia).
        do 2 eexists. split; [done|]. right. tauto.
      * destruct (read_credential_utf s b _ (o + (2 + zlen bs) + (2 + zlen bp)) bp _ (password d') Hat' Hsp ltac:(lia))
          as (p & Hrun' & Hheld' & _); [destruct bp; [done|simpl in *; lia]|].
        rewrite (bind_done _ _ _ _ _ Hrun'). do 2 eexists. split; [done|]. left. split_and!; [done..|]. by exists u, p.
    + do 2 eexists. split; [done|]. left. split_and!; [by intros ->; cbn in He; lia|done|].
      exists u, (password d). by destruct d.
  - destruct bs as [|x bs]; [|unfold e in *; destruct (ci_password i); simpl in *; lia].
    destruct (ci_password i) as [bp|]; [unfold e in *; simpl in *; lia|].
    erewrite bind_done by (apply read_credential_short; unfold e; simpl; lia).
    do 2 eexists. split; [done|]. right. split; [by intros Hne|done].
Qed.

Lemma checkVersion_run s b str v :
  let lit := if v =? 4 then lit_MQTT else lit_MQIsdp in
  v = 3 \/ v = 4 -> held (mem s) b str lit -> MQTTPacket_checkVersion str v s = Done 1 s.
Proof.
  intros lit Hv (_ & Hl & o & Hd & Hat). unfold MQTTPacket_checkVersion. rewrite Hl, Hd.
  unfold lit in *. destruct Hv as [-> | ->].
  - cbn [Z.eqb Pos.eqb] in *. rewrite bind_assoc.
    rewrite (bind_done _ _ _ _ _ (memcmp_literal_eq s b o lit_MQIsdp Hat)). done.
  - cbn [Z.eqb Pos.eqb] in *. run_ret. rewrite bind_assoc.
    rewrite (bind_done _ _ _ _ _ (memcmp_literal_eq s b o lit_MQTT Hat)). done.
Qed.

Lemma connect_protocol_eq v :
  connect_protocol v = utf_bytes (if v =? 4 then lit_MQTT else lit_MQIsdp) ++
    [byte_of_Z (if v =? 4 then 4 else 3)].
Proof. unfold connect_protocol. by destruct (v =? 4). Qed.

Lemma connect_body_length i :
  ci_version i = 3 \/ ci_version i = 4 -> zlen (connect_body i) = connect_length i.
Proof.
  unfold connect_body, connect_length. rewrite !length_app. intros [-> | ->]; cbn [Z.eqb Pos.eqb]; simpl length; lia.
Qed.

(** Reading back the fields behind the protocol level. *)
Lemma read_connect_data_run s b o d i rest :
  bytes_at (mem s) b o ([byte_of_Z (connect_flags_byte i)] ++ int_bytes (ci_keepalive i) ++
    connect_payload i ++ rest) ->
  0 <= ci_keepalive i < 65536 -> strings_short i ->
  exists rc d', read_connect_data d (Ptr b o) (Ptr b (o + 3 + zlen (connect_payload i))) s =
      Done (rc, d') s /\ credentials_read i rc (connect_held (mem s) b d' i).
Proof.
  intros Hat Hk Hshort. set (e := o + 3 + _).
  assert (He : e = o + 3 + (2 + zlen (ci_client i) + zlen (will_bytes (ci_will i)) +
                  zlen (opt_utf (ci_user i)) + zlen (opt_utf (ci_password i)))).
  { unfold e, connect_payload. rewrite !length_app, !Nat2Z.inj_add, utf_bytes_length. lia. }
  unfold read_connect_data. call readChar_byte.
  rewrite u8_readChar by apply connect_flags_range. apply bytes_at_tail in Hat.
  call readInt_int_bytes. rewrite u16_small by lia.
  apply bytes_at_app in Hat as [_ Hat]. unfold connect_payload in Hat. rewrite <- !app_assoc in Hat.
  destruct (flag_fields i) as (Hclean & Hwill & _). rewrite Hclean, Hwill.
  set (d1 := set_session _ _ _).
  destruct (held_utf s b _ e _ _ (clientID d1) Hat ltac:(apply Hshort) ltac:(simpl; lia))
    as (c & Hrun & Hheld & Hat2).
  replace (o + 1 + zlen (int_bytes (ci_keepalive i))) with (o + 1 + 2) in * by done.
  rewrite (bind_done _ _ _ _ _ Hrun). cbn [Z.eqb].
  set (d2 := set_willFlag _ _).
  destruct (read_will_run s b _ e d2 i _ Hshort Hat2 ltac:(lia)) as (w & Hw & Hwheld & Hat3).
  rewrite (bind_done _ _ _ _ _ Hw). cbn [negb].
  destruct (read_credentials_run s b _ (set_will d2 w) i _ Hshort Hat3) as (rc & d' & Hc & Hread).
  replace e with (o + 1 + 2 + 2 + zlen (ci_client i) + zlen (will_bytes (ci_will i)) +
    zlen (opt_utf (ci_user i)) + zlen (opt_utf (ci_password i))) by lia.
  exists rc, d'. split; [exact Hc|]. eapply credentials_read_mono; [exact Hread|].
  intros (u & p & -> & Hu & Hp). split_and!; try done.
  unfold will_held. unfold will_fields_held in Hwheld. destruct (ci_will i); [|done].
  by destruct Hwheld as (? & ? & ? & ?).
Qed.

(** Reading back a well-formed CONNECT packet. *)
Lemma deserialize_connect_packet s b o d i rest :
  let wire := mqtt_packet (mqtt_header CONNECT 0 0 0) (connect_body i) in
  bytes_at (mem s) b o (wire ++ rest) ->
  ci_version i = 3 \/ ci_version i = 4 -> 0 <= ci_keepalive i < 65536 ->
  strings_short i -> connect_length i <= REMLEN_MAX ->
  exists rc d' c, MQTTDeserialize_connect d (Ptr b o) (zlen wire) s = Done (rc, d') (cursor_moved s b c) /\
    credentials_read i rc (connect_held (mem s) b d' i).
Proof.
  intros wire Hat Hv Hk Hshort Hmax.
  pose proof (connect_body_length i Hv) as Hlen. pose proof (connect_length_payload i).
  assert (Hsize : zlen wire = packet_size (zlen (connect_body i))) by apply mqtt_packet_length.
  rewrite Hsize. unfold packet_size. unfold wire in Hat.
  apply frame_at in Hat as (Hh & Hrem & Hbody).
  set (n := zlen (remlen_bytes (zlen (connect_body i)))) in *.
  set (e := o + (1 + n + zlen (connect_body i))).
  unfold MQTTDeserialize_connect. cbn [padd]. fold e.
  call readChar_byte. rewrite u8_readChar by apply mqtt_header_range. rewrite header_type_is.
  change (negb (CONNECT mod 16 =? CONNECT)) with false. cbv iota.
  erewrite bind_done by (eapply decodeBuf_remlen; [exact Hrem|lia]).
  cbv beta iota zeta. cbn [padd]. fold n. set (s' := State _ _ _).
  unfold connect_body in Hbody. rewrite connect_protocol_eq, <- !app_assoc in Hbody.
  set (v := if ci_version i =? 4 then 4 else 3) in *.
  assert (v = 3 \/ v = 4) by (unfold v; case_match; lia).
  set (lit := if ci_version i =? 4 then lit_MQTT else lit_MQIsdp) in *.
  assert (zlen lit <= 6 /\ zlen (connect_body i) = zlen lit + 6 + zlen (connect_payload i)) as [Hlit Hpay].
  { rewrite Hlen. unfold lit, connect_length. destruct Hv as [-> | ->]; cbn [Z.eqb Pos.eqb]; simpl length; lia. }
  destruct (held_utf s' b _ e lit _ MQTTString_initializer Hbody ltac:(lia)
              ltac:(unfold e; lia)) as (proto & Hrun & Hproto & Hat1).
  rewrite (bind_done _ _ _ _ _ Hrun). cbn [Z.eqb]. rewrite bind_assoc. run_psub.
  match goal with |- context [?t <? 0] => test_false (t <? 0) end. run_ret.
  call readChar_byte. rewrite to_char_ascii by lia. apply bytes_at_tail in Hat1.
  rewrite (bind_done _ _ _ _ _ (checkVersion_run s' b proto v ltac:(done)
    ltac:(unfold lit, v in *; destruct (ci_version i =? 4); done))). cbn [Z.eqb].
  destruct (read_connect_data_run s' b _ d i rest Hat1 Hk Hshort) as (rc & d' & Hd & Hread).
  exists rc, d', (o + 1 + n). split; [|done]. replace e with
    (o + 1 + n + 2 + zlen lit + 1 + 3 + zlen (connect_payload i)) by (unfold e; lia).
  apply Hd.
Qed.
End ConnectDeserialize.

(** ** CONNECT packets of arbitrary bytes *)

(** A successful CONNECT deserialization found its strings between [lo] and
    [hi]; credentials the packet does not announce are the caller's. *)
Definition connect_inside (b : block) (lo hi : Z) (d0 d : MQTTPacket_connectData) : Prop :=
  inside b lo hi (clientID d) /\
  (willFlag d <> 0 -> inside b lo hi (topicName (will d)) /\ inside b lo hi (message (will d))) /\
  (username d = username d0 \/ inside b lo hi (username d)) /\
  (password d = password d0 \/ inside b lo hi (password d)).

Section ConnectAny.
Context {W : Type} `{CharSign}.
Variables (s : state W) (b : block) (l : list byte).
Hypothesis Hb : mem s !! b = Some l.

Lemma connect_inside_weaken lo lo' hi d0 d :
  lo <= lo' -> connect_inside b lo' hi d0 d -> connect_inside b lo hi d0 d.
Proof.
  intros Hlo (Hc & Hw & Hu & Hp). split_and!.
  - by eapply inside_weaken.
  - intros Hf. destruct (Hw Hf). split; by eapply inside_weaken.
  - destruct Hu; [by left|right]. by eapply inside_weaken.
  - destruct Hp; [by left|right]. by eapply inside_weaken.
Qed.

Lemma memcmp_literal_total (n : nat) lit o :
  0 <= o -> o + Z.of_nat n <= zlen l -> (n <= length lit)%nat ->
  exists r, memcmp_literal (Ptr b o) lit n s = Done r s.
Proof.
  revert lit o. induction n as [|n IH]; intros lit o Ho Hn Hlit; [by exists 0|].
  cbn [memcmp_literal]. destruct (load_total s b o l Hb Ho ltac:(lia)) as (x & _ & Hx).
  rewrite (bind_done _ _ _ _ _ Hx). destruct lit as [|y lit]; [simpl in Hlit; lia|].
  destruct (negb _); [by eexists|]. apply IH; simpl in Hlit; lia.
Qed.

Lemma checkVersion_total str v lo hi :
  0 <= lo -> hi <= zlen l -> inside b lo hi str ->
  exists r, MQTTPacket_checkVersion str v s = Done r s.
Proof.
  intros Hlo Hhi (_ & Hl & o & Hd & ? & ?). unfold MQTTPacket_checkVersion. rewrite Hd. cbv zeta.
  set (n := len (lenstring str)) in *.
  destruct (memcmp_literal_total (Z.to_nat (if 6 <? n then 6 else n)) lit_MQIsdp o) as (r3 & H3);
    [lia|case_test; lia|simpl; case_test; lia|].
  destruct (memcmp_literal_total (Z.to_nat (if 4 <? n then 4 else n)) lit_MQTT o) as (r4 & H4);
    [lia|case_test; lia|simpl; case_test; lia|].
  set (n3 := Z.to_nat (if 6 <? n then 6 else n)) in *. set (n4 := Z.to_nat (if 4 <? n then 4 else n)) in *.
  clearbody n3 n4. unfold bind, ret.
  destruct (v =? 3), (v =? 4); rewrite ?H3, ?H4; repeat case_match; simplify_eq; eauto.
Qed.

Lemma read_credential_total o e str :
  0 <= o -> e <= zlen l ->
  exists ok str' o', read_credential str (Ptr b o) (Ptr b e) s = Done (ok, str', Ptr b o') s /\
    (ok = true -> inside b o e str' /\ o <= o' <= e).
Proof.
  intros Ho He. unfold read_credential. run_psub. case_test; [by do 3 eexists|].
  destruct (readMQTTLenString_inside s b o e l str Hb Ho He) as (rc & str' & o' & Hrun & Hres).
  rewrite (bind_done _ _ _ _ _ Hrun). do 3 eexists. split; [done|].
  by destruct Hres as [->|(-> & ?)].
Qed.

Lemma read_will_total o e d f :
  0 <= o -> e <= zlen l ->
  exists ok w o', read_will d f (Ptr b o) (Ptr b e) s = Done (ok, set_will d w, Ptr b o') s /\
    (ok = true -> o <= o' /\
       (flag_will f <> 0 -> inside b o e (topicName w) /\ inside b o e (message w))).
Proof.
  intros Ho He. unfold read_will. destruct (Z.eqb_spec (flag_will f) 0); cbn [negb].
  { exists true, (will d), o. by destruct d. }
  set (w := set_will_flags _ _ _).
  destruct (readMQTTLenString_inside s b o e l (topicName w) Hb Ho He) as (rc & t & o1 & Hrun & Hres).
  rewrite (bind_done _ _ _ _ _ Hrun).
  destruct Hres as [->|(-> & Ht & Ho1)]; cbn [Z.eqb]; [by do 3 eexists|].
  destruct (readMQTTLenString_inside s b o1 e l (message (set_will_topicName w t)) Hb ltac:(lia) He)
    as (rc & g & o2 & Hrun2 & Hres).
  rewrite (bind_done _ _ _ _ _ Hrun2). do 3 eexists. split; [done|].
  destruct Hres as [->|(-> & Hg & Ho2)]; [done|]. intros _. split; [lia|]. intros _.
  split; [done|]. eapply inside_weaken; [|exact Hg]. lia.
Qed.

Lemma read_credentials_total o e d f :
  0 <= o -> e <= zlen l ->
  exists rc u p, read_credentials d f (Ptr b o) (Ptr b e) s =
      Done (rc, set_password (set_username d u) p) s /\
    (rc = 0 \/ rc = 1 /\ (u = username d \/ inside b o e u) /\ (p = password d \/ inside b o e p)).
Proof.
  intros Ho He. unfold read_credentials.
  assert (Hid : set_password (set_username d (username d)) (password d) = d) by by destruct d.
  destruct (flag_username f =? 0); cbn [negb].
  { destruct (flag_password f =? 0); cbn [negb]; [exists 1|exists 0]; exists (username d), (password d);
      rewrite Hid; (split; [done|]); eauto 8. }
  destruct (read_credential_total o e (username d) Ho He) as (ok & u & o1 & Hrun & Hres).
  rewrite (bind_done _ _ _ _ _ Hrun).
  assert (Hid' : set_password (set_username d u) (password d) = set_username d u) by by destruct d.
  destruct ok; cbn [negb].
  2: { exists 0, u, (password d). rewrite Hid'. eauto. }
  destruct Hres as [Hu Ho1]; [done|]. destruct (flag_password f =? 0); cbn [negb].
  { exists 1, u, (password d). rewrite Hid'. eauto 8. }
  destruct (read_credential_total o1 e (password (set_username d u)) ltac:(lia) He)
    as (ok & p & o2 & Hrun2 & Hres).
  rewrite (bind_done _ _ _ _ _ Hrun2). destruct ok; cbn [negb].
  - exists 1, u, p. split; [done|]. right. split_and!; [done|by right|]. right.
    eapply inside_weaken; [|by apply Hres]. lia.
  - exists 0, u, p. eauto.
Qed.

Lemma read_connect_data_total o e d :
  0 <= o -> o + 3 <= zlen l -> e <= zlen l ->
  exists rc d', read_connect_data d (Ptr b o) (Ptr b e) s = Done (rc, d') s /\
    (rc = 0 \/ rc = 1 /\ connect_inside b o e d d').
Proof.
  intros Ho Ho3 He. unfold read_connect_data.
  destruct (bytes_at_any _ _ o l 1 Hb Ho ltac:(lia)) as ([|x [|]] & ? & Hat); try done.
  call readChar_at. rewrite u8_readChar_byte.
  destruct (readInt_total s b (o + 1) l Hb ltac:(lia) ltac:(lia)) as (ka & _ & Hka).
  rewrite (bind_done _ _ _ _ _ Hka). cbv beta iota zeta. set (d1 := set_session _ _ _).
  destruct (readMQTTLenString_inside s b (o + 1 + 2) e l (clientID d1) Hb ltac:(lia) He)
    as (rc & c & o1 & Hrun & Hres).
  rewrite (bind_done _ _ _ _ _ Hrun).
  destruct Hres as [->|(-> & Hc & Ho1)]; cbn [Z.eqb]; [do 2 eexists; eauto|].
  set (d2 := set_willFlag _ _).
  destruct (read_will_total o1 e d2 (Z_of_byte x) ltac:(lia) He) as (ok & w & o2 & Hw & Hres).
  rewrite (bind_done _ _ _ _ _ Hw). destruct ok; cbn [negb]; [|do 2 eexists; eauto].
  destruct Hres as [Ho2 Hwill]; [done|].
  destruct (read_credentials_total o2 e (set_will d2 w) (Z_of_byte x) ltac:(lia) He)
    as (rc & u & p & Hcr & Hres).
  do 2 eexists. split; [exact Hcr|]. destruct Hres as [?|(-> & Hu & Hp)]; [by left|right].
  split; [done|]. split_and!.
  - eapply inside_weaken; [|exact Hc]. lia.
  - intros Hf. destruct (Hwill Hf). split; (eapply inside_weaken; [|done]); lia.
  - destruct Hu; [by left|right]. eapply inside_weaken; [|done]. lia.
  - destruct Hp; [by left|right]. eapply inside_weaken; [|done]. lia.
Qed.
End ConnectAny.

(** ** CONNACK and the packets without a body *)

Definition connack_packet (connack_rc sessionPresent : Z) : list byte :=
  mqtt_packet (mqtt_header CONNACK 0 0 0) [byte_of_Z (sessionPresent mod 2); byte_of_Z connack_rc].

Section ConnackFacts.
Context {W : Type} `{CharSign}.
Implicit Types (s : state W) (b : block).

Lemma serialize_zero_run s b o l buflen packettype :
  mem s !! b = Some l -> 0 <= o <= zlen l ->
  MQTTSerialize_zero (Ptr b o) buflen packettype s =
    let wire := mqtt_packet (mqtt_header packettype 0 0 0) [] in
    if buflen <? 2 then Done MQTTPACKET_BUFFER_TOO_SHORT s
    else if o + 2 <=? zlen l then Done 2 (set_block s b (splice l o wire)) else Fault OutOfBounds.
Proof.
  intros Hb Ho. unfold MQTTSerialize_zero. cbv zeta. case_test; [done|].
  rewrite header_assign_type. set (h := mqtt_header _ _ _ _).
  change 2 with (zlen (mqtt_packet h [])).
  unfold mqtt_packet. rewrite app_nil_r. start_writing; [|done..].
  eapply (serializes_bind s b o _ _ [_]); [apply writes_char|].
  apply serializes_last, encode_writes. unfold INT_MAX. simpl. lia.
Qed.

Lemma serialize_connack_run s b o l buflen rc sp :
  mem s !! b = Some l -> 0 <= o <= zlen l ->
  MQTTSerialize_connack (Ptr b o) buflen rc sp s =
    if buflen <? 2 then Done MQTTPACKET_BUFFER_TOO_SHORT s
    else if o + 4 <=? zlen l then Done 4 (set_block s b (splice l o (connack_packet rc sp)))
    else Fault OutOfBounds.
Proof.
  intros Hb Ho. unfold MQTTSerialize_connack. cbv zeta. case_test; [done|].
  rewrite header_assign_type. change 4 with (zlen (connack_packet rc sp)).
  unfold connack_packet, mqtt_packet. set (h := mqtt_header _ _ _ _).
  replace (sp mod 2) with (set_flag_sessionpresent 0 sp).
  2: { unfold set_flag_sessionpresent. rewrite bf_set_clear by (simpl; divmod_lia). apply Z.mul_1_r. }
  change (zlen [_; _]) with 2. start_writing; [|done..].
  eapply (serializes_bind s b o _ _ [_]); [apply writes_char|].
  eapply (serializes_bind s b o); [apply encode_writes; unfold INT_MAX; lia|].
  eapply (serializes_bind s b o _ _ [_] [_]); [apply writes_char|].
  apply serializes_last, writes_char.
Qed.

Lemma deserialize_connack_frame s b o out buflen x bs n v :
  bytes_at (mem s) b o (x :: bs) -> parse_remlen 4 bs = Some (n, v) -> n <= 4 ->
  header_type (Z_of_byte x) = CONNACK ->
  MQTTDeserialize_connack out (Ptr b o) buflen s =
    (if v <? 2 then ret (n, out)
     else
       let* (c, p) := readChar (Ptr b (o + 1 + n)) in
       let* (c', p) := readChar p in
       ret (1, (flag_sessionpresent (u8 c), u8 c'))) (cursor_moved s b (o + 1 + n)).
Proof.
  intros Hat Hparse Hn Hx. unfold MQTTDeserialize_connack. call readChar_at.
  rewrite u8_readChar_byte, Hx, Z.eqb_refl. cbn [negb]. apply bytes_at_tail in Hat.
  call decodeBuf_frame. run_psub.
  by replace (o + 1 + n + v - (o + 1 + n)) with v by lia.
Qed.

Lemma deserialize_connack_packet s b o out n connack_rc sessionPresent rest :
  bytes_at (mem s) b o (connack_packet connack_rc sessionPresent ++ rest) -> 0 <= connack_rc < 256 ->
  MQTTDeserialize_connack out (Ptr b o) n s =
    Done (1, (sessionPresent mod 2, connack_rc)) (cursor_moved s b (o + 2)).
Proof.
  intros Hat Hrc. pose proof (frame_at _ _ _ _ _ _ Hat) as (_ & _ & Hbody).
  unfold connack_packet, mqtt_packet in Hat. rewrite <- app_comm_cons in Hat.
  erewrite deserialize_connack_frame;
    [|exact Hat|rewrite <- app_assoc; apply parse_remlen_bytes; done|done|done].
  change (zlen [_; _]) with 2 in *. cbn [Z.ltb Z.compare Pos.compare Pos.compare_cont].
  change (zlen (remlen_bytes 2)) with 1 in *.
  cbn [app] in Hbody. call readChar_byte. apply bytes_at_tail in Hbody. call readChar_byte.
  rewrite !u8_readChar by divmod_lia. unfold ret, flag_sessionpresent.
  rewrite bf_get_div by lia. replace (o + 1 + 1) with (o + 2) by lia. do 3 f_equal. simpl. divmod_lia.
Qed.
End ConnackFacts.

(** ** Properties *)

Section ConnectProperties.
Context {W : Type} `{CharSign}.
Implicit Types (s : state W) (b : block).

(** For MQTT 3.1 and 3.1.1 (MQTTVersion 3 and 4) and a buffer that really
    has [buflen] bytes, MQTTSerialize_connect never writes out of bounds: it
    refuses, leaving memory alone, only when the buffer has no byte to spare,
    and otherwise stores exactly the CONNECT packet its options denote, with
    every combination of will, user name and password, and returns its
    length. *)
Theorem connect_serialize_spec s b o l buflen d i :
  mem s !! b = Some l -> 0 <= o -> 0 <= buflen <= zlen l - o -> options_denote (mem s) b d i ->
  ci_version i = 3 \/ ci_version i = 4 -> 0 <= ci_keepalive i -> connect_length i <= REMLEN_MAX ->
  let wire := mqtt_packet (mqtt_header CONNECT 0 0 0) (connect_body i) in
  let r := MQTTSerialize_connect (Ptr b o) buflen d s in
  (r = Done MQTTPACKET_BUFFER_TOO_SHORT s /\ buflen <= zlen wire) \/
  (r = Done (zlen wire) (set_block s b (splice l o wire)) /\ zlen wire <= buflen).
Proof.
  intros Hb Ho Hbuf Hd Hv Hk Hmax wire r.
  destruct (serialize_connect_run s b o l buflen d i Hb ltac:(lia) Hd Hk Hmax) as (total & Htot & Hrun).
  assert (connect_wire i = wire) as Hw.
  { unfold connect_wire, wire, mqtt_packet. by rewrite connect_body_length. }
  assert (zlen wire = packet_size (connect_length i)) as Hlen
    by (unfold wire; by rewrite mqtt_packet_length, connect_body_length).
  rewrite Hw in Hrun. unfold r. rewrite Hrun. case_test; [left; split; [done|lia]|].
  right. split; [|lia]. by test_true (o + zlen wire <=? zlen l).
Qed.

(** C35: Of a CONNECT packet the client serializes for version 3 or 4, with
    strings of at most 65535 bytes and room in the buffer, the server's
    MQTTDeserialize_connect finds the session flag, the keep-alive interval, the
    client identifier, the will and the credentials that the client's options
    denote, as pointers to their bytes in the buffer, and accepts it, exactly if
    the credentials are to its liking: no password without a user name, and the
    last of them not empty.  It refuses any other packet, although the client
    serializes it and MQTT allows empty credentials.  The version is not given back:
    the deserializer checks it, but does not store it. *)
Theorem connect_roundtrip s b o l buflen d i d0 :
  mem s !! b = Some l -> 0 <= o -> buflen <= zlen l - o -> options_denote (mem s) b d i ->
  ci_version i = 3 \/ ci_version i = 4 -> 0 <= ci_keepalive i < 65536 ->
  strings_short i -> connect_length i <= REMLEN_MAX -> packet_size (connect_length i) < buflen ->
  exists n s1 rc d' s2,
    MQTTSerialize_connect (Ptr b o) buflen d s = Done n s1 /\
    MQTTDeserialize_connect d0 (Ptr b o) n s1 = Done (rc, d') s2 /\
    (credentials_ok i -> rc = 1 /\ connect_held (mem s2) b d' i) /\ (~ credentials_ok i -> rc = 0) /\
    (forall b', b' <> b -> mem s2 !! b' = mem s !! b').
Proof.
  intros Hb Ho Hbuf Hd Hv Hk Hshort Hmax Hsize.
  assert (0 <= packet_size (connect_length i)).
  { pose proof (connect_length_payload i). unfold packet_size. lia. }
  destruct (serialize_connect_run s b o l buflen d i Hb ltac:(lia) Hd ltac:(lia) Hmax)
    as (total & Htot & Hrun).
  set (wire := mqtt_packet (mqtt_header CONNECT 0 0 0) (connect_body i)).
  assert (connect_wire i = wire) as Hw.
  { unfold connect_wire, wire, mqtt_packet. by rewrite connect_body_length. }
  assert (zlen wire = packet_size (connect_length i)) as Hlen
    by (unfold wire; by rewrite mqtt_packet_length, connect_body_length).
  rewrite Hw, (proj2 (Z.ltb_ge buflen total)), (proj2 (Z.leb_le _ _)) in Hrun by lia.
  destruct (deserialize_connect_packet (set_block s b (splice l o wire)) b o d0 i [])
    as (rc & d' & c & Hde & Hread); try done.
  { rewrite app_nil_r. apply bytes_at_splice; fold wire; lia. }
  fold wire in Hde. do 5 eexists. split; [exact Hrun|]. split; [exact Hde|].
  split_and!; [by destruct Hread as [(? & ? & ?)|[? ?]]|by destruct Hread as [(? & ? & ?)|[? ?]]|].
  intros. by apply mem_set_block_ne.
Qed.

(** For any other MQTTVersion the length computation leaves out the twelve
    bytes of the variable header while the serializer writes those of MQTT 3.1:
    a buffer that passes its length check with one byte to spare is
    overrun. *)
Theorem connect_version_overrun s b o l d i :
  mem s !! b = Some l -> 0 <= o -> options_denote (mem s) b d i ->
  ci_version i <> 3 -> ci_version i <> 4 -> 0 <= ci_keepalive i -> connect_length i <= REMLEN_MAX ->
  zlen l = o + packet_size (connect_length i) + 1 ->
  MQTTSerialize_connect (Ptr b o) (packet_size (connect_length i) + 1) d s = Fault OutOfBounds.
Proof.
  intros Hb Ho Hd H3 H4 Hk Hmax Hl. pose proof (connect_length_payload i).
  destruct (serialize_connect_run s b o l (packet_size (connect_length i) + 1) d i Hb
              ltac:(unfold packet_size in *; lia) Hd Hk Hmax) as (total & Htot & Hrun).
  rewrite Hrun. test_false (packet_size (connect_length i) + 1 <? total).
  assert (zlen (connect_wire i) = packet_size (connect_length i) + 12) as Hw; [|by test_false
    (o + zlen (connect_wire i) <=? zlen l)].
  unfold connect_wire, connect_body, connect_length, connect_protocol, packet_size.
  test_false (ci_version i =? 3). test_false (ci_version i =? 4).
  cbn [length]. rewrite !length_app. change (length (utf_bytes lit_MQIsdp)) with 8%nat.
  simpl length. lia.
Qed.

(** MQTTDeserialize_connect is safe on packets of arbitrary bytes: with
    four readable bytes behind the announced end (the protocol level, the
    flags and the keep-alive interval are read without a check) it terminates
    without an access outside the buffer and changes no memory, and when it
    reports success every string it found lies inside the packet. *)
Theorem connect_parse_safe s b o l buflen d :
  mem s !! b = Some l -> 0 <= o -> 0 <= buflen -> o + 5 <= zlen l -> o + buflen + 4 <= zlen l ->
  exists rc d' s', MQTTDeserialize_connect d (Ptr b o) buflen s = Done (rc, d') s' /\
    mem s' = mem s /\ world s' = world s /\
    (rc = 0 \/ rc = 1 /\ connect_inside b o (o + buflen) d d').
Proof.
  intros Hb Ho Hlen H5 Hroom. unfold MQTTDeserialize_connect. cbn [padd]. set (e := o + buflen).
  destruct (bytes_at_any _ _ o l 1 Hb Ho ltac:(lia)) as ([|x [|]] & ? & Hat); try done.
  call readChar_at. rewrite u8_readChar_byte.
  destruct (_ =? _); cbn [negb]; [|do 3 eexists; split_and!; by eauto].
  destruct (decodeBuf_total s b (o + 1) l Hb ltac:(lia) ltac:(lia)) as (n & v & s' & Hde & Hn & _ & Hm & Hw).
  rewrite (bind_done _ _ _ _ _ Hde). cbn [padd]. rewrite <- Hm in Hb.
  destruct (readMQTTLenString_inside s' b (o + 1 + n) e l MQTTString_initializer Hb ltac:(lia) ltac:(lia))
    as (rc & proto & o1 & Hrun & Hres).
  rewrite (bind_done _ _ _ _ _ Hrun).
  destruct Hres as [->|(-> & Hproto & Ho1)]; cbn [Z.eqb].
  { run_ret. do 3 eexists. split_and!; by eauto. }
  rewrite bind_assoc. run_psub. test_false (e - o1 <? 0). run_ret.
  destruct (bytes_at_any _ _ o1 l 1 Hb ltac:(lia) ltac:(lia)) as ([|y [|]] & ? & Haty); try done.
  call readChar_at.
  destruct (checkVersion_total s' b l Hb proto (to_char (Z_of_byte y)) (o + 1 + n) e
              ltac:(lia) ltac:(lia) Hproto) as (r & Hr).
  rewrite (bind_done _ _ _ _ _ Hr). case_test; [do 3 eexists; split_and!; by eauto|].
  destruct (read_connect_data_total s' b l Hb (o1 + 1) e d ltac:(lia) ltac:(lia) ltac:(lia))
    as (rc & d' & Hd & Hres).
  do 3 eexists. split_and!; [exact Hd|done|done|].
  destruct Hres as [?|(? & ?)]; [by left|right]. split; [done|].
  eapply connect_inside_weaken; [|done]. lia.
Qed.

(** The CONNACK the server builds is read back by the client with its
    return code and its session-present flag. *)
Theorem connack_roundtrip s b o l buflen connack_rc sessionPresent out :
  mem s !! b = Some l -> 0 <= o -> 4 <= buflen <= zlen l - o -> 0 <= connack_rc < 256 ->
  exists s1 s2,
    MQTTSerialize_connack (Ptr b o) buflen connack_rc sessionPresent s = Done 4 s1 /\
    MQTTDeserialize_connack out (Ptr b o) 4 s1 = Done (1, (sessionPresent mod 2, connack_rc)) s2.
Proof.
  intros Hb Ho Hbuf Hrc.
  pose proof (serialize_connack_run s b o l buflen connack_rc sessionPresent Hb ltac:(lia)) as Hrun.
  rewrite (proj2 (Z.ltb_ge buflen 2)), (proj2 (Z.leb_le _ _)) in Hrun by lia.
  set (s1 := set_block _ _ _) in *.
  assert (Hat : bytes_at (mem s1) b o (connack_packet connack_rc sessionPresent))
    by (apply bytes_at_splice; [done|change (zlen (connack_packet _ _)) with 4; lia]).
  do 2 eexists. split; [exact Hrun|]. rewrite <- (app_nil_r (connack_packet _ _)) in Hat.
  exact (deserialize_connack_packet _ _ _ _ _ _ _ _ Hat Hrc).
Qed.

(** MQTTSerialize_connack checks for two bytes of room and writes four: a
    buffer of two or three bytes is overrun. *)
Theorem connack_overrun s b o l connack_rc sessionPresent :
  mem s !! b = Some l -> 0 <= o -> o + 2 <= zlen l < o + 4 ->
  MQTTSerialize_connack (Ptr b o) (zlen l - o) connack_rc sessionPresent s = Fault OutOfBounds.
Proof.
  intros Hb Ho Hl. rewrite (serialize_connack_run s b o l) by (done || lia).
  test_false (zlen l - o <? 2). by test_false (o + 4 <=? zlen l).
Qed.

(** A CONNACK whose one-byte remaining length is 0 or 1 has no return code,
    yet MQTTDeserialize_connack returns 1, its success code, and leaves the
    caller's variables as they were. *)
Theorem connack_short_accepted s b o out buflen h n rest :
  0 <= h < 256 -> header_type h = CONNACK -> 0 <= n < 2 ->
  bytes_at (mem s) b o (byte_of_Z h :: byte_of_Z n :: rest) ->
  MQTTDeserialize_connack out (Ptr b o) buflen s = Done (1, out) (cursor_moved s b (o + 2)).
Proof.
  intros Hh Ht Hn Hat. erewrite deserialize_connack_frame with (n := 1) (v := n); [|exact Hat| |done|].
  - test_true (n <? 2). by replace (o + 1 + 1) with (o + 2) by lia.
  - cbn [parse_remlen]. rewrite Z_of_byte_small by lia. by test_true (n <? 128).
  - by rewrite Z_of_byte_small.
Qed.
End ConnectProperties.

(** ** Witnesses *)

Section Witnesses.
#[local] Existing Instance char_is_signed.

(* block 1: a 64-byte buffer, 2: the client identifier "me", 3: a user name "u",
   4: a password "pw", 5: the will's topic "w", 6: its message *)
Definition ex_state : state unit :=
  state_of [replicate 64 (byte_of_Z 170); bytes [109; 101; 0]; bytes [117; 0]; bytes [112; 119];
            bytes [119; 0]; bytes [1; 2]].
Definition ex_cstring (b : block) : MQTTString :=
  {| cstring := Ptr b 0; lenstring := {| len := 0; data := NULL |} |}.
Definition ex_lenstring (b : block) (n : Z) : MQTTString :=
  {| cstring := NULL; lenstring := {| len := n; data := Ptr b 0 |} |}.
Definition ex_will : MQTTPacket_willOptions :=
  {| will_struct_id := bytes [77; 81; 84; 87]; will_struct_version := 0;
     topicName := ex_cstring 5; message := ex_lenstring 6 2; retained := 1; qos := 2 |}.
Definition ex_data (version : Z) : MQTTPacket_connectData :=
  {| struct_id := bytes [77; 81; 84; 67]; struct_version := 0; MQTTVersion := version;
     clientID := ex_cstring 2; keepAliveInterval := 300; cleansession := 1;
     willFlag := 1; will := ex_will; username := ex_cstring 3; password := ex_lenstring 4 2 |}.
Definition ex_info (version : Z) : connect_info :=
  {| ci_version := version; ci_clean := 1; ci_keepalive := 300; ci_client := bytes [109; 101];
     ci_will := Some {| wi_topic := bytes [119]; wi_message := bytes [1; 2]; wi_qos := 2; wi_retained := 1 |};
     ci_user := Some (bytes [117]); ci_password := Some (bytes [112; 119]) |}.

Ltac ex_cstring_is b' :=
  right; split; [done|]; exists b', 0; split_and!; [done..|]; exists b', 0; split_and!;
    [done|bytes_at_concrete|by vm_compute; intros Hin; apply list_elem_of_In in Hin;
     simpl in Hin; intuition discriminate].
Ltac ex_lenstring_is b' :=
  left; split_and!; [done..|]; right; exists b', 0; split_and!; [done..|bytes_at_concrete].

Lemma ex_denote version : options_denote (mem ex_state) 1 (ex_data version) (ex_info version).
Proof.
  split_and!; try done.
  - ex_cstring_is 2%positive.
  - split_and!; [done|ex_cstring_is 5%positive|ex_lenstring_is 6%positive|done|done].
  - split; [done|ex_cstring_is 3%positive].
  - split; [done|ex_lenstring_is 4%positive].
Qed.

Lemma connect_serialize_spec_witness :
  let wire := mqtt_packet (mqtt_header CONNECT 0 0 0) (connect_body (ex_info 4)) in
  let r := MQTTSerialize_connect (Ptr 1 0) 64 (ex_data 4) ex_state in
  (r = Done MQTTPACKET_BUFFER_TOO_SHORT ex_state /\ 64 <= zlen wire) \/
  (r = Done (zlen wire) (set_block ex_state 1 (splice (replicate 64 (byte_of_Z 170)) 0 wire)) /\
   zlen wire <= 64).
Proof.
  apply (connect_serialize_spec ex_state 1 0 (replicate 64 (byte_of_Z 170)) 64 (ex_data 4) (ex_info 4));
    try done; [apply ex_denote|by right].
Defined.

Lemma connect_roundtrip_witness :
  exists n s1 d' s2,
    MQTTSerialize_connect (Ptr 1 0) 64 (ex_data 3) ex_state = Done n s1 /\
    MQTTDeserialize_connect MQTTPacket_connectData_initializer (Ptr 1 0) n s1 = Done (1, d') s2 /\
    connect_held (mem s2) 1 d' (ex_info 3).
Proof.
  destruct (connect_roundtrip ex_state 1 0 (replicate 64 (byte_of_Z 170)) 64 (ex_data 3) (ex_info 3)
    MQTTPacket_connectData_initializer) as (n & s1 & rc & d' & s2 & Hrun & Hde & Hok & _);
    try done; [apply ex_denote|by left|].
  destruct Hok as [-> Hheld]; [done|]. exists n, s1, d', s2. split; [exact Hrun|]. split; [exact Hde|exact Hheld].
Defined.

(* the same strings, and a buffer of exactly the bytes the check asks for *)
Definition ex_tight : state unit :=
  state_of [replicate 21 (byte_of_Z 170); bytes [109; 101; 0]; bytes [117; 0]; bytes [112; 119];
            bytes [119; 0]; bytes [1; 2]].

Lemma connect_version_overrun_witness :
  MQTTSerialize_connect (Ptr 1 0) 21 (ex_data 5) ex_tight = Fault OutOfBounds.
Proof.
  apply (connect_version_overrun ex_tight 1 0 (replicate 21 (byte_of_Z 170)) (ex_data 5) (ex_info 5));
    try done.
  split_and!; try done.
  - ex_cstring_is 2%positive.
  - split_and!; [done|ex_cstring_is 5%positive|ex_lenstring_is 6%positive|done|done].
  - split; [done|ex_cstring_is 3%positive].
  - split; [done|ex_lenstring_is 4%positive].
Defined.

(* a CONNECT packet whose fields are cut short *)
Definition ex_cut : state unit :=
  state_of [bytes [16; 12; 0; 4; 77; 81; 84; 84; 4; 194; 0; 60; 0; 9; 0; 0; 0; 0]].

Lemma connect_parse_safe_witness :
  exists rc d' s', MQTTDeserialize_connect MQTTPacket_connectData_initializer (Ptr 1 0) 14 ex_cut =
      Done (rc, d') s' /\
    mem s' = mem ex_cut /\ world s' = world ex_cut /\
    (rc = 0 \/ rc = 1 /\ connect_inside 1 0 (0 + 14) MQTTPacket_connectData_initializer d').
Proof.
  by apply (connect_parse_safe ex_cut 1 0
    (bytes [16; 12; 0; 4; 77; 81; 84; 84; 4; 194; 0; 60; 0; 9; 0; 0; 0; 0]) 14).
Defined.

Lemma connack_roundtrip_witness :
  exists s1 s2,
    MQTTSerialize_connack (Ptr 1 0) 64 5 1 ex_state = Done 4 s1 /\
    MQTTDeserialize_connack (0, 0) (Ptr 1 0) 4 s1 = Done (1, (1, 5)) s2.
Proof. by apply (connack_roundtrip ex_state 1 0 (replicate 64 (byte_of_Z 170)) 64 5 1 (0, 0)). Defined.

Lemma connack_overrun_witness :
  MQTTSerialize_connack (Ptr 1 0) 3 0 0 (state_of [bytes [0; 0; 0]]) = Fault OutOfBounds.
Proof. by apply (connack_overrun (state_of [bytes [0; 0; 0]]) 1 0 (bytes [0; 0; 0]) 0 0). Defined.

Lemma connack_short_accepted_witness :
  let s := state_of [bytes [32; 1; 0]] in
  MQTTDeserialize_connack (7, 9) (Ptr 1 0) 3 s = Done (1, (7, 9)) (cursor_moved s 1 2).
Proof.
  apply (connack_short_accepted (state_of [bytes [32; 1; 0]]) 1 0 (7, 9) 3 32 1 [byte_of_Z 0]); try done.
  bytes_at_concrete.
Defined.
End Witnesses.
