(* ===== verification/MQTTSubscribe.v ===== *)
(** * SUBSCRIBE, UNSUBSCRIBE and their acknowledgements

    MQTTSubscribeClient.c, MQTTSubscribeServer.c, MQTTUnsubscribeClient.c and
    MQTTUnsubscribeServer.c.  The arrays of the caller are lists of their
    elements; an access outside the array is a fault. *)

From S2P Require Import Prelude CMem MQTTPacket MQTTPublish.

(** Output parameters of the deserializers. *)
Record suback_out := { suback_packetid : Z; suback_count : Z; grantedQoSs : list Z }.

Record subscribe_out := {
  sub_dup : Z; sub_packetid : Z; sub_count : Z;
  sub_topicFilters : list MQTTString; sub_requestedQoSs : list Z
}.

Record unsubscribe_out := {
  unsub_dup : Z; unsub_packetid : Z; unsub_count : Z; unsub_topicFilters : list MQTTString
}.

Section Subscribe.
Context {W : Type} `{CharSign}.

(** ** MQTTSubscribeClient.c *)

(** The [for] loop over the filters [i], [i + 1], ...: [n] turns are left. *)
Fixpoint subscribeLength_loop (n : nat) (i : Z) (topicFilters : list MQTTString) (len : Z) : M W Z :=
  match n with
  | O => ret len
  | S n =>
      let* topic := arr_get topicFilters i in
      let* k := MQTTstrlen topic in
      let* k := int (2 + k) in
      let* k := int (k + 1) in
      let* len := int (len + k) in
      subscribeLength_loop n (i + 1) topicFilters len
  end.

Definition MQTTSerialize_subscribeLength (count : Z) (topicFilters : list MQTTString) : M W Z :=
  subscribeLength_loop (Z.to_nat count) 0 topicFilters 2.

Fixpoint subscribe_loop (n : nat) (i : Z) (topicFilters : list MQTTString) (requestedQoSs : list Z)
    (ptr : ptr) : M W CMem.ptr :=
  match n with
  | O => ret ptr
  | S n =>
      let* topic := arr_get topicFilters i in
      let* ptr := writeMQTTString ptr topic in
      let* qos := arr_get requestedQoSs i in
      let* ptr := writeChar ptr qos in
      subscribe_loop n (i + 1) topicFilters requestedQoSs ptr
  end.

Definition MQTTSerialize_subscribe (buf : ptr) (buflen dup packetid count : Z)
    (topicFilters : list MQTTString) (requestedQoSs : list Z) : M W Z :=
  let ptr := buf in
  let* rem_len := MQTTSerialize_subscribeLength count topicFilters in
  let* total := MQTTPacket_len rem_len in
  if buflen <? total then ret MQTTPACKET_BUFFER_TOO_SHORT
  else
    let header := set_header_type 0 SUBSCRIBE in
    let header := set_header_dup header dup in
    let header := set_header_qos header 1 in
    let* ptr := writeChar ptr header in
    let* ptr := advance ptr (MQTTPacket_encode ptr rem_len) in
    let* ptr := writeInt ptr packetid in
    let* ptr := subscribe_loop (Z.to_nat count) 0 topicFilters requestedQoSs ptr in
    psub ptr buf.

(** The [while] loop over the granted QoS bytes: every turn consumes one byte
    of the frame, so its length bounds the turns. *)
Fixpoint suback_loop (fuel : nat) (maxcount : Z) (out : suback_out) (curdata enddata : ptr) :
    M W (Z * suback_out) :=
  match fuel with
  | O => throw Divergence
  | S fuel =>
      let* more := plt curdata enddata in
      if negb more then ret (1, out)
      else if maxcount <? suback_count out then ret (-1, out)
      else
        let* (c, curdata) := readChar curdata in
        let* granted := arr_set (grantedQoSs out) (suback_count out) c in
        let* count := int (suback_count out + 1) in
        suback_loop fuel maxcount
          {| suback_packetid := suback_packetid out; suback_count := count; grantedQoSs := granted |}
          curdata enddata
  end.

Definition MQTTDeserialize_suback (out : suback_out) (maxcount : Z) (buf : ptr) (buflen : Z) :
    M W (Z * suback_out) :=
  let* (c, curdata) := readChar buf in
  let header := u8 c in
  if negb (header_type header =? SUBACK) then ret (0, out)
  else
    let* (rc, mylen) := MQTTPacket_decodeBuf curdata in
    let curdata := padd curdata rc in
    let enddata := padd curdata mylen in
    let* d := psub enddata curdata in
    if d <? 2 then ret (rc, out)
    else
      let* (id, curdata) := readInt curdata in
      suback_loop (S (Z.to_nat mylen)) maxcount
        {| suback_packetid := u16 id; suback_count := 0; grantedQoSs := grantedQoSs out |}
        curdata enddata.

(** ** MQTTSubscribeServer.c *)

(** [rc] is the value of the function's variable when the loop starts. *)
Fixpoint subscribe_read_loop (fuel : nat) (rc : Z) (out : subscribe_out) (curdata enddata : ptr) :
    M W (Z * subscribe_out) :=
  match fuel with
  | O => throw Divergence
  | S fuel =>
      let* more := plt curdata enddata in
      if negb more then ret (1, out)
      else
        let* topic := arr_get (sub_topicFilters out) (sub_count out) in
        let* (ok, topic, curdata) := readMQTTLenString topic curdata enddata in
        let* filters := arr_set (sub_topicFilters out) (sub_count out) topic in
        let out := {| sub_dup := sub_dup out; sub_packetid := sub_packetid out;
                      sub_count := sub_count out; sub_topicFilters := filters;
                      sub_requestedQoSs := sub_requestedQoSs out |} in
        if ok =? 0 then ret (rc, out)
        else
          let* more := plt curdata enddata in
          if negb more then ret (rc, out)
          else
            let* (c, curdata) := readChar curdata in
            let* qoss := arr_set (sub_requestedQoSs out) (sub_count out) c in
            let* count := int (sub_count out + 1) in
            subscribe_read_loop fuel rc
              {| sub_dup := sub_dup out; sub_packetid := sub_packetid out; sub_count := count;
                 sub_topicFilters := sub_topicFilters out; sub_requestedQoSs := qoss |}
              curdata enddata
  end.

Definition MQTTDeserialize_subscribe (out : subscribe_out) (maxcount : Z) (buf : ptr) (buflen : Z) :
    M W (Z * subscribe_out) :=
  let* (c, curdata) := readChar buf in
  let header := u8 c in
  if negb (header_type header =? SUBSCRIBE) then ret (-1, out)
  else
    let* (rc, mylen) := MQTTPacket_decodeBuf curdata in
    let curdata := padd curdata rc in
    let enddata := padd curdata mylen in
    let* (id, curdata) := readInt curdata in
    subscribe_read_loop (S (Z.to_nat mylen)) rc
      {| sub_dup := header_dup header; sub_packetid := u16 id; sub_count := 0;
         sub_topicFilters := sub_topicFilters out; sub_requestedQoSs := sub_requestedQoSs out |}
      curdata enddata.

Fixpoint suback_write_loop (n : nat) (i : Z) (grantedQoSs : list Z) (ptr : ptr) : M W CMem.ptr :=
  match n with
  | O => ret ptr
  | S n =>
      let* qos := arr_get grantedQoSs i in
      let* ptr := writeChar ptr qos in
      suback_write_loop n (i + 1) grantedQoSs ptr
  end.

Definition MQTTSerialize_suback (buf : ptr) (buflen packetid count : Z) (grantedQoSs : list Z) :
    M W Z :=
  let ptr := buf in
  let* need := int (2 + count) in
  if buflen <? need then ret MQTTPACKET_BUFFER_TOO_SHORT
  else
    let header := set_header_type 0 SUBACK in
    let* ptr := writeChar ptr header in
    let* ptr := advance ptr (MQTTPacket_encode ptr need) in
    let* ptr := writeInt ptr packetid in
    let* ptr := suback_write_loop (Z.to_nat count) 0 grantedQoSs ptr in
    psub ptr buf.

(** ** MQTTUnsubscribeClient.c *)

Fixpoint unsubscribeLength_loop (n : nat) (i : Z) (topicFilters : list MQTTString) (len : Z) : M W Z :=
  match n with
  | O => ret len
  | S n =>
      let* topic := arr_get topicFilters i in
      let* k := MQTTstrlen topic in
      let* k := int (2 + k) in
      let* len := int (len + k) in
      unsubscribeLength_loop n (i + 1) topicFilters len
  end.

Definition MQTTSerialize_unsubscribeLength (count : Z) (topicFilters : list MQTTString) : M W Z :=
  unsubscribeLength_loop (Z.to_nat count) 0 topicFilters 2.

Fixpoint unsubscribe_loop (n : nat) (i : Z) (topicFilters : list MQTTString) (ptr : ptr) :
    M W CMem.ptr :=
  match n with
  | O => ret ptr
  | S n =>
      let* topic := arr_get topicFilters i in
      let* ptr := writeMQTTString ptr topic in
      unsubscribe_loop n (i + 1) topicFilters ptr
  end.

Definition MQTTSerialize_unsubscribe (buf : ptr) (buflen dup packetid count : Z)
    (topicFilters : list MQTTString) : M W Z :=
  let ptr := buf in
  let* rem_len := MQTTSerialize_unsubscribeLength count topicFilters in
  let* total := MQTTPacket_len rem_len in
  if buflen <? total then ret MQTTPACKET_BUFFER_TOO_SHORT
  else
    let header := set_header_type 0 UNSUBSCRIBE in
    let header := set_header_dup header dup in
    let header := set_header_qos header 1 in
    let* ptr := writeChar ptr header in
    let* ptr := advance ptr (MQTTPacket_encode ptr rem_len) in
    let* ptr := writeInt ptr packetid in
    let* ptr := unsubscribe_loop (Z.to_nat count) 0 topicFilters ptr in
    psub ptr buf.

(** The locals [type] and [dup] start at 0; [*packetid] is in the result. *)
Definition MQTTDeserialize_unsuback (packetid : Z) (buf : ptr) (buflen : Z) : M W (Z * Z) :=
  let* (rc, out) := MQTTDeserialize_ack
                      {| ack_packettype := 0; ack_dup := 0; ack_packetid := packetid |} buf buflen in
  let rc := if ack_packettype out =? UNSUBACK then 1 else rc in
  ret (rc, ack_packetid out).

(** ** MQTTUnsubscribeServer.c *)

Fixpoint unsubscribe_read_loop (fuel : nat) (rc : Z) (out : unsubscribe_out) (curdata enddata : ptr) :
    M W (Z * unsubscribe_out) :=
  match fuel with
  | O => throw Divergence
  | S fuel =>
      let* more := plt curdata enddata in
      if negb more then ret (1, out)
      else
        let* topic := arr_get (unsub_topicFilters out) (unsub_count out) in
        let* (ok, topic, curdata) := readMQTTLenString topic curdata enddata in
        let* filters := arr_set (unsub_topicFilters out) (unsub_count out) topic in
        let set_count n := {| unsub_dup := unsub_dup out; unsub_packetid := unsub_packetid out;
                              unsub_count := n; unsub_topicFilters := filters |} in
        if ok =? 0 then ret (rc, set_count (unsub_count out))
        else
          let* count := int (unsub_count out + 1) in
          unsubscribe_read_loop fuel rc (set_count count) curdata enddata
  end.

Definition MQTTDeserialize_unsubscribe (out : unsubscribe_out) (maxcount : Z) (buf : ptr) (len : Z) :
    M W (Z * unsubscribe_out) :=
  let* (c, curdata) := readChar buf in
  let header := u8 c in
  if negb (header_type header =? UNSUBSCRIBE) then ret (0, out)
  else
    let* (rc, mylen) := MQTTPacket_decodeBuf curdata in
    let curdata := padd curdata rc in
    let enddata := padd curdata mylen in
    let* (id, curdata) := readInt curdata in
    unsubscribe_read_loop (S (Z.to_nat mylen)) rc
      {| unsub_dup := header_dup header; unsub_packetid := u16 id; unsub_count := 0;
         unsub_topicFilters := unsub_topicFilters out |}
      curdata enddata.

Definition MQTTSerialize_unsuback (buf : ptr) (buflen packetid : Z) : M W Z :=
  let ptr := buf in
  if buflen <? 2 then ret MQTTPACKET_BUFFER_TOO_SHORT
  else
    let header := set_header_type 0 UNSUBACK in
    let* ptr := writeChar ptr header in
    let* ptr := advance ptr (MQTTPacket_encode ptr 2) in
    let* ptr := writeInt ptr packetid in
    psub ptr buf.
End Subscribe.

(** ** The packets on the wire *)

(** A filter with its requested QoS, and the payloads of the packets. *)
Abbreviation entry := (list byte * Z)%type.

Fixpoint entries_bytes (es : list entry) : list byte :=
  match es with
  | [] => []
  | (t, q) :: es => utf_bytes t ++ byte_of_Z q :: entries_bytes es
  end.

Fixpoint topics_bytes (ts : list (list byte)) : list byte :=
  match ts with
  | [] => []
  | t :: ts => utf_bytes t ++ topics_bytes ts
  end.

Definition subscribe_body (packetid : Z) (es : list entry) : list byte :=
  int_bytes packetid ++ entries_bytes es.

Definition subscribe_packet (dup packetid : Z) (es : list entry) : list byte :=
  mqtt_packet (mqtt_header SUBSCRIBE dup 1 0) (subscribe_body packetid es).

Definition unsubscribe_body (packetid : Z) (ts : list (list byte)) : list byte :=
  int_bytes packetid ++ topics_bytes ts.

Definition unsubscribe_packet (dup packetid : Z) (ts : list (list byte)) : list byte :=
  mqtt_packet (mqtt_header UNSUBSCRIBE dup 1 0) (unsubscribe_body packetid ts).

Definition suback_packet (packetid : Z) (granted : list Z) : list byte :=
  mqtt_packet (mqtt_header SUBACK 0 0 0) (int_bytes packetid ++ (byte_of_Z <$> granted)).

(** ** The serializers *)

Section SerializeFacts.
Context {W : Type} `{CharSign}.
Implicit Types (s : state W) (b : block).

(** Reading the array element behind a prefix. *)
Lemma arr_get_middle {A} (pre : list A) x post i s :
  i = zlen pre -> arr_get (pre ++ x :: post) i s = Done x s.
Proof. intros ->. apply arr_get_done. by rewrite lookup_app_r, Nat.sub_diag by lia. Qed.

Lemma subscribeLength_loop_run s b pre fs (es : list entry) i len :
  Forall2 (fun f e => mqttstring_is (mem s) b f e.1) fs es -> i = zlen pre -> 0 <= len ->
  len + zlen (entries_bytes es) <= INT_MAX ->
  subscribeLength_loop (length es) i (pre ++ fs) len s = Done (len + zlen (entries_bytes es)) s.
Proof.
  unfold INT_MAX. intros Hfs. revert pre i len.
  induction Hfs as [|f [t q] fs es Hf _ IH]; intros pre i len Hi Hlen Hmax; cbn [length subscribeLength_loop].
  { simpl. by rewrite Z.add_0_r. }
  rewrite (bind_done _ _ _ _ _ (arr_get_middle _ _ _ _ _ Hi)). cbn [fst entries_bytes] in *.
  rewrite length_app, Nat2Z.inj_add, utf_bytes_length, length_cons, Nat2Z.inj_succ in *.
  erewrite bind_done by (eapply MQTTstrlen_is; [exact Hf|unfold INT_MAX; lia]).
  rewrite !bind_int by (unfold INT_MIN, INT_MAX; lia).
  rewrite cons_middle, app_assoc, IH; [f_equal; lia|zlen_lia|lia|lia].
Qed.

Lemma unsubscribeLength_loop_run s b pre fs ts i len :
  Forall2 (mqttstring_is (mem s) b) fs ts -> i = zlen pre -> 0 <= len ->
  len + zlen (topics_bytes ts) <= INT_MAX ->
  unsubscribeLength_loop (length ts) i (pre ++ fs) len s = Done (len + zlen (topics_bytes ts)) s.
Proof.
  unfold INT_MAX. intros Hfs. revert pre i len.
  induction Hfs as [|f t fs ts Hf _ IH]; intros pre i len Hi Hlen Hmax; cbn [length unsubscribeLength_loop].
  { simpl. by rewrite Z.add_0_r. }
  rewrite (bind_done _ _ _ _ _ (arr_get_middle _ _ _ _ _ Hi)). cbn [topics_bytes] in *.
  rewrite length_app, Nat2Z.inj_add, utf_bytes_length in *.
  erewrite bind_done by (eapply MQTTstrlen_is; [exact Hf|unfold INT_MAX; lia]).
  rewrite !bind_int by (unfold INT_MIN, INT_MAX; lia).
  rewrite cons_middle, app_assoc, IH; [f_equal; lia|zlen_lia|lia|lia].
Qed.

(** A read-only access does not disturb a writer. *)
Lemma writes_arr_get {A} s b (a : list A) i x (c : A -> ptr -> M W ptr) bs :
  (forall s', arr_get a i s' = Done x s') -> writes s b (c x) bs ->
  writes s b (fun p => let* y := arr_get a i in c y p) bs.
Proof. intros Hx Hc l o Ho. rewrite (bind_done _ _ _ _ _ (Hx _)). by apply Hc. Qed.

Lemma writes_subscribe_loop s b pre prq fs (es : list entry) i :
  Forall2 (fun f e => mqttstring_is (mem s) b f e.1) fs es -> i = zlen pre -> i = zlen prq ->
  zlen (entries_bytes es) <= INT_MAX ->
  writes s b (subscribe_loop (length es) i (pre ++ fs) (prq ++ es.*2)) (entries_bytes es).
Proof.
  unfold INT_MAX. intros Hfs. revert pre prq i.
  induction Hfs as [|f [t q] fs es Hf _ IH]; intros pre prq i Hi Hq Hmax; [apply writes_nil|].
  cbn [length subscribe_loop fmap list_fmap fst snd entries_bytes] in *.
  rewrite length_app, Nat2Z.inj_add, utf_bytes_length, length_cons, Nat2Z.inj_succ in *.
  eapply writes_arr_get; [intros; by apply arr_get_middle|].
  eapply writes_bind; [apply writes_mqttstring; [done|unfold INT_MAX; lia]|].
  eapply writes_arr_get; [intros; by apply arr_get_middle|].
  eapply (writes_bind s b _ _ [_]); [apply writes_char|].
  rewrite (cons_middle f), (cons_middle q), (app_assoc pre), (app_assoc prq).
  apply IH; [zlen_lia..|lia].
Qed.

Lemma writes_unsubscribe_loop s b pre fs ts i :
  Forall2 (mqttstring_is (mem s) b) fs ts -> i = zlen pre -> zlen (topics_bytes ts) <= INT_MAX ->
  writes s b (unsubscribe_loop (length ts) i (pre ++ fs)) (topics_bytes ts).
Proof.
  unfold INT_MAX. intros Hfs. revert pre i.
  induction Hfs as [|f t fs ts Hf _ IH]; intros pre i Hi Hmax; [apply writes_nil|].
  cbn [length unsubscribe_loop topics_bytes] in *.
  rewrite length_app, Nat2Z.inj_add, utf_bytes_length in *.
  eapply writes_arr_get; [intros; by apply arr_get_middle|].
  eapply writes_bind; [apply writes_mqttstring; [done|unfold INT_MAX; lia]|].
  rewrite (cons_middle f), (app_assoc pre). apply IH; [zlen_lia|lia].
Qed.

Lemma writes_suback_loop s b pre qs i :
  i = zlen pre ->
  writes s b (suback_write_loop (length qs) i (pre ++ qs)) (byte_of_Z <$> qs).
Proof.
  revert pre i. induction qs as [|q qs IH]; intros pre i Hi; [apply writes_nil|].
  cbn [length suback_write_loop fmap list_fmap].
  eapply writes_arr_get; [intros; by apply arr_get_middle|].
  eapply (writes_bind s b _ _ [_]); [apply writes_char|].
  rewrite (cons_middle q), (app_assoc pre). apply IH. zlen_lia.
Qed.

Lemma subscribe_body_length packetid es :
  zlen (subscribe_body packetid es) = 2 + zlen (entries_bytes es).
Proof. unfold subscribe_body, int_bytes. zlen_lia. Qed.

Lemma unsubscribe_body_length packetid ts :
  zlen (unsubscribe_body packetid ts) = 2 + zlen (topics_bytes ts).
Proof. unfold unsubscribe_body, int_bytes. zlen_lia. Qed.

(** The exact behaviour of the serializers. *)
Lemma serialize_subscribe_run s b o l buflen dup packetid fs (es : list entry) :
  mem s !! b = Some l -> 0 <= o <= zlen l -> 0 <= packetid ->
  Forall2 (fun f e => mqttstring_is (mem s) b f e.1) fs es ->
  zlen (subscribe_body packetid es) <= REMLEN_MAX ->
  exists total,
    packet_size (zlen (subscribe_body packetid es)) <= total <=
      packet_size (zlen (subscribe_body packetid es)) + 1 /\
    MQTTSerialize_subscribe (Ptr b o) buflen dup packetid (zlen es) fs (es.*2) s =
      let wire := subscribe_packet dup packetid es in
      if buflen <? total then Done MQTTPACKET_BUFFER_TOO_SHORT s
      else if o + zlen wire <=? zlen l
           then Done (zlen wire) (set_block s b (splice l o wire))
           else Fault OutOfBounds.
Proof.
  intros Hb Ho Hid Hfs Hmax. pose proof (subscribe_body_length packetid es) as Hlen.
  set (body := subscribe_body packetid es) in *. unfold REMLEN_MAX in Hmax.
  destruct (MQTTPacket_len (zlen body) s) as [total s'|] eqn:Elen;
    [|by rewrite packet_len_run in Elen by (unfold REMLEN_MAX; lia)].
  pose proof (packet_len_guard (zlen body) _ _ _ ltac:(unfold REMLEN_MAX; lia) Elen) as [-> Htotal].
  exists total. split; [done|].
  unfold MQTTSerialize_subscribe, MQTTSerialize_subscribeLength. rewrite Nat2Z.id.
  erewrite bind_done by (eapply (subscribeLength_loop_run _ _ []);
    [exact Hfs|done|lia|unfold INT_MAX; lia]).
  rewrite <- Hlen. erewrite bind_done by exact Elen. cbv zeta. case_test; [done|].
  rewrite header_assign_qos. unfold subscribe_packet, mqtt_packet. fold body.
  start_writing; [|done..].
  eapply (serializes_bind s b o _ _ [_]); [apply writes_char|].
  eapply (serializes_bind s b o); [apply encode_writes; unfold INT_MAX; lia|].
  unfold body, subscribe_body. eapply (serializes_bind s b o); [by apply writes_int|].
  apply serializes_last, (writes_subscribe_loop s b [] []); try done. unfold INT_MAX. lia.
Qed.

Lemma serialize_unsubscribe_run s b o l buflen dup packetid fs ts :
  mem s !! b = Some l -> 0 <= o <= zlen l -> 0 <= packetid ->
  Forall2 (mqttstring_is (mem s) b) fs ts -> zlen (unsubscribe_body packetid ts) <= REMLEN_MAX ->
  exists total,
    packet_size (zlen (unsubscribe_body packetid ts)) <= total <=
      packet_size (zlen (unsubscribe_body packetid ts)) + 1 /\
    MQTTSerialize_unsubscribe (Ptr b o) buflen dup packetid (zlen ts) fs s =
      let wire := unsubscribe_packet dup packetid ts in
      if buflen <? total then Done MQTTPACKET_BUFFER_TOO_SHORT s
      else if o + zlen wire <=? zlen l
           then Done (zlen wire) (set_block s b (splice l o wire))
           else Fault OutOfBounds.
Proof.
  intros Hb Ho Hid Hfs Hmax. pose proof (unsubscribe_body_length packetid ts) as Hlen.
  set (body := unsubscribe_body packetid ts) in *. unfold REMLEN_MAX in Hmax.
  destruct (MQTTPacket_len (zlen body) s) as [total s'|] eqn:Elen;
    [|by rewrite packet_len_run in Elen by (unfold REMLEN_MAX; lia)].
  pose proof (packet_len_guard (zlen body) _ _ _ ltac:(unfold REMLEN_MAX; lia) Elen) as [-> Htotal].
  exists total. split; [done|].
  unfold MQTTSerialize_unsubscribe, MQTTSerialize_unsubscribeLength. rewrite Nat2Z.id.
  erewrite bind_done by (eapply (unsubscribeLength_loop_run _ _ []);
    [exact Hfs|done|lia|unfold INT_MAX; lia]).
  rewrite <- Hlen. erewrite bind_done by exact Elen. cbv zeta. case_test; [done|].
  rewrite header_assign_qos. unfold unsubscribe_packet, mqtt_packet. fold body.
  start_writing; [|done..].
  eapply (serializes_bind s b o _ _ [_]); [apply writes_char|].
  eapply (serializes_bind s b o); [apply encode_writes; unfold INT_MAX; lia|].
  unfold body, unsubscribe_body. eapply (serializes_bind s b o); [by apply writes_int|].
  apply serializes_last, (writes_unsubscribe_loop s b []); try done. unfold INT_MAX. lia.
Qed.

Lemma serialize_suback_run s b o l buflen packetid qs :
  mem s !! b = Some l -> 0 <= o <= zlen l -> 0 <= packetid -> 2 + zlen qs <= REMLEN_MAX ->
  MQTTSerialize_suback (Ptr b o) buflen packetid (zlen qs) qs s =
    let wire := suback_packet packetid qs in
    if buflen <? 2 + zlen qs then Done MQTTPACKET_BUFFER_TOO_SHORT s
    else if o + zlen wire <=? zlen l
         then Done (zlen wire) (set_block s b (splice l o wire))
         else Fault OutOfBounds.
Proof.
  unfold REMLEN_MAX. intros Hb Ho Hid Hmax. unfold MQTTSerialize_suback. cbv zeta.
  rewrite bind_int by (unfold INT_MIN, INT_MAX; lia). case_test; [done|].
  rewrite header_assign_type, Nat2Z.id. unfold suback_packet, mqtt_packet.
  replace (2 + zlen qs) with (zlen (int_bytes packetid ++ (byte_of_Z <$> qs)))
    by (unfold int_bytes; zlen_lia).
  start_writing; [|done..].
  eapply (serializes_bind s b o _ _ [_]); [apply writes_char|].
  eapply (serializes_bind s b o); [apply encode_writes; unfold int_bytes, INT_MAX; zlen_lia|].
  eapply (serializes_bind s b o); [by apply writes_int|].
  by apply serializes_last, (writes_suback_loop s b []).
Qed.
End SerializeFacts.

(** ** The deserializers *)

Section DeserializeFacts.
Context {W : Type} `{CharSign}.
Implicit Types (s : state W) (b : block).

(** The value of a granted QoS byte in the caller's array of [int]. *)
Definition granted_value (x : byte) : Z := to_char (Z_of_byte x).

(** One turn of the loop of MQTTDeserialize_suback. *)
Lemma suback_loop_step fuel s b o e x bs mc id i g :
  bytes_at (mem s) b o (x :: bs) -> o < e -> 0 <= i < INT_MAX ->
  suback_loop (S fuel) mc {| suback_packetid := id; suback_count := i; grantedQoSs := g |}
    (Ptr b o) (Ptr b e) s =
  if mc <? i then Done (-1, {| suback_packetid := id; suback_count := i; grantedQoSs := g |}) s
  else if i <? zlen g
       then suback_loop fuel mc
              {| suback_packetid := id; suback_count := i + 1;
                 grantedQoSs := splice g i [granted_value x] |} (Ptr b (o + 1)) (Ptr b e) s
       else Fault OutOfBounds.
Proof.
  unfold INT_MAX. intros Hat He Hi. cbn [suback_loop suback_count suback_packetid grantedQoSs].
  rewrite (bind_done _ _ _ _ _ (plt_same _ _ _ _)). test_true (o <? e). cbn [negb].
  case_test; [done|]. rewrite (bind_done _ _ _ _ _ (readChar_at _ _ _ _ _ Hat)).
  destruct (Z.ltb_spec i (zlen g)).
  - rewrite (bind_done _ _ _ _ _ (arr_set_done s g i _ ltac:(lia))).
    by rewrite bind_int by (unfold INT_MIN, INT_MAX; lia).
  - by rewrite (bind_fault _ _ _ _ (arr_set_out s g i _ ltac:(lia))).
Qed.

Lemma suback_loop_stop fuel s b o mc out :
  suback_loop (S fuel) mc out (Ptr b o) (Ptr b o) s = Done (1, out) s.
Proof.
  cbn [suback_loop]. rewrite (bind_done _ _ _ _ _ (plt_same _ _ _ _)). by rewrite Z.ltb_irrefl.
Qed.

(** All the bytes fit into the array and are admitted. *)
Lemma suback_loop_run fuel s b o e bs mc id i g :
  bytes_at (mem s) b o bs -> e = o + zlen bs -> (length bs < fuel)%nat -> 0 <= i ->
  i + zlen bs <= mc + 1 -> i + zlen bs <= zlen g -> zlen g <= INT_MAX ->
  suback_loop fuel mc {| suback_packetid := id; suback_count := i; grantedQoSs := g |}
    (Ptr b o) (Ptr b e) s =
  Done (1, {| suback_packetid := id; suback_count := i + zlen bs;
              grantedQoSs := splice g i (granted_value <$> bs) |}) s.
Proof.
  unfold INT_MAX. revert fuel o i g.
  induction bs as [|x bs IH]; intros [|fuel] o i g Hat -> Hf Hi Hmc Hg Hmax; try (simpl in *; lia).
  { simpl. rewrite !Z.add_0_r, splice_nil. apply suback_loop_stop. }
  rewrite length_cons, Nat2Z.inj_succ in *.
  rewrite (suback_loop_step _ _ _ _ _ x bs) by (done || unfold INT_MAX; lia).
  test_false (mc <? i). test_true (i <? zlen g).
  assert (length (splice g i [granted_value x]) = length g) as Hlen by (apply splice_length; simpl; lia).
  rewrite (IH fuel) by (lia || by eapply bytes_at_tail). do 2 f_equal. f_equal; [lia|].
  cbn [fmap list_fmap]. change (i + 1) with (i + zlen [granted_value x]).
  rewrite splice_app; [done|lia|]. simpl. zlen_lia.
Qed.

(** An array with room for one more than [maxcount] elements is never left. *)
Lemma suback_loop_safe fuel s b o e bs mc id i g :
  bytes_at (mem s) b o bs -> e = o + zlen bs -> (length bs < fuel)%nat -> 0 <= i <= mc + 1 ->
  mc + 1 <= zlen g < INT_MAX ->
  exists rc out, suback_loop fuel mc {| suback_packetid := id; suback_count := i; grantedQoSs := g |}
      (Ptr b o) (Ptr b e) s = Done (rc, out) s /\
    (rc = 1 /\ suback_count out = i + zlen bs \/ rc = -1 /\ mc + 1 < i + zlen bs) /\
    suback_packetid out = id /\ 0 <= suback_count out <= mc + 1 /\
    length (grantedQoSs out) = length g.
Proof.
  unfold INT_MAX. revert fuel o i g.
  induction bs as [|x bs IH]; intros [|fuel] o i g Hat -> Hf Hi Hg; try (simpl in *; lia).
  { simpl length. rewrite !Z.add_0_r, suback_loop_stop. do 2 eexists. split; [done|].
    cbn [suback_count suback_packetid grantedQoSs]. split_and!; (done || lia || by left). }
  rewrite length_cons, Nat2Z.inj_succ in *.
  destruct (Z.lt_ge_cases mc i).
  { rewrite (suback_loop_step _ _ _ _ _ x bs) by (done || unfold INT_MAX; lia).
    test_true (mc <? i). do 2 eexists. split; [done|].
    cbn [suback_count suback_packetid grantedQoSs]. split_and!; (done || lia). }
  rewrite (suback_loop_step _ _ _ _ _ x bs) by (done || unfold INT_MAX; lia).
  test_false (mc <? i). test_true (i <? zlen g).
  assert (length (splice g i [granted_value x]) = length g) as Hlen by (apply splice_length; simpl; lia).
  destruct (IH fuel (o + 1) (i + 1) (splice g i [granted_value x])) as (rc & out & Hrun & Hrc & Hid & Hc & Hl);
    [by eapply bytes_at_tail|lia|lia|lia|rewrite Hlen; lia|].
  rewrite <- Hlen. exists rc, out. split; [exact Hrun|]. split; [|done].
  destruct Hrc as [[? ?]|[? ?]]; [left|right]; lia.
Qed.

(** An array of [maxcount] elements is left by one more byte. *)
Lemma suback_loop_overrun fuel s b o e bs mc id i g :
  bytes_at (mem s) b o bs -> e = o + zlen bs -> (length bs < fuel)%nat -> 0 <= i <= mc ->
  zlen g = mc -> mc < i + zlen bs -> mc < INT_MAX ->
  suback_loop fuel mc {| suback_packetid := id; suback_count := i; grantedQoSs := g |}
    (Ptr b o) (Ptr b e) s = Fault OutOfBounds.
Proof.
  unfold INT_MAX. revert fuel o i g.
  induction bs as [|x bs IH]; intros [|fuel] o i g Hat -> Hf Hi Hg Hmc Hmax; try (simpl in *; lia).
  rewrite length_cons, Nat2Z.inj_succ in *.
  rewrite (suback_loop_step _ _ _ _ _ x bs) by (done || unfold INT_MAX; lia).
  test_false (mc <? i). destruct (Z.ltb_spec i (zlen g)); [|done].
  assert (length (splice g i [granted_value x]) = length g) as Hlen by (apply splice_length; simpl; lia).
  apply IH; [by eapply bytes_at_tail|lia..].
Qed.

(** The function up to its loop, on a frame with at least two bytes. *)
Lemma deserialize_suback_frame s b o out mc buflen x bs n v :
  bytes_at (mem s) b o (x :: bs) -> parse_remlen 4 bs = Some (n, v) -> n <= 4 -> 2 <= v ->
  header_type (Z_of_byte x) = SUBACK ->
  MQTTDeserialize_suback out mc (Ptr b o) buflen s =
    (let* (id, p) := readInt (Ptr b (o + 1 + n)) in
     suback_loop (S (Z.to_nat v)) mc
       {| suback_packetid := u16 id; suback_count := 0; grantedQoSs := grantedQoSs out |}
       p (Ptr b (o + 1 + n + v))) (cursor_moved s b (o + 1 + n)).
Proof.
  intros Hat Hparse Hn Hv Hx. unfold MQTTDeserialize_suback. call readChar_at.
  rewrite u8_readChar_byte, Hx, Z.eqb_refl. cbn [negb]. apply bytes_at_tail in Hat.
  call decodeBuf_frame. run_psub.
  by test_false (o + 1 + n + v - (o + 1 + n) <? 2).
Qed.

(** A SUBACK packet on the wire, up to the loop over its grants. *)
Lemma deserialize_suback_packet s b o out mc buflen packetid qs rest :
  bytes_at (mem s) b o (suback_packet packetid qs ++ rest) -> 0 <= packetid < 65536 ->
  2 + zlen qs <= REMLEN_MAX ->
  exists o', MQTTDeserialize_suback out mc (Ptr b o) buflen s =
      suback_loop (S (length qs + 2)) mc
        {| suback_packetid := packetid; suback_count := 0; grantedQoSs := grantedQoSs out |}
        (Ptr b (o' + 2)) (Ptr b (o' + 2 + zlen qs)) (cursor_moved s b o') /\
    bytes_at (mem (cursor_moved s b o')) b (o' + 2) (byte_of_Z <$> qs).
Proof.
  intros Hat Hid Hmax. pose proof (frame_at _ _ _ _ _ _ Hat) as (_ & _ & Hbody).
  unfold suback_packet, mqtt_packet in Hat. rewrite <- app_comm_cons in Hat.
  set (body := int_bytes packetid ++ (byte_of_Z <$> qs)) in *.
  assert (zlen body = 2 + zlen qs) as Hlen by (unfold body, int_bytes; zlen_lia).
  erewrite deserialize_suback_frame;
    [|exact Hat|rewrite <- app_assoc; apply parse_remlen_bytes; lia|rewrite remlen_bytes_length by lia;
      repeat case_test; lia|lia|done].
  set (o' := o + 1 + zlen (remlen_bytes (zlen body))) in *. exists o'.
  unfold body in Hbody. rewrite <- app_assoc in Hbody.
  split.
  - call readInt_int_bytes. rewrite u16_small by lia. rewrite Hlen.
    replace (Z.to_nat (2 + zlen qs)) with (length qs + 2)%nat by lia.
    by replace (o' + (2 + zlen qs)) with (o' + 2 + zlen qs) by lia.
  - apply bytes_at_app in Hbody as [_ Hbody]. by apply bytes_at_app in Hbody as [? _].
Qed.
End DeserializeFacts.

Section ServerFacts.
Context {W : Type} `{CharSign}.
Implicit Types (s : state W) (b : block).

(** One turn on a complete entry: the filter goes into the array, or the array
    is left. *)
Lemma subscribe_read_step fuel rc s b o e t q rest dup id i fs qs :
  bytes_at (mem s) b o (utf_bytes t ++ byte_of_Z q :: rest) -> zlen t <= 65535 ->
  o + 3 + zlen t <= e -> 0 <= i < INT_MAX -> length fs = length qs ->
  exists f, held (mem s) b f t /\
    subscribe_read_loop (S fuel) rc
      {| sub_dup := dup; sub_packetid := id; sub_count := i;
         sub_topicFilters := fs; sub_requestedQoSs := qs |} (Ptr b o) (Ptr b e) s =
    if i <? zlen fs
    then subscribe_read_loop fuel rc
           {| sub_dup := dup; sub_packetid := id; sub_count := i + 1;
              sub_topicFilters := splice fs i [f];
              sub_requestedQoSs := splice qs i [to_char q] |} (Ptr b (o + 3 + zlen t)) (Ptr b e) s
    else Fault OutOfBounds.
Proof.
  unfold INT_MAX. intros Hat Ht He Hi Hlen. cbn [subscribe_read_loop sub_dup sub_packetid sub_count
    sub_topicFilters sub_requestedQoSs].
  rewrite (bind_done _ _ _ _ _ (plt_same _ _ _ _)). test_true (o <? e). cbn [negb].
  destruct (Z.ltb_spec i (zlen fs)).
  - destruct (arr_get_any s fs i ltac:(lia)) as [f0 Hf0]. rewrite (bind_done _ _ _ _ _ Hf0).
    destruct (held_utf s b o e t _ f0 Hat Ht ltac:(lia)) as (f & Hrun & Hheld & Hrest).
    exists f. split; [done|]. rewrite (bind_done _ _ _ _ _ Hrun).
    rewrite (bind_done _ _ _ _ _ (arr_set_done s fs i f ltac:(lia))).
    cbn [Z.eqb sub_dup sub_packetid sub_count sub_topicFilters sub_requestedQoSs].
    rewrite (bind_done _ _ _ _ _ (plt_same _ _ _ _)). test_true (o + 2 + zlen t <? e). cbn [negb].
    rewrite (bind_done _ _ _ _ _ (readChar_byte _ _ _ _ _ Hrest)).
    rewrite (bind_done _ _ _ _ _ (arr_set_done s qs i _ ltac:(lia))).
    rewrite bind_int by (unfold INT_MIN, INT_MAX; lia).
    by replace (o + 2 + zlen t + 1) with (o + 3 + zlen t) by lia.
  - destruct (held_utf s b o e t _ MQTTString_initializer Hat Ht ltac:(lia)) as (f & _ & Hheld & _).
    exists f. split; [done|].
    by rewrite (bind_fault _ _ _ _ (arr_get_out s fs i ltac:(lia))).
Qed.

Definition topics_short (es : list entry) : Prop := Forall (fun e => zlen e.1 <= 65535) es.

Lemma subscribe_read_loop_run fuel rc s b o e (es : list entry) dup id i fs qs :
  bytes_at (mem s) b o (entries_bytes es) -> e = o + zlen (entries_bytes es) ->
  (length es < fuel)%nat -> topics_short es -> 0 <= i -> length fs = length qs ->
  i + zlen es <= zlen fs <= INT_MAX ->
  exists strs, Forall2 (held (mem s) b) strs (es.*1) /\
    subscribe_read_loop fuel rc
      {| sub_dup := dup; sub_packetid := id; sub_count := i;
         sub_topicFilters := fs; sub_requestedQoSs := qs |} (Ptr b o) (Ptr b e) s =
    Done (1, {| sub_dup := dup; sub_packetid := id; sub_count := i + zlen es;
                sub_topicFilters := splice fs i strs;
                sub_requestedQoSs := splice qs i (to_char <$> es.*2) |}) s.
Proof.
  unfold INT_MAX. intros Hat He Hfuel Hshort. revert fuel o i fs qs Hat He Hfuel.
  induction Hshort as [|[t q] es Ht _ IH]; intros [|fuel] o i fs qs Hat -> Hf Hi Hlen Hfs;
    try (simpl in *; lia).
  - exists []. split; [constructor|]. cbn [subscribe_read_loop].
    rewrite (bind_done _ _ _ _ _ (plt_same _ _ _ _)). simpl. rewrite !Z.add_0_r, Z.ltb_irrefl.
    by rewrite !splice_nil.
  - cbn [entries_bytes fst fmap list_fmap snd] in *.
    rewrite length_app, Nat2Z.inj_add, utf_bytes_length, !length_cons, !Nat2Z.inj_succ in *.
    destruct (subscribe_read_step fuel rc s b o (o + (2 + zlen t + Z.succ (zlen (entries_bytes es))))
      t q (entries_bytes es) dup id i fs qs Hat Ht ltac:(lia) ltac:(unfold INT_MAX; lia) Hlen)
      as (f & Hheld & ->).
    test_true (i <? zlen fs).
    apply bytes_at_app in Hat as [_ Hat%bytes_at_tail]. rewrite utf_bytes_length in Hat.
    assert (length (splice fs i [f]) = length fs) as Hl1 by (apply splice_length; simpl; lia).
    assert (length (splice qs i [to_char q]) = length qs) as Hl2 by (apply splice_length; simpl; lia).
    destruct (IH fuel (o + 3 + zlen t) (i + 1) (splice fs i [f]) (splice qs i [to_char q]))
      as (strs & Hstrs & Hrun); [by eapply bytes_at_eq; [exact Hat|lia]|lia..|].
    exists (f :: strs). split; [by constructor|].
    pose proof (Forall2_length Hstrs) as Hn. rewrite length_fmap in Hn.
    replace (i + 1 + zlen es) with (i + Z.succ (zlen es)) in Hrun by lia.
    etransitivity; [exact Hrun|]. do 2 f_equal.
    change (i + 1) with (i + zlen [f]) at 1. change (i + 1) with (i + zlen [to_char q]).
    rewrite !splice_app by (rewrite ?length_fmap, ?length_fmap; simpl; lia). done.
Qed.

(** More entries than the array has elements. *)
Lemma subscribe_read_loop_overrun fuel rc s b o e (es : list entry) dup id i fs qs :
  bytes_at (mem s) b o (entries_bytes es) -> e = o + zlen (entries_bytes es) ->
  (length es < fuel)%nat -> topics_short es -> 0 <= i <= zlen fs -> length fs = length qs ->
  zlen fs < i + zlen es -> zlen fs < INT_MAX ->
  subscribe_read_loop fuel rc
    {| sub_dup := dup; sub_packetid := id; sub_count := i;
       sub_topicFilters := fs; sub_requestedQoSs := qs |} (Ptr b o) (Ptr b e) s = Fault OutOfBounds.
Proof.
  unfold INT_MAX. intros Hat He Hfuel Hshort. revert fuel o i fs qs Hat He Hfuel.
  induction Hshort as [|[t q] es Ht _ IH]; intros [|fuel] o i fs qs Hat -> Hf Hi Hlen Hfs Hmax;
    try (simpl in *; lia).
  cbn [entries_bytes fst] in *.
  rewrite length_app, Nat2Z.inj_add, utf_bytes_length, !length_cons, !Nat2Z.inj_succ in *.
  destruct (subscribe_read_step fuel rc s b o (o + (2 + zlen t + Z.succ (zlen (entries_bytes es))))
    t q (entries_bytes es) dup id i fs qs Hat Ht ltac:(lia) ltac:(unfold INT_MAX; lia) Hlen)
    as (f & Hheld & ->).
  destruct (Z.ltb_spec i (zlen fs)); [|done].
  apply bytes_at_app in Hat as [_ Hat%bytes_at_tail]. rewrite utf_bytes_length in Hat.
  assert (length (splice fs i [f]) = length fs) as Hl1 by (apply splice_length; simpl; lia).
  assert (length (splice qs i [to_char q]) = length qs) as Hl2 by (apply splice_length; simpl; lia).
  apply IH; [by eapply bytes_at_eq; [exact Hat|lia]|lia..].
Qed.

(** A SUBSCRIBE packet on the wire, up to the loop over its entries. *)
Lemma deserialize_subscribe_packet s b o out mc buflen dup packetid (es : list entry) rest :
  bytes_at (mem s) b o (subscribe_packet dup packetid es ++ rest) -> 0 <= packetid < 65536 ->
  zlen (subscribe_body packetid es) <= REMLEN_MAX ->
  exists o' rc fuel, (length es < fuel)%nat /\
    MQTTDeserialize_subscribe out mc (Ptr b o) buflen s =
      subscribe_read_loop fuel rc
        {| sub_dup := dup mod 2; sub_packetid := packetid; sub_count := 0;
           sub_topicFilters := sub_topicFilters out; sub_requestedQoSs := sub_requestedQoSs out |}
        (Ptr b o') (Ptr b (o' + zlen (entries_bytes es))) (cursor_moved s b (o' - 2)) /\
    bytes_at (mem s) b o' (entries_bytes es).
Proof.
  intros Hat Hid Hmax. pose proof (subscribe_body_length packetid es) as Hlen.
  unfold subscribe_packet in Hat. apply frame_at in Hat as (Hh & Hrem & Hbody).
  set (body := subscribe_body packetid es) in *.
  set (o' := o + 1 + zlen (remlen_bytes (zlen body))) in *.
  exists (o' + 2), (zlen (remlen_bytes (zlen body))), (S (Z.to_nat (zlen body))). split.
  { assert (length es <= length (entries_bytes es))%nat; [|lia]. clear.
    induction es as [|[t q] es IH]; [done|]. cbn [entries_bytes].
    rewrite length_app, !length_cons. lia. }
  unfold body, subscribe_body in Hbody. rewrite <- app_assoc in Hbody. split.
  - unfold MQTTDeserialize_subscribe. call readChar_byte.
    rewrite u8_readChar by apply mqtt_header_range. rewrite header_type_is, header_dup_is.
    change (negb (SUBSCRIBE mod 16 =? SUBSCRIBE)) with false. cbv iota.
    call decodeBuf_remlen. fold o'. call readInt_int_bytes. rewrite u16_small by lia. unfold cursor_moved.
    replace (o' + 2 - 2) with o' by lia.
    by replace (o' + zlen body) with (o' + 2 + zlen (entries_bytes es)) by lia.
  - apply bytes_at_app in Hbody as [_ Hbody]. by apply bytes_at_app in Hbody as [? _].
Qed.
End ServerFacts.

Section UnsubscribeFacts.
Context {W : Type} `{CharSign}.
Implicit Types (s : state W) (b : block).

Lemma unsubscribe_read_loop_run fuel rc s b o e ts dup id i fs :
  bytes_at (mem s) b o (topics_bytes ts) -> e = o + zlen (topics_bytes ts) ->
  (length ts < fuel)%nat -> Forall (fun t => zlen t <= 65535) ts -> 0 <= i ->
  i + zlen ts <= zlen fs <= INT_MAX ->
  exists strs, Forall2 (held (mem s) b) strs ts /\
    unsubscribe_read_loop fuel rc
      {| unsub_dup := dup; unsub_packetid := id; unsub_count := i; unsub_topicFilters := fs |}
      (Ptr b o) (Ptr b e) s =
    Done (1, {| unsub_dup := dup; unsub_packetid := id; unsub_count := i + zlen ts;
                unsub_topicFilters := splice fs i strs |}) s.
Proof.
  unfold INT_MAX. intros Hat He Hfuel Hshort. revert fuel o i fs Hat He Hfuel.
  induction Hshort as [|t ts Ht _ IH]; intros [|fuel] o i fs Hat -> Hf Hi Hfs;
    try (simpl in *; lia).
  - exists []. split; [constructor|]. cbn [unsubscribe_read_loop].
    rewrite (bind_done _ _ _ _ _ (plt_same _ _ _ _)). simpl. rewrite !Z.add_0_r, Z.ltb_irrefl.
    by rewrite !splice_nil.
  - cbn [topics_bytes unsubscribe_read_loop unsub_dup unsub_packetid unsub_count unsub_topicFilters] in *.
    rewrite length_app, Nat2Z.inj_add, utf_bytes_length, !length_cons, !Nat2Z.inj_succ in *.
    rewrite (bind_done _ _ _ _ _ (plt_same _ _ _ _)).
    test_true (o <? o + (2 + zlen t + zlen (topics_bytes ts))). cbn [negb].
    destruct (arr_get_any s fs i ltac:(lia)) as [f0 Hf0]. rewrite (bind_done _ _ _ _ _ Hf0).
    destruct (held_utf s b o (o + (2 + zlen t + zlen (topics_bytes ts))) t _ f0 Hat Ht ltac:(lia))
      as (f & Hrun & Hheld & Hrest).
    rewrite (bind_done _ _ _ _ _ Hrun), (bind_done _ _ _ _ _ (arr_set_done s fs i f ltac:(lia))).
    cbn [Z.eqb]. rewrite bind_int by (unfold INT_MIN, INT_MAX; lia).
    assert (length (splice fs i [f]) = length fs) as Hl1 by (apply splice_length; simpl; lia).
    destruct (IH fuel (o + 2 + zlen t) (i + 1) (splice fs i [f])) as (strs & Hstrs & Hrun');
      [done|lia..|].
    exists (f :: strs). split; [by constructor|].
    pose proof (Forall2_length Hstrs) as Hn.
    replace (i + 1 + zlen ts) with (i + Z.succ (zlen ts)) in Hrun' by lia.
    etransitivity; [exact Hrun'|]. do 2 f_equal.
    change (i + 1) with (i + zlen [f]) at 1. rewrite splice_app by (simpl; lia). done.
Qed.

Lemma deserialize_unsubscribe_packet s b o out mc buflen dup packetid ts rest :
  bytes_at (mem s) b o (unsubscribe_packet dup packetid ts ++ rest) -> 0 <= packetid < 65536 ->
  zlen (unsubscribe_body packetid ts) <= REMLEN_MAX ->
  exists o' rc fuel, (length ts < fuel)%nat /\
    MQTTDeserialize_unsubscribe out mc (Ptr b o) buflen s =
      unsubscribe_read_loop fuel rc
        {| unsub_dup := dup mod 2; unsub_packetid := packetid; unsub_count := 0;
           unsub_topicFilters := unsub_topicFilters out |}
        (Ptr b o') (Ptr b (o' + zlen (topics_bytes ts))) (cursor_moved s b (o' - 2)) /\
    bytes_at (mem s) b o' (topics_bytes ts).
Proof.
  intros Hat Hid Hmax. pose proof (unsubscribe_body_length packetid ts) as Hlen.
  unfold unsubscribe_packet in Hat. apply frame_at in Hat as (Hh & Hrem & Hbody).
  set (body := unsubscribe_body packetid ts) in *.
  set (o' := o + 1 + zlen (remlen_bytes (zlen body))) in *.
  exists (o' + 2), (zlen (remlen_bytes (zlen body))), (S (Z.to_nat (zlen body))). split.
  { assert (length ts <= length (topics_bytes ts))%nat; [|lia]. clear.
    induction ts as [|t ts IH]; [done|]. cbn [topics_bytes]. unfold utf_bytes, int_bytes.
    rewrite !length_app, !length_cons. lia. }
  unfold body, unsubscribe_body in Hbody. rewrite <- app_assoc in Hbody. split.
  - unfold MQTTDeserialize_unsubscribe. call readChar_byte.
    rewrite u8_readChar by apply mqtt_header_range. rewrite header_type_is, header_dup_is.
    change (negb (UNSUBSCRIBE mod 16 =? UNSUBSCRIBE)) with false. cbv iota.
    call decodeBuf_remlen. fold o'. call readInt_int_bytes. rewrite u16_small by lia. unfold cursor_moved.
    replace (o' + 2 - 2) with o' by lia.
    by replace (o' + zlen body) with (o' + 2 + zlen (topics_bytes ts)) by lia.
  - apply bytes_at_app in Hbody as [_ Hbody]. by apply bytes_at_app in Hbody as [? _].
Qed.

Lemma serialize_unsuback_run s b o l buflen packetid :
  mem s !! b = Some l -> 0 <= o <= zlen l -> 0 <= packetid ->
  MQTTSerialize_unsuback (Ptr b o) buflen packetid s =
    if buflen <? 2 then Done MQTTPACKET_BUFFER_TOO_SHORT s
    else if o + 4 <=? zlen l then Done 4 (set_block s b (splice l o (ack_packet UNSUBACK 0 packetid)))
    else Fault OutOfBounds.
Proof.
  intros Hb Ho Hid. unfold MQTTSerialize_unsuback. cbv zeta. case_test; [done|].
  rewrite header_assign_type. unfold ack_packet. set (h := mqtt_header _ _ _ _).
  change (mqtt_header UNSUBACK 0 _ 0) with h. change 4 with (zlen (mqtt_packet h (int_bytes packetid))).
  unfold mqtt_packet. change (zlen (int_bytes packetid)) with 2.
  start_writing; [|done..].
  eapply (serializes_bind s b o _ _ [_]); [apply writes_char|].
  eapply (serializes_bind s b o); [apply encode_writes; unfold INT_MAX; lia|].
  by apply serializes_last, writes_int.
Qed.
End UnsubscribeFacts.

(** ** Properties *)

Section SubscribeProperties.
Context {W : Type} `{CharSign}.
Implicit Types (s : state W) (b : block).

(** With a buffer that really has [buflen] bytes, MQTTSerialize_subscribe
    never writes out of bounds: it refuses, leaving memory alone, only when
    the buffer has no byte to spare, and otherwise stores exactly the
    SUBSCRIBE packet of all its filters and requested QoS, in order, and
    returns its length. *)
Theorem subscribe_serialize_spec s b o l buflen dup packetid fs (es : list entry) :
  mem s !! b = Some l -> 0 <= o -> 0 <= buflen <= zlen l - o -> 0 <= packetid ->
  Forall2 (fun f e => mqttstring_is (mem s) b f e.1) fs es ->
  zlen (subscribe_body packetid es) <= REMLEN_MAX ->
  let wire := subscribe_packet dup packetid es in
  let r := MQTTSerialize_subscribe (Ptr b o) buflen dup packetid (zlen es) fs (es.*2) s in
  (r = Done MQTTPACKET_BUFFER_TOO_SHORT s /\ buflen <= zlen wire) \/
  (r = Done (zlen wire) (set_block s b (splice l o wire)) /\ zlen wire <= buflen).
Proof.
  intros Hb Ho Hbuf Hid Hfs Hmax wire r.
  destruct (serialize_subscribe_run s b o l buflen dup packetid fs es Hb ltac:(lia) Hid Hfs Hmax)
    as (total & Htot & Hrun).
  assert (zlen wire = packet_size (zlen (subscribe_body packetid es))) as Hw by apply mqtt_packet_length.
  unfold r. rewrite Hrun. cbv zeta. fold wire. case_test; [left; split; [done|lia]|].
  right. split; [|lia]. by test_true (o + zlen wire <=? zlen l).
Qed.

(** Deserializing what MQTTSerialize_subscribe wrote gives back, in arrays
    with enough room, every topic filter (as a pointer to its bytes in the
    buffer) and every requested QoS in order, with the dup flag, the packet
    identifier and the count; the array elements behind them keep their
    values. *)
Theorem subscribe_roundtrip s b o l buflen dup packetid fs (es : list entry) out maxcount :
  mem s !! b = Some l -> 0 <= o -> buflen <= zlen l - o -> 0 <= packetid < 65536 ->
  Forall2 (fun f e => mqttstring_is (mem s) b f e.1) fs es -> topics_short es ->
  zlen (subscribe_body packetid es) <= REMLEN_MAX ->
  packet_size (zlen (subscribe_body packetid es)) < buflen ->
  zlen es <= zlen (sub_topicFilters out) <= INT_MAX ->
  length (sub_topicFilters out) = length (sub_requestedQoSs out) ->
  exists n s1 s2 strs,
    MQTTSerialize_subscribe (Ptr b o) buflen dup packetid (zlen es) fs (es.*2) s = Done n s1 /\
    Forall2 (held (mem s2) b) strs (es.*1) /\
    MQTTDeserialize_subscribe out maxcount (Ptr b o) n s1 =
      Done (1, {| sub_dup := dup mod 2; sub_packetid := packetid; sub_count := zlen es;
                  sub_topicFilters := splice (sub_topicFilters out) 0 strs;
                  sub_requestedQoSs := splice (sub_requestedQoSs out) 0 (to_char <$> es.*2) |}) s2.
Proof.
  intros Hb Ho Hbuf Hid Hfs Hshort Hmax Hsize Hroom Harr.
  destruct (serialize_subscribe_run s b o l buflen dup packetid fs es Hb
              ltac:(unfold packet_size in *; lia) ltac:(lia) Hfs Hmax) as (total & Htot & Hrun).
  assert (zlen (subscribe_packet dup packetid es) = packet_size (zlen (subscribe_body packetid es)))
    as Hw by apply mqtt_packet_length.
  cbv zeta in Hrun. rewrite Hw in Hrun.
  rewrite (proj2 (Z.ltb_ge buflen total)), (proj2 (Z.leb_le _ _)) in Hrun by lia.
  set (wire := subscribe_packet dup packetid es) in *. set (s1 := set_block s b (splice l o wire)) in *.
  assert (Hat : bytes_at (mem s1) b o (wire ++ []))
    by (rewrite app_nil_r; apply bytes_at_splice; lia).
  destruct (deserialize_subscribe_packet s1 b o out maxcount (packet_size (zlen
    (subscribe_body packetid es))) dup packetid es [] Hat Hid Hmax) as (o' & rc & fuel & Hf & Hde & Hes).
  set (s2 := cursor_moved s1 b (o' - 2)) in *.
  destruct (subscribe_read_loop_run fuel rc s2 b o' _ es (dup mod 2) packetid 0
    (sub_topicFilters out) (sub_requestedQoSs out) Hes eq_refl Hf Hshort ltac:(done) Harr ltac:(lia))
    as (strs & Hstrs & Hloop).
  do 4 eexists. split_and!; [exact Hrun|exact Hstrs|]. by rewrite Hde.
Qed.

(** MQTTDeserialize_subscribe does not look at [maxcount]: a SUBSCRIBE
    packet with more entries than the caller's arrays have elements makes it
    access the arrays out of bounds, whatever [maxcount] says. *)
Theorem subscribe_maxcount_ignored s b o buflen dup packetid (es : list entry) rest out maxcount :
  bytes_at (mem s) b o (subscribe_packet dup packetid es ++ rest) -> 0 <= packetid < 65536 ->
  topics_short es -> zlen (subscribe_body packetid es) <= REMLEN_MAX ->
  length (sub_topicFilters out) = length (sub_requestedQoSs out) ->
  zlen (sub_topicFilters out) < zlen es -> zlen (sub_topicFilters out) < INT_MAX ->
  MQTTDeserialize_subscribe out maxcount (Ptr b o) buflen s = Fault OutOfBounds.
Proof.
  intros Hat Hid Hshort Hmax Harr Hroom Hint.
  destruct (deserialize_subscribe_packet s b o out maxcount buflen dup packetid es rest Hat Hid Hmax)
    as (o' & rc & fuel & Hf & -> & Hes).
  eapply subscribe_read_loop_overrun; [exact Hes|done..|lia|done|lia|done].
Qed.

(** Deserializing what MQTTSerialize_suback wrote gives back the packet
    identifier and the granted QoS in order, each read as a [char]: where
    [char] is signed the failure code 128 becomes -128. *)
Theorem suback_roundtrip s b o l buflen packetid qs out maxcount :
  mem s !! b = Some l -> 0 <= o -> buflen <= zlen l - o -> 0 <= packetid < 65536 ->
  2 + zlen qs <= REMLEN_MAX -> packet_size (2 + zlen qs) <= buflen ->
  zlen qs <= maxcount + 1 -> zlen qs <= zlen (grantedQoSs out) <= INT_MAX ->
  exists n s1 s2,
    MQTTSerialize_suback (Ptr b o) buflen packetid (zlen qs) qs s = Done n s1 /\
    MQTTDeserialize_suback out maxcount (Ptr b o) n s1 =
      Done (1, {| suback_packetid := packetid; suback_count := zlen qs;
                  grantedQoSs := splice (grantedQoSs out) 0 (to_char <$> qs) |}) s2.
Proof.
  intros Hb Ho Hbuf Hid Hmax Hsize Hmc Harr.
  pose proof (serialize_suback_run s b o l buflen packetid qs Hb
                ltac:(unfold packet_size in *; lia) ltac:(lia) Hmax) as Hrun.
  assert (zlen (suback_packet packetid qs) = packet_size (2 + zlen qs)) as Hw.
  { unfold suback_packet. rewrite mqtt_packet_length. f_equal. unfold int_bytes. zlen_lia. }
  cbv zeta in Hrun. rewrite Hw in Hrun.
  rewrite (proj2 (Z.ltb_ge buflen _)), (proj2 (Z.leb_le _ _)) in Hrun
    by (unfold packet_size in *; lia).
  set (wire := suback_packet packetid qs) in *. set (s1 := set_block s b (splice l o wire)) in *.
  assert (Hat : bytes_at (mem s1) b o (wire ++ []))
    by (rewrite app_nil_r; apply bytes_at_splice; lia).
  destruct (deserialize_suback_packet s1 b o out maxcount (packet_size (2 + zlen qs)) packetid qs []
    Hat Hid Hmax) as (o' & Hde & Hqs).
  do 3 eexists. split; [exact Hrun|]. rewrite Hde.
  rewrite <- (length_fmap byte_of_Z qs) in Hmc, Harr |- *.
  erewrite suback_loop_run by (exact Hqs || rewrite ?length_fmap in *; lia).
  do 4 f_equal. rewrite <- list_fmap_compose. apply list_fmap_ext. intros _ q _. simpl.
  unfold granted_value. by rewrite Z_of_byte_of_Z, to_char_mod.
Qed.

(** MQTTDeserialize_suback is safe on SUBACK packets with any number of
    grants if the caller's array has one element more than [maxcount]: it
    terminates, reports an error for more than [maxcount + 1] grants and
    otherwise counts them all, and never stores outside the array. *)
Theorem suback_parse_safe s b o buflen packetid qs rest out maxcount :
  bytes_at (mem s) b o (suback_packet packetid qs ++ rest) -> 0 <= packetid < 65536 ->
  2 + zlen qs <= REMLEN_MAX -> 0 <= maxcount ->
  maxcount + 1 <= zlen (grantedQoSs out) < INT_MAX ->
  exists rc out' s', MQTTDeserialize_suback out maxcount (Ptr b o) buflen s = Done (rc, out') s' /\
    mem s' = mem s /\
    (rc = 1 /\ suback_count out' = zlen qs \/ rc = -1 /\ maxcount + 1 < zlen qs) /\
    suback_packetid out' = packetid /\ length (grantedQoSs out') = length (grantedQoSs out).
Proof.
  intros Hat Hid Hmax Hmc Harr.
  destruct (deserialize_suback_packet s b o out maxcount buflen packetid qs rest Hat Hid Hmax)
    as (o' & -> & Hqs).
  destruct (suback_loop_safe (S (length qs + 2)) (cursor_moved s b o') b (o' + 2)
    (o' + 2 + zlen qs) _ maxcount packetid 0 (grantedQoSs out) Hqs) as (rc & out' & Hrun & Hrc & Hid' & _ & Hl);
    [rewrite length_fmap; lia..|lia|done|].
  rewrite length_fmap in Hrc. exists rc, out', (cursor_moved s b o'). by split_and!.
Qed.

(** The bound check of MQTTDeserialize_suback is off by one: with an array
    of exactly [maxcount] elements, as its documentation asks for, a SUBACK
    with more grants is stored past the end of the array. *)
Theorem suback_maxcount_off_by_one s b o buflen packetid qs rest out :
  bytes_at (mem s) b o (suback_packet packetid qs ++ rest) -> 0 <= packetid < 65536 ->
  2 + zlen qs <= REMLEN_MAX -> zlen (grantedQoSs out) < zlen qs ->
  MQTTDeserialize_suback out (zlen (grantedQoSs out)) (Ptr b o) buflen s = Fault OutOfBounds.
Proof.
  intros Hat Hid Hmax Hroom. unfold REMLEN_MAX in *.
  destruct (deserialize_suback_packet s b o out (zlen (grantedQoSs out)) buflen packetid qs rest Hat Hid
    ltac:(unfold REMLEN_MAX; lia)) as (o' & -> & Hqs).
  eapply suback_loop_overrun; [exact Hqs|..]; rewrite ?length_fmap; unfold INT_MAX; lia || done.
Qed.

(** MQTTSerialize_suback checks for [2 + count] bytes of room and writes
    [2 + count] bytes behind the two of the fixed header: a buffer that just
    passes the check is overrun. *)
Theorem suback_overrun s b o l packetid qs :
  mem s !! b = Some l -> 0 <= o -> zlen l = o + 2 + zlen qs -> 0 <= packetid ->
  2 + zlen qs <= REMLEN_MAX ->
  MQTTSerialize_suback (Ptr b o) (2 + zlen qs) packetid (zlen qs) qs s = Fault OutOfBounds.
Proof.
  intros Hb Ho Hl Hid Hmax. rewrite (serialize_suback_run s b o l) by (done || lia). cbv zeta.
  test_false (2 + zlen qs <? 2 + zlen qs).
  assert (2 + zlen qs < zlen (suback_packet packetid qs)) as Hw; [|by test_false
    (o + zlen (suback_packet packetid qs) <=? zlen l)].
  unfold suback_packet. rewrite mqtt_packet_length. unfold packet_size, int_bytes. zlen_lia.
Qed.

(** Deserializing what MQTTSerialize_unsubscribe wrote gives back every
    topic filter in order, with the dup flag, the packet identifier and the
    count. *)
Theorem unsubscribe_roundtrip s b o l buflen dup packetid fs ts out maxcount :
  mem s !! b = Some l -> 0 <= o -> buflen <= zlen l - o -> 0 <= packetid < 65536 ->
  Forall2 (mqttstring_is (mem s) b) fs ts -> Forall (fun t => zlen t <= 65535) ts ->
  zlen (unsubscribe_body packetid ts) <= REMLEN_MAX ->
  packet_size (zlen (unsubscribe_body packetid ts)) < buflen ->
  zlen ts <= zlen (unsub_topicFilters out) <= INT_MAX ->
  exists n s1 s2 strs,
    MQTTSerialize_unsubscribe (Ptr b o) buflen dup packetid (zlen ts) fs s = Done n s1 /\
    Forall2 (held (mem s2) b) strs ts /\
    MQTTDeserialize_unsubscribe out maxcount (Ptr b o) n s1 =
      Done (1, {| unsub_dup := dup mod 2; unsub_packetid := packetid; unsub_count := zlen ts;
                  unsub_topicFilters := splice (unsub_topicFilters out) 0 strs |}) s2.
Proof.
  intros Hb Ho Hbuf Hid Hfs Hshort Hmax Hsize Hroom.
  destruct (serialize_unsubscribe_run s b o l buflen dup packetid fs ts Hb
              ltac:(unfold packet_size in *; lia) ltac:(lia) Hfs Hmax) as (total & Htot & Hrun).
  assert (zlen (unsubscribe_packet dup packetid ts) = packet_size (zlen (unsubscribe_body packetid ts)))
    as Hw by apply mqtt_packet_length.
  cbv zeta in Hrun. rewrite Hw in Hrun.
  rewrite (proj2 (Z.ltb_ge buflen total)), (proj2 (Z.leb_le _ _)) in Hrun by lia.
  set (wire := unsubscribe_packet dup packetid ts) in *. set (s1 := set_block s b (splice l o wire)) in *.
  assert (Hat : bytes_at (mem s1) b o (wire ++ []))
    by (rewrite app_nil_r; apply bytes_at_splice; lia).
  destruct (deserialize_unsubscribe_packet s1 b o out maxcount (packet_size (zlen
    (unsubscribe_body packetid ts))) dup packetid ts [] Hat Hid Hmax) as (o' & rc & fuel & Hf & Hde & Hes).
  set (s2 := cursor_moved s1 b (o' - 2)) in *.
  destruct (unsubscribe_read_loop_run fuel rc s2 b o' _ ts (dup mod 2) packetid 0
    (unsub_topicFilters out) Hes eq_refl Hf Hshort ltac:(done) ltac:(lia)) as (strs & Hstrs & Hloop).
  do 4 eexists. split_and!; [exact Hrun|exact Hstrs|]. by rewrite Hde.
Qed.

(** MQTTDeserialize_unsuback accepts an acknowledgement of any type: the
    PUBACK, PUBREL, ... that MQTTDeserialize_ack can read is reported as a
    successfully read UNSUBACK. *)
Theorem unsuback_accepts_any_type s b o buflen packettype dup packetid rest id0 :
  bytes_at (mem s) b o (ack_packet packettype dup packetid ++ rest) ->
  0 <= packettype < 16 -> 0 <= packetid < 65536 ->
  exists s', MQTTDeserialize_unsuback id0 (Ptr b o) buflen s = Done (1, packetid) s'.
Proof.
  intros Hat Ht Hid. unfold MQTTDeserialize_unsuback. eexists.
  erewrite bind_done by (eapply deserialize_ack_packet; [exact Hat|done..]).
  cbn [ack_packettype ack_packetid]. by destruct (packettype =? UNSUBACK).
Qed.
End SubscribeProperties.

(** ** Witnesses *)

Section Witnesses.
#[local] Existing Instance char_is_signed.

(* block 1: a 32-byte buffer, 2: the filter "a/#" with its terminator, 3: the filter "b" *)
Definition ex_sub_state : state unit :=
  state_of [replicate 32 (byte_of_Z 170); bytes [97; 47; 35; 0]; bytes [98]].
Definition ex_filters : list MQTTString :=
  [{| cstring := Ptr 2 0; lenstring := {| len := 0; data := NULL |} |};
   {| cstring := NULL; lenstring := {| len := 1; data := Ptr 3 0 |} |}].
Definition ex_entries : list entry := [(bytes [97; 47; 35], 1); (bytes [98], 2)].

Lemma ex_filters_are :
  Forall2 (mqttstring_is (mem ex_sub_state) 1) ex_filters (ex_entries.*1).
Proof.
  constructor; [|constructor; [|constructor]].
  - right. split; [done|]. exists 2%positive, 0. split_and!; [done..|].
    exists 2%positive, 0. split_and!; [done|bytes_at_concrete|].
    intros Hin. apply list_elem_of_In in Hin. simpl in Hin. intuition discriminate.
  - left. split_and!; [done..|]. right. exists 3%positive, 0. split_and!; [done..|bytes_at_concrete].
Qed.

Lemma ex_filters_entries :
  Forall2 (fun f e => mqttstring_is (mem ex_sub_state) 1 f e.1) ex_filters ex_entries.
Proof. exact (proj1 (Forall2_fmap_r fst _ _ _) ex_filters_are). Qed.

Lemma subscribe_serialize_spec_witness :
  let wire := subscribe_packet 0 7 ex_entries in
  let r := MQTTSerialize_subscribe (Ptr 1 0) 32 0 7 2 ex_filters [1; 2] ex_sub_state in
  (r = Done MQTTPACKET_BUFFER_TOO_SHORT ex_sub_state /\ 32 <= zlen wire) \/
  (r = Done (zlen wire) (set_block ex_sub_state 1 (splice (replicate 32 (byte_of_Z 170)) 0 wire)) /\
   zlen wire <= 32).
Proof.
  apply (subscribe_serialize_spec ex_sub_state 1 0 (replicate 32 (byte_of_Z 170)) 32 0 7 ex_filters
           ex_entries); try done. apply ex_filters_entries.
Defined.

Definition ex_sub_out : subscribe_out :=
  {| sub_dup := 0; sub_packetid := 0; sub_count := 0;
     sub_topicFilters := replicate 3 MQTTString_initializer; sub_requestedQoSs := [9; 9; 9] |}.

Lemma subscribe_roundtrip_witness :
  exists n s1 s2 strs,
    MQTTSerialize_subscribe (Ptr 1 0) 32 0 7 2 ex_filters [1; 2] ex_sub_state = Done n s1 /\
    Forall2 (held (mem s2) 1) strs (ex_entries.*1) /\
    MQTTDeserialize_subscribe ex_sub_out 3 (Ptr 1 0) n s1 =
      Done (1, {| sub_dup := 0; sub_packetid := 7; sub_count := 2;
                  sub_topicFilters := splice (replicate 3 MQTTString_initializer) 0 strs;
                  sub_requestedQoSs := splice [9; 9; 9] 0 (to_char <$> [1; 2]) |}) s2.
Proof.
  apply (subscribe_roundtrip ex_sub_state 1 0 (replicate 32 (byte_of_Z 170)) 32 0 7 ex_filters
           ex_entries ex_sub_out 3); try done.
  - apply ex_filters_entries.
  - repeat constructor; done.
Defined.

(* the SUBSCRIBE packet of [ex_entries], as received *)
Definition ex_sub_wire : state unit := state_of [subscribe_packet 0 7 ex_entries].

Lemma subscribe_maxcount_ignored_witness :
  MQTTDeserialize_subscribe
    {| sub_dup := 0; sub_packetid := 0; sub_count := 0;
       sub_topicFilters := [MQTTString_initializer]; sub_requestedQoSs := [9] |}
    1 (Ptr 1 0) 14 ex_sub_wire = Fault OutOfBounds.
Proof.
  apply (subscribe_maxcount_ignored ex_sub_wire 1 0 14 0 7 ex_entries []); try done.
  - bytes_at_concrete.
  - repeat constructor; done.
Defined.

Example ex_grants : splice [9; 9; 9; 9] 0 (to_char <$> [0; 2; 128]) = [0; 2; -128; 9].
Proof. reflexivity. Qed.

Lemma suback_roundtrip_witness :
  exists n s1 s2,
    MQTTSerialize_suback (Ptr 1 0) 32 7 3 [0; 2; 128] ex_sub_state = Done n s1 /\
    MQTTDeserialize_suback {| suback_packetid := 0; suback_count := 0; grantedQoSs := [9; 9; 9; 9] |}
      3 (Ptr 1 0) n s1 =
      Done (1, {| suback_packetid := 7; suback_count := 3; grantedQoSs := splice [9; 9; 9; 9] 0 (to_char <$> [0; 2; 128]) |}) s2.
Proof.
  by apply (suback_roundtrip ex_sub_state 1 0 (replicate 32 (byte_of_Z 170)) 32 7 [0; 2; 128]
    {| suback_packetid := 0; suback_count := 0; grantedQoSs := [9; 9; 9; 9] |} 3).
Defined.

Definition ex_suback_wire : state unit := state_of [suback_packet 7 [0; 1; 2]].

Lemma suback_parse_safe_witness :
  let out := {| suback_packetid := 0; suback_count := 0; grantedQoSs := [9; 9] |} in
  exists rc out' s', MQTTDeserialize_suback out 1 (Ptr 1 0) 7 ex_suback_wire = Done (rc, out') s' /\
    mem s' = mem ex_suback_wire /\
    (rc = 1 /\ suback_count out' = 3 \/ rc = -1 /\ 1 + 1 < 3) /\
    suback_packetid out' = 7 /\ length (grantedQoSs out') = 2%nat.
Proof.
  apply (suback_parse_safe ex_suback_wire 1 0 7 7 [0; 1; 2] []
           {| suback_packetid := 0; suback_count := 0; grantedQoSs := [9; 9] |} 1); try done.
  bytes_at_concrete.
Defined.

Lemma suback_maxcount_off_by_one_witness :
  MQTTDeserialize_suback {| suback_packetid := 0; suback_count := 0; grantedQoSs := [9; 9] |}
    2 (Ptr 1 0) 7 ex_suback_wire = Fault OutOfBounds.
Proof.
  apply (suback_maxcount_off_by_one ex_suback_wire 1 0 7 7 [0; 1; 2] []
           {| suback_packetid := 0; suback_count := 0; grantedQoSs := [9; 9] |}); try done.
  bytes_at_concrete.
Defined.

Lemma suback_overrun_witness :
  MQTTSerialize_suback (Ptr 1 0) 3 7 1 [2] (state_of [bytes [0; 0; 0]]) = Fault OutOfBounds.
Proof. by apply (suback_overrun (state_of [bytes [0; 0; 0]]) 1 0 (bytes [0; 0; 0]) 7 [2]). Defined.

Lemma unsubscribe_roundtrip_witness :
  exists n s1 s2 strs,
    MQTTSerialize_unsubscribe (Ptr 1 0) 32 0 7 (zlen (ex_entries.*1)) ex_filters ex_sub_state = Done n s1 /\
    Forall2 (held (mem s2) 1) strs (ex_entries.*1) /\
    MQTTDeserialize_unsubscribe
      {| unsub_dup := 1; unsub_packetid := 0; unsub_count := 0;
         unsub_topicFilters := replicate 2 MQTTString_initializer |} 2 (Ptr 1 0) n s1 =
      Done (1, {| unsub_dup := 0; unsub_packetid := 7; unsub_count := zlen (ex_entries.*1);
                  unsub_topicFilters := splice (replicate 2 MQTTString_initializer) 0 strs |}) s2.
Proof.
  apply (unsubscribe_roundtrip ex_sub_state 1 0 (replicate 32 (byte_of_Z 170)) 32 0 7 ex_filters
           (ex_entries.*1)
           {| unsub_dup := 1; unsub_packetid := 0; unsub_count := 0;
              unsub_topicFilters := replicate 2 MQTTString_initializer |} 2); try done.
  - apply ex_filters_are.
  - repeat constructor; done.
Defined.

(* a PUBACK is taken for an UNSUBACK *)
Lemma unsuback_accepts_any_type_witness :
  exists s', MQTTDeserialize_unsuback 0 (Ptr 1 0) 4 (state_of [ack_packet PUBACK 0 7]) = Done (1, 7) s'.
Proof.
  apply (unsuback_accepts_any_type (state_of [ack_packet PUBACK 0 7]) 1 0 4 PUBACK 0 7 [] 0); try done.
  bytes_at_concrete.
Defined.
End Witnesses.
