(* ===== verification/PacketRead.v ===== *)
(** * Reading packets from a transport

    [MQTTPacket_read] (blocking) and [MQTTPacket_readnb] with
    [MQTTPacket_decodenb] (a state machine called again until the packet is
    complete), from the second half of MQTTPacket.c.  What a transport promises
    is the interface [Transport]; the theorems about the readers hold for every
    implementation of it.  [BlockingReader] refines it for the blocking
    reader. *)

From S2P Require Import Prelude CMem MQTTPacket.

(** The structure MQTTTransport without its callback [getfn] and the
    callback's handle [sck], which are the [getfn_t] of the calls. *)
Record MQTTTransport := {
  trp_multiplier : Z; trp_rem_len : Z; trp_len : Z; trp_state : Z
}.

Definition set_trp_state (t : MQTTTransport) (v : Z) : MQTTTransport :=
  {| trp_multiplier := trp_multiplier t; trp_rem_len := trp_rem_len t; trp_len := trp_len t;
     trp_state := v |}.
Definition set_trp_len (t : MQTTTransport) (v : Z) : MQTTTransport :=
  {| trp_multiplier := trp_multiplier t; trp_rem_len := trp_rem_len t; trp_len := v;
     trp_state := trp_state t |}.
Definition set_trp_value (t : MQTTTransport) (mult rem_len len : Z) : MQTTTransport :=
  {| trp_multiplier := mult; trp_rem_len := rem_len; trp_len := len; trp_state := trp_state t |}.

Section Read.
Context {W : Type} `{CharSign}.

(** A call of the callback with a pointer into a buffer: the bytes it yields
    are stored there. *)
Definition recv_into (getfn : getfn_t W) (buf : ptr) (count : Z) : M W Z :=
  let* (rc, bs) := getfn count in store_bytes buf bs ;;; ret rc.

Definition MQTTPacket_read (buf : ptr) (buflen : Z) (getfn : getfn_t W) : M W Z :=
  let* rc := recv_into getfn buf 1 in
  if negb (rc =? 1) then ret (-1)
  else
    let len := 1 in
    let* (_, rem_len) := MQTTPacket_decode getfn in
    let* n := MQTTPacket_encode (padd buf 1) rem_len in
    let* len := int (len + n) in
    let* total := int (rem_len + len) in
    if buflen <? total then ret (-1)
    else
      let* short :=
        (if negb (rem_len =? 0) then
           let* rc := recv_into getfn (padd buf len) rem_len in ret (negb (rc =? rem_len))
         else ret false) in
      if short : bool then ret (-1)
      else let* header := load buf in ret (header_type header).

(** The do-while loop of MQTTPacket_decodenb; [len] in the structure ends it
    after at most five turns. *)
Fixpoint decodenb_loop (fuel : nat) (getfn : getfn_t W) (c : option Z) (trp : MQTTTransport) :
    M W (Z * MQTTTransport) :=
  match fuel with
  | O => throw Divergence
  | S fuel =>
      if MAX_NO_OF_REMAINING_LENGTH_BYTES <=? trp_len trp then ret (MQTTPACKET_READ_ERROR, trp)
      else
        let* (frc, bs) := getfn 1 in
        let* c := recv_char c bs in
        if frc =? -1 then ret (MQTTPACKET_READ_ERROR, trp)
        else if frc =? 0 then ret (0, trp)
        else
          let* len := int (trp_len trp + 1) in
          let* cv := use c in
          let* rem_len := int (trp_rem_len trp + Z.land cv 127 * trp_multiplier trp) in
          let* mult := int (trp_multiplier trp * 128) in
          let trp := set_trp_value trp mult rem_len len in
          if negb (Z.land cv 128 =? 0) then decodenb_loop fuel getfn c trp else ret (len, trp)
  end.

Definition MQTTPacket_decodenb (getfn : getfn_t W) (trp : MQTTTransport) : M W (Z * MQTTTransport) :=
  let trp := if trp_len trp =? 0 then set_trp_value trp 1 0 (trp_len trp) else trp in
  decodenb_loop 5 getfn None trp.

(** [exit:] of MQTTPacket_readnb. *)
Definition readnb_exit (rc : Z) (trp : MQTTTransport) : M W (Z * MQTTTransport) :=
  ret (rc, set_trp_state trp 0).

(** [case 2:] *)
Definition readnb_body (buf : ptr) (getfn : getfn_t W) (trp : MQTTTransport) : M W (Z * MQTTTransport) :=
  let finish trp := let* header := load buf in readnb_exit (header_type header) trp in
  if negb (trp_rem_len trp =? 0) then
    let* frc := recv_into getfn (padd buf (trp_len trp)) (trp_rem_len trp) in
    if frc =? -1 then readnb_exit (-1) trp
    else if frc =? 0 then ret (0, trp)
    else
      let* rem_len := int (trp_rem_len trp - frc) in
      let* len := int (trp_len trp + frc) in
      let trp := set_trp_value trp (trp_multiplier trp) rem_len len in
      if negb (rem_len =? 0) then ret (0, trp) else finish trp
  else finish trp.

(** [case 1:], which falls through to [case 2:]. *)
Definition readnb_length (buf : ptr) (buflen : Z) (getfn : getfn_t W) (trp : MQTTTransport) :
    M W (Z * MQTTTransport) :=
  let* (frc, trp) := MQTTPacket_decodenb getfn trp in
  if frc =? MQTTPACKET_READ_ERROR then readnb_exit (-1) trp
  else if frc =? 0 then ret (0, trp)
  else
    let* n := MQTTPacket_encode (padd buf 1) (trp_rem_len trp) in
    let* len := int (1 + n) in
    let trp := set_trp_len trp len in
    let* total := int (trp_rem_len trp + trp_len trp) in
    if buflen <? total then readnb_exit (-1) trp
    else readnb_body buf getfn (set_trp_state trp (trp_state trp + 1)).

(** [default:] and [case 0:], which fall through to [case 1:]. *)
Definition readnb_header (buf : ptr) (buflen : Z) (getfn : getfn_t W) (trp : MQTTTransport) :
    M W (Z * MQTTTransport) :=
  let* frc := recv_into getfn buf 1 in
  if frc =? -1 then readnb_exit (-1) trp
  else if frc =? 0 then ret (0, trp)
  else
    let trp := set_trp_len trp 0 in
    readnb_length buf buflen getfn (set_trp_state trp (trp_state trp + 1)).

Definition MQTTPacket_readnb (buf : ptr) (buflen : Z) (getfn : getfn_t W) (trp : MQTTTransport) :
    M W (Z * MQTTTransport) :=
  if trp_state trp =? 1 then readnb_length buf buflen getfn trp
  else if trp_state trp =? 2 then readnb_body buf getfn trp
  else readnb_header buf buflen getfn (set_trp_state trp 0).

(** The caller's use of MQTTPacket_readnb, by its comment: a result of 0 asks
    to be called again, with the same transport structure. *)
Fixpoint readnb_poll (calls : nat) (buf : ptr) (buflen : Z) (getfn : getfn_t W) (trp : MQTTTransport) :
    M W (Z * MQTTTransport) :=
  match calls with
  | O => ret (0, trp)
  | S calls =>
      let* (rc, trp) := MQTTPacket_readnb buf buflen getfn trp in
      if rc =? 0 then readnb_poll calls buf buflen getfn trp else ret (rc, trp)
  end.
End Read.

(** ** What the readers need from the environment *)

(** A transport hands out the bytes of its incoming stream in order, at most as
    many as it is asked for, and touches nothing else; it returns their number.
    How many it hands out at a time is up to it. *)
Class Transport (W : Type) := {
  getfn : getfn_t W;
  incoming : W -> list byte;
  getfn_spec (n : Z) (s : state W) : 0 < n ->
    exists bs w', getfn n s = Done (zlen bs, bs) (State (mem s) (bufptr s) w') /\
      zlen bs <= n /\ incoming (world s) = bs ++ incoming w'
}.

(** A blocking transport fills every request while the stream lasts. *)
Class Blocking (W : Type) `{Transport W} : Prop := {
  getfn_full (n : Z) (s : state W) rc bs s' :
    0 < n -> n <= zlen (incoming (world s)) -> getfn n s = Done (rc, bs) s' -> rc = n
}.

(** A transport that does not starve the reader. *)
Class Eager (W : Type) `{Transport W} : Prop := {
  getfn_some (n : Z) (s : state W) rc bs s' :
    0 < n -> incoming (world s) <> [] -> getfn n s = Done (rc, bs) s' -> rc <> 0
}.

(** *** Two implementations *)

(** The whole stream is there. *)
Definition stream_getfn : getfn_t (list byte) := fun n s =>
  let bs := take (Z.to_nat n) (world s) in
  Done (zlen bs, bs) (State (mem s) (bufptr s) (drop (Z.to_nat n) (world s))).

#[export, refine] Instance stream_transport : Transport (list byte) :=
  {| getfn := stream_getfn; incoming := fun w => w |}.
Proof.
  intros n s Hn. do 2 eexists. split; [done|]. split; [|by rewrite take_drop].
  rewrite length_take. lia.
Defined.

#[export] Instance stream_blocking : Blocking (list byte).
Proof.
  split. intros n s rc bs s' Hn Hl [= <- <- <-]. cbn in Hl. rewrite length_take. lia.
Qed.

(** The stream arrives in chunks, one per call (an empty one means "call
    again"); what a call leaves of a chunk stays for the next one. *)
Definition chunks_getfn : getfn_t (list (list byte)) := fun n s =>
  match world s with
  | [] => Done (0, []) s
  | c :: cs =>
      let bs := take (Z.to_nat n) c in
      let rest := drop (Z.to_nat n) c in
      Done (zlen bs, bs) (State (mem s) (bufptr s) (match rest with [] => cs | _ => rest :: cs end))
  end.

#[export, refine] Instance chunks_transport : Transport (list (list byte)) :=
  {| getfn := chunks_getfn; incoming := fun w => concat w |}.
Proof.
  intros n s Hn. unfold chunks_getfn. destruct (world s) as [|c cs] eqn:Ew.
  - exists [], []. destruct s; simpl in *; subst. split_and!; done || lia.
  - do 2 eexists. split; [done|]. split; [rewrite length_take; lia|].
    rewrite <- (take_drop (Z.to_nat n) c) at 1. simpl. rewrite <- app_assoc. f_equal.
    by destruct (drop _ c).
Defined.

(** ** Receiving into a buffer *)

Section Receive.
Context {W : Type} `{CharSign} `{Transport W}.
Implicit Types (s : state W) (b : block).

(** The memory is [m0] but for block [b], which holds [l] with the bytes [w]
    written from offset [o] on. *)
Definition written (m0 : gmap block (list byte)) (b : block) (l : list byte) (o : Z) (w : list byte)
    (s : state W) : Prop :=
  mem s = <[b := splice l o w]> m0.

Lemma store_bytes_written m0 b l o w bs s :
  written m0 b l o w s -> 0 <= o -> o + zlen w + zlen bs <= zlen l ->
  exists s', store_bytes (Ptr b (o + zlen w)) bs s = Done tt s' /\ written m0 b l o (w ++ bs) s' /\
    world s' = world s.
Proof.
  unfold written. intros Hm Ho Hroom. destruct bs as [|x bs].
  { exists s. by rewrite app_nil_r. }
  cbn [store_bytes]. unfold store_bytes. rewrite Hm, lookup_insert_eq.
  rewrite splice_length by lia.
  replace ((0 <=? o + zlen w) && (o + zlen w + zlen (x :: bs) <=? zlen l)) with true by lia.
  eexists. split; [done|]. split; [|done]. unfold set_block. cbn [mem].
  by rewrite Hm, insert_insert_eq, splice_app by lia.
Qed.

Lemma encode_written m0 b l o w n s :
  written m0 b l o w s -> 0 <= o -> 0 <= n <= REMLEN_MAX ->
  o + zlen w + zlen (remlen_bytes n) <= zlen l ->
  exists s', MQTTPacket_encode (Ptr b (o + zlen w)) n s = Done (zlen (remlen_bytes n)) s' /\
    written m0 b l o (w ++ remlen_bytes n) s' /\ world s' = world s.
Proof.
  unfold written, REMLEN_MAX. intros Hm Ho Hn Hroom.
  exists (set_block s b (splice (splice l o w) (o + zlen w) (remlen_bytes n))). split_and!; [| |done].
  - rewrite <- (set_block_id s b (splice l o w)) at 1 by (by rewrite Hm, lookup_insert_eq).
    unfold MQTTPacket_encode. rewrite encode_loop_run by (rewrite ?splice_length by lia; simpl; lia).
    fold (remlen_bytes n). rewrite Z.add_0_r, splice_length by lia.
    by rewrite (proj2 (Z.leb_le _ _)) by lia.
  - unfold set_block. cbn [mem]. by rewrite Hm, insert_insert_eq, splice_app by lia.
Qed.

Lemma getfn_run n s :
  0 < n ->
  exists bs s', getfn n s = Done (zlen bs, bs) s' /\ zlen bs <= n /\ mem s' = mem s /\
    incoming (world s) = bs ++ incoming (world s') /\
    (Eager W -> incoming (world s) <> [] -> bs <> []) /\
    (Blocking W -> n <= zlen (incoming (world s)) -> zlen bs = n).
Proof.
  intros Hn. destruct (getfn_spec n s Hn) as (bs & w' & Hrun & Hle & Hin).
  do 2 eexists. split_and!; [exact Hrun|done|done|done| |].
  - intros ? Hne ->. by apply (getfn_some n s _ _ _ Hn Hne Hrun).
  - intros ? Hl. by apply (getfn_full n s _ _ _ Hn Hl Hrun).
Qed.

Lemma recv_into_run m0 b l o w n s :
  written m0 b l o w s -> 0 <= o -> 0 < n -> o + zlen w + n <= zlen l ->
  exists bs s', recv_into getfn (Ptr b (o + zlen w)) n s = Done (zlen bs) s' /\ zlen bs <= n /\
    written m0 b l o (w ++ bs) s' /\ incoming (world s) = bs ++ incoming (world s') /\
    (Eager W -> incoming (world s) <> [] -> bs <> []) /\
    (Blocking W -> n <= zlen (incoming (world s)) -> zlen bs = n).
Proof.
  intros Hw Ho Hn Hroom. destruct (getfn_run n s Hn) as (bs & s1 & Hrun & Hle & Hm & Hin & He & Hbl).
  destruct (store_bytes_written m0 b l o w bs s1) as (s2 & Hst & Hw2 & Hworld);
    [by unfold written in *; rewrite Hm|done|lia|].
  exists bs, s2. split.
  - unfold recv_into. rewrite (bind_done _ _ _ _ _ Hrun). by rewrite (bind_done _ _ _ _ _ Hst).
  - rewrite Hworld. by split_and!.
Qed.

Lemma load_header m0 b l o h rest s :
  written m0 b l o (h :: rest) s -> 0 <= o -> o + zlen (h :: rest) <= zlen l ->
  load (Ptr b o) s = Done (Z_of_byte h) s.
Proof.
  intros Hw Ho Hroom. eapply (load_at _ _ _ _ rest). rewrite Hw.
  by apply (bytes_at_splice (State m0 NULL tt)).
Qed.
End Receive.

(** ** One packet on the wire *)

(** The length field [lb], in any encoding of up to four bytes, announces the
    body. *)
Definition length_field (lb body : list byte) : Prop :=
  parse_remlen 4 lb = Some (zlen lb, zlen body) /\ zlen lb <= 4.

Lemma length_field_canonical body :
  zlen body <= REMLEN_MAX -> length_field (remlen_bytes (zlen body)) body.
Proof.
  intros Hmax. split.
  - rewrite <- (app_nil_r (remlen_bytes _)) at 1. apply parse_remlen_bytes. lia.
  - rewrite remlen_bytes_length by lia. repeat case_test; lia.
Qed.

Lemma length_field_max lb body : length_field lb body -> zlen body <= REMLEN_MAX.
Proof. intros [Hp _]. apply parse_remlen_bounds in Hp. unfold REMLEN_MAX. simpl in Hp. lia. Qed.

(** Splitting off the first byte of a length field. *)
Lemma parse_remlen_inv k lb v :
  parse_remlen k lb = Some (zlen lb, v) -> zlen lb <= Z.of_nat k ->
  exists x lb' k', lb = x :: lb' /\ k = S k' /\
    (Z_of_byte x < 128 /\ lb' = [] /\ v = Z_of_byte x \/
     128 <= Z_of_byte x /\ exists v', parse_remlen k' lb' = Some (zlen lb', v') /\
       zlen lb' <= Z.of_nat k' /\ v = Z_of_byte x - 128 + 128 * v').
Proof.
  intros Hp Hk. pose proof (parse_remlen_bounds _ _ _ _ Hp).
  destruct k as [|k]; [simpl in *; lia|]. destruct lb as [|x lb]; [simpl in *; lia|].
  exists x, lb, k. split_and!; [done..|]. cbn [parse_remlen] in Hp. cbn [length] in *.
  destruct (Z.ltb_spec (Z_of_byte x) 128).
  - left. injection Hp as Hlen <-. destruct lb; [done|simpl in *; lia].
  - right. split; [done|]. destruct (parse_remlen k lb) as [[n v']|]; [|done].
    injection Hp as Hlen <-. exists v'. split_and!; [do 2 f_equal; lia|lia|done].
Qed.

Section Decode.
Context {W : Type} `{CharSign} `{Transport W}.
Implicit Types (s : state W) (b : block).

(** One digit keeps the arithmetic of the decoders within an [int]. *)
Lemma digit_step k mult len value x :
  (k < 4)%nat -> len = 3 - Z.of_nat k -> mult = 128 ^ len -> 0 <= value < mult ->
  0 <= Z.land (Z_of_byte x) 127 < 128 /\
  0 <= value + Z.land (Z_of_byte x) 127 * mult < mult * 128 /\ mult * 128 <= 268435456 /\
  mult * 128 = 128 ^ (len + 1).
Proof.
  intros Hk Hlen Hmult Hval. pose proof (Z_of_byte_range x). rewrite land_127_byte.
  assert (mult * 128 <= 128 ^ 4).
  { subst mult. rewrite Z.mul_comm, <- Z.pow_succ_r by lia. apply Z.pow_le_mono_r; lia. }
  assert (mult * 128 = 128 ^ (len + 1)).
  { subst mult. rewrite Z.pow_add_r by lia. lia. }
  change (128 ^ 4) with 268435456 in *. split_and!; try done; try nia; case_test; nia.
Qed.

Lemma recv_one s x tl :
  incoming (world s) = x :: tl ->
  exists bs s', getfn 1 s = Done (zlen bs, bs) s' /\ mem s' = mem s /\
    ((bs = [] /\ incoming (world s') = x :: tl /\ ~ Eager W /\ ~ Blocking W) \/
     (bs = [x] /\ incoming (world s') = tl)).
Proof.
  intros Hin. destruct (getfn_run 1 s eq_refl) as (bs & s' & Hrun & Hle & Hm & Hin' & He & Hb).
  exists bs, s'. split_and!; [done..|]. rewrite Hin in *.
  destruct bs as [|y [|z bs]]; [left|right|simpl in Hle; lia].
  - split_and!; [done|done|by intros Hc; apply (He Hc)|].
    intros Hc. specialize (Hb Hc). simpl in Hb. lia.
  - by injection Hin' as <- ->.
Qed.

(** The blocking decoder, on any source that yields the next byte of its stream
    [inc] and moves by [R]. *)
Lemma decode_loop_reads (g : getfn_t W) (inc : state W -> list byte) (R : relation (state W))
    `{!PreOrder R} k s lb tl c mult len value v :
  (forall s x tl, inc s = x :: tl -> exists s', g 1 s = Done (1, [x]) s' /\ inc s' = tl /\ R s s') ->
  inc s = lb ++ tl -> parse_remlen k lb = Some (zlen lb, v) -> zlen lb <= Z.of_nat k ->
  (k <= 4)%nat -> len = 4 - Z.of_nat k -> mult = 128 ^ len -> 0 <= value < mult ->
  exists s', decode_loop (S k) g c mult len value s = Done (len + zlen lb, value + mult * v) s' /\
    inc s' = tl /\ R s s'.
Proof.
  intros Hg. revert s lb c mult len value v.
  induction k as [|k IH]; intros s lb c mult len value v Hin Hp Hlb Hk Hlen Hmult Hval.
  { by destruct (parse_remlen_inv 0 lb v Hp Hlb) as (? & ? & ? & _ & [=] & _). }
  apply parse_remlen_inv in Hp as (x & lb' & k' & -> & [= <-] & Hx); [|done].
  remember (S k) as fuel eqn:Hfuel. cbn [decode_loop]. unfold MAX_NO_OF_REMAINING_LENGTH_BYTES.
  test_false (4 <? len + 1).
  destruct (Hg s x (lb' ++ tl) Hin) as (s1 & Hrun & Hin1 & HR).
  rewrite (bind_done _ _ _ _ _ Hrun). cbv beta iota. cbn [recv_char]. run_ret.
  change (1 =? 1) with true. cbn [negb use]. run_ret.
  destruct (digit_step k mult len value x ltac:(lia) ltac:(lia) Hmult Hval) as (Hd & Hv & Hmax & Hm').
  rewrite !bind_int by (unfold INT_MIN, INT_MAX; lia). rewrite land_128_byte.
  rewrite land_127_byte in *.
  destruct Hx as [(Hx & -> & ->)|(Hx & v' & Hp' & Hlb' & ->)].
  - rewrite (proj2 (Z.ltb_lt _ _) Hx) in *. cbn [negb]. exists s1. split; [|done].
    unfold ret. do 2 f_equal. lia.
  - rewrite (proj2 (Z.ltb_ge _ _) Hx) in *. cbn [negb]. subst fuel.
    destruct (IH s1 lb' (Some (Z_of_byte x)) (mult * 128) (len + 1)
      (value + (Z_of_byte x - 128) * mult) v' Hin1 Hp' Hlb' ltac:(lia) ltac:(lia) Hm' ltac:(lia))
      as (s2 & Hrun2 & Hin2 & HR2).
    exists s2. rewrite Hrun2. split; [do 2 f_equal; [zlen_lia|lia]|].
    split; [done|]. by transitivity s1.
Qed.

(** On a source that may run dry, fail or send anything, the decoder ends with
    a value in range. *)
Lemma decode_loop_any (g : getfn_t W) (R : relation (state W)) `{!PreOrder R} k s c mult len value :
  (forall s, exists rc bs s', g 1 s = Done (rc, bs) s' /\ zlen bs <= 1 /\ (rc = 1 -> zlen bs = 1) /\
     R s s') ->
  (k <= 4)%nat -> len = 4 - Z.of_nat k -> mult = 128 ^ len -> 0 <= value < mult ->
  exists n v s', decode_loop (S k) g c mult len value s = Done (n, v) s' /\
    0 <= v <= REMLEN_MAX /\ R s s'.
Proof.
  intros Hg. revert s c mult len value.
  induction k as [|k IH]; intros s c mult len value Hk Hlen Hmult Hval.
  { cbn [decode_loop]. unfold MAX_NO_OF_REMAINING_LENGTH_BYTES. test_true (4 <? len + 1).
    do 3 eexists. split; [done|]. split; [|done]. subst. unfold REMLEN_MAX. simpl in Hval. lia. }
  remember (S k) as fuel eqn:Hfuel. cbn [decode_loop]. unfold MAX_NO_OF_REMAINING_LENGTH_BYTES.
  test_false (4 <? len + 1).
  destruct (digit_step k mult len value Corelib.Init.Byte.x00 ltac:(lia) ltac:(lia) Hmult Hval)
    as (_ & Hv0 & Hmax & _).
  destruct (Hg s) as (rc & bs & s1 & Hrun & Hle & Hone & HR).
  rewrite (bind_done _ _ _ _ _ Hrun). cbv beta iota.
  assert (exists c', recv_char c bs s1 = Done c' s1 /\
    (rc = 1 -> exists x, c' = Some (Z_of_byte x))) as (c' & Hrecv & Hc').
  { destruct bs as [|x [|]]; [| |simpl in Hle; lia]; (eexists; split; [done|]); [|by eexists].
    intros Hrc. by specialize (Hone Hrc). }
  rewrite (bind_done _ _ _ _ _ Hrecv). destruct (Z.eqb_spec rc 1) as [Hrc|]; cbn [negb].
  2: { do 3 eexists. split; [done|]. split; [|done]. unfold REMLEN_MAX. lia. }
  destruct (Hc' Hrc) as (x & ->). cbn [use]. run_ret.
  destruct (digit_step k mult len value x ltac:(lia) ltac:(lia) Hmult Hval) as (Hd & Hv & _ & Hm').
  rewrite !bind_int by (unfold INT_MIN, INT_MAX; lia). destruct (negb _).
  - subst fuel. destruct (IH s1 (Some (Z_of_byte x)) (mult * 128) (len + 1) _ ltac:(lia) ltac:(lia) Hm' Hv)
      as (n & v & s2 & Hrun2 & Hv2 & HR2).
    exists n, v, s2. split; [done|]. split; [done|]. by transitivity s1.
  - do 3 eexists. split; [done|]. split; [|done]. unfold REMLEN_MAX. lia.
Qed.

Lemma decode_loop_stream `{!Blocking W} k s lb tl c mult len value v :
  incoming (world s) = lb ++ tl -> parse_remlen k lb = Some (zlen lb, v) -> zlen lb <= Z.of_nat k ->
  (k <= 4)%nat -> len = 4 - Z.of_nat k -> mult = 128 ^ len -> 0 <= value < mult ->
  exists s', decode_loop (S k) getfn c mult len value s = Done (len + zlen lb, value + mult * v) s' /\
    incoming (world s') = tl /\ mem s' = mem s.
Proof.
  assert (PreOrder (fun s s' : state W => mem s' = mem s)).
  { split; [done|]. intros ? ? ? ? ?. congruence. }
  apply (decode_loop_reads getfn (fun s => incoming (world s)) (fun s s' => mem s' = mem s)).
  intros s1 x tl1 Hin1. destruct (recv_one s1 x tl1 Hin1)
      as (bs & s2 & Hrun & Hm & [(_ & _ & _ & Hc)|(-> & Hin2)]); [done|]. by exists s2.
Qed.
End Decode.

(** ** The blocking reader *)

Section BlockingRead.
Context {W : Type} `{CharSign} `{Transport W}.
Implicit Types (s : state W) (b : block).

Lemma written_start s b l o : mem s !! b = Some l -> written (mem s) b l o [] s.
Proof. intros Hb. unfold written. by rewrite splice_nil, insert_id. Qed.

Lemma bytes_range_type x : 0 <= header_type (Z_of_byte x) < 16.
Proof. apply (bf_get_range _ 4 4). lia. Qed.

(** Header and length of a complete packet, up to the length check. *)
Lemma read_front `{!Blocking W} s b o l buflen h lb body tl :
  mem s !! b = Some l -> 0 <= o -> o + 1 <= zlen l ->
  incoming (world s) = h :: lb ++ tl -> length_field lb body ->
  exists s1, written (mem s) b l o [h] s1 /\ incoming (world s1) = tl /\
    MQTTPacket_read (Ptr b o) buflen getfn s =
    (let* n := MQTTPacket_encode (Ptr b (o + 1)) (zlen body) in
     let* len := int (1 + n) in
     let* total := int (zlen body + len) in
     if buflen <? total then ret (-1)
     else
       let* short :=
         (if negb (zlen body =? 0) then
            let* rc := recv_into getfn (Ptr b (o + len)) (zlen body) in ret (negb (rc =? zlen body))
          else ret false) in
       if short : bool then ret (-1)
       else let* header := load (Ptr b o) in ret (header_type header)) s1.
Proof.
  intros Hb Ho Hroom Hin (Hp & Hlb).
  destruct (recv_into_run (mem s) b l o [] 1 s (written_start s b l o Hb) Ho eq_refl
    ltac:(simpl; lia)) as (bs & s1 & Hrecv & Hle & Hw & Hin1 & _ & Hfull).
  rewrite Hin in Hin1, Hfull. specialize (Hfull _ ltac:(zlen_lia)).
  destruct bs as [|y [|? ?]]; [simpl in Hfull; lia| |simpl in Hle; lia]. injection Hin1 as <- Hin1. change (zlen []) with 0 in Hrecv.
  rewrite Z.add_0_r in Hrecv.
  destruct (decode_loop_stream 4 s1 lb tl None 1 0 0 (zlen body) (eq_sym Hin1) Hp Hlb ltac:(lia)
    ltac:(done) ltac:(done) ltac:(lia)) as (s2 & Hdec & Hin2 & Hm2).
  rewrite Z.mul_1_l, Z.add_0_l in Hdec. exists s2. split_and!; [by unfold written in *; rewrite Hm2|done|].
  unfold MQTTPacket_read. rewrite (bind_done _ _ _ _ _ Hrecv). change (zlen [h] =? 1) with true.
  cbn [negb]. unfold MQTTPacket_decode. rewrite (bind_done _ _ _ _ _ Hdec). done.
Qed.

(** A whole packet that fits. *)
Lemma read_packet_run `{!Blocking W} s b o l buflen h lb body rest :
  mem s !! b = Some l -> 0 <= o -> o + buflen <= zlen l -> buflen <= INT_MAX ->
  incoming (world s) = h :: lb ++ body ++ rest -> length_field lb body ->
  packet_size (zlen body) <= buflen ->
  exists s', MQTTPacket_read (Ptr b o) buflen getfn s = Done (header_type (Z_of_byte h)) s' /\
    written (mem s) b l o (h :: remlen_bytes (zlen body) ++ body) s' /\ incoming (world s') = rest.
Proof.
  unfold INT_MAX. intros Hb Ho Hroom Hint Hin Hlf Hfits.
  pose proof (length_field_max _ _ Hlf) as Hmax. unfold packet_size in Hfits.
  destruct (read_front s b o l buflen h lb body (body ++ rest) Hb Ho ltac:(lia) Hin Hlf)
    as (s1 & Hw1 & Hin1 & ->).
  destruct (encode_written (mem s) b l o [h] (zlen body) s1 Hw1 Ho ltac:(lia)
    ltac:(simpl; lia)) as (s2 & Henc & Hw2 & Hworld).
  change (zlen [h]) with 1 in Henc. rewrite (bind_done _ _ _ _ _ Henc).
  set (rb := remlen_bytes (zlen body)) in *.
  rewrite !bind_int by (unfold INT_MIN, INT_MAX; lia).
  test_false (buflen <? zlen body + (1 + zlen rb)).
  destruct (Z.eqb_spec (zlen body) 0) as [Hz|Hz]; cbn [negb].
  - run_ret. destruct body; [|simpl in Hz; lia].
    rewrite (bind_done _ _ _ _ _ (load_header _ _ _ _ _ _ _ Hw2 Ho ltac:(simpl in *; lia))).
    exists s2. split; [done|]. rewrite app_nil_r, Hworld. by split.
  - replace (o + (1 + zlen rb)) with (o + zlen ([h] ++ rb)) by zlen_lia.
    destruct (recv_into_run (mem s) b l o ([h] ++ rb) (zlen body) s2 Hw2 Ho ltac:(lia)
      ltac:(zlen_lia)) as (bs & s3 & Hrecv & Hle & Hw3 & Hin3 & _ & Hfull).
    rewrite Hworld, Hin1 in Hin3, Hfull. specialize (Hfull _ ltac:(zlen_lia)).
    apply app_inj_1 in Hin3 as [-> Hrest]; [|lia].
    rewrite bind_assoc, (bind_done _ _ _ _ _ Hrecv), Z.eqb_refl. cbn [negb]. run_ret.
    rewrite <- app_assoc in Hw3. cbn [app] in Hw3.
    rewrite (bind_done _ _ _ _ _ (load_header _ _ _ _ _ _ _ Hw3 Ho ltac:(zlen_lia))).
    exists s3. by rewrite Hrest.
Qed.

(** Any stream at all. *)
Lemma decode_loop_total k s c mult len value :
  (k <= 4)%nat -> len = 4 - Z.of_nat k -> mult = 128 ^ len -> 0 <= value < mult ->
  exists n v s', decode_loop (S k) getfn c mult len value s = Done (n, v) s' /\
    0 <= v <= REMLEN_MAX /\ mem s' = mem s.
Proof.
  assert (PreOrder (fun s s' : state W => mem s' = mem s)).
  { split; [done|]. intros ? ? ? ? ?. congruence. }
  apply (decode_loop_any getfn (fun s s' => mem s' = mem s)). intros s1.
  destruct (getfn_run 1 s1 eq_refl) as (bs & s2 & Hrun & Hle & Hm & _). by exists (zlen bs), bs, s2.
Qed.
End BlockingRead.

(** ** The non-blocking reader *)

Section NonBlocking.
Context {W : Type} `{CharSign} `{Transport W}.
Implicit Types (s : state W).

(** Progress inside the length field of a body of [n] bytes: the bytes [lb]
    are still to come. *)
Definition decoding (trp : MQTTTransport) (lb : list byte) (n : Z) : Prop :=
  exists (k : nat) v, parse_remlen k lb = Some (zlen lb, v) /\ zlen lb <= Z.of_nat k /\ (k <= 4)%nat /\
    trp_len trp = 4 - Z.of_nat k /\ trp_multiplier trp = 128 ^ trp_len trp /\
    0 <= trp_rem_len trp < trp_multiplier trp /\ n = trp_rem_len trp + trp_multiplier trp * v.

(** What MQTTPacket_decodenb makes of the structure first. *)
Definition decodenb_start (trp : MQTTTransport) : MQTTTransport :=
  if trp_len trp =? 0 then set_trp_value trp 1 0 (trp_len trp) else trp.

Lemma decoding_start lb body trp :
  length_field lb body -> trp_len trp = 0 -> decoding (decodenb_start trp) lb (zlen body).
Proof.
  intros [Hp Hlb] Hl. exists 4%nat, (zlen body). unfold decodenb_start. rewrite Hl.
  split_and!; try done; cbn [set_trp_value trp_len trp_multiplier trp_rem_len Z.eqb]; lia.
Qed.

(** Within the field the structure is not started afresh. *)
Lemma decoding_restart lb n trp :
  decoding trp lb n -> decoding (decodenb_start trp) lb n.
Proof.
  intros (k & v & Hp & Hlb & Hk & Hlen & Hm & Hr & Hn). unfold decodenb_start.
  destruct (Z.eqb_spec (trp_len trp) 0) as [Hz|]; [|by exists k, v].
  exists k, v. cbn [set_trp_value trp_len trp_multiplier trp_rem_len]. rewrite Hz in *.
  change (128 ^ 0) with 1 in *. rewrite Hm in *.
  split_and!; try done; lia.
Qed.

(** The loop consumes what is there: either the whole field, or a part of it. *)
Lemma decodenb_loop_run fuel s trp c lb tl n :
  incoming (world s) = lb ++ tl -> decoding trp lb n -> (4 - Z.to_nat (trp_len trp) < fuel)%nat ->
  exists rc trp' s', decodenb_loop fuel getfn c trp s = Done (rc, trp') s' /\
    mem s' = mem s /\ trp_state trp' = trp_state trp /\
    ((0 < rc /\ trp_rem_len trp' = n /\ incoming (world s') = tl) \/
     (rc = 0 /\ ~ Eager W /\ exists lb', incoming (world s') = lb' ++ tl /\ decoding trp' lb' n /\
        zlen lb' <= zlen lb)).
Proof.
  revert s trp c lb.
  induction fuel as [|fuel IH]; intros s trp c lb Hin Hdec Hfuel; [lia|].
  pose proof Hdec as (k & v & Hp & Hlb & Hk & Hlen & Hm & Hr & Hn).
  apply parse_remlen_inv in Hp as (x & lb' & k' & -> & -> & Hx); [|done].
  cbn [decodenb_loop]. unfold MAX_NO_OF_REMAINING_LENGTH_BYTES. test_false (4 <=? trp_len trp).
  destruct (recv_one s x (lb' ++ tl) Hin) as (bs & s1 & Hrun & Hm1 & [(-> & Hin1 & He & _)|(-> & Hin1)]);
    rewrite (bind_done _ _ _ _ _ Hrun); cbv beta iota; cbn [recv_char]; run_ret.
  { exists 0, trp, s1. split; [done|]. split; [done|]. split; [done|]. right.
    split; [done|]. split; [done|]. by exists (x :: lb'). }
  change (zlen [x] =? -1) with false. change (zlen [x] =? 0) with false. cbv iota. cbn [use].
  rewrite bind_int by (unfold INT_MIN, INT_MAX; lia). run_ret.
  destruct (digit_step k' (trp_multiplier trp) (trp_len trp) (trp_rem_len trp) x ltac:(lia) ltac:(lia) Hm Hr)
    as (Hd & Hv & Hmax & Hm').
  rewrite !bind_int by (unfold INT_MIN, INT_MAX; lia). rewrite land_128_byte. rewrite land_127_byte in *.
  destruct Hx as [(Hx & -> & ->)|(Hx & v' & Hp' & Hlb' & ->)].
  - rewrite (proj2 (Z.ltb_lt _ _) Hx) in *. cbn [negb]. do 3 eexists. split; [done|].
    split; [done|]. split; [done|]. left. cbn [set_trp_value trp_rem_len]. split_and!; [lia|lia|done].
  - rewrite (proj2 (Z.ltb_ge _ _) Hx) in *. cbn [negb]. set (trp1 := set_trp_value _ _ _ _).
    destruct (IH s1 trp1 (Some (Z_of_byte x)) lb' Hin1) as (rc & trp' & s' & Hrun' & Hm2 & Hst & Hres).
    + exists k', v'. unfold trp1. cbn [set_trp_value trp_len trp_multiplier trp_rem_len].
      split_and!; try done; lia.
    + unfold trp1. cbn [set_trp_value trp_len]. lia.
    + exists rc, trp', s'. split; [done|]. split; [congruence|]. split; [done|].
      destruct Hres as [?|(? & ? & lb2 & ? & ? & ?)]; [by left|right].
      split; [done|]. split; [done|]. exists lb2. split_and!; [done..|zlen_lia].
Qed.

(** *** The states of the machine, for one packet *)

Variables (h : byte) (lb body : list byte).
Hypothesis Hlf : length_field lb body.

(** [reading trp pending got]: the structure between two calls, the bytes of
    the packet still to come, and the bytes the buffer holds so far. *)
Inductive reading (trp : MQTTTransport) : list byte -> list byte -> Prop :=
  | reading_header :
      trp_state trp <> 1 -> trp_state trp <> 2 ->
      reading trp (h :: lb ++ body) []
  | reading_length lb' :
      trp_state trp = 1 -> decoding (decodenb_start trp) lb' (zlen body) ->
      reading trp (lb' ++ body) [h]
  | reading_body got todo :
      trp_state trp = 2 -> body = got ++ todo -> trp_rem_len trp = zlen todo -> todo <> [] ->
      trp_len trp = 1 + zlen (remlen_bytes (zlen body)) + zlen got ->
      reading trp todo (h :: remlen_bytes (zlen body) ++ got).

Variables (m0 : gmap block (list byte)) (b : block) (l : list byte) (o buflen : Z) (rest : list byte).
Hypothesis Ho : 0 <= o.
Hypothesis Hroom : o + buflen <= zlen l.
Hypothesis Hint : buflen <= INT_MAX.
Hypothesis Hfits : packet_size (zlen body) <= buflen.

(** The outcome of a call: the packet is complete, or some of it (at least one
    byte, if the transport is eager) was taken and the machine is in one of its
    states again. *)
Definition call_outcome (before : list byte) (rc : Z) (trp' : MQTTTransport) (s' : state W) : Prop :=
  (rc = header_type (Z_of_byte h) /\ trp_state trp' = 0 /\ incoming (world s') = rest /\
   written m0 b l o (h :: remlen_bytes (zlen body) ++ body) s') \/
  (rc = 0 /\ exists pending got, reading trp' pending got /\
     incoming (world s') = pending ++ rest /\ written m0 b l o got s' /\
     zlen pending <= zlen before /\ (Eager W -> zlen pending < zlen before)).

Lemma call_outcome_weaken before before' rc trp' s' :
  zlen before' < zlen before -> call_outcome before' rc trp' s' -> call_outcome before rc trp' s'.
Proof.
  intros Hlt [?|(? & p & g & ? & ? & ? & ? & ?)]; [by left|right].
  split; [done|]. exists p, g. split_and!; try done; lia.
Qed.

Lemma readnb_body_run s trp got todo :
  trp_state trp = 2 -> body = got ++ todo -> trp_rem_len trp = zlen todo ->
  trp_len trp = 1 + zlen (remlen_bytes (zlen body)) + zlen got ->
  incoming (world s) = todo ++ rest -> written m0 b l o (h :: remlen_bytes (zlen body) ++ got) s ->
  exists rc trp' s', readnb_body (Ptr b o) getfn trp s = Done (rc, trp') s' /\
    (todo = [] /\ rc = header_type (Z_of_byte h) /\ trp_state trp' = 0 /\ incoming (world s') = rest /\
       written m0 b l o (h :: remlen_bytes (zlen body) ++ body) s' \/
     todo <> [] /\ call_outcome todo rc trp' s').
Proof.
  intros Hst Hbody Hrem Hlen Hin Hw. unfold readnb_body, INT_MAX, packet_size in *.
  set (rb := remlen_bytes (zlen body)) in *.
  assert (zlen body = zlen got + zlen todo) as Hsum by (rewrite Hbody at 1; zlen_lia).
  rewrite Hrem. destruct (Z.eqb_spec (zlen todo) 0) as [Hz|Hz]; cbn [negb].
  { destruct todo; [|simpl in Hz; lia]. rewrite app_nil_r in Hbody.
    rewrite (bind_done _ _ _ _ _ (load_header _ _ _ _ _ _ _ Hw Ho ltac:(zlen_lia))).
    do 3 eexists. split; [done|]. left. rewrite Hbody. by split_and!. }
  rewrite Hlen. cbn [padd].
  replace (o + (1 + zlen rb + zlen got)) with (o + zlen (h :: rb ++ got)) by zlen_lia.
  destruct (recv_into_run m0 b l o _ (zlen todo) s Hw Ho ltac:(lia) ltac:(zlen_lia))
    as (bs & s1 & Hrecv & Hle & Hw1 & Hin1 & Heager & _).
  rewrite (bind_done _ _ _ _ _ Hrecv). test_false (zlen bs =? -1).
  assert (todo <> []) as Hne by (by intros ->). rewrite Hin in Hin1, Heager.
  destruct (Z.eqb_spec (zlen bs) 0) as [Hbs|Hbs].
  { destruct bs; [|simpl in Hbs; lia]. rewrite app_nil_r in Hw1.
    do 3 eexists. split; [done|]. right. split; [done|]. right. split; [done|].
    exists todo, (h :: rb ++ got). split_and!; try done.
    - by apply reading_body.
    - intros He. destruct (Heager He); [|done]. by destruct todo. }
  assert (exists todo', todo = bs ++ todo') as [todo' ->].
  { apply app_eq_inv in Hin1 as [(k & -> & _)|(k & -> & _)]; [eauto|].
    rewrite length_app in Hle. destruct k; [exists []; by rewrite !app_nil_r|simpl in Hle; lia]. }
  rewrite length_app, Nat2Z.inj_add in *. rewrite <- app_assoc in Hin1. apply app_inv_head in Hin1.
  rewrite !bind_int by (unfold INT_MIN, INT_MAX; lia).
  cbn [app] in Hw1. rewrite <- app_assoc in Hw1.
  destruct (Z.eqb_spec (zlen bs + zlen todo' - zlen bs) 0) as [Hz'|Hz']; cbn [negb].
  - destruct todo'; [|simpl in *; lia]. rewrite app_nil_r in *. rewrite <- Hbody in Hw1.
    rewrite (bind_done _ _ _ _ _ (load_header _ _ _ _ _ _ _ Hw1 Ho ltac:(zlen_lia))).
    do 3 eexists. split; [done|]. right. split; [done|]. left. by split_and!.
  - do 3 eexists. split; [done|]. right. split; [done|]. right. split; [done|].
    exists todo', (h :: rb ++ got ++ bs). split_and!; try done; try zlen_lia.
    apply reading_body; cbn [set_trp_value trp_state trp_rem_len trp_len]; try done.
    + by rewrite <- app_assoc.
    + lia.
    + intros ->. simpl in Hz'. lia.
    + fold rb. zlen_lia.
Qed.

Lemma readnb_length_run s trp lb' :
  trp_state trp = 1 -> decoding (decodenb_start trp) lb' (zlen body) ->
  incoming (world s) = lb' ++ body ++ rest -> written m0 b l o [h] s ->
  exists rc trp' s', readnb_length (Ptr b o) buflen getfn trp s = Done (rc, trp') s' /\
    call_outcome (lb' ++ body) rc trp' s'.
Proof.
  intros Hst Hdec Hin Hw. pose proof (length_field_max _ _ Hlf) as Hmax.
  assert (0 < zlen lb') as Hpos.
  { destruct Hdec as (k & v & Hp & _). apply parse_remlen_bounds in Hp. lia. }
  assert (trp_state (decodenb_start trp) = 1) as Hst1
    by (unfold decodenb_start; by destruct (trp_len trp =? 0)).
  unfold readnb_length, MQTTPacket_decodenb. fold (decodenb_start trp).
  destruct (decodenb_loop_run 5 s (decodenb_start trp) None lb' (body ++ rest) (zlen body) Hin Hdec)
    as (rc & trp1 & s1 & Hrun & Hm1 & Hst2 & Hres).
  { destruct Hdec as (k & v & _ & _ & _ & Hl & _). lia. }
  rewrite (bind_done _ _ _ _ _ Hrun). rewrite Hst1 in Hst2.
  assert (written m0 b l o [h] s1) as Hw1 by (unfold written in *; congruence).
  destruct Hres as [(Hrc & Hrem & Hin1)|(-> & He & lb2 & Hin1 & Hdec2 & Hle)].
  2: { change (0 =? MQTTPACKET_READ_ERROR) with false. cbn [Z.eqb].
       do 3 eexists. split; [done|]. right. split; [done|]. exists (lb2 ++ body), [h].
       split_and!; try done; [|by rewrite <- app_assoc|zlen_lia].
       by apply reading_length, decoding_restart. }
  unfold MQTTPACKET_READ_ERROR. test_false (rc =? -1). test_false (rc =? 0). rewrite Hrem.
  unfold packet_size, INT_MAX, REMLEN_MAX in *.
  destruct (encode_written m0 b l o [h] (zlen body) s1 Hw1 Ho ltac:(unfold REMLEN_MAX; lia)
    ltac:(simpl; lia)) as (s2 & Henc & Hw2 & Hworld).
  cbn [padd]. change (zlen [h]) with 1 in Henc. rewrite (bind_done _ _ _ _ _ Henc).
  set (rb := remlen_bytes (zlen body)) in *. rewrite bind_int by (unfold INT_MIN, INT_MAX; lia).
  cbn [set_trp_len trp_rem_len trp_len]. rewrite Hrem.
  rewrite bind_int by (unfold INT_MIN, INT_MAX; lia).
  test_false (buflen <? zlen body + (1 + zlen rb)).
  set (trp2 := set_trp_state _ _).
  destruct (readnb_body_run s2 trp2 [] body) as (rc' & trp' & s' & Hrun' & Hres').
  - unfold trp2. cbn [set_trp_state set_trp_len trp_state]. lia.
  - done.
  - unfold trp2. cbn [set_trp_state set_trp_len trp_rem_len]. done.
  - unfold trp2. cbn [set_trp_state set_trp_len trp_len length]. fold rb. simpl. lia.
  - by rewrite Hworld.
  - fold rb. by rewrite app_nil_r.
  - exists rc', trp', s'. split; [done|]. destruct Hres' as [(Hnil & ? & ? & ? & ?)|(_ & Hres')].
    + left. by split_and!.
    + eapply call_outcome_weaken; [|done]. zlen_lia.
Qed.

(** One call, in any state of the machine. *)
Lemma readnb_call s trp pending got :
  reading trp pending got -> incoming (world s) = pending ++ rest -> written m0 b l o got s ->
  exists rc trp' s', MQTTPacket_readnb (Ptr b o) buflen getfn trp s = Done (rc, trp') s' /\
    call_outcome pending rc trp' s'.
Proof.
  intros Hreading Hin Hw. unfold MQTTPacket_readnb.
  assert (1 <= buflen) by (unfold packet_size in *; lia).
  destruct Hreading as [Hn1 Hn2|lb' Hst Hdec|got todo Hst Hbody Hrem Hne Hlen].
  - test_false (trp_state trp =? 1). test_false (trp_state trp =? 2).
    unfold readnb_header. set (trp0 := set_trp_state trp 0).
    destruct (recv_into_run m0 b l o [] 1 s Hw Ho eq_refl ltac:(simpl; lia))
      as (bs & s1 & Hrecv & Hle & Hw1 & Hin1 & Heager & _).
    change (zlen []) with 0 in Hrecv. rewrite Z.add_0_r in Hrecv. rewrite (bind_done _ _ _ _ _ Hrecv).
    rewrite Hin in Hin1, Heager. destruct bs as [|y [|]]; [| |simpl in Hle; lia].
    + change (zlen [] =? -1) with false. change (zlen [] =? 0) with true. cbv iota.
      do 3 eexists. split; [done|]. right. split; [done|]. exists (h :: lb ++ body), [].
      split_and!; try done; [by apply reading_header|]. intros He. by destruct (Heager He).
    + change (zlen [y] =? -1) with false. change (zlen [y] =? 0) with false. cbv iota zeta.
      injection Hin1 as <- Hin1.
      destruct (readnb_length_run s1 (set_trp_state (set_trp_len trp0 0) 1) lb) as (rc & trp' & s' & Hrun & Hres).
      * done.
      * by apply decoding_start.
      * by rewrite <- Hin1, <- app_assoc.
      * done.
      * exists rc, trp', s'. split; [done|]. eapply call_outcome_weaken; [|done]. zlen_lia.
  - rewrite Hst. cbn [Z.eqb Pos.eqb]. apply readnb_length_run; try done. by rewrite app_assoc.
  - rewrite Hst. cbn [Z.eqb Pos.eqb].
    destruct (readnb_body_run s trp got todo Hst Hbody Hrem Hlen Hin Hw) as (rc & trp' & s' & Hrun & Hres).
    exists rc, trp', s'. split; [done|]. by destruct Hres as [(? & _)|(_ & ?)].
Qed.

(** Any number of calls. *)
Lemma readnb_poll_run (Htype : header_type (Z_of_byte h) <> 0) calls s trp pending got :
  reading trp pending got -> incoming (world s) = pending ++ rest -> written m0 b l o got s ->
  exists rc trp' s', readnb_poll calls (Ptr b o) buflen getfn trp s = Done (rc, trp') s' /\
    (call_outcome pending rc trp' s' \/ calls = 0%nat) /\
    (Eager W -> zlen pending <= Z.of_nat calls -> rc <> 0).
Proof.
  revert s trp pending got. induction calls as [|calls IH]; intros s trp pending got Hre Hin Hw.
  { do 3 eexists. split; [done|]. split; [by right|]. intros _ Hp. exfalso.
    destruct Hre as [|lb' _ Hdec|g todo _ _ _ Hne]; [simpl in Hp; lia| |].
    - destruct Hdec as (k & v & Hpr & _). apply parse_remlen_bounds in Hpr. zlen_lia.
    - destruct todo; [done|simpl in Hp; lia]. }
  cbn [readnb_poll].
  destruct (readnb_call s trp pending got Hre Hin Hw) as (rc & trp1 & s1 & Hrun & Hres).
  rewrite (bind_done _ _ _ _ _ Hrun). pose proof Hres as Hres0.
  destruct Hres as [(-> & _)|(-> & p1 & g1 & Hre1 & Hin1 & Hw1 & Hle & He)].
  { test_false (header_type (Z_of_byte h) =? 0). do 3 eexists. split; [done|]. split; [by left|done]. }
  cbn [Z.eqb].
  destruct (IH s1 trp1 p1 g1 Hre1 Hin1 Hw1) as (rc2 & trp2 & s2 & Hrun2 & Hout & Hdone).
  exists rc2, trp2, s2. split; [done|]. split.
  - left. destruct Hout as [Hout| ->].
    + destruct Hout as [?|(? & p & g & ? & ? & ? & ? & He2)]; [by left|right].
      split; [done|]. exists p, g. split_and!; try done; [lia|]. intros HE. specialize (He HE). specialize (He2 HE). lia.
    + injection Hrun2 as <- <- <-. done.
  - intros HE Hp. apply Hdone; [done|]. specialize (He HE). lia.
Qed.
End NonBlocking.

(** ** Properties *)

Section ReadProperties.
Context {W : Type} `{CharSign} `{Transport W}.
Implicit Types (s : state W) (b : block).

(** On a blocking transport MQTTPacket_read takes exactly one packet from
    the stream, leaves it in the buffer with its length field in the shortest
    encoding, touches nothing else and returns the packet's type. *)
Theorem read_packet_spec `{!Blocking W} s b o l buflen h lb body rest :
  mem s !! b = Some l -> 0 <= o -> o + buflen <= zlen l -> buflen <= INT_MAX ->
  incoming (world s) = h :: lb ++ body ++ rest -> length_field lb body ->
  packet_size (zlen body) <= buflen ->
  exists s', MQTTPacket_read (Ptr b o) buflen getfn s = Done (header_type (Z_of_byte h)) s' /\
    mem s' = <[b := splice l o (mqtt_packet (Z_of_byte h) body)]> (mem s) /\
    incoming (world s') = rest.
Proof.
  intros. unfold mqtt_packet. rewrite byte_of_Z_of_byte. by eapply read_packet_run.
Qed.

(** Whatever bytes arrive and however the transport splits or ends them,
    MQTTPacket_read into a buffer of at least five bytes terminates without
    an access outside the buffer or an [int] overflow: it returns a packet
    type or -1 and writes only into the buffer. *)
Theorem read_safe s b o l buflen :
  mem s !! b = Some l -> 0 <= o -> o + 5 <= zlen l -> o + buflen <= zlen l -> buflen <= INT_MAX ->
  exists rc s' w, MQTTPacket_read (Ptr b o) buflen getfn s = Done rc s' /\
    (rc = -1 \/ 0 <= rc < 16) /\ mem s' = <[b := splice l o w]> (mem s).
Proof.
  unfold INT_MAX. intros Hb Ho H5 Hroom Hint. unfold MQTTPacket_read.
  destruct (recv_into_run (mem s) b l o [] 1 s (written_start s b l o Hb) Ho eq_refl ltac:(simpl; lia))
    as (bs & s1 & Hrecv & Hle & Hw1 & _).
  change (zlen []) with 0 in Hrecv. rewrite Z.add_0_r in Hrecv. rewrite (bind_done _ _ _ _ _ Hrecv).
  destruct bs as [|h [|]]; [| |simpl in Hle; lia].
  { change (zlen [] =? 1) with false. cbn [negb]. exists (-1), s1, []. split_and!; [done|by left|done]. }
  change (zlen [h] =? 1) with true. cbn [negb]. unfold MQTTPacket_decode.
  destruct (decode_loop_total 4 s1 None 1 0 0 ltac:(lia) ltac:(done) ltac:(done) ltac:(lia))
    as (n & v & s2 & Hdec & Hv & Hm2).
  rewrite (bind_done _ _ _ _ _ Hdec). cbn [padd].
  assert (Hrb : 1 <= zlen (remlen_bytes v) <= 4)
    by (rewrite remlen_bytes_length by done; repeat case_test; lia).
  unfold REMLEN_MAX in Hv. assert (Hw2 : written (mem s) b l o [h] s2) by (unfold written in *; by rewrite Hm2).
  destruct (encode_written (mem s) b l o [h] v s2 Hw2 Ho Hv ltac:(simpl; lia)) as (s3 & Henc & Hw3 & _).
  change (zlen [h]) with 1 in Henc. rewrite (bind_done _ _ _ _ _ Henc).
  set (rb := remlen_bytes v) in *. rewrite !bind_int by (unfold INT_MIN, INT_MAX; lia).
  case_test; [exists (-1), s3, ([h] ++ rb); split_and!; [done|by left|done]|].
  destruct (Z.eqb_spec v 0) as [Hz|Hz]; cbn [negb].
  - run_ret. rewrite (bind_done _ _ _ _ _ (load_header _ _ _ _ _ _ _ Hw3 Ho ltac:(zlen_lia))).
    exists (header_type (Z_of_byte h)), s3, ([h] ++ rb).
    split; [done|]. split; [right; apply bytes_range_type|done].
  - replace (o + (1 + zlen rb)) with (o + zlen ([h] ++ rb)) by zlen_lia.
    destruct (recv_into_run (mem s) b l o ([h] ++ rb) v s3 Hw3 Ho ltac:(lia) ltac:(zlen_lia))
      as (bs & s4 & Hrecv4 & Hle4 & Hw4 & _).
    rewrite bind_assoc, (bind_done _ _ _ _ _ Hrecv4). run_ret.
    destruct (negb _); [exists (-1), s4, (([h] ++ rb) ++ bs); split_and!; [done|by left|done]|].
    pose proof Hw4 as Hw4'. rewrite <- app_assoc in Hw4'.
    rewrite (bind_done _ _ _ _ _ (load_header _ _ _ _ _ _ _ Hw4' Ho ltac:(zlen_lia))).
    exists (header_type (Z_of_byte h)), s4, (([h] ++ rb) ++ bs).
    split; [done|]. split; [right; apply bytes_range_type|done].
Qed.

(** The length field is put back into the buffer before its size is
    compared with [buflen]: in a buffer too small for the field the call
    writes out of bounds, whatever [buflen] says. *)
Theorem read_length_overrun `{!Blocking W} s b o l buflen h lb body tl :
  mem s !! b = Some l -> 0 <= o -> incoming (world s) = h :: lb ++ tl -> length_field lb body ->
  o + 1 <= zlen l < o + 1 + zlen (remlen_bytes (zlen body)) ->
  MQTTPacket_read (Ptr b o) buflen getfn s = Fault OutOfBounds.
Proof.
  intros Hb Ho Hin Hlf Hroom. pose proof (length_field_max _ _ Hlf) as Hmax. unfold REMLEN_MAX in Hmax.
  destruct (read_front s b o l buflen h lb body tl Hb Ho ltac:(lia) Hin Hlf) as (s1 & Hw & _ & ->).
  apply bind_fault. unfold MQTTPacket_encode.
  rewrite <- (set_block_id s1 b (splice l o [h])) by (by rewrite Hw, lookup_insert_eq).
  rewrite <- (Z.add_0_r (o + 1)).
  assert (length (splice l o [h]) = length l) as Hlen by (apply splice_length; simpl; lia).
  replace (Ptr b (o + 1 + 0)) with (Ptr b (o + 1)) by (f_equal; lia).
  rewrite encode_loop_run by (rewrite ?Hlen; simpl; lia). fold (remlen_bytes (zlen body)).
  by rewrite Hlen, (proj2 (Z.leb_gt _ _)) by lia.
Qed.

(** C36: The non-blocking reader does not depend on how the transport splits
    the stream, even inside the length field: after any number of calls it
    either asks to be called again or has returned the packet's type, with
    the buffer, the rest of the stream and its own state exactly as the
    blocking reader leaves them; it reports no error. *)
Theorem readnb_any_schedule s b o l buflen h lb body rest trp calls :
  mem s !! b = Some l -> 0 <= o -> o + buflen <= zlen l -> buflen <= INT_MAX ->
  incoming (world s) = h :: lb ++ body ++ rest -> length_field lb body ->
  packet_size (zlen body) <= buflen -> header_type (Z_of_byte h) <> 0 -> trp_state trp = 0 ->
  exists rc trp' s', readnb_poll calls (Ptr b o) buflen getfn trp s = Done (rc, trp') s' /\
    (rc = 0 \/ rc = header_type (Z_of_byte h) /\ trp_state trp' = 0 /\
       mem s' = <[b := splice l o (mqtt_packet (Z_of_byte h) body)]> (mem s) /\
       incoming (world s') = rest).
Proof.
  intros Hb Ho Hroom Hint Hin Hlf Hfits Htype Htrp. unfold mqtt_packet. rewrite byte_of_Z_of_byte.
  destruct (readnb_poll_run h lb body Hlf (mem s) b l o buflen rest Ho Hroom Hint Hfits Htype calls s trp
    (h :: lb ++ body) []) as (rc & trp' & s' & Hrun & Hout & _).
  - apply reading_header; lia.
  - by rewrite Hin, <- app_comm_cons, <- app_assoc.
  - by apply written_start.
  - exists rc, trp', s'. split; [done|]. destruct Hout as [[(? & ? & ? & ?)|(? & _)]| ->].
    + right. by split_and!.
    + by left.
    + left. by injection Hrun.
Qed.

(** A transport that hands out at least one byte per call gets the packet
    read: as many calls as the packet has bytes on the wire are enough. *)
Theorem readnb_completes `{!Eager W} s b o l buflen h lb body rest trp calls :
  mem s !! b = Some l -> 0 <= o -> o + buflen <= zlen l -> buflen <= INT_MAX ->
  incoming (world s) = h :: lb ++ body ++ rest -> length_field lb body ->
  packet_size (zlen body) <= buflen -> header_type (Z_of_byte h) <> 0 -> trp_state trp = 0 ->
  1 + zlen lb + zlen body <= Z.of_nat calls ->
  exists trp' s',
    readnb_poll calls (Ptr b o) buflen getfn trp s = Done (header_type (Z_of_byte h), trp') s' /\
    trp_state trp' = 0 /\ mem s' = <[b := splice l o (mqtt_packet (Z_of_byte h) body)]> (mem s) /\
    incoming (world s') = rest.
Proof.
  intros Hb Ho Hroom Hint Hin Hlf Hfits Htype Htrp Hcalls. unfold mqtt_packet.
  rewrite byte_of_Z_of_byte.
  destruct (readnb_poll_run h lb body Hlf (mem s) b l o buflen rest Ho Hroom Hint Hfits Htype calls s trp
    (h :: lb ++ body) []) as (rc & trp' & s' & Hrun & Hout & Hdone).
  - apply reading_header; lia.
  - by rewrite Hin, <- app_comm_cons, <- app_assoc.
  - by apply written_start.
  - assert (rc <> 0) by (apply Hdone; [done|zlen_lia]).
    destruct Hout as [[(-> & ? & ? & ?)|(? & _)]| ->]; [|done|simpl in Hcalls; lia].
    exists trp', s'. by split_and!.
Qed.
End ReadProperties.

(** ** Witnesses *)

Section ReadWitnesses.
#[local] Existing Instance char_is_signed.

(* a PINGREQ-like packet of type 12, a PUBLISH of 3 bytes with a padded length field *)
Definition ex_wire : list byte := bytes [48; 131; 0; 7; 8; 9; 192; 0].
Definition ex_stream : state (list byte) := State (mem_of [replicate 8 (byte_of_Z 170)]) NULL ex_wire.

Lemma ex_length_field : length_field (bytes [131; 0]) (bytes [7; 8; 9]).
Proof. done. Qed.

Lemma read_packet_spec_witness :
  exists s', MQTTPacket_read (Ptr 1 1) 7 getfn ex_stream = Done 3 s' /\
    mem s' = <[1%positive := splice (replicate 8 (byte_of_Z 170)) 1
                               (mqtt_packet 48 (bytes [7; 8; 9]))]> (mem ex_stream) /\
    incoming (world s') = bytes [192; 0].
Proof.
  by apply (read_packet_spec ex_stream 1 1 (replicate 8 (byte_of_Z 170)) 7 (byte_of_Z 48)
    (bytes [131; 0]) (bytes [7; 8; 9]) (bytes [192; 0])).
Defined.

Lemma read_safe_witness :
  let s := State (mem_of [replicate 8 (byte_of_Z 170)]) NULL [bytes [48]; []; bytes [255; 255; 255; 255; 255]] in
  exists rc s' w, MQTTPacket_read (Ptr 1 0) 8 getfn s = Done rc s' /\
    (rc = -1 \/ 0 <= rc < 16) /\
    mem s' = <[1%positive := splice (replicate 8 (byte_of_Z 170)) 0 w]> (mem s).
Proof.
  by apply (read_safe (State (mem_of [replicate 8 (byte_of_Z 170)]) NULL
    [bytes [48]; []; bytes [255; 255; 255; 255; 255]]) 1 0 (replicate 8 (byte_of_Z 170)) 8).
Defined.

Lemma read_length_overrun_witness :
  let s := State (mem_of [replicate 2 (byte_of_Z 170)]) NULL (bytes [48; 128; 1]) in
  MQTTPacket_read (Ptr 1 0) 2 getfn s = Fault OutOfBounds.
Proof.
  apply (read_length_overrun (State (mem_of [replicate 2 (byte_of_Z 170)]) NULL (bytes [48; 128; 1]))
    1 0 (replicate 2 (byte_of_Z 170)) 2 (byte_of_Z 48) (bytes [128; 1])
    (replicate 128 (byte_of_Z 0)) []); done.
Defined.

(* the same bytes in chunks, with interruptions in the length field and in the body *)
Definition ex_chunks : state (list (list byte)) :=
  State (mem_of [replicate 8 (byte_of_Z 170)]) NULL
    [bytes [48; 131]; []; bytes [0]; bytes [7]; []; bytes [8; 9; 192]; bytes [0]].
Definition ex_trp : MQTTTransport :=
  {| trp_multiplier := 0; trp_rem_len := 0; trp_len := 0; trp_state := 0 |}.

Example ex_polls :
  match readnb_poll 10 (Ptr 1 1) 7 getfn ex_trp ex_chunks with
  | Done (rc, _) s' => (rc, concat (world s')) = (3, bytes [192; 0])
  | Fault _ => False
  end.
Proof. vm_compute. reflexivity. Qed.

Lemma readnb_any_schedule_witness :
  exists rc trp' s', readnb_poll 3 (Ptr 1 1) 7 getfn ex_trp ex_chunks = Done (rc, trp') s' /\
    (rc = 0 \/ rc = header_type 48 /\ trp_state trp' = 0 /\
       mem s' = <[1%positive := splice (replicate 8 (byte_of_Z 170)) 1
                                  (mqtt_packet 48 (bytes [7; 8; 9]))]> (mem ex_chunks) /\
       incoming (world s') = bytes [192; 0]).
Proof.
  by apply (readnb_any_schedule ex_chunks 1 1 (replicate 8 (byte_of_Z 170)) 7 (byte_of_Z 48)
    (bytes [131; 0]) (bytes [7; 8; 9]) (bytes [192; 0]) ex_trp 3).
Defined.

#[local] Instance stream_eager : Eager (list byte).
Proof.
  split. intros n s rc bs s' Hn Hne [= <- <- <-]. cbn in Hne. rewrite length_take.
  destruct (world s); [done|]. simpl length. lia.
Qed.

Lemma readnb_completes_witness :
  exists trp' s', readnb_poll 6 (Ptr 1 1) 7 getfn ex_trp ex_stream = Done (header_type 48, trp') s' /\
    trp_state trp' = 0 /\
    mem s' = <[1%positive := splice (replicate 8 (byte_of_Z 170)) 1
                               (mqtt_packet 48 (bytes [7; 8; 9]))]> (mem ex_stream) /\
    incoming (world s') = bytes [192; 0].
Proof.
  by apply (readnb_completes ex_stream 1 1 (replicate 8 (byte_of_Z 170)) 7 (byte_of_Z 48)
    (bytes [131; 0]) (bytes [7; 8; 9]) (bytes [192; 0]) ex_trp 6).
Defined.
End ReadWitnesses.
