(* ===== verification/Platform.v ===== *)
(** * The platform and a program logic for clients

    The clients of the repository (MQTTClient.c, MQTTClient.h) are written
    against functions the platform provides: timers, a network and the handlers
    of the application.  [Platform] is their interface, for a client object of any type [C] and
    handlers that take a message of any type [D]; [PlatformSpec] states their
    documented behaviour in terms of three observations of the environment: the
    bytes still to come from the network, the bytes given to it and the calls of
    message handlers.  [Responsive] adds that nothing times out, [WholeWrites]
    that a write is never partial.  A [view] is what can be observed of a state:
    states with equal views may differ in their timers and in the static cursor
    of MQTTPacket.c.  [total v c Q] is the total correctness of [c] on views;
    below it are the rules, and the behaviour of the reads and writes all clients
    share. *)

From S2P Require Import Prelude CMem MQTTPacket MQTTPublish MQTTConnect MQTTSubscribe PacketRead.

(** The client object and its environment. *)
Record world_of (C E : Type) := World { client : C; env : E }.
Arguments World {C E} _ _.
Arguments client {C E} _.
Arguments env {C E} _.

(** ** The functions of the platform

    The functions the platform-specific header declares, on timer values, the
    two functions of the network, and the call of a handler.
    [mqttread n t] yields the return value and the bytes it stored; [mqttwrite]
    is given the bytes it may send. *)
Class Platform (C E Timer D : Type) := {
  TimerInit : Timer -> M (world_of C E) Timer;
  TimerIsExpired : Timer -> M (world_of C E) bool;
  TimerCountdownMS : Timer -> Z -> M (world_of C E) Timer;
  TimerCountdown : Timer -> Z -> M (world_of C E) Timer;
  TimerLeftMS : Timer -> M (world_of C E) Z;
  mqttread : Z -> Z -> M (world_of C E) (Z * list byte);
  mqttwrite : list byte -> Z -> M (world_of C E) Z;
  call_handler : positive -> D -> M (world_of C E) unit
}.

Section Access.
Context {C E Timer D : Type} `{Platform C E Timer D}.
Abbreviation MC := (M (world_of C E)).

Definition get_client : MC C := fun s => Done (client (world s)) s.
Definition update_client (f : C -> C) : MC unit := fun s =>
  Done tt (State (mem s) (bufptr s) (World (f (client (world s))) (env (world s)))).

(** The calls of the network's functions with a pointer. *)
Definition net_read (p : ptr) (len timeout : Z) : MC Z :=
  let* (rc, bs) := mqttread len timeout in store_bytes p bs ;;; ret rc.
Definition net_write (p : ptr) (len timeout : Z) : MC Z :=
  let* bs := load_bytes p len in mqttwrite bs timeout.
End Access.

(** ** The platform's contract *)

Class Observed (E D : Type) := {
  net_in : E -> list byte;
  net_out : E -> list byte;
  delivered : E -> list (positive * D)
}.

(** Nothing observable happened. *)
Definition quiet {C E D} `{Observed E D} (s s' : state (world_of C E)) : Prop :=
  mem s' = mem s /\ client (world s') = client (world s) /\
  net_in (env (world s')) = net_in (env (world s)) /\
  net_out (env (world s')) = net_out (env (world s)) /\
  delivered (env (world s')) = delivered (env (world s)).

Class PlatformSpec (C E Timer D : Type) `{Platform C E Timer D} `{Observed E D} : Prop := {
  TimerInit_spec t s : exists t' s', TimerInit t s = Done t' s' /\ quiet s s';
  TimerIsExpired_spec t s : exists e s', TimerIsExpired t s = Done e s' /\ quiet s s';
  TimerCountdownMS_spec t n s : exists t' s', TimerCountdownMS t n s = Done t' s' /\ quiet s s';
  TimerCountdown_spec t n s : exists t' s', TimerCountdown t n s = Done t' s' /\ quiet s s';
  TimerLeftMS_spec t s : exists n s', TimerLeftMS t s = Done n s' /\ quiet s s';
  mqttread_spec n t s : 0 < n ->
    exists rc bs s', mqttread n t s = Done (rc, bs) s' /\
      zlen bs <= n /\ rc <= n /\ (rc = n -> zlen bs = n) /\
      mem s' = mem s /\ client (world s') = client (world s) /\
      net_in (env (world s)) = bs ++ net_in (env (world s')) /\
      net_out (env (world s')) = net_out (env (world s)) /\
      delivered (env (world s')) = delivered (env (world s));
  mqttwrite_spec bs t s :
    exists rc s', mqttwrite bs t s = Done rc s' /\ rc <= zlen bs /\
      mem s' = mem s /\ client (world s') = client (world s) /\
      net_in (env (world s')) = net_in (env (world s)) /\
      net_out (env (world s')) = net_out (env (world s)) ++ take (Z.to_nat rc) bs /\
      delivered (env (world s')) = delivered (env (world s));
  call_handler_spec f md s :
    exists s', call_handler f md s = Done tt s' /\
      mem s' = mem s /\ client (world s') = client (world s) /\
      net_in (env (world s')) = net_in (env (world s)) /\
      net_out (env (world s')) = net_out (env (world s)) /\
      delivered (env (world s')) = delivered (env (world s)) ++ [(f, md)]
}.

(** No timer expires, a read is filled while bytes are to come, and a write
    takes all it is given. *)
Class Responsive (C E Timer D : Type) `{Platform C E Timer D} `{Observed E D} : Prop := {
  never_expired t s e s' : TimerIsExpired t s = Done e s' -> e = false;
  read_full n t s rc bs s' :
    0 < n -> n <= zlen (net_in (env (world s))) -> mqttread n t s = Done (rc, bs) s' -> rc = n;
  write_full bs t s rc s' : bs <> [] -> mqttwrite bs t s = Done rc s' -> rc = zlen bs
}.

(** Every timer has expired. *)
Class Expired (C E Timer D : Type) `{Platform C E Timer D} : Prop :=
  always_expired t s e s' : TimerIsExpired t s = Done e s' -> e = true.

(** A write takes all it is given, or fails. *)
Class WholeWrites (C E Timer D : Type) `{Platform C E Timer D} `{Observed E D} : Prop :=
  write_whole bs t s rc s' : bs <> [] -> mqttwrite bs t s = Done rc s' -> rc < 0 \/ rc = zlen bs.

#[export] Instance responsive_whole `{Responsive C E Timer D} : WholeWrites C E Timer D.
Proof. intros bs t s rc s' Hne Hw. right. by apply write_full in Hw. Qed.

(** A write takes at least one byte, or fails. *)
Class Progress (C E Timer D : Type) `{Platform C E Timer D} : Prop :=
  write_some bs t s rc s' : mqttwrite bs t s = Done rc s' -> bs <> [] -> rc <> 0.

#[export] Instance whole_progress `{WholeWrites C E Timer D} : Progress C E Timer D.
Proof.
  intros bs t s rc s' Hw Hne. apply write_whole in Hw as [?| ->]; [lia| |done]. destruct bs; [done|simpl; lia].
Qed.

(** ** A concrete platform

    The clock stands still, so that either all timers have expired or none has;
    [chunk] bounds what one write takes. *)

Record bench (D : Type) := {
  pe_in : list byte; pe_out : list byte; pe_delivered : list (positive * D)
}.
Arguments Build_bench {D} _ _ _.
Arguments pe_in {D} _.
Arguments pe_out {D} _.
Arguments pe_delivered {D} _.

#[export] Instance plain_observed {D} : Observed (bench D) D :=
  {| net_in := pe_in; net_out := pe_out; delivered := pe_delivered |}.

Section PlainPlatform.
Context {C D : Type}.
Abbreviation MP := (M (world_of C (bench D))).
Variables (expired : bool) (chunk : option Z).

Definition get_env : MP (bench D) := fun s => Done (env (world s)) s.
Definition set_env (e : bench D) : MP unit := fun s =>
  Done tt (State (mem s) (bufptr s) (World (client (world s)) e)).

Definition take_chunk (bs : list byte) : list byte :=
  match chunk with Some n => take (Z.to_nat n) bs | None => bs end.

Definition plain_platform : Platform C (bench D) Z D := {|
  TimerInit _ := ret 0;
  TimerIsExpired _ := ret expired;
  TimerCountdownMS _ n := ret n;
  TimerCountdown _ n := ret (1000 * n);
  TimerLeftMS t := ret t;
  mqttread n _ :=
    let* e := get_env in
    let bs := take (Z.to_nat n) (pe_in e) in
    set_env {| pe_in := drop (Z.to_nat n) (pe_in e); pe_out := pe_out e; pe_delivered := pe_delivered e |} ;;;
    ret (zlen bs, bs);
  mqttwrite bs _ :=
    let* e := get_env in
    set_env {| pe_in := pe_in e; pe_out := pe_out e ++ take_chunk bs; pe_delivered := pe_delivered e |} ;;;
    ret (zlen (take_chunk bs));
  call_handler f md :=
    let* e := get_env in
    set_env {| pe_in := pe_in e; pe_out := pe_out e; pe_delivered := pe_delivered e ++ [(f, md)] |}
|}.

Lemma take_chunk_prefix bs : take (length (take_chunk bs)) bs = take_chunk bs.
Proof.
  unfold take_chunk. destruct chunk as [n|]; [|by rewrite firstn_all]. rewrite length_take.
  destruct (Nat.le_gt_cases (Z.to_nat n) (length bs)); [by rewrite Nat.min_l|].
  by rewrite Nat.min_r, !take_ge by lia.
Qed.

Lemma plain_platform_spec : PlatformSpec C (bench D) Z D (H := plain_platform).
Proof.
  split.
  1-5: intros; do 2 eexists; split; [done|by split_and!].
  - intros n t s Hn. cbn. unfold bind, ret, get_env, set_env. cbn. do 3 eexists. split; [reflexivity|]. cbn.
    rewrite length_take. split_and!; try done; try lia. by rewrite take_drop.
  - intros bs t s. cbn. unfold bind, ret, get_env, set_env. cbn. do 2 eexists. split; [reflexivity|]. cbn.
    rewrite Nat2Z.id, take_chunk_prefix. split_and!; try done.
    apply inj_le. rewrite <- (take_chunk_prefix bs), length_take. lia.
  - intros f md s. eexists. by split_and!.
Qed.
End PlainPlatform.

Section Benches.
Context {C D : Type}.

Lemma plain_responsive : Responsive C (bench D) Z D (H := plain_platform false None).
Proof.
  split.
  - by intros t s e s' [= <- _].
  - intros n t s rc bs s' Hn Hlen. cbn. unfold bind, ret, get_env, set_env. cbn. intros [= <- <- _].
    cbn in Hlen. rewrite length_take. lia.
  - intros bs t s rc s' _. cbn. unfold bind, ret, get_env, set_env. cbn. by intros [= <- _].
Qed.

Lemma plain_expired chunk : Expired C (bench D) Z D (H := plain_platform true chunk).
Proof. by intros t s e s' [= <- _]. Qed.

(** A state with the given objects and incoming bytes. *)
Definition plain_state (blocks : list (list byte)) (c : C) (incoming : list byte) :
    state (world_of C (bench D)) :=
  State (mem_of blocks) NULL (World c {| pe_in := incoming; pe_out := []; pe_delivered := [] |}).

(** The platform of the examples. *)
Definition ideal_platform : Platform C (bench D) Z D := plain_platform false None.
Definition ideal_spec : PlatformSpec C (bench D) Z D (H := ideal_platform) := plain_platform_spec false None.
Definition ideal_responsive : Responsive C (bench D) Z D (H := ideal_platform) := plain_responsive.
End Benches.

(** ** Views *)

(** A client type without its timers. *)
Class Untimed (C U : Type) := untimed : C -> U.

Record view (U D : Type) := View {
  v_mem : gmap block (list byte);
  v_client : U;
  v_in : list byte;
  v_out : list byte;
  v_delivered : list (positive * D)
}.
Arguments View {U D} _ _ _ _ _.
Arguments v_mem {U D} _.
Arguments v_client {U D} _.
Arguments v_in {U D} _.
Arguments v_out {U D} _.
Arguments v_delivered {U D} _.

Definition see {C U E D} `{Observed E D} `{Untimed C U} (s : state (world_of C E)) : view U D :=
  View (mem s) (untimed (client (world s))) (net_in (env (world s))) (net_out (env (world s)))
    (delivered (env (world s))).

Section ViewUpdates.
Context {U D : Type}.
Implicit Types v : view U D.

Definition set_v_mem v m : view U D := View m (v_client v) (v_in v) (v_out v) (v_delivered v).
Definition set_v_client v c : view U D := View (v_mem v) c (v_in v) (v_out v) (v_delivered v).
Definition set_v_in v bs : view U D := View (v_mem v) (v_client v) bs (v_out v) (v_delivered v).
Definition send v bs : view U D := View (v_mem v) (v_client v) (v_in v) (v_out v ++ bs) (v_delivered v).
Definition deliver v d : view U D :=
  View (v_mem v) (v_client v) (v_in v) (v_out v) (v_delivered v ++ d).
End ViewUpdates.

(** Total correctness: from every state of view [v], [c] returns, and its
    result and the view it leaves satisfy [Q]. *)
Definition total {C U E D A} `{Observed E D} `{Untimed C U} (v : view U D) (c : M (world_of C E) A)
    (Q : A -> view U D -> Prop) : Prop :=
  forall s, see s = v -> exists a s', c s = Done a s' /\ Q a (see s').

(** [c] returns [a] and leaves view [v']. *)
Abbreviation runs v c a v' := (total v c (fun r w => r = a /\ w = v')).

Section Rules.
Context {C U E D : Type} `{Observed E D} `{Untimed C U}.
Abbreviation MC := (M (world_of C E)).
Implicit Types (v : view U D).

Lemma total_ret {A} v (a : A) (Q : A -> view U D -> Prop) : Q a v -> total v (ret a : MC A) Q.
Proof. intros HQ s <-. by exists a, s. Qed.

Lemma total_mono {A} v (c : MC A) (P Q : A -> view U D -> Prop) :
  total v c P -> (forall a w, P a w -> Q a w) -> total v c Q.
Proof. intros Hc HPQ s Hs. destruct (Hc s Hs) as (a & s' & ? & ?). eauto. Qed.

Lemma total_bind {A B} v (c : MC A) (k : A -> MC B) Q :
  total v c (fun a w => total w (k a) Q) -> total v (bind c k) Q.
Proof.
  intros Hc s Hs. destruct (Hc s Hs) as (a & s' & Hrun & Hk).
  rewrite (bind_done _ _ _ _ _ Hrun). by apply Hk.
Qed.

(** A first step of known outcome. *)
Lemma total_step {A B} v (c : MC A) (k : A -> MC B) P Q :
  total v c P -> (forall a w, P a w -> total w (k a) Q) -> total v (bind c k) Q.
Proof. intros Hc Hk. eapply total_bind, total_mono; [exact Hc|exact Hk]. Qed.

Lemma runs_step {A B} v (c : MC A) (k : A -> MC B) a w Q :
  runs v c a w -> total w (k a) Q -> total v (bind c k) Q.
Proof. intros Hc Hk. eapply total_step; [exact Hc|]. by intros ? ? [-> ->]. Qed.

Lemma total_ret_bind {A B} v (a : A) (k : A -> MC B) Q :
  total v (k a) Q -> total v (bind (ret a) k) Q.
Proof. intros Hk. apply total_bind. by apply total_ret. Qed.

Lemma total_assoc {A B B2} v (c : MC A) (k : A -> MC B) (l : B -> MC B2) Q :
  total v (bind c (fun x => bind (k x) l)) Q -> total v (bind (bind c k) l) Q.
Proof. intros Hc s Hs. rewrite bind_assoc. by apply Hc. Qed.

Lemma total_get_client {B} v (k : C -> MC B) Q :
  (forall c, untimed c = v_client v -> total v (k c) Q) -> total v (bind get_client k) Q.
Proof. intros Hk s <-. unfold bind, get_client. by apply Hk. Qed.

Lemma runs_update_client v (f : C -> C) c' :
  (forall c, untimed c = v_client v -> untimed (f c) = c') ->
  runs v (update_client f) tt (set_v_client v c').
Proof.
  intros Hf s <-. eexists _, _. split; [done|]. split; [done|]. unfold see. cbn. by rewrite (Hf _ eq_refl).
Qed.

(** A function of MQTTPacket/src: memory and the static cursor only. *)
Lemma runs_local {A} v (c : MC A) a m' :
  (forall s, mem s = v_mem v -> exists s', c s = Done a s' /\ mem s' = m' /\ world s' = world s) ->
  runs v c a (set_v_mem v m').
Proof.
  intros Hc s <-. destruct (Hc s eq_refl) as (s' & Hrun & <- & Hw). exists a, s'. split; [done|].
  split; [done|]. unfold see. cbn. by rewrite Hw.
Qed.

Lemma runs_reading {A} v (c : MC A) a :
  (forall s, mem s = v_mem v -> exists s', c s = Done a s' /\ mem s' = mem s /\ world s' = world s) ->
  runs v c a v.
Proof.
  intros Hc s <-. destruct (Hc s eq_refl) as (s' & Hrun & Hm & Hw). exists a, s'. split; [done|].
  split; [done|]. unfold see. by rewrite Hm, Hw.
Qed.

Lemma total_reading {A} v (c : MC A) (P : A -> Prop) :
  (forall s, mem s = v_mem v -> exists a s', c s = Done a s' /\ mem s' = mem s /\ world s' = world s /\ P a) ->
  total v c (fun a w => w = v /\ P a).
Proof.
  intros Hc s <-. destruct (Hc s eq_refl) as (a & s' & Hrun & Hm & Hw & HP). exists a, s'. split; [done|].
  split; [|done]. unfold see. by rewrite Hm, Hw.
Qed.
End Rules.

(** ** The platform's functions *)

Section PlatformRules.
Context {C U E Timer D : Type} `{PS : PlatformSpec C E Timer D} `{Untimed C U}.
Abbreviation MC := (M (world_of C E)).
Implicit Types (v : view U D).

Lemma quiet_see (s s' : state (world_of C E)) : quiet s s' -> see s' = see s.
Proof. intros (Hm & Hc & Hi & Ho & Hd). unfold see. by rewrite Hm, Hc, Hi, Ho, Hd. Qed.

Lemma total_quiet {A} v (c : MC A) :
  (forall s, exists a s', c s = Done a s' /\ quiet s s') -> total v c (fun _ w => w = v).
Proof.
  intros Hc s <-. destruct (Hc s) as (a & s' & Hrun & Hq). exists a, s'. split; [done|].
  by apply quiet_see.
Qed.

Lemma total_TimerInit v t : total v (TimerInit t) (fun _ w => w = v).
Proof. apply total_quiet, TimerInit_spec. Qed.
Lemma total_TimerIsExpired v t :
  total v (TimerIsExpired t) (fun e w => w = v /\ if e then ~ Responsive C E Timer D else ~ Expired C E Timer D).
Proof.
  intros s <-. destruct (TimerIsExpired_spec t s) as (e & s' & Hrun & Hq). exists e, s'.
  split; [done|]. split; [by apply quiet_see|].
  destruct e; [intros HR; by apply never_expired in Hrun|intros HX; by apply always_expired in Hrun].
Qed.
Lemma total_TimerCountdownMS v t n : total v (TimerCountdownMS t n) (fun _ w => w = v).
Proof. apply total_quiet. intros. apply TimerCountdownMS_spec. Qed.
Lemma total_TimerCountdown v t n : total v (TimerCountdown t n) (fun _ w => w = v).
Proof. apply total_quiet. intros. apply TimerCountdown_spec. Qed.
Lemma total_TimerLeftMS v t : total v (TimerLeftMS t) (fun _ w => w = v).
Proof. apply total_quiet, TimerLeftMS_spec. Qed.

Lemma runs_call_handler v f md : runs v (call_handler f md) tt (deliver v [(f, md)]).
Proof.
  intros s <-. destruct (call_handler_spec f md s) as (s' & Hrun & Hm & Hc & Hi & Ho & Hd).
  exists tt, s'. split; [done|]. split; [done|]. unfold see. by rewrite Hm, Hc, Hi, Ho, Hd.
Qed.

Lemma total_mqttwrite v bs t :
  total v (mqttwrite bs t) (fun rc w => rc <= zlen bs /\ w = send v (take (Z.to_nat rc) bs)).
Proof.
  intros s <-. destruct (mqttwrite_spec bs t s) as (rc & s' & Hrun & Hrc & Hm & Hc & Hi & Ho & Hd).
  exists rc, s'. split; [done|]. split; [done|]. unfold see. by rewrite Hm, Hc, Hi, Ho, Hd.
Qed.

(** A read takes a part of what is to come; a responsive platform fills it. *)
Lemma total_mqttread v n t :
  0 < n ->
  total v (mqttread n t) (fun r w => exists tl, v_in v = r.2 ++ tl /\ w = set_v_in v tl /\
    zlen r.2 <= n /\ r.1 <= n /\ (r.1 = n -> zlen r.2 = n) /\
    (Responsive C E Timer D -> n <= zlen (v_in v) -> r.1 = n)).
Proof.
  intros Hn s <-. destruct (mqttread_spec n t s Hn)
    as (rc & bs & s' & Hrun & Hbs & Hrc & Hfull & Hm & Hc & Hi & Ho & Hd).
  exists (rc, bs), s'. split; [done|]. exists (net_in (env (world s'))). split_and!; try done.
  - unfold see. by rewrite Hm, Hc, Ho, Hd.
  - intros HR Hlen. by apply (read_full n t s rc bs s').
Qed.

Lemma total_write_some `{!Progress C E Timer D} v bs t :
  bs <> [] ->
  total v (mqttwrite bs t) (fun rc w => rc <= zlen bs /\ w = send v (take (Z.to_nat rc) bs) /\ rc <> 0 /\
    (Responsive C E Timer D -> rc = zlen bs)).
Proof.
  intros Hne s Hs. destruct (total_mqttwrite v bs t s Hs) as (rc & s' & Hrun & Hrc & Hw).
  exists rc, s'. split_and!; [done..| |].
  - by apply (write_some _ _ _ _ _ Hrun).
  - intros HR. by apply write_full in Hrun.
Qed.

Lemma total_write_whole `{!WholeWrites C E Timer D} v bs t :
  bs <> [] -> total v (mqttwrite bs t) (fun rc w =>
    (rc = zlen bs /\ w = send v bs) \/ (rc < 0 /\ w = v /\ ~ Responsive C E Timer D)).
Proof.
  intros Hne s Hs. destruct (total_mqttwrite v bs t s Hs) as (rc & s' & Hrun & Hrc & Hw).
  exists rc, s'. split; [done|]. destruct (write_whole _ _ _ _ _ Hne Hrun) as [Hneg| ->].
  - right. split_and!; [done| |].
    + rewrite Hw, Z2Nat.nonpos by lia. unfold send. destruct v. cbn. by rewrite app_nil_r.
    + intros HR. apply write_full in Hrun; [lia|done].
  - left. split; [done|]. rewrite Hw, Nat2Z.id. by rewrite firstn_all.
Qed.
End PlatformRules.

Ltac tassoc := repeat match goal with |- total _ (bind (bind _ _) _) _ => apply total_assoc end.

(** Go through the next call of a client function by its lemma. *)
Tactic Notation "tstep" uconstr(lem) :=
  tassoc; first [eapply total_step; [eapply lem|]; cbv beta | eapply lem].
Tactic Notation "rstep" uconstr(lem) :=
  tassoc; eapply runs_step; [eapply lem|]; cbv beta iota zeta.
Ltac tget c Hc :=
  tassoc; apply total_get_client; intros c Hc.
Ltac tret := tassoc; apply total_ret_bind; cbv beta iota zeta.

(** ** Reading and writing *)

Section Transfer.
Context {C U E Timer D : Type} `{PS : PlatformSpec C E Timer D} `{Untimed C U} `{CharSign}.
Abbreviation MC := (M (world_of C E)).
Implicit Types (v : view U D).

(** Recording that a packet was sent or received. *)
Lemma runs_set_timer v (f : C -> C) :
  (forall c, untimed (f c) = untimed c) -> runs v (update_client f) tt v.
Proof.
  intros Hf s <-. eexists _, _. split; [done|]. split; [done|]. unfold see. cbn. by rewrite Hf.
Qed.

Lemma runs_load_packet v b o pkt n :
  bytes_at (v_mem v) b o pkt -> pkt <> [] -> n = zlen pkt -> runs v (load_bytes (Ptr b o) n : MC _) pkt v.
Proof.
  intros Hat Hne Hn. apply runs_reading. intros s Hs. exists s. split; [|done].
  rewrite <- Hs in Hat. by apply load_bytes_at.
Qed.

(** The receive buffer: [m0] but for block [b], which holds [l] with [w] written
    from offset [o] on. *)
Definition received v m0 (b : block) (l : list byte) (o : Z) (w : list byte) : Prop :=
  v_mem v = <[b := splice l o w]> m0.

Lemma received_start v b l o : v_mem v !! b = Some l -> received v (v_mem v) b l o [].
Proof. intros Hb. unfold received. by rewrite splice_nil, insert_id. Qed.

(** A call of mqttread into the buffer. *)
Lemma total_net_read v m0 b l o w n t :
  received v m0 b l o w -> 0 <= o -> 0 < n -> o + zlen w + n <= zlen l ->
  total v (net_read (Ptr b (o + zlen w)) n t) (fun rc v' => exists bs tl, v_in v = bs ++ tl /\
    zlen bs <= n /\ rc <= n /\ (rc = n -> zlen bs = n) /\
    v' = View (<[b := splice l o (w ++ bs)]> m0) (v_client v) tl (v_out v) (v_delivered v) /\
    (Responsive C E Timer D -> n <= zlen (v_in v) -> rc = n)).
Proof.
  intros Hw Ho Hn Hroom. unfold net_read. tstep total_mqttread; [done|].
  intros [rc bs] ? (tl & Hin & -> & Hbs & Hrc & Hfull & HR). cbn [fst snd] in *.
  rstep (runs_local _ _ tt (<[b := splice l o (w ++ bs)]> m0)).
  { intros s Hs. destruct (store_bytes_written m0 b l o w bs s) as (s' & ? & ? & ?);
      [unfold written; by rewrite Hs|done|lia|]. by exists s'. }
  apply total_ret. by exists bs, tl.
Qed.

(** Only the incoming bytes have changed. *)
Definition consumed (s s' : state (world_of C E)) : Prop :=
  see s' = set_v_in (see s) (v_in (see s')).

#[local] Instance consumed_preorder : PreOrder consumed.
Proof.
  split; [done|]. unfold consumed. intros s1 s2 s3 H12 H23. by rewrite H23, H12.
Qed.

(** The remaining length from the network, by the loop of decodePacket. *)
Lemma total_decode_loop v timeout :
  total v (decode_loop 5 (fun k => mqttread k timeout) None 1 0 0 : MC _) (fun r v' =>
    0 <= r.2 <= REMLEN_MAX /\ exists tl, v' = set_v_in v tl).
Proof.
  intros s <-. destruct (decode_loop_any (fun k => mqttread k timeout) consumed 4 s None 1 0 0)
    as (n & x & s' & Hrun & Hx & Hs'); try done; try lia.
  - intros s1. destruct (total_mqttread (see s1) 1 timeout eq_refl s1 eq_refl)
      as ([rc bs] & s2 & Hrun & tl & Hin & Hs2 & Hbs & Hrc & Hfull & _). cbn [fst snd] in *.
    exists rc, bs, s2. split_and!; try done. unfold consumed. by rewrite Hs2.
  - exists (n, x), s'. split; [done|]. split; [done|]. by exists (v_in (see s')).
Qed.

Lemma runs_decode_loop `{!Responsive C E Timer D} v timeout lb body tl :
  v_in v = lb ++ tl -> length_field lb body ->
  runs v (decode_loop 5 (fun k => mqttread k timeout) None 1 0 0 : MC _) (zlen lb, zlen body) (set_v_in v tl).
Proof.
  intros Hin [Hp Hlb] s <-.
  destruct (decode_loop_reads (fun k => mqttread k timeout) (fun s => v_in (see s)) consumed
    4 s lb tl None 1 0 0 (zlen body)) as (s' & Hrun & Hin' & Hs'); try done; try lia.
  - intros s1 x tl1 Hin1. destruct (total_mqttread (see s1) 1 timeout eq_refl s1 eq_refl)
      as ([rc bs] & s2 & Hrun & tl2 & Hin2 & Hs2 & Hbs & Hrc & Hfull & HR). cbn [fst snd] in *.
    assert (rc = 1) as -> by (apply HR; [exact _|rewrite Hin1; zlen_lia]). specialize (Hfull eq_refl).
    destruct bs as [|y [|]]; [done| |simpl in *; lia]. rewrite Hin1 in Hin2. injection Hin2 as -> ->.
    exists s2. split_and!; [done|by rewrite Hs2|]. unfold consumed. by rewrite Hs2.
  - rewrite Hrun. exists (0 + zlen lb, 0 + 1 * zlen body), s'. split; [done|].
    split; [f_equal; lia|]. by rewrite Hs', Hin'.
Qed.

Lemma runs_encode v m0 b l o w n :
  received v m0 b l o w -> 0 <= o -> 0 <= n <= REMLEN_MAX ->
  o + zlen w + zlen (remlen_bytes n) <= zlen l ->
  runs v (MQTTPacket_encode (Ptr b (o + zlen w)) n : MC _) (zlen (remlen_bytes n))
    (set_v_mem v (<[b := splice l o (w ++ remlen_bytes n)]> m0)).
Proof.
  intros Hw Ho Hn Hroom. apply runs_local. intros s Hs.
  destruct (encode_written m0 b l o w n s) as (s' & ? & ? & ?); [unfold written; by rewrite Hs|done..|].
  by exists s'.
Qed.

Lemma runs_load_header v m0 b l o h rest :
  received v m0 b l o (h :: rest) -> 0 <= o -> o + zlen (h :: rest) <= zlen l ->
  runs v (load (Ptr b o) : MC _) (Z_of_byte h) v.
Proof.
  intros Hw Ho Hroom. apply runs_reading. intros s Hs. exists s. split; [|done].
  eapply (load_header m0); [|done|exact Hroom]. unfold written. by rewrite Hs.
Qed.

Lemma remlen_bytes_short n : 0 <= n <= REMLEN_MAX -> 1 <= zlen (remlen_bytes n) <= 4.
Proof. intros Hn. rewrite remlen_bytes_length by done. repeat case_test; lia. Qed.

(** The header byte of a packet. *)
Lemma total_read_header v m0 b l o t :
  v_mem v = m0 -> m0 !! b = Some l -> 0 <= o -> o + 1 <= zlen l ->
  total v (net_read (Ptr b o) 1 t) (fun rc v' => exists bs tl, v_in v = bs ++ tl /\ rc <= 1 /\
    v' = View (<[b := splice l o bs]> m0) (v_client v) tl (v_out v) (v_delivered v) /\
    (rc = 1 -> exists h, bs = [h]) /\ zlen bs <= 1 /\
    (Responsive C E Timer D -> v_in v <> [] -> rc = 1)).
Proof.
  intros Hm Hb Ho Hroom. pose proof (received_start v b l o ltac:(by rewrite Hm)) as Hw. rewrite Hm in Hw.
  replace o with (o + zlen (@nil byte)) at 1 by zlen_lia.
  eapply total_mono; [eapply total_net_read; [exact Hw|done|done|simpl; lia]|].
  intros rc ? (bs & tl & Hin & Hbs & Hrc & Hfull & -> & HR). exists bs, tl. split_and!; try done.
  - intros ->. specialize (Hfull eq_refl). destruct bs as [|h [|]]; [done|by exists h|simpl in *; lia].
  - intros HR' Hne. apply HR; [done|]. destruct (v_in v); [done|simpl; lia].
Qed.

End Transfer.

(** ** Buffers *)

(** The bytes [w] stored at offset [o] of block [b]. *)
Definition put {U D} (b : block) (o : Z) (w : list byte) (v : view U D) : view U D :=
  set_v_mem v (alter (fun l => splice l o w) b (v_mem v)).

Section Put.
Context {U D : Type}.
Implicit Types (v : view U D).

Lemma put_insert b o w v l :
  v_mem v !! b = Some l -> put b o w v = set_v_mem v (<[b := splice l o w]> (v_mem v)).
Proof.
  intros Hb. unfold put. f_equal. apply map_eq. intros b'. destruct (decide (b' = b)) as [->|].
  - by rewrite lookup_alter_eq, lookup_insert_eq, Hb.
  - by rewrite lookup_alter_ne, lookup_insert_ne.
Qed.

Lemma put_lookup b o w v l : v_mem v !! b = Some l -> v_mem (put b o w v) !! b = Some (splice l o w).
Proof. intros Hb. cbn. by rewrite lookup_alter_eq, Hb. Qed.

Lemma put_other b o w v b' : b' <> b -> v_mem (put b o w v) !! b' = v_mem v !! b'.
Proof. intros Hb. cbn. by apply lookup_alter_ne. Qed.

Lemma bytes_at_same m m' b o bs : m' !! b = m !! b -> bytes_at m b o bs -> bytes_at m' b o bs.
Proof. intros Heq [Ho (l & Hb & Hl)]. split; [done|]. exists l. by rewrite Heq. Qed.

Lemma cstring_at_same m m' p f :
  (forall b o, p = Ptr b o -> m' !! b = m !! b) -> cstring_at m p f -> cstring_at m' p f.
Proof.
  intros Heq (b & o & -> & Hat & Hf). exists b, o. split; [done|]. split; [|done].
  eapply bytes_at_same; [by eapply Heq|done].
Qed.

Lemma bytes_at_put b o w v l :
  v_mem v !! b = Some l -> 0 <= o -> o + zlen w <= zlen l -> bytes_at (v_mem (put b o w v)) b o w.
Proof.
  intros Hb Ho Hroom. split; [done|]. exists (splice l o w). split; [by apply put_lookup|].
  intros. by apply splice_lookup.
Qed.

End Put.

Section Filling.
Context {C U E D : Type} `{Observed E D} `{Untimed C U}.
Abbreviation MC := (M (world_of C E)).
Implicit Types (v : view U D).

Lemma runs_filling v b o l (c : MC Z) n w :
  v_mem v !! b = Some l -> (forall s, mem s = v_mem v -> c s = Done n (set_block s b (splice l o w))) ->
  runs v c n (put b o w v).
Proof.
  intros Hb Hc. rewrite (put_insert _ _ _ _ _ Hb). apply runs_local. intros s Hs. eexists.
  split; [by apply Hc|]. split; [|done]. cbn. by rewrite Hs.
Qed.

(** memcpy between two objects. *)
Lemma runs_memcpy v b b' (pkt l : list byte) n :
  b <> b' -> bytes_at (v_mem v) b' 0 pkt -> v_mem v !! b = Some l -> zlen pkt <= zlen l -> n = zlen pkt ->
  runs v (memcpy (Ptr b 0) (Ptr b' 0) n : MC unit) tt (put b 0 pkt v).
Proof.
  intros Hne Hat Hl Hroom ->. rewrite (put_insert _ _ _ _ _ Hl). apply runs_local. intros s Hs.
  unfold memcpy. test_false (zlen pkt <? 0). destruct (decide (pkt = [])) as [->|Hp].
  { exists s. change (zlen [] =? 0) with true. rewrite splice_nil, insert_id by done. by rewrite Hs. }
  assert (zlen pkt <> 0) by (destruct pkt; [done|simpl; lia]). test_false (zlen pkt =? 0).
  rewrite <- Hs in Hat. rewrite (bind_done _ _ _ _ _ (load_bytes_at s b' 0 pkt (zlen pkt) Hat eq_refl Hp)).
  unfold ranges_overlap. rewrite bool_decide_eq_false_2 by done. cbn [andb].
  unfold store_bytes. destruct pkt as [|x pkt]; [done|]. rewrite Hs, Hl.
  replace ((0 <=? 0) && (0 + zlen (x :: pkt) <=? zlen l)) with true by lia. eexists. split; [done|].
  by split; [cbn; rewrite Hs|].
Qed.
End Filling.
