(* ===== verification/MQTTClient.v ===== *)
(** * MQTTClient.c: the client

    The functions of paho_mqtt_embedded_c/MQTTClient-C/src/MQTTClient.c over
    the structures of MQTTClient.h.  The client object lives in the [world] of
    the state, next to the environment; what the platform header must provide
    (timers and the network) and the application's message handlers are the
    interface [Platform].  A timer-controlled loop takes [fuel], a bound on
    its turns. *)

From S2P Require Import Prelude CMem MQTTPacket MQTTPublish MQTTConnect MQTTSubscribe PacketRead.
From S2P Require Import Platform.

(** ** MQTTClient.h *)

Definition MAX_PACKET_ID : Z := 65535.
Definition MAX_MESSAGE_HANDLERS : Z := 5.

(** [enum QoS] *)
Definition QOS0 : Z := 0.
Definition QOS1 : Z := 1.
Definition QOS2 : Z := 2.
Definition SUBFAIL : Z := 128.

(** [enum returnCode] *)
Definition BUFFER_OVERFLOW : Z := -2.
Definition FAILURE : Z := -1.
Definition SUCCESS : Z := 0.

(** [size_t] of a 32-bit target. *)
Definition size_t (z : Z) : Z := u32 z.

Record MQTTMessage := {
  msg_qos : Z; msg_retained : Z; msg_dup : Z; msg_id : Z; msg_payload : ptr; msg_payloadlen : Z
}.

(** The structures MessageData points to. *)
Record MessageData := { md_message : MQTTMessage; md_topicName : MQTTString }.

Record MQTTConnackData := { connack_rc : Z; connack_sessionPresent : Z }.

(** A message handler: [None] is the null pointer, [Some f] the application's
    function number [f]. *)
Abbreviation messageHandler := (option positive).

Record MessageHandlers := { topicFilter : ptr; fp : messageHandler }.

Record MQTTClient (Timer : Type) := Client {
  next_packetid : Z; command_timeout_ms : Z; buf_size : Z; readbuf_size : Z;
  buf : ptr; readbuf : ptr; c_keepAliveInterval : Z; ping_outstanding : Z;
  isconnected : Z; c_cleansession : Z; messageHandlers : list MessageHandlers;
  defaultMessageHandler : messageHandler; last_sent : Timer; last_received : Timer
}.
Arguments Client {Timer}.
Arguments next_packetid {Timer} _.
Arguments command_timeout_ms {Timer} _.
Arguments buf_size {Timer} _.
Arguments readbuf_size {Timer} _.
Arguments buf {Timer} _.
Arguments readbuf {Timer} _.
Arguments c_keepAliveInterval {Timer} _.
Arguments ping_outstanding {Timer} _.
Arguments isconnected {Timer} _.
Arguments c_cleansession {Timer} _.
Arguments messageHandlers {Timer} _.
Arguments defaultMessageHandler {Timer} _.
Arguments last_sent {Timer} _.
Arguments last_received {Timer} _.

(** Assignments to the members of [*c]. *)
Section Setters.
Context {T : Type}.
Implicit Types c : MQTTClient T.

Definition set_next_packetid c v :=
  Client v (command_timeout_ms c) (buf_size c) (readbuf_size c) (buf c) (readbuf c)
    (c_keepAliveInterval c) (ping_outstanding c) (isconnected c) (c_cleansession c)
    (messageHandlers c) (defaultMessageHandler c) (last_sent c) (last_received c).
Definition set_session_options c keepalive clean :=
  Client (next_packetid c) (command_timeout_ms c) (buf_size c) (readbuf_size c) (buf c) (readbuf c)
    keepalive (ping_outstanding c) (isconnected c) clean
    (messageHandlers c) (defaultMessageHandler c) (last_sent c) (last_received c).
Definition set_ping_outstanding c v :=
  Client (next_packetid c) (command_timeout_ms c) (buf_size c) (readbuf_size c) (buf c) (readbuf c)
    (c_keepAliveInterval c) v (isconnected c) (c_cleansession c)
    (messageHandlers c) (defaultMessageHandler c) (last_sent c) (last_received c).
Definition set_isconnected c v :=
  Client (next_packetid c) (command_timeout_ms c) (buf_size c) (readbuf_size c) (buf c) (readbuf c)
    (c_keepAliveInterval c) (ping_outstanding c) v (c_cleansession c)
    (messageHandlers c) (defaultMessageHandler c) (last_sent c) (last_received c).
Definition set_messageHandlers c v :=
  Client (next_packetid c) (command_timeout_ms c) (buf_size c) (readbuf_size c) (buf c) (readbuf c)
    (c_keepAliveInterval c) (ping_outstanding c) (isconnected c) (c_cleansession c)
    v (defaultMessageHandler c) (last_sent c) (last_received c).
Definition set_last_sent c v :=
  Client (next_packetid c) (command_timeout_ms c) (buf_size c) (readbuf_size c) (buf c) (readbuf c)
    (c_keepAliveInterval c) (ping_outstanding c) (isconnected c) (c_cleansession c)
    (messageHandlers c) (defaultMessageHandler c) v (last_received c).
Definition set_last_received c v :=
  Client (next_packetid c) (command_timeout_ms c) (buf_size c) (readbuf_size c) (buf c) (readbuf c)
    (c_keepAliveInterval c) (ping_outstanding c) (isconnected c) (c_cleansession c)
    (messageHandlers c) (defaultMessageHandler c) (last_sent c) v.
End Setters.

(** ** Matching topics *)

Section Topics.
Context {W : Type}.

(** The inner [while] loop of isTopicMatched: [nextpos] is [curn + 1]. *)
Fixpoint skip_level (n : nat) (curn curn_end : ptr) : M W ptr :=
  match n with
  | O => throw Divergence
  | S n =>
      let nextpos := padd curn 1 in
      let* inside := plt nextpos curn_end in
      if negb inside then ret curn
      else
        let* x := load nextpos in
        if x =? 47 then ret curn else skip_level n (padd curn 1) curn_end
  end.

(** The outer loop; the characters are / (47), + (43) and # (35).  Each turn
    moves [curn] on, so the length of the name bounds the turns. *)
Fixpoint match_loop (n : nat) (curf curn curn_end : ptr) : M W (ptr * ptr) :=
  match n with
  | O => throw Divergence
  | S n =>
      let* f := load curf in
      let* go := (if negb (f =? 0) then plt curn curn_end else ret false) in
      if negb go then ret (curf, curn)
      else
        let* x := load curn in
        if (x =? 47) && negb (f =? 47) then ret (curf, curn)
        else if negb (f =? 43) && negb (f =? 35) && negb (f =? x) then ret (curf, curn)
        else
          let* curn :=
            (if f =? 43 then
               let* d := psub curn_end curn in skip_level (Z.to_nat d) curn curn_end
             else if f =? 35 then ret (padd curn_end (-1))
             else ret curn) in
          match_loop n (padd curf 1) (padd curn 1) curn_end
  end.

Definition isTopicMatched (filter : ptr) (topic : MQTTString) : M W bool :=
  let curn := data (lenstring topic) in
  let curn_end := padd curn (len (lenstring topic)) in
  let* (curf, curn) := match_loop (S (Z.to_nat (len (lenstring topic)))) filter curn curn_end in
  let* d := psub curn curn_end in
  if d =? 0 then let* f := load curf in ret (f =? 0) else ret false.
End Topics.

Abbreviation cworld E Timer := (world_of (MQTTClient Timer) E).

Section Client.
Context {E Timer : Type} `{Platform (MQTTClient Timer) E Timer MessageData} `{CharSign}.

(** [fuel] bounds the turns of a timer-controlled loop, [no_timer] is the
    content of a timer variable before TimerInit, and [uninit] that of an
    integer local before its first assignment. *)
Variables (fuel : nat) (no_timer : Timer) (uninit : Z).

Abbreviation MC := (M (cworld E Timer)).

Definition NewMessageData (aTopicName : MQTTString) (aMessage : MQTTMessage) : MessageData :=
  {| md_message := aMessage; md_topicName := aTopicName |}.

Definition getNextPacketId : MC Z :=
  let* c := get_client in
  let id := if next_packetid c =? MAX_PACKET_ID then 1 else u32 (next_packetid c + 1) in
  update_client (fun c => set_next_packetid c id) ;;; ret id.

(** ** Sending and receiving packets *)

(** The [while] loop of sendPacket; the result is [sent]. *)
Fixpoint send_loop (n : nat) (sent length : Z) (timer : Timer) : MC Z :=
  match n with
  | O => throw Divergence
  | S n =>
      let* go := (if sent <? length then let* e := TimerIsExpired timer in ret (negb e) else ret false) in
      if negb go then ret sent
      else
        let* c := get_client in
        let* timeout := TimerLeftMS timer in
        let* rc := net_write (padd (buf c) sent) length timeout in
        if rc <? 0 then ret sent
        else let* sent := int (sent + rc) in send_loop n sent length timer
  end.

Definition sendPacket (length : Z) (timer : Timer) : MC Z :=
  let* sent := send_loop fuel 0 length timer in
  if sent =? length then
    let* c := get_client in
    let* t := TimerCountdown (last_sent c) (c_keepAliveInterval c) in
    update_client (fun c => set_last_sent c t) ;;; ret SUCCESS
  else ret FAILURE.

Definition MQTTClientInit (command_timeout : Z) (sendbuf : ptr) (sendbuf_size : Z) (rbuf : ptr)
    (rbuf_size : Z) : MC unit :=
  let* c := get_client in
  let* sent := TimerInit (last_sent c) in
  let* received := TimerInit (last_received c) in
  update_client (fun c =>
    Client 1 command_timeout sendbuf_size rbuf_size sendbuf rbuf (c_keepAliveInterval c) 0 0 0
      ((fun h => {| topicFilter := NULL; fp := fp h |}) <$> messageHandlers c) None sent received).

(** The do-while loop of decodePacket. *)
Fixpoint decodePacket_loop (n : nat) (i : option Z) (multiplier len value timeout : Z) : MC (Z * Z) :=
  match n with
  | O => throw Divergence
  | S n =>
      let len := len + 1 in
      if MAX_NO_OF_REMAINING_LENGTH_BYTES <? len then ret (len, value)
      else
        let* (rc, bs) := mqttread 1 timeout in
        let* i := recv_char i bs in
        if negb (rc =? 1) then ret (len, value)
        else
          let* iv := use i in
          let* value := int (value + Z.land iv 127 * multiplier) in
          let* multiplier := int (multiplier * 128) in
          if negb (Z.land iv 128 =? 0)
          then decodePacket_loop n i multiplier len value timeout
          else ret (len, value)
  end.

Definition decodePacket (timeout : Z) : MC (Z * Z) := decodePacket_loop 5 None 1 0 0 timeout.

(** readPacket once the remaining length is known. *)
Definition readPacket_rest (c : MQTTClient Timer) (timer : Timer) (rem_len : Z) : MC Z :=
  let* n := MQTTPacket_encode (padd (readbuf c) 1) rem_len in
  let* len := int (1 + n) in
  if size_t (readbuf_size c - len) <? size_t rem_len then ret BUFFER_OVERFLOW
  else
    let* short :=
      (if 0 <? rem_len then
         let* timeout := TimerLeftMS timer in
         let* rc := net_read (padd (readbuf c) len) rem_len timeout in
         ret (negb (rc =? rem_len))
       else ret false) in
    if short : bool then ret 0
    else
      let* header := load (readbuf c) in
      let rc := header_type header in
      (if 0 <? c_keepAliveInterval c then
         let* t := TimerCountdown (last_received c) (c_keepAliveInterval c) in
         update_client (fun c => set_last_received c t)
       else ret tt) ;;;
      ret rc.

Definition readPacket (timer : Timer) : MC Z :=
  let* c := get_client in
  let* timeout := TimerLeftMS timer in
  let* rc := net_read (readbuf c) 1 timeout in
  if negb (rc =? 1) then ret rc
  else
    let* timeout := TimerLeftMS timer in
    let* (_, rem_len) := decodePacket timeout in
    readPacket_rest c timer rem_len.

(** ** Delivering messages *)

(** The [for] loop over the handlers [i], [i + 1], ...; [n] turns are left. *)
Fixpoint deliver_loop (n : nat) (i rc : Z) (topic : MQTTString) (msg : MQTTMessage) : MC Z :=
  match n with
  | O => ret rc
  | S n =>
      let* c := get_client in
      let* h := arr_get (messageHandlers c) i in
      let* matched :=
        (if negb (is_null (topicFilter h)) then
           let* eq := MQTTPacket_equals topic (topicFilter h) in
           if eq : bool then ret true else isTopicMatched (topicFilter h) topic
         else ret false) in
      let* rc :=
        (if matched : bool then
           match fp h with
           | Some f => call_handler f (NewMessageData topic msg) ;;; ret SUCCESS
           | None => ret rc
           end
         else ret rc) in
      deliver_loop n (i + 1) rc topic msg
  end.

Definition deliverMessage (topic : MQTTString) (msg : MQTTMessage) : MC Z :=
  let* rc := deliver_loop (Z.to_nat MAX_MESSAGE_HANDLERS) 0 FAILURE topic msg in
  let* c := get_client in
  match defaultMessageHandler c with
  | Some f =>
      if rc =? FAILURE then call_handler f (NewMessageData topic msg) ;;; ret SUCCESS else ret rc
  | None => ret rc
  end.

(** ** The session *)

Definition keepalive : MC Z :=
  let* c := get_client in
  if c_keepAliveInterval c =? 0 then ret SUCCESS
  else
    let* e1 := TimerIsExpired (last_sent c) in
    let* expired := (if e1 : bool then ret true else TimerIsExpired (last_received c)) in
    if negb expired then ret SUCCESS
    else if negb (ping_outstanding c =? 0) then ret FAILURE
    else
      let* timer := TimerInit no_timer in
      let* timer := TimerCountdownMS timer 1000 in
      let* len := MQTTSerialize_pingreq (buf c) (i32 (buf_size c)) in
      if 0 <? len then
        let* rc := sendPacket len timer in
        (if rc =? SUCCESS then update_client (fun c => set_ping_outstanding c 1) else ret tt) ;;;
        ret rc
      else ret SUCCESS.

Definition MQTTCleanSession : MC unit :=
  update_client (fun c =>
    set_messageHandlers c ((fun h => {| topicFilter := NULL; fp := fp h |}) <$> messageHandlers c)).

Definition MQTTCloseSession : MC unit :=
  update_client (fun c => set_isconnected (set_ping_outstanding c 0) 0) ;;;
  let* c := get_client in
  if negb (c_cleansession c =? 0) then MQTTCleanSession else ret tt.

(** The output parameters of MQTTDeserialize_publish as cycle declares them. *)
Definition publish_locals : publish_out :=
  {| pub_dup := uninit; pub_qos := uninit; pub_retained := uninit; pub_packetid := uninit;
     pub_topicName := {| cstring := NULL; lenstring := {| len := uninit; data := NULL |} |};
     pub_payload := NULL; pub_payloadlen := 0 |}.

Definition ack_locals : ack_out :=
  {| ack_packettype := uninit; ack_dup := uninit; ack_packetid := uninit |}.

(** [case PUBLISH]: [None] is [goto exit] with [rc] as it was, [Some rc] the
    value of [rc] at the end of the case. *)
Definition cycle_publish (timer : Timer) : MC (option Z) :=
  let* c := get_client in
  let* (ok, out) := MQTTDeserialize_publish publish_locals (readbuf c) (i32 (readbuf_size c)) in
  if negb (ok =? 1) then ret None
  else
    let msg := {| msg_qos := pub_qos out; msg_retained := pub_retained out; msg_dup := pub_dup out;
                  msg_id := pub_packetid out; msg_payload := pub_payload out;
                  msg_payloadlen := size_t (pub_payloadlen out) |} in
    let* _ := deliverMessage (pub_topicName out) msg in
    if negb (msg_qos msg =? QOS0) then
      let* c := get_client in
      let* len :=
        (if msg_qos msg =? QOS1 then MQTTSerialize_ack (buf c) (i32 (buf_size c)) PUBACK 0 (msg_id msg)
         else if msg_qos msg =? QOS2 then MQTTSerialize_ack (buf c) (i32 (buf_size c)) PUBREC 0 (msg_id msg)
         else ret 0) in
      if len <=? 0 then ret (Some FAILURE)
      else let* rc := sendPacket len timer in ret (Some rc)
    else ret (Some SUCCESS).

(** [case PUBREC: case PUBREL:] *)
Definition cycle_ack (packet_type : Z) (timer : Timer) : MC Z :=
  let* c := get_client in
  let* (ok, out) := MQTTDeserialize_ack ack_locals (readbuf c) (i32 (readbuf_size c)) in
  if negb (ok =? 1) then ret FAILURE
  else
    let* len := MQTTSerialize_ack (buf c) (i32 (buf_size c))
                  (if packet_type =? PUBREC then PUBREL else PUBCOMP) 0 (ack_packetid out) in
    if len <=? 0 then ret FAILURE
    else
      let* rc := sendPacket len timer in
      ret (if negb (rc =? SUCCESS) then FAILURE else rc).

(** [exit:] *)
Definition cycle_exit (rc packet_type : Z) : MC Z :=
  if rc =? SUCCESS then ret packet_type
  else
    let* c := get_client in
    (if negb (isconnected c =? 0) then MQTTCloseSession else ret tt) ;;; ret rc.

(** Behind the switch: keepalive, then [exit:]. *)
Definition cycle_end (rc packet_type : Z) : MC Z :=
  let* k := keepalive in
  cycle_exit (if negb (k =? SUCCESS) then FAILURE else rc) packet_type.

Definition cycle (timer : Timer) : MC Z :=
  let* packet_type := readPacket timer in
  if (packet_type =? 0) || (packet_type =? CONNACK) || (packet_type =? PUBACK) ||
     (packet_type =? SUBACK) || (packet_type =? UNSUBACK) || (packet_type =? PUBCOMP)
  then cycle_end SUCCESS packet_type
  else if packet_type =? PUBLISH then
    let* r := cycle_publish timer in
    match r with
    | None => cycle_exit SUCCESS packet_type
    | Some rc => if rc =? FAILURE then cycle_exit rc packet_type else cycle_end rc packet_type
    end
  else if (packet_type =? PUBREC) || (packet_type =? PUBREL) then
    let* rc := cycle_ack packet_type timer in
    if rc =? FAILURE then cycle_exit rc packet_type else cycle_end rc packet_type
  else if packet_type =? PINGRESP then
    update_client (fun c => set_ping_outstanding c 0) ;;;
    cycle_end SUCCESS packet_type
  else cycle_exit packet_type packet_type.

(** The do-while loops of MQTTYield and waitfor. *)
Fixpoint yield_loop (n : nat) (timer : Timer) : MC Z :=
  match n with
  | O => throw Divergence
  | S n =>
      let* r := cycle timer in
      if r <? 0 then ret FAILURE
      else
        let* expired := TimerIsExpired timer in
        if expired : bool then ret SUCCESS else yield_loop n timer
  end.

Definition MQTTYield (timeout_ms : Z) : MC Z :=
  let* timer := TimerInit no_timer in
  let* timer := TimerCountdownMS timer (u32 timeout_ms) in
  yield_loop fuel timer.

Definition MQTTIsConnected : MC Z := let* c := get_client in ret (isconnected c).

Fixpoint waitfor_loop (n : nat) (rc packet_type : Z) (timer : Timer) : MC Z :=
  match n with
  | O => throw Divergence
  | S n =>
      let* expired := TimerIsExpired timer in
      if expired : bool then ret rc
      else
        let* rc := cycle timer in
        if negb (rc =? packet_type) && (0 <=? rc) then waitfor_loop n rc packet_type timer
        else ret rc
  end.

Definition waitfor (packet_type : Z) (timer : Timer) : MC Z :=
  waitfor_loop fuel FAILURE packet_type timer.

(** A timer that counts down the command timeout. *)
Definition command_timer : MC Timer :=
  let* timer := TimerInit no_timer in
  let* c := get_client in
  TimerCountdownMS timer (command_timeout_ms c).

(** ** The operations of the application *)

(** [None] for the options is the null pointer; the result is the return code
    and [*data]. *)
Definition MQTTConnectWithResults (options : option MQTTPacket_connectData) (data : MQTTConnackData) :
    MC (Z * MQTTConnackData) :=
  let exit (rc : Z) (data : MQTTConnackData) : MC (Z * MQTTConnackData) :=
    (if rc =? SUCCESS
     then update_client (fun c => set_ping_outstanding (set_isconnected c 1) 0) else ret tt) ;;;
    ret (rc, data) in
  let* c := get_client in
  if negb (isconnected c =? 0) then exit FAILURE data
  else
    let* connect_timer := command_timer in
    let options := match options with Some o => o | None => MQTTPacket_connectData_initializer end in
    update_client (fun c => set_session_options c (keepAliveInterval options) (cleansession options)) ;;;
    let* c := get_client in
    let* t := TimerCountdown (last_received c) (c_keepAliveInterval c) in
    update_client (fun c => set_last_received c t) ;;;
    let* len := MQTTSerialize_connect (buf c) (i32 (buf_size c)) options in
    if len <=? 0 then exit FAILURE data
    else
      let* rc := sendPacket len connect_timer in
      if negb (rc =? SUCCESS) then exit rc data
      else
        let* w := waitfor CONNACK connect_timer in
        if w =? CONNACK then
          let* c := get_client in
          let* (ok, out) := MQTTDeserialize_connack (0, 0) (readbuf c) (i32 (readbuf_size c)) in
          let data := {| connack_rc := out.2; connack_sessionPresent := out.1 |} in
          if ok =? 1 then exit (connack_rc data) data else exit FAILURE data
        else exit FAILURE data.

Definition MQTTConnect (options : option MQTTPacket_connectData) : MC Z :=
  let* (rc, _) := MQTTConnectWithResults options
                    {| connack_rc := uninit; connack_sessionPresent := uninit |} in
  ret rc.

(** The [for] loops of MQTTSetMessageHandler: the index at which they stop. *)
Fixpoint find_filter (n : nat) (i : Z) (filter : ptr) : MC Z :=
  match n with
  | O => ret i
  | S n =>
      let* c := get_client in
      let* h := arr_get (messageHandlers c) i in
      let* same :=
        (if negb (is_null (topicFilter h)) then
           let* r := strcmp (topicFilter h) filter in ret (r =? 0)
         else ret false) in
      if same : bool then ret i else find_filter n (i + 1) filter
  end.

Fixpoint find_free (n : nat) (i : Z) : MC Z :=
  match n with
  | O => ret i
  | S n =>
      let* c := get_client in
      let* h := arr_get (messageHandlers c) i in
      if is_null (topicFilter h) then ret i else find_free n (i + 1)
  end.

(** [c->messageHandlers[i] = ...] *)
Definition set_handler (i : Z) (filter : ptr) (f : messageHandler) : MC unit :=
  let* c := get_client in
  let* hs := arr_set (messageHandlers c) i {| topicFilter := filter; fp := f |} in
  update_client (fun c => set_messageHandlers c hs).

Definition MQTTSetMessageHandler (filter : ptr) (handler : messageHandler) : MC Z :=
  let* i := find_filter (Z.to_nat MAX_MESSAGE_HANDLERS) 0 filter in
  let found := i <? MAX_MESSAGE_HANDLERS in
  let rc := if found then SUCCESS else FAILURE in
  match handler with
  | None => (if found then set_handler i NULL None else ret tt) ;;; ret rc
  | Some f =>
      let* i := (if found then ret i else find_free (Z.to_nat MAX_MESSAGE_HANDLERS) 0) in
      (if i <? MAX_MESSAGE_HANDLERS then set_handler i filter (Some f) else ret tt) ;;;
      ret (if i <? MAX_MESSAGE_HANDLERS then SUCCESS else rc)
  end.

Definition cstring_topic (s : ptr) : MQTTString :=
  {| cstring := s; lenstring := {| len := 0; data := NULL |} |}.

(** [exit:] of the operations below. *)
Definition close_on_failure {A} (rc : Z) (a : A) : MC (Z * A) :=
  (if rc =? FAILURE then MQTTCloseSession else ret tt) ;;; ret (rc, a).

(** [grantedQoS] is the member of [*data], an array of one element to
    MQTTDeserialize_suback. *)
Definition MQTTSubscribeWithResults (filter : ptr) (qos : Z) (handler : messageHandler)
    (grantedQoS : Z) : MC (Z * Z) :=
  let* c := get_client in
  if isconnected c =? 0 then close_on_failure FAILURE grantedQoS
  else
    let* timer := command_timer in
    let* id := getNextPacketId in
    let* len := MQTTSerialize_subscribe (buf c) (i32 (buf_size c)) 0 (u16 id) 1
                  [cstring_topic filter] [qos] in
    if len <=? 0 then close_on_failure FAILURE grantedQoS
    else
      let* rc := sendPacket len timer in
      if negb (rc =? SUCCESS) then close_on_failure rc grantedQoS
      else
        let* w := waitfor SUBACK timer in
        if w =? SUBACK then
          let* c := get_client in
          let* (ok, out) := MQTTDeserialize_suback
                              {| suback_packetid := uninit; suback_count := 0; grantedQoSs := [QOS0] |}
                              1 (readbuf c) (i32 (readbuf_size c)) in
          let* grantedQoS := arr_get (grantedQoSs out) 0 in
          if (ok =? 1) && negb (grantedQoS =? SUBFAIL) then
            let* rc := MQTTSetMessageHandler filter handler in close_on_failure rc grantedQoS
          else close_on_failure rc grantedQoS
        else close_on_failure FAILURE grantedQoS.

Definition MQTTSubscribe (filter : ptr) (qos : Z) (handler : messageHandler) : MC Z :=
  let* (rc, _) := MQTTSubscribeWithResults filter qos handler uninit in ret rc.

Definition MQTTUnsubscribe (filter : ptr) : MC Z :=
  let exit rc := let* (rc, _) := close_on_failure rc tt in ret rc in
  let* c := get_client in
  if isconnected c =? 0 then exit FAILURE
  else
    let* timer := command_timer in
    let* id := getNextPacketId in
    let* len := MQTTSerialize_unsubscribe (buf c) (i32 (buf_size c)) 0 (u16 id) 1 [cstring_topic filter] in
    if len <=? 0 then exit FAILURE
    else
      let* rc := sendPacket len timer in
      if negb (rc =? SUCCESS) then exit rc
      else
        let* w := waitfor UNSUBACK timer in
        if w =? UNSUBACK then
          let* c := get_client in
          let* (ok, _) := MQTTDeserialize_unsuback uninit (readbuf c) (i32 (readbuf_size c)) in
          (if ok =? 1 then let* _ := MQTTSetMessageHandler filter None in ret tt else ret tt) ;;;
          exit rc
        else exit FAILURE.

(** Waiting for the last acknowledgement of a publish and reading it. *)
Definition publish_wait (packet_type rc : Z) (timer : Timer) : MC Z :=
  let* w := waitfor packet_type timer in
  if w =? packet_type then
    let* c := get_client in
    let* (ok, _) := MQTTDeserialize_ack ack_locals (readbuf c) (i32 (readbuf_size c)) in
    ret (if negb (ok =? 1) then FAILURE else rc)
  else ret FAILURE.

(** The result is the return code and [*message], whose identifier the
    function assigns. *)
Definition MQTTPublish (topic : ptr) (msg : MQTTMessage) : MC (Z * MQTTMessage) :=
  let* c := get_client in
  if isconnected c =? 0 then close_on_failure FAILURE msg
  else
    let* timer := command_timer in
    let* msg :=
      (if (msg_qos msg =? QOS1) || (msg_qos msg =? QOS2) then
         let* id := getNextPacketId in
         ret {| msg_qos := msg_qos msg; msg_retained := msg_retained msg; msg_dup := msg_dup msg;
                msg_id := u16 id; msg_payload := msg_payload msg; msg_payloadlen := msg_payloadlen msg |}
       else ret msg) in
    let* len := MQTTSerialize_publish (buf c) (i32 (buf_size c)) 0 (msg_qos msg) (msg_retained msg)
                  (msg_id msg) (cstring_topic topic) (msg_payload msg) (i32 (msg_payloadlen msg)) in
    if len <=? 0 then close_on_failure FAILURE msg
    else
      let* rc := sendPacket len timer in
      if negb (rc =? SUCCESS) then close_on_failure rc msg
      else
        let* rc :=
          (if msg_qos msg =? QOS1 then publish_wait PUBACK rc timer
           else if msg_qos msg =? QOS2 then publish_wait PUBCOMP rc timer
           else ret rc) in
        close_on_failure rc msg.

Definition MQTTDisconnect : MC Z :=
  let* timer := command_timer in
  let* c := get_client in
  let* len := MQTTSerialize_disconnect (buf c) (i32 (buf_size c)) in
  let* rc := (if 0 <? len then sendPacket len timer else ret FAILURE) in
  MQTTCloseSession ;;; ret rc.
End Client.
