(* ===== verification/Exchange.v ===== *)
(** * Packets the clients exchange

    The packets the clients of both languages send and receive, as calls of the
    packet functions on views: acknowledgements, PINGREQ, a packet that fills the
    send buffer, a SUBACK in the receive buffer. *)

From S2P Require Import Prelude CMem MQTTPacket MQTTPublish MQTTConnect MQTTSubscribe PacketRead.
From S2P Require Import Platform MQTTClient.

Definition ping_packet : list byte := mqtt_packet (mqtt_header PINGREQ 0 0 0) [].

(** The acknowledgement of a PUBLISH. *)
Definition publish_reply (qos id : Z) : list byte := ack_packet (if qos =? QOS1 then PUBACK else PUBREC) 0 id.

(** PUBREC and PUBREL are answered with PUBREL and PUBCOMP. *)
Definition ack_reply (type : msgTypes) (id : Z) : list byte :=
  ack_packet (if type =? PUBREC then PUBREL else PUBCOMP) 0 id.

Definition subscribe_wire (id : Z) (f : list byte) (qos : Z) : list byte := subscribe_packet 0 id [(f, qos)].

(** The acknowledgements the broker answers a PUBLISH with, [id1] and [id2]
    being the identifiers it uses. *)
Definition broker_acks (qos id1 id2 : Z) : list byte :=
  if qos =? QOS1 then ack_packet PUBACK 0 id2
  else if qos =? QOS2 then ack_packet PUBREC 0 id1 ++ ack_packet PUBCOMP 0 id2
  else [].

(** The message cycle delivers for the outputs of MQTTDeserialize_publish. *)
Definition message_of (out : publish_out) : MQTTMessage :=
  {| msg_qos := pub_qos out; msg_retained := pub_retained out; msg_dup := pub_dup out;
     msg_id := pub_packetid out; msg_payload := pub_payload out;
     msg_payloadlen := size_t (pub_payloadlen out) |}.

Lemma mqtt_packet_size h body : zlen (mqtt_packet h body) = packet_size (zlen body).
Proof. unfold mqtt_packet, packet_size. zlen_lia. Qed.

Lemma publish_body_id qos id id' name payload :
  zlen (publish_body qos id name payload) = zlen (publish_body qos id' name payload).
Proof. rewrite !publish_body_length. lia. Qed.

Lemma publish_topic_held m b o dup qos retained id topic payload out :
  bytes_at m b o (publish_packet dup qos retained id topic payload) ->
  held m b (pub_topicName (publish_result out b o dup qos retained id topic payload)) topic.
Proof.
  intros Hat. split; [done|]. split; [done|].
  rewrite <- (app_nil_r (publish_packet _ _ _ _ _ _)) in Hat.
  apply frame_at in Hat as (_ & _ & Hbody). rewrite app_nil_r in Hbody.
  apply bytes_at_app in Hbody as [[_ Htopic]%bytes_at_app _].
  eexists. by split; [cbn|exact Htopic].
Qed.

Lemma mqttstring_cstring m b p bs :
  cstring_at m p bs -> (forall b' o, p = Ptr b' o -> b' <> b) -> mqttstring_is m b (cstring_topic p) bs.
Proof.
  intros Hs Hne. right. split; [done|]. pose proof Hs as (b' & o & -> & _). exists b', o.
  split_and!; [done|by eapply Hne|done].
Qed.

Section Exchange.
Context {C U E D : Type} `{Observed E D} `{Untimed C U} `{CharSign}.
Abbreviation MC := (M (world_of C E)).
Implicit Types (v : view U D) (l : list byte).

Lemma total_pingreq_into v b o l size :
  v_mem v !! b = Some l -> 0 <= o -> 0 <= size -> o + size <= zlen l ->
  total v (MQTTSerialize_pingreq (Ptr b o) size : MC Z) (fun n w =>
    (n = zlen ping_packet /\ w = put b o ping_packet v /\ 2 <= size) \/ (n <= 0 /\ w = v /\ size < 2)).
Proof.
  intros Hb Ho Hsz Hroom. destruct (Z.lt_ge_cases size 2) as [Hlt|Hge].
  - eapply total_mono; [apply (runs_reading _ _ (-2))|].
    + intros s Hs. exists s. split; [|done]. unfold MQTTSerialize_pingreq.
      rewrite (serialize_zero_run s _ _ l) by (try congruence; lia). cbv zeta. by rewrite (proj2 (Z.ltb_lt _ _) Hlt).
    + intros n w [-> ->]. right. split_and!; [lia|done|done].
  - eapply total_mono; [eapply (runs_filling _ b o l _ 2 ping_packet Hb)|].
    + intros s Hs. unfold MQTTSerialize_pingreq.
      rewrite (serialize_zero_run s _ _ l) by (try congruence; lia). cbv zeta.
      rewrite (proj2 (Z.ltb_ge _ _) Hge). by rewrite (proj2 (Z.leb_le _ _)) by lia.
    + intros n w [-> ->]. left. by split_and!.
Qed.

Lemma total_ack_into v b o l size packettype id :
  v_mem v !! b = Some l -> 0 <= o -> 0 <= size -> o + size <= zlen l -> 0 <= id ->
  total v (MQTTSerialize_ack (Ptr b o) size packettype 0 id : MC Z) (fun n w =>
    (n = zlen (ack_packet packettype 0 id) /\ w = put b o (ack_packet packettype 0 id) v /\ 4 <= size) \/
    (n <= 0 /\ w = v /\ size < 4)).
Proof.
  intros Hb Ho Hsz Hroom Hid. destruct (Z.lt_ge_cases size 4) as [Hlt|Hge].
  - eapply total_mono; [apply (runs_reading _ _ (-2))|].
    + intros s Hs. exists s. split; [|done].
      rewrite (serialize_ack_run s _ _ l) by (try congruence; lia). cbv zeta. by rewrite (proj2 (Z.ltb_lt _ _) Hlt).
    + intros n w [-> ->]. right. split_and!; [lia|done|done].
  - eapply total_mono; [eapply (runs_filling _ b o l _ 4 (ack_packet packettype 0 id) Hb)|].
    + intros s Hs. rewrite (serialize_ack_run s _ _ l) by (try congruence; lia). cbv zeta.
      rewrite (proj2 (Z.ltb_ge _ _) Hge). by rewrite (proj2 (Z.leb_le _ _)) by lia.
    + intros n w [-> ->]. left. by split_and!.
Qed.

(** A serializer that fills a buffer of [size] bytes: the packet is stored, or
    refused when it leaves no byte to spare. *)
Lemma runs_fill v b o l size (c : MC Z) wire total :
  v_mem v !! b = Some l -> 0 <= o -> 0 <= size -> o + size <= zlen l -> total <= size -> zlen wire <= size ->
  (forall s, mem s = v_mem v -> mem s !! b = Some l -> 0 <= o <= zlen l ->
     c s = if size <? total then Done MQTTPACKET_BUFFER_TOO_SHORT s
           else if o + zlen wire <=? zlen l
                then Done (zlen wire) (set_block s b (splice l o wire)) else Fault OutOfBounds) ->
  runs v c (zlen wire) (put b o wire v).
Proof.
  intros Hl Ho Hsz Hroom Htot Hw Hc. apply (runs_filling _ _ _ l); [done|]. intros s Hs.
  rewrite Hc by (rewrite ?Hs; done || lia).
  by rewrite (proj2 (Z.ltb_ge _ _) Htot), (proj2 (Z.leb_le _ _)) by lia.
Qed.

(** One byte granted. *)
Lemma runs_read_suback v b o id q n id0 c0 :
  bytes_at (v_mem v) b o (suback_packet id [q]) -> 0 <= id < 65536 ->
  runs v (MQTTDeserialize_suback {| suback_packetid := id0; suback_count := c0; grantedQoSs := [QOS0] |}
            1 (Ptr b o) n : MC _)
    (1, {| suback_packetid := id; suback_count := 1; grantedQoSs := [to_char q] |}) v.
Proof.
  intros Hat Hid. apply runs_reading. intros s Hs. rewrite <- Hs, <- (app_nil_r (suback_packet _ _)) in Hat.
  destruct (deserialize_suback_packet s b o {| suback_packetid := id0; suback_count := c0; grantedQoSs := [QOS0] |}
    1 n id [q] [] Hat Hid ltac:(done)) as (o' & Hde & Hqs).
  eexists. rewrite Hde. change (zlen [q]) with (zlen (byte_of_Z <$> [q])).
  erewrite suback_loop_run by (exact Hqs || done || (simpl; lia)).
  cbn [grantedQoSs]. assert (splice [QOS0] 0 (granted_value <$> (byte_of_Z <$> [q])) = [to_char q]) as ->; [|done].
  cbn [fmap list_fmap]. unfold granted_value. by rewrite Z_of_byte_of_Z, to_char_mod.
Qed.
End Exchange.
