(* ===== verification/TopicMatch.v ===== *)
(** * Topic filters: isTopicMatched of MQTTClient.c

    The character loops of [isTopicMatched] are shown to compute a matcher on
    the levels of the filter and of the name, for the filters its comment
    assumes (+ and # only as whole levels, # only as the last one), which is
    then compared with the matching rules of MQTT. *)

From S2P Require Import Prelude CMem MQTTPacket Platform MQTTClient.

Definition SLASH : byte := byte_of_Z 47.
Definition PLUS : byte := byte_of_Z 43.
Definition HASH : byte := byte_of_Z 35.

(** ** Reference matchers *)

(** Levels joined by slashes. *)
Fixpoint join (ls : list (list byte)) : list byte :=
  match ls with
  | [] => []
  | [l] => l
  | l :: ls => l ++ SLASH :: join ls
  end.

(** A level of a name, and a filter in correct format. *)
Definition plain_level (l : list byte) : Prop := SLASH ∉ l.

Fixpoint filter_ok (fs : list (list byte)) : Prop :=
  match fs with
  | [] => True
  | f :: fs =>
      ((f = [HASH] /\ fs = []) \/ f = [PLUS] \/
       ((SLASH ∉ f) /\ (PLUS ∉ f) /\ (HASH ∉ f) /\ (Corelib.Init.Byte.x00 ∉ f))) /\ filter_ok fs
  end.

(** What the code matches: + stands for one level and # for the levels that are
    left, of which the first must not be empty. *)
Fixpoint level_match (fs ns : list (list byte)) : bool :=
  match fs, ns with
  | [], [] => true
  | f :: fs, n :: ns =>
      if bool_decide (f = [HASH]) then negb (bool_decide (n = []))
      else if bool_decide (f = [PLUS]) then negb (bool_decide (n = [])) && level_match fs ns
      else bool_decide (f = n) && level_match fs ns
  | _, _ => false
  end.

(** The rules of MQTT: a level may be empty, and # includes the parent level. *)
Fixpoint mqtt_match (fs ns : list (list byte)) : bool :=
  match fs, ns with
  | [], [] => true
  | f :: fs, [] => bool_decide (f = [HASH])
  | f :: fs, n :: ns =>
      if bool_decide (f = [HASH]) then true
      else (bool_decide (f = [PLUS]) || bool_decide (f = n)) && mqtt_match fs ns
  | _, _ => false
  end.

(** ** The loops on characters *)

(** What is left of a name behind the level it starts in. *)
Fixpoint drop_level (n : list byte) : list byte :=
  match n with
  | [] => []
  | x :: n' => if bool_decide (x = SLASH) then n else drop_level n'
  end.

Fixpoint char_match (f n : list byte) : bool :=
  match f, n with
  | [], [] => true
  | c :: f, x :: n =>
      if bool_decide (x = SLASH) && negb (bool_decide (c = SLASH)) then false
      else if bool_decide (c = PLUS) then char_match f (drop_level n)
      else if bool_decide (c = HASH) then char_match f []
      else bool_decide (c = x) && char_match f n
  | _, _ => false
  end.

(** What is left of the filter when the name is used up. *)
Fixpoint match_rest (f n : list byte) : option (list byte) :=
  match f, n with
  | _, [] => Some f
  | [], _ => None
  | c :: f, x :: n =>
      if bool_decide (x = SLASH) && negb (bool_decide (c = SLASH)) then None
      else if bool_decide (c = PLUS) then match_rest f (drop_level n)
      else if bool_decide (c = HASH) then match_rest f []
      else if bool_decide (c = x) then match_rest f n else None
  end.

Lemma char_match_rest f n : char_match f n = bool_decide (match_rest f n = Some []).
Proof.
  revert n. induction f as [|c f IH]; intros [|x n]; try done. cbn [char_match match_rest].
  destruct (bool_decide (x = SLASH) && negb (bool_decide (c = SLASH))); [done|].
  destruct (bool_decide (c = PLUS)); [done|]. destruct (bool_decide (c = HASH)); [done|].
  destruct (bool_decide (c = x)); [apply IH|done].
Qed.

Lemma byte_eqb_Z (x y : byte) : (Z_of_byte x =? Z_of_byte y) = bool_decide (x = y).
Proof.
  destruct (Z.eqb_spec (Z_of_byte x) (Z_of_byte y)) as [Heq|Hne].
  - rewrite bool_decide_eq_true_2; [done|].
    rewrite <- (byte_of_Z_of_byte x), Heq. apply byte_of_Z_of_byte.
  - rewrite bool_decide_eq_false_2; [done|]. by intros ->.
Qed.

Lemma byte_eqb_const (x : byte) z : 0 <= z < 256 -> (Z_of_byte x =? z) = bool_decide (x = byte_of_Z z).
Proof. intros. rewrite <- (Z_of_byte_small z) at 1 by done. apply byte_eqb_Z. Qed.

Lemma drop_level_suffix n : exists k, n = k ++ drop_level n /\ (SLASH ∉ k).
Proof.
  induction n as [|x n (k & Hk & Hnot)]; [exists []; split; [done|apply not_elem_of_nil]|].
  cbn [drop_level]. case_bool_decide; [exists []; split; [done|apply not_elem_of_nil]|].
  exists (x :: k). split; [by rewrite Hk at 1|].
  apply not_elem_of_cons. by split.
Qed.

Section Loops.
Context {W : Type}.
Implicit Types (s : state W) (b : block).

Lemma skip_level_run k s b o e x n :
  bytes_at (mem s) b o (x :: n) -> e = o + 1 + zlen n -> (length n < k)%nat ->
  skip_level k (Ptr b o) (Ptr b e) s = Done (Ptr b (e - 1 - zlen (drop_level n))) s.
Proof.
  revert k o x. induction n as [|y n IH]; intros [|k] o x Hat -> Hk; try (simpl in Hk; lia);
    cbn [skip_level padd]; rewrite (bind_done _ _ _ _ _ (plt_same _ _ _ _)).
  - rewrite Z.add_0_r, Z.ltb_irrefl. cbn [negb drop_level length]. unfold ret. do 2 f_equal. simpl. lia.
  - test_true (o + 1 <? o + 1 + zlen (y :: n)). cbn [negb].
    apply bytes_at_tail in Hat. rewrite (bind_done _ _ _ _ _ (load_at _ _ _ _ _ Hat)).
    rewrite byte_eqb_const by lia. fold SLASH. cbn [drop_level]. case_bool_decide.
    + unfold ret. do 2 f_equal. zlen_lia.
    + apply (IH k (o + 1) y); [done|zlen_lia|simpl in *; lia].
Qed.

(** The loop stops where the filter or the name is used up or a character
    differs; both are used up exactly if the character matcher agrees. *)
Lemma match_loop_run k s bf ofs bn on e f n :
  bytes_at (mem s) bf ofs (f ++ [Corelib.Init.Byte.x00]) -> Corelib.Init.Byte.x00 ∉ f ->
  bytes_at (mem s) bn on n -> e = on + zlen n -> (length n < k)%nat ->
  exists ofs' (f' n' : list byte), match_loop k (Ptr bf ofs) (Ptr bn on) (Ptr bn e) s =
      Done (Ptr bf ofs', Ptr bn (e - zlen n')) s /\
    bytes_at (mem s) bf ofs' (f' ++ [Corelib.Init.Byte.x00]) /\ (Corelib.Init.Byte.x00 ∉ f') /\
    match_rest f n = (if bool_decide (n' = []) then Some f' else None).
Proof.
  revert k ofs on n.
  induction f as [|c f IH]; intros [|k] ofs on n Hf Hnot Hn He Hk; try lia; cbn [match_loop].
  { rewrite (bind_done _ _ _ _ _ (load_at _ _ _ _ _ Hf)), (byte_eqb_const _ 0) by lia.
    rewrite bool_decide_eq_true_2 by done. cbn [negb]. run_ret. exists ofs, [], n.
    split; [unfold ret; do 3 f_equal; lia|]. split; [done|]. split; [done|]. by destruct n. }
  rewrite <- app_comm_cons in Hf. rewrite (bind_done _ _ _ _ _ (load_at _ _ _ _ _ Hf)).
  pose proof Hnot as [Hc Hnot']%not_elem_of_cons.
  rewrite (byte_eqb_const c 0), bool_decide_eq_false_2 by (lia || by intros ->). cbn [negb].
  rewrite (bind_done _ _ _ _ _ (plt_same _ _ _ _)).
  assert (Hstop : forall m, m = (if bool_decide (n = []) then Some (c :: f) else None) -> exists ofs' (f' n' : list byte),
    @ret W _ (Ptr bf ofs, Ptr bn on) s =
      Done (Ptr bf ofs', Ptr bn (e - zlen n')) s /\
    bytes_at (mem s) bf ofs' (f' ++ [Corelib.Init.Byte.x00]) /\ (Corelib.Init.Byte.x00 ∉ f') /\
    m = (if bool_decide (n' = []) then Some f' else None)).
  { intros m ->. exists ofs, (c :: f), n. split; [unfold ret; do 3 f_equal; lia|]. by split_and!. }
  destruct n as [|x n].
  { simpl in He. test_false (on <? e). cbn [negb match_rest]. by apply Hstop. }
  rewrite length_cons, Nat2Z.inj_succ in *. test_true (on <? e). cbn [negb].
  rewrite (bind_done _ _ _ _ _ (load_at _ _ _ _ _ Hn)).
  rewrite (byte_eqb_const x 47), (byte_eqb_const c 47), (byte_eqb_const c 43), (byte_eqb_const c 35),
    (byte_eqb_Z c x) by lia.
  fold SLASH PLUS HASH. cbn [match_rest]. rewrite (bool_decide_eq_false_2 (x :: n = [])) in Hstop by done.
  destruct (bool_decide (x = SLASH) && negb (bool_decide (c = SLASH))); [by apply Hstop|].
  pose proof (bytes_at_tail _ _ _ _ _ Hf) as Hf1. pose proof (bytes_at_tail _ _ _ _ _ Hn) as Hn1.
  destruct (decide (c = PLUS)) as [->|Hplus].
  { rewrite (bool_decide_eq_true_2 (PLUS = PLUS)) by done. cbn [negb andb]. rewrite bind_assoc. run_psub.
    erewrite bind_done by (eapply skip_level_run; [exact Hn|lia|lia]).
    cbn [padd]. destruct (drop_level_suffix n) as (l & Hl & _).
    pose proof (f_equal length Hl) as Hll. rewrite length_app in Hll.
    destruct (IH k (ofs + 1) (e - zlen (drop_level n)) (drop_level n)) as
      (ofs' & f' & n' & Hrun & Hrest).
    - done.
    - done.
    - rewrite Hl in Hn1. apply bytes_at_app in Hn1 as [_ Hn1]. eapply bytes_at_eq; [exact Hn1|].
      lia.
    - lia.
    - lia.
    - exists ofs', f', n'. split; [|done]. rewrite <- Hrun. do 2 f_equal. lia. }
  rewrite (bool_decide_eq_false_2 (c = PLUS)) by done. cbn [negb andb].
  destruct (decide (c = HASH)) as [->|Hhash].
  { rewrite (bool_decide_eq_true_2 (HASH = HASH)) by done. cbn [negb andb]. run_ret. cbn [padd].
    destruct (IH k (ofs + 1) e []) as (ofs' & f' & n' & Hrun & Hrest).
    - done.
    - done.
    - split; [pose proof (bytes_at_nonneg _ _ _ _ Hn); lia|]. destruct Hn as (_ & l & Hl & _).
      exists l. split; [done|]. intros i y Hi. by rewrite lookup_nil in Hi.
    - simpl. lia.
    - simpl. lia.
    - exists ofs', f', n'. split; [|done]. rewrite <- Hrun. do 2 f_equal. lia. }
  rewrite (bool_decide_eq_false_2 (c = HASH)) by done. cbn [negb andb].
  destruct (decide (c = x)) as [->|Hne].
  - rewrite (bool_decide_eq_true_2 (x = x)) by done. cbn [negb andb]. run_ret. cbn [padd].
    destruct (IH k (ofs + 1) (on + 1) n) as (ofs' & f' & n' & Hrun & Hrest); [done|done|done|lia|lia|].
    by exists ofs', f', n'.
  - rewrite (bool_decide_eq_false_2 (c = x)) by done. cbn [negb andb]. by apply Hstop.
Qed.

(** Whether the filter and the name are used up. *)
Lemma match_end_run s bf o r b e (n : list byte) :
  bytes_at (mem s) bf o (r ++ [Corelib.Init.Byte.x00]) -> Corelib.Init.Byte.x00 ∉ r ->
  (let* d := psub (Ptr b (e - zlen n)) (Ptr b e) in
   if d =? 0 then let* x := load (Ptr bf o) in ret (x =? 0) else ret false) s =
  Done (if bool_decide (n = []) then bool_decide (r = []) else false) s.
Proof.
  intros Hr Hnot. run_psub. destruct n as [|y n].
  - simpl length. match goal with |- context [?t =? 0] => test_true (t =? 0) end.
    rewrite (bool_decide_eq_true_2 ([] = [])) by done. destruct r as [|c r].
    + by rewrite (bind_done _ _ _ _ _ (load_at _ _ _ _ _ Hr)).
    + rewrite (bind_done _ _ _ _ _ (load_at _ _ _ _ _ Hr)). unfold ret.
      apply not_elem_of_cons in Hnot as [Hc _]. rewrite (byte_eqb_const c 0) by lia.
      rewrite bool_decide_eq_false_2; [done|]. by intros ->.
  - rewrite length_cons, Nat2Z.inj_succ.
    match goal with |- context [?t =? 0] => test_false (t =? 0) end. done.
Qed.

(** The whole function on a filter [f] and a name [n]. *)
Lemma isTopicMatched_run s filter topic f b on n :
  cstring_at (mem s) filter f -> data (lenstring topic) = Ptr b on -> len (lenstring topic) = zlen n ->
  bytes_at (mem s) b on n ->
  isTopicMatched filter topic s = Done (char_match f n) s.
Proof.
  intros (bf & ofs & -> & Hf & Hnot) Hd Hl Hn. unfold isTopicMatched. rewrite Hd, Hl. cbn [padd].
  destruct (match_loop_run (S (Z.to_nat (zlen n))) s bf ofs b on (on + zlen n) f n Hf Hnot Hn eq_refl
    ltac:(lia)) as (ofs' & f' & n' & Hrun & Hf' & Hnot' & Hm). rewrite char_match_rest, Hm.
  rewrite (bind_done _ _ _ _ _ Hrun), (match_end_run _ _ _ f') by done.
  case_bool_decide; [|done]. f_equal. apply bool_decide_ext. split; [by intros ->|by intros [= ->]].
Qed.
End Loops.

(** ** From characters to levels *)

Definition tail (ls : list (list byte)) : list byte :=
  match ls with [] => [] | _ => SLASH :: join ls end.

Lemma join_cons l ls : join (l :: ls) = l ++ tail ls.
Proof. destruct ls; [by rewrite app_nil_r|done]. Qed.

Lemma drop_level_app n ls : SLASH ∉ n -> drop_level (n ++ tail ls) = tail ls.
Proof.
  induction n as [|x n IH]; intros Hn; [by destruct ls|].
  apply not_elem_of_cons in Hn as [Hx Hn]. cbn [app drop_level].
  by rewrite bool_decide_eq_false_2, IH by congruence.
Qed.

(** A matcher that decides by what is left of the filter: [ok] accepts nothing
    left, and otherwise only a rest that starts with a slash. *)
Section Levels.
Variable ok : option (list byte) -> bool.
Hypothesis ok_none : ok None = false.
Hypothesis ok_empty : ok (Some []) = true.
Hypothesis ok_inside : forall c r, c <> SLASH -> ok (Some (c :: r)) = false.

Lemma rest_level p r n ls :
  SLASH ∉ p -> PLUS ∉ p -> HASH ∉ p -> SLASH ∉ n -> (r = [] \/ exists r', r = SLASH :: r') ->
  ok (match_rest (p ++ r) (n ++ tail ls)) = bool_decide (p = n) && ok (match_rest r (tail ls)).
Proof.
  intros Hs Hp Hh Hn Hr. revert n Hn. induction p as [|c p IH]; intros n Hn.
  - destruct n as [|x n]; [done|]. apply not_elem_of_cons in Hn as [Hx _]. cbn [app].
    rewrite (bool_decide_eq_false_2 ([] = x :: n)) by done.
    destruct Hr as [->|(r' & ->)]; [done|]. cbn [match_rest].
    rewrite (bool_decide_eq_false_2 (x = SLASH)), (bool_decide_eq_false_2 (SLASH = x)) by congruence. done.
  - apply not_elem_of_cons in Hs as [Hcs Hs]. apply not_elem_of_cons in Hp as [Hcp Hp].
    apply not_elem_of_cons in Hh as [Hch Hh]. cbn [app].
    destruct n as [|x n]; cbn [app].
    + rewrite (bool_decide_eq_false_2 (c :: p = [])) by done. destruct ls; [by apply ok_inside|].
      cbn [tail match_rest]. rewrite (bool_decide_eq_true_2 (SLASH = SLASH)) by done.
      by rewrite (bool_decide_eq_false_2 (c = SLASH)) by congruence.
    + apply not_elem_of_cons in Hn as [Hx Hn]. cbn [match_rest].
      rewrite (bool_decide_eq_false_2 (x = SLASH)), (bool_decide_eq_false_2 (c = PLUS)),
        (bool_decide_eq_false_2 (c = HASH)) by congruence. cbn [andb].
      destruct (decide (c = x)) as [->|].
      * rewrite (bool_decide_eq_true_2 (x = x)), IH by done. f_equal.
        apply bool_decide_ext. split; [by intros ->|by intros [=]].
      * by rewrite (bool_decide_eq_false_2 (c = x)), (bool_decide_eq_false_2 (c :: p = _)) by congruence.
Qed.

Lemma rest_wild c r n ls :
  c = PLUS \/ c = HASH -> SLASH ∉ n ->
  ok (match_rest (c :: r) (n ++ tail ls)) =
    negb (bool_decide (n = [])) && ok (match_rest r (if bool_decide (c = PLUS) then tail ls else [])).
Proof.
  intros Hc Hn. assert (c <> SLASH) by (destruct Hc as [-> | ->]; done).
  destruct n as [|x n].
  - rewrite (bool_decide_eq_true_2 ([] = [])) by done. destruct ls; [by apply ok_inside|]. cbn [app tail match_rest].
    rewrite (bool_decide_eq_true_2 (SLASH = SLASH)) by done.
    by rewrite (bool_decide_eq_false_2 (c = SLASH)) by done.
  - apply not_elem_of_cons in Hn as [Hx Hn]. cbn [app match_rest].
    rewrite (bool_decide_eq_false_2 (x = SLASH)) by congruence. cbn [andb].
    rewrite (bool_decide_eq_false_2 (x :: n = [])) by done. cbn [negb andb].
    destruct Hc as [-> | ->].
    + rewrite bool_decide_eq_true_2 by done. by rewrite drop_level_app.
    + rewrite (bool_decide_eq_false_2 (HASH = PLUS)) by done. by rewrite bool_decide_eq_true_2.
Qed.

(** [level_match] with [ok] for the levels of the filter that are left. *)
Fixpoint rest_levels (fs ns : list (list byte)) : bool :=
  match fs, ns with
  | [], [] => true
  | _ :: _, [] => ok (Some (SLASH :: join fs))
  | f :: fs, n :: ns =>
      if bool_decide (f = [HASH]) then negb (bool_decide (n = []))
      else if bool_decide (f = [PLUS]) then negb (bool_decide (n = [])) && rest_levels fs ns
      else bool_decide (f = n) && rest_levels fs ns
  | [], _ => false
  end.

Lemma rest_join fs ns :
  filter_ok fs -> Forall plain_level ns -> fs <> [] -> ns <> [] ->
  ok (match_rest (join fs) (join ns)) = rest_levels fs ns.
Proof.
  intros Hfs Hns. revert fs Hfs. induction Hns as [|n ns Hn Hns IH]; intros [|f fs] Hok Hfne Hne; try done.
  destruct Hok as [Hf Hfs].
  assert (Htail : ok (match_rest (tail fs) (tail ns)) = rest_levels fs ns).
  { destruct fs as [|f' fs], ns as [|n' ns]; [done..|]. unfold tail. cbn [match_rest].
    rewrite (bool_decide_eq_true_2 (SLASH = SLASH)) by done. cbn [negb andb].
    by apply IH. }
  assert (Htailr : tail fs = [] \/ exists r', tail fs = SLASH :: r') by (destruct fs; eauto).
  rewrite !join_cons. cbn [rest_levels].
  destruct Hf as [[-> ->]|[->|(H1 & H2 & H3 & H4)]].
  - rewrite bool_decide_eq_true_2 by done. cbn [app tail].
    rewrite rest_wild by (done || by right). rewrite (bool_decide_eq_false_2 (HASH = PLUS)) by done.
    cbn [match_rest]. by rewrite ok_empty, andb_true_r.
  - rewrite (bool_decide_eq_false_2 ([PLUS] = [HASH])), (bool_decide_eq_true_2 ([PLUS] = [PLUS])) by done.
    cbn [app]. rewrite rest_wild by (done || by left).
    by rewrite (bool_decide_eq_true_2 (PLUS = PLUS)), Htail by done.
  - rewrite rest_level, Htail by done.
    rewrite (bool_decide_eq_false_2 (f = [HASH])), (bool_decide_eq_false_2 (f = [PLUS])); [done| |].
    + intros ->. apply H2. by left.
    + intros ->. apply H3. by left.
Qed.
End Levels.

Lemma char_match_join fs ns :
  filter_ok fs -> Forall plain_level ns -> fs <> [] -> ns <> [] ->
  char_match (join fs) (join ns) = level_match fs ns.
Proof.
  intros Hfs Hns Hf Hn. rewrite char_match_rest.
  change (bool_decide _) with ((fun r => bool_decide (r = Some [])) (match_rest (join fs) (join ns))).
  rewrite rest_join by done. clear.
  revert ns. induction fs as [|f fs IH]; intros [|n ns]; try done.
Qed.

Lemma join_no_nul fs : filter_ok fs -> Corelib.Init.Byte.x00 ∉ join fs.
Proof.
  induction fs as [|f fs IH]; [intros _; apply not_elem_of_nil|]. intros [Hf Hfs]. rewrite join_cons.
  apply not_elem_of_app. split.
  - destruct Hf as [[-> _]|[->|(_ & _ & _ & ?)]]; [..|done];
      (apply not_elem_of_cons; split; [done|apply not_elem_of_nil]).
  - destruct fs; [apply not_elem_of_nil|]. apply not_elem_of_cons. split; [done|by apply IH].
Qed.



(** ** Properties *)

Section TopicProperties.
Context {W : Type}.
Implicit Types (s : state W) (b : block).

(** On filters in the format its comment assumes, isTopicMatched terminates,
    reads nothing outside the two strings and decides level by level: a plain
    level matches itself, + one non-empty level, a final # what is left of the
    name if that does not start with an empty level. *)
Theorem topic_match_spec s filter topic fs b on ns :
  filter_ok fs -> fs <> [] -> Forall plain_level ns -> ns <> [] ->
  cstring_at (mem s) filter (join fs) ->
  data (lenstring topic) = Ptr b on -> len (lenstring topic) = zlen (join ns) ->
  bytes_at (mem s) b on (join ns) ->
  isTopicMatched filter topic s = Done (level_match fs ns) s.
Proof.
  intros Hok Hfs Hplain Hns Hf Hd Hl Hn.
  rewrite (isTopicMatched_run s filter topic (join fs) b on (join ns)) by done.
  by rewrite char_match_join.
Qed.


(** A filter ending in /# is not matched by its own parent level, which the
    rules of MQTT include. *)
Theorem topic_match_parent s filter topic b on ns :
  filter_ok (ns ++ [[HASH]]) -> Forall plain_level ns -> ns <> [] ->
  Forall (fun n => n <> [HASH] /\ n <> [PLUS]) ns ->
  cstring_at (mem s) filter (join (ns ++ [[HASH]])) ->
  data (lenstring topic) = Ptr b on -> len (lenstring topic) = zlen (join ns) ->
  bytes_at (mem s) b on (join ns) ->
  isTopicMatched filter topic s = Done false s /\ mqtt_match (ns ++ [[HASH]]) ns = true.
Proof.
  intros Hok Hplain Hns Hwild Hf Hd Hl Hn.
  rewrite (isTopicMatched_run s filter topic (join (ns ++ [[HASH]])) b on (join ns)) by done.
  rewrite char_match_join; [|done..|by destruct ns|done]. split.
  - f_equal. clear -Hwild. induction Hwild as [|n ns [Hh Hp] _ IH]; [done|]. cbn [app level_match].
    rewrite (bool_decide_eq_false_2 (n = [HASH])), (bool_decide_eq_false_2 (n = [PLUS])) by done.
    by rewrite IH, andb_false_r.
  - clear -Hwild. induction Hwild as [|n ns [Hh Hp] _ IH]; [done|]. cbn [app mqtt_match].
    rewrite (bool_decide_eq_false_2 (n = [HASH])), (bool_decide_eq_true_2 (n = n)) by done.
    by rewrite orb_true_r.
Qed.
End TopicProperties.

(** ** Witnesses *)

Section TopicWitnesses.
(* block 1: the filter "a/+/#", 2: the name "a/b/c/d", 3: the filter "a/#", 4: the name "a" *)
Definition ex_topics : state unit :=
  state_of [bytes [97; 47; 43; 47; 35; 0]; bytes [97; 47; 98; 47; 99; 47; 100];
            bytes [97; 47; 35; 0]; bytes [97]].
Definition ex_filter : list (list byte) := [bytes [97]; [PLUS]; [HASH]].
Definition ex_name : list (list byte) := [bytes [97]; bytes [98]; bytes [99]; bytes [100]].
(* "+/b" against "/b", "#" against "/b": the first level of the name is empty *)
Definition ex_empty_topics : state unit :=
  state_of [bytes [43; 47; 98; 0]; bytes [35; 0]; bytes [47; 98]].
Definition ex_topic_of (b : block) (n : Z) : MQTTString :=
  {| cstring := NULL; lenstring := {| len := n; data := Ptr b 0 |} |}.

Ltac not_in := intros Hin; apply list_elem_of_In in Hin; vm_compute in Hin; intuition discriminate.
Ltac filter_is_ok :=
  repeat split; first [by left | by (right; left) | right; right; repeat split; not_in | done].

Lemma ex_filter_ok : filter_ok ex_filter.
Proof. filter_is_ok. Qed.

Lemma ex_plain : Forall plain_level ex_name.
Proof. repeat constructor; not_in. Qed.

Lemma ex_filter_at : cstring_at (mem ex_topics) (Ptr 1 0) (join ex_filter).
Proof. exists 1%positive, 0. split_and!; [done|bytes_at_concrete|not_in]. Qed.

Lemma topic_match_empty_level :
  isTopicMatched (Ptr 1 0) (ex_topic_of 3 2) ex_empty_topics = Done false ex_empty_topics /\
  mqtt_match [[PLUS]; bytes [98]] [[]; bytes [98]] = true /\
  isTopicMatched (Ptr 2 0) (ex_topic_of 3 2) ex_empty_topics = Done false ex_empty_topics /\
  mqtt_match [[HASH]] [[]; bytes [98]] = true.
Proof. split_and!; vm_compute; reflexivity. Qed.

Lemma topic_match_spec_witness :
  isTopicMatched (Ptr 1 0) (ex_topic_of 2 7) ex_topics = Done (level_match ex_filter ex_name) ex_topics /\
  level_match ex_filter ex_name = true.
Proof.
  split; [|reflexivity].
  apply (topic_match_spec ex_topics (Ptr 1 0) (ex_topic_of 2 7) ex_filter 2 0 ex_name); try done.
  - apply ex_filter_ok.
  - apply ex_plain.
  - apply ex_filter_at.
  - bytes_at_concrete.
Defined.


Lemma topic_match_parent_witness :
  isTopicMatched (Ptr 3 0) (ex_topic_of 4 1) ex_topics = Done false ex_topics /\
  mqtt_match [bytes [97]; [HASH]] [bytes [97]] = true.
Proof.
  apply (topic_match_parent ex_topics (Ptr 3 0) (ex_topic_of 4 1) 4 0 [bytes [97]]); try done.
  - filter_is_ok.
  - repeat constructor; not_in.
  - repeat constructor; done.
  - exists 3%positive, 0. split_and!; [done|bytes_at_concrete|not_in].
  - bytes_at_concrete.
Defined.
End TopicWitnesses.
