(* ===== verification/ClientLogic.v ===== *)
(** * Sending and receiving in the C client

    The views of the client of MQTTClient.c, and the behaviour of sendPacket and
    readPacket on them. *)

From S2P Require Import Prelude CMem MQTTPacket MQTTPublish MQTTConnect MQTTSubscribe PacketRead.
From S2P Require Import Platform MQTTClient.

(** ** Views *)

(** The client without its timers. *)
#[export] Instance untimed_client {T} : Untimed (MQTTClient T) (MQTTClient unit) := fun c =>
  Client (next_packetid c) (command_timeout_ms c) (buf_size c) (readbuf_size c) (buf c) (readbuf c)
    (c_keepAliveInterval c) (ping_outstanding c) (isconnected c) (c_cleansession c)
    (messageHandlers c) (defaultMessageHandler c) tt tt.

Abbreviation view := (Platform.view (MQTTClient unit) MessageData).
Abbreviation plain_env := (bench MessageData).

(** A member of a client with the given view. *)
Lemma untimed_members {T} (c : MQTTClient T) c0 :
  untimed c = c0 ->
  next_packetid c = next_packetid c0 /\ command_timeout_ms c = command_timeout_ms c0 /\
  buf_size c = buf_size c0 /\ readbuf_size c = readbuf_size c0 /\ buf c = buf c0 /\
  readbuf c = readbuf c0 /\ c_keepAliveInterval c = c_keepAliveInterval c0 /\
  ping_outstanding c = ping_outstanding c0 /\ isconnected c = isconnected c0 /\
  c_cleansession c = c_cleansession c0 /\ messageHandlers c = messageHandlers c0 /\
  defaultMessageHandler c = defaultMessageHandler c0.
Proof. by intros <-. Qed.

(** ** Sending and receiving *)

Section Transfer.
Context {E Timer : Type} `{PS : PlatformSpec (MQTTClient Timer) E Timer MessageData} `{CharSign}.
Abbreviation MC := (M (cworld E Timer)).
Implicit Types (v : view).

(** With a network that sends all or nothing, so does sendPacket. *)
Lemma total_sendPacket `{!WholeWrites (MQTTClient Timer) E Timer MessageData} v fuel b o pkt timer :
  buf (v_client v) = Ptr b o -> bytes_at (v_mem v) b o pkt -> pkt <> [] -> (2 <= fuel)%nat ->
  zlen pkt <= INT_MAX ->
  total v (sendPacket fuel (zlen pkt) timer) (fun rc w =>
    (rc = SUCCESS /\ w = send v pkt) \/ (rc = FAILURE /\ w = v /\ ~ Responsive (MQTTClient Timer) E Timer MessageData)).
Proof.
  unfold INT_MAX. intros Hbuf Hat Hne Hfuel Hmax.
  assert (Hpos : 0 < zlen pkt) by (destruct pkt; [done|simpl; lia]).
  unfold sendPacket. destruct fuel as [|[|n]]; [lia..|]. remember (S n) as fuel' eqn:Hfuel'.
  cbn [send_loop]. test_true (0 <? zlen pkt).
  tstep total_TimerIsExpired. intros e ? [-> He]. tret. destruct e; cbn [negb].
  { tret. test_false (0 =? zlen pkt). apply total_ret. right. auto. }
  clear He. tget c Hc. apply untimed_members in Hc as (_ & _ & _ & _ & Hcb & _). rewrite Hcb, Hbuf.
  tstep total_TimerLeftMS. intros timeout ? ->. unfold net_write. cbn [padd]. rewrite Z.add_0_r.
  rstep runs_load_packet; [done..|]. tstep total_write_whole; [done|].
  intros rc w [[-> ->]|(Hneg & -> & HR)].
  - test_false (zlen pkt <? 0). rewrite Z.add_0_l. unfold int. rewrite in_int_true by (unfold INT_MIN, INT_MAX; lia).
    tret. subst fuel'. cbn [send_loop]. test_false (zlen pkt <? zlen pkt). tret. tret.
    rewrite Z.eqb_refl. tget c' Hc'. tstep total_TimerCountdown. intros t ? ->.
    rstep runs_set_timer; [done|]. apply total_ret. auto.
  - test_true (rc <? 0). tret. test_false (0 =? zlen pkt). apply total_ret. right. auto.
Qed.

Lemma decodePacket_loop_eq n i mult len value timeout (s : state (cworld E Timer)) :
  decodePacket_loop n i mult len value timeout s =
  decode_loop n (fun k => mqttread k timeout) i mult len value s.
Proof.
  revert i mult len value s. induction n as [|n IH]; intros; [done|]. cbn [decodePacket_loop decode_loop].
  case_test; [done|]. unfold bind. destruct (mqttread _ _ _) as [[rc bs] s1|]; [|done].
  destruct (recv_char _ _ _) as [c s2|]; [|done]. destruct (negb (rc =? 1)); [done|].
  destruct (use _ _); [|done]. destruct (int _ _); [|done]. destruct (int _ _); [|done].
  destruct (negb _); [apply IH|done].
Qed.

Lemma total_decodePacket v timeout :
  total v (decodePacket timeout) (fun r v' =>
    0 <= r.2 <= REMLEN_MAX /\ exists tl, v' = set_v_in v tl).
Proof. intros s Hs. unfold decodePacket. rewrite decodePacket_loop_eq. by apply total_decode_loop. Qed.

Lemma runs_decodePacket `{!Responsive (MQTTClient Timer) E Timer MessageData} v timeout lb body tl :
  v_in v = lb ++ tl -> length_field lb body ->
  runs v (decodePacket timeout) (zlen lb, zlen body) (set_v_in v tl).
Proof.
  intros Hin Hlb s Hs. unfold decodePacket. rewrite decodePacket_loop_eq. by eapply runs_decode_loop.
Qed.

(** What readPacket does once it has the header byte [h] and the remaining
    length [n]; [bs] is what it finds of the body. *)
Definition rest_outcome v m0 b l o h n (size rc : Z) (v' : view) : Prop :=
  exists bs tl, v_in v = bs ++ tl /\ zlen bs <= n /\
    v' = View (<[b := splice l o (h :: remlen_bytes n ++ bs)]> m0) (v_client v) tl (v_out v) (v_delivered v) /\
    (rc = BUFFER_OVERFLOW /\ size < packet_size n /\ bs = [] \/
     rc = 0 /\ packet_size n <= size \/
     rc = header_type (Z_of_byte h) /\ zlen bs = n /\ packet_size n <= size) /\
    (Responsive (MQTTClient Timer) E Timer MessageData -> n <= zlen (v_in v) -> packet_size n <= size ->
     rc = header_type (Z_of_byte h) /\ zlen bs = n).

Lemma total_readPacket_rest v c timer m0 b l o h n :
  readbuf c = Ptr b o -> 0 <= o -> o + readbuf_size c <= zlen l -> 5 <= readbuf_size c <= INT_MAX ->
  received v m0 b l o [h] -> 0 <= n <= REMLEN_MAX ->
  total v (readPacket_rest c timer n) (rest_outcome v m0 b l o h n (readbuf_size c)).
Proof.
  unfold INT_MAX, readPacket_rest, rest_outcome, packet_size. intros Hbuf Ho Hroom Hsize Hw Hn. rewrite Hbuf. cbn [padd].
  pose proof (remlen_bytes_short n Hn) as Hrb. set (rb := remlen_bytes n) in *.
  change (o + 1) with (o + zlen [h]). unfold REMLEN_MAX in Hn.
  rstep runs_encode; [exact Hw|done|done|fold rb; zlen_lia|]. fold rb.
  unfold int at 1. rewrite in_int_true by (unfold INT_MIN, INT_MAX; lia). tret.
  unfold size_t, u32. rewrite !Z.mod_small by lia.
  destruct (Z.ltb_spec (readbuf_size c - (1 + zlen rb)) n) as [Hbig|Hfits].
  { apply total_ret. exists [], (v_in v). fold rb. rewrite app_nil_r.
    split_and!; [done|simpl; lia|done|left; split_and!; [done|lia|done]|intros; lia]. }
  tassoc. eapply (total_step _ _ _ (fun short v' => exists bs tl, v_in v = bs ++ tl /\ zlen bs <= n /\
    v' = View (<[b := splice l o (h :: rb ++ bs)]> m0) (v_client v) tl (v_out v) (v_delivered v) /\
    (short = false -> zlen bs = n) /\ (Responsive (MQTTClient Timer) E Timer MessageData -> n <= zlen (v_in v) -> short = false))).
  - destruct (Z.ltb_spec 0 n).
    + tstep total_TimerLeftMS. intros ? ? ->. cbn [padd].
      replace (o + (1 + zlen rb)) with (o + zlen ([h] ++ rb)) by zlen_lia.
      tstep total_net_read; [done|done|done|zlen_lia|].
      intros rc ? (bs & tl & Hin & Hbs & _ & Hfull & -> & HR). apply total_ret. exists bs, tl.
      split_and!; [done|done|done| |].
      * intros Hrc. apply Hfull. by destruct (Z.eqb_spec rc n).
      * intros HR' Hlen. rewrite (HR HR' Hlen), Z.eqb_refl. done.
    + apply total_ret. exists [], (v_in v). rewrite app_nil_r. split_and!; try done; simpl; lia.
  - intros short ? (bs & tl & Hin & Hbs & -> & Hfull & HR). fold rb. destruct short.
    { apply total_ret. exists bs, tl. fold rb. split_and!; [done..|right; left; lia|].
      intros HR' Hlen. by specialize (HR HR' Hlen). }
    rstep runs_load_header; [done|done|zlen_lia|].
    apply (total_mono _ _ (fun rc w => rc = header_type (Z_of_byte h) /\ w = View
      (<[b:=splice l o (h :: rb ++ bs)]> m0) (v_client v) tl (v_out v) (v_delivered v))).
    + destruct (0 <? c_keepAliveInterval c).
      * tstep total_TimerCountdown. intros t' ? ->. rstep runs_set_timer; [done|]. by apply total_ret.
      * tret. by apply total_ret.
    + intros rc w [-> ->]. exists bs, tl. fold rb. specialize (Hfull eq_refl).
      split_and!; [done..|right; right; split_and!; [done|done|lia]|done].
Qed.

(** Whatever comes from the network. *)
Lemma total_readPacket v timer b o l :
  readbuf (v_client v) = Ptr b o -> v_mem v !! b = Some l -> 0 <= o ->
  o + readbuf_size (v_client v) <= zlen l -> 5 <= readbuf_size (v_client v) <= INT_MAX ->
  total v (readPacket timer) (fun rc v' => exists w tl,
    v' = View (<[b := splice l o w]> (v_mem v)) (v_client v) tl (v_out v) (v_delivered v) /\
    zlen w <= readbuf_size (v_client v) /\
    (rc <= 0 \/ exists h body, rc = header_type (Z_of_byte h) /\ zlen body <= REMLEN_MAX /\
       w = h :: remlen_bytes (zlen body) ++ body)).
Proof.
  intros Hbuf Hb Ho Hroom Hsize.
  unfold readPacket. tget c Hc. apply untimed_members in Hc as (_ & _ & _ & Hsz & _ & Hrd & _).
  rewrite Hrd, Hbuf. tstep total_TimerLeftMS. intros ? ? ->.
  tstep total_read_header; [done|exact Hb|done|lia|].
  intros rc ? (bs & tl & Hin & Hrc & -> & Hone & Hbs & _). destruct (Z.eqb_spec rc 1) as [Hrc1|]; cbn [negb].
  2: { apply total_ret. exists bs, tl. split_and!; [done|lia|left; lia]. }
  destruct (Hone Hrc1) as [h ->]. tstep total_TimerLeftMS. intros ? ? ->.
  tstep total_decodePacket. intros [n' n] ? (Hn & tl' & ->). cbn [fst snd] in *.
  eapply total_mono; [eapply total_readPacket_rest with (b := b) (o := o); [congruence|done|by rewrite Hsz|
    by rewrite Hsz|done|done]|].
  intros rc' ? (bs & tl2 & _ & Hbs2 & -> & Hcase & _). rewrite Hsz in Hcase. do 2 eexists.
  split; [done|]. unfold packet_size, BUFFER_OVERFLOW in *. pose proof (remlen_bytes_short n Hn).
  unfold REMLEN_MAX in *.
  destruct Hcase as [(-> & Hlt & ->)|[(-> & Hle)|(-> & <- & Hle)]].
  - split; [|left; lia]. rewrite app_nil_r. zlen_lia.
  - split; [zlen_lia|left; lia].
  - split; [zlen_lia|]. right. exists h, bs. split_and!; [done|lia|done].
Qed.

(** A complete packet that fits. *)
Lemma runs_readPacket `{!Responsive (MQTTClient Timer) E Timer MessageData} v timer b o l h lb body tl :
  readbuf (v_client v) = Ptr b o -> v_mem v !! b = Some l -> 0 <= o ->
  o + readbuf_size (v_client v) <= zlen l -> 5 <= readbuf_size (v_client v) <= INT_MAX ->
  v_in v = h :: lb ++ body ++ tl -> length_field lb body ->
  packet_size (zlen body) <= readbuf_size (v_client v) ->
  runs v (readPacket timer) (header_type (Z_of_byte h))
    (View (<[b := splice l o (mqtt_packet (Z_of_byte h) body)]> (v_mem v)) (v_client v) tl (v_out v)
       (v_delivered v)).
Proof.
  intros Hbuf Hb Ho Hroom Hsize Hin Hlf Hfits. pose proof (length_field_max _ _ Hlf) as Hbody.
  unfold readPacket. tget c Hc. apply untimed_members in Hc as (_ & _ & _ & Hsz & _ & Hrd & _).
  rewrite Hrd, Hbuf. tstep total_TimerLeftMS. intros ? ? ->.
  tstep total_read_header; [done|exact Hb|done|lia|].
  intros rc ? (bs & tl1 & Hin1 & _ & -> & Hone & _ & HR). rewrite Hin in *.
  rewrite (HR _ ltac:(done)) in *. destruct (Hone eq_refl) as [h' ->]. injection Hin1 as <- <-.
  cbn [negb Z.eqb Pos.eqb]. tstep total_TimerLeftMS. intros ? ? ->.
  rstep runs_decodePacket; [done|exact Hlf|].
  eapply total_mono; [eapply total_readPacket_rest with (b := b) (o := o); [congruence|done|by rewrite Hsz|
    by rewrite Hsz|done|lia]|].
  intros rc' ? (bs & tl2 & Hin2 & Hbs2 & -> & _ & HR2). cbn in Hin2. rewrite Hsz in HR2.
  destruct (HR2 _ ltac:(cbn; zlen_lia) Hfits) as [-> Hlen]. split; [done|].
  apply app_inj_1 in Hin2 as [-> ->]; [|lia]. unfold mqtt_packet. by rewrite byte_of_Z_of_byte.
Qed.
End Transfer.
