(* ===== verification/Handlers.v ===== *)
(** * The message handlers of the client

    The table of handlers as a list of slots (a filter or none, a handler or
    none): deliverMessage calls the handlers whose filter matches, in the order
    of the table, and MQTTSetMessageHandler updates the table like an
    association list of bounded size. *)

From S2P Require Import Prelude CMem MQTTPacket Platform MQTTClient TopicMatch ClientLogic.

(** ** The table *)

(** The filter and the handler of a slot. *)
Abbreviation slot := (option (list byte) * messageHandler)%type.

Definition slot_is (m : gmap block (list byte)) (h : MessageHandlers) (x : slot) : Prop :=
  fp h = x.2 /\
  match x.1 with
  | None => topicFilter h = NULL
  | Some f => cstring_at m (topicFilter h) f /\ zlen f <= INT_MAX
  end.

Definition table_is (m : gmap block (list byte)) (hs : list MessageHandlers) (t : list slot) : Prop :=
  Forall2 (slot_is m) hs t /\ zlen t = MAX_MESSAGE_HANDLERS.

(** A filter accepts a name: it is the name, or matches it. *)
Definition accepts (f n : list byte) : bool := bool_decide (n = f) || char_match f n.

(** The handlers a message with topic name [n] goes to, when [acc] decides
    which filters accept it. *)
Definition matching_by (acc : list byte -> list byte -> bool) (n : list byte) (t : list slot) : list positive :=
  omap (fun x : slot => match x with
                        | (Some f, Some k) => if acc f n then Some k else None
                        | _ => None
                        end) t.

Definition receivers_by acc (n : list byte) (t : list slot) (default : messageHandler) : list positive :=
  match matching_by acc n t with
  | [] => option_list default
  | ks => ks
  end.

Abbreviation matching := (matching_by accepts).
Abbreviation receivers := (receivers_by accepts).

(** The update MQTTSetMessageHandler makes: its return code and the new table.
    A handler replaces the slot of the same filter or takes the first free one,
    no handler removes the slot. *)
Definition set_table (f : list byte) (h : messageHandler) (t : list slot) : Z * list slot :=
  match list_find (fun x : slot => x.1 = Some f) t, h with
  | Some (i, _), Some _ => (SUCCESS, <[i := (Some f, h)]> t)
  | Some (i, _), None => (SUCCESS, <[i := (None, None)]> t)
  | None, None => (FAILURE, t)
  | None, Some _ =>
      match list_find (fun x : slot => x.1 = None) t with
      | Some (i, _) => (SUCCESS, <[i := (Some f, h)]> t)
      | None => (FAILURE, t)
      end
  end.

(** No filter has two slots. *)
Definition distinct_filters (t : list slot) : Prop :=
  forall i j f, fst <$> t !! i = Some (Some f) -> fst <$> t !! j = Some (Some f) -> i = j.

Section Deliveries.
Context {U D : Type}.
Implicit Types (v : Platform.view U D).

Lemma deliver_nil v : deliver v [] = v.
Proof. destruct v. unfold deliver. cbn. by rewrite app_nil_r. Qed.

Lemma deliver_app v d d' : deliver (deliver v d) d' = deliver v (d ++ d').
Proof. unfold deliver. cbn. by rewrite app_assoc. Qed.
End Deliveries.

(** The tests on a slot the clients make. *)
Section SlotTests.
Context {C U E D : Type} `{Observed E D} `{Untimed C U} `{CharSign}.
Abbreviation MC := (M (world_of C E)).
Implicit Types (v : Platform.view U D).

Lemma runs_arr_get {A} v (l : list A) (i : nat) x :
  l !! i = Some x -> runs v (arr_get l (Z.of_nat i) : MC _) x v.
Proof. intros Hi. apply runs_reading. intros s _. exists s. split; [by apply arr_get_done|done]. Qed.

(** The condition of deliverMessage's loop, for a function that matches topics
    as [acc] does. *)
Lemma runs_matched (isMatched : ptr -> MQTTString -> MC bool) acc v b topic n h x :
  (forall s f o, cstring_at (mem s) (topicFilter h) f -> data (lenstring topic) = Ptr b o ->
     len (lenstring topic) = zlen n -> bytes_at (mem s) b o n ->
     isMatched (topicFilter h) topic s = Done (acc f n) s) ->
  held (v_mem v) b topic n -> zlen n <= INT_MAX -> slot_is (v_mem v) h x ->
  runs v (if negb (is_null (topicFilter h)) then
            let* eq := MQTTPacket_equals topic (topicFilter h) in
            if eq : bool then ret true else isMatched (topicFilter h) topic
          else ret false : MC bool)
    (match x.1 with Some f => bool_decide (n = f) || acc f n | None => false end) v.
Proof.
  intros Hacc (Hc & Hl & o & Hd & Hat) Hmax [_ Hx]. destruct x as [[f|] k]; cbn [fst snd] in *.
  2: { rewrite Hx. by apply total_ret. }
  destruct Hx as [Hf Hfmax]. replace (is_null (topicFilter h)) with false
    by (by destruct Hf as (? & ? & -> & _)). cbn [negb].
  rstep (runs_reading _ _ (bool_decide (n = f))).
  { intros s Hs. exists s. split; [|done]. rewrite <- Hs in *. eapply equals_run; try done.
    left. split_and!; [done|done|]. right. by exists b, o. }
  case_bool_decide; cbn [orb]; [by apply total_ret|].
  apply runs_reading. intros s Hs. exists s. split; [|done]. rewrite <- Hs in *. by eapply Hacc.
Qed.
End SlotTests.

Section Deliver.
Context {E Timer : Type} `{PS : PlatformSpec (MQTTClient Timer) E Timer MessageData} `{CharSign}.
Abbreviation MC := (M (cworld E Timer)).
Implicit Types (v : view).

Definition to_receivers (topic : MQTTString) (msg : MQTTMessage) (ks : list positive) :
    list (positive * MessageData) := (fun k => (k, NewMessageData topic msg)) <$> ks.

Lemma runs_deliver_loop v b topic n msg pre hs t rc :
  held (v_mem v) b topic n -> zlen n <= INT_MAX -> messageHandlers (v_client v) = pre ++ hs ->
  Forall2 (slot_is (v_mem v)) hs t ->
  runs v (deliver_loop (length hs) (zlen pre) rc topic msg)
    (match matching n t with [] => rc | _ => SUCCESS end)
    (deliver v (to_receivers topic msg (matching n t))).
Proof.
  intros Hheld Hmax Hhs Ht. revert v pre rc Hheld Hhs Ht. revert t.
  induction hs as [|h hs IH]; intros t v pre rc Hheld Hhs Ht.
  { inversion Ht; subst. cbn. rewrite deliver_nil. by apply total_ret. }
  inversion Ht as [|? x ? t' Hx Ht']; subst. cbn [length deliver_loop].
  tget c Hc. apply untimed_members in Hc as (_ & _ & _ & _ & _ & _ & _ & _ & _ & _ & -> & _).
  rewrite Hhs. rstep (runs_arr_get _ _ _ h); [by apply list_lookup_middle|].
  rstep (runs_matched isTopicMatched char_match); [intros; by eapply isTopicMatched_run|done..|].
  change (match x.1 with Some f => _ | None => false end) with (match x.1 with Some f => accepts f n | None => false end).
  assert (Hnext : forall d rc', matching n (x :: t') = d ++ matching n t' ->
    (match d with [] => rc' = rc | _ => rc' = SUCCESS end) ->
    runs (deliver v (to_receivers topic msg d)) (deliver_loop (length hs) (zlen pre + 1) rc' topic msg)
      (match matching n (x :: t') with [] => rc | _ => SUCCESS end)
      (deliver v (to_receivers topic msg (matching n (x :: t'))))).
  { intros d rc' -> Hd. unfold to_receivers. rewrite fmap_app, <- deliver_app.
    replace (zlen pre + 1) with (zlen (pre ++ [h])) by zlen_lia.
    eapply total_mono; [apply (IH t' (deliver v _) (pre ++ [h]) rc')|].
    - done.
    - rewrite <- app_assoc. exact Hhs.
    - done.
    - intros r w [-> ->]. split; [|done]. destruct d; cbn; [subst|]; destruct (matching n t'); try done; by subst. }
  destruct x as [[f|] [k|]]; cbn [fst snd] in *; destruct Hx as [Hfp Hx]; cbn [fst snd] in *; rewrite ?Hfp.
  - destruct (accepts f n) eqn:Hacc.
    + tassoc. rstep runs_call_handler. tret. apply (Hnext [k] SUCCESS); [|done]. cbn. by rewrite Hacc.
    + tret. rewrite <- (deliver_nil v) at 1. apply (Hnext []); [|done]. cbn. by rewrite Hacc.
  - rewrite <- (deliver_nil v) at 1. destruct (accepts f n); tret; by apply (Hnext []).
  - tret. rewrite <- (deliver_nil v) at 1. by apply (Hnext []).
  - tret. rewrite <- (deliver_nil v) at 1. by apply (Hnext []).
Qed.

Lemma table_length m hs t : table_is m hs t -> length hs = 5%nat /\ length t = 5%nat.
Proof. intros [Ht Hlen]. apply Forall2_length in Ht. unfold MAX_MESSAGE_HANDLERS in Hlen. lia. Qed.

Lemma runs_deliverMessage v b topic n msg t :
  held (v_mem v) b topic n -> zlen n <= INT_MAX -> table_is (v_mem v) (messageHandlers (v_client v)) t ->
  let ks := receivers n t (defaultMessageHandler (v_client v)) in
  runs v (deliverMessage topic msg) (match ks with [] => FAILURE | _ => SUCCESS end)
    (deliver v (to_receivers topic msg ks)).
Proof.
  intros Hheld Hmax Htab. pose proof (table_length _ _ _ Htab) as [Hlen _]. destruct Htab as [Ht _].
  cbv zeta. unfold deliverMessage. change (Z.to_nat MAX_MESSAGE_HANDLERS) with 5%nat. rewrite <- Hlen.
  rstep (runs_deliver_loop v b topic n msg [] (messageHandlers (v_client v)) t); [done..|].
  tget c Hc. apply untimed_members in Hc as (_ & _ & _ & _ & _ & _ & _ & _ & _ & _ & _ & ->).
  cbn [deliver v_client]. unfold receivers.
  destruct (matching n t) as [|k ks], (defaultMessageHandler (v_client v)) as [f|];
    cbn [Z.eqb SUCCESS FAILURE Pos.eqb option_list]; try by apply total_ret.
  rstep runs_call_handler. rewrite deliver_app. by apply total_ret.
Qed.
End Deliver.

(** ** The table's updates *)

Lemma compare_loop_cstrings {W} (s : state W) b o b' o' xs ys k :
  bytes_at (mem s) b o (xs ++ [Corelib.Init.Byte.x00]) -> (Corelib.Init.Byte.x00 ∉ xs) ->
  bytes_at (mem s) b' o' (ys ++ [Corelib.Init.Byte.x00]) -> (Corelib.Init.Byte.x00 ∉ ys) ->
  (length xs < k)%nat ->
  exists r, compare_loop true k (Ptr b o) (Ptr b' o') s = Done r s /\ (r = 0 <-> xs = ys).
Proof.
  revert o o' ys k. induction xs as [|x xs IH]; intros o o' ys [|k] Hx Hnx Hy Hny Hk;
    [lia| |lia|]; cbn [compare_loop app] in *; rewrite (bind_done _ _ _ _ _ (load_at _ _ _ _ _ Hx)).
  - destruct ys as [|y ys]; cbn [app] in Hy; rewrite (bind_done _ _ _ _ _ (load_at _ _ _ _ _ Hy)).
    { by exists 0. }
    assert (Z_of_byte y <> 0) as Hy0.
    { intros Hz. apply Hny. rewrite <- (byte_of_Z_of_byte y), Hz. constructor. }
    change (Z_of_byte Corelib.Init.Byte.x00) with 0. rewrite (proj2 (Z.eqb_neq _ _)) by lia. cbn [negb].
    eexists. split; [done|]. split; [lia|done].
  - assert (Z_of_byte x <> 0) as Hx0.
    { intros Hz. apply Hnx. rewrite <- (byte_of_Z_of_byte x), Hz. constructor. }
    destruct ys as [|y ys]; cbn [app] in Hy; rewrite (bind_done _ _ _ _ _ (load_at _ _ _ _ _ Hy)).
    { change (Z_of_byte Corelib.Init.Byte.x00) with 0. rewrite (proj2 (Z.eqb_neq _ _)) by lia. cbn [negb].
      eexists. split; [done|]. split; [lia|done]. }
    rewrite byte_eqb_Z. case_bool_decide as Hxy; cbn [negb].
    + subst y. rewrite (proj2 (Z.eqb_neq _ _) Hx0). cbn [andb].
      destruct (IH (o + 1) (o' + 1) ys k) as (r & Hr & Hiff);
        [by eapply bytes_at_tail|set_solver|by eapply bytes_at_tail|set_solver|zlen_lia|].
      exists r. split; [done|]. rewrite Hiff. split; [by intros ->|by intros [= ->]].
    + eexists. split; [done|]. split; [|by intros [= ->]]. intros Hz. exfalso. apply Hxy.
      rewrite <- (byte_of_Z_of_byte x), <- (byte_of_Z_of_byte y). f_equal. lia.
Qed.

Lemma strcmp_run {W} (s : state W) p q xs ys :
  cstring_at (mem s) p xs -> cstring_at (mem s) q ys ->
  exists r, strcmp p q s = Done r s /\ (r = 0 <-> xs = ys).
Proof.
  intros (b & o & -> & Hx & Hnx) (b' & o' & -> & Hy & Hny). unfold strcmp.
  pose proof Hx as [Ho (l & Hb & _)]. rewrite Hb.
  pose proof (bytes_at_bound _ _ _ _ _ Hx Hb ltac:(by destruct xs)) as Hl.
  apply compare_loop_cstrings; try done. zlen_lia.
Qed.

(** The test of a search for a filter. *)
Lemma runs_same_filter {C U E D} `{Observed E D} `{Untimed C U} (v : Platform.view U D) filter f h x :
  slot_is (v_mem v) h x -> cstring_at (v_mem v) filter f ->
  runs v (if negb (is_null (topicFilter h)) then
            let* r := strcmp (topicFilter h) filter in ret (r =? 0)
          else ret false : M (world_of C E) bool) (bool_decide (x.1 = Some f)) v.
Proof.
  intros [_ Hx] Hf. apply runs_reading. intros s Hs. exists s. split; [|done]. rewrite <- Hs in *.
  destruct x as [[g|] k]; cbn [fst] in *; [|by rewrite Hx].
  destruct Hx as [Hg _]. destruct (strcmp_run s (topicFilter h) filter g f Hg Hf) as (r & Hr & Hiff).
  replace (is_null (topicFilter h)) with false by (by destruct Hg as (? & ? & -> & _)). cbn [negb].
  rewrite (bind_done _ _ _ _ _ Hr). unfold ret. f_equal.
  destruct (Z.eqb_spec r 0) as [Hz|Hz]; symmetry; [apply bool_decide_eq_true|apply bool_decide_eq_false].
  - f_equal. by apply Hiff.
  - intros [= ->]. by apply Hz, Hiff.
Qed.

Section Table.
Context {E Timer : Type} `{PS : PlatformSpec (MQTTClient Timer) E Timer MessageData} `{CharSign}.
Abbreviation MC := (M (cworld E Timer)).
Implicit Types (v : view).

(** The index [list_find] yields, the length of the list if there is none. *)
Definition found_at {A} (P : A -> Prop) `{!forall x, Decision (P x)} (l : list A) : nat :=
  match list_find P l with Some (i, _) => i | None => length l end.

Lemma found_at_cons {A} (P : A -> Prop) `{!forall x, Decision (P x)} x l :
  found_at P (x :: l) = if decide (P x) then 0%nat else S (found_at P l).
Proof. unfold found_at. cbn. case_decide; [done|]. by destruct (list_find P l) as [[]|]. Qed.

Lemma runs_find_filter v pre hs t filter f :
  messageHandlers (v_client v) = pre ++ hs -> Forall2 (slot_is (v_mem v)) hs t ->
  cstring_at (v_mem v) filter f ->
  runs v (find_filter (length hs) (zlen pre) filter : MC Z)
    (zlen pre + Z.of_nat (found_at (fun x : slot => x.1 = Some f) t)) v.
Proof.
  intros Hhs Ht Hf. revert pre Hhs. induction Ht as [|h x hs t Hx Ht IH]; intros pre Hhs; cbn [length find_filter].
  { apply total_ret. split; [|done]. cbn. lia. }
  tget c Hc. apply untimed_members in Hc as (_ & _ & _ & _ & _ & _ & _ & _ & _ & _ & -> & _).
  rewrite Hhs. rstep (runs_arr_get _ _ _ h); [by apply list_lookup_middle|].
  rstep runs_same_filter; [exact Hx|exact Hf|].
  rewrite found_at_cons. case_bool_decide as Hxf; [rewrite decide_True by done|rewrite decide_False by done].
  - apply total_ret. split; [lia|done].
  - replace (zlen pre + 1) with (zlen (pre ++ [h])) by zlen_lia.
    eapply total_mono; [apply (IH (pre ++ [h])); by rewrite <- app_assoc|].
    intros r w [-> ->]. split; [zlen_lia|done].
Qed.

Lemma runs_find_free v pre hs t :
  messageHandlers (v_client v) = pre ++ hs -> Forall2 (slot_is (v_mem v)) hs t ->
  runs v (find_free (length hs) (zlen pre) : MC Z)
    (zlen pre + Z.of_nat (found_at (fun x : slot => x.1 = None) t)) v.
Proof.
  intros Hhs Ht. revert pre Hhs. induction Ht as [|h x hs t Hx Ht IH]; intros pre Hhs; cbn [length find_free].
  { apply total_ret. split; [|done]. cbn. lia. }
  tget c Hc. apply untimed_members in Hc as (_ & _ & _ & _ & _ & _ & _ & _ & _ & _ & -> & _).
  rewrite Hhs. rstep (runs_arr_get _ _ _ h); [by apply list_lookup_middle|].
  rewrite found_at_cons. destruct Hx as [_ Hx]. destruct x as [[g|] k]; cbn [fst] in *.
  - rewrite decide_False by done. destruct Hx as [(? & ? & -> & _) _]. cbn [is_null].
    replace (zlen pre + 1) with (zlen (pre ++ [h])) by zlen_lia.
    eapply total_mono; [apply (IH (pre ++ [h])); by rewrite <- app_assoc|].
    intros r w [-> ->]. split; [zlen_lia|done].
  - rewrite decide_True by done. rewrite Hx. apply total_ret. split; [lia|done].
Qed.

Definition with_handlers v hs : view := set_v_client v (set_messageHandlers (v_client v) hs).

Lemma runs_set_handler v hs (i : nat) filter f :
  messageHandlers (v_client v) = hs -> (i < length hs)%nat ->
  runs v (set_handler (Z.of_nat i) filter f : MC unit) tt
    (with_handlers v (<[i := {| topicFilter := filter; fp := f |}]> hs)).
Proof.
  intros Hhs Hi. unfold set_handler. tget c Hc. apply untimed_members in Hc as (_ & _ & _ & _ & _ & _ & _ & _ & _ & _ & -> & _).
  rewrite Hhs. rstep (runs_reading _ _ (<[i := {| topicFilter := filter; fp := f |}]> hs)).
  { intros s _. exists s. split; [|done]. rewrite arr_set_done by lia. by rewrite splice_one, Nat2Z.id by lia. }
  apply runs_update_client. intros c' <-. done.
Qed.

Lemma table_insert m hs t i h x :
  table_is m hs t -> slot_is m h x -> table_is m (<[i := h]> hs) (<[i := x]> t).
Proof. intros [Ht Hlen] Hx. split; [by apply Forall2_insert|by rewrite length_insert]. Qed.

(** The two searches of [set_table] as indices. *)
Lemma set_table_found f h t :
  (found_at (fun x : slot => x.1 = Some f) t < length t)%nat ->
  set_table f h t =
    (SUCCESS, <[found_at (fun x : slot => x.1 = Some f) t := match h with Some _ => (Some f, h) | None => (None, None) end]> t).
Proof. unfold set_table, found_at. destruct (list_find _ t) as [[i x]|]; [by destruct h|lia]. Qed.

Lemma set_table_new f k t :
  (length t <= found_at (fun x : slot => x.1 = Some f) t)%nat ->
  set_table f (Some k) t =
    if decide (found_at (fun x : slot => x.1 = None) t < length t)%nat
    then (SUCCESS, <[found_at (fun x : slot => x.1 = None) t := (Some f, Some k)]> t) else (FAILURE, t).
Proof.
  unfold set_table, found_at. destruct (list_find (fun x => x.1 = Some f) t) as [[i x]|] eqn:Hf.
  { apply list_find_Some in Hf as (Hi & _). apply lookup_lt_Some in Hi. lia. }
  intros _. clear Hf. destruct (list_find (fun x => x.1 = None) t) as [[i x]|] eqn:Hn.
  - apply list_find_Some in Hn as (Hi & _). apply lookup_lt_Some in Hi. by rewrite decide_True by exact Hi.
  - by rewrite decide_False by apply Nat.lt_irrefl.
Qed.

Lemma set_table_absent f t :
  (length t <= found_at (fun x : slot => x.1 = Some f) t)%nat -> set_table f None t = (FAILURE, t).
Proof.
  unfold set_table, found_at. destruct (list_find (fun x => x.1 = Some f) t) as [[i x]|] eqn:Hf; [|done].
  apply list_find_Some in Hf as (Hi & _). apply lookup_lt_Some in Hi. lia.
Qed.

(** The handler table follows [set_table]. *)
Lemma runs_set_message_handler v t filter f h :
  table_is (v_mem v) (messageHandlers (v_client v)) t -> cstring_at (v_mem v) filter f ->
  zlen f <= INT_MAX ->
  total v (MQTTSetMessageHandler filter h : MC Z) (fun rc w => exists hs,
    rc = (set_table f h t).1 /\ w = with_handlers v hs /\ table_is (v_mem v) hs (set_table f h t).2).
Proof.
  intros Htab Hf Hmax. pose proof (table_length _ _ _ Htab) as [Hlen Hlen'].
  unfold MQTTSetMessageHandler. change (Z.to_nat MAX_MESSAGE_HANDLERS) with 5%nat. rewrite <- Hlen.
  rstep (runs_find_filter v [] (messageHandlers (v_client v)) t); [done|apply Htab|exact Hf|].
  change (zlen []) with 0. rewrite Z.add_0_l. set (i := found_at _ t) in *.
  assert (Hnew : forall j k, (j < length t)%nat ->
    runs v (set_handler (Z.of_nat j) filter (Some k) : MC unit) tt
      (with_handlers v (<[j := {| topicFilter := filter; fp := Some k |}]> (messageHandlers (v_client v))))).
  { intros j k Hj. apply runs_set_handler; [done|lia]. }
  assert (Hsame : with_handlers v (messageHandlers (v_client v)) = v).
  { destruct v as [? c ? ? ?]. unfold with_handlers, set_v_client, set_messageHandlers. cbn. by destruct c as [? ? ? ? ? ? ? ? ? ? ? ? [] []]. }
  unfold MAX_MESSAGE_HANDLERS. destruct (Z.ltb_spec (Z.of_nat i) 5) as [Hi|Hi].
  - rewrite set_table_found by (fold i; lia). fold i. destruct h as [k|]; cbn [fst snd].
    + tret. test_true (Z.of_nat i <? 5). rstep (Hnew i k); [lia|]. apply total_ret.
      eexists. split_and!; [done|done|]. by apply table_insert.
    + rstep runs_set_handler; [done|lia|]. apply total_ret. eexists. split_and!; [done|done|].
      by apply table_insert.
  - destruct h as [k|].
    + rewrite set_table_new by (fold i; lia).
      rstep (runs_find_free v [] (messageHandlers (v_client v)) t); [done|apply Htab|].
      change (zlen []) with 0. rewrite Z.add_0_l. set (j := found_at _ t).
      case_decide as Hj; cbn [fst snd].
      * test_true (Z.of_nat j <? 5). rstep (Hnew j k); [lia|]. apply total_ret.
        eexists. split_and!; [done|done|]. by apply table_insert.
      * test_false (Z.of_nat j <? 5). tret. apply total_ret. exists (messageHandlers (v_client v)).
        by rewrite Hsame.
    + rewrite set_table_absent by (fold i; lia). tret. apply total_ret.
      exists (messageHandlers (v_client v)). by rewrite Hsame.
Qed.
End Table.

(** Writing a filter no other slot has, or freeing a slot, keeps the filters
    distinct. *)
Lemma distinct_insert t i x :
  distinct_filters t -> (forall f j, x.1 = Some f -> fst <$> t !! j = Some (Some f) -> j = i) ->
  distinct_filters (<[i := x]> t).
Proof.
  intros Hd Hx j k f. destruct (decide (j = i)) as [->|Hj], (decide (k = i)) as [->|Hk]; try done.
  - rewrite (list_lookup_insert_ne _ i k) by done. destruct (decide (i < length t)%nat).
    + rewrite list_lookup_insert_eq by done. intros [= Hf] Hk'. symmetry. by eapply Hx.
    + by rewrite list_insert_ge, lookup_ge_None_2 by lia.
  - rewrite (list_lookup_insert_ne _ i j) by done. destruct (decide (i < length t)%nat).
    + rewrite list_lookup_insert_eq by done. intros Hj' [= Hf]. by eapply Hx.
    + rewrite list_insert_ge by lia. by rewrite (lookup_ge_None_2 t i) by lia.
  - rewrite !list_lookup_insert_ne by done. apply Hd.
Qed.

Lemma set_table_distinct f h t : distinct_filters t -> distinct_filters (set_table f h t).2.
Proof.
  intros Hd. unfold set_table. destruct (list_find (fun x => x.1 = Some f) t) as [[i x]|] eqn:Hf.
  - apply list_find_Some in Hf as (Hi & Hx & _). destruct h as [k|]; apply distinct_insert; try done.
    intros g j [= <-] Hj. apply (Hd j i f); [done|]. by rewrite Hi, <- Hx.
  - destruct h as [k|]; [|done]. destruct (list_find (fun x => x.1 = None) t) as [[i x]|] eqn:Hn; [|done].
    apply distinct_insert; [done|]. intros g j [= <-] Hj. exfalso.
    apply list_find_None in Hf. destruct (t !! j) as [y|] eqn:Hy; [|done]. injection Hj as Hj.
    rewrite Forall_lookup in Hf. by apply (Hf j y).
Qed.

(** ** Properties *)

Section HandlerProperties.
Context {E Timer : Type} `{PS : PlatformSpec (MQTTClient Timer) E Timer MessageData} `{CharSign}.
Implicit Types (v : view).

(** deliverMessage calls, in the order of the table, exactly the handlers
    whose filter equals the topic name or matches it, or the default handler if
    there is none; it returns SUCCESS when a handler was called and FAILURE
    otherwise, and changes nothing else. *)
Theorem deliver_spec v b topic n msg t :
  held (v_mem v) b topic n -> zlen n <= INT_MAX -> table_is (v_mem v) (messageHandlers (v_client v)) t ->
  let ks := receivers n t (defaultMessageHandler (v_client v)) in
  runs v (deliverMessage topic msg) (match ks with [] => FAILURE | _ => SUCCESS end)
    (deliver v (to_receivers topic msg ks)).
Proof. apply runs_deliverMessage. Qed.

(** MQTTSetMessageHandler updates the table like an association list of at
    most five filters: a known filter gets the new handler, a new one the first
    free slot, the null handler removes a filter; FAILURE means the table was
    full or the filter to remove unknown, and leaves the table as it was.  A
    table whose filters are distinct stays so. *)
Theorem set_handler_spec v t filter f h :
  table_is (v_mem v) (messageHandlers (v_client v)) t -> cstring_at (v_mem v) filter f ->
  zlen f <= INT_MAX ->
  total v (MQTTSetMessageHandler (E := E) (Timer := Timer) filter h) (fun rc w => exists hs,
    rc = (set_table f h t).1 /\ w = with_handlers v hs /\ table_is (v_mem v) hs (set_table f h t).2 /\
    (distinct_filters t -> distinct_filters (set_table f h t).2)).
Proof.
  intros Htab Hf Hmax. eapply total_mono; [by apply runs_set_message_handler|].
  intros rc w (hs & Hrc & Hw & Hhs). exists hs. split_and!; try done. apply set_table_distinct.
Qed.
End HandlerProperties.

(** ** Witnesses *)

Section HandlerWitnesses.
#[local] Existing Instances char_is_unsigned ideal_platform ideal_spec.

(* block 1: the topic name "a/b", 2: the filter "a/b", 3: "a/+", 4: "x", 5: "y" *)
Definition ex_table_client : MQTTClient Z :=
  Client 1 1000 0 0 NULL NULL 0 0 1 1
    [{| topicFilter := Ptr 4 0; fp := Some 7%positive |}; {| topicFilter := Ptr 3 0; fp := Some 8%positive |};
     {| topicFilter := NULL; fp := Some 5%positive |}; {| topicFilter := Ptr 2 0; fp := Some 9%positive |};
     {| topicFilter := NULL; fp := None |}] (Some 1%positive) 0 0.
Definition ex_table_state : state (cworld plain_env Z) :=
  plain_state [bytes [97; 47; 98]; bytes [97; 47; 98; 0]; bytes [97; 47; 43; 0]; bytes [120; 0]; bytes [121; 0]]
    ex_table_client [].
Definition ex_table : list slot :=
  [(Some (bytes [120]), Some 7%positive); (Some (bytes [97; 47; 43]), Some 8%positive);
   (None, Some 5%positive); (Some (bytes [97; 47; 98]), Some 9%positive); (None, None)].
Definition ex_table_topic : MQTTString := {| cstring := NULL; lenstring := {| len := 3; data := Ptr 1 0 |} |}.
Definition ex_table_msg : MQTTMessage :=
  {| msg_qos := 0; msg_retained := 0; msg_dup := 0; msg_id := 0; msg_payload := NULL; msg_payloadlen := 0 |}.

Ltac cstring_concrete :=
  do 2 eexists; split; [reflexivity|split; [bytes_at_concrete|]];
  intros Hin; apply list_elem_of_In in Hin; vm_compute in Hin; intuition discriminate.

Lemma ex_table_is : table_is (mem ex_table_state) (messageHandlers ex_table_client) ex_table.
Proof.
  split; [|done].
  repeat constructor; try done; cbn [topicFilter fst]; cstring_concrete.
Qed.

Lemma deliver_spec_witness :
  runs (see ex_table_state) (deliverMessage ex_table_topic ex_table_msg) SUCCESS
    (deliver (see ex_table_state)
       [(8%positive, NewMessageData ex_table_topic ex_table_msg);
        (9%positive, NewMessageData ex_table_topic ex_table_msg)]).
Proof.
  apply (deliver_spec (see ex_table_state) 1 ex_table_topic (bytes [97; 47; 98]) ex_table_msg ex_table);
    [|done|exact ex_table_is].
  split_and!; [done|done|]. exists 0. split; [done|bytes_at_concrete].
Defined.

(* the filter "y" takes the first free slot *)
Lemma set_handler_spec_witness :
  total (see ex_table_state) (MQTTSetMessageHandler (E := plain_env) (Timer := Z) (Ptr 5 0) (Some 6%positive))
    (fun rc w => exists hs, rc = (set_table (bytes [121]) (Some 6%positive) ex_table).1 /\
       w = with_handlers (see ex_table_state) hs /\
       table_is (mem ex_table_state) hs (set_table (bytes [121]) (Some 6%positive) ex_table).2 /\
       (distinct_filters ex_table -> distinct_filters (set_table (bytes [121]) (Some 6%positive) ex_table).2)) /\
  set_table (bytes [121]) (Some 6%positive) ex_table =
    (SUCCESS, <[2%nat := (Some (bytes [121]), Some 6%positive)]> ex_table).
Proof.
  split; [|reflexivity].
  apply (set_handler_spec (see ex_table_state) ex_table (Ptr 5 0) (bytes [121]) (Some 6%positive));
    [exact ex_table_is|cstring_concrete|done].
Defined.
End HandlerWitnesses.
