(* ===== verification/Cycle.v ===== *)
(** * The client's packet cycle

    The invariant [client_ok] of the client object and its buffers, and the
    behaviour of keepalive, cycle and the loops around it (waitfor, MQTTYield):
    the reaction to each packet type, and safety against any input. *)

From S2P Require Import Prelude CMem MQTTPacket MQTTPublish MQTTConnect MQTTSubscribe PacketRead.
From S2P Require Import Platform MQTTClient Exchange TopicMatch ClientLogic Handlers.

(** ** The client and its buffers *)

(** Where the application placed the two buffers; [spare] is the number of
    bytes that follow the receive buffer in its object. *)
Record buffers := { sb : block; so : Z; rb : block; ro : Z; spare : Z }.

(** The filter strings lie outside the buffers. *)
Definition apart (B : buffers) (h : MessageHandlers) : Prop :=
  forall b o, topicFilter h = Ptr b o -> b <> sb B /\ b <> rb B.

Record client_ok (B : buffers) (t : list slot) (v : view) : Prop := {
  ok_sendbuf : buf (v_client v) = Ptr (sb B) (so B);
  ok_send : exists l, v_mem v !! sb B = Some l /\ 0 <= so B /\ so B + buf_size (v_client v) <= zlen l;
  ok_send_size : 0 <= buf_size (v_client v) <= INT_MAX;
  ok_readbuf : readbuf (v_client v) = Ptr (rb B) (ro B);
  ok_read : exists l, v_mem v !! rb B = Some l /\ 0 <= ro B /\
              ro B + readbuf_size (v_client v) + spare B <= zlen l;
  ok_read_size : 5 <= readbuf_size (v_client v) <= INT_MAX;
  ok_spare : 0 <= spare B;
  ok_blocks : sb B <> rb B;
  ok_table : table_is (v_mem v) (messageHandlers (v_client v)) t;
  ok_apart : Forall (apart B) (messageHandlers (v_client v))
}.

Section ClientState.
Implicit Types (v : view) (B : buffers).

(** [client_ok] is about the client, its two buffers and its filters. *)
Lemma ok_change B t v v' :
  client_ok B t v -> v_client v' = v_client v ->
  (forall b l, b = sb B \/ b = rb B -> v_mem v !! b = Some l ->
     exists l', v_mem v' !! b = Some l' /\ length l' = length l) ->
  (forall b, b <> sb B -> b <> rb B -> v_mem v' !! b = v_mem v !! b) ->
  client_ok B t v'.
Proof.
  intros [Hsb (ls & Hs & Hs') Hssz Hrb (lr & Hr & Hr') Hrsz Hsp Hne [Ht Hlen] Hap] Hc Hbuf Hother.
  split; rewrite ?Hc; try done.
  - destruct (Hbuf _ ls (or_introl eq_refl) Hs) as (l' & ? & Hl'). exists l'. by rewrite Hl'.
  - destruct (Hbuf _ lr (or_intror eq_refl) Hr) as (l' & ? & Hl'). exists l'. by rewrite Hl'.
  - split; [|done]. apply Forall2_same_length_lookup. apply Forall2_same_length_lookup in Ht as [Hl Ht].
    split; [done|]. intros i h x Hh Hx. destruct (Ht i h x Hh Hx) as [Hfp Hf]. split; [done|].
    destruct (x.1) as [f|]; [|done]. destruct Hf as [Hf Hmax]. split; [|done].
    eapply cstring_at_same; [|exact Hf]. intros b o Hp.
    rewrite Forall_lookup in Hap. destruct (Hap i h Hh b o Hp). by apply Hother.
Qed.

Lemma ok_put_send B t v w :
  client_ok B t v -> zlen w <= buf_size (v_client v) -> client_ok B t (put (sb B) (so B) w v).
Proof.
  intros Hok Hw. destruct Hok.(ok_send _ _ _) as (ls & Hs & Hs0 & Hs').
  eapply ok_change; [exact Hok|done| |].
  - intros b l Hb Hl. destruct (decide (b = sb B)) as [->|Hne].
    + rewrite Hs in Hl. injection Hl as <-. exists (splice ls (so B) w). split; [by apply put_lookup|].
      apply splice_length; lia.
    + rewrite put_other by done. by exists l.
  - intros b Hb _. by apply put_other.
Qed.

Lemma ok_put_read B t v w :
  client_ok B t v -> zlen w <= readbuf_size (v_client v) + spare B ->
  client_ok B t (put (rb B) (ro B) w v).
Proof.
  intros Hok Hw. destruct Hok.(ok_read _ _ _) as (lr & Hr & Hr0 & Hr').
  eapply ok_change; [exact Hok|done| |].
  - intros b l Hb Hl. destruct (decide (b = rb B)) as [->|Hne].
    + rewrite Hr in Hl. injection Hl as <-. exists (splice lr (ro B) w). split; [by apply put_lookup|].
      apply splice_length; lia.
    + rewrite put_other by done. by exists l.
  - intros b _ Hb. by apply put_other.
Qed.

(** The invariant does not depend on what went through the network. *)
Lemma ok_see B t v v' : client_ok B t v -> v_mem v' = v_mem v -> v_client v' = v_client v -> client_ok B t v'.
Proof. intros [] Hm Hc. split; by rewrite ?Hm, ?Hc. Qed.
End ClientState.

(** ** Closing the session *)

Definition cleared (h : MessageHandlers) : MessageHandlers := {| topicFilter := NULL; fp := fp h |}.

Definition closed_client (c : MQTTClient unit) : MQTTClient unit :=
  let c' := set_isconnected (set_ping_outstanding c 0) 0 in
  if c_cleansession c =? 0 then c' else set_messageHandlers c' (cleared <$> messageHandlers c).

(** The view after MQTTCloseSession, and its handler table. *)
Definition closed (v : view) : view := set_v_client v (closed_client (v_client v)).
Definition closed_table (v : view) (t : list slot) : list slot :=
  if c_cleansession (v_client v) =? 0 then t else (fun x => (None, x.2)) <$> t.

Section CycleSteps.
Context {E Timer : Type} `{PS : PlatformSpec (MQTTClient Timer) E Timer MessageData} `{CharSign}.
Abbreviation MC := (M (cworld E Timer)).
Implicit Types (v : view) (B : buffers).

Lemma runs_close v : runs v (MQTTCloseSession : MC unit) tt (closed v).
Proof.
  unfold MQTTCloseSession. rstep (runs_update_client v _ (set_isconnected (set_ping_outstanding (v_client v) 0) 0)).
  { by intros c <-. }
  tget c Hc. apply untimed_members in Hc as (_ & _ & _ & _ & _ & _ & _ & _ & _ & -> & _).
  unfold closed, closed_client. cbn [v_client set_v_client c_cleansession set_isconnected set_ping_outstanding].
  destruct (c_cleansession (v_client v) =? 0); cbn [negb].
  - by apply total_ret.
  - set (w := set_v_client v _). unfold MQTTCleanSession.
    eapply total_mono; [apply (runs_update_client w _
      (set_messageHandlers (v_client w) (cleared <$> messageHandlers (v_client w))))|].
    + by intros c' <-.
    + by intros ? ? [-> ->].
Qed.

Lemma ok_close B t v : client_ok B t v -> client_ok B (closed_table v t) (closed v).
Proof.
  intros [Hsb Hs Hssz Hrb Hr Hrsz Hsp Hne [Ht Hlen] Hap]. unfold closed, closed_client, closed_table.
  destruct (c_cleansession (v_client v) =? 0); split; try done.
  - split; [|by rewrite length_fmap]. cbn. apply Forall2_fmap. eapply Forall2_impl; [|exact Ht].
    intros h x [Hfp _]. done.
  - cbn. apply Forall_fmap. apply Forall_true. by intros h b o.
Qed.

Lemma ok_i32_send B t v : client_ok B t v -> i32 (buf_size (v_client v)) = buf_size (v_client v).
Proof. intros Hok. pose proof (ok_send_size _ _ _ Hok). apply i32_small. unfold INT_MIN. lia. Qed.

Lemma total_pingreq B t v :
  client_ok B t v ->
  total v (MQTTSerialize_pingreq (Ptr (sb B) (so B)) (buf_size (v_client v)) : MC Z) (fun n w =>
    (n = zlen ping_packet /\ w = put (sb B) (so B) ping_packet v /\ 2 <= buf_size (v_client v)) \/
    (n <= 0 /\ w = v /\ buf_size (v_client v) < 2)).
Proof.
  intros Hok. destruct (ok_send _ _ _ Hok) as (l & Hb & Ho & Hroom).
  pose proof (ok_send_size _ _ _ Hok). eapply total_pingreq_into; done || lia.
Qed.

Lemma total_ack B t v packettype id :
  client_ok B t v -> 0 <= id ->
  total v (MQTTSerialize_ack (Ptr (sb B) (so B)) (buf_size (v_client v)) packettype 0 id : MC Z) (fun n w =>
    (n = zlen (ack_packet packettype 0 id) /\ w = put (sb B) (so B) (ack_packet packettype 0 id) v /\
       4 <= buf_size (v_client v)) \/
    (n <= 0 /\ w = v /\ buf_size (v_client v) < 4)).
Proof.
  intros Hok Hid. destruct (ok_send _ _ _ Hok) as (l & Hb & Ho & Hroom).
  pose proof (ok_send_size _ _ _ Hok). eapply total_ack_into; done || lia.
Qed.

(** Sending what was just put into the send buffer. *)
Lemma total_send_put `{!WholeWrites (MQTTClient Timer) E Timer MessageData} B t v fuel w timer :
  client_ok B t v -> (2 <= fuel)%nat -> w <> [] -> zlen w <= buf_size (v_client v) ->
  total (put (sb B) (so B) w v) (sendPacket fuel (zlen w) timer) (fun rc v' =>
    (rc = SUCCESS /\ v' = send (put (sb B) (so B) w v) w) \/
    (rc = FAILURE /\ v' = put (sb B) (so B) w v /\ ~ Responsive (MQTTClient Timer) E Timer MessageData)).
Proof.
  intros Hok Hfuel Hne Hw. destruct (ok_send _ _ _ Hok) as (l & Hb & Ho & Hroom).
  pose proof (ok_send_size _ _ _ Hok) as Hsz. apply total_sendPacket with (b := sb B) (o := so B); try done.
  - by rewrite <- (ok_sendbuf _ _ _ Hok).
  - apply (bytes_at_put _ _ _ _ l); [done|done|lia].
  - lia.
Qed.
End CycleSteps.

(** ** Keep-alive and the end of a cycle *)

Definition pinged (v : view) (n : Z) : view := set_v_client v (set_ping_outstanding (v_client v) n).

Section Keepalive.
Context {E Timer : Type} `{PS : PlatformSpec (MQTTClient Timer) E Timer MessageData} `{CharSign}.
Abbreviation MC := (M (cworld E Timer)).
Implicit Types (v : view) (B : buffers).

Lemma runs_set_ping v n : runs v (update_client (fun c => set_ping_outstanding c n) : MC unit) tt (pinged v n).
Proof. apply runs_update_client. by intros c <-. Qed.

(** What keepalive may do: nothing while no timer has expired or the buffer is
    too small for a PINGREQ; fail while a ping is outstanding; otherwise send a
    PINGREQ, and note it as outstanding if the network took it. *)
Definition keepalive_outcome B v (rc : Z) (w : view) : Prop :=
  let ping := put (sb B) (so B) ping_packet v in
  (rc = SUCCESS /\ w = v /\
     (c_keepAliveInterval (v_client v) = 0 \/ ~ Expired (MQTTClient Timer) E Timer MessageData \/
      ping_outstanding (v_client v) = 0 /\ buf_size (v_client v) < 2)) \/
  (c_keepAliveInterval (v_client v) <> 0 /\ ~ Responsive (MQTTClient Timer) E Timer MessageData /\
     ((rc = FAILURE /\ w = v /\ ping_outstanding (v_client v) <> 0) \/
      (ping_outstanding (v_client v) = 0 /\ 2 <= buf_size (v_client v) /\
         ((rc = SUCCESS /\ w = pinged (send ping ping_packet) 1) \/ (rc = FAILURE /\ w = ping))))).

(** [exit:] of cycle. *)
Definition exit_view (rc : Z) (v : view) : view :=
  if (rc =? SUCCESS) || (isconnected (v_client v) =? 0) then v else closed v.

Lemma runs_cycle_exit rc packet_type v :
  runs v (cycle_exit rc packet_type : MC Z) (if rc =? SUCCESS then packet_type else rc) (exit_view rc v).
Proof.
  unfold cycle_exit, exit_view. destruct (rc =? SUCCESS); cbn [orb]; [by apply total_ret|].
  tget c Hc. apply untimed_members in Hc as (_ & _ & _ & _ & _ & _ & _ & _ & -> & _).
  destruct (isconnected (v_client v) =? 0); cbn [negb].
  - tret. by apply total_ret.
  - rstep runs_close. by apply total_ret.
Qed.

(** What every cycle ensures. *)
Definition cycle_safe_outcome B (rc : Z) (w : view) : Prop :=
  (exists t, client_ok B t w) /\ (rc < 0 -> isconnected (v_client w) = 0).

Lemma safe_exit B t rc packet_type v :
  client_ok B t v -> (rc = SUCCESS -> 0 <= packet_type) ->
  total v (cycle_exit rc packet_type : MC Z) (cycle_safe_outcome B).
Proof.
  intros Hok Hp. eapply total_mono; [apply runs_cycle_exit|]. intros r w [-> ->]. unfold exit_view.
  destruct (Z.eqb_spec rc SUCCESS); cbn [orb]; [split; [by exists t|lia]|].
  destruct (Z.eqb_spec (isconnected (v_client v)) 0); [split; [by exists t|done]|].
  split; [exists (closed_table v t); by apply ok_close|]. intros _. cbn. unfold closed_client.
  by destruct (_ =? 0).
Qed.

Lemma ok_pinged B t v n : client_ok B t v -> client_ok B t (pinged v n).
Proof. intros []. by split. Qed.

Lemma ok_send_bytes B t v w : client_ok B t v -> client_ok B t (send v w).
Proof. intros []. by split. Qed.

Variables (fuel : nat) (no_timer : Timer).
Hypothesis Hfuel : (2 <= fuel)%nat.

Lemma total_keepalive `{!WholeWrites (MQTTClient Timer) E Timer MessageData} B t v :
  client_ok B t v -> total v (keepalive fuel no_timer) (keepalive_outcome B v).
Proof.
  intros Hok. unfold keepalive, keepalive_outcome. tget c Hc.
  apply untimed_members in Hc as (_ & _ & Hsz & _ & Hb & _ & Hk & Hp & _). rewrite Hsz, Hb, Hk, Hp.
  destruct (Z.eqb_spec (c_keepAliveInterval (v_client v)) 0) as [Hk0|Hk0].
  { apply total_ret. left. auto. }
  rewrite (ok_sendbuf _ _ _ Hok), (ok_i32_send _ _ _ Hok).
  tstep total_TimerIsExpired. intros e1 ? [-> He1].
  apply (total_step _ _ _ (fun expired w => w = v /\ if expired : bool then ~ Responsive (MQTTClient Timer) E Timer MessageData
                                                       else ~ Expired (MQTTClient Timer) E Timer MessageData)).
  { destruct e1; [by apply total_ret|apply total_TimerIsExpired]. }
  intros expired ? [-> He]. destruct expired; cbn [negb]; [|apply total_ret; left; auto].
  destruct (Z.eqb_spec (ping_outstanding (v_client v)) 0) as [Hp0|Hp0]; cbn [negb].
  2: { apply total_ret. right. auto 10. }
  tstep total_TimerInit. intros t1 ? ->. tstep total_TimerCountdownMS. intros t2 ? ->.
  tstep total_pingreq; [done|]. intros n ? [(-> & -> & Hroom)|(Hn & -> & Hroom)].
  - change (0 <? zlen ping_packet) with true. cbv iota.
    tstep total_send_put; [done|done|done|done|]. intros rc ? [(-> & ->)|(-> & -> & HR)].
    + rewrite Z.eqb_refl. tassoc.
      rstep runs_set_ping.
      apply total_ret. right. auto 10.
    + change (FAILURE =? SUCCESS) with false. cbv iota. tret. apply total_ret. right. auto 10.
  - rewrite (proj2 (Z.ltb_ge _ _) Hn). apply total_ret. left. auto 10.
Qed.

Lemma runs_cycle_end `{!Responsive (MQTTClient Timer) E Timer MessageData} B t rc packet_type v :
  client_ok B t v ->
  runs v (cycle_end fuel no_timer rc packet_type) (if rc =? SUCCESS then packet_type else rc) (exit_view rc v).
Proof.
  intros Hok. unfold cycle_end. tstep total_keepalive; [exact Hok|].
  intros k w [(-> & -> & _)|(_ & [] & _)]; [|done]. cbn [Z.eqb SUCCESS negb]. apply runs_cycle_exit.
Qed.

Lemma safe_end `{!WholeWrites (MQTTClient Timer) E Timer MessageData} B t rc packet_type v :
  client_ok B t v -> 0 <= packet_type ->
  total v (cycle_end fuel no_timer rc packet_type) (cycle_safe_outcome B).
Proof.
  intros Hok Hp. unfold cycle_end. tstep total_keepalive; [exact Hok|].
  intros k w Hw. apply (safe_exit _ t); [|done].
  assert (Hping : 2 <= buf_size (v_client v) -> client_ok B t (put (sb B) (so B) ping_packet v))
    by (intros; by apply ok_put_send).
  destruct Hw as [(_ & -> & _)|(_ & _ & [(_ & -> & _)|(_ & Hsz & [(_ & ->)|(_ & ->)])])]; auto.
  by apply ok_pinged, ok_send_bytes, Hping.
Qed.
End Keepalive.

(** ** The cycle *)

(** A packet has been read into the receive buffer; [rest] is still to come. *)
Definition got (B : buffers) (packet rest : list byte) (v : view) : view :=
  set_v_in (put (rb B) (ro B) packet v) rest.

(** [packet] has been serialized and sent. *)
Definition sent (B : buffers) (packet : list byte) (v : view) : view :=
  send (put (sb B) (so B) packet v) packet.

Section CycleRuns.
Context {E Timer : Type} `{PS : PlatformSpec (MQTTClient Timer) E Timer MessageData} `{CharSign} `{!Responsive (MQTTClient Timer) E Timer MessageData}.
Abbreviation MC := (M (cworld E Timer)).
Implicit Types (v : view) (B : buffers).
Lemma ok_got B t v packet rest :
  client_ok B t v -> zlen packet <= readbuf_size (v_client v) -> client_ok B t (got B packet rest v).
Proof.
  intros Hok Hp. apply (ok_see _ _ (put (rb B) (ro B) packet v)); [|done|done].
  apply ok_put_read; [done|]. pose proof (ok_spare _ _ _ Hok). lia.
Qed.

Lemma got_bytes B t v packet rest :
  client_ok B t v -> zlen packet <= readbuf_size (v_client v) ->
  bytes_at (v_mem (got B packet rest v)) (rb B) (ro B) packet.
Proof.
  intros Hok Hp. destruct (ok_read _ _ _ Hok) as (l & Hl & Ho & Hroom).
  pose proof (ok_spare _ _ _ Hok). apply (bytes_at_put _ _ _ _ l); [done|done|lia].
Qed.

Lemma ok_sent B t v packet :
  client_ok B t v -> zlen packet <= buf_size (v_client v) -> client_ok B t (sent B packet v).
Proof. intros. by apply ok_send_bytes, ok_put_send. Qed.

Lemma runs_read_packet B t v timer type dup qos retain body rest :
  client_ok B t v -> v_in v = mqtt_packet (mqtt_header type dup qos retain) body ++ rest -> 0 <= type < 16 ->
  zlen body <= REMLEN_MAX -> packet_size (zlen body) <= readbuf_size (v_client v) ->
  runs v (readPacket timer) type (got B (mqtt_packet (mqtt_header type dup qos retain) body) rest v).
Proof.
  intros Hok Hin Hty Hmax Hfits. set (h := mqtt_header type dup qos retain) in *.
  assert (0 <= h < 256) as Hh by apply mqtt_header_range.
  destruct (ok_read _ _ _ Hok) as (l & Hl & Ho & Hroom). pose proof (ok_spare _ _ _ Hok).
  eapply total_mono.
  { apply (runs_readPacket v timer (rb B) (ro B) l (byte_of_Z h) (remlen_bytes (zlen body)) body rest); try done.
    - apply Hok.
    - lia.
    - apply Hok.
    - rewrite Hin. unfold mqtt_packet. by rewrite <- app_comm_cons, <- app_assoc.
    - by apply length_field_canonical. }
  intros r w [-> ->]. rewrite Z_of_byte_small by done. split.
  - unfold h. rewrite header_type_is. by apply Z.mod_small.
  - unfold got. by rewrite (put_insert _ _ _ _ l).
Qed.

Variables (fuel : nat) (no_timer : Timer) (uninit : Z).
Hypothesis Hfuel : (2 <= fuel)%nat.

Lemma runs_cycle_done B t w packet_type :
  client_ok B t w -> runs w (cycle_end fuel no_timer SUCCESS packet_type) packet_type w.
Proof.
  intros Hok. eapply total_mono; [exact (runs_cycle_end fuel no_timer Hfuel B t SUCCESS packet_type w Hok)|].
  by intros ? ? [-> ->].
Qed.

(** Packets without content for cycle are only taken from the network. *)
Lemma runs_cycle_plain B t v timer (type : msgTypes) dup qos retain body rest :
  client_ok B t v -> v_in v = mqtt_packet (mqtt_header type dup qos retain) body ++ rest ->
  type ∈ [CONNACK; PUBACK; SUBACK; UNSUBACK; PUBCOMP] ->
  zlen body <= REMLEN_MAX -> packet_size (zlen body) <= readbuf_size (v_client v) ->
  runs v (cycle fuel no_timer uninit timer) type
    (got B (mqtt_packet (mqtt_header type dup qos retain) body) rest v).
Proof.
  intros Hok Hin Hty Hmax Hfits. unfold cycle.
  rstep runs_read_packet; [exact Hok|exact Hin|by destruct type|done|done|].
  assert (Hend : runs (got B (mqtt_packet (mqtt_header type dup qos retain) body) rest v)
    (cycle_end fuel no_timer SUCCESS type) type (got B (mqtt_packet (mqtt_header type dup qos retain) body) rest v)).
  { apply (runs_cycle_done B t). by apply ok_got; [|rewrite mqtt_packet_size]. }
  rewrite !elem_of_cons, elem_of_nil in Hty.
  destruct Hty as [->|[->|[->|[->|[->|[]]]]]]; exact Hend.
Qed.

(** PINGRESP answers the outstanding ping. *)
Lemma runs_cycle_pingresp B t v timer rest :
  client_ok B t v -> v_in v = mqtt_packet (mqtt_header PINGRESP 0 0 0) [] ++ rest ->
  runs v (cycle fuel no_timer uninit timer) PINGRESP
    (pinged (got B (mqtt_packet (mqtt_header PINGRESP 0 0 0) []) rest v) 0).
Proof.
  intros Hok Hin. pose proof (ok_read_size _ _ _ Hok). unfold cycle.
  rstep runs_read_packet; [exact Hok|exact Hin|done|done|unfold packet_size; simpl; lia|].
  cbn [msg_code Z.eqb Pos.eqb orb]. rstep runs_set_ping.
  apply (runs_cycle_done B t).
  apply ok_pinged, ok_got; [done|]. rewrite mqtt_packet_size. unfold packet_size. simpl. lia.
Qed.

Lemma runs_ack B t v packettype id :
  client_ok B t v -> 0 <= id -> 4 <= buf_size (v_client v) ->
  runs v (MQTTSerialize_ack (Ptr (sb B) (so B)) (buf_size (v_client v)) packettype 0 id : MC Z)
    (zlen (ack_packet packettype 0 id)) (put (sb B) (so B) (ack_packet packettype 0 id) v).
Proof.
  intros Hok Hid Hsz. eapply total_mono; [by apply (total_ack B t)|].
  intros n w [(-> & -> & _)|(_ & _ & ?)]; [done|lia].
Qed.

Lemma runs_sent B t v w timer :
  client_ok B t v -> w <> [] -> zlen w <= buf_size (v_client v) ->
  runs (put (sb B) (so B) w v) (sendPacket fuel (zlen w) timer) SUCCESS (sent B w v).
Proof.
  intros Hok Hne Hw. eapply total_mono; [by apply (total_send_put B t)|].
  intros rc v' [[-> ->]|(_ & _ & [])]; done.
Qed.

(** An incoming PUBLISH: the message is delivered, then acknowledged. *)
Lemma runs_cycle_publish B t v timer dup qos retained id topic payload rest :
  client_ok B t v -> v_in v = publish_packet dup qos retained id topic payload ++ rest ->
  0 <= qos < 3 -> 0 <= id < 65536 -> zlen topic <= 65535 ->
  zlen (publish_body qos id topic payload) <= REMLEN_MAX ->
  packet_size (zlen (publish_body qos id topic payload)) <= readbuf_size (v_client v) ->
  (0 < qos -> 4 <= buf_size (v_client v)) ->
  let out := publish_result (publish_locals uninit) (rb B) (ro B) dup qos retained id topic payload in
  let w := deliver (got B (publish_packet dup qos retained id topic payload) rest v)
             (to_receivers (pub_topicName out) (message_of out)
                (receivers topic t (defaultMessageHandler (v_client v)))) in
  runs v (cycle fuel no_timer uninit timer) PUBLISH
    (if qos =? QOS0 then w else sent B (publish_reply qos id) w).
Proof.
  intros Hok Hin Hq Hid Htopic Hmax Hfits Hsend out w. set (pkt := publish_packet _ _ _ _ _ _) in *.
  set (w1 := got B pkt rest v) in *.
  assert (Hpkt : zlen pkt <= readbuf_size (v_client v)) by (unfold pkt; by rewrite publish_packet_length).
  pose proof (ok_got B t v pkt rest Hok Hpkt) as Hok1. fold w1 in Hok1.
  pose proof (got_bytes B t v pkt rest Hok Hpkt) as Hat. fold w1 in Hat.
  assert (Hokw : client_ok B t w) by (by apply (ok_see _ _ w1)).
  unfold cycle. rstep runs_read_packet; [exact Hok|exact Hin|done|done|done|].
  change (got B (mqtt_packet _ _) rest v) with w1.
  cbn [msg_code Z.eqb Pos.eqb orb]. unfold cycle_publish. tassoc. tget c Hc.
  apply untimed_members in Hc as (_ & _ & _ & _ & _ & Hrd & _). rewrite Hrd, (ok_readbuf _ _ _ Hok1).
  rstep (runs_reading _ _ (1, out)).
  { intros s Hs. eexists. split; [apply (deserialize_publish_packet s (rb B) (ro B)
      (publish_locals uninit) _ dup qos retained id topic payload []); [|lia|done..]|done].
    by rewrite app_nil_r, Hs. }
  change (negb (1 =? 1)) with false. cbv iota. tassoc.
  rstep (runs_deliverMessage w1 (rb B) (pub_topicName out) topic (message_of out) t).
  { by apply publish_topic_held. }
  { unfold INT_MAX. lia. }
  { by apply Hok1. }
  cbn [msg_qos msg_id]. change (pub_qos out) with qos. change (deliver w1 _) with w.
  assert (Hend : forall w', client_ok B t w' ->
    runs w' (cycle_end fuel no_timer SUCCESS PUBLISH) PUBLISH w').
  { intros w' Hok'. by apply (runs_cycle_done B t). }
  destruct (Z.eqb_spec qos QOS0) as [Hq0|Hq0]; cbn [negb].
  { tret. by apply Hend. }
  assert (Hpid : pub_packetid out = id).
  { cbn. unfold QOS0 in Hq0. by rewrite (proj2 (Z.ltb_lt _ _)) by lia. }
  tget c2 Hc2. apply untimed_members in Hc2 as (_ & _ & Hbs & _ & Hbuf & _). rewrite Hbs, Hbuf, Hpid.
  rewrite (ok_sendbuf _ _ _ Hokw), (ok_i32_send _ _ _ Hokw).
  assert (Hsz : 4 <= buf_size (v_client w)) by (apply Hsend; unfold QOS0 in Hq0; lia).
  assert (Hreply : runs w (if qos =? QOS1 then
      MQTTSerialize_ack (Ptr (sb B) (so B)) (buf_size (v_client w)) PUBACK 0 id
      else if qos =? QOS2 then MQTTSerialize_ack (Ptr (sb B) (so B)) (buf_size (v_client w)) PUBREC 0 id
      else ret 0 : MC Z) (zlen (publish_reply qos id)) (put (sb B) (so B) (publish_reply qos id) w)).
  { unfold publish_reply. destruct (Z.eqb_spec qos QOS1); [apply (runs_ack B t); [done|lia|done]|].
    rewrite (proj2 (Z.eqb_eq qos QOS2)) by (unfold QOS0, QOS1, QOS2 in *; lia).
    apply (runs_ack B t); [done|lia|done]. }
  rstep Hreply. change (zlen (publish_reply qos id) <=? 0) with false. cbv iota. tassoc.
  rstep (runs_sent B t); [done|done|exact Hsz|]. tret. apply Hend. by apply ok_sent.
Qed.

Lemma runs_ack_step B t v timer (type : msgTypes) dup id rest :
  client_ok B t v -> zlen (ack_packet type dup id) <= readbuf_size (v_client v) ->
  0 <= type < 16 -> 0 <= id < 65536 -> 4 <= buf_size (v_client v) ->
  let w := got B (ack_packet type dup id) rest v in
  runs w (cycle_ack fuel uninit type timer) SUCCESS (sent B (ack_reply type id) w).
Proof.
  intros Hok Hpkt Hty Hid Hsz w. pose proof (ok_got B t v _ rest Hok Hpkt) as Hokw. fold w in Hokw.
  pose proof (got_bytes B t v _ rest Hok Hpkt) as Hat. fold w in Hat.
  unfold cycle_ack. tget c Hc. apply untimed_members in Hc as (_ & _ & Hbs & _ & Hbuf & Hrd & _).
  rewrite Hrd, Hbuf, Hbs, (ok_readbuf _ _ _ Hokw), (ok_sendbuf _ _ _ Hokw), (ok_i32_send _ _ _ Hokw).
  rstep (runs_reading _ _ (1, {| ack_packettype := type; ack_dup := dup mod 2; ack_packetid := id |})).
  { intros s Hs. eexists. split; [apply (deserialize_ack_packet s (rb B) (ro B) _ _ type dup id []);
      [|done..]|done]. by rewrite app_nil_r, Hs. }
  change (negb (1 =? 1)) with false. cbv iota. cbn [ack_packetid].
  rstep (runs_ack B t); [done|lia|done|]. change (zlen (ack_packet _ 0 id) <=? 0) with false. cbv iota.
  rstep (runs_sent B t); [done|done|done|]. by apply total_ret.
Qed.

Lemma runs_cycle_ack B t v timer (type : msgTypes) dup id rest :
  client_ok B t v -> type = PUBREC \/ type = PUBREL -> v_in v = ack_packet type dup id ++ rest ->
  0 <= id < 65536 -> 4 <= buf_size (v_client v) ->
  runs v (cycle fuel no_timer uninit timer) type
    (sent B (ack_reply type id) (got B (ack_packet type dup id) rest v)).
Proof.
  intros Hok Hty Hin Hid Hsz. pose proof (ok_read_size _ _ _ Hok) as Hrs.
  assert (Hpkt : zlen (ack_packet type dup id) <= readbuf_size (v_client v)).
  { change (zlen (ack_packet type dup id)) with 4. lia. }
  pose proof (ok_sent B t _ (ack_reply type id) (ok_got B t v _ rest Hok Hpkt) Hsz) as Hokw.
  unfold cycle. rstep runs_read_packet; [exact Hok|exact Hin|by destruct Hty as [-> | ->]|done| |].
  { change (packet_size _) with 4. lia. }
  change (mqtt_packet _ _) with (ack_packet type dup id).
  destruct Hty as [-> | ->]; cbn [msg_code Z.eqb Pos.eqb orb].
  - rstep (runs_ack_step B t v timer PUBREC); [done|done|done|done|done|].
    exact (runs_cycle_done B t _ PUBREC Hokw).
  - rstep (runs_ack_step B t v timer PUBREL); [done|done|done|done|done|].
    exact (runs_cycle_done B t _ PUBREL Hokw).
Qed.
End CycleRuns.

(** ** Any input *)

Section CycleSafe.
Context {E Timer : Type} `{PS : PlatformSpec (MQTTClient Timer) E Timer MessageData} `{CharSign} `{!WholeWrites (MQTTClient Timer) E Timer MessageData}.
Abbreviation MC := (M (cworld E Timer)).
Implicit Types (v : view).
Variables (fuel : nat) (no_timer : Timer) (uninit : Z) (B : buffers) (t : list slot).
Hypothesis Hfuel : (2 <= fuel)%nat.
Hypothesis Hspare : 2 <= spare B.
Hypothesis Huninit : 0 <= uninit.

(** The receive buffer holds a packet with header byte [h]. *)
Definition holds_packet (w : view) (h : byte) : Prop :=
  exists body, bytes_at (v_mem w) (rb B) (ro B) (h :: remlen_bytes (zlen body) ++ body) /\
    zlen body <= REMLEN_MAX /\ packet_size (zlen body) <= readbuf_size (v_client w).

Lemma total_read_any v timer :
  client_ok B t v ->
  total v (readPacket timer) (fun rc w => client_ok B t w /\
    (rc <= 0 \/ exists h, rc = header_type (Z_of_byte h) /\ holds_packet w h)).
Proof.
  intros Hok. destruct (ok_read _ _ _ Hok) as (l & Hl & Ho & Hroom).
  pose proof (ok_read_size _ _ _ Hok) as Hsz.
  eapply total_mono; [apply (total_readPacket v timer (rb B) (ro B) l); try done; [apply Hok|lia]|].
  intros rc ? (w & tl & -> & Hw & Hcase).
  assert (Hsee : View (<[rb B := splice l (ro B) w]> (v_mem v)) (v_client v) tl (v_out v) (v_delivered v) =
    got B w tl v) by (unfold got; by rewrite (put_insert _ _ _ _ l)).
  rewrite Hsee. split; [by apply ok_got|]. destruct Hcase as [?|(h & body & Hrc & Hmax & ->)]; [by left|right].
  exists h. split; [done|]. exists body. split_and!; [by apply (got_bytes B t)|done|].
  change (v_client (got _ _ _ _)) with (v_client v). unfold packet_size. zlen_lia.
Qed.

Lemma parse_packet body : zlen body <= REMLEN_MAX ->
  parse_remlen 4 (remlen_bytes (zlen body) ++ body) = Some (zlen (remlen_bytes (zlen body)), zlen body).
Proof. intros. apply parse_remlen_bytes. lia. Qed.

Lemma safe_publish v h timer :
  client_ok B t v -> holds_packet v h ->
  total v (cycle_publish fuel uninit timer) (fun _ w => client_ok B t w).
Proof.
  intros Hok (body & Hat & Hmax & Hfits). destruct (ok_read _ _ _ Hok) as (l & Hl & Ho & Hroom).
  pose proof (remlen_bytes_short (zlen body) ltac:(lia)) as Hrb. unfold packet_size in Hfits.
  unfold cycle_publish. tget c Hc. apply untimed_members in Hc as (_ & _ & _ & _ & _ & Hrd & _).
  rewrite Hrd, (ok_readbuf _ _ _ Hok).
  set (start := ro B + 1 + zlen (remlen_bytes (zlen body))).
  tstep (total_reading _ _ (fun r : Z * publish_out => r.1 = 0 \/
    r.1 = 1 /\ publish_inside (rb B) start (start + zlen body) r.2)).
  { intros s Hs. rewrite <- Hs in *. destruct (deserialize_publish_any s (rb B) (ro B) l (publish_locals uninit)
      (i32 (readbuf_size c)) h _ _ _ Hl Hat (parse_packet body Hmax) ltac:(lia) ltac:(lia))
      as (rc & out & s' & Hrun & Hm & Hw & Hcase). exists (rc, out), s'. split_and!; try done; congruence. }
  intros [rc out] ? [-> Hcase]. cbn [fst snd] in Hcase.
  destruct Hcase as [->|(-> & Hnull & Hdata & Htlen & Hin & Hq & Hid & _)].
  { change (negb (0 =? 1)) with true. by apply total_ret. }
  change (negb (1 =? 1)) with false. cbv iota.
  destruct (bytes_at_any (v_mem v) (rb B) (start + 2) l (Z.to_nat (len (lenstring (pub_topicName out)))) Hl)
    as (n & Hn & Hnat); [lia..|].
  rstep (runs_deliverMessage v (rb B) (pub_topicName out) n _ t).
  { split; [done|]. split; [lia|]. by exists (start + 2). }
  { unfold INT_MAX. lia. }
  { apply Hok. }
  cbn [msg_qos msg_id]. set (w := deliver v _).
  assert (Hokw : client_ok B t w) by (by apply (ok_see _ _ v)).
  destruct (Z.eqb_spec (pub_qos out) QOS0) as [Hq0|Hq0]; cbn [negb]; [by apply total_ret|].
  specialize (Hid ltac:(unfold QOS0 in Hq0; lia)).
  tget c2 Hc2. apply untimed_members in Hc2 as (_ & _ & Hbs & _ & Hbuf & _). rewrite Hbs, Hbuf.
  rewrite (ok_sendbuf _ _ _ Hokw), (ok_i32_send _ _ _ Hokw).
  apply (total_step _ _ _ (fun n w' => (n <= 0 /\ w' = w) \/ exists reply, n = zlen reply /\ reply <> [] /\
    zlen reply <= buf_size (v_client w) /\ w' = put (sb B) (so B) reply w)).
  - assert (Hack : forall type, total w
      (MQTTSerialize_ack (Ptr (sb B) (so B)) (buf_size (v_client w)) type 0 (pub_packetid out) : MC Z)
      (fun n w' => (n <= 0 /\ w' = w) \/ exists reply, n = zlen reply /\ reply <> [] /\
        zlen reply <= buf_size (v_client w) /\ w' = put (sb B) (so B) reply w)).
    { intros type. eapply total_mono; [apply (total_ack B t); [done|lia]|].
      intros n' w' [(-> & -> & Hsz)|(? & -> & _)]; [right|by left]. by eexists. }
    destruct (pub_qos out =? QOS1); [apply Hack|]. destruct (pub_qos out =? QOS2); [apply Hack|].
    apply total_ret. by left.
  - intros n' ? [(Hn' & ->)|(reply & -> & Hne & Hfit & ->)].
    + rewrite (proj2 (Z.leb_le _ _) Hn'). by apply total_ret.
    + assert (0 < zlen reply) by (destruct reply; [done|simpl; lia]). test_false (zlen reply <=? 0).
      tstep (total_send_put B t); [done..|]. intros rc w' Hw'. apply total_ret.
      destruct Hw' as [(_ & ->)|(_ & -> & _)]; [by apply ok_sent|by apply ok_put_send].
Qed.

Lemma safe_ack v h type timer :
  client_ok B t v -> holds_packet v h ->
  total v (cycle_ack fuel uninit type timer) (fun _ w => client_ok B t w).
Proof.
  intros Hok (body & Hat & Hmax & Hfits). destruct (ok_read _ _ _ Hok) as (l & Hl & Ho & Hroom).
  pose proof (remlen_bytes_short (zlen body) ltac:(lia)) as Hrb. unfold packet_size in Hfits.
  unfold cycle_ack. tget c Hc. apply untimed_members in Hc as (_ & _ & Hbs & _ & Hbuf & Hrd & _).
  rewrite Hrd, Hbuf, Hbs, (ok_readbuf _ _ _ Hok), (ok_sendbuf _ _ _ Hok), (ok_i32_send _ _ _ Hok).
  tstep (total_reading _ _ (fun r : Z * ack_out => 0 <= ack_packetid r.2)).
  { intros s Hs. rewrite <- Hs in *.
    rewrite (deserialize_ack_frame s (rb B) (ro B) _ _ h _ _ _ Hat (parse_packet body Hmax) ltac:(lia)).
    cbv zeta. destruct (Z.ltb_spec (zlen body) 2); [by do 2 eexists|].
    destruct (readInt_total (cursor_moved s (rb B) (ro B + 1 + zlen (remlen_bytes (zlen body)))) (rb B)
      (ro B + 1 + zlen (remlen_bytes (zlen body))) l) as (id & Hid & Hrun); [done|lia|lia|].
    rewrite (bind_done _ _ _ _ _ Hrun). do 2 eexists. split_and!; [done..|]. cbn. unfold u16. divmod_lia. }
  intros [rc out] ? [-> Hid]. cbn [snd] in Hid. destruct (rc =? 1); cbn [negb]; [|by apply total_ret].
  tstep (total_ack B t); [done|done|]. intros n ? [(-> & -> & Hsz)|(Hn & -> & _)].
  - change (zlen (ack_packet _ 0 _) <=? 0) with false. cbv iota.
    tstep (total_send_put B t); [done..|]. intros rc' w' Hw'. apply total_ret.
    destruct Hw' as [(_ & ->)|(_ & -> & _)]; [by apply ok_sent|by apply ok_put_send].
  - rewrite (proj2 (Z.leb_le _ _) Hn). by apply total_ret.
Qed.

Lemma safe_cycle v timer :
  client_ok B t v -> total v (cycle fuel no_timer uninit timer) (cycle_safe_outcome B).
Proof.
  intros Hok. unfold cycle. tstep total_read_any; [exact Hok|]. intros rc w [Hokw Hcase].
  destruct (_ || _) eqn:Hplain.
  { apply (safe_end fuel no_timer Hfuel B t); [done|]. cbn [msg_code] in Hplain. lia. }
  destruct Hcase as [Hneg|(h & -> & Hpkt)].
  { assert (Hty : forall ty : msgTypes, (rc =? ty) = false) by (intros []; cbn; lia). rewrite !Hty. cbn [orb].
    apply (safe_exit B t); [done|]. intros ->. by rewrite Z.eqb_refl in Hplain. }
  destruct (_ =? PUBLISH).
  { tstep safe_publish; [done|done|]. intros [rc|] w' Hok'.
    - destruct (rc =? FAILURE) eqn:Hrc.
      + apply (safe_exit B t); [done|]. intros ->. done.
      + apply (safe_end fuel no_timer Hfuel B t); [done|]. apply bytes_range_type.
    - apply (safe_exit B t); [done|]. intros _. apply bytes_range_type. }
  destruct ((_ =? PUBREC) || _).
  { tstep safe_ack; [done|done|]. intros rc w' Hok'. destruct (rc =? FAILURE) eqn:Hrc.
    - apply (safe_exit B t); [done|]. intros ->. done.
    - apply (safe_end fuel no_timer Hfuel B t); [done|]. apply bytes_range_type. }
  destruct (_ =? PINGRESP).
  { rstep runs_set_ping. apply (safe_end fuel no_timer Hfuel B t); [by apply ok_pinged|]. apply bytes_range_type. }
  apply (safe_exit B t); [done|]. intros _. apply bytes_range_type.
Qed.
End CycleSafe.

(** ** Properties *)

Section CycleProperties.
Context {E Timer : Type} `{PS : PlatformSpec (MQTTClient Timer) E Timer MessageData} `{CharSign}.
Implicit Types (v : view).
Variables (fuel : nat) (no_timer : Timer) (uninit : Z) (B : buffers) (t : list slot).

(** C3: Whatever the network delivers, one call of cycle on a client with
    separate buffers, two readable bytes behind the receive buffer and a
    network that takes a packet whole or fails, terminates without undefined
    behaviour and keeps the client and its handler table well formed; if it
    reports an error the session is closed.  The two bytes are needed: a PUBLISH
    of QoS 1 or 2 that fills the buffer and has no identifier makes cycle read
    them ([cycle_overread]). *)
Theorem cycle_safe `{!WholeWrites (MQTTClient Timer) E Timer MessageData} v timer :
  (2 <= fuel)%nat -> 2 <= spare B -> 0 <= uninit -> client_ok B t v ->
  total v (cycle fuel no_timer uninit timer) (fun rc w =>
    (exists t', client_ok B t' w) /\ (rc < 0 -> isconnected (v_client w) = 0)).
Proof. intros. by apply (safe_cycle fuel no_timer uninit B t). Qed.

(** On a PUBLISH from the network, cycle hands the message to the handlers
    of its topic and answers QoS 0 with nothing, QoS 1 with PUBACK and QoS 2
    with PUBREC, each with the identifier of the packet. *)
Theorem cycle_publish_spec `{!Responsive (MQTTClient Timer) E Timer MessageData} v timer dup qos retained id topic payload rest :
  (2 <= fuel)%nat -> client_ok B t v -> v_in v = publish_packet dup qos retained id topic payload ++ rest ->
  0 <= qos < 3 -> 0 <= id < 65536 -> zlen topic <= 65535 ->
  zlen (publish_body qos id topic payload) <= REMLEN_MAX ->
  packet_size (zlen (publish_body qos id topic payload)) <= readbuf_size (v_client v) ->
  (0 < qos -> 4 <= buf_size (v_client v)) ->
  let out := publish_result (publish_locals uninit) (rb B) (ro B) dup qos retained id topic payload in
  let w := deliver (got B (publish_packet dup qos retained id topic payload) rest v)
             (to_receivers (pub_topicName out) (message_of out)
                (receivers topic t (defaultMessageHandler (v_client v)))) in
  runs v (cycle fuel no_timer uninit timer) PUBLISH
    (if qos =? QOS0 then w else sent B (publish_reply qos id) w).
Proof. intros Hfuel. by apply runs_cycle_publish. Qed.

(** The QoS 2 handshake: cycle answers PUBREC with PUBREL and PUBREL with
    PUBCOMP, with the identifier it received, and changes nothing else. *)
Theorem cycle_ack_spec `{!Responsive (MQTTClient Timer) E Timer MessageData} v timer (type : msgTypes) dup id rest :
  (2 <= fuel)%nat -> client_ok B t v -> type = PUBREC \/ type = PUBREL ->
  v_in v = ack_packet type dup id ++ rest -> 0 <= id < 65536 -> 4 <= buf_size (v_client v) ->
  runs v (cycle fuel no_timer uninit timer) type
    (sent B (ack_reply type id) (got B (ack_packet type dup id) rest v)).
Proof. intros Hfuel. by apply runs_cycle_ack. Qed.

(** keepalive does nothing while no timer has expired; otherwise it fails
    if a PINGREQ is outstanding, and else sends one PINGREQ, recorded as
    outstanding exactly when the network took it.  With the timers expired, a
    keep-alive interval set and a ping outstanding it always fails. *)
Theorem keepalive_spec `{!WholeWrites (MQTTClient Timer) E Timer MessageData} v :
  (2 <= fuel)%nat -> client_ok B t v ->
  total v (keepalive fuel no_timer) (fun rc w => keepalive_outcome B v rc w /\
    (Expired (MQTTClient Timer) E Timer MessageData -> c_keepAliveInterval (v_client v) <> 0 -> ping_outstanding (v_client v) <> 0 ->
     rc = FAILURE)).
Proof.
  intros Hfuel Hok. eapply total_mono; [by apply (total_keepalive fuel no_timer Hfuel B t)|].
  intros rc w Hw. split; [done|]. intros HX Hk Hp.
  destruct Hw as [(_ & _ & [?|[?|[? _]]])|(_ & _ & [(-> & _)|(? & _)])]; done.
Qed.
End CycleProperties.

(** ** Witnesses *)

Section CycleWitnesses.
#[local] Existing Instances char_is_unsigned ideal_platform ideal_spec ideal_responsive.

(* block 1: the send buffer, 2: the receive buffer with two spare bytes, 3: the filter "a/+" *)
Definition ex_buffers : buffers := {| sb := 1; so := 0; rb := 2; ro := 0; spare := 2 |}.
Definition ex_client (connected : Z) : MQTTClient Z :=
  Client 7 1000 32 32 (Ptr 1 0) (Ptr 2 0) 60 0 connected 1
    ({| topicFilter := Ptr 3 0; fp := Some 9%positive |} :: replicate 4 {| topicFilter := NULL; fp := None |})
    None 0 0.
Definition ex_slots : list slot := (Some (bytes [97; 47; 43]), Some 9%positive) :: replicate 4 (None, None).
Definition ex_client_state (incoming : list byte) : state (cworld plain_env Z) :=
  plain_state [replicate 32 (byte_of_Z 170); replicate 34 (byte_of_Z 187); bytes [97; 47; 43; 0]]
    (ex_client 1) incoming.

Ltac cstring_concrete :=
  do 2 eexists; split; [reflexivity|split; [bytes_at_concrete|]];
  intros Hin; apply list_elem_of_In in Hin; vm_compute in Hin; intuition discriminate.

Lemma ex_client_ok incoming : client_ok ex_buffers ex_slots (see (ex_client_state incoming)).
Proof.
  split; try done.
  - by exists (replicate 32 (byte_of_Z 170)).
  - by exists (replicate 34 (byte_of_Z 187)).
  - split; [|done]. repeat constructor; try done; cbn [topicFilter fst]; cstring_concrete.
  - cbn. repeat apply Forall_cons_2; try apply Forall_nil_2; intros b o [=]; by subst.
Qed.

(* a PUBLISH whose length field announces more than the buffer holds *)
Lemma cycle_safe_witness :
  total (see (ex_client_state (bytes [50; 255; 127; 1; 2; 3]))) (cycle 2 0 0 5) (fun rc w =>
    (exists t', client_ok ex_buffers t' w) /\ (rc < 0 -> isconnected (v_client w) = 0)).
Proof.
  apply (cycle_safe 2 0 0 ex_buffers ex_slots); [lia|done|done|apply ex_client_ok].
Defined.

(** A receive buffer of five bytes and nothing behind it: a PUBLISH of QoS 1 with the
    topic "a" and without an identifier is read past the end of the buffer. *)
Definition ex_tight_state : state (cworld plain_env Z) :=
  plain_state [replicate 32 (byte_of_Z 170); replicate 5 (byte_of_Z 187)]
    (Client 7 1000 32 5 (Ptr 1 0) (Ptr 2 0) 60 0 1 1
       (replicate 5 {| topicFilter := NULL; fp := None |}) None 0 0)
    (bytes [50; 3; 0; 1; 97]).
Lemma cycle_overread : cycle 2 0 0 5 ex_tight_state = Fault OutOfBounds.
Proof. vm_compute. reflexivity. Qed.

Lemma cycle_publish_spec_witness :
  let v := see (ex_client_state (publish_packet 0 1 0 5 (bytes [97; 47; 98]) (bytes [1; 2]) ++ bytes [208])) in
  exists w, runs v (cycle 2 0 0 5) PUBLISH w /\ v_in w = bytes [208] /\
    v_out w = ack_packet PUBACK 0 5 /\ fst <$> v_delivered w = [9%positive].
Proof.
  eexists. split; [apply (cycle_publish_spec 2 0 0 ex_buffers ex_slots _ 5 0 1 0 5 (bytes [97; 47; 98])
    (bytes [1; 2]) (bytes [208])); try done; apply ex_client_ok|].
  split_and!; [done|done|vm_compute; done].
Defined.

Lemma cycle_ack_spec_witness :
  let v := see (ex_client_state (ack_packet PUBREC 0 300 ++ bytes [208])) in
  exists w, runs v (cycle 2 0 0 5) PUBREC w /\ v_in w = bytes [208] /\ v_out w = ack_packet PUBREL 0 300.
Proof.
  eexists. split; [apply (cycle_ack_spec 2 0 0 ex_buffers ex_slots _ 5 PUBREC 0 300 (bytes [208]));
    try done; [apply ex_client_ok|by left]|done].
Defined.

Lemma keepalive_spec_witness :
  let v := pinged (see (ex_client_state [])) 1 in
  total (H := plain_observed) v (keepalive (H := plain_platform true None) 2 0) (fun rc w => rc = FAILURE).
Proof.
  pose proof (plain_platform_spec (C := MQTTClient Z) (D := MessageData) true None) as HP.
  assert (WholeWrites (MQTTClient Z) plain_env Z MessageData (H := plain_platform true None)).
  { intros bs t s rc s' _. cbn. unfold bind, ret, get_env, set_env. cbn. intros [= <- _]. by right. }
  eapply total_mono; [apply (keepalive_spec 2 0 ex_buffers ex_slots); [lia|]|].
  - apply ok_pinged, ex_client_ok.
  - intros rc w [_ Hx]. apply Hx; [apply plain_expired|done|done].
Defined.
End CycleWitnesses.
