(* ===== verification/ClientOps.v ===== *)
(** * The operations of the application

    Packet identifiers, and MQTTConnect, MQTTPublish, MQTTSubscribe and the
    like from the call to the last acknowledgement: the bytes they send, what
    they take from the network and the client they leave. *)

From S2P Require Import Prelude CMem MQTTPacket MQTTPublish MQTTConnect MQTTSubscribe PacketRead.
From S2P Require Import Platform MQTTClient Exchange TopicMatch ClientLogic Handlers Cycle.

(** ** Views *)

Definition next_id (c : MQTTClient unit) : Z :=
  if next_packetid c =? MAX_PACKET_ID then 1 else u32 (next_packetid c + 1).

(** A packet identifier has been taken. *)
Definition took_id (v : view) : view :=
  set_v_client v (set_next_packetid (v_client v) (next_id (v_client v))).

Definition with_session (v : view) (keepalive clean : Z) : view :=
  set_v_client v (set_session_options (v_client v) keepalive clean).

Definition connected (v : view) : view :=
  set_v_client v (set_ping_outstanding (set_isconnected (v_client v) 1) 0).

(** [close_on_failure] on views. *)
Definition close_if (rc : Z) (v : view) : view := if rc =? FAILURE then closed v else v.

Section OpsBasics.
Context {E Timer : Type} `{PS : PlatformSpec (MQTTClient Timer) E Timer MessageData} `{CharSign}.
Abbreviation MC := (M (cworld E Timer)).
Implicit Types (v : view) (B : buffers).

Lemma runs_next_id v : runs v (getNextPacketId : MC Z) (next_id (v_client v)) (took_id v).
Proof.
  unfold getNextPacketId. tget c Hc. apply untimed_members in Hc as (Hn & _). rewrite Hn.
  rstep (runs_update_client v _ (set_next_packetid (v_client v) (next_id (v_client v)))); [by intros c' <-|].
  by apply total_ret.
Qed.

Lemma total_command_timer v no_timer : total v (command_timer no_timer : MC Timer) (fun _ w => w = v).
Proof.
  unfold command_timer. tstep total_TimerInit. intros t ? ->. tget c Hc. apply total_TimerCountdownMS.
Qed.

Lemma runs_close_on_failure {A} v rc (a : A) :
  runs v (close_on_failure rc a : MC _) (rc, a) (close_if rc v).
Proof.
  unfold close_on_failure, close_if. destruct (rc =? FAILURE).
  - rstep runs_close. by apply total_ret.
  - tret. by apply total_ret.
Qed.

(** A serializer of MQTTPacket/src filling the send buffer: the packet is
    stored, or refused when it leaves no byte to spare. *)
Lemma runs_fill_send B t v (c : MC Z) wire total :
  client_ok B t v -> total <= buf_size (v_client v) -> zlen wire <= buf_size (v_client v) ->
  (forall s l, mem s = v_mem v -> mem s !! sb B = Some l -> 0 <= so B <= zlen l ->
     c s = if buf_size (v_client v) <? total then Done MQTTPACKET_BUFFER_TOO_SHORT s
           else if so B + zlen wire <=? zlen l
                then Done (zlen wire) (set_block s (sb B) (splice l (so B) wire)) else Fault OutOfBounds) ->
  runs v c (zlen wire) (put (sb B) (so B) wire v).
Proof.
  intros Hok Htot Hw Hc. destruct (ok_send _ _ _ Hok) as (l & Hl & Ho & Hroom).
  pose proof (ok_send_size _ _ _ Hok). apply (runs_fill _ _ _ l (buf_size (v_client v)) _ _ total); try done; try lia.
  intros s Hs Hb Hso. by apply Hc.
Qed.

Lemma ok_took_id B t v : client_ok B t v -> client_ok B t (took_id v).
Proof. intros []. by split. Qed.
Lemma ok_with_session B t v k c : client_ok B t v -> client_ok B t (with_session v k c).
Proof. intros []. by split. Qed.

Lemma next_id_range v : 0 <= next_packetid (v_client v) <= MAX_PACKET_ID -> 1 <= next_id (v_client v) <= MAX_PACKET_ID.
Proof.
  unfold next_id, MAX_PACKET_ID, u32. intros Hr. destruct (Z.eqb_spec (next_packetid (v_client v)) 65535); [lia|].
  rewrite Z.mod_small by lia. lia.
Qed.

End OpsBasics.

(** ** Waiting for an acknowledgement *)

Section Waiting.
Context {E Timer : Type} `{PS : PlatformSpec (MQTTClient Timer) E Timer MessageData} `{CharSign} `{!Responsive (MQTTClient Timer) E Timer MessageData}.
Abbreviation MC := (M (cworld E Timer)).
Implicit Types (v : view) (B : buffers).
Variables (fuel : nat) (no_timer : Timer) (uninit : Z).

Lemma runs_wait_hit v n rc packet_type timer w :
  runs v (cycle fuel no_timer uninit timer) packet_type w ->
  runs v (waitfor_loop fuel no_timer uninit (S n) rc packet_type timer) packet_type w.
Proof.
  intros Hc. cbn [waitfor_loop]. tstep total_TimerIsExpired. intros [] ? [-> He]; [done|].
  rstep Hc. rewrite Z.eqb_refl. by apply total_ret.
Qed.

Lemma runs_wait_next v n rc packet_type timer r w Q :
  runs v (cycle fuel no_timer uninit timer) r w -> r <> packet_type -> 0 <= r ->
  total w (waitfor_loop fuel no_timer uninit n r packet_type timer) Q ->
  total v (waitfor_loop fuel no_timer uninit (S n) rc packet_type timer) Q.
Proof.
  intros Hc Hne Hr Hw. cbn [waitfor_loop]. tstep total_TimerIsExpired. intros [] ? [-> He]; [done|].
  rstep Hc. rewrite (proj2 (Z.eqb_neq _ _) Hne), (proj2 (Z.leb_le _ _) Hr). exact Hw.
Qed.
End Waiting.

(** ** Connecting *)

Section Connecting.
Context {E Timer : Type} `{PS : PlatformSpec (MQTTClient Timer) E Timer MessageData} `{CharSign} `{!Responsive (MQTTClient Timer) E Timer MessageData}.
Abbreviation MC := (M (cworld E Timer)).
Implicit Types (v : view) (B : buffers).
Variables (fuel : nat) (no_timer : Timer) (uninit : Z).
Hypothesis Hfuel : (2 <= fuel)%nat.

(** waitfor, when the acknowledgement is the next packet. *)
Lemma runs_waitfor_plain B t v timer (type : msgTypes) dup qos retain body rest :
  client_ok B t v -> v_in v = mqtt_packet (mqtt_header type dup qos retain) body ++ rest ->
  type ∈ [CONNACK; PUBACK; SUBACK; UNSUBACK; PUBCOMP] ->
  zlen body <= REMLEN_MAX -> packet_size (zlen body) <= readbuf_size (v_client v) ->
  runs v (waitfor fuel no_timer uninit type timer) type
    (got B (mqtt_packet (mqtt_header type dup qos retain) body) rest v).
Proof.
  intros Hok Hin Hty Hmax Hfits. unfold waitfor. destruct fuel as [|n] eqn:Hn; [lia|].
  apply runs_wait_hit. rewrite <- Hn in *. by apply (runs_cycle_plain fuel no_timer uninit Hfuel B t).
Qed.

(** What the client sends and how it looks while it waits for CONNACK. *)
Definition connecting B (i : connect_info) v : view :=
  sent B (connect_wire i) (with_session v (ci_keepalive i) (ci_clean i)).

Definition connect_result (rc : Z) (v : view) : view := if rc =? SUCCESS then connected v else v.

Lemma runs_connect B t v opts i rc sp rest data :
  client_ok B t v -> isconnected (v_client v) = 0 ->
  options_denote (v_mem v) (sb B) opts i -> ci_version i = 3 \/ ci_version i = 4 ->
  0 <= ci_keepalive i -> connect_length i <= REMLEN_MAX ->
  packet_size (connect_length i) < buf_size (v_client v) ->
  v_in v = connack_packet rc sp ++ rest -> 0 <= rc < 256 ->
  runs v (MQTTConnectWithResults fuel no_timer uninit (Some opts) data)
    (rc, {| connack_rc := rc; connack_sessionPresent := sp mod 2 |})
    (connect_result rc (got B (connack_packet rc sp) rest (connecting B i v))).
Proof.
  intros Hok Hdis Hopts Hver Hkeep Hlen Hfits Hin Hrc.
  pose proof (ok_read_size _ _ _ Hok) as Hrs. pose proof Hopts as (_ & Hclean & Hka & _).
  assert (Hwire : zlen (connect_wire i) = packet_size (connect_length i)).
  { unfold connect_wire, packet_size. rewrite length_cons, length_app. rewrite <- (connect_body_length i Hver). lia. }
  unfold MQTTConnectWithResults. tget c Hc.
  apply untimed_members in Hc as (_ & _ & _ & _ & _ & _ & _ & _ & -> & _). rewrite Hdis.
  change (negb (0 =? 0)) with false. cbv beta iota zeta.
  tstep total_command_timer. intros timer ? ->.
  rstep (runs_update_client v _ (set_session_options (v_client v) (keepAliveInterval opts) (cleansession opts)));
    [by intros c' <-|].
  rewrite Hka, Hclean. change (set_v_client v _) with (with_session v (ci_keepalive i) (ci_clean i)).
  set (v1 := with_session v (ci_keepalive i) (ci_clean i)).
  assert (Hok1 : client_ok B t v1) by by apply ok_with_session.
  assert (Hbs1 : buf_size (v_client v1) = buf_size (v_client v)) by done.
  tget c1 Hc1. tstep total_TimerCountdown. intros t1 ? ->. rstep runs_set_timer; [done|].
  apply untimed_members in Hc1 as (_ & _ & Hbs & _ & Hbuf & _). rewrite Hbs, Hbuf.
  rewrite (ok_sendbuf _ _ _ Hok1), (ok_i32_send _ _ _ Hok1).
  rstep (runs_fill_send B t v1 _ (connect_wire i) (packet_size (connect_length i) + 1));
    [done|rewrite Hbs1; lia|rewrite Hbs1; lia| |].
  { intros s l Hs Hl Hso. destruct (serialize_connect_run s (sb B) (so B) l (buf_size (v_client v1)) opts i)
      as (total & Htot & Hrun); [done|done|by rewrite Hs|done|done|]. rewrite Hrun.
    rewrite Hbs1. by rewrite !(proj2 (Z.ltb_ge _ _)) by lia. }
  assert (0 < zlen (connect_wire i)) by (unfold connect_wire; simpl; lia).
  test_false (zlen (connect_wire i) <=? 0).
  rstep (runs_sent fuel Hfuel B t); [done|done|change (zlen (connect_wire i) <= buf_size (v_client v)); lia|].
  change (negb (SUCCESS =? SUCCESS)) with false. cbv iota.
  change (sent B (connect_wire i) v1) with (connecting B i v). set (v2 := connecting B i v).
  assert (Hrs2 : readbuf_size (v_client v2) = readbuf_size (v_client v)) by done.
  assert (Hok2 : client_ok B t v2) by (apply ok_sent; [done|fold v1; rewrite Hbs1; lia]).
  rstep (runs_waitfor_plain B t v2 timer CONNACK 0 0 0 _ rest);
    [done|exact Hin|repeat constructor|done|change (packet_size _) with 4; rewrite Hrs2; lia|].
  change (mqtt_packet _ _) with (connack_packet rc sp). rewrite Z.eqb_refl.
  set (w := got B (connack_packet rc sp) rest v2).
  assert (Hpkt : zlen (connack_packet rc sp) <= readbuf_size (v_client v2)).
  { change (zlen (connack_packet rc sp)) with 4. rewrite Hrs2. lia. }
  pose proof (ok_got B t v2 _ rest Hok2 Hpkt) as Hokw. fold w in Hokw.
  pose proof (got_bytes B t v2 _ rest Hok2 Hpkt) as Hat. fold w in Hat.
  tget c2 Hc2. apply untimed_members in Hc2 as (_ & _ & _ & _ & _ & Hrd & _).
  rewrite Hrd, (ok_readbuf _ _ _ Hokw).
  rstep (runs_reading _ _ (1, (sp mod 2, rc))).
  { intros s Hs. eexists. split; [apply (deserialize_connack_packet s (rb B) (ro B) _ _ rc sp []); [|done]|done].
    by rewrite app_nil_r, Hs. }
  change (1 =? 1) with true. cbn [connack_rc fst snd]. unfold connect_result.
  destruct (rc =? SUCCESS).
  - rstep (runs_update_client w _ (set_ping_outstanding (set_isconnected (v_client w) 1) 0)); [by intros c' <-|].
    by apply total_ret.
  - tret. by apply total_ret.
Qed.
End Connecting.

(** ** Publishing *)

Section Publishing.
Context {E Timer : Type} `{PS : PlatformSpec (MQTTClient Timer) E Timer MessageData} `{CharSign} `{!Responsive (MQTTClient Timer) E Timer MessageData}.
Abbreviation MC := (M (cworld E Timer)).
Implicit Types (v : view) (B : buffers).
Variables (fuel : nat) (no_timer : Timer) (uninit : Z).
Hypothesis Hfuel : (2 <= fuel)%nat.

(** The message with its identifier, and the client after taking one. *)
Definition numbered (msg : MQTTMessage) (v : view) : MQTTMessage :=
  if (msg_qos msg =? QOS1) || (msg_qos msg =? QOS2) then
    {| msg_qos := msg_qos msg; msg_retained := msg_retained msg; msg_dup := msg_dup msg;
       msg_id := next_id (v_client v); msg_payload := msg_payload msg;
       msg_payloadlen := msg_payloadlen msg |}
  else msg.
Definition numbered_view (msg : MQTTMessage) (v : view) : view :=
  if (msg_qos msg =? QOS1) || (msg_qos msg =? QOS2) then took_id v else v.

(** The PUBLISH packet of a message. *)
Definition publish_of (msg : MQTTMessage) (topic payload : list byte) : list byte :=
  publish_packet 0 (msg_qos msg) (msg_retained msg) (msg_id msg) topic payload.

(** What the client makes of the acknowledgements of the broker. *)
Definition acked_view (B : buffers) (qos id1 id2 : Z) (rest : list byte) (v : view) : view :=
  if qos =? QOS1 then got B (ack_packet PUBACK 0 id2) rest v
  else if qos =? QOS2 then
    got B (ack_packet PUBCOMP 0 id2) rest
      (sent B (ack_packet PUBREL 0 id1)
         (got B (ack_packet PUBREC 0 id1) (ack_packet PUBCOMP 0 id2 ++ rest) v))
  else v.

(** The end of a publish: the last acknowledgement is the next packet. *)
Lemma runs_publish_ack B t v (type : msgTypes) id rest rc :
  client_ok B t v -> type ∈ [CONNACK; PUBACK; SUBACK; UNSUBACK; PUBCOMP] -> 0 <= id < 65536 ->
  let w := got B (ack_packet type 0 id) rest v in
  total w (let* c := get_client in
           let* (ok, _) := MQTTDeserialize_ack (ack_locals uninit) (readbuf c) (i32 (readbuf_size c)) in
           ret (if negb (ok =? 1) then FAILURE else rc) : MC Z) (fun r w' => r = rc /\ w' = w).
Proof.
  intros Hok Hty Hid w. pose proof (ok_read_size _ _ _ Hok).
  assert (Hpkt : zlen (ack_packet type 0 id) <= readbuf_size (v_client v)).
  { change (zlen (ack_packet type 0 id)) with 4. lia. }
  pose proof (ok_got B t v _ rest Hok Hpkt) as Hokw. fold w in Hokw.
  pose proof (got_bytes B t v _ rest Hok Hpkt) as Hat. fold w in Hat.
  tget c Hc. apply untimed_members in Hc as (_ & _ & _ & _ & _ & Hrd & _).
  rewrite Hrd, (ok_readbuf _ _ _ Hokw).
  rstep (runs_reading _ _ (1, {| ack_packettype := type; ack_dup := 0; ack_packetid := id |})).
  { intros s Hs. eexists. split; [apply (deserialize_ack_packet s (rb B) (ro B) _ _ type 0 id []);
      [|by destruct type|done]|done]. by rewrite app_nil_r, Hs. }
  by apply total_ret.
Qed.

Lemma runs_publish_wait B t v timer (type : msgTypes) id rest rc :
  client_ok B t v -> type ∈ [CONNACK; PUBACK; SUBACK; UNSUBACK; PUBCOMP] -> 0 <= id < 65536 ->
  v_in v = ack_packet type 0 id ++ rest ->
  runs v (publish_wait fuel no_timer uninit type rc timer) rc (got B (ack_packet type 0 id) rest v).
Proof.
  intros Hok Hty Hid Hin. pose proof (ok_read_size _ _ _ Hok). unfold publish_wait.
  rstep (runs_waitfor_plain fuel no_timer uninit Hfuel B t v timer type); [done|exact Hin|done|done| |].
  { change (packet_size _) with 4. lia. }
  rewrite Z.eqb_refl. change (mqtt_packet _ _) with (ack_packet type 0 id).
  by apply (runs_publish_ack B t).
Qed.

(** QoS 2: PUBREC is answered with PUBREL inside waitfor. *)
Lemma runs_publish_wait2 B t v timer id1 id2 rest rc :
  client_ok B t v -> 0 <= id1 < 65536 -> 0 <= id2 < 65536 -> 4 <= buf_size (v_client v) ->
  v_in v = ack_packet PUBREC 0 id1 ++ ack_packet PUBCOMP 0 id2 ++ rest ->
  runs v (publish_wait fuel no_timer uninit PUBCOMP rc timer) rc
    (got B (ack_packet PUBCOMP 0 id2) rest
      (sent B (ack_packet PUBREL 0 id1)
         (got B (ack_packet PUBREC 0 id1) (ack_packet PUBCOMP 0 id2 ++ rest) v))).
Proof.
  intros Hok Hid1 Hid2 Hsz Hin. pose proof (ok_read_size _ _ _ Hok).
  set (v1 := sent B (ack_packet PUBREL 0 id1) _).
  assert (Hok1 : client_ok B t v1).
  { apply ok_sent; [|exact Hsz]. apply ok_got; [done|]. change (zlen (ack_packet PUBREC 0 id1)) with 4. lia. }
  unfold publish_wait. apply (total_step _ _ _ (fun (r : Z) w => r = PUBCOMP /\ w = got B (ack_packet PUBCOMP 0 id2) rest v1)).
  - assert (Hloop : forall k, (2 <= k)%nat -> runs v (waitfor_loop fuel no_timer uninit k FAILURE PUBCOMP timer)
      (msg_code PUBCOMP) (got B (ack_packet PUBCOMP 0 id2) rest v1)); [|by apply Hloop].
    intros [|[|k]] Hk; [lia..|].
    eapply runs_wait_next; [apply (runs_cycle_ack fuel no_timer uninit Hfuel B t v timer PUBREC 0 id1);
      [done|by left|exact Hin|done|done]|done|done|].
    change (sent B (ack_reply PUBREC id1) _) with v1. apply runs_wait_hit.
    apply (runs_cycle_plain fuel no_timer uninit Hfuel B t v1 timer PUBCOMP 0 0 0 (int_bytes id2) rest);
      [done|done|repeat constructor|done|change (packet_size _) with 4; change (v_client v1) with (v_client v); lia].
  - intros r w [-> ->]. rewrite Z.eqb_refl. apply (runs_publish_ack B t); [done|repeat constructor|done].
Qed.

(** What a call of MQTTPublish requires of its arguments. *)
Record publish_args B v (topic : ptr) (msg : MQTTMessage) (name payload : list byte) : Prop := {
  pa_topic : cstring_at (v_mem v) topic name;
  pa_apart : forall b o, topic = Ptr b o -> b <> sb B;
  pa_payload : payload_is (v_mem v) (sb B) (msg_payload msg) payload;
  pa_length : msg_payloadlen msg = zlen payload;
  pa_qos : 0 <= msg_qos msg < 3;
  pa_id : 0 <= msg_id msg;
  pa_next : 0 <= next_packetid (v_client v) <= MAX_PACKET_ID;
  pa_fits : packet_size (zlen (publish_body (msg_qos msg) 0 name payload)) < buf_size (v_client v);
  pa_max : zlen (publish_body (msg_qos msg) 0 name payload) <= REMLEN_MAX
}.

Lemma runs_publish B t v topic msg name payload id1 id2 rest :
  client_ok B t v -> isconnected (v_client v) <> 0 -> publish_args B v topic msg name payload ->
  0 <= id1 < 65536 -> 0 <= id2 < 65536 -> v_in v = broker_acks (msg_qos msg) id1 id2 ++ rest ->
  let msg' := numbered msg v in
  runs v (MQTTPublish fuel no_timer uninit topic msg) (SUCCESS, msg')
    (acked_view B (msg_qos msg) id1 id2 rest (sent B (publish_of msg' name payload) (numbered_view msg v))).
Proof.
  intros Hok Hcon Hargs Hid1 Hid2 Hin msg'. destruct Hargs as [Htopic Hapart Hpl Hlen Hq Hid Hnext Hfits Hmax].
  pose proof (next_id_range v Hnext) as Hni. unfold MAX_PACKET_ID in Hni.
  unfold MQTTPublish. tget c Hc. apply untimed_members in Hc as (_ & _ & Hbs & _ & Hbuf & _ & _ & _ & Hisc & _).
  rewrite Hisc, Hbs, Hbuf, (proj2 (Z.eqb_neq _ _) Hcon). tstep total_command_timer. intros timer ? ->.
  apply (total_step _ _ _ (fun m w => m = msg' /\ w = numbered_view msg v)).
  { unfold msg', numbered, numbered_view. destruct (_ || _); [|by apply total_ret].
    rstep runs_next_id. rewrite u16_small by lia. by apply total_ret. }
  intros m v1 [-> ->]. set (v1 := numbered_view msg v).
  assert (Hok1 : client_ok B t v1).
  { unfold v1, numbered_view. destruct (_ || _); [by apply ok_took_id|done]. }
  assert (Hv1 : v_mem v1 = v_mem v /\ v_in v1 = v_in v /\ buf_size (v_client v1) = buf_size (v_client v) /\
    readbuf_size (v_client v1) = readbuf_size (v_client v)).
  { unfold v1, numbered_view. by destruct (_ || _). }
  destruct Hv1 as (Hm1 & Hin1 & Hbs1 & Hrs1).
  assert (Hmsg : msg_qos msg' = msg_qos msg /\ msg_retained msg' = msg_retained msg /\
    msg_payload msg' = msg_payload msg /\ msg_payloadlen msg' = zlen payload /\ 0 <= msg_id msg').
  { unfold msg', numbered. destruct (_ || _); cbn; split_and!; done || lia. }
  destruct Hmsg as (Hmq & Hmr & Hmp & Hml & Hmid). rewrite Hmq, Hmr, Hmp, Hml.
  rewrite (publish_body_id _ 0 (msg_id msg')) in Hfits, Hmax.
  rewrite <- Hbs1. rewrite (ok_sendbuf _ _ _ Hok), (ok_i32_send _ _ _ Hok1).
  set (wire := publish_of msg' name payload).
  assert (Hwire : zlen wire = packet_size (zlen (publish_body (msg_qos msg) (msg_id msg') name payload))).
  { unfold wire, publish_of. rewrite Hmq. apply publish_packet_length. }
  unfold REMLEN_MAX in Hmax. pose proof (publish_body_length (msg_qos msg) (msg_id msg') name payload).
  rewrite i32_small by (unfold INT_MIN, INT_MAX; destruct (0 <? msg_qos msg); lia).
  rstep (runs_fill_send B t v1 _ wire (zlen wire + 1)); [done|lia|lia| |].
  { intros s l Hs Hl Hso. destruct (serialize_publish_run s (sb B) (so B) l (buf_size (v_client v1)) 0
      (msg_qos msg) (msg_retained msg) (msg_id msg') (cstring_topic topic) name (msg_payload msg) payload)
      as (total & Htot & Hrun); try done.
    - apply mqttstring_cstring; [by rewrite Hs, Hm1|done].
    - by rewrite Hs, Hm1.
    - assert (Hwe : publish_packet 0 (msg_qos msg) (msg_retained msg) (msg_id msg') name payload = wire)
        by (unfold wire, publish_of; by rewrite Hmq, Hmr).
      rewrite Hrun, Hwe. cbv zeta. by rewrite !(proj2 (Z.ltb_ge _ _)) by lia. }
  assert (0 < zlen wire) by (unfold wire, publish_of, publish_packet, mqtt_packet; simpl; lia).
  test_false (zlen wire <=? 0).
  rstep (runs_sent fuel Hfuel B t); [done|done|lia|]. change (negb (SUCCESS =? SUCCESS)) with false. cbv iota.
  set (v2 := sent B wire v1). assert (Hok2 : client_ok B t v2) by (apply ok_sent; [done|lia]).
  assert (Hin2 : v_in v2 = v_in v) by done. rewrite Hin in Hin2.
  apply (total_step _ _ _ (fun (r : Z) w => r = SUCCESS /\ w = acked_view B (msg_qos msg) id1 id2 rest v2)).
  - unfold acked_view, broker_acks in *. destruct (Z.eqb_spec (msg_qos msg) QOS1).
    { apply (runs_publish_wait B t); [done|repeat constructor|done|done]. }
    destruct (Z.eqb_spec (msg_qos msg) QOS2); [|by apply total_ret].
    assert (4 <= buf_size (v_client v2)).
    { change (4 <= buf_size (v_client v1)). rewrite Hbs1. unfold packet_size, QOS2 in *.
      rewrite (proj2 (Z.ltb_lt 0 _)) in * by lia. lia. }
    apply (runs_publish_wait2 B t); [done..|]. by rewrite <- app_assoc in Hin2.
  - intros r w [-> ->]. eapply total_mono; [apply runs_close_on_failure|]. by intros ? ? [-> ->].
Qed.
End Publishing.


(** ** Subscribing *)

Section Subscribing.
Context {E Timer : Type} `{PS : PlatformSpec (MQTTClient Timer) E Timer MessageData} `{CharSign} `{!Responsive (MQTTClient Timer) E Timer MessageData}.
Abbreviation MC := (M (cworld E Timer)).
Implicit Types (v : view) (B : buffers).
Variables (fuel : nat) (no_timer : Timer) (uninit : Z).
Hypothesis Hfuel : (2 <= fuel)%nat.

(** A filter of the application, outside the buffers. *)
Definition filter_arg B v (filter : ptr) (f : list byte) : Prop :=
  cstring_at (v_mem v) filter f /\ zlen f <= 65535 /\
  forall b o, filter = Ptr b o -> b <> sb B /\ b <> rb B.

Lemma filter_arg_mem B v w filter f :
  filter_arg B v filter f -> (forall b, b <> sb B -> b <> rb B -> v_mem w !! b = v_mem v !! b) ->
  filter_arg B w filter f.
Proof.
  intros (Hf & Hmax & Hap) Hmem. split_and!; try done. eapply cstring_at_same; [|exact Hf].
  intros b o Hb. by destruct (Hap b o Hb); apply Hmem.
Qed.

Lemma sent_mem B w v b : b <> sb B -> v_mem (sent B w v) !! b = v_mem v !! b.
Proof. intros Hb. change (v_mem (sent B w v)) with (v_mem (put (sb B) (so B) w v)). by apply put_other. Qed.
Lemma got_mem B p rest v b : b <> rb B -> v_mem (got B p rest v) !! b = v_mem v !! b.
Proof. intros Hb. change (v_mem (got B p rest v)) with (v_mem (put (rb B) (ro B) p v)). by apply put_other. Qed.

(** The exchange up to the acknowledgement [ack]. *)
Definition exchanged B (request ack rest : list byte) v : view := got B ack rest (sent B request (took_id v)).

Lemma exchanged_filter B v request ack rest filter f :
  filter_arg B v filter f -> filter_arg B (exchanged B request ack rest v) filter f.
Proof.
  intros Hf. eapply filter_arg_mem; [exact Hf|]. intros b Hs Hr. unfold exchanged.
  by rewrite got_mem, sent_mem.
Qed.

(** What MQTTSubscribeWithResults returns and leaves after a grant of [g]. *)
Definition subscribe_outcome t f handler g v (r : Z * Z) (w : view) : Prop :=
  if g =? SUBFAIL then r = (SUCCESS, g) /\ w = v
  else exists hs, r = ((set_table f handler t).1, g) /\ table_is (v_mem v) hs (set_table f handler t).2 /\
         w = close_if (set_table f handler t).1 (with_handlers v hs).

Lemma total_subscribe B t v filter f qos handler g0 id q rest :
  client_ok B t v -> isconnected (v_client v) <> 0 -> filter_arg B v filter f ->
  0 <= next_packetid (v_client v) <= MAX_PACKET_ID ->
  packet_size (zlen (subscribe_body 0 [(f, qos)])) < buf_size (v_client v) ->
  v_in v = suback_packet id [q] ++ rest -> 0 <= id < 65536 ->
  total v (MQTTSubscribeWithResults fuel no_timer uninit filter qos handler g0)
    (subscribe_outcome t f handler (to_char q)
       (exchanged B (subscribe_wire (next_id (v_client v)) f qos) (suback_packet id [q]) rest v)).
Proof.
  intros Hok Hcon Hf Hnext Hfits Hin Hid. pose proof Hf as (Hfs & Hfmax & Hap).
  pose proof (next_id_range v Hnext) as Hni. unfold MAX_PACKET_ID in Hni. set (nid := next_id (v_client v)) in *.
  pose proof (ok_read_size _ _ _ Hok) as Hrs.
  unfold MQTTSubscribeWithResults. tget c Hc.
  apply untimed_members in Hc as (_ & _ & Hbs & _ & Hbuf & _ & _ & _ & Hisc & _).
  rewrite Hisc, Hbs, Hbuf, (proj2 (Z.eqb_neq _ _) Hcon). tstep total_command_timer. intros timer ? ->.
  rstep runs_next_id. fold nid. set (v1 := took_id v). assert (Hok1 : client_ok B t v1) by by apply ok_took_id.
  assert (Hbs1 : buf_size (v_client v1) = buf_size (v_client v)) by done.
  rewrite (ok_sendbuf _ _ _ Hok), <- Hbs1, (ok_i32_send _ _ _ Hok1), u16_small by lia.
  set (wire := subscribe_wire nid f qos).
  assert (Hbody : zlen (subscribe_body nid [(f, qos)]) = 5 + zlen f).
  { rewrite subscribe_body_length. cbn [entries_bytes fst snd]. rewrite length_app.
    change (length [_]) with 1%nat. pose proof (utf_bytes_length f). lia. }
  assert (Hbody0 : zlen (subscribe_body 0 [(f, qos)]) = 5 + zlen f).
  { rewrite subscribe_body_length. cbn [entries_bytes fst snd]. rewrite length_app.
    change (length [_]) with 1%nat. pose proof (utf_bytes_length f). lia. }
  rewrite Hbody0 in Hfits.
  assert (Hwire : zlen wire = packet_size (5 + zlen f)).
  { unfold wire, subscribe_wire, subscribe_packet. by rewrite mqtt_packet_size, Hbody. }
  rstep (runs_fill_send B t v1 _ wire (zlen wire + 1)); [done|lia|lia| |].
  { intros s l Hs Hl Hso. destruct (serialize_subscribe_run s (sb B) (so B) l (buf_size (v_client v1)) 0 nid
      [cstring_topic filter] [(f, qos)]) as (total & Htot & Hrun); try done; try lia.
    - constructor; [|constructor]. cbn [fst]. apply mqttstring_cstring; [by rewrite Hs|]. intros b o Hb.
      by destruct (Hap b o Hb).
    - rewrite Hbody. unfold REMLEN_MAX. lia.
    - rewrite Hbody in Htot. etrans; [exact Hrun|]. change (subscribe_packet 0 nid [(f, qos)]) with wire.
      cbv zeta. by rewrite !(proj2 (Z.ltb_ge _ _)) by lia. }
  assert (0 < zlen wire) by (unfold wire, subscribe_wire, subscribe_packet, mqtt_packet; simpl; lia).
  test_false (zlen wire <=? 0).
  rstep (runs_sent fuel Hfuel B t); [done|done|lia|]. change (negb (SUCCESS =? SUCCESS)) with false. cbv iota.
  set (v2 := sent B wire v1). assert (Hok2 : client_ok B t v2) by (apply ok_sent; [done|lia]).
  assert (Hrs2 : readbuf_size (v_client v2) = readbuf_size (v_client v)) by done.
  rstep (runs_waitfor_plain fuel no_timer uninit Hfuel B t v2 timer SUBACK 0 0 0 _ rest);
    [done|exact Hin|repeat constructor|done|change (packet_size _) with 5; lia|].
  change (mqtt_packet _ _) with (suback_packet id [q]). rewrite Z.eqb_refl.
  assert (Hpkt : zlen (suback_packet id [q]) <= readbuf_size (v_client v2)) by (change (zlen (suback_packet id [q])) with 5; lia).
  pose proof (exchanged_filter B v wire (suback_packet id [q]) rest filter f Hf) as Hf3.
  change (got B (suback_packet id [q]) rest v2) with (exchanged B wire (suback_packet id [q]) rest v) in *.
  set (w := exchanged B wire (suback_packet id [q]) rest v) in *.
  assert (Hokw : client_ok B t w) by exact (ok_got B t v2 _ rest Hok2 Hpkt).
  assert (Hat : bytes_at (v_mem w) (rb B) (ro B) (suback_packet id [q])) by exact (got_bytes B t v2 _ rest Hok2 Hpkt).
  tget c2 Hc2. apply untimed_members in Hc2 as (_ & _ & _ & _ & _ & Hrd & _).
  rewrite Hrd, (ok_readbuf _ _ _ Hokw). rstep runs_read_suback; [exact Hat|done|].
  cbn [grantedQoSs]. rstep (runs_arr_get w [to_char q] 0 (to_char q)); [done|].
  unfold subscribe_outcome. change (1 =? 1) with true. cbn [andb]. destruct (to_char q =? SUBFAIL); cbn [negb].
  - eapply total_mono; [apply runs_close_on_failure|]. by intros r w' [-> ->].
  - destruct Hf3 as (Hfs3 & _ & _).
    tstep (runs_set_message_handler w t filter f handler); [apply Hokw|done|unfold INT_MAX; lia|].
    intros rc w' (hs & -> & -> & Htab). eapply total_mono; [apply runs_close_on_failure|].
    intros r w' [-> ->]. by exists hs.
Qed.
End Subscribing.

(** ** A network that takes a packet in parts *)

Section PartialWrites.
Context {E Timer : Type} `{PS : PlatformSpec (MQTTClient Timer) E Timer MessageData}.

(** Time never runs out, and a write takes at most [n] bytes. *)
Definition partial_writes (n : Z) : Prop :=
  (forall t s e s', TimerIsExpired t s = Done e s' -> e = false) /\
  (forall bs t s rc s', mqttwrite bs t s = Done rc s' -> rc = Z.min n (zlen bs)).

Lemma send_partial_run fuel v b o l pkt n timer s :
  (2 <= fuel)%nat -> buf (v_client v) = Ptr b o -> v_mem v !! b = Some l -> bytes_at (v_mem v) b o pkt ->
  0 < n < zlen pkt -> zlen l < o + n + zlen pkt -> zlen pkt <= INT_MAX ->
  partial_writes n -> see s = v -> sendPacket fuel (zlen pkt) timer s = Fault OutOfBounds.
Proof.
  unfold INT_MAX. intros Hfuel Hbuf Hb Hat Hn Hl Hmax [Hexp Hwrite] Hs.
  assert (Hne : pkt <> []) by (intros ->; simpl in Hn; lia).
  pose proof (bytes_at_nonneg _ _ _ _ Hat). unfold sendPacket. apply bind_fault.
  destruct fuel as [|[|k]]; [lia..|]. remember (S k) as k' eqn:Hk'. cbn [send_loop].
  test_true (0 <? zlen pkt). rewrite bind_assoc.
  destruct (total_TimerIsExpired v timer s Hs) as (e & s1 & Hrun1 & Hs1 & _).
  rewrite (bind_done _ _ _ _ _ Hrun1). rewrite (Hexp _ _ _ _ Hrun1). run_ret. cbn [negb].
  unfold bind at 1, get_client at 1. assert (Hc1 : buf (client (world s1)) = Ptr b o) by (by rewrite <- Hbuf, <- Hs1).
  rewrite Hc1. destruct (total_TimerLeftMS v timer s1 Hs1) as (tm & s2 & Hrun2 & Hs2).
  rewrite (bind_done _ _ _ _ _ Hrun2). unfold net_write at 1. rewrite bind_assoc. cbn [padd]. rewrite Z.add_0_r.
  destruct (runs_load_packet v b o pkt (zlen pkt) Hat Hne eq_refl s2 Hs2) as (bs & s3 & Hrun3 & -> & Hs3).
  rewrite (bind_done _ _ _ _ _ Hrun3). destruct (total_mqttwrite v pkt tm s3 Hs3) as (rc & s4 & Hrun4 & _ & Hs4).
  rewrite (bind_done _ _ _ _ _ Hrun4). rewrite (Hwrite _ _ _ _ _ Hrun4), Z.min_l by lia.
  test_false (n <? 0). rewrite Z.add_0_l, bind_int by (unfold INT_MIN, INT_MAX; lia).
  subst k'. cbn [send_loop]. test_true (n <? zlen pkt). rewrite bind_assoc.
  destruct (total_TimerIsExpired _ timer s4 Hs4) as (e5 & s5 & Hrun5 & Hs5 & _).
  rewrite (bind_done _ _ _ _ _ Hrun5). rewrite (Hexp _ _ _ _ Hrun5). run_ret. cbn [negb].
  unfold bind at 1, get_client at 1. assert (Hc5 : buf (client (world s5)) = Ptr b o).
  { rewrite <- Hbuf. change (buf (v_client (see s5)) = buf (v_client v)). by rewrite Hs5. }
  rewrite Hc5. destruct (total_TimerLeftMS _ timer s5 Hs5) as (tm6 & s6 & Hrun6 & Hs6).
  rewrite (bind_done _ _ _ _ _ Hrun6). apply bind_fault. unfold net_write. apply bind_fault. cbn [padd].
  unfold load_bytes. assert (Hb6 : mem s6 !! b = Some l).
  { change (v_mem (see s6) !! b = Some l). by rewrite Hs6. }
  rewrite Hb6. replace ((0 <=? o + n) && (o + n + zlen pkt <=? zlen l)) with false by lia. done.
Qed.
End PartialWrites.

(** ** Packet identifiers *)

Section PacketIds.
Context {E Timer : Type} `{PS : PlatformSpec (MQTTClient Timer) E Timer MessageData}.
Abbreviation MC := (M (cworld E Timer)).
Implicit Types (v : view).

(** [n] identifiers in a row. *)
Fixpoint take_ids (n : nat) : MC (list Z) :=
  match n with
  | O => ret []
  | S n => let* id := getNextPacketId in let* ids := take_ids n in ret (id :: ids)
  end.

Definition id_after (p : Z) (i : nat) : Z := (p + Z.of_nat i) mod MAX_PACKET_ID + 1.

Lemma next_id_after v :
  0 <= next_packetid (v_client v) <= MAX_PACKET_ID ->
  next_id (v_client v) = id_after (next_packetid (v_client v)) 0.
Proof.
  unfold next_id, id_after, MAX_PACKET_ID, u32. intros Hr.
  destruct (Z.eqb_spec (next_packetid (v_client v)) 65535); divmod_lia.
Qed.

Lemma take_ids_run n v :
  0 <= next_packetid (v_client v) <= MAX_PACKET_ID ->
  total v (take_ids n) (fun ids _ => ids = id_after (next_packetid (v_client v)) <$> seq 0 n).
Proof.
  revert v. induction n as [|n IH]; intros v Hr; cbn [take_ids]; [by apply total_ret|].
  pose proof (next_id_range v Hr) as Hni. rstep runs_next_id.
  tstep (IH (took_id v)); [cbn; lia|]. intros ids w ->. apply total_ret. cbn [seq].
  rewrite fmap_cons, <- next_id_after by done. f_equal.
  rewrite <- (fmap_S_seq 0 n), <- list_fmap_compose. apply list_fmap_ext. intros i x _.
  cbn [took_id v_client set_v_client next_packetid set_next_packetid compose].
  rewrite (next_id_after v Hr). unfold id_after, MAX_PACKET_ID. divmod_lia.
Qed.

Lemma ids_nodup p n : Z.of_nat n <= MAX_PACKET_ID -> NoDup (id_after p <$> seq 0 n).
Proof.
  unfold MAX_PACKET_ID. intros Hn. apply NoDup_alt. intros i j x Hi Hj.
  rewrite list_lookup_fmap in Hi, Hj.
  apply fmap_Some in Hi as (a & Ha & Hxa). apply fmap_Some in Hj as (c & Hc & Hxc).
  apply lookup_seq in Ha as [-> Ha]. apply lookup_seq in Hc as [-> Hc].
  subst x. unfold id_after, MAX_PACKET_ID in Hxc. simpl in *. divmod_lia.
Qed.
End PacketIds.

(** ** Properties *)

Section OpsProperties.
Context {E Timer : Type} `{PS : PlatformSpec (MQTTClient Timer) E Timer MessageData} `{CharSign}.
Implicit Types (v : view).
Variables (fuel : nat) (no_timer : Timer) (uninit : Z) (B : buffers) (t : list slot).

(** C1: MQTTConnectWithResults sends exactly the CONNECT packet of its options,
    consumes the CONNACK that follows and reports its return code and session
    flag; the client is marked connected, with no ping outstanding, exactly
    when the broker accepted. *)
Theorem connect_spec `{!Responsive (MQTTClient Timer) E Timer MessageData} v opts i rc sp rest data :
  (2 <= fuel)%nat -> client_ok B t v -> isconnected (v_client v) = 0 ->
  options_denote (v_mem v) (sb B) opts i -> ci_version i = 3 \/ ci_version i = 4 ->
  0 <= ci_keepalive i -> connect_length i <= REMLEN_MAX ->
  packet_size (connect_length i) < buf_size (v_client v) ->
  v_in v = connack_packet rc sp ++ rest -> 0 <= rc < 256 ->
  runs v (MQTTConnectWithResults fuel no_timer uninit (Some opts) data)
    (rc, {| connack_rc := rc; connack_sessionPresent := sp mod 2 |})
    (connect_result rc (got B (connack_packet rc sp) rest (connecting B i v))).
Proof. intros Hfuel. by apply runs_connect. Qed.

(** C2: MQTTPublish of a connected client sends exactly the PUBLISH packet of
    the message, under the next packet identifier for QoS 1 and 2, completes
    the acknowledgement exchange of its QoS and returns SUCCESS.  The
    identifiers in the acknowledgements are not compared with its own: the
    exchange completes whatever [id1] and [id2] are. *)
Theorem publish_spec `{!Responsive (MQTTClient Timer) E Timer MessageData} v topic msg name payload id1 id2 rest :
  (2 <= fuel)%nat -> client_ok B t v -> isconnected (v_client v) <> 0 ->
  publish_args B v topic msg name payload ->
  0 <= id1 < 65536 -> 0 <= id2 < 65536 -> v_in v = broker_acks (msg_qos msg) id1 id2 ++ rest ->
  let msg' := numbered msg v in
  runs v (MQTTPublish fuel no_timer uninit topic msg) (SUCCESS, msg')
    (acked_view B (msg_qos msg) id1 id2 rest (sent B (publish_of msg' name payload) (numbered_view msg v))).
Proof. intros Hfuel. by apply (runs_publish fuel no_timer uninit Hfuel B t). Qed.

(** MQTTSubscribeWithResults of a connected client sends the SUBSCRIBE of
    its filter, consumes the SUBACK and installs the handler in the table
    unless the grant equals SUBFAIL; it fails, and closes the session, only
    when the table is full. *)
Theorem subscribe_spec `{!Responsive (MQTTClient Timer) E Timer MessageData} v filter f qos handler g0 id q rest :
  (2 <= fuel)%nat -> client_ok B t v -> isconnected (v_client v) <> 0 -> filter_arg B v filter f ->
  0 <= next_packetid (v_client v) <= MAX_PACKET_ID ->
  packet_size (zlen (subscribe_body 0 [(f, qos)])) < buf_size (v_client v) ->
  v_in v = suback_packet id [q] ++ rest -> 0 <= id < 65536 ->
  total v (MQTTSubscribeWithResults fuel no_timer uninit filter qos handler g0)
    (subscribe_outcome t f handler (to_char q)
       (exchanged B (subscribe_wire (next_id (v_client v)) f qos) (suback_packet id [q]) rest v)).
Proof. intros Hfuel. by apply total_subscribe. Qed.

(** A subscription the broker refuses (return code 128): where [char] is
    unsigned the call returns SUCCESS with the grant 128 and installs nothing;
    where it is signed the code is read as -128, does not equal SUBFAIL, and
    the handler is installed as if the subscription had been granted. *)
Theorem subscribe_refused `{!Responsive (MQTTClient Timer) E Timer MessageData} v filter f qos k g0 id rest :
  (2 <= fuel)%nat -> client_ok B t v -> isconnected (v_client v) <> 0 -> filter_arg B v filter f ->
  0 <= next_packetid (v_client v) <= MAX_PACKET_ID ->
  packet_size (zlen (subscribe_body 0 [(f, qos)])) < buf_size (v_client v) ->
  v_in v = suback_packet id [SUBFAIL] ++ rest -> 0 <= id < 65536 ->
  let w := exchanged B (subscribe_wire (next_id (v_client v)) f qos) (suback_packet id [SUBFAIL]) rest v in
  total v (MQTTSubscribeWithResults fuel no_timer uninit filter qos (Some k) g0) (fun r w' =>
    (char_signed = false -> r = (SUCCESS, SUBFAIL) /\ w' = w) /\
    (char_signed = true -> (exists x, x ∈ t /\ x.1 = None) ->
       r = (SUCCESS, -128) /\ exists hs t', w' = with_handlers w hs /\ table_is (v_mem w) hs t' /\
         (Some f, Some k) ∈ t')).
Proof.
  intros Hfuel Hok Hcon Hf Hnext Hfits Hin Hid w.
  eapply total_mono; [by apply (total_subscribe fuel no_timer uninit Hfuel B t v filter f qos (Some k) g0 id SUBFAIL rest)|].
  intros r w' Hout. fold w in Hout. unfold subscribe_outcome, to_char in Hout.
  destruct char_signed; (split; intros Hcs; [try done|try done]).
  intros (x & Hx & Hnone). destruct Hout as (hs & -> & Htab & ->).
  pose proof (table_length _ _ _ (ok_table _ _ _ Hok)) as [_ Ht5].
  assert (Hset : (set_table f (Some k) t).1 = SUCCESS /\ (Some f, Some k) ∈ (set_table f (Some k) t).2).
  { unfold set_table. destruct (list_find (fun x => x.1 = Some f) t) as [[i y]|] eqn:Hfind.
    - apply list_find_Some in Hfind as (Hi & _). split; [done|]. apply lookup_lt_Some in Hi.
      apply list_elem_of_lookup_2 with i. cbn [snd]. by rewrite list_lookup_insert_eq.
    - destruct (list_find (fun x => x.1 = None) t) as [[i y]|] eqn:Hfree.
      + apply list_find_Some in Hfree as (Hi & _). split; [done|]. apply lookup_lt_Some in Hi.
        apply list_elem_of_lookup_2 with i. cbn [snd]. by rewrite list_lookup_insert_eq.
      + apply list_find_None in Hfree. rewrite list.Forall_forall in Hfree. by destruct (Hfree x Hx). }
  destruct Hset as [Hrc Hin']. rewrite Hrc in *. split; [done|]. exists hs, (set_table f (Some k) t).2.
  by split_and!.
Qed.

(** Without a connection MQTTPublish, MQTTSubscribe and MQTTUnsubscribe
    return FAILURE and touch neither the network nor memory; with a clean
    session they still clear the handler table. *)
Theorem offline_operations v topic msg filter qos handler g0 :
  isconnected (v_client v) = 0 ->
  runs v (MQTTPublish fuel no_timer uninit topic msg) (FAILURE, msg) (close_if FAILURE v) /\
  runs v (MQTTSubscribeWithResults fuel no_timer uninit filter qos handler g0) (FAILURE, g0) (close_if FAILURE v) /\
  runs v (MQTTUnsubscribe fuel no_timer uninit filter) FAILURE (close_if FAILURE v).
Proof.
  intros Hdis. split_and!.
  - unfold MQTTPublish. tget c Hc. apply untimed_members in Hc as (_ & _ & _ & _ & _ & _ & _ & _ & -> & _).
    rewrite Hdis. apply runs_close_on_failure.
  - unfold MQTTSubscribeWithResults. tget c Hc.
    apply untimed_members in Hc as (_ & _ & _ & _ & _ & _ & _ & _ & -> & _).
    rewrite Hdis. apply runs_close_on_failure.
  - unfold MQTTUnsubscribe. tget c Hc. apply untimed_members in Hc as (_ & _ & _ & _ & _ & _ & _ & _ & -> & _).
    rewrite Hdis. rstep runs_close_on_failure. by apply total_ret.
Qed.

(** Packet identifiers run through 1 ... 65535 in turn: they are never 0,
    and any 65535 in a row are distinct. *)
Theorem packet_ids_spec v n :
  0 <= next_packetid (v_client v) <= MAX_PACKET_ID ->
  total v (take_ids (E := E) (Timer := Timer) n) (fun ids _ =>
    ids = id_after (next_packetid (v_client v)) <$> seq 0 n /\
    Forall (fun id => 1 <= id <= MAX_PACKET_ID) ids /\ (Z.of_nat n <= MAX_PACKET_ID -> NoDup ids)).
Proof.
  intros Hr. eapply total_mono; [by apply take_ids_run|]. intros ids _ ->. split_and!; [done| |].
  - apply Forall_fmap, Forall_true. intros i. cbn. unfold id_after, MAX_PACKET_ID. divmod_lia.
  - apply ids_nodup.
Qed.

(** sendPacket on a network that takes a packet in parts: the second write
    asks for the length of the whole packet again, from the middle of the
    buffer on, and reads past the buffer unless as many bytes follow it. *)
Theorem send_partial_overrun v b o l pkt n timer s :
  (2 <= fuel)%nat -> buf (v_client v) = Ptr b o -> v_mem v !! b = Some l -> bytes_at (v_mem v) b o pkt ->
  0 < n < zlen pkt -> zlen l < o + n + zlen pkt -> zlen pkt <= INT_MAX ->
  partial_writes n -> see s = v -> sendPacket fuel (zlen pkt) timer s = Fault OutOfBounds.
Proof. apply send_partial_run. Qed.
End OpsProperties.

(** ** Witnesses *)

Section OpsWitnesses.
#[local] Existing Instances char_is_signed ideal_platform ideal_spec ideal_responsive.

(* block 1: the send buffer, 2: the receive buffer, 3: the filter "a/+", 4: the topic "a/b",
   5: a payload, 6: the client identifier "me" *)
Definition ex_ops_client (conn : Z) : MQTTClient Z :=
  Client 65535 1000 64 32 (Ptr 1 0) (Ptr 2 0) 60 0 conn 1
    (replicate 5 {| topicFilter := NULL; fp := None |}) None 0 0.
Definition ex_ops_state (conn : Z) (incoming : list byte) : state (cworld plain_env Z) :=
  plain_state [replicate 64 (byte_of_Z 170); replicate 32 (byte_of_Z 187); bytes [97; 47; 43; 0];
               bytes [97; 47; 98; 0]; bytes [1; 2]; bytes [109; 101; 0]] (ex_ops_client conn) incoming.
Definition ex_ops_buffers : buffers := {| sb := 1; so := 0; rb := 2; ro := 0; spare := 0 |}.
Definition ex_free : list slot := replicate 5 (None, None).

Ltac cstring_concrete :=
  do 2 eexists; split; [reflexivity|split; [bytes_at_concrete|]];
  intros Hin; apply list_elem_of_In in Hin; vm_compute in Hin; intuition discriminate.

Lemma ex_ops_ok conn incoming : client_ok ex_ops_buffers ex_free (see (ex_ops_state conn incoming)).
Proof.
  split; try done.
  - by exists (replicate 64 (byte_of_Z 170)).
  - by exists (replicate 32 (byte_of_Z 187)).
  - split; [|done]. repeat constructor; done.
  - cbn. repeat apply Forall_cons_2; try apply Forall_nil_2; by intros b o [=].
Qed.

Definition ex_info : connect_info :=
  {| ci_version := 4; ci_clean := 1; ci_keepalive := 60; ci_client := bytes [109; 101];
     ci_will := None; ci_user := None; ci_password := None |}.
Definition ex_connect_options : MQTTPacket_connectData :=
  set_clientID MQTTPacket_connectData_initializer (cstring_topic (Ptr 6 0)).

Lemma connect_spec_witness :
  let v := see (ex_ops_state 0 (connack_packet 0 1 ++ bytes [208; 0])) in
  exists w, runs v (MQTTConnectWithResults 2 0 0 (Some ex_connect_options)
      {| connack_rc := 9; connack_sessionPresent := 9 |})
      (0, {| connack_rc := 0; connack_sessionPresent := 1 |}) w /\
    isconnected (v_client w) = 1 /\ v_out w = connect_wire ex_info /\ v_in w = bytes [208; 0].
Proof.
  eexists. split.
  { apply (connect_spec 2 0 0 ex_ops_buffers ex_free _ ex_connect_options ex_info 0 1 (bytes [208; 0]));
      try done; [apply ex_ops_ok| |by right].
    split_and!; try done. apply mqttstring_cstring; [cstring_concrete|by intros ? ? [= <- <-]]. }
  done.
Defined.

Definition ex_message (qos : Z) : MQTTMessage :=
  {| msg_qos := qos; msg_retained := 0; msg_dup := 0; msg_id := 0; msg_payload := Ptr 5 0; msg_payloadlen := 2 |}.

(* the broker acknowledges with identifiers the client never used *)
Lemma publish_spec_witness :
  let v := see (ex_ops_state 1 (broker_acks 2 500 600)) in
  exists w, runs v (MQTTPublish 2 0 0 (Ptr 4 0) (ex_message 2)) (SUCCESS, numbered (ex_message 2) v) w /\
    v_out w = publish_packet 0 2 0 1 (bytes [97; 47; 98]) (bytes [1; 2]) ++ ack_packet PUBREL 0 500.
Proof.
  eexists. split.
  { apply (publish_spec 2 0 0 ex_ops_buffers ex_free _ (Ptr 4 0) (ex_message 2) (bytes [97; 47; 98]) (bytes [1; 2])
      500 600 []); try done; [apply ex_ops_ok|].
    split; try done; [cstring_concrete|by intros ? ? [= <- <-]|].
    right. exists 5%positive, 0. split_and!; [done|done|bytes_at_concrete]. }
  done.
Defined.

Lemma ex_filter_arg incoming : filter_arg ex_ops_buffers (see (ex_ops_state 1 incoming)) (Ptr 3 0) (bytes [97; 47; 43]).
Proof. split_and!; [cstring_concrete|done|by intros b o [= <- <-]]. Qed.

Lemma subscribe_spec_witness :
  let v := see (ex_ops_state 1 (suback_packet 1 [1])) in
  total v (MQTTSubscribeWithResults 2 0 0 (Ptr 3 0) 1 (Some 8%positive) 9)
    (subscribe_outcome ex_free (bytes [97; 47; 43]) (Some 8%positive) (to_char 1)
       (exchanged ex_ops_buffers (subscribe_wire 1 (bytes [97; 47; 43]) 1) (suback_packet 1 [1]) [] v)).
Proof.
  intros v. apply (subscribe_spec 2 0 0 ex_ops_buffers ex_free v (Ptr 3 0) (bytes [97; 47; 43]) 1 (Some 8%positive) 9 1 1 []);
    try done; [apply ex_ops_ok|apply ex_filter_arg].
Defined.

Lemma subscribe_refused_witness :
  let v := see (ex_ops_state 1 (suback_packet 1 [SUBFAIL])) in
  total v (MQTTSubscribeWithResults 2 0 0 (Ptr 3 0) 1 (Some 8%positive) 9) (fun r _ => r = (SUCCESS, -128)).
Proof.
  intros v. eapply total_mono.
  { apply (subscribe_refused 2 0 0 ex_ops_buffers ex_free v (Ptr 3 0) (bytes [97; 47; 43]) 1 8%positive 9 1 []);
      try done; [apply ex_ops_ok|apply ex_filter_arg]. }
  intros r w [_ Hsigned]. apply Hsigned; [done|]. exists (None, None). split; [constructor|done].
Defined.

Lemma offline_operations_witness :
  let v := see (ex_ops_state 0 []) in
  runs v (MQTTPublish 2 0 0 (Ptr 4 0) (ex_message 1)) (FAILURE, ex_message 1) (close_if FAILURE v) /\
  runs v (MQTTSubscribeWithResults 2 0 0 (Ptr 3 0) 1 None 9) (FAILURE, 9) (close_if FAILURE v) /\
  runs v (MQTTUnsubscribe 2 0 0 (Ptr 3 0)) FAILURE (close_if FAILURE v).
Proof. by apply (offline_operations 2 0 0). Defined.

Lemma packet_ids_spec_witness :
  total (see (ex_ops_state 1 [])) (take_ids (E := plain_env) (Timer := Z) 3) (fun ids _ =>
    ids = [1; 2; 3] /\ Forall (fun id => 1 <= id <= MAX_PACKET_ID) ids /\ (Z.of_nat 3 <= MAX_PACKET_ID -> NoDup ids)).
Proof. exact (packet_ids_spec (E := plain_env) (Timer := Z) (see (ex_ops_state 1 [])) 3 ltac:(done)). Defined.

(* a 64-byte packet that fills the buffer, taken 40 bytes at a time *)
Definition ex_parts : Platform (MQTTClient Z) plain_env Z MessageData := plain_platform false (Some 40).
Definition ex_parts_spec : PlatformSpec (MQTTClient Z) plain_env Z MessageData (H := ex_parts) :=
  plain_platform_spec false (Some 40).

Lemma send_partial_overrun_witness :
  sendPacket (H := ex_parts) 2 (zlen (replicate 64 (byte_of_Z 170))) 0 (ex_ops_state 1 []) = Fault OutOfBounds.
Proof.
  apply (send_partial_overrun (H := ex_parts) (PS := ex_parts_spec)
    2 (see (ex_ops_state 1 [])) 1 0 (replicate 64 (byte_of_Z 170)) (replicate 64 (byte_of_Z 170)) 40); try done.
  - split; [done|]. by exists (replicate 64 (byte_of_Z 170)).
  - split; [by intros t s e s' [= <- _]|].
    intros bs t s rc s'. cbn. unfold bind, ret, get_env, set_env. cbn. intros [= <- _]. rewrite length_take. lia.
Defined.
End OpsWitnesses.
