(* ===== verification/CppClient.v ===== *)
(** * MQTTClient.h: the client as a C++ class

    The class MQTT::Client of paho_mqtt_embedded_c/MQTTClient/src/MQTTClient.h, the
    client the Mbed wrapper instantiates.  It runs on the packets of MQTTPacket/src
    and on the interface [Platform], like the client in C, whose message structures, return
    codes and constants it repeats; a member function [f] is [Client_f] here.  The object
    lives in the [world] of the state; its array members are objects of the memory. *)

From S2P Require Import Prelude CMem MQTTPacket MQTTPublish MQTTConnect MQTTSubscribe PacketRead.
From S2P Require Import Platform MQTTClient.

(** The parameters of the template and the macros of the build.  Without
    MQTTCLIENT_QOS1 the header does not compile with MQTTCLIENT_QOS2. *)
Class ClientParams := {
  MAX_MQTT_PACKET_SIZE : Z;
  MAX_HANDLERS : nat;
  MQTTCLIENT_QOS1 : bool;
  MQTTCLIENT_QOS2 : bool;
  MAX_INCOMING_QOS2_MESSAGES : nat
}.

(** ** The object

    A callback ([FP]) is the function attached to it: the client attaches no
    member functions.  The elements of [messageHandlers] are those of the client in
    C.  [o_ping_sent] is the static variable of keepalive. *)

Record ClientObject (Timer : Type) := Object {
  o_command_timeout_ms : Z; o_sendbuf : ptr; o_readbuf : ptr; o_last_sent : Timer;
  o_last_received : Timer; o_ping_sent : Timer; o_keepAliveInterval : Z;
  o_ping_outstanding : bool; o_cleansession : bool; o_packetid : Z;
  o_messageHandlers : list MessageHandlers; o_defaultMessageHandler : messageHandler;
  o_isconnected : bool; o_pubbuf : ptr; o_inflightLen : Z; o_inflightMsgid : Z;
  o_inflightQoS : Z; o_pubrel : bool; o_incomingQoS2messages : list Z
}.
Arguments Object {Timer}.
Arguments o_command_timeout_ms {Timer} _.
Arguments o_sendbuf {Timer} _.
Arguments o_readbuf {Timer} _.
Arguments o_last_sent {Timer} _.
Arguments o_last_received {Timer} _.
Arguments o_ping_sent {Timer} _.
Arguments o_keepAliveInterval {Timer} _.
Arguments o_ping_outstanding {Timer} _.
Arguments o_cleansession {Timer} _.
Arguments o_packetid {Timer} _.
Arguments o_messageHandlers {Timer} _.
Arguments o_defaultMessageHandler {Timer} _.
Arguments o_isconnected {Timer} _.
Arguments o_pubbuf {Timer} _.
Arguments o_inflightLen {Timer} _.
Arguments o_inflightMsgid {Timer} _.
Arguments o_inflightQoS {Timer} _.
Arguments o_pubrel {Timer} _.
Arguments o_incomingQoS2messages {Timer} _.

(** Assignments to the members. *)
Section ObjectSetters.
Context {T : Type}.
Implicit Types c : ClientObject T.

Definition o_set_packetid c v :=
  Object (o_command_timeout_ms c) (o_sendbuf c) (o_readbuf c) (o_last_sent c) (o_last_received c)
    (o_ping_sent c) (o_keepAliveInterval c) (o_ping_outstanding c) (o_cleansession c) v
    (o_messageHandlers c) (o_defaultMessageHandler c) (o_isconnected c) (o_pubbuf c)
    (o_inflightLen c) (o_inflightMsgid c) (o_inflightQoS c) (o_pubrel c)
    (o_incomingQoS2messages c).
Definition o_set_session c keepalive clean :=
  Object (o_command_timeout_ms c) (o_sendbuf c) (o_readbuf c) (o_last_sent c) (o_last_received c)
    (o_ping_sent c) keepalive (o_ping_outstanding c) clean (o_packetid c) (o_messageHandlers c)
    (o_defaultMessageHandler c) (o_isconnected c) (o_pubbuf c) (o_inflightLen c)
    (o_inflightMsgid c) (o_inflightQoS c) (o_pubrel c) (o_incomingQoS2messages c).
Definition o_set_ping_outstanding c v :=
  Object (o_command_timeout_ms c) (o_sendbuf c) (o_readbuf c) (o_last_sent c) (o_last_received c)
    (o_ping_sent c) (o_keepAliveInterval c) v (o_cleansession c) (o_packetid c)
    (o_messageHandlers c) (o_defaultMessageHandler c) (o_isconnected c) (o_pubbuf c)
    (o_inflightLen c) (o_inflightMsgid c) (o_inflightQoS c) (o_pubrel c)
    (o_incomingQoS2messages c).
Definition o_set_isconnected c v :=
  Object (o_command_timeout_ms c) (o_sendbuf c) (o_readbuf c) (o_last_sent c) (o_last_received c)
    (o_ping_sent c) (o_keepAliveInterval c) (o_ping_outstanding c) (o_cleansession c)
    (o_packetid c) (o_messageHandlers c) (o_defaultMessageHandler c) v (o_pubbuf c)
    (o_inflightLen c) (o_inflightMsgid c) (o_inflightQoS c) (o_pubrel c)
    (o_incomingQoS2messages c).
Definition o_set_messageHandlers c v :=
  Object (o_command_timeout_ms c) (o_sendbuf c) (o_readbuf c) (o_last_sent c) (o_last_received c)
    (o_ping_sent c) (o_keepAliveInterval c) (o_ping_outstanding c) (o_cleansession c)
    (o_packetid c) v (o_defaultMessageHandler c) (o_isconnected c) (o_pubbuf c) (o_inflightLen c)
    (o_inflightMsgid c) (o_inflightQoS c) (o_pubrel c) (o_incomingQoS2messages c).
Definition o_set_defaultMessageHandler c v :=
  Object (o_command_timeout_ms c) (o_sendbuf c) (o_readbuf c) (o_last_sent c) (o_last_received c)
    (o_ping_sent c) (o_keepAliveInterval c) (o_ping_outstanding c) (o_cleansession c)
    (o_packetid c) (o_messageHandlers c) v (o_isconnected c) (o_pubbuf c) (o_inflightLen c)
    (o_inflightMsgid c) (o_inflightQoS c) (o_pubrel c) (o_incomingQoS2messages c).
Definition o_set_last_sent c v :=
  Object (o_command_timeout_ms c) (o_sendbuf c) (o_readbuf c) v (o_last_received c)
    (o_ping_sent c) (o_keepAliveInterval c) (o_ping_outstanding c) (o_cleansession c)
    (o_packetid c) (o_messageHandlers c) (o_defaultMessageHandler c) (o_isconnected c)
    (o_pubbuf c) (o_inflightLen c) (o_inflightMsgid c) (o_inflightQoS c) (o_pubrel c)
    (o_incomingQoS2messages c).
Definition o_set_last_received c v :=
  Object (o_command_timeout_ms c) (o_sendbuf c) (o_readbuf c) (o_last_sent c) v (o_ping_sent c)
    (o_keepAliveInterval c) (o_ping_outstanding c) (o_cleansession c) (o_packetid c)
    (o_messageHandlers c) (o_defaultMessageHandler c) (o_isconnected c) (o_pubbuf c)
    (o_inflightLen c) (o_inflightMsgid c) (o_inflightQoS c) (o_pubrel c)
    (o_incomingQoS2messages c).
Definition o_set_ping_sent c v :=
  Object (o_command_timeout_ms c) (o_sendbuf c) (o_readbuf c) (o_last_sent c) (o_last_received c)
    v (o_keepAliveInterval c) (o_ping_outstanding c) (o_cleansession c) (o_packetid c)
    (o_messageHandlers c) (o_defaultMessageHandler c) (o_isconnected c) (o_pubbuf c)
    (o_inflightLen c) (o_inflightMsgid c) (o_inflightQoS c) (o_pubrel c)
    (o_incomingQoS2messages c).
Definition o_set_inflight c len id qos :=
  Object (o_command_timeout_ms c) (o_sendbuf c) (o_readbuf c) (o_last_sent c) (o_last_received c)
    (o_ping_sent c) (o_keepAliveInterval c) (o_ping_outstanding c) (o_cleansession c)
    (o_packetid c) (o_messageHandlers c) (o_defaultMessageHandler c) (o_isconnected c)
    (o_pubbuf c) len id qos (o_pubrel c) (o_incomingQoS2messages c).
Definition o_set_inflightMsgid c v :=
  Object (o_command_timeout_ms c) (o_sendbuf c) (o_readbuf c) (o_last_sent c) (o_last_received c)
    (o_ping_sent c) (o_keepAliveInterval c) (o_ping_outstanding c) (o_cleansession c)
    (o_packetid c) (o_messageHandlers c) (o_defaultMessageHandler c) (o_isconnected c)
    (o_pubbuf c) (o_inflightLen c) v (o_inflightQoS c) (o_pubrel c) (o_incomingQoS2messages c).
Definition o_set_inflightQoS c v :=
  Object (o_command_timeout_ms c) (o_sendbuf c) (o_readbuf c) (o_last_sent c) (o_last_received c)
    (o_ping_sent c) (o_keepAliveInterval c) (o_ping_outstanding c) (o_cleansession c)
    (o_packetid c) (o_messageHandlers c) (o_defaultMessageHandler c) (o_isconnected c)
    (o_pubbuf c) (o_inflightLen c) (o_inflightMsgid c) v (o_pubrel c) (o_incomingQoS2messages c).
Definition o_set_pubrel c v :=
  Object (o_command_timeout_ms c) (o_sendbuf c) (o_readbuf c) (o_last_sent c) (o_last_received c)
    (o_ping_sent c) (o_keepAliveInterval c) (o_ping_outstanding c) (o_cleansession c)
    (o_packetid c) (o_messageHandlers c) (o_defaultMessageHandler c) (o_isconnected c)
    (o_pubbuf c) (o_inflightLen c) (o_inflightMsgid c) (o_inflightQoS c) v
    (o_incomingQoS2messages c).
Definition o_set_incoming c v :=
  Object (o_command_timeout_ms c) (o_sendbuf c) (o_readbuf c) (o_last_sent c) (o_last_received c)
    (o_ping_sent c) (o_keepAliveInterval c) (o_ping_outstanding c) (o_cleansession c)
    (o_packetid c) (o_messageHandlers c) (o_defaultMessageHandler c) (o_isconnected c)
    (o_pubbuf c) (o_inflightLen c) (o_inflightMsgid c) (o_inflightQoS c) (o_pubrel c) v.
End ObjectSetters.

Abbreviation oworld E Timer := (world_of (ClientObject Timer) E).

(** [for (i = 0; ...)] over an array: the index of the first element that
    passes the test. *)
Fixpoint first_index {A} (test : A -> bool) (l : list A) : option nat :=
  match l with
  | [] => None
  | x :: l => if test x then Some 0%nat else S <$> first_index test l
  end.

(** isTopicMatched of this class runs the loop of the C client; behind it an
    end of the filter of / or /# is skipped.  The characters are / (47) and # (35). *)
Definition Client_isTopicMatched {W} (filter : ptr) (topic : MQTTString) : M W bool :=
  let curn := data (lenstring topic) in
  let curn_end := padd curn (len (lenstring topic)) in
  let* (curf, curn) := match_loop (S (Z.to_nat (len (lenstring topic)))) filter curn curn_end in
  let* f := load curf in
  let* curf :=
    (if negb (f =? 0) && (f =? 47) then
       let curf := padd curf 1 in
       let* f := load curf in
       ret (if f =? 35 then padd curf 1 else curf)
     else ret curf) in
  let* d := psub curn curn_end in
  if d =? 0 then let* f := load curf in ret (f =? 0) else ret false.

Section Client.
Context `{ClientParams} {E Timer : Type} `{Platform (ClientObject Timer) E Timer MessageData}.
Context `{CharSign} `{ByteOrder}.

(** [fuel], [no_timer] and [uninit] as in MQTTClient. *)
Variables (fuel : nat) (no_timer : Timer) (uninit : Z).

Abbreviation MC := (M (oworld E Timer)).
Implicit Types c : ClientObject Timer.

(** PacketId::getNext *)
Definition PacketId_getNext : MC Z :=
  let* c := get_client in
  let next := if o_packetid c =? MAX_PACKET_ID then 1 else o_packetid c + 1 in
  update_client (fun c => o_set_packetid c next) ;;; ret next.

Definition Client_setDefaultMessageHandler (mh : messageHandler) : MC unit :=
  update_client (fun c => o_set_defaultMessageHandler c mh).

Definition Client_isConnected : MC bool := let* c := get_client in ret (o_isconnected c).

(** ** The session *)

Definition Client_cleanSession : MC unit :=
  update_client (fun c =>
    o_set_messageHandlers c ((fun h => {| topicFilter := NULL; fp := fp h |}) <$> o_messageHandlers c)) ;;;
  (if MQTTCLIENT_QOS1 || MQTTCLIENT_QOS2 then
     update_client (fun c => o_set_inflightQoS (o_set_inflightMsgid c 0) QOS0) else ret tt) ;;;
  (if MQTTCLIENT_QOS2 then
     update_client (fun c =>
       o_set_incoming (o_set_pubrel c false) ((fun _ => 0) <$> o_incomingQoS2messages c)) else ret tt).

Definition Client_closeSession : MC unit :=
  update_client (fun c => o_set_isconnected (o_set_ping_outstanding c false) false) ;;;
  let* c := get_client in
  if o_cleansession c then Client_cleanSession else ret tt.

(** The constructor; the members it does not mention keep what the memory held. *)
Definition Client_new (timeout : Z) : MC unit :=
  let* sent := TimerInit no_timer in
  let* received := TimerInit no_timer in
  update_client (fun c =>
    Object timeout (o_sendbuf c) (o_readbuf c) sent received (o_ping_sent c) (o_keepAliveInterval c)
      (o_ping_outstanding c) true 0
      ((fun h => {| topicFilter := topicFilter h; fp := None |}) <$> o_messageHandlers c) None
      (o_isconnected c) (o_pubbuf c) (o_inflightLen c) (o_inflightMsgid c) (o_inflightQoS c)
      (o_pubrel c) (o_incomingQoS2messages c)) ;;;
  Client_closeSession.

(** The identifiers of incoming QoS 2 messages; 0 is a free entry. *)
Definition Client_isQoS2msgidFree (id : Z) : MC bool :=
  let* c := get_client in
  ret (match first_index (fun x => x =? id) (o_incomingQoS2messages c) with Some _ => false | None => true end).

Definition Client_useQoS2msgid (id : Z) : MC bool :=
  let* c := get_client in
  match first_index (fun x => x =? 0) (o_incomingQoS2messages c) with
  | Some i => update_client (fun c => o_set_incoming c (<[i := id]> (o_incomingQoS2messages c))) ;;; ret true
  | None => ret false
  end.

Definition Client_freeQoS2msgid (id : Z) : MC unit :=
  let* c := get_client in
  match first_index (fun x => x =? id) (o_incomingQoS2messages c) with
  | Some i => update_client (fun c => o_set_incoming c (<[i := 0]> (o_incomingQoS2messages c)))
  | None => ret tt
  end.

(** ** Sending and receiving packets *)

(** The [while] loop of sendPacket; the result is [sent]. *)
Fixpoint Client_send_loop (n : nat) (sent length : Z) (timer : Timer) : MC Z :=
  match n with
  | O => throw Divergence
  | S n =>
      if sent <? length then
        let* c := get_client in
        let* timeout := TimerLeftMS timer in
        let* rc := net_write (padd (o_sendbuf c) sent) (length - sent) timeout in
        if rc <? 0 then ret sent
        else
          let* sent := int (sent + rc) in
          let* expired := TimerIsExpired timer in
          if expired : bool then ret sent else Client_send_loop n sent length timer
      else ret sent
  end.

Definition Client_sendPacket (length : Z) (timer : Timer) : MC Z :=
  let* sent := Client_send_loop fuel 0 length timer in
  if sent =? length then
    let* c := get_client in
    (if 0 <? o_keepAliveInterval c then
       let* t := TimerCountdown (o_last_sent c) (o_keepAliveInterval c) in
       update_client (fun c => o_set_last_sent c t)
     else ret tt) ;;;
    ret SUCCESS
  else ret FAILURE.

(** The do-while loop of decodePacket. *)
Fixpoint Client_decodePacket_loop (n : nat) (i : option Z) (multiplier len value timeout : Z) : MC (Z * Z) :=
  match n with
  | O => throw Divergence
  | S n =>
      let len := len + 1 in
      if MAX_NO_OF_REMAINING_LENGTH_BYTES <? len then ret (len, value)
      else
        let* (rc, bs) := mqttread 1 timeout in
        let* i := recv_char i bs in
        if negb (rc =? 1) then ret (len, value)
        else
          let* iv := use i in
          let* value := int (value + Z.land iv 127 * multiplier) in
          let* multiplier := int (multiplier * 128) in
          if negb (Z.land iv 128 =? 0)
          then Client_decodePacket_loop n i multiplier len value timeout
          else ret (len, value)
  end.

Definition Client_decodePacket (timeout : Z) : MC (Z * Z) := Client_decodePacket_loop 5 None 1 0 0 timeout.

(** readPacket once the remaining length is known. *)
Definition Client_readPacket_rest (timer : Timer) (rem_len : Z) : MC Z :=
  let* c := get_client in
  let* n := MQTTPacket_encode (padd (o_readbuf c) 1) rem_len in
  let* len := int (1 + n) in
  if MAX_MQTT_PACKET_SIZE - len <? rem_len then ret BUFFER_OVERFLOW
  else
    let* short :=
      (if 0 <? rem_len then
         let* timeout := TimerLeftMS timer in
         let* rc := net_read (padd (o_readbuf c) len) rem_len timeout in
         ret (negb (rc =? rem_len))
       else ret false) in
    if short : bool then ret FAILURE
    else
      let* header := load (o_readbuf c) in
      let rc := header_type header in
      (if 0 <? o_keepAliveInterval c then
         let* t := TimerCountdown (o_last_received c) (o_keepAliveInterval c) in
         update_client (fun c => o_set_last_received c t)
       else ret tt) ;;;
      ret rc.

Definition Client_readPacket (timer : Timer) : MC Z :=
  let* c := get_client in
  let* timeout := TimerLeftMS timer in
  let* rc := net_read (o_readbuf c) 1 timeout in
  if negb (rc =? 1) then ret 0
  else
    let* timeout := TimerLeftMS timer in
    let* (_, rem_len) := Client_decodePacket timeout in
    Client_readPacket_rest timer rem_len.

(** ** Delivering messages *)

(** The [for] loop over the handlers [i], [i + 1], ...; [n] turns are left. *)
Fixpoint Client_deliver_loop (n : nat) (i rc : Z) (topicName : MQTTString) (message : MQTTMessage) : MC Z :=
  match n with
  | O => ret rc
  | S n =>
      let* c := get_client in
      let* h := arr_get (o_messageHandlers c) i in
      let* matched :=
        (if negb (is_null (topicFilter h)) then
           let* eq := MQTTPacket_equals topicName (topicFilter h) in
           if eq : bool then ret true else Client_isTopicMatched (topicFilter h) topicName
         else ret false) in
      let* rc :=
        (if matched : bool then
           match fp h with
           | Some f => call_handler f (NewMessageData topicName message) ;;; ret SUCCESS
           | None => ret rc
           end
         else ret rc) in
      Client_deliver_loop n (i + 1) rc topicName message
  end.

Definition Client_deliverMessage (topicName : MQTTString) (message : MQTTMessage) : MC Z :=
  let* rc := Client_deliver_loop MAX_HANDLERS 0 FAILURE topicName message in
  let* c := get_client in
  match o_defaultMessageHandler c with
  | Some f =>
      if rc =? FAILURE then call_handler f (NewMessageData topicName message) ;;; ret SUCCESS else ret rc
  | None => ret rc
  end.

(** ** The cycle *)

Definition Client_keepalive : MC Z :=
  let* c := get_client in
  if o_keepAliveInterval c =? 0 then ret SUCCESS
  else if o_ping_outstanding c then
    let* expired := TimerIsExpired (o_ping_sent c) in
    ret (if expired : bool then FAILURE else SUCCESS)
  else
    let* e1 := TimerIsExpired (o_last_sent c) in
    let* expired := (if e1 : bool then ret true else TimerIsExpired (o_last_received c)) in
    if negb expired then ret SUCCESS
    else
      let* timer := TimerInit no_timer in
      let* timer := TimerCountdownMS timer 1000 in
      let* len := MQTTSerialize_pingreq (o_sendbuf c) MAX_MQTT_PACKET_SIZE in
      if 0 <? len then
        let* rc := Client_sendPacket len timer in
        (if rc =? SUCCESS then
           update_client (fun c => o_set_ping_outstanding c true) ;;;
           let* t := TimerCountdown (o_ping_sent c) (o_keepAliveInterval c) in
           update_client (fun c => o_set_ping_sent c t)
         else ret tt) ;;;
        ret rc
      else ret SUCCESS.

(** What becomes of the message of a PUBLISH: with QoS 2 compiled in, a message whose
    identifier is in use is not delivered again, and one without a free entry
    is dropped. *)
Definition Client_accept (topicName : MQTTString) (msg : MQTTMessage) : MC unit :=
  if negb MQTTCLIENT_QOS2 || negb (msg_qos msg =? QOS2) then
    let* _ := Client_deliverMessage topicName msg in ret tt
  else
    let* free := Client_isQoS2msgidFree (msg_id msg) in
    if free : bool then
      let* used := Client_useQoS2msgid (msg_id msg) in
      if used : bool then let* _ := Client_deliverMessage topicName msg in ret tt else ret tt
    else ret tt.

(** [case PUBLISH:]; FAILURE is [goto exit].  Without QoS 1 and 2 the case
    falls through to that of PINGRESP. *)
Definition Client_cycle_publish (timer : Timer) : MC Z :=
  let* c := get_client in
  let* (ok, out) := MQTTDeserialize_publish (publish_locals uninit) (o_readbuf c) MAX_MQTT_PACKET_SIZE in
  if negb (ok =? 1) then ret FAILURE
  else
    let msg := {| msg_qos := pub_qos out; msg_retained := pub_retained out; msg_dup := pub_dup out;
                  msg_id := pub_packetid out; msg_payload := pub_payload out;
                  msg_payloadlen := size_t (pub_payloadlen out) |} in
    Client_accept (pub_topicName out) msg ;;;
    if MQTTCLIENT_QOS1 || MQTTCLIENT_QOS2 then
      if negb (msg_qos msg =? QOS0) then
        let* len :=
          (if msg_qos msg =? QOS1 then MQTTSerialize_ack (o_sendbuf c) MAX_MQTT_PACKET_SIZE PUBACK 0 (msg_id msg)
           else if msg_qos msg =? QOS2
                then MQTTSerialize_ack (o_sendbuf c) MAX_MQTT_PACKET_SIZE PUBREC 0 (msg_id msg)
           else ret 0) in
        if len <=? 0 then ret FAILURE else Client_sendPacket len timer
      else ret SUCCESS
    else update_client (fun c => o_set_ping_outstanding c false) ;;; ret SUCCESS.

(** [case PUBREC: case PUBREL:], compiled in with QoS 2; FAILURE is [goto exit]. *)
Definition Client_cycle_ack (packet_type : Z) (timer : Timer) : MC Z :=
  let* c := get_client in
  let* (ok, out) := MQTTDeserialize_ack (ack_locals uninit) (o_readbuf c) MAX_MQTT_PACKET_SIZE in
  if negb (ok =? 1) then ret FAILURE
  else
    let* len := MQTTSerialize_ack (o_sendbuf c) MAX_MQTT_PACKET_SIZE
                  (if packet_type =? PUBREC then PUBREL else PUBCOMP) 0 (ack_packetid out) in
    if len <=? 0 then ret FAILURE
    else
      let* rc := Client_sendPacket len timer in
      if negb (rc =? SUCCESS) then ret FAILURE
      else
        (if packet_type =? PUBREL then Client_freeQoS2msgid (ack_packetid out) else ret tt) ;;;
        ret rc.

(** [exit:] *)
Definition Client_cycle_exit (rc packet_type : Z) : MC Z :=
  if rc =? SUCCESS then ret packet_type
  else
    let* c := get_client in
    (if o_isconnected c then Client_closeSession else ret tt) ;;; ret rc.

(** Behind the switch: keepalive, then [exit:]. *)
Definition Client_cycle_end (rc packet_type : Z) : MC Z :=
  let* k := Client_keepalive in
  Client_cycle_exit (if negb (k =? SUCCESS) then FAILURE else rc) packet_type.

Definition Client_cycle (timer : Timer) : MC Z :=
  let* packet_type := Client_readPacket timer in
  if (packet_type =? 0) || (packet_type =? CONNACK) || (packet_type =? PUBACK) ||
     (packet_type =? SUBACK) || (packet_type =? UNSUBACK)
  then Client_cycle_end SUCCESS packet_type
  else if packet_type =? PUBLISH then
    let* rc := Client_cycle_publish timer in
    if rc =? FAILURE then Client_cycle_exit rc packet_type else Client_cycle_end rc packet_type
  else if MQTTCLIENT_QOS2 && ((packet_type =? PUBREC) || (packet_type =? PUBREL)) then
    let* rc := Client_cycle_ack packet_type timer in
    if rc =? FAILURE then Client_cycle_exit rc packet_type else Client_cycle_end rc packet_type
  else if MQTTCLIENT_QOS2 && (packet_type =? PUBCOMP) then Client_cycle_end SUCCESS packet_type
  else if packet_type =? PINGRESP then
    update_client (fun c => o_set_ping_outstanding c false) ;;;
    Client_cycle_end SUCCESS packet_type
  else Client_cycle_exit packet_type packet_type.

(** The loops of yield and waitfor. *)
Fixpoint Client_yield_loop (n : nat) (timer : Timer) : MC Z :=
  match n with
  | O => throw Divergence
  | S n =>
      let* expired := TimerIsExpired timer in
      if expired : bool then ret SUCCESS
      else
        let* r := Client_cycle timer in
        if r <? 0 then ret FAILURE else Client_yield_loop n timer
  end.

Definition Client_yield (timeout_ms : Z) : MC Z :=
  let* timer := TimerInit no_timer in
  let* timer := TimerCountdownMS timer timeout_ms in
  Client_yield_loop fuel timer.

Fixpoint Client_waitfor_loop (n : nat) (rc packet_type : Z) (timer : Timer) : MC Z :=
  match n with
  | O => throw Divergence
  | S n =>
      let* expired := TimerIsExpired timer in
      if expired : bool then ret rc
      else
        let* rc := Client_cycle timer in
        if negb (rc =? packet_type) && (0 <=? rc) then Client_waitfor_loop n rc packet_type timer
        else ret rc
  end.

Definition Client_waitfor (packet_type : Z) (timer : Timer) : MC Z :=
  Client_waitfor_loop fuel FAILURE packet_type timer.

(** [Timer timer(command_timeout_ms)] *)
Definition Client_command_timer : MC Timer :=
  let* timer := TimerInit no_timer in
  let* c := get_client in
  TimerCountdownMS timer (o_command_timeout_ms c).

(** ** The operations of the application *)

(** The first [for] loop of setMessageHandler: the index at which it stops. *)
Fixpoint Client_find_filter (n : nat) (i : Z) (filter : ptr) : MC Z :=
  match n with
  | O => ret i
  | S n =>
      let* c := get_client in
      let* h := arr_get (o_messageHandlers c) i in
      let* same :=
        (if negb (is_null (topicFilter h)) then
           let* r := strcmp (topicFilter h) filter in ret (r =? 0)
         else ret false) in
      if same : bool then ret i else Client_find_filter n (i + 1) filter
  end.

(** [messageHandlers[i] = ...] *)
Definition Client_set_handler (i : Z) (filter : ptr) (f : messageHandler) : MC unit :=
  let* c := get_client in
  let* hs := arr_set (o_messageHandlers c) i {| topicFilter := filter; fp := f |} in
  update_client (fun c => o_set_messageHandlers c hs).

(** The second loop is [first_index]; [None] is the null function pointer. *)
Definition Client_setMessageHandler (filter : ptr) (mh : messageHandler) : MC Z :=
  let* i := Client_find_filter MAX_HANDLERS 0 filter in
  let found := i <? Z.of_nat MAX_HANDLERS in
  match mh with
  | None =>
      if found then Client_set_handler i NULL None ;;; ret SUCCESS else ret FAILURE
  | Some f =>
      if found then Client_set_handler i filter (Some f) ;;; ret SUCCESS
      else
        let* c := get_client in
        match first_index (fun h => is_null (topicFilter h)) (o_messageHandlers c) with
        | Some i => Client_set_handler (Z.of_nat i) filter (Some f) ;;; ret SUCCESS
        | None => ret FAILURE
        end
  end.

(** Waiting for the last acknowledgement of a publish. *)
Definition Client_publish_wait (packet_type rc : Z) (timer : Timer) : MC Z :=
  let* w := Client_waitfor packet_type timer in
  if w =? packet_type then
    let* c := get_client in
    let* (ok, out) := MQTTDeserialize_ack (ack_locals uninit) (o_readbuf c) MAX_MQTT_PACKET_SIZE in
    if negb (ok =? 1) then ret FAILURE
    else
      (if o_inflightMsgid c =? ack_packetid out
       then update_client (fun c => o_set_inflightMsgid c 0) else ret tt) ;;;
      ret rc
  else ret FAILURE.

(** publish(int, Timer&, QoS): the packet is in [sendbuf]. *)
Definition Client_publish_packet (len : Z) (timer : Timer) (qos : Z) : MC Z :=
  let* rc := Client_sendPacket len timer in
  let* rc :=
    (if negb (rc =? SUCCESS) then ret rc
     else if MQTTCLIENT_QOS1 && (qos =? QOS1) then Client_publish_wait PUBACK rc timer
     else if MQTTCLIENT_QOS2 && (qos =? QOS2) then Client_publish_wait PUBCOMP rc timer
     else ret rc) in
  (if negb (rc =? SUCCESS) then Client_closeSession else ret tt) ;;; ret rc.

(** An [int] whose first byte in memory was assigned. *)
Definition first_byte_of_int (b : Z) : Z := if big_endian then i32 (b * 16777216) else b.

(** The part of connect that resends an inflight publish. *)
Definition Client_resend (rc : Z) (timer : Timer) : MC Z :=
  let* c := get_client in
  if MQTTCLIENT_QOS2 && (0 <? o_inflightMsgid c) && (o_inflightQoS c =? QOS2) && o_pubrel c then
    let* len := MQTTSerialize_ack (o_sendbuf c) MAX_MQTT_PACKET_SIZE PUBREL 0 (o_inflightMsgid c) in
    if len <=? 0 then ret FAILURE else Client_publish_packet len timer (o_inflightQoS c)
  else if (MQTTCLIENT_QOS1 || MQTTCLIENT_QOS2) && (0 <? o_inflightMsgid c) then
    memcpy (o_sendbuf c) (o_pubbuf c) MAX_MQTT_PACKET_SIZE ;;;
    Client_publish_packet (o_inflightLen c) timer (o_inflightQoS c)
  else ret rc.

(** The result is the return code and [data]. *)
Definition Client_connect (options : MQTTPacket_connectData) (data : MQTTConnackData) :
    MC (Z * MQTTConnackData) :=
  let exit (rc : Z) (data : MQTTConnackData) : MC (Z * MQTTConnackData) :=
    (if rc =? SUCCESS
     then update_client (fun c => o_set_ping_outstanding (o_set_isconnected c true) false) else ret tt) ;;;
    ret (rc, data) in
  let* connect_timer := Client_command_timer in
  let* c := get_client in
  if o_isconnected c then exit FAILURE data
  else
    update_client (fun c => o_set_session c (keepAliveInterval options) (negb (cleansession options =? 0))) ;;;
    let* len := MQTTSerialize_connect (o_sendbuf c) MAX_MQTT_PACKET_SIZE options in
    if len <=? 0 then exit FAILURE data
    else
      let* rc := Client_sendPacket len connect_timer in
      if negb (rc =? SUCCESS) then exit rc data
      else
        let* c := get_client in
        (if 0 <? o_keepAliveInterval c then
           let* t := TimerCountdown (o_last_received c) (o_keepAliveInterval c) in
           update_client (fun c => o_set_last_received c t)
         else ret tt) ;;;
        let* w := Client_waitfor CONNACK connect_timer in
        let* (rc, data) :=
          (if w =? CONNACK then
             let* (ok, out) := MQTTDeserialize_connack (0, 0) (o_readbuf c) MAX_MQTT_PACKET_SIZE in
             let data := {| connack_rc := first_byte_of_int out.2; connack_sessionPresent := out.1 |} in
             ret (if ok =? 1 then connack_rc data else FAILURE, data)
           else ret (FAILURE, data)) in
        let* rc := Client_resend rc connect_timer in
        exit rc data.

(** connect(options) and connect() *)
Definition Client_connect_options (options : MQTTPacket_connectData) : MC Z :=
  let* (rc, _) := Client_connect options {| connack_rc := uninit; connack_sessionPresent := uninit |} in
  ret rc.
Definition Client_connect_default : MC Z := Client_connect_options MQTTPacket_connectData_initializer.

(** [exit:] of subscribe. *)
Definition Client_subscribe_exit (rc grantedQoS : Z) : MC (Z * Z) :=
  (if rc =? FAILURE then Client_closeSession else ret tt) ;;; ret (rc, grantedQoS).

(** [grantedQoS] is the member of [data]. *)
Definition Client_subscribe (filter : ptr) (qos : Z) (mh : messageHandler) (grantedQoS : Z) : MC (Z * Z) :=
  let* timer := Client_command_timer in
  let* c := get_client in
  if negb (o_isconnected c) then Client_subscribe_exit FAILURE grantedQoS
  else
    let* id := PacketId_getNext in
    let* len := MQTTSerialize_subscribe (o_sendbuf c) MAX_MQTT_PACKET_SIZE 0 (u16 id) 1
                  [cstring_topic filter] [qos] in
    if len <=? 0 then Client_subscribe_exit FAILURE grantedQoS
    else
      let* rc := Client_sendPacket len timer in
      if negb (rc =? SUCCESS) then Client_subscribe_exit rc grantedQoS
      else
        let* w := Client_waitfor SUBACK timer in
        if w =? SUBACK then
          let* (ok, out) := MQTTDeserialize_suback
                              {| suback_packetid := uninit; suback_count := 0; grantedQoSs := [0] |}
                              1 (o_readbuf c) MAX_MQTT_PACKET_SIZE in
          let* grantedQoS := arr_get (grantedQoSs out) 0 in
          if (ok =? 1) && negb (grantedQoS =? SUBFAIL) then
            let* rc := Client_setMessageHandler filter mh in Client_subscribe_exit rc grantedQoS
          else Client_subscribe_exit rc grantedQoS
        else Client_subscribe_exit FAILURE grantedQoS.

(** subscribe without [data] *)
Definition Client_subscribe_plain (filter : ptr) (qos : Z) (mh : messageHandler) : MC Z :=
  let* (rc, _) := Client_subscribe filter qos mh uninit in ret rc.

Definition Client_unsubscribe (filter : ptr) : MC Z :=
  let exit (rc : Z) : MC Z := (if negb (rc =? SUCCESS) then Client_closeSession else ret tt) ;;; ret rc in
  let* timer := Client_command_timer in
  let* c := get_client in
  if negb (o_isconnected c) then exit FAILURE
  else
    let* id := PacketId_getNext in
    let* len := MQTTSerialize_unsubscribe (o_sendbuf c) MAX_MQTT_PACKET_SIZE 0 (u16 id) 1 [cstring_topic filter] in
    if len <=? 0 then exit FAILURE
    else
      let* rc := Client_sendPacket len timer in
      if negb (rc =? SUCCESS) then exit rc
      else
        let* w := Client_waitfor UNSUBACK timer in
        if w =? UNSUBACK then
          let* (ok, _) := MQTTDeserialize_unsuback uninit (o_readbuf c) MAX_MQTT_PACKET_SIZE in
          (if ok =? 1 then let* _ := Client_setMessageHandler filter None in ret tt else ret tt) ;;;
          exit rc
        else exit FAILURE.

(** publish with [id] as a reference: the result is the return code and [id]. *)
Definition Client_publish_id (topicName payload : ptr) (payloadlen id qos retained : Z) : MC (Z * Z) :=
  let* timer := Client_command_timer in
  let* c := get_client in
  if negb (o_isconnected c) then ret (FAILURE, id)
  else
    let* id :=
      (if (MQTTCLIENT_QOS1 || MQTTCLIENT_QOS2) && ((qos =? QOS1) || (qos =? QOS2)) then
         let* id := PacketId_getNext in ret (u16 id)
       else ret id) in
    let* len := MQTTSerialize_publish (o_sendbuf c) MAX_MQTT_PACKET_SIZE 0 qos retained id
                  (cstring_topic topicName) payload (i32 payloadlen) in
    if len <=? 0 then ret (FAILURE, id)
    else
      (if (MQTTCLIENT_QOS1 || MQTTCLIENT_QOS2) && negb (o_cleansession c) then
         memcpy (o_pubbuf c) (o_sendbuf c) len ;;;
         update_client (fun c => o_set_inflight c len id qos) ;;;
         (if MQTTCLIENT_QOS2 then update_client (fun c => o_set_pubrel c false) else ret tt)
       else ret tt) ;;;
      let* rc := Client_publish_packet len timer qos in
      ret (rc, id).

(** The other overloads of publish. *)
Definition Client_publish (topicName payload : ptr) (payloadlen qos retained : Z) : MC Z :=
  let* (rc, _) := Client_publish_id topicName payload payloadlen 0 qos retained in ret rc.
Definition Client_publish_message (topicName : ptr) (message : MQTTMessage) : MC Z :=
  Client_publish topicName (msg_payload message) (msg_payloadlen message) (msg_qos message) (msg_retained message).

Definition Client_disconnect : MC Z :=
  let* timer := Client_command_timer in
  let* c := get_client in
  let* len := MQTTSerialize_disconnect (o_sendbuf c) MAX_MQTT_PACKET_SIZE in
  let* rc := (if 0 <? len then Client_sendPacket len timer else ret FAILURE) in
  Client_closeSession ;;; ret rc.
End Client.
