(* ===== verification/CppLogic.v ===== *)
(** * Sending and receiving in the C++ client

    The views of the client object of MQTTClient.h, and sendPacket and
    readPacket on them.  sendPacket copes with a network that takes a packet in
    parts: it needs no more than that a write makes progress ([Progress]). *)

From S2P Require Import Prelude CMem MQTTPacket MQTTPublish MQTTConnect MQTTSubscribe PacketRead.
From S2P Require Import Platform MQTTClient CppClient.

(** ** Views *)

#[export] Instance untimed_object {T} : Untimed (ClientObject T) (ClientObject unit) := fun c =>
  Object (o_command_timeout_ms c) (o_sendbuf c) (o_readbuf c) tt tt tt (o_keepAliveInterval c)
    (o_ping_outstanding c) (o_cleansession c) (o_packetid c) (o_messageHandlers c)
    (o_defaultMessageHandler c) (o_isconnected c) (o_pubbuf c) (o_inflightLen c) (o_inflightMsgid c)
    (o_inflightQoS c) (o_pubrel c) (o_incomingQoS2messages c).

Abbreviation oview := (view (ClientObject unit) MessageData).

Lemma object_members {T} (c : ClientObject T) c0 :
  untimed c = c0 ->
  o_command_timeout_ms c = o_command_timeout_ms c0 /\ o_sendbuf c = o_sendbuf c0 /\
  o_readbuf c = o_readbuf c0 /\ o_keepAliveInterval c = o_keepAliveInterval c0 /\
  o_ping_outstanding c = o_ping_outstanding c0 /\ o_cleansession c = o_cleansession c0 /\
  o_packetid c = o_packetid c0 /\ o_messageHandlers c = o_messageHandlers c0 /\
  o_defaultMessageHandler c = o_defaultMessageHandler c0 /\ o_isconnected c = o_isconnected c0 /\
  o_pubbuf c = o_pubbuf c0 /\ o_inflightLen c = o_inflightLen c0 /\
  o_inflightMsgid c = o_inflightMsgid c0 /\ o_inflightQoS c = o_inflightQoS c0 /\
  o_pubrel c = o_pubrel c0 /\ o_incomingQoS2messages c = o_incomingQoS2messages c0.
Proof. by intros <-. Qed.

(** Read the object: what the program takes from [c] is that of the view. *)
Ltac oget c :=
  let Hc := fresh "Hc" in
  tassoc; apply total_get_client; intros c Hc; apply object_members in Hc;
  destruct Hc as (? & ? & ? & ? & ? & ? & ? & ? & ? & ? & ? & ? & ? & ? & ? & ?);
  repeat match goal with
    | Hm : ?f c = _ |- _ => first [rewrite Hm; clear Hm | clear Hm]
    end.

(** Change the members of the object: the change is the same on the view. *)
Lemma runs_update_to {E Timer} `{Observed E MessageData} (v w : oview) (f : ClientObject Timer -> ClientObject Timer) :
  (forall c, untimed c = v_client v -> untimed (f c) = v_client w) -> set_v_client v (v_client w) = w ->
  runs v (update_client f : M (oworld E Timer) unit) tt w.
Proof. intros Hf <-. by apply runs_update_client. Qed.

Ltac unfold_setters :=
  unfold o_set_packetid, o_set_session, o_set_ping_outstanding, o_set_isconnected, o_set_messageHandlers,
    o_set_defaultMessageHandler, o_set_last_sent, o_set_last_received, o_set_ping_sent, o_set_inflight,
    o_set_inflightMsgid, o_set_inflightQoS, o_set_pubrel, o_set_incoming, untimed, untimed_object.

Ltac oupdate :=
  apply runs_update_to;
    [let Hu := fresh in intros ? Hu; apply object_members in Hu; cbn in *; unfold_setters; cbn in *;
     destruct_and? Hu; f_equal;
     first [congruence|by match goal with |- _ = ?t => destruct t end]
    |done].

(** The platform of a C++ client. *)
Abbreviation ObjectPlatform E Timer := (Platform (ClientObject Timer) E Timer MessageData).

Section Sending.
Context `{ClientParams} {E Timer : Type} `{PS : PlatformSpec (ClientObject Timer) E Timer MessageData}.
Abbreviation MC := (M (oworld E Timer)).
Abbreviation responsive := (Responsive (ClientObject Timer) E Timer MessageData).
Implicit Types (v : oview).

Lemma send_nil v : send v [] = v.
Proof. destruct v. unfold send. cbn. by rewrite app_nil_r. Qed.

Lemma send_app v a b : send (send v a) b = send v (a ++ b).
Proof. unfold send. cbn. by rewrite app_assoc. Qed.

Context `{!Progress (ClientObject Timer) E Timer MessageData}.

(** No timer expires and no write fails. *)
Definition undisturbed : Prop :=
  (forall t s e s', TimerIsExpired (C := ClientObject Timer) (E := E) (D := MessageData) t s = Done e s' -> e = false) /\
  (forall bs t s rc s', bs <> [] ->
     mqttwrite (C := ClientObject Timer) (Timer := Timer) (D := MessageData) bs t s = Done rc s' -> 0 <= rc).

Lemma responsive_undisturbed : responsive -> undisturbed.
Proof.
  intros HR. split; [intros *; apply never_expired|]. intros bs t s rc s' Hne Hw. apply write_full in Hw; [lia|done].
Qed.

Lemma total_expired_disturbed v timer :
  total v (TimerIsExpired timer) (fun e w => w = v /\ (e = true -> ~ undisturbed)).
Proof.
  intros s Hs. destruct (total_TimerIsExpired v timer s Hs) as (e & s' & Hrun & Hw & _). exists e, s'.
  split_and!; [done..|]. intros -> [Hexp _]. by apply Hexp in Hrun.
Qed.

Lemma total_write_disturbed v bs timeout :
  bs <> [] -> total v (mqttwrite bs timeout) (fun rc w =>
    rc <= zlen bs /\ w = send v (take (Z.to_nat rc) bs) /\ rc <> 0 /\ (rc < 0 -> ~ undisturbed)).
Proof.
  intros Hne s Hs. destruct (total_write_some v bs timeout Hne s Hs) as (rc & s' & Hrun & Hrc & Hw & Hz & _).
  exists rc, s'. split_and!; [done..|]. intros Hneg [_ Hwr]. apply Hwr in Hrun; [lia|done].
Qed.

(** Of the packet [p1 ++ p2], [p1] has been sent. *)
Lemma total_osend_loop n v b p1 p2 timer :
  o_sendbuf (v_client v) = Ptr b 0 -> bytes_at (v_mem v) b 0 (p1 ++ p2) -> (length p2 < n)%nat ->
  zlen (p1 ++ p2) <= INT_MAX ->
  total v (Client_send_loop n (zlen p1) (zlen (p1 ++ p2)) timer) (fun sent w => exists d p3,
    p2 = d ++ p3 /\ sent = zlen (p1 ++ d) /\ w = send v d /\ (p3 = [] \/ ~ undisturbed)).
Proof.
  unfold INT_MAX. intros Hbuf Hat Hn Hmax. revert v p1 p2 Hbuf Hat Hn Hmax.
  induction n as [|n IH]; intros v p1 p2 Hbuf Hat Hn Hmax; [lia|]. cbn [Client_send_loop].
  destruct (Z.ltb_spec (zlen p1) (zlen (p1 ++ p2))) as [Hlt|Hge].
  2: { apply total_ret. exists [], p2. rewrite app_nil_r, send_nil. split_and!; try done. left.
       apply nil_length_inv. zlen_lia. }
  assert (Hp2 : p2 <> []) by (intros ->; rewrite app_nil_r in Hlt; lia).
  oget c. tstep total_TimerLeftMS. intros timeout ? ->. unfold net_write. rewrite Hbuf. cbn [padd].
  apply bytes_at_app in Hat as Hat'. destruct Hat' as [_ Hat2].
  rstep runs_load_packet; [exact Hat2|done|zlen_lia|].
  tstep total_write_disturbed; [exact Hp2|].
  intros rc w (Hrc & -> & Hsome & HR). destruct (Z.ltb_spec rc 0) as [Hneg|Hpos].
  { apply total_ret. exists [], p2. rewrite app_nil_r, Z2Nat.nonpos by lia. cbn [take]. rewrite !send_nil.
    split_and!; try done. right. by apply HR. }
  rewrite length_app, Nat2Z.inj_add in Hmax.
  unfold int. rewrite in_int_true by (unfold INT_MIN, INT_MAX; lia). tret.
  set (d := take (Z.to_nat rc) p2). assert (Hd : zlen d = rc) by (unfold d; rewrite length_take; lia).
  assert (Hsplit : p2 = d ++ drop (Z.to_nat rc) p2) by (unfold d; by rewrite take_drop).
  replace (zlen p1 + rc) with (zlen (p1 ++ d)) by zlen_lia.
  tstep total_expired_disturbed. intros e ? [-> He]. destruct e.
  { apply total_ret. exists d, (drop (Z.to_nat rc) p2). split_and!; [done..|right; by apply He]. }
  replace (p1 ++ p2) with ((p1 ++ d) ++ drop (Z.to_nat rc) p2) by (rewrite <- app_assoc; by rewrite <- Hsplit).
  eapply total_mono; [apply (IH (send v d))|].
  - done.
  - rewrite <- app_assoc, <- Hsplit. exact Hat.
  - rewrite length_drop. lia.
  - rewrite <- app_assoc, <- Hsplit, length_app. lia.
  - intros sent w (d' & p3 & Hd' & -> & -> & Hend). exists (d ++ d'), p3. split_and!; try done.
    + rewrite <- app_assoc, <- Hd'. exact Hsplit.
    + by rewrite app_assoc.
    + apply send_app.
Qed.

(** What sendPacket makes of a packet: all of it is sent, or a part and it fails. *)
Definition send_outcome (pkt : list byte) v (rc : Z) (w : oview) : Prop :=
  (rc = SUCCESS /\ w = send v pkt) \/
  (rc = FAILURE /\ ~ undisturbed /\ exists k, (k < length pkt)%nat /\ w = send v (take k pkt)).

Lemma total_osend v fuel b pkt timer :
  o_sendbuf (v_client v) = Ptr b 0 -> bytes_at (v_mem v) b 0 pkt -> (length pkt < fuel)%nat ->
  zlen pkt <= INT_MAX -> total v (Client_sendPacket fuel (zlen pkt) timer) (send_outcome pkt v).
Proof.
  intros Hbuf Hat Hfuel Hmax. unfold Client_sendPacket.
  tstep (total_osend_loop fuel v b [] pkt timer); [done..|].
  intros sent w (d & p3 & -> & -> & -> & Hend). cbn [app].
  destruct (Z.eqb_spec (zlen d) (zlen (d ++ p3))) as [Heq|Hne].
  - assert (p3 = []) as -> by (apply nil_length_inv; rewrite length_app in Heq; lia).
    rewrite app_nil_r. oget c. tassoc.
    assert (Hdone : total (send v d) (ret SUCCESS : MC Z) (send_outcome d v)) by (apply total_ret; by left).
    destruct (0 <? _); [|by tret].
    tstep total_TimerCountdown. intros t ? ->. by rstep runs_set_timer.
  - apply total_ret. right. destruct Hend as [->|HR]; [by rewrite app_nil_r in Hne|].
    split_and!; [done|done|]. exists (length d). split; [rewrite length_app in *; lia|]. by rewrite take_app_length.
Qed.
End Sending.

Section Receiving.
Context `{ClientParams} {E Timer : Type} `{PS : PlatformSpec (ClientObject Timer) E Timer MessageData} `{CharSign}.
Abbreviation MC := (M (oworld E Timer)).
Abbreviation responsive := (Responsive (ClientObject Timer) E Timer MessageData).
Implicit Types (v : oview).

Lemma Client_decodePacket_loop_eq n i mult len value timeout (s : state (oworld E Timer)) :
  Client_decodePacket_loop n i mult len value timeout s =
  decode_loop n (fun k => mqttread k timeout) i mult len value s.
Proof.
  revert i mult len value s. induction n as [|n IH]; intros; [done|]. cbn [Client_decodePacket_loop decode_loop].
  case_test; [done|]. unfold bind. destruct (mqttread _ _ _) as [[rc bs] s1|]; [|done].
  destruct (recv_char _ _ _) as [c s2|]; [|done]. destruct (negb (rc =? 1)); [done|].
  destruct (use _ _); [|done]. destruct (int _ _); [|done]. destruct (int _ _); [|done].
  destruct (negb _); [apply IH|done].
Qed.

Lemma total_odecode v timeout :
  total v (Client_decodePacket timeout) (fun r v' =>
    0 <= r.2 <= REMLEN_MAX /\ exists tl, v' = set_v_in v tl).
Proof. intros s Hs. unfold Client_decodePacket. rewrite Client_decodePacket_loop_eq. by apply total_decode_loop. Qed.

Lemma runs_odecode `{!responsive} v timeout lb body tl :
  v_in v = lb ++ tl -> length_field lb body ->
  runs v (Client_decodePacket timeout) (zlen lb, zlen body) (set_v_in v tl).
Proof.
  intros Hin Hlb s Hs. unfold Client_decodePacket. rewrite Client_decodePacket_loop_eq.
  by eapply runs_decode_loop.
Qed.

(** What readPacket does once it has the header byte [h] and the remaining
    length [n]; [bs] is what it finds of the body. *)
Definition orest_outcome v m0 b l h n (rc : Z) (v' : oview) : Prop :=
  exists bs tl, v_in v = bs ++ tl /\ zlen bs <= n /\
    v' = View (<[b := splice l 0 (h :: remlen_bytes n ++ bs)]> m0) (v_client v) tl (v_out v) (v_delivered v) /\
    (rc = BUFFER_OVERFLOW /\ MAX_MQTT_PACKET_SIZE < packet_size n /\ bs = [] \/
     rc = FAILURE /\ packet_size n <= MAX_MQTT_PACKET_SIZE \/
     rc = header_type (Z_of_byte h) /\ zlen bs = n /\ packet_size n <= MAX_MQTT_PACKET_SIZE) /\
    (responsive -> n <= zlen (v_in v) -> packet_size n <= MAX_MQTT_PACKET_SIZE ->
     rc = header_type (Z_of_byte h) /\ zlen bs = n).

Lemma total_orest v timer m0 b l h n :
  o_readbuf (v_client v) = Ptr b 0 -> MAX_MQTT_PACKET_SIZE <= zlen l -> 5 <= MAX_MQTT_PACKET_SIZE ->
  received v m0 b l 0 [h] -> 0 <= n <= REMLEN_MAX ->
  total v (Client_readPacket_rest timer n) (orest_outcome v m0 b l h n).
Proof.
  unfold Client_readPacket_rest, orest_outcome, packet_size. intros Hbuf Hroom Hsize Hw Hn.
  pose proof (remlen_bytes_short n Hn) as Hrb. set (rb := remlen_bytes n) in *.
  oget c. rewrite Hbuf. cbn [padd]. change (0 + 1) with (0 + zlen [h]). unfold REMLEN_MAX in Hn.
  rstep runs_encode; [exact Hw|done|done|fold rb; zlen_lia|]. fold rb.
  unfold int at 1. rewrite in_int_true by (unfold INT_MIN, INT_MAX; lia). tret.
  destruct (Z.ltb_spec (MAX_MQTT_PACKET_SIZE - (1 + zlen rb)) n) as [Hbig|Hfits].
  { apply total_ret. exists [], (v_in v). fold rb. rewrite app_nil_r.
    split_and!; [done|simpl; lia|done|left; split_and!; [done|lia|done]|intros; lia]. }
  tassoc. eapply (total_step _ _ _ (fun short v' => exists bs tl, v_in v = bs ++ tl /\ zlen bs <= n /\
    v' = View (<[b := splice l 0 (h :: rb ++ bs)]> m0) (v_client v) tl (v_out v) (v_delivered v) /\
    (short = false -> zlen bs = n) /\ (responsive -> n <= zlen (v_in v) -> short = false))).
  - destruct (Z.ltb_spec 0 n).
    + tstep total_TimerLeftMS. intros ? ? ->. cbn [padd].
      replace (0 + (1 + zlen rb)) with (0 + zlen ([h] ++ rb)) by zlen_lia.
      tstep total_net_read; [done|done|done|zlen_lia|].
      intros rc ? (bs & tl & Hin & Hbs & _ & Hfull & -> & HR). apply total_ret. exists bs, tl.
      split_and!; [done|done|done| |].
      * intros Hrc. apply Hfull. by destruct (Z.eqb_spec rc n).
      * intros HR' Hlen. rewrite (HR HR' Hlen), Z.eqb_refl. done.
    + apply total_ret. exists [], (v_in v). rewrite app_nil_r. split_and!; try done; simpl; lia.
  - intros short ? (bs & tl & Hin & Hbs & -> & Hfull & HR). fold rb. destruct short.
    { apply total_ret. exists bs, tl. fold rb. split_and!; [done..|right; left; lia|].
      intros HR' Hlen. by specialize (HR HR' Hlen). }
    rstep runs_load_header; [done|done|zlen_lia|].
    apply (total_mono _ _ (fun rc w => rc = header_type (Z_of_byte h) /\ w = View
      (<[b:=splice l 0 (h :: rb ++ bs)]> m0) (v_client v) tl (v_out v) (v_delivered v))).
    + destruct (0 <? _).
      * tstep total_TimerCountdown. intros t' ? ->. rstep runs_set_timer; [done|]. by apply total_ret.
      * tret. by apply total_ret.
    + intros rc w [-> ->]. exists bs, tl. fold rb. specialize (Hfull eq_refl).
      split_and!; [done..|right; right; split_and!; [done|done|lia]|done].
Qed.

(** Whatever comes from the network. *)
Lemma total_oread v timer b l :
  o_readbuf (v_client v) = Ptr b 0 -> v_mem v !! b = Some l -> MAX_MQTT_PACKET_SIZE <= zlen l ->
  5 <= MAX_MQTT_PACKET_SIZE ->
  total v (Client_readPacket timer) (fun rc v' => exists w tl,
    v' = View (<[b := splice l 0 w]> (v_mem v)) (v_client v) tl (v_out v) (v_delivered v) /\
    zlen w <= MAX_MQTT_PACKET_SIZE /\
    (rc <= 0 \/ exists h body, rc = header_type (Z_of_byte h) /\ zlen body <= REMLEN_MAX /\
       w = h :: remlen_bytes (zlen body) ++ body)).
Proof.
  intros Hbuf Hb Hroom Hsize. unfold Client_readPacket. oget c. rewrite Hbuf.
  tstep total_TimerLeftMS. intros ? ? ->.
  tstep total_read_header; [done|exact Hb|done|lia|].
  intros rc ? (bs & tl & Hin & Hrc & -> & Hone & Hbs & _). destruct (Z.eqb_spec rc 1) as [Hrc1|]; cbn [negb].
  2: { apply total_ret. exists bs, tl. split_and!; [done|lia|left; lia]. }
  destruct (Hone Hrc1) as [h ->]. tstep total_TimerLeftMS. intros ? ? ->.
  tstep total_odecode. intros [n' n] ? (Hn & tl' & ->). cbn [fst snd] in *.
  eapply total_mono; [by eapply total_orest|].
  intros rc' ? (bs & tl2 & _ & Hbs2 & -> & Hcase & _). do 2 eexists. split; [done|].
  unfold packet_size, BUFFER_OVERFLOW, FAILURE in *. pose proof (remlen_bytes_short n Hn).
  unfold REMLEN_MAX in *.
  destruct Hcase as [(-> & Hlt & ->)|[(-> & Hle)|(-> & <- & Hle)]].
  - split; [|left; lia]. rewrite app_nil_r. zlen_lia.
  - split; [zlen_lia|left; lia].
  - split; [zlen_lia|]. right. exists h, bs. split_and!; [done|lia|done].
Qed.

(** A complete packet that fits. *)
Lemma runs_oread `{!responsive} v timer b l h lb body tl :
  o_readbuf (v_client v) = Ptr b 0 -> v_mem v !! b = Some l -> MAX_MQTT_PACKET_SIZE <= zlen l ->
  5 <= MAX_MQTT_PACKET_SIZE -> v_in v = h :: lb ++ body ++ tl -> length_field lb body ->
  packet_size (zlen body) <= MAX_MQTT_PACKET_SIZE ->
  runs v (Client_readPacket timer) (header_type (Z_of_byte h))
    (View (<[b := splice l 0 (mqtt_packet (Z_of_byte h) body)]> (v_mem v)) (v_client v) tl (v_out v)
       (v_delivered v)).
Proof.
  intros Hbuf Hb Hroom Hsize Hin Hlf Hfits. pose proof (length_field_max _ _ Hlf) as Hbody.
  unfold Client_readPacket. oget c. rewrite Hbuf. tstep total_TimerLeftMS. intros ? ? ->.
  tstep total_read_header; [done|exact Hb|done|lia|].
  intros rc ? (bs & tl1 & Hin1 & _ & -> & Hone & _ & HR). rewrite Hin in *.
  rewrite (HR _ ltac:(done)) in *. destruct (Hone eq_refl) as [h' ->]. injection Hin1 as <- <-.
  cbn [negb Z.eqb Pos.eqb]. tstep total_TimerLeftMS. intros ? ? ->.
  rstep runs_odecode; [done|exact Hlf|].
  eapply total_mono; [eapply total_orest; [done|exact Hroom|done|done|lia]|].
  intros rc' ? (bs & tl2 & Hin2 & Hbs2 & -> & _ & HR2). cbn in Hin2.
  destruct (HR2 _ ltac:(cbn; zlen_lia) Hfits) as [-> Hlen]. split; [done|].
  apply app_inj_1 in Hin2 as [-> ->]; [|lia]. unfold mqtt_packet. by rewrite byte_of_Z_of_byte.
Qed.
End Receiving.
