(* ===== verification/CppHandlers.v ===== *)
(** * Topics and message handlers of the C++ client

    isTopicMatched of MQTTClient.h also accepts the parent level of a filter that ends in
    /#, as MQTT demands, but not only that: it drops a final slash of the filter.
    deliverMessage and setMessageHandler act on the table of handlers as those
    of the C client do. *)

From S2P Require Import Prelude CMem MQTTPacket PacketRead Platform MQTTClient TopicMatch Handlers.
From S2P Require Import CppClient CppLogic.

(** ** Topics *)

(** What may be left of the filter when the name is used up. *)
Definition slash_rest (r : option (list byte)) : bool :=
  match r with
  | Some r => bool_decide (r = []) || bool_decide (r = [SLASH]) || bool_decide (r = [SLASH; HASH])
  | None => false
  end.

Definition slash_match (f n : list byte) : bool := slash_rest (match_rest f n).

(** The same on levels: a filter may have one more level than the name if that
    is # or empty. *)
Fixpoint parent_match (fs ns : list (list byte)) : bool :=
  match fs, ns with
  | [], [] => true
  | [f], [] => bool_decide (f = []) || bool_decide (f = [HASH])
  | f :: fs, n :: ns =>
      if bool_decide (f = [HASH]) then negb (bool_decide (n = []))
      else if bool_decide (f = [PLUS]) then negb (bool_decide (n = [])) && parent_match fs ns
      else bool_decide (f = n) && parent_match fs ns
  | _, _ => false
  end.

Lemma Client_isTopicMatched_run {W} (s : state W) filter topic f b on n :
  cstring_at (mem s) filter f -> data (lenstring topic) = Ptr b on -> len (lenstring topic) = zlen n ->
  bytes_at (mem s) b on n ->
  Client_isTopicMatched filter topic s = Done (slash_match f n) s.
Proof.
  intros (bf & ofs & -> & Hf & Hnot) Hd Hl Hn. unfold Client_isTopicMatched, slash_match. rewrite Hd, Hl.
  cbn [padd].
  destruct (match_loop_run (S (Z.to_nat (zlen n))) s bf ofs b on (on + zlen n) f n Hf Hnot Hn eq_refl
    ltac:(lia)) as (ofs' & f' & n' & Hrun & Hf' & Hnot' & ->).
  rewrite (bind_done _ _ _ _ _ Hrun).
  assert (Hnul : forall c r, Corelib.Init.Byte.x00 ∉ c :: r -> (Z_of_byte c =? 0) = false).
  { intros c r Hc. apply not_elem_of_cons in Hc as [Hc _]. rewrite (byte_eqb_const c 0) by lia.
    apply bool_decide_eq_false_2. by intros ->. }
  assert (Hend : forall o r m, bytes_at (mem s) bf o (r ++ [Corelib.Init.Byte.x00]) ->
    Corelib.Init.Byte.x00 ∉ r -> m = bool_decide (r = []) ->
    (let* d := psub (Ptr b (on + zlen n - zlen n')) (Ptr b (on + zlen n)) in
     if d =? 0 then let* x := load (Ptr bf o) in ret (x =? 0) else ret false) s =
    Done (if bool_decide (n' = []) then m else false) s).
  { intros o r m Hr Hrn ->. by apply match_end_run. }
  assert (Hm : slash_rest (if bool_decide (n' = []) then Some f' else None) =
    if bool_decide (n' = []) then slash_rest (Some f') else false) by (by case_bool_decide).
  rewrite Hm. clear Hm. destruct f' as [|c f'].
  { rewrite (bind_done _ _ _ _ _ (load_at _ _ _ _ _ Hf')).
    change (negb (Z_of_byte Corelib.Init.Byte.x00 =? 0)) with false. cbn [andb]. run_ret. by apply (Hend ofs' []). }
  rewrite <- app_comm_cons in Hf'. rewrite (bind_done _ _ _ _ _ (load_at _ _ _ _ _ Hf')), (Hnul _ _ Hnot').
  rewrite (byte_eqb_const c 47) by lia. fold SLASH. cbn [negb andb]. cbn [slash_rest].
  destruct (decide (c = SLASH)) as [->|Hc].
  2: { rewrite (bool_decide_eq_false_2 (c = SLASH)) by done. run_ret. apply (Hend ofs' (c :: f')); [done..|].
       by rewrite !bool_decide_eq_false_2 by congruence. }
  rewrite (bool_decide_eq_true_2 (SLASH = SLASH)) by done. rewrite bind_assoc. cbn [padd].
  apply bytes_at_tail in Hf'. apply not_elem_of_cons in Hnot' as [_ Hnot'].
  destruct f' as [|c f'].
  { rewrite (bind_done _ _ _ _ _ (load_at _ _ _ _ _ Hf')).
    change (Z_of_byte Corelib.Init.Byte.x00 =? 35) with false. run_ret. by apply (Hend (ofs' + 1) []). }
  rewrite <- app_comm_cons in Hf'. rewrite (bind_done _ _ _ _ _ (load_at _ _ _ _ _ Hf')). run_ret.
  rewrite (byte_eqb_const c 35) by lia. fold HASH. destruct (decide (c = HASH)) as [->|Hh].
  - rewrite (bool_decide_eq_true_2 (HASH = HASH)) by done. cbn [padd]. apply bytes_at_tail in Hf'.
    apply (Hend (ofs' + 1 + 1) f'); [done|by apply not_elem_of_cons in Hnot' as [_ ?]|].
    rewrite !(bool_decide_eq_false_2 (SLASH :: HASH :: f' = _)) by done. cbn [orb].
    apply bool_decide_ext. split; [by intros [=]|by intros ->].
  - rewrite (bool_decide_eq_false_2 (c = HASH)) by done. apply (Hend (ofs' + 1) (c :: f')); [done..|].
    rewrite !bool_decide_eq_false_2 by congruence. done.
Qed.

Lemma slash_match_join fs ns :
  filter_ok fs -> Forall plain_level ns -> fs <> [] -> ns <> [] ->
  slash_match (join fs) (join ns) = parent_match fs ns.
Proof.
  intros Hfs Hns Hf Hn. unfold slash_match. rewrite rest_join; try done.
  2: { intros c r Hc. cbn. by rewrite !bool_decide_eq_false_2 by congruence. }
  clear Hns Hf Hn. revert ns. induction fs as [|f fs IH]; intros [|n ns]; try done.
  - cbn [rest_levels parent_match slash_rest].
    rewrite (bool_decide_eq_false_2 (SLASH :: join (f :: fs) = [])) by done. cbn [orb].
    destruct fs as [|g fs].
    + cbn [join]. f_equal; apply bool_decide_ext; (split; [by intros [= ->]|by intros ->]).
    + destruct Hfs as [Hf _]. rewrite join_cons. cbn [tail].
      rewrite !bool_decide_eq_false_2; [done| |]; intros [=Heq].
      * destruct f as [|x [|]]; [done|injection Heq as _ Heq|injection Heq as _ Heq]; done.
      * by destruct f.
  - destruct Hfs as [_ Hfs]. cbn [rest_levels parent_match]. destruct fs; by rewrite IH.
Qed.

(** But for an empty last level of the filter, only names that MQTT accepts. *)
Lemma parent_match_sound fs ns :
  filter_ok fs -> list.last fs <> Some [] -> parent_match fs ns = true -> mqtt_match fs ns = true.
Proof.
  revert ns. induction fs as [|f fs IH]; intros [|n ns] Hok Hlast; [done..| |].
  - destruct fs; [|done]. cbn [parent_match mqtt_match]. case_bool_decide; [by subst|done].
  - destruct Hok as [Hf Hfs]. assert (Hl : list.last fs <> Some []) by (by destruct fs).
    assert (Hnext : parent_match fs ns = true -> mqtt_match fs ns = true) by (intros; by apply IH).
    replace (parent_match (f :: fs) (n :: ns)) with (if bool_decide (f = [HASH]) then negb (bool_decide (n = []))
      else if bool_decide (f = [PLUS]) then negb (bool_decide (n = [])) && parent_match fs ns
      else bool_decide (f = n) && parent_match fs ns) by (by destruct fs).
    cbn [mqtt_match]. case_bool_decide; [done|]. case_bool_decide; cbn [orb].
    + by intros [_ ?]%andb_prop; apply Hnext.
    + intros [-> ?]%andb_prop. by apply Hnext.
Qed.

(** Without empty levels exactly those. *)
Lemma parent_match_complete fs ns :
  filter_ok fs -> Forall (fun f => f <> []) fs -> Forall (fun n => n <> []) ns ->
  parent_match fs ns = mqtt_match fs ns.
Proof.
  intros Hok Hfs Hns. revert ns Hns Hok.
  induction Hfs as [|f fs Hf Hfs IH]; intros [|n ns] Hns Hok; try done; destruct Hok as [Hfo Hok].
  - cbn [parent_match mqtt_match]. rewrite (bool_decide_eq_false_2 (f = [])) by done. destruct fs as [|g fs]; [done|].
    symmetry. apply bool_decide_eq_false_2. intros ->.
    destruct Hfo as [[_ ?]|[?|(_ & _ & Hh & _)]]; [done|done|]. by apply Hh; left.
  - inversion Hns as [|? ? Hn Hns']; subst.
    replace (parent_match (f :: fs) (n :: ns)) with (if bool_decide (f = [HASH]) then negb (bool_decide (n = []))
      else if bool_decide (f = [PLUS]) then negb (bool_decide (n = [])) && parent_match fs ns
      else bool_decide (f = n) && parent_match fs ns) by (by destruct fs).
    cbn [mqtt_match]. rewrite (bool_decide_eq_false_2 (n = [])), IH by done. cbn [negb andb].
    case_bool_decide; [done|]. by case_bool_decide.
Qed.

(** ** Delivering messages *)

Definition client_accepts (f n : list byte) : bool := bool_decide (n = f) || slash_match f n.

(** The table of an object. *)
Definition slots_are (m : gmap block (list byte)) (hs : list MessageHandlers) (t : list slot) : Prop :=
  Forall2 (slot_is m) hs t.

Section ObjectHandlers.
Context `{ClientParams} {E Timer : Type} `{PS : PlatformSpec (ClientObject Timer) E Timer MessageData} `{CharSign}.
Abbreviation MC := (M (oworld E Timer)).
Implicit Types (v : oview).

Lemma runs_odeliver_loop v b topic n msg pre hs t rc :
  held (v_mem v) b topic n -> zlen n <= INT_MAX -> o_messageHandlers (v_client v) = pre ++ hs ->
  Forall2 (slot_is (v_mem v)) hs t ->
  runs v (Client_deliver_loop (length hs) (zlen pre) rc topic msg)
    (match matching_by client_accepts n t with [] => rc | _ => SUCCESS end)
    (deliver v (to_receivers topic msg (matching_by client_accepts n t))).
Proof.
  intros Hheld Hmax Hhs Ht. revert v pre rc Hheld Hhs Ht. revert t.
  induction hs as [|h hs IH]; intros t v pre rc Hheld Hhs Ht.
  { inversion Ht; subst. cbn. rewrite deliver_nil. by apply total_ret. }
  inversion Ht as [|? x ? t' Hx Ht']; subst. cbn [length Client_deliver_loop].
  oget c. rewrite Hhs. rstep (runs_arr_get _ _ _ h); [by apply list_lookup_middle|].
  rstep (runs_matched Client_isTopicMatched slash_match);
    [intros; by eapply Client_isTopicMatched_run|done..|].
  change (match x.1 with Some f => _ | None => false end)
    with (match x.1 with Some f => client_accepts f n | None => false end).
  assert (Hnext : forall d rc', matching_by client_accepts n (x :: t') = d ++ matching_by client_accepts n t' ->
    (match d with [] => rc' = rc | _ => rc' = SUCCESS end) ->
    runs (deliver v (to_receivers topic msg d)) (Client_deliver_loop (length hs) (zlen pre + 1) rc' topic msg)
      (match matching_by client_accepts n (x :: t') with [] => rc | _ => SUCCESS end)
      (deliver v (to_receivers topic msg (matching_by client_accepts n (x :: t'))))).
  { intros d rc' -> Hd. unfold to_receivers. rewrite fmap_app, <- deliver_app.
    replace (zlen pre + 1) with (zlen (pre ++ [h])) by zlen_lia.
    eapply total_mono; [apply (IH t' (deliver v _) (pre ++ [h]) rc')|].
    - done.
    - rewrite <- app_assoc. exact Hhs.
    - done.
    - intros r w [-> ->]. split; [|done]. destruct d; cbn; [subst|];
        destruct (matching_by client_accepts n t'); try done; by subst. }
  destruct x as [[f|] [k|]]; cbn [fst snd] in *; destruct Hx as [Hfp Hx]; cbn [fst snd] in *; rewrite ?Hfp.
  - destruct (client_accepts f n) eqn:Hacc.
    + tassoc. rstep runs_call_handler. tret. apply (Hnext [k] SUCCESS); [|done]. cbn. by rewrite Hacc.
    + tret. rewrite <- (deliver_nil v) at 1. apply (Hnext []); [|done]. cbn. by rewrite Hacc.
  - rewrite <- (deliver_nil v) at 1. destruct (client_accepts f n); tret; by apply (Hnext []).
  - tret. rewrite <- (deliver_nil v) at 1. by apply (Hnext []).
  - tret. rewrite <- (deliver_nil v) at 1. by apply (Hnext []).
Qed.

Lemma runs_odeliver v b topic n msg t :
  held (v_mem v) b topic n -> zlen n <= INT_MAX ->
  slots_are (v_mem v) (o_messageHandlers (v_client v)) t -> length t = MAX_HANDLERS ->
  let ks := receivers_by client_accepts n t (o_defaultMessageHandler (v_client v)) in
  runs v (Client_deliverMessage topic msg) (match ks with [] => FAILURE | _ => SUCCESS end)
    (deliver v (to_receivers topic msg ks)).
Proof.
  intros Hheld Hmax Ht Hlen. cbv zeta. unfold Client_deliverMessage.
  rewrite <- Hlen, <- (Forall2_length Ht).
  rstep (runs_odeliver_loop v b topic n msg [] (o_messageHandlers (v_client v)) t); [done..|].
  oget c. cbn [deliver v_client]. unfold receivers_by.
  destruct (matching_by client_accepts n t) as [|k ks], (o_defaultMessageHandler (v_client v)) as [f|];
    cbn [Z.eqb SUCCESS FAILURE Pos.eqb option_list]; try by apply total_ret.
  rstep runs_call_handler. rewrite deliver_app. by apply total_ret.
Qed.

(** ** The table *)

Lemma runs_ofind_filter v pre hs t filter f :
  o_messageHandlers (v_client v) = pre ++ hs -> Forall2 (slot_is (v_mem v)) hs t ->
  cstring_at (v_mem v) filter f ->
  runs v (Client_find_filter (length hs) (zlen pre) filter : MC Z)
    (zlen pre + Z.of_nat (found_at (fun x : slot => x.1 = Some f) t)) v.
Proof.
  intros Hhs Ht Hf. revert pre Hhs. induction Ht as [|h x hs t Hx Ht IH]; intros pre Hhs; cbn [length Client_find_filter].
  { apply total_ret. split; [|done]. cbn. lia. }
  oget c. rewrite Hhs. rstep (runs_arr_get _ _ _ h); [by apply list_lookup_middle|].
  rstep runs_same_filter; [exact Hx|exact Hf|].
  rewrite found_at_cons. case_bool_decide as Hxf; [rewrite decide_True by done|rewrite decide_False by done].
  - apply total_ret. split; [lia|done].
  - replace (zlen pre + 1) with (zlen (pre ++ [h])) by zlen_lia.
    eapply total_mono; [apply (IH (pre ++ [h])); by rewrite <- app_assoc|].
    intros r w [-> ->]. split; [zlen_lia|done].
Qed.

Lemma first_free m hs t :
  Forall2 (slot_is m) hs t ->
  first_index (fun h => is_null (topicFilter h)) hs =
    let i := found_at (fun x : slot => x.1 = None) t in if decide (i < length t)%nat then Some i else None.
Proof.
  cbv zeta. induction 1 as [|h x hs t [_ Hx] Ht IH]; [done|]. cbn [first_index]. rewrite found_at_cons.
  destruct x as [[g|] k]; cbn [fst] in *.
  - destruct Hx as [(? & ? & -> & _) _]. cbn [is_null]. rewrite IH, (decide_False (P := Some g = None)) by done.
    cbn [length]. do 2 case_decide; done || (simpl; lia).
  - rewrite Hx, !(decide_True (P := None = None)) by done. cbn [length]. by rewrite decide_True by lia.
Qed.

Definition o_with_handlers v hs : oview := set_v_client v (o_set_messageHandlers (v_client v) hs).

Lemma runs_oset_handler v hs (i : nat) filter f :
  o_messageHandlers (v_client v) = hs -> (i < length hs)%nat ->
  runs v (Client_set_handler (Z.of_nat i) filter f : MC unit) tt
    (o_with_handlers v (<[i := {| topicFilter := filter; fp := f |}]> hs)).
Proof.
  intros Hhs Hi. unfold Client_set_handler. oget c.
  rewrite Hhs. rstep (runs_reading _ _ (<[i := {| topicFilter := filter; fp := f |}]> hs)).
  { intros s _. exists s. split; [|done]. rewrite arr_set_done by lia. by rewrite splice_one, Nat2Z.id by lia. }
  oupdate.
Qed.


Lemma slots_insert m hs t i h x :
  slots_are m hs t -> slot_is m h x -> slots_are m (<[i := h]> hs) (<[i := x]> t).
Proof. intros. by apply Forall2_insert. Qed.

Lemma total_oset_message_handler v t filter f h :
  slots_are (v_mem v) (o_messageHandlers (v_client v)) t -> length t = MAX_HANDLERS ->
  cstring_at (v_mem v) filter f -> zlen f <= INT_MAX ->
  total v (Client_setMessageHandler filter h : MC Z) (fun rc w => exists hs,
    rc = (set_table f h t).1 /\ w = o_with_handlers v hs /\ slots_are (v_mem v) hs (set_table f h t).2).
Proof.
  intros Htab Ht Hf Hmax. pose proof (Forall2_length Htab) as Hlen.
  unfold Client_setMessageHandler. rewrite <- Ht, <- Hlen.
  rstep (runs_ofind_filter v [] (o_messageHandlers (v_client v)) t); [done|apply Htab|exact Hf|].
  change (zlen []) with 0. rewrite Z.add_0_l. set (i := found_at _ t) in *.
  assert (Hwrite : forall j filter' f' x, (j < length t)%nat ->
    slot_is (v_mem v) {| topicFilter := filter'; fp := f' |} x ->
    total v (Client_set_handler (Z.of_nat j) filter' f' ;;; ret SUCCESS : MC Z) (fun rc w => exists hs,
      rc = SUCCESS /\ w = o_with_handlers v hs /\ slots_are (v_mem v) hs (<[j := x]> t))).
  { intros j filter' f' x Hj Hx. rstep runs_oset_handler; [done|lia|]. apply total_ret.
    eexists. split_and!; [done|done|]. by apply slots_insert. }
  assert (Hsame : total v (ret FAILURE : MC Z) (fun rc w => exists hs,
    rc = FAILURE /\ w = o_with_handlers v hs /\ slots_are (v_mem v) hs t)).
  { apply total_ret. exists (o_messageHandlers (v_client v)). split_and!; [done| |done].
    destruct v as [? c ? ? ?]. unfold o_with_handlers, set_v_client, o_set_messageHandlers. cbn.
    by destruct c as [? ? ? [] [] [] ? ? ? ? ? ? ? ? ? ? ? ? ?]. }
  destruct (Z.ltb_spec (Z.of_nat i) (zlen (o_messageHandlers (v_client v)))) as [Hi|Hi].
  - rewrite set_table_found by (fold i; lia). fold i. destruct h as [k|]; cbn [fst snd].
    + apply Hwrite; [lia|done].
    + apply Hwrite; [lia|done].
  - destruct h as [k|].
    + rewrite set_table_new by (fold i; lia). oget c. rewrite (first_free _ _ _ Htab). cbv zeta.
      case_decide; cbn [fst snd]; [by apply Hwrite|exact Hsame].
    + rewrite set_table_absent by (fold i; lia). exact Hsame.
Qed.
End ObjectHandlers.
