(* ===== verification/CppCycle.v ===== *)
(** * The packet cycle of the C++ client

    The invariant [object_ok] of the client object, and cycle: its reaction to
    each packet type, the handshake of incoming QoS 2 messages, and safety
    against any input and any network that makes progress. *)

From S2P Require Import Prelude CMem MQTTPacket MQTTPublish MQTTConnect MQTTSubscribe PacketRead.
From S2P Require Import Platform MQTTClient Exchange TopicMatch Handlers CppClient CppLogic CppHandlers.

(** ** The object *)

(** The array members of the object; [l_spare] is the number of bytes that
    follow [readbuf] in its object. *)
Record layout := { l_send : block; l_read : block; l_pub : block; l_spare : Z }.

Definition is_array (L : layout) (b : block) : Prop := b = l_send L \/ b = l_read L \/ b = l_pub L.

Definition outside (L : layout) (p : ptr) : Prop :=
  forall b o, p = Ptr b o -> ~ is_array L b.

Record object_ok `{ClientParams} (L : layout) (t : list slot) (v : oview) : Prop := {
  oo_sendbuf : o_sendbuf (v_client v) = Ptr (l_send L) 0;
  oo_readbuf : o_readbuf (v_client v) = Ptr (l_read L) 0;
  oo_pubbuf : o_pubbuf (v_client v) = Ptr (l_pub L) 0;
  oo_size : 5 <= MAX_MQTT_PACKET_SIZE <= INT_MAX;
  oo_send : exists l, v_mem v !! l_send L = Some l /\ zlen l = MAX_MQTT_PACKET_SIZE;
  oo_read : exists l, v_mem v !! l_read L = Some l /\ zlen l = MAX_MQTT_PACKET_SIZE + l_spare L;
  oo_pub : exists l, v_mem v !! l_pub L = Some l /\ zlen l = MAX_MQTT_PACKET_SIZE;
  oo_spare : 0 <= l_spare L;
  oo_blocks : l_send L <> l_read L /\ l_send L <> l_pub L /\ l_read L <> l_pub L;
  oo_table : slots_are (v_mem v) (o_messageHandlers (v_client v)) t;
  oo_slots : length t = MAX_HANDLERS;
  oo_outside : Forall (fun h => outside L (topicFilter h)) (o_messageHandlers (v_client v));
  oo_incoming : length (o_incomingQoS2messages (v_client v)) = MAX_INCOMING_QOS2_MESSAGES;
  oo_inflight : 0 <= o_inflightMsgid (v_client v) < 65536 /\
    (0 < o_inflightMsgid (v_client v) -> 0 <= o_inflightLen (v_client v) <= MAX_MQTT_PACKET_SIZE)
}.

(** [packet] has been serialized and sent; [packet] has been read, [rest] is to come. *)
Definition o_sent (L : layout) (packet : list byte) (v : oview) : oview :=
  send (put (l_send L) 0 packet v) packet.
Definition o_got (L : layout) (packet rest : list byte) (v : oview) : oview :=
  set_v_in (put (l_read L) 0 packet v) rest.

Section ObjectState.
Context `{ClientParams}.
Implicit Types (v : oview) (L : layout).

(** The invariant speaks of the object, its arrays and its filters. *)
Lemma oo_change L t v v' :
  object_ok L t v -> v_client v' = v_client v ->
  (forall b l, is_array L b -> v_mem v !! b = Some l ->
     exists l', v_mem v' !! b = Some l' /\ length l' = length l) ->
  (forall b, ~ is_array L b -> v_mem v' !! b = v_mem v !! b) ->
  object_ok L t v'.
Proof.
  intros Hok Hc Hbuf Hother. destruct Hok as [? ? ? ? (ls & Hs & Hs') (lr & Hr & Hr') (lp & Hp & Hp') ? ? Ht ? Hap ? ?].
  split; rewrite ?Hc; try done.
  - destruct (Hbuf (l_send L) ls ltac:(unfold is_array; tauto) Hs) as (l' & ? & Hl'). exists l'. by rewrite Hl'.
  - destruct (Hbuf (l_read L) lr ltac:(unfold is_array; tauto) Hr) as (l' & ? & Hl'). exists l'. by rewrite Hl'.
  - destruct (Hbuf (l_pub L) lp ltac:(unfold is_array; tauto) Hp) as (l' & ? & Hl'). exists l'. by rewrite Hl'.
  - apply Forall2_same_length_lookup. apply Forall2_same_length_lookup in Ht as [Hl Ht].
    split; [done|]. intros i h x Hh Hx. destruct (Ht i h x Hh Hx) as [Hfp Hf]. split; [done|].
    destruct (x.1) as [f|]; [|done]. destruct Hf as [Hf Hmax]. split; [|done].
    eapply cstring_at_same; [|exact Hf]. intros b o Hpt. rewrite Forall_lookup in Hap.
    apply Hother. exact (Hap i h Hh b o Hpt).
Qed.

Lemma oo_put L t v b w l :
  object_ok L t v -> is_array L b -> v_mem v !! b = Some l -> zlen w <= zlen l ->
  object_ok L t (put b 0 w v).
Proof.
  intros Hok Hin Hb Hw. eapply oo_change; [exact Hok|done| |].
  - intros b' l' _ Hl. destruct (decide (b' = b)) as [->|Hne].
    + rewrite Hb in Hl. injection Hl as <-. exists (splice l 0 w). split; [by apply put_lookup|].
      apply splice_length; lia.
    + rewrite put_other by done. by exists l'.
  - intros b' Hb'. apply put_other. by intros ->.
Qed.

Lemma oo_put_send L t v w : object_ok L t v -> zlen w <= MAX_MQTT_PACKET_SIZE -> object_ok L t (put (l_send L) 0 w v).
Proof.
  intros Hok Hw. destruct (oo_send _ _ _ Hok) as (l & Hl & Hl'). eapply oo_put; [done|unfold is_array; tauto|exact Hl|lia].
Qed.

Lemma oo_put_read L t v w :
  object_ok L t v -> zlen w <= MAX_MQTT_PACKET_SIZE -> object_ok L t (put (l_read L) 0 w v).
Proof.
  intros Hok Hw. destruct (oo_read _ _ _ Hok) as (l & Hl & Hl'). pose proof (oo_spare _ _ _ Hok).
  eapply oo_put; [done|unfold is_array; tauto|exact Hl|lia].
Qed.

(** It does not depend on the network. *)
Lemma oo_see L t v v' : object_ok L t v -> v_mem v' = v_mem v -> v_client v' = v_client v -> object_ok L t v'.
Proof. intros [] Hm Hc. split; by rewrite ?Hm, ?Hc. Qed.

Lemma oo_sent L t v w : object_ok L t v -> zlen w <= MAX_MQTT_PACKET_SIZE -> object_ok L t (o_sent L w v).
Proof. intros Hok Hw. by apply (oo_see L t (put (l_send L) 0 w v)); [apply oo_put_send|..]. Qed.

Lemma oo_got L t v w rest : object_ok L t v -> zlen w <= MAX_MQTT_PACKET_SIZE -> object_ok L t (o_got L w rest v).
Proof. intros Hok Hw. by apply (oo_see L t (put (l_read L) 0 w v)); [apply oo_put_read|..]. Qed.

Lemma o_got_bytes L t v w rest :
  object_ok L t v -> zlen w <= MAX_MQTT_PACKET_SIZE -> bytes_at (v_mem (o_got L w rest v)) (l_read L) 0 w.
Proof.
  intros Hok Hw. destruct (oo_read _ _ _ Hok) as (l & Hl & Hl'). pose proof (oo_spare _ _ _ Hok).
  apply (bytes_at_put _ _ _ _ l); [done|done|lia].
Qed.
End ObjectState.

(** ** Closing the session *)

Definition forgotten (h : MessageHandlers) : MessageHandlers := {| topicFilter := NULL; fp := fp h |}.

Definition cleaned_object `{ClientParams} (c : ClientObject unit) : ClientObject unit :=
  let c := o_set_messageHandlers c (forgotten <$> o_messageHandlers c) in
  let c := if MQTTCLIENT_QOS1 || MQTTCLIENT_QOS2 then o_set_inflightQoS (o_set_inflightMsgid c 0) QOS0 else c in
  if MQTTCLIENT_QOS2 then o_set_incoming (o_set_pubrel c false) ((fun _ => 0) <$> o_incomingQoS2messages c) else c.

Definition closed_object `{ClientParams} (c : ClientObject unit) : ClientObject unit :=
  let c' := o_set_isconnected (o_set_ping_outstanding c false) false in
  if o_cleansession c then cleaned_object c' else c'.

(** The view after closeSession, and its handler table. *)
Definition o_closed `{ClientParams} (v : oview) : oview := set_v_client v (closed_object (v_client v)).
Definition o_closed_table (v : oview) (t : list slot) : list slot :=
  if o_cleansession (v_client v) then (fun x => (None, x.2)) <$> t else t.

Section ObjectSteps.
Context `{ClientParams} {E Timer : Type} `{PS : PlatformSpec (ClientObject Timer) E Timer MessageData} `{CharSign}.
Abbreviation MC := (M (oworld E Timer)).
Implicit Types (v : oview) (L : layout).

Lemma runs_oclean v : runs v (Client_cleanSession : MC unit) tt (set_v_client v (cleaned_object (v_client v))).
Proof.
  unfold Client_cleanSession, cleaned_object. cbv zeta.
  rstep (runs_update_client v _ (o_set_messageHandlers (v_client v) (forgotten <$> o_messageHandlers (v_client v))));
    [by intros ? <-|].
  set (w := set_v_client v _). destruct (MQTTCLIENT_QOS1 || MQTTCLIENT_QOS2).
  - rstep (runs_update_client w _ (o_set_inflightQoS (o_set_inflightMsgid (v_client w) 0) QOS0)); [by intros ? <-|].
    destruct MQTTCLIENT_QOS2; [by oupdate|by apply total_ret].
  - tret. destruct MQTTCLIENT_QOS2; [by oupdate|by apply total_ret].
Qed.

Lemma runs_oclose v : runs v (Client_closeSession : MC unit) tt (o_closed v).
Proof.
  unfold Client_closeSession, o_closed, closed_object. cbv zeta.
  rstep (runs_update_client v _ (o_set_isconnected (o_set_ping_outstanding (v_client v) false) false));
    [by intros ? <-|].
  oget c. cbn [v_client set_v_client o_cleansession o_set_isconnected o_set_ping_outstanding].
  destruct (o_cleansession (v_client v)); [|by apply total_ret].
  eapply total_mono; [apply runs_oclean|]. by intros ? ? [-> ->].
Qed.

Lemma oo_close L t v : object_ok L t v -> object_ok L (o_closed_table v t) (o_closed v).
Proof.
  intros [? ? ? ? ? ? ? ? ? Ht ? Hap ? ?]. unfold o_closed, closed_object, o_closed_table, cleaned_object.
  assert (Hclean : slots_are (v_mem v) (forgotten <$> o_messageHandlers (v_client v)) ((fun x => (None, x.2)) <$> t)).
  { apply Forall2_fmap. eapply Forall2_impl; [|exact Ht]. by intros h x [Hfp _]. }
  assert (Hout : Forall (fun h => outside L (topicFilter h)) (forgotten <$> o_messageHandlers (v_client v))).
  { apply Forall_fmap, Forall_true. by intros h b o. }
  destruct (o_cleansession (v_client v)); [|by split].
  destruct MQTTCLIENT_QOS1, MQTTCLIENT_QOS2; cbn [orb]; split; cbn; rewrite ?length_fmap; try done; lia.
Qed.

Lemma closed_disconnected v : o_isconnected (v_client (o_closed v)) = false.
Proof.
  unfold o_closed, closed_object, cleaned_object. cbn.
  by destruct (o_cleansession _), MQTTCLIENT_QOS1, MQTTCLIENT_QOS2.
Qed.
End ObjectSteps.

(** ** Keep-alive and the end of a cycle *)

Definition o_pinged (v : oview) (b : bool) : oview := set_v_client v (o_set_ping_outstanding (v_client v) b).

(** [exit:] of cycle. *)
Definition o_exit_view `{ClientParams} (rc : Z) (v : oview) : oview :=
  if (rc =? SUCCESS) || negb (o_isconnected (v_client v)) then v else o_closed v.

Section ObjectKeepalive.
Context `{ClientParams} {E Timer : Type} `{PS : PlatformSpec (ClientObject Timer) E Timer MessageData} `{CharSign}.
Context `{!Progress (ClientObject Timer) E Timer MessageData}.
Abbreviation MC := (M (oworld E Timer)).
Abbreviation responsive := (Responsive (ClientObject Timer) E Timer MessageData).
Implicit Types (v : oview) (L : layout).
Variables (fuel : nat) (no_timer : Timer).
Hypothesis Hfuel : MAX_MQTT_PACKET_SIZE < Z.of_nat fuel.

(** Sending what was just put into the send buffer. *)
Lemma total_osend_put L t v w timer :
  object_ok L t v -> zlen w <= MAX_MQTT_PACKET_SIZE ->
  total (put (l_send L) 0 w v) (Client_sendPacket fuel (zlen w) timer) (fun rc v' =>
    object_ok L t v' /\ (rc = SUCCESS /\ v' = o_sent L w v \/ rc = FAILURE /\ ~ responsive)).
Proof.
  intros Hok Hw. destruct (oo_send _ _ _ Hok) as (l & Hl & Hl'). pose proof (oo_size _ _ _ Hok) as Hsz.
  pose proof (oo_put_send L t v w Hok Hw) as Hokp.
  eapply total_mono; [apply (total_osend _ _ (l_send L) w); try lia|].
  - apply Hok.
  - apply (bytes_at_put _ _ _ _ l); [done|done|lia].
  - intros rc v' [(-> & ->)|(-> & HR & k & _ & ->)].
    + split; [by apply (oo_see _ _ (put (l_send L) 0 w v))|by left].
    + split; [by apply (oo_see _ _ (put (l_send L) 0 w v))|right]. split; [done|].
      intros HR'. by apply HR, responsive_undisturbed.
Qed.

Lemma runs_osent `{!responsive} L t v w timer :
  object_ok L t v -> zlen w <= MAX_MQTT_PACKET_SIZE ->
  runs (put (l_send L) 0 w v) (Client_sendPacket fuel (zlen w) timer) SUCCESS (o_sent L w v).
Proof.
  intros Hok Hw. eapply total_mono; [by apply total_osend_put|].
  intros rc v' [_ [[-> ->]|(_ & [])]]; done.
Qed.

Lemma oo_pinged L t v b : object_ok L t v -> object_ok L t (o_pinged v b).
Proof. intros []. by split. Qed.

Lemma runs_oping v b :
  runs v (update_client (fun c => o_set_ping_outstanding c b) : MC unit) tt (o_pinged v b).
Proof. apply runs_update_client. by intros ? <-. Qed.

(** A pending ping, or nothing to do. *)
Lemma total_okeepalive L t v :
  object_ok L t v ->
  total v (Client_keepalive fuel no_timer) (fun rc w =>
    object_ok L t w /\ (rc = SUCCESS /\ w = v \/ ~ responsive)).
Proof.
  intros Hok. unfold Client_keepalive. oget c.
  destruct (_ =? 0); [by apply total_ret; auto|]. destruct (o_ping_outstanding (v_client v)).
  { tstep total_TimerIsExpired. intros e ? [-> He]. apply total_ret. destruct e; auto. }
  tstep total_TimerIsExpired. intros e1 ? [-> He1].
  apply (total_step _ _ _ (fun expired w => w = v /\ (expired = true -> ~ responsive))).
  { destruct e1; [by apply total_ret|]. eapply total_mono; [apply total_TimerIsExpired|].
    by intros [] ? [-> ?]. }
  intros expired ? [-> He]. destruct expired; cbn [negb]; [|apply total_ret; auto].
  specialize (He eq_refl).
  tstep total_TimerInit. intros t1 ? ->. tstep total_TimerCountdownMS. intros t2 ? ->.
  destruct (oo_send _ _ _ Hok) as (l & Hl & Hl'). pose proof (oo_size _ _ _ Hok) as Hsz.
  rewrite (oo_sendbuf _ _ _ Hok). tstep total_pingreq_into; [exact Hl|done|lia|lia|].
  intros n ? [(-> & -> & Hroom)|(Hn & -> & Hroom)]; [|lia].
  change (0 <? zlen ping_packet) with true. cbv iota.
  tstep (total_osend_put L t); [done|change (zlen ping_packet) with 2; lia|].
  intros rc w (Hokw & _). destruct (rc =? SUCCESS).
  - rstep runs_oping.
    tstep total_TimerCountdown. intros t3 ? ->. rstep runs_set_timer; [done|].
    apply total_ret. split; [by apply oo_pinged|by right].
  - tret. apply total_ret. split; [done|by right].
Qed.

Lemma runs_ocycle_exit rc packet_type v :
  runs v (Client_cycle_exit rc packet_type : MC Z) (if rc =? SUCCESS then packet_type else rc) (o_exit_view rc v).
Proof.
  unfold Client_cycle_exit, o_exit_view. destruct (rc =? SUCCESS); cbn [orb]; [by apply total_ret|].
  oget c. destruct (o_isconnected (v_client v)); cbn [negb].
  - rstep runs_oclose. by apply total_ret.
  - tret. by apply total_ret.
Qed.

(** What every cycle ensures. *)
Definition ocycle_outcome L (rc : Z) (w : oview) : Prop :=
  (exists t, object_ok L t w) /\ (rc < 0 -> o_isconnected (v_client w) = false).

Lemma safe_oexit L t rc packet_type v :
  object_ok L t v -> (rc = SUCCESS -> 0 <= packet_type) ->
  total v (Client_cycle_exit rc packet_type : MC Z) (ocycle_outcome L).
Proof.
  intros Hok Hp. eapply total_mono; [apply runs_ocycle_exit|]. intros r w [-> ->]. unfold o_exit_view.
  destruct (Z.eqb_spec rc SUCCESS); cbn [orb]; [split; [by exists t|lia]|].
  destruct (o_isconnected (v_client v)) eqn:Hc; cbn [negb]; [|split; [by exists t|done]].
  split; [exists (o_closed_table v t); by apply oo_close|]. intros _. apply closed_disconnected.
Qed.

Lemma safe_oend L t rc packet_type v :
  object_ok L t v -> 0 <= packet_type ->
  total v (Client_cycle_end fuel no_timer rc packet_type) (ocycle_outcome L).
Proof.
  intros Hok Hp. unfold Client_cycle_end. tstep total_okeepalive; [exact Hok|].
  intros k w [Hw _]. by apply (safe_oexit _ t).
Qed.

Lemma runs_ocycle_end `{!responsive} L t packet_type v :
  object_ok L t v -> runs v (Client_cycle_end fuel no_timer SUCCESS packet_type) packet_type v.
Proof.
  intros Hok. unfold Client_cycle_end. tstep total_okeepalive; [exact Hok|].
  intros k w [_ [[-> ->]|[]]]; [|done]. cbn [Z.eqb SUCCESS negb].
  eapply total_mono; [apply runs_ocycle_exit|]. by intros r w [-> ->].
Qed.
End ObjectKeepalive.

(** ** Incoming messages of QoS 2 *)

(** The identifiers after a message [id], and whether it is new and has an entry. *)
Definition incoming_after (ids : list Z) (id : Z) : list Z * bool :=
  if decide (id ∈ ids) then (ids, false)
  else match first_index (fun x => x =? 0) ids with
       | Some i => (<[i := id]> ids, true)
       | None => (ids, false)
       end.

(** The identifiers after the release of [id]. *)
Definition released (ids : list Z) (id : Z) : list Z :=
  match first_index (fun x => x =? id) ids with Some i => <[i := 0]> ids | None => ids end.

Lemma first_index_Some (ids : list Z) x i :
  first_index (fun y => y =? x) ids = Some i ->
  ids !! i = Some x /\ x ∉ take i ids.
Proof.
  revert i. induction ids as [|y ids IH]; intros i; cbn [first_index]; [done|].
  destruct (Z.eqb_spec y x) as [->|Hne]; [intros [= <-]; split; [done|apply not_elem_of_nil]|].
  intros (j & Hj & ->)%fmap_Some. apply IH in Hj as [Hj Hnot]. split; [done|]. cbn [take].
  apply not_elem_of_cons. auto.
Qed.

Lemma first_index_None (ids : list Z) x : first_index (fun y => y =? x) ids = None <-> x ∉ ids.
Proof.
  induction ids as [|y ids IH]; cbn [first_index]; [split; [intros _; apply not_elem_of_nil|done]|].
  destruct (Z.eqb_spec y x) as [->|Hne].
  - split; [done|]. intros Hx. exfalso. apply Hx. by left.
  - rewrite fmap_None, IH, not_elem_of_cons. intuition.
Qed.

Lemma first_index_insert (ids : list Z) i x :
  (i < length ids)%nat -> x ∉ take i ids -> first_index (fun y => y =? x) (<[i := x]> ids) = Some i.
Proof.
  revert i. induction ids as [|y ids IH]; intros i Hi Hnot; simpl in Hi; [lia|]. destruct i as [|i].
  - cbn. by rewrite Z.eqb_refl.
  - cbn [take] in Hnot. apply not_elem_of_cons in Hnot as [Hne Hnot]. cbn. rewrite (proj2 (Z.eqb_neq _ _)) by congruence.
    by rewrite IH by (done || lia).
Qed.

(** Releasing an identifier undoes taking it. *)
Lemma released_after ids id :
  id ∉ ids -> 0 ∈ ids -> (incoming_after ids id).2 = true /\ released (incoming_after ids id).1 id = ids.
Proof.
  intros Hid H0. unfold incoming_after. rewrite decide_False by done.
  destruct (first_index _ ids) as [i|] eqn:Hi; [|by apply first_index_None in Hi]. cbn [fst snd].
  apply first_index_Some in Hi as [Hi Hnot]. split; [done|]. unfold released.
  rewrite first_index_insert; [|by eapply lookup_lt_Some|].
  - rewrite list_insert_insert_eq. by apply list_insert_id.
  - intros Hin. apply Hid. eapply list.subseteq_take; exact Hin.
Qed.

Definition with_incoming (v : oview) ids : oview := set_v_client v (o_set_incoming (v_client v) ids).

(** The view after [Client_accept]: to whom the message goes. *)
Definition accept_view `{ClientParams} (t : list slot) (topic : MQTTString) (n : list byte) (msg : MQTTMessage)
    (v : oview) : oview :=
  let to := to_receivers topic msg (receivers_by client_accepts n t (o_defaultMessageHandler (v_client v))) in
  if MQTTCLIENT_QOS2 && (msg_qos msg =? QOS2) then
    let after := incoming_after (o_incomingQoS2messages (v_client v)) (msg_id msg) in
    let w := with_incoming v after.1 in
    if after.2 then deliver w to else w
  else deliver v to.

Section ObjectAccept.
Context `{ClientParams} {E Timer : Type} `{PS : PlatformSpec (ClientObject Timer) E Timer MessageData} `{CharSign}.
Abbreviation MC := (M (oworld E Timer)).
Implicit Types (v : oview) (L : layout).

Lemma with_incoming_same v : with_incoming v (o_incomingQoS2messages (v_client v)) = v.
Proof.
  destruct v as [? c ? ? ?]. unfold with_incoming, set_v_client, o_set_incoming. cbn.
  by destruct c as [? ? ? [] [] [] ? ? ? ? ? ? ? ? ? ? ? ? ?].
Qed.

Lemma runs_accept v b topic n msg t :
  held (v_mem v) b topic n -> zlen n <= INT_MAX ->
  slots_are (v_mem v) (o_messageHandlers (v_client v)) t -> length t = MAX_HANDLERS ->
  runs v (Client_accept topic msg : MC unit) tt (accept_view t topic n msg v).
Proof.
  intros Hheld Hmax Ht Hlen. unfold Client_accept, accept_view. cbv zeta.
  assert (Hdel : forall w, v_mem w = v_mem v ->
    o_messageHandlers (v_client w) = o_messageHandlers (v_client v) ->
    o_defaultMessageHandler (v_client w) = o_defaultMessageHandler (v_client v) ->
    runs w (let* _ := Client_deliverMessage topic msg in ret tt : MC unit) tt
      (deliver w (to_receivers topic msg (receivers_by client_accepts n t (o_defaultMessageHandler (v_client v)))))).
  { intros w Hm Hh Hd. rstep (runs_odeliver w b topic n msg t); [by rewrite Hm|done|by rewrite Hm, Hh|done|].
    rewrite Hd. by apply total_ret. }
  destruct MQTTCLIENT_QOS2; cbn [negb orb andb]; [|by apply Hdel].
  destruct (msg_qos msg =? QOS2); cbn [negb]; [|by apply Hdel].
  unfold Client_isQoS2msgidFree. tassoc. oget c. tret. unfold incoming_after.
  destruct (decide (msg_id msg ∈ o_incomingQoS2messages (v_client v))) as [Hin|Hin].
  { destruct (first_index _ _) eqn:Hf; [|by apply first_index_None in Hf]. cbn [fst snd].
    rewrite with_incoming_same. by apply total_ret. }
  rewrite (proj2 (first_index_None _ _) Hin). unfold Client_useQoS2msgid. tassoc. oget c2.
  destruct (first_index _ _) as [i|]; cbn [fst snd].
  - tassoc. rstep (runs_update_client v _ (o_set_incoming (v_client v) (<[i := msg_id msg]> (o_incomingQoS2messages (v_client v)))));
      [by intros ? <-|]. tret. by apply (Hdel (with_incoming v _)).
  - tret. rewrite with_incoming_same. by apply total_ret.
Qed.

Lemma incoming_after_length ids id : length (incoming_after ids id).1 = length ids.
Proof.
  unfold incoming_after. case_decide; [done|]. destruct (first_index _ ids); [|done]. apply length_insert.
Qed.

Lemma released_length ids id : length (released ids id) = length ids.
Proof. unfold released. destruct (first_index _ ids); [|done]. apply length_insert. Qed.

Lemma oo_with_incoming L t v ids :
  object_ok L t v -> length ids = length (o_incomingQoS2messages (v_client v)) -> object_ok L t (with_incoming v ids).
Proof. intros [] Hl. split; try done. cbn. by rewrite Hl. Qed.

Lemma oo_accept L t t' topic n msg v : object_ok L t v -> object_ok L t (accept_view t' topic n msg v).
Proof.
  intros Hok. unfold accept_view. cbv zeta.
  set (ids := (incoming_after (o_incomingQoS2messages (v_client v)) (msg_id msg)).1).
  assert (Hw : object_ok L t (with_incoming v ids)) by (apply oo_with_incoming; [done|apply incoming_after_length]).
  destruct (MQTTCLIENT_QOS2 && _); [|by apply (oo_see _ _ v)].
  destruct (incoming_after _ _).2; [by apply (oo_see _ _ (with_incoming v ids))|done].
Qed.

Lemma runs_free v id :
  runs v (Client_freeQoS2msgid id : MC unit) tt (with_incoming v (released (o_incomingQoS2messages (v_client v)) id)).
Proof.
  unfold Client_freeQoS2msgid, released. oget c. destruct (first_index _ _) as [i|].
  - apply runs_update_client. by intros ? <-.
  - rewrite with_incoming_same. by apply total_ret.
Qed.
End ObjectAccept.

(** ** The cycle *)

Section ObjectCycle.
Context `{ClientParams} {E Timer : Type} `{PS : PlatformSpec (ClientObject Timer) E Timer MessageData} `{CharSign}.
Context `{!Progress (ClientObject Timer) E Timer MessageData}.
Abbreviation MC := (M (oworld E Timer)).
Abbreviation responsive := (Responsive (ClientObject Timer) E Timer MessageData).
Implicit Types (v : oview) (L : layout).
Variables (fuel : nat) (no_timer : Timer) (uninit : Z).
Hypothesis Hfuel : MAX_MQTT_PACKET_SIZE < Z.of_nat fuel.

Lemma runs_oread_packet `{!responsive} L t v timer type dup qos retain body rest :
  object_ok L t v -> v_in v = mqtt_packet (mqtt_header type dup qos retain) body ++ rest -> 0 <= type < 16 ->
  zlen body <= REMLEN_MAX -> packet_size (zlen body) <= MAX_MQTT_PACKET_SIZE ->
  runs v (Client_readPacket timer) type (o_got L (mqtt_packet (mqtt_header type dup qos retain) body) rest v).
Proof.
  intros Hok Hin Hty Hmax Hfits. set (h := mqtt_header type dup qos retain) in *.
  assert (0 <= h < 256) as Hh by apply mqtt_header_range.
  destruct (oo_read _ _ _ Hok) as (l & Hl & Hl'). pose proof (oo_spare _ _ _ Hok). pose proof (oo_size _ _ _ Hok).
  eapply total_mono.
  { apply (runs_oread v timer (l_read L) l (byte_of_Z h) (remlen_bytes (zlen body)) body rest); try done; try lia.
    - apply Hok.
    - rewrite Hin. unfold mqtt_packet. by rewrite <- app_comm_cons, <- app_assoc.
    - by apply length_field_canonical. }
  intros r w [-> ->]. rewrite Z_of_byte_small by done. split.
  - unfold h. rewrite header_type_is. by apply Z.mod_small.
  - unfold o_got. by rewrite (put_insert _ _ _ _ l).
Qed.

(** Packets without content for cycle are only taken from the network. *)
Lemma runs_ocycle_plain `{!responsive} L t v timer (type : msgTypes) dup qos retain body rest :
  object_ok L t v -> v_in v = mqtt_packet (mqtt_header type dup qos retain) body ++ rest ->
  type ∈ [CONNACK; PUBACK; SUBACK; UNSUBACK] \/ type = PUBCOMP /\ MQTTCLIENT_QOS2 = true ->
  zlen body <= REMLEN_MAX -> packet_size (zlen body) <= MAX_MQTT_PACKET_SIZE ->
  runs v (Client_cycle fuel no_timer uninit timer) type
    (o_got L (mqtt_packet (mqtt_header type dup qos retain) body) rest v).
Proof.
  intros Hok Hin Hty Hmax Hfits. unfold Client_cycle.
  rstep runs_oread_packet; [exact Hok|exact Hin|by destruct type|done|done|].
  assert (Hend : runs (o_got L (mqtt_packet (mqtt_header type dup qos retain) body) rest v)
    (Client_cycle_end fuel no_timer SUCCESS type) type
    (o_got L (mqtt_packet (mqtt_header type dup qos retain) body) rest v)).
  { apply (runs_ocycle_end fuel no_timer Hfuel L t). by apply oo_got; [|rewrite mqtt_packet_size]. }
  rewrite !elem_of_cons, elem_of_nil in Hty.
  destruct Hty as [[->|[->|[->|[->|[]]]]]|[-> HQ]]; try exact Hend. rewrite HQ. exact Hend.
Qed.

(** An acknowledgement from the send buffer. *)
Lemma runs_oack L t v packettype id :
  object_ok L t v -> 0 <= id ->
  runs v (MQTTSerialize_ack (Ptr (l_send L) 0) MAX_MQTT_PACKET_SIZE packettype 0 id : MC Z)
    (zlen (ack_packet packettype 0 id)) (put (l_send L) 0 (ack_packet packettype 0 id) v).
Proof.
  intros Hok Hid. destruct (oo_send _ _ _ Hok) as (l & Hl & Hl'). pose proof (oo_size _ _ _ Hok).
  eapply total_mono; [eapply total_ack_into; [exact Hl|done|lia|lia|done]|].
  intros n w [(-> & -> & _)|(_ & _ & ?)]; [done|lia].
Qed.

(** [case PUBLISH] behind delivery. *)
Lemma total_oreply L t v qos id timer :
  object_ok L t v -> 0 <= qos -> (0 < qos -> 0 <= id) ->
  total v (if MQTTCLIENT_QOS1 || MQTTCLIENT_QOS2 then
             if negb (qos =? QOS0) then
               let* len :=
                 (if qos =? QOS1 then MQTTSerialize_ack (Ptr (l_send L) 0) MAX_MQTT_PACKET_SIZE PUBACK 0 id
                  else if qos =? QOS2
                       then MQTTSerialize_ack (Ptr (l_send L) 0) MAX_MQTT_PACKET_SIZE PUBREC 0 id
                  else ret 0) in
               if len <=? 0 then ret FAILURE else Client_sendPacket fuel len timer
             else ret SUCCESS
           else update_client (fun c => o_set_ping_outstanding c false) ;;; ret SUCCESS)
    (fun rc w => object_ok L t w /\ (responsive -> qos < 3 -> rc = SUCCESS /\ w =
       if MQTTCLIENT_QOS1 || MQTTCLIENT_QOS2 then
         if qos =? QOS0 then v else o_sent L (publish_reply qos id) v
       else o_pinged v false)).
Proof.
  intros Hok Hq Hid. pose proof (oo_size _ _ _ Hok) as Hsz. destruct (MQTTCLIENT_QOS1 || MQTTCLIENT_QOS2).
  2: { rstep runs_oping. apply total_ret. split; [by apply oo_pinged|done]. }
  destruct (Z.eqb_spec qos QOS0) as [Hq0|Hq0]; cbn [negb]; [by apply total_ret|]. unfold QOS0 in Hq0.
  destruct (decide (qos < 3)) as [Hq3|Hq3].
  - assert (Hreply : runs v (if qos =? QOS1 then
        MQTTSerialize_ack (Ptr (l_send L) 0) MAX_MQTT_PACKET_SIZE PUBACK 0 id
        else if qos =? QOS2 then MQTTSerialize_ack (Ptr (l_send L) 0) MAX_MQTT_PACKET_SIZE PUBREC 0 id
        else ret 0 : MC Z) (zlen (publish_reply qos id)) (put (l_send L) 0 (publish_reply qos id) v)).
    { unfold publish_reply. destruct (Z.eqb_spec qos QOS1); [apply (runs_oack L t); [done|apply Hid; lia]|].
      rewrite (proj2 (Z.eqb_eq qos QOS2)) by (unfold QOS1, QOS2 in *; lia).
      apply (runs_oack L t); [done|apply Hid; lia]. }
    rstep Hreply.
    change (zlen (publish_reply qos id) <=? 0) with false. cbv iota.
    eapply total_mono; [apply (total_osend_put fuel Hfuel L t); [done|change (zlen _) with 4; lia]|].
    intros rc w (Hokw & Hw). split; [done|]. intros HR _. by destruct Hw as [[-> ->]|(_ & [])].
  - rewrite (proj2 (Z.eqb_neq qos QOS1)), (proj2 (Z.eqb_neq qos QOS2)) by (unfold QOS1, QOS2; lia). tret.
    apply total_ret. split; [done|]. intros. lia.
Qed.
(** An incoming PUBLISH: the message is accepted, then acknowledged. *)
Lemma runs_ocycle_publish `{!responsive} L t v timer dup qos retained id topic payload rest :
  object_ok L t v -> v_in v = publish_packet dup qos retained id topic payload ++ rest ->
  0 <= qos < 3 -> 0 <= id < 65536 -> zlen topic <= 65535 ->
  zlen (publish_body qos id topic payload) <= REMLEN_MAX ->
  packet_size (zlen (publish_body qos id topic payload)) <= MAX_MQTT_PACKET_SIZE ->
  let out := publish_result (publish_locals uninit) (l_read L) 0 dup qos retained id topic payload in
  let w := accept_view t (pub_topicName out) topic (message_of out)
             (o_got L (publish_packet dup qos retained id topic payload) rest v) in
  runs v (Client_cycle fuel no_timer uninit timer) PUBLISH
    (if MQTTCLIENT_QOS1 || MQTTCLIENT_QOS2 then
       if qos =? QOS0 then w else o_sent L (publish_reply qos id) w
     else o_pinged w false).
Proof.
  intros Hok Hin Hq Hid Htopic Hmax Hfits out w. set (pkt := publish_packet _ _ _ _ _ _) in *.
  pose proof (oo_size _ _ _ Hok) as Hsz.
  set (w1 := o_got L pkt rest v) in *.
  assert (Hpkt : zlen pkt <= MAX_MQTT_PACKET_SIZE) by (unfold pkt; by rewrite publish_packet_length).
  pose proof (oo_got L t v pkt rest Hok Hpkt) as Hok1. fold w1 in Hok1.
  pose proof (o_got_bytes L t v pkt rest Hok Hpkt) as Hat. fold w1 in Hat.
  assert (Hokw : object_ok L t w) by by apply oo_accept.
  unfold Client_cycle. rstep runs_oread_packet; [exact Hok|exact Hin|done|done|done|].
  change (o_got L (mqtt_packet _ _) rest v) with w1.
  cbn [msg_code Z.eqb Pos.eqb orb]. unfold Client_cycle_publish. tassoc. oget c.
  rewrite (oo_readbuf _ _ _ Hok1), (oo_sendbuf _ _ _ Hok1).
  rstep (runs_reading _ _ (1, out)).
  { intros s Hs. eexists. split; [apply (deserialize_publish_packet s (l_read L) 0
      (publish_locals uninit) _ dup qos retained id topic payload []); [|lia|done..]|done].
    by rewrite app_nil_r, Hs. }
  change (negb (1 =? 1)) with false. cbv iota. tassoc.
  rstep (runs_accept w1 (l_read L) (pub_topicName out) topic (message_of out) t).
  { by apply publish_topic_held. }
  { unfold INT_MAX. lia. }
  { by apply Hok1. }
  { by apply Hok1. }
  cbn [msg_qos msg_id]. change (pub_qos out) with qos. change (accept_view t _ topic _ w1) with w.
  assert (Hpid : 0 < qos -> pub_packetid out = id).
  { intros ?. cbn. by rewrite (proj2 (Z.ltb_lt _ _)). }
  tstep (total_oreply L t w qos (pub_packetid out) timer); [done|lia|intros; by rewrite Hpid; lia|].
  intros rc w' (Hokw' & HR). destruct (HR _ ltac:(lia)) as [-> Hw'].
  assert (Hgoal : w' = if MQTTCLIENT_QOS1 || MQTTCLIENT_QOS2 then
    if qos =? QOS0 then w else o_sent L (publish_reply qos id) w else o_pinged w false).
  { rewrite Hw'. destruct (_ || _); [|done]. destruct (Z.eqb_spec qos QOS0); [done|].
    by rewrite Hpid by (unfold QOS0 in *; lia). }
  rewrite <- Hgoal. by apply (runs_ocycle_end fuel no_timer Hfuel L t).
Qed.

(** PUBREC and PUBREL are answered; PUBREL releases the identifier. *)
Lemma runs_ocycle_ack `{!responsive} L t v timer (type : msgTypes) dup id rest :
  MQTTCLIENT_QOS2 = true -> object_ok L t v -> type = PUBREC \/ type = PUBREL ->
  v_in v = ack_packet type dup id ++ rest -> 0 <= id < 65536 ->
  let w := o_sent L (ack_reply type id) (o_got L (ack_packet type dup id) rest v) in
  runs v (Client_cycle fuel no_timer uninit timer) type
    (if type =? PUBREL then with_incoming w (released (o_incomingQoS2messages (v_client w)) id) else w).
Proof.
  intros HQ Hok Hty Hin Hid w. pose proof (oo_size _ _ _ Hok) as Hsz.
  assert (Hpkt : zlen (ack_packet type dup id) <= MAX_MQTT_PACKET_SIZE).
  { change (zlen (ack_packet type dup id)) with 4. lia. }
  set (w1 := o_got L (ack_packet type dup id) rest v) in *.
  pose proof (oo_got L t v _ rest Hok Hpkt) as Hok1. fold w1 in Hok1.
  pose proof (o_got_bytes L t v _ rest Hok Hpkt) as Hat. fold w1 in Hat.
  assert (Hreply : zlen (ack_reply type id) <= MAX_MQTT_PACKET_SIZE).
  { change (zlen (ack_reply type id)) with 4. lia. }
  pose proof (oo_sent L t w1 (ack_reply type id) Hok1 Hreply) as Hokw. fold w in Hokw.
  unfold Client_cycle. rstep runs_oread_packet; [exact Hok|exact Hin|by destruct Hty as [-> | ->]|done| |].
  { change (packet_size _) with 4. lia. }
  change (o_got L (mqtt_packet _ _) rest v) with w1. rewrite HQ.
  assert (Hstep : runs w1 (Client_cycle_ack fuel uninit type timer) SUCCESS
    (if type =? PUBREL then with_incoming w (released (o_incomingQoS2messages (v_client w)) id) else w)).
  { unfold Client_cycle_ack. oget c. rewrite (oo_readbuf _ _ _ Hok1), (oo_sendbuf _ _ _ Hok1).
    rstep (runs_reading _ _ (1, {| ack_packettype := type; ack_dup := dup mod 2; ack_packetid := id |})).
    { intros s Hs. eexists. split; [apply (deserialize_ack_packet s (l_read L) 0 _ _ type dup id []);
        [|by destruct Hty as [-> | ->]|done]|done]. by rewrite app_nil_r, Hs. }
    change (negb (1 =? 1)) with false. cbv iota. cbn [ack_packetid].
    rstep (runs_oack L t); [done|lia|]. change (zlen (ack_packet _ 0 id) <=? 0) with false. cbv iota.
    rstep (runs_osent fuel Hfuel L t); [done|done|]. change (negb (SUCCESS =? SUCCESS)) with false. cbv iota.
    change (o_sent L _ w1) with w. destruct (type =? PUBREL).
    - rstep runs_free. by apply total_ret.
    - tret. by apply total_ret. }
  set (w' := if type =? PUBREL then _ else w) in *.
  assert (Hok' : object_ok L t w').
  { unfold w'. destruct (type =? PUBREL); [|done]. apply oo_with_incoming; [done|apply released_length]. }
  destruct Hty as [-> | ->]; cbn [msg_code Z.eqb Pos.eqb orb andb].
  - rstep Hstep. by apply (runs_ocycle_end fuel no_timer Hfuel L t).
  - rstep Hstep. by apply (runs_ocycle_end fuel no_timer Hfuel L t).
Qed.
(** *** Any input *)

Hypothesis Huninit : 0 <= uninit.

(** The receive buffer holds a packet with header byte [h]. *)
Definition o_holds L (w : oview) (h : byte) : Prop :=
  exists body, bytes_at (v_mem w) (l_read L) 0 (h :: remlen_bytes (zlen body) ++ body) /\
    zlen body <= REMLEN_MAX /\ packet_size (zlen body) <= MAX_MQTT_PACKET_SIZE.

Lemma total_oread_any L t v timer :
  object_ok L t v ->
  total v (Client_readPacket timer) (fun rc w => object_ok L t w /\
    (rc <= 0 \/ exists h, rc = header_type (Z_of_byte h) /\ o_holds L w h)).
Proof.
  intros Hok. destruct (oo_read _ _ _ Hok) as (l & Hl & Hl'). pose proof (oo_spare _ _ _ Hok).
  pose proof (oo_size _ _ _ Hok) as Hsz.
  eapply total_mono; [apply (total_oread v timer (l_read L) l); try done; try lia; apply Hok|].
  intros rc ? (w & tl & -> & Hw & Hcase).
  assert (Hsee : View (<[l_read L := splice l 0 w]> (v_mem v)) (v_client v) tl (v_out v) (v_delivered v) =
    o_got L w tl v) by (unfold o_got; by rewrite (put_insert _ _ _ _ l)).
  rewrite Hsee. split; [by apply oo_got|]. destruct Hcase as [?|(h & body & Hrc & Hmax & ->)]; [by left|right].
  exists h. split; [done|]. exists body. split_and!; [by apply (o_got_bytes L t)|done|].
  unfold packet_size. zlen_lia.
Qed.

Lemma parse_own_length body : zlen body <= REMLEN_MAX ->
  parse_remlen 4 (remlen_bytes (zlen body) ++ body) = Some (zlen (remlen_bytes (zlen body)), zlen body).
Proof. intros. apply parse_remlen_bytes. lia. Qed.

Lemma safe_opublish L t v h timer :
  object_ok L t v -> 2 <= l_spare L -> o_holds L v h ->
  total v (Client_cycle_publish fuel uninit timer) (fun _ w => object_ok L t w).
Proof.
  intros Hok Hspare (body & Hat & Hmax & Hfits). destruct (oo_read _ _ _ Hok) as (l & Hl & Hl').
  pose proof (remlen_bytes_short (zlen body) ltac:(lia)) as Hrb. unfold packet_size in Hfits.
  pose proof (oo_size _ _ _ Hok) as Hsz. unfold INT_MAX in Hsz.
  unfold Client_cycle_publish. oget c. rewrite (oo_readbuf _ _ _ Hok), (oo_sendbuf _ _ _ Hok).
  set (start := 0 + 1 + zlen (remlen_bytes (zlen body))).
  tstep (total_reading _ _ (fun r : Z * publish_out => r.1 = 0 \/
    r.1 = 1 /\ publish_inside (l_read L) start (start + zlen body) r.2)).
  { intros s Hs. rewrite <- Hs in *. destruct (deserialize_publish_any s (l_read L) 0 l (publish_locals uninit)
      MAX_MQTT_PACKET_SIZE h _ _ _ Hl Hat (parse_own_length body Hmax) ltac:(lia) ltac:(lia))
      as (rc & out & s' & Hrun & Hm & Hw & Hcase). exists (rc, out), s'. split_and!; try done; congruence. }
  intros [rc out] ? [-> Hcase]. cbn [fst snd] in Hcase.
  destruct Hcase as [->|(-> & Hnull & Hdata & Htlen & Hin & Hq & Hid & _)].
  { change (negb (0 =? 1)) with true. by apply total_ret. }
  change (negb (1 =? 1)) with false. cbv iota.
  destruct (bytes_at_any (v_mem v) (l_read L) (start + 2) l (Z.to_nat (len (lenstring (pub_topicName out)))) Hl)
    as (n & Hn & Hnat); [lia..|].
  rstep (runs_accept v (l_read L) (pub_topicName out) n (message_of out) t).
  { split; [done|]. split; [lia|]. by exists (start + 2). }
  { unfold INT_MAX. lia. }
  { apply Hok. }
  { apply Hok. }
  cbn [msg_qos msg_id].
  eapply total_mono; [apply (total_oreply L t); [by apply oo_accept|lia|]|by intros rc w [? _]].
  intros. by apply Hid.
Qed.

Lemma safe_oack L t v h type timer :
  object_ok L t v -> 2 <= l_spare L -> o_holds L v h ->
  total v (Client_cycle_ack fuel uninit type timer) (fun _ w => object_ok L t w).
Proof.
  intros Hok Hspare (body & Hat & Hmax & Hfits). destruct (oo_read _ _ _ Hok) as (l & Hl & Hl').
  pose proof (remlen_bytes_short (zlen body) ltac:(lia)) as Hrb. unfold packet_size in Hfits.
  pose proof (oo_size _ _ _ Hok) as Hsz.
  unfold Client_cycle_ack. oget c. rewrite (oo_readbuf _ _ _ Hok), (oo_sendbuf _ _ _ Hok).
  tstep (total_reading _ _ (fun r : Z * ack_out => 0 <= ack_packetid r.2)).
  { intros s Hs. rewrite <- Hs in *.
    rewrite (deserialize_ack_frame s (l_read L) 0 _ _ h _ _ _ Hat (parse_own_length body Hmax) ltac:(lia)).
    cbv zeta. destruct (Z.ltb_spec (zlen body) 2); [by do 2 eexists|].
    destruct (readInt_total (cursor_moved s (l_read L) (0 + 1 + zlen (remlen_bytes (zlen body)))) (l_read L)
      (0 + 1 + zlen (remlen_bytes (zlen body))) l) as (id & Hid & Hrun); [done|lia|lia|].
    rewrite (bind_done _ _ _ _ _ Hrun). do 2 eexists. split_and!; [done..|]. cbn. unfold u16. divmod_lia. }
  intros [rc out] ? [-> Hid]. cbn [snd] in Hid. destruct (rc =? 1); cbn [negb]; [|by apply total_ret].
  rstep (runs_oack L t); [done|done|]. change (zlen (ack_packet _ 0 _) <=? 0) with false. cbv iota.
  tstep (total_osend_put fuel Hfuel L t); [done|change (zlen _) with 4; lia|].
  intros rc' w (Hokw & _). destruct (rc' =? SUCCESS); cbn [negb]; [|by apply total_ret].
  destruct (type =? PUBREL).
  - rstep runs_free. apply total_ret. apply oo_with_incoming; [done|apply released_length].
  - tret. by apply total_ret.
Qed.

Lemma safe_ocycle L t v timer :
  object_ok L t v -> 2 <= l_spare L -> total v (Client_cycle fuel no_timer uninit timer) (ocycle_outcome L).
Proof.
  intros Hok Hspare. unfold Client_cycle. tstep total_oread_any; [exact Hok|]. intros rc w [Hokw Hcase].
  assert (Hend : forall ty rc w', object_ok L t w' -> 0 <= ty ->
    total w' (if rc =? FAILURE then Client_cycle_exit rc ty else Client_cycle_end fuel no_timer rc ty)
      (ocycle_outcome L)).
  { intros ty r w' Hok' Hty. destruct (Z.eqb_spec r FAILURE) as [->|].
    - by apply (safe_oexit fuel L t).
    - by apply (safe_oend fuel no_timer Hfuel L t). }
  destruct (_ || _) eqn:Hplain.
  { apply (safe_oend fuel no_timer Hfuel L t); [done|]. cbn [msg_code] in Hplain. lia. }
  destruct Hcase as [Hneg|(h & -> & Hpkt)].
  { assert (Hty : forall ty : msgTypes, (rc =? ty) = false) by (intros []; cbn; lia).
    rewrite !Hty, !andb_false_r. cbn [orb]. apply (safe_oexit fuel L t); [done|]. intros ->. by rewrite Z.eqb_refl in Hplain. }
  pose proof (bytes_range_type h) as Hr.
  destruct (_ =? PUBLISH).
  { tstep safe_opublish; [exact Hokw|exact Hspare|exact Hpkt|]. intros rc w' Hok'. apply Hend; [done|lia]. }
  destruct (_ && (_ || _)).
  { tstep safe_oack; [exact Hokw|exact Hspare|exact Hpkt|]. intros rc w' Hok'. apply Hend; [done|lia]. }
  destruct (_ && _); [apply (safe_oend fuel no_timer Hfuel L t); [done|lia]|].
  destruct (_ =? PINGRESP).
  { rstep runs_oping. apply (safe_oend fuel no_timer Hfuel L t); [by apply oo_pinged|lia]. }
  apply (safe_oexit fuel L t); [done|]. intros _. lia.
Qed.
End ObjectCycle.
