(* ===== verification/CppOps.v ===== *)
(** * The operations of the C++ client

    connect, publish, subscribe, unsubscribe and disconnect of MQTTClient.h from
    the call to the last acknowledgement: the bytes they send, what they take
    from the network, what they store for a later connection, and the client
    they leave. *)

From S2P Require Import Prelude CMem MQTTPacket MQTTPublish MQTTConnect MQTTSubscribe PacketRead.
From S2P Require Import Platform MQTTClient Exchange TopicMatch Handlers CppClient CppLogic CppHandlers CppCycle.

(** ** Views *)

Definition o_next_id (c : ClientObject unit) : Z :=
  if o_packetid c =? MAX_PACKET_ID then 1 else o_packetid c + 1.

(** A packet identifier has been taken. *)
Definition o_took_id (v : oview) : oview :=
  set_v_client v (o_set_packetid (v_client v) (o_next_id (v_client v))).

Definition o_with_session (v : oview) (keepalive : Z) (clean : bool) : oview :=
  set_v_client v (o_set_session (v_client v) keepalive clean).

Definition o_connected (v : oview) : oview :=
  set_v_client v (o_set_ping_outstanding (o_set_isconnected (v_client v) true) false).

(** The acknowledgement of [id] has arrived. *)
Definition o_acked (id : Z) (v : oview) : oview :=
  if o_inflightMsgid (v_client v) =? id then set_v_client v (o_set_inflightMsgid (v_client v) 0) else v.

(** What becomes of the acknowledgements [broker_acks qos id1 id2]. *)
Definition o_acks (L : layout) (qos id1 id2 : Z) (rest : list byte) (v : oview) : oview :=
  if qos =? QOS1 then o_acked id2 (o_got L (ack_packet PUBACK 0 id2) rest v)
  else if qos =? QOS2 then
    o_acked id2 (o_got L (ack_packet PUBCOMP 0 id2) rest
      (o_sent L (ack_packet PUBREL 0 id1)
         (o_got L (ack_packet PUBREC 0 id1) (ack_packet PUBCOMP 0 id2 ++ rest) v)))
  else v.

(** The qualities of service compiled in. *)
Definition qos_built `{ClientParams} (qos : Z) : Prop :=
  qos = QOS0 \/ (qos = QOS1 /\ MQTTCLIENT_QOS1 = true) \/ (qos = QOS2 /\ MQTTCLIENT_QOS2 = true).

Section ObjectOps.
Context `{ClientParams} {E Timer : Type} `{PS : PlatformSpec (ClientObject Timer) E Timer MessageData} `{CharSign}.
Context `{!Responsive (ClientObject Timer) E Timer MessageData} `{ByteOrder}.
Abbreviation MC := (M (oworld E Timer)).
Implicit Types (v : oview) (L : layout).

Lemma runs_onext_id v : runs v (PacketId_getNext : MC Z) (o_next_id (v_client v)) (o_took_id v).
Proof.
  unfold PacketId_getNext. oget c. eapply (runs_step _ _ _ tt (o_took_id v)); [|by apply total_ret].
  unfold o_took_id, o_next_id. oupdate.
Qed.

Lemma total_ocommand_timer v (no_timer : Timer) : total v (Client_command_timer no_timer : MC Timer) (fun _ w => w = v).
Proof.
  unfold Client_command_timer. tstep total_TimerInit. intros t ? ->. oget c. apply total_TimerCountdownMS.
Qed.

Lemma oo_client L t v c :
  object_ok L t v -> o_sendbuf c = o_sendbuf (v_client v) -> o_readbuf c = o_readbuf (v_client v) ->
  o_pubbuf c = o_pubbuf (v_client v) -> o_messageHandlers c = o_messageHandlers (v_client v) ->
  o_incomingQoS2messages c = o_incomingQoS2messages (v_client v) ->
  0 <= o_inflightMsgid c < 65536 -> (0 < o_inflightMsgid c -> 0 <= o_inflightLen c <= MAX_MQTT_PACKET_SIZE) ->
  object_ok L t (set_v_client v c).
Proof. intros [] ? ? ? Hh Hi ? ?. split; cbn [v_client set_v_client v_mem]; rewrite ?Hh, ?Hi; done || congruence. Qed.

Lemma oo_took_id L t v : object_ok L t v -> object_ok L t (o_took_id v).
Proof. intros Hok. pose proof (oo_inflight _ _ _ Hok) as []. by apply oo_client. Qed.
Lemma oo_with_session L t v k c : object_ok L t v -> object_ok L t (o_with_session v k c).
Proof. intros Hok. pose proof (oo_inflight _ _ _ Hok) as []. by apply oo_client. Qed.
Lemma oo_acked L t v id : object_ok L t v -> object_ok L t (o_acked id v).
Proof. intros Hok. unfold o_acked. case_match; [|done]. apply oo_client; cbn; done || lia. Qed.

Lemma o_next_id_range v :
  0 <= o_packetid (v_client v) <= MAX_PACKET_ID -> 1 <= o_next_id (v_client v) <= MAX_PACKET_ID.
Proof. unfold o_next_id, MAX_PACKET_ID. intros Hr. case_test; lia. Qed.

(** A serializer of MQTTPacket/src filling the send buffer. *)
Lemma runs_ofill_send L t v (c : MC Z) wire total :
  object_ok L t v -> total <= MAX_MQTT_PACKET_SIZE -> zlen wire <= MAX_MQTT_PACKET_SIZE ->
  (forall s l, mem s = v_mem v -> mem s !! l_send L = Some l ->
     c s = if MAX_MQTT_PACKET_SIZE <? total then Done MQTTPACKET_BUFFER_TOO_SHORT s
           else if 0 + zlen wire <=? zlen l
                then Done (zlen wire) (set_block s (l_send L) (splice l 0 wire)) else Fault OutOfBounds) ->
  runs v c (zlen wire) (put (l_send L) 0 wire v).
Proof.
  intros Hok Htot Hw Hc. destruct (oo_send _ _ _ Hok) as (l & Hl & Hl'). pose proof (oo_size _ _ _ Hok).
  apply (runs_fill _ _ _ l MAX_MQTT_PACKET_SIZE _ _ total); try done; try lia. intros s Hs Hb _. by apply Hc.
Qed.

(** ** Waiting for an acknowledgement *)

Variables (fuel : nat) (no_timer : Timer) (uninit : Z).
Hypothesis Hfuel : MAX_MQTT_PACKET_SIZE < Z.of_nat fuel.

Lemma runs_owait_hit v n rc packet_type timer w :
  runs v (Client_cycle fuel no_timer uninit timer) packet_type w ->
  runs v (Client_waitfor_loop fuel no_timer uninit (S n) rc packet_type timer) packet_type w.
Proof.
  intros Hc. cbn [Client_waitfor_loop]. tstep total_TimerIsExpired. intros [] ? [-> He]; [done|].
  rstep Hc. rewrite Z.eqb_refl. by apply total_ret.
Qed.

Lemma runs_owait_next v n rc packet_type timer r w Q :
  runs v (Client_cycle fuel no_timer uninit timer) r w -> r <> packet_type -> 0 <= r ->
  total w (Client_waitfor_loop fuel no_timer uninit n r packet_type timer) Q ->
  total v (Client_waitfor_loop fuel no_timer uninit (S n) rc packet_type timer) Q.
Proof.
  intros Hc Hne Hr Hw. cbn [Client_waitfor_loop]. tstep total_TimerIsExpired. intros [] ? [-> He]; [done|].
  rstep Hc. rewrite (proj2 (Z.eqb_neq _ _) Hne), (proj2 (Z.leb_le _ _) Hr). exact Hw.
Qed.

(** The acknowledgement is the next packet. *)
Lemma runs_owaitfor L t v timer (type : msgTypes) dup qos retain body rest :
  object_ok L t v -> v_in v = mqtt_packet (mqtt_header type dup qos retain) body ++ rest ->
  type ∈ [CONNACK; PUBACK; SUBACK; UNSUBACK] \/ type = PUBCOMP /\ MQTTCLIENT_QOS2 = true ->
  packet_size (zlen body) <= 5 ->
  runs v (Client_waitfor fuel no_timer uninit type timer) type
    (o_got L (mqtt_packet (mqtt_header type dup qos retain) body) rest v).
Proof.
  intros Hok Hin Hty Hfits. pose proof (oo_size _ _ _ Hok). unfold Client_waitfor.
  assert (Hloop : forall k, (1 <= k)%nat ->
    runs v (Client_waitfor_loop fuel no_timer uninit k FAILURE type timer) (msg_code type)
      (o_got L (mqtt_packet (mqtt_header type dup qos retain) body) rest v)); [|apply Hloop; lia].
  intros [|k] Hk; [lia|]. apply runs_owait_hit. unfold packet_size in Hfits.
  apply (runs_ocycle_plain fuel no_timer uninit Hfuel L t); try done;
    unfold packet_size, REMLEN_MAX; lia.
Qed.

(** ** A publish in the send buffer *)

(** The acknowledgement that has been received. *)
Lemma runs_oacked L t v (type : msgTypes) id rest rc :
  object_ok L t v -> 0 <= id < 65536 ->
  let w := o_got L (ack_packet type 0 id) rest v in
  total w (let* c := get_client in
           let* (ok, out) := MQTTDeserialize_ack (ack_locals uninit) (o_readbuf c) MAX_MQTT_PACKET_SIZE in
           if negb (ok =? 1) then ret FAILURE
           else
             (if o_inflightMsgid c =? ack_packetid out
              then update_client (fun c => o_set_inflightMsgid c 0) else ret tt) ;;;
             ret rc : MC Z) (fun r w' => r = rc /\ w' = o_acked id w).
Proof.
  intros Hok Hid w. pose proof (oo_size _ _ _ Hok).
  assert (Hpkt : zlen (ack_packet type 0 id) <= MAX_MQTT_PACKET_SIZE).
  { change (zlen (ack_packet type 0 id)) with 4. lia. }
  pose proof (oo_got L t v _ rest Hok Hpkt) as Hokw. fold w in Hokw.
  pose proof (o_got_bytes L t v _ rest Hok Hpkt) as Hat. fold w in Hat.
  oget c. rewrite (oo_readbuf _ _ _ Hokw).
  rstep (runs_reading _ _ (1, {| ack_packettype := type; ack_dup := 0; ack_packetid := id |})).
  { intros s Hs. eexists. split; [apply (deserialize_ack_packet s (l_read L) 0 _ _ type 0 id []);
      [|by destruct type|done]|done]. by rewrite app_nil_r, Hs. }
  change (negb (1 =? 1)) with false. cbn [ack_packetid]. unfold o_acked. destruct (_ =? id).
  - eapply (runs_step _ _ _ tt (set_v_client w (o_set_inflightMsgid (v_client w) 0))); [oupdate|by apply total_ret].
  - tret. by apply total_ret.
Qed.

Lemma runs_opublish_wait L t v timer (type : msgTypes) id rest rc :
  object_ok L t v -> type = PUBACK \/ type = PUBCOMP /\ MQTTCLIENT_QOS2 = true -> 0 <= id < 65536 ->
  v_in v = ack_packet type 0 id ++ rest ->
  runs v (Client_publish_wait fuel no_timer uninit type rc timer) rc
    (o_acked id (o_got L (ack_packet type 0 id) rest v)).
Proof.
  intros Hok Hty Hid Hin. unfold Client_publish_wait.
  rstep (runs_owaitfor L t v timer type); [done|exact Hin| |done|].
  { destruct Hty as [->|[-> ?]]; [left; repeat constructor|by right]. }
  rewrite Z.eqb_refl. change (mqtt_packet _ _) with (ack_packet type 0 id). by apply (runs_oacked L t).
Qed.

(** QoS 2: PUBREC is answered with PUBREL inside waitfor. *)
Lemma runs_opublish_wait2 L t v timer id1 id2 rest rc :
  object_ok L t v -> MQTTCLIENT_QOS2 = true -> 0 <= id1 < 65536 -> 0 <= id2 < 65536 ->
  v_in v = ack_packet PUBREC 0 id1 ++ ack_packet PUBCOMP 0 id2 ++ rest ->
  runs v (Client_publish_wait fuel no_timer uninit PUBCOMP rc timer) rc
    (o_acked id2 (o_got L (ack_packet PUBCOMP 0 id2) rest
      (o_sent L (ack_packet PUBREL 0 id1)
         (o_got L (ack_packet PUBREC 0 id1) (ack_packet PUBCOMP 0 id2 ++ rest) v)))).
Proof.
  intros Hok Hq2 Hid1 Hid2 Hin. pose proof (oo_size _ _ _ Hok).
  set (v1 := o_sent L (ack_packet PUBREL 0 id1) _).
  assert (Hok1 : object_ok L t v1).
  { apply oo_sent; [apply oo_got; [done|]|]; change (zlen _) with 4; lia. }
  unfold Client_publish_wait.
  apply (total_step _ _ _ (fun (r : Z) w => r = PUBCOMP /\ w = o_got L (ack_packet PUBCOMP 0 id2) rest v1)).
  - assert (Hloop : forall k, (2 <= k)%nat ->
      runs v (Client_waitfor_loop fuel no_timer uninit k FAILURE PUBCOMP timer)
        (msg_code PUBCOMP) (o_got L (ack_packet PUBCOMP 0 id2) rest v1)); [|apply Hloop; lia].
    intros [|[|k]] Hk; [lia..|].
    eapply runs_owait_next; [apply (runs_ocycle_ack fuel no_timer uninit Hfuel L t v timer PUBREC 0 id1);
      [done|done|by left|exact Hin|done]|done|done|].
    change (if _ =? _ then _ else _) with v1. apply runs_owait_hit.
    apply (runs_ocycle_plain fuel no_timer uninit Hfuel L t v1 timer PUBCOMP 0 0 0 (int_bytes id2) rest);
      [done|done|by right|done|change (packet_size _) with 4; lia].
  - intros r w [-> ->]. rewrite Z.eqb_refl. by apply (runs_oacked L t).
Qed.

Lemma runs_opublish_packet L t v pkt timer qos id1 id2 rest :
  object_ok L t v -> bytes_at (v_mem v) (l_send L) 0 pkt -> zlen pkt <= MAX_MQTT_PACKET_SIZE ->
  qos_built qos -> 0 <= id1 < 65536 -> 0 <= id2 < 65536 -> v_in v = broker_acks qos id1 id2 ++ rest ->
  runs v (Client_publish_packet fuel no_timer uninit (zlen pkt) timer qos) SUCCESS
    (o_acks L qos id1 id2 rest (send v pkt)).
Proof.
  intros Hok Hat Hpkt Hqos Hid1 Hid2 Hin. pose proof (oo_size _ _ _ Hok). unfold Client_publish_packet.
  apply (total_step _ _ _ (fun (r : Z) w => r = SUCCESS /\ w = send v pkt)).
  { eapply total_mono; [apply (total_osend v fuel (l_send L) pkt timer); try done; try lia; apply Hok|].
    intros r w [?|(_ & [] & _)]; [done|]. by apply responsive_undisturbed. }
  intros r v1 [-> ->]. set (v1 := send v pkt). assert (Hok1 : object_ok L t v1) by by apply (oo_see L t v).
  change (negb (SUCCESS =? SUCCESS)) with false. cbv iota.
  apply (total_step _ _ _ (fun (r : Z) w => r = SUCCESS /\ w = o_acks L qos id1 id2 rest v1)).
  - unfold o_acks, broker_acks in *. destruct Hqos as [->|[[-> Hb]|[-> Hb]]]; cbn [Z.eqb QOS0 QOS1 QOS2 Pos.eqb] in *.
    + rewrite !andb_false_r. by apply total_ret.
    + rewrite Hb. cbn [andb]. apply (runs_opublish_wait L t); [done|by left|done|exact Hin].
    + rewrite Hb, andb_false_r. cbn [andb]. apply (runs_opublish_wait2 L t); [done..|]. by rewrite <- app_assoc in Hin.
  - intros r w [-> ->]. change (negb (SUCCESS =? SUCCESS)) with false. cbv iota. tret. by apply total_ret.
Qed.

(** ** Connecting *)

(** What the client sends and how it looks while it waits for CONNACK. *)
Definition o_connecting L (i : connect_info) v : oview :=
  o_sent L (connect_wire i) (o_with_session v (ci_keepalive i) (negb (ci_clean i =? 0))).

(** What connect leaves with return code [rc]. *)
Definition o_connect_result (rc : Z) v : oview := if rc =? SUCCESS then o_connected v else v.

Lemma total_oconnect L t v opts i rc sp rest data (Q : Z * MQTTConnackData -> oview -> Prop) :
  object_ok L t v -> o_isconnected (v_client v) = false ->
  options_denote (v_mem v) (l_send L) opts i -> ci_version i = 3 \/ ci_version i = 4 ->
  0 <= ci_keepalive i -> connect_length i <= REMLEN_MAX -> packet_size (connect_length i) < MAX_MQTT_PACKET_SIZE ->
  v_in v = connack_packet rc sp ++ rest -> 0 <= rc < 256 ->
  let data' := {| connack_rc := first_byte_of_int rc; connack_sessionPresent := sp mod 2 |} in
  (forall timer, total (o_got L (connack_packet rc sp) rest (o_connecting L i v))
     (Client_resend fuel no_timer uninit (first_byte_of_int rc) timer)
     (fun r w => Q (r, data') (o_connect_result r w))) ->
  total v (Client_connect fuel no_timer uninit opts data) Q.
Proof.
  intros Hok Hdis Hopts Hver Hkeep Hlen Hfits Hin Hrc data' Hresend.
  pose proof (oo_size _ _ _ Hok) as Hsz. pose proof Hopts as (_ & Hclean & Hka & _).
  assert (Hwire : zlen (connect_wire i) = packet_size (connect_length i)).
  { unfold connect_wire, packet_size. rewrite length_cons, length_app. rewrite <- (connect_body_length i Hver). lia. }
  unfold Client_connect. cbv zeta. tstep total_ocommand_timer. intros timer ? ->. oget c. rewrite Hdis.
  set (v1 := o_with_session v (ci_keepalive i) (negb (ci_clean i =? 0))).
  tassoc. eapply (runs_step _ _ _ tt v1).
  { unfold v1, o_with_session. rewrite Hka, Hclean. oupdate. }
  assert (Hok1 : object_ok L t v1) by by apply oo_with_session.
  rewrite (oo_sendbuf _ _ _ Hok).
  rstep (runs_ofill_send L t v1 _ (connect_wire i) (packet_size (connect_length i) + 1));
    [done|lia|lia| |].
  { intros s l Hs Hl. pose proof (oo_send _ _ _ Hok1) as (l' & Hl1 & Hl2).
    destruct (serialize_connect_run s (l_send L) 0 l MAX_MQTT_PACKET_SIZE opts i)
      as (total & Htot & Hrun); [done|lia|by rewrite Hs|done|done|]. rewrite Hrun.
    by rewrite !(proj2 (Z.ltb_ge _ _)) by lia. }
  assert (0 < zlen (connect_wire i)) by (unfold connect_wire; simpl; lia).
  test_false (zlen (connect_wire i) <=? 0).
  rstep (runs_osent fuel Hfuel L t); [done|lia|].
  change (negb (SUCCESS =? SUCCESS)) with false. cbv iota.
  change (o_sent L (connect_wire i) v1) with (o_connecting L i v). set (v2 := o_connecting L i v).
  assert (Hok2 : object_ok L t v2) by (apply oo_sent; [done|lia]). oget c1.
  apply (total_step _ _ _ (fun _ w => w = v2)).
  { destruct (0 <? _); [|by apply total_ret]. tstep total_TimerCountdown. intros t1 ? ->.
    eapply total_mono; [by apply runs_set_timer|]. by intros _ ? [_ ->]. }
  intros _ ? ->. rstep (runs_owaitfor L t v2 timer CONNACK 0 0 0 _ rest);
    [done|exact Hin|left; repeat constructor|done|].
  change (mqtt_packet _ _) with (connack_packet rc sp). rewrite Z.eqb_refl.
  set (w := o_got L (connack_packet rc sp) rest v2) in *.
  assert (Hpkt : zlen (connack_packet rc sp) <= MAX_MQTT_PACKET_SIZE).
  { change (zlen (connack_packet rc sp)) with 4. lia. }
  pose proof (oo_got L t v2 _ rest Hok2 Hpkt) as Hokw. fold w in Hokw.
  pose proof (o_got_bytes L t v2 _ rest Hok2 Hpkt) as Hat. fold w in Hat.
  rewrite (oo_readbuf _ _ _ Hok2).
  rstep (runs_reading _ _ (1, (sp mod 2, rc))).
  { intros s Hs. eexists. split; [apply (deserialize_connack_packet s (l_read L) 0 _ _ rc sp []); [|done]|done].
    by rewrite app_nil_r, Hs. }
  change (1 =? 1) with true. cbn [connack_rc fst snd]. tret.
  tstep Hresend. intros r w' HQ. unfold o_connect_result in HQ. destruct (r =? SUCCESS).
  - eapply (runs_step _ _ _ tt (o_connected w')); [unfold o_connected; oupdate|]. by apply total_ret.
  - tret. by apply total_ret.
Qed.

(** The stored publish, as it is sent again. *)
Definition o_resent L (pub : list byte) v : oview :=
  send (put (l_send L) 0 pub v) (take (Z.to_nat (o_inflightLen (v_client v))) pub).

Lemma runs_oresend L t v rc timer pub id1 id2 rest :
  object_ok L t v -> v_mem v !! l_pub L = Some pub -> 0 < o_inflightMsgid (v_client v) ->
  MQTTCLIENT_QOS1 || MQTTCLIENT_QOS2 = true -> o_pubrel (v_client v) = false ->
  qos_built (o_inflightQoS (v_client v)) -> 0 <= id1 < 65536 -> 0 <= id2 < 65536 ->
  v_in v = broker_acks (o_inflightQoS (v_client v)) id1 id2 ++ rest ->
  runs v (Client_resend fuel no_timer uninit rc timer) SUCCESS
    (o_acks L (o_inflightQoS (v_client v)) id1 id2 rest (o_resent L pub v)).
Proof.
  intros Hok Hpub Hid Hb Hrel Hqos Hid1 Hid2 Hin. unfold Client_resend. oget c. rewrite Hrel, !andb_false_r, Hb.
  test_true (0 <? o_inflightMsgid (v_client v)). cbn [andb].
  destruct (oo_pub _ _ _ Hok) as (pub' & Hpub' & Hlen). rewrite Hpub in Hpub'. injection Hpub' as <-.
  destruct (oo_send _ _ _ Hok) as (l & Hl & Hl'). destruct (oo_inflight _ _ _ Hok) as [_ Hinf].
  specialize (Hinf Hid). pose proof (oo_size _ _ _ Hok) as Hsz.
  rewrite (oo_sendbuf _ _ _ Hok), (oo_pubbuf _ _ _ Hok).
  rstep (runs_memcpy v (l_send L) (l_pub L) pub l); [apply Hok| |done|lia|done|].
  { split; [done|]. exists pub. split; [done|]. intros. by rewrite Nat.add_0_l. }
  set (v1 := put (l_send L) 0 pub v). set (n := Z.to_nat (o_inflightLen (v_client v))).
  assert (Hpkt : o_inflightLen (v_client v) = zlen (take n pub)) by (rewrite length_take; lia).
  rewrite Hpkt at 1. apply (runs_opublish_packet L t v1); try done.
  - apply oo_put_send; [done|lia].
  - assert (Hat : bytes_at (v_mem v1) (l_send L) 0 pub) by (apply (bytes_at_put _ _ _ _ l); [done|done|lia]).
    rewrite <- (take_drop n pub) in Hat. by apply bytes_at_app in Hat as [? _].
  - rewrite length_take. lia.
Qed.

Lemma runs_oresend_none v rc timer :
  o_inflightMsgid (v_client v) = 0 \/ MQTTCLIENT_QOS1 || MQTTCLIENT_QOS2 = false ->
  runs v (Client_resend fuel no_timer uninit rc timer) rc v.
Proof.
  intros Hno. unfold Client_resend. oget c. destruct Hno as [->|Hb].
  - rewrite !andb_false_r. by apply total_ret.
  - rewrite Hb. apply orb_false_iff in Hb as [_ ->]. by apply total_ret.
Qed.

(** ** Publishing *)

(** The packet identifier of a publish, and the client after taking it. *)
Definition o_number (qos id : Z) v : Z :=
  if (MQTTCLIENT_QOS1 || MQTTCLIENT_QOS2) && ((qos =? QOS1) || (qos =? QOS2)) then o_next_id (v_client v) else id.
Definition o_numbered (qos : Z) v : oview :=
  if (MQTTCLIENT_QOS1 || MQTTCLIENT_QOS2) && ((qos =? QOS1) || (qos =? QOS2)) then o_took_id v else v.

(** Without a clean session the packet is kept for the next connection. *)
Definition o_tracked L (wire : list byte) (id qos : Z) v : oview :=
  if (MQTTCLIENT_QOS1 || MQTTCLIENT_QOS2) && negb (o_cleansession (v_client v)) then
    let c := o_set_inflight (v_client v) (zlen wire) id qos in
    set_v_client (put (l_pub L) 0 wire v) (if MQTTCLIENT_QOS2 then o_set_pubrel c false else c)
  else v.

Lemma oo_tracked L t v wire id qos :
  object_ok L t v -> zlen wire <= MAX_MQTT_PACKET_SIZE -> 0 <= id < 65536 -> object_ok L t (o_tracked L wire id qos v).
Proof.
  intros Hok Hw Hid. unfold o_tracked. destruct (_ && _); [|done].
  destruct (oo_pub _ _ _ Hok) as (l & Hl & Hl'). apply oo_client; try (destruct MQTTCLIENT_QOS2; done).
  - eapply oo_put; [done|unfold is_array; tauto|exact Hl|lia].
  - destruct MQTTCLIENT_QOS2; cbn; lia.
Qed.

Lemma tracked_send L t v wire id qos :
  object_ok L t v -> bytes_at (v_mem v) (l_send L) 0 wire ->
  bytes_at (v_mem (o_tracked L wire id qos v)) (l_send L) 0 wire.
Proof.
  intros Hok Hat. unfold o_tracked. destruct (_ && _); [|done].
  change (v_mem (set_v_client ?x _)) with (v_mem x).
  eapply bytes_at_same; [|exact Hat]. apply put_other, (oo_blocks _ _ _ Hok).
Qed.

Lemma runs_otrack {A} L t v wire id qos n (k : MC A) Q :
  object_ok L t v -> bytes_at (v_mem v) (l_send L) 0 wire -> zlen wire <= MAX_MQTT_PACKET_SIZE -> n = zlen wire ->
  total (o_tracked L wire id qos v) k Q ->
  total v ((if (MQTTCLIENT_QOS1 || MQTTCLIENT_QOS2) && negb (o_cleansession (v_client v)) then
              memcpy (Ptr (l_pub L) 0) (Ptr (l_send L) 0) n ;;;
              update_client (fun c => o_set_inflight c n id qos) ;;;
              (if MQTTCLIENT_QOS2 then update_client (fun c => o_set_pubrel c false) else ret tt)
            else ret tt) ;;; k) Q.
Proof.
  intros Hok Hat Hw -> Hk. unfold o_tracked in Hk. destruct (_ && _); [|by apply total_ret_bind].
  destruct (oo_pub _ _ _ Hok) as (l & Hl & Hl').
  rstep (runs_memcpy v (l_pub L) (l_send L) wire l); [|done|done|lia|done|].
  { apply not_eq_sym, (oo_blocks _ _ _ Hok). }
  set (w := put (l_pub L) 0 wire v) in *.
  tassoc. eapply (runs_step _ _ _ tt (set_v_client w (o_set_inflight (v_client w) (zlen wire) id qos))); [oupdate|].
  destruct MQTTCLIENT_QOS2; [|by tret].
  eapply (runs_step _ _ _ tt (set_v_client w (o_set_pubrel (o_set_inflight (v_client w) (zlen wire) id qos) false)));
    [oupdate|done].
Qed.

(** What a call of publish requires of its arguments. *)
Record o_publish_args L v (topic payload : ptr) (len id qos : Z) (name bs : list byte) : Prop := {
  op_topic : cstring_at (v_mem v) topic name;
  op_apart : forall b o, topic = Ptr b o -> b <> l_send L;
  op_payload : payload_is (v_mem v) (l_send L) payload bs;
  op_length : len = zlen bs;
  op_qos : qos_built qos;
  op_id : 0 <= id < 65536;
  op_next : 0 <= o_packetid (v_client v) <= MAX_PACKET_ID;
  op_fits : packet_size (zlen (publish_body qos 0 name bs)) < MAX_MQTT_PACKET_SIZE;
  op_max : zlen (publish_body qos 0 name bs) <= REMLEN_MAX
}.

Lemma runs_opublish L t v topic payload len id qos retained name bs id1 id2 rest :
  object_ok L t v -> o_isconnected (v_client v) = true -> o_publish_args L v topic payload len id qos name bs ->
  0 <= id1 < 65536 -> 0 <= id2 < 65536 -> v_in v = broker_acks qos id1 id2 ++ rest ->
  let nid := o_number qos id v in
  let wire := publish_packet 0 qos retained nid name bs in
  runs v (Client_publish_id fuel no_timer uninit topic payload len id qos retained) (SUCCESS, nid)
    (o_acks L qos id1 id2 rest (send (o_tracked L wire nid qos (put (l_send L) 0 wire (o_numbered qos v))) wire)).
Proof.
  intros Hok Hcon [Htopic Hapart Hpl Hlen Hq Hid Hnext Hfits Hmax] Hid1 Hid2 Hin nid wire.
  pose proof (o_next_id_range v Hnext) as Hni. unfold MAX_PACKET_ID in Hni.
  pose proof (oo_size _ _ _ Hok) as Hsz. assert (Hq3 : 0 <= qos < 3) by (destruct Hq as [->|[[-> _]|[-> _]]]; done).
  unfold Client_publish_id. tstep total_ocommand_timer. intros timer ? ->. oget c. rewrite Hcon. cbn [negb].
  apply (total_step _ _ _ (fun m w => m = nid /\ w = o_numbered qos v)).
  { unfold nid, o_number, o_numbered. destruct (_ && _); [|by apply total_ret].
    rstep runs_onext_id. rewrite u16_small by lia. by apply total_ret. }
  intros m v1 [-> ->]. set (v1 := o_numbered qos v).
  assert (Hok1 : object_ok L t v1).
  { unfold v1, o_numbered. destruct (_ && _); [by apply oo_took_id|done]. }
  assert (Hv1 : v_mem v1 = v_mem v /\ v_in v1 = v_in v /\ o_cleansession (v_client v1) = o_cleansession (v_client v)).
  { unfold v1, o_numbered. by destruct (_ && _). }
  destruct Hv1 as (Hm1 & Hin1 & Hcs).
  assert (Hnid : 0 <= nid < 65536) by (unfold nid, o_number; destruct (_ && _); lia).
  rewrite (publish_body_id _ 0 nid) in Hfits, Hmax. rewrite (oo_sendbuf _ _ _ Hok), (oo_pubbuf _ _ _ Hok).
  assert (Hwire : zlen wire = packet_size (zlen (publish_body qos nid name bs))) by apply publish_packet_length.
  unfold REMLEN_MAX in Hmax. pose proof (publish_body_length qos nid name bs).
  rewrite Hlen, i32_small by (unfold INT_MIN, INT_MAX; destruct (0 <? qos); lia).
  rstep (runs_ofill_send L t v1 _ wire (zlen wire + 1)); [done|lia|lia| |].
  { intros s l Hs Hl. destruct (serialize_publish_run s (l_send L) 0 l MAX_MQTT_PACKET_SIZE 0
      qos retained nid (cstring_topic topic) name payload bs) as (total & Htot & Hrun); try done.
    - pose proof (zlen l). lia.
    - apply mqttstring_cstring; [by rewrite Hs, Hm1|done].
    - by rewrite Hs, Hm1.
    - lia.
    - fold wire in Hrun. rewrite Hrun. cbv zeta. by rewrite !(proj2 (Z.ltb_ge _ _)) by lia. }
  assert (0 < zlen wire) by (unfold wire, publish_packet, mqtt_packet; simpl; lia).
  test_false (zlen wire <=? 0). rewrite <- Hcs. set (v2 := put (l_send L) 0 wire v1).
  assert (Hok2 : object_ok L t v2) by (apply oo_put_send; [done|lia]).
  assert (Hat : bytes_at (v_mem v2) (l_send L) 0 wire).
  { destruct (oo_send _ _ _ Hok1) as (l & Hl & Hl'). apply (bytes_at_put _ _ _ _ l); [done|done|lia]. }
  apply (runs_otrack L t v2 wire); [done|done|lia|done|]. set (v3 := o_tracked L wire nid qos v2).
  assert (Hin3 : v_in v3 = v_in v).
  { rewrite <- Hin1. unfold v3, o_tracked. by destruct (_ && _). }
  rstep (runs_opublish_packet L t v3 wire timer qos id1 id2 rest); try done.
  - apply (oo_tracked L t v2 wire); [done|lia|done].
  - by apply (tracked_send L t).
  - lia.
  - by rewrite Hin3.
  - by apply total_ret.
Qed.
End ObjectOps.
