(* ===== verification/CppSubscribe.v ===== *)
(** * Subscriptions of the C++ client

    subscribe, unsubscribe and disconnect of MQTTClient.h: the packets they
    exchange and what they do to the table of handlers and to the session. *)

From S2P Require Import Prelude CMem MQTTPacket MQTTPublish MQTTConnect MQTTSubscribe PacketRead.
From S2P Require Import Platform MQTTClient Exchange TopicMatch Handlers CppClient CppLogic CppHandlers CppCycle CppOps.

(** The exchange up to the acknowledgement [ack] of a numbered request. *)
Definition o_exchanged (L : layout) (request ack rest : list byte) (v : oview) : oview :=
  o_got L ack rest (o_sent L request (o_took_id v)).

(** A filter of the application, outside the arrays of the object. *)
Definition o_filter (L : layout) (v : oview) (filter : ptr) (f : list byte) : Prop :=
  cstring_at (v_mem v) filter f /\ zlen f <= 65535 /\ outside L filter.

Definition unsubscribe_wire (id : Z) (f : list byte) : list byte := unsubscribe_packet 0 id [f].

Definition disconnect_packet : list byte := mqtt_packet (mqtt_header DISCONNECT 0 0 0) [].

(** What subscribe and unsubscribe leave: subscribe closes the session on FAILURE. *)
Definition o_close_failed `{ClientParams} (rc : Z) (v : oview) : oview := if rc =? FAILURE then o_closed v else v.

Lemma o_filter_mem L v w filter f :
  o_filter L v filter f -> (forall b, ~ is_array L b -> v_mem w !! b = v_mem v !! b) -> o_filter L w filter f.
Proof.
  intros (Hf & Hmax & Hout) Hmem. split_and!; try done. eapply cstring_at_same; [|exact Hf].
  intros b o Hb. by apply Hmem, (Hout b o).
Qed.

Lemma o_sent_mem L w v b : ~ is_array L b -> v_mem (o_sent L w v) !! b = v_mem v !! b.
Proof.
  intros Hb. change (v_mem (o_sent L w v)) with (v_mem (put (l_send L) 0 w v)). apply put_other.
  intros ->. apply Hb. unfold is_array. tauto.
Qed.
Lemma o_got_mem L p rest v b : ~ is_array L b -> v_mem (o_got L p rest v) !! b = v_mem v !! b.
Proof.
  intros Hb. change (v_mem (o_got L p rest v)) with (v_mem (put (l_read L) 0 p v)). apply put_other.
  intros ->. apply Hb. unfold is_array. tauto.
Qed.

Lemma o_exchanged_filter L v request ack rest filter f :
  o_filter L v filter f -> o_filter L (o_exchanged L request ack rest v) filter f.
Proof.
  intros Hf. eapply o_filter_mem; [exact Hf|]. intros b Hb. unfold o_exchanged. by rewrite o_got_mem, o_sent_mem.
Qed.

Section ObjectSubscribe.
Context `{ClientParams} {E Timer : Type} `{PS : PlatformSpec (ClientObject Timer) E Timer MessageData} `{CharSign}.
Context `{!Responsive (ClientObject Timer) E Timer MessageData} `{ByteOrder}.
Abbreviation MC := (M (oworld E Timer)).
Implicit Types (v : oview) (L : layout).
Variables (fuel : nat) (no_timer : Timer) (uninit : Z).
Hypothesis Hfuel : MAX_MQTT_PACKET_SIZE < Z.of_nat fuel.

Lemma runs_osubscribe_exit v rc g :
  runs v (Client_subscribe_exit rc g : MC (Z * Z)) (rc, g) (o_close_failed rc v).
Proof.
  unfold Client_subscribe_exit, o_close_failed. destruct (rc =? FAILURE).
  - rstep runs_oclose. by apply total_ret.
  - tret. by apply total_ret.
Qed.

Lemma runs_oserialize_subscribe L t v id filter f qos :
  object_ok L t v -> o_filter L v filter f -> 0 <= id ->
  packet_size (zlen (subscribe_body 0 [(f, qos)])) < MAX_MQTT_PACKET_SIZE ->
  runs v (MQTTSerialize_subscribe (Ptr (l_send L) 0) MAX_MQTT_PACKET_SIZE 0 id 1 [cstring_topic filter] [qos] : MC Z)
    (zlen (subscribe_wire id f qos)) (put (l_send L) 0 (subscribe_wire id f qos) v).
Proof.
  intros Hok (Hf & Hfmax & Hout) Hid Hfits. pose proof (oo_size _ _ _ Hok).
  assert (Hbody : forall i, zlen (subscribe_body i [(f, qos)]) = 5 + zlen f).
  { intros i. rewrite subscribe_body_length. cbn [entries_bytes fst snd]. rewrite length_app.
    change (length [_]) with 1%nat. pose proof (utf_bytes_length f). lia. }
  rewrite Hbody in Hfits. set (wire := subscribe_wire id f qos).
  assert (Hwire : zlen wire = packet_size (5 + zlen f)).
  { unfold wire, subscribe_wire, subscribe_packet. by rewrite mqtt_packet_size, Hbody. }
  apply (runs_ofill_send L t v _ wire (zlen wire + 1)); [done|lia|lia|].
  intros s l Hs Hl. destruct (serialize_subscribe_run s (l_send L) 0 l MAX_MQTT_PACKET_SIZE 0 id
    [cstring_topic filter] [(f, qos)]) as (total & Htot & Hrun); try done; try lia.
  - constructor; [|constructor]. cbn [fst]. apply mqttstring_cstring; [by rewrite Hs|]. intros b o Hb ->.
    apply (Hout _ _ Hb). unfold is_array. tauto.
  - rewrite Hbody. unfold REMLEN_MAX. lia.
  - rewrite Hbody in Htot. etrans; [exact Hrun|]. change (subscribe_packet 0 id [(f, qos)]) with wire.
    cbv zeta. by rewrite !(proj2 (Z.ltb_ge _ _)) by lia.
Qed.

(** What subscribe returns and leaves after a grant of [g]. *)
Definition o_subscribe_outcome t f handler g v (r : Z * Z) (w : oview) : Prop :=
  if g =? SUBFAIL then r = (SUCCESS, g) /\ w = v
  else exists hs, r = ((set_table f handler t).1, g) /\ slots_are (v_mem v) hs (set_table f handler t).2 /\
         w = o_close_failed (set_table f handler t).1 (o_with_handlers v hs).

Lemma total_osubscribe L t v filter f qos handler g0 id q rest :
  object_ok L t v -> o_isconnected (v_client v) = true -> o_filter L v filter f ->
  0 <= o_packetid (v_client v) <= MAX_PACKET_ID ->
  packet_size (zlen (subscribe_body 0 [(f, qos)])) < MAX_MQTT_PACKET_SIZE ->
  v_in v = suback_packet id [q] ++ rest -> 0 <= id < 65536 ->
  total v (Client_subscribe fuel no_timer uninit filter qos handler g0)
    (o_subscribe_outcome t f handler (to_char q)
       (o_exchanged L (subscribe_wire (o_next_id (v_client v)) f qos) (suback_packet id [q]) rest v)).
Proof.
  intros Hok Hcon Hf Hnext Hfits Hin Hid. pose proof (o_next_id_range v Hnext) as Hni. unfold MAX_PACKET_ID in Hni.
  set (nid := o_next_id (v_client v)) in *. pose proof (oo_size _ _ _ Hok) as Hsz.
  unfold Client_subscribe. tstep total_ocommand_timer. intros timer ? ->. oget c. rewrite Hcon. cbn [negb].
  rstep runs_onext_id. fold nid. set (v1 := o_took_id v). assert (Hok1 : object_ok L t v1) by by apply oo_took_id.
  rewrite (oo_sendbuf _ _ _ Hok), u16_small by lia.
  rstep (runs_oserialize_subscribe L t v1 nid filter f qos); [done|exact Hf|lia|done|].
  set (wire := subscribe_wire nid f qos).
  assert (Hw : 0 < zlen wire <= MAX_MQTT_PACKET_SIZE).
  { unfold wire, subscribe_wire, subscribe_packet. rewrite mqtt_packet_size.
    rewrite (subscribe_body_length nid), (subscribe_body_length 0) in *.
    assert (0 < packet_size (2 + zlen (entries_bytes [(f, qos)]))) by (unfold packet_size; lia). lia. }
  test_false (zlen wire <=? 0).
  rstep (runs_osent fuel Hfuel L t); [done|lia|]. change (negb (SUCCESS =? SUCCESS)) with false. cbv iota.
  set (v2 := o_sent L wire v1). assert (Hok2 : object_ok L t v2) by (apply oo_sent; [done|lia]).
  rstep (runs_owaitfor fuel no_timer uninit Hfuel L t v2 timer SUBACK 0 0 0 _ rest);
    [done|exact Hin|left; repeat constructor|done|].
  change (mqtt_packet _ _) with (suback_packet id [q]). rewrite Z.eqb_refl.
  assert (Hpkt : zlen (suback_packet id [q]) <= MAX_MQTT_PACKET_SIZE).
  { change (zlen (suback_packet id [q])) with 5. lia. }
  destruct (o_exchanged_filter L v wire (suback_packet id [q]) rest filter f Hf) as (Hfs & Hfmax & _).
  change (o_got L (suback_packet id [q]) rest v2) with (o_exchanged L wire (suback_packet id [q]) rest v) in *.
  set (w := o_exchanged L wire (suback_packet id [q]) rest v) in *.
  assert (Hokw : object_ok L t w) by exact (oo_got L t v2 _ rest Hok2 Hpkt).
  rewrite (oo_readbuf _ _ _ Hok).
  rstep runs_read_suback; [exact (o_got_bytes L t v2 _ rest Hok2 Hpkt)|done|].
  cbn [grantedQoSs]. rstep (runs_arr_get w [to_char q] 0 (to_char q)); [done|].
  unfold o_subscribe_outcome. change (1 =? 1) with true. cbn [andb]. destruct (to_char q =? SUBFAIL); cbn [negb].
  - eapply total_mono; [apply runs_osubscribe_exit|]. by intros r w' [-> ->].
  - tstep (total_oset_message_handler w t filter f handler); [apply Hokw|apply Hokw|done|unfold INT_MAX; lia|].
    intros rc w' (hs & -> & -> & Htab). eapply total_mono; [apply runs_osubscribe_exit|].
    intros r w' [-> ->]. by exists hs.
Qed.

(** ** Unsubscribing *)

Lemma runs_oserialize_unsubscribe L t v id filter f :
  object_ok L t v -> o_filter L v filter f -> 0 <= id ->
  packet_size (zlen (unsubscribe_body 0 [f])) < MAX_MQTT_PACKET_SIZE ->
  runs v (MQTTSerialize_unsubscribe (Ptr (l_send L) 0) MAX_MQTT_PACKET_SIZE 0 id 1 [cstring_topic filter] : MC Z)
    (zlen (unsubscribe_wire id f)) (put (l_send L) 0 (unsubscribe_wire id f) v).
Proof.
  intros Hok (Hf & Hfmax & Hout) Hid Hfits. pose proof (oo_size _ _ _ Hok).
  assert (Hbody : forall i, zlen (unsubscribe_body i [f]) = 4 + zlen f).
  { intros i. rewrite unsubscribe_body_length. cbn [topics_bytes]. rewrite app_nil_r.
    pose proof (utf_bytes_length f). lia. }
  rewrite Hbody in Hfits. set (wire := unsubscribe_wire id f).
  assert (Hwire : zlen wire = packet_size (4 + zlen f)).
  { unfold wire, unsubscribe_wire, unsubscribe_packet. by rewrite mqtt_packet_size, Hbody. }
  apply (runs_ofill_send L t v _ wire (zlen wire + 1)); [done|lia|lia|].
  intros s l Hs Hl. destruct (serialize_unsubscribe_run s (l_send L) 0 l MAX_MQTT_PACKET_SIZE 0 id
    [cstring_topic filter] [f]) as (total & Htot & Hrun); try done; try lia.
  - constructor; [|constructor]. apply mqttstring_cstring; [by rewrite Hs|]. intros b o Hb ->.
    apply (Hout _ _ Hb). unfold is_array. tauto.
  - rewrite Hbody. unfold REMLEN_MAX. lia.
  - rewrite Hbody in Htot. etrans; [exact Hrun|]. change (unsubscribe_packet 0 id [f]) with wire.
    cbv zeta. by rewrite !(proj2 (Z.ltb_ge _ _)) by lia.
Qed.

Lemma runs_read_unsuback v b id n :
  bytes_at (v_mem v) b 0 (ack_packet UNSUBACK 0 id) -> 0 <= id < 65536 ->
  runs v (MQTTDeserialize_unsuback uninit (Ptr b 0) n : MC (Z * Z)) (1, id) v.
Proof.
  intros Hat Hid. apply runs_reading. intros s Hs. rewrite <- Hs in Hat. exists (cursor_moved s b (0 + 2)).
  split; [|done]. unfold MQTTDeserialize_unsuback.
  erewrite bind_done by (apply (deserialize_ack_packet s b 0 _ n UNSUBACK 0 id []); [by rewrite app_nil_r|done|done]).
  done.
Qed.

Lemma total_ounsubscribe L t v filter f id rest :
  object_ok L t v -> o_isconnected (v_client v) = true -> o_filter L v filter f ->
  0 <= o_packetid (v_client v) <= MAX_PACKET_ID ->
  packet_size (zlen (unsubscribe_body 0 [f])) < MAX_MQTT_PACKET_SIZE ->
  v_in v = ack_packet UNSUBACK 0 id ++ rest -> 0 <= id < 65536 ->
  let w := o_exchanged L (unsubscribe_wire (o_next_id (v_client v)) f) (ack_packet UNSUBACK 0 id) rest v in
  total v (Client_unsubscribe fuel no_timer uninit filter) (fun rc w' => rc = SUCCESS /\ exists hs,
    slots_are (v_mem w) hs (set_table f None t).2 /\ w' = o_with_handlers w hs).
Proof.
  intros Hok Hcon Hf Hnext Hfits Hin Hid w. pose proof (o_next_id_range v Hnext) as Hni. unfold MAX_PACKET_ID in Hni.
  set (nid := o_next_id (v_client v)) in *. pose proof (oo_size _ _ _ Hok) as Hsz.
  unfold Client_unsubscribe. tstep total_ocommand_timer. intros timer ? ->. oget c. rewrite Hcon. cbn [negb].
  rstep runs_onext_id. fold nid. set (v1 := o_took_id v). assert (Hok1 : object_ok L t v1) by by apply oo_took_id.
  rewrite (oo_sendbuf _ _ _ Hok), u16_small by lia.
  rstep (runs_oserialize_unsubscribe L t v1 nid filter f); [done|exact Hf|lia|done|].
  set (wire := unsubscribe_wire nid f).
  assert (Hw : 0 < zlen wire <= MAX_MQTT_PACKET_SIZE).
  { unfold wire, unsubscribe_wire, unsubscribe_packet. rewrite mqtt_packet_size.
    rewrite (unsubscribe_body_length nid), (unsubscribe_body_length 0) in *.
    assert (0 < packet_size (2 + zlen (topics_bytes [f]))) by (unfold packet_size; lia). lia. }
  test_false (zlen wire <=? 0).
  rstep (runs_osent fuel Hfuel L t); [done|lia|]. change (negb (SUCCESS =? SUCCESS)) with false. cbv iota.
  set (v2 := o_sent L wire v1). assert (Hok2 : object_ok L t v2) by (apply oo_sent; [done|lia]).
  rstep (runs_owaitfor fuel no_timer uninit Hfuel L t v2 timer UNSUBACK 0 0 0 _ rest);
    [done|exact Hin|left; repeat constructor|done|].
  change (mqtt_packet _ _) with (ack_packet UNSUBACK 0 id). rewrite Z.eqb_refl.
  assert (Hpkt : zlen (ack_packet UNSUBACK 0 id) <= MAX_MQTT_PACKET_SIZE).
  { change (zlen (ack_packet UNSUBACK 0 id)) with 4. lia. }
  destruct (o_exchanged_filter L v wire (ack_packet UNSUBACK 0 id) rest filter f Hf) as (Hfs & Hfmax & _).
  change (o_got L (ack_packet UNSUBACK 0 id) rest v2) with w in *. fold wire nid in Hfs. fold w in Hfs.
  assert (Hokw : object_ok L t w) by exact (oo_got L t v2 _ rest Hok2 Hpkt).
  rewrite (oo_readbuf _ _ _ Hok).
  rstep runs_read_unsuback; [exact (o_got_bytes L t v2 _ rest Hok2 Hpkt)|done|].
  change (1 =? 1) with true. cbv iota.
  tstep (total_oset_message_handler w t filter f None); [apply Hokw|apply Hokw|exact Hfs|unfold INT_MAX; lia|].
  intros rc w' (hs & _ & -> & Htab). tret. change (negb (SUCCESS =? SUCCESS)) with false. cbv iota.
  tret. apply total_ret. split; [done|]. by exists hs.
Qed.

(** ** Disconnecting *)

Lemma runs_odisconnect L t v :
  object_ok L t v ->
  runs v (Client_disconnect fuel no_timer) SUCCESS (o_closed (o_sent L disconnect_packet v)).
Proof.
  intros Hok. pose proof (oo_size _ _ _ Hok) as Hsz. unfold Client_disconnect.
  tstep total_ocommand_timer. intros timer ? ->. oget c. rewrite (oo_sendbuf _ _ _ Hok).
  rstep (runs_ofill_send L t v _ disconnect_packet 2); [done|lia|change (zlen disconnect_packet) with 2; lia| |].
  { intros s l Hs Hl. unfold MQTTSerialize_disconnect. rewrite (serialize_zero_run s _ _ l) by (done || lia). done. }
  change (0 <? zlen disconnect_packet) with true. cbv iota.
  rstep (runs_osent fuel Hfuel L t); [done|change (zlen disconnect_packet) with 2; lia|].
  rstep runs_oclose. by apply total_ret.
Qed.
End ObjectSubscribe.
