(* ===== verification/CppProps.v ===== *)
(** * Properties of the C++ client

    The theorems on MQTTClient.h and their instances: topic matching, sending in
    parts, the reaction to packets, the handshake of incoming QoS 2 messages and
    the operations of the application. *)

From S2P Require Import Prelude CMem MQTTPacket MQTTPublish MQTTConnect MQTTSubscribe PacketRead.
From S2P Require Import Platform MQTTClient Exchange TopicMatch Handlers.
From S2P Require Import CppClient CppLogic CppHandlers CppCycle CppOps CppSubscribe.

(** ** Incoming messages of QoS 2 *)

Section IncomingQoS2.
Context `{ClientParams} {E Timer : Type} `{PS : PlatformSpec (ClientObject Timer) E Timer MessageData} `{CharSign}.
Context `{!Responsive (ClientObject Timer) E Timer MessageData}.
Abbreviation MC := (M (oworld E Timer)).
Implicit Types (v : oview) (L : layout).
Variables (fuel : nat) (no_timer : Timer) (uninit : Z).
Hypothesis Hfuel : MAX_MQTT_PACKET_SIZE < Z.of_nat fuel.
Hypothesis Hqos2 : MQTTCLIENT_QOS2 = true.

(** A PUBLISH of QoS 2 whose packet fits the arrays. *)
Definition qos2_fits (id : Z) (topic payload : list byte) : Prop :=
  0 <= id < 65536 /\ zlen topic <= 65535 /\ zlen (publish_body 2 id topic payload) <= REMLEN_MAX /\
  packet_size (zlen (publish_body 2 id topic payload)) <= MAX_MQTT_PACKET_SIZE.

(** The calls of handlers for the message in the receive buffer. *)
Definition calls_for L t v dup retained id topic payload : list (positive * MessageData) :=
  let out := publish_result (publish_locals uninit) (l_read L) 0 dup 2 retained id topic payload in
  to_receivers (pub_topicName out) (message_of out)
    (receivers_by client_accepts topic t (o_defaultMessageHandler (v_client v))).

(** [w] is [v] after the next packet has been taken, [reply] sent, [calls] made,
    and the identifiers set to [ids]. *)
Definition reacted L t v reply calls ids rest (w : oview) : Prop :=
  object_ok L t w /\ v_out w = v_out v ++ reply /\ v_delivered w = v_delivered v ++ calls /\
  o_incomingQoS2messages (v_client w) = ids /\ v_in w = rest.

Lemma total_qos2_publish L t v timer dup retained id topic payload rest :
  object_ok L t v -> v_in v = publish_packet dup 2 retained id topic payload ++ rest ->
  qos2_fits id topic payload ->
  let after := incoming_after (o_incomingQoS2messages (v_client v)) id in
  total v (Client_cycle fuel no_timer uninit timer) (fun rc w => rc = PUBLISH /\
    reacted L t v (ack_packet PUBREC 0 id)
      (if after.2 then calls_for L t v dup retained id topic payload else []) after.1 rest w).
Proof.
  intros Hok Hin (Hid & Htopic & Hmax & Hfits) after. pose proof (oo_size _ _ _ Hok) as Hsz.
  eapply total_mono; [apply (runs_ocycle_publish fuel no_timer uninit Hfuel L t v timer dup 2 retained id topic payload rest);
    done|].
  intros rc ? [-> ->]. split; [done|]. rewrite Hqos2, orb_true_r. change (2 =? QOS0) with false. cbv iota.
  set (out := publish_result _ _ _ _ _ _ _ _ _). set (v1 := o_got _ _ _ v).
  assert (Hpub : zlen (publish_packet dup 2 retained id topic payload) <= MAX_MQTT_PACKET_SIZE)
    by (unfold publish_packet; by rewrite mqtt_packet_size).
  assert (Hok1 : object_ok L t v1) by by apply oo_got.
  set (w1 := with_incoming v1 after.1).
  assert (Hacc : accept_view t (pub_topicName out) topic (message_of out) v1 =
    if after.2 then deliver w1 (calls_for L t v dup retained id topic payload) else w1).
  { unfold accept_view. rewrite Hqos2. cbn [andb msg_qos msg_id message_of].
    assert (pub_qos out = 2 /\ pub_packetid out = id) as [-> ->] by done. done. }
  rewrite Hacc. assert (Hlen : length after.1 = length (o_incomingQoS2messages (v_client v)))
    by apply incoming_after_length.
  split_and!.
  - apply oo_sent; [|change (zlen (publish_reply 2 id)) with 4; lia]. rewrite <- Hacc. by apply oo_accept.
  - change (publish_reply 2 id) with (ack_packet PUBREC 0 id). by destruct after.2.
  - change (v_delivered (o_sent _ _ ?x)) with (v_delivered x). destruct after.2; [done|]. by rewrite app_nil_r.
  - change (v_client (o_sent _ _ ?x)) with (v_client x). by destruct after.2.
  - change (v_in (o_sent _ _ ?x)) with (v_in x). by destruct after.2.
Qed.

Lemma total_qos2_release L t v timer id rest :
  object_ok L t v -> v_in v = ack_packet PUBREL 0 id ++ rest -> 0 <= id < 65536 ->
  total v (Client_cycle fuel no_timer uninit timer) (fun rc w => rc = PUBREL /\
    reacted L t v (ack_packet PUBCOMP 0 id) [] (released (o_incomingQoS2messages (v_client v)) id) rest w).
Proof.
  intros Hok Hin Hid. pose proof (oo_size _ _ _ Hok) as Hsz.
  eapply total_mono; [apply (runs_ocycle_ack fuel no_timer uninit Hfuel L t v timer PUBREL 0 id rest); try done; by right|].
  intros rc ? [-> ->]. split; [done|]. change (PUBREL =? PUBREL) with true. cbv iota.
  split_and!; try done; [|by rewrite app_nil_r].
  apply oo_with_incoming; [|apply released_length]. apply oo_sent; [apply oo_got; [done|]|]; change (zlen _) with 4; lia.
Qed.

(** [n] calls of cycle. *)
Fixpoint cycles (n : nat) (timer : Timer) : MC (list Z) :=
  match n with
  | O => ret []
  | S n => let* rc := Client_cycle fuel no_timer uninit timer in
           let* rcs := cycles n timer in ret (rc :: rcs)
  end.

Lemma total_qos2_once L t v timer retained id topic payload rest :
  object_ok L t v -> qos2_fits id topic payload ->
  id ∉ o_incomingQoS2messages (v_client v) -> 0 ∈ o_incomingQoS2messages (v_client v) ->
  v_in v = publish_packet 0 2 retained id topic payload ++ publish_packet 1 2 retained id topic payload ++
           ack_packet PUBREL 0 id ++ rest ->
  total v (cycles 3 timer) (fun rcs w => rcs = [msg_code PUBLISH; msg_code PUBLISH; msg_code PUBREL] /\
    reacted L t v (ack_packet PUBREC 0 id ++ ack_packet PUBREC 0 id ++ ack_packet PUBCOMP 0 id)
      (calls_for L t v 0 retained id topic payload) (o_incomingQoS2messages (v_client v)) rest w).
Proof.
  intros Hok Hfits Hnew Hfree Hin. set (ids := o_incomingQoS2messages (v_client v)) in *.
  destruct (released_after ids id Hnew Hfree) as [Hafter Hrel].
  assert (Hheld : id ∈ (incoming_after ids id).1).
  { unfold incoming_after in *. rewrite decide_False in * by done. destruct (first_index _ ids) as [i|] eqn:Hi; [|done].
    cbn [fst]. apply first_index_Some in Hi as [Hi _]. apply list_elem_of_lookup_2 with i.
    apply list_lookup_insert_eq. by eapply lookup_lt_Some. }
  cbn [cycles]. tstep (total_qos2_publish L t v timer 0 retained id topic payload); [done|exact Hin|done|].
  fold ids. rewrite Hafter. intros rc w1 (-> & Hok1 & Hout1 & Hdel1 & Hids1 & Hin1).
  tstep (total_qos2_publish L t w1 timer 1 retained id topic payload); [done|exact Hin1|done|].
  assert (Hagain : incoming_after (o_incomingQoS2messages (v_client w1)) id = ((incoming_after ids id).1, false)).
  { rewrite Hids1. unfold incoming_after at 1. by rewrite decide_True. }
  rewrite Hagain. intros rc w2 (-> & Hok2 & Hout2 & Hdel2 & Hids2 & Hin2).
  tstep (total_qos2_release L t w2 timer id); [done|exact Hin2|apply Hfits|].
  intros rc w3 (-> & Hok3 & Hout3 & Hdel3 & Hids3 & Hin3). tret. apply total_ret. split; [done|].
  split_and!; [done| | | |done].
  - by rewrite Hout3, Hout2, Hout1, <- !app_assoc.
  - by rewrite Hdel3, Hdel2, Hdel1, !app_nil_r.
  - rewrite Hids3, Hids2. cbn [fst]. exact Hrel.
Qed.
End IncomingQoS2.

(** The acknowledgements of the publish in flight. *)
Lemma acks_clear L qos id1 id rest w :
  qos = QOS1 \/ qos = QOS2 -> o_inflightMsgid (v_client w) = id ->
  let w' := o_acks L qos id1 id rest w in
  o_inflightMsgid (v_client w') = 0 /\ v_in w' = rest /\
  v_out w' = v_out w ++ (if qos =? QOS2 then ack_packet PUBREL 0 id1 else []).
Proof.
  intros Hq Hid. assert (Hacked : forall x, o_inflightMsgid (v_client x) = id ->
    o_acked id x = set_v_client x (o_set_inflightMsgid (v_client x) 0)).
  { intros x Hx. unfold o_acked. by rewrite Hx, Z.eqb_refl. }
  unfold o_acks. destruct Hq as [->| ->]; cbn [Z.eqb QOS1 QOS2 Pos.eqb]; rewrite Hacked by done;
    by rewrite ?app_nil_r.
Qed.

(** ** A connection with nothing in flight *)

Section ObjectConnect.
Context `{ClientParams} {E Timer : Type} `{PS : PlatformSpec (ClientObject Timer) E Timer MessageData}.
Context `{CharSign} `{ByteOrder} `{!Responsive (ClientObject Timer) E Timer MessageData}.
Implicit Types (v : oview) (L : layout).
Variables (fuel : nat) (no_timer : Timer) (uninit : Z).

Lemma runs_oconnect L t v opts i rc sp rest data :
  MAX_MQTT_PACKET_SIZE < Z.of_nat fuel -> object_ok L t v -> o_isconnected (v_client v) = false ->
  options_denote (v_mem v) (l_send L) opts i -> ci_version i = 3 \/ ci_version i = 4 ->
  0 <= ci_keepalive i -> connect_length i <= REMLEN_MAX ->
  packet_size (connect_length i) < MAX_MQTT_PACKET_SIZE ->
  v_in v = connack_packet rc sp ++ rest -> 0 <= rc < 256 ->
  o_inflightMsgid (v_client v) = 0 \/ MQTTCLIENT_QOS1 || MQTTCLIENT_QOS2 = false ->
  let code := first_byte_of_int rc in
  let w := o_connect_result code (o_got L (connack_packet rc sp) rest (o_connecting L i v)) in
  runs v (Client_connect fuel no_timer uninit opts data)
    (code, {| connack_rc := code; connack_sessionPresent := sp mod 2 |}) w /\
  (code = SUCCESS <-> rc = 0) /\ (o_isconnected (v_client w) = true <-> rc = 0).
Proof.
  intros Hf Hok Hdis Hopts Hver Hkeep Hlen Hfits Hin Hrc Hno code w.
  assert (Hcode : code = SUCCESS <-> rc = 0).
  { unfold code, first_byte_of_int, SUCCESS, i32. destruct big_endian; divmod_lia. }
  split_and!; [|done|].
  - eapply (total_oconnect fuel no_timer uninit Hf L t); [done..|]. intros timer.
    eapply total_mono; [apply runs_oresend_none; exact Hno|]. by intros r ? [-> ->].
  - rewrite <- Hcode. unfold w, o_connect_result. destruct (Z.eqb_spec code SUCCESS); [done|].
    split; [|done]. intros Ht. change (o_isconnected (v_client v) = true) in Ht. congruence.
Qed.
End ObjectConnect.

(** ** Properties *)

Section ObjectProperties.
Context `{ClientParams} {E Timer : Type} `{PS : PlatformSpec (ClientObject Timer) E Timer MessageData} `{CharSign}.
Abbreviation MC := (M (oworld E Timer)).
Abbreviation responsive := (Responsive (ClientObject Timer) E Timer MessageData).
Implicit Types (v : oview) (L : layout).
Variables (fuel : nat) (no_timer : Timer) (uninit : Z).

(** C7: Whatever the network delivers, and however it takes what is sent as long
    as a write makes progress, cycle of a well-formed object returns without an
    access outside its arrays and the two bytes behind readbuf, and leaves a
    well-formed object; an error means the session is closed.  The two bytes are
    needed: a PUBLISH of QoS 1 or 2 that fills readbuf and has no identifier makes
    cycle read them ([client_cycle_overread]). *)
Theorem client_cycle_safe `{!Progress (ClientObject Timer) E Timer MessageData} L t v timer :
  MAX_MQTT_PACKET_SIZE < Z.of_nat fuel -> 0 <= uninit -> object_ok L t v -> 2 <= l_spare L ->
  total v (Client_cycle fuel no_timer uninit timer) (fun rc w =>
    (exists t', object_ok L t' w) /\ (rc < 0 -> o_isconnected (v_client w) = false)).
Proof. intros Hf Hu Hok Hs. by apply (safe_ocycle fuel no_timer uninit Hf Hu L t). Qed.

(** sendPacket on a network that takes packets in parts: the bytes on the
    wire are the packet, and the result SUCCESS, or a proper prefix of it, and
    the result FAILURE; the latter only if a timer expired or a write failed. *)
Theorem client_send_parts `{!Progress (ClientObject Timer) E Timer MessageData} v b pkt timer :
  o_sendbuf (v_client v) = Ptr b 0 -> bytes_at (v_mem v) b 0 pkt -> (length pkt < fuel)%nat ->
  zlen pkt <= INT_MAX ->
  total v (Client_sendPacket fuel (zlen pkt) timer) (fun rc w =>
    (rc = SUCCESS /\ w = send v pkt) \/
    (rc = FAILURE /\ ~ undisturbed (E := E) (Timer := Timer) /\
     exists k, (k < length pkt)%nat /\ w = send v (take k pkt))).
Proof. apply total_osend. Qed.

(** On a PUBLISH cycle hands the message to every handler whose filter
    matches, or else to the default handler, unless it is of QoS 2 and its
    identifier is already held, and acknowledges it as its QoS asks for; built
    without QoS 1 and 2 it only forgets an outstanding ping. *)
Theorem client_publish_received `{!responsive} L t v timer dup qos retained id topic payload rest :
  MAX_MQTT_PACKET_SIZE < Z.of_nat fuel -> object_ok L t v ->
  v_in v = publish_packet dup qos retained id topic payload ++ rest ->
  0 <= qos < 3 -> 0 <= id < 65536 -> zlen topic <= 65535 ->
  zlen (publish_body qos id topic payload) <= REMLEN_MAX ->
  packet_size (zlen (publish_body qos id topic payload)) <= MAX_MQTT_PACKET_SIZE ->
  let out := publish_result (publish_locals uninit) (l_read L) 0 dup qos retained id topic payload in
  let w := accept_view t (pub_topicName out) topic (message_of out)
             (o_got L (publish_packet dup qos retained id topic payload) rest v) in
  runs v (Client_cycle fuel no_timer uninit timer) PUBLISH
    (if MQTTCLIENT_QOS1 || MQTTCLIENT_QOS2 then
       if qos =? QOS0 then w else o_sent L (publish_reply qos id) w
     else o_pinged w false).
Proof. intros Hf. by apply (runs_ocycle_publish fuel no_timer uninit Hf). Qed.

(** C10: Exactly once: a message of QoS 2 that arrives, arrives again as a
    duplicate and is released is delivered by one round of handler calls and
    answered with PUBREC, PUBREC and PUBCOMP; afterwards its identifier is free
    again and the table of identifiers is the old one. *)
Theorem client_qos2_once `{!responsive} L t v timer retained id topic payload rest :
  MAX_MQTT_PACKET_SIZE < Z.of_nat fuel -> MQTTCLIENT_QOS2 = true ->
  object_ok L t v -> qos2_fits id topic payload ->
  id ∉ o_incomingQoS2messages (v_client v) -> 0 ∈ o_incomingQoS2messages (v_client v) ->
  v_in v = publish_packet 0 2 retained id topic payload ++ publish_packet 1 2 retained id topic payload ++
           ack_packet PUBREL 0 id ++ rest ->
  total v (cycles fuel no_timer uninit 3 timer) (fun rcs w =>
    rcs = [msg_code PUBLISH; msg_code PUBLISH; msg_code PUBREL] /\
    reacted L t v (ack_packet PUBREC 0 id ++ ack_packet PUBREC 0 id ++ ack_packet PUBCOMP 0 id)
      (calls_for uninit L t v 0 retained id topic payload) (o_incomingQoS2messages (v_client v)) rest w).
Proof. intros Hf Hq. by apply total_qos2_once. Qed.

(** With no free entry in the table of identifiers a new message of QoS 2 is
    acknowledged with PUBREC, as if it had been taken, and delivered to nobody. *)
Theorem client_qos2_full `{!responsive} L t v timer dup retained id topic payload rest :
  MAX_MQTT_PACKET_SIZE < Z.of_nat fuel -> MQTTCLIENT_QOS2 = true ->
  object_ok L t v -> qos2_fits id topic payload ->
  id ∉ o_incomingQoS2messages (v_client v) -> 0 ∉ o_incomingQoS2messages (v_client v) ->
  v_in v = publish_packet dup 2 retained id topic payload ++ rest ->
  total v (Client_cycle fuel no_timer uninit timer) (fun rc w => rc = PUBLISH /\
    reacted L t v (ack_packet PUBREC 0 id) [] (o_incomingQoS2messages (v_client v)) rest w).
Proof.
  intros Hf Hq Hok Hfits Hnew Hfull Hin.
  eapply total_mono; [by apply (total_qos2_publish fuel no_timer uninit Hf Hq L t v timer dup retained id topic payload)|].
  intros rc w [-> Hw]. split; [done|]. unfold incoming_after in Hw. rewrite decide_False in Hw by done.
  by rewrite (proj2 (first_index_None _ 0)) in Hw.
Qed.

Context `{ByteOrder}.

(** C8: connect sends exactly the CONNECT packet of its options, takes the
    CONNACK that follows and returns its code; with nothing in flight the
    client is connected afterwards exactly when the code is 0. *)
Theorem client_connect_spec `{!responsive} L t v opts i rc sp rest data :
  MAX_MQTT_PACKET_SIZE < Z.of_nat fuel -> object_ok L t v -> o_isconnected (v_client v) = false ->
  options_denote (v_mem v) (l_send L) opts i -> ci_version i = 3 \/ ci_version i = 4 ->
  0 <= ci_keepalive i -> connect_length i <= REMLEN_MAX ->
  packet_size (connect_length i) < MAX_MQTT_PACKET_SIZE ->
  v_in v = connack_packet rc sp ++ rest -> 0 <= rc < 256 ->
  o_inflightMsgid (v_client v) = 0 \/ MQTTCLIENT_QOS1 || MQTTCLIENT_QOS2 = false ->
  let code := first_byte_of_int rc in
  let w := o_connect_result code (o_got L (connack_packet rc sp) rest (o_connecting L i v)) in
  runs v (Client_connect fuel no_timer uninit opts data)
    (code, {| connack_rc := code; connack_sessionPresent := sp mod 2 |}) w /\
  (code = SUCCESS <-> rc = 0) /\ (o_isconnected (v_client w) = true <-> rc = 0).
Proof.
  intros Hf Hok Hdis Hopts Hver Hkeep Hlen Hfits Hin Hrc Hno.
  by apply (runs_oconnect fuel no_timer uninit L t v opts i rc sp rest data).
Qed.

(** A publish still in flight is sent again, byte for byte, once the CONNACK
    has come, and when the broker acknowledges it under its identifier nothing
    is in flight any more.  The result is then that of the publish: connect
    returns SUCCESS and the client is connected even if the CONNACK refused
    the connection. *)
Theorem client_connect_resend `{!responsive} L t v opts i rc sp rest data pub id id1 :
  MAX_MQTT_PACKET_SIZE < Z.of_nat fuel -> object_ok L t v -> o_isconnected (v_client v) = false ->
  options_denote (v_mem v) (l_send L) opts i -> ci_version i = 3 \/ ci_version i = 4 ->
  0 <= ci_keepalive i -> connect_length i <= REMLEN_MAX ->
  packet_size (connect_length i) < MAX_MQTT_PACKET_SIZE ->
  let qos := o_inflightQoS (v_client v) in
  o_inflightMsgid (v_client v) = id -> 0 < id -> 0 <= id1 < 65536 ->
  v_mem v !! l_pub L = Some pub -> o_pubrel (v_client v) = false ->
  MQTTCLIENT_QOS1 || MQTTCLIENT_QOS2 = true -> qos = QOS1 \/ qos = QOS2 -> qos_built qos ->
  v_in v = connack_packet rc sp ++ broker_acks qos id1 id ++ rest -> 0 <= rc < 256 ->
  total v (Client_connect fuel no_timer uninit opts data) (fun r w =>
    r.1 = SUCCESS /\ o_isconnected (v_client w) = true /\ o_inflightMsgid (v_client w) = 0 /\ v_in w = rest /\
    v_out w = v_out v ++ connect_wire i ++ take (Z.to_nat (o_inflightLen (v_client v))) pub ++
              (if qos =? QOS2 then ack_packet PUBREL 0 id1 else [])).
Proof.
  intros Hf Hok Hdis Hopts Hver Hkeep Hlen Hfits qos Hid Hpos Hid1 Hpub Hrel Hb Hq Hqos Hin Hrc.
  destruct (oo_inflight _ _ _ Hok) as [Hidr Hinf]. pose proof (oo_size _ _ _ Hok) as Hsz.
  eapply (total_oconnect fuel no_timer uninit Hf L t); [done..|]. intros timer.
  set (v1 := o_got L (connack_packet rc sp) _ (o_connecting L i v)).
  assert (Hwire : zlen (connect_wire i) = packet_size (connect_length i)).
  { unfold connect_wire, packet_size. rewrite length_cons, length_app, <- (connect_body_length i Hver). lia. }
  assert (Hok1 : object_ok L t v1).
  { apply oo_got; [|change (zlen (connack_packet rc sp)) with 4; lia].
    apply oo_sent; [by apply oo_with_session|lia]. }
  assert (Hpub1 : v_mem v1 !! l_pub L = Some pub).
  { unfold v1, o_connecting. rewrite <- Hpub. destruct (oo_blocks _ _ _ Hok) as (? & ? & ?).
    change (v_mem (o_got L ?p _ ?x)) with (v_mem (put (l_read L) 0 p x)). rewrite put_other by congruence.
    change (v_mem (o_sent L ?p ?x)) with (v_mem (put (l_send L) 0 p x)). by rewrite put_other by congruence. }
  eapply total_mono; [apply (runs_oresend fuel no_timer uninit Hf L t v1 _ timer pub id1 id rest); try done|].
  - by rewrite <- Hid in Hpos.
  - by rewrite <- Hid.
  - intros r w [-> ->]. change (o_inflightQoS (v_client v1)) with qos. cbn [fst].
    unfold o_connect_result. change (SUCCESS =? SUCCESS) with true. cbv iota.
    destruct (acks_clear L qos id1 id rest (o_resent L pub v1) Hq Hid) as (Hno & Hrest & Hout).
    split_and!; [done|done|exact Hno|exact Hrest|]. etrans; [exact Hout|].
    change (v_out (o_resent L pub v1)) with
      ((v_out v ++ connect_wire i) ++ take (Z.to_nat (o_inflightLen (v_client v))) pub). by rewrite <- !app_assoc.
Qed.

(** C9: publish of a connected client sends exactly the PUBLISH packet of its
    message, under the next packet identifier for QoS 1 and 2, keeps it for the
    next connection unless the session is clean, completes the exchange of its
    QoS and returns SUCCESS; the acknowledgement of the identifier it used, and
    only that, ends the keeping. *)
Theorem client_publish_spec `{!responsive} L t v topic payload len id qos retained name bs id1 id2 rest :
  MAX_MQTT_PACKET_SIZE < Z.of_nat fuel -> object_ok L t v -> o_isconnected (v_client v) = true ->
  o_publish_args L v topic payload len id qos name bs ->
  0 <= id1 < 65536 -> 0 <= id2 < 65536 -> v_in v = broker_acks qos id1 id2 ++ rest ->
  let nid := o_number qos id v in
  let wire := publish_packet 0 qos retained nid name bs in
  runs v (Client_publish_id fuel no_timer uninit topic payload len id qos retained) (SUCCESS, nid)
    (o_acks L qos id1 id2 rest (send (o_tracked L wire nid qos (put (l_send L) 0 wire (o_numbered qos v))) wire)).
Proof. intros Hf. by apply (runs_opublish fuel no_timer uninit Hf L t). Qed.

(** subscribe of a connected client sends the SUBSCRIBE of its filter, takes
    the SUBACK and installs the handler unless the grant equals 0x80; it fails,
    and closes the session, only when the table has no slot for the filter. *)
Theorem client_subscribe_spec `{!responsive} L t v filter f qos handler g0 id q rest :
  MAX_MQTT_PACKET_SIZE < Z.of_nat fuel -> object_ok L t v -> o_isconnected (v_client v) = true ->
  o_filter L v filter f -> 0 <= o_packetid (v_client v) <= MAX_PACKET_ID ->
  packet_size (zlen (subscribe_body 0 [(f, qos)])) < MAX_MQTT_PACKET_SIZE ->
  v_in v = suback_packet id [q] ++ rest -> 0 <= id < 65536 ->
  total v (Client_subscribe fuel no_timer uninit filter qos handler g0)
    (o_subscribe_outcome t f handler (to_char q)
       (o_exchanged L (subscribe_wire (o_next_id (v_client v)) f qos) (suback_packet id [q]) rest v)).
Proof. intros Hf. by apply (total_osubscribe fuel no_timer uninit Hf L t). Qed.

(** unsubscribe of a connected client sends the UNSUBSCRIBE of its filter,
    takes the UNSUBACK, returns SUCCESS and removes the handler of the filter;
    disconnect sends DISCONNECT and closes the session. *)
Theorem client_unsubscribe_spec `{!responsive} L t v filter f id rest :
  MAX_MQTT_PACKET_SIZE < Z.of_nat fuel -> object_ok L t v -> o_isconnected (v_client v) = true ->
  o_filter L v filter f -> 0 <= o_packetid (v_client v) <= MAX_PACKET_ID ->
  packet_size (zlen (unsubscribe_body 0 [f])) < MAX_MQTT_PACKET_SIZE ->
  v_in v = ack_packet UNSUBACK 0 id ++ rest -> 0 <= id < 65536 ->
  let w := o_exchanged L (unsubscribe_wire (o_next_id (v_client v)) f) (ack_packet UNSUBACK 0 id) rest v in
  total v (Client_unsubscribe fuel no_timer uninit filter) (fun rc w' => rc = SUCCESS /\ exists hs,
    slots_are (v_mem w) hs (set_table f None t).2 /\ w' = o_with_handlers w hs) /\
  runs v (Client_disconnect fuel no_timer) SUCCESS (o_closed (o_sent L disconnect_packet v)).
Proof.
  intros Hf Hok Hcon Hfil Hnext Hfits Hin Hid w. split.
  - by apply (total_ounsubscribe fuel no_timer uninit Hf L t).
  - by apply (runs_odisconnect fuel no_timer Hf L t).
Qed.
End ObjectProperties.

(** ** Topics *)

Section ObjectTopics.
Context {W : Type}.
Implicit Types (s : state W) (b : block).

(** isTopicMatched of the C++ client terminates and reads nothing outside the
    two strings; it accepts no name that MQTT rejects unless the filter ends in
    a slash, and when no level is empty it is the matching of MQTT, the parent
    level of a filter that ends in /# included. *)
Theorem client_topic_mqtt s filter topic fs b on ns :
  filter_ok fs -> fs <> [] -> Forall plain_level ns -> ns <> [] ->
  cstring_at (mem s) filter (join fs) ->
  data (lenstring topic) = Ptr b on -> len (lenstring topic) = zlen (join ns) ->
  bytes_at (mem s) b on (join ns) ->
  exists r, Client_isTopicMatched filter topic s = Done r s /\
    (list.last fs <> Some [] -> r = true -> mqtt_match fs ns = true) /\
    (Forall (fun f => f <> []) fs -> Forall (fun n => n <> []) ns -> r = mqtt_match fs ns).
Proof.
  intros Hok Hfs Hplain Hns Hf Hd Hl Hn. exists (parent_match fs ns).
  rewrite (Client_isTopicMatched_run s filter topic (join fs) b on (join ns)), slash_match_join by done.
  split; [done|]. split; [by apply parent_match_sound|by apply parent_match_complete].
Qed.

(** A filter with a slash at its end is matched by the name without it, which
    is another topic. *)
Theorem client_topic_slash s filter topic b on ns :
  filter_ok (ns ++ [[]]) -> Forall plain_level ns -> ns <> [] -> Forall (fun n => n <> [HASH] /\ n <> [PLUS]) ns ->
  cstring_at (mem s) filter (join (ns ++ [[]])) ->
  data (lenstring topic) = Ptr b on -> len (lenstring topic) = zlen (join ns) ->
  bytes_at (mem s) b on (join ns) ->
  Client_isTopicMatched filter topic s = Done true s /\ mqtt_match (ns ++ [[]]) ns = false.
Proof.
  intros Hok Hplain Hns Hwild Hf Hd Hl Hn.
  rewrite (Client_isTopicMatched_run s filter topic (join (ns ++ [[]])) b on (join ns)) by done.
  rewrite slash_match_join; [|done..|by destruct ns|done]. split.
  - f_equal. clear -Hwild. induction Hwild as [|n ns [Hh Hp] _ IH]; [done|].
    change (parent_match ((n :: ns) ++ [[]]) (n :: ns)) with (parent_match (n :: ns ++ [[]]) (n :: ns)).
    assert (Hcons : exists y ys, ns ++ [[]] = y :: ys) by (destruct ns; by do 2 eexists).
    destruct Hcons as (y & ys & Heq). rewrite Heq in *. cbn [parent_match].
    by rewrite (bool_decide_eq_false_2 (n = [HASH])), (bool_decide_eq_false_2 (n = [PLUS])),
      (bool_decide_eq_true_2 (n = n)).
  - clear -Hwild. induction Hwild as [|n ns [Hh Hp] _ IH]; [done|]. cbn [app mqtt_match].
    rewrite (bool_decide_eq_false_2 (n = [HASH])), (bool_decide_eq_true_2 (n = n)) by done.
    by rewrite orb_true_r.
Qed.
End ObjectTopics.

(** ** Witnesses *)

Section ObjectWitnesses.
#[local] Existing Instances char_is_signed little_endian_order ideal_platform ideal_spec ideal_responsive.

(* QoS 1 and 2 compiled in, arrays of 64 bytes, two handlers, two identifiers *)
Definition ex_build : ClientParams := {|
  MAX_MQTT_PACKET_SIZE := 64; MAX_HANDLERS := 2; MQTTCLIENT_QOS1 := true; MQTTCLIENT_QOS2 := true;
  MAX_INCOMING_QOS2_MESSAGES := 2
|}.
#[local] Existing Instance ex_build.

(* block 1: sendbuf, 2: readbuf and two more bytes, 3: pubbuf, 4: the filter "a/+", 5: the topic "a/b",
   6: a payload, 7: the client identifier "me" *)
Definition ex_layout : layout := {| l_send := 1; l_read := 2; l_pub := 3; l_spare := 2 |}.
Definition ex_object (connected clean : bool) (len id qos : Z) : ClientObject Z :=
  Object 30000 (Ptr 1 0) (Ptr 2 0) 0 0 0 60 false clean 65535
    [{| topicFilter := Ptr 4 0; fp := Some 9%positive |}; {| topicFilter := NULL; fp := None |}]
    None connected (Ptr 3 0) len id qos false [0; 0].
Definition ex_oslots : list slot := [(Some (bytes [97; 47; 43]), Some 9%positive); (None, None)].
Definition ex_kept : list byte := ack_packet PUBACK 0 7 ++ replicate 60 (byte_of_Z 0).
Definition ex_ostate (c : ClientObject Z) (incoming : list byte) : state (oworld (bench MessageData) Z) :=
  plain_state [replicate 64 (byte_of_Z 170); replicate 66 (byte_of_Z 187); ex_kept; bytes [97; 47; 43; 0];
               bytes [97; 47; 98; 0]; bytes [1; 2]; bytes [109; 101; 0]] c incoming.

Ltac cstring_concrete :=
  do 2 eexists; split; [reflexivity|split; [bytes_at_concrete|]];
  intros Hin; apply list_elem_of_In in Hin; vm_compute in Hin; intuition discriminate.

Lemma ex_object_ok connected clean len id qos incoming :
  0 <= id < 65536 -> 0 <= len <= 64 ->
  object_ok ex_layout ex_oslots (see (ex_ostate (ex_object connected clean len id qos) incoming)).
Proof.
  intros Hid Hlen. split; try done.
  - by exists (replicate 64 (byte_of_Z 170)).
  - by exists (replicate 66 (byte_of_Z 187)).
  - by exists ex_kept.
  - constructor; [|repeat constructor; done]. split; [done|]. cbn [topicFilter fst]. split; [cstring_concrete|done].
  - cbn. repeat apply Forall_cons_2; try apply Forall_nil_2; intros b o [=]; subst; unfold is_array; cbn; lia.
Qed.

(* a PUBLISH whose length field announces more than the array holds *)
Lemma client_cycle_safe_witness :
  let v := see (ex_ostate (ex_object true true 0 0 0) (bytes [50; 255; 127; 1; 2; 3])) in
  total v (Client_cycle 65 0 0 5) (fun rc w =>
    (exists t', object_ok ex_layout t' w) /\ (rc < 0 -> o_isconnected (v_client w) = false)).
Proof.
  intros v. apply (client_cycle_safe 65 0 0 ex_layout ex_oslots v); [done|done|by apply ex_object_ok|done].
Defined.

(** A readbuf with nothing behind it, filled by a PUBLISH of QoS 1 with a topic of
    60 characters and without an identifier. *)
Definition ex_otight : state (oworld (bench MessageData) Z) :=
  plain_state [replicate 64 (byte_of_Z 170); replicate 64 (byte_of_Z 187); ex_kept; bytes [97; 47; 43; 0]]
    (ex_object true true 0 0 0) (bytes [50; 62; 0; 60] ++ replicate 60 (byte_of_Z 97)).
Lemma client_cycle_overread : Client_cycle 65 0 0 5 ex_otight = Fault OutOfBounds.
Proof. vm_compute. reflexivity. Qed.

(* a network that takes three bytes at a time *)
Definition ex_oparts : ObjectPlatform (bench MessageData) Z := plain_platform false (Some 3).
Definition ex_oparts_spec : PlatformSpec (ClientObject Z) (bench MessageData) Z MessageData (H := ex_oparts) :=
  plain_platform_spec false (Some 3).

Lemma ex_oparts_progress : Progress (ClientObject Z) (bench MessageData) Z MessageData (H := ex_oparts).
Proof.
  intros bs t s rc s'. cbn. unfold bind, ret, get_env, set_env. cbn. intros [= <- _] Hne.
  rewrite length_take. destruct bs; [done|cbn; lia].
Qed.

Lemma ex_oparts_undisturbed : undisturbed (H0 := ex_oparts) (E := bench MessageData) (Timer := Z).
Proof.
  split; [by intros t s e s' [= <- _]|]. intros bs t s rc s' _. cbn. unfold bind, ret, get_env, set_env. cbn.
  intros [= <- _]. apply Nat2Z.is_nonneg.
Qed.

Lemma client_send_parts_witness :
  let v := put 1 0 (ack_packet PUBACK 0 7) (see (ex_ostate (ex_object true true 0 0 0) [])) in
  total v (Client_sendPacket (H0 := ex_oparts) 65 4 5) (fun rc w => rc = SUCCESS /\ w = send v (ack_packet PUBACK 0 7)).
Proof.
  intros v. eapply total_mono.
  { apply (client_send_parts (PS := ex_oparts_spec) (Progress0 := ex_oparts_progress) 65 v 1
      (ack_packet PUBACK 0 7) 5); [done|bytes_at_concrete|by apply Nat.ltb_lt|done]. }
  intros rc w [?|(_ & Hno & _)]; [done|]. destruct Hno. apply ex_oparts_undisturbed.
Defined.

Lemma client_publish_received_witness :
  let v := see (ex_ostate (ex_object true true 0 0 0)
    (publish_packet 0 1 0 5 (bytes [97; 47; 98]) (bytes [1; 2]) ++ bytes [208])) in
  exists w, runs v (Client_cycle 65 0 0 5) PUBLISH w /\ v_in w = bytes [208] /\
    v_out w = ack_packet PUBACK 0 5 /\ fst <$> v_delivered w = [9%positive].
Proof.
  eexists. split; [apply (client_publish_received 65 0 0 ex_layout ex_oslots _ 5 0 1 0 5 (bytes [97; 47; 98])
    (bytes [1; 2]) (bytes [208])); try done; by apply ex_object_ok|].
  split_and!; [done|done|vm_compute; done].
Defined.

Lemma client_qos2_once_witness :
  let name := bytes [97; 47; 98] in let body := bytes [1; 2] in
  let v := see (ex_ostate (ex_object true true 0 0 0)
    (publish_packet 0 2 0 300 name body ++ publish_packet 1 2 0 300 name body ++ ack_packet PUBREL 0 300 ++ [])) in
  total v (cycles 65 0 0 3 5) (fun rcs w => rcs = [msg_code PUBLISH; msg_code PUBLISH; msg_code PUBREL] /\
    fst <$> v_delivered w = [9%positive] /\ o_incomingQoS2messages (v_client w) = [0; 0]).
Proof.
  intros name body v. eapply total_mono.
  { apply (client_qos2_once 65 0 0 ex_layout ex_oslots v 5 0 300 name body []); try done.
    - by apply ex_object_ok.
    - intros Hin. apply list_elem_of_In in Hin. cbn in Hin. intuition discriminate.
    - constructor. }
  intros rcs w (-> & _ & _ & -> & -> & _). split; [done|]. split; [vm_compute|]; done.
Defined.

(* both entries are taken by other identifiers *)
Lemma client_qos2_full_witness :
  let name := bytes [97; 47; 98] in let body := bytes [1; 2] in
  let c := o_set_incoming (ex_object true true 0 0 0) [1; 2] in
  let v := see (ex_ostate c (publish_packet 0 2 0 300 name body ++ [])) in
  total v (Client_cycle 65 0 0 5) (fun rc w => rc = PUBLISH /\ v_out w = ack_packet PUBREC 0 300 /\
    v_delivered w = []).
Proof.
  intros name body c v. eapply total_mono.
  { apply (client_qos2_full 65 0 0 ex_layout ex_oslots v 5 0 0 300 name body []); try done.
    - destruct (ex_object_ok true true 0 0 0 (publish_packet 0 2 0 300 name body ++ []) ltac:(done) ltac:(done)).
      by split.
    - intros Hin. apply list_elem_of_In in Hin. cbn in Hin. intuition discriminate.
    - intros Hin. apply list_elem_of_In in Hin. cbn in Hin. intuition discriminate. }
  by intros rc w (-> & _ & -> & -> & _ & _).
Defined.

Definition ex_oinfo : connect_info :=
  {| ci_version := 4; ci_clean := 1; ci_keepalive := 60; ci_client := bytes [109; 101];
     ci_will := None; ci_user := None; ci_password := None |}.
Definition ex_options : MQTTPacket_connectData :=
  set_clientID MQTTPacket_connectData_initializer (cstring_topic (Ptr 7 0)).

Lemma ex_options_denote c incoming : options_denote (v_mem (see (ex_ostate c incoming))) 1 ex_options ex_oinfo.
Proof.
  split_and!; try done. apply mqttstring_cstring; [cstring_concrete|by intros ? ? [= <- <-]].
Qed.

Lemma client_connect_spec_witness :
  let v := see (ex_ostate (ex_object false true 0 0 0) (connack_packet 0 1 ++ bytes [208; 0])) in
  exists w, runs v (Client_connect 65 0 0 ex_options {| connack_rc := 9; connack_sessionPresent := 9 |})
      (0, {| connack_rc := 0; connack_sessionPresent := 1 |}) w /\
    o_isconnected (v_client w) = true /\ v_out w = connect_wire ex_oinfo.
Proof.
  intros v. destruct (client_connect_spec 65 0 0 ex_layout ex_oslots v ex_options ex_oinfo 0 1 (bytes [208; 0])
    {| connack_rc := 9; connack_sessionPresent := 9 |}) as (Hrun & _ & Hcon); try done.
  - by apply ex_object_ok.
  - apply ex_options_denote.
  - by right.
  - by left.
  - eexists. split; [exact Hrun|]. split; [by apply Hcon|done].
Defined.

(* the broker refuses the connection and acknowledges the publish all the same *)
Lemma client_connect_resend_witness :
  let v := see (ex_ostate (ex_object false false 4 7 1) (connack_packet 5 0 ++ ack_packet PUBACK 0 7 ++ [])) in
  total v (Client_connect 65 0 0 ex_options {| connack_rc := 9; connack_sessionPresent := 9 |}) (fun r w =>
    r.1 = SUCCESS /\ o_isconnected (v_client w) = true /\ v_out w = connect_wire ex_oinfo ++ ack_packet PUBACK 0 7).
Proof.
  intros v. eapply total_mono.
  { apply (client_connect_resend 65 0 0 ex_layout ex_oslots v ex_options ex_oinfo 5 0 []
      {| connack_rc := 9; connack_sessionPresent := 9 |} ex_kept 7 0); try done.
    - by apply ex_object_ok.
    - apply ex_options_denote.
    - by right.
    - by left.
    - right; left; done. }
  intros r w (-> & -> & _ & _ & ->). by split_and!.
Defined.

Lemma client_publish_spec_witness :
  let v := see (ex_ostate (ex_object true false 0 0 0) (broker_acks 2 1 1)) in
  total v (Client_publish_id 65 0 0 (Ptr 5 0) (Ptr 6 0) 2 0 2 0) (fun r w => r = (SUCCESS, 1) /\
    v_out w = publish_packet 0 2 0 1 (bytes [97; 47; 98]) (bytes [1; 2]) ++ ack_packet PUBREL 0 1 /\
    o_inflightMsgid (v_client w) = 0).
Proof.
  intros v. eapply total_mono.
  { apply (client_publish_spec 65 0 0 ex_layout ex_oslots v (Ptr 5 0) (Ptr 6 0) 2 0 2 0 (bytes [97; 47; 98])
      (bytes [1; 2]) 1 1 []); try done; [by apply ex_object_ok|].
    split; try done; [cstring_concrete|by intros ? ? [= <- <-]| |by right; right].
    right. exists 6%positive, 0. split_and!; [done|done|bytes_at_concrete]. }
  by intros r w [-> ->].
Defined.

Lemma ex_ofilter c incoming : o_filter ex_layout (see (ex_ostate c incoming)) (Ptr 4 0) (bytes [97; 47; 43]).
Proof.
  split_and!; [cstring_concrete|done|]. intros b o [= <- <-]. unfold is_array. cbn. lia.
Qed.

Lemma client_subscribe_spec_witness :
  let v := see (ex_ostate (ex_object true true 0 0 0) (suback_packet 1 [1])) in
  total v (Client_subscribe 65 0 0 (Ptr 4 0) 1 (Some 8%positive) 9)
    (o_subscribe_outcome ex_oslots (bytes [97; 47; 43]) (Some 8%positive) (to_char 1)
       (o_exchanged ex_layout (subscribe_wire 1 (bytes [97; 47; 43]) 1) (suback_packet 1 [1]) [] v)).
Proof.
  intros v. apply (client_subscribe_spec 65 0 0 ex_layout ex_oslots v (Ptr 4 0) (bytes [97; 47; 43]) 1
    (Some 8%positive) 9 1 1 []); try done; [by apply ex_object_ok|apply ex_ofilter].
Defined.

Lemma client_unsubscribe_spec_witness :
  let v := see (ex_ostate (ex_object true true 0 0 0) (ack_packet UNSUBACK 0 1)) in
  total v (Client_unsubscribe 65 0 0 (Ptr 4 0)) (fun rc w => rc = SUCCESS /\
    v_out w = unsubscribe_wire 1 (bytes [97; 47; 43])).
Proof.
  intros v. eapply total_mono.
  { apply (client_unsubscribe_spec 65 0 0 ex_layout ex_oslots v (Ptr 4 0) (bytes [97; 47; 43]) 1 []); try done;
      [by apply ex_object_ok|apply ex_ofilter]. }
  by intros rc w (-> & hs & _ & ->).
Defined.
End ObjectWitnesses.

Section ObjectTopicWitnesses.
(* block 1: the filter "a/#", 2: the name "a", 3: the filter "a/" *)
Definition ex_otopics : state unit := state_of [bytes [97; 47; 35; 0]; bytes [97]; bytes [97; 47; 0]].
Definition ex_oname : MQTTString := {| cstring := NULL; lenstring := {| len := 1; data := Ptr 2 0 |} |}.

Ltac not_in := intros Hin; apply list_elem_of_In in Hin; vm_compute in Hin; intuition discriminate.

Lemma client_topic_mqtt_witness :
  exists r, Client_isTopicMatched (Ptr 1 0) ex_oname ex_otopics = Done r ex_otopics /\
    (list.last [bytes [97]; [HASH]] <> Some [] -> r = true -> mqtt_match [bytes [97]; [HASH]] [bytes [97]] = true) /\
    (Forall (fun f => f <> []) [bytes [97]; [HASH]] -> Forall (fun n => n <> []) [bytes [97]] ->
     r = mqtt_match [bytes [97]; [HASH]] [bytes [97]]).
Proof.
  apply (client_topic_mqtt ex_otopics (Ptr 1 0) ex_oname [bytes [97]; [HASH]] 2 0 [bytes [97]]); try done.
  - repeat split; first [by left|by (right; left)|right; right; repeat split; not_in|done].
  - repeat constructor; not_in.
  - exists 1%positive, 0. split_and!; [done|bytes_at_concrete|not_in].
  - bytes_at_concrete.
Defined.

Lemma client_topic_slash_witness :
  Client_isTopicMatched (Ptr 3 0) ex_oname ex_otopics = Done true ex_otopics /\
  mqtt_match [bytes [97]; []] [bytes [97]] = false.
Proof.
  apply (client_topic_slash ex_otopics (Ptr 3 0) ex_oname 2 0 [bytes [97]]); try done.
  - repeat split; first [by left|by (right; left)|right; right; repeat split; not_in|done].
  - repeat constructor; not_in.
  - repeat constructor; done.
  - exists 3%positive, 0. split_and!; [done|bytes_at_concrete|not_in].
  - bytes_at_concrete.
Defined.
End ObjectTopicWitnesses.
