(* ===== verification/Clock.v ===== *)
(** * Clocks, and what an operation may change of the world

    [moves R c]: whatever [c] changes of the world is related by the preorder
    [R]; the functions of the packet library change nothing of it.  [Clock] is a
    platform whose time advances: no call sets it back, and a read that comes
    back with less than it was asked for has taken time, or input.  Each turn of a loop
    that starts with such a read then makes the waiting shorter, or the input. *)

From S2P Require Import Prelude CMem MQTTPacket MQTTPublish MQTTConnect MQTTSubscribe PacketRead Platform MQTTClient.

Create HintDb moves.
#[export] Hint Extern 1 (PreOrder _) => exact _ : moves.
#[export] Hint Extern 1 (0 < _) => lia : moves.

(** ** Changes of the world *)

Definition moves {W A} (R : W -> W -> Prop) (c : M W A) : Prop :=
  forall s a s', c s = Done a s' -> R (world s) (world s').

Section Moves.
Context {W : Type} (R : W -> W -> Prop) `{!PreOrder R}.

Lemma moves_ret {A} (a : A) : moves R (ret a).
Proof. by intros s a' s' [= _ <-]. Qed.

Lemma moves_throw {A} f : moves R (throw f : M W A).
Proof. by intros s a s'. Qed.

Lemma moves_bind {A B} (c : M W A) (k : A -> M W B) :
  moves R c -> (forall a, moves R (k a)) -> moves R (bind c k).
Proof.
  intros Hc Hk s b s'. unfold bind. destruct (c s) as [a s1|] eqn:Hrun; [|done]. intros Hrun'.
  etrans; [exact (Hc _ _ _ Hrun)|exact (Hk _ _ _ _ Hrun')].
Qed.

(** Operations on memory and the static cursor. *)
Lemma moves_local {A} (c : M W A) :
  (forall s a s', c s = Done a s' -> world s' = world s) -> moves R c.
Proof. intros Hc s a s' Hrun. by rewrite (Hc _ _ _ Hrun). Qed.

Ltac local_op :=
  apply moves_local; intros s a s';
  repeat case_match; try done; intros Hrun; simplify_eq; done.

Lemma moves_load p : moves R (load p).
Proof. unfold load. local_op. Qed.
Lemma moves_store p v : moves R (store p v).
Proof. unfold store. local_op. Qed.
Lemma moves_load_bytes p n : moves R (load_bytes p n).
Proof. unfold load_bytes. local_op. Qed.
Lemma moves_store_bytes p bs : moves R (store_bytes p bs).
Proof. unfold store_bytes. local_op. Qed.
Lemma moves_strlen p : moves R (strlen p).
Proof. unfold strlen. local_op. Qed.
Lemma moves_get_bufptr : moves R get_bufptr.
Proof. unfold get_bufptr. local_op. Qed.
Lemma moves_set_bufptr p : moves R (set_bufptr p).
Proof. unfold set_bufptr. local_op. Qed.
End Moves.

#[export] Hint Resolve moves_ret moves_throw moves_load moves_store moves_load_bytes moves_store_bytes
  moves_strlen moves_get_bufptr moves_set_bufptr : moves.

(** Go through an operation: every call in it is known, or the branches of a test. *)
Ltac moves_steps :=
  repeat (cbv beta zeta; match goal with
  | |- forall _, _ => intros ?
  | |- moves _ (bind _ _) => apply moves_bind; [exact _| |]
  | |- moves _ (match ?x with _ => _ end) => destruct x eqn:?
  | _ => solve [eauto 2 with moves]
  end).
Ltac moves_def f := unfold f; moves_steps.

Section PacketMoves.
Context {W : Type} (R : W -> W -> Prop) `{!PreOrder R} `{CharSign}.

Lemma moves_psub p q : moves R (psub p q).
Proof. moves_def @psub. Qed.
Lemma moves_int z : moves R (int z).
Proof. moves_def @int. Qed.
#[local] Hint Resolve moves_psub moves_int : moves.
Lemma moves_plt p q : moves R (plt p q).
Proof. moves_def @plt. Qed.
Lemma moves_arr_get {A} (a : list A) i : moves R (arr_get a i).
Proof. moves_def @arr_get. Qed.
Lemma moves_arr_set {A} (a : list A) i x : moves R (arr_set a i x).
Proof. moves_def @arr_set. Qed.
Lemma moves_use {A} (v : option A) : moves R (use v).
Proof. moves_def @use. Qed.
#[local] Hint Resolve moves_plt moves_arr_get moves_arr_set moves_use : moves.

Lemma moves_compare_loop stop n p q : moves R (compare_loop stop n p q).
Proof. revert p q. induction n as [|n IH]; intros; cbn [compare_loop]; moves_steps. Qed.
Lemma moves_strncmp p q n : moves R (strncmp p q n).
Proof. apply moves_compare_loop. Qed.
#[local] Hint Resolve moves_strncmp : moves.

Lemma moves_encode_loop n p rc len : moves R (encode_loop n p rc len).
Proof. revert rc len. induction n as [|n IH]; intros; cbn [encode_loop]; moves_steps. Qed.
Lemma moves_encode p len : moves R (MQTTPacket_encode p len).
Proof. apply moves_encode_loop. Qed.
Lemma moves_recv_char c bs : moves R (recv_char c bs).
Proof. moves_def @recv_char. Qed.
#[local] Hint Resolve moves_encode moves_recv_char : moves.

Lemma moves_decode_loop n (getcharfn : getfn_t W) c mult len value :
  (forall k, moves R (getcharfn k)) -> moves R (decode_loop n getcharfn c mult len value).
Proof. intros Hget. revert c mult len value. induction n as [|n IH]; intros; cbn [decode_loop]; moves_steps. Qed.
Lemma moves_bufchar_loop n c : moves R (bufchar_loop n c).
Proof. revert c. induction n as [|n IH]; intros; cbn [bufchar_loop]; moves_steps. Qed.
#[local] Hint Resolve moves_bufchar_loop moves_decode_loop : moves.
Lemma moves_bufchar n : moves R (bufchar n).
Proof. moves_def @bufchar. Qed.
#[local] Hint Resolve moves_bufchar : moves.
Lemma moves_decodeBuf p : moves R (MQTTPacket_decodeBuf p).
Proof. moves_def @MQTTPacket_decodeBuf. Qed.
#[local] Hint Resolve moves_decodeBuf : moves.

Lemma moves_readInt p : moves R (readInt p).
Proof. moves_def @readInt. Qed.
Lemma moves_readChar p : moves R (readChar p).
Proof. moves_def @readChar. Qed.
Lemma moves_writeChar p c : moves R (writeChar p c).
Proof. moves_def @writeChar. Qed.
Lemma moves_writeInt p n : moves R (writeInt p n).
Proof. moves_def @writeInt. Qed.
Lemma moves_advance p c : moves R c -> moves R (advance p c).
Proof. intros. moves_def @advance. Qed.
#[local] Hint Resolve moves_readInt moves_readChar moves_writeChar moves_writeInt moves_advance : moves.
Lemma moves_readMQTTLenString str p q : moves R (readMQTTLenString str p q).
Proof. moves_def @readMQTTLenString. Qed.
#[local] Hint Resolve moves_readMQTTLenString : moves.
Lemma moves_equals a b : moves R (MQTTPacket_equals a b).
Proof. moves_def @MQTTPacket_equals. Qed.

Lemma moves_deserialize_publish out p n : moves R (MQTTDeserialize_publish out p n).
Proof. moves_def @MQTTDeserialize_publish. Qed.
Lemma moves_deserialize_ack out p n : moves R (MQTTDeserialize_ack out p n).
Proof. moves_def @MQTTDeserialize_ack. Qed.
Lemma moves_serialize_ack p n ty d id : moves R (MQTTSerialize_ack p n ty d id).
Proof. moves_def @MQTTSerialize_ack. Qed.
Lemma moves_serialize_pingreq p n : moves R (MQTTSerialize_pingreq p n).
Proof. unfold MQTTSerialize_pingreq. moves_def @MQTTSerialize_zero. Qed.

Lemma moves_skip_level n p q : moves R (skip_level n p q).
Proof. revert p. induction n as [|n IH]; intros; cbn [skip_level]; moves_steps. Qed.
#[local] Hint Resolve moves_skip_level : moves.
Lemma moves_match_loop n p q r : moves R (match_loop n p q r).
Proof. revert p q. induction n as [|n IH]; intros; cbn [match_loop]; moves_steps. Qed.
#[local] Hint Resolve moves_match_loop : moves.
Lemma moves_isTopicMatched p topic : moves R (isTopicMatched p topic).
Proof. moves_def @isTopicMatched. Qed.
End PacketMoves.

#[export] Hint Resolve moves_psub moves_int moves_plt moves_arr_get moves_arr_set moves_use moves_encode
  moves_recv_char moves_equals moves_deserialize_publish moves_deserialize_ack moves_serialize_ack
  moves_serialize_pingreq moves_match_loop moves_isTopicMatched : moves.

(** ** A clock that advances *)

(** Milliseconds.  [deadline] is the time at which a timer expires. *)
Class Clock (C E Timer D : Type) `{Platform C E Timer D} `{Observed E D} := {
  now : E -> Z;
  deadline : Timer -> Z;
  clock_init t s t' s' : TimerInit t s = Done t' s' -> now (env (world s)) <= now (env (world s'));
  clock_left t s n s' : TimerLeftMS t s = Done n s' -> now (env (world s)) <= now (env (world s'));
  clock_expired t s e s' : TimerIsExpired t s = Done e s' ->
    now (env (world s)) <= now (env (world s')) /\ e = (deadline t <=? now (env (world s')));
  clock_countdown t n s t' s' : TimerCountdown t n s = Done t' s' -> now (env (world s)) <= now (env (world s'));
  clock_countdown_ms t n s t' s' : TimerCountdownMS t n s = Done t' s' ->
    now (env (world s)) <= now (env (world s')) /\ deadline t' = now (env (world s')) + n;
  clock_read n t s rc bs s' : mqttread n t s = Done (rc, bs) s' ->
    now (env (world s)) <= now (env (world s')) /\
    (rc <> n -> now (env (world s)) < now (env (world s')) \/
                zlen (net_in (env (world s'))) < zlen (net_in (env (world s))));
  clock_write bs t s rc s' : mqttwrite bs t s = Done rc s' -> now (env (world s)) <= now (env (world s'));
  clock_handler f md s x s' : call_handler f md s = Done x s' -> now (env (world s)) <= now (env (world s'))
}.

Section Clocks.
Context {C E Timer D : Type} `{PS : PlatformSpec C E Timer D} `{!Clock C E Timer D}.
Abbreviation MC := (M (world_of C E)).

(** Time passes and input is used up. *)
Definition later (w w' : world_of C E) : Prop :=
  now (env w) <= now (env w') /\ zlen (net_in (env w')) <= zlen (net_in (env w)).

#[export] Instance later_preorder : PreOrder later.
Proof. split; [done|]. intros w1 w2 w3 [] []. split; lia. Qed.

Lemma quiet_later (s s' : state (world_of C E)) :
  quiet s s' -> now (env (world s)) <= now (env (world s')) -> later (world s) (world s').
Proof. intros (_ & _ & Hin & _) Hnow. split; [done|]. by rewrite Hin. Qed.

Lemma moves_TimerInit t : moves later (TimerInit t).
Proof.
  intros s a s' Hrun. destruct (TimerInit_spec t s) as (? & ? & Hrun' & Hq). rewrite Hrun in Hrun'.
  simplify_eq. apply quiet_later; [done|]. by apply clock_init in Hrun.
Qed.
Lemma moves_TimerLeftMS t : moves later (TimerLeftMS t).
Proof.
  intros s a s' Hrun. destruct (TimerLeftMS_spec t s) as (? & ? & Hrun' & Hq). rewrite Hrun in Hrun'.
  simplify_eq. apply quiet_later; [done|]. by apply clock_left in Hrun.
Qed.
Lemma moves_TimerIsExpired t : moves later (TimerIsExpired t).
Proof.
  intros s a s' Hrun. destruct (TimerIsExpired_spec t s) as (? & ? & Hrun' & Hq). rewrite Hrun in Hrun'.
  simplify_eq. apply quiet_later; [done|]. by apply clock_expired in Hrun as [].
Qed.
Lemma moves_TimerCountdown t n : moves later (TimerCountdown t n).
Proof.
  intros s a s' Hrun. destruct (TimerCountdown_spec t n s) as (? & ? & Hrun' & Hq). rewrite Hrun in Hrun'.
  simplify_eq. apply quiet_later; [done|]. by apply clock_countdown in Hrun.
Qed.
Lemma moves_TimerCountdownMS t n : moves later (TimerCountdownMS t n).
Proof.
  intros s a s' Hrun. destruct (TimerCountdownMS_spec t n s) as (? & ? & Hrun' & Hq). rewrite Hrun in Hrun'.
  simplify_eq. apply quiet_later; [done|]. by apply clock_countdown_ms in Hrun as [].
Qed.
Lemma moves_mqttread n t : 0 < n -> moves later (mqttread n t).
Proof.
  intros Hn s [rc bs] s' Hrun. destruct (mqttread_spec n t s Hn)
    as (? & ? & ? & Hrun' & _ & _ & _ & _ & _ & Hin & _). rewrite Hrun in Hrun'. simplify_eq.
  split; [by apply clock_read in Hrun as []|]. rewrite Hin, length_app. lia.
Qed.
Lemma moves_mqttwrite bs t : moves later (mqttwrite bs t).
Proof.
  intros s rc s' Hrun. destruct (mqttwrite_spec bs t s) as (? & ? & Hrun' & _ & _ & _ & Hin & _).
  rewrite Hrun in Hrun'. simplify_eq. split; [by apply clock_write in Hrun|by rewrite Hin].
Qed.
Lemma moves_call_handler f md : moves later (call_handler f md).
Proof.
  intros s x s' Hrun. destruct (call_handler_spec f md s) as (? & Hrun' & _ & _ & Hin & _).
  rewrite Hrun in Hrun'. simplify_eq. split; [by apply clock_handler in Hrun|by rewrite Hin].
Qed.
Lemma moves_get_client : moves later (get_client : MC C).
Proof. by intros s a s' [= _ <-]. Qed.
Lemma moves_update_client f : moves later (update_client f : MC unit).
Proof. by intros s a s' [= _ <-]. Qed.

#[local] Hint Resolve moves_mqttread moves_mqttwrite : moves.
Lemma moves_net_read p n t : 0 < n -> moves later (net_read p n t).
Proof. intros. moves_def @net_read. Qed.
Lemma moves_net_write p n t : moves later (net_write p n t).
Proof. moves_def @net_write. Qed.

(** ** Turns that make progress *)

(** Time has passed or input has been used up. *)
Definition hurried {A} (c : MC A) : Prop := forall s a s', c s = Done a s' ->
  later (world s) (world s') /\
  (now (env (world s)) < now (env (world s')) \/ zlen (net_in (env (world s'))) < zlen (net_in (env (world s)))).

Lemma hurried_first {A B} (c : MC A) (k : A -> MC B) :
  hurried c -> (forall a, moves later (k a)) -> hurried (bind c k).
Proof.
  intros Hc Hk s b s'. unfold bind. destruct (c s) as [a s1|] eqn:Hrun; [|done]. intros Hrun'.
  destruct (Hc _ _ _ Hrun) as [[] ?]. destruct (Hk _ _ _ _ Hrun'). split; [split|]; lia.
Qed.

Lemma hurried_then {A B} (c : MC A) (k : A -> MC B) :
  moves later c -> (forall a, hurried (k a)) -> hurried (bind c k).
Proof.
  intros Hc Hk s b s'. unfold bind. destruct (c s) as [a s1|] eqn:Hrun; [|done]. intros Hrun'.
  destruct (Hc _ _ _ Hrun). destruct (Hk _ _ _ _ Hrun') as [[] ?]. split; [split|]; lia.
Qed.

(** A read. *)
Lemma hurried_net_read p n t : 0 < n -> hurried (net_read p n t).
Proof.
  intros Hn. unfold net_read. apply hurried_first; [|intros []; moves_steps].
  intros s [rc bs] s' Hrun. destruct (mqttread_spec n t s Hn)
    as (? & ? & ? & Hrun' & _ & _ & Hfull & _ & _ & Hin & _). rewrite Hrun in Hrun'. injection Hrun' as <- <- <-.
  pose proof (clock_read _ _ _ _ _ _ Hrun) as [Hnow Hshort]. rewrite Hin, length_app in *.
  split; [split; rewrite ?Hin, ?length_app; lia|]. destruct (decide (rc = n)) as [->|]; [right|by apply Hshort].
  specialize (Hfull eq_refl). lia.
Qed.

(** The time and the input that are left: what the turns of a loop use up. *)
Definition left_over (timer : Timer) (s : state (world_of C E)) : Z :=
  Z.max 0 (deadline timer - now (env (world s))) + zlen (net_in (env (world s))).

Lemma left_over_later timer s s' : later (world s) (world s') -> left_over timer s' <= left_over timer s.
Proof. unfold left_over. intros []. lia. Qed.

Lemma left_over_turn {A} timer (c : MC A) s a s' :
  hurried c -> c s = Done a s' -> now (env (world s)) < deadline timer -> left_over timer s' < left_over timer s.
Proof. intros Hc Hrun Hnow. destruct (Hc _ _ _ Hrun) as [[] ?]. unfold left_over. lia. Qed.

Lemma left_over_nonneg timer s : 0 <= left_over timer s.
Proof. unfold left_over. lia. Qed.

(** Asking whether a timer has expired. *)
Lemma expired_run `{Untimed C U} timer (s : state (world_of C E)) :
  exists s', TimerIsExpired timer s = Done (deadline timer <=? now (env (world s'))) s' /\ see s' = see s /\
    later (world s) (world s').
Proof.
  destruct (TimerIsExpired_spec timer s) as (e & s' & Hrun & Hq). exists s'.
  pose proof (clock_expired _ _ _ _ Hrun) as [Hnow ->]. split_and!; [done|by apply quiet_see|by apply quiet_later].
Qed.

(** Starting a timer. *)
Lemma countdown_run `{Untimed C U} timer n (s : state (world_of C E)) :
  exists t' s', TimerCountdownMS timer n s = Done t' s' /\ see s' = see s /\
    now (env (world s)) <= now (env (world s')) /\ deadline t' = now (env (world s')) + n.
Proof.
  destruct (TimerCountdownMS_spec timer n s) as (t' & s' & Hrun & Hq). exists t', s'.
  pose proof (clock_countdown_ms _ _ _ _ _ Hrun) as []. split_and!; [done|by apply quiet_see|done|done].
Qed.

Lemma init_run `{Untimed C U} timer (s : state (world_of C E)) :
  exists t' s', TimerInit timer s = Done t' s' /\ see s' = see s /\
    now (env (world s)) <= now (env (world s')).
Proof.
  destruct (TimerInit_spec timer s) as (t' & s' & Hrun & Hq). exists t', s'.
  pose proof (clock_init _ _ _ _ Hrun). split_and!; [done|by apply quiet_see|done].
Qed.
End Clocks.

(** ** A concrete clock

    Time passes while a read waits for bytes that do not come. *)

Record ticking (D : Type) := Ticking { tk_bench : bench D; tk_now : Z }.
Arguments Ticking {D} _ _.
Arguments tk_bench {D} _.
Arguments tk_now {D} _.

#[export] Instance ticking_observed {D} : Observed (ticking D) D := {|
  net_in e := pe_in (tk_bench e); net_out e := pe_out (tk_bench e); delivered e := pe_delivered (tk_bench e)
|}.

Section TickingPlatform.
Context {C D : Type}.
Abbreviation MT := (M (world_of C (ticking D))).

Definition get_tick : MT (ticking D) := fun s => Done (env (world s)) s.
Definition set_tick (e : ticking D) : MT unit := fun s =>
  Done tt (State (mem s) (bufptr s) (World (client (world s)) e)).

Definition ticking_platform : Platform C (ticking D) Z D := {|
  TimerInit _ := ret 0;
  TimerIsExpired t := let* e := get_tick in ret (t <=? tk_now e);
  TimerCountdownMS _ n := let* e := get_tick in ret (tk_now e + n);
  TimerCountdown _ n := let* e := get_tick in ret (tk_now e + 1000 * n);
  TimerLeftMS t := let* e := get_tick in ret (Z.max 0 (t - tk_now e));
  mqttread n timeout :=
    let* e := get_tick in
    let b := tk_bench e in
    let bs := take (Z.to_nat n) (pe_in b) in
    let waited := if zlen bs =? n then 0 else Z.max 1 timeout in
    set_tick (Ticking {| pe_in := drop (Z.to_nat n) (pe_in b); pe_out := pe_out b; pe_delivered := pe_delivered b |}
      (tk_now e + waited)) ;;;
    ret (zlen bs, bs);
  mqttwrite bs _ :=
    let* e := get_tick in
    let b := tk_bench e in
    set_tick (Ticking {| pe_in := pe_in b; pe_out := pe_out b ++ bs; pe_delivered := pe_delivered b |} (tk_now e)) ;;;
    ret (zlen bs);
  call_handler f md :=
    let* e := get_tick in
    let b := tk_bench e in
    set_tick (Ticking {| pe_in := pe_in b; pe_out := pe_out b; pe_delivered := pe_delivered b ++ [(f, md)] |}
      (tk_now e))
|}.

Lemma ticking_spec : PlatformSpec C (ticking D) Z D (H := ticking_platform).
Proof.
  split.
  1-5: intros; do 2 eexists; split; [done|by split_and!].
  - intros n t s Hn. cbn. unfold bind, ret, get_tick, set_tick. cbn. do 3 eexists. split; [reflexivity|]. cbn.
    rewrite length_take. split_and!; try done; try lia. by rewrite take_drop.
  - intros bs t s. cbn. unfold bind, ret, get_tick, set_tick. cbn. do 2 eexists. split; [reflexivity|]. cbn.
    rewrite Nat2Z.id, firstn_all. split_and!; done.
  - intros f md s. cbn. unfold bind, get_tick, set_tick. cbn. eexists. split; [reflexivity|]. cbn. split_and!; done.
Qed.

Lemma ticking_whole : WholeWrites C (ticking D) Z D (H := ticking_platform).
Proof.
  intros bs t s rc s' _. cbn. unfold bind, ret, get_tick, set_tick. cbn. intros [= <- _]. by right.
Qed.

Definition ticking_clock : Clock C (ticking D) Z D (H := ticking_platform).
Proof.
  refine {| now := tk_now; deadline := fun t => t |};
    intros *; cbn; unfold bind, ret, get_tick, set_tick; cbn.
  1, 2: by intros [= _ <-].
  - by intros [= <- <-].
  - by intros [= _ <-].
  - by intros [= <- <-].
  - intros [= <- <- <-]. cbn. destruct (Z.eqb_spec (zlen (take (Z.to_nat n) (pe_in (tk_bench (env (world s)))))) n); lia.
  - by intros [= _ <-].
  - by intros [= _ <-].
Defined.
End TickingPlatform.

#[export] Hint Resolve moves_TimerInit moves_TimerLeftMS moves_TimerIsExpired moves_TimerCountdown
  moves_TimerCountdownMS moves_mqttread moves_mqttwrite moves_call_handler moves_get_client
  moves_update_client moves_net_write moves_net_read : moves.
