(* ===== verification/Yield.v ===== *)
(** * Waiting ends

    MQTTYield of the C client and yield of the C++ client call cycle until their
    time is up.  On a platform with a clock that advances they return: the fuel
    they need is the time they were given plus the bytes that are to come.  They
    return success when that time has passed, and otherwise the session is
    closed. *)

From S2P Require Import Prelude CMem MQTTPacket MQTTPublish MQTTConnect MQTTSubscribe PacketRead.
From S2P Require Import Platform MQTTClient Exchange ClientLogic Handlers Cycle.
From S2P Require Import CppClient CppLogic CppHandlers CppCycle Clock.

(** ** The client in C *)

Section YieldC.
Context {E Timer : Type} `{PS : PlatformSpec (MQTTClient Timer) E Timer MessageData} `{CharSign}.
Context `{!Clock (MQTTClient Timer) E Timer MessageData}.
Variables (fuel : nat) (no_timer : Timer) (uninit : Z).

Lemma moves_sendPacket n timer : moves later (sendPacket fuel n timer).
Proof.
  assert (Hloop : forall k sent, moves later (send_loop k sent n timer)).
  { induction k as [|k IH]; intros; cbn [send_loop]; moves_steps. }
  moves_def @sendPacket.
Qed.
#[local] Hint Resolve moves_sendPacket : moves.

Lemma moves_decodePacket timeout : moves later (decodePacket timeout).
Proof.
  assert (Hloop : forall k i mult len value, moves later (decodePacket_loop k i mult len value timeout)).
  { induction k as [|k IH]; intros; cbn [decodePacket_loop]; moves_steps. }
  apply Hloop.
Qed.
#[local] Hint Resolve moves_decodePacket : moves.

Lemma moves_readPacket_rest c timer n : moves later (readPacket_rest c timer n).
Proof. moves_def @readPacket_rest. Qed.
#[local] Hint Resolve moves_readPacket_rest : moves.

Lemma hurried_readPacket timer : hurried (readPacket timer).
Proof.
  unfold readPacket. apply hurried_then; [apply moves_get_client|]. intros c.
  apply hurried_then; [apply moves_TimerLeftMS|]. intros timeout.
  apply hurried_first; [by apply hurried_net_read|]. moves_steps.
Qed.

Lemma moves_deliverMessage topic msg : moves later (deliverMessage topic msg).
Proof.
  assert (Hloop : forall k i rc, moves later (deliver_loop k i rc topic msg)).
  { induction k as [|k IH]; intros; cbn [deliver_loop]; moves_steps. }
  moves_def @deliverMessage.
Qed.
#[local] Hint Resolve moves_deliverMessage : moves.

Lemma moves_keepalive : moves later (keepalive fuel no_timer).
Proof. moves_def @keepalive. Qed.
Lemma moves_close : moves later MQTTCloseSession.
Proof. moves_def @MQTTCloseSession. Qed.
#[local] Hint Resolve moves_keepalive moves_close : moves.
Lemma moves_cycle_exit rc ty : moves later (cycle_exit rc ty).
Proof. moves_def @cycle_exit. Qed.
#[local] Hint Resolve moves_cycle_exit : moves.
Lemma moves_cycle_end rc ty : moves later (cycle_end fuel no_timer rc ty).
Proof. moves_def @cycle_end. Qed.
Lemma moves_cycle_publish timer : moves later (cycle_publish fuel uninit timer).
Proof. moves_def @cycle_publish. Qed.
Lemma moves_cycle_ack ty timer : moves later (cycle_ack fuel uninit ty timer).
Proof. moves_def @cycle_ack. Qed.
#[local] Hint Resolve moves_cycle_end moves_cycle_publish moves_cycle_ack : moves.

Lemma hurried_cycle timer : hurried (cycle fuel no_timer uninit timer).
Proof. unfold cycle. apply hurried_first; [apply hurried_readPacket|]. moves_steps. Qed.

(** The turns of MQTTYield. *)
Lemma yield_loop_returns `{!WholeWrites (MQTTClient Timer) E Timer MessageData} B t timer n s :
  (2 <= fuel)%nat -> 2 <= spare B -> 0 <= uninit -> client_ok B t (see s) -> left_over timer s < Z.of_nat n ->
  exists rc s', yield_loop fuel no_timer uninit n timer s = Done rc s' /\
    (exists t', client_ok B t' (see s')) /\
    (rc = SUCCESS /\ deadline timer <= now (env (world s')) \/
     rc = FAILURE /\ isconnected (v_client (see s')) = 0).
Proof.
  intros Hfuel Hspare Hu. revert t s. induction n as [|n IH]; intros t s Hok Hleft.
  { pose proof (left_over_nonneg timer s). lia. }
  cbn [yield_loop].
  destruct (safe_cycle fuel no_timer uninit B t Hfuel Hspare Hu (see s) timer Hok s eq_refl)
    as (r & s2 & Hrun & [t2 Hok2] & Hneg).
  rewrite (bind_done _ _ _ _ _ Hrun). destruct (Z.ltb_spec r 0).
  { exists FAILURE, s2. split; [done|]. split; [by exists t2|right]. split; [done|by apply Hneg]. }
  destruct (expired_run timer s2) as (s3 & Hexp & Hs3 & Hlater). rewrite (bind_done _ _ _ _ _ Hexp).
  destruct (Z.leb_spec (deadline timer) (now (env (world s3)))).
  { exists SUCCESS, s3. rewrite Hs3. split; [done|]. split; [by exists t2|by left]. }
  apply (IH t2); [by rewrite Hs3|]. pose proof (left_over_later timer _ _ Hlater).
  destruct (hurried_cycle timer _ _ _ Hrun) as [[Hnow _] _]. destruct Hlater as [Hnow' _].
  pose proof (left_over_turn timer _ _ _ _ (hurried_cycle timer) Hrun ltac:(lia)). lia.
Qed.
End YieldC.

(** ** The client in C++ *)

Section YieldCpp.
Context `{ClientParams} {E Timer : Type} `{PS : PlatformSpec (ClientObject Timer) E Timer MessageData} `{CharSign}.
Context `{!Clock (ClientObject Timer) E Timer MessageData}.
Variables (fuel : nat) (no_timer : Timer) (uninit : Z).

Lemma moves_osendPacket n timer : moves later (Client_sendPacket fuel n timer).
Proof.
  assert (Hloop : forall k sent, moves later (Client_send_loop k sent n timer)).
  { induction k as [|k IH]; intros; cbn [Client_send_loop]; moves_steps. }
  moves_def @Client_sendPacket.
Qed.
#[local] Hint Resolve moves_osendPacket : moves.

Lemma moves_odecodePacket timeout : moves later (Client_decodePacket timeout).
Proof.
  assert (Hloop : forall k i mult len value, moves later (Client_decodePacket_loop k i mult len value timeout)).
  { induction k as [|k IH]; intros; cbn [Client_decodePacket_loop]; moves_steps. }
  apply Hloop.
Qed.
#[local] Hint Resolve moves_odecodePacket : moves.

Lemma moves_oreadPacket_rest timer n : moves later (Client_readPacket_rest timer n).
Proof. moves_def @Client_readPacket_rest. Qed.
#[local] Hint Resolve moves_oreadPacket_rest : moves.

Lemma hurried_oreadPacket timer : hurried (Client_readPacket timer).
Proof.
  unfold Client_readPacket. apply hurried_then; [apply moves_get_client|]. intros c.
  apply hurried_then; [apply moves_TimerLeftMS|]. intros timeout.
  apply hurried_first; [by apply hurried_net_read|]. moves_steps.
Qed.

Lemma moves_omatched p topic : moves later (Client_isTopicMatched p topic : M (oworld E Timer) bool).
Proof. moves_def @Client_isTopicMatched. Qed.
#[local] Hint Resolve moves_omatched : moves.

Lemma moves_odeliverMessage topic msg : moves later (Client_deliverMessage topic msg).
Proof.
  assert (Hloop : forall k i rc, moves later (Client_deliver_loop k i rc topic msg)).
  { induction k as [|k IH]; intros; cbn [Client_deliver_loop]; moves_steps. }
  moves_def @Client_deliverMessage.
Qed.
#[local] Hint Resolve moves_odeliverMessage : moves.

Lemma moves_oaccept topic msg : moves later (Client_accept topic msg).
Proof.
  unfold Client_accept, Client_isQoS2msgidFree, Client_useQoS2msgid. moves_steps.
Qed.
Lemma moves_okeepalive : moves later (Client_keepalive fuel no_timer).
Proof. moves_def @Client_keepalive. Qed.
Lemma moves_oclose : moves later (Client_closeSession : M (oworld E Timer) unit).
Proof. moves_def @Client_closeSession. moves_def @Client_cleanSession. Qed.
Lemma moves_ofree id : moves later (Client_freeQoS2msgid id : M (oworld E Timer) unit).
Proof. moves_def @Client_freeQoS2msgid. Qed.
#[local] Hint Resolve moves_oaccept moves_okeepalive moves_oclose moves_ofree : moves.
Lemma moves_ocycle_exit rc ty : moves later (Client_cycle_exit rc ty : M (oworld E Timer) Z).
Proof. moves_def @Client_cycle_exit. Qed.
#[local] Hint Resolve moves_ocycle_exit : moves.
Lemma moves_ocycle_end rc ty : moves later (Client_cycle_end fuel no_timer rc ty).
Proof. moves_def @Client_cycle_end. Qed.
Lemma moves_ocycle_publish timer : moves later (Client_cycle_publish fuel uninit timer).
Proof. moves_def @Client_cycle_publish. Qed.
Lemma moves_ocycle_ack ty timer : moves later (Client_cycle_ack fuel uninit ty timer).
Proof. moves_def @Client_cycle_ack. Qed.
#[local] Hint Resolve moves_ocycle_end moves_ocycle_publish moves_ocycle_ack : moves.

Lemma hurried_ocycle timer : hurried (Client_cycle fuel no_timer uninit timer).
Proof. unfold Client_cycle. apply hurried_first; [apply hurried_oreadPacket|]. moves_steps. Qed.

(** The turns of yield. *)
Lemma oyield_loop_returns `{!Progress (ClientObject Timer) E Timer MessageData} L t timer n s :
  MAX_MQTT_PACKET_SIZE < Z.of_nat fuel -> 2 <= l_spare L -> 0 <= uninit -> object_ok L t (see s) ->
  left_over timer s < Z.of_nat n ->
  exists rc s', Client_yield_loop fuel no_timer uninit n timer s = Done rc s' /\
    (exists t', object_ok L t' (see s')) /\
    (rc = SUCCESS /\ deadline timer <= now (env (world s')) \/
     rc = FAILURE /\ o_isconnected (v_client (see s')) = false).
Proof.
  intros Hfuel Hspare Hu. revert t s. induction n as [|n IH]; intros t s Hok Hleft.
  { pose proof (left_over_nonneg timer s). lia. }
  cbn [Client_yield_loop]. destruct (expired_run timer s) as (s1 & Hexp & Hs1 & Hlater).
  rewrite (bind_done _ _ _ _ _ Hexp).
  destruct (Z.leb_spec (deadline timer) (now (env (world s1)))).
  { exists SUCCESS, s1. rewrite Hs1. split; [done|]. split; [by exists t|by left]. }
  rewrite <- Hs1 in Hok.
  destruct (safe_ocycle fuel no_timer uninit Hfuel Hu L t (see s1) timer Hok Hspare s1 eq_refl)
    as (r & s2 & Hrun & [t2 Hok2] & Hneg).
  rewrite (bind_done _ _ _ _ _ Hrun). destruct (Z.ltb_spec r 0).
  { exists FAILURE, s2. split; [done|]. split; [by exists t2|right]. split; [done|by apply Hneg]. }
  apply (IH t2); [done|]. pose proof (left_over_later timer _ _ Hlater).
  pose proof (left_over_turn timer _ _ _ _ (hurried_ocycle timer) Hrun ltac:(lia)). lia.
Qed.
End YieldCpp.

(** ** Properties *)

(** C12: MQTTYield of the C client ends, whatever the network delivers, on a
    platform whose clock advances while a read waits and whose network takes a
    packet whole or fails, with two readable bytes behind the receive buffer: fuel
    for the bytes to come and one turn per millisecond suffices.  It leaves a well-formed client and
    returns SUCCESS only once its time has passed; otherwise the result is
    FAILURE and the client is disconnected. *)
Theorem mqtt_yield_returns {E Timer} `{PS : PlatformSpec (MQTTClient Timer) E Timer MessageData} `{CharSign}
    `{!Clock (MQTTClient Timer) E Timer MessageData} `{!WholeWrites (MQTTClient Timer) E Timer MessageData}
    fuel (no_timer : Timer) uninit B t timeout s :
  (2 <= fuel)%nat -> 2 <= spare B -> 0 <= uninit -> client_ok B t (see s) -> 0 <= timeout < 4294967296 ->
  timeout + zlen (v_in (see s)) < Z.of_nat fuel ->
  exists rc s', MQTTYield fuel no_timer uninit timeout s = Done rc s' /\
    (exists t', client_ok B t' (see s')) /\
    (rc = SUCCESS /\ now (env (world s)) + timeout <= now (env (world s')) \/
     rc = FAILURE /\ isconnected (v_client (see s')) = 0).
Proof.
  intros Hf Hsp Hu Hok Ht Hfuel. unfold MQTTYield.
  destruct (init_run no_timer s) as (t1 & s1 & Hrun1 & Hs1 & Hn1). rewrite (bind_done _ _ _ _ _ Hrun1).
  replace (u32 timeout) with timeout by (unfold u32; by rewrite Z.mod_small).
  destruct (countdown_run t1 timeout s1) as (timer & s2 & Hrun2 & Hs2 & Hn2 & Hdl).
  rewrite (bind_done _ _ _ _ _ Hrun2). rewrite <- Hs1, <- Hs2 in Hok, Hfuel.
  destruct (yield_loop_returns fuel no_timer uninit B t timer fuel s2 Hf Hsp Hu Hok)
    as (rc & s' & Hrun & Hok' & Hout).
  { unfold left_over. rewrite Hdl. change (zlen (net_in (env (world s2)))) with (zlen (v_in (see s2))). lia. }
  exists rc, s'. split; [exact Hrun|]. split; [done|]. destruct Hout as [[-> ?]|?]; [left; split; [done|lia]|by right].
Qed.

(** C11: The same of yield of the C++ client, on a network that may take what is
    sent in parts, with two readable bytes behind readbuf. *)
Theorem client_yield_returns `{ClientParams} {E Timer}
    `{PS : PlatformSpec (ClientObject Timer) E Timer MessageData} `{CharSign}
    `{!Clock (ClientObject Timer) E Timer MessageData} `{!Progress (ClientObject Timer) E Timer MessageData}
    fuel (no_timer : Timer) uninit L t timeout s :
  MAX_MQTT_PACKET_SIZE < Z.of_nat fuel -> 2 <= l_spare L -> 0 <= uninit -> object_ok L t (see s) -> 0 <= timeout ->
  timeout + zlen (v_in (see s)) < Z.of_nat fuel ->
  exists rc s', Client_yield fuel no_timer uninit timeout s = Done rc s' /\
    (exists t', object_ok L t' (see s')) /\
    (rc = SUCCESS /\ now (env (world s)) + timeout <= now (env (world s')) \/
     rc = FAILURE /\ o_isconnected (v_client (see s')) = false).
Proof.
  intros Hf Hsp Hu Hok Ht Hfuel. unfold Client_yield.
  destruct (init_run no_timer s) as (t1 & s1 & Hrun1 & Hs1 & Hn1). rewrite (bind_done _ _ _ _ _ Hrun1).
  destruct (countdown_run t1 timeout s1) as (timer & s2 & Hrun2 & Hs2 & Hn2 & Hdl).
  rewrite (bind_done _ _ _ _ _ Hrun2). rewrite <- Hs1, <- Hs2 in Hok, Hfuel.
  destruct (oyield_loop_returns fuel no_timer uninit L t timer fuel s2 Hf Hsp Hu Hok)
    as (rc & s' & Hrun & Hok' & Hout).
  { unfold left_over. rewrite Hdl. change (zlen (net_in (env (world s2)))) with (zlen (v_in (see s2))). lia. }
  exists rc, s'. split; [exact Hrun|]. split; [done|]. destruct Hout as [[-> ?]|?]; [left; split; [done|lia]|by right].
Qed.

(** ** Witnesses *)

Section YieldWitnesses.
#[local] Existing Instances char_is_signed ticking_platform ticking_spec ticking_whole ticking_clock.

Ltac no_filters := repeat constructor; done.

(* the client in C, two seconds into its life, a PINGRESP and half a packet to come *)
Definition ex_ycstate : state (cworld (ticking MessageData) Z) :=
  State (mem_of [replicate 32 (byte_of_Z 170); replicate 34 (byte_of_Z 187)]) NULL
    (World (Client 7 1000 32 32 (Ptr 1 0) (Ptr 2 0) 60 0 1 1
              (replicate 5 {| topicFilter := NULL; fp := None |}) None 0 0)
       (Ticking {| pe_in := bytes [208; 0; 50; 9; 1]; pe_out := []; pe_delivered := [] |} 2000)).

Lemma ex_ycstate_ok :
  client_ok {| sb := 1; so := 0; rb := 2; ro := 0; spare := 2 |} (replicate 5 (None, None)) (see ex_ycstate).
Proof.
  split; try done.
  - by exists (replicate 32 (byte_of_Z 170)).
  - by exists (replicate 34 (byte_of_Z 187)).
  - split; [no_filters|done].
  - cbn. repeat apply Forall_cons_2; try apply Forall_nil_2; by intros b o [=].
Qed.

Lemma mqtt_yield_returns_witness :
  exists rc s', MQTTYield 16 0 0 10 ex_ycstate = Done rc s' /\
    (exists t', client_ok {| sb := 1; so := 0; rb := 2; ro := 0; spare := 2 |} t' (see s')) /\
    (rc = SUCCESS /\ 2000 + 10 <= tk_now (env (world s')) \/ rc = FAILURE /\ isconnected (v_client (see s')) = 0).
Proof.
  apply (mqtt_yield_returns (E := ticking MessageData) (Clock0 := ticking_clock) 16 0 0 {| sb := 1; so := 0; rb := 2; ro := 0; spare := 2 |} (replicate 5 (None, None)) 10
    ex_ycstate); [lia|done|done|apply ex_ycstate_ok|lia|cbn; lia].
Defined.

#[local] Instance ex_ybuild : ClientParams := {|
  MAX_MQTT_PACKET_SIZE := 12; MAX_HANDLERS := 1; MQTTCLIENT_QOS1 := true; MQTTCLIENT_QOS2 := false;
  MAX_INCOMING_QOS2_MESSAGES := 0
|}.

Definition ex_ylayout : layout := {| l_send := 1; l_read := 2; l_pub := 3; l_spare := 2 |}.
Definition ex_ystate : state (oworld (ticking MessageData) Z) :=
  State (mem_of [replicate 12 (byte_of_Z 170); replicate 14 (byte_of_Z 187); replicate 12 (byte_of_Z 0)]) NULL
    (World (Object 30000 (Ptr 1 0) (Ptr 2 0) 0 0 0 60 false true 1 [{| topicFilter := NULL; fp := None |}]
              None true (Ptr 3 0) 0 0 0 false [])
       (Ticking {| pe_in := bytes [208; 0; 50; 9; 1]; pe_out := []; pe_delivered := [] |} 2000)).

Lemma ex_ystate_ok : object_ok ex_ylayout [(None, None)] (see ex_ystate).
Proof.
  split; try done.
  - by exists (replicate 12 (byte_of_Z 170)).
  - by exists (replicate 14 (byte_of_Z 187)).
  - by exists (replicate 12 (byte_of_Z 0)).
  - no_filters.
  - constructor; [|done]. by intros b o [=].
Qed.

Lemma client_yield_returns_witness :
  exists rc s', Client_yield 16 0 0 10 ex_ystate = Done rc s' /\
    (exists t', object_ok ex_ylayout t' (see s')) /\
    (rc = SUCCESS /\ 2000 + 10 <= tk_now (env (world s')) \/
     rc = FAILURE /\ o_isconnected (v_client (see s')) = false).
Proof.
  apply (client_yield_returns (E := ticking MessageData) (Clock0 := ticking_clock) 16 0 0 ex_ylayout [(None, None)] 10 ex_ystate);
    [done|done|done|apply ex_ystate_ok|done|cbn; lia].
Defined.
End YieldWitnesses.
