(* ===== verification/SNPacket.v ===== *)
(** * MQTTSNPacket.c: frames and strings of MQTT-SN

    MQTTSNPacket.h and MQTTSNPacket.c of paho_mqtt-sn_embedded_c/MQTTSNPacket.
    The character and integer primitives and writeCString are those of
    MQTTPacket.c: the ones in MQTTSNPacket.c are disabled by an #if 0.  A packet
    starts with its own length, one byte up to 255 and otherwise the byte 1
    followed by two bytes. *)

From stdpp Require Import strings.
From S2P Require Import Prelude CMem MQTTPacket PacketRead.

(** ** MQTTSNPacket.h *)

(** [enum errors] *)
Definition MQTTSNPACKET_BUFFER_TOO_SHORT : Z := -2.
Definition MQTTSNPACKET_READ_ERROR : Z := -1.

(** [MQTTSN_connackCodes] *)
Definition MQTTSN_RC_ACCEPTED : Z := 0.
Definition MQTTSN_RC_REJECTED_CONGESTED : Z := 1.
Definition MQTTSN_RC_REJECTED_INVALID_TOPIC_ID : Z := 2.
Definition MQTTSN_RC_NOT_SUPPORTED : Z := 3.

Inductive MQTTSN_msgTypes :=
  | MQTTSN_ADVERTISE | MQTTSN_SEARCHGW | MQTTSN_GWINFO | MQTTSN_RESERVED1
  | MQTTSN_CONNECT | MQTTSN_CONNACK
  | MQTTSN_WILLTOPICREQ | MQTTSN_WILLTOPIC | MQTTSN_WILLMSGREQ | MQTTSN_WILLMSG
  | MQTTSN_REGISTER | MQTTSN_REGACK
  | MQTTSN_PUBLISH | MQTTSN_PUBACK | MQTTSN_PUBCOMP | MQTTSN_PUBREC | MQTTSN_PUBREL | MQTTSN_RESERVED2
  | MQTTSN_SUBSCRIBE | MQTTSN_SUBACK | MQTTSN_UNSUBSCRIBE | MQTTSN_UNSUBACK
  | MQTTSN_PINGREQ | MQTTSN_PINGRESP
  | MQTTSN_DISCONNECT | MQTTSN_RESERVED3
  | MQTTSN_WILLTOPICUPD | MQTTSN_WILLTOPICRESP | MQTTSN_WILLMSGUPD | MQTTSN_WILLMSGRESP
  | MQTTSN_ENCAPSULATED.

Definition sn_code (t : MQTTSN_msgTypes) : Z :=
  match t with
  | MQTTSN_ADVERTISE => 0 | MQTTSN_SEARCHGW => 1 | MQTTSN_GWINFO => 2 | MQTTSN_RESERVED1 => 3
  | MQTTSN_CONNECT => 4 | MQTTSN_CONNACK => 5
  | MQTTSN_WILLTOPICREQ => 6 | MQTTSN_WILLTOPIC => 7 | MQTTSN_WILLMSGREQ => 8 | MQTTSN_WILLMSG => 9
  | MQTTSN_REGISTER => 10 | MQTTSN_REGACK => 11
  | MQTTSN_PUBLISH => 12 | MQTTSN_PUBACK => 13 | MQTTSN_PUBCOMP => 14 | MQTTSN_PUBREC => 15
  | MQTTSN_PUBREL => 16 | MQTTSN_RESERVED2 => 17
  | MQTTSN_SUBSCRIBE => 18 | MQTTSN_SUBACK => 19 | MQTTSN_UNSUBSCRIBE => 20 | MQTTSN_UNSUBACK => 21
  | MQTTSN_PINGREQ => 22 | MQTTSN_PINGRESP => 23
  | MQTTSN_DISCONNECT => 24 | MQTTSN_RESERVED3 => 25
  | MQTTSN_WILLTOPICUPD => 26 | MQTTSN_WILLTOPICRESP => 27 | MQTTSN_WILLMSGUPD => 28
  | MQTTSN_WILLMSGRESP => 29
  | MQTTSN_ENCAPSULATED => 254
  end.
Coercion sn_code : MQTTSN_msgTypes >-> Z.

(** [MQTTSN_topicTypes], the values of a two-bit field. *)
Definition MQTTSN_TOPIC_TYPE_NORMAL : Z := 0.
Definition MQTTSN_TOPIC_TYPE_PREDEFINED : Z := 1.
Definition MQTTSN_TOPIC_TYPE_SHORT : Z := 2.

(** The union MQTTSNFlags, as its byte; the fields are in the order of the
    layout without REVERSED.  [dup] is a signed field of one bit. *)
Definition sn_flag_topicIdType (f : Z) : Z := bf_get f 0 2.
Definition sn_flag_cleanSession (f : Z) : Z := bf_get f 2 1.
Definition sn_flag_will (f : Z) : Z := bf_get f 3 1.
Definition sn_flag_retain (f : Z) : Z := bf_get f 4 1.
Definition sn_flag_QoS (f : Z) : Z := bf_get f 5 2.
Definition sn_flag_dup (f : Z) : Z := - bf_get f 7 1.
Definition set_sn_topicIdType (f v : Z) : Z := bf_set f 0 2 v.
Definition set_sn_cleanSession (f v : Z) : Z := bf_set f 2 1 v.
Definition set_sn_will (f v : Z) : Z := bf_set f 3 1 v.
Definition set_sn_retain (f v : Z) : Z := bf_set f 4 1 v.
Definition set_sn_QoS (f v : Z) : Z := bf_set f 5 2 v.
Definition set_sn_dup (f v : Z) : Z := bf_set f 7 1 v.

(** The structures MQTTSNString and MQTTSNLenString have the members of
    MQTTString and MQTTLenString. *)
Definition MQTTSNString : Type := MQTTString.

(** *** Topics *)

(** The bytes of [id] in memory, and back. *)
Definition short_bytes `{ByteOrder} (id : Z) : Z * Z :=
  if big_endian then (id / 256, id mod 256) else (id mod 256, id / 256).
Definition short_of_bytes `{ByteOrder} (b0 b1 : Z) : Z :=
  if big_endian then 256 * b0 + b1 else 256 * b1 + b0.

(** The union [data] overlays [id] and [short_name] with the first two bytes of
    [long_.name]: those two bytes, [long_.name] and [long_.len] as far as they
    hold a value. *)
Record MQTTSN_topicid := {
  tid_type : Z;
  tid_byte0 : option Z; tid_byte1 : option Z;
  tid_long_name : option ptr; tid_long_len : option Z
}.

Definition set_tid_type (t : MQTTSN_topicid) (v : Z) : MQTTSN_topicid :=
  {| tid_type := v; tid_byte0 := tid_byte0 t; tid_byte1 := tid_byte1 t;
     tid_long_name := tid_long_name t; tid_long_len := tid_long_len t |}.
Definition set_tid_id `{ByteOrder} (t : MQTTSN_topicid) (id : Z) : MQTTSN_topicid :=
  let (b0, b1) := short_bytes id in
  {| tid_type := tid_type t; tid_byte0 := Some b0; tid_byte1 := Some b1;
     tid_long_name := None; tid_long_len := tid_long_len t |}.
Definition set_tid_short (t : MQTTSN_topicid) (c0 c1 : Z) : MQTTSN_topicid :=
  {| tid_type := tid_type t; tid_byte0 := Some (u8 c0); tid_byte1 := Some (u8 c1);
     tid_long_name := None; tid_long_len := tid_long_len t |}.
Definition set_tid_long_name (t : MQTTSN_topicid) (p : ptr) : MQTTSN_topicid :=
  {| tid_type := tid_type t; tid_byte0 := None; tid_byte1 := None;
     tid_long_name := Some p; tid_long_len := tid_long_len t |}.
Definition set_tid_long_len (t : MQTTSN_topicid) (n : Z) : MQTTSN_topicid :=
  {| tid_type := tid_type t; tid_byte0 := tid_byte0 t; tid_byte1 := tid_byte1 t;
     tid_long_name := tid_long_name t; tid_long_len := Some n |}.

Section Topic.
Context {W : Type} `{CharSign} `{ByteOrder}.

(** Reading [data.id] and [data.short_name[i]]. *)
Definition tid_id (t : MQTTSN_topicid) : M W Z :=
  let* b0 := use (tid_byte0 t) in
  let* b1 := use (tid_byte1 t) in
  ret (short_of_bytes b0 b1).
Definition tid_short0 (t : MQTTSN_topicid) : M W Z := let* b := use (tid_byte0 t) in ret (to_char b).
Definition tid_short1 (t : MQTTSN_topicid) : M W Z := let* b := use (tid_byte1 t) in ret (to_char b).

Definition MQTTSNTopic_equals (a b : MQTTSN_topicid) : M W Z :=
  if tid_type a =? tid_type b then
    let* x := tid_id a in let* y := tid_id b in
    if x =? y then
      let* x := tid_short0 a in let* y := tid_short0 b in
      if x =? y then
        let* x := tid_short1 a in let* y := tid_short1 b in
        if x =? y then ret 1 else ret 0
      else ret 0
    else ret 0
  else ret 0.
End Topic.

(** ** Packet names *)

Definition packet_names : list string :=
  ["ADVERTISE"; "SEARCHGW"; "GWINFO"; "RESERVED"; "CONNECT"; "CONNACK";
   "WILLTOPICREQ"; "WILLTOPIC"; "WILLMSGREQ"; "WILLMSG"; "REGISTER"; "REGACK";
   "PUBLISH"; "PUBACK"; "PUBCOMP"; "PUBREC"; "PUBREL"; "RESERVED";
   "SUBSCRIBE"; "SUBACK"; "UNSUBSCRIBE"; "UNSUBACK"; "PINGREQ"; "PINGRESP";
   "DISCONNECT"; "RESERVED"; "WILLTOPICUPD"; "WILLTOPICRESP"; "WILLMSGUPD";
   "WILLMSGRESP"]%string.

Section SNPacket.
Context {W : Type} `{CharSign}.

Definition MQTTSNPacket_name (code : Z) : M W string :=
  if code =? MQTTSN_ENCAPSULATED then ret "ENCAPSULATED"%string
  else if (0 <=? code) && (code <=? MQTTSN_WILLMSGRESP) then arr_get packet_names code
  else ret "UNKNOWN"%string.

(** ** Lengths *)

Definition MQTTSNPacket_len (length : Z) : M W Z :=
  if 255 <? length then int (length + 3) else int (length + 1).

Definition MQTTSNPacket_encode (buf : ptr) (length : Z) : M W Z :=
  if 255 <? length then
    let* buf := writeChar buf 1 in
    let* buf := writeInt buf length in
    ret 3
  else store buf length ;;; ret 1.

(** The result is the return value and [*value], which an error leaves as it
    was: [None] before its first assignment. *)
Definition MQTTSNPacket_decode (buf : ptr) (buflen : Z) (value : option Z) : M W (Z * option Z) :=
  if buflen <=? 0 then ret (MQTTSNPACKET_READ_ERROR, value)
  else
    let* x := load buf in
    if x =? 1 then
      if buflen <? 3 then ret (MQTTSNPACKET_READ_ERROR, value)
      else let* (v, _) := readInt (padd buf 1) in ret (3, Some v)
    else let* v := load buf in ret (1, Some v).

(** ** Strings *)

Definition writeMQTTSNString (pptr : ptr) (str : MQTTSNString) : M W ptr :=
  if 0 <? len (lenstring str) then
    memcpy pptr (data (lenstring str)) (len (lenstring str)) ;;;
    ret (padd pptr (len (lenstring str)))
  else if negb (is_null (cstring str)) then writeCString pptr (cstring str)
  else ret pptr.

(** The result is the return code, the string and the cursor. *)
Definition readMQTTSNString (str : MQTTSNString) (pptr enddata : ptr) : M W (Z * MQTTSNString * ptr) :=
  let* n := psub enddata pptr in
  if 0 <? n then
    ret (1, {| cstring := cstring str; lenstring := {| len := n; data := pptr |} |}, padd pptr n)
  else ret (1, {| cstring := NULL; lenstring := {| len := n; data := NULL |} |}, pptr).

Definition MQTTSNstrlen (str : MQTTSNString) : M W Z :=
  if negb (is_null (cstring str)) then
    let* n := strlen (cstring str) in ret (i32 n)
  else ret (len (lenstring str)).

(** ** Reading a packet *)

(** What follows once [len] bytes are in the buffer. *)
Definition sn_packet_type (buf : ptr) (len : Z) : M W Z :=
  let* (lenlen, datalen) := MQTTSNPacket_decode buf len (Some 0) in
  let* datalen := use datalen in
  if negb (datalen =? len) then ret MQTTSNPACKET_READ_ERROR
  else load (padd buf lenlen).

Definition MQTTSNPacket_read (buf : ptr) (buflen : Z) (getfn : getfn_t W) : M W Z :=
  let* len := recv_into getfn buf buflen in
  if len <? 2 then ret MQTTSNPACKET_READ_ERROR else sn_packet_type buf len.

Definition MQTTSNPacket_read_nb (buf : ptr) (buflen : Z) : M W Z := sn_packet_type buf buflen.
End SNPacket.

(** ** The packets on the wire *)

(** The length field of a packet of [n] bytes. *)
Definition sn_length (n : Z) : list byte :=
  if 255 <? n then byte_of_Z 1 :: int_bytes n else [byte_of_Z n].

(** The size MQTTSNPacket_len announces for [n] bytes behind the length field. *)
Definition sn_size (n : Z) : Z := if 255 <? n then n + 3 else n + 1.

Definition sn_packet (ty : Z) (body : list byte) : list byte :=
  sn_length (sn_size (1 + zlen body)) ++ byte_of_Z ty :: body.

(** The flags byte. *)
Definition sn_flags (dup qos retain will clean ty : Z) : Z :=
  dup mod 2 * 128 + qos mod 4 * 32 + retain mod 2 * 16 + will mod 2 * 8 + clean mod 2 * 4 + ty mod 4.

(** The type and the body of a datagram whose length field is its size. *)
Definition sn_parse (bs : list byte) : option (Z * list byte) :=
  match bs with
  | x :: rest =>
      if Z_of_byte x =? 1 then
        match rest with
        | hi :: lo :: t :: body =>
            if 256 * Z_of_byte hi + Z_of_byte lo =? zlen bs then Some (Z_of_byte t, body) else None
        | _ => None
        end
      else
        match rest with
        | t :: body => if Z_of_byte x =? zlen bs then Some (Z_of_byte t, body) else None
        | [] => None
        end
  | [] => None
  end.

(** A string for a packet: a length-delimited one, outside block [b]. *)
Definition snstring_is (m : gmap block (list byte)) (b : block) (str : MQTTSNString)
    (bs : list byte) : Prop :=
  cstring str = NULL /\ len (lenstring str) = zlen bs /\
  (bs = [] \/ exists b' o', data (lenstring str) = Ptr b' o' /\ b' <> b /\ bytes_at m b' o' bs).

(** ** Facts *)

Section SNFacts.
Context {W : Type} `{CharSign}.
Implicit Types (s : state W) (b : block).

Lemma sn_len_run n s : 0 <= n <= 1000000 -> MQTTSNPacket_len n s = Done (sn_size n) s.
Proof.
  intros Hn. unfold MQTTSNPacket_len, sn_size.
  case_test; apply int_done; unfold INT_MIN, INT_MAX; lia.
Qed.

Lemma sn_length_length n : zlen (sn_length n) = if 255 <? n then 3 else 1.
Proof. unfold sn_length. by case_test. Qed.

Lemma writes_sn_length s b n :
  0 <= n -> writes s b (fun p => advance p (MQTTSNPacket_encode p n)) (sn_length n).
Proof.
  intros Hn. unfold sn_length, advance, MQTTSNPacket_encode. destruct (Z.ltb_spec 255 n).
  - eapply writes_ext, (writes_bind s b (fun p => writeChar p 1) (fun p => writeInt p n) [_] (int_bytes n));
      [|apply writes_char|by apply writes_int].
    intros p s'. unfold writeChar, writeInt, bind, ret. destruct (store p 1 s'); [|done].
    destruct (store _ _ _); [|done]. destruct (store _ _ _); [|done]. f_equal.
    destruct p; cbn [padd]; [done|]. f_equal. lia.
  - eapply writes_ext, (writes_store s b n). intros p s'. unfold bind, ret. by destruct (store p n s').
Qed.

(** The length field reads back, except that a first byte 1 announces the long
    form. *)
Lemma sn_decode_length s b o n rest buflen value :
  bytes_at (mem s) b o (sn_length n ++ rest) -> 0 <= n < 65536 -> n <> 1 -> zlen (sn_length n) <= buflen ->
  MQTTSNPacket_decode (Ptr b o) buflen value s = Done (zlen (sn_length n), Some n) s.
Proof.
  unfold sn_length. intros Hat Hn H1 Hbuf. unfold MQTTSNPacket_decode.
  destruct (Z.ltb_spec 255 n); cbn [app] in Hat; rewrite (bind_done _ _ _ _ _ (load_at _ _ _ _ _ Hat)) ||
    idtac.
  - test_false (buflen <=? 0). rewrite (bind_done _ _ _ _ _ (load_at _ _ _ _ _ Hat)).
    change (Z_of_byte (byte_of_Z 1) =? 1) with true. cbv iota. change (zlen (byte_of_Z 1 :: int_bytes n)) with 3 in *.
    test_false (buflen <? 3). apply bytes_at_tail in Hat. cbn [padd].
    erewrite bind_done by by eapply readInt_int_bytes. done.
  - change (zlen [byte_of_Z n]) with 1 in *. test_false (buflen <=? 0).
    rewrite (bind_done _ _ _ _ _ (load_at _ _ _ _ _ Hat)), Z_of_byte_small by lia.
    rewrite (proj2 (Z.eqb_neq n 1) H1). by rewrite (bind_done _ _ _ _ _ (load_at _ _ _ _ _ Hat)), Z_of_byte_small by lia.
Qed.

Lemma sn_size_bounds n : 0 <= n -> n + 1 <= sn_size n <= n + 3 /\ 1 <= sn_size n.
Proof. intros. unfold sn_size. case_test; lia. Qed.

(** The announced size is the real one except at 255 bytes. *)
Lemma sn_packet_length ty body :
  zlen (sn_packet ty body) = sn_size (1 + zlen body) + if 1 + zlen body =? 255 then 2 else 0.
Proof.
  unfold sn_packet. rewrite length_app, length_cons, Nat2Z.inj_add, sn_length_length. unfold sn_size.
  destruct (Z.eqb_spec (1 + zlen body) 255); destruct (Z.ltb_spec 255 (1 + zlen body));
    case_test; lia.
Qed.

Lemma sn_parse_packet ty body :
  0 <= ty < 256 -> 1 + zlen body <> 255 -> zlen body <= 65531 ->
  sn_parse (sn_packet ty body) = Some (ty, body).
Proof.
  intros Hty H255 Hmax. pose proof (sn_packet_length ty body) as Hlen.
  rewrite (proj2 (Z.eqb_neq _ _) H255), Z.add_0_r in Hlen. revert Hlen.
  unfold sn_packet. set (n := sn_size (1 + zlen body)).
  assert (2 <= n < 65536) by (unfold n, sn_size; case_test; lia).
  unfold sn_length. destruct (Z.ltb_spec 255 n); cbn [app]; intros Hlen; unfold sn_parse.
  - change (Z_of_byte (byte_of_Z 1) =? 1) with true. cbv iota. unfold int_bytes in *. cbn [app] in *.
    rewrite int_bytes_value, Hlen, Z.eqb_refl, Z_of_byte_small by lia. done.
  - rewrite !Z_of_byte_small by lia. test_false (n =? 1). by rewrite Hlen, Z.eqb_refl.
Qed.

Lemma sn_writes_string s b str bs :
  snstring_is (mem s) b str bs -> writes s b (fun p => writeMQTTSNString p str) bs.
Proof.
  intros (Hc & Hl & Hd). unfold writeMQTTSNString. rewrite Hl, Hc. cbn [is_null negb].
  destruct (Z.ltb_spec 0 (zlen bs)).
  - apply writes_memcpy'; [|done]. destruct Hd as [?|(b' & o' & ? & ? & ?)]; [by left|right; eauto].
  - destruct bs; [apply writes_nil|simpl in *; lia].
Qed.

Lemma sn_strlen_is s b str bs :
  snstring_is (mem s) b str bs -> MQTTSNstrlen str s = Done (zlen bs) s.
Proof. intros (Hc & Hl & _). unfold MQTTSNstrlen. by rewrite Hc, <- Hl. Qed.

(** The flags byte: its range, its assignments and its fields. *)
Lemma sn_flags_range d q r w c t : 0 <= sn_flags d q r w c t < 256.
Proof. unfold sn_flags. divmod_lia. Qed.

Lemma sn_flags_publish d q r t :
  set_sn_topicIdType (set_sn_retain (set_sn_QoS (set_sn_dup 0 d) q) r) t = sn_flags d q r 0 0 t.
Proof.
  unfold set_sn_dup, set_sn_QoS, set_sn_retain, set_sn_topicIdType, sn_flags.
  rewrite (bf_set_clear _ 7) by (simpl; divmod_lia). rewrite (bf_set_clear _ 5) by (simpl; divmod_lia).
  rewrite (bf_set_clear _ 4) by (simpl; divmod_lia). rewrite (bf_set_clear _ 0) by (simpl; divmod_lia).
  simpl. divmod_lia.
Qed.

Lemma sn_flags_connect c w : set_sn_will (set_sn_cleanSession 0 c) w = sn_flags 0 0 0 w c 0.
Proof.
  unfold set_sn_will, set_sn_cleanSession, sn_flags.
  rewrite (bf_set_clear _ 2) by (simpl; divmod_lia). rewrite (bf_set_clear _ 3) by (simpl; divmod_lia).
  simpl. divmod_lia.
Qed.

Lemma sn_flags_will q r : set_sn_retain (set_sn_QoS 0 q) r = sn_flags 0 q r 0 0 0.
Proof.
  unfold set_sn_QoS, set_sn_retain, sn_flags.
  rewrite (bf_set_clear _ 5) by (simpl; divmod_lia). rewrite (bf_set_clear _ 4) by (simpl; divmod_lia).
  simpl. divmod_lia.
Qed.

Lemma sn_flag_fields d q r w c t :
  let f := sn_flags d q r w c t in
  sn_flag_dup f = - (d mod 2) /\ sn_flag_QoS f = q mod 4 /\ sn_flag_retain f = r mod 2 /\
  sn_flag_will f = w mod 2 /\ sn_flag_cleanSession f = c mod 2 /\ sn_flag_topicIdType f = t mod 4.
Proof.
  unfold sn_flag_dup, sn_flag_QoS, sn_flag_retain, sn_flag_will, sn_flag_cleanSession,
    sn_flag_topicIdType, sn_flags.
  rewrite !bf_get_div by lia. simpl. split_and!; divmod_lia.
Qed.

(** The frame every serializer starts with: the length field, the type, and
    whatever [rest] writes. *)
Lemma sn_frame_run s b o l n ty rest bs :
  mem s !! b = Some l -> 0 <= o <= zlen l -> 0 <= n -> serializes s b o rest bs ->
  bind (advance (Ptr b o) (MQTTSNPacket_encode (Ptr b o) n))
    (fun p => bind (writeChar p ty) rest) s =
  let wire := sn_length n ++ byte_of_Z ty :: bs in
  if o + zlen wire <=? zlen l then Done (zlen wire) (set_block s b (splice l o wire))
  else Fault OutOfBounds.
Proof.
  intros Hb Ho Hn Hrest.
  apply (serializes_run s b o (fun p => bind (advance p (MQTTSNPacket_encode p n))
    (fun p => bind (writeChar p ty) rest))); [|done..].
  eapply serializes_bind; [by apply writes_sn_length|].
  eapply (serializes_bind s b o _ _ [_]); [apply writes_char|done].
Qed.

(** A whole serializer: the size check and the frame. *)
Lemma sn_serialize_run s b o l buflen m ty rest bs :
  mem s !! b = Some l -> 0 <= o -> buflen <= zlen l - o -> 0 <= m <= 1000000 ->
  serializes s b o rest bs ->
  bind (MQTTSNPacket_len m) (fun len =>
    if buflen <? len then ret MQTTSNPACKET_BUFFER_TOO_SHORT
    else bind (advance (Ptr b o) (MQTTSNPacket_encode (Ptr b o) len))
           (fun p => bind (writeChar p ty) rest)) s =
  let wire := sn_length (sn_size m) ++ byte_of_Z ty :: bs in
  if buflen <? sn_size m then Done MQTTSNPACKET_BUFFER_TOO_SHORT s
  else if o + zlen wire <=? zlen l then Done (zlen wire) (set_block s b (splice l o wire))
  else Fault OutOfBounds.
Proof.
  intros Hb Ho Hbuf Hm Hrest. cbv zeta. pose proof (sn_size_bounds m ltac:(lia)).
  erewrite bind_done by by apply sn_len_run. case_test; [done|].
  apply sn_frame_run; [done|lia|lia|done].
Qed.

(** ... with the buffer large enough and the announced size the real one. *)
Lemma sn_serialize_room s b o l buflen m ty rest body :
  mem s !! b = Some l -> 0 <= o -> buflen <= zlen l - o -> serializes s b o rest body ->
  m = 1 + zlen body -> m <> 255 -> zlen body <= 65531 -> sn_size m <= buflen ->
  let wire := sn_packet ty body in
  let s1 := set_block s b (splice l o wire) in
  bind (MQTTSNPacket_len m) (fun len =>
    if buflen <? len then ret MQTTSNPACKET_BUFFER_TOO_SHORT
    else bind (advance (Ptr b o) (MQTTSNPacket_encode (Ptr b o) len))
           (fun p => bind (writeChar p ty) rest)) s = Done (zlen wire) s1 /\
  bytes_at (mem s1) b o (wire ++ []) /\ zlen wire = sn_size (1 + zlen body).
Proof.
  intros Hb Ho Hbuf Hrest -> H255 Hmax Hroom wire s1.
  assert (zlen wire = sn_size (1 + zlen body)) as Hw.
  { unfold wire. by rewrite sn_packet_length, (proj2 (Z.eqb_neq _ _) H255), Z.add_0_r. }
  split_and!; [|rewrite app_nil_r; apply bytes_at_splice; lia|done].
  rewrite (sn_serialize_run s b o l buflen _ ty rest body) by (done || lia). cbv zeta.
  fold (sn_packet ty body). fold wire. test_false (buflen <? sn_size (1 + zlen body)).
  by test_true (o + zlen wire <=? zlen l).
Qed.

(** The frame every deserializer finds: the cursor behind the length field, the
    end of the packet, the type and the body. *)
Lemma sn_packet_at m b o ty body rest :
  bytes_at m b o (sn_packet ty body ++ rest) ->
  let n := sn_size (1 + zlen body) in
  let k := zlen (sn_length n) in
  bytes_at m b o (sn_length n ++ (byte_of_Z ty :: body) ++ rest) /\
  bytes_at m b (o + k) (byte_of_Z ty :: body ++ rest) /\
  bytes_at m b (o + k + 1) (body ++ rest).
Proof.
  unfold sn_packet. rewrite <- app_assoc. intros Hat. split; [done|].
  apply bytes_at_app in Hat as [_ Hat]. split; [done|]. by apply bytes_at_cons in Hat as [_ ?].
Qed.

(** What the length field of a packet says about its layout. *)
Lemma sn_frame_size (body : list byte) :
  1 + zlen body <> 255 -> zlen body <= 65531 ->
  let n := sn_size (1 + zlen body) in
  n = zlen (sn_length n) + 1 + zlen body /\ 2 <= n < 65536 /\ 1 <= zlen (sn_length n) <= 3.
Proof.
  intros H255 Hmax n. pose proof (sn_packet_length 0 body) as Hlen. unfold sn_packet in Hlen.
  rewrite (proj2 (Z.eqb_neq _ _) H255), Z.add_0_r, length_app, length_cons in Hlen. fold n in Hlen.
  assert (2 <= n < 65536) by (unfold n, sn_size; case_test; lia).
  split_and!; try lia; rewrite sn_length_length; case_test; lia.
Qed.

Lemma sn_decode_packet s b o ty body rest buflen value :
  bytes_at (mem s) b o (sn_packet ty body ++ rest) ->
  1 + zlen body <> 255 -> zlen body <= 65531 ->
  let n := sn_size (1 + zlen body) in
  n <= buflen ->
  MQTTSNPacket_decode (Ptr b o) buflen value s = Done (zlen (sn_length n), Some n) s.
Proof.
  intros Hat H255 Hmax n Hbuf. pose proof (sn_frame_size body H255 Hmax) as Hs. cbv zeta in Hs. fold n in Hs.
  apply sn_packet_at in Hat as (Hat & _). fold n in Hat. by eapply sn_decode_length; [exact Hat|lia..].
Qed.

(** The type of a packet is read back. *)
Lemma sn_read_type s b o ty bs :
  bytes_at (mem s) b o (byte_of_Z ty :: bs) -> 0 <= ty < 128 ->
  readChar (Ptr b o) s = Done (ty, Ptr b (o + 1)) s.
Proof. intros Hat Hty. erewrite readChar_byte by exact Hat. by rewrite to_char_ascii. Qed.

(** Whatever the bytes are: three readable ones suffice for the length field. *)
Lemma sn_decode_total s b o l buflen value :
  mem s !! b = Some l -> 0 <= o -> o + 3 <= zlen l -> 3 <= buflen ->
  exists k n, MQTTSNPacket_decode (Ptr b o) buflen value s = Done (k, Some n) s /\
    (k = 1 \/ k = 3) /\ 0 <= n < 65536.
Proof.
  intros Hb Ho Hl Hbuf. unfold MQTTSNPacket_decode. test_false (buflen <=? 0).
  destruct (load_total s b o l Hb ltac:(lia) ltac:(lia)) as (x & _ & Hx).
  rewrite (bind_done _ _ _ _ _ Hx). pose proof (Z_of_byte_range x). destruct (Z.eqb_spec (Z_of_byte x) 1).
  - test_false (buflen <? 3). destruct (readInt_total s b (o + 1) l Hb ltac:(lia) ltac:(lia)) as (v & Hv & Hr).
    cbn [padd]. rewrite (bind_done _ _ _ _ _ Hr). cbv beta iota. do 2 eexists. split_and!; [done|by right|lia..].
  - rewrite (bind_done _ _ _ _ _ Hx). do 2 eexists. split_and!; [done|by left|lia..].
Qed.

(** ** A datagram arriving *)

Lemma recv_datagram (getfn : getfn_t W) s s' b o l buflen (bs : list byte) :
  mem s' = mem s -> mem s !! b = Some l -> 0 <= o -> o + zlen bs <= zlen l -> bs <> [] ->
  getfn buflen s = Done (zlen bs, bs) s' ->
  recv_into getfn (Ptr b o) buflen s = Done (zlen bs) (set_block s' b (splice l o bs)).
Proof.
  intros Hm Hb Ho Hl Hne Hget. unfold recv_into. erewrite bind_done by exact Hget. cbv beta iota.
  unfold bind, store_bytes. destruct bs; [done|]. rewrite Hm, Hb.
  replace ((0 <=? o) && _) with true by lia. done.
Qed.

Lemma sn_packet_type_run s b o bs rest :
  bytes_at (mem s) b o (bs ++ rest) -> 2 <= zlen bs -> bs <> bytes [1; 0; 3] ->
  sn_packet_type (Ptr b o) (zlen bs) s =
    Done (match sn_parse bs with Some (ty, _) => ty | None => MQTTSNPACKET_READ_ERROR end) s.
Proof.
  intros Hat Hn Hne. unfold sn_packet_type, MQTTSNPacket_decode. test_false (zlen bs <=? 0).
  destruct bs as [|x bs]; [simpl in *; lia|]. cbn [app] in Hat. pose proof Hat as Hat1.
  rewrite bind_assoc, (bind_done _ _ _ _ _ (load_at _ _ _ _ _ Hat)). cbn [sn_parse].
  apply bytes_at_tail in Hat. destruct (Z.eqb_spec (Z_of_byte x) 1) as [E1|E1].
  - destruct (Z.ltb_spec (zlen (x :: bs)) 3).
    + run_ret. unfold use. run_ret. test_false (0 =? zlen (x :: bs)). cbn [negb].
      by destruct bs as [|? [|? bs]]; [| |simpl in *; lia].
    + destruct bs as [|hi [|lo bs]]; [simpl in *; lia..|]. cbn [app] in Hat. rewrite bind_assoc.
      cbn [padd]. erewrite bind_done by (eapply readInt_at; exact Hat). cbv beta iota. run_ret.
      unfold use. run_ret. set (v := 256 * _ + _). destruct (Z.eqb_spec v (zlen (x :: hi :: lo :: bs))) as [Ev|];
        cbn [negb]; [|by destruct bs].
      destruct bs as [|t bs].
      * exfalso. apply Hne. change (zlen [x; hi; lo]) with 3 in Ev. unfold v in Ev.
        pose proof (Z_of_byte_range hi). pose proof (Z_of_byte_range lo).
        rewrite <- (byte_of_Z_of_byte x), <- (byte_of_Z_of_byte hi), <- (byte_of_Z_of_byte lo), E1.
        by replace (Z_of_byte hi) with 0 by lia; replace (Z_of_byte lo) with 3 by lia.
      * do 2 apply bytes_at_tail in Hat. cbn [padd app] in *. eapply load_at, bytes_at_eq; [exact Hat|lia].
  - rewrite bind_assoc, (bind_done _ _ _ _ _ (load_at _ _ _ _ _ Hat1)). run_ret. unfold use. run_ret.
    destruct bs as [|t bs]; [simpl in *; lia|]. cbn [padd app] in *.
    destruct (_ =? _); cbn [negb]; [|done]. by eapply load_at.
Qed.
End SNFacts.

(** ** Properties *)

Section SNProperties.
Context {W : Type} `{CharSign} `{ByteOrder}.
Implicit Types (s : state W) (b : block).

(** The length field of MQTT-SN round-trips: MQTTSNPacket_encode writes one
    byte up to 255 and three beyond, and MQTTSNPacket_decode of what it wrote
    gives back the length and the number of bytes.  The length 1 is the one
    exception the encoding has: its byte marks the long form. *)
Theorem sn_length_roundtrip s b o l n buflen value :
  mem s !! b = Some l -> 0 <= o -> o + 3 <= zlen l -> 0 <= n < 65536 -> n <> 1 -> 3 <= buflen ->
  let k := if 255 <? n then 3 else 1 in
  exists s1, MQTTSNPacket_encode (Ptr b o) n s = Done k s1 /\
    MQTTSNPacket_decode (Ptr b o) buflen value s1 = Done (k, Some n) s1 /\
    mem s1 = <[b := splice l o (sn_length n)]> (mem s).
Proof.
  intros Hb Ho Hl Hn H1 Hbuf k. pose proof (sn_length_length n) as Hk. fold k in Hk.
  assert (1 <= k <= 3) by (unfold k; case_test; lia).
  exists (set_block s b (splice l o (sn_length n))). split_and!; [| |done].
  - pose proof (writes_sn_length s b n ltac:(lia) l o ltac:(lia)) as Hw. rewrite set_block_id in Hw by done.
    rewrite Hk in Hw. revert Hw. test_true (o + k <=? zlen l). unfold advance, bind, ret.
    destruct (MQTTSNPacket_encode (Ptr b o) n s) as [r s'|]; [|done]. cbn [padd]. intros [= Hr ->]. f_equal. lia.
  - rewrite <- Hk. apply (sn_decode_length _ _ _ _ []); try lia. rewrite app_nil_r.
    apply bytes_at_splice; lia.
Qed.

(** Whatever datagram of at least two bytes arrives, MQTTSNPacket_read
    stores it in the buffer and returns its packet type when its length field
    equals the size of the datagram, and the error code otherwise; a datagram
    framed as MQTT-SN prescribes yields its type.  The three bytes 1, 0, 3,
    whose length field leaves no room for a type, are left aside. *)
Theorem sn_read_spec (getfn : getfn_t W) s s' b o l buflen bs :
  mem s' = mem s -> mem s !! b = Some l -> 0 <= o -> o + buflen <= zlen l ->
  getfn buflen s = Done (zlen bs, bs) s' -> 2 <= zlen bs <= buflen -> bs <> bytes [1; 0; 3] ->
  exists r, MQTTSNPacket_read (Ptr b o) buflen getfn s = Done r (set_block s' b (splice l o bs)) /\
    r = match sn_parse bs with Some (ty, _) => ty | None => MQTTSNPACKET_READ_ERROR end /\
    (forall ty body, bs = sn_packet ty body -> 0 <= ty < 256 -> 1 + zlen body <> 255 ->
       zlen body <= 65531 -> r = ty).
Proof.
  intros Hm Hb Ho Hl Hget Hn Hne. eexists. split_and!; [|reflexivity|].
  - unfold MQTTSNPacket_read.
    erewrite bind_done by (eapply (recv_datagram getfn); try done; [lia|intros ->; simpl in Hn; lia]).
    test_false (zlen bs <? 2). eapply (sn_packet_type_run _ b o bs []); [|lia|done].
    rewrite app_nil_r. apply bytes_at_splice; lia.
  - intros ty body -> Hty H255 Hmax. by rewrite sn_parse_packet.
Qed.

(** A packet of 254 bytes behind a one-byte length field would be 255 bytes
    long; from 255 bytes on MQTTSNPacket_len adds one and MQTTSNPacket_encode
    of the sum takes three, so the packet is two bytes longer than it says. *)
Theorem sn_size_255 ty body s :
  1 + zlen body = 255 ->
  MQTTSNPacket_len (1 + zlen body) s = Done 256 s /\ zlen (sn_packet ty body) = 258.
Proof.
  intros Hn. rewrite sn_len_run, sn_packet_length, Hn by lia. done.
Qed.

(** The datagram 1, 0, 3 in a buffer of its size: the packet type is read
    behind the end. *)
Theorem sn_read_overrun s b :
  mem s !! b = Some (bytes [1; 0; 3]) ->
  MQTTSNPacket_read_nb (Ptr b 0) 3 s = Fault OutOfBounds.
Proof.
  intros Hb. assert (Hat : bytes_at (mem s) b 0 (bytes [1; 0; 3]))
    by (eapply bytes_at_block; [done|lia|simpl; lia|done]).
  unfold MQTTSNPacket_read_nb, sn_packet_type, MQTTSNPacket_decode. cbn [Z.leb Z.compare].
  rewrite bind_assoc, (bind_done _ _ _ _ _ (load_at _ _ _ _ _ Hat)).
  apply bytes_at_tail in Hat. change (Z_of_byte _ =? 1) with true. change (3 <? 3) with false.
  cbv iota. cbn [padd]. rewrite bind_assoc. erewrite bind_done by (eapply readInt_at; exact Hat).
  cbv beta iota. run_ret. unfold use. run_ret.
  apply (load_out s b _ _ Hb). right. simpl. lia.
Qed.

(** Topics whose first two bytes are known are equal when their types and ids
    are. *)
Theorem sn_topic_equals_spec x y x0 x1 y0 y1 s :
  tid_byte0 x = Some x0 -> tid_byte1 x = Some x1 -> tid_byte0 y = Some y0 -> tid_byte1 y = Some y1 ->
  0 <= x0 < 256 -> 0 <= x1 < 256 -> 0 <= y0 < 256 -> 0 <= y1 < 256 ->
  MQTTSNTopic_equals x y s =
    Done (if (tid_type x =? tid_type y) && (x0 =? y0) && (x1 =? y1) then 1 else 0) s.
Proof.
  intros Hx0 Hx1 Hy0 Hy1 ????.
  unfold MQTTSNTopic_equals, tid_id, tid_short0, tid_short1. rewrite Hx0, Hx1, Hy0, Hy1.
  unfold use. destruct (_ =? tid_type y); [|done]. cbn [andb].
  repeat (run_ret || rewrite bind_assoc). unfold short_of_bytes.
  destruct (Z.eqb_spec x0 y0) as [->|], (Z.eqb_spec x1 y1) as [->|]; cbn [andb].
  { unfold bind, ret. by rewrite !Z.eqb_refl. }
  all: destruct big_endian; by match goal with |- context [?a =? ?b] => test_false (a =? b) end.
Qed.
End SNProperties.

(** ** Witnesses *)

Section Witnesses.
#[local] Existing Instance char_is_signed.

Definition ex_sn_state : state unit := state_of [replicate 300 (byte_of_Z 170)].

Lemma sn_length_roundtrip_witness :
  exists s1, MQTTSNPacket_encode (Ptr 1 4) 259 ex_sn_state = Done 3 s1 /\
    MQTTSNPacket_decode (Ptr 1 4) 3 None s1 = Done (3, Some 259) s1 /\
    mem s1 = <[1%positive := splice (replicate 300 (byte_of_Z 170)) 4 (sn_length 259)]> (mem ex_sn_state).
Proof. apply (sn_length_roundtrip ex_sn_state 1 4 (replicate 300 (byte_of_Z 170)) 259 3 None); done. Defined.

(* a PUBACK: length 7, type 13, topic id 5, packet id 9, return code 0 *)
Definition ex_datagram : list byte := bytes [7; 13; 0; 5; 0; 9; 0].

Lemma sn_read_spec_witness :
  exists r, MQTTSNPacket_read (Ptr 1 0) 300 (fun _ => ret (7, ex_datagram)) ex_sn_state =
      Done r (set_block ex_sn_state 1 (splice (replicate 300 (byte_of_Z 170)) 0 ex_datagram)) /\
    r = match sn_parse ex_datagram with Some (ty, _) => ty | None => MQTTSNPACKET_READ_ERROR end /\
    (forall ty body, ex_datagram = sn_packet ty body -> 0 <= ty < 256 -> 1 + zlen body <> 255 ->
       zlen body <= 65531 -> r = ty).
Proof.
  apply (sn_read_spec (fun _ => ret (7, ex_datagram)) ex_sn_state ex_sn_state 1 0
    (replicate 300 (byte_of_Z 170)) 300 ex_datagram); try done; vm_compute; discriminate.
Defined.

#[local] Existing Instance little_endian_order.
Definition ex_sn_topic : MQTTSN_topicid :=
  {| tid_type := 0; tid_byte0 := Some 5; tid_byte1 := Some 0;
     tid_long_name := None; tid_long_len := None |}.

Lemma sn_topic_equals_spec_witness :
  MQTTSNTopic_equals ex_sn_topic ex_sn_topic ex_sn_state =
    Done (if (0 =? 0) && (5 =? 5) && (0 =? 0) then 1 else 0) ex_sn_state.
Proof. by apply (sn_topic_equals_spec ex_sn_topic ex_sn_topic 5 0 5 0 ex_sn_state). Defined.
End Witnesses.
