(* ===== verification/SNPublish.v ===== *)
(** * MQTT-SN: PUBLISH, REGISTER and their acknowledgements

    MQTTSNSerializePublish.c and MQTTSNDeserializePublish.c of
    paho_mqtt-sn_embedded_c/MQTTSNPacket.  The output parameters of a
    deserializer form a record, passed in with the values the caller's variables
    hold.  After its first assignment to an output a deserializer has no error
    exit any more, except MQTTSNDeserialize_ack, which assigns the type before
    it checks it; so the others build the record at their end. *)

From S2P Require Import Prelude CMem MQTTPacket MQTTPublish SNPacket.

(** Output parameters of MQTTSNDeserialize_publish. *)
Record sn_publish_out := {
  sp_dup : Z; sp_qos : Z; sp_retained : Z; sp_packetid : Z;
  sp_topic : MQTTSN_topicid; sp_payload : ptr; sp_payloadlen : Z
}.

(** Of MQTTSNDeserialize_puback and of MQTTSNDeserialize_regack. *)
Record sn_puback_out := { sa_topicid : Z; sa_packetid : Z; sa_returncode : Z }.

(** Of MQTTSNDeserialize_ack. *)
Record sn_ack_out := { sk_type : Z; sk_packetid : Z }.

(** Of MQTTSNDeserialize_register. *)
Record sn_register_out := { sr_topicid : Z; sr_packetid : Z; sr_topicname : MQTTSNString }.

Section SNPublish.
Context {W : Type} `{CharSign} `{ByteOrder}.

(** ** MQTTSNSerializePublish.c *)

Definition MQTTSNSerialize_publishLength (payloadlen : Z) (topic : MQTTSN_topicid) (qos : Z) : M W Z :=
  let len := 6 in
  let* len :=
    (if (tid_type topic =? MQTTSN_TOPIC_TYPE_NORMAL) && (qos =? 3)
     then let* n := use (tid_long_len topic) in int (len + n) else ret len) in
  int (payloadlen + len).

Definition MQTTSNSerialize_publish (buf : ptr) (buflen dup qos retained packetid : Z)
    (topic : MQTTSN_topicid) (payload : ptr) (payloadlen : Z) : M W Z :=
  let ptr := buf in
  let* n := MQTTSNSerialize_publishLength payloadlen topic qos in
  let* len := MQTTSNPacket_len n in
  if buflen <? len then ret MQTTSNPACKET_BUFFER_TOO_SHORT
  else
    let* ptr := advance ptr (MQTTSNPacket_encode ptr len) in
    let* ptr := writeChar ptr MQTTSN_PUBLISH in
    let flags := 0 in
    let flags := set_sn_dup flags dup in
    let flags := set_sn_QoS flags qos in
    let flags := set_sn_retain flags retained in
    let flags := set_sn_topicIdType flags (tid_type topic) in
    let* ptr := writeChar ptr flags in
    let* ptr :=
      (if (tid_type topic =? MQTTSN_TOPIC_TYPE_NORMAL) && (qos =? 3) then
         let* n := use (tid_long_len topic) in writeInt ptr n
       else if (tid_type topic =? MQTTSN_TOPIC_TYPE_NORMAL)
               || (tid_type topic =? MQTTSN_TOPIC_TYPE_PREDEFINED) then
         let* id := tid_id topic in writeInt ptr id
       else
         let* c := tid_short0 topic in
         let* ptr := writeChar ptr c in
         let* c := tid_short1 topic in
         writeChar ptr c) in
    let* ptr := writeInt ptr packetid in
    let* ptr :=
      (if (tid_type topic =? MQTTSN_TOPIC_TYPE_NORMAL) && (qos =? 3) then
         let* name := use (tid_long_name topic) in
         let* n := use (tid_long_len topic) in
         memcpy ptr name n ;;; ret (padd ptr n)
       else ret ptr) in
    let* ptr := (memcpy ptr payload payloadlen ;;; ret (padd ptr payloadlen)) in
    psub ptr buf.

Definition MQTTSNSerialize_puback (buf : ptr) (buflen topicid packetid returncode : Z) : M W Z :=
  let ptr := buf in
  let* len := MQTTSNPacket_len 6 in
  if buflen <? len then ret MQTTSNPACKET_BUFFER_TOO_SHORT
  else
    let* ptr := advance ptr (MQTTSNPacket_encode ptr len) in
    let* ptr := writeChar ptr MQTTSN_PUBACK in
    let* ptr := writeInt ptr topicid in
    let* ptr := writeInt ptr packetid in
    let* ptr := writeChar ptr returncode in
    psub ptr buf.

Definition MQTTSNSerialize_ack (buf : ptr) (buflen packet_type packetid : Z) : M W Z :=
  let ptr := buf in
  let len := 4 in
  if buflen <? len then ret MQTTSNPACKET_BUFFER_TOO_SHORT
  else
    let* ptr := advance ptr (MQTTSNPacket_encode ptr len) in
    let* ptr := writeChar ptr packet_type in
    let* ptr := writeInt ptr packetid in
    psub ptr buf.

Definition MQTTSNSerialize_pubrec (buf : ptr) (buflen packetid : Z) : M W Z :=
  MQTTSNSerialize_ack buf buflen MQTTSN_PUBREC packetid.

Definition MQTTSNSerialize_pubrel (buf : ptr) (buflen packetid : Z) : M W Z :=
  MQTTSNSerialize_ack buf buflen MQTTSN_PUBREL packetid.

Definition MQTTSNSerialize_pubcomp (buf : ptr) (buflen packetid : Z) : M W Z :=
  MQTTSNSerialize_ack buf buflen MQTTSN_PUBCOMP packetid.

Definition MQTTSNSerialize_registerLength (topicnamelen : Z) : M W Z := int (topicnamelen + 5).

Definition MQTTSNSerialize_register (buf : ptr) (buflen topicid packetid : Z)
    (topicname : MQTTSNString) : M W Z :=
  let ptr := buf in
  let* topicnamelen :=
    (if negb (is_null (cstring topicname)) then let* n := strlen (cstring topicname) in ret (i32 n)
     else ret (len (lenstring topicname))) in
  let* n := MQTTSNSerialize_registerLength topicnamelen in
  let* len := MQTTSNPacket_len n in
  if buflen <? len then ret MQTTSNPACKET_BUFFER_TOO_SHORT
  else
    let* ptr := advance ptr (MQTTSNPacket_encode ptr len) in
    let* ptr := writeChar ptr MQTTSN_REGISTER in
    let* ptr := writeInt ptr topicid in
    let* ptr := writeInt ptr packetid in
    let src := if negb (is_null (cstring topicname)) then cstring topicname
               else data (lenstring topicname) in
    let* ptr := (memcpy ptr src topicnamelen ;;; ret (padd ptr topicnamelen)) in
    psub ptr buf.

Definition MQTTSNSerialize_regack (buf : ptr) (buflen topicid packetid return_code : Z) : M W Z :=
  let ptr := buf in
  let* len := MQTTSNPacket_len 6 in
  if buflen <? len then ret MQTTSNPACKET_BUFFER_TOO_SHORT
  else
    let* ptr := advance ptr (MQTTSNPacket_encode ptr len) in
    let* ptr := writeChar ptr MQTTSN_REGACK in
    let* ptr := writeInt ptr topicid in
    let* ptr := writeInt ptr packetid in
    let* ptr := writeChar ptr return_code in
    psub ptr buf.

(** ** MQTTSNDeserializePublish.c

    The lines all five deserializers start with: read the length, find the end
    of the packet, and leave ([false]) when the packet is longer than the data. *)
Definition sn_open (buf : ptr) (buflen : Z) : M W (bool * ptr * ptr) :=
  let curdata := buf in
  let* (n, mylen) := MQTTSNPacket_decode curdata buflen (Some 0) in
  let curdata := padd curdata n in
  let* mylen := use mylen in
  let enddata := padd buf mylen in
  let* d := psub enddata curdata in
  ret (negb (buflen <? d), curdata, enddata).

(** The topic field of a PUBLISH and, behind the packet identifier, the name. *)
Definition read_topic_field (topic : MQTTSN_topicid) (qos : Z) (curdata : ptr) :
    M W (MQTTSN_topicid * ptr) :=
  if (tid_type topic =? MQTTSN_TOPIC_TYPE_NORMAL) && (qos =? 3) then
    let* (n, curdata) := readInt curdata in ret (set_tid_long_len topic n, curdata)
  else if (tid_type topic =? MQTTSN_TOPIC_TYPE_NORMAL) || (tid_type topic =? MQTTSN_TOPIC_TYPE_PREDEFINED)
  then let* (id, curdata) := readInt curdata in ret (set_tid_id topic (u16 id), curdata)
  else
    let* (c0, curdata) := readChar curdata in
    let* (c1, curdata) := readChar curdata in
    ret (set_tid_short topic c0 c1, curdata).

Definition read_topic_name (topic : MQTTSN_topicid) (qos : Z) (curdata : ptr) :
    M W (MQTTSN_topicid * ptr) :=
  if (tid_type topic =? MQTTSN_TOPIC_TYPE_NORMAL) && (qos =? 3) then
    let topic := set_tid_long_name topic curdata in
    let* n := use (tid_long_len topic) in
    ret (topic, padd curdata n)
  else ret (topic, curdata).

Definition MQTTSNDeserialize_publish (out : sn_publish_out) (buf : ptr) (buflen : Z) :
    M W (Z * sn_publish_out) :=
  let* (ok, curdata, enddata) := sn_open buf buflen in
  if negb ok then ret (0, out)
  else
    let* (c, curdata) := readChar curdata in
    if negb (c =? MQTTSN_PUBLISH) then ret (0, out)
    else
      let* (c, curdata) := readChar curdata in
      let flags := u8 c in
      let dup := u8 (sn_flag_dup flags) in
      let qos := sn_flag_QoS flags in
      let retained := sn_flag_retain flags in
      let topic := set_tid_type (sp_topic out) (sn_flag_topicIdType flags) in
      let* (topic, curdata) := read_topic_field topic qos curdata in
      let* (id, curdata) := readInt curdata in
      let* (topic, curdata) := read_topic_name topic qos curdata in
      let* payloadlen := psub enddata curdata in
      ret (1, {| sp_dup := dup; sp_qos := qos; sp_retained := retained; sp_packetid := u16 id;
                 sp_topic := topic; sp_payload := curdata; sp_payloadlen := payloadlen |}).

(** The common body of the two acknowledgements with a topic id. *)
Definition sn_read_ack (ty : Z) (out : sn_puback_out) (buf : ptr) (buflen : Z) :
    M W (Z * sn_puback_out) :=
  let* (ok, curdata, enddata) := sn_open buf buflen in
  if negb ok then ret (0, out)
  else
    let* (c, curdata) := readChar curdata in
    if negb (c =? ty) then ret (0, out)
    else
      let* (topicid, curdata) := readInt curdata in
      let* (packetid, curdata) := readInt curdata in
      let* (c, curdata) := readChar curdata in
      ret (1, {| sa_topicid := u16 topicid; sa_packetid := u16 packetid; sa_returncode := u8 c |}).

Definition MQTTSNDeserialize_puback := sn_read_ack MQTTSN_PUBACK.
Definition MQTTSNDeserialize_regack := sn_read_ack MQTTSN_REGACK.

Definition MQTTSNDeserialize_ack (out : sn_ack_out) (buf : ptr) (buflen : Z) : M W (Z * sn_ack_out) :=
  let* (ok, curdata, enddata) := sn_open buf buflen in
  if negb ok then ret (0, out)
  else
    let* (c, curdata) := readChar curdata in
    let ty := u8 c in
    let out := {| sk_type := ty; sk_packetid := sk_packetid out |} in
    if negb (ty =? MQTTSN_PUBREL) && negb (ty =? MQTTSN_PUBREC) && negb (ty =? MQTTSN_PUBCOMP)
    then ret (0, out)
    else
      let* (id, curdata) := readInt curdata in
      ret (1, {| sk_type := ty; sk_packetid := u16 id |}).

Definition MQTTSNDeserialize_register (out : sn_register_out) (buf : ptr) (buflen : Z) :
    M W (Z * sn_register_out) :=
  let* (ok, curdata, enddata) := sn_open buf buflen in
  if negb ok then ret (0, out)
  else
    let* (c, curdata) := readChar curdata in
    if negb (c =? MQTTSN_REGISTER) then ret (0, out)
    else
      let* (topicid, curdata) := readInt curdata in
      let* (packetid, curdata) := readInt curdata in
      let* n := psub enddata curdata in
      ret (1, {| sr_topicid := u16 topicid; sr_packetid := u16 packetid;
                 sr_topicname := {| cstring := NULL; lenstring := {| len := n; data := curdata |} |} |}).
End SNPublish.

(** ** The packets on the wire *)

(** The topic of a PUBLISH: a registered or predefined id, a short name, or a
    name in the packet. *)
Inductive sn_topic :=
  | TopicId (ty id : Z)
  | TopicShort (c0 c1 : Z)
  | TopicLong (name : list byte).

Definition topic_type (t : sn_topic) : Z :=
  match t with
  | TopicId ty _ => ty
  | TopicShort _ _ => MQTTSN_TOPIC_TYPE_SHORT
  | TopicLong _ => MQTTSN_TOPIC_TYPE_NORMAL
  end.

Definition topic_field (t : sn_topic) : list byte :=
  match t with
  | TopicId _ id => int_bytes id
  | TopicShort c0 c1 => [byte_of_Z c0; byte_of_Z c1]
  | TopicLong name => int_bytes (zlen name)
  end.

Definition topic_name (t : sn_topic) : list byte :=
  match t with TopicLong name => name | _ => [] end.

(** The structure [t] carries the topic; [holds] says how a pointer carries
    the bytes of a name. *)
Definition topic_denotes `{ByteOrder} (holds : ptr -> list byte -> Prop) (qos : Z)
    (t : MQTTSN_topicid) (topic : sn_topic) : Prop :=
  match topic with
  | TopicId ty id =>
      tid_type t = ty /\ (ty = MQTTSN_TOPIC_TYPE_NORMAL /\ qos <> 3 \/ ty = MQTTSN_TOPIC_TYPE_PREDEFINED) /\
      0 <= id < 65536 /\
      tid_byte0 t = Some (fst (short_bytes id)) /\ tid_byte1 t = Some (snd (short_bytes id))
  | TopicShort c0 c1 =>
      tid_type t = MQTTSN_TOPIC_TYPE_SHORT /\ 0 <= c0 < 256 /\ 0 <= c1 < 256 /\
      tid_byte0 t = Some c0 /\ tid_byte1 t = Some c1
  | TopicLong name =>
      tid_type t = MQTTSN_TOPIC_TYPE_NORMAL /\ qos = 3 /\ zlen name <= 65535 /\
      tid_long_len t = Some (zlen name) /\ exists p, tid_long_name t = Some p /\ holds p name
  end.

Definition sn_publish_body (dup qos retained packetid : Z) (topic : sn_topic) (payload : list byte) :
    list byte :=
  byte_of_Z (sn_flags dup qos retained 0 0 (topic_type topic)) ::
  topic_field topic ++ int_bytes packetid ++ topic_name topic ++ payload.

Definition sn_ack_body (topicid packetid returncode : Z) : list byte :=
  int_bytes topicid ++ int_bytes packetid ++ [byte_of_Z returncode].

Definition sn_register_body (topicid packetid : Z) (name : list byte) : list byte :=
  int_bytes topicid ++ int_bytes packetid ++ name.

(** A name or a payload found in the packet buffer. *)
Definition in_block (m : gmap block (list byte)) (b : block) (p : ptr) (bs : list byte) : Prop :=
  exists o, p = Ptr b o /\ bytes_at m b o bs.

Section SNPublishFacts.
Context {W : Type} `{CharSign} `{ByteOrder}.
Implicit Types (s : state W) (b : block).

Lemma short_bytes_spec id :
  0 <= id < 65536 ->
  short_of_bytes (fst (short_bytes id)) (snd (short_bytes id)) = id /\
  0 <= fst (short_bytes id) < 256 /\ 0 <= snd (short_bytes id) < 256.
Proof. intros. unfold short_of_bytes, short_bytes. destruct big_endian; cbn [fst snd]; divmod_lia. Qed.

Lemma topic_field_length t : zlen (topic_field t) = 2.
Proof. by destruct t. Qed.

Lemma sn_publish_body_length dup qos retained packetid topic payload :
  zlen (sn_publish_body dup qos retained packetid topic payload) =
    5 + zlen (topic_name topic) + zlen payload.
Proof.
  unfold sn_publish_body. rewrite length_cons, !length_app.
  pose proof (topic_field_length topic). change (length (int_bytes packetid)) with 2%nat. lia.
Qed.

(** The three tests on type and QoS, by the kind of the topic. *)
Lemma topic_is_long P qos t topic :
  topic_denotes P qos t topic ->
  tid_type t = topic_type topic /\
  (tid_type t =? MQTTSN_TOPIC_TYPE_NORMAL) && (qos =? 3) =
    match topic with TopicLong _ => true | _ => false end /\
  ((match topic with TopicLong _ => false | _ => true end) = true ->
   (tid_type t =? MQTTSN_TOPIC_TYPE_NORMAL) || (tid_type t =? MQTTSN_TOPIC_TYPE_PREDEFINED) =
    match topic with TopicShort _ _ => false | _ => true end).
Proof.
  unfold MQTTSN_TOPIC_TYPE_NORMAL, MQTTSN_TOPIC_TYPE_PREDEFINED.
  destruct topic; cbn [topic_denotes topic_type].
  - intros (-> & [[-> ?]| ->] & _); split_and!; try done. by rewrite (proj2 (Z.eqb_neq qos 3)).
  - intros (-> & _). done.
  - intros (-> & -> & _). done.
Qed.

Lemma sn_publishLength_run s b payloadlen qos t topic dup retained packetid payload :
  topic_denotes (payload_is (mem s) b) qos t topic -> payloadlen = zlen payload ->
  zlen payload <= 65536 ->
  MQTTSNSerialize_publishLength payloadlen t qos s =
    Done (1 + zlen (sn_publish_body dup qos retained packetid topic payload)) s.
Proof.
  intros Ht -> Hmax. rewrite sn_publish_body_length. unfold MQTTSNSerialize_publishLength.
  pose proof (topic_is_long _ _ _ _ Ht) as (_ & -> & _). destruct topic as [| |name]; cbn [topic_name].
  1-2: run_ret; rewrite int_done by (unfold INT_MAX, INT_MIN; simpl; lia); f_equal; simpl; lia.
  destruct Ht as (_ & _ & Hn & -> & _). rewrite bind_assoc. unfold use. run_ret.
  rewrite bind_int by (unfold INT_MAX, INT_MIN; lia).
  rewrite int_done by (unfold INT_MAX, INT_MIN; lia). f_equal. lia.
Qed.

Lemma topic_name_length P qos t topic : topic_denotes P qos t topic -> zlen (topic_name topic) <= 65535.
Proof. destruct topic; simpl; [lia..|]. by intros (_ & _ & ? & _). Qed.

(** What the serializer writes for the topic: the field, and later the name. *)
Lemma writes_topic_field s b qos t topic :
  topic_denotes (payload_is (mem s) b) qos t topic ->
  writes s b (fun ptr =>
    if (tid_type t =? MQTTSN_TOPIC_TYPE_NORMAL) && (qos =? 3) then
      let* n := use (tid_long_len t) in writeInt ptr n
    else if (tid_type t =? MQTTSN_TOPIC_TYPE_NORMAL) || (tid_type t =? MQTTSN_TOPIC_TYPE_PREDEFINED)
    then let* id := tid_id t in writeInt ptr id
    else let* c := tid_short0 t in
         let* ptr := writeChar ptr c in
         let* c := tid_short1 t in
         writeChar ptr c) (topic_field topic).
Proof.
  intros Ht. pose proof (topic_is_long _ _ _ _ Ht) as (_ & -> & Hid).
  destruct topic as [ty id|c0 c1|name]; cbn [topic_field]; [rewrite Hid by done..|].
  - destruct Ht as (_ & _ & Hr & E0 & E1).
    eapply writes_ext, (writes_int s b id); [|lia]. intros p s'. unfold tid_id. rewrite E0, E1.
    unfold use. rewrite !bind_assoc, bind_ret, bind_assoc, bind_ret, bind_ret.
    by rewrite (proj1 (short_bytes_spec id Hr)).
  - destruct Ht as (_ & _ & _ & E0 & E1). rewrite <- (byte_of_to_char c0), <- (byte_of_to_char c1).
    eapply writes_ext, (writes_bind s b _ _ [_] [_] (writes_char s b (to_char c0))
      (writes_char s b (to_char c1))).
    intros p s'. unfold tid_short0, tid_short1. rewrite E0, E1. unfold use.
    rewrite bind_assoc, !bind_ret. unfold bind. destruct (writeChar p _ s'); [|done]. done.
  - destruct Ht as (_ & _ & _ & -> & _). unfold use.
    eapply writes_ext, (writes_int s b (zlen name)); [|lia]. done.
Qed.

Lemma writes_topic_name s b qos t topic :
  topic_denotes (payload_is (mem s) b) qos t topic ->
  writes s b (fun ptr =>
    if (tid_type t =? MQTTSN_TOPIC_TYPE_NORMAL) && (qos =? 3) then
      let* name := use (tid_long_name t) in
      let* n := use (tid_long_len t) in
      memcpy ptr name n ;;; ret (padd ptr n)
    else ret ptr) (topic_name topic).
Proof.
  intros Ht. pose proof (topic_is_long _ _ _ _ Ht) as (_ & -> & _).
  destruct topic as [ty id|c0 c1|name]; cbn [topic_name]; [apply writes_nil..|].
  destruct Ht as (_ & _ & _ & -> & p & -> & Hp). unfold use.
  by eapply writes_ext, (writes_memcpy' s b p name (zlen name) Hp).
Qed.

(** The exact behaviour of the PUBLISH serializer. *)
Lemma sn_serialize_publish_run s b o l buflen dup qos retained packetid t topic pl payload :
  mem s !! b = Some l -> 0 <= o <= zlen l ->
  topic_denotes (payload_is (mem s) b) qos t topic -> payload_is (mem s) b pl payload ->
  0 <= packetid -> zlen payload <= 65536 ->
  MQTTSNSerialize_publish (Ptr b o) buflen dup qos retained packetid t pl (zlen payload) s =
    let body := sn_publish_body dup qos retained packetid topic payload in
    let wire := sn_packet MQTTSN_PUBLISH body in
    if buflen <? sn_size (1 + zlen body) then Done MQTTSNPACKET_BUFFER_TOO_SHORT s
    else if o + zlen wire <=? zlen l
         then Done (zlen wire) (set_block s b (splice l o wire))
         else Fault OutOfBounds.
Proof.
  intros Hb Ho Ht Hpl Hid Hmax. cbv zeta. unfold MQTTSNSerialize_publish.
  erewrite bind_done by (by apply (sn_publishLength_run s b _ _ _ topic dup retained packetid payload)).
  set (body := sn_publish_body _ _ _ _ _ _). set (n := sn_size (1 + zlen body)).
  assert (0 <= 1 + zlen body <= 1000000).
  { unfold body. rewrite sn_publish_body_length. pose proof (topic_name_length _ _ _ _ Ht). lia. }
  erewrite bind_done by by apply sn_len_run. fold n. case_test; [done|].
  pose proof (topic_is_long _ _ _ _ Ht) as (Hty & _). rewrite sn_flags_publish.
  apply sn_frame_run; [done..|unfold n, sn_size; case_test; lia|].
  unfold body, sn_publish_body. rewrite <- Hty.
  eapply (serializes_bind s b o _ _ [_]); [apply writes_char|].
  eapply (serializes_bind s b o); [by apply (writes_topic_field s b qos t topic)|].
  eapply (serializes_bind s b o); [by apply writes_int|].
  eapply (serializes_bind s b o); [by apply (writes_topic_name s b qos t topic)|].
  by apply serializes_last, writes_memcpy'.
Qed.

(** ** Deserializing *)

Lemma sn_open_packet s b o ty body rest buflen :
  bytes_at (mem s) b o (sn_packet ty body ++ rest) ->
  1 + zlen body <> 255 -> zlen body <= 65531 ->
  let n := sn_size (1 + zlen body) in
  n <= buflen ->
  sn_open (Ptr b o) buflen s = Done (true, Ptr b (o + zlen (sn_length n)), Ptr b (o + n)) s.
Proof.
  intros Hat H255 Hmax n Hbuf. unfold sn_open.
  erewrite bind_done by by eapply sn_decode_packet. cbv beta iota zeta. fold n.
  unfold use. run_ret. cbn [padd]. run_psub. unfold ret. do 3 f_equal.
  pose proof (sn_length_length n). test_false (buflen <? o + n - (o + zlen (sn_length n))). done.
Qed.

(** Whatever the bytes: the end of the packet is at most three bytes behind the
    data. *)
Lemma sn_open_total s b o l buflen :
  mem s !! b = Some l -> 0 <= o -> o + 3 <= zlen l -> 3 <= buflen ->
  exists ok k n, sn_open (Ptr b o) buflen s = Done (ok, Ptr b (o + k), Ptr b (o + n)) s /\
    (k = 1 \/ k = 3) /\ 0 <= n < 65536 /\ (ok = true -> n - k <= buflen).
Proof.
  intros Hb Ho Hl Hbuf. unfold sn_open.
  destruct (sn_decode_total s b o l buflen (Some 0) Hb Ho Hl Hbuf) as (k & n & Hd & Hk & Hn).
  rewrite (bind_done _ _ _ _ _ Hd). cbv beta iota zeta. unfold use. run_ret. cbn [padd]. run_psub.
  do 3 eexists. split_and!; [done..|lia|lia|]. destruct (Z.ltb_spec buflen (o + n - (o + k))); [done|lia].
Qed.

(** Reading both gives back the topic. *)
Lemma read_topic s b o P qos t topic t0 mid rest :
  topic_denotes P qos t topic -> tid_type t0 = topic_type topic ->
  bytes_at (mem s) b o (topic_field topic ++ mid ++ topic_name topic ++ rest) ->
  exists t1 t2,
    read_topic_field t0 qos (Ptr b o) s = Done (t1, Ptr b (o + 2)) s /\
    read_topic_name t1 qos (Ptr b (o + 2 + zlen mid)) s =
      Done (t2, Ptr b (o + 2 + zlen mid + zlen (topic_name topic))) s /\
    topic_denotes (in_block (mem s) b) qos t2 topic.
Proof.
  intros Ht Hty Hat. pose proof (topic_is_long _ _ _ _ Ht) as (Htt & Hlong & Hid).
  unfold read_topic_field. rewrite Hty, <- Htt, Hlong.
  destruct topic as [ty id|c0 c1|name]; cbn [topic_field topic_name] in *; [rewrite Hid by done..|].
  - destruct Ht as (Ety & Hk & Hr & _). cbn [topic_type] in *. rewrite Ety in *. erewrite bind_done by by eapply readInt_int_bytes.
    cbv beta iota. rewrite u16_small by done. unfold read_topic_name, set_tid_id.
    destruct (short_bytes id) as [b0 b1] eqn:Eb. do 2 eexists. split; [done|].
    cbn [tid_type]. rewrite Hty. cbn [topic_type]. rewrite Hlong, Z.add_0_r. split; [done|].
    cbn [topic_denotes tid_type tid_byte0 tid_byte1]. by rewrite ?Hty, Eb.
  - destruct Ht as (_ & Hc0 & Hc1 & _). cbn [app] in Hat.
    erewrite bind_done by by eapply readChar_byte. apply bytes_at_tail in Hat. cbv beta iota.
    erewrite bind_done by by eapply readChar_byte. cbv beta iota.
    replace (o + 1 + 1) with (o + 2) by lia. do 2 eexists. split; [done|].
    unfold read_topic_name, set_tid_short. cbn [tid_type]. rewrite Hty. cbn [topic_type].
    rewrite Z.add_0_r. split; [done|].
    cbn [topic_denotes tid_type tid_byte0 tid_byte1]. by rewrite ?u8_readChar, ?Hty by done.
  - destruct Ht as (_ & -> & Hn & _). erewrite bind_done by (eapply readInt_int_bytes; [exact Hat|lia]).
    cbv beta iota. do 2 eexists. split; [done|].
    unfold read_topic_name, set_tid_long_len. cbn [tid_type]. rewrite Hty. cbn [topic_type].
    cbn [tid_long_len set_tid_long_name padd]. unfold use. split; [done|].
    cbn [topic_denotes tid_type tid_long_len tid_long_name set_tid_long_name]. split_and!; try done.
    eexists. split; [done|]. exists (o + 2 + zlen mid). split; [done|].
    apply bytes_at_app in Hat as [_ Hat]. apply bytes_at_app in Hat as [_ Hat].
    by apply bytes_at_app in Hat as [Hat _].
Qed.

Lemma sn_deserialize_publish_packet s b o out buflen dup qos retained packetid topic payload rest P t :
  let body := sn_publish_body dup qos retained packetid topic payload in
  bytes_at (mem s) b o (sn_packet MQTTSN_PUBLISH body ++ rest) ->
  topic_denotes P qos t topic -> 0 <= qos < 4 -> 0 <= packetid < 65536 ->
  1 + zlen body <> 255 -> zlen body <= 65531 -> sn_size (1 + zlen body) <= buflen ->
  exists out', MQTTSNDeserialize_publish out (Ptr b o) buflen s = Done (1, out') s /\
    sp_dup out' = (if dup mod 2 =? 0 then 0 else 255) /\ sp_qos out' = qos /\
    sp_retained out' = retained mod 2 /\ sp_packetid out' = packetid /\
    topic_denotes (in_block (mem s) b) qos (sp_topic out') topic /\
    in_block (mem s) b (sp_payload out') payload /\ sp_payloadlen out' = zlen payload.
Proof.
  intros body Hat Ht Hq Hid H255 Hmax Hbuf. pose proof (sn_frame_size body H255 Hmax) as (Hn & _).
  pose proof (sn_publish_body_length dup qos retained packetid topic payload) as Hlen. fold body in Hlen.
  unfold MQTTSNDeserialize_publish. erewrite bind_done by by eapply sn_open_packet. cbv beta iota zeta.
  cbn [negb]. apply sn_packet_at in Hat as (_ & Htype & Hat).
  set (n := sn_size (1 + zlen body)) in *. set (k := zlen (sn_length n)) in *.
  erewrite bind_done by (eapply sn_read_type; [exact Htype|done]). cbv beta iota. cbn [negb Z.eqb Pos.eqb sn_code].
  unfold body, sn_publish_body in Hat. cbn [app] in Hat.
  erewrite bind_done by (eapply readChar_byte; exact Hat). cbv beta iota zeta.
  rewrite u8_readChar by apply sn_flags_range.
  destruct (sn_flag_fields dup qos retained 0 0 (topic_type topic)) as (Fd & Fq & Fr & _ & _ & Ft).
  rewrite Fd, Fq, Fr, Ft, (Z.mod_small qos) by lia.
  assert (Hty : topic_type topic mod 4 = topic_type topic).
  { destruct topic; [|done..]. by destruct Ht as (_ & [[-> _]| ->] & _). }
  rewrite Hty. apply bytes_at_tail in Hat. rewrite <- !app_assoc in Hat.
  destruct (read_topic s b (o + k + 1 + 1) P qos t topic (set_tid_type (sp_topic out) (topic_type topic))
    (int_bytes packetid) _ Ht eq_refl Hat) as (t1 & t2 & Hf & Hnm & Hden).
  change (zlen (int_bytes packetid)) with 2 in Hnm.
  rewrite (bind_done _ _ _ _ _ Hf). cbv beta iota.
  apply bytes_at_app in Hat as [_ Hat]. rewrite topic_field_length in Hat.
  erewrite bind_done by (eapply readInt_int_bytes; [exact Hat|lia]). cbv beta iota.
  rewrite (bind_done _ _ _ _ _ Hnm). cbv beta iota. run_psub.
  eexists. split; [done|]. cbn [sp_dup sp_qos sp_retained sp_packetid sp_topic sp_payload sp_payloadlen].
  split_and!; try done; [|by apply u16_small| |lia].
  - pose proof (Z.mod_pos_bound dup 2). case_test; [by replace (dup mod 2) with 0|].
    by replace (dup mod 2) with 1 by lia.
  - eexists. split; [done|]. apply bytes_at_app in Hat as [_ Hat].
    apply bytes_at_app in Hat as [_ Hat]. by apply bytes_at_app in Hat as [Hat _].
Qed.

(** A writer of two integers and [c], the body of the other packets. *)
Lemma sn_two_ints_run s b o l buflen (ty : MQTTSN_msgTypes) x y c bs m :
  mem s !! b = Some l -> 0 <= o -> buflen <= zlen l - o -> 0 <= x -> 0 <= y ->
  writes s b c bs -> zlen bs <= 65536 -> m = 5 + zlen bs ->
  bind (MQTTSNPacket_len m) (fun len =>
    if buflen <? len then ret MQTTSNPACKET_BUFFER_TOO_SHORT
    else
      let* ptr := advance (Ptr b o) (MQTTSNPacket_encode (Ptr b o) len) in
      let* ptr := writeChar ptr ty in
      let* ptr := writeInt ptr x in
      let* ptr := writeInt ptr y in
      let* ptr := c ptr in
      psub ptr (Ptr b o)) s =
  let body := int_bytes x ++ int_bytes y ++ bs in
  let wire := sn_packet ty body in
  if buflen <? sn_size (1 + zlen body) then Done MQTTSNPACKET_BUFFER_TOO_SHORT s
  else if o + zlen wire <=? zlen l then Done (zlen wire) (set_block s b (splice l o wire))
  else Fault OutOfBounds.
Proof.
  intros Hb Ho Hbuf Hx Hy Hc Hmax ->. cbv zeta. unfold sn_packet.
  assert (zlen (int_bytes x ++ int_bytes y ++ bs) = 4 + zlen bs) as -> by (rewrite !length_app; simpl; lia).
  replace (1 + (4 + zlen bs)) with (5 + zlen bs) by lia.
  apply sn_serialize_run; [done|lia..|].
  do 2 (eapply (serializes_bind s b o); [by apply writes_int|]). by apply serializes_last.
Qed.

(** ... and when there is room for the packet: the buffer holds it. *)
Lemma sn_written (s : state W) b l o wire :
  mem s !! b = Some l -> 0 <= o -> o + zlen wire <= zlen l ->
  bytes_at (mem (set_block s b (splice l o wire))) b o (wire ++ []) /\
  (if o + zlen wire <=? zlen l then Done (zlen wire) (set_block s b (splice l o wire))
   else Fault OutOfBounds) = Done (zlen wire) (set_block s b (splice l o wire)).
Proof.
  intros Hb Ho Hl. rewrite app_nil_r. split; [by apply bytes_at_splice|].
  by test_true (o + zlen wire <=? zlen l).
Qed.

Lemma sn_read_ack_packet s b o out buflen (ty : MQTTSN_msgTypes) topicid packetid returncode rest :
  bytes_at (mem s) b o (sn_packet ty (sn_ack_body topicid packetid returncode) ++ rest) ->
  0 <= ty < 128 -> 0 <= topicid < 65536 -> 0 <= packetid < 65536 -> 0 <= returncode < 256 -> 7 <= buflen ->
  sn_read_ack ty out (Ptr b o) buflen s =
    Done (1, {| sa_topicid := topicid; sa_packetid := packetid; sa_returncode := returncode |}) s.
Proof.
  intros Hat Hty Ht Hp Hr Hbuf. unfold sn_read_ack.
  erewrite bind_done by by eapply sn_open_packet. cbv beta iota zeta. cbn [negb].
  apply sn_packet_at in Hat as (_ & Htype & Hat).
  erewrite bind_done by by eapply sn_read_type. cbv beta iota. rewrite Z.eqb_refl. cbn [negb].
  unfold sn_ack_body in Hat. rewrite <- !app_assoc in Hat.
  erewrite bind_done by (eapply readInt_int_bytes; [exact Hat|lia]). cbv beta iota.
  apply bytes_at_app in Hat as [_ Hat]. change (zlen (int_bytes topicid)) with 2 in Hat.
  erewrite bind_done by (eapply readInt_int_bytes; [exact Hat|lia]). cbv beta iota.
  apply bytes_at_app in Hat as [_ Hat]. change (zlen (int_bytes packetid)) with 2 in Hat.
  erewrite bind_done by (eapply readChar_byte; exact Hat). cbv beta iota.
  by rewrite !u16_small, u8_readChar by lia.
Qed.

(** PUBREC, PUBREL and PUBCOMP are read back. *)
Lemma sn_deserialize_ack_packet s b o (ty : MQTTSN_msgTypes) packetid out buflen rest :
  ty = MQTTSN_PUBREC \/ ty = MQTTSN_PUBREL \/ ty = MQTTSN_PUBCOMP -> 0 <= packetid < 65536 -> 4 <= buflen ->
  bytes_at (mem s) b o (sn_packet ty (int_bytes packetid) ++ rest) ->
  MQTTSNDeserialize_ack out (Ptr b o) buflen s = Done (1, {| sk_type := ty; sk_packetid := packetid |}) s.
Proof.
  intros Hty Hid Hbuf Hat. assert (Hr : 0 <= ty < 128) by (destruct Hty as [->|[->| ->]]; done).
  unfold MQTTSNDeserialize_ack. erewrite bind_done by by eapply sn_open_packet.
  cbv beta iota zeta. cbn [negb]. apply sn_packet_at in Hat as (_ & Htype & Hat).
  erewrite bind_done by by eapply sn_read_type. cbv beta iota.
  unfold u8. rewrite (Z.mod_small ty) by lia.
  replace (negb (ty =? MQTTSN_PUBREL) && negb (ty =? MQTTSN_PUBREC) && negb (ty =? MQTTSN_PUBCOMP))
    with false by (destruct Hty as [->|[->| ->]]; done).
  erewrite bind_done by (eapply readInt_int_bytes; [exact Hat|lia]). cbv beta iota.
  by rewrite u16_small by lia.
Qed.

(** REGISTER is read back, the name in place. *)
Lemma sn_deserialize_register_packet s b o topicid packetid name out buflen rest :
  let body := sn_register_body topicid packetid name in
  0 <= topicid < 65536 -> 0 <= packetid < 65536 -> 1 + zlen body <> 255 -> zlen body <= 65531 ->
  sn_size (1 + zlen body) <= buflen ->
  bytes_at (mem s) b o (sn_packet MQTTSN_REGISTER body ++ rest) ->
  exists out', MQTTSNDeserialize_register out (Ptr b o) buflen s = Done (1, out') s /\
    sr_topicid out' = topicid /\ sr_packetid out' = packetid /\ held (mem s) b (sr_topicname out') name.
Proof.
  intros body Ht Hp H255 Hmax Hbuf Hat0. pose proof Hat0 as Hat.
  assert (Hbody : zlen body = 4 + zlen name) by (unfold body, sn_register_body; rewrite !length_app; simpl; lia).
  pose proof (sn_frame_size body H255 Hmax) as (Hn & _).
  eexists. split_and!.
  - unfold MQTTSNDeserialize_register. erewrite bind_done by (eapply sn_open_packet; [exact Hat|done|done|lia]).
    cbv beta iota zeta. cbn [negb]. apply sn_packet_at in Hat as (_ & Htype & Hat).
    erewrite bind_done by by eapply sn_read_type. cbv beta iota. cbn [negb Z.eqb Pos.eqb sn_code].
    unfold body, sn_register_body in Hat. rewrite <- !app_assoc in Hat. fold (sn_register_body topicid packetid name) body in Hat.
    erewrite bind_done by (eapply readInt_int_bytes; [exact Hat|lia]). cbv beta iota.
    apply bytes_at_app in Hat as [_ Hat]. change (zlen (int_bytes topicid)) with 2 in Hat.
    erewrite bind_done by (eapply readInt_int_bytes; [exact Hat|lia]). cbv beta iota. run_psub. done.
  - cbn [sr_topicid]. by apply u16_small.
  - cbn [sr_packetid]. by apply u16_small.
  - cbn [sr_topicname]. split_and!; [done|cbn [len lenstring]; lia|]. eexists. split; [done|].
    apply sn_packet_at in Hat as (_ & _ & Hat). unfold body at 2, sn_register_body in Hat. rewrite <- !app_assoc in Hat.
    apply bytes_at_app in Hat as [_ Hat]. apply bytes_at_app in Hat as [_ Hat].
    by apply bytes_at_app in Hat as [Hat _].
Qed.

(** The first two bytes of the union are assigned. *)
Definition has_id (t : MQTTSN_topicid) : Prop :=
  exists x y, tid_byte0 t = Some x /\ tid_byte1 t = Some y /\ 0 <= x < 256 /\ 0 <= y < 256.

Lemma short_bytes_range id : 0 <= id < 65536 -> 0 <= (short_bytes id).1 < 256 /\ 0 <= (short_bytes id).2 < 256.
Proof. intros. unfold short_bytes. destruct big_endian; cbn [fst snd]; divmod_lia. Qed.

Lemma has_id_set t z : has_id (set_tid_id t (u16 z)).
Proof.
  pose proof (short_bytes_range (u16 z) (Z.mod_pos_bound z 65536 eq_refl)) as [].
  unfold set_tid_id. destruct (short_bytes (u16 z)) as [x y]. by exists x, y.
Qed.

Lemma has_id_short t c0 c1 : has_id (set_tid_short t c0 c1).
Proof. eexists _, _. split_and!; [reflexivity..|apply u8_range|apply u8_range|apply u8_range|apply u8_range]. Qed.

(** The topic field on arbitrary bytes. *)
Lemma read_topic_field_any s b o t0 qos x2 x3 rest :
  bytes_at (mem s) b o (x2 :: x3 :: rest) ->
  exists t1, read_topic_field t0 qos (Ptr b o) s = Done (t1, Ptr b (o + 2)) s /\ tid_type t1 = tid_type t0 /\
    let long := (tid_type t0 =? MQTTSN_TOPIC_TYPE_NORMAL) && (qos =? 3) in
    (long = true -> exists m : Z, 0 <= m < 65536 /\ tid_long_len t1 = Some m) /\ (long = false -> has_id t1).
Proof.
  intros Hat. unfold read_topic_field. cbv zeta. destruct (_ && _); [|destruct (_ || _)].
  - erewrite bind_done by by eapply readInt_at. cbv beta iota. eexists. split_and!; [done..| |done].
    intros _. eexists. split; [|done]. pose proof (Z_of_byte_range x2). pose proof (Z_of_byte_range x3). lia.
  - erewrite bind_done by by eapply readInt_at. cbv beta iota. eexists.
    split_and!; [done| |done|intros; apply has_id_set]. unfold set_tid_id. by destruct (short_bytes _).
  - erewrite bind_done by by eapply readChar_at. cbv beta iota.
    erewrite bind_done by (eapply readChar_at, bytes_at_tail; exact Hat). cbv beta iota.
    replace (o + 2) with (o + 1 + 1) by lia. eexists.
    split_and!; [done..|intros; apply has_id_short].
Qed.

(** The deserializer of PUBLISH on arbitrary bytes, nine of them readable. *)
Lemma sn_deserialize_publish_any s b o l out buflen :
  mem s !! b = Some l -> 0 <= o -> o + 9 <= zlen l -> 3 <= buflen ->
  exists rc out', MQTTSNDeserialize_publish out (Ptr b o) buflen s = Done (rc, out') s /\
    (rc = 0 /\ out' = out \/
     rc = 1 /\ 0 <= sp_qos out' < 4 /\ 0 <= sp_packetid out' < 65536 /\
     (sp_qos out' <> 3 -> has_id (sp_topic out')) /\
     exists po, sp_payload out' = Ptr b po /\ o + 7 <= po /\
       po + sp_payloadlen out' <= o + 3 + buflen).
Proof.
  intros Hb Ho Hl Hbuf. unfold MQTTSNDeserialize_publish.
  destruct (sn_open_total s b o l buflen Hb Ho ltac:(lia) Hbuf) as (ok & k & n & Hop & Hk & Hn & Hok).
  rewrite (bind_done _ _ _ _ _ Hop). cbv beta iota zeta. destruct ok; cbn [negb]; [|eauto 6].
  specialize (Hok eq_refl).
  destruct (bytes_at_any _ _ (o + k) l 6 Hb ltac:(lia) ltac:(lia)) as (bs & Hlen & Hat).
  destruct bs as [|x0 [|x1 [|x2 [|x3 [|x4 [|x5 [|]]]]]]]; try done.
  erewrite bind_done by by eapply readChar_at. cbv beta iota. apply bytes_at_tail in Hat.
  destruct (_ =? _); cbn [negb]; [|eauto 6].
  erewrite bind_done by by eapply readChar_at. cbv beta iota zeta. rewrite u8_readChar_byte.
  set (f := Z_of_byte x1). set (t0 := set_tid_type _ _). apply bytes_at_tail in Hat.
  destruct (read_topic_field_any s b _ t0 (sn_flag_QoS f) _ _ _ Hat) as (t1 & Hf & Ht1 & Hname & Hid).
  rewrite (bind_done _ _ _ _ _ Hf). cbv beta iota.
  do 2 apply bytes_at_tail in Hat.
  erewrite bind_done by (eapply readInt_at, bytes_at_eq; [exact Hat|lia]). cbv beta iota.
  pose proof (Z.mod_pos_bound (256 * Z_of_byte x4 + Z_of_byte x5) 65536 eq_refl). fold (u16 (256 * Z_of_byte x4 + Z_of_byte x5)) in *.
  pose proof (bf_get_range f 5 2 ltac:(lia)) as Hq. fold (sn_flag_QoS f) in Hq. change (2 ^ 2) with 4 in Hq.
  unfold read_topic_name. rewrite Ht1. destruct (_ && _) eqn:Hlong.
  - destruct (Hname eq_refl) as (m & Hm & Em). cbn [tid_long_len set_tid_long_name]. rewrite Em.
    unfold use. rewrite bind_assoc. run_ret. run_ret. cbn [padd]. run_psub.
    do 2 eexists. split; [done|]. right. cbn [sp_qos sp_packetid sp_payload sp_payloadlen].
    apply andb_prop in Hlong as [_ Hq3]. split_and!; try lia. eexists. split; [done|]. lia.
  - run_ret. run_psub. do 2 eexists. split; [done|]. right. cbn [sp_qos sp_packetid sp_payload sp_payloadlen sp_topic].
    split_and!; try lia; [by intros _; apply Hid|].
    eexists. split; [done|]. lia.
Qed.

(** The deserializer of REGISTER on arbitrary bytes. *)
Lemma sn_deserialize_register_any s b o l out buflen :
  mem s !! b = Some l -> 0 <= o -> o + 8 <= zlen l -> 3 <= buflen ->
  exists rc out', MQTTSNDeserialize_register out (Ptr b o) buflen s = Done (rc, out') s /\
    (rc = 1 -> 0 <= sr_topicid out' < 65536 /\ 0 <= sr_packetid out' < 65536).
Proof.
  intros Hb Ho Hl Hbuf. unfold MQTTSNDeserialize_register.
  destruct (sn_open_total s b o l buflen Hb Ho ltac:(lia) Hbuf) as (ok & k & n & Hop & Hk & Hn & Hok).
  rewrite (bind_done _ _ _ _ _ Hop). cbv beta iota zeta. destruct ok; cbn [negb]; [|by eexists _, _].
  destruct (bytes_at_any _ _ (o + k) l 5 Hb ltac:(lia) ltac:(lia)) as (bs & Hlen & Hat).
  destruct bs as [|x0 [|x1 [|x2 [|x3 [|x4 [|]]]]]]; try done.
  erewrite bind_done by by eapply readChar_at. cbv beta iota. apply bytes_at_tail in Hat.
  destruct (_ =? _); cbn [negb]; [|by eexists _, _].
  erewrite bind_done by by eapply readInt_at. cbv beta iota. do 2 apply bytes_at_tail in Hat.
  erewrite bind_done by (eapply readInt_at, bytes_at_eq; [exact Hat|lia]). cbv beta iota. run_psub.
  eexists _, _. split; [done|]. intros _. cbn [sr_topicid sr_packetid]. unfold u16. split; apply Z.mod_pos_bound; lia.
Qed.

(** The acknowledgements with a topic id: what is written, and the other
    type's refusal. *)
Lemma sn_ack_run s b o l buflen (ty : MQTTSN_msgTypes) topicid packetid returncode :
  mem s !! b = Some l -> 0 <= o -> 7 <= buflen <= zlen l - o -> 0 <= topicid -> 0 <= packetid ->
  let wire := sn_packet ty (sn_ack_body topicid packetid returncode) in
  let s1 := set_block s b (splice l o wire) in
  bytes_at (mem s1) b o (wire ++ []) /\
  bind (MQTTSNPacket_len 6) (fun len =>
    if buflen <? len then ret MQTTSNPACKET_BUFFER_TOO_SHORT
    else
      let* ptr := advance (Ptr b o) (MQTTSNPacket_encode (Ptr b o) len) in
      let* ptr := writeChar ptr ty in
      let* ptr := writeInt ptr topicid in
      let* ptr := writeInt ptr packetid in
      let* ptr := writeChar ptr returncode in
      psub ptr (Ptr b o)) s = Done 7 s1.
Proof.
  intros Hb Ho Hbuf Ht Hp wire s1.
  destruct (sn_written s b l o wire Hb Ho) as [Hat Hrun]; [change (zlen wire) with 7; lia|].
  split; [done|].
  erewrite (sn_two_ints_run s b o l buflen ty topicid packetid (fun p => writeChar p returncode) _ 6 Hb Ho
    ltac:(lia) ltac:(lia) ltac:(lia) (writes_char s b returncode)) by done.
  cbv zeta. change (sn_size _) with 7. test_false (buflen <? 7). exact Hrun.
Qed.

Lemma sn_read_ack_other s b o out buflen (ty ty' : MQTTSN_msgTypes) topicid packetid returncode rest :
  bytes_at (mem s) b o (sn_packet ty (sn_ack_body topicid packetid returncode) ++ rest) ->
  0 <= ty < 128 -> 7 <= buflen -> (sn_code ty =? ty') = false ->
  sn_read_ack ty' out (Ptr b o) buflen s = Done (0, out) s.
Proof.
  intros Hat Hty Hbuf Hne. unfold sn_read_ack.
  erewrite bind_done by by eapply sn_open_packet. cbv beta iota zeta. cbn [negb].
  apply sn_packet_at in Hat as (_ & Htype & _).
  erewrite bind_done by by eapply sn_read_type. cbv beta iota. by rewrite Hne.
Qed.
End SNPublishFacts.

(** ** Properties *)

Section SNPublishProperties.
Context {W : Type} `{CharSign} `{ByteOrder}.
Implicit Types (s : state W) (b : block).

(** C38: An MQTT-SN PUBLISH with any of the three kinds of topics round-trips
    when type and body have at most 65532 bytes, but not 255: in a buffer with
    room for the announced size the serializer writes the wire format and returns
    its length, and the deserializer gives back QoS, retained flag, packet
    identifier, topic and payload, the last two in place.  The dup flag comes back
    as 255 when it is set: its bit field is signed.  With 255 bytes the announced and
    the written size differ, and the packet does not round-trip
    ([sn_publish_overrun]). *)
Theorem sn_publish_roundtrip s b o l buflen dup qos retained packetid t topic pl payload out :
  let body := sn_publish_body dup qos retained packetid topic payload in
  let wire := sn_packet MQTTSN_PUBLISH body in
  mem s !! b = Some l -> 0 <= o -> sn_size (1 + zlen body) <= buflen <= zlen l - o ->
  topic_denotes (payload_is (mem s) b) qos t topic -> payload_is (mem s) b pl payload ->
  0 <= qos < 4 -> 0 <= packetid < 65536 -> 1 + zlen body <> 255 -> zlen body <= 65531 ->
  let s1 := set_block s b (splice l o wire) in
  exists out',
    MQTTSNSerialize_publish (Ptr b o) buflen dup qos retained packetid t pl (zlen payload) s =
      Done (zlen wire) s1 /\
    MQTTSNDeserialize_publish out (Ptr b o) (zlen wire) s1 = Done (1, out') s1 /\
    sp_dup out' = (if dup mod 2 =? 0 then 0 else 255) /\ sp_qos out' = qos /\
    sp_retained out' = retained mod 2 /\ sp_packetid out' = packetid /\
    topic_denotes (in_block (mem s1) b) qos (sp_topic out') topic /\
    in_block (mem s1) b (sp_payload out') payload /\ sp_payloadlen out' = zlen payload.
Proof.
  intros body wire Hb Ho Hbuf Ht Hpl Hq Hid H255 Hmax s1.
  assert (zlen wire = sn_size (1 + zlen body)) as Hw.
  { unfold wire. by rewrite sn_packet_length, (proj2 (Z.eqb_neq _ _) H255), Z.add_0_r. }
  pose proof (sn_size_bounds (1 + zlen body) ltac:(lia)).
  destruct (sn_written s b l o wire Hb Ho ltac:(lia)) as [Hat Hrun].
  destruct (sn_deserialize_publish_packet s1 b o out (zlen wire) dup qos retained packetid topic
    payload [] _ t Hat Ht Hq Hid H255 Hmax ltac:(fold body; lia)) as (out' & Hde & Hres).
  exists out'. split; [|by split].
  assert (zlen payload <= 65536) by (unfold body in Hmax; rewrite sn_publish_body_length in Hmax; lia).
  rewrite (sn_serialize_publish_run s b o l buflen dup qos retained packetid t topic pl payload)
    by (done || lia). cbv zeta. fold body. fold wire.
  by test_false (buflen <? sn_size (1 + zlen body)).
Qed.

(** A PUBLISH whose content is 255 bytes: MQTTSNPacket_len announces 256,
    so a buffer of 256 bytes passes the check, but the packet takes 258 and is
    written past the end of the buffer. *)
Theorem sn_publish_overrun s b o l dup qos retained packetid t topic pl payload :
  mem s !! b = Some l -> 0 <= o -> zlen l = o + 256 ->
  topic_denotes (payload_is (mem s) b) qos t topic -> payload_is (mem s) b pl payload ->
  0 <= packetid -> 1 + zlen (sn_publish_body dup qos retained packetid topic payload) = 255 ->
  MQTTSNSerialize_publish (Ptr b o) 256 dup qos retained packetid t pl (zlen payload) s =
    Fault OutOfBounds.
Proof.
  intros Hb Ho Hl Ht Hpl Hid H255.
  assert (zlen payload <= 65536) by (rewrite sn_publish_body_length in H255; lia).
  rewrite (sn_serialize_publish_run s b o l 256 dup qos retained packetid t topic pl payload)
    by (done || lia).
  cbv zeta. rewrite sn_packet_length, H255. change (sn_size 255) with 256. cbn [Z.ltb Z.compare Pos.compare Pos.compare_cont].
  by rewrite (proj2 (Z.leb_gt _ _)) by (simpl; lia).
Qed.

(** The PUBLISH deserializer on arbitrary bytes, with the nine it may read
    and a length of at least three: no access outside the buffer, and on success
    a payload that ends at most three bytes behind the data, the slack of the
    check of the length field. *)
Theorem sn_publish_parse_safe s b o l out buflen :
  mem s !! b = Some l -> 0 <= o -> o + 9 <= zlen l -> 3 <= buflen ->
  exists rc out', MQTTSNDeserialize_publish out (Ptr b o) buflen s = Done (rc, out') s /\
    (rc = 0 /\ out' = out \/
     rc = 1 /\ 0 <= sp_qos out' < 4 /\ 0 <= sp_packetid out' < 65536 /\
     exists po, sp_payload out' = Ptr b po /\ o + 7 <= po /\
       po + sp_payloadlen out' <= o + 3 + buflen).
Proof.
  intros Hb Ho Hl Hbuf. destruct (sn_deserialize_publish_any s b o l out buflen Hb Ho Hl Hbuf)
    as (rc & out' & Hrun & [?|(? & ? & ? & _ & ?)]); exists rc, out'; split; auto 6.
Qed.

(** PUBACK and REGACK round-trip: in a buffer of at least seven bytes the
    serializer writes seven, and the matching deserializer gives back the topic
    id, the packet identifier and the return code; the other deserializer
    refuses the packet. *)
Theorem sn_puback_roundtrip s b o l buflen topicid packetid returncode out :
  mem s !! b = Some l -> 0 <= o -> 7 <= buflen <= zlen l - o ->
  0 <= topicid < 65536 -> 0 <= packetid < 65536 -> 0 <= returncode < 256 ->
  let res := {| sa_topicid := topicid; sa_packetid := packetid; sa_returncode := returncode |} in
  (exists s1, MQTTSNSerialize_puback (Ptr b o) buflen topicid packetid returncode s = Done 7 s1 /\
     MQTTSNDeserialize_puback out (Ptr b o) 7 s1 = Done (1, res) s1 /\
     MQTTSNDeserialize_regack out (Ptr b o) 7 s1 = Done (0, out) s1) /\
  (exists s1, MQTTSNSerialize_regack (Ptr b o) buflen topicid packetid returncode s = Done 7 s1 /\
     MQTTSNDeserialize_regack out (Ptr b o) 7 s1 = Done (1, res) s1 /\
     MQTTSNDeserialize_puback out (Ptr b o) 7 s1 = Done (0, out) s1).
Proof.
  intros Hb Ho Hbuf Ht Hp Hr res.
  split.
  - destruct (sn_ack_run s b o l buflen MQTTSN_PUBACK topicid packetid returncode) as [Hat Hser];
      try lia; [done|]. eexists. split_and!; [exact Hser| |].
    + by eapply sn_read_ack_packet.
    + by eapply (sn_read_ack_other _ _ _ _ _ MQTTSN_PUBACK MQTTSN_REGACK).
  - destruct (sn_ack_run s b o l buflen MQTTSN_REGACK topicid packetid returncode) as [Hat Hser];
      try lia; [done|]. eexists. split_and!; [exact Hser| |].
    + by eapply sn_read_ack_packet.
    + by eapply (sn_read_ack_other _ _ _ _ _ MQTTSN_REGACK MQTTSN_PUBACK).
Qed.

(** PUBREC, PUBREL and PUBCOMP round-trip with their type and identifier. *)
Theorem sn_ack_roundtrip s b o l buflen (ty : MQTTSN_msgTypes) packetid out :
  mem s !! b = Some l -> 0 <= o -> 4 <= buflen <= zlen l - o ->
  ty = MQTTSN_PUBREC \/ ty = MQTTSN_PUBREL \/ ty = MQTTSN_PUBCOMP -> 0 <= packetid < 65536 ->
  exists s1, MQTTSNSerialize_ack (Ptr b o) buflen ty packetid s = Done 4 s1 /\
    MQTTSNDeserialize_ack out (Ptr b o) 4 s1 = Done (1, {| sk_type := ty; sk_packetid := packetid |}) s1.
Proof.
  intros Hb Ho Hbuf Hty Hid. set (wire := sn_packet ty (int_bytes packetid)).
  assert (Hr : 0 <= ty < 128) by (destruct Hty as [->|[->| ->]]; done).
  destruct (sn_written s b l o wire Hb Ho) as [Hat Hrun]; [change (zlen wire) with 4; lia|].
  exists (set_block s b (splice l o wire)). split.
  - unfold MQTTSNSerialize_ack. cbv zeta. test_false (buflen <? 4). change 4 with (zlen wire).
    rewrite <- Hrun. unfold wire, sn_packet.
    apply (sn_frame_run s b o l 4 ty); [done|lia|done|]. apply serializes_last, writes_int. lia.
  - eapply sn_deserialize_ack_packet; [exact Hty|exact Hid|lia|exact Hat].
Qed.

(** REGISTER round-trips: topic id, packet identifier and topic name, the
    name in place in the buffer. *)
Theorem sn_register_roundtrip s b o l buflen topicid packetid str name out :
  let body := sn_register_body topicid packetid name in
  let wire := sn_packet MQTTSN_REGISTER body in
  mem s !! b = Some l -> 0 <= o -> sn_size (1 + zlen body) <= buflen <= zlen l - o ->
  snstring_is (mem s) b str name -> 0 <= topicid < 65536 -> 0 <= packetid < 65536 ->
  1 + zlen body <> 255 -> zlen body <= 65531 ->
  let s1 := set_block s b (splice l o wire) in
  exists out',
    MQTTSNSerialize_register (Ptr b o) buflen topicid packetid str s = Done (zlen wire) s1 /\
    MQTTSNDeserialize_register out (Ptr b o) (zlen wire) s1 = Done (1, out') s1 /\
    sr_topicid out' = topicid /\ sr_packetid out' = packetid /\
    held (mem s1) b (sr_topicname out') name.
Proof.
  intros body wire Hb Ho Hbuf (Hc & Hl & Hd) Ht Hp H255 Hmax s1.
  assert (Hbody : zlen body = 4 + zlen name) by (unfold body, sn_register_body; rewrite !length_app; simpl; lia).
  assert (zlen wire = sn_size (1 + zlen body)) as Hw.
  { unfold wire. by rewrite sn_packet_length, (proj2 (Z.eqb_neq _ _) H255), Z.add_0_r. }
  destruct (sn_written s b l o wire Hb Ho ltac:(lia)) as [Hat Hrun]. fold s1 in Hat.
  destruct (sn_deserialize_register_packet s1 b o topicid packetid name out (zlen wire) [] Ht Hp H255 Hmax
    ltac:(fold body; lia) Hat) as (out' & Hde & Hres). exists out'. split; [|by split].
  unfold MQTTSNSerialize_register. rewrite Hc. cbn [is_null negb]. run_ret. rewrite Hl.
  unfold MQTTSNSerialize_registerLength. rewrite bind_int by (unfold INT_MIN, INT_MAX; lia).
  erewrite (sn_two_ints_run s b o l buflen MQTTSN_REGISTER topicid packetid
    (fun p => memcpy p (data (lenstring str)) (zlen name) ;;; ret (padd p (zlen name))) name);
    try lia; [|done|by apply writes_memcpy'].
  cbv zeta. fold (sn_register_body topicid packetid name) body. fold wire.
  by test_false (buflen <? sn_size (1 + zlen body)).
Qed.

(** A datagram that is only the header of a PUBLISH: its fields are read behind
    its end. *)
Theorem sn_publish_truncated s b out :
  mem s !! b = Some (bytes [2; 12]) ->
  MQTTSNDeserialize_publish out (Ptr b 0) 2 s = Fault OutOfBounds.
Proof.
  intros Hb. assert (Hat : bytes_at (mem s) b 0 (sn_packet MQTTSN_PUBLISH [] ++ []))
    by (eapply bytes_at_block; [done|lia|simpl; lia|done]).
  unfold MQTTSNDeserialize_publish. erewrite bind_done by by eapply sn_open_packet.
  cbv beta iota zeta. cbn [negb]. apply sn_packet_at in Hat as (_ & Htype & _).
  erewrite bind_done by by eapply sn_read_type. cbv beta iota. cbn [negb Z.eqb Pos.eqb sn_code].
  change (0 + _ + 1) with 2. unfold readChar.
  by rewrite bind_assoc, (bind_fault _ _ _ _ (load_out s b 2 _ Hb ltac:(right; simpl; lia))).
Qed.
End SNPublishProperties.

(** ** Witnesses *)

Section Witnesses.
#[local] Existing Instance char_is_signed.
#[local] Existing Instance little_endian_order.

(* block 1: a 32-byte buffer, block 2: a name, block 3: a payload *)
Definition ex_sn_publish_state : state unit :=
  state_of [replicate 32 (byte_of_Z 170); bytes [97; 47; 98]; bytes [1; 2; 3]].
Definition ex_long_topic : MQTTSN_topicid :=
  {| tid_type := 0; tid_byte0 := None; tid_byte1 := None;
     tid_long_name := Some (Ptr 2 0); tid_long_len := Some 3 |}.
Definition ex_sn_out : sn_publish_out :=
  {| sp_dup := 0; sp_qos := 0; sp_retained := 0; sp_packetid := 0; sp_topic := ex_long_topic;
     sp_payload := NULL; sp_payloadlen := 0 |}.

Lemma ex_long_topic_is :
  topic_denotes (payload_is (mem ex_sn_publish_state) 1) 3 ex_long_topic (TopicLong (bytes [97; 47; 98])).
Proof.
  split_and!; [done..|]. exists (Ptr 2 0). split; [done|].
  right. exists 2%positive, 0. split_and!; [done..|bytes_at_concrete].
Qed.

Lemma ex_sn_payload_is : payload_is (mem ex_sn_publish_state) 1 (Ptr 3 0) (bytes [1; 2; 3]).
Proof. right. exists 3%positive, 0. split_and!; [done..|bytes_at_concrete]. Qed.

Lemma sn_publish_roundtrip_witness :
  let topic := TopicLong (bytes [97; 47; 98]) in
  let wire := sn_packet MQTTSN_PUBLISH (sn_publish_body 1 3 1 7 topic (bytes [1; 2; 3])) in
  let s1 := set_block ex_sn_publish_state 1 (splice (replicate 32 (byte_of_Z 170)) 0 wire) in
  exists out',
    MQTTSNSerialize_publish (Ptr 1 0) 32 1 3 1 7 ex_long_topic (Ptr 3 0) 3 ex_sn_publish_state =
      Done (zlen wire) s1 /\
    MQTTSNDeserialize_publish ex_sn_out (Ptr 1 0) (zlen wire) s1 = Done (1, out') s1 /\
    sp_dup out' = (if 1 mod 2 =? 0 then 0 else 255) /\ sp_qos out' = 3 /\
    sp_retained out' = 1 mod 2 /\ sp_packetid out' = 7 /\
    topic_denotes (in_block (mem s1) 1) 3 (sp_topic out') topic /\
    in_block (mem s1) 1 (sp_payload out') (bytes [1; 2; 3]) /\ sp_payloadlen out' = 3.
Proof.
  apply (sn_publish_roundtrip ex_sn_publish_state 1 0 (replicate 32 (byte_of_Z 170)) 32 1 3 1 7
    ex_long_topic (TopicLong (bytes [97; 47; 98])) (Ptr 3 0) (bytes [1; 2; 3]) ex_sn_out); try done.
  - apply ex_long_topic_is.
  - apply ex_sn_payload_is.
Defined.

(* 249 bytes of payload behind a predefined topic id, into a buffer of 256 bytes *)
Definition ex_sn_255_state : state unit :=
  state_of [replicate 256 (byte_of_Z 170); replicate 249 (byte_of_Z 88)].
Definition ex_id_topic : MQTTSN_topicid :=
  {| tid_type := 1; tid_byte0 := Some 5; tid_byte1 := Some 0;
     tid_long_name := None; tid_long_len := None |}.

Lemma sn_publish_overrun_witness :
  MQTTSNSerialize_publish (Ptr 1 0) 256 0 0 0 0 ex_id_topic (Ptr 2 0) 249 ex_sn_255_state =
    Fault OutOfBounds.
Proof.
  apply (sn_publish_overrun ex_sn_255_state 1 0 (replicate 256 (byte_of_Z 170)) 0 0 0 0 ex_id_topic
    (TopicId 1 5) (Ptr 2 0) (replicate 249 (byte_of_Z 88))); try done.
  - split_and!; try done. by right.
  - right. exists 2%positive, 0. split_and!; [done..|bytes_at_concrete].
Defined.

Lemma sn_publish_parse_safe_witness :
  exists rc out', MQTTSNDeserialize_publish ex_sn_out (Ptr 1 0) 32 ex_sn_publish_state =
      Done (rc, out') ex_sn_publish_state /\
    (rc = 0 /\ out' = ex_sn_out \/
     rc = 1 /\ 0 <= sp_qos out' < 4 /\ 0 <= sp_packetid out' < 65536 /\
     exists po, sp_payload out' = Ptr 1 po /\ 0 + 7 <= po /\
       po + sp_payloadlen out' <= 0 + 3 + 32).
Proof.
  apply (sn_publish_parse_safe ex_sn_publish_state 1 0 (replicate 32 (byte_of_Z 170)) ex_sn_out 32); done.
Defined.

Definition ex_sn_ack : sn_puback_out := {| sa_topicid := 0; sa_packetid := 0; sa_returncode := 0 |}.

Lemma sn_puback_roundtrip_witness :
  let res := {| sa_topicid := 5; sa_packetid := 65535; sa_returncode := 200 |} in
  let s := ex_sn_publish_state in
  (exists s1, MQTTSNSerialize_puback (Ptr 1 0) 32 5 65535 200 s = Done 7 s1 /\
     MQTTSNDeserialize_puback ex_sn_ack (Ptr 1 0) 7 s1 = Done (1, res) s1 /\
     MQTTSNDeserialize_regack ex_sn_ack (Ptr 1 0) 7 s1 = Done (0, ex_sn_ack) s1) /\
  (exists s1, MQTTSNSerialize_regack (Ptr 1 0) 32 5 65535 200 s = Done 7 s1 /\
     MQTTSNDeserialize_regack ex_sn_ack (Ptr 1 0) 7 s1 = Done (1, res) s1 /\
     MQTTSNDeserialize_puback ex_sn_ack (Ptr 1 0) 7 s1 = Done (0, ex_sn_ack) s1).
Proof.
  apply (sn_puback_roundtrip ex_sn_publish_state 1 0 (replicate 32 (byte_of_Z 170)) 32 5 65535 200
    ex_sn_ack); done.
Defined.

Definition ex_sn_name : MQTTSNString :=
  {| cstring := NULL; lenstring := {| len := 3; data := Ptr 2 0 |} |}.

Lemma sn_register_roundtrip_witness :
  let name := bytes [97; 47; 98] in
  let wire := sn_packet MQTTSN_REGISTER (sn_register_body 5 9 name) in
  let s1 := set_block ex_sn_publish_state 1 (splice (replicate 32 (byte_of_Z 170)) 0 wire) in
  let out := {| sr_topicid := 0; sr_packetid := 0; sr_topicname := ex_sn_name |} in
  exists out',
    MQTTSNSerialize_register (Ptr 1 0) 32 5 9 ex_sn_name ex_sn_publish_state = Done (zlen wire) s1 /\
    MQTTSNDeserialize_register out (Ptr 1 0) (zlen wire) s1 = Done (1, out') s1 /\
    sr_topicid out' = 5 /\ sr_packetid out' = 9 /\ held (mem s1) 1 (sr_topicname out') name.
Proof.
  apply (sn_register_roundtrip ex_sn_publish_state 1 0 (replicate 32 (byte_of_Z 170)) 32 5 9 ex_sn_name
    (bytes [97; 47; 98])); try done.
  split_and!; [done..|]. right. exists 2%positive, 0. split_and!; [done..|bytes_at_concrete].
Defined.
End Witnesses.
