(* ===== verification/SNConnect.v ===== *)
(** * MQTT-SN: connecting, disconnecting, wills and pings

    MQTTSNConnectClient.c and MQTTSNConnectServer.c of
    paho_mqtt-sn_embedded_c/MQTTSNPacket: the two sides of CONNECT, CONNACK,
    DISCONNECT, PINGREQ and PINGRESP and of the will packets.  A deserializer
    takes and returns the values of the caller's variables.  Its local [mylen]
    is uninitialised in the client's half and 0 in the server's. *)

From S2P Require Import Prelude CMem MQTTPacket SNPacket.

(** ** MQTTSNConnect.h *)

Definition MQTTSN_PROTOCOL_VERSION : Z := 1.

Record MQTTSNPacket_connectData := {
  sc_struct_id : list Z; sc_struct_version : Z;
  sc_clientID : MQTTSNString; sc_duration : Z; sc_cleansession : Z; sc_willFlag : Z
}.

Definition MQTTSNPacket_connectData_initializer : MQTTSNPacket_connectData :=
  {| sc_struct_id := [77; 81; 83; 67]; sc_struct_version := 0;
     sc_clientID := {| cstring := NULL; lenstring := {| len := 0; data := NULL |} |};
     sc_duration := 10; sc_cleansession := 1; sc_willFlag := 0 |}.

Definition set_sc_flags (d : MQTTSNPacket_connectData) (clean will : Z) : MQTTSNPacket_connectData :=
  {| sc_struct_id := sc_struct_id d; sc_struct_version := sc_struct_version d;
     sc_clientID := sc_clientID d; sc_duration := sc_duration d;
     sc_cleansession := clean; sc_willFlag := will |}.
Definition set_sc_client (d : MQTTSNPacket_connectData) (duration : Z) (id : MQTTSNString) :
    MQTTSNPacket_connectData :=
  {| sc_struct_id := sc_struct_id d; sc_struct_version := sc_struct_version d;
     sc_clientID := id; sc_duration := duration;
     sc_cleansession := sc_cleansession d; sc_willFlag := sc_willFlag d |}.

(** Output parameters of the will-topic deserializers. *)
Record sn_will_out := { sw_QoS : Z; sw_retain : Z; sw_topic : MQTTSNString }.

Section SNConnect.
Context {W : Type} `{CharSign}.

(** ** MQTTSNConnectClient.c *)

Definition MQTTSNSerialize_connectLength (options : MQTTSNPacket_connectData) : M W Z :=
  let* n := MQTTSNstrlen (sc_clientID options) in int (5 + n).

Definition MQTTSNSerialize_connect (buf : ptr) (buflen : Z) (options : MQTTSNPacket_connectData) : M W Z :=
  let ptr := buf in
  let* n := MQTTSNSerialize_connectLength options in
  let* len := MQTTSNPacket_len n in
  if buflen <? len then ret MQTTSNPACKET_BUFFER_TOO_SHORT
  else
    let* ptr := advance ptr (MQTTSNPacket_encode ptr len) in
    let* ptr := writeChar ptr MQTTSN_CONNECT in
    let flags := 0 in
    let flags := set_sn_cleanSession flags (sc_cleansession options) in
    let flags := set_sn_will flags (sc_willFlag options) in
    let* ptr := writeChar ptr flags in
    let* ptr := writeChar ptr 1 in
    let* ptr := writeInt ptr (sc_duration options) in
    let* ptr := writeMQTTSNString ptr (sc_clientID options) in
    psub ptr buf.

(** The error exits return [rc], which holds the result of the decoder. *)
Definition MQTTSNDeserialize_connack (connack_rc : Z) (buf : ptr) (buflen : Z) : M W (Z * Z) :=
  let curdata := buf in
  let* (rc, mylen) := MQTTSNPacket_decode curdata buflen None in
  let curdata := padd curdata rc in
  let* mylen := use mylen in
  let enddata := padd buf mylen in
  let* d := psub enddata buf in
  if d <? 3 then ret (rc, connack_rc)
  else
    let* (c, curdata) := readChar curdata in
    if negb (c =? MQTTSN_CONNACK) then ret (rc, connack_rc)
    else let* (c, curdata) := readChar curdata in ret (1, c).

Definition MQTTSNSerialize_disconnectLength (duration : Z) : M W Z :=
  ret (if 0 <? duration then 3 else 1).

Definition MQTTSNSerialize_disconnect (buf : ptr) (buflen duration : Z) : M W Z :=
  let ptr := buf in
  let* n := MQTTSNSerialize_disconnectLength duration in
  let* len := MQTTSNPacket_len n in
  if buflen <? len then ret MQTTSNPACKET_BUFFER_TOO_SHORT
  else
    let* ptr := advance ptr (MQTTSNPacket_encode ptr len) in
    let* ptr := writeChar ptr MQTTSN_DISCONNECT in
    let* ptr := (if 0 <? duration then writeInt ptr duration else ret ptr) in
    psub ptr buf.

Definition MQTTSNSerialize_pingreq (buf : ptr) (buflen : Z) (clientid : MQTTSNString) : M W Z :=
  let ptr := buf in
  let* n := MQTTSNstrlen clientid in
  let* n := int (n + 1) in
  let* len := MQTTSNPacket_len n in
  if buflen <? len then ret MQTTSNPACKET_BUFFER_TOO_SHORT
  else
    let* ptr := advance ptr (MQTTSNPacket_encode ptr len) in
    let* ptr := writeChar ptr MQTTSN_PINGREQ in
    let* ptr := writeMQTTSNString ptr clientid in
    psub ptr buf.

Definition MQTTSNDeserialize_pingresp (buf : ptr) (buflen : Z) : M W Z :=
  let curdata := buf in
  let* (n, mylen) := MQTTSNPacket_decode curdata buflen None in
  let curdata := padd curdata n in
  let* mylen := use mylen in
  let enddata := padd buf mylen in
  let* d := psub enddata curdata in
  if d <? 1 then ret 0
  else
    let* (c, curdata) := readChar curdata in
    if negb (c =? MQTTSN_PINGRESP) then ret 0 else ret 1.

Definition MQTTSNSerialize_willtopic1 (buf : ptr) (buflen willQoS willRetain : Z)
    (willTopic : MQTTSNString) (packet_type : MQTTSN_msgTypes) : M W Z :=
  let ptr := buf in
  let* n := MQTTSNstrlen willTopic in
  let* n := int (n + 2) in
  let* len := MQTTSNPacket_len n in
  if buflen <? len then ret MQTTSNPACKET_BUFFER_TOO_SHORT
  else
    let* ptr := advance ptr (MQTTSNPacket_encode ptr len) in
    let* ptr := writeChar ptr packet_type in
    let flags := 0 in
    let flags := set_sn_QoS flags willQoS in
    let flags := set_sn_retain flags willRetain in
    let* ptr := writeChar ptr flags in
    let* ptr := writeMQTTSNString ptr willTopic in
    psub ptr buf.

Definition MQTTSNSerialize_willtopicupd (buf : ptr) (buflen willQoS willRetain : Z)
    (willTopic : MQTTSNString) : M W Z :=
  MQTTSNSerialize_willtopic1 buf buflen willQoS willRetain willTopic MQTTSN_WILLTOPICUPD.

Definition MQTTSNSerialize_willtopic (buf : ptr) (buflen willQoS willRetain : Z)
    (willTopic : MQTTSNString) : M W Z :=
  MQTTSNSerialize_willtopic1 buf buflen willQoS willRetain willTopic MQTTSN_WILLTOPIC.

Definition MQTTSNSerialize_willmsg1 (buf : ptr) (buflen : Z) (willMsg : MQTTSNString)
    (packet_type : MQTTSN_msgTypes) : M W Z :=
  let ptr := buf in
  let* n := MQTTSNstrlen willMsg in
  let* n := int (n + 1) in
  let* len := MQTTSNPacket_len n in
  if buflen <? len then ret MQTTSNPACKET_BUFFER_TOO_SHORT
  else
    let* ptr := advance ptr (MQTTSNPacket_encode ptr len) in
    let* ptr := writeChar ptr packet_type in
    let* ptr := writeMQTTSNString ptr willMsg in
    psub ptr buf.

Definition MQTTSNSerialize_willmsg (buf : ptr) (buflen : Z) (willMsg : MQTTSNString) : M W Z :=
  MQTTSNSerialize_willmsg1 buf buflen willMsg MQTTSN_WILLMSG.

Definition MQTTSNSerialize_willmsgupd (buf : ptr) (buflen : Z) (willMsg : MQTTSNString) : M W Z :=
  MQTTSNSerialize_willmsg1 buf buflen willMsg MQTTSN_WILLMSGUPD.

(** MQTTSNDeserialize_willtopicreq and MQTTSNDeserialize_willmsgreq differ in
    the packet type only. *)
Definition sn_read_request (ty : MQTTSN_msgTypes) (buf : ptr) (buflen : Z) : M W Z :=
  let* (n, mylen) := MQTTSNPacket_decode buf buflen None in
  let curdata := padd buf 1 in
  if negb (n =? 1) then ret (-1)
  else
    let* mylen := use mylen in
    if buflen <? mylen then ret MQTTSNPACKET_BUFFER_TOO_SHORT
    else
      let enddata := padd buf mylen in
      let* d := psub enddata curdata in
      if d <? 1 then ret (-1)
      else
        let* (c, curdata) := readChar curdata in
        if negb (c =? ty) then ret (-1) else ret 1.

Definition MQTTSNDeserialize_willtopicreq := sn_read_request MQTTSN_WILLTOPICREQ.
Definition MQTTSNDeserialize_willmsgreq := sn_read_request MQTTSN_WILLMSGREQ.

(** MQTTSNDeserialize_willtopicresp and MQTTSNDeserialize_willmsgresp, likewise. *)
Definition sn_read_response (ty : MQTTSN_msgTypes) (resp_rc : Z) (buf : ptr) (buflen : Z) : M W (Z * Z) :=
  let curdata := buf in
  let* (n, mylen) := MQTTSNPacket_decode curdata buflen None in
  let curdata := padd curdata n in
  let* mylen := use mylen in
  let enddata := padd buf mylen in
  let* d := psub enddata buf in
  if d <? 3 then ret (0, resp_rc)
  else
    let* (c, curdata) := readChar curdata in
    if negb (c =? ty) then ret (0, resp_rc)
    else let* (c, curdata) := readChar curdata in ret (1, c).

Definition MQTTSNDeserialize_willtopicresp := sn_read_response MQTTSN_WILLTOPICRESP.
Definition MQTTSNDeserialize_willmsgresp := sn_read_response MQTTSN_WILLMSGRESP.

(** ** MQTTSNConnectServer.c

    The first lines of its deserializers: the cursor behind the length field
    and the end of the packet. *)
Definition sn_start (buf : ptr) (len : Z) (mylen : option Z) : M W (ptr * ptr) :=
  let* (n, mylen) := MQTTSNPacket_decode buf len mylen in
  let curdata := padd buf n in
  let* mylen := use mylen in
  ret (curdata, padd buf mylen).

Definition MQTTSNDeserialize_connect (data : MQTTSNPacket_connectData) (buf : ptr) (len : Z) :
    M W (Z * MQTTSNPacket_connectData) :=
  let* (curdata, enddata) := sn_start buf len (Some 0) in
  let* d := psub enddata curdata in
  if d <? 2 then ret (0, data)
  else
    let* (c, curdata) := readChar curdata in
    if negb (c =? MQTTSN_CONNECT) then ret (0, data)
    else
      let* (c, curdata) := readChar curdata in
      let flags := u8 c in
      let data := set_sc_flags data (sn_flag_cleanSession flags) (sn_flag_will flags) in
      let* (version, curdata) := readChar curdata in
      if negb (version =? MQTTSN_PROTOCOL_VERSION) then ret (0, data)
      else
        let* (duration, curdata) := readInt curdata in
        let* (ok, id, curdata) := readMQTTSNString (sc_clientID data) curdata enddata in
        let data := set_sc_client data (u16 duration) id in
        if ok =? 0 then ret (0, data) else ret (1, data).

(** MQTTSNSerialize_connack, MQTTSNSerialize_willtopicresp and
    MQTTSNSerialize_willmsgresp differ in the packet type only, as do
    MQTTSNSerialize_willtopicreq, MQTTSNSerialize_willmsgreq and
    MQTTSNSerialize_pingresp. *)
Definition sn_write_response (ty : MQTTSN_msgTypes) (buf : ptr) (buflen rc : Z) : M W Z :=
  let ptr := buf in
  if buflen <? 3 then ret MQTTSNPACKET_BUFFER_TOO_SHORT
  else
    let* ptr := advance ptr (MQTTSNPacket_encode ptr 3) in
    let* ptr := writeChar ptr ty in
    let* ptr := writeChar ptr rc in
    psub ptr buf.

Definition sn_write_request (ty : MQTTSN_msgTypes) (buf : ptr) (buflen : Z) : M W Z :=
  let ptr := buf in
  if buflen <? 2 then ret MQTTSNPACKET_BUFFER_TOO_SHORT
  else
    let* ptr := advance ptr (MQTTSNPacket_encode ptr 2) in
    let* ptr := writeChar ptr ty in
    psub ptr buf.

Definition MQTTSNSerialize_connack := sn_write_response MQTTSN_CONNACK.
Definition MQTTSNSerialize_willtopicreq := sn_write_request MQTTSN_WILLTOPICREQ.
Definition MQTTSNSerialize_willmsgreq := sn_write_request MQTTSN_WILLMSGREQ.
Definition MQTTSNSerialize_pingresp := sn_write_request MQTTSN_PINGRESP.
Definition MQTTSNSerialize_willtopicresp := sn_write_response MQTTSN_WILLTOPICRESP.
Definition MQTTSNSerialize_willmsgresp := sn_write_response MQTTSN_WILLMSGRESP.

Definition MQTTSNDeserialize_disconnect (duration : Z) (buf : ptr) (buflen : Z) : M W (Z * Z) :=
  let* (curdata, enddata) := sn_start buf buflen None in
  let* d := psub enddata curdata in
  if d <? 1 then ret (-1, duration)
  else
    let* (c, curdata) := readChar curdata in
    if negb (c =? MQTTSN_DISCONNECT) then ret (-1, duration)
    else
      let* d := psub enddata curdata in
      if d =? 2 then let* (n, curdata) := readInt curdata in ret (1, n)
      else if negb (bool_decide (enddata = curdata)) then ret (-1, duration)
      else ret (1, duration).

Definition MQTTSNDeserialize_pingreq (clientID : MQTTSNString) (buf : ptr) (len : Z) :
    M W (Z * MQTTSNString) :=
  let* (curdata, enddata) := sn_start buf len (Some 0) in
  let* d := psub enddata curdata in
  if d <? 1 then ret (0, clientID)
  else
    let* (c, curdata) := readChar curdata in
    if negb (c =? MQTTSN_PINGREQ) then ret (0, clientID)
    else
      let* (ok, clientID, curdata) := readMQTTSNString clientID curdata enddata in
      if ok =? 0 then ret (0, clientID) else ret (1, clientID).

Definition MQTTSNDeserialize_willtopic1 (out : sn_will_out) (buf : ptr) (len : Z)
    (packet_type : MQTTSN_msgTypes) : M W (Z * sn_will_out) :=
  let* (curdata, enddata) := sn_start buf len (Some 0) in
  let* beyond := plt (padd buf len) enddata in
  if beyond : bool then ret (0, out)
  else
    let* (c, curdata) := readChar curdata in
    if negb (c =? packet_type) then ret (0, out)
    else
      let* (c, curdata) := readChar curdata in
      let flags := u8 c in
      let* (ok, topic, curdata) := readMQTTSNString (sw_topic out) curdata enddata in
      let out := {| sw_QoS := sn_flag_QoS flags; sw_retain := sn_flag_retain flags; sw_topic := topic |} in
      if ok =? 0 then ret (0, out) else ret (1, out).

Definition MQTTSNDeserialize_willtopic (out : sn_will_out) (buf : ptr) (len : Z) : M W (Z * sn_will_out) :=
  MQTTSNDeserialize_willtopic1 out buf len MQTTSN_WILLTOPIC.

Definition MQTTSNDeserialize_willtopicupd (out : sn_will_out) (buf : ptr) (len : Z) : M W (Z * sn_will_out) :=
  MQTTSNDeserialize_willtopic1 out buf len MQTTSN_WILLTOPICUPD.

Definition MQTTSNDeserialize_willmsg1 (willMsg : MQTTSNString) (buf : ptr) (len : Z)
    (packet_type : MQTTSN_msgTypes) : M W (Z * MQTTSNString) :=
  let* (curdata, enddata) := sn_start buf len (Some 0) in
  let* beyond := plt (padd buf len) enddata in
  if beyond : bool then ret (0, willMsg)
  else
    let* (c, curdata) := readChar curdata in
    if negb (c =? packet_type) then ret (0, willMsg)
    else
      let* (ok, willMsg, curdata) := readMQTTSNString willMsg curdata enddata in
      if ok =? 0 then ret (0, willMsg) else ret (1, willMsg).

Definition MQTTSNDeserialize_willmsg (willMsg : MQTTSNString) (buf : ptr) (len : Z) :
    M W (Z * MQTTSNString) :=
  MQTTSNDeserialize_willmsg1 willMsg buf len MQTTSN_WILLMSG.

Definition MQTTSNDeserialize_willmsgupd (willMsg : MQTTSNString) (buf : ptr) (len : Z) :
    M W (Z * MQTTSNString) :=
  MQTTSNDeserialize_willmsg1 willMsg buf len MQTTSN_WILLMSGUPD.
End SNConnect.

(** ** The packets on the wire *)

(** What a CONNECT says. *)
Definition sn_connect_body (clean will duration : Z) (id : list byte) : list byte :=
  byte_of_Z (sn_flags 0 0 0 will clean 0) :: byte_of_Z MQTTSN_PROTOCOL_VERSION ::
  int_bytes duration ++ id.

Definition sn_willtopic_body (qos retain : Z) (topic : list byte) : list byte :=
  byte_of_Z (sn_flags 0 qos retain 0 0 0) :: topic.

Section SNConnectFacts.
Context {W : Type} `{CharSign}.
Implicit Types (s : state W) (b : block).

Lemma sn_start_packet s b o ty body rest buflen v :
  bytes_at (mem s) b o (sn_packet ty body ++ rest) ->
  1 + zlen body <> 255 -> zlen body <= 65531 ->
  let n := sn_size (1 + zlen body) in
  n <= buflen ->
  sn_start (Ptr b o) buflen v s = Done (Ptr b (o + zlen (sn_length n)), Ptr b (o + n)) s.
Proof.
  intros Hat H255 Hmax n Hbuf. unfold sn_start.
  erewrite bind_done by by eapply sn_decode_packet. cbv beta iota zeta. fold n. unfold use. by run_ret.
Qed.

(** A string up to the end of the packet. *)
Lemma sn_read_string s b o n str bs rest :
  bytes_at (mem s) b o (bs ++ rest) -> n = o + zlen bs -> cstring str = NULL ->
  exists str', readMQTTSNString str (Ptr b o) (Ptr b n) s = Done (1, str', Ptr b n) s /\
    cstring str' = NULL /\ len (lenstring str') = zlen bs /\
    (bs = [] \/ held (mem s) b str' bs).
Proof.
  intros Hat -> Hc. unfold readMQTTSNString. run_psub. replace (o + zlen bs - o) with (zlen bs) by lia.
  destruct (Z.ltb_spec 0 (zlen bs)).
  - eexists. split_and!; [done|exact Hc|done|]. right. split_and!; [exact Hc|done|]. exists o.
    split; [done|]. by apply bytes_at_app in Hat as [? _].
  - destruct bs; [|simpl in *; lia]. rewrite Z.add_0_r. eexists. split_and!; [done..|by left].
Qed.

(** The frame of a string packet, in the three serializers that end with one. *)
Lemma serializes_string s b base str bs :
  snstring_is (mem s) b str bs ->
  serializes s b base (fun p => let* p := writeMQTTSNString p str in psub p (Ptr b base)) bs.
Proof. intros. by apply serializes_last, sn_writes_string. Qed.

(** What MQTTSNDeserialize_connack and its likes see first. *)
Lemma sn_end_minus_start s b o n k :
  psub (Ptr b (o + n)) (Ptr b (o + k)) s = Done (n - k) s.
Proof. rewrite psub_same. f_equal. lia. Qed.

Lemma sn_serialize_connect_run s b o l buflen options m (id : list byte) bs :
  mem s !! b = Some l -> 0 <= o -> buflen <= zlen l - o -> 0 <= sc_duration options < 65536 ->
  MQTTSNstrlen (sc_clientID options) s = Done (zlen id) s -> zlen id <= 65536 ->
  writes s b (fun p => writeMQTTSNString p (sc_clientID options)) bs -> m = 5 + zlen id ->
  let body := sn_connect_body (sc_cleansession options) (sc_willFlag options) (sc_duration options) bs in
  let wire := sn_length (sn_size m) ++ byte_of_Z MQTTSN_CONNECT :: body in
  MQTTSNSerialize_connect (Ptr b o) buflen options s =
    if buflen <? sn_size m then Done MQTTSNPACKET_BUFFER_TOO_SHORT s
    else if o + zlen wire <=? zlen l then Done (zlen wire) (set_block s b (splice l o wire))
    else Fault OutOfBounds.
Proof.
  intros Hb Ho Hbuf Hd Hlen Hmax Hw -> body wire.
  unfold MQTTSNSerialize_connect, MQTTSNSerialize_connectLength. rewrite bind_assoc.
  erewrite bind_done by exact Hlen. rewrite bind_int by (unfold INT_MIN, INT_MAX; lia).
  rewrite sn_flags_connect. apply sn_serialize_run; [done|lia..|].
  eapply (serializes_bind s b o _ _ [_]); [apply writes_char|].
  eapply (serializes_bind s b o _ _ [_]); [apply writes_char|].
  eapply (serializes_bind s b o); [apply writes_int; lia|]. by apply serializes_last.
Qed.

Lemma sn_serialize_connect_room s b o l buflen options id :
  let body := sn_connect_body (sc_cleansession options) (sc_willFlag options) (sc_duration options) id in
  let wire := sn_packet MQTTSN_CONNECT body in
  mem s !! b = Some l -> 0 <= o -> sn_size (1 + zlen body) <= buflen <= zlen l - o ->
  snstring_is (mem s) b (sc_clientID options) id -> 0 <= sc_duration options < 65536 ->
  1 + zlen body <> 255 -> zlen body <= 65531 ->
  MQTTSNSerialize_connect (Ptr b o) buflen options s = Done (zlen wire) (set_block s b (splice l o wire)).
Proof.
  intros body wire Hb Ho Hbuf Hid Hd H255 Hmax.
  assert (Hbody : zlen body = 4 + zlen id) by (unfold body, sn_connect_body;
    rewrite !length_cons, length_app; change (length (int_bytes _)) with 2%nat; lia).
  assert (Hw : zlen wire = sn_size (1 + zlen body))
    by (unfold wire; rewrite sn_packet_length; by test_false (1 + zlen body =? 255); lia).
  rewrite (sn_serialize_connect_run s b o l buflen options (1 + zlen body) id id);
    try lia; [|done|by eapply sn_strlen_is|by apply sn_writes_string].
  cbv zeta. fold body. fold (sn_packet MQTTSN_CONNECT body). fold wire.
  test_false (buflen <? sn_size (1 + zlen body)). by test_true (o + zlen wire <=? zlen l).
Qed.

Definition sn_disconnect_body (duration : Z) : list byte := if 0 <? duration then int_bytes duration else [].

Lemma sn_serialize_disconnect_room s b o l buflen duration :
  let wire := sn_packet MQTTSN_DISCONNECT (sn_disconnect_body duration) in
  mem s !! b = Some l -> 0 <= o -> 4 <= buflen <= zlen l - o ->
  let s1 := set_block s b (splice l o wire) in
  MQTTSNSerialize_disconnect (Ptr b o) buflen duration s = Done (zlen wire) s1 /\
  bytes_at (mem s1) b o (wire ++ []) /\ zlen wire = sn_size (1 + zlen (sn_disconnect_body duration)).
Proof.
  intros wire Hb Ho Hbuf s1.
  assert (Hlen : zlen (sn_disconnect_body duration) = if 0 <? duration then 2 else 0) by (unfold sn_disconnect_body; by case_test).
  assert (0 <= zlen (sn_disconnect_body duration) <= 2) by (revert Hlen; case_test; lia).
  destruct (sn_serialize_room s b o l buflen (1 + zlen (sn_disconnect_body duration)) MQTTSN_DISCONNECT (fun p =>
    let* p := (if 0 <? duration then writeInt p duration else ret p) in psub p (Ptr b o)) (sn_disconnect_body duration))
    as (Hser & Hat & Hw); try lia; [done| |unfold sn_size; case_test; lia|].
  { apply serializes_last. unfold sn_disconnect_body. case_test; [apply writes_int; lia|apply writes_nil]. }
  split; [|by split]. unfold s1, wire. rewrite <- Hser.
  unfold MQTTSNSerialize_disconnect, MQTTSNSerialize_disconnectLength. run_ret. rewrite Hlen. by case_test.
Qed.

Lemma sn_deserialize_connack_packet s b o rc old buflen rest :
  bytes_at (mem s) b o (sn_packet MQTTSN_CONNACK [byte_of_Z rc] ++ rest) -> 3 <= buflen ->
  MQTTSNDeserialize_connack old (Ptr b o) buflen s = Done (1, to_char rc) s.
Proof.
  intros Hat Hbuf. unfold MQTTSNDeserialize_connack.
  erewrite bind_done by by eapply sn_decode_packet. cbv beta iota zeta. cbn [padd]. unfold use. run_ret.
  run_psub. change (sn_size _) with 3. test_false (o + 3 - o <? 3).
  apply sn_packet_at in Hat as (_ & Htype & Hat). erewrite bind_done by by eapply sn_read_type.
  cbv beta iota. cbn [negb Z.eqb Pos.eqb sn_code]. by erewrite bind_done by by eapply readChar_byte.
Qed.

Lemma sn_deserialize_connect_packet s b o data buflen clean will duration id rest :
  let body := sn_connect_body clean will duration id in
  bytes_at (mem s) b o (sn_packet MQTTSN_CONNECT body ++ rest) ->
  0 <= duration < 65536 -> 1 + zlen body <> 255 -> zlen body <= 65531 ->
  sn_size (1 + zlen body) <= buflen -> cstring (sc_clientID data) = NULL ->
  exists data', MQTTSNDeserialize_connect data (Ptr b o) buflen s = Done (1, data') s /\
    sc_cleansession data' = clean mod 2 /\ sc_willFlag data' = will mod 2 /\
    sc_duration data' = duration /\ cstring (sc_clientID data') = NULL /\
    len (lenstring (sc_clientID data')) = zlen id /\
    (id = [] \/ held (mem s) b (sc_clientID data') id).
Proof.
  intros body Hat Hd H255 Hmax Hbuf Hc. pose proof (sn_frame_size body H255 Hmax) as (Hn & _).
  assert (zlen body = 4 + zlen id) as Hlen
    by (unfold body, sn_connect_body; rewrite !length_cons, length_app; change (length (int_bytes duration)) with 2%nat; lia).
  unfold MQTTSNDeserialize_connect. erewrite bind_done by by eapply sn_start_packet. cbv beta iota zeta.
  apply sn_packet_at in Hat as (_ & Htype & Hat).
  set (n := sn_size (1 + zlen body)) in *. set (k := zlen (sn_length n)) in *.
  rewrite (bind_done _ _ _ _ _ (sn_end_minus_start _ _ _ _ _)). test_false (n - k <? 2).
  erewrite bind_done by by eapply sn_read_type. cbv beta iota. cbn [negb Z.eqb Pos.eqb sn_code].
  unfold body, sn_connect_body in Hat. cbn [app] in Hat. rewrite <- app_assoc in Hat.
  erewrite bind_done by by eapply readChar_byte. cbv beta iota zeta. apply bytes_at_tail in Hat.
  rewrite u8_readChar by apply sn_flags_range.
  destruct (sn_flag_fields 0 0 0 will clean 0) as (_ & _ & _ & Fw & Fc & _). rewrite Fw, Fc.
  erewrite bind_done by (eapply sn_read_type; [exact Hat|done]). cbv beta iota. cbn [negb Z.eqb Pos.eqb MQTTSN_PROTOCOL_VERSION].
  apply bytes_at_tail in Hat. erewrite bind_done by by eapply readInt_int_bytes. cbv beta iota.
  apply bytes_at_app in Hat as [_ Hat]. change (zlen (int_bytes duration)) with 2 in Hat.
  destruct (sn_read_string s b (o + k + 1 + 1 + 1 + 2) (o + n) (sc_clientID data) id rest Hat
    ltac:(lia) Hc) as (str' & Hr & Hres).
  change (sc_clientID (set_sc_flags data _ _)) with (sc_clientID data).
  rewrite (bind_done _ _ _ _ _ Hr). cbv beta iota zeta. cbn [Z.eqb]. rewrite u16_small by done.
  eexists. split; [done|]. by split_and!; try apply Hres.
Qed.

(** ** The packets without a string *)

Lemma sn_write_response_run s b o l buflen (ty : MQTTSN_msgTypes) rc :
  mem s !! b = Some l -> 0 <= o -> 3 <= buflen <= zlen l - o ->
  let wire := sn_packet ty [byte_of_Z rc] in
  sn_write_response ty (Ptr b o) buflen rc s = Done 3 (set_block s b (splice l o wire)) /\
  bytes_at (mem (set_block s b (splice l o wire))) b o (wire ++ []).
Proof.
  intros Hb Ho Hbuf wire. split; [|rewrite app_nil_r; apply bytes_at_splice; change (zlen wire) with 3; lia].
  unfold sn_write_response. test_false (buflen <? 3).
  rewrite (sn_frame_run s b o l 3 ty _ [byte_of_Z rc]); [|done|lia|done|by apply serializes_last, writes_char].
  cbv zeta. change (sn_length 3 ++ byte_of_Z ty :: [byte_of_Z rc]) with wire.
  change (zlen wire) with 3. by test_true (o + 3 <=? zlen l).
Qed.

Lemma sn_write_request_run s b o l buflen (ty : MQTTSN_msgTypes) :
  mem s !! b = Some l -> 0 <= o -> 2 <= buflen <= zlen l - o ->
  let wire := sn_packet ty [] in
  sn_write_request ty (Ptr b o) buflen s = Done 2 (set_block s b (splice l o wire)) /\
  bytes_at (mem (set_block s b (splice l o wire))) b o (wire ++ []).
Proof.
  intros Hb Ho Hbuf wire. split; [|rewrite app_nil_r; apply bytes_at_splice; change (zlen wire) with 2; lia].
  unfold sn_write_request. test_false (buflen <? 2).
  rewrite (sn_frame_run s b o l 2 ty _ []); [|done|lia|done|apply serializes_end].
  cbv zeta. change (sn_length 2 ++ [byte_of_Z ty]) with wire.
  change (zlen wire) with 2. by test_true (o + 2 <=? zlen l).
Qed.

Lemma sn_read_response_packet s b o (ty : MQTTSN_msgTypes) rc old :
  bytes_at (mem s) b o (sn_packet ty [byte_of_Z rc] ++ []) -> 0 <= ty < 128 ->
  sn_read_response ty old (Ptr b o) 3 s = Done (1, to_char rc) s.
Proof.
  intros Hat Hty. unfold sn_read_response.
  erewrite bind_done by by eapply sn_decode_packet. cbv beta iota zeta. cbn [padd].
  unfold use. run_ret. run_psub. change (sn_size _) with 3. test_false (o + 3 - o <? 3).
  apply sn_packet_at in Hat as (_ & Htype & Hat).
  erewrite bind_done by by eapply sn_read_type. cbv beta iota. rewrite Z.eqb_refl. cbn [negb].
  by erewrite bind_done by by eapply readChar_byte.
Qed.

Lemma sn_read_request_packet s b o (ty ty' : MQTTSN_msgTypes) :
  bytes_at (mem s) b o (sn_packet ty [] ++ []) -> 0 <= ty < 128 ->
  sn_read_request ty' (Ptr b o) 2 s = Done (if sn_code ty =? ty' then 1 else -1) s.
Proof.
  intros Hat Hty. unfold sn_read_request.
  erewrite bind_done by by eapply sn_decode_packet. cbv beta iota zeta. cbn [padd].
  change (negb _) with false at 1. cbv iota. unfold use. run_ret. change (2 <? _) with false. cbv iota.
  run_psub. change (sn_size _) with 2. test_false (o + 2 - (o + 1) <? 1).
  apply sn_packet_at in Hat as (_ & Htype & _).
  erewrite bind_done by by eapply sn_read_type. cbv beta iota. by destruct (_ =? _).
Qed.

(** ** The packets that are a string *)

Lemma sn_willtopic1_run s b o l buflen qos retain str topic (ty : MQTTSN_msgTypes) :
  let body := sn_willtopic_body qos retain topic in
  let wire := sn_packet ty body in
  mem s !! b = Some l -> 0 <= o -> sn_size (1 + zlen body) <= buflen <= zlen l - o ->
  snstring_is (mem s) b str topic -> 1 + zlen body <> 255 -> zlen body <= 65531 ->
  let s1 := set_block s b (splice l o wire) in
  MQTTSNSerialize_willtopic1 (Ptr b o) buflen qos retain str ty s = Done (zlen wire) s1 /\
  bytes_at (mem s1) b o (wire ++ []) /\ zlen wire = sn_size (1 + zlen body).
Proof.
  intros body wire Hb Ho Hbuf Hstr H255 Hmax s1.
  assert (zlen body = 1 + zlen topic) by (unfold body, sn_willtopic_body; rewrite length_cons; lia).
  unfold MQTTSNSerialize_willtopic1. erewrite bind_done by by eapply sn_strlen_is.
  rewrite bind_int by (unfold INT_MIN, INT_MAX; lia). rewrite sn_flags_will.
  replace (zlen topic + 2) with (1 + zlen body) by lia.
  apply sn_serialize_room; try lia; [done|].
  eapply (serializes_bind s b o _ _ [_]); [apply writes_char|]. by apply serializes_string.
Qed.

Lemma sn_willmsg1_run s b o l buflen str msg (ty : MQTTSN_msgTypes) :
  let wire := sn_packet ty msg in
  mem s !! b = Some l -> 0 <= o -> sn_size (1 + zlen msg) <= buflen <= zlen l - o ->
  snstring_is (mem s) b str msg -> 1 + zlen msg <> 255 -> zlen msg <= 65531 ->
  let s1 := set_block s b (splice l o wire) in
  MQTTSNSerialize_willmsg1 (Ptr b o) buflen str ty s = Done (zlen wire) s1 /\
  bytes_at (mem s1) b o (wire ++ []) /\ zlen wire = sn_size (1 + zlen msg).
Proof.
  intros wire Hb Ho Hbuf Hstr H255 Hmax s1.
  unfold MQTTSNSerialize_willmsg1. erewrite bind_done by by eapply sn_strlen_is.
  rewrite bind_int by (unfold INT_MIN, INT_MAX; lia). rewrite (Z.add_comm (zlen msg) 1).
  apply sn_serialize_room; try lia; [done|]. by apply serializes_string.
Qed.

Lemma sn_willtopic1_packet s b o out n qos retain topic (ty : MQTTSN_msgTypes) :
  let body := sn_willtopic_body qos retain topic in
  bytes_at (mem s) b o (sn_packet ty body ++ []) -> 0 <= ty < 128 ->
  1 + zlen body <> 255 -> zlen body <= 65531 -> n = sn_size (1 + zlen body) ->
  cstring (sw_topic out) = NULL ->
  exists out', MQTTSNDeserialize_willtopic1 out (Ptr b o) n ty s = Done (1, out') s /\
    sw_QoS out' = qos mod 4 /\ sw_retain out' = retain mod 2 /\
    len (lenstring (sw_topic out')) = zlen topic /\ (topic = [] \/ held (mem s) b (sw_topic out') topic).
Proof.
  intros body Hat Hty H255 Hmax -> Hnull. pose proof (sn_frame_size body H255 Hmax) as (Hn & _).
  assert (zlen body = 1 + zlen topic) by (unfold body, sn_willtopic_body; rewrite length_cons; lia).
  unfold MQTTSNDeserialize_willtopic1. erewrite bind_done by (eapply sn_start_packet; [exact Hat|done..]).
  cbv beta iota zeta. apply sn_packet_at in Hat as (_ & Htype & Hat).
  set (n := sn_size (1 + zlen body)) in *. set (k := zlen (sn_length n)) in *. cbn [padd].
  erewrite bind_done by apply plt_same. cbv beta. test_false (o + n <? o + n).
  erewrite bind_done by by eapply sn_read_type. cbv beta iota. rewrite Z.eqb_refl. cbn [negb].
  unfold body, sn_willtopic_body in Hat. cbn [app] in Hat.
  erewrite bind_done by by eapply readChar_byte. cbv beta iota zeta. apply bytes_at_tail in Hat.
  rewrite u8_readChar by apply sn_flags_range.
  destruct (sn_flag_fields 0 qos retain 0 0 0) as (_ & Fq & Fr & _). rewrite Fq, Fr.
  destruct (sn_read_string s b (o + k + 1 + 1) (o + n) (sw_topic out) topic [] Hat ltac:(lia) Hnull)
    as (str' & Hr & _ & Hl & Hh).
  rewrite (bind_done _ _ _ _ _ Hr). cbv beta iota zeta. cbn [Z.eqb]. eexists. split; [done|].
  by cbn [sw_QoS sw_retain sw_topic].
Qed.

Lemma sn_willmsg1_packet s b o str n msg (ty : MQTTSN_msgTypes) :
  bytes_at (mem s) b o (sn_packet ty msg ++ []) -> 0 <= ty < 128 ->
  1 + zlen msg <> 255 -> zlen msg <= 65531 -> n = sn_size (1 + zlen msg) -> cstring str = NULL ->
  exists str', MQTTSNDeserialize_willmsg1 str (Ptr b o) n ty s = Done (1, str') s /\
    len (lenstring str') = zlen msg /\ (msg = [] \/ held (mem s) b str' msg).
Proof.
  intros Hat Hty H255 Hmax -> Hnull. pose proof (sn_frame_size msg H255 Hmax) as (Hn & _).
  unfold MQTTSNDeserialize_willmsg1. erewrite bind_done by (eapply sn_start_packet; [exact Hat|done..]).
  cbv beta iota zeta. apply sn_packet_at in Hat as (_ & Htype & Hat).
  set (n := sn_size (1 + zlen msg)) in *. set (k := zlen (sn_length n)) in *. cbn [padd].
  erewrite bind_done by apply plt_same. cbv beta. test_false (o + n <? o + n).
  erewrite bind_done by by eapply sn_read_type. cbv beta iota. rewrite Z.eqb_refl. cbn [negb].
  destruct (sn_read_string s b (o + k + 1) (o + n) str msg [] Hat ltac:(lia) Hnull)
    as (str' & Hr & _ & Hl & Hh).
  rewrite (bind_done _ _ _ _ _ Hr). cbv beta iota zeta. cbn [Z.eqb]. eexists. by split.
Qed.

(** DISCONNECT is read back; without a duration the variable is left alone. *)
Lemma sn_deserialize_disconnect_packet s b o duration old :
  let body := if 0 <? duration then int_bytes duration else [] in
  duration < 65536 -> bytes_at (mem s) b o (sn_packet MQTTSN_DISCONNECT body ++ []) ->
  MQTTSNDeserialize_disconnect old (Ptr b o) (sn_size (1 + zlen body)) s =
    Done (1, if 0 <? duration then duration else old) s.
Proof.
  intros body Hd Hat.
  assert (Hlen : zlen body = if 0 <? duration then 2 else 0) by (unfold body; by case_test).
  assert (0 <= zlen body <= 2) by (revert Hlen; case_test; lia).
  pose proof (sn_frame_size body ltac:(lia) ltac:(lia)) as (Hn & _).
  unfold MQTTSNDeserialize_disconnect.
  erewrite bind_done by (eapply sn_start_packet; [exact Hat|lia..]). cbv beta iota zeta.
  apply sn_packet_at in Hat as (_ & Htype & Hat).
  set (n := sn_size (1 + zlen body)) in *. set (k := zlen (sn_length n)) in *.
  rewrite (bind_done _ _ _ _ _ (sn_end_minus_start _ _ _ _ _)). test_false (n - k <? 1).
  erewrite bind_done by by eapply sn_read_type. cbv beta iota. cbn [negb Z.eqb Pos.eqb sn_code].
  run_psub. unfold body in Hat. destruct (Z.ltb_spec 0 duration).
  - test_true (o + n - (o + k + 1) =? 2). by erewrite bind_done by (eapply readInt_int_bytes; [exact Hat|lia]).
  - test_false (o + n - (o + k + 1) =? 2). by rewrite bool_decide_eq_true_2 by (f_equal; lia).
Qed.
End SNConnectFacts.

(** ** Properties *)

Section SNConnectProperties.
Context {W : Type} `{CharSign}.
Implicit Types (s : state W) (b : block).

(** An MQTT-SN CONNECT with a length-delimited client id round-trips from
    the client's serializer to the server's deserializer: clean-session and will
    flag, duration and client id, the last in place in the buffer. *)
Theorem sn_connect_roundtrip s b o l buflen options id data :
  let body := sn_connect_body (sc_cleansession options) (sc_willFlag options) (sc_duration options) id in
  let wire := sn_packet MQTTSN_CONNECT body in
  mem s !! b = Some l -> 0 <= o -> sn_size (1 + zlen body) <= buflen <= zlen l - o ->
  snstring_is (mem s) b (sc_clientID options) id -> 0 <= sc_duration options < 65536 ->
  1 + zlen body <> 255 -> zlen body <= 65531 -> cstring (sc_clientID data) = NULL ->
  let s1 := set_block s b (splice l o wire) in
  exists data',
    MQTTSNSerialize_connect (Ptr b o) buflen options s = Done (zlen wire) s1 /\
    MQTTSNDeserialize_connect data (Ptr b o) (zlen wire) s1 = Done (1, data') s1 /\
    sc_cleansession data' = sc_cleansession options mod 2 /\
    sc_willFlag data' = sc_willFlag options mod 2 /\ sc_duration data' = sc_duration options /\
    cstring (sc_clientID data') = NULL /\ len (lenstring (sc_clientID data')) = zlen id /\
    (id = [] \/ held (mem s1) b (sc_clientID data') id).
Proof.
  intros body wire Hb Ho Hbuf Hid Hd H255 Hmax Hnull s1.
  assert (Hw : zlen wire = sn_size (1 + zlen body))
    by (unfold wire; rewrite sn_packet_length; by test_false (1 + zlen body =? 255); lia).
  assert (Hat : bytes_at (mem s1) b o (wire ++ []))
    by (rewrite app_nil_r; apply bytes_at_splice; lia).
  destruct (sn_deserialize_connect_packet s1 b o data (zlen wire) _ _ _ id [] Hat Hd H255 Hmax
    ltac:(fold body; lia) Hnull) as (data' & Hde & Hres).
  exists data'. split; [by apply sn_serialize_connect_room|by split].
Qed.

(** With a client id given as a C string the size check counts the
    characters, but what is written is the two-byte length of writeCString and
    then the characters: MQTTSNSerialize_connect produces two bytes more than
    the packet announces, past the end of a buffer that has exactly the
    announced size. *)
Theorem sn_connect_cstring s b o l buflen options b' o' id :
  mem s !! b = Some l -> 0 <= o -> sc_clientID options = {| cstring := Ptr b' o'; lenstring := {| len := 0; data := NULL |} |} ->
  b' <> b -> cstring_at (mem s) (Ptr b' o') id -> zlen id <= 65526 -> zlen id <> 250 ->
  0 <= sc_duration options < 65536 ->
  let announced := sn_size (5 + zlen id) in
  let body := sn_connect_body (sc_cleansession options) (sc_willFlag options) (sc_duration options)
                (utf_bytes id) in
  let wire := sn_length announced ++ byte_of_Z MQTTSN_CONNECT :: body in
  announced <= buflen <= zlen l - o ->
  zlen wire = announced + 2 /\
  MQTTSNSerialize_connect (Ptr b o) buflen options s =
    if o + announced + 2 <=? zlen l then Done (announced + 2) (set_block s b (splice l o wire))
    else Fault OutOfBounds.
Proof.
  intros Hb Ho Hopt Hne Hc Hmax H250 Hd announced body wire Hbuf.
  assert (Hbody : zlen body = 6 + zlen id) by (unfold body, sn_connect_body;
    rewrite !length_cons, length_app; pose proof (utf_bytes_length id); change (length (int_bytes _)) with 2%nat; lia).
  assert (Hw : zlen wire = announced + 2).
  { unfold wire. rewrite length_app, length_cons, Nat2Z.inj_add, sn_length_length, Nat2Z.inj_succ, Hbody.
    unfold announced, sn_size. destruct (Z.ltb_spec 255 (5 + zlen id)); case_test; lia. }
  split; [done|].
  rewrite (sn_serialize_connect_run s b o l buflen options (5 + zlen id) id (utf_bytes id)); try lia; try done.
  - cbv zeta. fold body announced. fold wire. rewrite Hw, !Z.add_assoc. by test_false (buflen <? announced).
  - rewrite Hopt. unfold MQTTSNstrlen. cbn [cstring is_null negb]. erewrite bind_done by by apply strlen_at.
    unfold ret. f_equal. apply i32_small. unfold INT_MIN, INT_MAX. lia.
  - rewrite Hopt. apply (writes_cstring s b b' o' id Hne Hc). unfold INT_MAX. lia.
Qed.

(** The will round-trips: topic, QoS and retained flag of WILLTOPIC and
    WILLTOPICUPD, and the message of WILLMSG and WILLMSGUPD, from the client's
    serializers to the server's deserializers. *)
Theorem sn_will_roundtrip s b o l buflen qos retain str text (upd : bool) out str0 :
  let body := sn_willtopic_body qos retain text in
  mem s !! b = Some l -> 0 <= o -> sn_size (1 + zlen body) <= buflen <= zlen l - o ->
  snstring_is (mem s) b str text -> 1 + zlen body <> 255 -> 1 + zlen text <> 255 ->
  zlen body <= 65531 -> cstring (sw_topic out) = NULL -> cstring str0 = NULL ->
  (exists n s1 out',
     (if upd then MQTTSNSerialize_willtopicupd else MQTTSNSerialize_willtopic)
       (Ptr b o) buflen qos retain str s = Done n s1 /\
     (if upd then MQTTSNDeserialize_willtopicupd else MQTTSNDeserialize_willtopic)
       out (Ptr b o) n s1 = Done (1, out') s1 /\
     sw_QoS out' = qos mod 4 /\ sw_retain out' = retain mod 2 /\
     len (lenstring (sw_topic out')) = zlen text /\
     (text = [] \/ held (mem s1) b (sw_topic out') text)) /\
  (exists n s1 str',
     (if upd then MQTTSNSerialize_willmsgupd else MQTTSNSerialize_willmsg)
       (Ptr b o) buflen str s = Done n s1 /\
     (if upd then MQTTSNDeserialize_willmsgupd else MQTTSNDeserialize_willmsg)
       str0 (Ptr b o) n s1 = Done (1, str') s1 /\
     len (lenstring str') = zlen text /\ (text = [] \/ held (mem s1) b str' text)).
Proof.
  intros body Hb Ho Hbuf Hstr H255 H255' Hmax Hnull Hnull0.
  assert (Hlen : zlen body = 1 + zlen text) by (unfold body, sn_willtopic_body; rewrite length_cons; lia).
  assert (Hsize : sn_size (1 + zlen text) <= buflen)
    by (revert Hbuf; rewrite Hlen; unfold sn_size; repeat case_test; lia).
  split.
  - set (ty := if upd then MQTTSN_WILLTOPICUPD else MQTTSN_WILLTOPIC).
    destruct (sn_willtopic1_run s b o l buflen qos retain str text ty Hb Ho Hbuf Hstr H255 Hmax)
      as (Hser & Hat & Hw).
    destruct (sn_willtopic1_packet _ b o out _ qos retain text ty Hat ltac:(by destruct upd) H255 Hmax Hw Hnull)
      as (out' & Hde & Hres).
    do 3 eexists. split_and!; [..|apply Hres|apply Hres|apply Hres|apply Hres]; by destruct upd.
  - set (ty := if upd then MQTTSN_WILLMSGUPD else MQTTSN_WILLMSG).
    destruct (sn_willmsg1_run s b o l buflen str text ty Hb Ho ltac:(lia) Hstr H255' ltac:(lia))
      as (Hser & Hat & Hw).
    destruct (sn_willmsg1_packet _ b o str0 _ text ty Hat ltac:(by destruct upd) H255' ltac:(lia) Hw Hnull0)
      as (str' & Hde & Hres).
    do 3 eexists. split_and!; [..|apply Hres|apply Hres]; by destruct upd.
Qed.

(** DISCONNECT round-trips: a positive duration comes back, and without one
    the caller's variable keeps its value, although the comment promises -1. *)
Theorem sn_disconnect_roundtrip s b o l buflen duration old :
  mem s !! b = Some l -> 0 <= o -> 4 <= buflen <= zlen l - o -> duration < 65536 ->
  exists n s1,
    MQTTSNSerialize_disconnect (Ptr b o) buflen duration s = Done n s1 /\
    MQTTSNDeserialize_disconnect old (Ptr b o) n s1 =
      Done (1, if 0 <? duration then duration else old) s1.
Proof.
  intros Hb Ho Hbuf Hd. destruct (sn_serialize_disconnect_room s b o l buflen duration Hb Ho Hbuf) as (Hser & Hat & Hw).
  set (s1 := set_block _ _ _) in *. do 2 eexists. split; [exact Hser|].
  rewrite Hw. by apply (sn_deserialize_disconnect_packet s1 b o duration old).
Qed.

(** PINGREQ carries the client id to the server, and PINGRESP is
    recognised. *)
Theorem sn_ping_roundtrip s b o l buflen str id str0 :
  mem s !! b = Some l -> 0 <= o -> sn_size (1 + zlen id) <= buflen <= zlen l - o ->
  snstring_is (mem s) b str id -> 1 + zlen id <> 255 -> zlen id <= 65531 -> cstring str0 = NULL ->
  (exists n s1 str', MQTTSNSerialize_pingreq (Ptr b o) buflen str s = Done n s1 /\
     MQTTSNDeserialize_pingreq str0 (Ptr b o) n s1 = Done (1, str') s1 /\
     len (lenstring str') = zlen id /\ (id = [] \/ held (mem s1) b str' id)) /\
  (exists s1, MQTTSNSerialize_pingresp (Ptr b o) buflen s = Done 2 s1 /\
     MQTTSNDeserialize_pingresp (Ptr b o) 2 s1 = Done 1 s1).
Proof.
  intros Hb Ho Hbuf Hstr H255 Hmax Hnull.
  pose proof (sn_size_bounds (1 + zlen id) ltac:(lia)). split.
  - destruct (sn_serialize_room s b o l buflen (1 + zlen id) MQTTSN_PINGREQ _ id Hb Ho ltac:(lia)
      (serializes_string s b o str id Hstr) eq_refl H255 Hmax ltac:(lia)) as (Hser & Hat & Hw).
    pose proof (sn_frame_size id H255 Hmax) as (Hn & _).
    set (s1 := set_block _ _ _) in *.
    pose proof Hat as Hat'. apply sn_packet_at in Hat' as (_ & Htype & Hid).
    set (n := sn_size (1 + zlen id)) in *. set (k := zlen (sn_length n)) in *.
    destruct (sn_read_string s1 b (o + k + 1) (o + n) str0 id [] Hid ltac:(lia) Hnull)
      as (str' & Hr & _ & Hres).
    exists n, s1, str'. split_and!; [| |apply Hres|apply Hres].
    + unfold MQTTSNSerialize_pingreq. erewrite bind_done by by eapply sn_strlen_is.
      rewrite bind_int by (unfold INT_MIN, INT_MAX; lia). rewrite Z.add_comm. by rewrite Hser, Hw.
    + unfold MQTTSNDeserialize_pingreq. erewrite bind_done by (eapply sn_start_packet; [exact Hat|done..]).
      cbv beta iota zeta. fold n. fold k.
      rewrite (bind_done _ _ _ _ _ (sn_end_minus_start _ _ _ _ _)). test_false (n - k <? 1).
      erewrite bind_done by by eapply sn_read_type. cbv beta iota. cbn [negb Z.eqb Pos.eqb sn_code].
      by rewrite (bind_done _ _ _ _ _ Hr).
  - destruct (sn_write_request_run s b o l buflen MQTTSN_PINGRESP Hb Ho ltac:(lia)) as [Hser Hat].
    eexists. split; [exact Hser|]. unfold MQTTSNDeserialize_pingresp.
    erewrite bind_done by by eapply sn_decode_packet. cbv beta iota zeta. cbn [padd]. unfold use. run_ret.
    rewrite (bind_done _ _ _ _ _ (sn_end_minus_start _ _ _ _ _)). change (_ <? 1) with false. cbv iota.
    apply sn_packet_at in Hat as (_ & Htype & _). by erewrite bind_done by by eapply sn_read_type.
Qed.

(** The server's answers and requests reach the client: the return code of
    CONNACK, WILLTOPICRESP and WILLMSGRESP comes back as a char, negative from
    128 on where char is signed; WILLTOPICREQ and WILLMSGREQ are recognised and
    told apart. *)
Theorem sn_answers_roundtrip s b o l buflen rc old :
  mem s !! b = Some l -> 0 <= o -> 3 <= buflen <= zlen l - o ->
  (exists s1, MQTTSNSerialize_connack (Ptr b o) buflen rc s = Done 3 s1 /\
     MQTTSNDeserialize_connack old (Ptr b o) 3 s1 = Done (1, to_char rc) s1) /\
  (exists s1, MQTTSNSerialize_willtopicresp (Ptr b o) buflen rc s = Done 3 s1 /\
     MQTTSNDeserialize_willtopicresp old (Ptr b o) 3 s1 = Done (1, to_char rc) s1) /\
  (exists s1, MQTTSNSerialize_willmsgresp (Ptr b o) buflen rc s = Done 3 s1 /\
     MQTTSNDeserialize_willmsgresp old (Ptr b o) 3 s1 = Done (1, to_char rc) s1) /\
  (exists s1, MQTTSNSerialize_willtopicreq (Ptr b o) buflen s = Done 2 s1 /\
     MQTTSNDeserialize_willtopicreq (Ptr b o) 2 s1 = Done 1 s1 /\
     MQTTSNDeserialize_willmsgreq (Ptr b o) 2 s1 = Done (-1) s1) /\
  (exists s1, MQTTSNSerialize_willmsgreq (Ptr b o) buflen s = Done 2 s1 /\
     MQTTSNDeserialize_willmsgreq (Ptr b o) 2 s1 = Done 1 s1 /\
     MQTTSNDeserialize_willtopicreq (Ptr b o) 2 s1 = Done (-1) s1).
Proof.
  intros Hb Ho Hbuf. split_and!.
  - destruct (sn_write_response_run s b o l buflen MQTTSN_CONNACK rc Hb Ho Hbuf) as [Hser Hat].
    eexists. split; [exact Hser|]. by eapply sn_deserialize_connack_packet.
  - destruct (sn_write_response_run s b o l buflen MQTTSN_WILLTOPICRESP rc Hb Ho Hbuf) as [Hser Hat].
    eexists. split; [exact Hser|]. by apply sn_read_response_packet.
  - destruct (sn_write_response_run s b o l buflen MQTTSN_WILLMSGRESP rc Hb Ho Hbuf) as [Hser Hat].
    eexists. split; [exact Hser|]. by apply sn_read_response_packet.
  - destruct (sn_write_request_run s b o l buflen MQTTSN_WILLTOPICREQ Hb Ho ltac:(lia)) as [Hser Hat].
    eexists. split_and!; [exact Hser|by apply (sn_read_request_packet _ b o MQTTSN_WILLTOPICREQ)
      |by apply (sn_read_request_packet _ b o MQTTSN_WILLTOPICREQ MQTTSN_WILLMSGREQ)].
  - destruct (sn_write_request_run s b o l buflen MQTTSN_WILLMSGREQ Hb Ho ltac:(lia)) as [Hser Hat].
    eexists. split_and!; [exact Hser|by apply (sn_read_request_packet _ b o MQTTSN_WILLMSGREQ)
      |by apply (sn_read_request_packet _ b o MQTTSN_WILLMSGREQ MQTTSN_WILLTOPICREQ)].
Qed.

(** MQTTSNDeserialize_connack reports success for a packet of another
    type: its error exits return the result of the length decoder, which is 1
    for a packet with a one-byte length field; the caller's return code keeps
    its old value. *)
Theorem sn_connack_any_type s b o (ty : MQTTSN_msgTypes) body rest buflen old :
  bytes_at (mem s) b o (sn_packet ty body ++ rest) -> 1 + zlen body < 255 ->
  sn_size (1 + zlen body) <= buflen -> 0 <= ty < 128 -> ty <> MQTTSN_CONNACK ->
  MQTTSNDeserialize_connack old (Ptr b o) buflen s = Done (1, old) s.
Proof.
  intros Hat Hmax Hbuf Hty Hne. unfold MQTTSNDeserialize_connack.
  assert (zlen (sn_length (sn_size (1 + zlen body))) = 1) as Hk
    by (rewrite sn_length_length; unfold sn_size; test_false (255 <? 1 + zlen body); by test_false (255 <? 1 + zlen body + 1)).
  erewrite bind_done by (eapply sn_decode_packet; [exact Hat|lia..]). cbv beta iota zeta.
  rewrite Hk. cbn [padd]. unfold use. run_ret. run_psub. case_test; [done|].
  apply sn_packet_at in Hat as (_ & Htype & _). rewrite Hk in Htype.
  erewrite bind_done by by eapply sn_read_type. cbv beta iota.
  assert (sn_code ty <> MQTTSN_CONNACK) as Hc by (intros E; apply Hne; by destruct ty).
  by rewrite (proj2 (Z.eqb_neq _ _) Hc).
Qed.

(** The client's deserializers use the length the decoder did not assign. *)
Theorem sn_connack_uninitialised s b o buflen old :
  buflen <= 0 -> MQTTSNDeserialize_connack old (Ptr b o) buflen s = Fault Indeterminate.
Proof.
  intros. unfold MQTTSNDeserialize_connack, MQTTSNPacket_decode. by test_true (buflen <=? 0).
Qed.
End SNConnectProperties.

(** ** Witnesses *)

Section Witnesses.
#[local] Existing Instance char_is_signed.

(* block 1: a 32-byte buffer, block 2: the bytes of a client id, block 3: a C string *)
Definition ex_sn_connect_state : state unit :=
  state_of [replicate 32 (byte_of_Z 170); bytes [100; 101; 118]; bytes [100; 101; 118; 0]].
Definition ex_sn_id : MQTTSNString :=
  {| cstring := NULL; lenstring := {| len := 3; data := Ptr 2 0 |} |}.
Definition ex_sn_none : MQTTSNString := sc_clientID MQTTSNPacket_connectData_initializer.
Definition ex_sn_options (id : MQTTSNString) : MQTTSNPacket_connectData :=
  set_sc_client MQTTSNPacket_connectData_initializer 600 id.

Lemma ex_sn_id_is : snstring_is (mem ex_sn_connect_state) 1 ex_sn_id (bytes [100; 101; 118]).
Proof. split_and!; [done..|]. right. exists 2%positive, 0. split_and!; [done..|bytes_at_concrete]. Qed.

Lemma sn_connect_roundtrip_witness :
  let wire := sn_packet MQTTSN_CONNECT (sn_connect_body 1 0 600 (bytes [100; 101; 118])) in
  let s1 := set_block ex_sn_connect_state 1 (splice (replicate 32 (byte_of_Z 170)) 0 wire) in
  exists data',
    MQTTSNSerialize_connect (Ptr 1 0) 32 (ex_sn_options ex_sn_id) ex_sn_connect_state = Done (zlen wire) s1 /\
    MQTTSNDeserialize_connect MQTTSNPacket_connectData_initializer (Ptr 1 0) (zlen wire) s1 =
      Done (1, data') s1 /\
    sc_cleansession data' = 1 mod 2 /\ sc_willFlag data' = 0 mod 2 /\ sc_duration data' = 600 /\
    cstring (sc_clientID data') = NULL /\ len (lenstring (sc_clientID data')) = 3 /\
    (bytes [100; 101; 118] = [] \/ held (mem s1) 1 (sc_clientID data') (bytes [100; 101; 118])).
Proof.
  apply (sn_connect_roundtrip ex_sn_connect_state 1 0 (replicate 32 (byte_of_Z 170)) 32
    (ex_sn_options ex_sn_id) (bytes [100; 101; 118]) MQTTSNPacket_connectData_initializer); try done.
  apply ex_sn_id_is.
Defined.

(* "dev" as a C string, in a buffer that ends where the announced packet does *)
Definition ex_sn_tight : state unit :=
  state_of [replicate 9 (byte_of_Z 170); []; bytes [100; 101; 118; 0]].
Definition ex_sn_cstring : MQTTSNString :=
  {| cstring := Ptr 3 0; lenstring := {| len := 0; data := NULL |} |}.

Lemma sn_connect_cstring_witness :
  MQTTSNSerialize_connect (Ptr 1 0) 9 (ex_sn_options ex_sn_cstring) ex_sn_tight = Fault OutOfBounds.
Proof.
  eapply (sn_connect_cstring ex_sn_tight 1 0 (replicate 9 (byte_of_Z 170)) 9 (ex_sn_options ex_sn_cstring)
    3 0 (bytes [100; 101; 118])); try done.
  exists 3%positive, 0. split_and!; [done|bytes_at_concrete|].
  intros Hin. apply list_elem_of_In in Hin. simpl in Hin. intuition discriminate.
Defined.

Lemma sn_will_roundtrip_witness :
  let s := ex_sn_connect_state in
  let text := bytes [100; 101; 118] in
  let out := {| sw_QoS := 0; sw_retain := 0; sw_topic := ex_sn_none |} in
  (exists n s1 out',
     MQTTSNSerialize_willtopic (Ptr 1 0) 32 2 1 ex_sn_id s = Done n s1 /\
     MQTTSNDeserialize_willtopic out (Ptr 1 0) n s1 = Done (1, out') s1 /\
     sw_QoS out' = 2 mod 4 /\ sw_retain out' = 1 mod 2 /\ len (lenstring (sw_topic out')) = 3 /\
     (text = [] \/ held (mem s1) 1 (sw_topic out') text)) /\
  (exists n s1 str',
     MQTTSNSerialize_willmsg (Ptr 1 0) 32 ex_sn_id s = Done n s1 /\
     MQTTSNDeserialize_willmsg ex_sn_none (Ptr 1 0) n s1 = Done (1, str') s1 /\
     len (lenstring str') = 3 /\ (text = [] \/ held (mem s1) 1 str' text)).
Proof.
  apply (sn_will_roundtrip ex_sn_connect_state 1 0 (replicate 32 (byte_of_Z 170)) 32 2 1 ex_sn_id
    (bytes [100; 101; 118]) false _ ex_sn_none); try done. apply ex_sn_id_is.
Defined.

Lemma sn_disconnect_roundtrip_witness :
  exists n s1,
    MQTTSNSerialize_disconnect (Ptr 1 0) 32 300 ex_sn_connect_state = Done n s1 /\
    MQTTSNDeserialize_disconnect (-1) (Ptr 1 0) n s1 = Done (1, if 0 <? 300 then 300 else -1) s1.
Proof.
  apply (sn_disconnect_roundtrip ex_sn_connect_state 1 0 (replicate 32 (byte_of_Z 170)) 32 300 (-1)); done.
Defined.

Lemma sn_ping_roundtrip_witness :
  let s := ex_sn_connect_state in
  let id := bytes [100; 101; 118] in
  (exists n s1 str', MQTTSNSerialize_pingreq (Ptr 1 0) 32 ex_sn_id s = Done n s1 /\
     MQTTSNDeserialize_pingreq ex_sn_none (Ptr 1 0) n s1 = Done (1, str') s1 /\
     len (lenstring str') = 3 /\ (id = [] \/ held (mem s1) 1 str' id)) /\
  (exists s1, MQTTSNSerialize_pingresp (Ptr 1 0) 32 s = Done 2 s1 /\
     MQTTSNDeserialize_pingresp (Ptr 1 0) 2 s1 = Done 1 s1).
Proof.
  apply (sn_ping_roundtrip ex_sn_connect_state 1 0 (replicate 32 (byte_of_Z 170)) 32 ex_sn_id
    (bytes [100; 101; 118]) ex_sn_none); try done. apply ex_sn_id_is.
Defined.

Lemma sn_answers_roundtrip_witness :
  let s := ex_sn_connect_state in
  (exists s1, MQTTSNSerialize_connack (Ptr 1 0) 32 3 s = Done 3 s1 /\
     MQTTSNDeserialize_connack 0 (Ptr 1 0) 3 s1 = Done (1, to_char 3) s1) /\
  (exists s1, MQTTSNSerialize_willtopicresp (Ptr 1 0) 32 3 s = Done 3 s1 /\
     MQTTSNDeserialize_willtopicresp 0 (Ptr 1 0) 3 s1 = Done (1, to_char 3) s1) /\
  (exists s1, MQTTSNSerialize_willmsgresp (Ptr 1 0) 32 3 s = Done 3 s1 /\
     MQTTSNDeserialize_willmsgresp 0 (Ptr 1 0) 3 s1 = Done (1, to_char 3) s1) /\
  (exists s1, MQTTSNSerialize_willtopicreq (Ptr 1 0) 32 s = Done 2 s1 /\
     MQTTSNDeserialize_willtopicreq (Ptr 1 0) 2 s1 = Done 1 s1 /\
     MQTTSNDeserialize_willmsgreq (Ptr 1 0) 2 s1 = Done (-1) s1) /\
  (exists s1, MQTTSNSerialize_willmsgreq (Ptr 1 0) 32 s = Done 2 s1 /\
     MQTTSNDeserialize_willmsgreq (Ptr 1 0) 2 s1 = Done 1 s1 /\
     MQTTSNDeserialize_willtopicreq (Ptr 1 0) 2 s1 = Done (-1) s1).
Proof.
  apply (sn_answers_roundtrip ex_sn_connect_state 1 0 (replicate 32 (byte_of_Z 170)) 32 3 0); done.
Defined.

(* a PINGRESP taken for an accepted connection *)
Definition ex_sn_pingresp : state unit := state_of [bytes [2; 23]].

Lemma sn_connack_any_type_witness :
  MQTTSNDeserialize_connack 0 (Ptr 1 0) 2 ex_sn_pingresp = Done (1, 0) ex_sn_pingresp.
Proof.
  apply (sn_connack_any_type ex_sn_pingresp 1 0 MQTTSN_PINGRESP [] [] 2 0); try done. bytes_at_concrete.
Defined.
End Witnesses.
