(* ===== verification/SNSubscribe.v ===== *)
(** * MQTT-SN: subscriptions and the search for a gateway

    MQTTSNSubscribeClient.c, MQTTSNSubscribeServer.c, MQTTSNUnsubscribeClient.c,
    MQTTSNUnsubscribeServer.c, MQTTSNSearchClient.c and MQTTSNSearchServer.c of
    paho_mqtt-sn_embedded_c/MQTTSNPacket.  In these packets a topic of the
    normal type is always a name.  All deserializers start with [sn_open]. *)

From S2P Require Import Prelude CMem MQTTPacket MQTTPublish SNPacket SNPublish.

(** Output parameters of the deserializers. *)
Record sn_subscribe_out := { ss_dup : Z; ss_qos : Z; ss_packetid : Z; ss_filter : MQTTSN_topicid }.
Record sn_suback_out := { sb_qos : Z; sb_topicid : Z; sb_packetid : Z; sb_returncode : Z }.
Record sn_gwinfo_out := { gw_gatewayid : Z; gw_address_len : Z; gw_address : ptr }.

Section SNSubscribe.
Context {W : Type} `{CharSign} `{ByteOrder}.

(** ** The filter of SUBSCRIBE and UNSUBSCRIBE

    The two pairs of functions treat it by the same lines. *)

Definition filter_length (topicFilter : MQTTSN_topicid) : M W Z :=
  let len := 4 in
  if tid_type topicFilter =? MQTTSN_TOPIC_TYPE_NORMAL then
    let* n := use (tid_long_len topicFilter) in int (len + n)
  else if (tid_type topicFilter =? MQTTSN_TOPIC_TYPE_SHORT)
          || (tid_type topicFilter =? MQTTSN_TOPIC_TYPE_PREDEFINED) then ret (len + 2)
  else ret len.

Definition write_filter (topicFilter : MQTTSN_topicid) (ptr : ptr) : M W CMem.ptr :=
  if tid_type topicFilter =? MQTTSN_TOPIC_TYPE_NORMAL then
    let* name := use (tid_long_name topicFilter) in
    let* n := use (tid_long_len topicFilter) in
    memcpy ptr name n ;;; ret (padd ptr n)
  else if tid_type topicFilter =? MQTTSN_TOPIC_TYPE_PREDEFINED then
    let* id := tid_id topicFilter in writeInt ptr id
  else if tid_type topicFilter =? MQTTSN_TOPIC_TYPE_SHORT then
    let* c := tid_short0 topicFilter in
    let* ptr := writeChar ptr c in
    let* c := tid_short1 topicFilter in
    writeChar ptr c
  else ret ptr.

Definition read_filter (topicFilter : MQTTSN_topicid) (curdata enddata : ptr) : M W MQTTSN_topicid :=
  if tid_type topicFilter =? MQTTSN_TOPIC_TYPE_NORMAL then
    let* n := psub enddata curdata in
    ret (set_tid_long_name (set_tid_long_len topicFilter n) curdata)
  else if tid_type topicFilter =? MQTTSN_TOPIC_TYPE_PREDEFINED then
    let* (id, curdata) := readInt curdata in ret (set_tid_id topicFilter (u16 id))
  else if tid_type topicFilter =? MQTTSN_TOPIC_TYPE_SHORT then
    let* (c0, curdata) := readChar curdata in
    let* (c1, curdata) := readChar curdata in
    ret (set_tid_short topicFilter c0 c1)
  else ret topicFilter.

(** ** MQTTSNSubscribeClient.c *)

Definition MQTTSNSerialize_subscribeLength := filter_length.

Definition MQTTSNSerialize_subscribe (buf : ptr) (buflen dup qos packetid : Z)
    (topicFilter : MQTTSN_topicid) : M W Z :=
  let ptr := buf in
  let* n := MQTTSNSerialize_subscribeLength topicFilter in
  let* len := MQTTSNPacket_len n in
  if buflen <? len then ret MQTTSNPACKET_BUFFER_TOO_SHORT
  else
    let* ptr := advance ptr (MQTTSNPacket_encode ptr len) in
    let* ptr := writeChar ptr MQTTSN_SUBSCRIBE in
    let flags := 0 in
    let flags := set_sn_dup flags dup in
    let flags := set_sn_QoS flags qos in
    let flags := set_sn_topicIdType flags (tid_type topicFilter) in
    let* ptr := writeChar ptr flags in
    let* ptr := writeInt ptr packetid in
    let* ptr := write_filter topicFilter ptr in
    psub ptr buf.

Definition MQTTSNDeserialize_suback (out : sn_suback_out) (buf : ptr) (buflen : Z) :
    M W (Z * sn_suback_out) :=
  let* (ok, curdata, enddata) := sn_open buf buflen in
  if negb ok then ret (0, out)
  else
    let* (c, curdata) := readChar curdata in
    if negb (c =? MQTTSN_SUBACK) then ret (0, out)
    else
      let* (c, curdata) := readChar curdata in
      let flags := u8 c in
      let* (topicid, curdata) := readInt curdata in
      let* (packetid, curdata) := readInt curdata in
      let* (c, curdata) := readChar curdata in
      ret (1, {| sb_qos := sn_flag_QoS flags; sb_topicid := u16 topicid; sb_packetid := u16 packetid;
                 sb_returncode := u8 c |}).

(** ** MQTTSNSubscribeServer.c *)

Definition MQTTSNDeserialize_subscribe (out : sn_subscribe_out) (buf : ptr) (buflen : Z) :
    M W (Z * sn_subscribe_out) :=
  let* (ok, curdata, enddata) := sn_open buf buflen in
  if negb ok then ret (0, out)
  else
    let* (c, curdata) := readChar curdata in
    if negb (c =? MQTTSN_SUBSCRIBE) then ret (0, out)
    else
      let* (c, curdata) := readChar curdata in
      let flags := u8 c in
      let* (id, curdata) := readInt curdata in
      let filter := set_tid_type (ss_filter out) (sn_flag_topicIdType flags) in
      let* filter := read_filter filter curdata enddata in
      ret (1, {| ss_dup := u8 (sn_flag_dup flags); ss_qos := sn_flag_QoS flags;
                 ss_packetid := u16 id; ss_filter := filter |}).

Definition MQTTSNSerialize_suback (buf : ptr) (buflen qos topicid packetid returncode : Z) : M W Z :=
  let ptr := buf in
  let* len := MQTTSNPacket_len 7 in
  if buflen <? len then ret MQTTSNPACKET_BUFFER_TOO_SHORT
  else
    let* ptr := advance ptr (MQTTSNPacket_encode ptr len) in
    let* ptr := writeChar ptr MQTTSN_SUBACK in
    let flags := 0 in
    let flags := set_sn_QoS flags qos in
    let* ptr := writeChar ptr flags in
    let* ptr := writeInt ptr topicid in
    let* ptr := writeInt ptr packetid in
    let* ptr := writeChar ptr returncode in
    psub ptr buf.

(** ** MQTTSNUnsubscribeClient.c *)

Definition MQTTSNSerialize_unsubscribeLength := filter_length.

Definition MQTTSNSerialize_unsubscribe (buf : ptr) (buflen packetid : Z) (topicFilter : MQTTSN_topicid) :
    M W Z :=
  let ptr := buf in
  let* n := MQTTSNSerialize_unsubscribeLength topicFilter in
  let* len := MQTTSNPacket_len n in
  if buflen <? len then ret MQTTSNPACKET_BUFFER_TOO_SHORT
  else
    let* ptr := advance ptr (MQTTSNPacket_encode ptr len) in
    let* ptr := writeChar ptr MQTTSN_UNSUBSCRIBE in
    let flags := 0 in
    let flags := set_sn_topicIdType flags (tid_type topicFilter) in
    let* ptr := writeChar ptr flags in
    let* ptr := writeInt ptr packetid in
    let* ptr := write_filter topicFilter ptr in
    psub ptr buf.

Definition MQTTSNDeserialize_unsuback (packetid : Z) (buf : ptr) (buflen : Z) : M W (Z * Z) :=
  let* (ok, curdata, enddata) := sn_open buf buflen in
  if negb ok then ret (0, packetid)
  else
    let* (c, curdata) := readChar curdata in
    if negb (c =? MQTTSN_UNSUBACK) then ret (0, packetid)
    else let* (id, curdata) := readInt curdata in ret (1, u16 id).

(** ** MQTTSNUnsubscribeServer.c *)

Definition MQTTSNDeserialize_unsubscribe (packetid : Z) (topicFilter : MQTTSN_topicid) (buf : ptr)
    (buflen : Z) : M W (Z * Z * MQTTSN_topicid) :=
  let* (ok, curdata, enddata) := sn_open buf buflen in
  if negb ok then ret (0, packetid, topicFilter)
  else
    let* (c, curdata) := readChar curdata in
    if negb (c =? MQTTSN_UNSUBSCRIBE) then ret (0, packetid, topicFilter)
    else
      let* (c, curdata) := readChar curdata in
      let flags := u8 c in
      let* (id, curdata) := readInt curdata in
      let filter := set_tid_type topicFilter (sn_flag_topicIdType flags) in
      let* filter := read_filter filter curdata enddata in
      ret (1, u16 id, filter).

Definition MQTTSNSerialize_unsuback (buf : ptr) (buflen packetid : Z) : M W Z :=
  let ptr := buf in
  let* len := MQTTSNPacket_len 3 in
  if buflen <? len then ret MQTTSNPACKET_BUFFER_TOO_SHORT
  else
    let* ptr := advance ptr (MQTTSNPacket_encode ptr len) in
    let* ptr := writeChar ptr MQTTSN_UNSUBACK in
    let* ptr := writeInt ptr packetid in
    psub ptr buf.

(** ** MQTTSNSearchClient.c *)

(** The outputs are the gateway id and the duration. *)
Definition MQTTSNDeserialize_advertise (out : Z * Z) (buf : ptr) (buflen : Z) : M W (Z * (Z * Z)) :=
  let* (ok, curdata, enddata) := sn_open buf buflen in
  if negb ok then ret (0, out)
  else
    let* (c, curdata) := readChar curdata in
    if negb (c =? MQTTSN_ADVERTISE) then ret (0, out)
    else
      let* (c, curdata) := readChar curdata in
      let* (duration, curdata) := readInt curdata in
      ret (1, (u8 c, u16 duration)).

Definition MQTTSNSerialize_searchgw (buf : ptr) (buflen radius : Z) : M W Z :=
  let ptr := buf in
  let* len := MQTTSNPacket_len 2 in
  if buflen <? len then ret MQTTSNPACKET_BUFFER_TOO_SHORT
  else
    let* ptr := advance ptr (MQTTSNPacket_encode ptr len) in
    let* ptr := writeChar ptr MQTTSN_SEARCHGW in
    let* ptr := writeChar ptr radius in
    psub ptr buf.

(** The test [gatewayaddress_len > 0] is one of the output pointer, which is
    not null: the address is [curdata] also when it is empty. *)
Definition MQTTSNDeserialize_gwinfo (out : sn_gwinfo_out) (buf : ptr) (buflen : Z) :
    M W (Z * sn_gwinfo_out) :=
  let* (ok, curdata, enddata) := sn_open buf buflen in
  if negb ok then ret (0, out)
  else
    let* (c, curdata) := readChar curdata in
    if negb (c =? MQTTSN_GWINFO) then ret (0, out)
    else
      let* (c, curdata) := readChar curdata in
      let* n := psub enddata curdata in
      ret (1, {| gw_gatewayid := u8 c; gw_address_len := u16 n; gw_address := curdata |}).

(** ** MQTTSNSearchServer.c *)

Definition MQTTSNSerialize_advertise (buf : ptr) (buflen gatewayid duration : Z) : M W Z :=
  let ptr := buf in
  let* len := MQTTSNPacket_len 4 in
  if buflen <? len then ret MQTTSNPACKET_BUFFER_TOO_SHORT
  else
    let* ptr := advance ptr (MQTTSNPacket_encode ptr len) in
    let* ptr := writeChar ptr MQTTSN_ADVERTISE in
    let* ptr := writeChar ptr gatewayid in
    let* ptr := writeInt ptr duration in
    psub ptr buf.

Definition MQTTSNDeserialize_searchgw (radius : Z) (buf : ptr) (buflen : Z) : M W (Z * Z) :=
  let* (ok, curdata, enddata) := sn_open buf buflen in
  if negb ok then ret (0, radius)
  else
    let* (c, curdata) := readChar curdata in
    if negb (c =? MQTTSN_SEARCHGW) then ret (0, radius)
    else let* (c, curdata) := readChar curdata in ret (1, u8 c).

Definition MQTTSNSerialize_gwinfo (buf : ptr) (buflen gatewayid gatewayaddress_len : Z)
    (gatewayaddress : ptr) : M W Z :=
  let ptr := buf in
  let* n := int (2 + gatewayaddress_len) in
  let* len := MQTTSNPacket_len n in
  if buflen <? len then ret MQTTSNPACKET_BUFFER_TOO_SHORT
  else
    let* ptr := advance ptr (MQTTSNPacket_encode ptr len) in
    let* ptr := writeChar ptr MQTTSN_GWINFO in
    let* ptr := writeChar ptr gatewayid in
    let* ptr :=
      (if (0 <? gatewayaddress_len) && negb (is_null gatewayaddress)
       then memcpy ptr gatewayaddress gatewayaddress_len ;;; ret (padd ptr gatewayaddress_len)
       else ret ptr) in
    psub ptr buf.
End SNSubscribe.

(** ** The packets on the wire *)

(** A filter: [topic_denotes] with QoS 3, for which the normal type means a name. *)
Definition filter_denotes `{ByteOrder} (holds : ptr -> list byte -> Prop) (t : MQTTSN_topicid)
    (filter : sn_topic) : Prop :=
  topic_denotes holds 3 t filter.

Definition filter_bytes (filter : sn_topic) : list byte :=
  match filter with
  | TopicId _ id => int_bytes id
  | TopicShort c0 c1 => [byte_of_Z c0; byte_of_Z c1]
  | TopicLong name => name
  end.

Definition sn_subscribe_body (dup qos packetid : Z) (filter : sn_topic) : list byte :=
  byte_of_Z (sn_flags dup qos 0 0 0 (topic_type filter)) :: int_bytes packetid ++ filter_bytes filter.

Definition sn_suback_body (qos topicid packetid returncode : Z) : list byte :=
  byte_of_Z (sn_flags 0 qos 0 0 0 0) :: int_bytes topicid ++ int_bytes packetid ++ [byte_of_Z returncode].

Section SNSubscribeFacts.
Context {W : Type} `{CharSign} `{ByteOrder}.
Implicit Types (s : state W) (b : block).

(** The tests on the type, by the kind of the filter. *)
Lemma filter_type P t filter :
  filter_denotes P t filter ->
  tid_type t = topic_type filter /\
  (topic_type filter =? MQTTSN_TOPIC_TYPE_NORMAL) = match filter with TopicLong _ => true | _ => false end /\
  (topic_type filter =? MQTTSN_TOPIC_TYPE_PREDEFINED) = match filter with TopicId _ _ => true | _ => false end /\
  (topic_type filter =? MQTTSN_TOPIC_TYPE_SHORT) = match filter with TopicShort _ _ => true | _ => false end /\
  0 <= topic_type filter < 4.
Proof.
  destruct filter; cbn [topic_type].
  - intros (-> & [[_ ?]| ->] & _); done.
  - by intros (-> & _).
  - by intros (-> & _).
Qed.

Lemma filter_length_run s P t filter :
  filter_denotes P t filter -> filter_length t s = Done (4 + zlen (filter_bytes filter)) s.
Proof.
  intros Hf. pose proof (filter_type _ _ _ Hf) as (Ht & Hn & Hp & Hs & _).
  unfold filter_length. rewrite Ht, Hn, Hp, Hs. destruct filter as [ty id|c0 c1|name]; [done..|].
  destruct Hf as (_ & _ & Hlen & -> & _). unfold use. run_ret.
  apply int_done. unfold INT_MIN, INT_MAX. cbn [filter_bytes]. lia.
Qed.

Lemma writes_filter s b t filter :
  filter_denotes (payload_is (mem s) b) t filter -> writes s b (write_filter t) (filter_bytes filter).
Proof.
  intros Hf. pose proof (filter_type _ _ _ Hf) as (Ht & Hn & Hp & Hs & _).
  unfold write_filter. rewrite Ht, Hn, Hp, Hs. destruct filter as [ty id|c0 c1|name]; cbn [filter_bytes].
  - destruct Hf as (_ & _ & Hr & E0 & E1).
    eapply writes_ext, (writes_int s b id); [|lia]. intros p s'. unfold tid_id. rewrite E0, E1.
    unfold use. rewrite !bind_assoc, bind_ret, bind_assoc, bind_ret, bind_ret.
    by rewrite (proj1 (short_bytes_spec id Hr)).
  - destruct Hf as (_ & _ & _ & E0 & E1). rewrite <- (byte_of_to_char c0), <- (byte_of_to_char c1).
    eapply writes_ext, (writes_bind s b _ _ [_] [_] (writes_char s b (to_char c0))
      (writes_char s b (to_char c1))).
    intros p s'. unfold tid_short0, tid_short1. rewrite E0, E1. unfold use.
    rewrite bind_assoc, !bind_ret. unfold bind. by destruct (writeChar p _ s').
  - destruct Hf as (_ & _ & _ & -> & p & -> & Hp'). unfold use.
    by eapply writes_ext, (writes_memcpy' s b p name (zlen name) Hp').
Qed.

(** Where a name was stored, the union holds no identifier. *)
Definition holds_pointer (t : MQTTSN_topicid) (filter : sn_topic) : Prop :=
  match filter with TopicLong _ => tid_byte0 t = None | _ => True end.

Lemma read_filter_run s b o n P t filter t0 :
  filter_denotes P t filter -> tid_type t0 = topic_type filter ->
  bytes_at (mem s) b o (filter_bytes filter ++ []) -> n = o + zlen (filter_bytes filter) ->
  exists t1, read_filter t0 (Ptr b o) (Ptr b n) s = Done t1 s /\
    filter_denotes (in_block (mem s) b) t1 filter /\ holds_pointer t1 filter.
Proof.
  intros Hf Ht0 Hat ->. pose proof (filter_type _ _ _ Hf) as (_ & Hn & Hp & Hs & _).
  unfold read_filter. rewrite Ht0, Hn, Hp, Hs. destruct filter as [ty id|c0 c1|name]; cbn [filter_bytes] in *.
  - destruct Hf as (_ & Hk & Hr & _). erewrite bind_done by by eapply readInt_int_bytes.
    cbv beta iota. rewrite u16_small by done. unfold set_tid_id.
    destruct (short_bytes id) as [b0 b1] eqn:Eb. eexists. split; [done|]. split; [|done].
    unfold filter_denotes. cbn [topic_denotes tid_type tid_byte0 tid_byte1]. by rewrite Ht0, Eb.
  - destruct Hf as (_ & Hc0 & Hc1 & _). cbn [app] in Hat.
    erewrite bind_done by by eapply readChar_byte. apply bytes_at_tail in Hat. cbv beta iota.
    erewrite bind_done by by eapply readChar_byte. cbv beta iota. eexists. split; [done|]. split; [|done].
    unfold filter_denotes, set_tid_short. cbn [topic_denotes tid_type tid_byte0 tid_byte1].
    by rewrite ?u8_readChar, ?Ht0 by done.
  - destruct Hf as (_ & _ & Hlen & _). run_psub. replace (o + zlen name - o) with (zlen name) by lia.
    eexists. split; [done|]. split; [|done]. unfold filter_denotes.
    cbn [topic_denotes tid_type tid_long_len tid_long_name set_tid_long_name set_tid_long_len].
    split_and!; try done. eexists. split; [done|]. exists o. split; [done|]. by rewrite app_nil_r in Hat.
Qed.

(** What the deserializers do before they look at the body. *)
Lemma sn_open_type s b o (ty : MQTTSN_msgTypes) body rest buflen {A} (out : A)
    (k : ptr -> ptr -> M W A) :
  bytes_at (mem s) b o (sn_packet ty body ++ rest) -> 0 <= ty < 128 ->
  1 + zlen body <> 255 -> zlen body <= 65531 -> sn_size (1 + zlen body) <= buflen ->
  exists e, bytes_at (mem s) b e (body ++ rest) /\
    (let* (ok, curdata, enddata) := sn_open (Ptr b o) buflen in
     if negb ok then ret out
     else let* (c, curdata) := readChar curdata in
          if negb (c =? ty) then ret out else k curdata enddata) s =
    k (Ptr b e) (Ptr b (e + zlen body)) s.
Proof.
  intros Hat Hty H255 Hmax Hbuf. pose proof (sn_frame_size body H255 Hmax) as (Hn & _).
  exists (o + zlen (sn_length (sn_size (1 + zlen body))) + 1).
  erewrite bind_done by by eapply sn_open_packet. cbv beta iota zeta. cbn [negb].
  apply sn_packet_at in Hat as (_ & Htype & Hat). split; [done|].
  erewrite bind_done by by eapply sn_read_type. cbv beta iota. rewrite Z.eqb_refl. cbn [negb].
  do 2 f_equal. lia.
Qed.

Lemma sn_subscribe_body_length dup qos packetid filter :
  zlen (sn_subscribe_body dup qos packetid filter) = 3 + zlen (filter_bytes filter).
Proof.
  unfold sn_subscribe_body. rewrite length_cons, length_app.
  change (length (int_bytes packetid)) with 2%nat. lia.
Qed.

Lemma sn_flags_subscribe d q t :
  set_sn_topicIdType (set_sn_QoS (set_sn_dup 0 d) q) t = sn_flags d q 0 0 0 t.
Proof.
  unfold set_sn_dup, set_sn_QoS, set_sn_topicIdType, sn_flags.
  rewrite (bf_set_clear _ 7) by (simpl; divmod_lia). rewrite (bf_set_clear _ 5) by (simpl; divmod_lia).
  rewrite (bf_set_clear _ 0) by (simpl; divmod_lia). simpl. divmod_lia.
Qed.

Lemma sn_flags_type t : set_sn_topicIdType 0 t = sn_flags 0 0 0 0 0 t.
Proof.
  unfold set_sn_topicIdType, sn_flags. rewrite (bf_set_clear _ 0) by (simpl; divmod_lia). simpl. divmod_lia.
Qed.

Lemma sn_flags_qos q : set_sn_QoS 0 q = sn_flags 0 q 0 0 0 0.
Proof.
  unfold set_sn_QoS, sn_flags. rewrite (bf_set_clear _ 5) by (simpl; divmod_lia). simpl. divmod_lia.
Qed.

(** The four packets of fixed layout, written in a buffer with room. *)
Lemma sn_fixed_run s b o l buflen (ty : MQTTSN_msgTypes) rest body m :
  mem s !! b = Some l -> 0 <= o -> serializes s b o rest body -> m = 1 + zlen body ->
  zlen body <= 100 -> m + 1 <= buflen <= zlen l - o ->
  let wire := sn_packet ty body in
  let s1 := set_block s b (splice l o wire) in
  bind (MQTTSNPacket_len m) (fun len =>
    if buflen <? len then ret MQTTSNPACKET_BUFFER_TOO_SHORT
    else bind (advance (Ptr b o) (MQTTSNPacket_encode (Ptr b o) len))
           (fun p => bind (writeChar p ty) rest)) s = Done (m + 1) s1 /\
  bytes_at (mem s1) b o (wire ++ []) /\ sn_size (1 + zlen body) = m + 1.
Proof.
  intros Hb Ho Hrest Hm Hmax Hbuf wire s1.
  assert (Hs : sn_size (1 + zlen body) = m + 1)
    by (unfold sn_size; rewrite (proj2 (Z.ltb_ge 255 _)) by lia; lia).
  destruct (sn_serialize_room s b o l buflen m ty rest body Hb Ho ltac:(lia) Hrest Hm ltac:(lia)
    ltac:(lia) ltac:(rewrite Hm, Hs; lia)) as (Hrun & Hat & Hw).
  split_and!; [|done|done]. by rewrite Hrun, Hw, Hs.
Qed.

Lemma serializes_filter s b base f packetid t filter :
  filter_denotes (payload_is (mem s) b) t filter -> 0 <= packetid ->
  serializes s b base (fun p => let* p := writeChar p f in
    let* p := writeInt p packetid in let* p := write_filter t p in psub p (Ptr b base))
    (byte_of_Z f :: int_bytes packetid ++ filter_bytes filter).
Proof.
  intros Hf Hid. eapply (serializes_bind s b base _ _ [_]); [apply writes_char|].
  eapply (serializes_bind s b base); [by apply writes_int|]. by apply serializes_last, writes_filter.
Qed.

(** The body of both packets read back, piece by piece. *)
Lemma read_filter_body s b e f packetid P t filter t1 :
  bytes_at (mem s) b e ((byte_of_Z f :: int_bytes packetid ++ filter_bytes filter) ++ []) ->
  0 <= packetid < 65536 -> filter_denotes P t filter -> tid_type t1 = topic_type filter ->
  readChar (Ptr b e) s = Done (to_char f, Ptr b (e + 1)) s /\
  readInt (Ptr b (e + 1)) s = Done (packetid, Ptr b (e + 3)) s /\
  exists t2, read_filter t1 (Ptr b (e + 3)) (Ptr b (e + (3 + zlen (filter_bytes filter)))) s = Done t2 s /\
    filter_denotes (in_block (mem s) b) t2 filter /\ holds_pointer t2 filter.
Proof.
  intros Hat Hid Hf Ht1. cbn [app] in Hat. rewrite <- app_assoc in Hat.
  split; [by eapply readChar_byte|]. apply bytes_at_tail in Hat.
  split; [erewrite readInt_int_bytes by (exact Hat || done); do 2 f_equal; f_equal; lia|].
  apply bytes_at_app in Hat as [_ Hat]. change (zlen (int_bytes packetid)) with 2 in Hat.
  eapply read_filter_run; [done|done|eapply bytes_at_eq; [exact Hat|lia]|lia].
Qed.

(** SUBSCRIBE and UNSUBSCRIBE are read back. *)
Lemma sn_deserialize_subscribe_packet s b o dup qos packetid P t filter out buflen :
  let body := sn_subscribe_body dup qos packetid filter in
  filter_denotes P t filter -> 0 <= packetid < 65536 -> 1 + zlen body <> 255 -> zlen body <= 65531 ->
  sn_size (1 + zlen body) <= buflen ->
  bytes_at (mem s) b o (sn_packet MQTTSN_SUBSCRIBE body ++ []) ->
  exists out', MQTTSNDeserialize_subscribe out (Ptr b o) buflen s = Done (1, out') s /\
    ss_dup out' = u8 (- (dup mod 2)) /\ ss_qos out' = qos mod 4 /\
    ss_packetid out' = packetid /\ filter_denotes (in_block (mem s) b) (ss_filter out') filter.
Proof.
  intros body Hf Hid H255 Hmax Hbuf Hat. pose proof (filter_type _ _ _ Hf) as (Ht & _ & _ & _ & Hty).
  pose proof (sn_subscribe_body_length dup qos packetid filter : zlen body = _) as Hlen.
  set (f := sn_flags dup qos 0 0 0 (topic_type filter)).
  set (t1 := set_tid_type (ss_filter out) (topic_type filter)).
  edestruct (sn_open_type s b o MQTTSN_SUBSCRIBE) as (e & Hbody & Hopen); [exact Hat|done|done|done|exact Hbuf|].
  destruct (read_filter_body s b e f packetid _ t filter t1 Hbody Hid Hf eq_refl) as (H1 & H2 & t2 & H3 & Hden & Hptr).
  destruct (sn_flag_fields dup qos 0 0 0 (topic_type filter)) as (Fd & Fq & _ & _ & _ & Ft).
  rewrite (Z.mod_small (topic_type filter)) in Ft by lia.
  eexists. split_and!.
  - unfold MQTTSNDeserialize_subscribe. rewrite Hopen, (bind_done _ _ _ _ _ H1). cbv beta iota zeta.
    rewrite u8_readChar by apply sn_flags_range. unfold f at 1 2 3. rewrite Fd, Fq, Ft. fold t1.
    rewrite (bind_done _ _ _ _ _ H2). cbv beta iota. rewrite Hlen. by rewrite (bind_done _ _ _ _ _ H3).
  - done.
  - done.
  - by apply u16_small.
  - done.
Qed.

Lemma sn_deserialize_unsubscribe_packet s b o packetid P t filter id0 t0 buflen :
  let body := sn_subscribe_body 0 0 packetid filter in
  filter_denotes P t filter -> 0 <= packetid < 65536 -> 1 + zlen body <> 255 -> zlen body <= 65531 ->
  sn_size (1 + zlen body) <= buflen ->
  bytes_at (mem s) b o (sn_packet MQTTSN_UNSUBSCRIBE body ++ []) ->
  exists t', MQTTSNDeserialize_unsubscribe id0 t0 (Ptr b o) buflen s = Done (1, packetid, t') s /\
    filter_denotes (in_block (mem s) b) t' filter /\ holds_pointer t' filter.
Proof.
  intros body Hf Hid H255 Hmax Hbuf Hat. pose proof (filter_type _ _ _ Hf) as (Ht & _ & _ & _ & Hty).
  pose proof (sn_subscribe_body_length 0 0 packetid filter : zlen body = _) as Hlen.
  set (f := sn_flags 0 0 0 0 0 (topic_type filter)).
  set (t1 := set_tid_type t0 (topic_type filter)).
  edestruct (sn_open_type s b o MQTTSN_UNSUBSCRIBE) as (e & Hbody & Hopen); [exact Hat|done|done|done|exact Hbuf|].
  destruct (read_filter_body s b e f packetid _ t filter t1 Hbody Hid Hf eq_refl) as (H1 & H2 & t2 & H3 & Hden & Hptr).
  destruct (sn_flag_fields 0 0 0 0 0 (topic_type filter)) as (_ & _ & _ & _ & _ & Ft).
  rewrite (Z.mod_small (topic_type filter)) in Ft by lia.
  eexists. split; [|by split; [exact Hden|]].
  unfold MQTTSNDeserialize_unsubscribe. rewrite Hopen, (bind_done _ _ _ _ _ H1). cbv beta iota zeta.
  rewrite u8_readChar by apply sn_flags_range. unfold f at 1. rewrite Ft. fold t1.
  rewrite (bind_done _ _ _ _ _ H2). cbv beta iota. rewrite Hlen. rewrite (bind_done _ _ _ _ _ H3).
  by rewrite u16_small.
Qed.

(** Both serializers, in a buffer with room. *)
Lemma sn_serialize_subscribe_room s b o l buflen dup qos packetid t filter :
  let body := sn_subscribe_body dup qos packetid filter in
  let wire := sn_packet MQTTSN_SUBSCRIBE body in
  mem s !! b = Some l -> 0 <= o -> sn_size (1 + zlen body) <= buflen <= zlen l - o ->
  filter_denotes (payload_is (mem s) b) t filter ->
  0 <= packetid < 65536 -> 1 + zlen body <> 255 -> zlen body <= 65531 ->
  let s1 := set_block s b (splice l o wire) in
  MQTTSNSerialize_subscribe (Ptr b o) buflen dup qos packetid t s = Done (zlen wire) s1 /\
  bytes_at (mem s1) b o (wire ++ []) /\ zlen wire = sn_size (1 + zlen body).
Proof.
  intros body wire Hb Ho Hbuf Hf Hid H255 Hmax s1. pose proof (filter_type _ _ _ Hf) as (Ht & _ & _ & _ & Hty).
  pose proof (sn_subscribe_body_length dup qos packetid filter : zlen body = _) as Hlen.
  set (f := sn_flags dup qos 0 0 0 (topic_type filter)).
  destruct (sn_serialize_room s b o l buflen (1 + zlen body) MQTTSN_SUBSCRIBE _ body Hb Ho ltac:(lia)
    (serializes_filter s b o f packetid t filter Hf ltac:(lia)) eq_refl H255 Hmax ltac:(lia)) as (Hrun & Hat & Hw).
  split; [|by split]. unfold MQTTSNSerialize_subscribe, MQTTSNSerialize_subscribeLength.
  erewrite bind_done by by eapply filter_length_run.
  rewrite sn_flags_subscribe, Ht. fold f. unfold s1, wire. rewrite <- Hrun, Hlen. do 2 f_equal. lia.
Qed.

Lemma sn_serialize_unsubscribe_room s b o l buflen packetid t filter :
  let body := sn_subscribe_body 0 0 packetid filter in
  let wire := sn_packet MQTTSN_UNSUBSCRIBE body in
  mem s !! b = Some l -> 0 <= o -> sn_size (1 + zlen body) <= buflen <= zlen l - o ->
  filter_denotes (payload_is (mem s) b) t filter ->
  0 <= packetid < 65536 -> 1 + zlen body <> 255 -> zlen body <= 65531 ->
  let s1 := set_block s b (splice l o wire) in
  MQTTSNSerialize_unsubscribe (Ptr b o) buflen packetid t s = Done (zlen wire) s1 /\
  bytes_at (mem s1) b o (wire ++ []) /\ zlen wire = sn_size (1 + zlen body).
Proof.
  intros body wire Hb Ho Hbuf Hf Hid H255 Hmax s1. pose proof (filter_type _ _ _ Hf) as (Ht & _ & _ & _ & Hty).
  pose proof (sn_subscribe_body_length 0 0 packetid filter : zlen body = _) as Hlen.
  set (f := sn_flags 0 0 0 0 0 (topic_type filter)).
  destruct (sn_serialize_room s b o l buflen (1 + zlen body) MQTTSN_UNSUBSCRIBE _ body Hb Ho ltac:(lia)
    (serializes_filter s b o f packetid t filter Hf ltac:(lia)) eq_refl H255 Hmax ltac:(lia)) as (Hrun & Hat & Hw).
  split; [|by split]. unfold MQTTSNSerialize_unsubscribe, MQTTSNSerialize_unsubscribeLength.
  erewrite bind_done by by eapply filter_length_run.
  rewrite sn_flags_type, Ht. fold f. unfold s1, wire. rewrite <- Hrun, Hlen. do 2 f_equal. lia.
Qed.

(** Both acknowledgements, read back. *)
Lemma sn_deserialize_suback_packet s b o qos topicid packetid returncode out buflen :
  bytes_at (mem s) b o (sn_packet MQTTSN_SUBACK (sn_suback_body qos topicid packetid returncode) ++ []) ->
  8 <= buflen -> 0 <= topicid < 65536 -> 0 <= packetid < 65536 -> 0 <= returncode < 256 ->
  MQTTSNDeserialize_suback out (Ptr b o) buflen s =
    Done (1, {| sb_qos := qos mod 4; sb_topicid := topicid; sb_packetid := packetid; sb_returncode := returncode |}) s.
Proof.
  intros Hat Hbuf Ht Hid Hr. unfold MQTTSNDeserialize_suback.
  edestruct @sn_open_type as (e & Hbody & ->); [exact Hat|done..|].
  unfold sn_suback_body in Hbody. cbn [app] in Hbody. rewrite <- !app_assoc in Hbody.
  erewrite bind_done by (eapply readChar_byte; exact Hbody). cbv beta iota zeta.
  rewrite u8_readChar by apply sn_flags_range.
  destruct (sn_flag_fields 0 qos 0 0 0 0) as (_ & -> & _). apply bytes_at_tail in Hbody.
  erewrite bind_done by (eapply readInt_int_bytes; [exact Hbody|lia]). cbv beta iota. apply bytes_at_app in Hbody as [_ Hbody].
  erewrite bind_done by (eapply readInt_int_bytes; [exact Hbody|lia]). cbv beta iota. apply bytes_at_app in Hbody as [_ Hbody].
  erewrite bind_done by (eapply readChar_byte; exact Hbody). cbv beta iota. by rewrite !u16_small, u8_readChar.
Qed.

Lemma sn_deserialize_unsuback_packet s b o packetid id0 buflen :
  bytes_at (mem s) b o (sn_packet MQTTSN_UNSUBACK (int_bytes packetid) ++ []) -> 4 <= buflen -> 0 <= packetid < 65536 ->
  MQTTSNDeserialize_unsuback id0 (Ptr b o) buflen s = Done (1, packetid) s.
Proof.
  intros Hat Hbuf Hid. unfold MQTTSNDeserialize_unsuback.
  edestruct @sn_open_type as (e & Hbody & ->); [exact Hat|done..|].
  erewrite bind_done by (eapply readInt_int_bytes; [exact Hbody|lia]). cbv beta iota. by rewrite u16_small.
Qed.

Lemma sn_subscribe_run s b o l buflen dup qos packetid t filter out :
  let body := sn_subscribe_body dup qos packetid filter in
  mem s !! b = Some l -> 0 <= o -> sn_size (1 + zlen body) <= buflen <= zlen l - o ->
  filter_denotes (payload_is (mem s) b) t filter ->
  0 <= packetid < 65536 -> 1 + zlen body <> 255 -> zlen body <= 65531 ->
  exists n s1 out',
    MQTTSNSerialize_subscribe (Ptr b o) buflen dup qos packetid t s = Done n s1 /\
    MQTTSNDeserialize_subscribe out (Ptr b o) n s1 = Done (1, out') s1 /\
    ss_dup out' = u8 (- (dup mod 2)) /\ ss_qos out' = qos mod 4 /\
    ss_packetid out' = packetid /\ filter_denotes (in_block (mem s1) b) (ss_filter out') filter.
Proof.
  intros body Hb Ho Hbuf Hf Hid H255 Hmax.
  destruct (sn_serialize_subscribe_room s b o l buflen dup qos packetid t filter) as (Hrun & Hat & Hw); try done.
  set (s1 := set_block _ _ _) in *. set (wire := sn_packet _ _) in *.
  destruct (sn_deserialize_subscribe_packet s1 b o dup qos packetid _ t filter out (zlen wire) Hf Hid H255 Hmax
    (Z.eq_le_incl _ _ (eq_sym Hw)) Hat) as (out' & Hde & Hres). exists (zlen wire), s1, out'.
  split; [exact Hrun|by split].
Qed.

Lemma sn_unsubscribe_run s b o l buflen packetid t filter id0 t0 :
  let body := sn_subscribe_body 0 0 packetid filter in
  mem s !! b = Some l -> 0 <= o -> sn_size (1 + zlen body) <= buflen <= zlen l - o ->
  filter_denotes (payload_is (mem s) b) t filter ->
  0 <= packetid < 65536 -> 1 + zlen body <> 255 -> zlen body <= 65531 ->
  exists n s1 t',
    MQTTSNSerialize_unsubscribe (Ptr b o) buflen packetid t s = Done n s1 /\
    MQTTSNDeserialize_unsubscribe id0 t0 (Ptr b o) n s1 = Done (1, packetid, t') s1 /\
    filter_denotes (in_block (mem s1) b) t' filter.
Proof.
  intros body Hb Ho Hbuf Hf Hid H255 Hmax.
  destruct (sn_serialize_unsubscribe_room s b o l buflen packetid t filter) as (Hrun & Hat & Hw); try done.
  set (s1 := set_block _ _ _) in *. set (wire := sn_packet _ _) in *.
  destruct (sn_deserialize_unsubscribe_packet s1 b o packetid _ t filter id0 t0 (zlen wire) Hf Hid H255 Hmax
    (Z.eq_le_incl _ _ (eq_sym Hw)) Hat) as (t' & Hde & Hres & _). exists (zlen wire), s1, t'.
  split; [exact Hrun|by split].
Qed.
End SNSubscribeFacts.

(** ** Properties *)

Section SNSubscribeProperties.
Context {W : Type} `{CharSign} `{ByteOrder}.
Implicit Types (s : state W) (b : block).

(** SUBSCRIBE and UNSUBSCRIBE of MQTT-SN round-trip for the three kinds of
    filters: the server's deserializers give back packet identifier and filter
    (a name in place in the buffer), and for SUBSCRIBE the QoS; a set dup flag
    comes back as 255. *)
Theorem sn_subscribe_roundtrip s b o l buflen dup qos packetid t filter out id0 t0 :
  let body := sn_subscribe_body dup qos packetid filter in
  mem s !! b = Some l -> 0 <= o -> sn_size (1 + zlen body) <= buflen <= zlen l - o ->
  filter_denotes (payload_is (mem s) b) t filter ->
  0 <= packetid < 65536 -> 1 + zlen body <> 255 -> zlen body <= 65531 ->
  (exists n s1 out',
     MQTTSNSerialize_subscribe (Ptr b o) buflen dup qos packetid t s = Done n s1 /\
     MQTTSNDeserialize_subscribe out (Ptr b o) n s1 = Done (1, out') s1 /\
     ss_dup out' = u8 (- (dup mod 2)) /\ ss_qos out' = qos mod 4 /\
     ss_packetid out' = packetid /\ filter_denotes (in_block (mem s1) b) (ss_filter out') filter) /\
  (exists n s1 t',
     MQTTSNSerialize_unsubscribe (Ptr b o) buflen packetid t s = Done n s1 /\
     MQTTSNDeserialize_unsubscribe id0 t0 (Ptr b o) n s1 = Done (1, packetid, t') s1 /\
     filter_denotes (in_block (mem s1) b) t' filter).
Proof.
  intros body Hb Ho Hbuf Hf Hid H255 Hmax. split; [by eapply sn_subscribe_run|].
  assert (zlen (sn_subscribe_body 0 0 packetid filter) = zlen body) as Hl
    by (unfold body; by rewrite !sn_subscribe_body_length).
  apply (sn_unsubscribe_run s b o l buflen packetid t filter id0 t0); rewrite ?Hl; done.
Qed.

(** SUBACK and UNSUBACK round-trip. *)
Theorem sn_suback_roundtrip s b o l buflen qos topicid packetid returncode out id0 :
  mem s !! b = Some l -> 0 <= o -> 8 <= buflen <= zlen l - o ->
  0 <= topicid < 65536 -> 0 <= packetid < 65536 -> 0 <= returncode < 256 ->
  (exists s1, MQTTSNSerialize_suback (Ptr b o) buflen qos topicid packetid returncode s = Done 8 s1 /\
     MQTTSNDeserialize_suback out (Ptr b o) 8 s1 =
       Done (1, {| sb_qos := qos mod 4; sb_topicid := topicid; sb_packetid := packetid;
                   sb_returncode := returncode |}) s1) /\
  (exists s1, MQTTSNSerialize_unsuback (Ptr b o) buflen packetid s = Done 4 s1 /\
     MQTTSNDeserialize_unsuback id0 (Ptr b o) 4 s1 = Done (1, packetid) s1).
Proof.
  intros Hb Ho Hbuf Ht Hid Hr. split.
  - destruct (sn_fixed_run s b o l buflen MQTTSN_SUBACK (fun p =>
      let* p := writeChar p (sn_flags 0 qos 0 0 0 0) in let* p := writeInt p topicid in
      let* p := writeInt p packetid in let* p := writeChar p returncode in psub p (Ptr b o))
      (sn_suback_body qos topicid packetid returncode) 7 Hb Ho) as (Hrun & Hat & Hs); try done; try lia.
    { eapply (serializes_bind s b o _ _ [_]); [apply writes_char|].
      do 2 (eapply (serializes_bind s b o); [apply writes_int; lia|]). by apply serializes_last, writes_char. }
    eexists. split; [unfold MQTTSNSerialize_suback; rewrite sn_flags_qos; exact Hrun|].
    by apply sn_deserialize_suback_packet.
  - destruct (sn_fixed_run s b o l buflen MQTTSN_UNSUBACK (fun p =>
      let* p := writeInt p packetid in psub p (Ptr b o)) (int_bytes packetid) 3 Hb Ho)
      as (Hrun & Hat & Hs); try done; try lia; [apply serializes_last, writes_int; lia|].
    eexists. split; [exact Hrun|]. by apply sn_deserialize_unsuback_packet.
Qed.

(** The search for a gateway round-trips: ADVERTISE, SEARCHGW and
    GWINFO, the address of the last in place in the buffer; an empty address
    comes back as a pointer and not as NULL. *)
Theorem sn_search_roundtrip s b o l buflen gatewayid duration radius p addr out old gw :
  mem s !! b = Some l -> 0 <= o -> 5 <= buflen -> sn_size (2 + zlen addr) <= buflen <= zlen l - o ->
  0 <= gatewayid < 256 -> 0 <= duration < 65536 -> 0 <= radius < 256 ->
  payload_is (mem s) b p addr -> 2 + zlen addr <> 255 -> zlen addr <= 65530 ->
  (exists s1, MQTTSNSerialize_advertise (Ptr b o) buflen gatewayid duration s = Done 5 s1 /\
     MQTTSNDeserialize_advertise out (Ptr b o) 5 s1 = Done (1, (gatewayid, duration)) s1) /\
  (exists s1, MQTTSNSerialize_searchgw (Ptr b o) buflen radius s = Done 3 s1 /\
     MQTTSNDeserialize_searchgw old (Ptr b o) 3 s1 = Done (1, radius) s1) /\
  (exists n s1 gw', MQTTSNSerialize_gwinfo (Ptr b o) buflen gatewayid (zlen addr) p s = Done n s1 /\
     MQTTSNDeserialize_gwinfo gw (Ptr b o) n s1 = Done (1, gw') s1 /\
     gw_gatewayid gw' = gatewayid /\ gw_address_len gw' = zlen addr /\
     in_block (mem s1) b (gw_address gw') addr).
Proof.
  intros Hb Ho H5 Hbuf Hg Hd Hr Hp H255 Hmax. split_and!.
  - destruct (sn_fixed_run s b o l buflen MQTTSN_ADVERTISE (fun p => let* p := writeChar p gatewayid in
      let* p := writeInt p duration in psub p (Ptr b o)) (byte_of_Z gatewayid :: int_bytes duration) 4 Hb Ho)
      as (Hrun & Hat & Hs); try done; try lia.
    { eapply (serializes_bind s b o _ _ [_]); [apply writes_char|]. apply serializes_last, writes_int. lia. }
    eexists. split; [exact Hrun|]. unfold MQTTSNDeserialize_advertise.
    edestruct @sn_open_type as (e & Hbody & ->); [exact Hat|done..|].
    erewrite bind_done by (eapply readChar_byte; exact Hbody). cbv beta iota. apply bytes_at_tail in Hbody.
    erewrite bind_done by (eapply readInt_int_bytes; [exact Hbody|lia]). cbv beta iota. by rewrite u16_small, u8_readChar.
  - destruct (sn_fixed_run s b o l buflen MQTTSN_SEARCHGW (fun p => let* p := writeChar p radius in
      psub p (Ptr b o)) [byte_of_Z radius] 2 Hb Ho) as (Hrun & Hat & Hs); try done; try lia.
    { apply serializes_last, writes_char. }
    eexists. split; [exact Hrun|]. unfold MQTTSNDeserialize_searchgw.
    edestruct @sn_open_type as (e & Hbody & ->); [exact Hat|done..|].
    erewrite bind_done by (eapply readChar_byte; exact Hbody). cbv beta iota. by rewrite u8_readChar.
  - assert (Hw : writes s b (fun q => if (0 <? zlen addr) && negb (is_null p)
      then memcpy q p (zlen addr) ;;; ret (padd q (zlen addr)) else ret q) addr).
    { destruct Hp as [->|(b' & o' & -> & Hne & Hat)]; [apply writes_nil|]. cbn [is_null negb].
      rewrite andb_true_r. destruct addr as [|x addr]; [apply writes_nil|].
      test_true (0 <? zlen (x :: addr)). apply writes_memcpy'; [|done]. right. eauto. }
    destruct (sn_serialize_room s b o l buflen (2 + zlen addr) MQTTSN_GWINFO (fun q =>
      let* q := writeChar q gatewayid in let* q := (if (0 <? zlen addr) && negb (is_null p)
      then memcpy q p (zlen addr) ;;; ret (padd q (zlen addr)) else ret q) in psub q (Ptr b o))
      (byte_of_Z gatewayid :: addr) Hb Ho ltac:(lia)) as (Hrun & Hat & Hsize); try zlen_lia.
    { eapply (serializes_bind s b o _ _ [_]); [apply writes_char|]. by apply serializes_last. }
    edestruct (sn_open_type (W := W)) as (e & Hbody & Hopen);
      [exact Hat|done|zlen_lia|zlen_lia|rewrite <- Hsize; reflexivity|].
    cbn [app] in Hbody. do 3 eexists. split_and!.
    + unfold MQTTSNSerialize_gwinfo. rewrite bind_int by (unfold INT_MIN, INT_MAX; lia). exact Hrun.
    + unfold MQTTSNDeserialize_gwinfo. rewrite Hopen.
      erewrite bind_done by (eapply readChar_byte; exact Hbody). cbv beta iota. by run_psub.
    + by apply u8_readChar.
    + cbn [gw_address_len]. rewrite u16_small; zlen_lia.
    + eexists. split; [done|]. apply bytes_at_tail in Hbody. by rewrite app_nil_r in Hbody.
Qed.
End SNSubscribeProperties.

(** ** Witnesses *)

Section Witnesses.
#[local] Existing Instance char_is_signed.
#[local] Existing Instance little_endian_order.

(* block 1: a 32-byte buffer, block 2: a filter, block 3: an address *)
Definition ex_sn_sub_state : state unit :=
  state_of [replicate 32 (byte_of_Z 170); bytes [97; 47; 35]; bytes [192; 168; 0; 1]].
Definition ex_name_filter : MQTTSN_topicid :=
  {| tid_type := 0; tid_byte0 := None; tid_byte1 := None;
     tid_long_name := Some (Ptr 2 0); tid_long_len := Some 3 |}.
Definition ex_sub_out : sn_subscribe_out :=
  {| ss_dup := 0; ss_qos := 0; ss_packetid := 0; ss_filter := ex_name_filter |}.

Lemma ex_name_filter_is :
  filter_denotes (payload_is (mem ex_sn_sub_state) 1) ex_name_filter (TopicLong (bytes [97; 47; 35])).
Proof.
  split_and!; [done..|]. exists (Ptr 2 0). split; [done|].
  right. exists 2%positive, 0. split_and!; [done..|bytes_at_concrete].
Qed.

Lemma sn_subscribe_roundtrip_witness :
  let filter := TopicLong (bytes [97; 47; 35]) in
  let s := ex_sn_sub_state in
  (exists n s1 out',
     MQTTSNSerialize_subscribe (Ptr 1 0) 32 1 2 7 ex_name_filter s = Done n s1 /\
     MQTTSNDeserialize_subscribe ex_sub_out (Ptr 1 0) n s1 = Done (1, out') s1 /\
     ss_dup out' = u8 (- (1 mod 2)) /\ ss_qos out' = 2 mod 4 /\
     ss_packetid out' = 7 /\ filter_denotes (in_block (mem s1) 1) (ss_filter out') filter) /\
  (exists n s1 t',
     MQTTSNSerialize_unsubscribe (Ptr 1 0) 32 7 ex_name_filter s = Done n s1 /\
     MQTTSNDeserialize_unsubscribe 0 ex_name_filter (Ptr 1 0) n s1 = Done (1, 7, t') s1 /\
     filter_denotes (in_block (mem s1) 1) t' filter).
Proof.
  apply (sn_subscribe_roundtrip ex_sn_sub_state 1 0 (replicate 32 (byte_of_Z 170)) 32 1 2 7 ex_name_filter
    (TopicLong (bytes [97; 47; 35])) ex_sub_out 0 ex_name_filter); try done.
  apply ex_name_filter_is.
Defined.

Lemma sn_suback_roundtrip_witness :
  let s := ex_sn_sub_state in
  let out := {| sb_qos := 0; sb_topicid := 0; sb_packetid := 0; sb_returncode := 0 |} in
  (exists s1, MQTTSNSerialize_suback (Ptr 1 0) 32 1 300 7 0 s = Done 8 s1 /\
     MQTTSNDeserialize_suback out (Ptr 1 0) 8 s1 =
       Done (1, {| sb_qos := 1 mod 4; sb_topicid := 300; sb_packetid := 7; sb_returncode := 0 |}) s1) /\
  (exists s1, MQTTSNSerialize_unsuback (Ptr 1 0) 32 7 s = Done 4 s1 /\
     MQTTSNDeserialize_unsuback 0 (Ptr 1 0) 4 s1 = Done (1, 7) s1).
Proof.
  apply (sn_suback_roundtrip ex_sn_sub_state 1 0 (replicate 32 (byte_of_Z 170)) 32 1 300 7 0); done.
Defined.

Lemma sn_search_roundtrip_witness :
  let s := ex_sn_sub_state in
  let gw := {| gw_gatewayid := 0; gw_address_len := 0; gw_address := NULL |} in
  (exists s1, MQTTSNSerialize_advertise (Ptr 1 0) 32 9 900 s = Done 5 s1 /\
     MQTTSNDeserialize_advertise (0, 0) (Ptr 1 0) 5 s1 = Done (1, (9, 900)) s1) /\
  (exists s1, MQTTSNSerialize_searchgw (Ptr 1 0) 32 2 s = Done 3 s1 /\
     MQTTSNDeserialize_searchgw 0 (Ptr 1 0) 3 s1 = Done (1, 2) s1) /\
  (exists n s1 gw', MQTTSNSerialize_gwinfo (Ptr 1 0) 32 9 4 (Ptr 3 0) s = Done n s1 /\
     MQTTSNDeserialize_gwinfo gw (Ptr 1 0) n s1 = Done (1, gw') s1 /\
     gw_gatewayid gw' = 9 /\ gw_address_len gw' = 4 /\
     in_block (mem s1) 1 (gw_address gw') (bytes [192; 168; 0; 1])).
Proof.
  apply (sn_search_roundtrip ex_sn_sub_state 1 0 (replicate 32 (byte_of_Z 170)) 32 9 900 2 (Ptr 3 0)
    (bytes [192; 168; 0; 1])); try done.
  right. exists 3%positive, 0. split_and!; [done..|bytes_at_concrete].
Defined.
End Witnesses.
