(* ===== verification/SNClient.v ===== *)
(** * MQTTSNClient.h: the MQTT-SN client as a C++ class

    The class MQTTSN::Client of paho_mqtt-sn_embedded_c/MQTTSNClient/src/MQTTSNClient.h.
    It runs on the packets of MQTTSNPacket/src and on the interface [Platform], whose
    network now carries datagrams; a member function [f] is [SNClient_f] here.  The
    template parameters and the macros MQTTCLIENT_QOS1 and MQTTCLIENT_QOS2, which the
    header shares with MQTTClient.h, are [ClientParams].  The topics of the application
    are structures the client keeps pointers to and writes to: they form a store of
    their own, indexed by address. *)

From S2P Require Import Prelude CMem MQTTPacket MQTTPublish SNPacket SNPublish SNConnect SNSubscribe.
From S2P Require Import Platform MQTTClient CppClient.

(** [MAX_SUBSCRIPTIONS_EXCEEDED] of [enum returnCode]; the other return codes, [enum
    QoS], Message and PacketId are those of the MQTT client. *)
Definition MAX_SUBSCRIPTIONS_EXCEEDED : Z := -3.
Definition MQTTSN_MIN_PACKET_LENGTH : Z := 2.

(** The structures MessageData refers to. *)
Record SNMessageData := { nd_message : MQTTMessage; nd_topic : MQTTSN_topicid }.

(** An element of [messageHandlers]: the address of a topic, 0 being [None], and the
    attached function. *)
Record SNHandler := { n_topicFilter : option positive; n_fp : messageHandler }.

(** ** The object

    [n_topics] is the store of the application's topics.  The member
    [registrations] is never used. *)

Record SNClient (Timer : Type) := SNObject {
  n_command_timeout_ms : Z; n_sendbuf : ptr; n_readbuf : ptr; n_last_sent : Timer;
  n_last_received : Timer; n_duration : Z; n_ping_outstanding : bool; n_cleansession : bool;
  n_packetid : Z; n_messageHandlers : list SNHandler; n_defaultMessageHandler : messageHandler;
  n_isconnected : bool; n_pubbuf : ptr; n_inflightLen : Z; n_inflightMsgid : Z; n_inflightQoS : Z;
  n_pubrel : bool; n_incomingQoS2messages : list Z; n_topics : gmap positive MQTTSN_topicid
}.
Arguments SNObject {Timer}.
Arguments n_command_timeout_ms {Timer} _.
Arguments n_sendbuf {Timer} _.
Arguments n_readbuf {Timer} _.
Arguments n_last_sent {Timer} _.
Arguments n_last_received {Timer} _.
Arguments n_duration {Timer} _.
Arguments n_ping_outstanding {Timer} _.
Arguments n_cleansession {Timer} _.
Arguments n_packetid {Timer} _.
Arguments n_messageHandlers {Timer} _.
Arguments n_defaultMessageHandler {Timer} _.
Arguments n_isconnected {Timer} _.
Arguments n_pubbuf {Timer} _.
Arguments n_inflightLen {Timer} _.
Arguments n_inflightMsgid {Timer} _.
Arguments n_inflightQoS {Timer} _.
Arguments n_pubrel {Timer} _.
Arguments n_incomingQoS2messages {Timer} _.
Arguments n_topics {Timer} _.

(** Assignments to the members. *)
Section SNSetters.
Context {T : Type}.
Implicit Types c : SNClient T.

Definition n_set_packetid c v :=
  SNObject (n_command_timeout_ms c) (n_sendbuf c) (n_readbuf c) (n_last_sent c)
    (n_last_received c) (n_duration c) (n_ping_outstanding c) (n_cleansession c) v
    (n_messageHandlers c) (n_defaultMessageHandler c) (n_isconnected c) (n_pubbuf c)
    (n_inflightLen c) (n_inflightMsgid c) (n_inflightQoS c) (n_pubrel c)
    (n_incomingQoS2messages c) (n_topics c).
Definition n_set_ping_outstanding c v :=
  SNObject (n_command_timeout_ms c) (n_sendbuf c) (n_readbuf c) (n_last_sent c)
    (n_last_received c) (n_duration c) v (n_cleansession c) (n_packetid c) (n_messageHandlers c)
    (n_defaultMessageHandler c) (n_isconnected c) (n_pubbuf c) (n_inflightLen c)
    (n_inflightMsgid c) (n_inflightQoS c) (n_pubrel c) (n_incomingQoS2messages c) (n_topics c).
Definition n_set_isconnected c v :=
  SNObject (n_command_timeout_ms c) (n_sendbuf c) (n_readbuf c) (n_last_sent c)
    (n_last_received c) (n_duration c) (n_ping_outstanding c) (n_cleansession c) (n_packetid c)
    (n_messageHandlers c) (n_defaultMessageHandler c) v (n_pubbuf c) (n_inflightLen c)
    (n_inflightMsgid c) (n_inflightQoS c) (n_pubrel c) (n_incomingQoS2messages c) (n_topics c).
Definition n_set_messageHandlers c v :=
  SNObject (n_command_timeout_ms c) (n_sendbuf c) (n_readbuf c) (n_last_sent c)
    (n_last_received c) (n_duration c) (n_ping_outstanding c) (n_cleansession c) (n_packetid c)
    v (n_defaultMessageHandler c) (n_isconnected c) (n_pubbuf c) (n_inflightLen c)
    (n_inflightMsgid c) (n_inflightQoS c) (n_pubrel c) (n_incomingQoS2messages c) (n_topics c).
Definition n_set_defaultMessageHandler c v :=
  SNObject (n_command_timeout_ms c) (n_sendbuf c) (n_readbuf c) (n_last_sent c)
    (n_last_received c) (n_duration c) (n_ping_outstanding c) (n_cleansession c) (n_packetid c)
    (n_messageHandlers c) v (n_isconnected c) (n_pubbuf c) (n_inflightLen c) (n_inflightMsgid c)
    (n_inflightQoS c) (n_pubrel c) (n_incomingQoS2messages c) (n_topics c).
Definition n_set_last_sent c v :=
  SNObject (n_command_timeout_ms c) (n_sendbuf c) (n_readbuf c) v (n_last_received c)
    (n_duration c) (n_ping_outstanding c) (n_cleansession c) (n_packetid c)
    (n_messageHandlers c) (n_defaultMessageHandler c) (n_isconnected c) (n_pubbuf c)
    (n_inflightLen c) (n_inflightMsgid c) (n_inflightQoS c) (n_pubrel c)
    (n_incomingQoS2messages c) (n_topics c).
Definition n_set_last_received c v :=
  SNObject (n_command_timeout_ms c) (n_sendbuf c) (n_readbuf c) (n_last_sent c) v (n_duration c)
    (n_ping_outstanding c) (n_cleansession c) (n_packetid c) (n_messageHandlers c)
    (n_defaultMessageHandler c) (n_isconnected c) (n_pubbuf c) (n_inflightLen c)
    (n_inflightMsgid c) (n_inflightQoS c) (n_pubrel c) (n_incomingQoS2messages c) (n_topics c).
Definition n_set_inflightMsgid c v :=
  SNObject (n_command_timeout_ms c) (n_sendbuf c) (n_readbuf c) (n_last_sent c)
    (n_last_received c) (n_duration c) (n_ping_outstanding c) (n_cleansession c) (n_packetid c)
    (n_messageHandlers c) (n_defaultMessageHandler c) (n_isconnected c) (n_pubbuf c)
    (n_inflightLen c) v (n_inflightQoS c) (n_pubrel c) (n_incomingQoS2messages c) (n_topics c).
Definition n_set_pubrel c v :=
  SNObject (n_command_timeout_ms c) (n_sendbuf c) (n_readbuf c) (n_last_sent c)
    (n_last_received c) (n_duration c) (n_ping_outstanding c) (n_cleansession c) (n_packetid c)
    (n_messageHandlers c) (n_defaultMessageHandler c) (n_isconnected c) (n_pubbuf c)
    (n_inflightLen c) (n_inflightMsgid c) (n_inflightQoS c) v (n_incomingQoS2messages c)
    (n_topics c).
Definition n_set_topics c v :=
  SNObject (n_command_timeout_ms c) (n_sendbuf c) (n_readbuf c) (n_last_sent c)
    (n_last_received c) (n_duration c) (n_ping_outstanding c) (n_cleansession c) (n_packetid c)
    (n_messageHandlers c) (n_defaultMessageHandler c) (n_isconnected c) (n_pubbuf c)
    (n_inflightLen c) (n_inflightMsgid c) (n_inflightQoS c) (n_pubrel c)
    (n_incomingQoS2messages c) v.
Definition n_set_incoming c v :=
  SNObject (n_command_timeout_ms c) (n_sendbuf c) (n_readbuf c) (n_last_sent c)
    (n_last_received c) (n_duration c) (n_ping_outstanding c) (n_cleansession c) (n_packetid c)
    (n_messageHandlers c) (n_defaultMessageHandler c) (n_isconnected c) (n_pubbuf c)
    (n_inflightLen c) (n_inflightMsgid c) (n_inflightQoS c) (n_pubrel c) v (n_topics c).
Definition n_set_session c duration clean :=
  SNObject (n_command_timeout_ms c) (n_sendbuf c) (n_readbuf c) (n_last_sent c)
    (n_last_received c) duration (n_ping_outstanding c) clean (n_packetid c)
    (n_messageHandlers c) (n_defaultMessageHandler c) (n_isconnected c) (n_pubbuf c)
    (n_inflightLen c) (n_inflightMsgid c) (n_inflightQoS c) (n_pubrel c)
    (n_incomingQoS2messages c) (n_topics c).
Definition n_set_inflight c len id qos :=
  SNObject (n_command_timeout_ms c) (n_sendbuf c) (n_readbuf c) (n_last_sent c)
    (n_last_received c) (n_duration c) (n_ping_outstanding c) (n_cleansession c) (n_packetid c)
    (n_messageHandlers c) (n_defaultMessageHandler c) (n_isconnected c) (n_pubbuf c) len id qos
    (n_pubrel c) (n_incomingQoS2messages c) (n_topics c).
End SNSetters.

Abbreviation snworld E Timer := (world_of (SNClient Timer) E).

(** The local variables of cycle. *)
Definition no_topic (uninit : Z) : MQTTSN_topicid :=
  {| tid_type := uninit; tid_byte0 := None; tid_byte1 := None; tid_long_name := None; tid_long_len := None |}.
Definition sn_publish_locals (uninit : Z) : sn_publish_out :=
  {| sp_dup := uninit; sp_qos := uninit; sp_retained := uninit; sp_packetid := uninit;
     sp_topic := no_topic uninit; sp_payload := NULL; sp_payloadlen := uninit |}.
Definition sn_register_locals (uninit : Z) : sn_register_out :=
  {| sr_topicid := uninit; sr_packetid := uninit;
     sr_topicname := {| cstring := NULL; lenstring := {| len := uninit; data := NULL |} |} |}.

(** isTopicMatched has the text of the client in C. *)
Definition SNClient_isTopicMatched {W} (filter : ptr) (topicName : MQTTSNString) : M W bool :=
  isTopicMatched filter topicName.

Section SNClient.
Context `{ClientParams} {E Timer : Type} `{Platform (SNClient Timer) E Timer SNMessageData}.
Context `{CharSign} `{ByteOrder}.

(** [fuel], [no_timer] and [uninit] as in MQTTClient. *)
Variables (fuel : nat) (no_timer : Timer) (uninit : Z).

Abbreviation MC := (M (snworld E Timer)).
Implicit Types c : SNClient Timer.

(** The topic structure at an address. *)
Definition SNClient_topic_at (p : positive) : MC MQTTSN_topicid :=
  let* c := get_client in
  match n_topics c !! p with Some t => ret t | None => throw OutOfBounds end.

(** PacketId::getNext *)
Definition SNPacketId_getNext : MC Z :=
  let* c := get_client in
  let next := if n_packetid c =? MAX_PACKET_ID then 1 else n_packetid c + 1 in
  update_client (fun c => n_set_packetid c next) ;;; ret next.

Definition SNClient_setDefaultMessageHandler (mh : messageHandler) : MC unit :=
  update_client (fun c => n_set_defaultMessageHandler c mh).

Definition SNClient_isConnected : MC bool := let* c := get_client in ret (n_isconnected c).

(** The constructor; [sendbuf], [readbuf], [duration] and [cleansession] keep what the
    memory held. *)
Definition SNClient_new (timeout : Z) : MC unit :=
  let* sent := TimerInit no_timer in
  let* received := TimerInit no_timer in
  update_client (fun c =>
    SNObject timeout (n_sendbuf c) (n_readbuf c) sent received (n_duration c) false (n_cleansession c) 0
      ((fun _ => {| n_topicFilter := None; n_fp := None |}) <$> n_messageHandlers c) None false
      (n_pubbuf c) (n_inflightLen c)
      (if MQTTCLIENT_QOS1 || MQTTCLIENT_QOS2 then 0 else n_inflightMsgid c)
      (if MQTTCLIENT_QOS1 || MQTTCLIENT_QOS2 then QOS0 else n_inflightQoS c)
      (if MQTTCLIENT_QOS2 then false else n_pubrel c)
      (if MQTTCLIENT_QOS2 then (fun _ => 0) <$> n_incomingQoS2messages c else n_incomingQoS2messages c)
      (n_topics c)).

(** The identifiers of incoming QoS 2 messages; 0 is a free entry. *)
Definition SNClient_isQoS2msgidFree (id : Z) : MC bool :=
  let* c := get_client in
  ret (match first_index (fun x => x =? id) (n_incomingQoS2messages c) with Some _ => false | None => true end).

Definition SNClient_useQoS2msgid (id : Z) : MC bool :=
  let* c := get_client in
  match first_index (fun x => x =? 0) (n_incomingQoS2messages c) with
  | Some i => update_client (fun c => n_set_incoming c (<[i := id]> (n_incomingQoS2messages c))) ;;; ret true
  | None => ret false
  end.

(** ** Sending and receiving packets *)

(** The [while] loop of sendPacket; the result is [sent].  Every write is offered
    [length] bytes from [&sendbuf[sent]] on. *)
Fixpoint SNClient_send_loop (n : nat) (sent length : Z) (timer : Timer) : MC Z :=
  match n with
  | O => throw Divergence
  | S n =>
      if sent <? length then
        let* expired := TimerIsExpired timer in
        if expired : bool then ret sent
        else
          let* c := get_client in
          let* timeout := TimerLeftMS timer in
          let* rc := net_write (padd (n_sendbuf c) sent) length timeout in
          if rc <? 0 then ret sent
          else let* sent := int (sent + rc) in SNClient_send_loop n sent length timer
      else ret sent
  end.

Definition SNClient_sendPacket (length : Z) (timer : Timer) : MC Z :=
  let* sent := SNClient_send_loop fuel 0 length timer in
  if sent =? length then
    let* c := get_client in
    (if 0 <? n_duration c then
       let* t := TimerCountdown (n_last_sent c) (n_duration c) in
       update_client (fun c => n_set_last_sent c t)
     else ret tt) ;;;
    ret SUCCESS
  else ret FAILURE.

(** The do-while loop of decodePacket, which nothing calls. *)
Definition SNClient_decodePacket (timeout : Z) : MC (Z * Z) :=
  decode_loop 5 (fun k => mqttread k timeout) None 1 0 0.

(** One datagram, whose length field must be its size. *)
Definition SNClient_readPacket (timer : Timer) : MC Z :=
  let* c := get_client in
  let* timeout := TimerLeftMS timer in
  let* len := net_read (n_readbuf c) MAX_MQTT_PACKET_SIZE timeout in
  if len <? MQTTSN_MIN_PACKET_LENGTH then ret FAILURE
  else
    let* (lenlen, datalen) := MQTTSNPacket_decode (n_readbuf c) len (Some 0) in
    let* datalen := use datalen in
    if negb (datalen =? len) then ret FAILURE
    else
      let* rc := load (padd (n_readbuf c) lenlen) in
      (if 0 <? n_duration c then
         let* t := TimerCountdown (n_last_received c) (n_duration c) in
         update_client (fun c => n_set_last_received c t)
       else ret tt) ;;;
      ret rc.

(** ** Delivering messages *)

(** The [for] loop over the handlers [i], [i + 1], ...; [n] turns are left.  The
    copies of [long_] in [str] are used when isTopicMatched is called. *)
Fixpoint SNClient_deliver_loop (n : nat) (i rc : Z) (topic : MQTTSN_topicid) (message : MQTTMessage) : MC Z :=
  match n with
  | O => ret rc
  | S n =>
      let* c := get_client in
      let* h := arr_get (n_messageHandlers c) i in
      let* matched :=
        match n_topicFilter h with
        | Some p =>
            let* filter := SNClient_topic_at p in
            let* eq := MQTTSNTopic_equals topic filter in
            if negb (eq =? 0) then ret true
            else
              let* name := use (tid_long_name topic) in
              let* n := use (tid_long_len topic) in
              let* filter_name := use (tid_long_name filter) in
              SNClient_isTopicMatched filter_name {| cstring := NULL; lenstring := {| len := n; data := name |} |}
        | None => ret false
        end in
      let* rc :=
        (if matched : bool then
           match n_fp h with
           | Some f => call_handler f {| nd_message := message; nd_topic := topic |} ;;; ret SUCCESS
           | None => ret rc
           end
         else ret rc) in
      SNClient_deliver_loop n (i + 1) rc topic message
  end.

Definition SNClient_deliverMessage (topic : MQTTSN_topicid) (message : MQTTMessage) : MC Z :=
  let* rc := SNClient_deliver_loop MAX_HANDLERS 0 FAILURE topic message in
  let* c := get_client in
  match n_defaultMessageHandler c with
  | Some f =>
      if rc =? FAILURE then call_handler f {| nd_message := message; nd_topic := topic |} ;;; ret SUCCESS else ret rc
  | None => ret rc
  end.

(** ** The cycle *)

(** With the ping outstanding, and when no timer has expired, the result is FAILURE. *)
Definition SNClient_keepalive : MC Z :=
  let* c := get_client in
  if n_duration c =? 0 then ret SUCCESS
  else
    let* e1 := TimerIsExpired (n_last_sent c) in
    let* expired := (if e1 : bool then ret true else TimerIsExpired (n_last_received c)) in
    if expired && negb (n_ping_outstanding c) then
      let* timer := TimerInit no_timer in
      let* timer := TimerCountdownMS timer 1000 in
      let* len := MQTTSNSerialize_pingreq (n_sendbuf c) MAX_MQTT_PACKET_SIZE MQTTString_initializer in
      if 0 <? len then
        let* rc := SNClient_sendPacket len timer in
        (if rc =? SUCCESS then update_client (fun c => n_set_ping_outstanding c true) else ret tt) ;;;
        ret rc
      else ret FAILURE
    else ret FAILURE.

(** [exit:] of cycle, whose [rc] is an unsigned char. *)
Definition SNClient_cycle_exit (rc packet_type : Z) : Z := if rc =? SUCCESS then u8 packet_type else rc.

(** Behind the switch: keepalive, the result of which is dropped, then [exit:]. *)
Definition SNClient_cycle_end (rc packet_type : Z) : MC Z :=
  let* _ := SNClient_keepalive in ret (SNClient_cycle_exit rc packet_type).

(** Sending what a serializer returned the length of, into the unsigned char [rc]. *)
Definition SNClient_reply (len : Z) (timer : Timer) : MC Z :=
  if len <=? 0 then ret (u8 FAILURE) else let* rc := SNClient_sendPacket len timer in ret (u8 rc).

(** [case MQTTSN_REGISTER:] *)
Definition SNClient_cycle_register (packet_type : Z) (timer : Timer) : MC Z :=
  let* c := get_client in
  let* (ok, out) := MQTTSNDeserialize_register (sn_register_locals uninit) (n_readbuf c) MAX_MQTT_PACKET_SIZE in
  if negb (ok =? 1) then ret (SNClient_cycle_exit MQTTSN_RC_ACCEPTED packet_type)
  else
    let* len := MQTTSNSerialize_regack (n_sendbuf c) MAX_MQTT_PACKET_SIZE (sr_topicid out) (sr_packetid out)
                  MQTTSN_RC_ACCEPTED in
    let* rc := SNClient_reply len timer in
    SNClient_cycle_end rc packet_type.

(** What becomes of the message of a PUBLISH. *)
Definition SNClient_accept (topic : MQTTSN_topicid) (msg : MQTTMessage) : MC unit :=
  if negb MQTTCLIENT_QOS2 || negb (msg_qos msg =? QOS2) then
    let* _ := SNClient_deliverMessage topic msg in ret tt
  else
    let* free := SNClient_isQoS2msgidFree (msg_id msg) in
    if free : bool then
      let* used := SNClient_useQoS2msgid (msg_id msg) in
      if used : bool then let* _ := SNClient_deliverMessage topic msg in ret tt else ret tt
    else ret tt.

(** [if (rc == FAILURE) goto exit; break;]: an unsigned char is never FAILURE. *)
Definition SNClient_cycle_checked (rc packet_type : Z) : MC Z :=
  if rc =? FAILURE then ret (SNClient_cycle_exit rc packet_type) else SNClient_cycle_end rc packet_type.

(** [case MQTTSN_PUBLISH:].  Without QoS 1 and 2 the case falls through to that of
    PINGRESP. *)
Definition SNClient_cycle_publish (packet_type : Z) (timer : Timer) : MC Z :=
  let* c := get_client in
  let* (ok, out) := MQTTSNDeserialize_publish (sn_publish_locals uninit) (n_readbuf c) MAX_MQTT_PACKET_SIZE in
  if negb (ok =? 1) then ret (SNClient_cycle_exit SUCCESS packet_type)
  else
    let msg := {| msg_qos := sp_qos out; msg_retained := sp_retained out; msg_dup := sp_dup out;
                  msg_id := sp_packetid out; msg_payload := sp_payload out;
                  msg_payloadlen := size_t (sp_payloadlen out) |} in
    SNClient_accept (sp_topic out) msg ;;;
    if MQTTCLIENT_QOS1 || MQTTCLIENT_QOS2 then
      let* rc :=
        (if negb (msg_qos msg =? QOS0) then
           let* len :=
             (if msg_qos msg =? QOS1 then
                let* id := tid_id (sp_topic out) in
                MQTTSNSerialize_puback (n_sendbuf c) MAX_MQTT_PACKET_SIZE id (msg_id msg) 0
              else if msg_qos msg =? QOS2 then
                MQTTSNSerialize_pubrec (n_sendbuf c) MAX_MQTT_PACKET_SIZE (msg_id msg)
              else ret 0) in
           SNClient_reply len timer
         else ret SUCCESS) in
      SNClient_cycle_checked rc packet_type
    else
      update_client (fun c => n_set_ping_outstanding c false) ;;; SNClient_cycle_end SUCCESS packet_type.

(** [case MQTTSN_PUBREC:], compiled in with QoS 2.  It calls the functions of
    MQTTPacket/src. *)
Definition SNClient_cycle_pubrec (packet_type : Z) (timer : Timer) : MC Z :=
  let* c := get_client in
  let* (ok, out) := MQTTDeserialize_ack (ack_locals uninit) (n_readbuf c) MAX_MQTT_PACKET_SIZE in
  let* rc :=
    (if negb (ok =? 1) then ret (u8 FAILURE)
     else
       let* len := MQTTSerialize_ack (n_sendbuf c) MAX_MQTT_PACKET_SIZE PUBREL 0 (ack_packetid out) in
       SNClient_reply len timer) in
  SNClient_cycle_checked rc packet_type.

(** [packet_type] is an unsigned short. *)
Definition SNClient_cycle (timer : Timer) : MC Z :=
  let* rc := SNClient_readPacket timer in
  let packet_type := u16 rc in
  if (packet_type =? MQTTSN_CONNACK) || (packet_type =? MQTTSN_PUBACK) || (packet_type =? MQTTSN_SUBACK) ||
     (packet_type =? MQTTSN_REGACK)
  then SNClient_cycle_end SUCCESS packet_type
  else if packet_type =? MQTTSN_REGISTER then SNClient_cycle_register packet_type timer
  else if packet_type =? MQTTSN_PUBLISH then SNClient_cycle_publish packet_type timer
  else if MQTTCLIENT_QOS2 && (packet_type =? MQTTSN_PUBREC) then SNClient_cycle_pubrec packet_type timer
  else if MQTTCLIENT_QOS2 && (packet_type =? MQTTSN_PUBCOMP) then SNClient_cycle_end SUCCESS packet_type
  else if packet_type =? MQTTSN_PINGRESP then
    update_client (fun c => n_set_ping_outstanding c false) ;;; SNClient_cycle_end SUCCESS packet_type
  else SNClient_cycle_end SUCCESS packet_type.

(** The loops of yield and waitfor. *)
Fixpoint SNClient_yield_loop (n : nat) (timer : Timer) : MC Z :=
  match n with
  | O => throw Divergence
  | S n =>
      let* expired := TimerIsExpired timer in
      if expired : bool then ret SUCCESS
      else
        let* r := SNClient_cycle timer in
        if r =? FAILURE then ret FAILURE else SNClient_yield_loop n timer
  end.

Definition SNClient_yield (timeout_ms : Z) : MC Z :=
  let* timer := TimerInit no_timer in
  let* timer := TimerCountdownMS timer timeout_ms in
  SNClient_yield_loop fuel timer.

Fixpoint SNClient_waitfor_loop (n : nat) (rc packet_type : Z) (timer : Timer) : MC Z :=
  match n with
  | O => throw Divergence
  | S n =>
      let* expired := TimerIsExpired timer in
      if expired : bool then ret rc
      else
        let* rc := SNClient_cycle timer in
        if negb (rc =? packet_type) then SNClient_waitfor_loop n rc packet_type timer else ret rc
  end.

Definition SNClient_waitfor (packet_type : Z) (timer : Timer) : MC Z :=
  SNClient_waitfor_loop fuel FAILURE packet_type timer.

(** [Timer timer(command_timeout_ms)] *)
Definition SNClient_command_timer : MC Timer :=
  let* timer := TimerInit no_timer in
  let* c := get_client in
  TimerCountdownMS timer (n_command_timeout_ms c).

(** ** The operations of the application *)

(** Waiting for the PUBACK of a publish. *)
Definition SNClient_publish_wait (rc : Z) (timer : Timer) : MC Z :=
  let* w := SNClient_waitfor MQTTSN_PUBACK timer in
  if w =? MQTTSN_PUBACK then
    let* c := get_client in
    let* (ok, out) := MQTTSNDeserialize_ack {| sk_type := uninit; sk_packetid := uninit |}
                        (n_readbuf c) MAX_MQTT_PACKET_SIZE in
    if negb (ok =? 1) then ret FAILURE
    else
      (if n_inflightMsgid c =? sk_packetid out
       then update_client (fun c => n_set_inflightMsgid c 0) else ret tt) ;;;
      ret rc
  else ret FAILURE.

(** [exit:] of the operations that give up the connection. *)
Definition SNClient_exit (rc : Z) : MC Z :=
  (if negb (rc =? SUCCESS) then update_client (fun c => n_set_isconnected c false) else ret tt) ;;; ret rc.

(** publish(int, Timer&, QoS): the packet is in [sendbuf].  With QoS 1 compiled in,
    nothing waits for the end of a publish with QoS 2; without it, QoS 2 does
    not compile. *)
Definition SNClient_publish_packet (len : Z) (timer : Timer) (qos : Z) : MC Z :=
  let* rc := SNClient_sendPacket len timer in
  let* rc :=
    (if negb (rc =? SUCCESS) then ret rc
     else if MQTTCLIENT_QOS1 && (qos =? QOS1) then SNClient_publish_wait rc timer
     else ret rc) in
  SNClient_exit rc.

(** The part of connect that resends an inflight publish. *)
Definition SNClient_resend (rc : Z) (timer : Timer) : MC Z :=
  let* c := get_client in
  if MQTTCLIENT_QOS2 && (0 <? n_inflightMsgid c) && (n_inflightQoS c =? QOS2) && n_pubrel c then
    let* len := MQTTSerialize_ack (n_sendbuf c) MAX_MQTT_PACKET_SIZE PUBREL 0 (n_inflightMsgid c) in
    if len <=? 0 then ret FAILURE else SNClient_publish_packet len timer (n_inflightQoS c)
  else if (MQTTCLIENT_QOS1 || MQTTCLIENT_QOS2) && (0 <? n_inflightMsgid c) then
    memcpy (n_sendbuf c) (n_pubbuf c) MAX_MQTT_PACKET_SIZE ;;;
    SNClient_publish_packet (n_inflightLen c) timer (n_inflightQoS c)
  else ret rc.

Definition SNClient_connect (options : MQTTSNPacket_connectData) : MC Z :=
  let exit (rc : Z) : MC Z :=
    (if rc =? SUCCESS then update_client (fun c => n_set_isconnected c true) else ret tt) ;;; ret rc in
  let* connect_timer := SNClient_command_timer in
  let* c := get_client in
  if n_isconnected c then exit FAILURE
  else
    update_client (fun c => n_set_session c (sc_duration options) (negb (sc_cleansession options =? 0))) ;;;
    let* len := MQTTSNSerialize_connect (n_sendbuf c) MAX_MQTT_PACKET_SIZE options in
    if len <=? 0 then exit FAILURE
    else
      let* rc := SNClient_sendPacket len connect_timer in
      if negb (rc =? SUCCESS) then exit rc
      else
        let* c := get_client in
        (if 0 <? n_duration c then
           let* t := TimerCountdown (n_last_received c) (n_duration c) in
           update_client (fun c => n_set_last_received c t)
         else ret tt) ;;;
        let* w := SNClient_waitfor MQTTSN_CONNACK connect_timer in
        let* rc :=
          (if w =? MQTTSN_CONNACK then
             let* (ok, connack_rc) := MQTTSNDeserialize_connack 255 (n_readbuf c) MAX_MQTT_PACKET_SIZE in
             ret (if ok =? 1 then connack_rc else FAILURE)
           else ret FAILURE) in
        let* rc := SNClient_resend rc connect_timer in
        exit rc.

Definition SNClient_connect_default : MC Z := SNClient_connect MQTTSNPacket_connectData_initializer.

(** [topicFilter.data.id = id], through the reference. *)
Definition SNClient_set_topic_id (p : positive) (id : Z) : MC unit :=
  let* t := SNClient_topic_at p in
  update_client (fun c => n_set_topics c (<[p := set_tid_id t id]> (n_topics c))).

(** The second [for] loop of subscribe. *)
Definition SNClient_attach (p : positive) (mh : messageHandler) : MC unit :=
  let* c := get_client in
  match first_index (fun h => bool_decide (n_topicFilter h = None)) (n_messageHandlers c) with
  | Some i =>
      update_client (fun c =>
        n_set_messageHandlers c (<[i := {| n_topicFilter := Some p; n_fp := mh |}]> (n_messageHandlers c)))
  | None => ret tt
  end.

(** What follows a SUBACK; its [rc] hides that of the function, which is SUCCESS here. *)
Definition SNClient_suback (p : positive) (qos : Z) (mh : messageHandler) : MC unit :=
  let* c := get_client in
  let* (ok, out) := MQTTSNDeserialize_suback
                      {| sb_qos := -1; sb_topicid := uninit; sb_packetid := uninit; sb_returncode := uninit |}
                      (n_readbuf c) MAX_MQTT_PACKET_SIZE in
  if negb (ok =? 1) then ret tt
  else
    SNClient_set_topic_id p (sb_topicid out) ;;;
    if negb (qos =? sb_qos out) then ret tt
    else if sb_returncode out =? MQTTSN_RC_ACCEPTED then SNClient_attach p mh else ret tt.

Definition SNClient_subscribe (p : positive) (qos : Z) (mh : messageHandler) : MC Z :=
  let* timer := SNClient_command_timer in
  let* c := get_client in
  if negb (n_isconnected c) then ret FAILURE
  else if bool_decide (first_index (fun h => bool_decide (n_topicFilter h = None)) (n_messageHandlers c) = None)
  then SNClient_exit MAX_SUBSCRIPTIONS_EXCEEDED
  else
    let* id := SNPacketId_getNext in
    let* topicFilter := SNClient_topic_at p in
    let* len := MQTTSNSerialize_subscribe (n_sendbuf c) MAX_MQTT_PACKET_SIZE 0 qos (u16 id) topicFilter in
    if len <=? 0 then SNClient_exit FAILURE
    else
      let* rc := SNClient_sendPacket len timer in
      if negb (rc =? SUCCESS) then SNClient_exit rc
      else
        let* w := SNClient_waitfor MQTTSN_SUBACK timer in
        if w =? MQTTSN_SUBACK then SNClient_suback p qos mh ;;; SNClient_exit rc
        else SNClient_exit FAILURE.

Definition SNClient_unsubscribe (p : positive) : MC Z :=
  let* timer := SNClient_command_timer in
  let* c := get_client in
  if negb (n_isconnected c) then SNClient_exit FAILURE
  else
    let* id := SNPacketId_getNext in
    let* topicFilter := SNClient_topic_at p in
    let* len := MQTTSNSerialize_unsubscribe (n_sendbuf c) MAX_MQTT_PACKET_SIZE (u16 id) topicFilter in
    if len <=? 0 then SNClient_exit FAILURE
    else
      let* rc := SNClient_sendPacket len timer in
      if negb (rc =? SUCCESS) then SNClient_exit rc
      else
        let* w := SNClient_waitfor MQTTSN_UNSUBACK timer in
        if w =? MQTTSN_UNSUBACK then
          let* (ok, _) := MQTTSNDeserialize_unsuback uninit (n_readbuf c) MAX_MQTT_PACKET_SIZE in
          SNClient_exit (if ok =? 1 then 0 else rc)
        else SNClient_exit FAILURE.

(** publish with [id] as a reference: the result is the return code and [id]. *)
Definition SNClient_publish_id (p : positive) (payload : ptr) (payloadlen id qos retained : Z) : MC (Z * Z) :=
  let* timer := SNClient_command_timer in
  let* c := get_client in
  if negb (n_isconnected c) then ret (FAILURE, id)
  else
    let* id :=
      (if (MQTTCLIENT_QOS1 || MQTTCLIENT_QOS2) && ((qos =? QOS1) || (qos =? QOS2)) then
         let* id := SNPacketId_getNext in ret (u16 id)
       else ret id) in
    let* topic := SNClient_topic_at p in
    let* len := MQTTSNSerialize_publish (n_sendbuf c) MAX_MQTT_PACKET_SIZE 0 qos retained id topic payload
                  (i32 payloadlen) in
    if len <=? 0 then ret (FAILURE, id)
    else
      (if (MQTTCLIENT_QOS1 || MQTTCLIENT_QOS2) && negb (n_cleansession c) then
         memcpy (n_pubbuf c) (n_sendbuf c) len ;;;
         update_client (fun c => n_set_inflight c len id qos) ;;;
         (if MQTTCLIENT_QOS2 then update_client (fun c => n_set_pubrel c false) else ret tt)
       else ret tt) ;;;
      let* rc := SNClient_publish_packet len timer qos in
      ret (rc, id).

(** The other overloads of publish. *)
Definition SNClient_publish (p : positive) (payload : ptr) (payloadlen qos retained : Z) : MC Z :=
  let* (rc, _) := SNClient_publish_id p payload payloadlen 0 qos retained in ret rc.
Definition SNClient_publish_message (p : positive) (message : MQTTMessage) : MC Z :=
  SNClient_publish p (msg_payload message) (msg_payloadlen message) (msg_qos message) (msg_retained message).

Definition SNClient_disconnect (duration : Z) : MC Z :=
  let* timer := SNClient_command_timer in
  let* c := get_client in
  let int_duration := if duration =? 0 then -1 else duration in
  let* len := MQTTSNSerialize_disconnect (n_sendbuf c) MAX_MQTT_PACKET_SIZE int_duration in
  let* rc := (if 0 <? len then SNClient_sendPacket len timer else ret FAILURE) in
  update_client (fun c => n_set_isconnected c false) ;;; ret rc.
End SNClient.
