(* ===== verification/SNClientLogic.v ===== *)
(** * Sending and receiving in the MQTT-SN client

    The views of the client object of MQTTSNClient.h, networks that carry datagrams
    ([Datagrams]), and sendPacket, readPacket and keepalive on them.  The network must
    take a packet whole or not at all ([WholeWrites]): sendPacket would offer bytes from
    behind the packet otherwise. *)

From S2P Require Import Prelude CMem MQTTPacket MQTTPublish MQTTConnect PacketRead SNPacket SNPublish SNConnect SNSubscribe.
From S2P Require Import Platform MQTTClient CppClient CppLogic SNClient.

(** ** Views *)

#[export] Instance untimed_sn {T} : Untimed (SNClient T) (SNClient unit) := fun c =>
  SNObject (n_command_timeout_ms c) (n_sendbuf c) (n_readbuf c) tt tt (n_duration c) (n_ping_outstanding c)
    (n_cleansession c) (n_packetid c) (n_messageHandlers c) (n_defaultMessageHandler c) (n_isconnected c)
    (n_pubbuf c) (n_inflightLen c) (n_inflightMsgid c) (n_inflightQoS c) (n_pubrel c)
    (n_incomingQoS2messages c) (n_topics c).

Abbreviation nview := (view (SNClient unit) SNMessageData).

Lemma sn_members {T} (c : SNClient T) c0 :
  untimed c = c0 ->
  n_command_timeout_ms c = n_command_timeout_ms c0 /\ n_sendbuf c = n_sendbuf c0 /\
  n_readbuf c = n_readbuf c0 /\ n_duration c = n_duration c0 /\
  n_ping_outstanding c = n_ping_outstanding c0 /\ n_cleansession c = n_cleansession c0 /\
  n_packetid c = n_packetid c0 /\ n_messageHandlers c = n_messageHandlers c0 /\
  n_defaultMessageHandler c = n_defaultMessageHandler c0 /\ n_isconnected c = n_isconnected c0 /\
  n_pubbuf c = n_pubbuf c0 /\ n_inflightLen c = n_inflightLen c0 /\
  n_inflightMsgid c = n_inflightMsgid c0 /\ n_inflightQoS c = n_inflightQoS c0 /\
  n_pubrel c = n_pubrel c0 /\ n_incomingQoS2messages c = n_incomingQoS2messages c0 /\
  n_topics c = n_topics c0.
Proof. by intros <-. Qed.

(** Read the object: what the program takes from [c] is that of the view. *)
Ltac nget c :=
  let Hc := fresh "Hc" in
  tassoc; apply total_get_client; intros c Hc; apply sn_members in Hc;
  destruct Hc as (? & ? & ? & ? & ? & ? & ? & ? & ? & ? & ? & ? & ? & ? & ? & ? & ?);
  repeat match goal with
    | Hm : ?f c = _ |- _ => first [rewrite Hm; clear Hm | clear Hm]
    end.

(** ** Datagrams

    No timer expires, a write takes all it is given, and a read yields the next packet,
    which the network keeps apart from the one behind it. *)
Class Datagrams (C E Timer D : Type) `{Platform C E Timer D} `{Observed E D} : Prop := {
  datagram_awake t s e s' : TimerIsExpired t s = Done e s' -> e = false;
  datagram_write bs t s rc s' : mqttwrite bs t s = Done rc s' -> rc = zlen bs;
  datagram_read n t s ty body tl rc bs s' :
    net_in (env (world s)) = sn_packet ty body ++ tl -> 1 + zlen body <> 255 -> zlen body <= 65531 ->
    zlen (sn_packet ty body) <= n -> mqttread n t s = Done (rc, bs) s' ->
    rc = zlen bs /\ bs = sn_packet ty body
}.

#[export] Instance datagrams_whole `{Datagrams C E Timer D} : WholeWrites C E Timer D.
Proof. intros bs t s rc s' _ Hw. right. by apply datagram_write in Hw. Qed.

(** *** A concrete network of datagrams *)

(** The size the length field of the next packet announces. *)
Definition announced (bs : list byte) : Z :=
  match bs with
  | x :: rest =>
      if Z_of_byte x =? 1 then
        match rest with hi :: lo :: _ => 256 * Z_of_byte hi + Z_of_byte lo | _ => zlen bs end
      else Z_of_byte x
  | [] => 0
  end.

Lemma announced_packet ty body tl :
  1 + zlen body <> 255 -> zlen body <= 65531 -> announced (sn_packet ty body ++ tl) = zlen (sn_packet ty body).
Proof.
  intros H255 Hmax. rewrite sn_packet_length, (proj2 (Z.eqb_neq _ _) H255), Z.add_0_r. unfold sn_packet.
  pose proof (sn_frame_size body H255 Hmax) as (_ & Hn & _). set (n := sn_size (1 + zlen body)) in *.
  unfold sn_length. destruct (Z.ltb_spec 255 n); cbn [app]; unfold announced.
  - change (Z_of_byte (byte_of_Z 1) =? 1) with true. cbv iota. unfold int_bytes. cbn [app].
    apply int_bytes_value. lia.
  - rewrite Z_of_byte_small by lia. by test_false (n =? 1).
Qed.

Section DatagramPlatform.
Context {C D : Type}.
Abbreviation MP := (M (world_of C (bench D))).

Definition datagram_platform : Platform C (bench D) Z D := {|
  TimerInit _ := ret 0;
  TimerIsExpired _ := ret false;
  TimerCountdownMS _ n := ret n;
  TimerCountdown _ n := ret (1000 * n);
  TimerLeftMS t := ret t;
  mqttread n _ :=
    let* e := get_env in
    let k := Z.to_nat (Z.min n (announced (pe_in e))) in
    set_env {| pe_in := drop k (pe_in e); pe_out := pe_out e; pe_delivered := pe_delivered e |} ;;;
    ret (zlen (take k (pe_in e)), take k (pe_in e));
  mqttwrite bs _ :=
    let* e := get_env in
    set_env {| pe_in := pe_in e; pe_out := pe_out e ++ bs; pe_delivered := pe_delivered e |} ;;; ret (zlen bs);
  call_handler f md :=
    let* e := get_env in
    set_env {| pe_in := pe_in e; pe_out := pe_out e; pe_delivered := pe_delivered e ++ [(f, md)] |}
|}.

Lemma datagram_spec : PlatformSpec C (bench D) Z D (H := datagram_platform).
Proof.
  split.
  1-5: intros; do 2 eexists; split; [done|by split_and!].
  - intros n t s Hn. cbn. unfold bind, ret, get_env, set_env. cbn. do 3 eexists. split; [reflexivity|]. cbn.
    rewrite length_take. split_and!; try done; try lia. by rewrite take_drop.
  - intros bs t s. cbn. unfold bind, ret, get_env, set_env. cbn. do 2 eexists. split; [reflexivity|]. cbn.
    rewrite Nat2Z.id, firstn_all. split_and!; done.
  - intros f md s. eexists. by split_and!.
Qed.

Lemma datagram_network : Datagrams C (bench D) Z D (H := datagram_platform).
Proof.
  split.
  - by intros t s e s' [= <- _].
  - intros bs t s rc s'. cbn. unfold bind, ret, get_env, set_env. cbn. by intros [= <- _].
  - intros n t s ty body tl rc bs s' Hin H255 Hmax Hn. cbn in *. unfold bind, ret, get_env, set_env. cbn.
    intros [= <- <- _]. split; [done|]. rewrite Hin, announced_packet by done.
    rewrite Z.min_r, Nat2Z.id by lia. by apply take_app_length.
Qed.
End DatagramPlatform.

(** ** Sending and receiving *)

Section SNTransfer.
Context `{ClientParams} {E Timer : Type} `{PS : PlatformSpec (SNClient Timer) E Timer SNMessageData}.
Context `{!WholeWrites (SNClient Timer) E Timer SNMessageData} `{CharSign}.
Abbreviation MC := (M (snworld E Timer)).
Abbreviation datagrams := (Datagrams (SNClient Timer) E Timer SNMessageData).
Implicit Types (v : nview).

Lemma total_expired v timer :
  total v (TimerIsExpired timer : MC bool) (fun e w => w = v /\ (e = true -> ~ datagrams)).
Proof.
  intros s Hs. destruct (total_TimerIsExpired v timer s Hs) as (e & s' & Hrun & Hw & _). exists e, s'.
  split_and!; [done..|]. intros -> HD. by apply datagram_awake in Hrun.
Qed.

Lemma total_nwrite v bs timeout :
  bs <> [] -> total v (mqttwrite bs timeout : MC Z) (fun rc w =>
    (rc = zlen bs /\ w = send v bs) \/ (rc < 0 /\ w = v /\ ~ datagrams)).
Proof.
  intros Hne s Hs. destruct (total_write_whole v bs timeout Hne s Hs) as (rc & s' & Hrun & Hout). exists rc, s'.
  split; [done|]. destruct Hout as [?|(Hneg & ? & _)]; [by left|right]. split_and!; [done..|].
  intros HD. apply datagram_write in Hrun. lia.
Qed.

(** The packet is sent whole, or not at all. *)
Lemma total_nsend v fuel b pkt timer :
  n_sendbuf (v_client v) = Ptr b 0 -> bytes_at (v_mem v) b 0 pkt -> pkt <> [] -> (2 <= fuel)%nat ->
  zlen pkt <= INT_MAX ->
  total v (SNClient_sendPacket fuel (zlen pkt) timer) (fun rc w =>
    (rc = SUCCESS /\ w = send v pkt) \/ (rc = FAILURE /\ w = v /\ ~ datagrams)).
Proof.
  intros Hbuf Hat Hne Hfuel Hmax. destruct fuel as [|[|fuel]]; [lia..|].
  assert (0 < zlen pkt) as Hpos by (destruct pkt; [done|simpl; lia]). unfold SNClient_sendPacket.
  assert (Hfail : forall w, w = v -> ~ datagrams -> total w (ret FAILURE : MC Z) (fun rc w =>
    (rc = SUCCESS /\ w = send v pkt) \/ (rc = FAILURE /\ w = v /\ ~ datagrams))).
  { intros w -> HD. apply total_ret. by right. }
  tassoc. cbn [SNClient_send_loop]. test_true (0 <? zlen pkt).
  tstep total_expired. intros e ? [-> He]. destruct e.
  { tret. test_false (0 =? zlen pkt). by apply Hfail; [|apply He]. }
  nget c. tstep total_TimerLeftMS. intros timeout ? ->. unfold net_write. rewrite Hbuf. cbn [padd].
  rstep runs_load_packet; [exact Hat|done|done|].
  tstep total_nwrite; [done|]. intros rc w [(-> & ->)|(Hneg & -> & HD)].
  2: { test_true (rc <? 0). tret. test_false (0 =? zlen pkt). by apply Hfail. }
  test_false (zlen pkt <? 0). tassoc. unfold int. rewrite in_int_true by (unfold INT_MIN; lia). tret.
  rewrite Z.add_0_l. cbn [SNClient_send_loop]. rewrite Z.ltb_irrefl. tret. rewrite Z.eqb_refl. nget c2. tassoc.
  assert (Hdone : total (send v pkt) (ret SUCCESS : MC Z) (fun rc w =>
    (rc = SUCCESS /\ w = send v pkt) \/ (rc = FAILURE /\ w = v /\ ~ datagrams))) by (apply total_ret; by left).
  destruct (0 <? _); [|by tret]. tstep total_TimerCountdown. intros t ? ->. by rstep runs_set_timer.
Qed.

(** Recording the time of a reception. *)
Lemma runs_received_at {A} v (x : A) (last : Timer) :
  runs v ((if 0 <? n_duration (v_client v) then
             let* t := TimerCountdown last (n_duration (v_client v)) in
             update_client (fun c => n_set_last_received c t)
           else ret tt) ;;; ret x : MC A) x v.
Proof.
  destruct (0 <? _).
  - tstep total_TimerCountdown. intros t ? ->. rstep runs_set_timer; [done|]. by apply total_ret.
  - tret. by apply total_ret.
Qed.

(** Whatever the network delivers: some bytes of the receive buffer change, and the
    result is a packet type or FAILURE. *)
Lemma total_nread v timer b l :
  n_readbuf (v_client v) = Ptr b 0 -> v_mem v !! b = Some l -> MAX_MQTT_PACKET_SIZE <= zlen l ->
  4 <= MAX_MQTT_PACKET_SIZE ->
  total v (SNClient_readPacket timer : MC Z) (fun rc v' => exists w tl,
    v' = View (<[b := splice l 0 w]> (v_mem v)) (v_client v) tl (v_out v) (v_delivered v) /\
    zlen w <= MAX_MQTT_PACKET_SIZE /\ -1 <= rc < 256).
Proof.
  intros Hbuf Hb Hroom Hsize. unfold SNClient_readPacket. nget c. rewrite Hbuf.
  tstep total_TimerLeftMS. intros timeout ? ->.
  pose proof (received_start v b l 0 Hb) as Hw. change (Ptr b 0) with (Ptr b (0 + zlen (@nil byte))) at 1.
  tstep total_net_read; [exact Hw|done|lia|simpl; lia|].
  intros rc ? (bs & tl & Hin & Hbs & Hrc & _ & -> & _). cbn [app].
  set (v1 := View _ _ _ _ _). assert (Hb1 : v_mem v1 !! b = Some (splice l 0 bs)) by (cbn; by rewrite lookup_insert_eq).
  assert (Hl1 : zlen (splice l 0 bs) = zlen l) by (rewrite splice_length; lia).
  assert (Hout : forall x, -1 <= x < 256 -> total v1 (ret x : MC Z) (fun rc v' => exists w tl,
    v' = View (<[b := splice l 0 w]> (v_mem v)) (v_client v) tl (v_out v) (v_delivered v) /\
    zlen w <= MAX_MQTT_PACKET_SIZE /\ -1 <= rc < 256)).
  { intros x Hx. apply total_ret. by exists bs, tl. }
  unfold MQTTSN_MIN_PACKET_LENGTH, FAILURE. destruct (Z.ltb_spec rc 2); [by apply Hout|].
  assert (Hdec : total v1 (MQTTSNPacket_decode (Ptr b 0) rc (Some 0) : MC _) (fun r w => w = v1 /\
    exists n, r.2 = Some n /\ (n = 0 \/ 0 <= r.1 <= 3))).
  { apply total_reading. intros s Hs. rewrite <- Hs in Hb1. unfold MQTTSNPacket_decode. test_false (rc <=? 0).
    destruct (load_total s b 0 _ Hb1 ltac:(lia) ltac:(lia)) as (x & _ & Hx). rewrite (bind_done _ _ _ _ _ Hx).
    destruct (_ =? 1).
    - destruct (rc <? 3); [do 2 eexists; split_and!; [done..|eexists; split; [done|by left]]|].
      destruct (readInt_total s b (0 + 1) _ Hb1 ltac:(lia) ltac:(lia)) as (z & Hz & Hr). cbn [padd].
      rewrite (bind_done _ _ _ _ _ Hr). do 2 eexists. split_and!; [done..|]. eexists. split; [done|right; cbn; lia].
    - rewrite (bind_done _ _ _ _ _ Hx). do 2 eexists. split_and!; [done..|]. eexists. split; [done|right; cbn; lia]. }
  tstep Hdec. intros [lenlen dl] ? (-> & n & Hn & Hcase). cbn [fst snd] in *. rewrite Hn. unfold use. tret.
  destruct (Z.eqb_spec n rc) as [->|]; cbn [negb]; [|by apply Hout].
  destruct Hcase as [?|Hlen]; [lia|].
  assert (Hload : total v1 (load (padd (Ptr b 0) lenlen) : MC Z) (fun z w => w = v1 /\ 0 <= z < 256)).
  { apply total_reading. intros s Hs. rewrite <- Hs in Hb1. cbn [padd].
    destruct (load_total s b (0 + lenlen) _ Hb1 ltac:(lia) ltac:(lia)) as (x & _ & Hx).
    do 2 eexists. split_and!; [exact Hx|done|done|apply Z_of_byte_range|apply Z_of_byte_range]. }
  tstep Hload. intros z ? (-> & Hz). change (n_duration (v_client v)) with (n_duration (v_client v1)).
  eapply total_mono; [apply runs_received_at|]. intros ? ? [-> ->]. exists bs, tl. split_and!; [done|done|lia|lia].
Qed.

(** A packet that fits. *)
Lemma runs_nread `{!datagrams} v timer b l ty body tl :
  n_readbuf (v_client v) = Ptr b 0 -> v_mem v !! b = Some l -> MAX_MQTT_PACKET_SIZE <= zlen l ->
  v_in v = sn_packet ty body ++ tl -> 0 <= ty < 256 -> 1 + zlen body <> 255 -> zlen body <= 65531 ->
  sn_size (1 + zlen body) <= MAX_MQTT_PACKET_SIZE ->
  runs v (SNClient_readPacket timer : MC Z) ty (set_v_in (put b 0 (sn_packet ty body) v) tl).
Proof.
  intros Hbuf Hb Hroom Hin Hty H255 Hmax Hfits. set (pkt := sn_packet ty body) in *.
  pose proof (sn_frame_size body H255 Hmax) as (Hn & Hn2 & Hk). set (n := sn_size (1 + zlen body)) in *.
  assert (Hlen : zlen pkt = n) by (unfold pkt; rewrite sn_packet_length; test_false (1 + zlen body =? 255); apply Z.add_0_r).
  assert (0 < MAX_MQTT_PACKET_SIZE) as Hpos by lia.
  unfold SNClient_readPacket. nget c. rewrite Hbuf. tstep total_TimerLeftMS. intros timeout ? ->.
  assert (Hread : runs v (net_read (Ptr b 0) MAX_MQTT_PACKET_SIZE timeout : MC Z) n (set_v_in (put b 0 pkt v) tl)).
  { unfold net_read. intros s Hs. destruct (total_mqttread v MAX_MQTT_PACKET_SIZE timeout Hpos s Hs)
      as ([rc bs] & s1 & Hrun & tl1 & Hin1 & Hs1 & _). cbn [fst snd] in *.
    rewrite (bind_done _ _ _ _ _ Hrun). cbv beta iota.
    assert (Hfits' : zlen (sn_packet ty body) <= MAX_MQTT_PACKET_SIZE) by (fold pkt; by rewrite Hlen).
    assert (Hins : net_in (env (world s)) = sn_packet ty body ++ tl) by (fold pkt; rewrite <- Hin; by rewrite <- Hs).
    destruct (datagram_read MAX_MQTT_PACKET_SIZE timeout s ty body tl rc bs s1 Hins H255 Hmax Hfits' Hrun) as [-> ->].
    fold pkt in Hin1 |- *. rewrite Hin in Hin1. apply app_inv_head in Hin1 as ->.
    assert (Hb1 : mem s1 !! b = Some l) by (change (mem s1) with (v_mem (see s1)); by rewrite Hs1).
    destruct (store_bytes_written (mem s1) b l 0 [] pkt s1) as (s2 & Hst & Hm2 & Hw2).
    { unfold written. by rewrite splice_nil, insert_id. }
    { done. }
    { simpl. lia. }
    cbn [length] in Hst. change (Ptr b (0 + Z.of_nat 0)) with (Ptr b 0) in Hst.
    rewrite (bind_done _ _ _ _ _ Hst). eexists _, _. split; [reflexivity|]. split; [by rewrite Hlen|].
    rewrite (put_insert _ _ _ _ l Hb). unfold see. rewrite Hw2. unfold written in Hm2. cbn [app] in Hm2. rewrite Hm2.
    change (mem s1) with (v_mem (see s1)).
    change (untimed (client (world s1))) with (v_client (see s1)).
    change (net_in (env (world s1))) with (v_in (see s1)). change (net_out (env (world s1))) with (v_out (see s1)).
    change (delivered (env (world s1))) with (v_delivered (see s1)). by rewrite Hs1. }
  rstep Hread. unfold MQTTSN_MIN_PACKET_LENGTH. test_false (n <? 2). set (v1 := set_v_in _ _).
  assert (Hat : bytes_at (v_mem v1) b 0 (pkt ++ [])).
  { rewrite app_nil_r. apply (bytes_at_put b 0 pkt v l); [done|lia|lia]. }
  assert (Hdec : runs v1 (MQTTSNPacket_decode (Ptr b 0) n (Some 0) : MC _) (zlen (sn_length n), Some n) v1).
  { apply runs_reading. intros s Hs. exists s. split; [|done]. rewrite <- Hs in Hat. by eapply sn_decode_packet. }
  rstep Hdec. unfold use. tret. rewrite Z.eqb_refl. cbn [negb].
  assert (Hload : runs v1 (load (padd (Ptr b 0) (zlen (sn_length n))) : MC Z) ty v1).
  { apply runs_reading. intros s Hs. exists s. split; [|done]. rewrite <- Hs in Hat. cbn [padd].
    apply sn_packet_at in Hat as (_ & Hat & _). etrans; [eapply load_at; exact Hat|]. by rewrite Z_of_byte_small. }
  rstep Hload. apply (runs_received_at v1).
Qed.
End SNTransfer.
