(* ===== verification/SNClientCycle.v ===== *)
(** * The packet cycle of the MQTT-SN client

    The invariant [sn_ok] of the client object, what the gateway may send as [event]s
    with their effect on the view, and cycle: safety against any input, and its reaction
    to every event. *)

From S2P Require Import Prelude CMem MQTTPacket MQTTPublish MQTTConnect PacketRead SNPacket SNPublish SNConnect SNSubscribe.
From S2P Require Import Platform MQTTClient Exchange TopicMatch Handlers CppClient CppLogic CppCycle SNClient SNClientLogic.

(** ** The object *)

(** The array members of the object. *)
Record sn_layout := { nl_send : block; nl_read : block; nl_pub : block }.

Record sn_ok `{ClientParams} (L : sn_layout) (v : nview) : Prop := {
  no_sendbuf : n_sendbuf (v_client v) = Ptr (nl_send L) 0;
  no_readbuf : n_readbuf (v_client v) = Ptr (nl_read L) 0;
  no_pubbuf : n_pubbuf (v_client v) = Ptr (nl_pub L) 0;
  no_size : 9 <= MAX_MQTT_PACKET_SIZE <= 1000000;
  no_send : exists l, v_mem v !! nl_send L = Some l /\ zlen l = MAX_MQTT_PACKET_SIZE;
  no_read : exists l, v_mem v !! nl_read L = Some l /\ zlen l = MAX_MQTT_PACKET_SIZE;
  no_pub : exists l, v_mem v !! nl_pub L = Some l /\ zlen l = MAX_MQTT_PACKET_SIZE;
  no_blocks : nl_send L <> nl_read L /\ nl_send L <> nl_pub L /\ nl_read L <> nl_pub L;
  no_slots : length (n_messageHandlers (v_client v)) = MAX_HANDLERS;
  no_inflight : 0 <= n_inflightMsgid (v_client v) < 65536 /\
    (0 < n_inflightMsgid (v_client v) -> 0 <= n_inflightLen (v_client v) <= MAX_MQTT_PACKET_SIZE)
}.

(** [packet] has been serialized and sent; the next packet, [packet], has been read. *)
Definition n_sent (L : sn_layout) (packet : list byte) (v : nview) : nview :=
  send (put (nl_send L) 0 packet v) packet.
Definition n_got (L : sn_layout) (packet : list byte) (v : nview) : nview :=
  set_v_in (put (nl_read L) 0 packet v) (drop (length packet) (v_in v)).

Definition n_pinged (v : nview) (b : bool) : nview := set_v_client v (n_set_ping_outstanding (v_client v) b).

Section SNState.
Context `{ClientParams}.
Implicit Types (v : nview) (L : sn_layout).

(** The invariant speaks of the arrays' addresses and sizes and of the table's length. *)
Lemma no_change L v v' :
  sn_ok L v -> n_sendbuf (v_client v') = n_sendbuf (v_client v) -> n_readbuf (v_client v') = n_readbuf (v_client v) ->
  n_pubbuf (v_client v') = n_pubbuf (v_client v) ->
  length (n_messageHandlers (v_client v')) = length (n_messageHandlers (v_client v)) ->
  0 <= n_inflightMsgid (v_client v') < 65536 ->
  (0 < n_inflightMsgid (v_client v') -> 0 <= n_inflightLen (v_client v') <= MAX_MQTT_PACKET_SIZE) ->
  (forall b l, v_mem v !! b = Some l -> exists l', v_mem v' !! b = Some l' /\ length l' = length l) ->
  sn_ok L v'.
Proof.
  intros [? ? ? ? (ls & Hs & ?) (lr & Hr & ?) (lp & Hp & ?) ? ? ?] Es Er Ep Eh ? ? Hm.
  split; rewrite ?Es, ?Er, ?Ep, ?Eh; try done.
  - destruct (Hm _ _ Hs) as (l' & ? & Hl'). exists l'. by rewrite Hl'.
  - destruct (Hm _ _ Hr) as (l' & ? & Hl'). exists l'. by rewrite Hl'.
  - destruct (Hm _ _ Hp) as (l' & ? & Hl'). exists l'. by rewrite Hl'.
Qed.

Lemma no_same_object L v v' :
  sn_ok L v -> v_client v' = v_client v ->
  (forall b l, v_mem v !! b = Some l -> exists l', v_mem v' !! b = Some l' /\ length l' = length l) -> sn_ok L v'.
Proof. intros Hok Hc Hm. pose proof (no_inflight _ _ Hok) as []. apply (no_change L v v'); rewrite ?Hc; done. Qed.

Lemma no_see L v v' : sn_ok L v -> v_mem v' = v_mem v -> v_client v' = v_client v -> sn_ok L v'.
Proof. intros Hok Hm Hc. eapply no_same_object; [done|done|]. intros b l. rewrite Hm. eauto. Qed.

Lemma no_put L v b w l :
  sn_ok L v -> v_mem v !! b = Some l -> zlen w <= zlen l -> sn_ok L (put b 0 w v).
Proof.
  intros Hok Hb Hw. eapply no_same_object; [exact Hok|done|]. intros b' l' Hl.
  destruct (decide (b' = b)) as [->|Hne]; [|rewrite put_other by done; by exists l'].
  rewrite Hb in Hl. injection Hl as <-. exists (splice l 0 w). split; [by apply put_lookup|].
  apply splice_length; lia.
Qed.

Lemma no_put_send L v w : sn_ok L v -> zlen w <= MAX_MQTT_PACKET_SIZE -> sn_ok L (put (nl_send L) 0 w v).
Proof. intros Hok Hw. destruct (no_send _ _ Hok) as (l & Hl & Hl'). eapply no_put; [done|exact Hl|lia]. Qed.

Lemma no_sent L v w : sn_ok L v -> zlen w <= MAX_MQTT_PACKET_SIZE -> sn_ok L (n_sent L w v).
Proof. intros Hok Hw. by apply (no_see L (put (nl_send L) 0 w v)); [apply no_put_send|..]. Qed.

Lemma no_got L v w : sn_ok L v -> zlen w <= MAX_MQTT_PACKET_SIZE -> sn_ok L (n_got L w v).
Proof.
  intros Hok Hw. destruct (no_read _ _ Hok) as (l & Hl & Hl').
  apply (no_see L (put (nl_read L) 0 w v)); [|done..]. eapply no_put; [done|exact Hl|lia].
Qed.

Lemma n_got_bytes L v w :
  sn_ok L v -> zlen w <= MAX_MQTT_PACKET_SIZE -> bytes_at (v_mem (n_got L w v)) (nl_read L) 0 w.
Proof.
  intros Hok Hw. destruct (no_read _ _ Hok) as (l & Hl & Hl').
  apply (bytes_at_put _ _ _ _ l); [done|done|lia].
Qed.

Lemma no_pinged L v b : sn_ok L v -> sn_ok L (n_pinged v b).
Proof. intros []. by split. Qed.
End SNState.

(** ** Keepalive *)

Section SNKeepalive.
Context `{ClientParams} {E Timer : Type} `{PS : PlatformSpec (SNClient Timer) E Timer SNMessageData}.
Context `{!WholeWrites (SNClient Timer) E Timer SNMessageData} `{CharSign} `{ByteOrder}.
Abbreviation MC := (M (snworld E Timer)).
Abbreviation datagrams := (Datagrams (SNClient Timer) E Timer SNMessageData).
Implicit Types (v : nview) (L : sn_layout).
Variables (fuel : nat) (no_timer : Timer) (uninit : Z).
Hypothesis Hfuel : (2 <= fuel)%nat.

(** Sending what was just put into the send buffer. *)
Lemma total_nsend_put L v w timer :
  sn_ok L v -> w <> [] -> zlen w <= MAX_MQTT_PACKET_SIZE ->
  total (put (nl_send L) 0 w v) (SNClient_sendPacket fuel (zlen w) timer) (fun rc v' =>
    sn_ok L v' /\ (v' = put (nl_send L) 0 w v \/ v' = n_sent L w v) /\
    (rc = SUCCESS /\ v' = n_sent L w v \/ rc = FAILURE /\ ~ datagrams)).
Proof.
  intros Hok Hne Hw. destruct (no_send _ _ Hok) as (l & Hl & Hl'). pose proof (no_size _ _ Hok) as Hsz.
  pose proof (no_put_send L v w Hok Hw) as Hokp.
  eapply total_mono; [apply (total_nsend _ _ (nl_send L) w); try done; unfold INT_MAX; try lia|].
  - apply Hok.
  - apply (bytes_at_put _ _ _ _ l); [done|done|lia].
  - intros rc v' [(-> & ->)|(-> & -> & HD)].
    + split_and!; [by apply no_sent|by right|by left].
    + split_and!; [done|by left|by right].
Qed.

(** A reply into the unsigned char [rc]. *)
Lemma total_reply L v w timer :
  sn_ok L v -> w <> [] -> zlen w <= MAX_MQTT_PACKET_SIZE ->
  total (put (nl_send L) 0 w v) (SNClient_reply fuel (zlen w) timer) (fun rc v' =>
    sn_ok L v' /\ v_client v' = v_client v /\ 0 <= rc < 256 /\ (datagrams -> rc = SUCCESS /\ v' = n_sent L w v)).
Proof.
  intros Hok Hne Hw. assert (0 < zlen w) by (destruct w; [done|simpl; lia]).
  unfold SNClient_reply. test_false (zlen w <=? 0).
  tstep total_nsend_put; [exact Hok|done|done|]. intros rc v' (Hok' & Hv' & Hcase). apply total_ret.
  split_and!; [done|by destruct Hv' as [->| ->]|apply u8_range|apply u8_range|].
  intros HD. by destruct Hcase as [[-> ->]|[_ []]].
Qed.

(** A pending ping, or nothing to do: the object keeps all but [ping_outstanding]. *)
Definition after_keepalive L v (w : nview) : Prop :=
  sn_ok L w /\ n_messageHandlers (v_client w) = n_messageHandlers (v_client v) /\ (datagrams -> w = v).

Lemma total_nkeepalive L v :
  sn_ok L v -> total v (SNClient_keepalive fuel no_timer) (fun _ w => after_keepalive L v w).
Proof.
  intros Hok. assert (Hsame : forall rc : Z, total v (ret rc : MC Z) (fun _ w => after_keepalive L v w))
    by (intros rc; apply total_ret; by split_and!).
  unfold SNClient_keepalive. nget c. destruct (_ =? 0); [apply Hsame|].
  tstep total_expired. intros e1 ? [-> He1].
  apply (total_step _ _ _ (fun expired w => w = v /\ (expired = true -> ~ datagrams))).
  { destruct e1; [apply total_ret; by split; [|intros _; apply He1]|]. by eapply total_mono; [apply total_expired|]. }
  intros expired ? [-> He]. destruct expired; cbn [andb]; [|apply Hsame].
  destruct (negb _); [|apply Hsame]. specialize (He eq_refl).
  tstep total_TimerInit. intros t1 ? ->. tstep total_TimerCountdownMS. intros t2 ? ->.
  destruct (no_send _ _ Hok) as (l & Hl & Hl'). pose proof (no_size _ _ Hok) as Hsz.
  set (pkt := sn_packet MQTTSN_PINGREQ []).
  assert (Hping : runs v (MQTTSNSerialize_pingreq (n_sendbuf (v_client v)) MAX_MQTT_PACKET_SIZE MQTTString_initializer : MC Z)
    (zlen pkt) (put (nl_send L) 0 pkt v)).
  { rewrite (no_sendbuf _ _ Hok). apply (runs_filling _ _ _ l); [done|]. intros s Hs.
    unfold MQTTSNSerialize_pingreq, MQTTSNstrlen. cbn [MQTTString_initializer cstring is_null negb lenstring len]. run_ret.
    rewrite bind_int by (unfold INT_MIN, INT_MAX; lia).
    destruct (sn_serialize_room s (nl_send L) 0 l MAX_MQTT_PACKET_SIZE 1 MQTTSN_PINGREQ
      (fun p => let* p := writeMQTTSNString p MQTTString_initializer in psub p (Ptr (nl_send L) 0)) [])
      as (Hrun & _); try done; try lia; [by rewrite Hs| |change (sn_size 1) with 2; lia].
    apply serializes_string. split_and!; [done|done|by left]. }
  rstep Hping. change (0 <? zlen pkt) with true. cbv iota.
  tstep total_nsend_put; [exact Hok|done|change (zlen pkt) with 2; lia|].
  intros rc w (Hokw & Hw & _). assert (Hh : n_messageHandlers (v_client w) = n_messageHandlers (v_client v))
    by (by destruct Hw as [->| ->]). destruct (rc =? SUCCESS).
  - rstep (runs_update_client w _ (n_set_ping_outstanding (v_client w) true)); [by intros ? <-|].
    apply total_ret. split_and!; [by apply (no_pinged L w true)|done|done].
  - tret. apply total_ret. by split_and!.
Qed.

Lemma total_ncycle_end L v rc packet_type :
  sn_ok L v ->
  total v (SNClient_cycle_end fuel no_timer rc packet_type) (fun r w =>
    r = SNClient_cycle_exit rc packet_type /\ after_keepalive L v w).
Proof.
  intros Hok. unfold SNClient_cycle_end. tstep total_nkeepalive; [exact Hok|]. intros _ w Hw. by apply total_ret.
Qed.

Lemma runs_ncycle_end `{!datagrams} L v packet_type :
  sn_ok L v -> 0 <= packet_type < 256 ->
  runs v (SNClient_cycle_end fuel no_timer SUCCESS packet_type) packet_type v.
Proof.
  intros Hok Hty. eapply total_mono; [by apply total_ncycle_end|]. intros r w (-> & _ & _ & Hw).
  split; [|by apply Hw]. unfold SNClient_cycle_exit. cbn. unfold u8. by apply Z.mod_small.
Qed.
End SNKeepalive.

(** ** Delivering messages *)

(** The functions of the handlers with a topic. *)
Definition n_calls (hs : list SNHandler) : list positive :=
  omap (fun h => match n_topicFilter h with Some _ => n_fp h | None => None end) hs.

(** Who gets a message on the topic of all subscriptions. *)
Definition n_receivers (c : SNClient unit) : list positive :=
  match n_calls (n_messageHandlers c) with
  | [] => match n_defaultMessageHandler c with Some f => [f] | None => [] end
  | fs => fs
  end.

(** All subscriptions are to [topic]: its structure equals theirs. *)
Definition hears `{CharSign} `{ByteOrder} (c : SNClient unit) (topic : MQTTSN_topicid) : Prop :=
  Forall (fun h => match n_topicFilter h with
    | Some p => exists tf, n_topics c !! p = Some tf /\
                  forall W (s : state W), MQTTSNTopic_equals topic tf s = Done 1 s
    | None => True
    end) (n_messageHandlers c).

Definition n_data (topic : MQTTSN_topicid) (msg : MQTTMessage) : SNMessageData :=
  {| nd_message := msg; nd_topic := topic |}.

(** The message has been delivered. *)
Definition n_delivered (topic : MQTTSN_topicid) (msg : MQTTMessage) (v : nview) : nview :=
  deliver v ((fun f => (f, n_data topic msg)) <$> n_receivers (v_client v)).

Section SNDeliver.
Context `{ClientParams} {E Timer : Type} `{PS : PlatformSpec (SNClient Timer) E Timer SNMessageData}.
Context `{CharSign} `{ByteOrder}.
Abbreviation MC := (M (snworld E Timer)).
Implicit Types (v : nview) (L : sn_layout).

Lemma runs_topic_at v p tf : n_topics (v_client v) !! p = Some tf -> runs v (SNClient_topic_at p : MC _) tf v.
Proof. intros Hp. unfold SNClient_topic_at. nget c. rewrite Hp. by apply total_ret. Qed.

Lemma runs_ndeliver_loop v pre hs rc topic msg :
  hears (v_client v) topic -> n_messageHandlers (v_client v) = pre ++ hs ->
  runs v (SNClient_deliver_loop (length hs) (zlen pre) rc topic msg : MC Z)
    (match n_calls hs with [] => rc | _ => SUCCESS end)
    (deliver v ((fun f => (f, n_data topic msg)) <$> n_calls hs)).
Proof.
  revert v pre rc. induction hs as [|h hs IH]; intros v pre rc Hh Hhs.
  { cbn. rewrite deliver_nil. by apply total_ret. }
  cbn [length SNClient_deliver_loop]. nget c. rewrite Hhs. rstep (runs_arr_get _ _ _ h); [by apply list_lookup_middle|].
  pose proof Hh as Hf. unfold hears in Hf. rewrite Hhs in Hf.
  apply Forall_app in Hf as [_ Hf]. apply Forall_cons_1 in Hf as [Hf _].
  assert (Hrest : forall w rc', v_client w = v_client v ->
    runs w (SNClient_deliver_loop (length hs) (zlen pre + 1) rc' topic msg : MC Z)
      (match n_calls hs with [] => rc' | _ => SUCCESS end)
      (deliver w ((fun f => (f, n_data topic msg)) <$> n_calls hs))).
  { intros w rc' Hw. replace (zlen pre + 1) with (zlen (pre ++ [h])) by zlen_lia.
    apply IH; rewrite Hw; [done|]. by rewrite <- app_assoc. }
  unfold n_calls. cbn [omap list_omap]. fold (n_calls hs). destruct (n_topicFilter h) as [p|].
  2: { tret. tret. by apply Hrest. }
  destruct Hf as (tf & Hp & Heq). tassoc. rstep runs_topic_at; [exact Hp|]. tassoc.
  eapply (runs_step _ _ _ 1 v); [apply runs_reading; intros s _; exists s; split; [apply Heq|done]|].
  tret. destruct (n_fp h) as [f|]; [|tret; by apply Hrest].
  tassoc. rstep runs_call_handler. tret. eapply total_mono; [by apply Hrest|].
  intros r w [-> ->]. split; [by destruct (n_calls hs)|]. by rewrite deliver_app.
Qed.

Lemma runs_ndeliver v topic msg :
  hears (v_client v) topic -> length (n_messageHandlers (v_client v)) = MAX_HANDLERS ->
  runs v (let* _ := SNClient_deliverMessage topic msg in ret tt : MC unit) tt (n_delivered topic msg v).
Proof.
  intros Hh Hlen. unfold SNClient_deliverMessage, n_delivered, n_receivers. rewrite <- Hlen. tassoc.
  rstep (runs_ndeliver_loop v []); [done|done|]. tassoc. nget c. cbn [v_client deliver].
  destruct (n_calls _) as [|f fs], (n_defaultMessageHandler (v_client v)) as [k|];
    cbn [fmap list_fmap Z.eqb SUCCESS FAILURE Pos.eqb]; try (tret; by apply total_ret).
  tassoc. rstep runs_call_handler. rewrite deliver_nil. tret. by apply total_ret.
Qed.
End SNDeliver.

(** ** Incoming messages *)

Definition n_with_incoming (v : nview) ids : nview := set_v_client v (n_set_incoming (v_client v) ids).

(** The view after [SNClient_accept]. *)
Definition n_accepted `{ClientParams} (topic : MQTTSN_topicid) (msg : MQTTMessage) (v : nview) : nview :=
  if MQTTCLIENT_QOS2 && (msg_qos msg =? QOS2) then
    let after := incoming_after (n_incomingQoS2messages (v_client v)) (msg_id msg) in
    let w := n_with_incoming v after.1 in
    if after.2 then n_delivered topic msg w else w
  else n_delivered topic msg v.

(** The answer to a PUBLISH whose topic id reads as [topicid]. *)
Definition n_reply (qos topicid id : Z) : list byte :=
  if qos =? QOS1 then sn_packet MQTTSN_PUBACK (sn_ack_body topicid id 0)
  else sn_packet MQTTSN_PUBREC (int_bytes id).

(** The answer to a REGISTER. *)
Definition n_regack (topicid id : Z) : list byte :=
  sn_packet MQTTSN_REGACK (sn_ack_body topicid id MQTTSN_RC_ACCEPTED).

Definition unsubscribed (c : SNClient unit) : Prop :=
  Forall (fun h => n_topicFilter h = None) (n_messageHandlers c).

Section SNAccept.
Context `{ClientParams} {E Timer : Type} `{PS : PlatformSpec (SNClient Timer) E Timer SNMessageData}.
Context `{CharSign} `{ByteOrder}.
Abbreviation MC := (M (snworld E Timer)).
Implicit Types (v : nview) (L : sn_layout).

Lemma unsubscribed_hears c topic : unsubscribed c -> hears c topic.
Proof. intros Hu. eapply Forall_impl; [|exact Hu]. by intros h ->. Qed.

Lemma n_with_incoming_same v : n_with_incoming v (n_incomingQoS2messages (v_client v)) = v.
Proof.
  destruct v as [? c ? ? ?]. unfold n_with_incoming, set_v_client, n_set_incoming. cbn.
  by destruct c as [? ? ? [] [] ? ? ? ? ? ? ? ? ? ? ? ? ? ?].
Qed.

Lemma no_with_incoming L v ids : sn_ok L v -> sn_ok L (n_with_incoming v ids).
Proof. intros []. by split. Qed.

Lemma no_accepted L topic msg v : sn_ok L v -> sn_ok L (n_accepted topic msg v).
Proof.
  intros Hok. unfold n_accepted. cbv zeta. case_match; [|by apply (no_see L v)].
  set (ids := (incoming_after _ _).1). assert (Hw : sn_ok L (n_with_incoming v ids)) by by apply no_with_incoming.
  case_match; [by apply (no_see L (n_with_incoming v ids))|done].
Qed.

Lemma n_accepted_handlers topic msg v :
  n_messageHandlers (v_client (n_accepted topic msg v)) = n_messageHandlers (v_client v) /\
  n_topics (v_client (n_accepted topic msg v)) = n_topics (v_client v).
Proof. unfold n_accepted. cbv zeta. repeat case_match; done. Qed.

Lemma runs_naccept v topic msg :
  hears (v_client v) topic -> length (n_messageHandlers (v_client v)) = MAX_HANDLERS ->
  runs v (SNClient_accept topic msg : MC unit) tt (n_accepted topic msg v).
Proof.
  intros Hh Hlen. unfold SNClient_accept, n_accepted. cbv zeta.
  destruct MQTTCLIENT_QOS2; cbn [negb orb andb]; [|by apply runs_ndeliver].
  destruct (msg_qos msg =? QOS2); cbn [negb]; [|by apply runs_ndeliver].
  unfold SNClient_isQoS2msgidFree. tassoc. nget c. tret. unfold incoming_after.
  destruct (decide (msg_id msg ∈ n_incomingQoS2messages (v_client v))) as [Hin|Hin].
  { destruct (first_index _ _) eqn:Hf; [|by apply first_index_None in Hf]. cbn [fst snd].
    rewrite n_with_incoming_same. by apply total_ret. }
  rewrite (proj2 (first_index_None _ _) Hin). unfold SNClient_useQoS2msgid. tassoc. nget c2.
  destruct (first_index _ _) as [i|]; cbn [fst snd].
  - tassoc. rstep (runs_update_client v _ (n_set_incoming (v_client v) (<[i := msg_id msg]> (n_incomingQoS2messages (v_client v)))));
      [by intros ? <-|]. tret. by apply (runs_ndeliver (n_with_incoming v _)).
  - tret. rewrite n_with_incoming_same. by apply total_ret.
Qed.

(** *** Serializing the answers *)

Lemma runs_nserialize L v (c : MC Z) packet :
  sn_ok L v -> (forall s l, mem s = v_mem v -> mem s !! nl_send L = Some l -> zlen l = MAX_MQTT_PACKET_SIZE ->
    c s = Done (zlen packet) (set_block s (nl_send L) (splice l 0 packet))) ->
  runs v c (zlen packet) (put (nl_send L) 0 packet v).
Proof.
  intros Hok Hc. destruct (no_send _ _ Hok) as (l & Hl & Hl'). apply (runs_filling _ _ _ l); [done|].
  intros s Hs. apply Hc; [done| |done]. by rewrite Hs.
Qed.

Lemma runs_npuback L v topicid id :
  sn_ok L v -> 0 <= topicid -> 0 <= id ->
  runs v (MQTTSNSerialize_puback (Ptr (nl_send L) 0) MAX_MQTT_PACKET_SIZE topicid id 0 : MC Z)
    (zlen (n_reply QOS1 topicid id)) (put (nl_send L) 0 (n_reply QOS1 topicid id) v).
Proof.
  intros Hok Ht Hid. pose proof (no_size _ _ Hok). apply (runs_nserialize L); [done|]. intros s l Hs Hl Hl'.
  by apply (sn_ack_run s (nl_send L) 0 l MAX_MQTT_PACKET_SIZE MQTTSN_PUBACK topicid id 0); try lia.
Qed.

Lemma runs_nregack L v topicid id :
  sn_ok L v -> 0 <= topicid -> 0 <= id ->
  runs v (MQTTSNSerialize_regack (Ptr (nl_send L) 0) MAX_MQTT_PACKET_SIZE topicid id MQTTSN_RC_ACCEPTED : MC Z)
    (zlen (n_regack topicid id)) (put (nl_send L) 0 (n_regack topicid id) v).
Proof.
  intros Hok Ht Hid. pose proof (no_size _ _ Hok). apply (runs_nserialize L); [done|]. intros s l Hs Hl Hl'.
  by apply (sn_ack_run s (nl_send L) 0 l MAX_MQTT_PACKET_SIZE MQTTSN_REGACK topicid id MQTTSN_RC_ACCEPTED); try lia.
Qed.

Lemma runs_npubrec L v id :
  sn_ok L v -> 0 <= id ->
  runs v (MQTTSNSerialize_pubrec (Ptr (nl_send L) 0) MAX_MQTT_PACKET_SIZE id : MC Z)
    (zlen (n_reply QOS2 0 id)) (put (nl_send L) 0 (n_reply QOS2 0 id) v).
Proof.
  intros Hok Hid. pose proof (no_size _ _ Hok). apply (runs_nserialize L); [done|]. intros s l Hs Hl Hl'.
  unfold MQTTSNSerialize_pubrec, MQTTSNSerialize_ack. cbv zeta. test_false (MAX_MQTT_PACKET_SIZE <? 4).
  rewrite (sn_frame_run s (nl_send L) 0 l 4 MQTTSN_PUBREC _ (int_bytes id)); try done; try lia.
  - cbv zeta. change (sn_length 4 ++ _) with (n_reply QOS2 0 id).
    change (zlen (n_reply QOS2 0 id)) with 4. by test_true (0 + 4 <=? zlen l).
  - by apply serializes_last, writes_int.
Qed.
End SNAccept.

(** ** The cycle on any input *)

Section SNSafety.
Context `{ClientParams} {E Timer : Type} `{PS : PlatformSpec (SNClient Timer) E Timer SNMessageData}.
Context `{!WholeWrites (SNClient Timer) E Timer SNMessageData} `{CharSign} `{ByteOrder}.
Abbreviation MC := (M (snworld E Timer)).
Abbreviation datagrams := (Datagrams (SNClient Timer) E Timer SNMessageData).
Implicit Types (v : nview) (L : sn_layout).
Variables (fuel : nat) (no_timer : Timer) (uninit : Z).
Hypothesis Hfuel : (2 <= fuel)%nat.
Hypothesis Huninit : 0 <= uninit.

(** What every cycle ensures; [hs] is the table of handlers. *)
Definition ncycle_outcome L (hs : list SNHandler) (rc : Z) (w : nview) : Prop :=
  sn_ok L w /\ n_messageHandlers (v_client w) = hs /\ 0 <= rc < 256.

Lemma cycle_exit_range rc packet_type : 0 <= rc < 256 -> 0 <= SNClient_cycle_exit rc packet_type < 256.
Proof. intros. unfold SNClient_cycle_exit. case_test; [apply u8_range|done]. Qed.

Lemma safe_nend L v rc packet_type :
  sn_ok L v -> 0 <= rc < 256 ->
  total v (SNClient_cycle_end fuel no_timer rc packet_type) (ncycle_outcome L (n_messageHandlers (v_client v))).
Proof.
  intros Hok Hrc. eapply total_mono; [by apply (total_ncycle_end fuel no_timer Hfuel L)|]. intros r w (-> & Hokw & Hh & _).
  split_and!; [done|done|by apply cycle_exit_range..].
Qed.

(** A reply, and the end of the cycle. *)
Lemma safe_nreply L v packet timer (k : Z -> MC Z) :
  sn_ok L v -> packet <> [] -> zlen packet <= MAX_MQTT_PACKET_SIZE ->
  (forall rc w, sn_ok L w -> v_client w = v_client v -> 0 <= rc < 256 ->
    total w (k rc) (ncycle_outcome L (n_messageHandlers (v_client v)))) ->
  total (put (nl_send L) 0 packet v) (bind (SNClient_reply fuel (zlen packet) timer) k)
    (ncycle_outcome L (n_messageHandlers (v_client v))).
Proof.
  intros Hok Hne Hlen Hk. tstep (total_reply fuel Hfuel); [exact Hok|done|done|]. intros rc w (Hokw & Hc & Hrc & _). by apply Hk.
Qed.

Lemma safe_nregister L v packet_type timer :
  sn_ok L v -> total v (SNClient_cycle_register fuel no_timer uninit packet_type timer)
    (ncycle_outcome L (n_messageHandlers (v_client v))).
Proof.
  intros Hok. pose proof (no_size _ _ Hok) as Hsz. destruct (no_read _ _ Hok) as (l & Hl & Hl').
  unfold SNClient_cycle_register. nget c. rewrite (no_readbuf _ _ Hok), (no_sendbuf _ _ Hok).
  tstep (total_reading v _ (fun r : Z * sn_register_out =>
    r.1 = 1 -> 0 <= sr_topicid r.2 < 65536 /\ 0 <= sr_packetid r.2 < 65536)).
  { intros s Hs. rewrite <- Hs in Hl. destruct (sn_deserialize_register_any s (nl_read L) 0 l (sn_register_locals uninit)
      MAX_MQTT_PACKET_SIZE Hl) as (rc & out & Hrun & Hr); try lia. exists (rc, out), s. by split_and!. }
  intros [ok out] ? [-> Hr]. cbn [fst snd] in Hr. destruct (Z.eqb_spec ok 1) as [->|]; cbn [negb].
  2: { apply total_ret. split_and!; [done|done|apply cycle_exit_range..]; done. }
  destruct (Hr eq_refl) as [Ht Hid]. rstep (runs_nregack L); [done|lia|lia|].
  apply safe_nreply; [done|done|change (zlen _) with 7; lia|].
  intros rc w Hokw Hc Hrc. rewrite <- Hc. by apply safe_nend.
Qed.

Lemma safe_nchecked L v rc packet_type :
  sn_ok L v -> 0 <= rc < 256 ->
  total v (SNClient_cycle_checked fuel no_timer rc packet_type) (ncycle_outcome L (n_messageHandlers (v_client v))).
Proof.
  intros Hok Hrc. unfold SNClient_cycle_checked, FAILURE. test_false (rc =? -1). by apply safe_nend.
Qed.

Lemma safe_npublish L v packet_type timer :
  sn_ok L v -> unsubscribed (v_client v) ->
  total v (SNClient_cycle_publish fuel no_timer uninit packet_type timer)
    (ncycle_outcome L (n_messageHandlers (v_client v))).
Proof.
  intros Hok Hun. pose proof (no_size _ _ Hok) as Hsz. destruct (no_read _ _ Hok) as (l & Hl & Hl').
  unfold SNClient_cycle_publish. nget c. rewrite (no_readbuf _ _ Hok), (no_sendbuf _ _ Hok).
  tstep (total_reading v _ (fun r : Z * sn_publish_out => r.1 = 0 \/
    r.1 = 1 /\ 0 <= sp_packetid r.2 < 65536 /\ (sp_qos r.2 <> 3 -> has_id (sp_topic r.2)))).
  { intros s Hs. rewrite <- Hs in Hl. destruct (sn_deserialize_publish_any s (nl_read L) 0 l (sn_publish_locals uninit)
      MAX_MQTT_PACKET_SIZE Hl) as (rc & out & Hrun & Hr); try lia. exists (rc, out), s.
    split_and!; [done..|]. destruct Hr as [[-> _]|(-> & _ & ? & ? & _)]; [by left|by right]. }
  intros [ok out] ? [-> Hr]. cbn [fst snd] in Hr. destruct Hr as [->|(-> & Hid & Htid)].
  { change (negb (0 =? 1)) with true. apply total_ret. split_and!; [done|done|apply cycle_exit_range..]; done. }
  change (negb (1 =? 1)) with false. cbv iota zeta. set (msg := Build_MQTTMessage _ _ _ _ _ _).
  rstep runs_naccept; [by apply unsubscribed_hears|by apply Hok|].
  set (w := n_accepted (sp_topic out) msg v). assert (Hokw : sn_ok L w) by by apply no_accepted.
  assert (Hhw : n_messageHandlers (v_client w) = n_messageHandlers (v_client v)) by apply n_accepted_handlers.
  rewrite <- Hhw. clearbody w.
  destruct (MQTTCLIENT_QOS1 || MQTTCLIENT_QOS2).
  2: { rstep (runs_update_client w _ (n_set_ping_outstanding (v_client w) false)); [by intros ? <-|].
       by apply (safe_nend L (n_pinged w false)); [apply no_pinged|]. }
  cbn [msg_qos msg_id msg]. destruct (negb (sp_qos out =? QOS0)); [|tret; by apply safe_nchecked].
  tassoc. destruct (Z.eqb_spec (sp_qos out) QOS1) as [Hq|Hq].
  - destruct (Htid ltac:(rewrite Hq; done)) as (x & y & Hx & Hy & ? & ?).
    unfold tid_id. rewrite Hx, Hy. unfold use. tassoc. tret. tassoc. tret. tassoc. tret.
    rstep (runs_npuback L); [done|unfold short_of_bytes; destruct big_endian; lia|lia|].
    apply safe_nreply; [done|done|change (zlen _) with 7; lia|].
    intros rc w' Hokw' Hc Hrc. rewrite <- Hc. by apply safe_nchecked.
  - destruct (sp_qos out =? QOS2).
    + rstep (runs_npubrec L); [done|lia|]. apply safe_nreply; [done|done|change (zlen _) with 4; lia|].
      intros rc w' Hokw' Hc Hrc. rewrite <- Hc. by apply safe_nchecked.
    + tret. tret. by apply safe_nchecked.
Qed.

Lemma safe_npubrec L v packet_type timer :
  sn_ok L v -> total v (SNClient_cycle_pubrec fuel no_timer uninit packet_type timer)
    (ncycle_outcome L (n_messageHandlers (v_client v))).
Proof.
  intros Hok. pose proof (no_size _ _ Hok) as Hsz. destruct (no_read _ _ Hok) as (l & Hl & Hl').
  destruct (no_send _ _ Hok) as (ls & Hls & Hls').
  unfold SNClient_cycle_pubrec. nget c. rewrite (no_readbuf _ _ Hok), (no_sendbuf _ _ Hok).
  tstep (total_reading v _ (fun r : Z * ack_out => r.1 = 1 -> 0 <= ack_packetid r.2)).
  { intros s Hs. rewrite <- Hs in Hl. destruct (deserialize_ack_any s (nl_read L) 0 l (ack_locals uninit)
      MAX_MQTT_PACKET_SIZE Hl) as (rc & out & s' & Hrun & Hm & Hw & Hr); try lia. exists (rc, out), s'.
    split_and!; [done..|]. intros Hrc. cbn in *. destruct (Hr Hrc) as [->|]; [done|lia]. }
  intros [ok out] ? [-> Hr]. cbn [fst snd] in Hr. destruct (Z.eqb_spec ok 1) as [->|]; cbn [negb].
  2: { tret. by apply safe_nchecked. }
  tassoc. tstep total_ack_into; [exact Hls|done|lia|lia|by apply Hr|].
  intros n ? [(-> & -> & _)|(_ & _ & ?)]; [|lia].
  apply safe_nreply; [done|done|change (zlen _) with 4; lia|].
  intros rc w Hokw Hc Hrc. rewrite <- Hc. by apply safe_nchecked.
Qed.

Lemma safe_ncycle L v timer :
  sn_ok L v -> unsubscribed (v_client v) ->
  total v (SNClient_cycle fuel no_timer uninit timer) (fun rc w =>
    sn_ok L w /\ unsubscribed (v_client w) /\ 0 <= rc < 256).
Proof.
  intros Hok Hun. pose proof (no_size _ _ Hok) as Hsz. destruct (no_read _ _ Hok) as (l & Hl & Hl').
  eapply (total_mono _ _ (ncycle_outcome L (n_messageHandlers (v_client v)))).
  2: { intros rc w (Hokw & Hh & Hrc). split_and!; [done| |apply Hrc..]. unfold unsubscribed. by rewrite Hh. }
  unfold SNClient_cycle. tstep (total_nread v timer (nl_read L) l); [apply Hok|done|lia|lia|].
  intros rc ? (bs & tl & -> & Hbs & Hrc). set (w := View _ _ _ _ _).
  assert (Hokw : sn_ok L w).
  { apply (no_see L (put (nl_read L) 0 bs v)); [|by rewrite (put_insert _ _ _ _ l)|done].
    eapply no_put; [done|exact Hl|lia]. }
  change (n_messageHandlers (v_client v)) with (n_messageHandlers (v_client w)).
  change (unsubscribed (v_client v)) with (unsubscribed (v_client w)) in Hun. clearbody w.
  assert (Hend : forall ty, total w (SNClient_cycle_end fuel no_timer SUCCESS ty)
    (ncycle_outcome L (n_messageHandlers (v_client w)))) by (intros; by apply safe_nend).
  destruct (_ || _); [apply Hend|]. destruct (_ =? MQTTSN_REGISTER); [by apply safe_nregister|].
  destruct (_ =? MQTTSN_PUBLISH); [by apply safe_npublish|].
  destruct (_ && (_ =? MQTTSN_PUBREC)); [by apply safe_npubrec|]. destruct (_ && _); [apply Hend|].
  destruct (_ =? MQTTSN_PINGRESP); [|apply Hend].
  rstep (runs_update_client w _ (n_set_ping_outstanding (v_client w) false)); [by intros ? <-|].
  by apply (safe_nend L (n_pinged w false)); [apply no_pinged|].
Qed.
End SNSafety.
