(* ===== verification/SNClientEvents.v ===== *)
(** * What the gateway sends, and the MQTT-SN client's reactions

    A packet from the gateway is an [event]; [ev_effect] is its effect on the view of the
    client: what is stored, delivered and answered.  On a network of datagrams one turn
    of cycle takes exactly one event, and waitfor any sequence of them up to the packet
    it waits for. *)

From S2P Require Import Prelude CMem MQTTPacket MQTTPublish MQTTConnect PacketRead SNPacket SNPublish SNConnect SNSubscribe.
From S2P Require Import Platform MQTTClient Exchange TopicMatch Handlers CppClient CppLogic CppCycle SNClient SNClientLogic SNClientCycle.

(** ** Events *)

(** A packet cycle does not look into, PINGRESP, REGISTER, PUBLISH. *)
Inductive event :=
  | EvPlain (ty : Z) (body : list byte)
  | EvPingresp (body : list byte)
  | EvRegister (topicid id : Z) (name : list byte)
  | EvPublish (dup qos retained id : Z) (topic : sn_topic) (payload : list byte).

Definition ev_type (e : event) : Z :=
  match e with
  | EvPlain ty _ => ty
  | EvPingresp _ => MQTTSN_PINGRESP
  | EvRegister _ _ _ => MQTTSN_REGISTER
  | EvPublish _ _ _ _ _ _ => MQTTSN_PUBLISH
  end.

Definition ev_body (e : event) : list byte :=
  match e with
  | EvPlain _ body | EvPingresp body => body
  | EvRegister topicid id name => sn_register_body topicid id name
  | EvPublish dup qos retained id topic payload => sn_publish_body dup qos retained id topic payload
  end.

Definition ev_packet (e : event) : list byte := sn_packet (ev_type e) (ev_body e).

(** A topic of a PUBLISH to a client: an id or a short name. *)
Definition topic_by_id (topic : sn_topic) : Prop :=
  match topic with
  | TopicId ty id => (ty = MQTTSN_TOPIC_TYPE_NORMAL \/ ty = MQTTSN_TOPIC_TYPE_PREDEFINED) /\ 0 <= id < 65536
  | TopicShort c0 c1 => 0 <= c0 < 256 /\ 0 <= c1 < 256
  | TopicLong _ => False
  end.

(** The packet fits into the receive buffer; its fields are in their ranges. *)
Definition ev_ok `{ClientParams} (e : event) : Prop :=
  1 + zlen (ev_body e) <> 255 /\ zlen (ev_body e) <= 65531 /\ sn_size (1 + zlen (ev_body e)) <= MAX_MQTT_PACKET_SIZE /\
  match e with
  | EvPlain ty _ =>
      0 <= ty < 256 /\ ty <> MQTTSN_REGISTER /\ ty <> MQTTSN_PUBLISH /\ ty <> MQTTSN_PINGRESP /\
      (MQTTCLIENT_QOS2 = true -> ty <> MQTTSN_PUBREC)
  | EvPingresp _ => True
  | EvRegister topicid id _ => 0 <= topicid < 65536 /\ 0 <= id < 65536
  | EvPublish _ qos _ id topic _ => 0 <= qos < 3 /\ 0 <= id < 65536 /\ topic_by_id topic
  end.

Section EventEffects.
Context `{ClientParams} `{CharSign} `{ByteOrder}.
Variable uninit : Z.
Implicit Types (v : nview) (L : sn_layout).

(** The structure cycle finds the topic in. *)
Definition wire_topic (topic : sn_topic) : MQTTSN_topicid :=
  match topic with
  | TopicId ty id => set_tid_id (set_tid_type (no_topic uninit) ty) id
  | TopicShort c0 c1 => set_tid_short (set_tid_type (no_topic uninit) MQTTSN_TOPIC_TYPE_SHORT) c0 c1
  | TopicLong _ => no_topic uninit
  end.

(** [topic.data.id] *)
Definition topic_value (topic : sn_topic) : Z :=
  match topic with TopicId _ id => id | TopicShort c0 c1 => short_of_bytes c0 c1 | TopicLong _ => 0 end.

(** The message in the receive buffer, its payload in place. *)
Definition wire_message L (dup qos retained id : Z) (topic : sn_topic) (payload : list byte) : MQTTMessage :=
  {| msg_qos := qos; msg_retained := retained mod 2; msg_dup := if dup mod 2 =? 0 then 0 else 255; msg_id := id;
     msg_payload := Ptr (nl_read L) (zlen (sn_packet MQTTSN_PUBLISH (sn_publish_body dup qos retained id topic payload))
                                     - zlen payload);
     msg_payloadlen := zlen payload |}.

Definition ev_effect L (e : event) v : nview :=
  let w := n_got L (ev_packet e) v in
  match e with
  | EvPlain _ _ => w
  | EvPingresp _ => n_pinged w false
  | EvRegister topicid id _ => n_sent L (n_regack topicid id) w
  | EvPublish dup qos retained id topic payload =>
      let w := n_accepted (wire_topic topic) (wire_message L dup qos retained id topic payload) w in
      if MQTTCLIENT_QOS1 || MQTTCLIENT_QOS2 then
        if qos =? QOS0 then w else n_sent L (n_reply qos (topic_value topic) id) w
      else n_pinged w false
  end.

Definition ev_effects L (es : list event) v : nview := foldl (fun v e => ev_effect L e v) v es.

(** The topic of a message is that of all subscriptions. *)
Definition heard (c : SNClient unit) (e : event) : Prop :=
  match e with EvPublish _ _ _ _ topic _ => hears c (wire_topic topic) | _ => True end.

(** The structure [t] of the application carries [topic]. *)
Definition carries (t : MQTTSN_topicid) (topic : sn_topic) : Prop :=
  tid_type t = tid_type (wire_topic topic) /\ tid_byte0 t = tid_byte0 (wire_topic topic) /\
  tid_byte1 t = tid_byte1 (wire_topic topic).

Lemma wire_topic_id topic : topic_by_id topic ->
  tid_type (wire_topic topic) = topic_type topic /\
  exists x y, tid_byte0 (wire_topic topic) = Some x /\ tid_byte1 (wire_topic topic) = Some y /\
    0 <= x < 256 /\ 0 <= y < 256 /\ short_of_bytes x y = topic_value topic.
Proof.
  destruct topic as [ty id|c0 c1|]; [intros [_ Hid]|intros [Hc0 Hc1]|done].
  - pose proof (short_bytes_range id Hid) as []. pose proof (short_bytes_spec id Hid) as [Hs _].
    unfold wire_topic, set_tid_id. destruct (short_bytes id) as [x y]. split; [done|]. by exists x, y.
  - cbn. unfold u8. rewrite !Z.mod_small by done. split; [done|]. by exists c0, c1.
Qed.

Lemma carries_equals t topic {W} (s : state W) :
  topic_by_id topic -> carries t topic -> MQTTSNTopic_equals (wire_topic topic) t s = Done 1 s.
Proof.
  intros Hid (Ht & Hb0 & Hb1). destruct (wire_topic_id topic Hid) as (_ & x & y & Hx & Hy & ? & ? & _).
  rewrite (sn_topic_equals_spec _ _ x y x y) by congruence. by rewrite Ht, !Z.eqb_refl.
Qed.

(** The effects of events leave the object well formed, and table and topics alone. *)
Lemma ev_packet_size e : ev_ok e -> zlen (ev_packet e) <= MAX_MQTT_PACKET_SIZE /\ ev_packet e <> [].
Proof.
  intros (H255 & _ & Hfits & _). unfold ev_packet. split.
  - rewrite sn_packet_length, (proj2 (Z.eqb_neq _ _) H255). lia.
  - unfold sn_packet, sn_length. by case_test.
Qed.

Lemma ev_type_range e : ev_ok e -> 0 <= ev_type e < 256.
Proof. intros (_ & _ & _ & He). destruct e; [apply He|done..]. Qed.

Lemma no_effect L e v : ev_ok e -> sn_ok L v -> sn_ok L (ev_effect L e v).
Proof.
  intros He Hok. pose proof (ev_packet_size e He) as [Hp _]. pose proof (no_size _ _ Hok).
  pose proof (no_got L v _ Hok Hp) as Hw. unfold ev_effect. destruct e as [| | |dup qos ret id topic payload].
  - done.
  - by apply no_pinged.
  - apply no_sent; [done|]. change (zlen (n_regack _ _)) with 7. lia.
  - cbv zeta. set (w := n_accepted _ _ _). assert (sn_ok L w) by by apply no_accepted.
    destruct (_ || _); [|by apply no_pinged]. case_test; [done|]. apply no_sent; [done|].
    unfold n_reply. case_test; [change (zlen _) with 7|change (zlen _) with 4]; lia.
Qed.

Lemma effect_handlers L e v :
  n_messageHandlers (v_client (ev_effect L e v)) = n_messageHandlers (v_client v) /\
  n_topics (v_client (ev_effect L e v)) = n_topics (v_client v).
Proof.
  unfold ev_effect. cbv zeta. destruct e as [| | |dup qos ret id topic payload]; try done.
  destruct (n_accepted_handlers (wire_topic topic) (wire_message L dup qos ret id topic payload)
    (n_got L (ev_packet (EvPublish dup qos ret id topic payload)) v)) as [Hh Ht].
  destruct (_ || _); [destruct (_ =? _)|]; by rewrite ?Hh, ?Ht.
Qed.

Lemma heard_effect L e e' v : heard (v_client v) e' -> heard (v_client (ev_effect L e v)) e'.
Proof.
  destruct (effect_handlers L e v) as [Hh Ht]. destruct e'; [done..|]. cbn [heard]. unfold hears. by rewrite Hh, Ht.
Qed.

Lemma effect_in L e v tl : v_in v = ev_packet e ++ tl -> v_in (ev_effect L e v) = tl.
Proof.
  intros Hin. assert (Hw : v_in (n_got L (ev_packet e) v) = tl) by (cbn; by rewrite Hin, drop_app_length).
  unfold ev_effect. cbv zeta. destruct e; [exact Hw..|]. unfold n_accepted. cbv zeta. by repeat case_match.
Qed.

(** No event changes the inflight message, the identifiers or the connection. *)
Lemma effect_object L e v :
  let c := v_client v in let c' := v_client (ev_effect L e v) in
  n_isconnected c' = n_isconnected c /\ n_packetid c' = n_packetid c /\ n_inflightMsgid c' = n_inflightMsgid c /\
  n_inflightLen c' = n_inflightLen c /\ n_inflightQoS c' = n_inflightQoS c /\ n_cleansession c' = n_cleansession c /\
  n_pubrel c' = n_pubrel c /\ n_pubbuf c' = n_pubbuf c.
Proof. unfold ev_effect, n_accepted. cbv zeta. destruct e; repeat case_match; by split_and!. Qed.
End EventEffects.

(** ** Reading the packets *)

Section EventReading.
Context {W : Type} `{CharSign} `{ByteOrder}.
Variable uninit : Z.
Implicit Types (s : state W) (b : block).

Lemma read_wire_topic s b o topic t0 qos mid rest :
  topic_by_id topic -> 0 <= qos < 3 -> t0 = set_tid_type (no_topic uninit) (topic_type topic) ->
  bytes_at (mem s) b o (topic_field topic ++ rest) ->
  read_topic_field t0 qos (Ptr b o) s = Done (wire_topic uninit topic, Ptr b (o + 2)) s /\
  read_topic_name (wire_topic uninit topic) qos mid s = Done (wire_topic uninit topic, mid) s.
Proof.
  intros Hid Hq -> Hat. destruct (wire_topic_id uninit topic Hid) as (Hty & _).
  unfold read_topic_field, read_topic_name. rewrite Hty. cbn [tid_type set_tid_type].
  rewrite (proj2 (Z.eqb_neq qos 3)), andb_false_r by lia. split; [|done].
  destruct topic as [ty id|c0 c1|]; [destruct Hid as [Hk Hid]|destruct Hid as [Hc0 Hc1]|done]; cbn [topic_type topic_field] in *.
  - replace ((ty =? MQTTSN_TOPIC_TYPE_NORMAL) || (ty =? MQTTSN_TOPIC_TYPE_PREDEFINED)) with true by (by destruct Hk as [->| ->]).
    erewrite bind_done by by eapply readInt_int_bytes. cbv beta iota. by rewrite u16_small.
  - cbn [app] in Hat. change ((_ =? _) || (_ =? _)) with false. cbv iota.
    erewrite bind_done by by eapply readChar_byte. cbv beta iota. apply bytes_at_tail in Hat.
    erewrite bind_done by by eapply readChar_byte. cbv beta iota.
    replace (o + 1 + 1) with (o + 2) by lia. unfold ret, wire_topic, set_tid_short.
    rewrite !u8_readChar by done. unfold u8. by rewrite !Z.mod_small by done.
Qed.

(** What cycle gets out of a PUBLISH. *)
Lemma sn_deserialize_publish_wire s b out dup qos retained id topic payload buflen :
  let body := sn_publish_body dup qos retained id topic payload in
  let packet := sn_packet MQTTSN_PUBLISH body in
  bytes_at (mem s) b 0 packet -> sp_topic out = no_topic uninit -> topic_by_id topic -> 0 <= qos < 3 -> 0 <= id < 65536 ->
  1 + zlen body <> 255 -> zlen body <= 65531 -> sn_size (1 + zlen body) <= buflen ->
  MQTTSNDeserialize_publish out (Ptr b 0) buflen s =
    Done (1, {| sp_dup := if dup mod 2 =? 0 then 0 else 255; sp_qos := qos; sp_retained := retained mod 2;
                sp_packetid := id; sp_topic := wire_topic uninit topic;
                sp_payload := Ptr b (zlen packet - zlen payload); sp_payloadlen := zlen payload |}) s.
Proof.
  intros body packet Hat0 Hout Hid Hq Hp H255 Hmax Hbuf.
  assert (Hat : bytes_at (mem s) b 0 (packet ++ [])) by by rewrite app_nil_r. clear Hat0.
  pose proof (sn_frame_size body H255 Hmax) as (Hn & _).
  pose proof (sn_publish_body_length dup qos retained id topic payload) as Hlen. fold body in Hlen.
  assert (Hlenp : zlen packet = sn_size (1 + zlen body))
    by (unfold packet; rewrite sn_packet_length, (proj2 (Z.eqb_neq _ _) H255); lia).
  assert (Hname : topic_name topic = []) by (by destruct topic).
  unfold MQTTSNDeserialize_publish. erewrite bind_done by by eapply sn_open_packet. cbv beta iota zeta.
  cbn [negb]. apply sn_packet_at in Hat as (_ & Htype & Hat).
  set (n := sn_size (1 + zlen body)) in *. set (k := zlen (sn_length n)) in *.
  erewrite bind_done by (eapply sn_read_type; [exact Htype|done]). cbv beta iota. cbn [negb Z.eqb Pos.eqb sn_code].
  unfold body, sn_publish_body in Hat. cbn [app] in Hat.
  erewrite bind_done by (eapply readChar_byte; exact Hat). cbv beta iota zeta.
  rewrite u8_readChar by apply sn_flags_range.
  destruct (sn_flag_fields dup qos retained 0 0 (topic_type topic)) as (Fd & Fq & Fr & _ & _ & Ft).
  rewrite Fd, Fq, Fr, Ft, (Z.mod_small qos), Hout by lia.
  replace (topic_type topic mod 4) with (topic_type topic)
    by (destruct topic as [ty i| |]; [destruct Hid as [[->| ->] _]|..]; done).
  apply bytes_at_tail in Hat. rewrite <- !app_assoc in Hat.
  destruct (read_wire_topic s b (0 + k + 1 + 1) topic _ qos (Ptr b (0 + k + 1 + 1 + 2 + 2)) _ Hid Hq eq_refl Hat) as [Hf Hnm].
  rewrite (bind_done _ _ _ _ _ Hf). cbv beta iota.
  apply bytes_at_app in Hat as [_ Hat]. rewrite topic_field_length in Hat.
  erewrite bind_done by (eapply readInt_int_bytes; [exact Hat|lia]). cbv beta iota.
  rewrite (bind_done _ _ _ _ _ Hnm). cbv beta iota. run_psub.
  rewrite Hname in *. cbn [length] in Hlen. unfold ret. do 3 f_equal.
  - pose proof (Z.mod_pos_bound dup 2). case_test; [by replace (dup mod 2) with 0|].
    by replace (dup mod 2) with 1 by lia.
  - by apply u16_small.
  - f_equal. lia.
  - lia.
Qed.
End EventReading.

(** ** The cycle and the waiting for a packet *)

Section EventCycle.
Context `{ClientParams} {E Timer : Type} `{PS : PlatformSpec (SNClient Timer) E Timer SNMessageData}.
Context `{!Datagrams (SNClient Timer) E Timer SNMessageData} `{CharSign} `{ByteOrder}.
Abbreviation MC := (M (snworld E Timer)).
Implicit Types (v : nview) (L : sn_layout).
Variables (fuel : nat) (no_timer : Timer) (uninit : Z).
Hypothesis Hfuel : (2 <= fuel)%nat.

(** An answer has been serialized. *)
Lemma runs_nreply L v packet packet_type timer (k : Z -> Z -> MC Z) :
  sn_ok L v -> packet <> [] -> zlen packet <= MAX_MQTT_PACKET_SIZE -> 0 <= packet_type < 256 ->
  k = SNClient_cycle_end fuel no_timer \/ k = SNClient_cycle_checked fuel no_timer ->
  runs (put (nl_send L) 0 packet v)
    (let* rc := SNClient_reply fuel (zlen packet) timer in k rc packet_type) packet_type (n_sent L packet v).
Proof.
  intros Hok Hne Hlen Hty Hk. tstep (total_reply fuel Hfuel); [exact Hok|done|done|].
  intros rc w (Hokw & _ & _ & Hw). destruct (Hw ltac:(typeclasses eauto)) as [-> ->].
  assert (Hend : runs (n_sent L packet v) (SNClient_cycle_end fuel no_timer SUCCESS packet_type) packet_type (n_sent L packet v))
    by (by apply (runs_ncycle_end fuel no_timer Hfuel L)).
  by destruct Hk as [->| ->].
Qed.

Lemma runs_nregister L v topicid id name timer :
  let e := EvRegister topicid id name in
  sn_ok L v -> ev_ok e -> bytes_at (v_mem v) (nl_read L) 0 (ev_packet e) ->
  runs v (SNClient_cycle_register fuel no_timer uninit MQTTSN_REGISTER timer) MQTTSN_REGISTER
    (n_sent L (n_regack topicid id) v).
Proof.
  intros e Hok (H255 & Hmax & Hfits & Ht & Hid) Hat. pose proof (no_size _ _ Hok).
  unfold SNClient_cycle_register. nget c. rewrite (no_readbuf _ _ Hok), (no_sendbuf _ _ Hok).
  tstep (total_reading v _ (fun r : Z * sn_register_out =>
    r.1 = 1 /\ sr_topicid r.2 = topicid /\ sr_packetid r.2 = id)).
  { intros s Hs. rewrite <- Hs in Hat. destruct (sn_deserialize_register_packet s (nl_read L) 0 topicid id name
      (sn_register_locals uninit) MAX_MQTT_PACKET_SIZE []) as (out & Hrun & Ho1 & Ho2 & _); try done.
    { rewrite app_nil_r. exact Hat. }
    exists (1, out), s. by split_and!. }
  intros [ok out] ? (-> & Hok1 & Ho1 & Ho2). cbn [fst snd] in *. subst ok. cbn [negb Z.eqb Pos.eqb]. rewrite Ho1, Ho2.
  rstep (runs_nregack L); [done|lia|lia|].
  apply runs_nreply; [done|done|change (zlen _) with 7; lia|done|by left].
Qed.

Lemma runs_npublish L v dup qos retained id topic payload timer :
  let e := EvPublish dup qos retained id topic payload in
  sn_ok L v -> ev_ok e -> heard uninit (v_client v) e -> bytes_at (v_mem v) (nl_read L) 0 (ev_packet e) ->
  runs v (SNClient_cycle_publish fuel no_timer uninit MQTTSN_PUBLISH timer) MQTTSN_PUBLISH
    (let w := n_accepted (wire_topic uninit topic) (wire_message L dup qos retained id topic payload) v in
     if MQTTCLIENT_QOS1 || MQTTCLIENT_QOS2 then
       if qos =? QOS0 then w else n_sent L (n_reply qos (topic_value topic) id) w
     else n_pinged w false).
Proof.
  intros e Hok (H255 & Hmax & Hfits & Hq & Hid & Htid) Hh Hat. pose proof (no_size _ _ Hok).
  unfold SNClient_cycle_publish. nget c. rewrite (no_readbuf _ _ Hok), (no_sendbuf _ _ Hok).
  eapply runs_step.
  { apply runs_reading. intros s Hs. rewrite <- Hs in Hat. exists s. split; [|done].
    by apply (sn_deserialize_publish_wire uninit s (nl_read L) (sn_publish_locals uninit) dup qos retained id topic payload). }
  cbv beta iota zeta. cbn [negb Z.eqb Pos.eqb sp_qos sp_retained sp_dup sp_packetid sp_payload sp_payloadlen sp_topic].
  assert (Hlen : zlen payload <= 65531).
  { pose proof (sn_publish_body_length dup qos retained id topic payload). unfold e in Hmax. cbn [ev_body] in Hmax. lia. }
  replace (size_t (zlen payload)) with (zlen payload) by (unfold size_t, u32; rewrite Z.mod_small by lia; done).
  set (msg := Build_MQTTMessage _ _ _ _ _ _).
  change (wire_message L dup qos retained id topic payload) with msg.
  rstep runs_naccept; [exact Hh|by apply Hok|].
  set (w := n_accepted (wire_topic uninit topic) msg v). assert (Hokw : sn_ok L w) by by apply no_accepted.
  clearbody w. assert (Hend : runs w (SNClient_cycle_end fuel no_timer SUCCESS MQTTSN_PUBLISH) MQTTSN_PUBLISH w)
    by (by apply (runs_ncycle_end fuel no_timer Hfuel L)).
  destruct (MQTTCLIENT_QOS1 || MQTTCLIENT_QOS2).
  2: { rstep (runs_update_client w _ (n_set_ping_outstanding (v_client w) false)); [by intros ? <-|].
       apply (runs_ncycle_end fuel no_timer Hfuel L (n_pinged w false)); [by apply no_pinged|done]. }
  change (msg_qos msg) with qos. change (msg_id msg) with id. destruct (Z.eqb_spec qos QOS0) as [->|Hq0]; cbn [negb].
  { tret. exact Hend. }
  tassoc. destruct (Z.eqb_spec qos QOS1) as [->|Hq1].
  - destruct (wire_topic_id uninit topic Htid) as (_ & x & y & Hx & Hy & ? & ? & Hval).
    unfold tid_id. rewrite Hx, Hy. unfold use. tassoc. tret. tassoc. tret. tassoc. tret. rewrite Hval.
    rstep (runs_npuback L); [done|rewrite <- Hval; unfold short_of_bytes; destruct big_endian; lia|lia|].
    apply runs_nreply; [done|done|change (zlen _) with 7; lia|done|by right].
  - replace (qos =? QOS2) with true by (unfold QOS0, QOS1, QOS2 in *; lia).
    replace (n_reply qos (topic_value topic) id) with (n_reply QOS2 0 id)
      by (unfold n_reply; by rewrite (proj2 (Z.eqb_neq _ _) Hq1)).
    rstep (runs_npubrec L); [done|lia|]. apply runs_nreply; [done|done|change (zlen _) with 4; lia|done|by right].
Qed.

(** One turn takes one packet; its result is the type. *)
Lemma runs_ncycle L v e tl timer :
  sn_ok L v -> ev_ok e -> heard uninit (v_client v) e -> v_in v = ev_packet e ++ tl ->
  runs v (SNClient_cycle fuel no_timer uninit timer) (ev_type e) (ev_effect uninit L e v).
Proof.
  intros Hok He Hh Hin. pose proof (no_size _ _ Hok) as Hsz. destruct (no_read _ _ Hok) as (l & Hl & Hl').
  pose proof (ev_packet_size e He) as [Hp _]. pose proof (ev_type_range e He) as Hty.
  unfold SNClient_cycle. pose proof He as (H255 & Hmax & Hfits & _).
  rstep (runs_nread v timer (nl_read L) l (ev_type e) (ev_body e) tl); [apply Hok|done|lia|exact Hin|done|done|done|done|].
  replace (set_v_in (put (nl_read L) 0 (sn_packet (ev_type e) (ev_body e)) v) tl) with (n_got L (ev_packet e) v)
    by (unfold n_got; by rewrite Hin, drop_app_length).
  assert (Hokw : sn_ok L (n_got L (ev_packet e) v)) by by apply no_got.
  assert (Hat : bytes_at (v_mem (n_got L (ev_packet e) v)) (nl_read L) 0 (ev_packet e)) by by apply n_got_bytes.
  rewrite (u16_small (ev_type e)) by lia. unfold ev_effect. cbv zeta.
  assert (Hhw : heard uninit (v_client (n_got L (ev_packet e) v)) e) by exact Hh.
  set (w := n_got L (ev_packet e) v) in *. clearbody w. clear Hh Hin Hok.
  assert (Hend : forall ty u, sn_ok L u -> 0 <= ty < 256 -> runs u (SNClient_cycle_end fuel no_timer SUCCESS ty) ty u)
    by (intros; by apply (runs_ncycle_end fuel no_timer Hfuel L)).
  assert (Hping : forall ty, 0 <= ty < 256 -> runs w (update_client (fun c => n_set_ping_outstanding c false) ;;;
    SNClient_cycle_end fuel no_timer SUCCESS ty) ty (n_pinged w false)).
  { intros ty Hr. rstep (runs_update_client w _ (n_set_ping_outstanding (v_client w) false)); [by intros ? <-|].
    apply Hend; [by apply no_pinged|done]. }
  destruct e as [ty body|body|topicid id name|dup qos retained id topic payload]; cbn [ev_type] in *.
  - destruct He as (_ & _ & _ & _ & E1 & E2 & E3 & E4). destruct (_ || _); [by apply Hend|].
    rewrite (proj2 (Z.eqb_neq _ _) E1), (proj2 (Z.eqb_neq _ _) E2), (proj2 (Z.eqb_neq _ _) E3).
    destruct MQTTCLIENT_QOS2; cbn [andb]; [|by apply Hend].
    rewrite (proj2 (Z.eqb_neq _ _) (E4 eq_refl)). by case_match; apply Hend.
  - rewrite !andb_false_r. by apply Hping.
  - by apply (runs_nregister L w topicid id name).
  - by apply (runs_npublish L w dup qos retained id topic payload).
Qed.

(** waitfor takes the packets up to the first of the type it waits for. *)
Lemma runs_nwait L v es e tl ty timer n rc :
  sn_ok L v -> Forall ev_ok es -> ev_ok e -> Forall (heard uninit (v_client v)) es -> heard uninit (v_client v) e ->
  Forall (fun e => ev_type e <> ty) es -> ev_type e = ty -> v_in v = concat (map ev_packet es) ++ ev_packet e ++ tl ->
  (length es < n)%nat ->
  runs v (SNClient_waitfor_loop fuel no_timer uninit n rc ty timer) ty (ev_effects uninit L (es ++ [e]) v).
Proof.
  intros Hok Hes He Hhs Hh Hother <- Hin Hn. revert v n rc Hok Hhs Hh Hin Hn.
  induction Hes as [|e1 es He1 Hes IH]; intros v n rc Hok Hhs Hh Hin Hn; destruct n as [|n]; [cbn in Hn; lia| |cbn in Hn; lia|].
  - cbn [SNClient_waitfor_loop]. tstep total_expired. intros ex ? [-> Hex].
    destruct ex; [by destruct (Hex eq_refl)|]. rstep (runs_ncycle L v e tl); [done|done|done|exact Hin|].
    rewrite Z.eqb_refl. by apply total_ret.
  - apply Forall_cons_1 in Hhs as [Hh1 Hhs]. apply Forall_cons_1 in Hother as [Ho Hother].
    cbn [map concat] in Hin. rewrite <- app_assoc in Hin.
    cbn [SNClient_waitfor_loop]. tstep total_expired. intros ex ? [-> Hex].
    destruct ex; [by destruct (Hex eq_refl)|]. rstep (runs_ncycle L v e1); [done|done|done|exact Hin|].
    rewrite (proj2 (Z.eqb_neq _ _) Ho). cbn [negb app].
    apply (IH Hother).
    + by apply no_effect.
    + eapply Forall_impl; [|exact Hhs]. intros e2. apply heard_effect.
    + by apply heard_effect.
    + by apply (effect_in uninit L e1).
    + cbn in Hn. lia.
Qed.

Lemma no_effects L es v : Forall ev_ok es -> sn_ok L v -> sn_ok L (ev_effects uninit L es v).
Proof. intros Hes. revert v. induction Hes as [|e es He _ IH]; intros v Hok; [done|]. apply IH. by apply no_effect. Qed.

(** The last packet lies in the receive buffer. *)
Lemma effects_last L es ty body v :
  Forall ev_ok es -> ev_ok (EvPlain ty body) -> sn_ok L v ->
  bytes_at (v_mem (ev_effects uninit L (es ++ [EvPlain ty body]) v)) (nl_read L) 0 (sn_packet ty body).
Proof.
  intros Hes He Hok. unfold ev_effects. rewrite foldl_app. cbn [foldl ev_effect].
  apply n_got_bytes; [by apply no_effects|]. by apply (ev_packet_size (EvPlain ty body)).
Qed.

Lemma effects_object L es v :
  let c := v_client v in let c' := v_client (ev_effects uninit L es v) in
  n_messageHandlers c' = n_messageHandlers c /\ n_topics c' = n_topics c /\
  n_isconnected c' = n_isconnected c /\ n_packetid c' = n_packetid c /\ n_inflightMsgid c' = n_inflightMsgid c /\
  n_inflightLen c' = n_inflightLen c /\ n_inflightQoS c' = n_inflightQoS c /\ n_cleansession c' = n_cleansession c /\
  n_pubrel c' = n_pubrel c /\ n_pubbuf c' = n_pubbuf c.
Proof.
  revert v. induction es as [|e es IH]; intros v; [by split_and!|]. cbv zeta. cbn [ev_effects foldl].
  destruct (IH (ev_effect uninit L e v)) as (F1 & F2 & F3 & F4 & F5 & F6 & F7 & F8 & F9 & F10).
  destruct (effect_handlers uninit L e v) as [E1 E2].
  destruct (effect_object uninit L e v) as (E3 & E4 & E5 & E6 & E7 & E8 & E9 & E10).
  unfold ev_effects in *. by rewrite F1, F2, F3, F4, F5, F6, F7, F8, F9, F10.
Qed.
End EventCycle.
