(* ===== verification/SNClientOps.v ===== *)
(** * The operations of the MQTT-SN client

    connect, publish, subscribe, unsubscribe and disconnect on a network of datagrams,
    with any packets of the gateway before the answer an operation waits for. *)

From S2P Require Import Prelude CMem MQTTPacket MQTTPublish MQTTConnect PacketRead SNPacket SNPublish SNConnect SNSubscribe.
From S2P Require Import Platform MQTTClient Exchange TopicMatch Handlers CppClient CppLogic CppCycle SNClient SNClientLogic SNClientCycle SNClientEvents.

(** ** Updates of the view *)

Definition n_with_session (v : nview) (duration : Z) (clean : bool) : nview :=
  set_v_client v (n_set_session (v_client v) duration clean).
Definition n_with_connected (v : nview) (b : bool) : nview := set_v_client v (n_set_isconnected (v_client v) b).
Definition n_with_packetid (v : nview) (id : Z) : nview := set_v_client v (n_set_packetid (v_client v) id).
Definition n_with_topics (v : nview) ts : nview := set_v_client v (n_set_topics (v_client v) ts).
Definition n_with_handlers (v : nview) hs : nview := set_v_client v (n_set_messageHandlers (v_client v) hs).

(** The next packet identifier. *)
Definition n_next_id (v : nview) : Z :=
  if n_packetid (v_client v) =? MAX_PACKET_ID then 1 else n_packetid (v_client v) + 1.

(** What the gateway sends before the answer [e] of type [ty], and the answer. *)
Record answers `{ClientParams} `{CharSign} `{ByteOrder} (uninit : Z) (fuel : nat) (es : list event) (e : event) (v : nview)
    (tl : list byte) : Prop := {
  an_ok : Forall ev_ok es;
  an_last : ev_ok e;
  an_heard : Forall (heard uninit (v_client v)) es;
  an_heard_last : heard uninit (v_client v) e;
  an_other : Forall (fun e' => ev_type e' <> ev_type e) es;
  an_in : v_in v = concat (map ev_packet es) ++ ev_packet e ++ tl;
  an_fuel : (length es < fuel)%nat
}.

Section SNOperations.
Context `{ClientParams} {E Timer : Type} `{PS : PlatformSpec (SNClient Timer) E Timer SNMessageData}.
Context `{!Datagrams (SNClient Timer) E Timer SNMessageData} `{CharSign} `{ByteOrder}.
Abbreviation MC := (M (snworld E Timer)).
Implicit Types (v : nview) (L : sn_layout).
Variables (fuel : nat) (no_timer : Timer) (uninit : Z).
Hypothesis Hfuel : (2 <= fuel)%nat.

Lemma runs_ncommand_timer {A} v (k : Timer -> MC A) Q :
  (forall t, total v (k t) Q) -> total v (bind (SNClient_command_timer no_timer) k) Q.
Proof.
  intros Hk. unfold SNClient_command_timer. tassoc. tstep total_TimerInit. intros t ? ->. tassoc. nget c.
  tstep total_TimerCountdownMS. intros t' ? ->. apply Hk.
Qed.

Lemma no_with_session L v d b : sn_ok L v -> sn_ok L (n_with_session v d b).
Proof. intros []. by split. Qed.
Lemma no_with_connected L v b : sn_ok L v -> sn_ok L (n_with_connected v b).
Proof. intros []. by split. Qed.
Lemma no_with_packetid L v id : sn_ok L v -> sn_ok L (n_with_packetid v id).
Proof. intros []. by split. Qed.
Lemma no_with_topics L v ts : sn_ok L v -> sn_ok L (n_with_topics v ts).
Proof. intros []. by split. Qed.
Lemma no_with_handlers L v i h :
  sn_ok L v -> sn_ok L (n_with_handlers v (<[i := h]> (n_messageHandlers (v_client v)))).
Proof. intros []. split; try done. cbn. by rewrite length_insert. Qed.

Lemma runs_nsend L v w timer :
  sn_ok L v -> w <> [] -> zlen w <= MAX_MQTT_PACKET_SIZE ->
  runs (put (nl_send L) 0 w v) (SNClient_sendPacket fuel (zlen w) timer) SUCCESS (n_sent L w v).
Proof.
  intros Hok Hne Hw. eapply total_mono; [by apply (total_nsend_put fuel Hfuel)|].
  intros rc v' (_ & _ & [[-> ->]|[_ HD]]); [done|]. destruct HD. typeclasses eauto.
Qed.

Lemma runs_nanswer L v es e tl timer :
  sn_ok L v -> answers uninit fuel es e v tl ->
  runs v (SNClient_waitfor fuel no_timer uninit (ev_type e) timer) (ev_type e) (ev_effects uninit L (es ++ [e]) v).
Proof. intros Hok []. by apply (runs_nwait fuel no_timer uninit Hfuel L v es e tl). Qed.

Lemma runs_nexit v rc :
  runs v (SNClient_exit rc : MC Z) rc (if rc =? SUCCESS then v else n_with_connected v false).
Proof.
  unfold SNClient_exit. destruct (rc =? SUCCESS); cbn [negb]; [tret; by apply total_ret|].
  rstep (runs_update_client v _ (n_set_isconnected (v_client v) false)); [by intros ? <-|]. by apply total_ret.
Qed.

(** An answer without events of its own. *)
Lemma plain_ok ty body :
  0 <= ty < 256 -> ty <> MQTTSN_REGISTER -> ty <> MQTTSN_PUBLISH -> ty <> MQTTSN_PINGRESP -> ty <> MQTTSN_PUBREC ->
  zlen body <= 7 -> 9 <= MAX_MQTT_PACKET_SIZE -> ev_ok (EvPlain ty body).
Proof.
  clear Hfuel.
  intros Ht ? ? ? ? Hb Hmax. unfold ev_ok. cbn [ev_body]. split_and!; try lia; try done.
  unfold sn_size. test_false (255 <? 1 + zlen body). lia.
Qed.

(** ** connect *)

Definition n_connecting L (opts : MQTTSNPacket_connectData) (id : list byte) v : nview :=
  n_sent L (sn_packet MQTTSN_CONNECT
              (sn_connect_body (sc_cleansession opts) (sc_willFlag opts) (sc_duration opts) id))
    (n_with_session v (sc_duration opts) (negb (sc_cleansession opts =? 0))).

Definition n_connack (rc : Z) : event := EvPlain MQTTSN_CONNACK [byte_of_Z rc].

(** The client identifier, the duration and the length of the CONNECT are in range. *)
Definition n_options v L (opts : MQTTSNPacket_connectData) (id : list byte) : Prop :=
  snstring_is (v_mem v) (nl_send L) (sc_clientID opts) id /\ 0 <= sc_duration opts < 65536 /\
  5 + zlen id <> 255 /\ zlen id <= 65527 /\ sn_size (5 + zlen id) <= MAX_MQTT_PACKET_SIZE.

Lemma connect_body_size clean will duration id : zlen (sn_connect_body clean will duration id) = 4 + zlen id.
Proof.
  clear Hfuel.
  unfold sn_connect_body. rewrite !length_cons, length_app. change (length (int_bytes _)) with 2%nat. lia.
Qed.

Lemma no_connecting L opts id v : sn_ok L v -> n_options v L opts id -> sn_ok L (n_connecting L opts id v).
Proof.
  clear Hfuel.
  intros Hok (_ & _ & H255 & _ & Hfits). apply no_sent; [by apply no_with_session|].
  rewrite sn_packet_length, connect_body_size, Z.add_assoc. change (1 + 4) with 5.
  rewrite (proj2 (Z.eqb_neq _ _) H255). lia.
Qed.

Lemma total_nconnect L v opts id es rc tl (Q : Z -> nview -> Prop) :
  sn_ok L v -> n_isconnected (v_client v) = false -> n_options v L opts id ->
  answers uninit fuel es (n_connack rc) v tl ->
  let w := ev_effects uninit L (es ++ [n_connack rc]) (n_connecting L opts id v) in
  (forall timer, total w (SNClient_resend fuel no_timer uninit (to_char rc) timer) (fun r w' =>
    Q r (if r =? SUCCESS then n_with_connected w' true else w'))) ->
  total v (SNClient_connect fuel no_timer uninit opts) Q.
Proof.
  intros Hok Hdis (Hid & Hd & H255 & Hmax & Hfits) Hans w Hw. pose proof (no_size _ _ Hok) as Hsz.
  unfold SNClient_connect. apply runs_ncommand_timer. intros timer. nget c. rewrite Hdis.
  set (v1 := n_with_session v (sc_duration opts) (negb (sc_cleansession opts =? 0))).
  rstep (runs_update_client v _ (n_set_session (v_client v) (sc_duration opts) (negb (sc_cleansession opts =? 0))));
    [by intros ? <-|]. fold (n_with_session v (sc_duration opts) (negb (sc_cleansession opts =? 0))). fold v1.
  assert (Hok1 : sn_ok L v1) by by apply no_with_session.
  rewrite (no_sendbuf _ _ Hok).
  pose proof (connect_body_size (sc_cleansession opts) (sc_willFlag opts) (sc_duration opts) id) as Hbody.
  set (body := sn_connect_body _ _ _ _) in *. set (wire := sn_packet MQTTSN_CONNECT body) in *.
  replace (5 + zlen id) with (1 + zlen body) in * by lia.
  assert (Hwire : zlen wire = sn_size (1 + zlen body))
    by (unfold wire; rewrite sn_packet_length, (proj2 (Z.eqb_neq _ _) H255); lia).
  assert (Hne : wire <> []) by (unfold wire, sn_packet, sn_length; by case_test).
  rstep (runs_nserialize L v1 _ wire); [done| |].
  { intros s l Hm Hl Hl'. apply sn_serialize_connect_room; rewrite ?Hm in *; try done; fold body; lia. }
  assert (0 < zlen wire) by (destruct wire; [done|simpl; lia]). test_false (zlen wire <=? 0).
  rstep (runs_nsend L v1 wire); [done|done|lia|]. cbn [Z.eqb SUCCESS negb].
  set (v2 := n_sent L wire v1). assert (Hok2 : sn_ok L v2) by (apply no_sent; [done|lia]).
  nget c2. eapply (runs_step _ _ _ tt v2).
  { destruct (0 <? _); [|by apply total_ret]. tstep total_TimerCountdown. intros t ? ->. by apply runs_set_timer. }
  rstep (runs_nanswer L v2 es (n_connack rc) tl); [done|by destruct Hans|].
  change (ev_type (n_connack rc) =? MQTTSN_CONNACK) with true. cbv iota.
  change (ev_effects uninit L (es ++ [n_connack rc]) v2) with w. rewrite (no_readbuf _ _ Hok2).
  assert (Hat : bytes_at (v_mem w) (nl_read L) 0 (sn_packet MQTTSN_CONNACK [byte_of_Z rc] ++ []))
    by (rewrite app_nil_r; apply effects_last; [apply Hans|apply Hans|done]).
  tassoc. eapply (runs_step _ _ _ (1, to_char rc) w).
  { apply runs_reading. intros s Hs. exists s. split; [|done]. rewrite <- Hs in Hat.
    eapply sn_deserialize_connack_packet; [exact Hat|lia]. }
  cbv beta iota. cbn [Z.eqb Pos.eqb]. tret. apply (total_step _ _ _ _ _ (Hw timer)). intros r w' HQ.
  destruct (r =? SUCCESS).
  - rstep (runs_update_client w' _ (n_set_isconnected (v_client w') true)); [by intros ? <-|]. by apply total_ret.
  - tret. by apply total_ret.
Qed.

(** ** publish *)

(** The identifier of the message. *)
Definition n_numbered (qos : Z) v : nview :=
  if (MQTTCLIENT_QOS1 || MQTTCLIENT_QOS2) && ((qos =? QOS1) || (qos =? QOS2)) then n_with_packetid v (n_next_id v) else v.
Definition n_number (qos id : Z) v : Z :=
  if (MQTTCLIENT_QOS1 || MQTTCLIENT_QOS2) && ((qos =? QOS1) || (qos =? QOS2)) then n_next_id v else id.

(** The message is kept for the next connection, unless the session is clean. *)
Definition n_tracked L (wire : list byte) (id qos : Z) v : nview :=
  if (MQTTCLIENT_QOS1 || MQTTCLIENT_QOS2) && negb (n_cleansession (v_client v)) then
    let w := put (nl_pub L) 0 wire v in
    let w := set_v_client w (n_set_inflight (v_client w) (zlen wire) id qos) in
    if MQTTCLIENT_QOS2 then set_v_client w (n_set_pubrel (v_client w) false) else w
  else v.

Definition n_publish_wire (qos retained id : Z) (topic : sn_topic) (bs : list byte) : list byte :=
  sn_packet MQTTSN_PUBLISH (sn_publish_body 0 qos retained id topic bs).

Record n_publish_args L v p t topic payload (bs : list byte) (len id qos : Z) : Prop := {
  np_topic : n_topics (v_client v) !! p = Some t;
  np_denotes : topic_denotes (payload_is (v_mem v) (nl_send L)) qos t topic;
  np_payload : payload_is (v_mem v) (nl_send L) payload bs;
  np_length : len = zlen bs;
  np_qos : 0 <= qos < 3;
  np_id : 0 <= id < 65536;
  np_next : 0 <= n_packetid (v_client v) <= MAX_PACKET_ID;
  np_max : 5 + zlen bs <> 254 /\ 5 + zlen bs <= 65531;
  np_fits : sn_size (6 + zlen bs) <= MAX_MQTT_PACKET_SIZE
}.

Lemma n_next_range v : 0 <= n_packetid (v_client v) <= MAX_PACKET_ID -> 1 <= n_next_id v < 65536.
Proof. clear Hfuel. intros Hn. unfold n_next_id, MAX_PACKET_ID in *. case_test; lia. Qed.

Lemma runs_nextid {A} v (k : Z -> MC A) Q :
  total (n_with_packetid v (n_next_id v)) (k (n_next_id v)) Q -> total v (bind SNPacketId_getNext k) Q.
Proof.
  intros Hk. unfold SNPacketId_getNext. tassoc. nget c. fold (n_next_id v).
  tassoc. rstep (runs_update_client v _ (n_set_packetid (v_client v) (n_next_id v))); [by intros ? <-|]. by tret.
Qed.

Lemma no_numbered L qos v : sn_ok L v -> sn_ok L (n_numbered qos v).
Proof. clear Hfuel. intros. unfold n_numbered. case_match; [by apply no_with_packetid|done]. Qed.

Lemma publish_wire_size qos retained id t topic bs P :
  topic_denotes P qos t topic -> 0 <= qos < 3 -> 5 + zlen bs <> 254 ->
  let body := sn_publish_body 0 qos retained id topic bs in
  zlen body = 5 + zlen bs /\ zlen (n_publish_wire qos retained id topic bs) = sn_size (6 + zlen bs).
Proof.
  clear Hfuel.
  intros Ht Hq H254 body. assert (Hn : topic_name topic = []) by (destruct topic; [done..|]; destruct Ht as (_ & -> & _); lia).
  assert (Hb : zlen body = 5 + zlen bs) by (unfold body; rewrite sn_publish_body_length, Hn; change (zlen []) with 0; lia). split; [done|].
  unfold n_publish_wire. fold body. rewrite sn_packet_length, Hb. test_false (1 + (5 + zlen bs) =? 255).
  replace (1 + (5 + zlen bs)) with (6 + zlen bs) by lia. lia.
Qed.

Lemma no_tracked L wire id qos v :
  sn_ok L v -> 0 <= id < 65536 -> zlen wire <= MAX_MQTT_PACKET_SIZE -> sn_ok L (n_tracked L wire id qos v).
Proof.
  clear Hfuel.
  intros Hok Hid Hw. destruct (no_pub _ _ Hok) as (l & Hl & Hl'). unfold n_tracked. case_match; [|done].
  assert (Hokp : sn_ok L (put (nl_pub L) 0 wire v)) by (eapply no_put; [done|exact Hl|lia]).
  cbv zeta. case_match; (eapply no_change; [exact Hokp|try done..]; [|by intros b' l' ?; exists l']; cbn; lia).
Qed.

(** What keeping the message leaves alone. *)
Lemma ntracked_input L wire id qos b w v : v_in (n_tracked L wire id qos (put b 0 w (n_numbered qos v))) = v_in v.
Proof. unfold n_tracked, n_numbered. cbv zeta. by repeat case_match. Qed.

Lemma ntracked_heard L wire id qos b w v e :
  heard uninit (v_client v) e -> heard uninit (v_client (n_tracked L wire id qos (put b 0 w (n_numbered qos v)))) e.
Proof. unfold n_tracked, n_numbered. cbv zeta. by repeat case_match. Qed.

Lemma ntracked_inflight L wire id b w v :
  MQTTCLIENT_QOS1 = true -> n_cleansession (v_client v) = false ->
  let c := v_client (n_tracked L wire id QOS1 (put b 0 w (n_numbered QOS1 v))) in
  n_inflightMsgid c = id /\ n_inflightLen c = zlen wire /\ n_inflightQoS c = QOS1.
Proof.
  intros Hb Hclean. unfold n_tracked, n_numbered. rewrite Hb. cbn [orb andb]. change (QOS1 =? QOS1) with true. cbn [orb].
  change (n_cleansession (v_client (put _ _ _ _))) with (n_cleansession (v_client v)). rewrite Hclean. cbv zeta. cbn [negb].
  by case_match.
Qed.

Lemma ntracked_send L wire id qos v :
  sn_ok L v -> zlen wire <= MAX_MQTT_PACKET_SIZE ->
  bytes_at (v_mem (n_tracked L wire id qos (put (nl_send L) 0 wire v))) (nl_send L) 0 wire.
Proof.
  clear Hfuel.
  intros Hok Hw. destruct (no_send _ _ Hok) as (l & Hl & Hl'). destruct (no_blocks _ _ Hok) as (_ & Hne & _).
  assert (Hat : bytes_at (v_mem (put (nl_send L) 0 wire v)) (nl_send L) 0 wire) by (apply (bytes_at_put _ _ _ _ l); [done|done|lia]).
  assert (Hp : bytes_at (v_mem (put (nl_pub L) 0 wire (put (nl_send L) 0 wire v))) (nl_send L) 0 wire)
    by (eapply bytes_at_same; [by apply put_other|exact Hat]).
  unfold n_tracked. case_match; [|exact Hat]. cbv zeta. by case_match.
Qed.

(** With the packet in the send buffer. *)
Lemma runs_ntrack {A} L v wire id qos (k : MC A) Q :
  sn_ok L v -> bytes_at (v_mem v) (nl_send L) 0 wire -> zlen wire <= MAX_MQTT_PACKET_SIZE ->
  total (n_tracked L wire id qos v) k Q ->
  total v ((if (MQTTCLIENT_QOS1 || MQTTCLIENT_QOS2) && negb (n_cleansession (v_client v)) then
              memcpy (Ptr (nl_pub L) 0) (Ptr (nl_send L) 0) (zlen wire) ;;;
              update_client (fun c => n_set_inflight c (zlen wire) id qos) ;;;
              (if MQTTCLIENT_QOS2 then update_client (fun c => n_set_pubrel c false) else ret tt)
            else ret tt) ;;; k) Q.
Proof.
  intros Hok Hat Hw Hk. unfold n_tracked in Hk. destruct (_ && _); [|by apply total_ret_bind].
  destruct (no_pub _ _ Hok) as (l & Hl & Hl').
  rstep (runs_memcpy v (nl_pub L) (nl_send L) wire l); [|done|done|lia|done|].
  { apply not_eq_sym, (no_blocks _ _ Hok). }
  set (w := put (nl_pub L) 0 wire v) in *.
  tassoc. eapply (runs_step _ _ _ tt (set_v_client w (n_set_inflight (v_client w) (zlen wire) id qos))).
  { apply (runs_update_client w). by intros ? <-. }
  destruct MQTTCLIENT_QOS2; [|by tret].
  set (w1 := set_v_client w (n_set_inflight _ _ _ _)) in *.
  eapply (runs_step _ _ _ tt (set_v_client w1 (n_set_pubrel (v_client w1) false))); [|exact Hk].
  apply (runs_update_client w1). by intros ? <-.
Qed.

(** Up to the sending of the packet. *)
Lemma total_npublish L v p t topic payload bs len id qos retained Q :
  sn_ok L v -> n_isconnected (v_client v) = true -> n_publish_args L v p t topic payload bs len id qos ->
  let nid := n_number qos id v in
  let wire := n_publish_wire qos retained nid topic bs in
  let w := n_tracked L wire nid qos (put (nl_send L) 0 wire (n_numbered qos v)) in
  (forall timer, total w (SNClient_publish_packet fuel no_timer uninit (zlen wire) timer qos)
    (fun rc w' => Q (rc, nid) w')) ->
  total v (SNClient_publish_id fuel no_timer uninit p payload len id qos retained) Q.
Proof.
  intros Hok Hcon [Htop Ht Hpl -> Hq Hid Hnext [Hmax1 Hmax2] Hfits] nid wire w Hw. pose proof (no_size _ _ Hok) as Hsz.
  destruct (publish_wire_size qos retained nid t topic bs _ Ht Hq Hmax1) as [Hbody Hwire]. fold wire in Hwire.
  assert (Hnid : 0 <= nid < 65536).
  { unfold nid, n_number. case_match; [|done]. pose proof (n_next_range v Hnext). lia. }
  assert (Hne : wire <> []) by (unfold wire, n_publish_wire, sn_packet, sn_length; by case_test).
  assert (0 < zlen wire) by (destruct wire; [done|simpl; lia]).
  set (v1 := n_numbered qos v) in *. assert (Hok1 : sn_ok L v1) by by apply no_numbered.
  assert (Hm1 : v_mem v1 = v_mem v) by (unfold v1, n_numbered; by case_match).
  assert (Ht1 : n_topics (v_client v1) = n_topics (v_client v)) by (unfold v1, n_numbered; by case_match).
  assert (Hc1 : n_cleansession (v_client v1) = n_cleansession (v_client v)) by (unfold v1, n_numbered; by case_match).
  unfold SNClient_publish_id. apply runs_ncommand_timer. intros timer. nget c. rewrite Hcon. cbn [negb].
  rewrite (no_sendbuf _ _ Hok), (no_pubbuf _ _ Hok), <- Hc1.
  eapply (runs_step _ _ _ nid v1).
  { unfold nid, v1, n_number, n_numbered. destruct (_ && _); [|by apply total_ret].
    apply runs_nextid. apply total_ret. pose proof (n_next_range v Hnext). by rewrite u16_small by lia. }
  rstep runs_topic_at; [by rewrite Ht1|].
  rstep (runs_nserialize L v1 _ wire); [done| |].
  { intros s l Hm Hl Hl'. rewrite i32_small by (unfold INT_MIN, INT_MAX; lia).
    rewrite (sn_serialize_publish_run s (nl_send L) 0 l _ 0 qos retained nid t topic payload bs);
      [|done|lia|by rewrite Hm, Hm1|by rewrite Hm, Hm1|lia|lia].
    cbv zeta. fold wire. unfold n_publish_wire in wire. rewrite Hbody. fold wire.
    replace (1 + (5 + zlen bs)) with (6 + zlen bs) by lia.
    test_false (MAX_MQTT_PACKET_SIZE <? sn_size (6 + zlen bs)). by test_true (0 + zlen wire <=? zlen l). }
  test_false (zlen wire <=? 0). set (v2 := put (nl_send L) 0 wire v1).
  assert (Hok2 : sn_ok L v2) by (apply no_put_send; [done|lia]).
  change (n_cleansession (v_client v1)) with (n_cleansession (v_client v2)).
  apply (runs_ntrack L v2 wire nid qos); [done| |lia|].
  { destruct (no_send _ _ Hok1) as (l & Hl & Hl'). apply (bytes_at_put _ _ _ _ l); [done|lia|lia]. }
  apply (total_step _ _ _ _ _ (Hw timer)). intros rc w' HQ. by apply total_ret.
Qed.

(** A packet in the send buffer, of a QoS that is not waited for. *)
Lemma runs_npublish_packet L v wire qos timer :
  sn_ok L v -> bytes_at (v_mem v) (nl_send L) 0 wire -> wire <> [] -> zlen wire <= MAX_MQTT_PACKET_SIZE ->
  MQTTCLIENT_QOS1 && (qos =? QOS1) = false ->
  runs v (SNClient_publish_packet fuel no_timer uninit (zlen wire) timer qos) SUCCESS (send v wire).
Proof.
  intros Hok Hat Hne Hw Hq. pose proof (no_size _ _ Hok). unfold SNClient_publish_packet. rewrite Hq.
  eapply (runs_step _ _ _ SUCCESS (send v wire)).
  { eapply total_mono; [apply (total_nsend v fuel (nl_send L) wire timer); try done; [apply Hok|unfold INT_MAX; lia]|].
    intros rc w [[-> ->]|(_ & _ & HD)]; [done|]. destruct HD. typeclasses eauto. }
  change (negb (SUCCESS =? SUCCESS)) with false. cbv iota. tret. apply (runs_nexit (send v wire)).
Qed.

(** With QoS 1, MQTTSNDeserialize_ack does not know the PUBACK that has come. *)
Definition n_puback (topicid id rc : Z) : event := EvPlain MQTTSN_PUBACK (sn_ack_body topicid id rc).

Lemma runs_npublish_qos1 L v wire es topicid id rc tl timer :
  sn_ok L v -> bytes_at (v_mem v) (nl_send L) 0 wire -> wire <> [] -> zlen wire <= MAX_MQTT_PACKET_SIZE ->
  MQTTCLIENT_QOS1 = true -> answers uninit fuel es (n_puback topicid id rc) v tl ->
  runs v (SNClient_publish_packet fuel no_timer uninit (zlen wire) timer QOS1) FAILURE
    (n_with_connected (ev_effects uninit L (es ++ [n_puback topicid id rc]) (send v wire)) false).
Proof.
  intros Hok Hat Hne Hw Hb Hans. pose proof (no_size _ _ Hok). unfold SNClient_publish_packet. rewrite Hb.
  eapply (runs_step _ _ _ SUCCESS (send v wire)).
  { eapply total_mono; [apply (total_nsend v fuel (nl_send L) wire timer); try done; [apply Hok|unfold INT_MAX; lia]|].
    intros r w [[-> ->]|(_ & _ & HD)]; [done|]. destruct HD. typeclasses eauto. }
  change (negb (SUCCESS =? SUCCESS)) with false. cbn [andb QOS1 Z.eqb Pos.eqb].
  set (v1 := send v wire). assert (Hok1 : sn_ok L v1) by by apply (no_see L v).
  unfold SNClient_publish_wait. rstep (runs_nanswer L v1 es (n_puback topicid id rc) tl); [done|by destruct Hans|].
  change (ev_type _ =? MQTTSN_PUBACK) with true. cbv iota. set (w := ev_effects _ _ _ _).
  assert (Hat1 : bytes_at (v_mem w) (nl_read L) 0 (sn_packet MQTTSN_PUBACK (sn_ack_body topicid id rc) ++ []))
    by (rewrite app_nil_r; apply effects_last; [apply Hans|apply Hans|done]).
  nget c. assert (Hrb : n_readbuf (v_client w) = Ptr (nl_read L) 0).
  { apply (no_readbuf L), no_effects; [|done]. apply Forall_app_2; [apply Hans|]. apply Forall_cons_2; [apply Hans|done]. }
  rewrite Hrb. tassoc. eapply (runs_step _ _ _ (0, {| sk_type := MQTTSN_PUBACK; sk_packetid := uninit |}) w).
  { apply runs_reading. intros s Hs. exists s. split; [|done]. rewrite <- Hs in Hat1.
    unfold MQTTSNDeserialize_ack. erewrite bind_done by (eapply sn_open_packet; [exact Hat1|done|done|]; change (sn_size _) with 7; lia).
    cbv beta iota zeta. cbn [negb]. apply sn_packet_at in Hat1 as (_ & Htype & _).
    by erewrite bind_done by (eapply sn_read_type; [exact Htype|done]). }
  cbv beta iota. cbn [Z.eqb negb]. tret. apply (runs_nexit w).
Qed.

(** ** subscribe and unsubscribe *)

(** The filter at [p] and the length of its packets are in range. *)
Record n_filter v L p t filter : Prop := {
  nf_topic : n_topics (v_client v) !! p = Some t;
  nf_denotes : filter_denotes (payload_is (v_mem v) (nl_send L)) t filter;
  nf_next : 0 <= n_packetid (v_client v) <= MAX_PACKET_ID;
  nf_max : 4 + zlen (filter_bytes filter) <> 255 /\ zlen (filter_bytes filter) <= 65528;
  nf_fits : sn_size (4 + zlen (filter_bytes filter)) <= MAX_MQTT_PACKET_SIZE
}.

Definition n_free_slot (hs : list SNHandler) : option nat :=
  first_index (fun h => bool_decide (n_topicFilter h = None)) hs.

Definition n_suback (q topicid id code : Z) : event := EvPlain MQTTSN_SUBACK (sn_suback_body q topicid id code).

Definition n_subscribe_wire (qos id : Z) (filter : sn_topic) : list byte :=
  sn_packet MQTTSN_SUBSCRIBE (sn_subscribe_body 0 qos id filter).
Definition n_unsubscribe_wire (id : Z) (filter : sn_topic) : list byte :=
  sn_packet MQTTSN_UNSUBSCRIBE (sn_subscribe_body 0 0 id filter).

(** The topic structure has the id, and the handler is attached if it was granted. *)
Definition n_granted p t (qos q topicid code : Z) (mh : messageHandler) v : nview :=
  let w := n_with_topics v (<[p := set_tid_id t topicid]> (n_topics (v_client v))) in
  if (qos =? q mod 4) && (code =? MQTTSN_RC_ACCEPTED) then
    match n_free_slot (n_messageHandlers (v_client v)) with
    | Some i => n_with_handlers w (<[i := {| n_topicFilter := Some p; n_fp := mh |}]> (n_messageHandlers (v_client v)))
    | None => w
    end
  else w.

Lemma filter_wire_size ty dup qos id filter :
  4 + zlen (filter_bytes filter) <> 255 ->
  let wire := sn_packet ty (sn_subscribe_body dup qos id filter) in
  zlen wire = sn_size (4 + zlen (filter_bytes filter)) /\ wire <> [] /\ 0 < zlen wire.
Proof.
  clear Hfuel.
  intros H255 wire. assert (Hw : zlen wire = sn_size (4 + zlen (filter_bytes filter))).
  { unfold wire. rewrite sn_packet_length, sn_subscribe_body_length, Z.add_assoc. change (1 + 3) with 4.
    rewrite (proj2 (Z.eqb_neq _ _) H255). lia. }
  assert (Hne : wire <> []) by (unfold wire, sn_packet, sn_length; by case_test).
  split_and!; [done..|]. destruct wire; [done|simpl; lia].
Qed.

Lemma runs_nsuback L p t v qos q topicid id code mh :
  sn_ok L v -> n_topics (v_client v) !! p = Some t ->
  bytes_at (v_mem v) (nl_read L) 0 (sn_packet MQTTSN_SUBACK (sn_suback_body q topicid id code) ++ []) ->
  0 <= topicid < 65536 -> 0 <= id < 65536 -> 0 <= code < 256 ->
  runs v (SNClient_suback uninit p qos mh : MC unit) tt (n_granted p t qos q topicid code mh v).
Proof.
  intros Hok Hp Hat Ht Hid Hc. pose proof (no_size _ _ Hok). unfold SNClient_suback. nget c. rewrite (no_readbuf _ _ Hok).
  eapply runs_step.
  { apply runs_reading. intros s Hs. exists s. split; [|done]. rewrite <- Hs in Hat.
    apply (sn_deserialize_suback_packet s (nl_read L) 0 q topicid id code); try done. lia. }
  cbv beta iota. cbn [Z.eqb Pos.eqb negb sb_topicid sb_qos sb_returncode]. unfold SNClient_set_topic_id.
  rstep runs_topic_at; [exact Hp|].
  tassoc. rstep (runs_update_client v _ (n_set_topics (v_client v) (<[p := set_tid_id t topicid]> (n_topics (v_client v)))));
    [by intros ? <-|]. fold (n_with_topics v (<[p := set_tid_id t topicid]> (n_topics (v_client v)))).
  unfold n_granted. set (w := n_with_topics _ _). destruct (qos =? q mod 4); cbn [negb andb]; [|by apply total_ret].
  destruct (code =? _); [|by apply total_ret]. unfold SNClient_attach. nget c2.
  change (n_messageHandlers (v_client v)) with (n_messageHandlers (v_client w)). unfold n_free_slot.
  destruct (first_index _ _) as [i|]; [|by apply total_ret].
  apply (runs_update_client w). by intros ? <-.
Qed.

Lemma runs_nsubscribe L v p t filter qos mh i es q topicid id code tl :
  sn_ok L v -> n_isconnected (v_client v) = true -> n_filter v L p t filter -> 0 <= qos < 3 ->
  n_free_slot (n_messageHandlers (v_client v)) = Some i ->
  0 <= topicid < 65536 -> 0 <= id < 65536 -> 0 <= code < 256 ->
  answers uninit fuel es (n_suback q topicid id code) v tl ->
  runs v (SNClient_subscribe fuel no_timer uninit p qos mh) SUCCESS
    (n_granted p t qos q topicid code mh
       (ev_effects uninit L (es ++ [n_suback q topicid id code])
          (n_sent L (n_subscribe_wire qos (n_next_id v) filter) (n_with_packetid v (n_next_id v))))).
Proof.
  intros Hok Hcon [Hp Hf Hnext [Hmax1 Hmax2] Hfits] Hq Hfree Ht Hid Hc Hans. pose proof (no_size _ _ Hok).
  pose proof (n_next_range v Hnext) as Hnid.
  destruct (filter_wire_size MQTTSN_SUBSCRIBE 0 qos (n_next_id v) filter Hmax1) as (Hwire & Hne & Hpos).
  unfold SNClient_subscribe. apply runs_ncommand_timer. intros timer. nget c. rewrite Hcon. cbn [negb].
  fold (n_free_slot (n_messageHandlers (v_client v))). rewrite Hfree, bool_decide_eq_false_2 by done.
  apply runs_nextid. set (v1 := n_with_packetid v (n_next_id v)). assert (Hok1 : sn_ok L v1) by by apply no_with_packetid.
  rstep (runs_topic_at v1); [exact Hp|]. rewrite u16_small by lia. rewrite (no_sendbuf _ _ Hok).
  fold (n_subscribe_wire qos (n_next_id v) filter) in *. set (wire := n_subscribe_wire _ _ _) in *.
  rstep (runs_nserialize L v1 _ wire); [done| |].
  { intros s l Hm Hl Hl'. apply sn_serialize_subscribe_room; rewrite ?sn_subscribe_body_length, ?Z.add_assoc, ?Hm in *;
      try done; change (1 + 3) with 4; lia. }
  test_false (zlen wire <=? 0). rstep (runs_nsend L v1 wire); [done|done|lia|].
  change (negb (SUCCESS =? SUCCESS)) with false. cbv iota.
  set (v2 := n_sent L wire v1). assert (Hok2 : sn_ok L v2) by (apply no_sent; [done|lia]).
  rstep (runs_nanswer L v2 es (n_suback q topicid id code) tl); [done|by destruct Hans|].
  change (ev_type _ =? MQTTSN_SUBACK) with true. cbv iota. set (w := ev_effects _ _ _ _).
  destruct (effects_object uninit L (es ++ [n_suback q topicid id code]) v2) as (_ & Htop & _). fold w in Htop.
  rstep (runs_nsuback L p t w qos q topicid id code mh); try done.
  - apply no_effects; [|done]. apply Forall_app_2; [apply Hans|]. apply Forall_cons_2; [apply Hans|done].
  - by rewrite Htop.
  - rewrite app_nil_r. apply effects_last; [apply Hans|apply Hans|done].
  - apply (runs_nexit (n_granted p t qos q topicid code mh w)).
Qed.

(** UNSUBACK: nothing is removed. *)
Definition n_unsuback (id : Z) : event := EvPlain MQTTSN_UNSUBACK (int_bytes id).

Lemma runs_nunsubscribe L v p t filter es id tl :
  sn_ok L v -> n_isconnected (v_client v) = true -> n_filter v L p t filter -> 0 <= id < 65536 ->
  answers uninit fuel es (n_unsuback id) v tl ->
  runs v (SNClient_unsubscribe fuel no_timer uninit p) SUCCESS
    (ev_effects uninit L (es ++ [n_unsuback id])
       (n_sent L (n_unsubscribe_wire (n_next_id v) filter) (n_with_packetid v (n_next_id v)))).
Proof.
  intros Hok Hcon [Hp Hf Hnext [Hmax1 Hmax2] Hfits] Hid Hans. pose proof (no_size _ _ Hok).
  pose proof (n_next_range v Hnext) as Hnid.
  destruct (filter_wire_size MQTTSN_UNSUBSCRIBE 0 0 (n_next_id v) filter Hmax1) as (Hwire & Hne & Hpos).
  unfold SNClient_unsubscribe. apply runs_ncommand_timer. intros timer. nget c. rewrite Hcon. cbn [negb].
  apply runs_nextid. set (v1 := n_with_packetid v (n_next_id v)). assert (Hok1 : sn_ok L v1) by by apply no_with_packetid.
  rstep (runs_topic_at v1); [exact Hp|]. rewrite u16_small by lia. rewrite (no_sendbuf _ _ Hok).
  fold (n_unsubscribe_wire (n_next_id v) filter) in *. set (wire := n_unsubscribe_wire _ _) in *.
  rstep (runs_nserialize L v1 _ wire); [done| |].
  { intros s l Hm Hl Hl'. apply sn_serialize_unsubscribe_room; rewrite ?sn_subscribe_body_length, ?Z.add_assoc, ?Hm in *;
      try done; change (1 + 3) with 4; lia. }
  test_false (zlen wire <=? 0). rstep (runs_nsend L v1 wire); [done|done|lia|].
  change (negb (SUCCESS =? SUCCESS)) with false. cbv iota.
  set (v2 := n_sent L wire v1). assert (Hok2 : sn_ok L v2) by (apply no_sent; [done|lia]).
  rstep (runs_nanswer L v2 es (n_unsuback id) tl); [done|by destruct Hans|].
  change (ev_type _ =? MQTTSN_UNSUBACK) with true. cbv iota. set (w := ev_effects _ _ _ _).
  assert (Hat : bytes_at (v_mem w) (nl_read L) 0 (sn_packet MQTTSN_UNSUBACK (int_bytes id) ++ []))
    by (rewrite app_nil_r; apply effects_last; [apply Hans|apply Hans|done]).
  rewrite (no_readbuf _ _ Hok). eapply (runs_step _ _ _ (1, id) w).
  { apply runs_reading. intros s Hs. exists s. split; [|done]. rewrite <- Hs in Hat.
    apply sn_deserialize_unsuback_packet; [done|lia|done]. }
  cbv beta iota. cbn [Z.eqb Pos.eqb]. apply (runs_nexit w).
Qed.

(** ** disconnect *)

Definition n_disconnect_wire (duration : Z) : list byte := sn_packet MQTTSN_DISCONNECT (sn_disconnect_body duration).

Lemma runs_ndisconnect L v duration :
  sn_ok L v -> 0 <= duration < 65536 ->
  runs v (SNClient_disconnect fuel no_timer duration) SUCCESS
    (n_with_connected (n_sent L (n_disconnect_wire duration) v) false).
Proof.
  intros Hok Hd. pose proof (no_size _ _ Hok). set (wire := n_disconnect_wire duration).
  assert (Hdur : (if duration =? 0 then -1 else duration) <= 0 <-> duration = 0) by (case_test; lia).
  assert (Hbody : sn_disconnect_body (if duration =? 0 then -1 else duration) = sn_disconnect_body duration).
  { unfold sn_disconnect_body. by destruct (Z.eqb_spec duration 0) as [->|]. }
  assert (Hw : 2 <= zlen wire <= 4).
  { unfold wire, n_disconnect_wire, sn_disconnect_body. case_test; [by change (zlen _) with 4|by change (zlen _) with 2]. }
  assert (wire <> []) by (intros Hn; rewrite Hn in Hw; simpl in Hw; lia).
  unfold SNClient_disconnect. apply runs_ncommand_timer. intros timer. nget c. rewrite (no_sendbuf _ _ Hok).
  rstep (runs_nserialize L v _ wire); [done| |].
  { intros s l Hm Hl Hl'. unfold wire, n_disconnect_wire. rewrite <- Hbody. apply sn_serialize_disconnect_room; [done|lia|lia]. }
  test_true (0 <? zlen wire). rstep (runs_nsend L v wire); [done|done|lia|]. set (w := n_sent L wire v).
  rstep (runs_update_client w _ (n_set_isconnected (v_client w) false)); [by intros ? <-|]. by apply total_ret.
Qed.

(** ** Resending *)

Lemma runs_nresend_none v rc timer :
  n_inflightMsgid (v_client v) = 0 \/ MQTTCLIENT_QOS1 || MQTTCLIENT_QOS2 = false ->
  runs v (SNClient_resend fuel no_timer uninit rc timer) rc v.
Proof.
  intros Hno. unfold SNClient_resend. nget c. destruct Hno as [->|Hb].
  - rewrite !andb_false_r. by apply total_ret.
  - rewrite Hb. apply orb_false_iff in Hb as [_ ->]. by apply total_ret.
Qed.

(** The publish in [pubbuf] is in [sendbuf] again, and has been sent. *)
Definition n_resent L (pub : list byte) v : nview :=
  send (put (nl_send L) 0 pub v) (take (Z.to_nat (n_inflightLen (v_client v))) pub).

Lemma runs_nresend_qos1 L v rc timer pub es topicid id prc tl :
  sn_ok L v -> v_mem v !! nl_pub L = Some pub -> 0 < n_inflightMsgid (v_client v) -> 0 < n_inflightLen (v_client v) ->
  n_inflightQoS (v_client v) = QOS1 -> MQTTCLIENT_QOS1 = true -> answers uninit fuel es (n_puback topicid id prc) v tl ->
  runs v (SNClient_resend fuel no_timer uninit rc timer) FAILURE
    (n_with_connected (ev_effects uninit L (es ++ [n_puback topicid id prc]) (n_resent L pub v)) false).
Proof.
  intros Hok Hpub Hid Hlen Hq Hb Hans. pose proof (no_size _ _ Hok) as Hsz.
  unfold SNClient_resend. nget c. rewrite Hq, Hb. change (QOS1 =? QOS2) with false. rewrite andb_false_r. cbn [andb orb].
  test_true (0 <? n_inflightMsgid (v_client v)).
  destruct (no_pub _ _ Hok) as (pub' & Hpub' & Hplen). rewrite Hpub in Hpub'. injection Hpub' as <-.
  destruct (no_send _ _ Hok) as (l & Hl & Hl'). destruct (no_inflight _ _ Hok) as [_ Hinf]. specialize (Hinf Hid).
  rewrite (no_sendbuf _ _ Hok), (no_pubbuf _ _ Hok).
  rstep (runs_memcpy v (nl_send L) (nl_pub L) pub l); [apply Hok| |done|lia|done|].
  { split; [done|]. exists pub. split; [done|]. intros. by rewrite Nat.add_0_l. }
  set (v1 := put (nl_send L) 0 pub v). set (n := Z.to_nat (n_inflightLen (v_client v))).
  assert (Hok1 : sn_ok L v1) by (apply no_put_send; [done|lia]).
  assert (Hpkt : n_inflightLen (v_client v) = zlen (take n pub)) by (rewrite length_take; lia).
  rewrite Hpkt at 1. unfold n_resent. fold n v1.
  apply (runs_npublish_qos1 L v1 (take n pub) es topicid id prc tl); [done| |  |lia|done|by destruct Hans].
  - assert (Hat : bytes_at (v_mem v1) (nl_send L) 0 pub) by (apply (bytes_at_put _ _ _ _ l); [done|done|lia]).
    rewrite <- (take_drop n pub) in Hat. by apply bytes_at_app in Hat as [? _].
  - intros Hn. rewrite Hn in Hpkt. simpl in Hpkt. lia.
Qed.
End SNOperations.
