(* ===== verification/SNClientProps.v ===== *)
(** * Properties of the MQTT-SN client

    The theorems on MQTTSNClient.h: safety against any input, the reaction to every
    packet of the gateway, and the operations of the application, the ones that do
    not do what they are for included. *)

From S2P Require Import Prelude CMem MQTTPacket MQTTPublish MQTTConnect PacketRead SNPacket SNPublish SNConnect SNSubscribe.
From S2P Require Import Platform MQTTClient Exchange TopicMatch Handlers CppClient CppLogic CppCycle SNClient SNClientLogic SNClientCycle SNClientEvents SNClientOps.

(** A subscription and the first PUBLISH behind it. *)
Section SNSubscription.
Context `{ClientParams} {E Timer : Type} `{PS : PlatformSpec (SNClient Timer) E Timer SNMessageData}.
Context `{!Datagrams (SNClient Timer) E Timer SNMessageData} `{CharSign} `{ByteOrder}.
Abbreviation MC := (M (snworld E Timer)).
Implicit Types (v : nview) (L : sn_layout).
Variables (fuel : nat) (no_timer : Timer) (uninit : Z).

Definition subscribe_and_cycle (p : positive) (qos : Z) (mh : messageHandler) (timer : Timer) : MC (Z * Z) :=
  let* rc := SNClient_subscribe fuel no_timer uninit p qos mh in
  let* ty := SNClient_cycle fuel no_timer uninit timer in ret (rc, ty).

(** The topic structure the id of the SUBACK was written to is that of a PUBLISH with
    this id and the same type. *)
Lemma granted_carries t id :
  0 <= id < 65536 -> tid_type t = MQTTSN_TOPIC_TYPE_NORMAL \/ tid_type t = MQTTSN_TOPIC_TYPE_PREDEFINED ->
  carries uninit (set_tid_id t id) (TopicId (tid_type t) id).
Proof. intros Hid Ht. unfold carries, wire_topic, set_tid_id. by destruct (short_bytes id). Qed.

Lemma effects_input L es v tl :
  v_in v = concat (map ev_packet es) ++ tl -> v_in (ev_effects uninit L es v) = tl.
Proof.
  revert v. induction es as [|e es IH]; intros v Hin; [done|]. apply IH, (effect_in uninit L e).
  cbn [map concat] in Hin. by rewrite <- app_assoc in Hin.
Qed.

(** A table without subscriptions: the handler goes into the first element. *)
Lemma free_slot_first c :
  unsubscribed c -> n_messageHandlers c <> [] -> n_free_slot (n_messageHandlers c) = Some 0%nat.
Proof.
  unfold unsubscribed. destruct (n_messageHandlers c) as [|h hs]; [done|]. intros Hun _. apply Forall_cons_1 in Hun as [Hh _].
  unfold n_free_slot. cbn [first_index]. by rewrite bool_decide_eq_true_2.
Qed.

Lemma first_calls hs p f :
  Forall (fun h => n_topicFilter h = None) hs -> hs <> [] ->
  n_calls (<[0%nat := {| n_topicFilter := Some p; n_fp := Some f |}]> hs) = [f].
Proof.
  destruct hs as [|h hs]; [done|]. intros Hun _. apply Forall_cons_1 in Hun as [_ Hun].
  unfold n_calls. cbn. f_equal. induction Hun as [|h' hs' Hh _ IH]; [done|]. cbn. by rewrite Hh.
Qed.

Lemma total_subscribe_and_cycle L v p t filter qos f es q topicid id dup qos' ret id' payload tl timer :
  (2 <= fuel)%nat -> sn_ok L v -> n_isconnected (v_client v) = true -> n_filter v L p t filter -> 0 <= qos < 3 ->
  unsubscribed (v_client v) -> n_messageHandlers (v_client v) <> [] ->
  0 <= topicid < 65536 -> 0 <= id < 65536 -> q mod 4 = qos ->
  tid_type t = MQTTSN_TOPIC_TYPE_NORMAL \/ tid_type t = MQTTSN_TOPIC_TYPE_PREDEFINED ->
  let topic := TopicId (tid_type t) topicid in
  let e := EvPublish dup qos' ret id' topic payload in
  ev_ok e -> MQTTCLIENT_QOS2 && (qos' =? QOS2) = false ->
  answers uninit fuel es (n_suback q topicid id MQTTSN_RC_ACCEPTED) v (ev_packet e ++ tl) ->
  let w := n_granted p t qos q topicid MQTTSN_RC_ACCEPTED (Some f)
             (ev_effects uninit L (es ++ [n_suback q topicid id MQTTSN_RC_ACCEPTED])
                (n_sent L (n_subscribe_wire qos (n_next_id v) filter) (n_with_packetid v (n_next_id v)))) in
  runs v (subscribe_and_cycle p qos (Some f) timer) (SUCCESS, MQTTSN_PUBLISH : Z) (ev_effect uninit L e w) /\
  v_delivered (ev_effect uninit L e w) = v_delivered w ++ [(f, n_data (wire_topic uninit topic)
    (wire_message L dup qos' ret id' topic payload))].
Proof.
  intros Hf Hok Hcon Hfil Hq Hun Hne Ht Hid Hqq Hty topic e He Hq2 Hans w.
  assert (Hfree : n_free_slot (n_messageHandlers (v_client v)) = Some 0%nat) by by apply free_slot_first.
  destruct Hfil as [Hp Hden Hnext [Hmax1 Hmax2] Hfits] eqn:Hfileq. clear Hfileq.
  destruct (filter_wire_size MQTTSN_SUBSCRIBE 0 qos (n_next_id v) filter Hmax1) as (Hwire & _ & _).
  set (v1 := n_sent L (n_subscribe_wire qos (n_next_id v) filter) (n_with_packetid v (n_next_id v))) in *.
  assert (Hok1 : sn_ok L v1) by (apply no_sent; [by apply no_with_packetid|unfold n_subscribe_wire; lia]).
  set (suback := n_suback q topicid id MQTTSN_RC_ACCEPTED) in *.
  assert (Hes : Forall ev_ok (es ++ [suback])) by (apply Forall_app_2; [apply Hans|apply Forall_cons_2; [apply Hans|done]]).
  set (u := ev_effects uninit L (es ++ [suback]) v1) in *. assert (Hoku : sn_ok L u) by by apply no_effects.
  destruct (effects_object uninit L (es ++ [suback]) v1) as (Hhs & Htop & _). fold u in Hhs, Htop.
  change (n_messageHandlers (v_client v1)) with (n_messageHandlers (v_client v)) in Hhs.
  assert (Hw : w = n_with_handlers (n_with_topics u (<[p := set_tid_id t topicid]> (n_topics (v_client u))))
    (<[0%nat := {| n_topicFilter := Some p; n_fp := Some f |}]> (n_messageHandlers (v_client u)))).
  { unfold w, n_granted. by rewrite Hhs, Hfree, Hqq, Z.eqb_refl. }
  assert (Hokw : sn_ok L w) 
    by (rewrite Hw; by apply (no_with_handlers L (n_with_topics u (<[p := set_tid_id t topicid]> (n_topics (v_client u))))),
      no_with_topics).
  assert (Hin : v_in w = ev_packet e ++ tl).
  { rewrite Hw. change (v_in u = ev_packet e ++ tl). apply effects_input. rewrite map_app, concat_app, <- app_assoc.
    cbn [map concat]. rewrite app_nil_r. apply Hans. }
  assert (Hheard : heard uninit (v_client w) e).
  { unfold heard, hears. rewrite Hw. cbn. rewrite Hhs. apply Forall_insert.
    - eapply Forall_impl; [|exact Hun]. by intros h ->.
    - cbn. exists (set_tid_id t topicid). split; [apply lookup_insert_eq|]. intros W s.
      apply (carries_equals uninit (set_tid_id t topicid) topic); [by split|by apply granted_carries]. }
  split.
  - unfold subscribe_and_cycle. rstep (runs_nsubscribe fuel no_timer uninit Hf L v p t filter qos (Some f) 0 es q topicid id
      MQTTSN_RC_ACCEPTED); try done. rstep (runs_ncycle fuel no_timer uninit Hf L w e tl); try done. by apply total_ret.
  - unfold e, ev_effect, n_accepted. cbn [msg_qos wire_message]. rewrite Hq2. fold e.
    assert (Hrec : n_receivers (v_client w) = [f]).
    { unfold n_receivers. rewrite Hw. cbn. rewrite Hhs. by rewrite first_calls. }
    set (msg := wire_message _ _ _ _ _ _ _).
    assert (Hd : v_delivered (n_delivered (wire_topic uninit topic) msg (n_got L (ev_packet e) w)) =
      v_delivered w ++ [(f, n_data (wire_topic uninit topic) msg)]).
    { unfold n_delivered. change (n_receivers (v_client (n_got _ _ _))) with (n_receivers (v_client w)). by rewrite Hrec. }
    destruct (_ || _); [destruct (_ =? QOS0)|]; exact Hd.
Qed.
End SNSubscription.

(** ** A run that leaves the defined behaviour *)

Definition fails {C U E D A} `{Observed E D} `{Untimed C U} (v : view U D) (c : M (world_of C E) A) (f : fault) : Prop :=
  forall s, see s = v -> c s = Fault f.

Section Failing.
Context {C U E D : Type} `{Observed E D} `{Untimed C U}.
Abbreviation MC := (M (world_of C E)).
Implicit Types (v : view U D).

Lemma fails_after {A B} v (c : MC A) (k : A -> MC B) f P :
  total v c P -> (forall a w, P a w -> fails w (k a) f) -> fails v (bind c k) f.
Proof. intros Hc Hk s Hs. destruct (Hc s Hs) as (a & s' & Hrun & HP). rewrite (bind_done _ _ _ _ _ Hrun). by apply (Hk a (see s')). Qed.

Lemma fails_runs {A B} v (c : MC A) (k : A -> MC B) f a w : runs v c a w -> fails w (k a) f -> fails v (bind c k) f.
Proof. intros Hc Hk. eapply fails_after; [exact Hc|]. by intros ? ? [-> ->]. Qed.

Lemma fails_first {A B} v (c : MC A) (k : A -> MC B) f : fails v c f -> fails v (bind c k) f.
Proof. intros Hc s Hs. by apply bind_fault, Hc. Qed.

Lemma fails_throw {A} v f : fails v (throw f : MC A) f.
Proof. done. Qed.
End Failing.

Section SNOtherTopic.
Context `{ClientParams} {E Timer : Type} `{PS : PlatformSpec (SNClient Timer) E Timer SNMessageData}.
Context `{!Datagrams (SNClient Timer) E Timer SNMessageData} `{CharSign} `{ByteOrder}.
Abbreviation MC := (M (snworld E Timer)).
Implicit Types (v : nview) (L : sn_layout).
Variable uninit : Z.

Lemma fails_client {A} v (k : SNClient Timer -> MC A) f :
  (forall c, untimed c = v_client v -> fails v (k c) f) -> fails v (bind get_client k) f.
Proof. intros Hk s Hs. apply (Hk (client (world s))); [by rewrite <- Hs|done]. Qed.

(** The loop asks isTopicMatched, with a name that was never assigned. *)
Lemma fails_deliver_loop v n h hs p tf rc topic msg :
  n_messageHandlers (v_client v) = h :: hs -> n_topicFilter h = Some p -> n_topics (v_client v) !! p = Some tf ->
  topic_by_id topic -> has_id tf -> ~ carries uninit tf topic ->
  fails v (SNClient_deliver_loop (S n) 0 rc (wire_topic uninit topic) msg) Indeterminate.
Proof.
  intros Hhs Hp Htf Hid (x & y & Hx & Hy & ? & ?) Hother. cbn [SNClient_deliver_loop].
  apply fails_client. intros c Hc. apply sn_members in Hc as (_ & _ & _ & _ & _ & _ & _ & Hc & _). rewrite Hc, Hhs.
  eapply fails_runs; [by apply (runs_arr_get v _ 0%nat h)|]. rewrite Hp. apply fails_first.
  eapply fails_runs; [by apply runs_topic_at|].
  destruct (wire_topic_id uninit topic Hid) as (Hty & a & b & Ha & Hb & ? & ? & _).
  assert (Heq : runs v (MQTTSNTopic_equals (wire_topic uninit topic) tf : MC Z) 0 v).
  { apply runs_reading. intros s _. exists s. split; [|done]. rewrite (sn_topic_equals_spec _ _ a b x y) by done.
    destruct ((tid_type (wire_topic uninit topic) =? tid_type tf) && (a =? x) && (b =? y)) eqn:Heq; [|done].
    exfalso. apply Hother. unfold carries. rewrite Hx, Hy, Ha, Hb. repeat apply andb_prop in Heq as [Heq ?].
    split_and!; [lia|f_equal; lia|f_equal; lia]. }
  eapply fails_runs; [exact Heq|]. cbn [Z.eqb negb]. apply fails_first.
  unfold wire_topic, set_tid_id, set_tid_short. destruct topic as [ty id|c0 c1|]; [|apply fails_throw|done].
  destruct (short_bytes id). apply fails_throw.
Qed.
End SNOtherTopic.

(** ** Properties *)

Section SNProperties.
Context `{ClientParams} {E Timer : Type} `{PS : PlatformSpec (SNClient Timer) E Timer SNMessageData}.
Context `{CharSign} `{ByteOrder}.
Abbreviation MC := (M (snworld E Timer)).
Abbreviation datagrams := (Datagrams (SNClient Timer) E Timer SNMessageData).
Implicit Types (v : nview) (L : sn_layout).
Variables (fuel : nat) (no_timer : Timer) (uninit : Z).
Hypothesis Hfuel : (2 <= fuel)%nat.

(** C13: Whatever the network delivers, cycle of a well-formed object without
    subscriptions returns, without an access outside its arrays, and leaves a
    well-formed object; its result is never FAILURE.  The network must take a packet
    whole or not at all. *)
Theorem sn_cycle_safe `{!WholeWrites (SNClient Timer) E Timer SNMessageData} L v timer :
  0 <= uninit -> sn_ok L v -> unsubscribed (v_client v) ->
  total v (SNClient_cycle fuel no_timer uninit timer) (fun rc w =>
    sn_ok L w /\ unsubscribed (v_client w) /\ 0 <= rc < 256).
Proof. intros Hu. by apply safe_ncycle. Qed.

(** C14: On a network of datagrams one turn of cycle takes exactly one packet and
    returns its type.  REGISTER is answered, a PUBLISH on the topic of the
    subscriptions goes to their handlers, or else to the default handler, unless it is
    of QoS 2 and its identifier held, and is answered as its QoS asks for. *)
Theorem sn_cycle_spec `{!datagrams} L v e tl timer :
  sn_ok L v -> ev_ok e -> heard uninit (v_client v) e -> v_in v = ev_packet e ++ tl ->
  runs v (SNClient_cycle fuel no_timer uninit timer) (ev_type e) (ev_effect uninit L e v) /\
  sn_ok L (ev_effect uninit L e v).
Proof. intros Hok He Hh Hin. split; [by apply (runs_ncycle fuel no_timer uninit Hfuel L v e tl)|by apply no_effect]. Qed.

(** C15: connect sends exactly the CONNECT of its options and returns the code of the
    CONNACK, read as a char; packets that come first are handled as cycle does.  With
    nothing in flight the client is connected afterwards exactly when the code is 0. *)
Theorem sn_connect_spec `{!datagrams} L v opts id es rc tl :
  sn_ok L v -> n_isconnected (v_client v) = false -> n_options v L opts id ->
  answers uninit fuel es (n_connack rc) v tl -> 0 <= rc < 256 ->
  n_inflightMsgid (v_client v) = 0 \/ MQTTCLIENT_QOS1 || MQTTCLIENT_QOS2 = false ->
  let w := ev_effects uninit L (es ++ [n_connack rc]) (n_connecting L opts id v) in
  runs v (SNClient_connect fuel no_timer uninit opts) (to_char rc)
    (if to_char rc =? SUCCESS then n_with_connected w true else w) /\
  (to_char rc = SUCCESS <-> rc = 0).
Proof.
  intros Hok Hdis Hopts Hans Hrc Hno w. split.
  - eapply (total_nconnect fuel no_timer uninit Hfuel L); [done..|]. intros timer.
    eapply total_mono; [apply runs_nresend_none|].
    + destruct (effects_object uninit L (es ++ [n_connack rc]) (n_connecting L opts id v)) as (_ & _ & _ & _ & -> & _).
      exact Hno.
    + by intros r w' [-> ->].
  - pose proof (u8_to_char rc) as Hu. unfold u8 in Hu. rewrite (Z.mod_small rc) in Hu by done. unfold SUCCESS.
    split; [intros Hz; rewrite Hz in Hu; by rewrite <- Hu|intros ->; by apply to_char_ascii].
Qed.

(** publish of a connected client sends exactly the PUBLISH of its message, under
    the next packet identifier for QoS 1 and 2, keeps it for the next connection unless
    the session is clean, and returns SUCCESS; it waits for no answer, not with QoS 2
    either. *)
Theorem sn_publish_spec `{!datagrams} L v p t topic payload bs len id qos retained :
  sn_ok L v -> n_isconnected (v_client v) = true -> n_publish_args L v p t topic payload bs len id qos ->
  MQTTCLIENT_QOS1 && (qos =? QOS1) = false ->
  let nid := n_number qos id v in
  let wire := n_publish_wire qos retained nid topic bs in
  runs v (SNClient_publish_id fuel no_timer uninit p payload len id qos retained) (SUCCESS, nid)
    (send (n_tracked L wire nid qos (put (nl_send L) 0 wire (n_numbered qos v))) wire).
Proof.
  intros Hok Hcon Hargs Hq nid wire. pose proof Hargs as [_ Ht _ _ Hqos Hid Hnext [Hm1 _] Hfits].
  pose proof (no_size _ _ Hok). destruct (publish_wire_size qos retained nid t topic bs _ Ht Hqos Hm1) as [_ Hw]. fold wire in Hw.
  assert (Hnid : 0 <= nid < 65536) by (unfold nid, n_number; case_match; [pose proof (n_next_range v Hnext); lia|done]).
  eapply (total_npublish fuel no_timer uninit Hfuel L); [done..|]. fold nid wire. intros timer.
  set (w := n_tracked _ _ _ _ _).
  assert (Hok1 : sn_ok L (put (nl_send L) 0 wire (n_numbered qos v)))
    by (apply no_put_send; [by apply no_numbered|lia]).
  eapply total_mono; [apply (runs_npublish_packet fuel no_timer uninit Hfuel L w wire qos timer); try done; try lia|].
  - apply no_tracked; [done|done|lia].
  - apply ntracked_send; [by apply no_numbered|lia].
  - unfold wire, n_publish_wire, sn_packet, sn_length. by case_test.
  - by intros r w' [-> ->].
Qed.

(** Built with QoS 1, a publish of QoS 1 fails although the gateway acknowledges
    it: the PUBACK is read by MQTTSNDeserialize_ack, which does not know its type.  The
    client disconnects; unless the session was clean the message stays in flight. *)
Theorem sn_publish_qos1_fails `{!datagrams} L v p t topic payload bs len id retained es tid pid prc tl :
  sn_ok L v -> n_isconnected (v_client v) = true -> n_publish_args L v p t topic payload bs len id QOS1 ->
  MQTTCLIENT_QOS1 = true -> answers uninit fuel es (n_puback tid pid prc) v tl ->
  let nid := n_next_id v in
  let wire := n_publish_wire QOS1 retained nid topic bs in
  total v (SNClient_publish_id fuel no_timer uninit p payload len id QOS1 retained) (fun r w =>
    r = (FAILURE, nid) /\ n_isconnected (v_client w) = false /\
    (n_cleansession (v_client v) = false ->
       n_inflightMsgid (v_client w) = nid /\ n_inflightLen (v_client w) = zlen wire /\ n_inflightQoS (v_client w) = QOS1)).
Proof.
  intros Hok Hcon Hargs Hb Hans nid wire. pose proof Hargs as [_ Ht _ _ Hqos Hid Hnext [Hm1 _] Hfits].
  pose proof (no_size _ _ Hok). destruct (publish_wire_size QOS1 retained nid t topic bs _ Ht Hqos Hm1) as [_ Hw]. fold wire in Hw.
  pose proof (n_next_range v Hnext) as Hnid. fold nid in Hnid.
  assert (Hnum : n_number QOS1 id v = nid) by (unfold n_number; by rewrite Hb).
  eapply (total_npublish fuel no_timer uninit Hfuel L); [done..|]. rewrite Hnum. fold wire. intros timer.
  set (w := n_tracked _ _ _ _ _).
  assert (Hok1 : sn_ok L (put (nl_send L) 0 wire (n_numbered QOS1 v)))
    by (apply no_put_send; [by apply no_numbered|lia]).
  assert (Hokw : sn_ok L w) by (apply no_tracked; [done|lia|lia]).
  assert (Hansw : answers uninit fuel es (n_puback tid pid prc) w tl).
  { destruct Hans. split; try done; unfold w; rewrite ?ntracked_input; try done.
    eapply Forall_impl; [|exact an_heard]. intros e. apply ntracked_heard. }
  eapply total_mono; [apply (runs_npublish_qos1 fuel no_timer uninit Hfuel L w wire es tid pid prc tl timer); try done; try lia|].
  - apply ntracked_send; [by apply no_numbered|lia].
  - unfold wire, n_publish_wire, sn_packet, sn_length. by case_test.
  - intros r w' [-> ->]. split_and!; [done|done|].
    destruct (effects_object uninit L (es ++ [n_puback tid pid prc]) (send w wire)) as (_ & _ & _ & _ & Hi & Hl & Hq & _).
    intros Hclean. cbn [n_with_connected]. change (n_inflightMsgid (v_client (n_with_connected ?x _))) with (n_inflightMsgid (v_client x)).
    change (n_inflightLen (v_client (n_with_connected ?x _))) with (n_inflightLen (v_client x)).
    change (n_inflightQoS (v_client (n_with_connected ?x _))) with (n_inflightQoS (v_client x)).
    rewrite Hi, Hl, Hq. by apply ntracked_inflight.
Qed.

(** With a message of QoS 1 in flight connect fails for ever: the CONNACK may
    accept the connection and the gateway acknowledge the message, which has been sent
    again byte for byte; the PUBACK is refused, the result is FAILURE, the client is not
    connected and the message is still in flight. *)
Theorem sn_connect_inflight_fails `{!datagrams} L v opts id es rc es' tid pid prc pub tl :
  sn_ok L v -> n_isconnected (v_client v) = false -> n_options v L opts id ->
  answers uninit fuel es (n_connack rc) v (concat (map ev_packet es') ++ ev_packet (n_puback tid pid prc) ++ tl) ->
  Forall ev_ok es' -> ev_ok (n_puback tid pid prc) -> Forall (heard uninit (v_client v)) es' ->
  Forall (fun e => ev_type e <> MQTTSN_PUBACK) es' -> (length es' < fuel)%nat ->
  MQTTCLIENT_QOS1 = true -> 0 < n_inflightMsgid (v_client v) -> 0 < n_inflightLen (v_client v) ->
  n_inflightQoS (v_client v) = QOS1 -> v_mem v !! nl_pub L = Some pub ->
  total v (SNClient_connect fuel no_timer uninit opts) (fun r w =>
    r = FAILURE /\ n_isconnected (v_client w) = false /\
    n_inflightMsgid (v_client w) = n_inflightMsgid (v_client v) /\ v_in w = tl).
Proof.
  intros Hok Hdis Hopts Hans Hes He Hhs Hother Hlen Hb Hid Hilen Hq Hpub.
  eapply (total_nconnect fuel no_timer uninit Hfuel L); [done..|]. intros timer.
  set (w := ev_effects uninit L (es ++ [n_connack rc]) (n_connecting L opts id v)).
  destruct (effects_object uninit L (es ++ [n_connack rc]) (n_connecting L opts id v))
    as (Hhw & Htw & _ & _ & Hiw & Hlw & Hqw & _). fold w in Hhw, Htw, Hiw, Hlw, Hqw.
  assert (Hokw : sn_ok L w).
  { apply no_effects; [apply Forall_app_2; [apply Hans|apply Forall_cons_2; [apply Hans|done]]|]. by apply no_connecting. }
  assert (Hin : v_in w = concat (map ev_packet es') ++ ev_packet (n_puback tid pid prc) ++ tl).
  { apply effects_input. rewrite map_app, concat_app, <- app_assoc. cbn [map concat]. rewrite app_nil_r. apply Hans. }
  assert (Hpubw : exists pub', v_mem w !! nl_pub L = Some pub') by (destruct (no_pub _ _ Hokw) as (l & ? & _); by exists l).
  destruct Hpubw as (pub' & Hpub').
  assert (Hhear : forall e, heard uninit (v_client v) e -> heard uninit (v_client w) e).
  { intros [| | |dup q0 ret i topic payload]; [done..|]. cbn [heard]. unfold hears. by rewrite Hhw, Htw. }
  assert (Hansw : answers uninit fuel es' (n_puback tid pid prc) w tl).
  { split; try done. eapply Forall_impl; [|exact Hhs]. intros e. apply Hhear. }
  eapply total_mono.
  { apply (runs_nresend_qos1 fuel no_timer uninit Hfuel L w _ timer pub' es' tid pid prc tl); try done.
    - by rewrite Hiw.
    - by rewrite Hlw.
    - by rewrite Hqw. }
  intros r w' [-> ->]. set (u := ev_effects _ _ _ _).
  destruct (effects_object uninit L (es' ++ [n_puback tid pid prc]) (n_resent L pub' w)) as (_ & _ & _ & _ & Hiu & _). fold u in Hiu.
  change (FAILURE =? SUCCESS) with false. cbv iota. split_and!; [done|done| |].
  - change (n_inflightMsgid (v_client u) = n_inflightMsgid (v_client v)). rewrite Hiu. exact Hiw.
  - change (v_in u = tl). apply effects_input. rewrite map_app, concat_app, <- app_assoc. cbn [map concat].
    rewrite app_nil_r. apply Hansw.
Qed.

(** subscribe of a connected client sends the SUBSCRIBE of its topic and takes the
    SUBACK.  The id of the SUBACK is written into the topic, even if the SUBACK refuses
    the subscription; the handler is attached only if it grants the QoS asked for; and
    the result is SUCCESS whatever the SUBACK says. *)
Theorem sn_subscribe_spec `{!datagrams} L v p t filter qos mh i es q topicid id code tl :
  sn_ok L v -> n_isconnected (v_client v) = true -> n_filter v L p t filter -> 0 <= qos < 3 ->
  n_free_slot (n_messageHandlers (v_client v)) = Some i ->
  0 <= topicid < 65536 -> 0 <= id < 65536 -> 0 <= code < 256 ->
  answers uninit fuel es (n_suback q topicid id code) v tl ->
  let w := ev_effects uninit L (es ++ [n_suback q topicid id code])
             (n_sent L (n_subscribe_wire qos (n_next_id v) filter) (n_with_packetid v (n_next_id v))) in
  runs v (SNClient_subscribe fuel no_timer uninit p qos mh) SUCCESS (n_granted p t qos q topicid code mh w) /\
  n_messageHandlers (v_client (n_granted p t qos q topicid code mh w)) =
    (if (qos =? q mod 4) && (code =? MQTTSN_RC_ACCEPTED)
     then <[i := {| n_topicFilter := Some p; n_fp := mh |}]> (n_messageHandlers (v_client v))
     else n_messageHandlers (v_client v)).
Proof.
  intros Hok Hcon Hfil Hq Hfree Ht Hid Hc Hans w. split.
  - by apply (runs_nsubscribe fuel no_timer uninit Hfuel L v p t filter qos mh i es q topicid id code tl).
  - destruct (effects_object uninit L (es ++ [n_suback q topicid id code])
      (n_sent L (n_subscribe_wire qos (n_next_id v) filter) (n_with_packetid v (n_next_id v)))) as (Hhs & _). fold w in Hhs.
    change (n_messageHandlers (v_client (n_sent _ _ _))) with (n_messageHandlers (v_client v)) in Hhs.
    unfold n_granted. rewrite Hhs, Hfree. case_match; [done|]. exact Hhs.
Qed.

(** A first subscription works: the next PUBLISH under the id the SUBACK gave to the
    topic goes to the handler, and to nobody else. *)
Theorem sn_subscribe_delivers `{!datagrams} L v p t filter qos f es q topicid id dup qos' ret id' payload tl timer :
  sn_ok L v -> n_isconnected (v_client v) = true -> n_filter v L p t filter -> 0 <= qos < 3 ->
  unsubscribed (v_client v) -> n_messageHandlers (v_client v) <> [] ->
  0 <= topicid < 65536 -> 0 <= id < 65536 -> q mod 4 = qos ->
  tid_type t = MQTTSN_TOPIC_TYPE_NORMAL \/ tid_type t = MQTTSN_TOPIC_TYPE_PREDEFINED ->
  let topic := TopicId (tid_type t) topicid in
  let e := EvPublish dup qos' ret id' topic payload in
  ev_ok e -> MQTTCLIENT_QOS2 && (qos' =? QOS2) = false ->
  answers uninit fuel es (n_suback q topicid id MQTTSN_RC_ACCEPTED) v (ev_packet e ++ tl) ->
  let w := n_granted p t qos q topicid MQTTSN_RC_ACCEPTED (Some f)
             (ev_effects uninit L (es ++ [n_suback q topicid id MQTTSN_RC_ACCEPTED])
                (n_sent L (n_subscribe_wire qos (n_next_id v) filter) (n_with_packetid v (n_next_id v)))) in
  runs v (subscribe_and_cycle fuel no_timer uninit p qos (Some f) timer) (SUCCESS, MQTTSN_PUBLISH : Z)
    (ev_effect uninit L e w) /\
  v_delivered (ev_effect uninit L e w) = v_delivered w ++ [(f, n_data (wire_topic uninit topic)
    (wire_message L dup qos' ret id' topic payload))].
Proof. by apply total_subscribe_and_cycle. Qed.

(** With a subscription in the first element of the table, a PUBLISH on any other
    topic makes cycle call isTopicMatched with the name of a topic that has only an id:
    what it reads there was never assigned.  So a second subscription cannot be used. *)
Theorem sn_other_topic_faults `{!datagrams} L v h hs p tf dup ret id topic payload tl timer :
  let e := EvPublish dup QOS0 ret id topic payload in
  sn_ok L v -> ev_ok e -> v_in v = ev_packet e ++ tl ->
  n_messageHandlers (v_client v) = h :: hs -> n_topicFilter h = Some p -> n_topics (v_client v) !! p = Some tf ->
  has_id tf -> ~ carries uninit tf topic ->
  fails v (SNClient_cycle fuel no_timer uninit timer) Indeterminate.
Proof.
  intros e Hok He Hin Hhs Hp Htf Hid Hother. pose proof (no_size _ _ Hok) as Hsz. destruct (no_read _ _ Hok) as (l & Hl & Hl').
  pose proof (ev_packet_size e He) as [Hpk _]. pose proof He as (H255 & Hmax & Hfits & Hq & Hi & Htid).
  unfold SNClient_cycle. eapply fails_runs.
  { apply (runs_nread v timer (nl_read L) l MQTTSN_PUBLISH (ev_body e) tl); [apply Hok|done|lia|exact Hin|done..]. }
  replace (set_v_in (put (nl_read L) 0 (sn_packet MQTTSN_PUBLISH (ev_body e)) v) tl) with (n_got L (ev_packet e) v)
    by (unfold n_got; by rewrite Hin, drop_app_length).
  change (u16 MQTTSN_PUBLISH) with (MQTTSN_PUBLISH : Z). cbn [Z.eqb Pos.eqb orb sn_code].
  assert (Hokw : sn_ok L (n_got L (ev_packet e) v)) by by apply no_got.
  assert (Hat : bytes_at (v_mem (n_got L (ev_packet e) v)) (nl_read L) 0 (ev_packet e)) by by apply n_got_bytes.
  set (w := n_got L (ev_packet e) v) in *.
  unfold SNClient_cycle_publish. apply fails_client. intros c Hc. apply sn_members in Hc as (_ & _ & -> & _).
  rewrite (no_readbuf _ _ Hokw). eapply fails_runs.
  { apply runs_reading. intros s Hs. rewrite <- Hs in Hat. exists s. split; [|done].
    by apply (sn_deserialize_publish_wire uninit s (nl_read L) (sn_publish_locals uninit) dup QOS0 ret id topic payload). }
  cbv beta iota zeta. cbn [negb Z.eqb Pos.eqb sp_qos sp_retained sp_dup sp_packetid sp_payload sp_payloadlen sp_topic].
  apply fails_first. unfold SNClient_accept. cbn [msg_qos]. change (QOS0 =? QOS2) with false. rewrite orb_true_r.
  assert (Hlen : exists n, MAX_HANDLERS = S n).
  { pose proof (no_slots _ _ Hok) as Hslots. rewrite Hhs in Hslots. by eexists. }
  destruct Hlen as (n & Hn). unfold SNClient_deliverMessage. rewrite Hn. do 2 apply fails_first.
  by apply (fails_deliver_loop uninit w n h hs p tf).
Qed.

(** unsubscribe of a connected client sends the UNSUBSCRIBE of its topic, takes the
    UNSUBACK and returns SUCCESS, but the handler stays in the table; disconnect sends
    DISCONNECT and ends the connection. *)
Theorem sn_unsubscribe_spec `{!datagrams} L v p t filter es id tl duration :
  sn_ok L v -> n_isconnected (v_client v) = true -> n_filter v L p t filter -> 0 <= id < 65536 ->
  answers uninit fuel es (n_unsuback id) v tl -> 0 <= duration < 65536 ->
  let w := ev_effects uninit L (es ++ [n_unsuback id])
             (n_sent L (n_unsubscribe_wire (n_next_id v) filter) (n_with_packetid v (n_next_id v))) in
  runs v (SNClient_unsubscribe fuel no_timer uninit p) SUCCESS w /\
  n_messageHandlers (v_client w) = n_messageHandlers (v_client v) /\
  runs v (SNClient_disconnect fuel no_timer duration) SUCCESS
    (n_with_connected (n_sent L (n_disconnect_wire duration) v) false).
Proof.
  intros Hok Hcon Hfil Hid Hans Hd w. split_and!.
  - by apply (runs_nunsubscribe fuel no_timer uninit Hfuel L v p t filter es id tl).
  - destruct (effects_object uninit L (es ++ [n_unsuback id])
      (n_sent L (n_unsubscribe_wire (n_next_id v) filter) (n_with_packetid v (n_next_id v)))) as (Hhs & _). exact Hhs.
  - by apply (runs_ndisconnect fuel no_timer Hfuel L).
Qed.
End SNProperties.

(** ** Witnesses *)

Section SNClientWitnesses.
#[local] Existing Instances char_is_signed little_endian_order datagram_platform datagram_spec datagram_network.

(* QoS 1 compiled in, arrays of 64 bytes, two handlers *)
Definition ex_nbuild : ClientParams := {|
  MAX_MQTT_PACKET_SIZE := 64; MAX_HANDLERS := 2; MQTTCLIENT_QOS1 := true; MQTTCLIENT_QOS2 := false;
  MAX_INCOMING_QOS2_MESSAGES := 2
|}.
#[local] Existing Instance ex_nbuild.

(* block 1: sendbuf, 2: readbuf, 3: pubbuf, 4: the client identifier "me", 5: a payload, 6: the name "a/b" *)
Definition ex_nlayout : sn_layout := {| nl_send := 1; nl_read := 2; nl_pub := 3 |}.
Definition ex_free : SNHandler := {| n_topicFilter := None; n_fp := None |}.
(* 1: the topic with the id 300, 2: the topic "a/b" *)
Definition ex_ntopics : gmap positive MQTTSN_topicid :=
  <[1%positive := set_tid_id (no_topic 0) 300]>
    {[2%positive := {| tid_type := 0; tid_byte0 := None; tid_byte1 := None;
                       tid_long_name := Some (Ptr 6 0); tid_long_len := Some 3 |}]}.
Definition ex_nobject (connected clean : bool) (id len qos : Z) (hs : list SNHandler) : SNClient Z :=
  SNObject 30000 (Ptr 1 0) (Ptr 2 0) 0 0 60 false clean 65535 hs None connected (Ptr 3 0) len id qos false [0; 0] ex_ntopics.
Definition ex_nstate (c : SNClient Z) (incoming : list byte) : state (snworld (bench SNMessageData) Z) :=
  plain_state [replicate 64 (byte_of_Z 170); replicate 64 (byte_of_Z 187); replicate 64 (byte_of_Z 1);
               bytes [109; 101]; bytes [1; 2]; bytes [97; 47; 98]] c incoming.

Lemma ex_nobject_ok connected clean id len qos hs incoming :
  length hs = 2%nat -> 0 <= id < 65536 -> 0 <= len <= 64 ->
  sn_ok ex_nlayout (see (ex_nstate (ex_nobject connected clean id len qos hs) incoming)).
Proof.
  intros Hhs Hid Hlen. split; try done.
  - by exists (replicate 64 (byte_of_Z 170)).
  - by exists (replicate 64 (byte_of_Z 187)).
  - by exists (replicate 64 (byte_of_Z 1)).
Qed.

Lemma ex_unsubscribed connected clean id len qos incoming :
  unsubscribed (v_client (see (ex_nstate (ex_nobject connected clean id len qos [ex_free; ex_free]) incoming))).
Proof. repeat apply Forall_cons_2; done. Qed.

(* a datagram of two bytes that claims to have 200 *)
Lemma sn_cycle_safe_witness :
  let v := see (ex_nstate (ex_nobject true true 0 0 0 [ex_free; ex_free]) (bytes [200; 12])) in
  total v (SNClient_cycle 2 0 0 5) (fun rc w => sn_ok ex_nlayout w /\ unsubscribed (v_client w) /\ 0 <= rc < 256).
Proof.
  intros v. apply (sn_cycle_safe 2 0 0 ltac:(lia) ex_nlayout v); [done|by apply ex_nobject_ok|apply ex_unsubscribed].
Defined.

(* a PUBLISH of QoS 1 on the topic with the id 300, which the first handler is for *)
Definition ex_nsub : list SNHandler := [{| n_topicFilter := Some 1%positive; n_fp := Some 9%positive |}; ex_free].
Definition ex_npub : event := EvPublish 0 1 0 77 (TopicId 0 300) (bytes [1; 2; 3]).

Lemma ex_npub_ok : ev_ok ex_npub.
Proof. split_and!; try done. cbn. split_and!; try done. by left. Qed.

Lemma sn_cycle_spec_witness :
  let v := see (ex_nstate (ex_nobject true true 0 0 0 ex_nsub) (ev_packet ex_npub ++ [])) in
  exists w, runs v (SNClient_cycle 2 0 0 5) MQTTSN_PUBLISH w /\
    fst <$> v_delivered w = [9%positive] /\ v_out w = n_reply QOS1 300 77.
Proof.
  intros v. eexists. split; [apply (sn_cycle_spec 2 0 0 ltac:(lia) ex_nlayout v ex_npub []); try done|].
  - by apply ex_nobject_ok.
  - apply ex_npub_ok.
  - apply Forall_cons_2; [|by apply Forall_cons_2]. exists (set_tid_id (no_topic 0) 300). split; [done|].
    intros W s. by apply (carries_equals 0 _ (TopicId 0 300)); [split; [by left|done]|].
  - by vm_compute.
Defined.

Lemma ex_plain_ok ty body :
  0 <= ty < 256 -> ty <> MQTTSN_REGISTER -> ty <> MQTTSN_PUBLISH -> ty <> MQTTSN_PINGRESP -> ty <> MQTTSN_PUBREC ->
  zlen body <= 7 -> ev_ok (EvPlain ty body).
Proof. intros. by apply plain_ok. Qed.

(* the answer comes at once *)
Lemma ex_answers e v tl :
  ev_ok e -> heard 0 (v_client v) e -> v_in v = ev_packet e ++ tl -> answers 0 2 [] e v tl.
Proof. intros. split; try done. cbn. lia. Qed.

Definition ex_nid : MQTTSNString := {| cstring := NULL; lenstring := {| len := 2; data := Ptr 4 0 |} |}.
Definition ex_noptions : MQTTSNPacket_connectData :=
  set_sc_client (set_sc_flags MQTTSNPacket_connectData_initializer 0 0) 60 ex_nid.
Lemma ex_noptions_ok c incoming : n_options (see (ex_nstate c incoming)) ex_nlayout ex_noptions (bytes [109; 101]).
Proof.
  split_and!; try done. split_and!; [done|done|]. right. exists 4%positive, 0. split_and!; [done|done|bytes_at_concrete].
Qed.

(* a REGISTER comes before the CONNACK *)
Definition ex_nregister : event := EvRegister 300 5 (bytes [97; 47; 98]).
Lemma sn_connect_spec_witness :
  let v := see (ex_nstate (ex_nobject false true 0 0 0 [ex_free; ex_free])
                  (ev_packet ex_nregister ++ ev_packet (n_connack 0) ++ [])) in
  exists w, runs v (SNClient_connect 2 0 0 ex_noptions) 0 w /\ n_isconnected (v_client w) = true /\
    v_out w = sn_packet MQTTSN_CONNECT (sn_connect_body 0 0 60 (bytes [109; 101])) ++ n_regack 300 5.
Proof.
  intros v. destruct (sn_connect_spec 2 0 0 ltac:(lia) ex_nlayout v ex_noptions (bytes [109; 101]) [ex_nregister] 0 [])
    as [Hrun _]; try done.
  - by apply ex_nobject_ok.
  - apply ex_noptions_ok.
  - split; try done.
    + apply Forall_cons_2; [|done]. by split_and!.
    + by apply Forall_cons_2.
    + by apply Forall_cons_2.
    + cbn. lia.
  - by left.
  - eexists. split; [exact Hrun|]. by vm_compute.
Defined.

Lemma ex_publish_args connected clean qos incoming :
  0 <= qos < 3 ->
  n_publish_args ex_nlayout (see (ex_nstate (ex_nobject connected clean 0 0 0 [ex_free; ex_free]) incoming))
    1 (set_tid_id (no_topic 0) 300) (TopicId 0 300) (Ptr 5 0) (bytes [1; 2]) 2 0 qos.
Proof.
  intros Hq. split; try done.
  - split_and!; try done. left. split; [done|lia].
  - right. exists 5%positive, 0. split_and!; [done|done|bytes_at_concrete].
Qed.

Lemma sn_publish_spec_witness :
  let v := see (ex_nstate (ex_nobject true false 0 0 0 [ex_free; ex_free]) []) in
  exists w, runs v (SNClient_publish_id 2 0 0 1 (Ptr 5 0) 2 0 2 0) (SUCCESS, 1) w /\
    v_out w = n_publish_wire 2 0 1 (TopicId 0 300) (bytes [1; 2]) /\ n_inflightMsgid (v_client w) = 1.
Proof.
  intros v. eexists. split.
  - apply (sn_publish_spec 2 0 0 ltac:(lia) ex_nlayout v 1 (set_tid_id (no_topic 0) 300) (TopicId 0 300) (Ptr 5 0)
      (bytes [1; 2]) 2 0 2 0); try done; [by apply ex_nobject_ok|by apply ex_publish_args].
  - by vm_compute.
Defined.

Lemma sn_publish_qos1_fails_witness :
  let v := see (ex_nstate (ex_nobject true false 0 0 0 [ex_free; ex_free]) (ev_packet (n_puback 300 1 0) ++ [])) in
  total v (SNClient_publish_id 2 0 0 1 (Ptr 5 0) 2 0 QOS1 0) (fun r w =>
    r = (FAILURE, 1) /\ n_isconnected (v_client w) = false /\ n_inflightMsgid (v_client w) = 1).
Proof.
  intros v. eapply total_mono.
  { apply (sn_publish_qos1_fails 2 0 0 ltac:(lia) ex_nlayout v 1 (set_tid_id (no_topic 0) 300) (TopicId 0 300) (Ptr 5 0)
      (bytes [1; 2]) 2 0 0 [] 300 1 0 []); try done.
    - by apply ex_nobject_ok.
    - by apply ex_publish_args.
    - apply ex_answers; [by apply ex_plain_ok|done|done]. }
  intros r w (-> & -> & Hw). by destruct (Hw eq_refl) as (-> & _).
Defined.

Lemma sn_connect_inflight_fails_witness :
  let v := see (ex_nstate (ex_nobject false false 1 9 1 [ex_free; ex_free])
                  (ev_packet (n_connack 0) ++ ev_packet (n_puback 300 1 0) ++ [])) in
  total v (SNClient_connect 2 0 0 ex_noptions) (fun r w =>
    r = FAILURE /\ n_isconnected (v_client w) = false /\ n_inflightMsgid (v_client w) = 1 /\ v_in w = []).
Proof.
  intros v.
  apply (sn_connect_inflight_fails 2 0 0 ltac:(lia) ex_nlayout v ex_noptions (bytes [109; 101]) [] 0 [] 300 1 0
    (replicate 64 (byte_of_Z 1)) []); try done.
  - by apply ex_nobject_ok.
  - apply ex_noptions_ok.
  - apply ex_answers; [by apply ex_plain_ok|done|done].
  - cbn. lia.
Defined.

(* the filter "a/b" *)
Definition ex_name_topic : MQTTSN_topicid :=
  {| tid_type := 0; tid_byte0 := None; tid_byte1 := None; tid_long_name := Some (Ptr 6 0); tid_long_len := Some 3 |}.
Lemma ex_nfilter connected clean hs incoming :
  n_filter (see (ex_nstate (ex_nobject connected clean 0 0 0 hs) incoming)) ex_nlayout 2 ex_name_topic
    (TopicLong (bytes [97; 47; 98])).
Proof.
  split; try done. split_and!; try done. exists (Ptr 6 0). split; [done|].
  right. exists 6%positive, 0. split_and!; [done|done|bytes_at_concrete].
Qed.

(* the gateway refuses the subscription: not supported *)
Lemma sn_subscribe_spec_witness :
  let v := see (ex_nstate (ex_nobject true true 0 0 0 [ex_free; ex_free]) (ev_packet (n_suback 1 0 1 3) ++ [])) in
  exists w, runs v (SNClient_subscribe 2 0 0 2 1 (Some 9%positive)) SUCCESS w /\
    n_messageHandlers (v_client w) = [ex_free; ex_free].
Proof.
  intros v. destruct (sn_subscribe_spec 2 0 0 ltac:(lia) ex_nlayout v 2 ex_name_topic (TopicLong (bytes [97; 47; 98])) 1
    (Some 9%positive) 0 [] 1 0 1 3 []) as [Hrun Hhs]; try done.
  - by apply ex_nobject_ok.
  - apply ex_nfilter.
  - apply ex_answers; [by apply ex_plain_ok|done|done].
  - eexists. split; [exact Hrun|]. exact Hhs.
Defined.

Lemma sn_subscribe_delivers_witness :
  let v := see (ex_nstate (ex_nobject true true 0 0 0 [ex_free; ex_free])
                  (ev_packet (n_suback 1 300 1 0) ++ ev_packet ex_npub ++ [])) in
  exists w, runs v (subscribe_and_cycle 2 0 0 2 1 (Some 9%positive) 5) (SUCCESS, MQTTSN_PUBLISH : Z) w /\
    fst <$> v_delivered w = [9%positive].
Proof.
  intros v. destruct (sn_subscribe_delivers 2 0 0 ltac:(lia) ex_nlayout v 2 ex_name_topic (TopicLong (bytes [97; 47; 98])) 1
    9 [] 1 300 1 0 1 0 77 (bytes [1; 2; 3]) [] 5) as [Hrun Hd]; try done.
  - by apply ex_nobject_ok.
  - apply ex_nfilter.
  - apply ex_unsubscribed.
  - by left.
  - apply ex_npub_ok.
  - apply ex_answers; [by apply ex_plain_ok|done|done].
  - eexists. split; [exact Hrun|]. by rewrite Hd.
Defined.

(* the topic with the id 300 is subscribed to; the message is on the topic with the id 301 *)
Lemma sn_other_topic_faults_witness :
  let e := EvPublish 0 QOS0 0 0 (TopicId 0 301) (bytes [1]) in
  let v := see (ex_nstate (ex_nobject true true 0 0 0 ex_nsub) (ev_packet e ++ [])) in
  fails v (SNClient_cycle 2 0 0 5) Indeterminate.
Proof.
  intros e v. apply (sn_other_topic_faults 2 0 0 ltac:(lia) ex_nlayout v (hd ex_free ex_nsub) [ex_free] 1
    (set_tid_id (no_topic 0) 300) 0 0 0 (TopicId 0 301) (bytes [1]) [] 5); try done.
  - by apply ex_nobject_ok.
  - split_and!; try done. cbn. split_and!; try done. by left.
  - by exists 44, 1.
  - by intros (_ & [=] & _).
Defined.

Lemma sn_unsubscribe_spec_witness :
  let v := see (ex_nstate (ex_nobject true true 0 0 0 ex_nsub) (ev_packet (n_unsuback 1) ++ [])) in
  exists w, runs v (SNClient_unsubscribe 2 0 0 2) SUCCESS w /\ n_messageHandlers (v_client w) = ex_nsub.
Proof.
  intros v. destruct (sn_unsubscribe_spec 2 0 0 ltac:(lia) ex_nlayout v 2 ex_name_topic (TopicLong (bytes [97; 47; 98])) [] 1 [] 0)
    as (Hrun & Hhs & _); try done.
  - by apply ex_nobject_ok.
  - apply ex_nfilter.
  - apply ex_answers; [by apply ex_plain_ok|done|done].
  - eexists. split; [exact Hrun|]. exact Hhs.
Defined.
End SNClientWitnesses.
