(* ===== verification/SNYield.v ===== *)
(** * The yield of the MQTT-SN client ends

    On a platform whose clock advances while a read waits ([Clock]).  No turn of cycle
    is an error here: the result of a turn is an unsigned char or a packet type, never
    FAILURE, so yield runs until its time is over whatever happens. *)

From S2P Require Import Prelude CMem MQTTPacket MQTTPublish MQTTConnect PacketRead SNPacket SNPublish SNConnect SNSubscribe.
From S2P Require Import Platform MQTTClient CppClient CppLogic Clock SNClient SNClientLogic SNClientCycle.

(** ** The packet functions leave the world alone *)

Section SNPacketMoves.
Context {W : Type} (R : W -> W -> Prop) `{!PreOrder R} `{CharSign} `{ByteOrder}.
#[local] Hint Resolve moves_advance moves_writeChar moves_writeInt moves_readChar moves_readInt : moves.

Lemma moves_sn_decode p n v : moves R (MQTTSNPacket_decode p n v).
Proof. moves_def @MQTTSNPacket_decode. Qed.
Lemma moves_sn_len n : moves R (MQTTSNPacket_len n).
Proof. moves_def @MQTTSNPacket_len. Qed.
Lemma moves_sn_encode p n : moves R (MQTTSNPacket_encode p n).
Proof. moves_def @MQTTSNPacket_encode. Qed.
Lemma moves_memcpy p q n : moves R (memcpy p q n).
Proof. moves_def @memcpy. Qed.
Lemma moves_sn_strlen str : moves R (MQTTSNstrlen str).
Proof. moves_def @MQTTSNstrlen. Qed.
Lemma moves_tid_id t : moves R (tid_id t).
Proof. moves_def @tid_id. Qed.
#[local] Hint Resolve moves_sn_decode moves_sn_len moves_sn_encode moves_memcpy moves_sn_strlen moves_tid_id : moves.

Lemma moves_sn_open p n : moves R (sn_open p n).
Proof. moves_def @sn_open. Qed.
#[local] Hint Resolve moves_sn_open : moves.
Lemma moves_read_topic_field t q p : moves R (read_topic_field t q p).
Proof. moves_def @read_topic_field. Qed.
Lemma moves_read_topic_name t q p : moves R (read_topic_name t q p).
Proof. moves_def @read_topic_name. Qed.
Lemma moves_write_sn_string p str : moves R (writeMQTTSNString p str).
Proof. moves_def @writeMQTTSNString. moves_def @writeCString. Qed.
#[local] Hint Resolve moves_read_topic_field moves_read_topic_name moves_write_sn_string : moves.

Lemma moves_sn_deserialize_publish out p n : moves R (MQTTSNDeserialize_publish out p n).
Proof. moves_def @MQTTSNDeserialize_publish. Qed.
Lemma moves_sn_deserialize_register out p n : moves R (MQTTSNDeserialize_register out p n).
Proof. moves_def @MQTTSNDeserialize_register. Qed.
Lemma moves_sn_serialize_pingreq p n str : moves R (MQTTSNSerialize_pingreq p n str).
Proof. moves_def @MQTTSNSerialize_pingreq. Qed.
Lemma moves_sn_serialize_puback p n t id rc : moves R (MQTTSNSerialize_puback p n t id rc).
Proof. moves_def @MQTTSNSerialize_puback. Qed.
Lemma moves_sn_serialize_regack p n t id rc : moves R (MQTTSNSerialize_regack p n t id rc).
Proof. moves_def @MQTTSNSerialize_regack. Qed.
Lemma moves_sn_serialize_pubrec p n id : moves R (MQTTSNSerialize_pubrec p n id).
Proof. unfold MQTTSNSerialize_pubrec. moves_def @MQTTSNSerialize_ack. Qed.
Lemma moves_sn_topic_equals x y : moves R (MQTTSNTopic_equals x y).
Proof. unfold MQTTSNTopic_equals, tid_short0, tid_short1. moves_steps. Qed.
End SNPacketMoves.

#[export] Hint Resolve moves_sn_decode moves_tid_id moves_memcpy moves_sn_deserialize_publish moves_sn_deserialize_register
  moves_sn_serialize_pingreq moves_sn_serialize_puback moves_sn_serialize_regack moves_sn_serialize_pubrec
  moves_sn_topic_equals : moves.

(** ** The client *)

Section SNYield.
Context `{ClientParams} {E Timer : Type} `{PS : PlatformSpec (SNClient Timer) E Timer SNMessageData}.
Context `{CharSign} `{ByteOrder} `{!Clock (SNClient Timer) E Timer SNMessageData}.
Variables (fuel : nat) (no_timer : Timer) (uninit : Z).
Hypothesis Hsize : 0 < MAX_MQTT_PACKET_SIZE.
Abbreviation MC := (M (snworld E Timer)).

Lemma moves_nsendPacket n timer : moves later (SNClient_sendPacket fuel n timer).
Proof.
  assert (Hloop : forall k sent, moves later (SNClient_send_loop k sent n timer)).
  { induction k as [|k IH]; intros; cbn [SNClient_send_loop]; moves_steps. }
  moves_def @SNClient_sendPacket.
Qed.
#[local] Hint Resolve moves_nsendPacket : moves.

Lemma hurried_nreadPacket timer : hurried (SNClient_readPacket timer).
Proof.
  unfold SNClient_readPacket. apply hurried_then; [apply moves_get_client|]. intros c.
  apply hurried_then; [apply moves_TimerLeftMS|]. intros timeout.
  apply hurried_first; [by apply hurried_net_read|]. moves_steps.
Qed.

Lemma moves_topic_at p : moves later (SNClient_topic_at p : MC _).
Proof. moves_def @SNClient_topic_at. Qed.
#[local] Hint Resolve moves_topic_at : moves.
Lemma moves_ndeliverMessage topic msg : moves later (SNClient_deliverMessage topic msg).
Proof.
  assert (Hloop : forall k i rc, moves later (SNClient_deliver_loop k i rc topic msg)).
  { induction k as [|k IH]; intros; cbn [SNClient_deliver_loop]; unfold SNClient_isTopicMatched; moves_steps. }
  moves_def @SNClient_deliverMessage.
Qed.
#[local] Hint Resolve moves_ndeliverMessage : moves.

Lemma moves_nkeepalive : moves later (SNClient_keepalive fuel no_timer).
Proof. moves_def @SNClient_keepalive. Qed.
Lemma moves_nreply n timer : moves later (SNClient_reply fuel n timer).
Proof. moves_def @SNClient_reply. Qed.
Lemma moves_naccept topic msg : moves later (SNClient_accept topic msg).
Proof. unfold SNClient_accept, SNClient_isQoS2msgidFree, SNClient_useQoS2msgid. moves_steps. Qed.
#[local] Hint Resolve moves_nkeepalive moves_nreply moves_naccept : moves.
Lemma moves_ncycle_end rc ty : moves later (SNClient_cycle_end fuel no_timer rc ty).
Proof. moves_def @SNClient_cycle_end. Qed.
#[local] Hint Resolve moves_ncycle_end : moves.
Lemma moves_ncycle_checked rc ty : moves later (SNClient_cycle_checked fuel no_timer rc ty).
Proof. moves_def @SNClient_cycle_checked. Qed.
#[local] Hint Resolve moves_ncycle_checked : moves.
Lemma moves_nregister ty timer : moves later (SNClient_cycle_register fuel no_timer uninit ty timer).
Proof. moves_def @SNClient_cycle_register. Qed.
Lemma moves_npublish ty timer : moves later (SNClient_cycle_publish fuel no_timer uninit ty timer).
Proof. moves_def @SNClient_cycle_publish. Qed.
Lemma moves_npubrec ty timer : moves later (SNClient_cycle_pubrec fuel no_timer uninit ty timer).
Proof. moves_def @SNClient_cycle_pubrec. Qed.
#[local] Hint Resolve moves_nregister moves_npublish moves_npubrec : moves.

Lemma hurried_ncycle timer : hurried (SNClient_cycle fuel no_timer uninit timer).
Proof. unfold SNClient_cycle. apply hurried_first; [apply hurried_nreadPacket|]. moves_steps. Qed.

(** The turns of yield. *)
Lemma nyield_loop_returns `{!WholeWrites (SNClient Timer) E Timer SNMessageData} L timer n s :
  (2 <= fuel)%nat -> 0 <= uninit -> sn_ok L (see s) -> unsubscribed (v_client (see s)) ->
  left_over timer s < Z.of_nat n ->
  exists s', SNClient_yield_loop fuel no_timer uninit n timer s = Done SUCCESS s' /\
    sn_ok L (see s') /\ deadline timer <= now (env (world s')).
Proof.
  intros Hfuel Hu. revert s. induction n as [|n IH]; intros s Hok Hun Hleft.
  { pose proof (left_over_nonneg timer s). lia. }
  cbn [SNClient_yield_loop]. destruct (expired_run timer s) as (s1 & Hexp & Hs1 & Hlater).
  rewrite (bind_done _ _ _ _ _ Hexp).
  destruct (Z.leb_spec (deadline timer) (now (env (world s1)))).
  { exists s1. by rewrite Hs1. }
  rewrite <- Hs1 in Hok, Hun.
  destruct (safe_ncycle fuel no_timer uninit Hfuel Hu L (see s1) timer Hok Hun s1 eq_refl)
    as (r & s2 & Hrun & Hok2 & Hun2 & Hr).
  rewrite (bind_done _ _ _ _ _ Hrun). unfold FAILURE. test_false (r =? -1).
  apply (IH s2); [done|done|]. pose proof (left_over_later timer _ _ Hlater).
  pose proof (left_over_turn timer _ _ _ _ (hurried_ncycle timer) Hrun ltac:(lia)). lia.
Qed.
End SNYield.

(** ** The property *)

(** C16: yield of an MQTT-SN client without subscriptions returns on a platform whose
    clock advances, whatever the network delivers: fuel for one turn per millisecond
    and byte suffices.  The result is SUCCESS in every case, once the time has
    passed, never the FAILURE that is to say that the client is disconnected. *)
Theorem sn_yield_returns `{ClientParams} {E Timer}
    `{PS : PlatformSpec (SNClient Timer) E Timer SNMessageData} `{CharSign} `{ByteOrder}
    `{!Clock (SNClient Timer) E Timer SNMessageData} `{!WholeWrites (SNClient Timer) E Timer SNMessageData}
    fuel (no_timer : Timer) uninit L timeout s :
  (2 <= fuel)%nat -> 0 <= uninit -> sn_ok L (see s) -> unsubscribed (v_client (see s)) -> 0 <= timeout ->
  timeout + zlen (v_in (see s)) < Z.of_nat fuel ->
  exists s', SNClient_yield fuel no_timer uninit timeout s = Done SUCCESS s' /\
    sn_ok L (see s') /\ now (env (world s)) + timeout <= now (env (world s')).
Proof.
  intros Hf Hu Hok Hun Ht Hfuel. unfold SNClient_yield.
  assert (Hsz : 0 < MAX_MQTT_PACKET_SIZE) by (pose proof (no_size _ _ Hok); lia).
  destruct (init_run no_timer s) as (t1 & s1 & Hrun1 & Hs1 & Hn1). rewrite (bind_done _ _ _ _ _ Hrun1).
  destruct (countdown_run t1 timeout s1) as (timer & s2 & Hrun2 & Hs2 & Hn2 & Hdl).
  rewrite (bind_done _ _ _ _ _ Hrun2). rewrite <- Hs1, <- Hs2 in Hok, Hun, Hfuel.
  destruct (nyield_loop_returns fuel no_timer uninit Hsz L timer fuel s2 Hf Hu Hok Hun) as (s' & Hrun & Hok' & Hout).
  { unfold left_over. rewrite Hdl. change (zlen (net_in (env (world s2)))) with (zlen (v_in (see s2))). lia. }
  exists s'. split; [exact Hrun|]. split; [done|lia].
Qed.

(** ** Witness *)

Section SNYieldWitness.
#[local] Existing Instances char_is_signed little_endian_order ticking_platform ticking_spec ticking_whole ticking_clock.

#[local] Instance ex_nybuild : ClientParams := {|
  MAX_MQTT_PACKET_SIZE := 12; MAX_HANDLERS := 1; MQTTCLIENT_QOS1 := true; MQTTCLIENT_QOS2 := false;
  MAX_INCOMING_QOS2_MESSAGES := 0
|}.
Definition ex_nylayout : sn_layout := {| nl_send := 1; nl_read := 2; nl_pub := 3 |}.

(* two seconds into its life; PINGRESP and half a packet to come *)
Definition ex_nystate : state (snworld (ticking SNMessageData) Z) :=
  State (mem_of [replicate 12 (byte_of_Z 170); replicate 12 (byte_of_Z 187); replicate 12 (byte_of_Z 0)]) NULL
    (World (SNObject 30000 (Ptr 1 0) (Ptr 2 0) 0 0 60 false true 1 [{| n_topicFilter := None; n_fp := None |}]
              None true (Ptr 3 0) 0 0 0 false [] ∅)
       (Ticking {| pe_in := bytes [2; 23; 9; 12; 1]; pe_out := []; pe_delivered := [] |} 2000)).

Lemma ex_nystate_ok : sn_ok ex_nylayout (see ex_nystate).
Proof.
  split; try done.
  - by exists (replicate 12 (byte_of_Z 170)).
  - by exists (replicate 12 (byte_of_Z 187)).
  - by exists (replicate 12 (byte_of_Z 0)).
Qed.

Lemma sn_yield_returns_witness :
  exists s', SNClient_yield 17 0 0 10 ex_nystate = Done SUCCESS s' /\
    sn_ok ex_nylayout (see s') /\ 2000 + 10 <= tk_now (env (world s')).
Proof.
  apply (sn_yield_returns (E := ticking SNMessageData) (Clock0 := ticking_clock) 17 0 0 ex_nylayout 10 ex_nystate);
    [lia|done|apply ex_nystate_ok|by apply Forall_cons_2|done|cbn; lia].
Defined.
End SNYieldWitness.
