(* ===== verification/MbedNet.v ===== *)
(** * The network layer of Mbed OS

    src/MQTTNetworkUtil.h, the classes MQTTNetworkMbedOs (src/MQTTClientMbedOs.cpp),
    MQTTNetwork, MQTTNetworkTLS and MQTTSNNetworkUDP, which give the clients read and
    write over a socket, and the class Countdown of MQTTClient/src/mbed/MQTTmbed.h.
    Sockets, name service and the Timer of Mbed OS are not part of the repository:
    [Socket] and [MbedTimer] are their interfaces, [SocketSpec] and
    [MbedTimerSpec] what is documented of them.  With them the layer is a [Platform]
    ([mbed_platform]) that fulfils the contract of platforms. *)

From S2P Require Import Prelude CMem MQTTPacket MQTTPublish MQTTConnect MQTTSubscribe PacketRead Platform.

(** ** What Mbed OS provides

    The functions act on the environment.  [sock_recv n] yields the return value and
    the bytes it stored; [sock_send] is given the bytes it may send; a certificate
    is its text, [None] the null pointer. *)

Class NsapiErrors := {
  NSAPI_ERROR_OK : Z; NSAPI_ERROR_WOULD_BLOCK : Z; NSAPI_ERROR_NO_CONNECTION : Z;
  NSAPI_ERROR_UNSUPPORTED : Z; NSAPI_ERROR_DNS_FAILURE : Z
}.

Class Socket (E A : Type) := {
  sock_open : E -> Z * E;
  sock_connect : A -> E -> Z * E;
  sock_close : E -> Z * E;
  sock_set_timeout : Z -> E -> unit * E;
  sock_recv : Z -> E -> Z * list byte * E;
  sock_send : list byte -> E -> Z * E;
  set_root_ca_cert : option (list byte) -> E -> Z * E;
  set_client_cert_key : list byte -> list byte -> E -> Z * E;
  gethostbyname : list byte -> A -> E -> Z * A * E;
  SocketAddress : A;
  SocketAddress_of : list byte -> Z -> A;
  set_port : A -> Z -> A
}.

Class MbedTimer (E T : Type) := {
  timer_new : E -> T * E;
  timer_start : T -> E -> T * E;
  timer_stop : T -> E -> T * E;
  timer_reset : T -> E -> T * E;
  timer_read_ms : T -> E -> Z * E
}.

(** Nothing observable happened. *)
Definition calm {E D} `{Observed E D} (e e' : E) : Prop :=
  net_in e' = net_in e /\ net_out e' = net_out e /\ delivered e' = delivered e.

#[export] Instance calm_preorder {E D} `{Observed E D} : PreOrder (calm (E := E)).
Proof.
  split; [done|]. intros e1 e2 e3 (?&?&?) (?&?&?). unfold calm. split_and!; congruence.
Qed.

(** Documentation of Socket: recv returns the number of bytes received, 0 when the
    peer has closed the connection, and else a negative error; send the
    number of bytes taken or an error. *)
Class SocketSpec (E A D : Type) `{Socket E A} `{Observed E D} : Prop := {
  set_timeout_spec t e : calm e (sock_set_timeout t e).2;
  recv_spec n e : 0 < n ->
    let '(rc, bs, e') := sock_recv n e in
    rc <= n /\ zlen bs = Z.max 0 rc /\ net_in e = bs ++ net_in e' /\
    net_out e' = net_out e /\ delivered e' = delivered e;
  send_spec bs e :
    let '(rc, e') := sock_send bs e in
    rc <= zlen bs /\ net_in e' = net_in e /\ net_out e' = net_out e ++ take (Z.to_nat rc) bs /\
    delivered e' = delivered e
}.

Class MbedTimerSpec (E T D : Type) `{MbedTimer E T} `{Observed E D} : Prop := {
  timer_new_spec e : calm e (timer_new e).2;
  timer_start_spec t e : calm e (timer_start t e).2;
  timer_stop_spec t e : calm e (timer_stop t e).2;
  timer_reset_spec t e : calm e (timer_reset t e).2;
  timer_read_spec t e : calm e (timer_read_ms t e).2
}.

(** The call of a handler of the application. *)
Class Handlers (E D : Type) := handle : positive -> D -> E -> unit * E.
Class HandlersSpec (E D : Type) `{Handlers E D} `{Observed E D} : Prop :=
  handle_spec f md e :
    let e' := (handle f md e).2 in
    net_in e' = net_in e /\ net_out e' = net_out e /\ delivered e' = delivered e ++ [(f, md)].

(** A function of the environment as a step of a client. *)
Definition on_env {C E R} (f : E -> R * E) : M (world_of C E) R := fun s =>
  let '(r, e) := f (env (world s)) in Done r (State (mem s) (bufptr s) (World (client (world s)) e)).

(** ** MQTTNetworkUtil.h *)

Section NetworkUtil.
Context `{NsapiErrors} {C E A : Type} `{Socket E A}.
Abbreviation MC := (M (world_of C E)).

Definition convert_nsapi_error_to_mqtt_error (nsapi_error : Z) : Z :=
  if nsapi_error =? NSAPI_ERROR_WOULD_BLOCK then 0
  else if nsapi_error =? 0 then -1
  else nsapi_error.

(** [socket->recv(buffer, n)] *)
Definition socket_recv (buffer : ptr) (n : Z) : MC Z :=
  let* (rc, bs) := on_env (sock_recv n) in store_bytes buffer bs ;;; ret rc.

(** The [while] loop; every turn takes at least one byte. *)
Fixpoint accumulate_loop (n : nat) (buffer : ptr) (remaining len : Z) : MC Z :=
  match n with
  | O => throw Divergence
  | S n =>
      if remaining =? 0 then ret len
      else
        let* rc := socket_recv buffer remaining in
        if 0 <? rc then accumulate_loop n (padd buffer rc) (remaining - rc) len
        else ret (convert_nsapi_error_to_mqtt_error rc)
  end.

Definition accumulate_mqtt_read (buffer : ptr) (len timeout : Z) : MC Z :=
  on_env (sock_set_timeout timeout) ;;; accumulate_loop (S (Z.to_nat len)) buffer len len.

Definition mqtt_write (buffer : ptr) (len timeout : Z) : MC Z :=
  on_env (sock_set_timeout timeout) ;;;
  let* bs := load_bytes buffer len in
  let* rc := on_env (sock_send bs) in
  if 0 <? rc then ret rc else ret (convert_nsapi_error_to_mqtt_error rc).

(** ** The network classes *)

Definition MQTTNetworkMbedOs_read := accumulate_mqtt_read.
Definition MQTTNetworkMbedOs_write := mqtt_write.
Definition MQTTNetworkMbedOs_connect (hostname : list byte) (port : Z) : MC Z :=
  let sockAddr := SocketAddress_of hostname port in on_env (sock_connect sockAddr).
Definition MQTTNetworkMbedOs_disconnect : MC Z := on_env sock_close.

Definition MQTTNetwork_read := accumulate_mqtt_read.
Definition MQTTNetwork_write := mqtt_write.
Definition MQTTNetwork_connect (hostname : list byte) (port : Z) : MC Z :=
  let* rc := on_env sock_open in
  if negb (rc =? NSAPI_ERROR_OK) then ret rc
  else
    let* (rc, addr) := on_env (gethostbyname hostname SocketAddress) in
    if negb (rc =? NSAPI_ERROR_OK) then ret NSAPI_ERROR_DNS_FAILURE
    else let addr := set_port addr port in on_env (sock_connect addr).
Definition MQTTNetwork_disconnect : MC Z := on_env sock_close.

Definition MQTTNetworkTLS_read := accumulate_mqtt_read.
Definition MQTTNetworkTLS_write := mqtt_write.
Definition MQTTNetworkTLS_connect (hostname : list byte) (port : Z)
    (ssl_ca_pem ssl_cli_pem ssl_pk_pem : option (list byte)) : MC Z :=
  let* rc := on_env sock_open in
  if rc <? 0 then ret rc
  else
    let* (rc, addr) := on_env (gethostbyname hostname SocketAddress) in
    if rc <? 0 then ret rc
    else
      let addr := set_port addr port in
      let* rc := on_env (set_root_ca_cert ssl_ca_pem) in
      if rc <? 0 then ret rc
      else
        let* rc :=
          match ssl_cli_pem, ssl_pk_pem with
          | Some cli, Some pk => on_env (set_client_cert_key cli pk)
          | _, _ => ret 0
          end in
        if rc <? 0 then ret rc else on_env (sock_connect addr).
Definition MQTTNetworkTLS_disconnect : MC Z := on_env sock_close.
Definition MQTTNetworkTLS_set_root_ca_cert (root_ca_pem : option (list byte)) : MC Z :=
  on_env (set_root_ca_cert root_ca_pem).

Definition MQTTSNNetworkUDP_read := accumulate_mqtt_read.
Definition MQTTSNNetworkUDP_write := mqtt_write.
(** The result of open is dropped. *)
Definition MQTTSNNetworkUDP_connect (hostname : list byte) (port : Z) : MC Z :=
  let* _ := on_env sock_open in
  let addr := SocketAddress_of hostname port in on_env (sock_connect addr).
Definition MQTTSNNetworkUDP_disconnect : MC Z := ret 0.
End NetworkUtil.

(** ** Countdown *)

Record Countdown (T : Type) := { cd_t : T; cd_interval_end_ms : Z }.
Arguments Build_Countdown {T} _ _.
Arguments cd_t {T} _.
Arguments cd_interval_end_ms {T} _.

Section CountdownOps.
Context {C E T : Type} `{MbedTimer E T}.
Abbreviation MC := (M (world_of C E)).
Implicit Types t : Countdown T.

(** The constructor without argument: [interval_end_ms] keeps what the memory held. *)
Definition Countdown_new t : MC (Countdown T) :=
  let* tm := on_env timer_new in ret (Build_Countdown tm (cd_interval_end_ms t)).

(** [int] and [unsigned long] have 32 bits: the operand of type int is converted. *)
Definition Countdown_expired t : MC bool :=
  let* r := on_env (timer_read_ms (cd_t t)) in ret (cd_interval_end_ms t <=? u32 r).

Definition Countdown_countdown_ms t (ms : Z) : MC (Countdown T) :=
  let* tm := on_env (timer_stop (cd_t t)) in
  let interval_end_ms := u32 ms in
  let* tm := on_env (timer_reset tm) in
  let* tm := on_env (timer_start tm) in
  ret (Build_Countdown tm interval_end_ms).

Definition Countdown_countdown t (seconds : Z) : MC (Countdown T) :=
  Countdown_countdown_ms t (u32 (u32 seconds * 1000)).

Definition Countdown_left_ms t : MC Z :=
  let* r := on_env (timer_read_ms (cd_t t)) in ret (i32 (cd_interval_end_ms t - u32 r)).
End CountdownOps.

(** ** The layer as a platform *)

(** What a client is told of a read: the return value and the bytes that were
    stored. *)
Fixpoint gather `{NsapiErrors} {E A} `{Socket E A} (n : nat) (remaining len : Z) (e : E) :
    option (Z * list byte * E) :=
  match n with
  | O => None
  | S n =>
      if remaining =? 0 then Some (len, [], e)
      else
        let '(rc, bs, e) := sock_recv remaining e in
        if 0 <? rc then
          match gather n (remaining - rc) len e with
          | Some (r, more, e) => Some (r, bs ++ more, e)
          | None => None
          end
        else Some (convert_nsapi_error_to_mqtt_error rc, bs, e)
  end.

(** The timers of a platform. *)
Class Timers (C E Timer : Type) := {
  tm_init : Timer -> M (world_of C E) Timer;
  tm_expired : Timer -> M (world_of C E) bool;
  tm_countdown_ms : Timer -> Z -> M (world_of C E) Timer;
  tm_countdown : Timer -> Z -> M (world_of C E) Timer;
  tm_left_ms : Timer -> M (world_of C E) Z
}.

Definition countdown_timers {C E T} `{MbedTimer E T} : Timers C E (Countdown T) := {|
  tm_init := Countdown_new;
  tm_expired := Countdown_expired;
  tm_countdown_ms := Countdown_countdown_ms;
  tm_countdown := Countdown_countdown;
  tm_left_ms := Countdown_left_ms
|}.

Section MbedPlatform.
Context `{NsapiErrors} {C E A Timer D : Type} `{Socket E A} `{Timers C E Timer} `{Handlers E D}.

Definition mbed_mqttread (n timeout : Z) : M (world_of C E) (Z * list byte) := fun s =>
  match gather (S (Z.to_nat n)) n n (sock_set_timeout timeout (env (world s))).2 with
  | Some (rc, bs, e) => Done (rc, bs) (State (mem s) (bufptr s) (World (client (world s)) e))
  | None => Fault Divergence
  end.

Definition mbed_mqttwrite (bs : list byte) (timeout : Z) : M (world_of C E) Z :=
  on_env (sock_set_timeout timeout) ;;;
  let* rc := on_env (sock_send bs) in
  ret (if 0 <? rc then rc else convert_nsapi_error_to_mqtt_error rc).

Definition mbed_platform : Platform C E Timer D := {|
  TimerInit := tm_init;
  TimerIsExpired := tm_expired;
  TimerCountdownMS := tm_countdown_ms;
  TimerCountdown := tm_countdown;
  TimerLeftMS := tm_left_ms;
  mqttread := mbed_mqttread;
  mqttwrite := mbed_mqttwrite;
  call_handler f md := on_env (handle f md)
|}.
End MbedPlatform.

(** The timers change nothing a client can observe, and always answer. *)
Class TimersSpec (C E Timer D : Type) `{Timers C E Timer} `{Observed E D} : Prop := {
  tm_init_spec t s : exists t' s', tm_init t s = Done t' s' /\ quiet s s';
  tm_expired_spec t s : exists e s', tm_expired t s = Done e s' /\ quiet s s';
  tm_countdown_ms_spec t n s : exists t' s', tm_countdown_ms t n s = Done t' s' /\ quiet s s';
  tm_countdown_spec t n s : exists t' s', tm_countdown t n s = Done t' s' /\ quiet s s';
  tm_left_ms_spec t s : exists n s', tm_left_ms t s = Done n s' /\ quiet s s'
}.

Section OnEnv.
Context {C E D : Type} `{Observed E D}.
Implicit Types s : state (world_of C E).

Lemma on_env_run {R} (f : E -> R * E) s :
  on_env f s = Done (f (env (world s))).1 (State (mem s) (bufptr s) (World (client (world s)) (f (env (world s))).2)).
Proof. unfold on_env. by destruct (f (env (world s))). Qed.

(** A function that changes nothing observable. *)
Lemma on_env_calm {R} (f : E -> R * E) s :
  (forall e, calm e (f e).2) -> exists r s', on_env f s = Done r s' /\ quiet s s'.
Proof.
  intros Hf. rewrite on_env_run. do 2 eexists. split; [done|]. destruct (Hf (env (world s))) as (?&?&?).
  by unfold quiet.
Qed.

Lemma quiet_trans s1 s2 s3 : quiet s1 s2 -> quiet s2 s3 -> quiet s1 s3.
Proof. intros (?&?&?&?&?) (?&?&?&?&?). unfold quiet. split_and!; congruence. Qed.

Lemma quiet_bind {R S} (c : M (world_of C E) R) (k : R -> M (world_of C E) S) s :
  (exists r s', c s = Done r s' /\ quiet s s') ->
  (forall r s', exists x s'', k r s' = Done x s'' /\ quiet s' s'') ->
  exists x s'', bind c k s = Done x s'' /\ quiet s s''.
Proof.
  intros (r & s' & Hc & Hq) Hk. rewrite (bind_done _ _ _ _ _ Hc). destruct (Hk r s') as (x & s'' & ? & ?).
  exists x, s''. split; [done|]. by eapply quiet_trans.
Qed.

Lemma quiet_ret {R} (r : R) s : exists x s', ret r s = Done x s' /\ quiet s s'.
Proof. by exists r, s. Qed.
End OnEnv.

(** Countdown over a Timer of Mbed OS. *)
#[export] Instance countdown_timers_spec {C E T D} `{TS : MbedTimerSpec E T D} :
  TimersSpec C E (Countdown T) D (H := countdown_timers).
Proof.
  assert (Hms : forall (t : Countdown T) n s, exists t' (s' : state (world_of C E)),
    Countdown_countdown_ms t n s = Done t' s' /\ quiet s s').
  { intros t n s. unfold Countdown_countdown_ms. cbv zeta.
    apply quiet_bind; [apply on_env_calm, timer_stop_spec|]. intros tm s1.
    apply quiet_bind; [apply on_env_calm, timer_reset_spec|]. intros tm1 s2.
    apply quiet_bind; [apply on_env_calm, timer_start_spec|]. intros. apply quiet_ret. }
  split; cbn; [| | | |]; intros.
  - apply quiet_bind; [apply on_env_calm, timer_new_spec|]. intros. apply quiet_ret.
  - apply quiet_bind; [apply on_env_calm, timer_read_spec|]. intros. apply quiet_ret.
  - apply Hms.
  - apply Hms.
  - apply quiet_bind; [apply on_env_calm, timer_read_spec|]. intros. apply quiet_ret.
Qed.

(** ** Reading *)

Section Reads.
Context `{NsapiErrors} {C E A D : Type} `{SS : SocketSpec E A D}.

Lemma convert_nonpos rc : rc <= 0 -> convert_nsapi_error_to_mqtt_error rc <= 0.
Proof. unfold convert_nsapi_error_to_mqtt_error. repeat case_test; lia. Qed.

(** The loop ends; it gets everything, or the translated error of the first call
    that gave nothing, the bytes before being taken from the network all the same. *)
Lemma gather_run n remaining len e :
  0 <= remaining < Z.of_nat n ->
  exists rc bs e', gather n remaining len e = Some (rc, bs, e') /\
    net_in e = bs ++ net_in e' /\ net_out e' = net_out e /\ delivered e' = delivered e /\
    ((rc = len /\ zlen bs = remaining) \/
     (exists err, err <= 0 /\ rc = convert_nsapi_error_to_mqtt_error err /\ zlen bs < remaining)).
Proof.
  revert remaining e. induction n as [|n IH]; intros remaining e Hr; [lia|]. cbn [gather].
  destruct (Z.eqb_spec remaining 0) as [->|Hne].
  { exists len, [], e. split_and!; try done. by left. }
  pose proof (recv_spec remaining e ltac:(lia)) as Hrecv.
  destruct (sock_recv remaining e) as [[rc bs] e1]. destruct Hrecv as (Hle & Hbs & Hin & Hout & Hdel).
  destruct (Z.ltb_spec 0 rc) as [Hpos|Hneg].
  - destruct (IH (remaining - rc) e1 ltac:(lia)) as (r & more & e2 & -> & Hin2 & Hout2 & Hdel2 & Hres).
    exists r, (bs ++ more), e2. split_and!; [done|by rewrite Hin, Hin2, app_assoc|congruence|congruence|].
    rewrite length_app, Nat2Z.inj_add. destruct Hres as [[-> ?]|(err & ? & ? & ?)]; [left; lia|right].
    exists err. split_and!; [done|done|lia].
  - eexists _, bs, e1. split_and!; [done..|]. right. exists rc. split_and!; [done|done|lia].
Qed.

(** The loop over the pointer stores those bytes one behind the other. *)
Lemma accumulate_gather n m0 b l o w remaining len (s : state (world_of C E)) :
  written m0 b l o w s -> 0 <= o -> 0 <= remaining -> o + zlen w + remaining <= zlen l ->
  accumulate_loop n (Ptr b (o + zlen w)) remaining len s =
    match gather n remaining len (env (world s)) with
    | Some (rc, bs, e) => Done rc (State (<[b := splice l o (w ++ bs)]> m0) (bufptr s) (World (client (world s)) e))
    | None => Fault Divergence
    end.
Proof.
  revert w remaining s. induction n as [|n IH]; intros w remaining s Hw Ho Hr Hroom; [done|].
  cbn [accumulate_loop gather]. destruct (Z.eqb_spec remaining 0) as [->|Hne].
  { unfold ret. rewrite app_nil_r, <- Hw. by destruct s as [? ? []]. }
  unfold socket_recv. rewrite !bind_assoc. erewrite bind_done by apply on_env_run.
  pose proof (recv_spec remaining (env (world s)) ltac:(lia)) as Hrecv.
  destruct (sock_recv remaining (env (world s))) as [[rc bs] e1]. destruct Hrecv as (Hle & Hbs & _).
  cbn [fst snd]. set (s1 := State _ _ _). rewrite bind_assoc.
  destruct (store_bytes_written m0 b l o w bs s1) as (s2 & Hrun & Hw2 & Hworld);
    [exact Hw|done|lia|].
  assert (Hptr : bufptr s2 = bufptr s).
  { revert Hrun. unfold store_bytes. repeat case_match; try done; by intros [= <-]. }
  rewrite (bind_done _ _ _ _ _ Hrun), bind_ret. destruct (Z.ltb_spec 0 rc) as [Hpos|Hneg].
  - cbn [padd]. replace (o + zlen w + rc) with (o + zlen (w ++ bs))
      by (rewrite length_app, Nat2Z.inj_add; lia).
    rewrite IH; [|done|lia|lia|rewrite length_app, Nat2Z.inj_add; lia]. rewrite Hworld, Hptr. cbn.
    destruct (gather n (remaining - rc) len e1) as [[[r more] e2]|]; [|done]. by rewrite app_assoc.
  - unfold ret. rewrite <- Hw2. destruct s2 as [m2 p2 w2]. cbn in *. by subst.
Qed.
End Reads.

(** ** The contract of platforms *)

Section Contract.
Context `{NsapiErrors} {C E A Timer D : Type} `{SS : SocketSpec E A D}.
Context `{!Timers C E Timer} `{TS : !TimersSpec C E Timer D} `{!Handlers E D} `{HS : !HandlersSpec E D}.
Abbreviation PL := (mbed_platform (C := C) (E := E) (Timer := Timer) (D := D)).

Lemma mbed_read_run n t (s : state (world_of C E)) :
  0 < n -> exists rc bs e', mqttread (Platform := PL) n t s =
      Done (rc, bs) (State (mem s) (bufptr s) (World (client (world s)) e')) /\
    net_in (env (world s)) = bs ++ net_in e' /\ net_out e' = net_out (env (world s)) /\
    delivered e' = delivered (env (world s)) /\
    ((rc = n /\ zlen bs = n) \/
     (exists err, err <= 0 /\ rc = convert_nsapi_error_to_mqtt_error err /\ zlen bs < n)).
Proof.
  intros Hn. cbn [mqttread mbed_platform]. unfold mbed_mqttread. set (e1 := (sock_set_timeout _ _).2).
  destruct (gather_run (S (Z.to_nat n)) n n e1 ltac:(lia)) as (rc & bs & e' & -> & Hin & Hout & Hdel & Hres).
  destruct (set_timeout_spec t (env (world s))) as (Hi & Ho & Hd). exists rc, bs, e'.
  split_and!; [done| | | |done]; unfold e1 in *; congruence.
Qed.

Lemma mbed_platform_contract : PlatformSpec C E Timer D (H := PL).
Proof.
  split.
  1-5: intros; cbn; by (apply tm_init_spec || apply tm_expired_spec || apply tm_countdown_ms_spec ||
    apply tm_countdown_spec || apply tm_left_ms_spec).
  - intros n t s Hn. destruct (mbed_read_run n t s Hn) as (rc & bs & e' & -> & Hin & Hout & Hdel & Hres).
    exists rc, bs. eexists. split; [done|]. cbn.
    assert (rc = n /\ zlen bs = n \/ rc <= 0 /\ zlen bs < n) as Hcase.
    { destruct Hres as [?|(err & ? & -> & ?)]; [by left|right]. split; [by apply convert_nonpos|done]. }
    split_and!; try done; lia.
  - intros bs t s. cbn [mqttwrite mbed_platform]. unfold mbed_mqttwrite.
    erewrite bind_done by apply on_env_run. erewrite bind_done by apply on_env_run. cbn [env world client mem].
    pose proof (set_timeout_spec t (env (world s))) as Hquiet.
    destruct (sock_set_timeout t (env (world s))) as [[] e1]. cbn [snd] in *. destruct Hquiet as (Hi & Ho & Hd).
    pose proof (send_spec bs e1) as Hsend. destruct (sock_send bs e1) as [rc e2].
    destruct Hsend as (Hle & Hi2 & Ho2 & Hd2). cbn [fst snd].
    set (rc' := if 0 <? rc then rc else _).
    assert (Hrc : rc' <= zlen bs /\ Z.to_nat rc' = Z.to_nat rc).
    { subst rc'. destruct (Z.ltb_spec 0 rc); [lia|]. pose proof (convert_nonpos rc). lia. }
    exists rc'. eexists. split; [done|]. destruct Hrc as [? ->]. cbn. split_and!; try done; congruence.
  - intros f md s. cbn [call_handler mbed_platform]. rewrite on_env_run.
    pose proof (handle_spec f md (env (world s))) as Hh. destruct (handle f md (env (world s))) as [[] e1].
    destruct Hh as (?&?&?). eexists. split; [done|]. cbn. by split_and!.
Qed.

(** The functions the clients call with a pointer are those of the network. *)
Lemma mbed_net_read b o l len t (s : state (world_of C E)) :
  mem s !! b = Some l -> 0 <= o -> 0 <= len -> o + len <= zlen l ->
  accumulate_mqtt_read (Ptr b o) len t s = net_read (H := PL) (Ptr b o) len t s.
Proof.
  intros Hb Ho Hlen Hroom. unfold accumulate_mqtt_read, net_read.
  erewrite bind_done by apply on_env_run. cbn [mqttread mbed_platform]. unfold mbed_mqttread, bind.
  set (e1 := (sock_set_timeout _ _).2). set (s1 := State _ _ _).
  assert (Hw : written (mem s) b l o [] s1) by (unfold written; cbn; by rewrite splice_nil, insert_id).
  replace (Ptr b o) with (Ptr b (o + zlen (@nil byte))) by (f_equal; cbn; lia).
  rewrite (accumulate_gather _ (mem s) b l o [] len len s1 Hw) by (cbn; lia).
  cbn [env world s1 client bufptr].
  destruct (gather_run (S (Z.to_nat len)) len len e1 ltac:(lia))
    as (rc & bs & e' & -> & _ & _ & _ & Hres).
  assert (Hbs : zlen bs <= len) by (destruct Hres as [?|(?&?&?&?)]; lia).
  set (s2 := State (mem s) (bufptr s) _).
  destruct (store_bytes_written (mem s) b l o [] bs s2) as (s3 & Hrun & Hw3 & Hworld);
    [unfold written; cbn; by rewrite splice_nil, insert_id|done|cbn; lia|].
  assert (Hptr : bufptr s3 = bufptr s2).
  { revert Hrun. unfold store_bytes. repeat case_match; try done; by intros [= <-]. }
  rewrite Hrun. unfold ret. unfold written in Hw3. destruct s3 as [m3 p3 w3]. cbn in *. by subst.
Qed.

Lemma mbed_net_write p len t (s : state (world_of C E)) :
  mqtt_write p len t s = net_write (H := PL) p len t s.
Proof.
  unfold mqtt_write, net_write. cbn [mqttwrite mbed_platform]. unfold mbed_mqttwrite, bind.
  rewrite on_env_run. unfold load_bytes. cbn [mem]. destruct p as [|b o]; [done|].
  destruct (mem s !! b); [|done]. destruct ((0 <=? o) && _); [|done].
  rewrite !on_env_run. by destruct (0 <? _).
Qed.
End Contract.

(** A socket on which nothing fails: recv comes back with at least one byte while
    bytes are to come, send takes all it is given. *)
Class Attentive (E A D : Type) `{Socket E A} `{Observed E D} : Prop := {
  recv_some n e : 0 < n -> net_in e <> [] -> 0 < (sock_recv n e).1.1;
  send_whole bs e : (sock_send bs e).1 = zlen bs
}.

(** A send that cannot take anything does not come back empty-handed. *)
Class Sending (E A : Type) `{NsapiErrors} `{Socket E A} : Prop :=
  send_blocks bs e : bs <> [] -> (sock_send bs e).1 <> NSAPI_ERROR_WOULD_BLOCK.

Class Patient (C E Timer : Type) `{Timers C E Timer} : Prop :=
  tm_never t s e s' : tm_expired t s = Done e s' -> e = false.

Section Behaviour.
Context `{NsapiErrors} {C E A Timer D : Type} `{SS : SocketSpec E A D}.
Context `{!Timers C E Timer} `{TS : !TimersSpec C E Timer D} `{!Handlers E D} `{HS : !HandlersSpec E D}.
Abbreviation PL := (mbed_platform (C := C) (E := E) (Timer := Timer) (D := D)).

(** However recv cuts the stream, a read is filled. *)
Lemma gather_full `{!Attentive E A D} n remaining len e :
  0 <= remaining < Z.of_nat n -> remaining <= zlen (net_in e) ->
  exists bs e', gather n remaining len e = Some (len, bs, e').
Proof.
  revert remaining e. induction n as [|n IH]; intros remaining e Hr Hin; [lia|]. cbn [gather].
  destruct (Z.eqb_spec remaining 0) as [->|Hne]; [by do 2 eexists|].
  pose proof (recv_spec remaining e ltac:(lia)) as Hrecv.
  assert (Hsome : 0 < (sock_recv remaining e).1.1).
  { apply recv_some; [lia|]. intros Hnil. rewrite Hnil in Hin. cbn in Hin. lia. }
  destruct (sock_recv remaining e) as [[rc bs] e1]. cbn [fst] in Hsome. destruct Hrecv as (Hle & Hbs & Heq & _).
  test_true (0 <? rc). rewrite Heq, length_app, Nat2Z.inj_add in Hin.
  destruct (IH (remaining - rc) e1) as (more & e2 & ->); [lia|lia|]. by do 2 eexists.
Qed.

Lemma mbed_responsive `{!Attentive E A D} `{!Patient C E Timer} : Responsive C E Timer D (H := PL).
Proof.
  split.
  - intros t s e s'. apply tm_never.
  - intros n t s rc bs s' Hn Hlen. cbn [mqttread mbed_platform]. unfold mbed_mqttread.
    set (e1 := (sock_set_timeout _ _).2).
    destruct (set_timeout_spec t (env (world s))) as (Hi & _). fold e1 in Hi.
    destruct (gather_full (S (Z.to_nat n)) n n e1) as (bs' & e' & ->); [lia|by rewrite Hi|]. by intros [= <- _ _].
  - intros bs t s rc s' Hne. cbn [mqttwrite mbed_platform]. unfold mbed_mqttwrite.
    erewrite bind_done by apply on_env_run. erewrite bind_done by apply on_env_run. cbn [env world].
    unfold ret. intros [= <- _]. rewrite send_whole. destruct bs; [done|]. by test_true (0 <? zlen (b :: bs)).
Qed.

Lemma mbed_progress `{!Sending E A} : Progress C E Timer D (H := PL).
Proof.
  intros bs t s rc s'. cbn [mqttwrite mbed_platform]. unfold mbed_mqttwrite.
  erewrite bind_done by apply on_env_run. erewrite bind_done by apply on_env_run. cbn [env world].
  unfold ret. intros [= <- _] Hne. set (r := (sock_send _ _).1).
  assert (Hr : r <> NSAPI_ERROR_WOULD_BLOCK) by by apply send_blocks.
  unfold convert_nsapi_error_to_mqtt_error. repeat case_test; lia.
Qed.

(** On a view: the whole, or an error. *)
Lemma total_mbed_read {U} `{Untimed C U} (v : view U D) n t :
  0 < n -> total v (mqttread (Platform := PL) n t) (fun r w => exists tl,
    v_in v = r.2 ++ tl /\ w = set_v_in v tl /\ ((r.1 = n /\ zlen r.2 = n) \/ (r.1 <= 0 /\ zlen r.2 < n))).
Proof.
  intros Hn s <-. destruct (mbed_read_run n t s Hn) as (rc & bs & e' & Hrun & Hin & Hout & Hdel & Hres).
  eexists (rc, bs), _. split; [exact Hrun|]. exists (net_in e'). split_and!; [done| |].
  - unfold see. cbn. by rewrite Hout, Hdel.
  - destruct Hres as [?|(err & ? & -> & ?)]; [by left|right]. split; [by apply convert_nonpos|done].
Qed.
End Behaviour.

(** ** Properties *)

Section NetworkProperties.
Context `{NsapiErrors} {C E A T D : Type} `{SS : SocketSpec E A D}.
Context `{!MbedTimer E T} `{TS : !MbedTimerSpec E T D} `{!Handlers E D} `{HS : !HandlersSpec E D}.
Abbreviation MC := (M (world_of C E)).
#[local] Existing Instance countdown_timers.

(** C18: The network layer over sockets and timers that behave as documented is a
    platform in the sense of the clients' contract, and its read and write are the
    functions the clients are verified with, memory and results included. *)
Theorem mbed_network_refines :
  PlatformSpec C E (Countdown T) D (H := mbed_platform) /\
  (forall b o l len t (s : state (world_of C E)),
     mem s !! b = Some l -> 0 <= o -> 0 <= len -> o + len <= zlen l ->
     MQTTNetworkMbedOs_read (Ptr b o) len t s =
       net_read (H := mbed_platform (Timer := Countdown T) (D := D)) (Ptr b o) len t s) /\
  (forall p len t (s : state (world_of C E)),
     MQTTNetworkMbedOs_write p len t s =
       net_write (H := mbed_platform (Timer := Countdown T) (D := D)) p len t s).
Proof.
  split; [exact mbed_platform_contract|]. split; [exact mbed_net_read|exact mbed_net_write].
Qed.

(** accumulate_mqtt_read stores what it takes from the network at the start of
    the buffer and nowhere else.  It takes and returns the length it was asked
    for, or returns the translated error of the call of recv that gave nothing; the
    bytes taken by then, fewer than asked for, are gone from the network.  On a socket that
    gives something whenever something is to come, in pieces of any size, the read is whole. *)
Theorem accumulate_spec b o l len t (s : state (world_of C E)) :
  mem s !! b = Some l -> 0 <= o -> 0 < len -> o + len <= zlen l ->
  exists rc bs e,
    accumulate_mqtt_read (Ptr b o) len t s =
      Done rc (State (<[b := splice l o bs]> (mem s)) (bufptr s) (World (client (world s)) e)) /\
    net_in (env (world s)) = bs ++ net_in e /\ net_out e = net_out (env (world s)) /\
    ((rc = len /\ zlen bs = len) \/
     (exists err, err <= 0 /\ rc = convert_nsapi_error_to_mqtt_error err /\ zlen bs < len)) /\
    (Attentive E A D -> len <= zlen (net_in (env (world s))) -> rc = len).
Proof.
  intros Hb Ho Hlen Hroom. unfold accumulate_mqtt_read. erewrite bind_done by apply on_env_run.
  set (e1 := (sock_set_timeout _ _).2). set (s1 := State _ _ _).
  destruct (set_timeout_spec t (env (world s))) as (Hi & Ho1 & _). fold e1 in Hi, Ho1.
  assert (Hw : written (mem s) b l o [] s1) by (unfold written; cbn; by rewrite splice_nil, insert_id).
  replace (Ptr b o) with (Ptr b (o + zlen (@nil byte))) by (f_equal; cbn; lia).
  rewrite (accumulate_gather _ (mem s) b l o [] len len s1 Hw) by (cbn; lia).
  cbn [env world s1 client bufptr app].
  destruct (gather_run (S (Z.to_nat len)) len len e1 ltac:(lia)) as (rc & bs & e' & Hrun & Hin & Hout & _ & Hres).
  rewrite Hrun. exists rc, bs, e'. split_and!; [done|congruence|congruence|done|].
  intros HA Hmore. destruct (gather_full (S (Z.to_nat len)) len len e1) as (bs2 & e2 & Hfull); [lia|by rewrite Hi|].
  congruence.
Qed.
End NetworkProperties.

(** The arithmetic of Countdown on machine integers. *)
Section CountdownProperties.
Context {C E T D : Type} `{MbedTimer E T}.
Implicit Types (t : Countdown T) (s : state (world_of C E)).

(** C19: With [r] the milliseconds the Timer shows: a countdown that was started
    for [ms] has expired exactly when [r] has reached [ms], and has [ms - r] left, as
    long as both fit an int, so that what is left is negative once the time is over; a
    countdown of seconds is exact up to 4294967 seconds. *)
Theorem countdown_spec t n s t' s1 s2 r :
  Countdown_countdown_ms t n s = Done t' s1 -> 0 <= n <= INT_MAX ->
  (timer_read_ms (cd_t t') (env (world s2))).1 = r -> 0 <= r <= INT_MAX ->
  (exists s3, Countdown_expired t' s2 = Done (n <=? r) s3) /\
  (exists s3, Countdown_left_ms t' s2 = Done (n - r) s3) /\
  (forall seconds, 0 <= seconds <= 4294967 ->
     Countdown_countdown t seconds s = Countdown_countdown_ms t (1000 * seconds) s).
Proof.
  unfold INT_MAX. intros Hrun Hn Hr Hrange. unfold Countdown_countdown_ms in Hrun. cbv zeta in Hrun.
  do 3 (erewrite bind_done in Hrun by apply on_env_run). injection Hrun as <- _. cbn [cd_t] in Hr.
  unfold Countdown_expired, Countdown_left_ms. cbn [cd_t cd_interval_end_ms].
  assert (Hu : forall z, 0 <= z <= 2147483647 -> u32 z = z) by (intros; unfold u32; apply Z.mod_small; lia).
  split_and!.
  - erewrite bind_done by apply on_env_run. rewrite Hr, !Hu by lia. by eexists.
  - erewrite bind_done by apply on_env_run. rewrite Hr, !Hu by lia. eexists. unfold ret. f_equal.
    unfold i32. rewrite Z.mod_small by lia. lia.
  - intros seconds Hs. unfold Countdown_countdown. f_equal.
    assert (Hs1 : u32 seconds = seconds) by (unfold u32; apply Z.mod_small; lia). rewrite Hs1.
    unfold u32. rewrite Z.mod_small by lia. lia.
Qed.
End CountdownProperties.

(** Connecting: what the classes do with the results of the socket. *)
Section Connecting.
Context `{NsapiErrors} {C E A : Type} `{Socket E A}.
Implicit Types s : state (world_of C E).

(** A failing open or name service ends MQTTNetwork::connect; the error of the name
    service is replaced. *)
Lemma network_connect_errors hostname port s :
  let '(rc1, e1) := sock_open (env (world s)) in
  let '(rc2, addr, e2) := gethostbyname hostname SocketAddress e1 in
  let after e := State (mem s) (bufptr s) (World (client (world s)) e) in
  MQTTNetwork_connect hostname port s =
    if decide (rc1 = NSAPI_ERROR_OK) then
      if decide (rc2 = NSAPI_ERROR_OK) then on_env (sock_connect (set_port addr port)) (after e2)
      else Done NSAPI_ERROR_DNS_FAILURE (after e2)
    else Done rc1 (after e1).
Proof.
  unfold MQTTNetwork_connect, bind, on_env. destruct (sock_open (env (world s))) as [rc1 e1].
  cbn [env world client mem bufptr].
  destruct (gethostbyname hostname SocketAddress e1) as [[rc2 addr] e2] eqn:Hg. cbv zeta.
  destruct (Z.eqb_spec rc1 NSAPI_ERROR_OK) as [->|]; cbn [negb].
  2: { by rewrite decide_False. }
  rewrite decide_True by done. cbn [env world client mem bufptr]. rewrite Hg.
  destruct (Z.eqb_spec rc2 NSAPI_ERROR_OK) as [->|]; cbn [negb];
    [by rewrite decide_True|by rewrite decide_False].
Qed.

(** MQTTSNNetworkUDP::connect goes on after a failing open. *)
Lemma udp_connect_ignores_open hostname port s :
  let '(_, e1) := sock_open (env (world s)) in
  MQTTSNNetworkUDP_connect hostname port s =
    on_env (sock_connect (SocketAddress_of hostname port))
      (State (mem s) (bufptr s) (World (client (world s)) e1)).
Proof. unfold MQTTSNNetworkUDP_connect, bind, on_env. by destruct (sock_open (env (world s))). Qed.
End Connecting.

(** ** A concrete socket

    A stream that is handed out in pieces of at most [piece] bytes, and a Timer that stands still. *)

Section StreamSocket.
Context {D : Type}.
Variable piece : Z.

Definition mbed_errors : NsapiErrors := {|
  NSAPI_ERROR_OK := 0; NSAPI_ERROR_WOULD_BLOCK := -3001; NSAPI_ERROR_NO_CONNECTION := -3004;
  NSAPI_ERROR_UNSUPPORTED := -3002; NSAPI_ERROR_DNS_FAILURE := -3009
|}.

Definition stream_socket : Socket (bench D) unit := {|
  sock_open e := (0, e);
  sock_connect _ e := (0, e);
  sock_close e := (0, e);
  sock_set_timeout _ e := (tt, e);
  sock_recv n e :=
    let k := Z.to_nat (Z.min n piece) in
    (if zlen (take k (pe_in e)) =? 0 then -3001 else zlen (take k (pe_in e)), take k (pe_in e),
     {| pe_in := drop k (pe_in e); pe_out := pe_out e; pe_delivered := pe_delivered e |});
  sock_send bs e :=
    (zlen bs, {| pe_in := pe_in e; pe_out := pe_out e ++ bs; pe_delivered := pe_delivered e |});
  set_root_ca_cert _ e := (0, e);
  set_client_cert_key _ _ e := (0, e);
  gethostbyname _ a e := (0, a, e);
  SocketAddress := tt;
  SocketAddress_of _ _ := tt;
  set_port a _ := a
|}.

Definition still_timer : MbedTimer (bench D) unit := {|
  timer_new e := (tt, e); timer_start t e := (t, e); timer_stop t e := (t, e); timer_reset t e := (t, e);
  timer_read_ms _ e := (0, e)
|}.

Definition bench_handlers : Handlers (bench D) D := fun f md e =>
  (tt, {| pe_in := pe_in e; pe_out := pe_out e; pe_delivered := pe_delivered e ++ [(f, md)] |}).

Lemma stream_socket_spec : SocketSpec (bench D) unit D (H := stream_socket).
Proof.
  split; cbn.
  - done.
  - intros n e Hn. rewrite length_take. split_and!; [|case_test; lia|by rewrite take_drop|done|done].
    case_test; lia.
  - intros bs e. rewrite Nat2Z.id, firstn_all. split_and!; try done.
Qed.

Lemma stream_socket_attentive : 0 < piece -> Attentive (bench D) unit D (H := stream_socket).
Proof.
  intros Hp. split; cbn.
  - intros n e Hn Hne. rewrite length_take. destruct (pe_in e); [done|]. cbn [length]. case_test; lia.
  - done.
Qed.

Lemma still_timer_spec : MbedTimerSpec (bench D) unit D (H := still_timer).
Proof. by split. Qed.

Lemma bench_handlers_spec : HandlersSpec (bench D) D (H := bench_handlers).
Proof. done. Qed.
End StreamSocket.

Section NetworkWitnesses.
#[local] Existing Instances mbed_errors still_timer bench_handlers still_timer_spec bench_handlers_spec.
#[local] Instance ex_socket : Socket (bench unit) unit := stream_socket 2.
#[local] Instance ex_socket_spec : SocketSpec (bench unit) unit unit := stream_socket_spec 2.

(* block 1: a buffer of six bytes; seven bytes to come *)
Definition ex_net_state : state (world_of unit (bench unit)) :=
  plain_state [replicate 6 (byte_of_Z 9)] tt (bytes [1; 2; 3; 4; 5; 6; 7]).

Lemma mbed_network_refines_witness :
  MQTTNetworkMbedOs_read (Ptr 1 1) 5 10 ex_net_state =
    net_read (H := mbed_platform (H1 := countdown_timers)) (Ptr 1 1) 5 10 ex_net_state.
Proof.
  destruct (mbed_network_refines (C := unit) (T := unit) (D := unit)) as (_ & Hread & _).
  apply (Hread 1%positive 1 (replicate 6 (byte_of_Z 9))); [done|lia|lia|done].
Defined.

Lemma accumulate_spec_witness :
  exists s', accumulate_mqtt_read (Ptr 1 1) 5 10 ex_net_state = Done 5 s' /\
    net_in (env (world s')) = bytes [6; 7].
Proof.
  destruct (accumulate_spec (D := unit) 1 1 (replicate 6 (byte_of_Z 9)) 5 10 ex_net_state)
    as (rc & bs & e & Hrun & Hin & _ & Hres & Hfull); [done|lia|lia|done|].
  assert (rc = 5) as -> by (apply Hfull; [by apply stream_socket_attentive|done]).
  eexists. split; [exact Hrun|]. cbn. destruct Hres as [[_ Hbs]|(err & ? & ? & ?)].
  - change (net_in (env (world ex_net_state))) with (bytes [1; 2; 3; 4; 5; 6; 7]) in Hin.
    assert (bs = bytes [1; 2; 3; 4; 5]) as ->.
    { transitivity (take 5 (bs ++ net_in e)); [|by rewrite <- Hin].
      by rewrite take_app_length' by lia. }
    symmetry. exact (app_inv_head (bytes [1; 2; 3; 4; 5]) (bytes [6; 7]) _ Hin).
  - pose proof (convert_nonpos err). lia.
Defined.

(* a Timer that shows 40 ms *)
Definition slow_timer : MbedTimer (bench unit) unit := {|
  timer_new e := (tt, e); timer_start t e := (t, e); timer_stop t e := (t, e); timer_reset t e := (t, e);
  timer_read_ms _ e := (40, e)
|}.

Lemma countdown_spec_witness :
  exists t' s', Countdown_countdown_ms (H := slow_timer) (Build_Countdown tt 7) 30 ex_net_state = Done t' s' /\
    (exists s3, Countdown_expired (H := slow_timer) t' s' = Done true s3) /\
    (exists s3, Countdown_left_ms (H := slow_timer) t' s' = Done (-10) s3).
Proof.
  exists (Build_Countdown tt 30), ex_net_state. split; [done|].
  destruct (countdown_spec (H := slow_timer) (Build_Countdown tt 7) 30 ex_net_state (Build_Countdown tt 30)
    ex_net_state ex_net_state 40) as (He & Hl & _); [done|unfold INT_MAX; lia|done|unfold INT_MAX; lia|].
  split; [exact He|exact Hl].
Defined.
End NetworkWitnesses.
