(* ===== verification/MbedClient.v ===== *)
(** * MQTTClientMbedOs: the client class of Mbed OS

    The class MQTTClient of src/MQTTClientMbedOs.h and src/MQTTClientMbedOs.cpp.  It owns a network
    object and, depending on the type of the socket it was made for, one of the two clients
    of the Paho library, whose pointers tell every operation which protocol is spoken.
    The clients run on the network layer of MbedNet.  A member function [f] is
    [MbedClient_f] here, an overload for MQTT-SN [MbedClient_f_sn]; [mbed_connect_spec]
    goes from the constructor through client, packets and network layer to the
    bytes on the socket. *)

From S2P Require Import Prelude CMem MQTTPacket MQTTPublish MQTTConnect MQTTSubscribe PacketRead.
From S2P Require Import Platform MQTTClient Exchange CppClient CppLogic CppHandlers CppCycle CppOps CppProps.
From S2P Require Import SNPacket SNPublish SNConnect SNClient SNClientLogic MbedNet.

(** The overloads of the constructor. *)
Inductive SocketType := TCPSocket | TLSSocket | UDPSocket | DTLSSocket.

(** MQTTNetworkMbedOs, which keeps the socket. *)
Record MQTTNetworkMbedOs := { net_socket : SocketType }.

(** The object; [None] is the null pointer.  The member [net] is never used. *)
Record MbedClient (T : Type) := {
  m_socket : SocketType;
  m_mqttNet : option MQTTNetworkMbedOs;
  m_client : option (ClientObject T);
  m_clientSN : option (SNClient T)
}.
Arguments Build_MbedClient {T} _ _ _ _.
Arguments m_socket {T} _.
Arguments m_mqttNet {T} _.
Arguments m_client {T} _.
Arguments m_clientSN {T} _.

Section Members.
Context {T : Type}.
Implicit Types m : MbedClient T.

Definition set_m_mqttNet m n := Build_MbedClient (m_socket m) n (m_client m) (m_clientSN m).
Definition set_m_client m c := Build_MbedClient (m_socket m) (m_mqttNet m) c (m_clientSN m).
Definition set_m_clientSN m c := Build_MbedClient (m_socket m) (m_mqttNet m) (m_client m) c.
End Members.

(** ** Calls through a pointer *)

Section Member.
Context {O C E : Type} (get : O -> option C) (put : O -> option C -> O).

(** The state a member function of the object behind the pointer runs in. *)
Definition inner (s : state (world_of O E)) (c : C) : state (world_of C E) :=
  State (mem s) (bufptr s) (World c (env (world s))).

(** [p->f()], the call [f] acting on the object behind [p]. *)
Definition through {R} (f : M (world_of C E) R) : M (world_of O E) R := fun s =>
  match get (client (world s)) with
  | None => Fault OutOfBounds
  | Some c =>
      match f (inner s c) with
      | Done r s' =>
          Done r (State (mem s') (bufptr s') (World (put (client (world s)) (Some (client (world s')))) (env (world s'))))
      | Fault e => Fault e
      end
  end.

Hypothesis get_put : forall o c, get (put o c) = c.

Lemma through_total {U D R} `{Observed E D} `{Untimed C U} (s : state (world_of O E)) c (v : view U D)
    (f : M (world_of C E) R) Q :
  get (client (world s)) = Some c -> see (inner s c) = v -> total v f Q ->
  exists r s' c', through f s = Done r s' /\ get (client (world s')) = Some c' /\ Q r (see (inner s' c')) /\
    client (world s') = put (client (world s)) (Some c').
Proof.
  intros Hget Hv Hf. destruct (Hf (inner s c) Hv) as (r & s1 & Hrun & HQ). unfold through. rewrite Hget, Hrun.
  do 3 eexists. split; [done|]. cbn. rewrite get_put. split_and!; [done| |done]. by destruct s1 as [? ? []].
Qed.

Lemma through_put {R} (f : M (world_of C E) R) s r s' :
  through f s = Done r s' ->
  exists c c', get (client (world s)) = Some c /\ client (world s') = put (client (world s)) (Some c').
Proof.
  unfold through. destruct (get (client (world s))) as [c|]; [|done]. destruct (f (inner s c)); [|done].
  intros [= _ <-]. by exists c, (client (world s0)).
Qed.
End Member.

(** ** The operations *)

Section MbedClient.
Context `{ClientParams} `{NsapiErrors} {E A Timer : Type} `{Socket E A}.
Context `{!Timers (ClientObject Timer) E Timer} `{!Timers (SNClient Timer) E Timer}.
Context `{!Handlers E MessageData} `{!Handlers E SNMessageData} `{CharSign} `{ByteOrder}.
Variables (fuel : nat) (no_timer : Timer) (uninit : Z).
Abbreviation MW := (M (world_of (MbedClient Timer) E)).

#[local] Instance client_platform : Platform (ClientObject Timer) E Timer MessageData := mbed_platform.
#[local] Instance clientSN_platform : Platform (SNClient Timer) E Timer SNMessageData := mbed_platform.

Definition on_client {R} : M (oworld E Timer) R -> MW R := through m_client set_m_client.
Definition on_clientSN {R} : M (snworld E Timer) R -> MW R := through m_clientSN set_m_clientSN.

Definition MbedClient_init (sock : SocketType) : MW unit :=
  update_client (fun m => Build_MbedClient sock (m_mqttNet m) None None).

(** The four constructors: [new] of a client finds the memory as [object] and [objectSN]. *)
Definition MbedClient_new (sock : SocketType) (object : ClientObject Timer) (objectSN : SNClient Timer) : MW unit :=
  MbedClient_init sock ;;;
  update_client (fun m => set_m_mqttNet m (Some {| net_socket := m_socket m |})) ;;;
  match sock with
  | TCPSocket | TLSSocket =>
      update_client (fun m => set_m_client m (Some object)) ;;; on_client (Client_new no_timer 30000)
  | UDPSocket | DTLSSocket =>
      update_client (fun m => set_m_clientSN m (Some objectSN)) ;;; on_clientSN (SNClient_new no_timer 30000)
  end.

(** The destructor: the three objects are gone. *)
Definition MbedClient_delete : MW unit :=
  update_client (fun m => set_m_mqttNet m None) ;;;
  let* m := get_client in
  (match m_client m with Some _ => update_client (fun m => set_m_client m None) | None => ret tt end) ;;;
  match m_clientSN m with Some _ => update_client (fun m => set_m_clientSN m None) | None => ret tt end.

(** [ret < 0 ? NSAPI_ERROR_NO_CONNECTION : ret] *)
Definition no_connection_if_negative (rc : Z) : Z := if rc <? 0 then NSAPI_ERROR_NO_CONNECTION else rc.

(** The pattern of the operations: the guard, the call, the result. *)
Definition with_client (f : M (oworld E Timer) Z) : MW Z :=
  let* m := get_client in
  match m_client m with
  | None => ret NSAPI_ERROR_NO_CONNECTION
  | Some _ => let* rc := on_client f in ret (no_connection_if_negative rc)
  end.
Definition with_clientSN (f : M (snworld E Timer) Z) : MW Z :=
  let* m := get_client in
  match m_clientSN m with
  | None => ret NSAPI_ERROR_NO_CONNECTION
  | Some _ => let* rc := on_clientSN f in ret (no_connection_if_negative rc)
  end.

Definition MbedClient_connect (options : MQTTPacket_connectData) : MW Z :=
  with_client (Client_connect_options fuel no_timer uninit options).
Definition MbedClient_connect_sn (options : MQTTSNPacket_connectData) : MW Z :=
  with_clientSN (SNClient_connect fuel no_timer uninit options).

Definition MbedClient_publish (topicName : ptr) (message : MQTTMessage) : MW Z :=
  with_client (Client_publish_message fuel no_timer uninit topicName message).
Definition MbedClient_publish_sn (topicName : positive) (message : MQTTMessage) : MW Z :=
  with_clientSN (SNClient_publish_message fuel no_timer uninit topicName message).

Definition MbedClient_subscribe (topicFilter : ptr) (qos : Z) (mh : messageHandler) : MW Z :=
  with_client (Client_subscribe_plain fuel no_timer uninit topicFilter qos mh).
Definition MbedClient_subscribe_sn (topicFilter : positive) (qos : Z) (mh : messageHandler) : MW Z :=
  with_clientSN (SNClient_subscribe fuel no_timer uninit topicFilter qos mh).

Definition MbedClient_unsubscribe (topicFilter : ptr) : MW Z :=
  with_client (Client_unsubscribe fuel no_timer uninit topicFilter).
Definition MbedClient_unsubscribe_sn (topicFilter : positive) : MW Z :=
  with_clientSN (SNClient_unsubscribe fuel no_timer uninit topicFilter).

Definition MbedClient_yield (timeout_ms : Z) : MW Z :=
  let* m := get_client in
  match m_client m, m_clientSN m with
  | Some _, _ => let* rc := on_client (Client_yield fuel no_timer uninit timeout_ms) in ret (no_connection_if_negative rc)
  | None, Some _ =>
      let* rc := on_clientSN (SNClient_yield fuel no_timer uninit timeout_ms) in ret (no_connection_if_negative rc)
  | None, None => ret NSAPI_ERROR_NO_CONNECTION
  end.

Definition MbedClient_disconnect : MW Z :=
  let* m := get_client in
  match m_client m, m_clientSN m with
  | Some _, _ => let* rc := on_client (Client_disconnect fuel no_timer) in ret (no_connection_if_negative rc)
  | None, Some _ =>
      let* rc := on_clientSN (SNClient_disconnect fuel no_timer 0) in ret (no_connection_if_negative rc)
  | None, None => ret NSAPI_ERROR_NO_CONNECTION
  end.

Definition MbedClient_isConnected : MW bool :=
  let* m := get_client in
  match m_client m, m_clientSN m with
  | None, None | Some _, Some _ => ret false
  | Some _, None => on_client Client_isConnected
  | None, Some _ => on_clientSN SNClient_isConnected
  end.

(** The second branch, too, calls the MQTT client. *)
Definition MbedClient_setDefaultMessageHandler (mh : messageHandler) : MW unit :=
  let* m := get_client in
  match m_client m, m_clientSN m with
  | Some _, _ => on_client (Client_setDefaultMessageHandler mh)
  | None, Some _ => on_client (Client_setDefaultMessageHandler mh)
  | None, None => ret tt
  end.

Definition MbedClient_setMessageHandler (topicFilter : ptr) (mh : messageHandler) : MW Z :=
  let* m := get_client in
  match m_clientSN m, m_client m with
  | Some _, _ => ret NSAPI_ERROR_UNSUPPORTED
  | None, None => ret NSAPI_ERROR_NO_CONNECTION
  | None, Some _ => on_client (Client_setMessageHandler topicFilter mh)
  end.

(** ** Histories of an object

    The calls of an application between constructor and destructor; between them
    memory, network and time are free to change. *)

Inductive MbedCall :=
  | CallConnect (options : MQTTPacket_connectData)
  | CallConnectSN (options : MQTTSNPacket_connectData)
  | CallPublish (topicName : ptr) (message : MQTTMessage)
  | CallPublishSN (topicName : positive) (message : MQTTMessage)
  | CallSubscribe (topicFilter : ptr) (qos : Z) (mh : messageHandler)
  | CallSubscribeSN (topicFilter : positive) (qos : Z) (mh : messageHandler)
  | CallUnsubscribe (topicFilter : ptr)
  | CallUnsubscribeSN (topicFilter : positive)
  | CallYield (timeout_ms : Z)
  | CallDisconnect
  | CallIsConnected
  | CallSetDefault (mh : messageHandler)
  | CallSetHandler (topicFilter : ptr) (mh : messageHandler).

Definition perform (call : MbedCall) : MW Z :=
  match call with
  | CallConnect o => MbedClient_connect o
  | CallConnectSN o => MbedClient_connect_sn o
  | CallPublish t msg => MbedClient_publish t msg
  | CallPublishSN t msg => MbedClient_publish_sn t msg
  | CallSubscribe f q mh => MbedClient_subscribe f q mh
  | CallSubscribeSN f q mh => MbedClient_subscribe_sn f q mh
  | CallUnsubscribe f => MbedClient_unsubscribe f
  | CallUnsubscribeSN f => MbedClient_unsubscribe_sn f
  | CallYield t => MbedClient_yield t
  | CallDisconnect => MbedClient_disconnect
  | CallIsConnected => let* b := MbedClient_isConnected in ret (Z.b2z b)
  | CallSetDefault mh => MbedClient_setDefaultMessageHandler mh ;;; ret 0
  | CallSetHandler f mh => MbedClient_setMessageHandler f mh
  end.

Inductive mbed_reach (sock : SocketType) : state (world_of (MbedClient Timer) E) -> Prop :=
  | reach_new s object objectSN s' : MbedClient_new sock object objectSN s = Done tt s' -> mbed_reach sock s'
  | reach_call s call rc s' : mbed_reach sock s -> perform call s = Done rc s' -> mbed_reach sock s'
  | reach_app s s' : mbed_reach sock s -> client (world s') = client (world s) -> mbed_reach sock s'.
End MbedClient.

(** ** Which protocol an object speaks *)

Definition speaks_mqtt (sock : SocketType) : bool :=
  match sock with TCPSocket | TLSSocket => true | UDPSocket | DTLSSocket => false end.

(** The client of the protocol is there, the other one is not, and the network
    object has the socket. *)
Definition well_formed {T} (sock : SocketType) (m : MbedClient T) : Prop :=
  m_socket m = sock /\ m_mqttNet m = Some {| net_socket := sock |} /\
  if speaks_mqtt sock then (exists c, m_client m = Some c) /\ m_clientSN m = None
  else m_client m = None /\ exists c, m_clientSN m = Some c.

(** The operations of the protocol a client does not speak, and their answer. *)
Definition foreign `{NsapiErrors} (sock : SocketType) (call : MbedCall) : option Z :=
  match call with
  | CallConnect _ | CallPublish _ _ | CallSubscribe _ _ _ | CallUnsubscribe _ =>
      if speaks_mqtt sock then None else Some NSAPI_ERROR_NO_CONNECTION
  | CallConnectSN _ | CallPublishSN _ _ | CallSubscribeSN _ _ _ | CallUnsubscribeSN _ =>
      if speaks_mqtt sock then Some NSAPI_ERROR_NO_CONNECTION else None
  | CallSetHandler _ _ => if speaks_mqtt sock then None else Some NSAPI_ERROR_UNSUPPORTED
  | _ => None
  end.

Section Histories.
Context `{ClientParams} `{NsapiErrors} {E A Timer : Type} `{Socket E A}.
Context `{!Timers (ClientObject Timer) E Timer} `{!Timers (SNClient Timer) E Timer}.
Context `{!Handlers E MessageData} `{!Handlers E SNMessageData} `{CharSign} `{ByteOrder}.
Variables (fuel : nat) (no_timer : Timer) (uninit : Z).
Abbreviation MW := (M (world_of (MbedClient Timer) E)).
Implicit Types s : state (world_of (MbedClient Timer) E).

(** What an operation may do to the object: put another client behind a
    pointer that is not null. *)
Definition keeps_shape (m m' : MbedClient Timer) : Prop := forall sock, well_formed sock m -> well_formed sock m'.

#[local] Instance keeps_shape_preorder : PreOrder keeps_shape.
Proof. split; [by intros m sock|]. intros m1 m2 m3 H12 H23 sock Hm. by apply H23, H12. Qed.

Lemma through_keeps {C R} get (put : MbedClient Timer -> option C -> MbedClient Timer)
    (f : M (world_of C E) R) s r s' :
  (forall m c c', get m = Some c -> keeps_shape m (put m (Some c'))) ->
  through get put f s = Done r s' -> keeps_shape (client (world s)) (client (world s')).
Proof.
  intros Hput Hrun. apply through_put in Hrun as (c & c' & Hget & ->). by apply (Hput _ c).
Qed.

Lemma on_client_keeps {R} (f : M (oworld E Timer) R) s r s' :
  on_client f s = Done r s' -> keeps_shape (client (world s)) (client (world s')).
Proof.
  apply through_keeps. intros m c c' Hm sock (Hs & Hn & Hw). split_and!; [done..|].
  unfold set_m_client. cbn. destruct (speaks_mqtt sock); [|by rewrite Hm in Hw; destruct Hw].
  split; [by eexists|apply Hw].
Qed.

Lemma on_clientSN_keeps {R} (f : M (snworld E Timer) R) s r s' :
  on_clientSN f s = Done r s' -> keeps_shape (client (world s)) (client (world s')).
Proof.
  apply through_keeps. intros m c c' Hm sock (Hs & Hn & Hw). split_and!; [done..|].
  unfold set_m_clientSN. cbn. destruct (speaks_mqtt sock); [by rewrite Hm in Hw; destruct Hw|].
  split; [apply Hw|by eexists].
Qed.

(** An operation keeps the shape, whatever its result is taken to be. *)
Definition shaped {R} (f : MW R) : Prop :=
  forall s r s', f s = Done r s' -> keeps_shape (client (world s)) (client (world s')).

Lemma shaped_ret {R} (r : R) : shaped (ret r).
Proof. by intros s r' s' [= _ <-]. Qed.
Lemma shaped_bind {R S} (f : MW R) (k : R -> MW S) : shaped f -> (forall r, shaped (k r)) -> shaped (bind f k).
Proof.
  intros Hf Hk s x s'. unfold bind. destruct (f s) as [r s1|] eqn:Hrun; [|done]. intros Hrun'.
  etrans; [exact (Hf _ _ _ Hrun)|exact (Hk _ _ _ _ Hrun')].
Qed.
Lemma shaped_get {S} (k : MbedClient Timer -> MW S) : (forall m, shaped (k m)) -> shaped (bind get_client k).
Proof. intros Hk. apply shaped_bind; [by intros s r s' [= _ <-]|done]. Qed.

Lemma perform_shaped call : shaped (perform fuel no_timer uninit call).
Proof.
  destruct call; cbn [perform];
    unfold MbedClient_connect, MbedClient_connect_sn, MbedClient_publish, MbedClient_publish_sn,
      MbedClient_subscribe, MbedClient_subscribe_sn, MbedClient_unsubscribe, MbedClient_unsubscribe_sn,
      MbedClient_yield, MbedClient_disconnect, MbedClient_isConnected, MbedClient_setDefaultMessageHandler,
      MbedClient_setMessageHandler, with_client, with_clientSN;
    repeat first
      [ apply shaped_ret
      | intros ???; apply on_client_keeps
      | intros ???; apply on_clientSN_keeps
      | apply shaped_get; intros ?
      | apply shaped_bind; [|intros ?]
      | case_match ].
Qed.

Lemma new_well_formed sock object objectSN s s' :
  MbedClient_new no_timer sock object objectSN s = Done tt s' -> well_formed sock (client (world s')).
Proof.
  unfold MbedClient_new, MbedClient_init, bind, update_client. cbn [client world mem bufptr env].
  destruct sock; cbn [m_mqttNet m_client m_clientSN m_socket set_m_client set_m_clientSN set_m_mqttNet];
    intros Hrun; (apply on_client_keeps in Hrun || apply on_clientSN_keeps in Hrun); apply Hrun;
    cbn; (split_and!; [done|done|]); cbn; (split; [by eexists|done]) || (split; [done|by eexists]).
Qed.

Lemma reach_well_formed sock s :
  mbed_reach fuel no_timer uninit sock s -> well_formed sock (client (world s)).
Proof.
  induction 1 as [s object objectSN s' Hrun|s call rc s' _ IH Hrun|s s' _ IH ->]; [|apply (perform_shaped _ _ _ _ Hrun), IH|done].
  by apply new_well_formed in Hrun.
Qed.
End Histories.

(** ** What the calls promise

    What each call comes to when the socket decides on the protocol and no pointer
    is looked at. *)

Section Protocol.
Context `{ClientParams} `{NsapiErrors} {E A Timer : Type} `{Socket E A}.
Context `{!Timers (ClientObject Timer) E Timer} `{!Timers (SNClient Timer) E Timer}.
Context `{!Handlers E MessageData} `{!Handlers E SNMessageData} `{CharSign} `{ByteOrder}.
Variables (fuel : nat) (no_timer : Timer) (uninit : Z).
Abbreviation MW := (M (world_of (MbedClient Timer) E)).
Implicit Types s : state (world_of (MbedClient Timer) E).
#[local] Existing Instances client_platform clientSN_platform.

Definition checked (f : MW Z) : MW Z := let* rc := f in ret (no_connection_if_negative rc).

Definition protocol_call (sock : SocketType) (call : MbedCall) : MW Z :=
  let mqtt (f : M (oworld E Timer) Z) :=
    if speaks_mqtt sock then checked (on_client f) else ret NSAPI_ERROR_NO_CONNECTION in
  let mqttsn (f : M (snworld E Timer) Z) :=
    if speaks_mqtt sock then ret NSAPI_ERROR_NO_CONNECTION else checked (on_clientSN f) in
  let either (f : M (oworld E Timer) Z) (g : M (snworld E Timer) Z) :=
    if speaks_mqtt sock then checked (on_client f) else checked (on_clientSN g) in
  match call with
  | CallConnect options => mqtt (Client_connect_options fuel no_timer uninit options)
  | CallConnectSN options => mqttsn (SNClient_connect fuel no_timer uninit options)
  | CallPublish topicName message => mqtt (Client_publish_message fuel no_timer uninit topicName message)
  | CallPublishSN topicName message => mqttsn (SNClient_publish_message fuel no_timer uninit topicName message)
  | CallSubscribe topicFilter qos mh => mqtt (Client_subscribe_plain fuel no_timer uninit topicFilter qos mh)
  | CallSubscribeSN topicFilter qos mh => mqttsn (SNClient_subscribe fuel no_timer uninit topicFilter qos mh)
  | CallUnsubscribe topicFilter => mqtt (Client_unsubscribe fuel no_timer uninit topicFilter)
  | CallUnsubscribeSN topicFilter => mqttsn (SNClient_unsubscribe fuel no_timer uninit topicFilter)
  | CallYield ms => either (Client_yield fuel no_timer uninit ms) (SNClient_yield fuel no_timer uninit ms)
  | CallDisconnect => either (Client_disconnect fuel no_timer) (SNClient_disconnect fuel no_timer 0)
  | CallIsConnected =>
      let* b := (if speaks_mqtt sock then on_client Client_isConnected else on_clientSN SNClient_isConnected) in
      ret (Z.b2z b)
  | CallSetDefault mh =>
      if speaks_mqtt sock then on_client (Client_setDefaultMessageHandler mh) ;;; ret 0 else fun _ => Fault OutOfBounds
  | CallSetHandler topicFilter mh =>
      if speaks_mqtt sock then on_client (Client_setMessageHandler topicFilter mh) else ret NSAPI_ERROR_UNSUPPORTED
  end.

Lemma perform_protocol sock call s : well_formed sock (client (world s)) ->
  perform fuel no_timer uninit call s = protocol_call sock call s.
Proof.
  intros (_ & _ & Hw). destruct s as [mem0 ptr0 [m e]]. cbn [client world] in Hw. unfold protocol_call, checked.
  destruct (speaks_mqtt sock); destruct Hw as [Hc Hsn]; [destruct Hc as [c Hc]|destruct Hsn as [c Hsn]];
    destruct call; cbn [perform];
    unfold MbedClient_connect, MbedClient_connect_sn, MbedClient_publish, MbedClient_publish_sn,
      MbedClient_subscribe, MbedClient_subscribe_sn, MbedClient_unsubscribe, MbedClient_unsubscribe_sn,
      MbedClient_yield, MbedClient_disconnect, MbedClient_isConnected, MbedClient_setDefaultMessageHandler,
      MbedClient_setMessageHandler, with_client, with_clientSN, bind, get_client; cbn [client world];
    rewrite ?Hc, ?Hsn; try done.
  unfold on_client, through. cbn [client world]. by rewrite Hc.
Qed.
End Protocol.

(** ** The object behind the pointer, as its own lemmas see it *)

(** What the constructor of the MQTT client finds: pointers to arrays of the right
    sizes; nothing else of the memory is known. *)
Record raw_object `{ClientParams} (L : layout) (v : oview) : Prop := {
  ro_sendbuf : o_sendbuf (v_client v) = Ptr (l_send L) 0;
  ro_readbuf : o_readbuf (v_client v) = Ptr (l_read L) 0;
  ro_pubbuf : o_pubbuf (v_client v) = Ptr (l_pub L) 0;
  ro_size : 5 <= MAX_MQTT_PACKET_SIZE <= INT_MAX;
  ro_send : exists l, v_mem v !! l_send L = Some l /\ zlen l = MAX_MQTT_PACKET_SIZE;
  ro_read : exists l, v_mem v !! l_read L = Some l /\ zlen l = MAX_MQTT_PACKET_SIZE + l_spare L;
  ro_pub : exists l, v_mem v !! l_pub L = Some l /\ zlen l = MAX_MQTT_PACKET_SIZE;
  ro_spare : 0 <= l_spare L;
  ro_blocks : l_send L <> l_read L /\ l_send L <> l_pub L /\ l_read L <> l_pub L;
  ro_handlers : length (o_messageHandlers (v_client v)) = MAX_HANDLERS;
  ro_incoming : length (o_incomingQoS2messages (v_client v)) = MAX_INCOMING_QOS2_MESSAGES
}.

Lemma slots_empty m (hs : list MessageHandlers) :
  slots_are m (forgotten <$> ((fun h => {| topicFilter := topicFilter h; fp := None |}) <$> hs))
    (replicate (length hs) (None, None)).
Proof. unfold slots_are. rewrite <- list_fmap_compose. induction hs; cbn; constructor; done. Qed.

Section Construction.
Context `{ClientParams} {E Timer : Type} `{PS : PlatformSpec (ClientObject Timer) E Timer MessageData}.

(** A new client is well formed, not connected, has no handlers and nothing in flight. *)
Lemma total_onew L (v : oview) (no_timer : Timer) timeout :
  raw_object L v -> MQTTCLIENT_QOS1 || MQTTCLIENT_QOS2 = true ->
  total v (Client_new no_timer timeout) (fun _ w =>
    object_ok L (replicate MAX_HANDLERS (None, None)) w /\ o_isconnected (v_client w) = false /\
    o_inflightMsgid (v_client w) = 0 /\ v_mem w = v_mem v /\ v_in w = v_in v /\ v_out w = v_out v /\
    v_delivered w = v_delivered v).
Proof.
  intros [] Hb. unfold Client_new. tstep total_TimerInit. intros t1 ? ->. tstep total_TimerInit. intros t2 ? ->.
  set (c0 := v_client v).
  rstep (runs_update_client v _
    (Object timeout (o_sendbuf c0) (o_readbuf c0) tt tt tt (o_keepAliveInterval c0)
      (o_ping_outstanding c0) true 0
      ((fun h => {| topicFilter := topicFilter h; fp := None |}) <$> o_messageHandlers c0) None
      (o_isconnected c0) (o_pubbuf c0) (o_inflightLen c0) (o_inflightMsgid c0) (o_inflightQoS c0)
      (o_pubrel c0) (o_incomingQoS2messages c0))); [intros c Hc; unfold c0; by rewrite <- Hc|].
  eapply total_mono; [apply runs_oclose|]. intros ? ? [_ ->]. unfold o_closed, closed_object, cleaned_object.
  cbn [v_client set_v_client o_cleansession]. rewrite Hb.
  pose proof (slots_empty (v_mem v) (o_messageHandlers c0)) as Hslots. fold c0 in ro_handlers0.
  rewrite ro_handlers0 in Hslots.
  assert (Hout : Forall (fun h => outside L (topicFilter h))
    (forgotten <$> ((fun h => {| topicFilter := topicFilter h; fp := None |}) <$> o_messageHandlers c0))).
  { apply Forall_fmap, Forall_true. by intros h b o. }
  split; [|by destruct MQTTCLIENT_QOS2].
  destruct MQTTCLIENT_QOS2; split; cbn; rewrite ?length_fmap, ?length_replicate; done.
Qed.
End Construction.

(** ** Properties *)

Section MbedProperties.
Context `{ClientParams} `{NsapiErrors} {E A Timer : Type} `{Socket E A}.
Context `{!Timers (ClientObject Timer) E Timer} `{!Timers (SNClient Timer) E Timer}.
Context `{!Handlers E MessageData} `{!Handlers E SNMessageData} `{CharSign} `{ByteOrder}.
Variables (fuel : nat) (no_timer : Timer) (uninit : Z).
Implicit Types s : state (world_of (MbedClient Timer) E).

(** C20: From the constructor on, whatever the application calls and whatever memory, time and
    network do between the calls, an object made for a TCP or TLS socket has an MQTT
    client and no MQTT-SN client, one made for a UDP or DTLS socket the other way
    round, and its network object keeps the socket it was given.  In every such
    state each of the thirteen calls is the one the socket decides on, without
    looking at a pointer ([protocol_call]): the operation of the client that is
    there, with its negative results as NSAPI_ERROR_NO_CONNECTION (setMessageHandler
    and isConnected pass theirs on), or the error of a call of the other
    protocol, which changes nothing.  The exception is
    setDefaultMessageHandler of an object that speaks MQTT-SN: it calls a member
    function of the null pointer. *)
Theorem mbed_protocol sock s :
  mbed_reach fuel no_timer uninit sock s ->
  well_formed sock (client (world s)) /\
  forall call, perform fuel no_timer uninit call s = protocol_call fuel no_timer uninit sock call s.
Proof.
  intros Hs%reach_well_formed. split; [done|]. intros call. by apply perform_protocol.
Qed.

(** An operation of the other protocol answers with its error and changes
    nothing.  setDefaultMessageHandler of an object that speaks MQTT-SN calls a member function
    of the null pointer. *)
Theorem mbed_guards sock s :
  mbed_reach fuel no_timer uninit sock s ->
  (forall call rc, foreign sock call = Some rc -> perform fuel no_timer uninit call s = Done rc s) /\
  (forall mh, speaks_mqtt sock = false ->
     MbedClient_setDefaultMessageHandler mh s = Fault OutOfBounds) /\
  (forall mh, speaks_mqtt sock = true ->
     exists s', MbedClient_setDefaultMessageHandler mh s = Done tt s' /\
       (o_defaultMessageHandler <$> m_client (client (world s'))) = Some mh).
Proof.
  intros Hs%reach_well_formed. pose proof Hs as (_ & _ & Hw). split_and!.
  - intros call rc Hf. rewrite (perform_protocol _ _ _ sock) by done. revert Hf.
    destruct call; cbn [foreign protocol_call]; destruct (speaks_mqtt sock); by intros [= <-].
  - intros mh Hsp. rewrite Hsp in Hw. destruct Hw as [Hc [c Hsn]].
    unfold MbedClient_setDefaultMessageHandler, bind, get_client. rewrite Hc, Hsn.
    unfold on_client, through. by rewrite Hc.
  - intros mh Hsp. rewrite Hsp in Hw. destruct Hw as [[c Hc] Hsn].
    unfold MbedClient_setDefaultMessageHandler, bind, get_client. rewrite Hc. unfold on_client, through. rewrite Hc.
    by eexists.
Qed.

(** An error of the client becomes NSAPI_ERROR_NO_CONNECTION; a positive result,
    such as the code of a CONNACK that refuses the connection, is passed on. *)
Lemma mbed_result_range f s rc s' :
  with_client f s = Done rc s' -> rc = NSAPI_ERROR_NO_CONNECTION \/ 0 <= rc.
Proof.
  unfold with_client, bind, get_client. destruct (m_client (client (world s))); [|intros [= <- _]; by left].
  destruct (on_client f s) as [r s1|]; [|done]. unfold ret, no_connection_if_negative. intros [= <- _].
  case_test; [by left|by right].
Qed.
End MbedProperties.

(** ** From the constructor to the wire *)

Section OverSocket.
Context `{ClientParams} `{NsapiErrors} {E A Timer : Type} `{Socket E A} `{Observed E MessageData}.
Context `{!SocketSpec E A MessageData} `{!Attentive E A MessageData}.
Context `{!Timers (ClientObject Timer) E Timer} `{!TimersSpec (ClientObject Timer) E Timer MessageData}.
Context `{!Patient (ClientObject Timer) E Timer} `{!Timers (SNClient Timer) E Timer}.
Context `{!Handlers E MessageData} `{!HandlersSpec E MessageData} `{!Handlers E SNMessageData}.
Context `{CharSign} `{ByteOrder}.
Variables (fuel : nat) (no_timer : Timer) (uninit : Z).
Implicit Types s : state (world_of (MbedClient Timer) E).
#[local] Existing Instances client_platform clientSN_platform mbed_platform_contract mbed_responsive.

(** Construction, on the object behind the pointer. *)
Lemma mbed_new_run sock L object objectSN s :
  speaks_mqtt sock = true -> raw_object L (see (inner s object)) -> MQTTCLIENT_QOS1 || MQTTCLIENT_QOS2 = true ->
  exists s' c, MbedClient_new no_timer sock object objectSN s = Done tt s' /\
    m_client (client (world s')) = Some c /\ m_clientSN (client (world s')) = None /\
    (let w := see (inner s' c) in
     object_ok L (replicate MAX_HANDLERS (None, None)) w /\ o_isconnected (v_client w) = false /\
     o_inflightMsgid (v_client w) = 0 /\ v_mem w = mem s /\ v_in w = net_in (env (world s)) /\
     v_out w = net_out (env (world s)) /\ v_delivered w = delivered (env (world s))).
Proof.
  intros Hsp Hraw Hb. unfold MbedClient_new, MbedClient_init, bind, update_client. cbn [client world mem bufptr env].
  pose (m := Build_MbedClient sock (Some {| net_socket := sock |}) (Some object) (@None (SNClient Timer))).
  destruct (through_total m_client set_m_client (fun _ _ => eq_refl)
    (State (mem s) (bufptr s) (World m (env (world s)))) object (see (inner s object))
    (Client_new no_timer 30000) _ eq_refl eq_refl (total_onew L _ no_timer 30000 Hraw Hb))
    as ([] & s' & c & Hrun & Hget & HQ & Hput).
  exists s', c. destruct sock; try done; (split; [exact Hrun|]); (split; [exact Hget|]); (split; [by rewrite Hput|exact HQ]).
Qed.

(** An operation of the MQTT client, through the pointer. *)
Lemma with_client_total f s c v Q :
  m_client (client (world s)) = Some c -> see (inner s c) = v -> total v f Q ->
  exists r s' c', with_client f s = Done (no_connection_if_negative r) s' /\
    m_client (client (world s')) = Some c' /\ m_clientSN (client (world s')) = m_clientSN (client (world s)) /\
    Q r (see (inner s' c')).
Proof.
  intros Hc Hv Hf. destruct (through_total m_client set_m_client (fun _ _ => eq_refl) s c v f Q Hc Hv Hf)
    as (r & s' & c' & Hrun & Hget & HQ & Hput).
  exists r, s', c'. split; [|split_and!; [done|by rewrite Hput|done]].
  unfold with_client, bind at 1, get_client. rewrite Hc. by rewrite (bind_done _ _ _ _ _ Hrun).
Qed.

Lemma mbed_isConnected_run s c :
  m_client (client (world s)) = Some c -> m_clientSN (client (world s)) = None ->
  exists s', MbedClient_isConnected s = Done (o_isconnected c) s'.
Proof.
  intros Hc Hsn. unfold MbedClient_isConnected, bind at 1, get_client. rewrite Hc, Hsn.
  unfold on_client, through. rewrite Hc. by eexists.
Qed.

(** C17: An object made for a TCP or TLS socket and connected: whatever pieces the
    stream arrives in, it sends exactly the CONNECT packet of the options, takes the CONNACK
    and nothing behind it, and returns 0, isConnected being true then, exactly
    when the broker accepted. *)
Theorem mbed_connect_spec sock L object objectSN opts i rc sp rest s :
  speaks_mqtt sock = true -> raw_object L (see (inner s object)) -> MQTTCLIENT_QOS1 || MQTTCLIENT_QOS2 = true ->
  MAX_MQTT_PACKET_SIZE < Z.of_nat fuel -> options_denote (mem s) (l_send L) opts i ->
  ci_version i = 3 \/ ci_version i = 4 -> 0 <= ci_keepalive i -> connect_length i <= REMLEN_MAX ->
  packet_size (connect_length i) < MAX_MQTT_PACKET_SIZE ->
  net_in (env (world s)) = connack_packet rc sp ++ rest -> 0 <= rc < 256 -> NSAPI_ERROR_NO_CONNECTION <> 0 ->
  exists r s', (MbedClient_new no_timer sock object objectSN ;;; MbedClient_connect fuel no_timer uninit opts) s = Done r s' /\
    (r = 0 <-> rc = 0) /\ (exists s'', MbedClient_isConnected s' = Done (bool_decide (rc = 0)) s'') /\
    net_out (env (world s')) = net_out (env (world s)) ++ connect_wire i /\ net_in (env (world s')) = rest.
Proof.
  intros Hsp Hraw Hb Hf Hopts Hver Hkeep Hlen Hfits Hin Hrc Hno.
  destruct (mbed_new_run sock L object objectSN s Hsp Hraw Hb)
    as (s1 & c1 & Hnew & Hc1 & Hsn1 & Hok & Hdis & Hfree & Hmem & Hin1 & Hout1 & _).
  rewrite (bind_done _ _ _ _ _ Hnew). set (v := see (inner s1 c1)) in *.
  destruct (runs_oconnect fuel no_timer uninit L (replicate MAX_HANDLERS (None, None)) v opts i rc sp rest
    {| connack_rc := uninit; connack_sessionPresent := uninit |}) as (Hrun & Hcode & Hcon); try done.
  { by rewrite Hmem. }
  { by rewrite Hin1. }
  { by left. }
  set (code := first_byte_of_int rc) in *. set (w := o_connect_result code _) in *.
  destruct (with_client_total (Client_connect_options fuel no_timer uninit opts) s1 c1 v
    (fun r w' => r = code /\ w' = w) Hc1 eq_refl) as (r & s2 & c2 & Hrun2 & Hc2 & Hsn2 & -> & Hw).
  { unfold Client_connect_options. rstep Hrun. by apply total_ret. }
  exists (no_connection_if_negative code), s2. split; [exact Hrun2|]. rewrite Hsn1 in Hsn2.
  assert (Hout2 : net_out (env (world s2)) = v_out w) by (by rewrite <- Hw).
  assert (Hin2 : net_in (env (world s2)) = v_in w) by (by rewrite <- Hw).
  assert (Hcon2 : o_isconnected c2 = o_isconnected (v_client w)) by (by rewrite <- Hw).
  split_and!.
  - rewrite <- Hcode. unfold no_connection_if_negative, SUCCESS. case_test; lia.
  - destruct (mbed_isConnected_run s2 c2 Hc2 Hsn2) as (s3 & Hrun3). exists s3. rewrite Hrun3, Hcon2. f_equal.
    apply eq_true_iff_eq. by rewrite bool_decide_eq_true.
  - rewrite Hout2. unfold w, o_connect_result. rewrite <- Hout1. by destruct (code =? SUCCESS).
  - rewrite Hin2. unfold w, o_connect_result. by destruct (code =? SUCCESS).
Qed.
End OverSocket.

(** ** MQTT-SN over the network layer *)

Section SNOverSocket.
Context `{ClientParams} `{NsapiErrors} {E A Timer : Type} `{Socket E A} `{Observed E SNMessageData}.
Context `{!SocketSpec E A SNMessageData}.
Context `{!Timers (SNClient Timer) E Timer} `{!TimersSpec (SNClient Timer) E Timer SNMessageData}.
Context `{!Handlers E SNMessageData} `{!HandlersSpec E SNMessageData} `{CharSign}.
Implicit Types v : nview.
#[local] Existing Instances clientSN_platform mbed_platform_contract.

(** The length field of what stands at the start of the receive buffer. *)
Lemma sn_decode_announced v b x1 x2 x3 bs n :
  bytes_at (v_mem v) b 0 (x1 :: x2 :: x3 :: bs) -> 3 <= n ->
  total v (MQTTSNPacket_decode (Ptr b 0) n (Some 0) : M (snworld E Timer) _) (fun r w =>
    w = v /\ r.2 = Some (announced (x1 :: x2 :: x3 :: bs))).
Proof.
  intros Hat Hn. apply total_reading. intros s Hs. rewrite <- Hs in Hat.
  pose proof (load_at _ _ _ _ _ Hat) as Hload. unfold MQTTSNPacket_decode. test_false (n <=? 0).
  rewrite (bind_done _ _ _ _ _ Hload). cbn [announced]. destruct (Z_of_byte x1 =? 1).
  - test_false (n <? 3). apply bytes_at_tail in Hat. change (0 + 1) with 1 in Hat.
    cbn [padd]. change (0 + 1) with 1.
    rewrite (bind_done _ _ _ _ _ (readInt_at _ _ _ _ _ _ Hat)). do 2 eexists. split; [done|]. by split_and!.
  - rewrite (bind_done _ _ _ _ _ Hload). do 2 eexists. split; [done|]. by split_and!.
Qed.

(** C21: The network layer fills the whole receive buffer or fails, and readPacket of
    the MQTT-SN client takes what it gets for one datagram: unless the bytes to come announce
    a packet of exactly the size of the buffer, readPacket fails, whatever the socket does. *)
Theorem mbed_sn_deaf v timer b l :
  n_readbuf (v_client v) = Ptr b 0 -> v_mem v !! b = Some l -> MAX_MQTT_PACKET_SIZE <= zlen l ->
  4 <= MAX_MQTT_PACKET_SIZE -> announced (v_in v) <> MAX_MQTT_PACKET_SIZE ->
  total v (SNClient_readPacket timer : M (snworld E Timer) Z) (fun rc _ => rc = FAILURE).
Proof.
  intros Hbuf Hb Hroom Hsize Hann. unfold SNClient_readPacket. nget c. rewrite Hbuf.
  tstep total_TimerLeftMS. intros timeout ? ->. unfold net_read. tassoc.
  tstep total_mbed_read; [lia|]. intros [rc bs] ? (tl & Hin & -> & Hres). cbn [fst snd] in *.
  rstep (runs_local _ _ tt (<[b := splice l 0 bs]> (v_mem v))).
  { intros s Hs. destruct (store_bytes_written (v_mem v) b l 0 [] bs s) as (s' & ? & ? & ?);
      [unfold written; by rewrite splice_nil, insert_id|done|cbn; lia|]. by exists s'. }
  tret. unfold MQTTSN_MIN_PACKET_LENGTH. destruct Hres as [[-> Hbs]|[Hneg _]].
  2: { test_true (rc <? 2). by apply total_ret. }
  test_false (MAX_MQTT_PACKET_SIZE <? 2). set (w := set_v_mem _ _).
  destruct bs as [|x1 [|x2 [|x3 bs]]]; [cbn in Hbs; lia..|].
  assert (Hat : bytes_at (v_mem w) b 0 (x1 :: x2 :: x3 :: bs)).
  { split; [done|]. exists (splice l 0 (x1 :: x2 :: x3 :: bs)). split; [apply lookup_insert_eq|].
    intros i y Hy. apply splice_lookup; [lia|lia|done]. }
  tstep (sn_decode_announced w b); [exact Hat|lia|]. intros [lenlen dl] ? [-> Hdl]. cbn [snd] in Hdl. subst dl.
  unfold use. tret. rewrite Hin in Hann.
  destruct (Z.eqb_spec (announced (x1 :: x2 :: x3 :: bs)) MAX_MQTT_PACKET_SIZE) as [Heq|]; [|by apply total_ret].
  by destruct Hann.
Qed.
End SNOverSocket.

(** ** Witnesses *)

Section MbedWitnesses.
#[local] Existing Instances char_is_signed little_endian_order mbed_errors bench_handlers bench_handlers_spec.

Definition bench_timers {C E} : Timers C E Z := {|
  tm_init _ := ret 0; tm_expired _ := ret false; tm_countdown_ms _ n := ret n;
  tm_countdown _ n := ret (1000 * n); tm_left_ms t := ret t
|}.
Lemma bench_timers_spec {C E D} `{Observed E D} : TimersSpec C E Z D (H := bench_timers).
Proof. split; intros; do 2 eexists; split; [done|by split_and!|done|by split_and!|done|by split_and!|done|by split_and!|done|by split_and!]. Qed.
Lemma bench_timers_patient {C E} : Patient C E Z (H := bench_timers).
Proof. by intros t s e s' [= <- _]. Qed.
#[local] Existing Instances bench_timers bench_timers_spec bench_timers_patient.

(* arrays of 64 bytes, two handlers, QoS 1 *)
#[local] Instance ex_mbed_build : ClientParams := {|
  MAX_MQTT_PACKET_SIZE := 64; MAX_HANDLERS := 2; MQTTCLIENT_QOS1 := true; MQTTCLIENT_QOS2 := false;
  MAX_INCOMING_QOS2_MESSAGES := 0
|}.
(* a stream in pieces of one byte *)
#[local] Instance ex_mbed_socket {D} : Socket (bench D) unit := stream_socket 1.
#[local] Instance ex_mbed_socket_spec {D} : SocketSpec (bench D) unit D := stream_socket_spec 1.
#[local] Instance ex_mbed_attentive {D} : Attentive (bench D) unit D := stream_socket_attentive 1 eq_refl.
#[local] Instance ex_mbed_sn_handlers : Handlers (bench MessageData) SNMessageData := fun _ _ e => (tt, e).

(* block 1: sendbuf, 2: readbuf and two more bytes, 3: pubbuf, 4: the client identifier "me" *)
Definition ex_mbed_layout : layout := {| l_send := 1; l_read := 2; l_pub := 3; l_spare := 2 |}.
Definition ex_raw : ClientObject Z :=
  Object 7 (Ptr 1 0) (Ptr 2 0) 7 7 7 7 true false 7
    [{| topicFilter := Ptr 9 9; fp := Some 9%positive |}; {| topicFilter := NULL; fp := None |}]
    (Some 9%positive) true (Ptr 3 0) 7 7 7 true [].
Definition ex_rawSN : SNClient Z :=
  SNObject 7 (Ptr 1 0) (Ptr 2 0) 7 7 7 true false 7 [] None true (Ptr 3 0) 7 7 7 true [] ∅.
Definition ex_mbed_state (incoming : list byte) : state (world_of (MbedClient Z) (bench MessageData)) :=
  plain_state [replicate 64 (byte_of_Z 170); replicate 66 (byte_of_Z 187); replicate 64 (byte_of_Z 204);
               bytes [109; 101; 0]] (Build_MbedClient DTLSSocket None None None) incoming.

Definition ex_mbed_run sock := match MbedClient_new 0 sock ex_raw ex_rawSN (ex_mbed_state []) with
  | Done _ s => s | Fault _ => ex_mbed_state [] end.

Lemma ex_mbed_reach sock : mbed_reach 65 0 0 sock (ex_mbed_run sock).
Proof. apply (reach_new _ _ _ _ (ex_mbed_state []) ex_raw ex_rawSN).
  destruct sock; vm_compute; reflexivity.
Qed.

(* a call of the other protocol, and one that goes to the client of the protocol *)
Lemma mbed_protocol_witness :
  well_formed UDPSocket (client (world (ex_mbed_run UDPSocket))) /\
  perform 65 0 0 (CallUnsubscribe NULL) (ex_mbed_run UDPSocket) = Done (-3004) (ex_mbed_run UDPSocket) /\
  perform 65 0 0 CallDisconnect (ex_mbed_run UDPSocket) =
    checked (on_clientSN (SNClient_disconnect (H0 := clientSN_platform) 65 0 0)) (ex_mbed_run UDPSocket).
Proof.
  destruct (mbed_protocol 65 0 0 UDPSocket _ (ex_mbed_reach UDPSocket)) as [Hw Hcalls].
  split; [exact Hw|]. split; [exact (Hcalls (CallUnsubscribe NULL))|exact (Hcalls CallDisconnect)].
Defined.

Lemma mbed_guards_witness :
  perform 65 0 0 (CallConnect MQTTPacket_connectData_initializer) (ex_mbed_run UDPSocket) =
    Done (-3004) (ex_mbed_run UDPSocket) /\
  MbedClient_setDefaultMessageHandler None (ex_mbed_run UDPSocket) = Fault OutOfBounds.
Proof.
  destruct (mbed_guards 65 0 0 UDPSocket _ (ex_mbed_reach UDPSocket)) as (Hf & Hd & _).
  split; [by apply Hf|by apply Hd].
Defined.

Definition ex_mbed_info : connect_info :=
  {| ci_version := 4; ci_clean := 1; ci_keepalive := 60; ci_client := bytes [109; 101];
     ci_will := None; ci_user := None; ci_password := None |}.

Definition ex_mbed_options : MQTTPacket_connectData :=
  set_clientID MQTTPacket_connectData_initializer (cstring_topic (Ptr 4 0)).

Lemma ex_raw_object incoming : raw_object ex_mbed_layout (see (inner (ex_mbed_state incoming) ex_raw)).
Proof.
  split; try done.
  - by exists (replicate 64 (byte_of_Z 170)).
  - by exists (replicate 66 (byte_of_Z 187)).
  - by exists (replicate 64 (byte_of_Z 204)).
Qed.

Lemma ex_mbed_options_denote incoming : options_denote (mem (ex_mbed_state incoming)) 1 ex_mbed_options ex_mbed_info.
Proof.
  split_and!; try done. apply mqttstring_cstring; [|by intros ? ? [= <- <-]].
  do 2 eexists; split; [reflexivity|split; [bytes_at_concrete|]].
  intros Hin; apply list_elem_of_In in Hin; vm_compute in Hin; intuition discriminate.
Qed.

Lemma mbed_connect_spec_witness :
  exists r s', (MbedClient_new 0 TLSSocket ex_raw ex_rawSN ;;; MbedClient_connect 65 0 0 ex_mbed_options)
      (ex_mbed_state (connack_packet 0 0 ++ bytes [208; 0])) = Done r s' /\
    (r = 0 <-> 0 = 0) /\ (exists s'', MbedClient_isConnected s' = Done true s'') /\
    net_out (env (world s')) = connect_wire ex_mbed_info /\ net_in (env (world s')) = bytes [208; 0].
Proof.
  destruct (mbed_connect_spec (E := bench MessageData) 65 0 0 TLSSocket ex_mbed_layout ex_raw ex_rawSN
    ex_mbed_options ex_mbed_info 0 0 (bytes [208; 0])
    (ex_mbed_state (connack_packet 0 0 ++ bytes [208; 0])) eq_refl (ex_raw_object _) eq_refl)
    as (r & s' & Hrun & Hr & Hcon & Hout & Hin);
    [done|apply ex_mbed_options_denote|by right|done|done|done|done|done|done|].
  exists r, s'. split; [exact Hrun|]. split; [exact Hr|]. split; [exact Hcon|]. split; [exact Hout|exact Hin].
Defined.

(* a CONNACK of three bytes is to come *)
Lemma mbed_sn_deaf_witness :
  let v : nview := see (plain_state [replicate 64 (byte_of_Z 170); replicate 64 (byte_of_Z 187)] ex_rawSN
                          (bytes [3; 5; 0])) in
  total (H := plain_observed) v (SNClient_readPacket (H0 := clientSN_platform) 5 : M (snworld (bench SNMessageData) Z) Z)
    (fun rc _ => rc = FAILURE).
Proof.
  intros v. apply (mbed_sn_deaf v 5 2 (replicate 64 (byte_of_Z 187))); try done.
Defined.
End MbedWitnesses.
