(* ===== verification/GWHeap.v ===== *)
(** * Linked structures of the gateway: cells on a heap

    The tables and queues of the MQTT-SN gateway are C++ objects linked by
    pointers ([_next], [_prev]), with members for the ends of the list and the
    number of elements.  This file models such an object as a heap of cells with
    those members, the primitive steps as a monad that is undefined where the
    program goes through a null or deleted pointer, and relates a well-formed
    object to the list of its elements ([represents]). *)

From S2P Require Import Prelude.

Abbreviation loc := positive.

(** ** Objects and primitive steps *)

Record cell (A : Type) := Cell { c_next : option loc; c_prev : option loc; c_val : A }.
Arguments Cell {A} _ _ _.
Arguments c_next {A} _.
Arguments c_prev {A} _.
Arguments c_val {A} _.

(** The heap and the members of one list object: pointers to the first and the
    last element, the counter, and what the class has besides. *)
Record linked (A X : Type) := Linked {
  cells : gmap loc (cell A);
  l_first : option loc;
  l_last : option loc;
  l_cnt : Z;
  l_more : X;
}.
Arguments Linked {A X} _ _ _ _ _.
Arguments cells {A X} _.
Arguments l_first {A X} _.
Arguments l_last {A X} _.
Arguments l_cnt {A X} _.
Arguments l_more {A X} _.

(** A step on a state either has a result and a new state or is undefined
    behaviour. *)
Definition st (S R : Type) := S -> option (R * S).

Definition sret {S R} (r : R) : st S R := fun s => Some (r, s).
Definition sbind {S R Q} (c : st S R) (k : R -> st S Q) : st S Q := fun s =>
  match c s with Some (r, s') => k r s' | None => None end.
Definition undefined {S R} : st S R := fun _ => None.

(** Steps on one list object. *)
Abbreviation step A X := (st (linked A X)).

Section Steps.
Context {A X : Type}.

Definition get_first : step A X (option loc) := fun s => Some (l_first s, s).
Definition get_last : step A X (option loc) := fun s => Some (l_last s, s).
Definition get_cnt : step A X Z := fun s => Some (l_cnt s, s).
Definition get_more : step A X X := fun s => Some (l_more s, s).
Definition set_first (p : option loc) : step A X unit := fun s =>
  Some (tt, Linked (cells s) p (l_last s) (l_cnt s) (l_more s)).
Definition set_last (p : option loc) : step A X unit := fun s =>
  Some (tt, Linked (cells s) (l_first s) p (l_cnt s) (l_more s)).
Definition set_cnt (n : Z) : step A X unit := fun s =>
  Some (tt, Linked (cells s) (l_first s) (l_last s) n (l_more s)).
Definition set_more (x : X) : step A X unit := fun s =>
  Some (tt, Linked (cells s) (l_first s) (l_last s) (l_cnt s) x).

Definition set_cells (s : linked A X) (h : gmap loc (cell A)) : linked A X :=
  Linked h (l_first s) (l_last s) (l_cnt s) (l_more s).

(** [*p]: undefined for a null pointer and for a deleted element. *)
Definition deref (p : option loc) : step A X (cell A) := fun s =>
  match p with
  | None => None
  | Some q => match cells s !! q with Some c => Some (c, s) | None => None end
  end.

Definition write (p : option loc) (f : cell A -> cell A) : step A X unit := fun s =>
  match p with
  | None => None
  | Some q =>
      match cells s !! q with
      | Some c => Some (tt, set_cells s (<[q := f c]> (cells s)))
      | None => None
      end
  end.
(** [p->_next = v] and [p->_prev = v]. *)
Definition set_next (p v : option loc) : step A X unit :=
  write p (fun c => Cell v (c_prev c) (c_val c)).
Definition set_prev (p v : option loc) : step A X unit :=
  write p (fun c => Cell (c_next c) v (c_val c)).

(** [new]: an element at an address that is not in use, unlinked. *)
Definition new (a : A) : step A X (option loc) := fun s =>
  let p := fresh (dom (cells s)) in
  Some (Some p, set_cells s (<[p := Cell None None a]> (cells s))).

(** [delete p]: undefined for a deleted element, nothing for a null pointer. *)
Definition delete_cell (p : option loc) : step A X unit := fun s =>
  match p with
  | None => Some (tt, s)
  | Some q =>
      match cells s !! q with
      | Some _ => Some (tt, set_cells s (delete q (cells s)))
      | None => None
      end
  end.
End Steps.

Declare Scope step_scope.
Notation "'let!' p ':=' c 'in' k" := (sbind c (fun p => k))
  (at level 10, p pattern, c at level 100, k at level 200,
   format "'[v' 'let!'  p  ':='  c  'in'  '/' k ']'") : step_scope.
Notation "c ;! k" := (sbind c (fun _ => k))
  (at level 100, k at level 200, right associativity) : step_scope.
#[global] Open Scope step_scope.

(** Rules for sequencing: what a step that has run leaves to do. *)
Lemma sbind_run {S R Q} (c : st S R) (k : R -> st S Q) s r s' :
  c s = Some (r, s') -> sbind c k s = k r s'.
Proof. unfold sbind. by intros ->. Qed.

Lemma sbind_assoc {S R Q T} (c : st S R) (f : R -> st S Q) (g : Q -> st S T) s :
  sbind (sbind c f) g s = sbind c (fun r => sbind (f r) g) s.
Proof. unfold sbind. by destruct (c s) as [[r s']|]. Qed.

Lemma sbind_cong {S R Q} (c : st S R) (k1 k2 : R -> st S Q) s :
  (forall r s', c s = Some (r, s') -> k1 r s' = k2 r s') -> sbind c k1 s = sbind c k2 s.
Proof. unfold sbind. intros Hk. destruct (c s) as [[r s']|]; [by apply Hk|done]. Qed.

Lemma sbind_first {S R Q} (c1 c2 : st S R) (k : R -> st S Q) s :
  c1 s = c2 s -> sbind c1 k s = sbind c2 k s.
Proof. unfold sbind. by intros ->. Qed.

(** Run the first step by a lemma, or a primitive step. *)
Ltac srun H := rewrite (sbind_run _ _ _ _ _ H).
Ltac sprim := erewrite sbind_run by reflexivity; cbn beta.

(** Is the pointer null? *)
Definition null (p : option loc) : bool := match p with None => true | _ => false end.

Section Loops.
Context {A X : Type}.

(** [while (p) { if (ok(p)) break; p = p->_next; }], the search loop of all the
    tables; the result is the element found or null. *)
Fixpoint search_from (n : nat) (ok : A -> bool) (p : option loc) : step A X (option loc) :=
  match n with
  | O => undefined
  | S n =>
      if null p then sret None
      else let! c := deref p in
           if ok (c_val c) then sret p else search_from n ok (c_next c)
  end.

(** The fuel: more than the elements on the heap. *)
Definition fuel_of (s : linked A X) : nat := S (size (cells s)).

Definition search (ok : A -> bool) : step A X (option loc) := fun s =>
  (let! p := get_first in search_from (fuel_of s) ok p) s.

(** [while (p) { q = p->_next; delete p; p = q; }] from the first element on. *)
Fixpoint delete_from (n : nat) (p : option loc) : step A X unit :=
  match n with
  | O => undefined
  | S n =>
      if null p then sret tt
      else let! c := deref p in delete_cell p ;! delete_from n (c_next c)
  end.

Definition delete_all : step A X unit := fun s =>
  (let! p := get_first in delete_from (fuel_of s) p) s.

(** An assignment to a counter of type [int], which must not overflow. *)
Definition set_cnt_int (v : Z) : step A X unit := if in_int v then set_cnt v else undefined.

(** Unlinking the element [p] from its neighbours and from the ends. *)
Definition unlink (p : option loc) : step A X unit :=
  let! c := deref p in
  (if null (c_prev c) then set_first (c_next c) else set_next (c_prev c) (c_next c)) ;!
  let! c := deref p in
  (if null (c_next c) then set_last (c_prev c) else set_prev (c_next c) (c_prev c)).

(** Linking the new element [p] behind the last one. *)
Definition link_last (p : option loc) : step A X unit :=
  let! first := get_first in
  if null first then set_first p ;! set_last p
  else
    let! last := get_last in
    set_prev p last ;!
    set_next last p ;!
    set_last p.
End Loops.

(** ** The list of the elements *)

Abbreviation elems A := (list (loc * A)).

Section Represents.
Context {A X : Type}.
(** Are the backward pointers kept, is there a pointer to the last element? *)
Context (back tail : bool).
Implicit Types (l : elems A) (h : gmap loc (cell A)) (s : linked A X).

Definition head_loc l (d : option loc) : option loc :=
  match l with [] => d | (p, _) :: _ => Some p end.
Fixpoint last_loc l (d : option loc) : option loc :=
  match l with [] => d | (p, _) :: l => last_loc l (Some p) end.

(** The elements [l] linked between [pr] and [nx]. *)
Fixpoint seg h (pr : option loc) l (nx : option loc) : Prop :=
  match l with
  | [] => True
  | (p, a) :: l' =>
      (exists q, (back = true -> q = pr) /\ h !! p = Some (Cell (head_loc l' nx) q a)) /\
      seg h (Some p) l' nx
  end.

(** The object holds exactly the elements [l], in this order. *)
Definition represents s l : Prop :=
  NoDup l.*1 /\ seg (cells s) None l None /\ l_first s = head_loc l None /\
  (tail = true -> l_last s = last_loc l None).

(** No element is on the heap but those of the list. *)
Definition no_leak s l : Prop := dom (cells s) = list_to_set l.*1.

Lemma head_loc_app l1 l2 d : head_loc (l1 ++ l2) d = head_loc l1 (head_loc l2 d).
Proof. by destruct l1 as [|[??]?]. Qed.

Lemma last_loc_app l1 l2 d : last_loc (l1 ++ l2) d = last_loc l2 (last_loc l1 d).
Proof. revert d. induction l1 as [|[p a] l1 IH]; intros d; simpl; [done|apply IH]. Qed.

Lemma last_loc_elem l d : l = [] \/ exists p, last_loc l d = Some p /\ p ∈ l.*1.
Proof.
  revert d. induction l as [|[p a] l IH]; intros d; [by left|right]. simpl.
  destruct (IH (Some p)) as [->|(q & -> & ?)]; [exists p|exists q]; split; [done|left|done|by right].
Qed.

Lemma seg_app h pr l1 l2 nx :
  seg h pr (l1 ++ l2) nx <-> seg h pr l1 (head_loc l2 nx) /\ seg h (last_loc l1 pr) l2 nx.
Proof.
  revert pr. induction l1 as [|[p a] l1 IH]; intros pr; simpl; [tauto|].
  rewrite IH, head_loc_app. tauto.
Qed.

(** Only the cells of the list matter. *)
Lemma seg_frame h h' pr l nx :
  (forall p, p ∈ l.*1 -> h' !! p = h !! p) -> seg h pr l nx -> seg h' pr l nx.
Proof.
  revert pr. induction l as [|[p a] l IH]; intros pr Hsame; simpl; [done|].
  intros [(q & Hq & Hp) Hl]. split.
  - exists q. split; [done|]. rewrite Hsame; [done|left].
  - apply IH; [|done]. intros. apply Hsame. by right.
Qed.

Lemma seg_insert h pr l nx p c : (p ∉ l.*1) -> seg h pr l nx -> seg (<[p := c]> h) pr l nx.
Proof. intros Hp. apply seg_frame. intros q Hq. apply lookup_insert_ne. by intros ->. Qed.

Lemma seg_delete h pr l nx p : (p ∉ l.*1) -> seg h pr l nx -> seg (delete p h) pr l nx.
Proof. intros Hp. apply seg_frame. intros q Hq. apply lookup_delete_ne. by intros ->. Qed.

(** The last element of a segment gets another successor, the first one
    another predecessor. *)
Lemma seg_relink_next h pr l nx nx' p c :
  NoDup l.*1 -> seg h pr l nx -> last_loc l None = Some p -> h !! p = Some c ->
  seg (<[p := Cell nx' (c_prev c) (c_val c)]> h) pr l nx'.
Proof.
  induction l as [|[q a] l _] using rev_ind; [done|].
  rewrite fmap_app, last_loc_app. intros (_ & Hd & _)%list.NoDup_app Hs [= ->] Hp.
  apply seg_app in Hs as [Hl [(q' & Hq' & Hq) _]]. apply seg_app. split.
  - apply seg_insert; [|done]. intros Hin. apply (Hd p Hin). left.
  - split; [|done]. exists q'. split; [done|].
    rewrite lookup_insert_eq. rewrite Hq in Hp. by simplify_eq.
Qed.

Lemma seg_relink_prev h pr pr' l nx p c :
  NoDup l.*1 -> seg h pr l nx -> head_loc l None = Some p -> h !! p = Some c ->
  seg (<[p := Cell (c_next c) pr' (c_val c)]> h) pr' l nx.
Proof.
  destruct l as [|[q a] l]; simpl; [done|].
  intros [? _]%list.NoDup_cons [(q' & Hq' & Hq) Hl] [= ->] Hp. split.
  - exists pr'. split; [done|]. rewrite lookup_insert_eq. rewrite Hq in Hp. by simplify_eq.
  - by apply seg_insert.
Qed.

(** A segment without backward links does not care for the predecessor. *)
Lemma seg_singly h pr pr' l nx : back = false -> seg h pr l nx -> seg h pr' l nx.
Proof.
  intros Hd. destruct l as [|[p a] l]; simpl; [done|].
  intros [(q & ? & ?) ?]. split; [|done]. exists q. rewrite Hd. done.
Qed.

Lemma seg_lookup h pr l nx p a : seg h pr l nx -> (p, a) ∈ l -> exists c, h !! p = Some c /\ c_val c = a.
Proof.
  revert pr. induction l as [|[q b] l IH]; intros pr; [by intros ? ?%elem_of_nil|].
  simpl. intros [(q' & _ & Hq) Hl] [[= -> ->]|Hin]%elem_of_cons; [eauto|by eapply IH].
Qed.

Lemma seg_dom h pr l nx p : seg h pr l nx -> p ∈ l.*1 -> p ∈ dom h.
Proof.
  intros Hs [[q a] [-> Hin]]%list_elem_of_fmap.
  destruct (seg_lookup _ _ _ _ _ _ Hs Hin) as (c & Hc & _). by apply elem_of_dom_2 in Hc.
Qed.

(** The heap has room for the list, so the fuel of the loops is enough. *)
Lemma seg_length h pr l nx : NoDup l.*1 -> seg h pr l nx -> (length l <= size h)%nat.
Proof.
  intros Hn Hs. rewrite <- (length_fmap fst l), <- size_dom.
  rewrite <- (size_list_to_set (C := gset loc) l.*1) by done.
  apply subseteq_size. intros p Hp%elem_of_list_to_set. by eapply seg_dom.
Qed.

(** ** Steps on a well-formed object *)

Definition first_where (ok : A -> bool) l : option (loc * A) :=
  snd <$> list_find (fun e => ok e.2 = true) l.

Lemma first_where_cons ok p a l :
  first_where ok ((p, a) :: l) = if ok a then Some (p, a) else first_where ok l.
Proof.
  unfold first_where. cbn [list_find]. case_decide as Hd; simpl in Hd.
  - by rewrite Hd.
  - rewrite (not_true_is_false _ Hd). by destruct (list_find _ l) as [[??]|].
Qed.

Lemma search_from_run n ok s pr l :
  seg (cells s) pr l None -> (length l < n)%nat ->
  search_from n ok (head_loc l None) s = Some (fst <$> first_where ok l, s).
Proof.
  revert pr l. induction n as [|n IH]; intros pr l Hs Hn; [lia|].
  destruct l as [|[p a] l]; [done|]. destruct Hs as [(q & _ & Hp) Hs]. rewrite first_where_cons.
  cbn [head_loc search_from null]. unfold sbind, deref. rewrite Hp. cbn [c_val c_next].
  destruct (ok a); [done|]. apply (IH (Some p)); [done|simpl in Hn; lia].
Qed.

Lemma search_run ok s l :
  represents s l -> search ok s = Some (fst <$> first_where ok l, s).
Proof.
  intros (Hn & Hs & Hf & _). unfold search, sbind, get_first. rewrite Hf.
  eapply search_from_run; [done|]. unfold fuel_of. pose proof (seg_length _ _ _ _ Hn Hs). lia.
Qed.

Lemma first_where_elem ok l p a : first_where ok l = Some (p, a) -> (p, a) ∈ l /\ ok a = true.
Proof.
  unfold first_where. intros [[i e] [Hf He]]%fmap_Some. simpl in He. subst e.
  apply list_find_Some in Hf as (Hl & Hok & _). split; [by eapply list_elem_of_lookup_2|done].
Qed.

Lemma first_where_split ok l p a : first_where ok l = Some (p, a) ->
  exists l1 l2, l = l1 ++ (p, a) :: l2 /\ ok a = true /\ Forall (fun e => ok e.2 = false) l1.
Proof.
  induction l as [|[q b] l IH]; [done|]. rewrite first_where_cons. destruct (ok b) eqn:E.
  - intros [= -> ->]. exists [], l. by split_and!.
  - intros (l1 & l2 & -> & Ha & Hl1)%IH. exists ((q, b) :: l1), l2. by split_and!; [| |constructor].
Qed.

Lemma first_where_none ok l : first_where ok l = None <-> Forall (fun e => ok e.2 = false) l.
Proof.
  induction l as [|[q b] l IH]; [done|].
  rewrite first_where_cons, list.Forall_cons. simpl. destruct (ok b); [split; [done|by intros []]|tauto].
Qed.

Lemma represents_deref s l p a :
  represents s l -> (p, a) ∈ l -> exists c, deref (Some p) s = Some (c, s) /\ c_val c = a.
Proof.
  intros (_ & Hs & _) Hin. destruct (seg_lookup _ _ _ _ _ _ Hs Hin) as (c & Hc & Ha).
  exists c. unfold deref. by rewrite Hc.
Qed.

(** What every relinking step leaves alone. *)
Definition keeps s s' : Prop :=
  l_cnt s' = l_cnt s /\ l_more s' = l_more s /\ dom (cells s') = dom (cells s).

Lemma keeps_trans s1 s2 s3 : keeps s1 s2 -> keeps s2 s3 -> keeps s1 s3.
Proof. intros (?&?&?) (?&?&?). split_and!; congruence. Qed.

Lemma write_run s p f c : cells s !! p = Some c ->
  write (Some p) f s = Some (tt, set_cells s (<[p := f c]> (cells s))) /\
  keeps s (set_cells s (<[p := f c]> (cells s))).
Proof.
  intros Hp. unfold write. rewrite Hp. split; [done|]. split_and!; [done|done|].
  simpl. apply dom_insert_lookup_L. by exists c.
Qed.

(** Giving the elements before a place another successor. *)
Lemma relink_next_run s l nx v :
  NoDup l.*1 -> seg (cells s) None l nx ->
  exists s', (if null (last_loc l None) then set_first v else set_next (last_loc l None) v) s = Some (tt, s') /\
    keeps s s' /\ seg (cells s') None l v /\ l_last s' = l_last s /\
    (forall d, l_first s = head_loc l d -> l_first s' = head_loc l v) /\
    (forall q, (q ∉ l.*1) -> cells s' !! q = cells s !! q).
Proof.
  intros Hn Hs. destruct (last_loc_elem l None) as [->|(p & Hp & Hin)].
  { eexists. split; [reflexivity|]. by split_and!. }
  pose proof Hin as [[q c] [-> Hc]]%list_elem_of_fmap. simpl in *.
  destruct (seg_lookup _ _ _ _ _ _ Hs Hc) as (cc & Hcc & _).
  rewrite Hp. cbn [null]. unfold set_next.
  destruct (write_run s q (fun c => Cell v (c_prev c) (c_val c)) cc Hcc) as [-> Hk].
  eexists. split; [reflexivity|]. split_and!; [done| |done| |].
  - by eapply seg_relink_next.
  - intros d. simpl. by destruct l as [|[??]?].
  - intros q' Hq'. simpl. apply lookup_insert_ne. by intros ->.
Qed.

(** Giving the elements behind a place another predecessor. *)
Lemma relink_prev_run s pr l v :
  NoDup l.*1 -> seg (cells s) pr l None ->
  exists s', (if null (head_loc l None) then set_last v else set_prev (head_loc l None) v) s = Some (tt, s') /\
    keeps s s' /\ seg (cells s') v l None /\ l_first s' = l_first s /\
    (forall d, l_last s = last_loc l d -> l_last s' = last_loc l v) /\
    (forall q, (q ∉ l.*1) -> cells s' !! q = cells s !! q).
Proof.
  intros Hn Hs. destruct l as [|[p a] l].
  { eexists. split; [reflexivity|]. by split_and!. }
  pose proof Hs as [(q & _ & Hp) _]. cbn [head_loc null]. unfold set_prev.
  destruct (write_run s p (fun c => Cell (c_next c) v (c_val c)) _ Hp) as [-> Hk].
  eexists. split; [reflexivity|]. split_and!; [done| |done|done|].
  - by eapply seg_relink_prev.
  - intros q' Hq'. simpl. apply lookup_insert_ne. intros ->. apply Hq'. left.
Qed.

Lemma represents_nodup s l : represents s l -> NoDup l.*1.
Proof. by intros []. Qed.

Lemma new_run s l a : represents s l ->
  exists p s', new a s = Some (Some p, s') /\ (p ∉ dom (cells s)) /\ (p ∉ l.*1) /\ represents s' l /\
    cells s' = <[p := Cell None None a]> (cells s) /\ l_cnt s' = l_cnt s /\ l_more s' = l_more s.
Proof.
  intros (Hn & Hs & Hf & Hl). set (p := fresh (dom (cells s))).
  assert (Hp : (p ∉ dom (cells s))) by apply is_fresh.
  assert (Hpl : (p ∉ l.*1)) by (intros Hin; by eapply Hp, seg_dom).
  exists p, (set_cells s (<[p := Cell None None a]> (cells s))).
  split_and!; try done. split_and!; [done| |done|done]. by apply seg_insert.
Qed.

Lemma delete_run s l p : represents s l -> (p ∉ l.*1) -> p ∈ dom (cells s) ->
  exists s', delete_cell (Some p) s = Some (tt, s') /\ represents s' l /\
    dom (cells s') = dom (cells s) ∖ {[p]} /\ l_cnt s' = l_cnt s /\ l_more s' = l_more s.
Proof.
  intros (Hn & Hs & Hf & Hl) Hp [c Hc]%elem_of_dom. unfold delete_cell. rewrite Hc.
  eexists. split; [reflexivity|]. split_and!; try done; [|apply dom_delete_L].
  split_and!; [done| |done|done]. by apply seg_delete.
Qed.

Lemma link_last_run s l p a : tail = true ->
  represents s l -> (p ∉ l.*1) -> cells s !! p = Some (Cell None None a) ->
  exists s', link_last (Some p) s = Some (tt, s') /\ represents s' (l ++ [(p, a)]) /\ keeps s s'.
Proof.
  intros Hd (Hn & Hs & Hf & Hl) Hp Hc. unfold link_last, sbind at 1, get_first at 1. rewrite Hf.
  destruct (decide (l = [])) as [->|Hne].
  { eexists. split; [reflexivity|]. split; [|done]. split_and!; [apply list.NoDup_singleton| |done|done].
    split; [|done]. by exists None. }
  replace (null (head_loc l None)) with false by by destruct l as [|[??]?].
  unfold sbind, get_last. rewrite (Hl Hd). unfold set_prev.
  destruct (write_run s p (fun c => Cell (c_next c) (last_loc l None) (c_val c)) _ Hc) as [-> Hk].
  set (s1 := set_cells s _).
  assert (Hs1 : seg (cells s1) None l None) by by apply seg_insert.
  destruct (relink_next_run s1 l None (Some p) Hn Hs1) as (s2 & Hrun & Hk2 & Hs2 & _ & Hfirst & Hsame).
  assert (null (last_loc l None) = false) as Hnull.
  { destruct (last_loc_elem l None) as [|(q & -> & _)]; [done|done]. }
  rewrite Hnull in Hrun. rewrite Hrun. eexists. split; [reflexivity|]. split.
  - split_and!.
    + rewrite fmap_app. apply list.NoDup_app. split_and!; [done| |apply list.NoDup_singleton].
      intros q Hq ->%list_elem_of_singleton. done.
    + apply seg_app. split; [done|]. split; [|done]. exists (last_loc l None). split; [done|].
      cbn. rewrite Hsame by done. simpl. by rewrite lookup_insert_eq.
    + simpl. rewrite (Hfirst None) by done. by destruct l as [|[??]?].
    + intros _. by rewrite last_loc_app.
  - eapply keeps_trans; [exact Hk|]. by destruct Hk2 as (?&?&?).
Qed.

Lemma nodup_middle l1 l2 p a : NoDup (l1 ++ (p, a) :: l2).*1 ->
  NoDup (l1 ++ l2).*1 /\ (p ∉ (l1 ++ l2).*1) /\ NoDup l1.*1 /\ NoDup l2.*1 /\ (p ∉ l1.*1) /\ (p ∉ l2.*1) /\
  (forall q, q ∈ l1.*1 -> (q ∉ l2.*1)).
Proof.
  rewrite !fmap_app. simpl. intros (H1 & Hd & (Hp & H2)%list.NoDup_cons)%list.NoDup_app.
  assert (Hp1 : (p ∉ l1.*1)) by (intros Hin; apply (Hd p Hin); left).
  assert (Hd' : forall q, q ∈ l1.*1 -> (q ∉ l2.*1)) by (intros q Hq Hin; apply (Hd q Hq); by right).
  split_and!; try done.
  - by apply list.NoDup_app.
  - by rewrite elem_of_app; intros [].
Qed.

Lemma unlink_run s l1 l2 p a : back = true -> tail = true ->
  represents s (l1 ++ (p, a) :: l2) ->
  exists s', unlink (Some p) s = Some (tt, s') /\ represents s' (l1 ++ l2) /\ keeps s s' /\
    cells s' !! p = cells s !! p.
Proof.
  intros Hd Ht (Hn & Hs & Hf & Hl).
  destruct (nodup_middle _ _ _ _ Hn) as (Hn12 & Hp & Hn1 & Hn2 & Hp1 & Hp2 & Hdisj).
  pose proof Hs as [Hs1 [(q & Hq & Hc) Hs2]]%seg_app. rewrite (Hq Hd) in Hc. simpl in Hs1.
  rewrite head_loc_app in Hf. rewrite last_loc_app in Hl. specialize (Hl Ht). simpl in Hf, Hl.
  unfold unlink, sbind at 1, deref at 1. rewrite Hc. cbn [c_prev c_next].
  destruct (relink_next_run s l1 (Some p) (head_loc l2 None) Hn1 Hs1)
    as (s1 & Hrun1 & Hk1 & Hseg1 & Hlast1 & Hfirst1 & Hsame1).
  unfold sbind at 1. rewrite Hrun1. unfold sbind at 1, deref at 1. rewrite Hsame1, Hc by done.
  cbn [c_prev c_next].
  assert (Hs2' : seg (cells s1) (Some p) l2 None).
  { eapply seg_frame; [|exact Hs2]. intros r Hr. apply Hsame1. intros Hin. by eapply Hdisj. }
  destruct (relink_prev_run s1 (Some p) l2 (last_loc l1 None) Hn2 Hs2')
    as (s2 & Hrun2 & Hk2 & Hseg2 & Hfirst2 & Hlast2 & Hsame2).
  rewrite Hrun2. eexists. split; [reflexivity|].
  split; [|split; [by eapply keeps_trans|by rewrite Hsame2, Hsame1]]. split_and!; [done| | |].
  - apply seg_app. split; [|done]. eapply seg_frame; [|exact Hseg1]. intros r Hr. by apply Hsame2, Hdisj.
  - rewrite Hfirst2, head_loc_app. by apply (Hfirst1 (Some p)).
  - intros _. rewrite last_loc_app. apply (Hlast2 (Some p)). congruence.
Qed.

Lemma delete_from_run n s pr l : NoDup l.*1 -> seg (cells s) pr l None -> (length l < n)%nat ->
  exists s', delete_from n (head_loc l None) s = Some (tt, s') /\
    dom (cells s') = dom (cells s) ∖ list_to_set l.*1 /\
    l_first s' = l_first s /\ l_last s' = l_last s /\ l_cnt s' = l_cnt s /\ l_more s' = l_more s.
Proof.
  revert s pr l. induction n as [|n IH]; intros s pr l Hn Hs Hlen; [lia|].
  destruct l as [|[p a] l]; [exists s; split_and!; [done|symmetry; apply difference_empty_L|done..]|].
  destruct Hs as [(q & _ & Hp) Hs]. apply list.NoDup_cons in Hn as [Hp' Hn].
  cbn [head_loc delete_from null]. unfold sbind, deref, delete_cell. rewrite Hp. cbn [c_next]. rewrite Hp.
  destruct (IH (set_cells s (delete p (cells s))) (Some p) l Hn) as (s' & -> & Hdom & Hrest);
    [by apply seg_delete|simpl in *; lia|].
  exists s'. split; [done|]. split; [|done]. rewrite Hdom. simpl.
  by rewrite dom_delete_L, difference_difference_l_L.
Qed.

Lemma delete_all_run s l : represents s l ->
  exists s', delete_all s = Some (tt, s') /\ dom (cells s') = dom (cells s) ∖ list_to_set l.*1 /\
    l_first s' = l_first s /\ l_last s' = l_last s /\ l_cnt s' = l_cnt s /\ l_more s' = l_more s.
Proof.
  intros (Hn & Hs & Hf & _). unfold delete_all, sbind, get_first.
  pose proof (delete_from_run (fuel_of s) s None l Hn Hs) as Hrun. rewrite <- Hf in Hrun.
  apply Hrun. unfold fuel_of. pose proof (seg_length _ _ _ _ Hn Hs). lia.
Qed.

(** Changing the counter or the further members does not touch the list. *)
Lemma represents_members s s' l :
  cells s' = cells s -> l_first s' = l_first s -> l_last s' = l_last s ->
  represents s l -> represents s' l.
Proof. unfold represents. by intros -> -> ->. Qed.

Lemma represents_empty s : l_first s = None -> l_last s = None -> represents s [].
Proof. intros. split; [constructor|]. by split_and!. Qed.

Lemma no_leak_empty s : no_leak s [] -> cells s = ∅.
Proof. unfold no_leak. simpl. apply dom_empty_inv_L. Qed.
End Represents.

(** ** Objects that own their elements *)

(** The heap holds the elements of the list and nothing else. *)
Definition owns {A X} (back tail : bool) (s : linked A X) (l : elems A) : Prop :=
  represents back tail s l /\ no_leak s l.

Section Owns.
Context {A X : Type}.
Implicit Types (l : elems A) (s : linked A X).

Lemma dom_app_elem l1 l2 (p : loc) (a : A) :
  (p ∉ (l1 ++ l2).*1) ->
  list_to_set (C := gset loc) (l1 ++ (p, a) :: l2).*1 ∖ {[p]} = list_to_set (l1 ++ l2).*1.
Proof.
  intros Hp. apply set_eq. intros q.
  rewrite elem_of_difference, elem_of_singleton, !elem_of_list_to_set, !fmap_app, !elem_of_app in *.
  cbn [fmap list_fmap fst]. rewrite elem_of_cons. split; [tauto|].
  intros Hin. split; [tauto|]. by intros ->.
Qed.

Lemma remove_run s l1 l2 p a : owns true true s (l1 ++ (p, a) :: l2) ->
  exists s', (unlink (Some p) ;! delete_cell (Some p)) s = Some (tt, s') /\
    owns true true s' (l1 ++ l2) /\ l_cnt s' = l_cnt s /\ l_more s' = l_more s.
Proof.
  intros [Hr Hdom]. destruct (nodup_middle _ _ _ _ (represents_nodup _ _ _ _ Hr)) as (_ & Hp & _).
  destruct (unlink_run true true s l1 l2 p a eq_refl eq_refl Hr) as (s1 & Hun & Hr1 & (Hc1 & Hm1 & Hd1) & _).
  assert (Hin : p ∈ dom (cells s1)).
  { rewrite Hd1, Hdom. apply elem_of_list_to_set. rewrite fmap_app. apply elem_of_app. right. left. }
  destruct (delete_run true true s1 _ p Hr1 Hp Hin) as (s2 & Hdel & Hr2 & Hd2 & Hc2 & Hm2).
  exists s2. unfold sbind. rewrite Hun, Hdel. split; [done|]. split; [split; [done|]|split; congruence].
  unfold no_leak. rewrite Hd2, Hd1, Hdom. by apply dom_app_elem.
Qed.

Lemma owns_new s l a back tail : owns back tail s l ->
  exists p s', new a s = Some (Some p, s') /\ (p ∉ dom (cells s)) /\ (p ∉ l.*1) /\
    represents back tail s' l /\ cells s' = <[p := Cell None None a]> (cells s) /\
    dom (cells s') = list_to_set (l ++ [(p, a)]).*1 /\ l_cnt s' = l_cnt s /\ l_more s' = l_more s.
Proof.
  intros [Hr Hdom]. destruct (new_run back tail s l a Hr) as (p & s' & Hnew & Hp & Hpl & Hr' & Hc & Hrest).
  exists p, s'. split_and!; try apply Hrest; try done.
  rewrite Hc, dom_insert_L, Hdom, fmap_app, list_to_set_app_L. cbn.
  by rewrite union_empty_r_L, union_comm_L.
Qed.

(** Orders in which the code links a new last element. *)
Lemma link_last_tail_first s p : l_first s <> None ->
  (let! q := get_last in set_last p ;! set_prev p q ;! set_next q p) s = link_last p s.
Proof.
  intros Hf. unfold link_last, sbind, get_first, get_last, set_last. destruct (l_first s) eqn:Ef; [|done].
  cbn [null]. unfold set_prev, set_next, write. destruct p as [p|]; [|done]. cbn [cells l_last].
  destruct (cells s !! p); [|done]. destruct (l_last s) as [q|]; [|done]. unfold set_cells. cbn.
  destruct (<[p:=_]> (cells s) !! q); [|done]. cbn. by rewrite Ef.
Qed.

Lemma link_last_next_first s p q c : l_first s <> None -> l_last s = Some q -> p <> q ->
  cells s !! p = Some c ->
  (let! q := get_last in set_next q (Some p) ;! set_prev (Some p) q ;! set_last (Some p)) s = link_last (Some p) s.
Proof.
  intros Hf Hl Hpq Hp. unfold link_last, sbind, get_first, get_last. destruct (l_first s) eqn:Ef; [|done].
  cbn [null]. rewrite Hl. unfold set_prev, set_next, write. rewrite Hp. cbn [cells set_cells].
  rewrite lookup_insert_ne by done. destruct (cells s !! q) eqn:Hq; [|done].
  cbn [cells set_cells]. rewrite lookup_insert_ne by done. rewrite Hp. unfold set_last, set_cells. cbn.
  by rewrite insert_insert_ne.
Qed.

Lemma link_last_one s p q : l_first s = Some q -> l_last s = Some q ->
  (set_prev p (Some q) ;! set_last p ;! set_next (Some q) p) s = link_last p s.
Proof.
  intros Hf Hl. unfold link_last, sbind, get_first, get_last. rewrite Hf. cbn [null]. rewrite Hl.
  unfold set_prev, set_next, write. destruct p as [p|]; [|done]. destruct (cells s !! p); [|done].
  unfold set_cells, set_last. cbn. by destruct (<[p:=_]> (cells s) !! q).
Qed.

Lemma append_run s l a back : owns back true s l ->
  exists p s1 s', new a s = Some (Some p, s1) /\ (p ∉ l.*1) /\ represents back true s1 l /\
    cells s1 !! p = Some (Cell None None a) /\ link_last (Some p) s1 = Some (tt, s') /\
    owns back true s' (l ++ [(p, a)]) /\ l_cnt s' = l_cnt s /\ l_more s' = l_more s.
Proof.
  intros Ho. destruct (owns_new s l a _ _ Ho) as (p & s1 & Hnew & Hp & Hpl & Hr & Hc & Hdom & Hcnt & Hmore).
  destruct (link_last_run back true s1 l p a eq_refl Hr Hpl) as (s' & Hrun & Hr' & Hk1 & Hk2 & Hk3).
  { by rewrite Hc, lookup_insert_eq. }
  exists p, s1, s'. do 3 (split; [done|]). split; [by rewrite Hc, lookup_insert_eq|].
  split; [done|]. split; [split; [done|]|split; congruence].
  unfold no_leak. congruence.
Qed.

Lemma clear_run s l back tail : owns back tail s l ->
  exists s', delete_all s = Some (tt, s') /\ cells s' = ∅ /\ l_more s' = l_more s.
Proof.
  intros [Hr Hdom]. destruct (delete_all_run _ _ _ _ Hr) as (s' & Hrun & Hd & _ & _ & _ & Hm).
  exists s'. split_and!; [done| |done]. apply dom_empty_inv_L. rewrite Hd, Hdom. apply difference_diag_L.
Qed.

Lemma owns_members s s' l back tail :
  cells s' = cells s -> l_first s' = l_first s -> l_last s' = l_last s ->
  owns back tail s l -> owns back tail s' l.
Proof.
  intros Hc Hf Hl [Hr Hd]. split; [by eapply represents_members|]. unfold no_leak. by rewrite Hc.
Qed.

Lemma owns_empty s back tail : cells s = ∅ -> l_first s = None -> l_last s = None -> owns back tail s [].
Proof. intros Hc Hf Hl. split; [by apply represents_empty|]. unfold no_leak. by rewrite Hc. Qed.
End Owns.

(** One element on the heap. *)
Definition single {A X} (a : A) (x : X) : linked A X :=
  Linked {[1%positive := Cell None None a]} (Some 1%positive) (Some 1%positive) 1 x.

Lemma single_owns {A X} (a : A) (x : X) back tail : owns back tail (single a x) [(1%positive, a)].
Proof.
  split; [|unfold no_leak; simpl; rewrite dom_singleton_L; by rewrite union_empty_r_L].
  split; [apply list.NoDup_singleton|]. split; [|done]. split; [|done]. exists None. by split.
Qed.

(** ** Tables: lists with a key *)

Section Keyed.
Context {A K V : Type} `{Countable K} (f : A -> K * V).
Implicit Types (l : elems A).

(** The finite map a list of elements stands for, and its keys. *)
Definition keyed l : gmap K V := list_to_map ((fun e => f e.2) <$> l).
Definition keys l : list K := (fun e => (f e.2).1) <$> l.

Lemma keys_fst l : ((fun e : loc * A => f e.2) <$> l).*1 = keys l.
Proof. unfold keys. by rewrite <- list_fmap_compose. Qed.

Lemma keyed_lookup ok k l : (forall a, ok a = bool_decide ((f a).1 = k)) ->
  keyed l !! k = (fun e => (f e.2).2) <$> first_where ok l.
Proof.
  intros Hok. induction l as [|[p a] l IH]; [done|]. rewrite first_where_cons, Hok.
  unfold keyed. cbn [fmap list_fmap list_to_map foldr]. fold (keyed l). simpl.
  destruct (f a) as [k' v] eqn:Hf. simpl. case_bool_decide as Hk.
  - subst k'. rewrite lookup_insert_eq. simpl. by rewrite Hf.
  - by rewrite lookup_insert_ne.
Qed.

Lemma keyed_middle l1 l2 p a : NoDup (keys (l1 ++ (p, a) :: l2)) ->
  keyed (l1 ++ (p, a) :: l2) = <[(f a).1 := (f a).2]> (keyed (l1 ++ l2)) /\
  keyed (l1 ++ l2) !! (f a).1 = None /\ NoDup (keys (l1 ++ l2)).
Proof.
  intros Hn.
  assert (Hperm : keys (l1 ++ (p, a) :: l2) ≡ₚ (f a).1 :: keys (l1 ++ l2)).
  { unfold keys. by rewrite <- Permutation_middle. }
  split_and!.
  - unfold keyed. rewrite (list_to_map_proper _ (f a :: ((fun e => f e.2) <$> (l1 ++ l2)))).
    + cbn. by destruct (f a).
    + by rewrite keys_fst.
    + by rewrite <- Permutation_middle.
  - apply not_elem_of_list_to_map_1. rewrite keys_fst. rewrite Hperm in Hn.
    by apply list.NoDup_cons in Hn as [].
  - rewrite Hperm in Hn. by apply list.NoDup_cons in Hn as [].
Qed.

Lemma keyed_remove l1 l2 p a : NoDup (keys (l1 ++ (p, a) :: l2)) ->
  keyed (l1 ++ l2) = delete (f a).1 (keyed (l1 ++ (p, a) :: l2)) /\ NoDup (keys (l1 ++ l2)).
Proof. intros (-> & Hnone & Hn)%keyed_middle. split; [|done]. by rewrite delete_insert_id. Qed.

Lemma keyed_snoc l p a : NoDup (keys l) -> keyed l !! (f a).1 = None ->
  keyed (l ++ [(p, a)]) = <[(f a).1 := (f a).2]> (keyed l) /\ NoDup (keys (l ++ [(p, a)])).
Proof.
  intros Hn Hnone.
  assert (Hn' : NoDup (keys (l ++ [(p, a)]))).
  { unfold keys. rewrite fmap_app. apply list.NoDup_app. split; [done|]. split; [|apply list.NoDup_singleton].
    intros k Hk ->%list_elem_of_singleton. unfold keyed in Hnone.
    apply not_elem_of_list_to_map_2 in Hnone. by rewrite keys_fst in Hnone. }
  split; [|done]. destruct (keyed_middle l [] p a Hn') as (-> & _). by rewrite app_nil_r.
Qed.

Lemma keyed_elem l k v : NoDup (keys l) -> keyed l !! k = Some v <-> exists p a, (p, a) ∈ l /\ f a = (k, v).
Proof.
  intros Hn. unfold keyed. rewrite <- elem_of_list_to_map by by rewrite keys_fst.
  rewrite list_elem_of_fmap. split.
  - intros [[p a] [Heq Hin]]. exists p, a. by split.
  - intros (p & a & Hin & Heq). by exists (p, a).
Qed.

Lemma keyed_size l : NoDup (keys l) -> size (keyed l) = length l.
Proof. intros. unfold keyed. by rewrite map_size_list_to_map, length_fmap by by rewrite keys_fst. Qed.
End Keyed.
