(* ===== verification/GWTables.v ===== *)
(** * Tables and queues of the gateway

    TopicIdMap (MQTTSNGWTopic.cpp), MessageIdTable (MQTTSNGWMessageIdTable.cpp),
    WaitREGACKPacketList (MQTTSNGWClient.cpp) and the templates Que
    (MQTTSNGWProcess.h) and PacketQue (MQTTSNGWClient.h), as linked objects on a
    heap, and what they implement: finite maps, an injective table of message
    identifiers, and a bounded first-in first-out queue. *)

From S2P Require Import Prelude GWHeap SNPacket.

(** ** Message identifier to topic: TopicIdMap *)

Definition MAX_INFLIGHTMESSAGES : Z := 10.

Record TopicIdMapElement := mkTopicIdMapElement {
  tme_msgId : Z;
  tme_topicId : Z;
  tme_type : Z;
}.

(** The further member is [_maxInflight]. *)
Abbreviation TopicIdMap := (linked TopicIdMapElement Z).

Definition newTopicIdMap : TopicIdMap := Linked ∅ None None 0 MAX_INFLIGHTMESSAGES.

Definition TopicIdMap_getElement (msgId : Z) : step TopicIdMapElement Z (option loc) :=
  search (fun e => tme_msgId e =? msgId).

Definition TopicIdMap_erase (msgId : Z) : step TopicIdMapElement Z unit :=
  let! p := search (fun e => tme_msgId e =? msgId) in
  (if null p then sret tt else unlink p ;! delete_cell p) ;!
  let! cnt := get_cnt in
  set_cnt_int (cnt - 1).

Definition TopicIdMap_add (msgId topicId type : Z) : step TopicIdMapElement Z (option loc) :=
  let! cnt := get_cnt in
  let! maxInflight := get_more in
  if (maxInflight * 2 <? cnt) || ((topicId =? 0) && negb (type =? MQTTSN_TOPIC_TYPE_SHORT)) then sret None
  else
    let! old := TopicIdMap_getElement msgId in
    (if null old then sret tt else TopicIdMap_erase msgId) ;!
    let! elm := new (mkTopicIdMapElement msgId topicId type) in
    link_last elm ;!
    let! cnt := get_cnt in
    set_cnt_int (cnt + 1) ;!
    sret elm.

Definition TopicIdMap_clear : step TopicIdMapElement Z unit :=
  delete_all ;! set_first None ;! set_last None ;! set_cnt 0.

(** ** Message identifiers of aggregated clients: MessageIdTable *)

Definition MAX_MESSAGEID_TABLE_SIZE : Z := 500.

(** A client is known by its address. *)
Record MessageIdElement := mkMessageIdElement {
  mie_msgId : Z;
  mie_client : loc;
  mie_clientMsgId : Z;
}.

Definition set_mie_msgId (e : MessageIdElement) (id : Z) : MessageIdElement :=
  mkMessageIdElement id (mie_client e) (mie_clientMsgId e).

(** The further members are [_maxSize] and, of the client of the aggregater
    that [add] is given, the packet identifier used last. *)
Record MessageIdMore := mkMessageIdMore { mit_maxSize : Z; agg_packetId : Z }.
Abbreviation MessageIdTable := (linked MessageIdElement MessageIdMore).

Definition newMessageIdTable (packetId : Z) : MessageIdTable :=
  Linked ∅ None None 0 (mkMessageIdMore MAX_MESSAGEID_TABLE_SIZE packetId).

(** Client::getNextPacketId, on the member [_packetId]. *)
Definition next_packetId (packetId : Z) : Z :=
  let packetId := u16 (packetId + 1) in
  if packetId =? 65535 then 1 else packetId.

(** Aggregater::msgId: the next packet identifier of its secure client. *)
Definition Aggregater_msgId : step MessageIdElement MessageIdMore Z :=
  let! more := get_more in
  let id := next_packetId (agg_packetId more) in
  set_more (mkMessageIdMore (mit_maxSize more) id) ;!
  sret id.

Definition MessageIdTable_find (msgId : Z) : step MessageIdElement MessageIdMore (option loc) :=
  search (fun e => mie_msgId e =? msgId).

Definition MessageIdTable_find_client (client : loc) (clientMsgId : Z) :
    step MessageIdElement MessageIdMore (option loc) :=
  search (fun e => (mie_clientMsgId e =? clientMsgId) && bool_decide (mie_client e = client)).

Definition set_val {A X} (p : option loc) (f : A -> A) : step A X unit :=
  write p (fun c => Cell (c_next c) (c_prev c) (f (c_val c))).

Definition MessageIdTable_add (client : loc) (clientMsgId : Z) :
    step MessageIdElement MessageIdMore (option loc) :=
  let! cnt := get_cnt in
  let! more := get_more in
  if mit_maxSize more <? cnt then sret None
  else
    let! elm := new (mkMessageIdElement 0 client clientMsgId) in
    let! head := get_first in
    if null head then
      let! id := Aggregater_msgId in
      set_val elm (fun e => set_mie_msgId e id) ;!
      set_first elm ;!
      set_last elm ;!
      set_cnt_int (cnt + 1) ;!
      sret elm
    else
      let! p := MessageIdTable_find_client client clientMsgId in
      if null p then
        let! id := Aggregater_msgId in
        set_val elm (fun e => set_mie_msgId e id) ;!
        let! p := get_last in
        set_last elm ;!
        set_prev elm p ;!
        set_next p elm ;!
        set_cnt_int (cnt + 1) ;!
        sret elm
      else
        delete_cell elm ;!
        sret None.

Definition MessageIdTable_clear (elm : option loc) : step MessageIdElement MessageIdMore unit :=
  if null elm then sret tt
  else
    let! c := deref elm in
    if null (c_prev c) then
      set_first (c_next c) ;!
      let! head := get_first in
      (if null head then set_last None else set_prev head None) ;!
      delete_cell elm ;!
      let! cnt := get_cnt in set_cnt_int (cnt - 1)
    else
      set_next (c_prev c) (c_next c) ;!
      (if null (c_next c) then set_last (c_prev c) else set_prev (c_next c) (c_prev c)) ;!
      delete_cell elm ;!
      let! cnt := get_cnt in set_cnt_int (cnt - 1).

(** The client and its message identifier, null and 0 for an unknown one. *)
Definition MessageIdTable_getClientMsgId (msgId : Z) :
    step MessageIdElement MessageIdMore (option loc * Z) :=
  let! p := MessageIdTable_find msgId in
  if null p then sret (None, 0)
  else
    let! c := deref p in
    MessageIdTable_clear p ;!
    sret (Some (mie_client (c_val c)), mie_clientMsgId (c_val c)).

Definition MessageIdTable_erase (msgId : Z) : step MessageIdElement MessageIdMore unit :=
  let! p := MessageIdTable_find msgId in MessageIdTable_clear p.

Definition MessageIdTable_getMsgId (client : loc) (clientMsgId : Z) : step MessageIdElement MessageIdMore Z :=
  let! p := MessageIdTable_find_client client clientMsgId in
  if null p then sret 0 else let! c := deref p in sret (mie_msgId (c_val c)).

(** The loop of the destructor: the element is read after it was deleted. *)
Fixpoint MessageIdTable_destroy (n : nat) (p : option loc) : step MessageIdElement MessageIdMore unit :=
  match n with
  | O => undefined
  | S n =>
      if null p then set_first None ;! set_last None
      else
        delete_cell p ;!
        let! cnt := get_cnt in
        set_cnt_int (cnt - 1) ;!
        let! c := deref p in
        MessageIdTable_destroy n (c_prev c)
  end.

Definition destroyMessageIdTable : step MessageIdElement MessageIdMore unit := fun s =>
  (let! head := get_first in
   if null head then sret tt
   else let! p := get_last in MessageIdTable_destroy (fuel_of s) p) s.

(** Aggregater::addMessageIdTable and convertClient. *)
Definition addMessageIdTable (client : loc) (msgId : Z) : step MessageIdElement MessageIdMore Z :=
  let! elm := MessageIdTable_add client msgId in
  if null elm then sret 0 else let! c := deref elm in sret (mie_msgId (c_val c)).

(** ** Packets that wait for a REGACK: WaitREGACKPacketList *)

Section WaitREGACK.
Context {Packet : Type}.

Record waitREGACKPacket := mkWaitREGACKPacket { wr_msgId : Z; wr_packet : Packet }.

Definition newWaitREGACKPacketList : linked waitREGACKPacket unit := Linked ∅ None None 0 tt.

Definition WaitREGACK_setPacket (packet : Packet) (msgId : Z) : step waitREGACKPacket unit Z :=
  let! elm := new (mkWaitREGACKPacket msgId packet) in
  let! first := get_first in
  (if null first then set_first elm ;! set_last elm
   else
     let! last := get_last in
     set_next last elm ;!
     set_prev elm last ;!
     set_last elm) ;!
  let! cnt := get_cnt in
  set_cnt (u8 (cnt + 1)) ;!
  sret 1.

Definition WaitREGACK_getPacket (msgId : Z) : step waitREGACKPacket unit (option Packet) :=
  let! p := search (fun e => wr_msgId e =? msgId) in
  if null p then sret None else let! c := deref p in sret (Some (wr_packet (c_val c))).

Definition WaitREGACK_erase (msgId : Z) : step waitREGACKPacket unit unit :=
  let! p := search (fun e => wr_msgId e =? msgId) in
  if null p then sret tt
  else
    unlink p ;!
    let! cnt := get_cnt in
    set_cnt (u8 (cnt - 1)).

Definition WaitREGACK_getCount : step waitREGACKPacket unit Z := get_cnt.
End WaitREGACK.
Arguments waitREGACKPacket : clear implicits.

(** ** Queues: Que and PacketQue *)

Section Que.
Context {T : Type}.

(** The further member is [_maxSize]; 0 stands for no limit. *)
Definition newQue : linked T Z := Linked ∅ None None 0 0.

Definition Que_setMaxSize (maxSize : Z) : step T Z unit := set_more maxSize.

Definition Que_size : step T Z Z := get_cnt.

Definition Que_front : step T Z (option T) :=
  let! head := get_first in
  if null head then sret None else let! c := deref head in sret (Some (c_val c)).

Definition Que_pop : step T Z unit :=
  let! head := get_first in
  if null head then sret tt
  else
    let! tail := get_last in
    (if bool_decide (head = tail) then set_first None ;! set_last None
     else let! c := deref head in set_first (c_next c) ;! set_prev head None) ;!
    delete_cell head ;!
    let! cnt := get_cnt in
    set_cnt_int (cnt - 1).

(** [t] is the element or a null pointer. *)
Definition Que_post (t : option T) : step T Z Z :=
  let! maxSize := get_more in
  let! cnt := get_cnt in
  match t with
  | Some t =>
      if (maxSize =? 0) || (cnt <? maxSize) then
        let! elm := new t in
        let! head := get_first in
        let! tail := get_last in
        (if null head then set_first elm ;! set_last elm
         else if bool_decide (tail = head) then set_prev elm tail ;! set_last elm ;! set_next head elm
         else set_next tail elm ;! set_prev elm tail ;! set_last elm) ;!
        set_cnt_int (cnt + 1) ;!
        sret (cnt + 1)
      else sret 0
  | None => sret 0
  end.

Definition PacketQue_getPacket : step T Z (option T) :=
  let! size := Que_size in
  if 0 <? size then Que_front else sret None.

Definition PacketQue_pop : step T Z unit :=
  let! size := Que_size in
  if 0 <? size then Que_pop else sret tt.

Fixpoint PacketQue_clear_loop (n : nat) : step T Z unit :=
  match n with
  | O => undefined
  | S n =>
      let! size := Que_size in
      if 0 <? size then Que_front ;! Que_pop ;! PacketQue_clear_loop n else sret tt
  end.
Definition PacketQue_clear : step T Z unit := fun s => PacketQue_clear_loop (fuel_of s) s.
End Que.

(** ** TopicIdMap implements a finite map *)

Definition tm_entry (e : TopicIdMapElement) : Z * (Z * Z) := (tme_msgId e, (tme_topicId e, tme_type e)).

(** The object holds the map [m]: elements linked both ways, none leaked, one
    per message identifier, and counted. *)
Definition tm_holds (s : TopicIdMap) (m : gmap Z (Z * Z)) : Prop :=
  exists l, owns true true s l /\ NoDup (keys tm_entry l) /\ keyed tm_entry l = m /\
    l_cnt s = zlen l /\ l_more s = MAX_INFLIGHTMESSAGES /\ zlen l <= 2 * MAX_INFLIGHTMESSAGES + 1.

Lemma set_cnt_int_run {A X} (v : Z) (s : linked A X) :
  in_int v = true -> set_cnt_int v s = Some (tt, Linked (cells s) (l_first s) (l_last s) v (l_more s)).
Proof. unfold set_cnt_int. by intros ->. Qed.

Lemma eqb_bool_decide (a b : Z) : (a =? b) = bool_decide (a = b).
Proof. destruct (Z.eqb_spec a b); [by rewrite bool_decide_eq_true_2|by rewrite bool_decide_eq_false_2]. Qed.

Lemma tm_key_test id (e : TopicIdMapElement) : (tme_msgId e =? id) = bool_decide ((tm_entry e).1 = id).
Proof. apply eqb_bool_decide. Qed.

Lemma tm_holds_new : tm_holds newTopicIdMap ∅.
Proof. exists []. split; [by apply owns_empty|]. by split_and!; [constructor|..]. Qed.

(** The first element with a key, as a place in the list. *)
Lemma tm_get_run s m id : tm_holds s m ->
  exists p, TopicIdMap_getElement id s = Some (p, s) /\
    match p with
    | Some q => exists c, cells s !! q = Some c /\ tme_msgId (c_val c) = id /\
                  m !! id = Some (tme_topicId (c_val c), tme_type (c_val c))
    | None => m !! id = None
    end.
Proof.
  intros (l & [Hr _] & Hn & <- & _). unfold TopicIdMap_getElement. rewrite (search_run _ _ _ _ _ Hr).
  rewrite (keyed_lookup _ _ _ _ (tm_key_test id)).
  destruct (first_where _ l) as [[q e]|] eqn:Hf; [|by eexists].
  eexists. split; [done|]. destruct (first_where_elem _ _ _ _ Hf) as [Hin Hok].
  destruct Hr as (_ & Hs & _). destruct (seg_lookup _ _ _ _ _ _ _ Hs Hin) as (c & Hc & <-).
  exists c. split_and!; [done|by apply Z.eqb_eq|done].
Qed.

Lemma tm_erase_run s m id : tm_holds s m -> m !! id <> None ->
  exists s', TopicIdMap_erase id s = Some (tt, s') /\ tm_holds s' (delete id m).
Proof.
  intros (l & Ho & Hn & <- & Hcnt & Hmore & Hmax) Hin.
  rewrite (keyed_lookup _ _ _ _ (tm_key_test id)) in Hin.
  destruct (first_where _ l) as [[q e]|] eqn:Hf; [|done].
  pose proof Hf as (l1 & l2 & -> & Hid & _)%first_where_split. apply Z.eqb_eq in Hid.
  destruct (remove_run s l1 l2 q e Ho) as (s1 & Hrm & Ho1 & Hc1 & Hm1).
  unfold TopicIdMap_erase, sbind at 1. rewrite (search_run _ _ _ _ _ (proj1 Ho)), Hf. cbn [fmap option_fmap option_map null fst].
  unfold sbind in *. rewrite Hrm. cbn [get_cnt].
  rewrite Hc1, Hcnt, set_cnt_int_run by (apply in_int_true; unfold INT_MIN, INT_MAX, MAX_INFLIGHTMESSAGES in *; zlen_lia).
  eexists. split; [done|]. exists (l1 ++ l2).
  destruct (keyed_remove tm_entry l1 l2 q e Hn) as [Hk Hn']. cbn [tm_entry fst] in Hk. rewrite <- Hid.
  split; [by eapply owns_members; [..|exact Ho1]|]. split_and!; [done|done| | |]; simpl; [zlen_lia|congruence|zlen_lia].
Qed.

Lemma tm_add_run s m id t ty : tm_holds s m ->
  exists p s', TopicIdMap_add id t ty s = Some (p, s') /\
    if (2 * MAX_INFLIGHTMESSAGES <? Z.of_nat (size m)) || ((t =? 0) && negb (ty =? MQTTSN_TOPIC_TYPE_SHORT))
    then p = None /\ s' = s
    else p <> None /\ tm_holds s' (<[id := (t, ty)]> m).
Proof.
  intros Hm. pose proof Hm as (l & Ho & Hn & Hk & Hcnt & Hmore & Hmax).
  assert (Hsize : Z.of_nat (size m) = zlen l) by (rewrite <- Hk, keyed_size; done).
  unfold TopicIdMap_add, sbind at 1, get_cnt at 1, sbind at 1, get_more at 1.
  rewrite Hcnt, Hmore, (Z.mul_comm _ 2), <- Hsize. destruct (_ || _) eqn:Hbad; [by eexists _, _|].
  apply orb_false_iff in Hbad as [Hfull _]. apply Z.ltb_ge in Hfull.
  destruct (tm_get_run s m id Hm) as (p & Hget & Hp). unfold sbind at 1. rewrite Hget.
  assert (exists s1, (if null p then sret tt else TopicIdMap_erase id) s = Some (tt, s1) /\ tm_holds s1 (delete id m))
    as (s1 & Hrun1 & Hm1).
  { destruct p as [q|]; cbn [null].
    - destruct Hp as (c & _ & _ & Hc). apply tm_erase_run; [done|]. by rewrite Hc.
    - exists s. split; [done|]. by rewrite delete_id. }
  unfold sbind at 1. rewrite Hrun1.
  destruct Hm1 as (l1 & Ho1 & Hn1 & Hk1 & Hcnt1 & Hmore1 & Hmax1).
  assert (Hsize1 : zlen l1 <= zlen l).
  { rewrite <- (keyed_size _ _ Hn1), <- Hsize, Hk1, map_size_delete. destruct (m !! id); simpl; lia. }
  destruct (append_run s1 l1 (mkTopicIdMapElement id t ty) true Ho1) as (q & s2 & s3 & Hnew & _ & _ & _ & Hlink & Ho3 & Hc3 & Hm3).
  unfold sbind at 1. rewrite Hnew. unfold sbind at 1. rewrite Hlink. unfold sbind at 1, get_cnt, sbind at 1.
  rewrite Hc3, Hcnt1, set_cnt_int_run by (apply in_int_true; unfold INT_MIN, INT_MAX, MAX_INFLIGHTMESSAGES in *; zlen_lia).
  eexists _, _. split; [done|]. split; [done|]. exists (l1 ++ [(q, mkTopicIdMapElement id t ty)]).
  destruct (keyed_snoc tm_entry l1 q (mkTopicIdMapElement id t ty) Hn1) as [Hk3 Hn3].
  { rewrite Hk1. apply lookup_delete_eq. }
  split; [by eapply owns_members; [..|exact Ho3]|]. split_and!; simpl; [done| |zlen_lia|congruence|zlen_lia].
  rewrite Hk3, Hk1. cbn. by rewrite insert_delete_eq.
Qed.

Lemma tm_clear_run s m : tm_holds s m ->
  exists s', TopicIdMap_clear s = Some (tt, s') /\ tm_holds s' ∅.
Proof.
  intros (l & Ho & _ & _ & _ & Hmore & _). destruct (clear_run _ _ _ _ Ho) as (s1 & Hrun & Hc & Hm).
  unfold TopicIdMap_clear, sbind. rewrite Hrun. eexists. split; [done|]. exists [].
  split; [by apply owns_empty|]. split_and!; [constructor|done|done|simpl; congruence|done].
Qed.

(** ** MessageIdTable implements an injective table *)

Definition mt_entry (e : MessageIdElement) : (loc * Z) * Z := ((mie_client e, mie_clientMsgId e), mie_msgId e).

(** The object holds the map [m] from a client and its message identifier to
    the identifier used towards the broker; [packetId] is the one drawn last. *)
Definition mt_holds (s : MessageIdTable) (packetId : Z) (m : gmap (loc * Z) Z) : Prop :=
  exists l, owns true true s l /\ NoDup (keys mt_entry l) /\ keyed mt_entry l = m /\
    l_cnt s = zlen l /\ l_more s = mkMessageIdMore MAX_MESSAGEID_TABLE_SIZE packetId /\
    zlen l <= MAX_MESSAGEID_TABLE_SIZE + 1.

(** No two clients wait for the same identifier. *)
Definition mt_injective (m : gmap (loc * Z) Z) : Prop :=
  forall k1 k2 id, m !! k1 = Some id -> m !! k2 = Some id -> k1 = k2.

Lemma mt_holds_new packetId : mt_holds (newMessageIdTable packetId) packetId ∅.
Proof. exists []. split; [by apply owns_empty|]. by split_and!; [constructor|..]. Qed.

Lemma mt_key_test client cid (e : MessageIdElement) :
  (mie_clientMsgId e =? cid) && bool_decide (mie_client e = client) = bool_decide ((mt_entry e).1 = (client, cid)).
Proof.
  cbn. rewrite eqb_bool_decide, <- bool_decide_and. apply bool_decide_ext.
  split; [intros []; congruence|intros [=]; by split].
Qed.

Lemma mt_clear_unlink s l1 l2 p a : represents true true s (l1 ++ (p, a) :: l2) ->
  MessageIdTable_clear (Some p) s =
  (unlink (Some p) ;! delete_cell (Some p) ;! let! cnt := get_cnt in set_cnt_int (cnt - 1)) s.
Proof.
  intros (Hn & Hs & _). destruct (nodup_middle _ _ _ _ Hn) as (_ & _ & _ & _ & Hp & _).
  apply seg_app in Hs as [_ [(q & Hq & Hc) _]]. rewrite (Hq eq_refl) in Hc.
  unfold MessageIdTable_clear, unlink. cbn [null]. unfold sbind, deref, set_first, get_first.
  rewrite Hc. cbn [c_prev c_next]. destruct (last_loc_elem l1 None) as [->|(r & Hr & Hin)].
  - cbn [last_loc null cells l_first]. rewrite Hc. cbn [c_next c_prev].
    destruct (head_loc l2 None) as [t|]; [|done]. unfold set_prev, write. cbn. by destruct (cells s !! t).
  - rewrite Hr. cbn [null]. unfold set_next, write. destruct (cells s !! r); [|done].
    unfold set_cells. cbn [cells]. rewrite lookup_insert_ne by (by intros ->). rewrite Hc.
    cbn [c_next c_prev]. rewrite ?Hr. destruct (head_loc l2 None) as [t|]; [|done].
    unfold set_prev, write. cbn.  by destruct (<[r:=_]> (cells s) !! t).
Qed.

Lemma mt_clear_run s packetId m l1 l2 p e :
  owns true true s (l1 ++ (p, e) :: l2) -> NoDup (keys mt_entry (l1 ++ (p, e) :: l2)) ->
  keyed mt_entry (l1 ++ (p, e) :: l2) = m -> l_cnt s = zlen (l1 ++ (p, e) :: l2) ->
  l_more s = mkMessageIdMore MAX_MESSAGEID_TABLE_SIZE packetId ->
  zlen (l1 ++ (p, e) :: l2) <= MAX_MESSAGEID_TABLE_SIZE + 1 ->
  exists s', MessageIdTable_clear (Some p) s = Some (tt, s') /\ mt_holds s' packetId (delete (mt_entry e).1 m).
Proof.
  intros Ho Hn <- Hcnt Hmore Hmax. rewrite (mt_clear_unlink _ _ _ _ _ (proj1 Ho)).
  destruct (remove_run s l1 l2 p e Ho) as (s1 & Hrm & Ho1 & Hc1 & Hm1).
  unfold sbind in *. destruct (unlink (Some p) s) as [[[] s0]|]; [|done]. rewrite Hrm. cbn [get_cnt].
  rewrite Hc1, Hcnt, set_cnt_int_run
    by (apply in_int_true; unfold INT_MIN, INT_MAX, MAX_MESSAGEID_TABLE_SIZE in *; zlen_lia).
  eexists. split; [done|]. exists (l1 ++ l2). destruct (keyed_remove mt_entry l1 l2 p e Hn) as [Hk Hn'].
  split; [by eapply owns_members; [..|exact Ho1]|]. split_and!; [done|done| | |]; simpl; [zlen_lia|congruence|zlen_lia].
Qed.

Lemma mt_find_client_run s packetId m client cid : mt_holds s packetId m ->
  exists p, MessageIdTable_find_client client cid s = Some (p, s) /\
    match p with
    | Some q => exists c, cells s !! q = Some c /\ m !! (client, cid) = Some (mie_msgId (c_val c))
    | None => m !! (client, cid) = None
    end.
Proof.
  intros (l & [Hr _] & Hn & <- & _). unfold MessageIdTable_find_client. rewrite (search_run _ _ _ _ _ Hr).
  rewrite (keyed_lookup _ _ _ _ (mt_key_test client cid)).
  destruct (first_where _ l) as [[q e]|] eqn:Hf; [|by eexists].
  eexists. split; [done|]. destruct (first_where_elem _ _ _ _ Hf) as [Hin Hok].
  destruct Hr as (_ & Hs & _). destruct (seg_lookup _ _ _ _ _ _ _ Hs Hin) as (c & Hc & <-).
  by exists c.
Qed.

Lemma mt_find_where s l client cid : represents true true s l ->
  MessageIdTable_find_client client cid s =
  Some (fst <$> first_where (fun e => (mie_clientMsgId e =? cid) && bool_decide (mie_client e = client)) l, s).
Proof. apply search_run. Qed.

Lemma mt_getMsgId_run s packetId m client cid : mt_holds s packetId m ->
  MessageIdTable_getMsgId client cid s = Some (default 0 (m !! (client, cid)), s).
Proof.
  intros (p & Hrun & Hp)%(mt_find_client_run _ _ _ client cid).
  unfold MessageIdTable_getMsgId, sbind. rewrite Hrun. destruct p as [q|]; cbn [null].
  - destruct Hp as (c & Hc & ->). unfold deref. by rewrite Hc.
  - by rewrite Hp.
Qed.

(** Drawing an identifier for the element [p], which is on the heap but not
    linked yet. *)
Lemma mt_draw_run s p e packetId : cells s !! p = Some (Cell None None e) ->
  l_more s = mkMessageIdMore MAX_MESSAGEID_TABLE_SIZE packetId ->
  let id := next_packetId packetId in
  exists s', (let! id := Aggregater_msgId in set_val (Some p) (fun e => set_mie_msgId e id)) s = Some (tt, s') /\
    cells s' = <[p := Cell None None (set_mie_msgId e id)]> (cells s) /\ l_first s' = l_first s /\
    l_last s' = l_last s /\ l_cnt s' = l_cnt s /\ l_more s' = mkMessageIdMore MAX_MESSAGEID_TABLE_SIZE id.
Proof.
  intros Hp Hm. unfold Aggregater_msgId, sbind, get_more, set_more, sret. rewrite Hm.
  unfold set_val, write. cbn [cells]. rewrite Hp. eexists. split; [done|]. by split_and!.
Qed.

(** Linking the element [p] with a drawn identifier, in either way of the code. *)
Lemma mt_link_run s l packetId p e : represents true true s l -> (p ∉ l.*1) ->
  cells s !! p = Some (Cell None None e) -> dom (cells s) = list_to_set (l ++ [(p, e)]).*1 ->
  l_cnt s = zlen l -> zlen l <= MAX_MESSAGEID_TABLE_SIZE ->
  l_more s = mkMessageIdMore MAX_MESSAGEID_TABLE_SIZE packetId ->
  NoDup (keys mt_entry l) -> keyed mt_entry l !! (mt_entry e).1 = None ->
  let id := next_packetId packetId in
  exists s', (let! id := Aggregater_msgId in
    set_val (Some p) (fun e => set_mie_msgId e id) ;!
    link_last (Some p) ;!
    set_cnt_int (zlen l + 1) ;!
    sret (Some p)) s = Some (Some p, s') /\
    mt_holds s' id (<[(mt_entry e).1 := id]> (keyed mt_entry l)) /\
    cells s' !! p <> None /\ (forall c, cells s' !! p = Some c -> mie_msgId (c_val c) = id).
Proof.
  intros Hr Hp Hc Hdom Hcnt Hmax Hm Hn Hk id.
  destruct (mt_draw_run s p e packetId Hc Hm) as (s1 & Hrun & Hc1 & Hf1 & Hl1 & Hcnt1 & Hm1).
  rewrite <- sbind_assoc. srun Hrun.
  assert (Hr1 : represents true true s1 l).
  { destruct Hr as (? & Hs & ? & ?). split_and!; [done| |congruence|intros _; rewrite Hl1; auto]. rewrite Hc1. by apply seg_insert. }
  destruct (link_last_run true true s1 l p (set_mie_msgId e id) eq_refl Hr1 Hp) as (s2 & Hlink & Hr2 & Hc2 & Hm2 & Hd2).
  { by rewrite Hc1, lookup_insert_eq. }
  srun Hlink. rewrite (sbind_run _ _ _ _ _ (set_cnt_int_run (zlen l + 1) s2 ltac:(apply in_int_true;
    unfold INT_MIN, INT_MAX, MAX_MESSAGEID_TABLE_SIZE in *; zlen_lia))).
  eexists. split; [done|]. destruct (keyed_snoc mt_entry l p (set_mie_msgId e id) Hn Hk) as [Hk2 Hn2].
  destruct (represents_deref _ _ _ _ _ _ Hr2 (proj2 (elem_of_app l [_] _) (or_intror (list_elem_of_here _ _))))
    as (c & Hderef & Hval). unfold deref in Hderef.
  destruct (cells s2 !! p) as [c'|] eqn:Hcp; [|done]. simplify_eq. split; [|split; [cbn; by rewrite Hcp|]].
  - exists (l ++ [(p, set_mie_msgId e id)]). split.
    + eapply owns_members; [..|split; [exact Hr2|]]; [done..|]. unfold no_leak.
      rewrite Hd2, Hc1, dom_insert_lookup_L, Hdom by by rewrite Hc. by rewrite !fmap_app.
    + split_and!; simpl; [done|done|zlen_lia|by rewrite Hm2|zlen_lia].
  - cbn. intros c0. rewrite Hcp. intros [= ->]. by rewrite Hval.
Qed.

Lemma mt_draw_first s p f r s' :
  (let! id := Aggregater_msgId in set_val p (f id)) s = Some (r, s') -> l_first s' = l_first s.
Proof.
  unfold Aggregater_msgId, set_val, write, sbind. cbn. destruct p as [p|]; [|done].
  destruct (cells s !! p); [|done]. by intros [= <- <-].
Qed.

Lemma mt_order_first {R} s p (f : Z -> MessageIdElement -> MessageIdElement) (k : step _ _ R) :
  l_first s = None ->
  (let! id := Aggregater_msgId in set_val p (f id) ;! set_first p ;! set_last p ;! k) s =
  (let! id := Aggregater_msgId in set_val p (f id) ;! link_last p ;! k) s.
Proof.
  intros Hf. rewrite <- !(sbind_assoc Aggregater_msgId). apply sbind_cong. intros r s' Hs%mt_draw_first.
  unfold link_last. rewrite sbind_assoc, (sbind_run get_first _ s' _ _ eq_refl), Hs, Hf.
  cbn [null]. by rewrite sbind_assoc.
Qed.

Lemma mt_order_next {R} s p (f : Z -> MessageIdElement -> MessageIdElement) (k : step _ _ R) :
  l_first s <> None ->
  (let! id := Aggregater_msgId in
   set_val p (f id) ;! let! q := get_last in set_last p ;! set_prev p q ;! set_next q p ;! k) s =
  (let! id := Aggregater_msgId in set_val p (f id) ;! link_last p ;! k) s.
Proof.
  intros Hf. rewrite <- !(sbind_assoc Aggregater_msgId). apply sbind_cong. intros r s' Hs%mt_draw_first.
  rewrite <- Hs in Hf. transitivity (sbind (let! q := get_last in set_last p ;! set_prev p q ;! set_next q p) (fun _ => k) s').
  - rewrite !sbind_assoc. apply sbind_cong. intros q s1 _. rewrite !sbind_assoc. apply sbind_cong.
    intros _ s2 _. by rewrite sbind_assoc.
  - by apply sbind_first, link_last_tail_first.
Qed.

Lemma mt_add_run s packetId m client cid : mt_holds s packetId m ->
  exists r s', addMessageIdTable client cid s = Some (r, s') /\
    if MAX_MESSAGEID_TABLE_SIZE <? Z.of_nat (size m) then r = 0 /\ s' = s
    else match m !! (client, cid) with
         | Some _ => r = 0 /\ s' = s
         | None => r = next_packetId packetId /\ mt_holds s' r (<[(client, cid) := r]> m)
         end.
Proof.
  intros (l & Ho & Hn & <- & Hcnt & Hmore & Hmax). rewrite (keyed_size _ _ Hn).
  unfold addMessageIdTable, MessageIdTable_add. rewrite !sbind_assoc. sprim. rewrite sbind_assoc. sprim.
  rewrite Hmore, Hcnt. cbn [mit_maxSize]. destruct (Z.ltb_spec MAX_MESSAGEID_TABLE_SIZE (zlen l)).
  { eexists _, _. split; [reflexivity|done]. }
  set (e := mkMessageIdElement 0 client cid).
  destruct (owns_new s l e _ _ Ho) as (p & s1 & Hnew & Hp & Hpl & Hr1 & Hc1 & Hdom & Hcnt1 & Hm1).
  rewrite sbind_assoc. srun Hnew. rewrite sbind_assoc. sprim.
  assert (Hcp : cells s1 !! p = Some (Cell None None e)) by by rewrite Hc1, lookup_insert_eq.
  assert (Hlink : keyed mt_entry l !! (client, cid) = None ->
    exists r s', (let! elm := (let! id := Aggregater_msgId in
        set_val (Some p) (fun e => set_mie_msgId e id) ;! link_last (Some p) ;!
        set_cnt_int (zlen l + 1) ;! sret (Some p)) in
      if null elm then sret 0 else let! c := deref elm in sret (mie_msgId (c_val c))) s1 = Some (r, s') /\
    r = next_packetId packetId /\ mt_holds s' r (<[(client, cid) := r]> (keyed mt_entry l))).
  { intros Hk. destruct (mt_link_run s1 l packetId p e) as (s2 & Hrun & Hm2 & Hsome & Hval); try done; try congruence.
    srun Hrun. cbn [null]. destruct (cells s2 !! p) as [c|] eqn:Hc2; [|done].
    eexists _, s2. unfold sbind, deref. rewrite Hc2. split; [reflexivity|]. by rewrite (Hval c eq_refl). }
  pose proof Hr1 as (_ & _ & Hf & _). destruct l as [|[q b] l'].
  { destruct (Hlink (lookup_empty _)) as (r & s2 & Hrun & Hr). exists r, s2. split; [|exact Hr].
    rewrite <- Hrun. apply sbind_first. rewrite Hf. by apply mt_order_first. }
  set (l := (q, b) :: l') in *. rewrite Hf. replace (null (head_loc l None)) with false by done.
  rewrite sbind_assoc, (sbind_run _ _ _ _ _ (mt_find_where s1 l client cid Hr1)).
  rewrite (keyed_lookup _ _ _ _ (mt_key_test client cid)) in Hlink |- *.
  destruct (first_where _ l) as [[q' e']|]; cbn [fmap option_fmap option_map null fst].
  - exists 0, s. split; [|done]. unfold sbind, delete_cell. rewrite Hcp.
    unfold set_cells, sret. cbn [null]. do 2 f_equal. rewrite Hc1, delete_insert_id by by apply not_elem_of_dom.
    injection Hnew as _ Hs1. rewrite <- Hs1. by destruct s.
  - destruct (Hlink eq_refl) as (r & s2 & Hrun & Hr). exists r, s2. split; [|exact Hr].
    rewrite <- Hrun. apply sbind_first. apply mt_order_next. by rewrite Hf.
Qed.

(** The way back: the client an identifier of the broker stands for. *)
Lemma mt_find_id_run s packetId m id : mt_holds s packetId m -> mt_injective m ->
  exists p, MessageIdTable_find id s = Some (p, s) /\
    match p with
    | Some q => exists l1 l2 e, owns true true s (l1 ++ (q, e) :: l2) /\
        m !! (mt_entry e).1 = Some id /\
        exists s', MessageIdTable_clear p s = Some (tt, s') /\ mt_holds s' packetId (delete (mt_entry e).1 m)
    | None => forall k, m !! k <> Some id
    end.
Proof.
  intros (l & Ho & Hn & Hm & Hcnt & Hmore & Hmax) Hinj. unfold MessageIdTable_find.
  rewrite (search_run _ _ _ _ _ (proj1 Ho)).
  destruct (first_where _ l) as [[q e]|] eqn:Hf; eexists; (split; [done|]); cbn.
  - apply first_where_split in Hf as (l1 & l2 & -> & Hid & _). apply Z.eqb_eq in Hid.
    exists l1, l2, e. split; [done|]. split.
    + rewrite <- Hm. apply keyed_elem; [done|]. exists q, e. split; [|unfold mt_entry; by rewrite Hid].
      apply elem_of_app. right. left.
    + by eapply mt_clear_run.
  - intros k. rewrite <- Hm. intros (p & e & Hin & He)%keyed_elem; [|done].
    apply first_where_none in Hf. rewrite list.Forall_forall in Hf. specialize (Hf _ Hin). simpl in Hf.
    unfold mt_entry in He. simplify_eq. by rewrite Z.eqb_refl in Hf.
Qed.

Lemma mt_convert_run s packetId m id : mt_holds s packetId m -> mt_injective m ->
  exists r s', MessageIdTable_getClientMsgId id s = Some (r, s') /\
    ((exists client cid, m !! (client, cid) = Some id /\ r = (Some client, cid) /\
        mt_holds s' packetId (delete (client, cid) m)) \/
     ((forall k, m !! k <> Some id) /\ r = (None, 0) /\ s' = s)).
Proof.
  intros Hm Hinj. destruct (mt_find_id_run s packetId m id Hm Hinj) as (p & Hrun & Hp).
  unfold MessageIdTable_getClientMsgId. srun Hrun. destruct p as [q|]; cbn [null].
  - destruct Hp as (l1 & l2 & e & [Hr _] & Hid & s' & Hclear & Hs').
    destruct (represents_deref _ _ _ _ q e Hr) as (c & Hd & Hval).
    { apply elem_of_app. right. left. }
    srun Hd. srun Hclear. rewrite Hval. eexists _, s'. split; [reflexivity|]. left.
    by exists (mie_client e), (mie_clientMsgId e).
  - eexists _, s. split; [reflexivity|]. by right.
Qed.

Lemma mt_erase_run s packetId m id : mt_holds s packetId m -> mt_injective m ->
  exists s', MessageIdTable_erase id s = Some (tt, s') /\
    mt_holds s' packetId (filter (fun e => e.2 <> id) m).
Proof.
  intros Hm Hinj. destruct (mt_find_id_run s packetId m id Hm Hinj) as (p & Hrun & Hp).
  unfold MessageIdTable_erase. srun Hrun. destruct p as [q|].
  - destruct Hp as (l1 & l2 & e & _ & Hid & s' & Hclear & Hs'). exists s'. split; [done|].
    replace (filter _ m) with (delete (mt_entry e).1 m); [done|].
    apply map_eq. intros k. apply option_eq. intros v. rewrite map_lookup_filter_Some, lookup_delete_Some. simpl.
    split; intros [Hk Hv]; (split; [|done]) || (split; [done|]).
    + intros ->. exact (Hk (Hinj _ _ id Hid Hv)).
    + intros <-. unfold mt_entry in Hid. cbn in Hid. congruence.
  - exists s. split; [done|]. replace (filter _ m) with m; [done|]. symmetry. apply map_filter_id.
    intros k v Hk. simpl. intros ->. by eapply Hp.
Qed.

(** ** WaitREGACKPacketList keeps packets in order of arrival *)

Section WaitREGACKFacts.
Context {Packet : Type}.
Implicit Types (s : linked (waitREGACKPacket Packet) unit) (ps : list (Z * Packet)).

Definition regack_entry (e : loc * waitREGACKPacket Packet) : Z * Packet := (wr_msgId e.2, wr_packet e.2).

(** The waiting packets; the counter is an [uint8_t]. *)
Definition regack_holds s ps : Prop :=
  exists l, represents true true s l /\ regack_entry <$> l = ps /\ l_cnt s = u8 (zlen ps).

Fixpoint regack_find (id : Z) ps : option Packet :=
  match ps with
  | [] => None
  | (i, packet) :: ps => if i =? id then Some packet else regack_find id ps
  end.

Fixpoint regack_remove (id : Z) ps : list (Z * Packet) :=
  match ps with
  | [] => []
  | (i, packet) :: ps => if i =? id then ps else (i, packet) :: regack_remove id ps
  end.

Lemma regack_where id (l : elems (waitREGACKPacket Packet)) :
  match first_where (fun e => wr_msgId e =? id) l with
  | Some (p, e) => regack_find id (regack_entry <$> l) = Some (wr_packet e) /\
      exists l1 l2, l = l1 ++ (p, e) :: l2 /\ regack_remove id (regack_entry <$> l) = regack_entry <$> (l1 ++ l2)
  | None => regack_find id (regack_entry <$> l) = None /\
      regack_remove id (regack_entry <$> l) = regack_entry <$> l
  end.
Proof.
  induction l as [|[p e] l IH]; [done|]. rewrite first_where_cons, fmap_cons.
  change (regack_entry (p, e)) with (wr_msgId e, wr_packet e). cbn [regack_find regack_remove]. destruct (wr_msgId e =? id).
  - split; [done|]. by exists [], l.
  - destruct (first_where _ l) as [[q e']|].
    + destruct IH as (Hf & l1 & l2 & -> & Hr). split; [done|]. exists ((p, e) :: l1), l2. split; [done|].
      by rewrite Hr.
    + destruct IH as [-> ->]. done.
Qed.

Lemma regack_new_holds : regack_holds newWaitREGACKPacketList [].
Proof. exists []. split; [by apply represents_empty|done]. Qed.

Lemma regack_set_run s ps packet id : regack_holds s ps ->
  exists s', WaitREGACK_setPacket packet id s = Some (1, s') /\ regack_holds s' (ps ++ [(id, packet)]).
Proof.
  intros (l & Hr & Hps & Hcnt). set (e := mkWaitREGACKPacket id packet).
  destruct (new_run true true s l e Hr) as (p & s1 & Hnew & _ & Hp & Hr1 & Hc1 & Hcnt1 & Hm1).
  assert (Hcp : cells s1 !! p = Some (Cell None None e)) by by rewrite Hc1, lookup_insert_eq.
  destruct (link_last_run true true s1 l p e eq_refl Hr1 Hp Hcp) as (s2 & Hlink & Hr2 & Hc2 & Hm2 & _).
  unfold WaitREGACK_setPacket. srun Hnew. sprim.
  assert (Hrun : (if null (l_first s1) then set_first (Some p) ;! set_last (Some p)
     else let! last := get_last in set_next last (Some p) ;! set_prev (Some p) last ;! set_last (Some p)) s1 = Some (tt, s2)).
  { rewrite <- Hlink. destruct (l_first s1) as [q|] eqn:Hf; cbn [null].
    - destruct Hr1 as (Hn & Hs & Hf1 & Hl1). specialize (Hl1 eq_refl).
      destruct (last_loc_elem l None) as [->|(r & Hlast & Hin)]; [simpl in *; congruence|].
      eapply (link_last_next_first _ _ r); [congruence|congruence|by intros ->|exact Hcp].
    - unfold link_last. by rewrite (sbind_run get_first _ s1 _ _ eq_refl), Hf. }
  srun Hrun. eexists. split; [reflexivity|]. exists (l ++ [(p, e)]). split; [done|].
  split; [by rewrite fmap_app, Hps|]. simpl. rewrite Hc2, Hcnt1, Hcnt, length_app. unfold u8. simpl.
  rewrite Zplus_mod_idemp_l. f_equal. lia.
Qed.

Lemma regack_get_run s ps id : regack_holds s ps ->
  WaitREGACK_getPacket id s = Some (regack_find id ps, s).
Proof.
  intros (l & Hr & <- & _). unfold WaitREGACK_getPacket. srun (search_run true true (fun e => wr_msgId e =? id) s l Hr).
  pose proof (regack_where id l) as Hw. destruct (first_where _ l) as [[p e]|]; cbn [fmap option_fmap option_map null fst].
  - destruct Hw as (-> & l1 & l2 & -> & _).
    destruct (represents_deref _ _ _ _ p e Hr) as (c & Hd & <-); [apply elem_of_app; right; left|].
    by srun Hd.
  - by destruct Hw as [-> _].
Qed.

Lemma regack_erase_run s ps id : regack_holds s ps ->
  exists s', WaitREGACK_erase id s = Some (tt, s') /\ regack_holds s' (regack_remove id ps).
Proof.
  intros (l & Hr & <- & Hcnt). unfold WaitREGACK_erase. srun (search_run true true (fun e => wr_msgId e =? id) s l Hr).
  pose proof (regack_where id l) as Hw. destruct (first_where _ l) as [[p e]|]; cbn [fmap option_fmap option_map null fst].
  - destruct Hw as (_ & l1 & l2 & -> & ->).
    destruct (unlink_run true true s l1 l2 p e eq_refl eq_refl Hr) as (s1 & Hun & Hr1 & (Hc1 & _) & _).
    srun Hun. eexists. split; [reflexivity|]. exists (l1 ++ l2). split; [done|]. split; [done|].
    simpl. rewrite Hc1, Hcnt. unfold u8. rewrite !length_fmap, !length_app. simpl length.
    rewrite Zminus_mod_idemp_l. f_equal. lia.
  - destruct Hw as [_ ->]. exists s. split; [done|]. by exists l.
Qed.
End WaitREGACKFacts.

(** ** Que and PacketQue: a bounded first-in first-out queue *)

Section QueFacts.
Context {T : Type}.
Implicit Types (s : linked T Z) (ts : list T).

(** The queue holds [ts], oldest first, and no other element is on the heap.
    The backward links are not kept: [pop] leaves a stale one. *)
Definition que_holds s (maxSize : Z) ts : Prop :=
  exists l, owns false true s l /\ l.*2 = ts /\ l_cnt s = zlen ts /\ l_more s = maxSize /\ zlen ts <= INT_MAX.

Lemma que_new_holds : que_holds newQue 0 [].
Proof. exists []. split; [by apply owns_empty|done]. Qed.

Lemma que_setMaxSize_run s n m ts : que_holds s n ts ->
  exists s', Que_setMaxSize m s = Some (tt, s') /\ que_holds s' m ts.
Proof.
  intros (l & Ho & Hts & Hc & Hm & Hmax). eexists. split; [reflexivity|]. exists l.
  by split; [eapply owns_members; [..|exact Ho]|].
Qed.

Lemma que_front_run s n ts : que_holds s n ts -> Que_front s = Some (head ts, s).
Proof.
  intros (l & [(_ & Hs & Hf & _) _] & <- & _). unfold Que_front. sprim. rewrite Hf.
  destruct l as [|[p a] l]; [done|]. destruct Hs as [(q & _ & Hp) _]. cbn [head_loc null].
  unfold sbind, deref. by rewrite Hp.
Qed.

(** The three ways in which a new last element is linked are one. *)
Lemma que_link_run s l p a : represents false true s l -> (p ∉ l.*1) ->
  cells s !! p = Some (Cell None None a) ->
  (let! head := get_first in
   let! tail := get_last in
   if null head then set_first (Some p) ;! set_last (Some p)
   else if bool_decide (tail = head) then set_prev (Some p) tail ;! set_last (Some p) ;! set_next head (Some p)
   else set_next tail (Some p) ;! set_prev (Some p) tail ;! set_last (Some p)) s = link_last (Some p) s.
Proof.
  intros (Hn & Hs & Hf & Hl) Hp Hc. specialize (Hl eq_refl). sprim. sprim.
  destruct (l_first s) as [q|] eqn:Ef; cbn [null].
  - case_bool_decide as Htail.
    + rewrite Htail. by apply link_last_one; congruence.
    + destruct (last_loc_elem l None) as [->|(r & Hr & Hin)]; [done|]. rewrite Hl, Hr.
      rewrite <- (link_last_next_first s p r (Cell None None a)); [|congruence|congruence|by intros ->|exact Hc].
      by rewrite (sbind_run get_last _ s _ _ eq_refl), Hl, Hr.
  - unfold link_last. by rewrite (sbind_run get_first _ s _ _ eq_refl), Ef.
Qed.

Lemma que_post_run s n ts t : que_holds s n ts -> zlen ts < INT_MAX ->
  exists r s', Que_post (Some t) s = Some (r, s') /\
    if (n =? 0) || (zlen ts <? n) then r = zlen ts + 1 /\ que_holds s' n (ts ++ [t])
    else r = 0 /\ s' = s.
Proof.
  intros (l & Ho & Hts & Hcnt & Hm & _) Hmax. unfold Que_post. sprim. sprim. rewrite Hm, Hcnt.
  destruct (_ || _); [|by eexists _, s].
  destruct (append_run s l t false Ho) as (p & s1 & s2 & Hnew & Hp & Hr1 & Hc1 & Hlink & Ho2 & Hcnt2 & Hm2).
  srun Hnew. rewrite <- que_link_run with (l := l) (a := t) in Hlink by done.
  unfold sbind at 1 in Hlink. cbn [get_first] in Hlink. unfold sbind at 1 in Hlink. cbn [get_last] in Hlink.
  sprim. sprim. srun Hlink. rewrite (sbind_run _ _ _ _ _ (set_cnt_int_run (zlen ts + 1) s2
    ltac:(apply in_int_true; unfold INT_MIN, INT_MAX in *; lia))).
  eexists _, _. split; [reflexivity|]. split; [done|]. exists (l ++ [(p, t)]).
  split; [by eapply owns_members; [..|exact Ho2]|]. split_and!; simpl; [by rewrite fmap_app, Hts|zlen_lia|congruence|zlen_lia].
Qed.

Lemma que_pop_run s n ts : que_holds s n ts ->
  exists s', Que_pop s = Some (tt, s') /\ que_holds s' n (tail ts).
Proof.
  intros (l & [(Hn & Hs & Hf & Hl) Hdom] & <- & Hcnt & Hm & Hmax). specialize (Hl eq_refl).
  unfold Que_pop. sprim. destruct l as [|[p a] l].
  { rewrite Hf. exists s. split; [done|]. exists []. split; [split|]; [|done|by split_and!]. by apply represents_empty. }
  destruct Hs as [(q & _ & Hp) Hs]. apply list.NoDup_cons in Hn as [Hpl Hn].
  rewrite Hf. cbn [head_loc null]. sprim. rewrite Hl. cbn [last_loc].
  assert (Hdel : dom (cells s) ∖ {[p]} = list_to_set (C := gset loc) l.*1).
  { rewrite Hdom. by apply (dom_app_elem [] l p a). }
  assert (exists s1, (if bool_decide (Some p = last_loc l (Some p)) then set_first None ;! set_last None
     else let! c := deref (Some p) in set_first (c_next c) ;! set_prev (Some p) None) s = Some (tt, s1) /\
     represents false true s1 l /\ p ∈ dom (cells s1) /\ dom (cells s1) = dom (cells s) /\ l_cnt s1 = l_cnt s /\ l_more s1 = l_more s)
    as (s1 & Hrun & Hr1 & Hp1 & Hd1 & Hc1 & Hm1).
  { assert (Hin : p ∈ dom (cells s)) by by apply elem_of_dom_2 in Hp.
    case_bool_decide as Htail.
    - destruct (last_loc_elem l (Some p)) as [->|(r & Hr & Hin')]; [|rewrite Hr in Htail; by simplify_eq].
      eexists. split; [reflexivity|]. split; [by apply represents_empty|]. by split_and!.
    - unfold sbind, deref. rewrite Hp. unfold set_first, set_prev, write. cbn [cells c_next]. rewrite Hp.
      eexists. split; [reflexivity|]. split; [|simpl; rewrite dom_insert_lookup_L by (by eexists); by split_and!].
      split_and!; [done| |done|].
      + simpl. apply seg_insert; [done|]. by eapply seg_singly.
      + intros _. simpl. rewrite Hl. destruct l as [|[??]?]; [done|]. done. }
  srun Hrun. destruct (delete_run false true s1 l p Hr1 Hpl Hp1) as (s2 & Hdelrun & Hr2 & Hd2 & Hc2 & Hm2).
  srun Hdelrun. sprim. rewrite Hc2, Hc1, Hcnt, set_cnt_int_run
    by (apply in_int_true; unfold INT_MIN, INT_MAX in *; zlen_lia).
  eexists. split; [reflexivity|]. exists l. split; [eapply owns_members; [..|split; [exact Hr2|]]; [done..|]|].
  - unfold no_leak. by rewrite Hd2, Hd1.
  - split_and!; simpl; [done|zlen_lia|congruence|zlen_lia].
Qed.

Lemma packet_que_clear_loop k s n ts : que_holds s n ts -> (length ts < k)%nat ->
  exists s', PacketQue_clear_loop k s = Some (tt, s') /\ que_holds s' n [].
Proof.
  revert s ts. induction k as [|k IH]; intros s ts Hq Hk; [lia|]. cbn [PacketQue_clear_loop].
  unfold Que_size. sprim. destruct ts as [|t ts].
  - exists s. split; [|done]. destruct Hq as (l & _ & _ & -> & _). done.
  - assert (Hc : l_cnt s = zlen (t :: ts)) by by destruct Hq as (l & _ & _ & -> & _).
    rewrite Hc. test_true (0 <? zlen (t :: ts)). srun (que_front_run _ _ _ Hq).
    destruct (que_pop_run _ _ _ Hq) as (s1 & Hpop & Hq1). srun Hpop. apply (IH s1 ts Hq1). simpl in Hk. lia.
Qed.
End QueFacts.

(** ** What the tables promise *)

(** TopicIdMap is a finite map from message identifiers to topics of at most 21
    entries: getElement looks up, add inserts or replaces unless the map is full
    or the topic identifier is 0, erase of an entry deletes it, clear empties
    the map; no step touches a deleted element or leaks one. *)
Theorem topic_id_map_spec s m : tm_holds s m ->
  (forall id, exists p, TopicIdMap_getElement id s = Some (p, s) /\
     match p with
     | Some q => exists c, cells s !! q = Some c /\ tme_msgId (c_val c) = id /\
                   m !! id = Some (tme_topicId (c_val c), tme_type (c_val c))
     | None => m !! id = None
     end) /\
  (forall id t ty, exists p s', TopicIdMap_add id t ty s = Some (p, s') /\
     if (2 * MAX_INFLIGHTMESSAGES <? Z.of_nat (size m)) || ((t =? 0) && negb (ty =? MQTTSN_TOPIC_TYPE_SHORT))
     then p = None /\ s' = s
     else p <> None /\ tm_holds s' (<[id := (t, ty)]> m)) /\
  (forall id, m !! id <> None -> exists s', TopicIdMap_erase id s = Some (tt, s') /\ tm_holds s' (delete id m)) /\
  (exists s', TopicIdMap_clear s = Some (tt, s') /\ tm_holds s' ∅).
Proof.
  intros Hm. split; [|split; [|split]].
  - intros id. by apply tm_get_run.
  - intros id t ty. by apply tm_add_run.
  - intros id. by apply tm_erase_run.
  - by apply tm_clear_run with m.
Qed.

(** Erasing an identifier that is not in the map lowers the counter all the
    same, and the limit of [add] with it. *)
Lemma topic_id_map_erase_absent s m id : tm_holds s m -> m !! id = None ->
  exists s', TopicIdMap_erase id s = Some (tt, s') /\ l_cnt s' = Z.of_nat (size m) - 1 /\ cells s' = cells s.
Proof.
  intros (l & [Hr _] & Hn & Hk & Hcnt & Hmore & Hmax) Hid. rewrite <- Hk, (keyed_size _ _ Hn).
  rewrite <- Hk, (keyed_lookup _ _ _ _ (tm_key_test id)) in Hid.
  unfold TopicIdMap_erase. srun (search_run true true (fun e => tme_msgId e =? id) s l Hr).
  destruct (first_where _ l) as [[q e]|]; [done|]. cbn [fmap option_fmap option_map null]. sprim. sprim.
  rewrite Hcnt, set_cnt_int_run by (apply in_int_true; unfold INT_MIN, INT_MAX, MAX_INFLIGHTMESSAGES in *; zlen_lia).
  by eexists.
Qed.

(** MessageIdTable is an injective table of at most 501 entries, as long as the
    identifier drawn next is not in use: adding a new message of a client gives
    it that identifier, a known one or a full table gives 0; converting an
    identifier back gives the client and its own identifier and removes the
    entry, for an unknown one null and 0. *)
Theorem message_id_table_spec s packetId m :
  mt_holds s packetId m -> mt_injective m -> (forall k, m !! k <> Some (next_packetId packetId)) ->
  (forall client cid, exists r s', addMessageIdTable client cid s = Some (r, s') /\
     if (MAX_MESSAGEID_TABLE_SIZE <? Z.of_nat (size m)) || bool_decide (is_Some (m !! (client, cid)))
     then r = 0 /\ s' = s
     else r = next_packetId packetId /\ mt_holds s' r (<[(client, cid) := r]> m) /\
          mt_injective (<[(client, cid) := r]> m)) /\
  (forall id, exists r s', MessageIdTable_getClientMsgId id s = Some (r, s') /\
     ((exists client cid, m !! (client, cid) = Some id /\ r = (Some client, cid) /\
        mt_holds s' packetId (delete (client, cid) m) /\ mt_injective (delete (client, cid) m)) \/
      ((forall k, m !! k <> Some id) /\ r = (None, 0) /\ s' = s))) /\
  (forall id, exists s', MessageIdTable_erase id s = Some (tt, s') /\
     mt_holds s' packetId (filter (fun e => e.2 <> id) m)) /\
  (forall client cid, MessageIdTable_getMsgId client cid s = Some (default 0 (m !! (client, cid)), s)).
Proof.
  intros Hm Hinj Hfresh. split; [|split; [|split]].
  - intros client cid. destruct (mt_add_run s packetId m client cid Hm) as (r & s' & Hrun & Hr).
    exists r, s'. split; [done|]. destruct (_ <? _); [done|]. cbn [orb].
    destruct (m !! (client, cid)) eqn:Hk; [by rewrite bool_decide_eq_true_2|].
    rewrite bool_decide_eq_false_2 by by intros []. destruct Hr as [-> Hr]. split_and!; [done|done|].
    intros k1 k2 id. rewrite !lookup_insert_Some.
    intros [[<- <-]|[? Hk1]] [[<- ?]|[? Hk2]]; [done|by destruct (Hfresh k2)| |by eapply Hinj].
    subst. by destruct (Hfresh k1).
  - intros id. destruct (mt_convert_run s packetId m id Hm Hinj) as (r & s' & Hrun & Hr).
    exists r, s'. split; [done|]. destruct Hr as [(client & cid & Hid & Hr & Hs')|Hr]; [left|by right].
    exists client, cid. split_and!; [done..|]. intros k1 k2 i. rewrite !lookup_delete_Some.
    intros [_ ?] [_ ?]. by eapply Hinj.
  - intros id. by apply mt_erase_run.
  - intros client cid. by eapply mt_getMsgId_run.
Qed.

(** The identifiers wrap around, and nothing keeps one that is still in use
    from being given out again: then two clients share it. *)
Lemma message_id_collision s packetId m client cid k :
  mt_holds s packetId m -> m !! k = Some (next_packetId packetId) -> m !! (client, cid) = None ->
  Z.of_nat (size m) <= MAX_MESSAGEID_TABLE_SIZE ->
  exists s', addMessageIdTable client cid s = Some (next_packetId packetId, s') /\
    exists m', mt_holds s' (next_packetId packetId) m' /\ ~ mt_injective m'.
Proof.
  intros Hm Hk Hnone Hsize. destruct (mt_add_run s packetId m client cid Hm) as (r & s' & Hrun & Hr).
  rewrite (proj2 (Z.ltb_ge _ _) Hsize), Hnone in Hr. destruct Hr as [-> Hr]. exists s'. split; [done|].
  eexists. split; [exact Hr|]. intros Hinj.
  assert (k = (client, cid)) as ->; [|congruence].
  eapply Hinj; [|apply lookup_insert_eq]. rewrite lookup_insert_ne; [exact Hk|]. intros <-. congruence.
Qed.

(** The destructor reads every element after it deleted it. *)
Lemma message_id_destructor s packetId m : mt_holds s packetId m -> m <> ∅ ->
  destroyMessageIdTable s = None.
Proof.
  intros (l & [(Hn & Hs & Hf & Hl) _] & _ & <- & _) Hne. specialize (Hl eq_refl).
  destruct (last_loc_elem l None) as [->|(r & Hr & Hin)]; [done|].
  unfold destroyMessageIdTable. sprim. rewrite Hf.
  replace (null (head_loc l None)) with false by by destruct l as [|[??]?]. sprim. rewrite Hl, Hr.
  pose proof (seg_dom _ _ _ _ _ _ Hs Hin) as [c Hc]%elem_of_dom.
  unfold fuel_of. cbn [MessageIdTable_destroy null]. unfold sbind, delete_cell. rewrite Hc.
  unfold get_cnt, set_cnt_int. destruct (in_int _); [|done]. unfold set_cnt, deref. cbn [cells set_cells].
  by rewrite lookup_delete_eq.
Qed.

(** A waiting packet that is taken out of the list stays on the heap. *)
Lemma regack_erase_leaks {Packet} (s : linked (waitREGACKPacket Packet) unit) ps id :
  regack_holds s ps -> regack_find id ps <> None ->
  exists s', WaitREGACK_erase id s = Some (tt, s') /\ dom (cells s') = dom (cells s).
Proof.
  intros (l & Hr & <- & Hcnt) Hfind. unfold WaitREGACK_erase.
  srun (search_run true true (fun e => wr_msgId e =? id) s l Hr). pose proof (regack_where id l) as Hw.
  destruct (first_where _ l) as [[p e]|]; cbn [fmap option_fmap option_map null fst]; [|by destruct Hw].
  destruct Hw as (_ & l1 & l2 & -> & _).
  destruct (unlink_run true true s l1 l2 p e eq_refl eq_refl Hr) as (s1 & Hun & _ & (_ & _ & Hd) & _).
  srun Hun. by eexists.
Qed.

(** The list of packets that wait for a REGACK is in order of arrival: a packet
    set is found under its message identifier behind earlier ones with the same,
    erase takes out the first; the count is the length modulo 256. *)
Theorem wait_regack_spec {Packet} (s : linked (waitREGACKPacket Packet) unit) ps :
  regack_holds s ps ->
  (forall packet id, exists s', WaitREGACK_setPacket packet id s = Some (1, s') /\
     regack_holds s' (ps ++ [(id, packet)])) /\
  (forall id, WaitREGACK_getPacket id s = Some (regack_find id ps, s)) /\
  (forall id, exists s', WaitREGACK_erase id s = Some (tt, s') /\ regack_holds s' (regack_remove id ps)) /\
  WaitREGACK_getCount s = Some (zlen ps mod 256, s).
Proof.
  intros Hps. split; [|split; [|split]].
  - intros. by apply regack_set_run.
  - intros. by apply regack_get_run.
  - intros. by apply regack_erase_run.
  - destruct Hps as (l & _ & _ & Hc). unfold WaitREGACK_getCount, get_cnt. by rewrite Hc.
Qed.

(** PacketQue is a bounded first-in first-out queue: post appends and returns
    the new length, or returns 0 when the queue is full; getPacket shows the
    oldest packet and pop removes it; clear empties the queue. *)
Theorem packet_que_spec {T} (s : linked T Z) maxSize ts :
  que_holds s maxSize ts -> zlen ts < INT_MAX ->
  (forall t, exists r s', Que_post (Some t) s = Some (r, s') /\
     if (maxSize =? 0) || (zlen ts <? maxSize) then r = zlen ts + 1 /\ que_holds s' maxSize (ts ++ [t])
     else r = 0 /\ s' = s) /\
  PacketQue_getPacket s = Some (head ts, s) /\
  (exists s', PacketQue_pop s = Some (tt, s') /\ que_holds s' maxSize (tail ts)) /\
  (exists s', PacketQue_clear s = Some (tt, s') /\ que_holds s' maxSize []).
Proof.
  intros Hq Hmax. assert (Hc : l_cnt s = zlen ts) by by destruct Hq as (l & _ & _ & -> & _).
  split; [|split; [|split]].
  - intros t. by apply que_post_run.
  - unfold PacketQue_getPacket, Que_size. sprim. rewrite Hc. destruct ts; [done|].
    test_true (0 <? zlen (t :: ts)). by eapply que_front_run.
  - unfold PacketQue_pop, Que_size. sprim. rewrite Hc. destruct ts; [by exists s|].
    test_true (0 <? zlen (t :: ts)). by eapply que_pop_run.
  - unfold PacketQue_clear. eapply packet_que_clear_loop; [exact Hq|].
    destruct Hq as (l & [(Hn & Hs & _) _] & <- & _). rewrite length_fmap. unfold fuel_of.
    pose proof (seg_length _ _ _ _ _ Hn Hs). lia.
Qed.

(** ** Witnesses *)

Definition one_topic : TopicIdMap := single (mkTopicIdMapElement 7 3 0) MAX_INFLIGHTMESSAGES.

Lemma one_topic_holds : tm_holds one_topic {[7 := (3, 0)]}.
Proof.
  exists [(1%positive, mkTopicIdMapElement 7 3 0)]. split; [apply single_owns|].
  by split_and!; [apply list.NoDup_singleton|..].
Qed.

Lemma topic_id_map_spec_witness :
  tm_holds one_topic {[7 := (3, 0)]} /\
  exists p s', TopicIdMap_add 8 4 0 one_topic = Some (p, s') /\ p <> None /\
    tm_holds s' (<[8 := (4, 0)]> {[7 := (3, 0)]}).
Proof.
  split; [exact one_topic_holds|].
  destruct (topic_id_map_spec _ _ one_topic_holds) as (_ & Hadd & _).
  destruct (Hadd 8 4 0) as (p & s' & Hrun & Hr). exists p, s'. split; [exact Hrun|].
  exact Hr.
Defined.

Definition one_message : MessageIdTable :=
  single (mkMessageIdElement 41 5%positive 7) (mkMessageIdMore MAX_MESSAGEID_TABLE_SIZE 41).

Lemma one_message_holds : mt_holds one_message 41 {[(5%positive, 7) := 41]}.
Proof.
  exists [(1%positive, mkMessageIdElement 41 5%positive 7)]. split; [apply single_owns|].
  by split_and!; [apply list.NoDup_singleton|..].
Qed.

Lemma message_id_table_spec_witness :
  mt_holds one_message 41 {[(5%positive, 7) := 41]} /\
  exists s', MessageIdTable_getClientMsgId 41 one_message = Some ((Some 5%positive, 7), s').
Proof.
  split; [exact one_message_holds|].
  destruct (message_id_table_spec one_message 41 _ one_message_holds) as (_ & Hconv & _).
  - intros k1 k2 id [<- _]%lookup_singleton_Some [<- _]%lookup_singleton_Some. reflexivity.
  - intros k [_ Hk]%lookup_singleton_Some. by vm_compute in Hk.
  - destruct (Hconv 41) as (r & s' & Hrun & [(client & cid & Hid & -> & _)|(Hno & _)]).
    + apply lookup_singleton_Some in Hid as [[= <- <-] _]. exists s'. exact Hrun.
    + destruct (Hno (5%positive, 7)). reflexivity.
Defined.

Definition one_waiting : linked (waitREGACKPacket Z) unit := single (mkWaitREGACKPacket 9 100) tt.

Lemma one_waiting_holds : regack_holds one_waiting [(9, 100)].
Proof. exists [(1%positive, mkWaitREGACKPacket 9 100)]. split; [apply (single_owns _ _ true true)|done]. Qed.

Lemma wait_regack_spec_witness :
  regack_holds one_waiting [(9, 100)] /\ WaitREGACK_getPacket 9 one_waiting = Some (Some 100, one_waiting).
Proof.
  split; [exact one_waiting_holds|].
  destruct (wait_regack_spec one_waiting _ one_waiting_holds) as (_ & Hget & _). exact (Hget 9).
Defined.

Definition one_queued : linked Z Z := single 100 20.

Lemma one_queued_holds : que_holds one_queued 20 [100].
Proof. exists [(1%positive, 100)]. split; [apply single_owns|]. by vm_compute. Qed.

Lemma packet_que_spec_witness :
  que_holds one_queued 20 [100] /\
  exists s', Que_post (Some 101) one_queued = Some (2, s') /\ que_holds s' 20 [100; 101].
Proof.
  split; [exact one_queued_holds|].
  destruct (packet_que_spec one_queued 20 [100] one_queued_holds eq_refl) as (Hpost & _).
  destruct (Hpost 101) as (r & s' & Hrun & Hr). exists s'. cbn in Hr. destruct Hr as [-> Hr].
  split; [exact Hrun|exact Hr].
Defined.

(** After a pop the new head of the queue points back to the deleted element. *)
Example que_pop_stale :
  (Que_post (Some 100) ;! Que_post (Some 101) ;! Que_pop ;!
   let! head := get_first in let! c := deref head in
   deref (c_prev c)) (newQue : linked Z Z) = None.
Proof. vm_compute. reflexivity. Qed.
