(* ===== verification/GWTopic.v ===== *)
(** * Topics of the gateway: MQTTSNGWTopic.cpp

    The topics of a client (class Topics, a list linked one way) and the matching
    of topic filters (Topic::isMatch).  Matching is shown to be total and to
    compute a matcher on the levels of filter and name, for all strings; the list
    of topics is shown to keep names and registered topic identifiers distinct. *)

From S2P Require Import Prelude GWHeap SNPacket TopicMatch.

(** ** Topic filters: Topic::isMatch *)

(** [s.find(c, pos)]; [None] is npos. *)
Definition str_find (s : list byte) (c : byte) (pos : nat) : option nat :=
  (fun r => (pos + r.1)%nat) <$> list_find (eq c) (drop pos s).

(** [s.substr(pos, n)] and [s.substr(pos)]; [None] is the exception out_of_range. *)
Definition substr (s : list byte) (pos n : nat) : option (list byte) :=
  if (pos <=? length s)%nat then Some (take n (drop pos s)) else None.
Definition substr_end (s : list byte) (pos : nat) : option (list byte) :=
  if (pos <=? length s)%nat then Some (drop pos s) else None.

(** The loop of [isMatch]: [filter] is the name of the topic. *)
Fixpoint isMatch_loop (n : nat) (filter name : list byte) (tpos pos : nat) : option bool :=
  match n with
  | O => None
  | S n =>
      match str_find name SLASH pos, str_find filter SLASH tpos with
      | Some loc, Some tloc =>
          subtopic ← substr name pos (loc - pos);
          subtopict ← substr filter tpos (tloc - tpos);
          if bool_decide (subtopict = [HASH]) then Some true
          else if bool_decide (subtopict = [PLUS]) then
            if (length filter <? tloc + 1)%nat then
              match str_find name SLASH (loc + 1) with None => Some true | Some _ => Some false end
            else isMatch_loop n filter name (tloc + 1) (loc + 1)
          else if negb (bool_decide (subtopic = subtopict)) then Some false
          else if (length filter <? tloc + 1)%nat then Some false
          else isMatch_loop n filter name (tloc + 1) (loc + 1)
      | None, None =>
          subtopic ← substr_end name pos;
          subtopict ← substr_end filter tpos;
          if bool_decide (subtopict = [HASH]) || bool_decide (subtopict = [PLUS]) then Some true
          else Some (bool_decide (subtopic = subtopict))
      | None, Some tloc =>
          subtopic ← substr_end name pos;
          subtopict ← substr filter tpos (tloc - tpos);
          if negb (bool_decide (subtopic = subtopict)) then Some false
          else rest ← substr_end filter (tloc + 1); Some (bool_decide (rest = [HASH]))
      | Some _, None =>
          rest ← substr_end filter tpos; Some (bool_decide (rest = [HASH]))
      end
  end.

(** Every round moves behind a slash of the name. *)
Definition isMatch (filter name : list byte) : option bool :=
  isMatch_loop (S (length name)) filter name 0 0.

(** ** Topics *)

Definition MAX_TOPIC_PAR_CLIENT : Z := 50.

Record Topic := mkTopic { topic_type : Z; topic_id : Z; topic_name : list byte }.

(** The further member is [_nextTopicId]; there is no pointer to the last
    element.  The counter is an [uint8_t]. *)
Abbreviation Topics := (linked Topic Z).

Definition newTopics : Topics := Linked ∅ None None 0 0.

(** The argument is what the operation reads of the topic: the name or the type
    and the identifier. *)
Definition getTopicByName (name : list byte) : step Topic Z (option loc) :=
  search (fun t => bool_decide (topic_name t = name)).

Definition getTopicById (type id : Z) : step Topic Z (option loc) :=
  search (fun t => (topic_type t =? type) && (topic_id t =? id)).

Definition getNextTopicId : step Topic Z Z :=
  let! nextTopicId := get_more in
  let nextTopicId := u16 (nextTopicId + 1) in
  let nextTopicId := if nextTopicId =? 65535 then u16 (nextTopicId + 2) else nextTopicId in
  set_more nextTopicId ;!
  sret nextTopicId.

(** [while (tp) { if (tp->_next == nullptr) { tp->_next = topic; break; } ... }] *)
Fixpoint append_from (n : nat) (tp topic : option loc) : step Topic Z unit :=
  match n with
  | O => undefined
  | S n =>
      if null tp then sret tt
      else
        let! c := deref tp in
        if null (c_next c) then set_next tp topic else append_from n (c_next c) topic
  end.

(** The argument [topicName] is a C string, here without its terminating 0. *)
Definition Topics_add_name (topicName : list byte) (id : Z) : step Topic Z (option loc) := fun s =>
  (let! cnt := get_cnt in
   if MAX_TOPIC_PAR_CLIENT <=? cnt then sret None
   else
     let! topic := getTopicByName topicName in
     if negb (null topic) then sret topic
     else
       let! (type, tid) :=
         if id =? 0 then let! tid := getNextTopicId in sret (MQTTSN_TOPIC_TYPE_NORMAL, tid)
         else sret (MQTTSN_TOPIC_TYPE_PREDEFINED, id) in
       let! topic := new (mkTopic type tid topicName) in
       set_cnt (u8 (cnt + 1)) ;!
       let! first := get_first in
       (if null first then set_first topic else append_from (S (fuel_of s)) first topic) ;!
       sret topic) s.

(** What a C function sees of a string with 0 bytes in it. *)
Fixpoint c_str (s : list byte) : list byte :=
  match s with
  | [] => []
  | c :: s => if bool_decide (c = Corelib.Init.Byte.x00) then [] else c :: c_str s
  end.

Lemma c_str_whole (name : list byte) : (Corelib.Init.Byte.x00 ∉ name) -> c_str name = name.
Proof.
  intros Hnul. induction name as [|c name IH]; [done|]. apply not_elem_of_cons in Hnul as [Hc Hnul].
  cbn [c_str]. rewrite bool_decide_eq_false_2 by (by intros ->). by rewrite IH.
Qed.

Definition Topics_add (type : Z) (name : list byte) : step Topic Z (option loc) :=
  if negb (type =? MQTTSN_TOPIC_TYPE_NORMAL) then sret None
  else
    let! topic := getTopicByName name in
    if negb (null topic) then sret topic
    else Topics_add_name (c_str name) 0.

Fixpoint match_from (n : nat) (name : list byte) (topic : option loc) : step Topic Z (option loc) :=
  match n with
  | O => undefined
  | S n =>
      if null topic then sret None
      else
        let! c := deref topic in
        match isMatch (topic_name (c_val c)) name with
        | None => undefined
        | Some true => sret topic
        | Some false => match_from n name (c_next c)
        end
  end.

Definition Topics_match (type : Z) (name : list byte) : step Topic Z (option loc) := fun s =>
  if negb (type =? MQTTSN_TOPIC_TYPE_NORMAL) then sret None s
  else (let! first := get_first in match_from (fuel_of s) name first) s.

Fixpoint eraseNormal_loop (n : nat) (topic prev : option loc) : step Topic Z unit :=
  match n with
  | O => undefined
  | S n =>
      if null topic then sret tt
      else
        let! c := deref topic in
        if topic_type (c_val c) =? MQTTSN_TOPIC_TYPE_NORMAL then
          let next := c_next c in
          let! first := get_first in
          (if bool_decide (first = topic) then set_first next else sret tt) ;!
          (if null prev then sret tt else set_next prev next) ;!
          delete_cell topic ;!
          let! cnt := get_cnt in
          set_cnt (u8 (cnt - 1)) ;!
          eraseNormal_loop n next prev
        else eraseNormal_loop n (c_next c) topic
  end.

Definition eraseNormal : step Topic Z unit := fun s =>
  (let! first := get_first in eraseNormal_loop (fuel_of s) first None) s.

Definition Topics_getCount : step Topic Z Z := get_cnt.

(** ** Levels *)

(** The levels of a string: what is between its slashes. *)
Fixpoint levels (s : list byte) : list (list byte) :=
  match s with
  | [] => [[]]
  | c :: s =>
      match levels s with
      | l :: ls => if bool_decide (c = SLASH) then [] :: l :: ls else (c :: l) :: ls
      | [] => [[]]
      end
  end.

(** What the loop matches, level by level. *)
Fixpoint gw_match (fs ns : list (list byte)) : bool :=
  match fs, ns with
  | [f], [n] => bool_decide (f = [HASH]) || bool_decide (f = [PLUS]) || bool_decide (n = f)
  | f :: f2 :: fs, [n] => bool_decide (n = f) && bool_decide (f2 :: fs = [[HASH]])
  | [f], _ :: _ :: _ => bool_decide (f = [HASH])
  | f :: fs, n :: ns =>
      bool_decide (f = [HASH]) || ((bool_decide (f = [PLUS]) || bool_decide (n = f)) && gw_match fs ns)
  | _, _ => false
  end.

Lemma levels_nonempty s : levels s <> [].
Proof. induction s as [|c s IH]; [done|]. cbn. destruct (levels s); [done|]. by case_bool_decide. Qed.

Lemma levels_plain s l : l ∈ levels s -> plain_level l.
Proof.
  unfold plain_level. revert l. induction s as [|c s IH]; intros l; cbn.
  - intros ->%list_elem_of_singleton. apply not_elem_of_nil.
  - pose proof (levels_nonempty s). destruct (levels s) as [|l0 ls]; [done|]. case_bool_decide as Hc.
    + intros [->|Hin]%elem_of_cons; [apply not_elem_of_nil|by apply IH].
    + intros [->|Hin]%elem_of_cons; [|apply IH; by right].
      apply not_elem_of_cons. split; [congruence|apply IH; left].
Qed.

Lemma join_levels s : join (levels s) = s.
Proof.
  induction s as [|c s IH]; [done|]. cbn [levels]. pose proof (levels_nonempty s).
  destruct (levels s) as [|l0 ls]; [done|]. case_bool_decide as Hc.
  - subst c. by rewrite <- IH.
  - destruct ls; by rewrite <- IH.
Qed.

(** ** The loop computes the matcher on levels *)

Lemma list_find_none (c : byte) (l : list byte) : (c ∉ l) -> list_find (eq c) l = None.
Proof. intros Hl. apply list_find_None, list.Forall_forall. by intros x Hx <-. Qed.

Lemma str_find_last s pos l : drop pos s = l -> plain_level l -> str_find s SLASH pos = None.
Proof. intros Hd Hl. unfold str_find. rewrite Hd. by rewrite list_find_none. Qed.

Lemma str_find_level s pos l rest : drop pos s = l ++ SLASH :: rest -> plain_level l ->
  str_find s SLASH pos = Some (pos + length l)%nat.
Proof.
  intros Hd Hl. unfold str_find. rewrite Hd, list_find_app_r by by apply list_find_none.
  cbn [list_find]. case_decide; [done|done].
Qed.

Lemma drop_level_rest (s : list byte) pos l rest : drop pos s = l ++ SLASH :: rest ->
  drop (pos + length l + 1) s = rest /\ (pos + length l + 1 <= length s)%nat /\ (pos <= length s)%nat.
Proof.
  intros Hd. assert (Hlen : (pos + (length l + S (length rest)) <= length s)%nat).
  { apply (f_equal length) in Hd. rewrite length_drop, length_app in Hd. simpl in Hd. lia. }
  split; [|lia]. rewrite <- Nat.add_assoc, <- drop_drop, Hd, drop_app_ge by lia.
  replace (length l + 1 - length l)%nat with 1%nat by lia. done.
Qed.

Lemma substr_level (s : list byte) pos l rest : drop pos s = l ++ SLASH :: rest ->
  substr s pos (pos + length l - pos) = Some l.
Proof.
  intros Hd. destruct (drop_level_rest _ _ _ _ Hd) as (_ & _ & Hpos). unfold substr.
  rewrite (proj2 (Nat.leb_le _ _) Hpos), Hd. f_equal.
  replace (pos + length l - pos)%nat with (length l) by lia. apply take_app_length.
Qed.

Lemma substr_end_run (s : list byte) pos l : (pos <= length s)%nat -> drop pos s = l -> substr_end s pos = Some l.
Proof. intros Hpos Hd. unfold substr_end. by rewrite (proj2 (Nat.leb_le _ _) Hpos), Hd. Qed.

Lemma join_levels_cons l l' ls : join (l :: l' :: ls) = l ++ SLASH :: join (l' :: ls).
Proof. done. Qed.

Lemma join_hash fs : (forall f, f ∈ fs -> plain_level f) -> fs <> [] ->
  join fs = [HASH] <-> fs = [[HASH]].
Proof.
  intros Hp Hne. split; [|by intros ->]. destruct fs as [|f [|f' fs]]; [done|intros Hj; change (f = [HASH]) in Hj; by rewrite Hj|].
  rewrite join_levels_cons. destruct f as [|c f]; [by intros [= ?]|]. intros [= _ Hf]. by destruct f.
Qed.

Lemma isMatch_loop_run n filter name tpos pos fs ns :
  drop tpos filter = join fs -> drop pos name = join ns ->
  (forall f, f ∈ fs -> plain_level f) -> (forall l, l ∈ ns -> plain_level l) ->
  fs <> [] -> ns <> [] -> (tpos <= length filter)%nat -> (pos <= length name)%nat -> (length ns <= n)%nat ->
  isMatch_loop n filter name tpos pos = Some (gw_match fs ns).
Proof.
  revert tpos pos fs ns. induction n as [|n IH]; intros tpos pos fs ns Hf Hn Hpf Hpn Hfs Hns Ht Hp Hk.
  { destruct ns; [done|simpl in Hk; lia]. }
  destruct fs as [|f fs]; [done|]. destruct ns as [|l ns]; [done|]. cbn [isMatch_loop].
  assert (Hf1 : plain_level f) by (apply Hpf; left). assert (Hl1 : plain_level l) by (apply Hpn; left).
  destruct fs as [|f2 fs], ns as [|l2 ns].
  - change (drop tpos filter = f) in Hf. change (drop pos name = l) in Hn.
    rewrite (str_find_last name _ _ Hn), (str_find_last filter _ _ Hf) by done.
    rewrite (substr_end_run _ _ _ Hp Hn), (substr_end_run _ _ _ Ht Hf). cbn. by destruct (_ || _).
  - change (drop tpos filter = f) in Hf. rewrite join_levels_cons in Hn.
    rewrite (str_find_level name _ _ _ Hn), (str_find_last filter _ _ Hf) by done.
    by rewrite (substr_end_run _ _ _ Ht Hf).
  - rewrite join_levels_cons in Hf. change (drop pos name = l) in Hn.
    rewrite (str_find_last name _ _ Hn), (str_find_level filter _ _ _ Hf) by done.
    destruct (drop_level_rest _ _ _ _ Hf) as (Hf2 & Ht2 & _).
    rewrite (substr_end_run _ _ _ Hp Hn), (substr_level _ _ _ _ Hf). cbn [mbind option_bind gw_match].
    destruct (bool_decide (l = f)); [|done]. cbn [negb andb].
    rewrite (substr_end_run _ _ _ Ht2 Hf2). cbn [mbind option_bind]. f_equal. apply bool_decide_ext, join_hash; [|done].
    intros x Hx. apply Hpf. by right.
  - rewrite join_levels_cons in Hf, Hn.
    rewrite (str_find_level name _ _ _ Hn), (str_find_level filter _ _ _ Hf) by done.
    destruct (drop_level_rest _ _ _ _ Hf) as (Hf2 & Ht2 & _), (drop_level_rest _ _ _ _ Hn) as (Hn2 & Hp2 & _).
    rewrite (substr_level _ _ _ _ Hf), (substr_level _ _ _ _ Hn). cbn [mbind option_bind].
    rewrite (proj2 (Nat.ltb_ge (length filter) _) Ht2).
    assert (Hrec : isMatch_loop n filter name (tpos + length f + 1) (pos + length l + 1) = Some (gw_match (f2 :: fs) (l2 :: ns))).
    { apply IH; try done; [| |simpl in *; lia]; intros x Hx; [apply Hpf|apply Hpn]; by right. }
    rewrite Hrec. change (gw_match (f :: f2 :: fs) (l :: l2 :: ns)) with
      (bool_decide (f = [HASH]) || ((bool_decide (f = [PLUS]) || bool_decide (l = f)) && gw_match (f2 :: fs) (l2 :: ns))).
    destruct (bool_decide (f = [HASH])); [done|]. destruct (bool_decide (f = [PLUS])); [done|].
    by destruct (bool_decide (l = f)).
Qed.

Lemma levels_length s : (length (levels s) <= S (length s))%nat.
Proof.
  induction s as [|c s IH]; [done|]. cbn [levels]. destruct (levels s); simpl in *; [lia|].
  case_bool_decide; simpl; lia.
Qed.

Lemma isMatch_run filter name : isMatch filter name = Some (gw_match (levels filter) (levels name)).
Proof.
  apply isMatch_loop_run; try (by rewrite ?join_levels); try apply levels_nonempty; try apply levels_plain; try lia.
  apply levels_length.
Qed.

(** Topic::isMatch throws no exception and, whatever the strings, compares
    them level by level with the matcher [gw_match]. *)
Theorem isMatch_spec filter name : isMatch filter name = Some (gw_match (levels filter) (levels name)).
Proof. apply isMatch_run. Qed.

Lemma gw_match_mqtt fs ns : filter_ok fs -> fs <> [] -> ns <> [] ->
  (forall l, l ∈ ns -> l <> [PLUS]) ->
  ~ (exists gs, fs = gs ++ [[PLUS]; [HASH]] /\ length ns = S (length gs)) ->
  gw_match fs ns = mqtt_match fs ns.
Proof.
  revert ns. induction fs as [|f fs IH]; intros ns Hok Hfs Hns Hplus Hexc; [done|].
  destruct ns as [|l ns]; [done|]. destruct Hok as [Hf Hok].
  assert (Hsym : bool_decide (l = f) = bool_decide (f = l)) by (apply bool_decide_ext; done).
  destruct fs as [|f2 fs], ns as [|l2 ns].
  - cbn. rewrite Hsym. by destruct (bool_decide (f = [HASH])), (bool_decide (f = [PLUS])), (bool_decide (f = l)).
  - cbn. destruct (bool_decide (f = [HASH])); [done|]. by rewrite andb_false_r.
  - change (gw_match _ _) with (bool_decide (l = f) && bool_decide (f2 :: fs = [[HASH]])).
    assert (Hh : bool_decide (f2 :: fs = [[HASH]]) = bool_decide (f2 = [HASH])).
    { apply bool_decide_ext. split; [congruence|intros ->].
      destruct Hok as [[[_ ->]|[?|(_ & _ & Hh & _)]] _]; [done|done|]. destruct Hh. left. }
    cbn [mqtt_match]. rewrite Hsym, Hh. destruct Hf as [[_ ?]|[->|(_ & Hfp & Hfh & _)]]; [done| |].
    + rewrite (bool_decide_eq_false_2 ([PLUS] = [HASH])) by by vm_compute.
      rewrite (bool_decide_eq_true_2 ([PLUS] = [PLUS])) by done.
      rewrite (bool_decide_eq_false_2 ([PLUS] = l)) by (intros <-; apply (Hplus [PLUS]); [left|done]).
      cbn [andb orb]. rewrite bool_decide_eq_false_2; [done|]. intros ->. apply Hexc. exists [].
      rewrite (bool_decide_eq_true_2 ([HASH] = [HASH])) in Hh by done. apply bool_decide_eq_true_1 in Hh. by rewrite Hh.
    + rewrite (bool_decide_eq_false_2 (f = [HASH])) by (intros ->; apply Hfh; left).
      by rewrite (bool_decide_eq_false_2 (f = [PLUS])) by (intros ->; apply Hfp; left).
  - change (gw_match (f :: f2 :: fs) (l :: l2 :: ns)) with
      (bool_decide (f = [HASH]) || ((bool_decide (f = [PLUS]) || bool_decide (l = f)) && gw_match (f2 :: fs) (l2 :: ns))).
    rewrite Hsym, IH; [by cbn; destruct (bool_decide (f = [HASH]))|done|done|done|intros x Hx; apply Hplus; by right|].
    intros (gs & Hgs & Hlen). apply Hexc. exists (f :: gs). rewrite Hgs. simpl in *. split; [done|lia].
Qed.

(** For the filters MQTT allows (+ and # only as whole levels, # only as the
    last one) and names without the level +, Topic::isMatch implements the
    matching rules of the standard, except that a filter ending in +/# does not
    match the parent level. *)
Theorem isMatch_mqtt filter name :
  filter_ok (levels filter) -> (forall l, l ∈ levels name -> l <> [PLUS]) ->
  ~ (exists gs, levels filter = gs ++ [[PLUS]; [HASH]] /\ length (levels name) = S (length gs)) ->
  isMatch filter name = Some (mqtt_match (levels filter) (levels name)).
Proof.
  intros. rewrite <- gw_match_mqtt by (done || apply levels_nonempty). apply isMatch_run.
Qed.

(** The exception: +/# does not match a name of one level. *)
Lemma isMatch_plus_hash filter name gs :
  levels filter = gs ++ [[PLUS]; [HASH]] -> length (levels name) = S (length gs) ->
  (forall l, l ∈ levels name -> l <> [PLUS]) -> (forall f, f ∈ gs -> f <> [HASH]) ->
  isMatch filter name = Some false.
Proof.
  intros Hf Hn Hplus Hhash.
  rewrite isMatch_run.
  f_equal. rewrite Hf. clear Hf. revert Hhash Hplus Hn. generalize (levels name). clear.
  induction gs as [|g gs IH]; intros [|l [|l2 ns]] Hhash Hplus Hlen; try (simpl in Hlen; lia).
  - cbn. rewrite bool_decide_eq_false_2; [done|]. apply Hplus. left.
  - assert (Hrec : gw_match (gs ++ [[PLUS]; [HASH]]) (l2 :: ns) = false).
    { apply IH; [intros f Hin; apply Hhash; by right|intros x Hin; apply Hplus; by right|simpl in *; lia]. }
    destruct (gs ++ [[PLUS]; [HASH]]) as [|f2 fs] eqn:E; [by destruct gs|].
    change ((g :: gs) ++ [[PLUS]; [HASH]]) with (g :: gs ++ [[PLUS]; [HASH]]). rewrite E.
    change (gw_match (g :: f2 :: fs) (l :: l2 :: ns)) with
      (bool_decide (g = [HASH]) || ((bool_decide (g = [PLUS]) || bool_decide (l = g)) && gw_match (f2 :: fs) (l2 :: ns))).
    rewrite Hrec, andb_false_r, bool_decide_eq_false_2; [done|]. apply Hhash. left.
Qed.

(** ** The list of topics *)

Definition is_normal (t : Topic) : bool := topic_type t =? MQTTSN_TOPIC_TYPE_NORMAL.
Definition normals (ts : list Topic) : list Topic := List.filter is_normal ts.

(** The identifiers given out last, latest first, when [n] is the latest: they
    run through 1 to 65534. *)
Definition recent_ids (n : Z) (k : nat) : list Z :=
  (fun j : nat => (n - 1 - Z.of_nat j) mod 65534 + 1) <$> seq 0 k.

(** The object holds the topics [ts], in order of arrival: at most 50, no name
    twice, and the registered ones carry the identifiers given out last. *)
Definition topics_ok (n : Z) (ts : list Topic) : Prop :=
  zlen ts <= MAX_TOPIC_PAR_CLIENT /\ NoDup (topic_name <$> ts) /\
  topic_id <$> reverse (normals ts) = recent_ids n (length (normals ts)) /\ 0 <= n <= 65534.

Definition topics_hold (s : Topics) (n : Z) (ts : list Topic) : Prop :=
  exists l, owns false false s l /\ l.*2 = ts /\ l_cnt s = zlen ts /\ l_more s = n /\ topics_ok n ts.

(** The pointer a search returns, and the topic it points to. *)
Definition points (s : Topics) (p : option loc) (t : option Topic) : Prop :=
  match p with
  | None => t = None
  | Some q => exists c, cells s !! q = Some c /\ t = Some (c_val c)
  end.

Lemma topics_new_hold : topics_hold newTopics 0 [].
Proof. exists []. split; [by apply owns_empty|]. do 3 (split; [done|]). by split_and!; [|constructor|..]. Qed.

Lemma next_topic_id n : 0 <= n <= 65534 ->
  (if u16 (n + 1) =? 65535 then u16 (u16 (n + 1) + 2) else u16 (n + 1)) = n mod 65534 + 1.
Proof. intros. unfold u16. case_test; divmod_lia. Qed.

Lemma recent_ids_succ n k : recent_ids (n mod 65534 + 1) (S k) = (n mod 65534 + 1) :: recent_ids n k.
Proof.
  unfold recent_ids. cbn [seq]. rewrite fmap_cons. f_equal; [divmod_lia|].
  rewrite <- fmap_S_seq, <- list_fmap_compose. apply list_fmap_ext. intros i j _. cbn. divmod_lia.
Qed.

Lemma recent_ids_nodup n k : Z.of_nat k <= 65534 -> NoDup (recent_ids n k).
Proof.
  intros Hk. apply NoDup_fmap_2_strong; [|apply NoDup_seq].
  intros i j [_ Hi]%elem_of_seq [_ Hj]%elem_of_seq Heq. divmod_lia.
Qed.

Lemma recent_ids_range n k id : id ∈ recent_ids n k -> 1 <= id <= 65534.
Proof. intros (j & -> & _)%list_elem_of_fmap. divmod_lia. Qed.

(** What the identifiers are for: a registered topic is the only one with its. *)
Lemma normal_ids_nodup n ts : topics_ok n ts -> NoDup (topic_id <$> normals ts).
Proof.
  intros (Hlen & _ & Hids & _). apply (NoDup_Permutation_proper (topic_id <$> reverse (normals ts))).
  - by rewrite reverse_Permutation.
  - rewrite Hids. apply recent_ids_nodup. pose proof (filter_length_le is_normal ts).
    unfold normals, MAX_TOPIC_PAR_CLIENT in *. lia.
Qed.

Lemma first_where_find (ok : Topic -> bool) l : snd <$> first_where ok l = find ok l.*2.
Proof.
  induction l as [|[p t] l IH]; [done|]. rewrite first_where_cons. cbn. by destruct (ok t).
Qed.

Lemma search_points s n ts ok : topics_hold s n ts ->
  exists p, search ok s = Some (p, s) /\ points s p (find ok ts).
Proof.
  intros (l & [Hr _] & <- & _). rewrite (search_run _ _ _ _ _ Hr), <- first_where_find.
  eexists. split; [done|]. destruct (first_where ok l) as [[q e]|] eqn:Hf; [|done].
  destruct (first_where_elem _ _ _ _ Hf) as [Hin _]. destruct Hr as (_ & Hs & _).
  destruct (seg_lookup _ _ _ _ _ _ _ Hs Hin) as (c & Hc & <-). by exists c.
Qed.

(** *** Linking behind the last element *)

Lemma append_from_run k s pr l p : seg false (cells s) pr l None -> l <> [] -> (length l <= k)%nat ->
  append_from k (head_loc l None) p s = set_next (last_loc l None) p s.
Proof.
  revert pr l. induction k as [|k IH]; intros pr l Hs Hne Hk; [destruct l; [done|simpl in Hk; lia]|].
  destruct l as [|[q a] l]; [done|]. destruct Hs as [(q' & _ & Hq) Hs].
  cbn [head_loc append_from null]. unfold sbind, deref. rewrite Hq. cbn [c_next].
  destruct l as [|[r b] l]; [done|]. cbn [head_loc null].
  apply (IH (Some q) ((r, b) :: l)); [done|done|simpl in *; lia].
Qed.

Lemma link_walk_run s l p t k : represents false false s l -> (p ∉ l.*1) ->
  cells s !! p = Some (Cell None None t) -> (length l <= k)%nat ->
  exists s', (if null (l_first s) then set_first (Some p) else append_from k (l_first s) (Some p)) s = Some (tt, s') /\
    represents false false s' (l ++ [(p, t)]) /\ keeps s s'.
Proof.
  intros (Hn & Hs & Hf & _) Hp Hc Hk. rewrite Hf.
  destruct (relink_next_run false s l None (Some p) Hn Hs) as (s2 & Hrun & Hk2 & Hs2 & _ & Hfirst & Hsame).
  exists s2. split; [|split; [|done]].
  - rewrite <- Hrun. destruct l as [|[q a] l]; [done|].
    destruct (last_loc_elem ((q, a) :: l) None) as [?|(r & Hr & _)]; [done|].
    replace (null (head_loc ((q, a) :: l) None)) with false by done. rewrite Hr. cbn [null].
    rewrite <- Hr. by apply append_from_run with None.
  - split_and!; [| |rewrite (Hfirst None) by done; by destruct l as [|[??]?]|done].
    + rewrite fmap_app. apply list.NoDup_app. split_and!; [done| |apply list.NoDup_singleton].
      intros q Hq ->%list_elem_of_singleton. done.
    + apply seg_app. split; [done|]. split; [|done]. exists None. split; [done|]. cbn. by rewrite Hsame.
Qed.

(** *** Adding a topic *)

(** The topic that [add] creates, and the identifier given out last. *)
Definition new_topic (n id : Z) (name : list byte) : Topic :=
  if id =? 0 then mkTopic MQTTSN_TOPIC_TYPE_NORMAL (n mod 65534 + 1) name
  else mkTopic MQTTSN_TOPIC_TYPE_PREDEFINED id name.
Definition new_last (n id : Z) : Z := if id =? 0 then n mod 65534 + 1 else n.

Definition has_name (name : list byte) (t : Topic) : bool := bool_decide (topic_name t = name).

Lemma topics_ok_add n ts id name : topics_ok n ts -> zlen ts < MAX_TOPIC_PAR_CLIENT ->
  find (has_name name) ts = None -> topics_ok (new_last n id) (ts ++ [new_topic n id name]).
Proof.
  intros (Hlen & Hnames & Hids & Hn) Hroom Hnew. unfold new_last, new_topic. split; [zlen_lia|]. split.
  - rewrite fmap_app. apply list.NoDup_app. split; [done|]. split; [|apply list.NoDup_singleton].
    intros x (t & -> & Hin)%list_elem_of_fmap Hx%list_elem_of_singleton.
    pose proof (find_none _ _ Hnew t) as Hno. rewrite <- list_elem_of_In in Hno. specialize (Hno Hin).
    unfold has_name in Hno. apply bool_decide_eq_false_1 in Hno. apply Hno. by destruct (id =? 0).
  - unfold normals in *. rewrite filter_app. destruct (id =? 0); cbn [List.filter is_normal topic_type Z.eqb MQTTSN_TOPIC_TYPE_NORMAL MQTTSN_TOPIC_TYPE_PREDEFINED].
    + split; [|divmod_lia]. rewrite reverse_snoc, fmap_cons, length_app, Nat.add_comm. cbn [length Nat.add].
      by rewrite recent_ids_succ, Hids.
    + by rewrite app_nil_r.
Qed.

Lemma topics_add_run s n ts name id : topics_hold s n ts ->
  exists p s', Topics_add_name name id s = Some (p, s') /\
    if MAX_TOPIC_PAR_CLIENT <=? zlen ts then p = None /\ s' = s
    else match find (has_name name) ts with
         | Some t => s' = s /\ points s p (Some t)
         | None => topics_hold s' (new_last n id) (ts ++ [new_topic n id name]) /\
                   points s' p (Some (new_topic n id name))
         end.
Proof.
  intros Hts. pose proof Hts as (l & Ho & Hl & Hcnt & Hm & Hok). unfold Topics_add_name. sprim. rewrite Hcnt.
  case_test; [by exists None, s|]. unfold getTopicByName.
  destruct (search_points s n ts (has_name name) Hts) as (p & Hsearch & Hp). unfold has_name at 1 in Hsearch.
  srun Hsearch. destruct (find _ ts) as [t|] eqn:Hfind.
  { destruct p as [q|]; [|done]. cbn [null negb]. by exists (Some q), s. }
  destruct p as [q|]; [by destruct Hp as (? & _ & ?)|]. cbn [null negb].
  pose proof Hok as (_ & _ & _ & Hn).
  assert (exists s0, (if id =? 0 then let! tid := getNextTopicId in sret (MQTTSN_TOPIC_TYPE_NORMAL, tid)
      else sret (MQTTSN_TOPIC_TYPE_PREDEFINED, id)) s =
      Some ((topic_type (new_topic n id name), topic_id (new_topic n id name)), s0) /\
      owns false false s0 l /\ l_more s0 = new_last n id /\ l_cnt s0 = l_cnt s) as (s0 & Hid & Ho0 & Hm0 & Hc0).
  { unfold new_topic, new_last. destruct (id =? 0); [|by exists s].
    unfold getNextTopicId, sbind, get_more, set_more, sret. rewrite Hm, next_topic_id by done. eexists.
    split; [reflexivity|]. split; [by eapply owns_members; [..|exact Ho]|done]. }
  srun Hid. assert (Ht : mkTopic (topic_type (new_topic n id name)) (topic_id (new_topic n id name)) name = new_topic n id name).
  { unfold new_topic. by destruct (id =? 0). }
  rewrite Ht. set (t := new_topic n id name) in *.
  destruct (owns_new s0 l t _ _ Ho0) as (q & s1 & Hnew & Hq & Hql & Hr1 & Hc1 & Hdom & Hcnt1 & Hm1).
  srun Hnew. sprim. set (s2 := Linked _ _ _ _ _).
  assert (Hr2 : represents false false s2 l) by by apply (represents_members _ _ s1).
  assert (Hcq : cells s2 !! q = Some (Cell None None t)) by (cbn; by rewrite Hc1, lookup_insert_eq).
  destruct (link_walk_run s2 l q t (S (fuel_of s)) Hr2 Hql Hcq) as (s3 & Hlink & Hr3 & Hc3 & Hm3 & Hd3).
  { destruct Ho as [(Hnd & Hs & _) _]. pose proof (seg_length _ _ _ _ _ Hnd Hs). unfold fuel_of. lia. }
  rewrite (sbind_run get_first _ s2 _ _ eq_refl). srun Hlink. exists (Some q), s3. split; [reflexivity|].
  assert (Hpoint : exists c, cells s3 !! q = Some c /\ c_val c = t).
  { destruct Hr3 as (_ & Hs3 & _). eapply seg_lookup; [exact Hs3|]. apply elem_of_app. right. left. }
  destruct Hpoint as (c & Hcell & Hval). split; [|by exists c; rewrite Hcell, Hval].
  exists (l ++ [(q, t)]). split; [split; [done|]|].
  - unfold no_leak. by rewrite Hd3, <- Hdom.
  - split; [by rewrite fmap_app, Hl|]. split; [|split; [cbn in Hm3; congruence|]].
    + rewrite Hc3. cbn. rewrite length_app. unfold u8, MAX_TOPIC_PAR_CLIENT in *. cbn. rewrite Z.mod_small; lia.
    + by apply topics_ok_add; [|lia|].
Qed.

(** *** Matching a name *)

Definition matches (name : list byte) (t : Topic) : bool := gw_match (levels (topic_name t)) (levels name).

Lemma match_from_search n name p s : match_from n name p s = search_from n (matches name) p s.
Proof.
  revert p. induction n as [|n IH]; intros p; [done|]. cbn [match_from search_from].
  destruct (null p); [done|]. apply sbind_cong. intros c s' Hd. rewrite isMatch_run. unfold matches at 1.
  destruct (gw_match _ _); [done|]. destruct p as [q|]; [|done]. cbn in Hd.
  destruct (cells s !! q); [|done]. injection Hd as _ <-. apply IH.
Qed.

Lemma topics_match_run s n ts name : topics_hold s n ts ->
  exists p, Topics_match MQTTSN_TOPIC_TYPE_NORMAL name s = Some (p, s) /\ points s p (find (matches name) ts).
Proof.
  intros (p & Hs & Hp)%(search_points s n ts (matches name)). exists p. split; [|done].
  unfold Topics_match. cbn [negb Z.eqb MQTTSN_TOPIC_TYPE_NORMAL].
  rewrite <- Hs. unfold search. apply sbind_cong. intros q s' [= <- <-]. apply match_from_search.
Qed.

(** *** Erasing the registered topics *)

(** One round on a registered topic [p] behind the elements [kept]. *)
Lemma erase_one_run (s : Topics) kept p t rest : owns false false s (kept ++ (p, t) :: rest) ->
  exists s', (let! first := get_first in
      (if bool_decide (first = Some p) then set_first (head_loc rest None) else sret tt) ;!
      (if null (last_loc kept None) then sret tt else set_next (last_loc kept None) (head_loc rest None)) ;!
      delete_cell (Some p)) s = Some (tt, s') /\
    owns false false s' (kept ++ rest) /\ l_cnt s' = l_cnt s /\ l_more s' = l_more s.
Proof.
  intros [(Hn & Hs & Hf & _) Hdom].
  destruct (nodup_middle _ _ _ _ Hn) as (Hn12 & Hp & Hn1 & Hn2 & Hp1 & Hp2 & Hdisj).
  pose proof Hs as [Hs1 [(q & _ & Hc) Hs2]]%seg_app. simpl in Hs1.
  destruct (relink_next_run false s kept (Some p) (head_loc rest None) Hn1 Hs1)
    as (s1 & Hrun & (Hc1 & Hm1 & Hd1) & Hseg1 & _ & Hfirst & Hsame).
  assert (Hr1 : represents false false s1 (kept ++ rest)).
  { split_and!; [done| | |done].
    - apply seg_app. split; [done|]. eapply seg_singly; [done|]. eapply seg_frame; [|exact Hs2].
      intros r Hr. apply Hsame. intros Hin. by eapply Hdisj.
    - rewrite head_loc_app. rewrite head_loc_app in Hf. by apply (Hfirst (Some p)). }
  assert (Hin : p ∈ dom (cells s1)) by (rewrite Hd1; by apply elem_of_dom_2 in Hc).
  destruct (delete_run false false s1 _ p Hr1 Hp Hin) as (s2 & Hdel & Hr2 & Hd2 & Hc2 & Hm2).
  exists s2. split.
  - sprim. rewrite Hf, head_loc_app. rewrite <- Hdel. cbn [head_loc].
    destruct kept as [|[r b] kept].
    + cbn [head_loc last_loc null] in *. rewrite bool_decide_eq_true_2 by done.
      srun Hrun. done.
    + cbn [head_loc]. rewrite bool_decide_eq_false_2; [|intros [= ->]; apply Hp1; left].
      erewrite (sbind_run (sret tt) _ s) by reflexivity.
      destruct (last_loc_elem ((r, b) :: kept) None) as [Habs|(r' & Hr' & _)]; [discriminate Habs|].
      rewrite Hr' in *. cbn [null] in *. by srun Hrun.
  - split; [split; [done|]|split; congruence]. unfold no_leak. rewrite Hd2, Hd1, Hdom. by apply dom_app_elem.
Qed.

Lemma eraseNormal_loop_run k s kept rest :
  owns false false s (kept ++ rest) -> l_cnt s = zlen (kept ++ rest) -> zlen (kept ++ rest) <= MAX_TOPIC_PAR_CLIENT ->
  (length rest < k)%nat ->
  exists s' l', eraseNormal_loop k (head_loc rest None) (last_loc kept None) s = Some (tt, s') /\
    owns false false s' (kept ++ l') /\ l'.*2 = List.filter (fun t => negb (is_normal t)) rest.*2 /\
    l_cnt s' = zlen (kept ++ l') /\ l_more s' = l_more s.
Proof.
  revert s kept rest. induction k as [|k IH]; intros s kept rest Ho Hcnt Hmax Hk; [lia|].
  destruct rest as [|[p t] rest]; [by exists s, []|]. cbn [eraseNormal_loop head_loc null].
  pose proof Ho as [(_ & [_ [(q & _ & Hc) _]]%seg_app & _) _].
  assert (Hd : deref (Some p) s = Some (Cell (head_loc rest None) q t, s)) by (unfold deref; by rewrite Hc).
  srun Hd. cbn [c_val c_next]. change (topic_type t =? MQTTSN_TOPIC_TYPE_NORMAL) with (is_normal t).
  destruct (is_normal t) eqn:Et.
  - destruct (erase_one_run s kept p t rest Ho) as (s1 & Hone & Ho1 & Hc1 & Hm1).
    assert (Hlen : u8 (l_cnt s1 - 1) = zlen (kept ++ rest)).
    { rewrite Hc1, Hcnt. unfold u8, MAX_TOPIC_PAR_CLIENT in *. rewrite !length_app in *. simpl length in *.
      rewrite Z.mod_small; lia. }
    set (s2 := Linked (cells s1) (l_first s1) (l_last s1) (u8 (l_cnt s1 - 1)) (l_more s1)).
    destruct (IH s2 kept rest) as (s' & l' & Hrun & Ho' & Hl' & Hc' & Hm').
    { by apply (owns_members s1). } { done. } { rewrite !length_app in *. simpl length in *. lia. } { simpl in Hk. lia. }
    exists s', l'. split; [|split; [done|split; [cbn; by rewrite Et|split; [done|by rewrite Hm', <- Hm1]]]].
    rewrite <- Hrun. transitivity (sbind (let! first := get_first in
      (if bool_decide (first = Some p) then set_first (head_loc rest None) else sret tt) ;!
      (if null (last_loc kept None) then sret tt else set_next (last_loc kept None) (head_loc rest None)) ;!
      delete_cell (Some p)) (fun _ => let! cnt := get_cnt in set_cnt (u8 (cnt - 1)) ;!
        eraseNormal_loop k (head_loc rest None) (last_loc kept None)) s).
    + rewrite !sbind_assoc. apply sbind_cong. intros f0 s3 _. rewrite !sbind_assoc. apply sbind_cong.
      intros _ s4 _. rewrite !sbind_assoc. by apply sbind_cong.
    + srun Hone. reflexivity.
  - destruct (IH s (kept ++ [(p, t)]) rest) as (s' & l' & Hrun & Ho' & Hl' & Hc' & Hm').
    { by rewrite <- app_assoc. } { by rewrite <- app_assoc. } { by rewrite <- app_assoc. } { simpl in Hk. lia. }
    rewrite last_loc_app in Hrun. rewrite <- !app_assoc in *. exists s', ((p, t) :: l').
    split; [exact Hrun|]. split; [exact Ho'|]. cbn. rewrite Et, Hl'. done.
Qed.

Lemma erased_ok n ts : topics_ok n ts -> topics_ok n (List.filter (fun t => negb (is_normal t)) ts).
Proof.
  intros (Hlen & Hnames & _ & Hn). split; [|split; [|split; [|done]]].
  - pose proof (filter_length_le (fun t => negb (is_normal t)) ts). lia.
  - clear Hlen. induction ts as [|t ts IH]; [done|]. cbn [List.filter]. rewrite fmap_cons in Hnames.
    apply list.NoDup_cons in Hnames as [Hin Hnames]. destruct (is_normal t); [by apply IH|]. cbn [negb].
    rewrite fmap_cons. apply list.NoDup_cons. split; [|by apply IH].
    intros (u & Hu & Hmem)%list_elem_of_fmap. apply Hin, list_elem_of_fmap. exists u. split; [done|].
    apply list_elem_of_In. apply list_elem_of_In, filter_In in Hmem as [Hmem _]. done.
  - replace (normals _) with (@nil Topic); [done|]. unfold normals. clear.
    induction ts as [|t ts IH]; [done|]. cbn. destruct (is_normal t) eqn:E; [done|]. cbn. by rewrite E.
Qed.

Lemma topics_erase_run s n ts : topics_hold s n ts ->
  exists s', eraseNormal s = Some (tt, s') /\
    topics_hold s' n (List.filter (fun t => negb (is_normal t)) ts).
Proof.
  intros (l & Ho & <- & Hcnt & Hm & Hok). unfold eraseNormal. sprim.
  pose proof Ho as [(Hn & Hs & -> & _) _]. pose proof (seg_length _ _ _ _ _ Hn Hs).
  rewrite length_fmap in Hcnt. destruct (eraseNormal_loop_run (fuel_of s) s [] l) as (s' & l' & Hrun & Ho' & Hl' & Hc' & Hm').
  { done. } { done. } { destruct Hok as [Hlen _]. by rewrite length_fmap in Hlen. } { unfold fuel_of. lia. }
  exists s'. split; [exact Hrun|]. exists l'. split; [done|]. split; [done|].
  split; [rewrite <- Hl', length_fmap; done|]. split; [congruence|]. by apply erased_ok.
Qed.

(** ** What the topics of a client promise *)

Lemma find_unique {B} (f : Topic -> B) `{EqDecision B} (ok : Topic -> bool) (ts : list Topic) t :
  NoDup (f <$> List.filter ok ts) -> t ∈ ts -> ok t = true ->
  find (fun u => ok u && bool_decide (f u = f t)) ts = Some t.
Proof.
  induction ts as [|u ts IH]; intros Hn Hin Hok; [by apply elem_of_nil in Hin|].
  cbn [List.filter find] in *. apply elem_of_cons in Hin as [<-|Hin].
  - by rewrite Hok, bool_decide_eq_true_2.
  - destruct (ok u) eqn:Hu; [|by apply IH]. rewrite fmap_cons in Hn. apply list.NoDup_cons in Hn as [Hnot Hn].
    cbn [andb]. rewrite bool_decide_eq_false_2; [by apply IH|]. intros Heq. apply Hnot. rewrite Heq.
    apply list_elem_of_fmap. exists t. split; [done|]. by apply list_elem_of_In, filter_In; rewrite <- list_elem_of_In.
Qed.

Lemma find_ext {A} (f g : A -> bool) (l : list A) : (forall x, f x = g x) -> find f l = find g l.
Proof. intros Hfg. induction l as [|x l IH]; [done|]. cbn. by rewrite Hfg, IH. Qed.

Lemma filter_true {A} (l : list A) : List.filter (fun _ => true) l = l.
Proof. induction l as [|x l IH]; [done|]. cbn. by rewrite IH. Qed.

Lemma topics_byname_run s n ts name : topics_hold s n ts ->
  exists p, getTopicByName name s = Some (p, s) /\ points s p (find (has_name name) ts).
Proof. apply search_points. Qed.

(** A topic of the list is found by its name, a registered one also by its
    identifier: no other topic has it. *)
Lemma topic_found s n ts t : topics_hold s n ts -> t ∈ ts ->
  (exists p, getTopicByName (topic_name t) s = Some (p, s) /\ points s p (Some t)) /\
  (is_normal t = true -> exists p, getTopicById MQTTSN_TOPIC_TYPE_NORMAL (topic_id t) s = Some (p, s) /\
     points s p (Some t)).
Proof.
  intros Hts Hin. pose proof Hts as (l & _ & _ & _ & _ & Hok). split.
  - destruct (topics_byname_run s n ts (topic_name t) Hts) as (p & Hrun & Hp). exists p. split; [done|].
    destruct Hok as (_ & Hn & _).
    rewrite <- (find_unique topic_name (fun _ => true) ts t); [done|by rewrite filter_true|done|done].
  - intros Ht. destruct (search_points s n ts (fun u => is_normal u && bool_decide (topic_id u = topic_id t)) Hts)
      as (p & Hrun & Hp). exists p.
    rewrite (find_unique topic_id is_normal ts t) in Hp by (done || by eapply normal_ids_nodup). split; [|done].
    rewrite <- Hrun. unfold getTopicById, search. apply sbind_cong. intros q s' _.
    generalize (fuel_of s). intros k. revert q s'. induction k as [|k IH]; intros q s'; [done|].
    cbn [search_from]. destruct (null q); [done|]. apply sbind_cong. intros c s2 _.
    unfold is_normal at 1. destruct (Z.eqb_spec (topic_id (c_val c)) (topic_id t)) as [Heq|Hne].
    + rewrite bool_decide_eq_true_2 by done. by destruct (_ && _).
    + rewrite bool_decide_eq_false_2 by done. rewrite !andb_false_r. apply IH.
Qed.

(** The topics of a client behave like a list without duplicate names: adding
    a known name gives the topic there is, a full list gives a null pointer,
    else a new topic is appended, with the given identifier or with the next
    one; match finds the first topic whose filter matches; eraseNormal keeps the
    predefined topics. *)
Theorem topics_spec s n ts : topics_hold s n ts ->
  (forall name id, exists p s', Topics_add_name name id s = Some (p, s') /\
     if MAX_TOPIC_PAR_CLIENT <=? zlen ts then p = None /\ s' = s
     else match find (has_name name) ts with
          | Some t => s' = s /\ points s p (Some t)
          | None => topics_hold s' (new_last n id) (ts ++ [new_topic n id name]) /\
                    points s' p (Some (new_topic n id name))
          end) /\
  (forall name, exists p, Topics_match MQTTSN_TOPIC_TYPE_NORMAL name s = Some (p, s) /\
     points s p (find (matches name) ts)) /\
  (exists s', eraseNormal s = Some (tt, s') /\ topics_hold s' n (List.filter (fun t => negb (is_normal t)) ts)) /\
  Topics_getCount s = Some (zlen ts, s).
Proof.
  intros Hts. split; [|split; [|split]].
  - intros name id. by apply topics_add_run.
  - intros name. by eapply topics_match_run.
  - by apply topics_erase_run.
  - destruct Hts as (l & _ & _ & Hc & _). unfold Topics_getCount, get_cnt. by rewrite Hc.
Qed.

(** The states of the topics of a client. *)
Inductive topics_reach : Topics -> Prop :=
| reach_new : topics_reach newTopics
| reach_add s type name p s' : topics_reach s -> Topics_add type name s = Some (p, s') -> topics_reach s'
| reach_add_name s name id p s' : topics_reach s -> Topics_add_name name id s = Some (p, s') -> topics_reach s'
| reach_erase s s' : topics_reach s -> eraseNormal s = Some (tt, s') -> topics_reach s'.

Lemma add_name_preserves s n ts name id p s' : topics_hold s n ts ->
  Topics_add_name name id s = Some (p, s') -> exists n' ts', topics_hold s' n' ts'.
Proof.
  intros Hts Hrun. destruct (topics_add_run s n ts name id Hts) as (p0 & s0 & Hrun0 & Hres).
  rewrite Hrun in Hrun0. injection Hrun0 as <- <-. destruct (_ <=? _); [destruct Hres as [_ ->]; eauto|].
  destruct (find _ ts); [destruct Hres as [-> _]|destruct Hres as [? _]]; eauto.
Qed.

Lemma topics_reach_hold s : topics_reach s -> exists n ts, topics_hold s n ts.
Proof.
  induction 1 as [|s type name p s' _ (n & ts & Hts) Hrun|s name id p s' _ (n & ts & Hts) Hrun|s s' _ (n & ts & Hts) Hrun].
  - exists 0, []. apply topics_new_hold.
  - unfold Topics_add in Hrun. destruct (negb _); [injection Hrun as _ <-; eauto|].
    destruct (topics_byname_run s n ts name Hts) as (q & Hq & _). rewrite (sbind_run _ _ _ _ _ Hq) in Hrun.
    destruct (negb _); [injection Hrun as _ <-; eauto|]. by eapply add_name_preserves.
  - by eapply add_name_preserves.
  - destruct (topics_erase_run s n ts Hts) as (s0 & Hrun0 & Hs0). rewrite Hrun in Hrun0. injection Hrun0 as <-. eauto.
Qed.

(** C39: In every reachable state no name occurs twice, at most 50 topics are held,
    the registered ones have pairwise different identifiers between 1 and 65534;
    every topic, registered or predefined, is found again by its name, and every registered one
    by its identifier.  Predefined topics may share an identifier: of these
    the search by identifier finds the one that was added first
    ([predefined_shadowed]). *)
Theorem topic_ids_invariant s : topics_reach s ->
  exists n ts, topics_hold s n ts /\ zlen ts <= MAX_TOPIC_PAR_CLIENT /\ NoDup (topic_name <$> ts) /\
    NoDup (topic_id <$> normals ts) /\ (forall t, t ∈ normals ts -> 1 <= topic_id t <= 65534) /\
    (forall t, t ∈ ts -> exists p, getTopicByName (topic_name t) s = Some (p, s) /\ points s p (Some t)) /\
    (forall t, t ∈ normals ts ->
       exists p, getTopicById MQTTSN_TOPIC_TYPE_NORMAL (topic_id t) s = Some (p, s) /\ points s p (Some t)).
Proof.
  intros (n & ts & Hts)%topics_reach_hold. exists n, ts. pose proof Hts as (l & _ & _ & _ & _ & Hok).
  pose proof Hok as (Hlen & Hnames & Hids & _). split_and!; [done|done|done|by eapply normal_ids_nodup| | |].
  - intros t Ht. apply (recent_ids_range n (length (normals ts))). rewrite <- Hids.
    apply list_elem_of_fmap. exists t. split; [done|]. by apply elem_of_reverse.
  - intros t Hin. apply (topic_found s n ts t Hts Hin).
  - intros t Ht. apply list_elem_of_In, filter_In in Ht as [Hin Hnorm]. apply list_elem_of_In in Hin.
    by apply (topic_found s n ts t Hts Hin).
Qed.

(** Registering a new name and looking its identifier up gives the topic back. *)
Theorem register_roundtrip s n ts name : topics_hold s n ts -> zlen ts < MAX_TOPIC_PAR_CLIENT ->
  (Corelib.Init.Byte.x00 ∉ name) -> find (has_name name) ts = None ->
  let t := new_topic n 0 name in
  exists p s', Topics_add MQTTSN_TOPIC_TYPE_NORMAL name s = Some (p, s') /\ points s' p (Some t) /\
    (exists q, getTopicById MQTTSN_TOPIC_TYPE_NORMAL (topic_id t) s' = Some (q, s') /\ points s' q (Some t)) /\
    (exists q, getTopicByName name s' = Some (q, s') /\ points s' q (Some t)).
Proof.
  intros Hts Hroom Hnul Hnew t.
  pose proof (c_str_whole name Hnul) as Hcstr.
  destruct (topics_byname_run s n ts name Hts) as (q & Hq & Hpq). rewrite Hnew in Hpq.
  destruct q as [q|]; [by destruct Hpq as (? & _ & ?)|].
  destruct (topics_add_run s n ts name 0 Hts) as (p & s' & Hrun & Hres).
  rewrite (proj2 (Z.leb_gt _ _) Hroom), Hnew in Hres. destruct Hres as [Hs' Hp]. fold t in Hp, Hs'.
  exists p, s'. split; [|split; [done|]].
  - unfold Topics_add. cbn [negb Z.eqb MQTTSN_TOPIC_TYPE_NORMAL]. srun Hq. cbn [null negb]. by rewrite Hcstr.
  - destruct (topic_found s' _ _ t Hs') as [Hname Hid]; [apply elem_of_app; right; left|].
    split; [by apply Hid|exact Hname].
Qed.

(** ** Witnesses *)

Definition ch (l : list Z) : list byte := byte_of_Z <$> l.

(** a/+/c matches a/b/c. *)
Lemma isMatch_mqtt_witness :
  isMatch (ch [97; 47; 43; 47; 99]) (ch [97; 47; 98; 47; 99]) = Some true.
Proof.
  refine (eq_trans (isMatch_mqtt _ _ _ _ _) _).
  - change (filter_ok [ch [97]; ch [43]; ch [99]]). split; [|split; [by right; left|split; [|done]]];
      right; right; split_and!; apply (bool_decide_unpack _); vm_compute; exact I.
  - intros l Hl ->. revert Hl. apply (bool_decide_unpack ([PLUS] ∉ _)). vm_compute. exact I.
  - intros (gs & Hgs & Hlen). vm_compute in Hlen. destruct gs as [|? [|? [|]]]; simpl in *; try lia; discriminate.
  - vm_compute. reflexivity.
Defined.

Definition one_topics : Topics := single (mkTopic MQTTSN_TOPIC_TYPE_NORMAL 5 (ch [97])) 5.

Lemma one_topics_hold : topics_hold one_topics 5 [mkTopic MQTTSN_TOPIC_TYPE_NORMAL 5 (ch [97])].
Proof.
  exists [(1%positive, mkTopic MQTTSN_TOPIC_TYPE_NORMAL 5 (ch [97]))]. split; [apply single_owns|].
  do 3 (split; [done|]). split; [by vm_compute|]. split; [apply list.NoDup_singleton|by split; vm_compute].
Qed.

Lemma topics_spec_witness :
  topics_hold one_topics 5 [mkTopic MQTTSN_TOPIC_TYPE_NORMAL 5 (ch [97])] /\
  exists p s', Topics_add_name (ch [98]) 0 one_topics = Some (p, s') /\
    topics_hold s' 6 [mkTopic MQTTSN_TOPIC_TYPE_NORMAL 5 (ch [97]); mkTopic MQTTSN_TOPIC_TYPE_NORMAL 6 (ch [98])].
Proof.
  split; [exact one_topics_hold|].
  destruct (topics_spec _ _ _ one_topics_hold) as (Hadd & _).
  destruct (Hadd (ch [98]) 0) as (p & s' & Hrun & Hres). exists p, s'. split; [exact Hrun|].
  exact (proj1 Hres).
Defined.

Lemma topic_ids_invariant_witness :
  exists s, topics_reach s /\ (exists p, Topics_add MQTTSN_TOPIC_TYPE_NORMAL (ch [97]) newTopics = Some (p, s)) /\
    exists n ts, topics_hold s n ts /\ NoDup (topic_id <$> normals ts).
Proof.
  destruct (Topics_add MQTTSN_TOPIC_TYPE_NORMAL (ch [97]) newTopics) as [[p s]|] eqn:Hrun; [|by vm_compute in Hrun].
  assert (Hreach : topics_reach s) by exact (reach_add _ _ _ _ _ reach_new Hrun).
  exists s. split; [exact Hreach|]. split; [by exists p|].
  destruct (topic_ids_invariant s Hreach) as (n & ts & Hts & _ & _ & Hids & _). by exists n, ts.
Defined.

(** Two predefined topics "a" and "b" with the identifier 7: only "a" is found by it. *)
Lemma predefined_shadowed :
  exists p q s1 s2, Topics_add_name (ch [97]) 7 newTopics = Some (p, s1) /\ Topics_add_name (ch [98]) 7 s1 = Some (q, s2) /\
    p <> q /\ getTopicById MQTTSN_TOPIC_TYPE_PREDEFINED 7 s2 = Some (p, s2) /\ getTopicByName (ch [98]) s2 = Some (q, s2).
Proof.
  destruct (Topics_add_name (ch [97]) 7 newTopics) as [[p s1]|] eqn:E1; [|by vm_compute in E1].
  destruct (Topics_add_name (ch [98]) 7 s1) as [[q s2]|] eqn:E2; [|by vm_compute in E1; injection E1 as <- <-; vm_compute in E2].
  exists p, q, s1, s2. vm_compute in E1. injection E1 as <- <-. vm_compute in E2. injection E2 as <- <-.
  split_and!; try reflexivity; done.
Qed.

Lemma register_roundtrip_witness :
  let t := mkTopic MQTTSN_TOPIC_TYPE_NORMAL 6 (ch [98]) in
  exists p s' q, Topics_add MQTTSN_TOPIC_TYPE_NORMAL (ch [98]) one_topics = Some (p, s') /\
    getTopicById MQTTSN_TOPIC_TYPE_NORMAL 6 s' = Some (q, s') /\ points s' q (Some t).
Proof.
  destruct (register_roundtrip _ _ _ (ch [98]) one_topics_hold) as (p & s' & Hadd & _ & (q & Hq & Hp) & _).
  - by vm_compute.
  - apply (bool_decide_unpack _). vm_compute. exact I.
  - vm_compute. reflexivity.
  - by exists p, s', q.
Defined.
