(* ===== verification/GWPacket.v ===== *)
(** * Packets of the gateway towards the broker: MQTTGWPacket.cpp

    The class MQTTGWPacket holds an MQTT packet as its header byte, its
    remaining length and a heap block with the rest.  The setters build packets,
    the getters read received ones, [recv] takes one off the network and
    [getPacketData] lays it out.  The packets are compared with the wire format
    of the client library. *)

From S2P Require Import Prelude CMem MQTTPacket MQTTPublish MQTTConnect MQTTSubscribe GWHeap.

(** ** The object *)

Definition MQTTSNGW_MAX_PACKET_SIZE : Z := 1024.
Definition GW_MAX_REMAINING_LENGTH_BYTES : Z := 3.

(** [_data]: null, a block that was freed, or a block of the packet. *)
Inductive block_ptr := Null | Freed | Owned (bs : list byte).

Record MQTTGWPacket := mkMQTTGWPacket {
  gp_header : Z;
  gp_remainingLength : Z;
  gp_data : block_ptr;
}.

Definition newMQTTGWPacket : MQTTGWPacket := mkMQTTGWPacket 0 0 Null.

Definition gp_set_header (h : Z) : st MQTTGWPacket unit := fun p =>
  Some (tt, mkMQTTGWPacket h (gp_remainingLength p) (gp_data p)).
Definition gp_set_remainingLength (n : Z) : st MQTTGWPacket unit := fun p =>
  Some (tt, mkMQTTGWPacket (gp_header p) n (gp_data p)).
Definition gp_set_data (d : block_ptr) : st MQTTGWPacket unit := fun p =>
  Some (tt, mkMQTTGWPacket (gp_header p) (gp_remainingLength p) d).
Definition gp_get : st MQTTGWPacket MQTTGWPacket := fun p => Some (p, p).

(** [if (_data) free(_data)]: freeing twice is undefined, and the pointer is
    kept. *)
Definition gp_free : st MQTTGWPacket unit :=
  let! p := gp_get in
  match gp_data p with
  | Null => sret tt
  | Freed => undefined
  | Owned _ => gp_set_data Freed
  end.

(** The destructor and clearData. *)
Definition destroyMQTTGWPacket : st MQTTGWPacket unit := gp_free.

Definition MQTTGWPacket_clearData : st MQTTGWPacket unit :=
  gp_free ;! gp_set_header 0 ;! gp_set_remainingLength 0.

(** ** Access to the block *)

(** Bytes stored at offset [pos] of the block; the offset behind them. *)
Definition gp_put (pos : Z) (bs : list byte) : st MQTTGWPacket Z := fun p =>
  match gp_data p with
  | Owned d =>
      if (0 <=? pos) && (pos + zlen bs <=? zlen d)
      then Some (pos + zlen bs, mkMQTTGWPacket (gp_header p) (gp_remainingLength p) (Owned (splice d pos bs)))
      else None
  | _ => None
  end.

(** The byte at offset [pos]. *)
Definition gp_at (pos : Z) : st MQTTGWPacket Z := fun p =>
  match gp_data p with
  | Owned d => match lookupZ d pos with Some b => Some (Z_of_byte b, p) | None => None end
  | _ => None
  end.

Definition gw_writeChar (pos c : Z) : st MQTTGWPacket Z := gp_put pos [byte_of_Z c].

Definition gw_writeInt (pos anInt : Z) : st MQTTGWPacket Z :=
  let! pos := gp_put pos [byte_of_Z (Z.quot anInt 256)] in
  gp_put pos [byte_of_Z (Z.rem anInt 256)].

(** A C string, null or its characters. *)
Definition gw_strlen (s : option (list byte)) : st MQTTGWPacket Z :=
  match s with Some s => sret (zlen s) | None => undefined end.

Definition gw_writeUTF (pos : Z) (s : option (list byte)) : st MQTTGWPacket Z :=
  let! len := gw_strlen s in
  let! pos := gw_writeInt pos len in
  gp_put pos (default [] s).

(** [memcpy] of [n] bytes from [src], the object a pointer points into. *)
Definition gw_memcpy (pos : Z) (src : list byte) (n : Z) : st MQTTGWPacket Z :=
  if (0 <=? n) && (n <=? zlen src) then gp_put pos (take (Z.to_nat n) src) else undefined.

Definition gw_readInt (pos : Z) : st MQTTGWPacket (Z * Z) :=
  let! h := gp_at pos in
  let! l := gp_at (pos + 1) in
  sret (256 * h + l, pos + 2).

Definition gw_readChar (pos : Z) : st MQTTGWPacket (Z * Z) :=
  let! c := gp_at pos in
  sret (c, pos + 1).

(** MQTTPacket_encode of this file: the digits it stores. *)
Fixpoint gw_encode (fuel : nat) (length : Z) : list byte :=
  match fuel with
  | O => []
  | S fuel =>
      let d := Z.rem length 128 in
      let length := Z.quot length 128 in
      if 0 <? length then byte_of_Z (Z.lor d 128) :: gw_encode fuel length else [byte_of_Z d]
  end.

(** ** Getters *)

(** A [Publish]: its pointers are given by the bytes from there on. *)
Record Publish := mkPublish {
  gpub_header : Z;
  gpub_topic : list byte;
  gpub_topiclen : Z;
  gpub_msgId : Z;
  gpub_payload : list byte;
  gpub_payloadlen : Z;
}.

Definition MQTTGWPacket_getType : st MQTTGWPacket Z := let! p := gp_get in sret (header_type (gp_header p)).

(** The block from offset [pos] on; forming the pointer reads nothing. *)
Definition gp_from (pos : Z) : st MQTTGWPacket (list byte) :=
  let! p := gp_get in
  match gp_data p with Owned d => sret (drop (Z.to_nat pos) d) | _ => sret [] end.

Definition MQTTGWPacket_getAck : st MQTTGWPacket (option (Z * Z)) :=
  let! p := gp_get in
  let t := header_type (gp_header p) in
  if negb (PUBACK =? t) && negb (PUBREC =? t) && negb (PUBREL =? t) && negb (PUBCOMP =? t) && negb (UNSUBACK =? t)
  then sret None
  else
    let! (msgId, _) := gw_readInt 0 in
    sret (Some (gp_header p, msgId)).

Definition MQTTGWPacket_getCONNACK : st MQTTGWPacket (option (Z * Z)) :=
  let! p := gp_get in
  if negb (header_type (gp_header p) =? CONNACK) then sret None
  else
    let! flags := gp_at 0 in
    let! (rc, _) := gw_readChar 1 in
    sret (Some (flags, rc)).

Definition MQTTGWPacket_getSUBACK : st MQTTGWPacket (option (Z * Z)) :=
  let! p := gp_get in
  if negb (header_type (gp_header p) =? SUBACK) then sret None
  else
    let! (msgId, pos) := gw_readInt 0 in
    let! (rc, _) := gw_readChar pos in
    sret (Some (msgId, rc)).

Definition MQTTGWPacket_getPUBLISH : st MQTTGWPacket (option Publish) :=
  let! p := gp_get in
  if negb (header_type (gp_header p) =? PUBLISH) then sret None
  else
    let! (topiclen, pos) := gw_readInt 0 in
    let! topic := gp_from 2 in
    let pos := pos + topiclen in
    if 0 <? header_qos (gp_header p) then
      let! (msgId, pos) := gw_readInt pos in
      let! payload := gp_from pos in
      sret (Some (mkPublish (gp_header p) topic topiclen msgId payload (gp_remainingLength p - topiclen - 4)))
    else
      let! payload := gp_from pos in
      sret (Some (mkPublish (gp_header p) topic topiclen 0 payload (gp_remainingLength p - topiclen - 2))).

(** ** Setters *)

Section Setters.
(** Does [calloc] find so many bytes? *)
Context (calloc_ok : Z -> bool).

(** [_data = calloc(n, 1)]; a negative size is one no memory has. *)
Definition gp_calloc (n : Z) : st MQTTGWPacket bool :=
  if (0 <=? n) && calloc_ok n then gp_set_data (Owned (replicate (Z.to_nat n) Corelib.Init.Byte.x00)) ;! sret true
  else gp_set_data Null ;! sret false.

(** The structure Connect; its strings are pointers. *)
Record Connect := mkConnect {
  co_header : Z;
  co_flags : Z;
  co_clientID : option (list byte);
  co_willTopic : option (list byte);
  co_willMsg : option (list byte);
  co_keepAliveTimer : Z;
  co_version : Z;
}.

(** [_remainingLength = ...; if (...) _remainingLength += ...] of setCONNECT. *)
Definition connect_remainingLength (connect : Connect) (username password : option (list byte)) :
    st MQTTGWPacket Z :=
  let! n := gw_strlen (co_clientID connect) in
  let len := (if co_version connect =? 3 then 12 else 10) + n + 2 in
  let! len :=
    if negb (flag_will (co_flags connect) =? 0) then
      let! t := gw_strlen (co_willTopic connect) in
      let! m := gw_strlen (co_willMsg connect) in
      sret (len + (t + 2 + m + 2))
    else sret len in
  let! len :=
    if negb (flag_username (co_flags connect) =? 0) then
      let! n := gw_strlen username in sret (len + (n + 2))
    else sret len in
  if negb (flag_password (co_flags connect) =? 0) then
    let! n := gw_strlen password in sret (len + (n + 2))
  else sret len.

Definition MQTTGWPacket_setCONNECT (connect : Connect) (username password : option (list byte)) :
    st MQTTGWPacket Z :=
  MQTTGWPacket_clearData ;!
  gp_set_header (co_header connect) ;!
  let! len := connect_remainingLength connect username password in
  gp_set_remainingLength len ;!
  gp_calloc len ;!
  if negb ((co_version connect =? 3) || (co_version connect =? 4)) then sret 0
  else
    let! pos := gw_writeUTF 0 (Some (if co_version connect =? 3 then lit_MQIsdp else lit_MQTT)) in
    let! pos := gw_writeChar pos (if co_version connect =? 3 then 3 else 4) in
    let! pos := gw_writeChar pos (co_flags connect) in
    let! pos := gw_writeInt pos (co_keepAliveTimer connect) in
    let! pos := gw_writeUTF pos (co_clientID connect) in
    let! pos :=
      if negb (flag_will (co_flags connect) =? 0) then
        let! pos := gw_writeUTF pos (co_willTopic connect) in gw_writeUTF pos (co_willMsg connect)
      else sret pos in
    let! pos := if negb (flag_username (co_flags connect) =? 0) then gw_writeUTF pos username else sret pos in
    (if negb (flag_password (co_flags connect) =? 0) then gw_writeUTF pos password else sret pos) ;!
    sret 1.

Definition MQTTGWPacket_setSUBSCRIBE (topic : list byte) (qos msgId : Z) : st MQTTGWPacket Z :=
  MQTTGWPacket_clearData ;!
  gp_set_header (set_header_qos (set_header_type 0 SUBSCRIBE) 1) ;!
  gp_set_remainingLength (zlen topic + 5) ;!
  let! ok := gp_calloc (zlen topic + 5) in
  if ok then
    let! pos := gw_writeInt 0 msgId in
    let! pos := gw_writeUTF pos (Some topic) in
    gw_writeChar pos qos ;!
    sret 1
  else MQTTGWPacket_clearData ;! sret 0.

Definition MQTTGWPacket_setUNSUBSCRIBE (topic : list byte) (msgid : Z) : st MQTTGWPacket Z :=
  MQTTGWPacket_clearData ;!
  gp_set_header (set_header_qos (set_header_type 0 UNSUBSCRIBE) 1) ;!
  gp_set_remainingLength (zlen topic + 4) ;!
  let! ok := gp_calloc (zlen topic + 4) in
  if ok then
    let! pos := gw_writeInt 0 msgid in
    gw_writeUTF pos (Some topic) ;!
    sret 1
  else MQTTGWPacket_clearData ;! sret 0.

Definition MQTTGWPacket_setPUBLISH (pub : Publish) : st MQTTGWPacket Z :=
  MQTTGWPacket_clearData ;!
  gp_set_header (set_header_type (gpub_header pub) PUBLISH) ;!
  gp_set_remainingLength (4 + gpub_topiclen pub + gpub_payloadlen pub) ;!
  let! ok := gp_calloc (4 + gpub_topiclen pub + gpub_payloadlen pub) in
  if ok then
    let! pos := gw_writeInt 0 (gpub_topiclen pub) in
    let! pos := gw_memcpy pos (gpub_topic pub) (gpub_topiclen pub) in
    let! p := gp_get in
    let! pos :=
      if 0 <? header_qos (gp_header p) then gw_writeInt pos (gpub_msgId pub)
      else gp_set_remainingLength (gp_remainingLength p - 2) ;! sret pos in
    gw_memcpy pos (gpub_payload pub) (gpub_payloadlen pub) ;!
    sret 1
  else MQTTGWPacket_clearData ;! sret 0.

Definition MQTTGWPacket_setAck (msgType msgid : Z) : st MQTTGWPacket Z :=
  MQTTGWPacket_clearData ;!
  gp_set_remainingLength 2 ;!
  let! p := gp_get in
  gp_set_header (set_header_qos (set_header_type (gp_header p) msgType) (if msgType =? PUBREL then 1 else 0)) ;!
  let! ok := gp_calloc 2 in
  if ok then gw_writeInt 0 msgid ;! sret 1 else sret 0.

Definition MQTTGWPacket_setHeader (msgType : Z) : st MQTTGWPacket Z :=
  MQTTGWPacket_clearData ;!
  if (msgType <? CONNECT) || (DISCONNECT <? msgType) then sret 0
  else
    let! p := gp_get in
    gp_set_header (set_header_type (gp_header p) msgType) ;!
    sret 0.

(** The assignment operator; [packet] is the other object. *)
Definition MQTTGWPacket_assign (packet : MQTTGWPacket) : st MQTTGWPacket unit :=
  MQTTGWPacket_clearData ;!
  gp_set_header (gp_header packet) ;!
  gp_set_remainingLength (gp_remainingLength packet) ;!
  let! ok := gp_calloc (gp_remainingLength packet) in
  if ok then
    match gp_data packet with
    | Owned d => gw_memcpy 0 d (gp_remainingLength packet) ;! sret tt
    | _ => if gp_remainingLength packet =? 0 then sret tt else undefined
    end
  else MQTTGWPacket_clearData.

(** ** The whole packet *)

(** The bytes that are written to the caller's buffer; their number is the
    result. *)
Definition MQTTGWPacket_getPacketData : st MQTTGWPacket (list byte) :=
  let! p := gp_get in
  let head := byte_of_Z (gp_header p) :: gw_encode 5 (gp_remainingLength p) in
  match gp_data p with
  | Owned d =>
      if (0 <=? gp_remainingLength p) && (gp_remainingLength p <=? zlen d)
      then sret (head ++ take (Z.to_nat (gp_remainingLength p)) d) else undefined
  | _ => if gp_remainingLength p =? 0 then sret head else undefined
  end.

Definition MQTTGWPacket_getPacketLength : st MQTTGWPacket Z :=
  let! p := gp_get in
  sret (1 + zlen (gw_encode 5 (gp_remainingLength p)) + gp_remainingLength p).

(** The message identifier of a packet that has one. *)
Definition has_msgId (type : Z) : bool :=
  (type =? PUBACK) || (type =? PUBREC) || (type =? PUBREL) || (type =? PUBCOMP) ||
  (type =? SUBSCRIBE) || (type =? UNSUBSCRIBE) || (type =? SUBACK) || (type =? UNSUBACK).

Definition MQTTGWPacket_getMsgId : st MQTTGWPacket Z :=
  let! type := MQTTGWPacket_getType in
  if type =? PUBLISH then
    let! pub := MQTTGWPacket_getPUBLISH in
    match pub with Some pub => sret (gpub_msgId pub) | None => sret 0 end
  else if has_msgId type then
    let! h := gp_at 0 in
    let! l := gp_at 1 in
    sret (256 * h + l)
  else sret 0.

Definition MQTTGWPacket_setMsgId (msgId : Z) : st MQTTGWPacket unit :=
  let! type := MQTTGWPacket_getType in
  if type =? PUBLISH then
    let! pub := MQTTGWPacket_getPUBLISH in
    let topiclen := match pub with Some pub => gpub_topiclen pub | None => 0 end in
    let! pos := gw_writeInt topiclen msgId in
    let! pos := gp_put pos [byte_of_Z (Z.quot msgId 256)] in
    gp_put pos [byte_of_Z (Z.rem msgId 256)] ;!
    sret tt
  else if has_msgId type then
    let! pos := gp_put 0 [byte_of_Z (Z.quot msgId 256)] in
    gp_put pos [byte_of_Z (Z.rem msgId 256)] ;!
    sret tt
  else sret tt.

(** The topic of a SUBSCRIBE or UNSUBSCRIBE; the length is an [unsigned char]. *)
Definition MQTTGWPacket_getTopic : st MQTTGWPacket (Z * list byte) :=
  let! type := MQTTGWPacket_getType in
  if (type =? SUBSCRIBE) || (type =? UNSUBSCRIBE) then
    let! (len, _) := gw_readInt 2 in
    let! data := gp_from 4 in
    sret (u8 len, data)
  else sret (0, []).
End Setters.

(** ** The network *)

(** A socket: [recv] of at most [n] bytes gives its result and the bytes it
    stored, [send] what it returns. *)
Class Socket (N : Type) := {
  sock_recv : Z -> N -> (Z * list byte) * N;
  sock_send : list byte -> N -> Z * N;
}.

Section Network.
Context {N : Type} `{Socket N} (calloc_ok : Z -> bool).

(** Network::recv and Network::send without TLS; the lengths they take are of
    16 bits. *)
Definition Network_recv (len : Z) (n : N) : (Z * list byte) * N := sock_recv (u16 len) n.
Definition Network_send (bs : list byte) (n : N) : Z * N := sock_send (take (Z.to_nat (u16 (zlen bs))) bs) n.

(** [packet->send(network)]: the buffer on the stack has 1024 bytes. *)
Definition MQTTGWPacket_send : st (MQTTGWPacket * N) Z := fun '(p, n) =>
  match MQTTGWPacket_getPacketData p with
  | Some (bs, p) =>
      if zlen bs <=? MQTTSNGW_MAX_PACKET_SIZE
      then let '(rc, n) := Network_send bs n in Some (rc, (p, n)) else None
  | None => None
  end.

(** The loop that reads the remaining length; [c] keeps its value when nothing
    is received.  Result: an error or the number of digits. *)
Fixpoint gw_recv_length (fuel : nat) (c : option Z) (len multiplier : Z) (s : MQTTGWPacket * N) :
    option (Z * (MQTTGWPacket * N)) :=
  match fuel with
  | O => None
  | S fuel =>
      let '(p, n) := s in
      let len := len + 1 in
      if GW_MAX_REMAINING_LENGTH_BYTES <? len then Some (-2, (p, n))
      else
        let '((rc, bs), n) := Network_recv 1 n in
        if rc =? -1 then Some (-1, (p, n))
        else
          let c := match bs with b :: _ => Some (Z_of_byte b) | [] => c end in
          match c with
          | None => None
          | Some v =>
              let p := mkMQTTGWPacket (gp_header p)
                         (gp_remainingLength p + Z.land v 127 * multiplier) (gp_data p) in
              if negb (Z.land v 128 =? 0) then gw_recv_length fuel c len (multiplier * 128) (p, n)
              else Some (len, (p, n))
          end
  end.

Definition MQTTGWPacket_recv : st (MQTTGWPacket * N) Z := fun '(p, n) =>
  let '((rc, bs), n) := Network_recv 1 n in
  if rc <=? 0 then Some (rc, (p, n))
  else
    let p := mkMQTTGWPacket (match bs with b :: _ => Z_of_byte b | [] => gp_header p end)
               (gp_remainingLength p) (gp_data p) in
    match gw_recv_length 5 None 0 1 (p, n) with
    | None => None
    | Some (len, (p, n)) =>
        if len <? 0 then Some (len, (p, n))
        else if 0 <? gp_remainingLength p then
          if (0 <=? gp_remainingLength p) && calloc_ok (gp_remainingLength p) then
            let '((remlen, bs), n) := Network_recv (gp_remainingLength p) n in
            let d := replicate (Z.to_nat (gp_remainingLength p)) Corelib.Init.Byte.x00 in
            let p := mkMQTTGWPacket (gp_header p) (gp_remainingLength p) (Owned (splice d 0 bs)) in
            if remlen =? -1 then Some (-1, (p, n))
            else if negb (remlen =? gp_remainingLength p) then Some (-2, (p, n))
            else Some (1 + len + gp_remainingLength p, (p, n))
          else Some (-3, (mkMQTTGWPacket (gp_header p) (gp_remainingLength p) Null, n))
        else Some (1 + len + gp_remainingLength p, (p, n))
    end.
End Network.

(** ** Running the setters *)

Section Build.
Implicit Types (h n : Z) (w bs : list byte).

(** A packet whose block is written up to [w], with [k] bytes to go. *)
Definition filled h n w (k : nat) : MQTTGWPacket :=
  mkMQTTGWPacket h n (Owned (w ++ replicate k Corelib.Init.Byte.x00)).

Lemma gp_put_run h n w k bs : (length bs <= k)%nat ->
  gp_put (zlen w) bs (filled h n w k) = Some (zlen (w ++ bs), filled h n (w ++ bs) (k - length bs)).
Proof.
  intros Hk. unfold gp_put, filled. cbn [gp_data gp_header gp_remainingLength].
  replace ((0 <=? zlen w) && (zlen w + zlen bs <=? zlen (w ++ replicate k Corelib.Init.Byte.x00))) with true
    by (symmetry; apply andb_true_iff; rewrite !Z.leb_le; zlen_lia).
  do 2 f_equal; [zlen_lia|]. do 2 f_equal. unfold splice. rewrite Nat2Z.id, take_app_length, <- app_assoc.
  do 2 f_equal. rewrite drop_app_ge by lia. replace (length w + length bs - length w)%nat with (length bs) by lia.
  apply drop_replicate.
Qed.

Lemma gw_writeChar_run h n w k c : (1 <= k)%nat ->
  gw_writeChar (zlen w) c (filled h n w k) = Some (zlen (w ++ [byte_of_Z c]), filled h n (w ++ [byte_of_Z c]) (k - 1)).
Proof. apply (gp_put_run h n w k [byte_of_Z c]). Qed.

Lemma int_bytes_quot x : 0 <= x ->
  [byte_of_Z (Z.quot x 256); byte_of_Z (Z.rem x 256)] = int_bytes x.
Proof. intros. unfold int_bytes. by rewrite Z.quot_div_nonneg, Z.rem_mod_nonneg, byte_of_Z_mod by lia. Qed.

Lemma gw_writeInt_run h n w k x : 0 <= x -> (2 <= k)%nat ->
  gw_writeInt (zlen w) x (filled h n w k) = Some (zlen (w ++ int_bytes x), filled h n (w ++ int_bytes x) (k - 2)).
Proof.
  intros Hx Hk. rewrite <- int_bytes_quot by done. unfold gw_writeInt.
  rewrite (sbind_run _ _ _ _ _ (gp_put_run h n w k [_] ltac:(simpl; lia))).
  rewrite gp_put_run by (simpl; lia). rewrite <- app_assoc. simpl. do 3 f_equal. lia.
Qed.

Lemma gw_writeUTF_run h n w k (t : list byte) : (2 + length t <= k)%nat ->
  gw_writeUTF (zlen w) (Some t) (filled h n w k) =
    Some (zlen (w ++ utf_bytes t), filled h n (w ++ utf_bytes t) (k - (2 + length t))).
Proof.
  intros Hk. unfold gw_writeUTF, gw_strlen. sprim.
  rewrite (sbind_run _ _ _ _ _ (gw_writeInt_run h n w k (zlen t) ltac:(lia) ltac:(lia))). change (default [] (Some t)) with t.
  rewrite gp_put_run by lia. unfold utf_bytes. rewrite <- app_assoc. do 3 f_equal. lia.
Qed.

Lemma gw_memcpy_run h n w k (t rest : list byte) : (length t <= k)%nat ->
  gw_memcpy (zlen w) (t ++ rest) (zlen t) (filled h n w k) = Some (zlen (w ++ t), filled h n (w ++ t) (k - length t)).
Proof.
  intros Hk. unfold gw_memcpy.
  replace ((0 <=? zlen t) && (zlen t <=? zlen (t ++ rest))) with true
    by (symmetry; apply andb_true_iff; rewrite !Z.leb_le; zlen_lia).
  rewrite Nat2Z.id, take_app_length. by apply gp_put_run.
Qed.

(** The block is not freed already. *)
Definition not_freed (p : MQTTGWPacket) : Prop := gp_data p <> Freed.

Lemma clearData_run p : not_freed p ->
  exists d, MQTTGWPacket_clearData p = Some (tt, mkMQTTGWPacket 0 0 d).
Proof.
  unfold not_freed, MQTTGWPacket_clearData, gp_free. destruct p as [h n [| |d]]; [by eexists|done|by eexists].
Qed.

Lemma gp_calloc_run calloc_ok n p : 0 <= n -> calloc_ok n = true ->
  gp_calloc calloc_ok n p = Some (true, filled (gp_header p) (gp_remainingLength p) [] (Z.to_nat n)).
Proof. intros Hn Hok. unfold gp_calloc. rewrite Hok, (proj2 (Z.leb_le _ _) Hn). done. Qed.

Lemma gw_encode_bytes k n : 0 <= n -> gw_encode k n = remlen_digits k n.
Proof.
  revert n. induction k as [|k IH]; intros n Hn; [done|]. cbn [gw_encode remlen_digits].
  rewrite Z.quot_div_nonneg, Z.rem_mod_nonneg by lia. destruct (Z.ltb_spec n 128).
  - rewrite Z.div_small, Z.mod_small by lia. done.
  - test_true (0 <? n / 128). rewrite lor_128 by divmod_lia. f_equal. apply IH. divmod_lia.
Qed.

(** A finished packet as [getPacketData] lays it out. *)
Lemma getPacketData_run h (body rest : list byte) :
  MQTTGWPacket_getPacketData (mkMQTTGWPacket h (zlen body) (Owned (body ++ rest))) =
    Some (mqtt_packet h body, mkMQTTGWPacket h (zlen body) (Owned (body ++ rest))).
Proof.
  unfold MQTTGWPacket_getPacketData. sprim. cbn [gp_data gp_remainingLength gp_header].
  replace ((0 <=? zlen body) && (zlen body <=? zlen (body ++ rest))) with true
    by (symmetry; apply andb_true_iff; rewrite !Z.leb_le; zlen_lia).
  rewrite Nat2Z.id, take_app_length, gw_encode_bytes by lia. done.
Qed.

Lemma set_type_header h t : 0 <= h < 256 ->
  set_header_type h t = mqtt_header t (header_dup h) (header_qos h) (header_retain h).
Proof.
  intros Hh. assert (set_header_type h t = set_header_type (h mod 16) t) as ->.
  { unfold set_header_type. apply Z.bits_inj'. intros i Hi. rewrite !testbit_bf_set by lia.
    destruct ((4 <=? i) && (i <? 4 + 4)) eqn:E; [done|].
    change 16 with (2 ^ 4). destruct (Z.lt_ge_cases i 4); [by rewrite Z.mod_pow2_bits_low|].
    rewrite Z.mod_pow2_bits_high by lia. destruct (Z.eq_dec h 0) as [->|]; [apply Z.bits_0|].
    apply Z.bits_above_log2; [lia|]. assert (8 <= i) by lia.
    apply Z.lt_le_trans with 8; [apply Z.log2_lt_pow2; lia|done]. }
  unfold set_header_type, mqtt_header, header_dup, header_qos, header_retain. rewrite !bf_get_div by lia.
  rewrite bf_set_clear by (simpl; divmod_lia). simpl. divmod_lia.
Qed.
End Build.

(** ** The packets that are built *)

Section Packets.
Context (calloc_ok : Z -> bool).
Implicit Types (p : MQTTGWPacket).

(** Clear, set the header and the length, and get the block. *)
Ltac build_start Hfree :=
  let d := fresh "d" in let Hd := fresh "Hd" in
  destruct (clearData_run _ Hfree) as [d Hd]; srun Hd; clear Hd.
Tactic Notation "wrun" uconstr(lem) := erewrite sbind_run; [|eapply lem; simpl length; lia].
Ltac build_calloc Hok := erewrite sbind_run; [|eapply gp_calloc_run; [lia|exact Hok]].

(** The data of a Publish: the pointers lead to the topic and the payload. *)
Definition publish_denotes (pub : Publish) (topic payload : list byte) : Prop :=
  (exists rest, gpub_topic pub = topic ++ rest) /\ gpub_topiclen pub = zlen topic /\
  (exists rest, gpub_payload pub = payload ++ rest) /\ gpub_payloadlen pub = zlen payload.

Lemma setPUBLISH_run p pub topic payload : not_freed p ->
  publish_denotes pub topic payload -> 0 <= gpub_header pub < 256 -> 0 <= gpub_msgId pub ->
  calloc_ok (4 + zlen topic + zlen payload) = true ->
  let h := gpub_header pub in
  let body := publish_body (header_qos h) (gpub_msgId pub) topic payload in
  MQTTGWPacket_setPUBLISH calloc_ok pub p =
    Some (1, mkMQTTGWPacket (mqtt_header PUBLISH (header_dup h) (header_qos h) (header_retain h)) (zlen body)
               (Owned (body ++ if 0 <? header_qos h then [] else replicate 2 Corelib.Init.Byte.x00))).
Proof.
  intros Hfree ((r1 & Htopic) & Htl & (r2 & Hpay) & Hpl) Hh Hid Hok h body. unfold MQTTGWPacket_setPUBLISH.
  build_start Hfree. sprim. sprim. rewrite Htl, Hpl. build_calloc Hok. cbn [gp_header gp_remainingLength].
  rewrite set_type_header by done. fold h. set (h' := mqtt_header _ _ _ _).
  wrun (gw_writeInt_run h' _ []). rewrite Htopic. wrun gw_memcpy_run.
  rewrite (sbind_run gp_get _ _ _ _ eq_refl). cbn [gp_header gp_remainingLength filled].
  assert (Hq : header_qos h' = header_qos h).
  { unfold h'. rewrite header_qos_is. apply Z.mod_small. unfold header_qos. by apply (bf_get_range _ 1 2). }
  rewrite Hq. assert (Hlen := publish_body_length (header_qos h) (gpub_msgId pub) topic payload).
  fold body in Hlen. rewrite Hpay. destruct (0 <? header_qos h) eqn:E.
  - wrun gw_writeInt_run. wrun gw_memcpy_run.
    unfold sret, filled. match goal with |- context [replicate ?k _] => replace k with 0%nat by lia end.
    do 3 f_equal; [lia|]. f_equal. rewrite !app_nil_r. unfold body, publish_body, utf_bytes. rewrite E. cbn [app]. by rewrite <- !app_assoc.
  - rewrite sbind_assoc. rewrite (sbind_run (gp_set_remainingLength _) _ _ _ _ eq_refl). rewrite (sbind_run (sret _) _ _ _ _ eq_refl).
    pose proof (gw_memcpy_run h' (zlen body) (([] ++ int_bytes (zlen topic)) ++ topic)
      (Z.to_nat (4 + zlen topic + zlen payload) - 2 - length topic) payload r2 ltac:(lia)) as Hrun.
    unfold filled in Hrun |- *. cbn [gp_header gp_remainingLength gp_data].
    replace (4 + zlen topic + zlen payload - 2) with (zlen body) by lia. srun Hrun.
    unfold sret. do 3 f_equal. f_equal. f_equal; [|f_equal; lia].
    unfold body, publish_body, utf_bytes. rewrite E. cbn [app]. by rewrite <- !app_assoc.
Qed.

Ltac no_zeros := match goal with |- context [replicate ?k _] => replace k with 0%nat by lia end.

Lemma setAck_run p t id : not_freed p -> 0 <= id -> calloc_ok 2 = true ->
  MQTTGWPacket_setAck calloc_ok t id p =
    Some (1, mkMQTTGWPacket (mqtt_header t 0 (if t =? PUBREL then 1 else 0) 0) 2 (Owned (int_bytes id))).
Proof.
  intros Hfree Hid Hok. unfold MQTTGWPacket_setAck. build_start Hfree. sprim. sprim. sprim.
  cbn [gp_header]. build_calloc Hok. cbn [gp_header gp_remainingLength].
  wrun (gw_writeInt_run _ _ []). unfold sret, filled. no_zeros. cbn [app replicate]. rewrite app_nil_r.
  do 3 f_equal. change (set_header_type 0 t) with (set_header_dup (set_header_type 0 t) 0) || idtac.
  rewrite header_assign_type. unfold set_header_qos, mqtt_header.
  rewrite bf_set_clear by (simpl; divmod_lia). simpl. divmod_lia.
Qed.

Lemma header_qos_1 t : set_header_qos (set_header_type 0 t) 1 = mqtt_header t 0 1 0.
Proof.
  rewrite header_assign_type. unfold set_header_qos, mqtt_header.
  rewrite bf_set_clear by (simpl; divmod_lia). simpl. divmod_lia.
Qed.

Lemma setSUBSCRIBE_run p topic qos id : not_freed p -> 0 <= id -> calloc_ok (zlen topic + 5) = true ->
  let body := subscribe_body id [(topic, qos)] in
  MQTTGWPacket_setSUBSCRIBE calloc_ok topic qos id p =
    Some (1, mkMQTTGWPacket (mqtt_header SUBSCRIBE 0 1 0) (zlen body) (Owned body)).
Proof.
  intros Hfree Hid Hok body. unfold MQTTGWPacket_setSUBSCRIBE. build_start Hfree. sprim. sprim.
  build_calloc Hok. cbn [gp_header gp_remainingLength]. rewrite header_qos_1.
  wrun (gw_writeInt_run _ _ []). wrun gw_writeUTF_run. wrun gw_writeChar_run.
  unfold sret, filled. no_zeros. unfold body, subscribe_body. cbn [app replicate entries_bytes].
  rewrite !app_nil_r, <- !app_assoc. do 3 f_equal. unfold utf_bytes, int_bytes. zlen_lia.
Qed.

Lemma setUNSUBSCRIBE_run p topic id : not_freed p -> 0 <= id -> calloc_ok (zlen topic + 4) = true ->
  let body := unsubscribe_body id [topic] in
  MQTTGWPacket_setUNSUBSCRIBE calloc_ok topic id p =
    Some (1, mkMQTTGWPacket (mqtt_header UNSUBSCRIBE 0 1 0) (zlen body) (Owned body)).
Proof.
  intros Hfree Hid Hok body. unfold MQTTGWPacket_setUNSUBSCRIBE. build_start Hfree. sprim. sprim.
  build_calloc Hok. cbn [gp_header gp_remainingLength]. rewrite header_qos_1.
  wrun (gw_writeInt_run _ _ []). wrun gw_writeUTF_run.
  unfold sret, filled. no_zeros. unfold body, unsubscribe_body. cbn [app replicate topics_bytes].
  rewrite !app_nil_r. do 3 f_equal. unfold utf_bytes, int_bytes. zlen_lia.
Qed.

(** The structure Connect and the credentials stand for the options [i]. *)
Definition connect_denotes (co : Connect) (user password : option (list byte)) (i : connect_info) : Prop :=
  co_header co = mqtt_header CONNECT 0 0 0 /\ (ci_version i = 3 \/ ci_version i = 4) /\
  co_version co = ci_version i /\ co_flags co = connect_flags_byte i /\
  co_clientID co = Some (ci_client i) /\ co_keepAliveTimer co = ci_keepalive i /\ 0 <= ci_keepalive i /\
  match ci_will i with
  | Some w => co_willTopic co = Some (wi_topic w) /\ co_willMsg co = Some (wi_message w)
  | None => True
  end /\
  (given (ci_user i) = true -> user = ci_user i) /\ (given (ci_password i) = true -> password = ci_password i).

Lemma flag_given (b : bool) : negb ((if b then 1 else 0) =? 0) = b.
Proof. by destruct b. Qed.

Lemma remainingLength_run co user password i p : connect_denotes co user password i ->
  connect_remainingLength co user password p = Some (connect_length i, p).
Proof.
  intros (_ & Hver & Hv & Hf & Hc & _ & _ & Hw & Hu & Hp). unfold connect_remainingLength.
  destruct (flag_fields i) as (_ & Hfw & _ & _ & Hfu & Hfp). rewrite Hf, Hfw, Hfu, Hfp, !flag_given, Hc, Hv.
  unfold connect_length, connect_payload, will_bytes, opt_utf. sprim.
  destruct (ci_will i) as [w|], (ci_user i) as [u|], (ci_password i) as [q|]; cbn [given] in *;
    rewrite ?Hu, ?Hp by done; try (rewrite (proj1 Hw), (proj2 Hw)); unfold gw_strlen, sbind, sret;
    do 2 f_equal; unfold utf_bytes, int_bytes; destruct Hver as [-> | ->]; cbn; zlen_lia.
Qed.

(** An optional string is written where its flag is set. *)
Lemma write_opt_run h n w k (o s : option (list byte)) :
  (given o = true -> s = o) -> (length (opt_utf o) <= k)%nat ->
  (if given o then gw_writeUTF (zlen w) s else sret (zlen w)) (filled h n w k) =
    Some (zlen (w ++ opt_utf o), filled h n (w ++ opt_utf o) (k - length (opt_utf o))).
Proof.
  intros Hs Hk. destruct o as [t|]; cbn [given opt_utf] in *.
  - rewrite Hs by done. unfold utf_bytes, int_bytes in Hk. simpl in Hk. rewrite gw_writeUTF_run by lia. done.
  - rewrite app_nil_r. unfold sret. do 3 f_equal. simpl. lia.
Qed.

Lemma write_will_run h n w k co (o : option will_info) :
  match o with
  | Some i => co_willTopic co = Some (wi_topic i) /\ co_willMsg co = Some (wi_message i)
  | None => True
  end -> (length (will_bytes o) <= k)%nat ->
  (if given o then let! pos := gw_writeUTF (zlen w) (co_willTopic co) in gw_writeUTF pos (co_willMsg co)
   else sret (zlen w)) (filled h n w k) =
    Some (zlen (w ++ will_bytes o), filled h n (w ++ will_bytes o) (k - length (will_bytes o))).
Proof.
  intros Ho Hk. destruct o as [i|]; cbn [given will_bytes] in *.
  - destruct Ho as [-> ->]. unfold utf_bytes, int_bytes in Hk. rewrite !length_app in Hk. simpl in Hk.
    wrun gw_writeUTF_run. rewrite gw_writeUTF_run by lia. rewrite <- app_assoc. do 3 f_equal.
    rewrite length_app. unfold utf_bytes, int_bytes. simpl. lia.
  - rewrite app_nil_r. unfold sret. do 3 f_equal. simpl. lia.
Qed.

Lemma setCONNECT_run p co user password i : not_freed p -> connect_denotes co user password i ->
  calloc_ok (connect_length i) = true ->
  MQTTGWPacket_setCONNECT calloc_ok co user password p =
    Some (1, mkMQTTGWPacket (mqtt_header CONNECT 0 0 0) (zlen (connect_body i)) (Owned (connect_body i))).
Proof.
  intros Hfree Hd Hok. unfold MQTTGWPacket_setCONNECT. build_start Hfree. sprim.
  rewrite (sbind_run _ _ _ _ _ (remainingLength_run co user password i _ Hd)). sprim.
  pose proof (connect_length_payload i) as Hlen. build_calloc Hok. cbn [gp_header gp_remainingLength].
  destruct Hd as (Hh & Hver & Hv & Hf & Hc & Hk & Hk0 & Hw & Hu & Hp).
  destruct (flag_fields i) as (_ & Hfw & _ & _ & Hfu & Hfp). rewrite Hf, Hfw, Hfu, Hfp, !flag_given, Hc, Hv, Hk, Hh.
  assert (Htest : negb ((ci_version i =? 3) || (ci_version i =? 4)) = false) by (destruct Hver as [-> | ->]; done).
  rewrite Htest.
  assert (Hroom : connect_length i = (if ci_version i =? 3 then 12 else 10) + zlen (connect_payload i))
    by (unfold connect_length; destruct Hver as [-> | ->]; done).
  assert (Hproto : utf_bytes (if ci_version i =? 3 then lit_MQIsdp else lit_MQTT) ++
    [byte_of_Z (if ci_version i =? 3 then 3 else 4)] = connect_protocol (ci_version i))
    by (unfold connect_protocol; destruct Hver as [-> | ->]; done).
  set (lit := if ci_version i =? 3 then lit_MQIsdp else lit_MQTT) in *.
  assert (Hlit : length lit = if ci_version i =? 3 then 6%nat else 4%nat)
    by (unfold lit; destruct Hver as [-> | ->]; done).
  unfold connect_payload in Hroom. rewrite !length_app in Hroom.
  assert (Hc2 : length (utf_bytes (ci_client i)) = (2 + length (ci_client i))%nat) by done.
  assert (Hk2 : (Z.to_nat (connect_length i) = 6 + length lit + length (utf_bytes (ci_client i)) +
    length (will_bytes (ci_will i)) + length (opt_utf (ci_user i)) + length (opt_utf (ci_password i)))%nat)
    by (rewrite Hroom, Hlit; destruct (ci_version i =? 3); lia).
  clear Hroom Hlen Hlit. rewrite Hk2.
  wrun (gw_writeUTF_run _ _ []). wrun gw_writeChar_run. wrun gw_writeChar_run. wrun gw_writeInt_run.
  wrun gw_writeUTF_run.
  erewrite sbind_run; [|eapply write_will_run; [exact Hw|lia]].
  erewrite sbind_run; [|eapply write_opt_run; [exact Hu|lia]].
  erewrite sbind_run; [|eapply write_opt_run; [exact Hp|lia]].
  unfold sret, filled. no_zeros. cbn [replicate]. rewrite app_nil_r. do 2 f_equal.
  assert (Hbody : ((((((([] ++ utf_bytes lit) ++ [byte_of_Z (if ci_version i =? 3 then 3 else 4)]) ++
    [byte_of_Z (connect_flags_byte i)]) ++ int_bytes (ci_keepalive i)) ++ utf_bytes (ci_client i)) ++
    will_bytes (ci_will i)) ++ opt_utf (ci_user i)) ++ opt_utf (ci_password i) = connect_body i).
  { unfold connect_body. rewrite <- Hproto. unfold connect_payload. cbn [app]. by rewrite <- !app_assoc. }
  rewrite Hbody, <- (connect_body_length i Hver). done.
Qed.
End Packets.

(** ** Reading back *)

Section Reading.
Implicit Types (body : list byte).

Lemma gp_at_run h n d pos b : lookupZ d pos = Some b ->
  gp_at pos (mkMQTTGWPacket h n (Owned d)) = Some (Z_of_byte b, mkMQTTGWPacket h n (Owned d)).
Proof. intros Hl. unfold gp_at. cbn [gp_data]. by rewrite Hl. Qed.

Lemma lookupZ_app (w : list byte) b r : lookupZ (w ++ b :: r) (zlen w) = Some b.
Proof.
  unfold lookupZ. test_true (0 <=? zlen w) || idtac. rewrite Nat2Z.id, lookup_app_r by lia.
  by rewrite Nat.sub_diag.
Qed.

Lemma gw_readInt_run h n w x r : 0 <= x < 65536 ->
  gw_readInt (zlen w) (mkMQTTGWPacket h n (Owned (w ++ int_bytes x ++ r))) =
    Some ((x, zlen w + 2), mkMQTTGWPacket h n (Owned (w ++ int_bytes x ++ r))).
Proof.
  intros Hx. unfold gw_readInt. erewrite sbind_run; [|apply gp_at_run; apply lookupZ_app].
  erewrite sbind_run; [|apply gp_at_run].
  2:{ pose proof (lookupZ_app (w ++ [byte_of_Z (x / 256)]) (byte_of_Z x) r) as Hl.
      rewrite <- app_assoc in Hl. cbn [app] in Hl. rewrite length_app in Hl. simpl in Hl.
      rewrite Nat2Z.inj_add in Hl. exact Hl. }
  unfold sret. rewrite !Z_of_byte_of_Z. do 3 f_equal. divmod_lia.
Qed.

Lemma gp_from_run h n w r :
  gp_from (zlen w) (mkMQTTGWPacket h n (Owned (w ++ r))) = Some (r, mkMQTTGWPacket h n (Owned (w ++ r))).
Proof. unfold gp_from. sprim. cbn [gp_data]. by rewrite Nat2Z.id, drop_app_length. Qed.

(** A PUBLISH in the block is found where it is. *)
Lemma getPUBLISH_run h qos id topic payload pad :
  header_type h = PUBLISH -> header_qos h = qos -> zlen topic < 65536 -> 0 <= id < 65536 ->
  let body := publish_body qos id topic payload in
  let p := mkMQTTGWPacket h (zlen body) (Owned (body ++ pad)) in
  exists pub, MQTTGWPacket_getPUBLISH p = Some (Some pub, p) /\ publish_denotes pub topic payload /\
    gpub_header pub = h /\ gpub_msgId pub = if 0 <? qos then id else 0.
Proof.
  intros Ht Hq Htl Hid body p. unfold MQTTGWPacket_getPUBLISH. sprim. cbn [gp_header p]. rewrite Ht. cbn [negb Z.eqb].
  rewrite Z.eqb_refl. cbn [negb].
  pose proof (publish_body_length qos id topic payload) as Hlen. fold body in Hlen.
  set (tail := (if 0 <? qos then int_bytes id else []) ++ payload ++ pad).
  assert (Hbody : body ++ pad = [] ++ int_bytes (zlen topic) ++ topic ++ tail).
  { unfold body, publish_body, utf_bytes, tail. cbn [app]. by rewrite <- !app_assoc. }
  unfold p. rewrite Hbody. erewrite sbind_run; [|apply (gw_readInt_run h _ []); lia].
  cbn [app]. rewrite (sbind_run _ _ _ _ _ (gp_from_run h _ (int_bytes (zlen topic)) (topic ++ tail))).
  rewrite Hq. change (zlen []) with 0.
  replace (0 + 2 + zlen topic) with (zlen (int_bytes (zlen topic) ++ topic)) by zlen_lia.
  rewrite (app_assoc (int_bytes _)). unfold tail. destruct (0 <? qos) in Hlen |- *.
  - erewrite sbind_run; [|apply gw_readInt_run; lia].
    replace (zlen (int_bytes (zlen topic) ++ topic) + 2) with (zlen ((int_bytes (zlen topic) ++ topic) ++ int_bytes id)) by zlen_lia.
    rewrite (app_assoc (int_bytes (zlen topic) ++ topic) (int_bytes id) (payload ++ pad)). erewrite sbind_run; [|apply gp_from_run].
    eexists. split; [reflexivity|]. split; [|done]. split_and!; [by eexists|done|by eexists|cbn [gp_remainingLength gpub_payloadlen]; lia].
  - cbn [app]. rewrite (sbind_run _ _ _ _ _ (gp_from_run h _ _ (payload ++ pad))).
    eexists. split; [reflexivity|]. split; [|done]. split_and!; [by eexists|done|by eexists|cbn [gp_remainingLength gpub_payloadlen]; lia].
Qed.

Lemma getAck_run h id rest n : 0 <= id < 65536 ->
  header_type h ∈ [4; 5; 6; 7; 11] ->
  let p := mkMQTTGWPacket h n (Owned (int_bytes id ++ rest)) in
  MQTTGWPacket_getAck p = Some (Some (h, id), p).
Proof.
  intros Hid Ht p. unfold MQTTGWPacket_getAck. sprim. cbn [gp_header p].
  assert (Htest : negb (PUBACK =? header_type h) && negb (PUBREC =? header_type h) && negb (PUBREL =? header_type h) &&
    negb (PUBCOMP =? header_type h) && negb (UNSUBACK =? header_type h) = false).
  { cbn [msg_code]. repeat (apply elem_of_cons in Ht as [->|Ht]; [done|]). by apply elem_of_nil in Ht. }
  rewrite Htest. by erewrite sbind_run; [|apply (gw_readInt_run h _ []); lia].
Qed.
End Reading.

(** ** Receiving from a stream *)

(** A connected stream socket: the bytes that have arrived are handed over in
    order, at most as many as are there. *)
Class StreamSocket (N : Type) `{Socket N} := {
  pending : N -> list byte;
  recv_pending : forall k n, 0 <= k -> pending n <> [] ->
    exists n', sock_recv k n =
        ((zlen (take (Z.to_nat k) (pending n)), take (Z.to_nat k) (pending n)), n') /\
      pending n' = drop (Z.to_nat k) (pending n);
}.

#[export] Instance list_socket : Socket (list byte) := {
  sock_recv k n := ((zlen (take (Z.to_nat k) n), take (Z.to_nat k) n), drop (Z.to_nat k) n);
  sock_send bs n := (zlen bs, n);
}.

#[export] Instance list_stream : StreamSocket (list byte).
Proof. exists id. intros k n _ _. by eexists. Defined.

Section Receive.
Context {N : Type} `{StreamSocket N} (calloc_ok : Z -> bool).
Implicit Types (n : N) (p : MQTTGWPacket).

Lemma recv_byte_run n b r : pending n = b :: r ->
  exists n', Network_recv 1 n = ((1, [b]), n') /\ pending n' = r.
Proof.
  intros Hn. change (Network_recv 1 n) with (sock_recv 1 n). destruct (recv_pending 1 n) as (n' & Hr & Hp); [lia|by rewrite Hn|].
  exists n'. rewrite Hr, Hp, Hn. done.
Qed.

Lemma recv_bytes_run n (bs r : list byte) : bs <> [] -> zlen bs < 65536 -> pending n = bs ++ r ->
  exists n', Network_recv (zlen bs) n = ((zlen bs, bs), n') /\ pending n' = r.
Proof.
  intros Hbs Hs Hn. unfold Network_recv. rewrite u16_small by lia.
  destruct (recv_pending (zlen bs) n) as (n' & Hr & Hp); [lia|..].
  { rewrite Hn. by destruct bs. }
  exists n'. rewrite Hr, Hp, Hn, Nat2Z.id, take_app_length, drop_app_length. done.
Qed.

(** The digits of the remaining length add up in [_remainingLength]. *)
Lemma gw_recv_length_run k : forall m c len mult h r d n rest,
  0 <= m < 128 ^ Z.of_nat (S k) -> 0 <= len -> len + zlen (remlen_digits (S k) m) <= 3 ->
  pending n = remlen_digits (S k) m ++ rest ->
  exists n', gw_recv_length (S k) c len mult (mkMQTTGWPacket h r d, n) =
      Some (len + zlen (remlen_digits (S k) m), (mkMQTTGWPacket h (r + m * mult) d, n')) /\ pending n' = rest.
Proof.
  unfold GW_MAX_REMAINING_LENGTH_BYTES.
  induction k as [|k IH]; intros m c len mult h r d n rest Hm Hlen Hroom Hp; destruct (Z.lt_ge_cases m 128) as [Hs|Hs];
    try (change (128 ^ Z.of_nat 1) with 128 in Hm; lia).
  3: remember (S k) as k1 eqn:Hk1. all: cbn [gw_recv_length].
  1, 2: rewrite remlen_digits_short in * by done; destruct (recv_byte_run n _ _ Hp) as (n1 & Hr & Hp1); rewrite Hr;
    unfold GW_MAX_REMAINING_LENGTH_BYTES; test_false (3 <? len + 1); cbn [Z.eqb gp_header gp_remainingLength gp_data];
    rewrite land_127_byte, land_128_byte, Z_of_byte_small by lia; test_true (m <? 128); by exists n1.
  rewrite remlen_digits_long in * by done. destruct (recv_byte_run n _ _ Hp) as (n1 & Hr & Hp1). rewrite Hr.
  unfold GW_MAX_REMAINING_LENGTH_BYTES. test_false (3 <? len + 1). cbn [Z.eqb gp_header gp_remainingLength gp_data].
  pose proof (Z.mod_pos_bound m 128 eq_refl). rewrite land_127_byte, land_128_byte, Z_of_byte_small by lia.
  test_false (m mod 128 + 128 <? 128). cbn [negb].
  rewrite (Nat2Z.inj_succ k1), Z.pow_succ_r in Hm by lia.
  destruct (IH (m / 128) (Some (m mod 128 + 128)) (len + 1) (mult * 128) h
    (r + (m mod 128 + 128 - 128) * mult) d n1 rest) as (n2 & Hrun & Hp2); [divmod_lia|lia|zlen_lia|done|].
  exists n2. rewrite Hrun. split; [|done]. do 2 f_equal; [zlen_lia|]. do 2 f_equal.
  rewrite (Z.div_mod m 128) at 3 by lia. ring.
Qed.

(** Four digits are one too many. *)
Lemma gw_recv_length_long c h d n m rest : REMLEN_MAX >= m -> 2097152 <= m -> pending n = remlen_bytes m ++ rest ->
  exists p' n', gw_recv_length 5 c 0 1 (mkMQTTGWPacket h 0 d, n) = Some (-2, (p', n')).
Proof.
  unfold REMLEN_MAX, remlen_bytes. intros Hmax Hm Hp.
  rewrite remlen_digits_long, remlen_digits_long, remlen_digits_long in Hp by divmod_lia.
  pose proof (Z.mod_pos_bound m 128 eq_refl). pose proof (Z.mod_pos_bound (m / 128) 128 eq_refl).
  pose proof (Z.mod_pos_bound (m / 128 / 128) 128 eq_refl).
  do 3 (cbn [gw_recv_length app] in *;
    destruct (recv_byte_run _ _ _ Hp) as (? & Hr & Hp1); rewrite Hr; clear Hr Hp; rename Hp1 into Hp;
    unfold GW_MAX_REMAINING_LENGTH_BYTES at 1; cbn [Z.add Z.ltb Z.compare Pos.compare Pos.compare_cont Z.eqb];
    rewrite land_127_byte, land_128_byte, Z_of_byte_small by lia;
    match goal with |- context [?a mod 128 + 128 <? 128] => test_false (a mod 128 + 128 <? 128) end; cbn [negb]).
  cbn [gw_recv_length]. by do 2 eexists.
Qed.

(** The body is read into a fresh block. *)
Lemma recv_body_run h n body rest : body <> [] -> zlen body < 65536 -> pending n = body ++ rest ->
  exists n', Network_recv (zlen body) n = ((zlen body, body), n') /\ pending n' = rest /\
    splice (replicate (Z.to_nat (zlen body)) Corelib.Init.Byte.x00) 0 body = body /\
    MQTTGWPacket_getPacketData (mkMQTTGWPacket h (zlen body) (Owned body)) =
      Some (mqtt_packet h body, mkMQTTGWPacket h (zlen body) (Owned body)).
Proof.
  intros Hb Hs Hp. destruct (recv_bytes_run n body rest Hb Hs Hp) as (n' & Hr & Hp'). exists n'. repeat split; [done..| |].
  - unfold splice. rewrite Nat2Z.id. cbn [Z.to_nat take app]. rewrite drop_ge by (rewrite length_replicate; simpl; lia).
    apply app_nil_r.
  - pose proof (getPacketData_run h body []) as Hd. by rewrite app_nil_r in Hd.
Qed.

(** A longer body is not: the length is cut to 16 bits. *)
Lemma recv_body_long n (body rest : list byte) : 65536 <= zlen body -> pending n = body ++ rest ->
  exists got bs n', Network_recv (zlen body) n = ((got, bs), n') /\ 0 <= got < 65536.
Proof.
  intros Hl Hn. unfold Network_recv. assert (Hu : 0 <= u16 (zlen body) < 65536) by (unfold u16; divmod_lia).
  destruct (recv_pending (u16 (zlen body)) n) as (n' & Hr & _); [lia|rewrite Hn; by destruct body|].
  rewrite Hr. do 3 eexists. split; [done|]. rewrite length_take. lia.
Qed.

(** The header and the length of a packet that arrives in an object without
    length. *)
Lemma recv_length_run p n h (body rest : list byte) : gp_remainingLength p = 0 -> 0 <= h < 256 ->
  zlen body < 2097152 -> pending n = mqtt_packet h body ++ rest ->
  exists n', pending n' = body ++ rest /\
    MQTTGWPacket_recv calloc_ok (p, n) =
      let q := mkMQTTGWPacket h (zlen body) (gp_data p) in
      let len := zlen (remlen_bytes (zlen body)) in
      if 0 <? zlen body then
        if (0 <=? zlen body) && calloc_ok (zlen body) then
          let '((remlen, bs), n') := Network_recv (zlen body) n' in
          let q := mkMQTTGWPacket h (zlen body) (Owned (splice (replicate (Z.to_nat (zlen body)) Corelib.Init.Byte.x00) 0 bs)) in
          if remlen =? -1 then Some (-1, (q, n'))
          else if negb (remlen =? zlen body) then Some (-2, (q, n'))
          else Some (1 + len + zlen body, (q, n'))
        else Some (-3, (mkMQTTGWPacket h (zlen body) Null, n'))
      else Some (1 + len + zlen body, (q, n')).
Proof.
  destruct p as [h0 r0 d]. cbn [gp_remainingLength gp_data]. intros -> Hh Hs Hp.
  unfold mqtt_packet in Hp. cbn [app] in Hp. destruct (recv_byte_run n _ _ Hp) as (n1 & Hr & Hp1).
  unfold MQTTGWPacket_recv. rewrite Hr. cbn [Z.leb Z.compare gp_remainingLength gp_data].
  rewrite Z_of_byte_small by lia. rewrite <- app_assoc in Hp1.
  assert (Hdig : zlen (remlen_bytes (zlen body)) <= 3).
  { rewrite remlen_bytes_length by (unfold REMLEN_MAX; lia). repeat case_test; lia. }
  destruct (gw_recv_length_run 4 (zlen body) None 0 1 h 0 d n1 (body ++ rest)) as (n2 & Hrun & Hp2);
    [simpl; lia|lia|done|done|].
  rewrite Hrun. change (remlen_digits 5 (zlen body)) with (remlen_bytes (zlen body)).
  test_false (0 + zlen (remlen_bytes (zlen body)) <? 0). cbn [gp_remainingLength gp_header gp_data].
  replace (0 + zlen body * 1) with (zlen body) by lia. by exists n2.
Qed.

Lemma recv_length_long p n h (body rest : list byte) : gp_remainingLength p = 0 -> 0 <= h < 256 ->
  zlen body <= REMLEN_MAX -> 2097152 <= zlen body -> pending n = mqtt_packet h body ++ rest ->
  exists q n', MQTTGWPacket_recv calloc_ok (p, n) = Some (-2, (q, n')).
Proof.
  destruct p as [h0 r0 d]. cbn [gp_remainingLength gp_data]. intros -> Hh Hmax Hs Hp.
  unfold mqtt_packet in Hp. cbn [app] in Hp. destruct (recv_byte_run n _ _ Hp) as (n1 & Hr & Hp1).
  unfold MQTTGWPacket_recv. rewrite Hr. cbn [Z.leb Z.compare gp_remainingLength gp_data].
  rewrite Z_of_byte_small by lia. rewrite <- app_assoc in Hp1.
  destruct (gw_recv_length_long None h d n1 (zlen body) (body ++ rest)) as (q & n2 & Hrun); [lia|done|done|].
  exists q, n2. by rewrite Hrun.
Qed.

(** [recv] takes exactly one packet off the stream, if its body has less than
    65536 bytes, and the packet lays itself out as it came; longer packets,
    which the protocol allows, are an error. *)
Theorem gw_recv_packet p n h body rest :
  gp_remainingLength p = 0 -> 0 <= h < 256 -> zlen body <= REMLEN_MAX -> calloc_ok (zlen body) = true ->
  pending n = mqtt_packet h body ++ rest ->
  exists q n',
    if zlen body <? 65536 then
      MQTTGWPacket_recv calloc_ok (p, n) = Some (zlen (mqtt_packet h body), (q, n')) /\
      pending n' = rest /\ gp_header q = h /\ gp_remainingLength q = zlen body /\
      MQTTGWPacket_getPacketData q = Some (mqtt_packet h body, q)
    else MQTTGWPacket_recv calloc_ok (p, n) = Some (-2, (q, n')).
Proof.
  intros Hr0 Hh Hmax Hok Hp. destruct (Z.le_gt_cases 2097152 (zlen body)) as [Hl|Hl].
  { destruct (recv_length_long p n h body rest) as (q & n' & Hrun); [done..|].
    exists q, n'. by test_false (zlen body <? 65536). }
  destruct (recv_length_run p n h body rest) as (n2 & Hp2 & ->); [done..|].
  assert (Hz : zlen (mqtt_packet h body) = 1 + zlen (remlen_bytes (zlen body)) + zlen body)
    by (unfold mqtt_packet; zlen_lia).
  rewrite Hz. destruct body as [|b body'] eqn:Hbody.
  { exists (mkMQTTGWPacket h 0 (gp_data p)), n2. repeat split; [done|]. unfold MQTTGWPacket_getPacketData. sprim.
    destruct (gp_data p) as [| |d]; try done. unfold sret. cbn [gp_data gp_remainingLength].
    by test_true (0 <=? zlen d). }
  rewrite <- Hbody in *. assert (Hne : body <> []) by by rewrite Hbody. clear Hbody.
  assert (0 < zlen body) by (destruct body; [done|zlen_lia]).
  test_true (0 <? zlen body). test_true (0 <=? zlen body). rewrite Hok. cbn [andb].
  destruct (Z.ltb_spec (zlen body) 65536) as [Hs|Hs].
  - destruct (recv_body_run h n2 body rest Hne Hs Hp2) as (n3 & Hrb & Hp3 & Hsp & Hd). rewrite Hrb, Hsp.
    test_false (zlen body =? -1). rewrite Z.eqb_refl. cbn [negb].
    by exists (mkMQTTGWPacket h (zlen body) (Owned body)), n3.
  - destruct (recv_body_long n2 body rest Hs Hp2) as (got & bs & n3 & Hrb & Hgot). rewrite Hrb.
    test_false (got =? -1). test_false (got =? zlen body). by do 2 eexists.
Qed.
End Receive.

(** "hi" on the topic "t". *)
Definition example_body : list byte := publish_body 0 0 [Corelib.Init.Byte.x74] [Corelib.Init.Byte.x68; Corelib.Init.Byte.x69].
Definition example_publish_wire : list byte := mqtt_packet (mqtt_header PUBLISH 0 0 0) example_body.

Lemma gw_recv_packet_witness :
  exists q n',
    if zlen example_body <? 65536 then
      MQTTGWPacket_recv (fun _ => true) (newMQTTGWPacket, example_publish_wire ++ [Corelib.Init.Byte.x01]) =
        Some (zlen example_publish_wire, (q, n')) /\
      pending n' = [Corelib.Init.Byte.x01] /\ gp_header q = mqtt_header PUBLISH 0 0 0 /\
      gp_remainingLength q = zlen example_body /\
      MQTTGWPacket_getPacketData q = Some (example_publish_wire, q)
    else MQTTGWPacket_recv (fun _ => true) (newMQTTGWPacket, example_publish_wire ++ [Corelib.Init.Byte.x01]) = Some (-2, (q, n')).
Proof. apply gw_recv_packet; [reflexivity|vm_compute; split; congruence|vm_compute; congruence|reflexivity|reflexivity]. Defined.

(** A stream that has delivered only a part of the body makes [recv] fail, and
    the next packet starts in the middle of this one. *)
Example recv_partial :
  MQTTGWPacket_recv (fun _ => true) (newMQTTGWPacket, take 4 example_publish_wire) =
    Some (-2, (mkMQTTGWPacket 48 5 (Owned [Corelib.Init.Byte.x00; Corelib.Init.Byte.x01; Corelib.Init.Byte.x00; Corelib.Init.Byte.x00; Corelib.Init.Byte.x00]), [])).
Proof. reflexivity. Qed.

(** An object that is used twice without [clearData] adds the two lengths. *)
Example recv_twice :
  match MQTTGWPacket_recv (fun _ => true) (newMQTTGWPacket, example_publish_wire ++ example_publish_wire) with
  | Some (_, s) => fst <$> MQTTGWPacket_recv (fun _ => true) s
  | None => None
  end = Some (-2).
Proof. reflexivity. Qed.

(** ** What the packets are on the wire *)

Section Wire.
Context (calloc_ok : Z -> bool).

(** [setX] succeeds, and the packet it leaves lays itself out as [wire]. *)
Definition builds (setX : st MQTTGWPacket Z) (p : MQTTGWPacket) (wire : list byte) : Prop :=
  exists q, setX p = Some (1, q) /\ MQTTGWPacket_getPacketData q = Some (wire, q) /\ not_freed q.

Lemma builds_owned (setX : st MQTTGWPacket Z) p h (body rest : list byte) :
  setX p = Some (1, mkMQTTGWPacket h (zlen body) (Owned (body ++ rest))) -> builds setX p (mqtt_packet h body).
Proof. intros Hrun. eexists. split; [exact Hrun|]. split; [apply getPacketData_run|done]. Qed.

(** C40: The setters build, byte for byte, the packets of the client library. *)
Theorem gw_packets_wire p : not_freed p -> (forall n, calloc_ok n = true) ->
  (forall pub topic payload, publish_denotes pub topic payload ->
     0 <= gpub_header pub < 256 -> 0 <= gpub_msgId pub ->
     builds (MQTTGWPacket_setPUBLISH calloc_ok pub) p
       (publish_packet (header_dup (gpub_header pub)) (header_qos (gpub_header pub)) (header_retain (gpub_header pub))
          (gpub_msgId pub) topic payload)) /\
  (forall type id, 0 <= id -> builds (MQTTGWPacket_setAck calloc_ok type id) p (ack_packet type 0 id)) /\
  (forall topic qos id, 0 <= id ->
     builds (MQTTGWPacket_setSUBSCRIBE calloc_ok topic qos id) p (subscribe_packet 0 id [(topic, qos)])) /\
  (forall topic id, 0 <= id ->
     builds (MQTTGWPacket_setUNSUBSCRIBE calloc_ok topic id) p (unsubscribe_packet 0 id [topic])) /\
  (forall co user password i, connect_denotes co user password i ->
     builds (MQTTGWPacket_setCONNECT calloc_ok co user password) p (connect_wire i)).
Proof.
  intros Hfree Hok. repeat apply conj.
  - intros pub topic payload Hd Hh Hid. eapply builds_owned, setPUBLISH_run; auto.
  - intros type id Hid. apply (builds_owned _ _ _ (int_bytes id) []). rewrite app_nil_r. by apply setAck_run.
  - intros topic qos id Hid. apply (builds_owned _ _ _ _ []). rewrite app_nil_r. by apply setSUBSCRIBE_run.
  - intros topic id Hid. apply (builds_owned _ _ _ _ []). rewrite app_nil_r. by apply setUNSUBSCRIBE_run.
  - intros co user password i Hd. unfold connect_wire. rewrite <- connect_body_length by apply Hd.
    apply (builds_owned _ _ _ _ []). rewrite app_nil_r. by apply setCONNECT_run.
Qed.

(** Bytes of the block are overwritten in place. *)
Lemma gp_put_over h n w (old bs r : list byte) : length old = length bs ->
  gp_put (zlen w) bs (mkMQTTGWPacket h n (Owned (w ++ old ++ r))) =
    Some (zlen (w ++ bs), mkMQTTGWPacket h n (Owned (w ++ bs ++ r))).
Proof.
  intros Hl. unfold gp_put. cbn [gp_data gp_header gp_remainingLength].
  replace ((0 <=? zlen w) && (zlen w + zlen bs <=? zlen (w ++ old ++ r))) with true
    by (symmetry; apply andb_true_iff; rewrite !Z.leb_le; zlen_lia).
  do 2 f_equal; [zlen_lia|]. do 2 f_equal. unfold splice. rewrite Nat2Z.id, take_app_length. do 2 f_equal.
  rewrite drop_app_ge by lia. replace (length w + length bs - length w)%nat with (length old) by lia.
  apply drop_app_length.
Qed.

Lemma gw_writeInt_over h n w x (old r : list byte) : 0 <= x -> length old = 2%nat ->
  gw_writeInt (zlen w) x (mkMQTTGWPacket h n (Owned (w ++ old ++ r))) =
    Some (zlen (w ++ int_bytes x), mkMQTTGWPacket h n (Owned (w ++ int_bytes x ++ r))).
Proof.
  intros Hx Hl. destruct old as [|b1 [|b2 [|]]]; try done. rewrite <- int_bytes_quot by done. unfold gw_writeInt.
  erewrite sbind_run; [|apply (gp_put_over h n w [b1] _ (b2 :: r)); done].
  pose proof (gp_put_over h n (w ++ [byte_of_Z (Z.quot x 256)]) [b2] [byte_of_Z (Z.rem x 256)] r eq_refl) as Hrun.
  rewrite <- !app_assoc in Hrun. exact Hrun.
Qed.

(** [setMsgId] replaces the identifier of an acknowledgement and of a
    (un)subscription, and [getMsgId] reads it. *)
Theorem gw_msgId_replaced h n old id rest :
  has_msgId (header_type h) = true -> length old = 2%nat -> 0 <= id < 65536 ->
  let q := mkMQTTGWPacket h n (Owned (int_bytes id ++ rest)) in
  MQTTGWPacket_setMsgId id (mkMQTTGWPacket h n (Owned (old ++ rest))) = Some (tt, q) /\
  MQTTGWPacket_getMsgId q = Some (id, q).
Proof.
  intros Ht Hl Hid q. assert (Hp : (header_type h =? PUBLISH) = false).
  { apply Z.eqb_neq. intros E. rewrite E in Ht. done. }
  unfold MQTTGWPacket_setMsgId, MQTTGWPacket_getMsgId, MQTTGWPacket_getType, q. split; sprim; cbn [gp_header];
    rewrite Hp, Ht.
  - pose proof (gw_writeInt_over h n [] id old rest (proj1 Hid) Hl) as Hw. unfold gw_writeInt in Hw. cbn [app] in Hw.
    rewrite <- sbind_assoc. by rewrite (sbind_run _ _ _ _ _ Hw).
  - pose proof (gw_readInt_run h n [] id rest Hid) as Hr. unfold gw_readInt in Hr. cbn [app] in Hr. unfold sbind, sret in *.
    change (zlen []) with 0 in Hr. change (0 + 1) with 1 in Hr. destruct (gp_at 0 _) as [[a s1]|]; [|done].
    destruct (gp_at 1 s1) as [[b s2]|]; [|done]. by simplify_eq.
Qed.

(** What [setPUBLISH] stored, [getPUBLISH] finds. *)
Theorem gw_publish_roundtrip p pub topic payload :
  not_freed p -> publish_denotes pub topic payload -> calloc_ok (4 + zlen topic + zlen payload) = true ->
  0 <= gpub_header pub < 256 -> zlen topic < 65536 -> 0 <= gpub_msgId pub < 65536 ->
  exists q pub', MQTTGWPacket_setPUBLISH calloc_ok pub p = Some (1, q) /\
    MQTTGWPacket_getPUBLISH q = Some (Some pub', q) /\ publish_denotes pub' topic payload /\
    header_qos (gpub_header pub') = header_qos (gpub_header pub) /\
    gpub_msgId pub' = if 0 <? header_qos (gpub_header pub) then gpub_msgId pub else 0.
Proof.
  intros Hfree Hd Hok Hh Ht Hid. eexists.
  destruct (getPUBLISH_run (mqtt_header PUBLISH (header_dup (gpub_header pub)) (header_qos (gpub_header pub))
     (header_retain (gpub_header pub))) (header_qos (gpub_header pub)) (gpub_msgId pub) topic payload
     (if 0 <? header_qos (gpub_header pub) then [] else replicate 2 Corelib.Init.Byte.x00)) as (pub' & Hg & Hd' & Hh' & Hi');
    [by rewrite header_type_is| |done|done|].
  { rewrite header_qos_is. apply Z.mod_small. unfold header_qos. rewrite bf_get_div by lia. divmod_lia. }
  exists pub'. split; [exact (setPUBLISH_run calloc_ok p pub topic payload Hfree Hd Hh (proj1 Hid) Hok)|]. split; [exact Hg|]. split; [done|]. split; [|done].
  rewrite Hh', header_qos_is. apply Z.mod_small. unfold header_qos. rewrite bf_get_div by lia. divmod_lia.
Qed.
End Wire.

Definition example_pub : Publish :=
  mkPublish 50 [Corelib.Init.Byte.x74] 1 7 [Corelib.Init.Byte.x68; Corelib.Init.Byte.x69] 2.

Lemma example_pub_denotes :
  publish_denotes example_pub [Corelib.Init.Byte.x74] [Corelib.Init.Byte.x68; Corelib.Init.Byte.x69].
Proof. split; [by exists []|]. split; [done|]. split; [by exists []|done]. Qed.

Lemma gw_publish_roundtrip_witness :
  exists q pub', MQTTGWPacket_setPUBLISH (fun _ => true) example_pub newMQTTGWPacket = Some (1, q) /\
    MQTTGWPacket_getPUBLISH q = Some (Some pub', q) /\
    publish_denotes pub' [Corelib.Init.Byte.x74] [Corelib.Init.Byte.x68; Corelib.Init.Byte.x69] /\
    header_qos (gpub_header pub') = header_qos (gpub_header example_pub) /\
    gpub_msgId pub' = if 0 <? header_qos (gpub_header example_pub) then gpub_msgId example_pub else 0.
Proof.
  apply gw_publish_roundtrip; [discriminate|exact example_pub_denotes|reflexivity|..];
    vm_compute; repeat split; congruence.
Defined.

Lemma gw_msgId_replaced_witness :
  let q := mkMQTTGWPacket 64 2 (Owned (int_bytes 513 ++ [])) in
  MQTTGWPacket_setMsgId 513 (mkMQTTGWPacket 64 2 (Owned ([Corelib.Init.Byte.x00; Corelib.Init.Byte.x07] ++ []))) =
    Some (tt, q) /\ MQTTGWPacket_getMsgId q = Some (513, q).
Proof. apply gw_msgId_replaced; [reflexivity|reflexivity|vm_compute; repeat split; congruence]. Defined.

Lemma gw_packets_wire_witness :
  builds (MQTTGWPacket_setAck (fun _ => true) PUBACK 7) newMQTTGWPacket (ack_packet PUBACK 0 7) /\
  builds (MQTTGWPacket_setPUBLISH (fun _ => true) example_pub) newMQTTGWPacket
    (publish_packet 0 1 0 7 [Corelib.Init.Byte.x74] [Corelib.Init.Byte.x68; Corelib.Init.Byte.x69]).
Proof.
  destruct (gw_packets_wire (fun _ => true) newMQTTGWPacket) as (Hpub & Hack & _); [discriminate|reflexivity|].
  split; [apply Hack; lia|]. apply (Hpub example_pub); [exact example_pub_denotes|..]; vm_compute; repeat split; congruence.
Defined.

(** ** What goes wrong *)

(** [setMsgId] on a PUBLISH writes the identifier twice, the first time over
    the last two bytes of the topic: "t" becomes the byte 2. *)
Example setMsgId_publish :
  match MQTTGWPacket_setPUBLISH (fun _ => true) example_pub newMQTTGWPacket with
  | Some (_, q) =>
      (snd <$> MQTTGWPacket_setMsgId 258 q) ≫= (fun q => Some (gp_data q)) =
        Some (Owned (publish_body 1 258 [Corelib.Init.Byte.x02] [Corelib.Init.Byte.x68; Corelib.Init.Byte.x69]))
  | None => False
  end.
Proof. reflexivity. Qed.

(** [clearData] leaves the pointer to the freed block, so that [setHeader]
    and the destructor free it again. *)
Lemma setHeader_double_free d h n t :
  match MQTTGWPacket_setHeader t (mkMQTTGWPacket h n (Owned d)) with
  | Some (_, q) => destroyMQTTGWPacket q = None
  | None => False
  end.
Proof. unfold MQTTGWPacket_setHeader, sbind. cbn. by destruct ((t <? 1) || (14 <? t)). Qed.

(** [send] lays the packet out in a buffer of 1024 bytes, whatever its length. *)
Lemma send_overflow {N} `{Socket N} (h : Z) (body : list byte) (n : N) :
  MQTTSNGW_MAX_PACKET_SIZE <= zlen body ->
  MQTTGWPacket_send (mkMQTTGWPacket h (zlen body) (Owned body), n) = None.
Proof.
  intros Hl. unfold MQTTGWPacket_send. pose proof (getPacketData_run h body []) as Hd. rewrite app_nil_r in Hd.
  rewrite Hd. replace (zlen (mqtt_packet h body) <=? MQTTSNGW_MAX_PACKET_SIZE) with false; [done|].
  symmetry. apply Z.leb_gt. unfold mqtt_packet. zlen_lia.
Qed.
