(* ===== verification/GWSNPacket.v ===== *)
(** * Packets of the gateway towards its clients: MQTTSNGWPacket.cpp

    The class MQTTSNPacket of the gateway owns a copy of an MQTT-SN packet.  Its
    setters call a serializer of the packet library on an array on the stack and
    keep what it wrote, its getters call a deserializer on the copy.  Both run in
    a memory of their own: block 1 is the array or the copy, blocks 2 and 3 hold
    the strings the caller's pointers lead to. *)

From S2P Require Import Prelude CMem MQTTPacket MQTTPublish SNPacket SNPublish SNConnect SNSubscribe GWPacket.

(** ** The object *)

(** [_buf] and [_bufLen]: no block, or a block of [_bufLen] bytes. *)
Record MQTTSNPacket := mkMQTTSNPacket { gs_buf : option (list byte) }.

Definition newMQTTSNPacket : MQTTSNPacket := mkMQTTSNPacket None.

Definition gs_bufLen (p : MQTTSNPacket) : Z := match gs_buf p with Some bs => zlen bs | None => 0 end.

(** Does [calloc] find so many bytes? *)
Class HeapSpace := heap_has : Z -> bool.
Definition ample_heap : HeapSpace := fun _ => true.

Section SNPacketClass.
Context `{CharSign} `{ByteOrder} `{HeapSpace}.

(** The copy of [len] bytes of [buf]; the length is an [unsigned short]. *)
Definition MQTTSNPacket_desirialize (buf : list byte) (len : Z) : option (Z * MQTTSNPacket) :=
  let len := u16 len in
  if heap_has len then
    if len <=? zlen buf then Some (len, mkMQTTSNPacket (Some (take (Z.to_nat len) buf))) else None
  else Some (0, newMQTTSNPacket).

(** [unsigned char buf[n]; int len = ser(buf, n); return desirialize(buf, len);]
    The array is uninitialised; what a serializer leaves unwritten is not
    copied. *)
Definition sn_set (n : Z) (strings : gmap block (list byte)) (ser : ptr -> Z -> M unit Z) :
    option (Z * MQTTSNPacket) :=
  let array := replicate (Z.to_nat n) Corelib.Init.Byte.x00 in
  match ser (Ptr 1 0) n (State (<[1%positive := array]> strings) NULL tt) with
  | Done len s =>
      match mem s !! 1%positive with
      | Some buf => MQTTSNPacket_desirialize buf len
      | None => None
      end
  | Fault _ => None
  end.

(** The memory the copy lives in, and a deserializer on it. *)
Definition sn_mem (p : MQTTSNPacket) : state unit :=
  State (match gs_buf p with Some bs => {[1%positive := bs]} | None => ∅ end) NULL tt.

Definition gs_ptr (p : MQTTSNPacket) : ptr := match gs_buf p with Some _ => Ptr 1 0 | None => NULL end.

Definition sn_get {A} (p : MQTTSNPacket) (des : ptr -> Z -> M unit A) : option A :=
  match des (gs_ptr p) (gs_bufLen p) (sn_mem p) with Done a _ => Some a | Fault _ => None end.

(** The [n] bytes a pointer into the copy leads to. *)
Definition sn_bytes (p : MQTTSNPacket) (q : ptr) (n : Z) : option (list byte) :=
  if n =? 0 then Some [] else
  match load_bytes q n (sn_mem p) with Done bs _ => Some bs | Fault _ => None end.

(** ** Setters *)

Definition MQTTSNPacket_setADVERTISE (gatewayid duration : Z) :=
  sn_set 5 ∅ (fun buf buflen => MQTTSNSerialize_advertise buf buflen gatewayid duration).
Definition MQTTSNPacket_setGWINFO (gatewayId : Z) :=
  sn_set 3 ∅ (fun buf buflen => MQTTSNSerialize_gwinfo buf buflen gatewayId 0 NULL).
Definition MQTTSNPacket_setCONNACK (returnCode : Z) :=
  sn_set 3 ∅ (fun buf buflen => MQTTSNSerialize_connack buf buflen returnCode).
Definition MQTTSNPacket_setWILLTOPICREQ :=
  sn_set 2 ∅ (fun buf buflen => MQTTSNSerialize_willtopicreq buf buflen).
Definition MQTTSNPacket_setWILLMSGREQ :=
  sn_set 2 ∅ (fun buf buflen => MQTTSNSerialize_willmsgreq buf buflen).

(** A string for a packet, length-delimited, in block [b]. *)
Definition string_in (b : block) (s : list byte) : MQTTSNString :=
  {| cstring := NULL; lenstring := {| len := zlen s; data := Ptr b 0 |} |}.

Definition MQTTSNPacket_setREGISTER (topicId msgId : Z) (topicName : list byte) :=
  sn_set MQTTSNGW_MAX_PACKET_SIZE {[2%positive := topicName]} (fun buf buflen =>
    MQTTSNSerialize_register buf buflen topicId msgId (string_in 2 topicName)).
Definition MQTTSNPacket_setREGACK (topicId msgId returnCode : Z) :=
  sn_set 7 ∅ (fun buf buflen => MQTTSNSerialize_regack buf buflen topicId msgId returnCode).

(** The payload is what lies behind its pointer; the length that is taken of it
    is a [uint16_t].  A name the topic points to is in block 3. *)
Definition MQTTSNPacket_setPUBLISH (dup qos retained msgId : Z) (topic : MQTTSN_topicid) (name : list byte)
    (payload : list byte) (payloadlen : Z) :=
  sn_set MQTTSNGW_MAX_PACKET_SIZE {[2%positive := payload; 3%positive := name]} (fun buf buflen =>
    MQTTSNSerialize_publish buf buflen dup qos retained msgId topic (Ptr 2 0) (u16 payloadlen)).
Definition MQTTSNPacket_setPUBACK (topicId msgId returnCode : Z) :=
  sn_set 7 ∅ (fun buf buflen => MQTTSNSerialize_puback buf buflen topicId msgId returnCode).
Definition MQTTSNPacket_setPUBREC (msgId : Z) :=
  sn_set 4 ∅ (fun buf buflen => MQTTSNSerialize_pubrec buf buflen msgId).
Definition MQTTSNPacket_setPUBREL (msgId : Z) :=
  sn_set 4 ∅ (fun buf buflen => MQTTSNSerialize_pubrel buf buflen msgId).
Definition MQTTSNPacket_setPUBCOMP (msgId : Z) :=
  sn_set 4 ∅ (fun buf buflen => MQTTSNSerialize_pubcomp buf buflen msgId).
Definition MQTTSNPacket_setSUBACK (qos topicId msgId returnCode : Z) :=
  sn_set 8 ∅ (fun buf buflen => MQTTSNSerialize_suback buf buflen qos topicId msgId returnCode).
Definition MQTTSNPacket_setUNSUBACK (msgId : Z) :=
  sn_set 4 ∅ (fun buf buflen => MQTTSNSerialize_unsuback buf buflen msgId).
Definition MQTTSNPacket_setPINGRESP :=
  sn_set 32 ∅ (fun buf buflen => MQTTSNSerialize_pingresp buf buflen).
Definition MQTTSNPacket_setDISCONNECT (duration : Z) :=
  sn_set 4 ∅ (fun buf buflen => MQTTSNSerialize_disconnect buf buflen duration).
Definition MQTTSNPacket_setWILLTOPICRESP (returnCode : Z) :=
  sn_set MQTTSNGW_MAX_PACKET_SIZE ∅ (fun buf buflen => MQTTSNSerialize_willtopicresp buf buflen returnCode).
Definition MQTTSNPacket_setWILLMSGRESP (returnCode : Z) :=
  sn_set MQTTSNGW_MAX_PACKET_SIZE ∅ (fun buf buflen => MQTTSNSerialize_willmsgresp buf buflen returnCode).

(** ** Getters *)

(** The byte the length decoder leads to, [_buf[p + k]]. *)
Definition sn_byte_behind (p : MQTTSNPacket) (k : Z) : option Z :=
  sn_get p (fun buf buflen =>
    let* (n, _) := MQTTSNPacket_decode buf buflen (Some 0) in
    load (padd buf (n + k))).

Definition MQTTSNPacket_getType (p : MQTTSNPacket) : option Z :=
  if gs_bufLen p =? 0 then Some 0 else sn_byte_behind p 0.

Definition MQTTSNPacket_isQoSMinusPUBLISH (p : MQTTSNPacket) : option bool :=
  if gs_bufLen p =? 0 then Some false
  else
    t ← sn_byte_behind p 0;
    if t =? MQTTSN_PUBLISH then f ← sn_byte_behind p 1; Some (Z.land f 96 =? 96) else Some false.

Definition MQTTSNPacket_isDuplicate (p : MQTTSNPacket) : option bool :=
  f ← sn_byte_behind p 1; Some (negb (Z.land f 128 =? 0)).

(** The offset of the message identifier in a packet of this type; [p] is the
    number of bytes of the length field. *)
Definition sn_msgId_offset (type p : Z) : option Z :=
  if type =? MQTTSN_PUBLISH then Some (p + 4)
  else if (type =? MQTTSN_PUBACK) || (type =? MQTTSN_REGISTER) || (type =? MQTTSN_REGACK) then Some 4
  else if (type =? MQTTSN_PUBREC) || (type =? MQTTSN_PUBREL) || (type =? MQTTSN_PUBCOMP) || (type =? MQTTSN_UNSUBACK)
  then Some 2
  else if (type =? MQTTSN_SUBSCRIBE) || (type =? MQTTSN_UNSUBSCRIBE) then Some (p + 2)
  else if type =? MQTTSN_SUBACK then Some 5
  else None.

Definition MQTTSNPacket_getMsgId (p : MQTTSNPacket) : option Z :=
  type ← MQTTSNPacket_getType p;
  sn_get p (fun buf buflen =>
    let* (n, _) := MQTTSNPacket_decode buf buflen (Some 0) in
    match sn_msgId_offset type n with
    | Some k => let* (id, _) := readInt (padd buf k) in ret id
    | None => ret 0
    end).

Definition MQTTSNPacket_setMsgId (p : MQTTSNPacket) (msgId : Z) : option MQTTSNPacket :=
  type ← MQTTSNPacket_getType p;
  let write buf buflen :=
    let* (n, _) := MQTTSNPacket_decode buf buflen (Some 0) in
    match sn_msgId_offset type n with
    | Some k =>
        store (padd buf k) (Z.quot msgId 256) ;;;
        store (padd buf (k + 1)) (Z.rem msgId 256)
    | None => ret tt
    end in
  match write (gs_ptr p) (gs_bufLen p) (sn_mem p) with
  | Done _ s => Some (match gs_buf p with Some _ => mkMQTTSNPacket (mem s !! 1%positive) | None => p end)
  | Fault _ => None
  end.

(** The deserializers; the caller's variables are uninitialised or hold the
    values the initialisers give them. *)
Definition no_string : MQTTSNString := {| cstring := NULL; lenstring := {| len := 0; data := NULL |} |}.
Definition no_topicid : MQTTSN_topicid :=
  {| tid_type := 0; tid_byte0 := None; tid_byte1 := None; tid_long_name := None; tid_long_len := None |}.

Definition MQTTSNPacket_getSERCHGW (p : MQTTSNPacket) := sn_get p (MQTTSNDeserialize_searchgw 0).
Definition MQTTSNPacket_getCONNECT (p : MQTTSNPacket) :=
  sn_get p (MQTTSNDeserialize_connect MQTTSNPacket_connectData_initializer).
Definition MQTTSNPacket_getWILLTOPIC (p : MQTTSNPacket) :=
  sn_get p (MQTTSNDeserialize_willtopic {| sw_QoS := 0; sw_retain := 0; sw_topic := no_string |}).
Definition MQTTSNPacket_getWILLMSG (p : MQTTSNPacket) := sn_get p (MQTTSNDeserialize_willmsg no_string).
Definition MQTTSNPacket_getREGISTER (p : MQTTSNPacket) :=
  sn_get p (MQTTSNDeserialize_register {| sr_topicid := 0; sr_packetid := 0; sr_topicname := no_string |}).
Definition MQTTSNPacket_getREGACK (p : MQTTSNPacket) :=
  sn_get p (MQTTSNDeserialize_regack {| sa_topicid := 0; sa_packetid := 0; sa_returncode := 0 |}).
Definition MQTTSNPacket_getPUBLISH (p : MQTTSNPacket) :=
  sn_get p (MQTTSNDeserialize_publish {| sp_dup := 0; sp_qos := 0; sp_retained := 0; sp_packetid := 0;
    sp_topic := no_topicid; sp_payload := NULL; sp_payloadlen := 0 |}).
Definition MQTTSNPacket_getPUBACK (p : MQTTSNPacket) :=
  sn_get p (MQTTSNDeserialize_puback {| sa_topicid := 0; sa_packetid := 0; sa_returncode := 0 |}).
Definition MQTTSNPacket_getACK (p : MQTTSNPacket) : option (Z * Z) :=
  r ← sn_get p (MQTTSNDeserialize_ack {| sk_type := 0; sk_packetid := 0 |});
  Some (r.1, sk_packetid r.2).
Definition MQTTSNPacket_getSUBSCRIBE (p : MQTTSNPacket) :=
  sn_get p (MQTTSNDeserialize_subscribe {| ss_dup := 0; ss_qos := 0; ss_packetid := 0; ss_filter := no_topicid |}).
Definition MQTTSNPacket_getUNSUBSCRIBE (p : MQTTSNPacket) := sn_get p (MQTTSNDeserialize_unsubscribe 0 no_topicid).

(** The type it tests is the one of the answer. *)
Definition MQTTSNPacket_getPINGREQ (p : MQTTSNPacket) : option Z :=
  t ← MQTTSNPacket_getType p;
  Some (if (t =? MQTTSN_PINGRESP) && (2 <? gs_bufLen p) then gs_bufLen p - 2 else 0).

Definition MQTTSNPacket_getDISCONNECT (p : MQTTSNPacket) : option (Z * Z) :=
  r ← sn_get p (MQTTSNDeserialize_disconnect 0);
  Some (r.1, u16 r.2).

Definition MQTTSNPacket_getWILLTOPICUPD (p : MQTTSNPacket) :=
  sn_get p (MQTTSNDeserialize_willtopicupd {| sw_QoS := 0; sw_retain := 0; sw_topic := no_string |}).
Definition MQTTSNPacket_getWILLMSGUPD (p : MQTTSNPacket) := sn_get p (MQTTSNDeserialize_willmsgupd no_string).

(** This getter serializes: it writes a CONNACK with the caller's code over the
    packet, and the code is not changed. *)
Definition MQTTSNPacket_getCONNACK (p : MQTTSNPacket) (returnCode : Z) : option (Z * MQTTSNPacket) :=
  match MQTTSNSerialize_connack (gs_ptr p) (gs_bufLen p) returnCode (sn_mem p) with
  | Done rc s => Some (rc, match gs_buf p with Some _ => mkMQTTSNPacket (mem s !! 1%positive) | None => p end)
  | Fault _ => None
  end.
End SNPacketClass.

(** ** Running the setters *)

Section Build.
Context `{CharSign} `{ByteOrder} `{HeapSpace}.
Hypothesis Hheap : forall n, heap_has n = true.

(** The object with this packet. *)
Definition sn_object (wire : list byte) : MQTTSNPacket := mkMQTTSNPacket (Some wire).

(** A setter leaves the object with this packet. *)
Definition sets (r : option (Z * MQTTSNPacket)) (wire : list byte) : Prop :=
  r = Some (zlen wire, sn_object wire).

(** A serializer that fills the array up to the length it returns. *)
Lemma sn_set_run n strings ser wire :
  let s := State (<[1%positive := replicate (Z.to_nat n) Corelib.Init.Byte.x00]> strings) NULL tt in
  ser (Ptr 1 0) n s = Done (zlen wire) (set_block s 1 (splice (replicate (Z.to_nat n) Corelib.Init.Byte.x00) 0 wire)) ->
  0 <= n < 65536 -> zlen wire <= n ->
  sn_set n strings ser = Some (zlen wire, sn_object wire).
Proof.
  intros s Hrun Hn Hw. unfold sn_set. fold s. rewrite Hrun. unfold set_block. cbn [mem]. rewrite lookup_insert.
  rewrite decide_True by done. unfold MQTTSNPacket_desirialize. rewrite u16_small, Hheap by lia.
  assert (Hl : zlen (replicate (Z.to_nat n) Corelib.Init.Byte.x00) = n) by (rewrite length_replicate; lia).
  assert (zlen (splice (replicate (Z.to_nat n) Corelib.Init.Byte.x00) 0 wire) = n).
  { rewrite splice_length; lia. }
  test_true (zlen wire <=? zlen (splice (replicate (Z.to_nat n) Corelib.Init.Byte.x00) 0 wire)).
  unfold splice at 1. change (take (Z.to_nat 0) _) with (@nil byte). cbn [app]. rewrite Nat2Z.id, take_app_length. done.
Qed.

(** The array the serializers get. *)
Lemma sn_array n strings :
  mem (State (<[1%positive := replicate (Z.to_nat n) Corelib.Init.Byte.x00]> strings) NULL tt) !! 1%positive =
    Some (replicate (Z.to_nat n) Corelib.Init.Byte.x00).
Proof. cbn [mem]. rewrite lookup_insert. by rewrite decide_True. Qed.

Lemma zlen_array n : 0 <= n -> zlen (replicate (Z.to_nat n) Corelib.Init.Byte.x00) = n.
Proof. intros. rewrite length_replicate. lia. Qed.

Lemma sn_packet_room ty body : 1 + zlen body < 255 -> zlen (sn_packet ty body) = 2 + zlen body.
Proof.
  intros Hl. rewrite sn_packet_length. unfold sn_size. rewrite (proj2 (Z.ltb_ge 255 _)) by lia.
  rewrite (proj2 (Z.eqb_neq (1 + zlen body) 255)) by lia. lia.
Qed.

(** The serializers of a packet of fixed layout. *)
Lemma sn_fixed_set n ser (ty : MQTTSN_msgTypes) rest body m :
  0 <= n < 65536 -> m = 1 + zlen body -> zlen body <= 100 -> m + 1 <= n ->
  (forall s, serializes s 1 0 rest body) ->
  (forall s, ser (Ptr 1 0) n s = bind (MQTTSNPacket_len m) (fun len =>
    if n <? len then ret MQTTSNPACKET_BUFFER_TOO_SHORT
    else bind (advance (Ptr 1 0) (MQTTSNPacket_encode (Ptr 1 0) len)) (fun p => bind (writeChar p ty) rest)) s) ->
  sets (sn_set n ∅ ser) (sn_packet ty body).
Proof.
  intros Hn Hm Hmax Hroom Hrest Hser. pose proof (sn_packet_room ty body ltac:(lia)) as Hw.
  apply sn_set_run; [|done|lia]. rewrite Hser.
  destruct (sn_fixed_run (State (<[1%positive := replicate (Z.to_nat n) Corelib.Init.Byte.x00]> ∅) NULL tt) 1 0
    (replicate (Z.to_nat n) Corelib.Init.Byte.x00) n ty rest body m) as (Hrun & _ & _);
    [apply sn_array|lia|apply Hrest|lia|lia|rewrite zlen_array by lia; lia|].
  rewrite Hrun, Hw. replace (2 + zlen body) with (m + 1) by lia. done.
Qed.

(** The answers of one byte, and those without a body. *)
Lemma sn_response_set n (ty : MQTTSN_msgTypes) rc : 3 <= n < 65536 ->
  sets (sn_set n ∅ (fun buf buflen => sn_write_response ty buf buflen rc)) (sn_packet ty [byte_of_Z rc]).
Proof.
  intros Hn.
  apply sn_set_run; [|lia|change (zlen _) with 3; lia].
  refine (proj1 (sn_write_response_run _ 1 0 (replicate (Z.to_nat n) Corelib.Init.Byte.x00) n ty rc _ _ _));
    [apply sn_array|done|rewrite zlen_array; lia].
Qed.

Lemma sn_request_set n (ty : MQTTSN_msgTypes) : 2 <= n < 65536 ->
  sets (sn_set n ∅ (fun buf buflen => sn_write_request ty buf buflen)) (sn_packet ty []).
Proof.
  intros Hn.
  apply sn_set_run; [|lia|change (zlen _) with 2; lia].
  refine (proj1 (sn_write_request_run _ 1 0 (replicate (Z.to_nat n) Corelib.Init.Byte.x00) n ty _ _ _));
    [apply sn_array|done|rewrite zlen_array; lia].
Qed.

Lemma setREGACK_run topicId msgId rc : 0 <= topicId -> 0 <= msgId ->
  sets (MQTTSNPacket_setREGACK topicId msgId rc) (sn_packet MQTTSN_REGACK (sn_ack_body topicId msgId rc)).
Proof.
  intros Ht Hm. apply (sn_fixed_set 7 _ MQTTSN_REGACK (fun p => let* p := writeInt p topicId in
    let* p := writeInt p msgId in let* p := writeChar p rc in psub p (Ptr 1 0)) _ 6); try done.
  intros s. do 2 (eapply serializes_bind; [by apply writes_int|]). apply serializes_last, writes_char.
Qed.

Lemma setPUBACK_run topicId msgId rc : 0 <= topicId -> 0 <= msgId ->
  sets (MQTTSNPacket_setPUBACK topicId msgId rc) (sn_packet MQTTSN_PUBACK (sn_ack_body topicId msgId rc)).
Proof.
  intros Ht Hm. apply (sn_fixed_set 7 _ MQTTSN_PUBACK (fun p => let* p := writeInt p topicId in
    let* p := writeInt p msgId in let* p := writeChar p rc in psub p (Ptr 1 0)) _ 6); try done.
  intros s. do 2 (eapply serializes_bind; [by apply writes_int|]). apply serializes_last, writes_char.
Qed.

Lemma sn_ack_set (ty : MQTTSN_msgTypes) msgId : 0 <= msgId ->
  sets (sn_set 4 ∅ (fun buf buflen => MQTTSNSerialize_ack buf buflen ty msgId)) (sn_packet ty (int_bytes msgId)).
Proof.
  intros Hm. apply (sn_fixed_set 4 _ ty (fun p => let* p := writeInt p msgId in psub p (Ptr 1 0)) _ 3); try done.
  intros s. apply serializes_last. by apply writes_int.
Qed.

Lemma setSUBACK_run qos topicId msgId rc : 0 <= topicId -> 0 <= msgId ->
  sets (MQTTSNPacket_setSUBACK qos topicId msgId rc) (sn_packet MQTTSN_SUBACK (sn_suback_body qos topicId msgId rc)).
Proof.
  intros Ht Hm. apply (sn_fixed_set 8 _ MQTTSN_SUBACK (fun p => let* p := writeChar p (sn_flags 0 qos 0 0 0 0) in
    let* p := writeInt p topicId in let* p := writeInt p msgId in let* p := writeChar p rc in psub p (Ptr 1 0)) _ 7);
    try done.
  - intros s. eapply (serializes_bind _ _ _ _ _ [_]); [apply writes_char|].
    do 2 (eapply serializes_bind; [by apply writes_int|]). apply serializes_last, writes_char.
  - intros s. by rewrite <- sn_flags_qos.
Qed.

Lemma setUNSUBACK_run msgId : 0 <= msgId ->
  sets (MQTTSNPacket_setUNSUBACK msgId) (sn_packet MQTTSN_UNSUBACK (int_bytes msgId)).
Proof.
  intros Hm. apply (sn_fixed_set 4 _ MQTTSN_UNSUBACK (fun p => let* p := writeInt p msgId in psub p (Ptr 1 0)) _ 3);
    try done.
  intros s. apply serializes_last. by apply writes_int.
Qed.

Lemma setADVERTISE_run gatewayid duration : 0 <= duration ->
  sets (MQTTSNPacket_setADVERTISE gatewayid duration)
    (sn_packet MQTTSN_ADVERTISE (byte_of_Z gatewayid :: int_bytes duration)).
Proof.
  intros Hd. apply (sn_fixed_set 5 _ MQTTSN_ADVERTISE (fun p => let* p := writeChar p gatewayid in
    let* p := writeInt p duration in psub p (Ptr 1 0)) _ 4); try done.
  intros s. eapply (serializes_bind _ _ _ _ _ [_]); [apply writes_char|]. apply serializes_last. by apply writes_int.
Qed.

Lemma setGWINFO_run gatewayid :
  sets (MQTTSNPacket_setGWINFO gatewayid) (sn_packet MQTTSN_GWINFO [byte_of_Z gatewayid]).
Proof.
  apply (sn_fixed_set 3 _ MQTTSN_GWINFO (fun p => let* p := writeChar p gatewayid in psub p (Ptr 1 0)) _ 2); try done.
  intros s. apply serializes_last, writes_char.
Qed.

Lemma setDISCONNECT_run : sets (MQTTSNPacket_setDISCONNECT 0) (sn_packet MQTTSN_DISCONNECT []).
Proof. unfold sets, MQTTSNPacket_setDISCONNECT. apply sn_set_run; [reflexivity|lia|done]. Qed.

(** The strings behind the pointers. *)
Lemma sn_block_at n (strings : gmap block (list byte)) b bs rest :
  b <> 1%positive -> strings !! b = Some (bs ++ rest) ->
  bytes_at (mem (State (<[1%positive := replicate (Z.to_nat n) Corelib.Init.Byte.x00]> strings) NULL tt)) b 0 bs.
Proof.
  intros Hb Hs. split; [done|]. exists (bs ++ rest). cbn [mem]. rewrite lookup_insert_ne by done. split; [done|].
  intros i x Hi. change (Z.to_nat 0 + i)%nat with i. by apply lookup_app_l_Some.
Qed.

(** What the gateway can send: less than its array and not 255 bytes. *)
Definition sn_fits (body : list byte) : Prop := sn_size (1 + zlen body) <= MQTTSNGW_MAX_PACKET_SIZE /\ 1 + zlen body <> 255.

Lemma sn_fits_length ty body : sn_fits body -> zlen (sn_packet ty body) <= MQTTSNGW_MAX_PACKET_SIZE.
Proof. intros [Hf H255]. rewrite sn_packet_length, (proj2 (Z.eqb_neq _ _) H255). lia. Qed.

Lemma setREGISTER_run topicId msgId name : 0 <= topicId < 65536 -> 0 <= msgId < 65536 ->
  sn_fits (sn_register_body topicId msgId name) ->
  sets (MQTTSNPacket_setREGISTER topicId msgId name)
    (sn_packet MQTTSN_REGISTER (sn_register_body topicId msgId name)).
Proof.
  intros Ht Hm Hfit. pose proof (sn_fits_length MQTTSN_REGISTER _ Hfit) as Hw. destruct Hfit as [Hf H255].
  unfold MQTTSNGW_MAX_PACKET_SIZE in *.
  assert (zlen (sn_register_body topicId msgId name) <= 1024) by (revert Hf; unfold sn_size; case_test; lia).
  apply sn_set_run; [|done|done].
  set (s := State _ _ _).
  destruct (sn_register_roundtrip s 1 0 (replicate (Z.to_nat 1024) Corelib.Init.Byte.x00) 1024 topicId msgId
    (string_in 2 name) name {| sr_topicid := 0; sr_packetid := 0; sr_topicname := no_string |})
    as (out & Hrun & _); [apply sn_array|done|rewrite zlen_array; lia| |done|done|done|lia|exact Hrun].
  split; [done|]. split; [done|]. right. exists 2%positive, 0. split; [done|]. split; [done|].
  apply (sn_block_at _ _ _ _ []); [done|]. by rewrite app_nil_r, lookup_singleton_eq.
Qed.

(** The topic of a PUBLISH is an identifier or a short name. *)
Definition plain_topic (topic : sn_topic) : Prop := match topic with TopicLong _ => False | _ => True end.

Lemma topic_denotes_any P Q qos t topic : plain_topic topic -> topic_denotes P qos t topic -> topic_denotes Q qos t topic.
Proof. by destruct topic. Qed.

Section Publish.
Context (dup qos retained msgId : Z) (t : MQTTSN_topicid) (topic : sn_topic) (name payload rest : list byte).
Context (P : ptr -> list byte -> Prop).
Hypotheses (Hplain : plain_topic topic) (Ht : topic_denotes P qos t topic) (Hid : 0 <= msgId)
  (Hmax : zlen payload < 65536).

Let body := sn_publish_body dup qos retained msgId topic payload.

Lemma sn_publish_array :
  let s := State (<[1%positive := replicate (Z.to_nat 1024) Corelib.Init.Byte.x00]>
    {[2%positive := payload ++ rest; 3%positive := name]}) NULL tt in
  MQTTSNSerialize_publish (Ptr 1 0) 1024 dup qos retained msgId t (Ptr 2 0) (zlen payload) s =
    if 1024 <? sn_size (1 + zlen body) then Done MQTTSNPACKET_BUFFER_TOO_SHORT s
    else if 0 + zlen (sn_packet MQTTSN_PUBLISH body) <=? 1024
         then Done (zlen (sn_packet MQTTSN_PUBLISH body))
                (set_block s 1 (splice (replicate (Z.to_nat 1024) Corelib.Init.Byte.x00) 0 (sn_packet MQTTSN_PUBLISH body)))
         else Fault OutOfBounds.
Proof.
  intros s. erewrite (sn_serialize_publish_run s 1 0 (replicate (Z.to_nat 1024) Corelib.Init.Byte.x00) 1024 dup qos
    retained msgId t topic (Ptr 2 0) payload); [|apply sn_array|by rewrite zlen_array|by eapply topic_denotes_any| |done|lia].
  - cbv zeta. by rewrite zlen_array.
  - right. exists 2%positive, 0. split; [done|]. split; [done|]. apply (sn_block_at _ _ _ _ rest); [done|].
    by rewrite lookup_insert.
Qed.

Lemma setPUBLISH_sn_run : sn_fits body ->
  sets (MQTTSNPacket_setPUBLISH dup qos retained msgId t name (payload ++ rest) (zlen payload))
    (sn_packet MQTTSN_PUBLISH body).
Proof.
  intros Hfit. pose proof (sn_fits_length MQTTSN_PUBLISH _ Hfit) as Hw. destruct Hfit as [Hf H255].
  unfold MQTTSNGW_MAX_PACKET_SIZE in *. apply sn_set_run; [|done|done]. rewrite u16_small by lia.
  change (MQTTSNGW_MAX_PACKET_SIZE) with 1024. rewrite sn_publish_array. test_false (1024 <? sn_size (1 + zlen body)).
  by test_true (0 + zlen (sn_packet MQTTSN_PUBLISH body) <=? 1024).
Qed.

(** A payload that does not fit makes the copy read behind the array. *)
Lemma setPUBLISH_sn_overrun : MQTTSNGW_MAX_PACKET_SIZE < sn_size (1 + zlen body) ->
  MQTTSNPacket_setPUBLISH dup qos retained msgId t name (payload ++ rest) (zlen payload) = None.
Proof.
  unfold MQTTSNGW_MAX_PACKET_SIZE. intros Hf. unfold MQTTSNPacket_setPUBLISH, sn_set. rewrite u16_small by lia.
  change MQTTSNGW_MAX_PACKET_SIZE with 1024. rewrite sn_publish_array. test_true (1024 <? sn_size (1 + zlen body)).
  cbn [mem]. rewrite lookup_insert. rewrite decide_True by done. unfold MQTTSNPacket_desirialize. by rewrite Hheap.
Qed.
End Publish.
End Build.

(** ** Running the getters *)

Section Read.
Context `{CharSign} `{ByteOrder} `{HeapSpace}.

Lemma sn_mem_at wire : bytes_at (mem (sn_mem (sn_object wire))) 1 0 (wire ++ []).
Proof.
  split; [done|]. exists wire. split; [apply lookup_singleton_eq|]. intros i x. by rewrite app_nil_r.
Qed.

Lemma sn_get_run {A} wire (des : ptr -> Z -> M unit A) a s :
  des (Ptr 1 0) (zlen wire) (sn_mem (sn_object wire)) = Done a s -> sn_get (sn_object wire) des = Some a.
Proof. intros Hrun. unfold sn_get. cbn [gs_ptr sn_object gs_buf gs_bufLen]. by rewrite Hrun. Qed.

Lemma sn_bytes_run p o bs : bytes_at (mem (sn_mem p)) 1 o bs -> sn_bytes p (Ptr 1 o) (zlen bs) = Some bs.
Proof.
  intros Hat. unfold sn_bytes. destruct bs as [|x bs]; [done|]. test_false (zlen (x :: bs) =? 0).
  by rewrite (load_bytes_at _ _ _ _ _ Hat).
Qed.

Lemma sn_bytes_held p str bs : len (lenstring str) = zlen bs -> bs = [] \/ held (mem (sn_mem p)) 1 str bs ->
  sn_bytes p (data (lenstring str)) (len (lenstring str)) = Some bs.
Proof.
  intros Hl [->|(_ & _ & o & -> & Hat)]; rewrite Hl; [done|]. by apply sn_bytes_run.
Qed.

Lemma sn_bytes_in_block p q bs : in_block (mem (sn_mem p)) 1 q bs -> sn_bytes p q (zlen bs) = Some bs.
Proof. intros (o & -> & Hat). by apply sn_bytes_run. Qed.

(** A packet the library can read. *)
Definition sn_readable (body : list byte) : Prop := 1 + zlen body <> 255 /\ zlen body <= 65531.

Lemma sn_readable_length ty body : sn_readable body -> zlen (sn_packet ty body) = sn_size (1 + zlen body).
Proof. intros [H255 _]. by rewrite sn_packet_length, (proj2 (Z.eqb_neq _ _) H255), Z.add_0_r. Qed.

Lemma sn_byte_behind_run ty body k x : sn_readable body ->
  (byte_of_Z ty :: body) !! Z.to_nat k = Some x -> 0 <= k ->
  sn_byte_behind (sn_object (sn_packet ty body)) k = Some (Z_of_byte x).
Proof.
  intros Hb Hx Hk. pose proof (sn_readable_length ty body Hb) as Hl. destruct Hb as [H255 Hmax].
  pose proof (sn_mem_at (sn_packet ty body)) as Hat.
  eapply sn_get_run. erewrite bind_done by (eapply sn_decode_packet; [exact Hat|done|done|lia]). cbv beta iota.
  apply sn_packet_at in Hat as (_ & Hat & _). rewrite app_nil_r in Hat. cbn [padd].
  set (n := zlen (sn_length _)) in *.
  rewrite <- (take_drop_middle _ _ _ Hx) in Hat. apply bytes_at_app in Hat as [_ Hat].
  eapply (load_at _ _ _ x). replace (0 + (n + k)) with (0 + n + zlen (take (Z.to_nat k) (byte_of_Z ty :: body))); [exact Hat|].
  apply lookup_lt_Some in Hx. rewrite length_take. lia.
Qed.

Lemma getType_run (ty : Z) body : sn_readable body -> 0 <= ty < 256 ->
  MQTTSNPacket_getType (sn_object (sn_packet ty body)) = Some ty.
Proof.
  intros Hb Hty. unfold MQTTSNPacket_getType. cbn [gs_bufLen sn_object gs_buf].
  rewrite (sn_readable_length ty body Hb). pose proof (sn_size_bounds (1 + zlen body)) as Hs.
  test_false (sn_size (1 + zlen body) =? 0).
  rewrite (sn_byte_behind_run ty body 0 (byte_of_Z ty)) by done. by rewrite Z_of_byte_small.
Qed.

(** A topic or filter that a packet can carry. *)
Definition topic_ok (qos : Z) (topic : sn_topic) : Prop :=
  match topic with
  | TopicId ty id =>
      (ty = MQTTSN_TOPIC_TYPE_NORMAL /\ qos <> 3 \/ ty = MQTTSN_TOPIC_TYPE_PREDEFINED) /\ 0 <= id < 65536
  | TopicShort c0 c1 => 0 <= c0 < 256 /\ 0 <= c1 < 256
  | TopicLong name => qos = 3 /\ zlen name <= 65535
  end.

Lemma topic_ok_denotes qos topic : topic_ok qos topic -> exists t, topic_denotes (fun _ _ => True) qos t topic.
Proof.
  destruct topic as [ty id|c0 c1|name].
  - intros [Hty Hid]. exists (set_tid_id {| tid_type := ty; tid_byte0 := None; tid_byte1 := None; tid_long_name := None; tid_long_len := None |} id).
    unfold set_tid_id. destruct (short_bytes id) as [b0 b1] eqn:E. cbn [topic_denotes tid_type tid_byte0 tid_byte1].
    by rewrite E.
  - intros [Hc0 Hc1]. by exists {| tid_type := MQTTSN_TOPIC_TYPE_SHORT; tid_byte0 := Some c0; tid_byte1 := Some c1; tid_long_name := None; tid_long_len := None |}.
  - intros [Hq Hl]. exists {| tid_type := MQTTSN_TOPIC_TYPE_NORMAL; tid_byte0 := None; tid_byte1 := None; tid_long_name := Some NULL; tid_long_len := Some (zlen name) |}.
    cbn. eauto 10.
Qed.

Lemma getPUBLISH_sn_run dup qos retained msgId topic payload :
  let body := sn_publish_body dup qos retained msgId topic payload in
  let p := sn_object (sn_packet MQTTSN_PUBLISH body) in
  sn_readable body -> topic_ok qos topic -> 0 <= qos < 4 -> 0 <= msgId < 65536 ->
  exists out, MQTTSNPacket_getPUBLISH p = Some (1, out) /\
    sp_dup out = (if dup mod 2 =? 0 then 0 else 255) /\ sp_qos out = qos /\ sp_retained out = retained mod 2 /\
    sp_packetid out = msgId /\ topic_denotes (in_block (mem (sn_mem p)) 1) qos (sp_topic out) topic /\
    sp_payloadlen out = zlen payload /\ sn_bytes p (sp_payload out) (zlen payload) = Some payload.
Proof.
  intros body p Hb Ht Hq Hid. destruct (topic_ok_denotes qos topic Ht) as [t Hden].
  pose proof (sn_readable_length MQTTSN_PUBLISH body Hb) as Hl. destruct Hb as [H255 Hmax].
  destruct (sn_deserialize_publish_packet (sn_mem p) 1 0 {| sp_dup := 0; sp_qos := 0; sp_retained := 0; sp_packetid := 0;
    sp_topic := no_topicid; sp_payload := NULL; sp_payloadlen := 0 |} (zlen (sn_packet MQTTSN_PUBLISH body))
    dup qos retained msgId topic payload [] _ t (sn_mem_at _) Hden Hq Hid H255 Hmax ltac:(fold body; lia))
    as (out & Hrun & Hd & Hqo & Hr & Hi & Hto & Hpl & Hpn).
  exists out. split; [by eapply sn_get_run|]. split_and!; try done. by apply sn_bytes_in_block.
Qed.

Lemma getREGISTER_run topicId msgId name :
  let body := sn_register_body topicId msgId name in
  let p := sn_object (sn_packet MQTTSN_REGISTER body) in
  sn_readable body -> 0 <= topicId < 65536 -> 0 <= msgId < 65536 ->
  exists out, MQTTSNPacket_getREGISTER p = Some (1, out) /\ sr_topicid out = topicId /\ sr_packetid out = msgId /\
    sn_bytes p (data (lenstring (sr_topicname out))) (len (lenstring (sr_topicname out))) = Some name.
Proof.
  intros body p Hb Ht Hid. pose proof (sn_readable_length MQTTSN_REGISTER body Hb) as Hl. destruct Hb as [H255 Hmax].
  destruct (sn_deserialize_register_packet (sn_mem p) 1 0 topicId msgId name {| sr_topicid := 0; sr_packetid := 0;
    sr_topicname := no_string |} (zlen (sn_packet MQTTSN_REGISTER body)) [] Ht Hid H255 Hmax ltac:(fold body; lia)
    (sn_mem_at _)) as (out & Hrun & Hti & Hpi & Hheld).
  exists out. split; [by eapply sn_get_run|]. split_and!; [done|done|]. apply sn_bytes_held; [apply Hheld|by right].
Qed.

Lemma sn_ack_get (ty : MQTTSN_msgTypes) out topicId msgId rc : 0 <= ty < 128 ->
  0 <= topicId < 65536 -> 0 <= msgId < 65536 -> 0 <= rc < 256 ->
  sn_get (sn_object (sn_packet ty (sn_ack_body topicId msgId rc))) (sn_read_ack ty out) =
    Some (1, {| sa_topicid := topicId; sa_packetid := msgId; sa_returncode := rc |}).
Proof.
  intros Hty Ht Hm Hr. eapply sn_get_run. apply (sn_read_ack_packet _ _ _ _ _ _ _ _ _ []); try done. apply sn_mem_at.
Qed.

Lemma getACK_run (ty : MQTTSN_msgTypes) msgId :
  ty = MQTTSN_PUBREC \/ ty = MQTTSN_PUBREL \/ ty = MQTTSN_PUBCOMP -> 0 <= msgId < 65536 ->
  MQTTSNPacket_getACK (sn_object (sn_packet ty (int_bytes msgId))) = Some (1, msgId).
Proof.
  intros Hty Hm. unfold MQTTSNPacket_getACK.
  erewrite sn_get_run; [|apply (sn_deserialize_ack_packet _ _ _ ty msgId _ _ [] Hty Hm); [done|apply sn_mem_at]]. done.
Qed.

Lemma getCONNECT_run clean will duration id :
  let body := sn_connect_body clean will duration id in
  sn_readable body -> 0 <= duration < 65536 ->
  exists data, MQTTSNPacket_getCONNECT (sn_object (sn_packet MQTTSN_CONNECT body)) = Some (1, data) /\
    sc_cleansession data = clean mod 2 /\ sc_willFlag data = will mod 2 /\ sc_duration data = duration.
Proof.
  intros body Hb Hd. pose proof (sn_readable_length MQTTSN_CONNECT body Hb) as Hl. destruct Hb as [H255 Hmax].
  destruct (sn_deserialize_connect_packet (sn_mem (sn_object (sn_packet MQTTSN_CONNECT body))) 1 0
    MQTTSNPacket_connectData_initializer (zlen (sn_packet MQTTSN_CONNECT body)) clean will duration id [] (sn_mem_at _)
    Hd H255 Hmax ltac:(fold body; lia) eq_refl) as (data & Hrun & Hc & Hw & Hdu & _).
  exists data. split; [by eapply sn_get_run|done].
Qed.

Lemma getWILLTOPIC_run qos retain topic :
  let body := sn_willtopic_body qos retain topic in
  let p := sn_object (sn_packet MQTTSN_WILLTOPIC body) in
  sn_readable body ->
  exists out, MQTTSNPacket_getWILLTOPIC p = Some (1, out) /\ sw_QoS out = qos mod 4 /\ sw_retain out = retain mod 2 /\
    sn_bytes p (data (lenstring (sw_topic out))) (len (lenstring (sw_topic out))) = Some topic.
Proof.
  intros body p Hb. pose proof (sn_readable_length MQTTSN_WILLTOPIC body Hb) as Hl. destruct Hb as [H255 Hmax].
  destruct (sn_willtopic1_packet (sn_mem p) 1 0 {| sw_QoS := 0; sw_retain := 0; sw_topic := no_string |}
    (zlen (sn_packet MQTTSN_WILLTOPIC body)) qos retain topic MQTTSN_WILLTOPIC (sn_mem_at _) ltac:(done) H255 Hmax Hl
    eq_refl) as (out & Hrun & Hq & Hr & Hlen & Hheld).
  exists out. split; [by eapply sn_get_run|]. split_and!; [done|done|]. by apply sn_bytes_held.
Qed.

Lemma getWILLMSG_run msg :
  let p := sn_object (sn_packet MQTTSN_WILLMSG msg) in
  sn_readable msg ->
  exists str, MQTTSNPacket_getWILLMSG p = Some (1, str) /\
    sn_bytes p (data (lenstring str)) (len (lenstring str)) = Some msg.
Proof.
  intros p Hb. pose proof (sn_readable_length MQTTSN_WILLMSG msg Hb) as Hl. destruct Hb as [H255 Hmax].
  destruct (sn_willmsg1_packet (sn_mem p) 1 0 no_string (zlen (sn_packet MQTTSN_WILLMSG msg)) msg MQTTSN_WILLMSG
    (sn_mem_at _) ltac:(done) H255 Hmax Hl eq_refl) as (str & Hrun & Hlen & Hheld).
  exists str. split; [by eapply sn_get_run|]. by apply sn_bytes_held.
Qed.

Lemma getDISCONNECT_run duration : 0 <= duration < 65536 ->
  MQTTSNPacket_getDISCONNECT (sn_object (sn_packet MQTTSN_DISCONNECT (if 0 <? duration then int_bytes duration else []))) =
    Some (1, duration).
Proof.
  intros Hd. unfold MQTTSNPacket_getDISCONNECT. set (body := if 0 <? duration then _ else _).
  assert (Hb : sn_readable body) by (unfold body; by case_test).
  pose proof (sn_readable_length MQTTSN_DISCONNECT body Hb) as Hl.
  pose proof (sn_deserialize_disconnect_packet (sn_mem (sn_object (sn_packet MQTTSN_DISCONNECT body))) 1 0 duration 0
    ltac:(lia) (sn_mem_at _)) as Hrun. fold body in Hrun. rewrite <- Hl in Hrun.
  rewrite (sn_get_run _ _ _ _ Hrun). unfold mbind, option_bind. cbn [fst snd]. do 2 f_equal.
  case_test; [by apply u16_small|]. by replace duration with 0 by lia.
Qed.

Lemma getSUBSCRIBE_run dup qos msgId filter :
  let body := sn_subscribe_body dup qos msgId filter in
  let p := sn_object (sn_packet MQTTSN_SUBSCRIBE body) in
  sn_readable body -> topic_ok 3 filter -> 0 <= msgId < 65536 ->
  exists out, MQTTSNPacket_getSUBSCRIBE p = Some (1, out) /\ ss_qos out = qos mod 4 /\ ss_packetid out = msgId /\
    filter_denotes (in_block (mem (sn_mem p)) 1) (ss_filter out) filter.
Proof.
  intros body p Hb Hf Hid. destruct (topic_ok_denotes 3 filter Hf) as [t Hden].
  pose proof (sn_readable_length MQTTSN_SUBSCRIBE body Hb) as Hl. destruct Hb as [H255 Hmax].
  destruct (sn_deserialize_subscribe_packet (sn_mem p) 1 0 dup qos msgId _ t filter {| ss_dup := 0; ss_qos := 0;
    ss_packetid := 0; ss_filter := no_topicid |} (zlen (sn_packet MQTTSN_SUBSCRIBE body)) Hden Hid H255 Hmax
    ltac:(fold body; lia) (sn_mem_at _)) as (out & Hrun & _ & Hq & Hi & Hres).
  exists out. split; [by eapply sn_get_run|done].
Qed.

Lemma getUNSUBSCRIBE_run msgId filter :
  let body := sn_subscribe_body 0 0 msgId filter in
  let p := sn_object (sn_packet MQTTSN_UNSUBSCRIBE body) in
  sn_readable body -> topic_ok 3 filter -> 0 <= msgId < 65536 ->
  exists t, MQTTSNPacket_getUNSUBSCRIBE p = Some (1, msgId, t) /\
    filter_denotes (in_block (mem (sn_mem p)) 1) t filter /\ holds_pointer t filter.
Proof.
  intros body p Hb Hf Hid. destruct (topic_ok_denotes 3 filter Hf) as [t Hden].
  pose proof (sn_readable_length MQTTSN_UNSUBSCRIBE body Hb) as Hl. destruct Hb as [H255 Hmax].
  destruct (sn_deserialize_unsubscribe_packet (sn_mem p) 1 0 msgId _ t filter 0 no_topicid
    (zlen (sn_packet MQTTSN_UNSUBSCRIBE body)) Hden Hid H255 Hmax ltac:(fold body; lia) (sn_mem_at _)) as (t' & Hrun & Hres).
  exists t'. split; [by eapply sn_get_run|done].
Qed.
End Read.
