(* ===== verification/GWClient.v ===== *)
(** * Clients of the gateway: MQTTSNGWClient.cpp

    The class Client: the state the gateway keeps of a client of the sensor
    network, its tables and queues (GWTables, GWTopic) and the status that the
    packets of both sides change. *)

From S2P Require Import Prelude CMem MQTTPacket SNPacket SNConnect GWHeap GWTables GWTopic GWPacket GWSNPacket.

(** ** A part of the state *)

(** A field of a record: how it is read and replaced. *)
Record field (S T : Type) := Field { fget : S -> T; fset : T -> S -> S }.
Arguments Field {S T} fget fset.
Arguments fget {S T} _ _.
Arguments fset {S T} _ _ _.

Section Fields.
Context {S T : Type}.

Definition the (f : field S T) : st S T := fun s => Some (fget f s, s).
Definition put (f : field S T) (v : T) : st S unit := fun s => Some (tt, fset f v s).

(** An operation of the field, as an operation of the whole. *)
Definition inside {R} (f : field S T) (c : st T R) : st S R := fun s =>
  match c (fget f s) with Some (r, t) => Some (r, fset f t s) | None => None end.

(** What may have no result: a pointer that cannot be followed. *)
Definition demand {R} (o : option R) : st S R := fun s => match o with Some r => Some (r, s) | None => None end.

Lemma inside_run {R} (f : field S T) (c : st T R) s r t :
  c (fget f s) = Some (r, t) -> inside f c s = Some (r, fset f t s).
Proof. intros Hc. unfold inside. by rewrite Hc. Qed.
End Fields.

(** ** The state of a client *)

Inductive ClientStatus :=
  | Cstat_Disconnected | Cstat_TryConnecting | Cstat_Connecting | Cstat_Active
  | Cstat_Asleep | Cstat_Awake | Cstat_Lost.

Inductive ClientType :=
  | Ctype_Regular | Ctype_Forwarded | Ctype_QoS_1 | Ctype_Aggregated | Ctype_Proxy | Ctype_Aggregater.

#[export] Instance ClientStatus_eq_dec : EqDecision ClientStatus.
Proof. solve_decision. Defined.
#[export] Instance ClientType_eq_dec : EqDecision ClientType.
Proof. solve_decision. Defined.

(** Decides the comparisons of statuses and types that are known. *)
Ltac known_tests :=
  repeat match goal with
  | |- context [bool_decide (?a = ?b)] =>
      let r := eval vm_compute in (bool_decide (a = b)) in
      match r with true => idtac | false => idtac end; change (bool_decide (a = b)) with r
  end; cbn [negb andb orb].

(** The same for numbers, such as packet types. *)
Ltac known_eqs :=
  repeat match goal with
  | |- context [?a =? ?b] =>
      let r := eval vm_compute in (a =? b) in
      match r with true => idtac | false => idtac end; change (a =? b) with r
  end; cbn [negb andb orb].

(** The members the packet handlers and the tasks use.  The strings are the
    allocated copies, up to their terminating 0; the timer is the [_millis] it was
    last started with, 0 before; [cl_forwarded] is [_forwarder != nullptr] and
    [cl_networkValid] is [_network->isValid()]. *)
Record Client := mkClient {
  cl_sleepQue : linked MQTTGWPacket Z;
  cl_regack : linked (waitREGACKPacket MQTTSNPacket) unit;
  cl_topics : Topics;
  cl_pubMap : TopicIdMap;
  cl_subMap : TopicIdMap;
  cl_connectData : Connect;
  cl_clientId : option (list byte);
  cl_willTopic : option (list byte);
  cl_willMsg : option (list byte);
  cl_holdPingRequest : bool;
  cl_keepAliveTimer : Z;
  cl_keepAliveMsec : Z;
  cl_status : ClientStatus;
  cl_waitWillMsgFlg : bool;
  cl_packetId : Z;
  cl_snMsgId : Z;
  cl_type : ClientType;
  cl_sessionStatus : bool;
  cl_hasPredefTopic : bool;
  cl_forwarded : bool;
  cl_secureNetwork : bool;
  cl_networkValid : bool;
}.

Definition f_sleepQue : field Client (linked MQTTGWPacket Z) := Field cl_sleepQue (fun v c =>
    mkClient v (cl_regack c) (cl_topics c) (cl_pubMap c) (cl_subMap c) (cl_connectData c) (cl_clientId c)
    (cl_willTopic c) (cl_willMsg c) (cl_holdPingRequest c) (cl_keepAliveTimer c) (cl_keepAliveMsec c)
    (cl_status c) (cl_waitWillMsgFlg c) (cl_packetId c) (cl_snMsgId c) (cl_type c) (cl_sessionStatus c)
    (cl_hasPredefTopic c) (cl_forwarded c) (cl_secureNetwork c) (cl_networkValid c)).
Definition f_regack : field Client (linked (waitREGACKPacket MQTTSNPacket) unit) := Field cl_regack (fun v c =>
    mkClient (cl_sleepQue c) v (cl_topics c) (cl_pubMap c) (cl_subMap c) (cl_connectData c) (cl_clientId c)
    (cl_willTopic c) (cl_willMsg c) (cl_holdPingRequest c) (cl_keepAliveTimer c) (cl_keepAliveMsec c)
    (cl_status c) (cl_waitWillMsgFlg c) (cl_packetId c) (cl_snMsgId c) (cl_type c) (cl_sessionStatus c)
    (cl_hasPredefTopic c) (cl_forwarded c) (cl_secureNetwork c) (cl_networkValid c)).
Definition f_topics : field Client (Topics) := Field cl_topics (fun v c =>
    mkClient (cl_sleepQue c) (cl_regack c) v (cl_pubMap c) (cl_subMap c) (cl_connectData c) (cl_clientId c)
    (cl_willTopic c) (cl_willMsg c) (cl_holdPingRequest c) (cl_keepAliveTimer c) (cl_keepAliveMsec c)
    (cl_status c) (cl_waitWillMsgFlg c) (cl_packetId c) (cl_snMsgId c) (cl_type c) (cl_sessionStatus c)
    (cl_hasPredefTopic c) (cl_forwarded c) (cl_secureNetwork c) (cl_networkValid c)).
Definition f_pubMap : field Client (TopicIdMap) := Field cl_pubMap (fun v c =>
    mkClient (cl_sleepQue c) (cl_regack c) (cl_topics c) v (cl_subMap c) (cl_connectData c) (cl_clientId c)
    (cl_willTopic c) (cl_willMsg c) (cl_holdPingRequest c) (cl_keepAliveTimer c) (cl_keepAliveMsec c)
    (cl_status c) (cl_waitWillMsgFlg c) (cl_packetId c) (cl_snMsgId c) (cl_type c) (cl_sessionStatus c)
    (cl_hasPredefTopic c) (cl_forwarded c) (cl_secureNetwork c) (cl_networkValid c)).
Definition f_subMap : field Client (TopicIdMap) := Field cl_subMap (fun v c =>
    mkClient (cl_sleepQue c) (cl_regack c) (cl_topics c) (cl_pubMap c) v (cl_connectData c) (cl_clientId c)
    (cl_willTopic c) (cl_willMsg c) (cl_holdPingRequest c) (cl_keepAliveTimer c) (cl_keepAliveMsec c)
    (cl_status c) (cl_waitWillMsgFlg c) (cl_packetId c) (cl_snMsgId c) (cl_type c) (cl_sessionStatus c)
    (cl_hasPredefTopic c) (cl_forwarded c) (cl_secureNetwork c) (cl_networkValid c)).
Definition f_connectData : field Client (Connect) := Field cl_connectData (fun v c =>
    mkClient (cl_sleepQue c) (cl_regack c) (cl_topics c) (cl_pubMap c) (cl_subMap c) v (cl_clientId c)
    (cl_willTopic c) (cl_willMsg c) (cl_holdPingRequest c) (cl_keepAliveTimer c) (cl_keepAliveMsec c)
    (cl_status c) (cl_waitWillMsgFlg c) (cl_packetId c) (cl_snMsgId c) (cl_type c) (cl_sessionStatus c)
    (cl_hasPredefTopic c) (cl_forwarded c) (cl_secureNetwork c) (cl_networkValid c)).
Definition f_clientId : field Client (option (list byte)) := Field cl_clientId (fun v c =>
    mkClient (cl_sleepQue c) (cl_regack c) (cl_topics c) (cl_pubMap c) (cl_subMap c) (cl_connectData c) v
    (cl_willTopic c) (cl_willMsg c) (cl_holdPingRequest c) (cl_keepAliveTimer c) (cl_keepAliveMsec c)
    (cl_status c) (cl_waitWillMsgFlg c) (cl_packetId c) (cl_snMsgId c) (cl_type c) (cl_sessionStatus c)
    (cl_hasPredefTopic c) (cl_forwarded c) (cl_secureNetwork c) (cl_networkValid c)).
Definition f_willTopic : field Client (option (list byte)) := Field cl_willTopic (fun v c =>
    mkClient (cl_sleepQue c) (cl_regack c) (cl_topics c) (cl_pubMap c) (cl_subMap c) (cl_connectData c)
    (cl_clientId c) v (cl_willMsg c) (cl_holdPingRequest c) (cl_keepAliveTimer c) (cl_keepAliveMsec c)
    (cl_status c) (cl_waitWillMsgFlg c) (cl_packetId c) (cl_snMsgId c) (cl_type c) (cl_sessionStatus c)
    (cl_hasPredefTopic c) (cl_forwarded c) (cl_secureNetwork c) (cl_networkValid c)).
Definition f_willMsg : field Client (option (list byte)) := Field cl_willMsg (fun v c =>
    mkClient (cl_sleepQue c) (cl_regack c) (cl_topics c) (cl_pubMap c) (cl_subMap c) (cl_connectData c)
    (cl_clientId c) (cl_willTopic c) v (cl_holdPingRequest c) (cl_keepAliveTimer c) (cl_keepAliveMsec c)
    (cl_status c) (cl_waitWillMsgFlg c) (cl_packetId c) (cl_snMsgId c) (cl_type c) (cl_sessionStatus c)
    (cl_hasPredefTopic c) (cl_forwarded c) (cl_secureNetwork c) (cl_networkValid c)).
Definition f_holdPingRequest : field Client (bool) := Field cl_holdPingRequest (fun v c =>
    mkClient (cl_sleepQue c) (cl_regack c) (cl_topics c) (cl_pubMap c) (cl_subMap c) (cl_connectData c)
    (cl_clientId c) (cl_willTopic c) (cl_willMsg c) v (cl_keepAliveTimer c) (cl_keepAliveMsec c) (cl_status
    c) (cl_waitWillMsgFlg c) (cl_packetId c) (cl_snMsgId c) (cl_type c) (cl_sessionStatus c)
    (cl_hasPredefTopic c) (cl_forwarded c) (cl_secureNetwork c) (cl_networkValid c)).
Definition f_keepAliveTimer : field Client (Z) := Field cl_keepAliveTimer (fun v c =>
    mkClient (cl_sleepQue c) (cl_regack c) (cl_topics c) (cl_pubMap c) (cl_subMap c) (cl_connectData c)
    (cl_clientId c) (cl_willTopic c) (cl_willMsg c) (cl_holdPingRequest c) v (cl_keepAliveMsec c) (cl_status
    c) (cl_waitWillMsgFlg c) (cl_packetId c) (cl_snMsgId c) (cl_type c) (cl_sessionStatus c)
    (cl_hasPredefTopic c) (cl_forwarded c) (cl_secureNetwork c) (cl_networkValid c)).
Definition f_keepAliveMsec : field Client (Z) := Field cl_keepAliveMsec (fun v c =>
    mkClient (cl_sleepQue c) (cl_regack c) (cl_topics c) (cl_pubMap c) (cl_subMap c) (cl_connectData c)
    (cl_clientId c) (cl_willTopic c) (cl_willMsg c) (cl_holdPingRequest c) (cl_keepAliveTimer c) v
    (cl_status c) (cl_waitWillMsgFlg c) (cl_packetId c) (cl_snMsgId c) (cl_type c) (cl_sessionStatus c)
    (cl_hasPredefTopic c) (cl_forwarded c) (cl_secureNetwork c) (cl_networkValid c)).
Definition f_status : field Client (ClientStatus) := Field cl_status (fun v c =>
    mkClient (cl_sleepQue c) (cl_regack c) (cl_topics c) (cl_pubMap c) (cl_subMap c) (cl_connectData c)
    (cl_clientId c) (cl_willTopic c) (cl_willMsg c) (cl_holdPingRequest c) (cl_keepAliveTimer c)
    (cl_keepAliveMsec c) v (cl_waitWillMsgFlg c) (cl_packetId c) (cl_snMsgId c) (cl_type c)
    (cl_sessionStatus c) (cl_hasPredefTopic c) (cl_forwarded c) (cl_secureNetwork c) (cl_networkValid c)).
Definition f_waitWillMsgFlg : field Client (bool) := Field cl_waitWillMsgFlg (fun v c =>
    mkClient (cl_sleepQue c) (cl_regack c) (cl_topics c) (cl_pubMap c) (cl_subMap c) (cl_connectData c)
    (cl_clientId c) (cl_willTopic c) (cl_willMsg c) (cl_holdPingRequest c) (cl_keepAliveTimer c)
    (cl_keepAliveMsec c) (cl_status c) v (cl_packetId c) (cl_snMsgId c) (cl_type c) (cl_sessionStatus c)
    (cl_hasPredefTopic c) (cl_forwarded c) (cl_secureNetwork c) (cl_networkValid c)).
Definition f_packetId : field Client (Z) := Field cl_packetId (fun v c =>
    mkClient (cl_sleepQue c) (cl_regack c) (cl_topics c) (cl_pubMap c) (cl_subMap c) (cl_connectData c)
    (cl_clientId c) (cl_willTopic c) (cl_willMsg c) (cl_holdPingRequest c) (cl_keepAliveTimer c)
    (cl_keepAliveMsec c) (cl_status c) (cl_waitWillMsgFlg c) v (cl_snMsgId c) (cl_type c) (cl_sessionStatus
    c) (cl_hasPredefTopic c) (cl_forwarded c) (cl_secureNetwork c) (cl_networkValid c)).
Definition f_snMsgId : field Client (Z) := Field cl_snMsgId (fun v c =>
    mkClient (cl_sleepQue c) (cl_regack c) (cl_topics c) (cl_pubMap c) (cl_subMap c) (cl_connectData c)
    (cl_clientId c) (cl_willTopic c) (cl_willMsg c) (cl_holdPingRequest c) (cl_keepAliveTimer c)
    (cl_keepAliveMsec c) (cl_status c) (cl_waitWillMsgFlg c) (cl_packetId c) v (cl_type c) (cl_sessionStatus
    c) (cl_hasPredefTopic c) (cl_forwarded c) (cl_secureNetwork c) (cl_networkValid c)).
Definition f_type : field Client (ClientType) := Field cl_type (fun v c =>
    mkClient (cl_sleepQue c) (cl_regack c) (cl_topics c) (cl_pubMap c) (cl_subMap c) (cl_connectData c)
    (cl_clientId c) (cl_willTopic c) (cl_willMsg c) (cl_holdPingRequest c) (cl_keepAliveTimer c)
    (cl_keepAliveMsec c) (cl_status c) (cl_waitWillMsgFlg c) (cl_packetId c) (cl_snMsgId c) v
    (cl_sessionStatus c) (cl_hasPredefTopic c) (cl_forwarded c) (cl_secureNetwork c) (cl_networkValid c)).
Definition f_sessionStatus : field Client (bool) := Field cl_sessionStatus (fun v c =>
    mkClient (cl_sleepQue c) (cl_regack c) (cl_topics c) (cl_pubMap c) (cl_subMap c) (cl_connectData c)
    (cl_clientId c) (cl_willTopic c) (cl_willMsg c) (cl_holdPingRequest c) (cl_keepAliveTimer c)
    (cl_keepAliveMsec c) (cl_status c) (cl_waitWillMsgFlg c) (cl_packetId c) (cl_snMsgId c) (cl_type c) v
    (cl_hasPredefTopic c) (cl_forwarded c) (cl_secureNetwork c) (cl_networkValid c)).
Definition f_hasPredefTopic : field Client (bool) := Field cl_hasPredefTopic (fun v c =>
    mkClient (cl_sleepQue c) (cl_regack c) (cl_topics c) (cl_pubMap c) (cl_subMap c) (cl_connectData c)
    (cl_clientId c) (cl_willTopic c) (cl_willMsg c) (cl_holdPingRequest c) (cl_keepAliveTimer c)
    (cl_keepAliveMsec c) (cl_status c) (cl_waitWillMsgFlg c) (cl_packetId c) (cl_snMsgId c) (cl_type c)
    (cl_sessionStatus c) v (cl_forwarded c) (cl_secureNetwork c) (cl_networkValid c)).
Definition f_forwarded : field Client (bool) := Field cl_forwarded (fun v c =>
    mkClient (cl_sleepQue c) (cl_regack c) (cl_topics c) (cl_pubMap c) (cl_subMap c) (cl_connectData c)
    (cl_clientId c) (cl_willTopic c) (cl_willMsg c) (cl_holdPingRequest c) (cl_keepAliveTimer c)
    (cl_keepAliveMsec c) (cl_status c) (cl_waitWillMsgFlg c) (cl_packetId c) (cl_snMsgId c) (cl_type c)
    (cl_sessionStatus c) (cl_hasPredefTopic c) v (cl_secureNetwork c) (cl_networkValid c)).
Definition f_secureNetwork : field Client (bool) := Field cl_secureNetwork (fun v c =>
    mkClient (cl_sleepQue c) (cl_regack c) (cl_topics c) (cl_pubMap c) (cl_subMap c) (cl_connectData c)
    (cl_clientId c) (cl_willTopic c) (cl_willMsg c) (cl_holdPingRequest c) (cl_keepAliveTimer c)
    (cl_keepAliveMsec c) (cl_status c) (cl_waitWillMsgFlg c) (cl_packetId c) (cl_snMsgId c) (cl_type c)
    (cl_sessionStatus c) (cl_hasPredefTopic c) (cl_forwarded c) v (cl_networkValid c)).
Definition f_networkValid : field Client (bool) := Field cl_networkValid (fun v c =>
    mkClient (cl_sleepQue c) (cl_regack c) (cl_topics c) (cl_pubMap c) (cl_subMap c) (cl_connectData c)
    (cl_clientId c) (cl_willTopic c) (cl_willMsg c) (cl_holdPingRequest c) (cl_keepAliveTimer c)
    (cl_keepAliveMsec c) (cl_status c) (cl_waitWillMsgFlg c) (cl_packetId c) (cl_snMsgId c) (cl_type c)
    (cl_sessionStatus c) (cl_hasPredefTopic c) (cl_forwarded c) (cl_secureNetwork c) v).

(** ** Operations *)

Definition MAX_SAVED_PUBLISH : Z := 20.

(** MQTTPacket_Connect_Initializer, and a structure filled with zeros. *)
Definition no_Connect : Connect := mkConnect 0 0 None None None 0 0.

(** [new Client(secure)]; the constructor sets the size of the queue. *)
Definition newClient (secure : bool) : Client :=
  let que := match Que_setMaxSize MAX_SAVED_PUBLISH newQue with Some (_, que) => que | None => newQue end in
  mkClient que newWaitREGACKPacketList newTopics newTopicIdMap newTopicIdMap no_Connect None None None false 0 0
    Cstat_Disconnected false 0 0 Ctype_Regular false false false secure false.

Section Operations.
Context `{CharSign} `{ByteOrder} `{HeapSpace}.

(** *** Tables and queues *)

(** The topic identifier and type of a waiting message, which is what the
    callers take from the element. *)
Definition waited (map : field Client TopicIdMap) (msgId : Z) : st Client (option (Z * Z)) :=
  inside map (
    let! p := TopicIdMap_getElement msgId in
    if null p then sret None
    else let! c := deref p in sret (Some (tme_topicId (c_val c), tme_type (c_val c)))).

Definition Client_getWaitedPubTopicId (msgId : Z) : st Client (option (Z * Z)) := waited f_pubMap msgId.
Definition Client_getWaitedSubTopicId (msgId : Z) : st Client (option (Z * Z)) := waited f_subMap msgId.
Definition Client_eraseWaitedPubTopicId (msgId : Z) : st Client unit := inside f_pubMap (TopicIdMap_erase msgId).
Definition Client_eraseWaitedSubTopicId (msgId : Z) : st Client unit := inside f_subMap (TopicIdMap_erase msgId).
Definition Client_clearWaitedPubTopicId : st Client unit := inside f_pubMap TopicIdMap_clear.
Definition Client_clearWaitedSubTopicId : st Client unit := inside f_subMap TopicIdMap_clear.
Definition Client_setWaitedPubTopicId (msgId topicId type : Z) : st Client unit :=
  inside f_pubMap (TopicIdMap_add msgId topicId type) ;! sret tt.
Definition Client_setWaitedSubTopicId (msgId topicId type : Z) : st Client unit :=
  inside f_subMap (TopicIdMap_add msgId topicId type) ;! sret tt.

Definition Client_getClientSleepPacket : st Client (option MQTTGWPacket) := inside f_sleepQue PacketQue_getPacket.
Definition Client_deleteFirstClientSleepPacket : st Client unit := inside f_sleepQue PacketQue_pop.
Definition Client_setClientSleepPacket (packet : MQTTGWPacket) : st Client Z :=
  inside f_sleepQue (Que_post (Some packet)).

(** *** Status *)

Definition Client_isDisconnect : st Client bool := let! s := the f_status in sret (bool_decide (s = Cstat_Disconnected)).
Definition Client_isActive : st Client bool := let! s := the f_status in sret (bool_decide (s = Cstat_Active)).
Definition Client_isSleep : st Client bool := let! s := the f_status in sret (bool_decide (s = Cstat_Asleep)).
Definition Client_isAwake : st Client bool := let! s := the f_status in sret (bool_decide (s = Cstat_Awake)).
Definition Client_isConnecting : st Client bool := let! s := the f_status in sret (bool_decide (s = Cstat_Connecting)).

Definition Client_connectSended : st Client unit := put f_status Cstat_Connecting.
Definition Client_disconnected : st Client unit := put f_status Cstat_Disconnected ;! put f_waitWillMsgFlg false.
Definition Client_connackSended (rc : Z) : st Client unit :=
  if rc =? MQTTSN_RC_ACCEPTED then put f_status Cstat_Active else Client_disconnected.
Definition Client_tryConnect : st Client unit := put f_status Cstat_TryConnecting.
Definition Client_isConnectSendable : st Client bool :=
  let! s := the f_status in
  sret (negb (bool_decide (s = Cstat_Lost) || bool_decide (s = Cstat_TryConnecting))).

(** [_keepAliveTimer.start(_keepAliveMsec * 1.5)] *)
Definition start_keepAlive : st Client unit :=
  let! msec := the f_keepAliveMsec in put f_keepAliveTimer (msec * 3 / 2).

Definition Client_setKeepAlive (packet : MQTTSNPacket) : st Client unit :=
  let! (rc, param) := demand (MQTTSNPacket_getCONNECT packet) in
  if rc =? 0 then sret tt
  else put f_keepAliveMsec (sc_duration param * 1000) ;! start_keepAlive.

(** The packets that restart the timer of an active client. *)
Definition keeps_alive (type : Z) : bool :=
  (type =? MQTTSN_PINGREQ) || (type =? MQTTSN_PUBLISH) || (type =? MQTTSN_SUBSCRIBE) || (type =? MQTTSN_UNSUBSCRIBE) ||
  (type =? MQTTSN_PUBACK) || (type =? MQTTSN_PUBCOMP) || (type =? MQTTSN_PUBREL) || (type =? MQTTSN_PUBREC).

(** The type is asked for again in each branch and is the same. *)
Definition Client_updateStatus (packet : MQTTSNPacket) : st Client unit :=
  let! status := the f_status in
  let! clientType := the f_type in
  let! type := demand (MQTTSNPacket_getType packet) in
  if (bool_decide (status = Cstat_Disconnected) || bool_decide (status = Cstat_Lost)) && (type =? MQTTSN_CONNECT)
  then Client_setKeepAlive packet
  else if bool_decide (status = Cstat_Active) then
    if keeps_alive type then
      if bool_decide (clientType = Ctype_Proxy) then sret tt else start_keepAlive
    else if type =? MQTTSN_DISCONNECT then
      let! (_, duration) := demand (MQTTSNPacket_getDISCONNECT packet) in
      if negb (duration =? 0) then put f_status Cstat_Asleep else Client_disconnected
    else sret tt
  else if bool_decide (status = Cstat_Awake) || bool_decide (status = Cstat_Asleep) then
    if type =? MQTTSN_CONNECT then put f_status Cstat_Active
    else if type =? MQTTSN_DISCONNECT then Client_disconnected
    else if type =? MQTTSN_PINGREQ then put f_status Cstat_Awake
    else if type =? MQTTSN_PINGRESP then put f_status Cstat_Asleep
    else sret tt
  else sret tt.

Definition Client_updateStatus_to (stat : ClientStatus) : st Client unit := put f_status stat.

(** *** Members *)

Definition Client_setSessionStatus (status : bool) : st Client unit := put f_sessionStatus status.
Definition Client_erasable : st Client bool :=
  let! session := the f_sessionStatus in
  let! predef := the f_hasPredefTopic in
  let! forwarded := the f_forwarded in
  sret (session && negb predef && negb forwarded).

Definition Client_setForwarder : st Client unit := put f_forwarded true ;! put f_type Ctype_Forwarded.

Definition Client_getNextPacketId : st Client Z :=
  let! id := the f_packetId in
  let id := next_packetId id in
  put f_packetId id ;! sret id.

(** An [uint8_t]. *)
Definition Client_getNextSnMsgId : st Client Z :=
  let! id := the f_snMsgId in
  let id := u8 (id + 1) in
  let id := if id =? 0 then u8 (id + 1) else id in
  put f_snMsgId id ;! sret id.

Definition Client_setWaitWillMsgFlg (flg : bool) : st Client unit := put f_waitWillMsgFlg flg.
Definition Client_isWaitWillMsg : st Client bool := the f_waitWillMsgFlg.

(** The strings are copied with their length and used as C strings; [str] is
    what the MQTTSNString denotes. *)
Definition Client_setClientId (str : list byte) : st Client unit := put f_clientId (Some (c_str str)).
Definition Client_setWillTopic (str : list byte) : st Client unit := put f_willTopic (Some (c_str str)).
Definition Client_setWillMsg (str : list byte) : st Client unit := put f_willMsg (Some (c_str str)).

Definition is_type (t : ClientType) : st Client bool := let! ty := the f_type in sret (bool_decide (ty = t)).
Definition Client_isQoSm1Proxy : st Client bool := is_type Ctype_Proxy.
Definition Client_isForwarded : st Client bool := is_type Ctype_Forwarded.
Definition Client_isAggregated : st Client bool := is_type Ctype_Aggregated.
Definition Client_isAggregater : st Client bool := is_type Ctype_Aggregater.
Definition Client_isQoSm1 : st Client bool := is_type Ctype_QoS_1.
Definition Client_isAdapter : st Client bool :=
  let! ty := the f_type in sret (bool_decide (ty = Ctype_Proxy) || bool_decide (ty = Ctype_Aggregater)).
Definition Client_setQoSm1 : st Client unit := put f_type Ctype_QoS_1.
Definition Client_setAggregated : st Client unit := put f_type Ctype_Aggregated.

(** The argument is an adapter type, [None] any other value, for which an
    exception is thrown. *)
Inductive AdapterType := Atype_QoSm1Proxy | Atype_Aggregater.
Definition Client_setAdapterType (type : option AdapterType) : st Client unit :=
  match type with
  | Some Atype_QoSm1Proxy => put f_type Ctype_Proxy
  | Some Atype_Aggregater => put f_type Ctype_Aggregater
  | None => undefined
  end.

Definition Client_holdPingRequest : st Client unit := put f_holdPingRequest true.
Definition Client_resetPingRequest : st Client unit := put f_holdPingRequest false.
Definition Client_isHoldPringReqest : st Client bool := the f_holdPingRequest.
End Operations.

(** ** What a client holds *)

(** The contents of the queue, the lists and the tables of a client. *)
Record client_view := View {
  v_sleeping : list MQTTGWPacket;
  v_regack : list (Z * MQTTSNPacket);
  v_lastId : Z;
  v_topics : list Topic;
  v_pub : gmap Z (Z * Z);
  v_sub : gmap Z (Z * Z);
}.

Definition client_holds (c : Client) (v : client_view) : Prop :=
  que_holds (cl_sleepQue c) MAX_SAVED_PUBLISH (v_sleeping v) /\ regack_holds (cl_regack c) (v_regack v) /\
  topics_hold (cl_topics c) (v_lastId v) (v_topics v) /\ tm_holds (cl_pubMap c) (v_pub v) /\
  tm_holds (cl_subMap c) (v_sub v).

Lemma newClient_holds secure : client_holds (newClient secure) (View [] [] 0 [] ∅ ∅).
Proof.
  destruct (que_setMaxSize_run (T := MQTTGWPacket) newQue 0 MAX_SAVED_PUBLISH [] que_new_holds) as (q & Hq & Hh).
  split; [|split_and!]; cbn [v_sleeping v_regack v_lastId v_topics v_pub v_sub].
  - unfold newClient. rewrite Hq. exact Hh.
  - apply regack_new_holds.
  - apply topics_new_hold.
  - apply tm_holds_new.
  - apply tm_holds_new.
Qed.

(** An operation that leaves the queue, the lists and the tables alone. *)
Definition same_tables (c c' : Client) : Prop :=
  cl_sleepQue c' = cl_sleepQue c /\ cl_regack c' = cl_regack c /\ cl_topics c' = cl_topics c /\
  cl_pubMap c' = cl_pubMap c /\ cl_subMap c' = cl_subMap c.

Lemma same_tables_holds c c' v : same_tables c c' -> client_holds c v -> client_holds c' v.
Proof. intros (Hq & Hr & Ht & Hp & Hs) Hv. unfold client_holds. by rewrite Hq, Hr, Ht, Hp, Hs. Qed.

(** The topic behind a pointer, null for none. *)
Definition topic_at (p : option loc) : step Topic Z (option Topic) :=
  if null p then sret None else let! c := deref p in sret (Some (c_val c)).

Lemma topic_at_run s p t : points s p t -> topic_at p s = Some (t, s).
Proof.
  destruct p as [q|]; [|by intros ->]. intros (e & He & ->). unfold topic_at. cbn [null]. unfold sbind, deref.
  by rewrite He.
Qed.

Lemma que_post_full {T} (s : linked T Z) n ts t : que_holds s n ts -> n <> 0 -> n <= zlen ts ->
  Que_post (Some t) s = Some (0, s).
Proof.
  intros (l & _ & _ & Hc & Hm & _) Hn Hfull. unfold Que_post. sprim. sprim. rewrite Hc, Hm.
  by test_false (n =? 0); test_false (zlen ts <? n).
Qed.

Section Runs.
Implicit Types (c : Client) (v : client_view).

(** *** The tables *)

Definition v_set_pub (m : gmap Z (Z * Z)) v : client_view :=
  View (v_sleeping v) (v_regack v) (v_lastId v) (v_topics v) m (v_sub v).
Definition v_set_sub (m : gmap Z (Z * Z)) v : client_view :=
  View (v_sleeping v) (v_regack v) (v_lastId v) (v_topics v) (v_pub v) m.
Definition v_set_regack (l : list (Z * MQTTSNPacket)) v : client_view :=
  View (v_sleeping v) l (v_lastId v) (v_topics v) (v_pub v) (v_sub v).
Definition v_set_sleeping (l : list MQTTGWPacket) v : client_view :=
  View l (v_regack v) (v_lastId v) (v_topics v) (v_pub v) (v_sub v).
Definition v_set_topics (n : Z) (ts : list Topic) v : client_view :=
  View (v_sleeping v) (v_regack v) n ts (v_pub v) (v_sub v).

(** The two tables behave the same way. *)
Lemma waited_run (map : field Client TopicIdMap) c m msgId : tm_holds (fget map c) m -> fset map (fget map c) c = c ->
  waited map msgId c = Some (m !! msgId, c).
Proof.
  intros Hm Hid. unfold waited. erewrite inside_run; [by rewrite Hid|].
  destruct (tm_get_run _ _ msgId Hm) as ([q|] & Hget & Hp); srun Hget; cbn [null].
  - destruct Hp as (e & Hc & _ & ->). unfold sbind, deref. by rewrite Hc.
  - by rewrite Hp.
Qed.

Lemma getWaitedPub_run c v msgId : client_holds c v ->
  Client_getWaitedPubTopicId msgId c = Some (v_pub v !! msgId, c).
Proof. intros (_ & _ & _ & Hp & _). apply waited_run; [done|by destruct c]. Qed.

Lemma getWaitedSub_run c v msgId : client_holds c v ->
  Client_getWaitedSubTopicId msgId c = Some (v_sub v !! msgId, c).
Proof. intros (_ & _ & _ & _ & Hp). apply waited_run; [done|by destruct c]. Qed.

Lemma setWaitedPub_run c v msgId id ty : client_holds c v ->
  exists c', Client_setWaitedPubTopicId msgId id ty c = Some (tt, c') /\ (exists t, c' = fset f_pubMap t c) /\
    client_holds c' (if (2 * MAX_INFLIGHTMESSAGES <? Z.of_nat (size (v_pub v))) ||
        ((id =? 0) && negb (ty =? MQTTSN_TOPIC_TYPE_SHORT)) then v
      else v_set_pub (<[msgId := (id, ty)]> (v_pub v)) v).
Proof.
  intros Hv. pose proof Hv as (Hq & Hr & Ht & Hp & Hs).
  destruct (tm_add_run _ _ msgId id ty Hp) as (p & t & Hadd & Hres).
  exists (fset f_pubMap t c). split; [|split; [by eexists|]].
  - unfold Client_setWaitedPubTopicId. by rewrite (sbind_run _ _ _ _ _ (inside_run _ _ _ _ _ Hadd)).
  - destruct (_ || _); [|by destruct Hres]. destruct Hres as [_ ->]. by apply (same_tables_holds c).
Qed.

Lemma setWaitedSub_run c v msgId id ty : client_holds c v ->
  exists c', Client_setWaitedSubTopicId msgId id ty c = Some (tt, c') /\ (exists t, c' = fset f_subMap t c) /\
    client_holds c' (if (2 * MAX_INFLIGHTMESSAGES <? Z.of_nat (size (v_sub v))) ||
        ((id =? 0) && negb (ty =? MQTTSN_TOPIC_TYPE_SHORT)) then v
      else v_set_sub (<[msgId := (id, ty)]> (v_sub v)) v).
Proof.
  intros Hv. pose proof Hv as (Hq & Hr & Ht & Hp & Hs).
  destruct (tm_add_run _ _ msgId id ty Hs) as (p & t & Hadd & Hres).
  exists (fset f_subMap t c). split; [|split; [by eexists|]].
  - unfold Client_setWaitedSubTopicId. by rewrite (sbind_run _ _ _ _ _ (inside_run _ _ _ _ _ Hadd)).
  - destruct (_ || _); [|by destruct Hres]. destruct Hres as [_ ->]. by apply (same_tables_holds c).
Qed.

Lemma eraseWaitedPub_run c v msgId : client_holds c v -> v_pub v !! msgId <> None ->
  exists c', Client_eraseWaitedPubTopicId msgId c = Some (tt, c') /\ (exists t, c' = fset f_pubMap t c) /\
    client_holds c' (v_set_pub (delete msgId (v_pub v)) v).
Proof.
  intros (Hq & Hr & Ht & Hp & Hs) Hin. destruct (tm_erase_run _ _ msgId Hp Hin) as (t & Hrun & Ht').
  exists (fset f_pubMap t c). split; [by apply inside_run|]. split; [by eexists|done].
Qed.

Lemma eraseWaitedSub_run c v msgId : client_holds c v -> v_sub v !! msgId <> None ->
  exists c', Client_eraseWaitedSubTopicId msgId c = Some (tt, c') /\ (exists t, c' = fset f_subMap t c) /\
    client_holds c' (v_set_sub (delete msgId (v_sub v)) v).
Proof.
  intros (Hq & Hr & Ht & Hp & Hs) Hin. destruct (tm_erase_run _ _ msgId Hs Hin) as (t & Hrun & Ht').
  exists (fset f_subMap t c). split; [by apply inside_run|]. split; [by eexists|done].
Qed.

Lemma clearWaited_run (map : field Client TopicIdMap) c m : tm_holds (fget map c) m ->
  exists t, inside map TopicIdMap_clear c = Some (tt, fset map t c) /\ tm_holds t ∅.
Proof. intros (t & Hrun & Ht)%tm_clear_run. exists t. split; [by apply inside_run|done]. Qed.

(** *** The topics *)

(** The topics of a client after [add(name, id)], and the topic it returns. *)
Definition added (n id : Z) (name : list byte) (ts : list Topic) : option Topic * (Z * list Topic) :=
  if MAX_TOPIC_PAR_CLIENT <=? zlen ts then (None, (n, ts))
  else match find (has_name name) ts with
       | Some t => (Some t, (n, ts))
       | None => (Some (new_topic n id name), (new_last n id, ts ++ [new_topic n id name]))
       end.

Lemma add_topic_run c v name id : client_holds c v ->
  let '(t, (n, ts)) := added (v_lastId v) id name (v_topics v) in
  exists s, inside f_topics (let! p := Topics_add_name name id in topic_at p) c = Some (t, fset f_topics s c) /\
    client_holds (fset f_topics s c) (v_set_topics n ts v).
Proof.
  intros (Hq & Hr & Ht & Hp & Hs). destruct (topics_add_run _ _ _ name id Ht) as (p & s & Hrun & Hres).
  assert (Hin : forall t, points s p t ->
    inside f_topics (let! p := Topics_add_name name id in topic_at p) c = Some (t, fset f_topics s c)).
  { intros t Hpt. apply inside_run. erewrite sbind_run by exact Hrun. by apply topic_at_run. }
  unfold added. destruct (_ <=? _).
  - destruct Hres as [-> ->]. exists (cl_topics c). split; [by apply Hin|done].
  - destruct (find _ _) as [t|].
    + destruct Hres as [-> Hpt]. exists (cl_topics c). split; [by apply Hin|done].
    + destruct Hres as [Hs' Hpt]. exists s. split; [by apply Hin|done].
Qed.

Lemma search_topic_run c v (look : step Topic Z (option loc)) (found : option Topic) : client_holds c v ->
  (forall s n ts, topics_hold s n ts -> ts = v_topics v -> exists p, look s = Some (p, s) /\ points s p found) ->
  inside f_topics (let! p := look in topic_at p) c = Some (found, c).
Proof.
  intros (_ & _ & Ht & _) Hlook. destruct (Hlook _ _ _ Ht eq_refl) as (p & Hrun & Hp).
  erewrite inside_run; [|erewrite sbind_run by exact Hrun; by apply topic_at_run]. by destruct c.
Qed.

(** *** The queue of a sleeping client *)

Lemma getSleepPacket_run c v : client_holds c v ->
  Client_getClientSleepPacket c = Some (head (v_sleeping v), c).
Proof.
  intros (Hq & _). pose proof Hq as (l & _ & _ & Hc & _).
  assert (Hrun : PacketQue_getPacket (cl_sleepQue c) = Some (head (v_sleeping v), cl_sleepQue c)).
  { unfold PacketQue_getPacket, Que_size. sprim. rewrite Hc. destruct (v_sleeping v) as [|x xs] in Hq |- *; [done|].
    test_true (0 <? zlen (x :: xs)). apply (que_front_run _ _ _ Hq). }
  unfold Client_getClientSleepPacket. rewrite (inside_run f_sleepQue _ c _ _ Hrun). by destruct c.
Qed.

Lemma deleteSleepPacket_run c v : client_holds c v ->
  exists q, Client_deleteFirstClientSleepPacket c = Some (tt, fset f_sleepQue q c) /\
    client_holds (fset f_sleepQue q c) (v_set_sleeping (tail (v_sleeping v)) v).
Proof.
  intros (Hq & Hrest). destruct (que_pop_run _ _ _ Hq) as (q & Hpop & Hq').
  assert (PacketQue_pop (cl_sleepQue c) = Some (tt, if 0 <? zlen (v_sleeping v) then q else cl_sleepQue c)) as Hrun.
  { unfold PacketQue_pop, Que_size. sprim. destruct Hq as (l & _ & _ & -> & _). by destruct (0 <? _). }
  exists (if 0 <? zlen (v_sleeping v) then q else cl_sleepQue c). split; [by apply inside_run|]. split; [|exact Hrest].
  cbn [fget fset f_sleepQue cl_sleepQue v_sleeping v_set_sleeping].
  destruct (v_sleeping v) as [|x xs] in Hq, Hq' |- *; [exact Hq|]. test_true (0 <? zlen (x :: xs)). exact Hq'.
Qed.

Lemma setSleepPacket_run c v packet : client_holds c v ->
  exists r q, Client_setClientSleepPacket packet c = Some (r, fset f_sleepQue q c) /\
    client_holds (fset f_sleepQue q c)
      (v_set_sleeping (if zlen (v_sleeping v) <? MAX_SAVED_PUBLISH then v_sleeping v ++ [packet] else v_sleeping v) v) /\
    (negb (r =? 0) = (zlen (v_sleeping v) <? MAX_SAVED_PUBLISH)).
Proof.
  intros (Hq & Hrest). destruct (zlen (v_sleeping v) <? MAX_SAVED_PUBLISH) eqn:E.
  - apply Z.ltb_lt in E. unfold MAX_SAVED_PUBLISH in E.
    destruct (que_post_run _ _ _ packet Hq) as (r & q & Hrun & Hres); [unfold INT_MAX; lia|].
    unfold MAX_SAVED_PUBLISH in Hres. rewrite (proj2 (Z.ltb_lt _ _) E), orb_true_r in Hres. destruct Hres as [-> Hq'].
    exists (zlen (v_sleeping v) + 1), q. split; [by apply inside_run|]. split; [done|].
    by test_false (zlen (v_sleeping v) + 1 =? 0).
  - exists 0, (cl_sleepQue c). split; [|split; [by destruct v|done]].
    apply inside_run. apply Z.ltb_ge in E. by eapply que_post_full.
Qed.
End Runs.
