(* ===== verification/GWGateway.v ===== *)
(** * The state the handlers of the gateway share: MQTTSNGateway.cpp

    The clients, the predefined topics, the event queues between the tasks and
    the message identifiers of the aggregater; the operations of the packet
    handlers are steps on this state. *)

From S2P Require Import Prelude CMem MQTTPacket SNPacket SNPublish SNConnect SNSubscribe GWHeap GWTables GWTopic GWPacket GWSNPacket GWClient.

(** ** Events and their queues *)

(** A client is known by its address. *)
Inductive Event :=
  | EtStop | EtTimeout
  | EtBrokerRecv (client : loc) (packet : MQTTGWPacket)
  | EtBrokerSend (client : loc) (packet : MQTTGWPacket)
  | EtClientRecv (client : loc) (packet : MQTTSNPacket)
  | EtClientSend (client : loc) (packet : MQTTSNPacket)
  | EtBroadcast (packet : MQTTSNPacket).

(** The events of a queue, oldest first, and its maximum size: what
    [packet_que_spec] shows the class Que to keep. *)
Record EventQue := mkEventQue { eq_maxSize : Z; eq_events : list Event }.

Definition newEventQue : EventQue := mkEventQue 0 [].
Definition EventQue_setMaxSize (maxSize : Z) (q : EventQue) : EventQue := mkEventQue maxSize (eq_events q).
Definition EventQue_size (q : EventQue) : Z := zlen (eq_events q).

(** An event that finds no room is deleted. *)
Definition EventQue_post (ev : Event) (q : EventQue) : EventQue :=
  if (eq_maxSize q =? 0) || (zlen (eq_events q) <? eq_maxSize q)
  then mkEventQue (eq_maxSize q) (eq_events q ++ [ev]) else q.

(** [wait] returns an event once there is one, [timedwait] at the latest after
    the time given. *)
Definition EventQue_wait (q : EventQue) : option (Event * EventQue) :=
  match eq_events q with
  | [] => None
  | ev :: evs => Some (ev, mkEventQue (eq_maxSize q) evs)
  end.
Definition EventQue_timedwait (q : EventQue) : Event * EventQue :=
  match eq_events q with
  | [] => (EtTimeout, q)
  | ev :: evs => (ev, mkEventQue (eq_maxSize q) evs)
  end.

(** ** The gateway *)

(** The parameters the handlers read, and what the adapters were set up to. *)
Class GatewayParams := {
  par_gatewayId : Z;
  par_keepAlive : Z;
  par_mqttVersion : Z;
  par_loginId : option (list byte);
  par_password : option (list byte);
  qosm1Proxy_active : bool;
  aggregater_active : bool;
  qosm1Proxy_client : loc;
  aggregater_client : loc;
  aggregater_secureClient : loc;
}.

(** The value [data.id] has while the union holds the pointer [long_.name]. *)
Class PointerBytes := ptr_id : ptr -> Z.

Record Gateway := mkGateway {
  gw_clients : gmap loc Client;
  gw_topics : Topics;
  gw_packetEventQue : EventQue;
  gw_brokerSendQue : EventQue;
  gw_clientSendQue : EventQue;
  gw_suspended : EventQue;
  gw_suspendedSecure : EventQue;
  gw_msgIdTable : MessageIdTable;
}.

Definition f_gwTopics : field Gateway Topics := Field gw_topics (fun v g =>
    mkGateway (gw_clients g) v (gw_packetEventQue g) (gw_brokerSendQue g) (gw_clientSendQue g) (gw_suspended g)
    (gw_suspendedSecure g) (gw_msgIdTable g)).
Definition f_packetEventQue : field Gateway EventQue := Field gw_packetEventQue (fun v g =>
    mkGateway (gw_clients g) (gw_topics g) v (gw_brokerSendQue g) (gw_clientSendQue g) (gw_suspended g)
    (gw_suspendedSecure g) (gw_msgIdTable g)).
Definition f_brokerSendQue : field Gateway EventQue := Field gw_brokerSendQue (fun v g =>
    mkGateway (gw_clients g) (gw_topics g) (gw_packetEventQue g) v (gw_clientSendQue g) (gw_suspended g)
    (gw_suspendedSecure g) (gw_msgIdTable g)).
Definition f_clientSendQue : field Gateway EventQue := Field gw_clientSendQue (fun v g =>
    mkGateway (gw_clients g) (gw_topics g) (gw_packetEventQue g) (gw_brokerSendQue g) v (gw_suspended g)
    (gw_suspendedSecure g) (gw_msgIdTable g)).
Definition f_suspended : field Gateway EventQue := Field gw_suspended (fun v g =>
    mkGateway (gw_clients g) (gw_topics g) (gw_packetEventQue g) (gw_brokerSendQue g) (gw_clientSendQue g) v
    (gw_suspendedSecure g) (gw_msgIdTable g)).
Definition f_suspendedSecure : field Gateway EventQue := Field gw_suspendedSecure (fun v g =>
    mkGateway (gw_clients g) (gw_topics g) (gw_packetEventQue g) (gw_brokerSendQue g) (gw_clientSendQue g)
    (gw_suspended g) v (gw_msgIdTable g)).
Definition f_msgIdTable : field Gateway MessageIdTable := Field gw_msgIdTable (fun v g =>
    mkGateway (gw_clients g) (gw_topics g) (gw_packetEventQue g) (gw_brokerSendQue g) (gw_clientSendQue g)
    (gw_suspended g) (gw_suspendedSecure g) v).

Definition set_client (c : loc) (cl : Client) (g : Gateway) : Gateway :=
  mkGateway (<[c := cl]> (gw_clients g)) (gw_topics g) (gw_packetEventQue g) (gw_brokerSendQue g) (gw_clientSendQue g)
    (gw_suspended g) (gw_suspendedSecure g) (gw_msgIdTable g).

(** A member function of the client at [c]. *)
Definition client {R} (c : loc) (m : st Client R) : st Gateway R := fun g =>
  match gw_clients g !! c with
  | Some cl => match m cl with Some (r, cl') => Some (r, set_client c cl' g) | None => None end
  | None => None
  end.

Definition MAX_CLIENTS : Z := 100.

(** The constructor of Gateway limits one queue only; the table belongs to the
    aggregater and draws from its client. *)
Definition newGateway (topics : Topics) : Gateway :=
  mkGateway ∅ topics (EventQue_setMaxSize (MAX_INFLIGHTMESSAGES * MAX_CLIENTS) newEventQue) newEventQue newEventQue
    newEventQue newEventQue (newMessageIdTable 0).

(** [_gateway->get...Que()->post(ev)] *)
Definition post (q : field Gateway EventQue) (ev : Event) : st Gateway unit := fun g =>
  Some (tt, fset q (EventQue_post ev (fget q g)) g).

(** ** Packets made and read by the handlers *)

(** [new MQTTSNPacket()] and a setter. *)
Definition new_sn (set : option (Z * MQTTSNPacket)) : st Gateway MQTTSNPacket :=
  let! (_, packet) := demand set in sret packet.

(** [new MQTTGWPacket()] and a setter. *)
Definition new_gw (set : st MQTTGWPacket Z) : st Gateway MQTTGWPacket :=
  let! (_, packet) := demand (set newMQTTGWPacket) in sret packet.

(** A getter of a packet. *)
Definition read_gw {R} (packet : MQTTGWPacket) (get : st MQTTGWPacket R) : st Gateway R :=
  let! (r, _) := demand (get packet) in sret r.

Definition send_client (c : loc) (set : option (Z * MQTTSNPacket)) : st Gateway unit :=
  let! packet := new_sn set in post f_clientSendQue (EtClientSend c packet).

Definition send_broker (c : loc) (set : st MQTTGWPacket Z) : st Gateway unit :=
  let! packet := new_gw set in post f_brokerSendQue (EtBrokerSend c packet).

(** ** Topics of a packet *)

Section Topicid.
Context `{CharSign} `{ByteOrder} `{PointerBytes}.

(** [topicid.data.id]: the identifier, the bytes of a short name, or those of a
    pointer. *)
Definition topicid_id (t : MQTTSN_topicid) : option Z :=
  match tid_byte0 t, tid_byte1 t with
  | Some b0, Some b1 => Some (short_of_bytes b0 b1)
  | _, _ => ptr_id <$> tid_long_name t
  end.

(** [topicid.data.short_name], as characters. *)
Definition topicid_short (t : MQTTSN_topicid) : option (list byte) :=
  b0 ← tid_byte0 t; b1 ← tid_byte1 t; Some [byte_of_Z b0; byte_of_Z b1].

(** [data.long_], the name in the packet. *)
Definition topicid_name (packet : MQTTSNPacket) (t : MQTTSN_topicid) : option (list byte) :=
  name ← tid_long_name t; len ← tid_long_len t; sn_bytes packet name len.

(** The operations on topics the handlers use, with the topic found. *)
Definition Topics_byId (t : MQTTSN_topicid) : step Topic Z (option Topic) :=
  let! id := demand (topicid_id t) in
  let! p := getTopicById (tid_type t) id in topic_at p.
Definition Topics_byName (name : list byte) : step Topic Z (option Topic) :=
  let! p := getTopicByName name in topic_at p.
Definition Topics_insert (name : list byte) (id : Z) : step Topic Z (option Topic) :=
  let! p := Topics_add_name name id in topic_at p.
Definition Topics_register (type : Z) (name : list byte) : step Topic Z (option Topic) :=
  let! p := Topics_add type name in topic_at p.
Definition Topics_matching (type : Z) (name : list byte) : step Topic Z (option Topic) :=
  let! p := Topics_match type name in topic_at p.
End Topicid.

(** ** Running steps

    A state is written with the client of interest in front, so that the member
    functions and the posts of a handler run one after the other. *)

Definition posted (q : field Gateway EventQue) (ev : Event) (g : Gateway) : Gateway :=
  fset q (EventQue_post ev (fget q g)) g.

Lemma set_client_id c cl g : gw_clients g !! c = Some cl -> set_client c cl g = g.
Proof. intros Hc. unfold set_client. rewrite insert_id by done. by destruct g. Qed.

Lemma client_run {R} c cl cl' (m : st Client R) r g : m cl = Some (r, cl') ->
  client c m (set_client c cl g) = Some (r, set_client c cl' g).
Proof.
  intros Hm. unfold client, set_client. cbn [gw_clients]. rewrite lookup_insert_eq, Hm.
  cbn [gw_clients gw_topics gw_packetEventQue gw_brokerSendQue gw_clientSendQue gw_suspended gw_suspendedSecure gw_msgIdTable].
  by rewrite insert_insert_eq.
Qed.

Lemma demand_run {S R} (o : option R) (r : R) (s : S) : o = Some r -> demand o s = Some (r, s).
Proof. by intros ->. Qed.

Lemma send_client_run c set wire g : sets set wire ->
  send_client c set g = Some (tt, posted f_clientSendQue (EtClientSend c (sn_object wire)) g).
Proof. unfold sets. intros ->. done. Qed.

Lemma send_broker_run c set rc p g : set newMQTTGWPacket = Some (rc, p) ->
  send_broker c set g = Some (tt, posted f_brokerSendQue (EtBrokerSend c p) g).
Proof. intros Hset. unfold send_broker, new_gw, sbind, demand. by rewrite Hset. Qed.

Lemma read_gw_run {R} p (get : st MQTTGWPacket R) r p' g : get p = Some (r, p') -> read_gw p get g = Some (r, g).
Proof. intros Hget. unfold read_gw, sbind, demand. by rewrite Hget. Qed.

(** The bytes a packet goes out as. *)
Definition gw_wire (p : MQTTGWPacket) : option (list byte) := fst <$> MQTTGWPacket_getPacketData p.

Lemma gw_wire_run h body rest : gw_wire (mkMQTTGWPacket h (zlen body) (Owned (body ++ rest))) = Some (mqtt_packet h body).
Proof. unfold gw_wire. by rewrite getPacketData_run. Qed.

Lemma gw_wire_owned h body : gw_wire (mkMQTTGWPacket h (zlen body) (Owned body)) = Some (mqtt_packet h body).
Proof. rewrite <- (gw_wire_run h body []). by rewrite app_nil_r. Qed.

Lemma gw_wire_empty h : gw_wire (mkMQTTGWPacket h 0 Null) = Some (mqtt_packet h []).
Proof. reflexivity. Qed.

(** A packet without a body. *)
Lemma setHeader_run t : 1 <= t <= 14 ->
  MQTTGWPacket_setHeader t newMQTTGWPacket = Some (0, mkMQTTGWPacket (mqtt_header t 0 0 0) 0 Null).
Proof.
  intros Ht. unfold MQTTGWPacket_setHeader, newMQTTGWPacket. destruct (clearData_run (mkMQTTGWPacket 0 0 Null)) as [d Hd]; [done|].
  unfold MQTTGWPacket_clearData, gp_free in *. cbn in Hd. injection Hd as <-. unfold sbind at 1. cbn.
  change CONNECT with 1. change DISCONNECT with 14. test_false (t <? 1). test_false (14 <? t). cbn.
  unfold sbind, gp_set_header, gp_get, sret. cbn. by rewrite header_assign_type.
Qed.

(** What the handlers of one client never touch. *)
Lemma posted_clients q ev g : (forall v, gw_clients (fset q v g) = gw_clients g) -> gw_clients (posted q ev g) = gw_clients g.
Proof. intros Hq. apply Hq. Qed.

(** A queue apart from the clients. *)
Class Apart {T} (q : field Gateway T) := {
  apart_set v c cl g : fset q v (set_client c cl g) = set_client c cl (fset q v g);
  apart_get c cl g : fget q (set_client c cl g) = fget q g;
}.
#[export] Instance apart_packetEventQue : Apart f_packetEventQue.
Proof. by split. Qed.
#[export] Instance apart_brokerSendQue : Apart f_brokerSendQue.
Proof. by split. Qed.
#[export] Instance apart_clientSendQue : Apart f_clientSendQue.
Proof. by split. Qed.
#[export] Instance apart_suspended : Apart f_suspended.
Proof. by split. Qed.
#[export] Instance apart_suspendedSecure : Apart f_suspendedSecure.
Proof. by split. Qed.

Lemma posted_at q `{!Apart q} ev c cl g : posted q ev (set_client c cl g) = set_client c cl (posted q ev g).
Proof. unfold posted. by rewrite (apart_get (q := q)), (apart_set (q := q)). Qed.

Lemma post_at q `{!Apart q} ev c cl g : post q ev (set_client c cl g) = Some (tt, set_client c cl (posted q ev g)).
Proof. by rewrite <- (posted_at q). Qed.

Lemma send_client_at c set wire k cl g : sets set wire ->
  send_client c set (set_client k cl g) =
    Some (tt, set_client k cl (posted f_clientSendQue (EtClientSend c (sn_object wire)) g)).
Proof. intros Hset. rewrite <- (posted_at f_clientSendQue). by apply send_client_run. Qed.

Lemma send_broker_at c set rc p k cl g : set newMQTTGWPacket = Some (rc, p) ->
  send_broker c set (set_client k cl g) = Some (tt, set_client k cl (posted f_brokerSendQue (EtBrokerSend c p) g)).
Proof. intros Hset. rewrite <- (posted_at f_brokerSendQue). by eapply send_broker_run. Qed.

Lemma new_sn_run set wire g : sets set wire -> new_sn set g = Some (sn_object wire, g).
Proof. unfold sets. by intros ->. Qed.

Lemma new_gw_run set rc p g : set newMQTTGWPacket = Some (rc, p) -> new_gw set g = Some (p, g).
Proof. intros Hset. unfold new_gw, sbind, demand. by rewrite Hset. Qed.

(** Several events, in order. *)
Definition posted_all (q : field Gateway EventQue) (evs : list Event) (g : Gateway) : Gateway :=
  foldl (fun g ev => posted q ev g) g evs.

Lemma posted_all_at q `{!Apart q} evs c cl g :
  posted_all q evs (set_client c cl g) = set_client c cl (posted_all q evs g).
Proof.
  revert g. induction evs as [|ev evs IH]; intros g; [done|]. cbn [posted_all foldl]. rewrite (posted_at q).
  apply IH.
Qed.

(** ** Finding topics *)

Section Lookup.
Context `{CharSign} `{ByteOrder} `{PointerBytes}.
Implicit Types (v : client_view).

Lemma topicid_id_of P qos t ty id : topic_denotes P qos t (TopicId ty id) -> topicid_id t = Some id /\ tid_type t = ty.
Proof.
  intros (Hty & _ & Hid & Hb0 & Hb1). unfold topicid_id. rewrite Hb0, Hb1.
  destruct (short_bytes_spec id Hid) as [-> _]. done.
Qed.

Lemma topicid_short_of P qos t c0 c1 : topic_denotes P qos t (TopicShort c0 c1) ->
  topicid_short t = Some [byte_of_Z c0; byte_of_Z c1] /\ topicid_id t = Some (short_of_bytes c0 c1) /\
  tid_type t = MQTTSN_TOPIC_TYPE_SHORT.
Proof. intros (Hty & _ & _ & Hb0 & Hb1). unfold topicid_short, topicid_id. by rewrite Hb0, Hb1. Qed.

(** The topic of this type and identifier, in order of arrival. *)
Definition by_id (ty id : Z) (ts : list Topic) : option Topic :=
  find (fun t => (GWTopic.topic_type t =? ty) && (topic_id t =? id)) ts.

Lemma Topics_byId_run s n ts t id : topics_hold s n ts -> topicid_id t = Some id ->
  Topics_byId t s = Some (by_id (tid_type t) id ts, s).
Proof.
  intros Hs Hid. unfold Topics_byId. erewrite sbind_run by by apply demand_run.
  destruct (search_points s n ts (fun u => (GWTopic.topic_type u =? tid_type t) && (topic_id u =? id)) Hs) as (p & Hrun & Hp).
  unfold getTopicById. rewrite (sbind_run _ _ _ _ _ Hrun). by apply topic_at_run.
Qed.

Lemma inside_id {S T R} (f : field S T) (m : st T R) s r : m (fget f s) = Some (r, fget f s) -> fset f (fget f s) s = s ->
  inside f m s = Some (r, s).
Proof. intros Hm Hs. rewrite (inside_run f m s r (fget f s) Hm). by rewrite Hs. Qed.

Lemma client_byId_run cl v t id : client_holds cl v -> topicid_id t = Some id ->
  inside f_topics (Topics_byId t) cl = Some (by_id (tid_type t) id (v_topics v), cl).
Proof.
  intros (_ & _ & Ht & _) Hid. apply inside_id; [by eapply Topics_byId_run|by destruct cl].
Qed.

Lemma client_byName_run cl v name : client_holds cl v ->
  inside f_topics (Topics_byName name) cl = Some (find (has_name name) (v_topics v), cl).
Proof.
  intros (_ & _ & Ht & _). apply inside_id; [|by destruct cl].
  destruct (topics_byname_run _ _ _ name Ht) as (p & Hrun & Hp). unfold Topics_byName.
  rewrite (sbind_run _ _ _ _ _ Hrun). by apply topic_at_run.
Qed.

Lemma client_matching_run cl v name : client_holds cl v ->
  inside f_topics (Topics_matching MQTTSN_TOPIC_TYPE_NORMAL name) cl = Some (find (matches name) (v_topics v), cl).
Proof.
  intros (_ & _ & Ht & _). apply inside_id; [|by destruct cl].
  destruct (topics_match_run _ _ _ name Ht) as (p & Hrun & Hp). unfold Topics_matching.
  rewrite (sbind_run _ _ _ _ _ Hrun). by apply topic_at_run.
Qed.

Lemma client_insert_run cl v name id : client_holds cl v ->
  let '(t, (n, ts)) := added (v_lastId v) id name (v_topics v) in
  exists s, inside f_topics (Topics_insert name id) cl = Some (t, fset f_topics s cl) /\
    client_holds (fset f_topics s cl) (v_set_topics n ts v).
Proof. apply add_topic_run. Qed.

(** [add] of a registration: the name up to its first 0. *)
Definition registered (n : Z) (name : list byte) (ts : list Topic) : option Topic * (Z * list Topic) :=
  match find (has_name name) ts with
  | Some t => (Some t, (n, ts))
  | None => added n 0 (c_str name) ts
  end.

Lemma client_register_run cl v name : client_holds cl v ->
  let '(t, (n, ts)) := registered (v_lastId v) name (v_topics v) in
  exists s, inside f_topics (Topics_register MQTTSN_TOPIC_TYPE_NORMAL name) cl = Some (t, fset f_topics s cl) /\
    client_holds (fset f_topics s cl) (v_set_topics n ts v).
Proof.
  intros Hv. pose proof Hv as (Hq & Hr & Ht & Hp & Hs).
  destruct (topics_byname_run _ _ _ name Ht) as (p & Hrun & Hpt). unfold registered.
  destruct (find (has_name name) (v_topics v)) as [t|] eqn:E.
  - destruct p as [q|]; [|done]. exists (cl_topics cl). split; [|by destruct cl].
    apply inside_run. unfold Topics_register, Topics_add. cbn [negb Z.eqb MQTTSN_TOPIC_TYPE_NORMAL]. rewrite sbind_assoc.
    erewrite sbind_run by exact Hrun. cbn [null negb]. erewrite sbind_run by reflexivity. by apply topic_at_run.
  - destruct p as [q|]; [by destruct Hpt as (? & _ & ?)|].
    pose proof (add_topic_run cl v (c_str name) 0 Hv) as Hadd.
    destruct (added (v_lastId v) 0 (c_str name) (v_topics v)) as [t [n ts]].
    destruct Hadd as (s & Hadd & Hv'). exists s. split; [|done]. rewrite <- Hadd. unfold inside.
    assert (Heq : Topics_register MQTTSN_TOPIC_TYPE_NORMAL name (cl_topics cl) =
      (let! p := Topics_add_name (c_str name) 0 in topic_at p) (cl_topics cl)).
    { unfold Topics_register, Topics_add. cbn [negb Z.eqb MQTTSN_TOPIC_TYPE_NORMAL]. rewrite sbind_assoc.
      erewrite sbind_run by exact Hrun. done. }
    cbn [fget f_topics]. by rewrite Heq.
Qed.
End Lookup.
