(* ===== verification/GWConnect.v ===== *)
(** * Connections: MQTTSNGWConnectionHandler.cpp, MQTTSNAggregateConnectionHandler.cpp and MQTTGWConnectionHandler.cpp

    The handlers of the packets that open, check and close the connection of a
    client, towards the client and towards the broker. *)

From S2P Require Import Prelude CMem MQTTPacket MQTTConnect SNPacket SNPublish SNConnect SNSubscribe GWHeap GWTables GWTopic GWPacket GWSNPacket GWClient GWGateway.

Section Handlers.
Context `{CharSign} `{ByteOrder} `{HeapSpace} `{PointerBytes} `{GatewayParams}.

(** ** MQTTSNConnectionHandler *)

Definition sendADVERTISE : st Gateway unit :=
  let! adv := new_sn (MQTTSNPacket_setADVERTISE par_gatewayId par_keepAlive) in
  post f_clientSendQue (EtBroadcast adv).

Definition handleSearchgw (packet : MQTTSNPacket) : st Gateway unit :=
  let! type := demand (MQTTSNPacket_getType packet) in
  if type =? MQTTSN_SEARCHGW then
    let! gwinfo := new_sn (MQTTSNPacket_setGWINFO par_gatewayId) in
    post f_clientSendQue (EtBroadcast gwinfo)
  else sret tt.

(** [while ((msg = client->getClientSleepPacket()) != nullptr)] *)
Fixpoint sendStoredPublish_loop (n : nat) (c : loc) : st Gateway unit :=
  match n with
  | O => undefined
  | S n =>
      let! msg := client c Client_getClientSleepPacket in
      match msg with
      | None => sret tt
      | Some msg =>
          client c Client_deleteFirstClientSleepPacket ;!
          post f_packetEventQue (EtBrokerRecv c msg) ;!
          sendStoredPublish_loop n c
      end
  end.

Definition sendStoredPublish (c : loc) : st Gateway unit := fun g =>
  match gw_clients g !! c with
  | Some cl => sendStoredPublish_loop (fuel_of (cl_sleepQue cl)) c g
  | None => None
  end.

(** The Connect structure that is prepared for a client. *)
Definition connectData_of (id : option (list byte)) (data : MQTTSNPacket_connectData) : Connect :=
  let flags := set_flag_will 0 (sc_willFlag data) in
  let flags :=
    match par_loginId, par_password with
    | Some _, Some _ => set_flag_username (set_flag_password flags 1) 1
    | _, _ => flags
    end in
  let flags := if negb (sc_cleansession data =? 0) then set_flag_cleansession flags 1 else flags in
  mkConnect (set_header_type 0 CONNECT) flags id None None (sc_duration data) par_mqttVersion.

(** What both connection handlers do when the session is to be clean. *)
Definition clean_tables (c : loc) : st Gateway unit :=
  client c Client_clearWaitedPubTopicId ;!
  client c Client_clearWaitedSubTopicId ;!
  client c (inside f_topics eraseNormal) ;!
  client c (Client_setSessionStatus true).

(** CONNACK for a client that sleeps. *)
Definition wake_up (c : loc) : st Gateway unit :=
  send_client c (MQTTSNPacket_setCONNACK MQTTSN_RC_ACCEPTED) ;!
  sendStoredPublish c.

Definition MQTTSN_handleConnect (c : loc) (packet : MQTTSNPacket) : st Gateway unit :=
  let! (rc, data) := demand (MQTTSNPacket_getCONNECT packet) in
  if rc =? 0 then sret tt
  else
    let! sleep := client c Client_isSleep in
    let! awake := client c Client_isAwake in
    if sleep || awake then wake_up c
    else
      client c (put f_connectData no_Connect) ;!
      let! adapter := client c Client_isAdapter in
      (if adapter then sret tt else client c Client_disconnected) ;!
      let! id := client c (the f_clientId) in
      client c (put f_connectData (connectData_of id data)) ;!
      client c (Client_setSessionStatus false) ;!
      (if negb (sc_cleansession data =? 0) then clean_tables c else sret tt) ;!
      if negb (sc_willFlag data =? 0) then send_client c MQTTSNPacket_setWILLTOPICREQ
      else send_broker c (MQTTGWPacket_setCONNECT heap_has (connectData_of id data) par_loginId par_password).

(** The will is added to the prepared structure. *)
Definition co_set_will (co : Connect) (topic : option (list byte)) (qos retain : Z) : Connect :=
  mkConnect (co_header co) (set_flag_willRetain (set_flag_willQoS (co_flags co) qos) retain) (co_clientID co) topic
    (co_willMsg co) (co_keepAliveTimer co) (co_version co).
Definition co_set_willMsg (co : Connect) (msg : option (list byte)) : Connect :=
  mkConnect (co_header co) (co_flags co) (co_clientID co) (co_willTopic co) msg (co_keepAliveTimer co) (co_version co).

(** The string a MQTTSNString of a packet denotes. *)
Definition string_of (packet : MQTTSNPacket) (str : MQTTSNString) : st Gateway (list byte) :=
  demand (sn_bytes packet (data (lenstring str)) (len (lenstring str))).

Definition MQTTSN_handleWilltopic (c : loc) (packet : MQTTSNPacket) : st Gateway unit :=
  let! (rc, will) := demand (MQTTSNPacket_getWILLTOPIC packet) in
  if rc =? 0 then sret tt
  else
    let! topic := string_of packet (sw_topic will) in
    client c (Client_setWillTopic topic) ;!
    let! co := client c (the f_connectData) in
    let! willTopic := client c (the f_willTopic) in
    client c (put f_connectData (co_set_will co willTopic (sw_QoS will) (sw_retain will))) ;!
    client c (Client_setWaitWillMsgFlg true) ;!
    send_client c MQTTSNPacket_setWILLMSGREQ.

Definition MQTTSN_handleWillmsg (c : loc) (packet : MQTTSNPacket) : st Gateway unit :=
  let! wait := client c Client_isWaitWillMsg in
  if negb wait then sret tt
  else
    let! sendable := client c Client_isConnectSendable in
    if sendable then
      let! (rc, str) := demand (MQTTSNPacket_getWILLMSG packet) in
      if rc =? 0 then sret tt
      else
        let! msg := string_of packet str in
        client c (Client_setWillMsg msg) ;!
        let! co := client c (the f_connectData) in
        let! willMsg := client c (the f_willMsg) in
        client c (put f_connectData (co_set_willMsg co willMsg)) ;!
        let! mqttPacket := new_gw (MQTTGWPacket_setCONNECT heap_has (co_set_willMsg co willMsg) par_loginId par_password) in
        client c (Client_setWaitWillMsgFlg false) ;!
        post f_brokerSendQue (EtBrokerSend c mqttPacket)
    else sret tt.

Definition MQTTSN_handleDisconnect (c : loc) (packet : MQTTSNPacket) : st Gateway unit :=
  let! (rc, duration) := demand (MQTTSNPacket_getDISCONNECT packet) in
  (if negb (rc =? 0) && (duration =? 0) then send_broker c (MQTTGWPacket_setHeader DISCONNECT) else sret tt) ;!
  send_client c (MQTTSNPacket_setDISCONNECT 0).

Definition MQTTSN_handleWilltopicupd (c : loc) : st Gateway unit :=
  send_client c (MQTTSNPacket_setWILLTOPICRESP MQTTSN_RC_NOT_SUPPORTED).
Definition MQTTSN_handleWillmsgupd (c : loc) : st Gateway unit :=
  send_client c (MQTTSNPacket_setWILLMSGRESP MQTTSN_RC_NOT_SUPPORTED).

(** Is there a packet that waits for the sleeping client? *)
Definition has_stored (c : loc) : st Gateway bool :=
  let! sleep := client c Client_isSleep in
  let! awake := client c Client_isAwake in
  if sleep || awake then
    let! msg := client c Client_getClientSleepPacket in sret (bool_decide (msg <> None))
  else sret false.

Definition MQTTSN_handlePingreq (c : loc) : st Gateway unit :=
  let! stored := has_stored c in
  if stored then sendStoredPublish c ;! client c Client_holdPingRequest
  else client c Client_resetPingRequest ;! send_broker c (MQTTGWPacket_setHeader PINGREQ).

(** ** MQTTSNAggregateConnectionHandler *)

(** removeAggregateTopicList does nothing yet. *)
Definition Aggregate_handleConnect (c : loc) (packet : MQTTSNPacket) : st Gateway unit :=
  let! (rc, data) := demand (MQTTSNPacket_getCONNECT packet) in
  if rc =? 0 then sret tt
  else
    let! sleep := client c Client_isSleep in
    let! awake := client c Client_isAwake in
    if sleep || awake then wake_up c
    else
      client c (put f_connectData no_Connect) ;!
      client c Client_disconnected ;!
      client c (Client_setSessionStatus false) ;!
      (if negb (sc_cleansession data =? 0) then clean_tables c else sret tt) ;!
      if negb (sc_willFlag data =? 0) then send_client c MQTTSNPacket_setWILLTOPICREQ
      else
        send_client c (MQTTSNPacket_setCONNACK MQTTSN_RC_ACCEPTED) ;!
        client c (Client_connackSended MQTTSN_RC_ACCEPTED) ;!
        sendStoredPublish c.

Definition Aggregate_handleWillmsg (c : loc) (packet : MQTTSNPacket) : st Gateway unit :=
  let! wait := client c Client_isWaitWillMsg in
  if negb wait then sret tt
  else
    let! sendable := client c Client_isConnectSendable in
    if sendable then
      let! (rc, str) := demand (MQTTSNPacket_getWILLMSG packet) in
      if rc =? 0 then sret tt
      else
        let! msg := string_of packet str in
        client c (Client_setWillMsg msg) ;!
        wake_up c
    else sret tt.

Definition Aggregate_handleDisconnect (c : loc) : st Gateway unit :=
  send_client c (MQTTSNPacket_setDISCONNECT 0).

Definition Aggregate_handlePingreq (c : loc) : st Gateway unit :=
  let! stored := has_stored c in
  if stored then sendStoredPublish c ;! client c Client_holdPingRequest
  else
    client c Client_resetPingRequest ;!
    let! pingresp := new_gw (MQTTGWPacket_setHeader PINGRESP) in
    post f_packetEventQue (EtBrokerRecv c pingresp).

(** ** MQTTGWConnectionHandler *)

(** MQTT_connackCodes, and the code the client gets. *)
Definition MQTT_CONNECTION_ACCEPTED : Z := 0.
Definition MQTT_UNACCEPTABLE_PROTOCOL_VERSION : Z := 1.
Definition MQTT_IDENTIFIER_REJECTED : Z := 2.
Definition MQTT_SERVER_UNAVAILABLE : Z := 3.
Definition MQTT_BAD_USERNAME_OR_PASSWORD : Z := 4.
Definition MQTT_NOT_AUTHORIZED : Z := 5.

Definition sn_returnCode (rc : Z) : Z :=
  if rc =? MQTT_CONNECTION_ACCEPTED then MQTTSN_RC_ACCEPTED
  else if rc =? MQTT_UNACCEPTABLE_PROTOCOL_VERSION then MQTTSN_RC_NOT_SUPPORTED
  else if rc =? MQTT_IDENTIFIER_REJECTED then MQTTSN_RC_NOT_SUPPORTED
  else if rc =? MQTT_SERVER_UNAVAILABLE then MQTTSN_RC_REJECTED_CONGESTED
  else if rc =? MQTT_BAD_USERNAME_OR_PASSWORD then MQTTSN_RC_NOT_SUPPORTED
  else if rc =? MQTT_NOT_AUTHORIZED then MQTTSN_RC_NOT_SUPPORTED
  else MQTT_SERVER_UNAVAILABLE.

(** The structure [resp] is uninitialised when the packet is no CONNACK. *)
Definition MQTTGW_handleConnack (c : loc) (packet : MQTTGWPacket) : st Gateway unit :=
  let! resp := read_gw packet MQTTGWPacket_getCONNACK in
  let! (_, mqtt_rc) := demand resp in
  let rc := sn_returnCode mqtt_rc in
  let! snPacket := new_sn (MQTTSNPacket_setCONNACK rc) in
  client c (Client_connackSended rc) ;!
  post f_clientSendQue (EtClientSend c snPacket).

Definition MQTTGW_handlePingresp (c : loc) : st Gateway unit :=
  let! snPacket := new_sn MQTTSNPacket_setPINGRESP in
  client c (Client_updateStatus snPacket) ;!
  post f_clientSendQue (EtClientSend c snPacket).

(** The event it makes is posted to no queue. *)
Definition MQTTGW_handleDisconnect (c : loc) : st Gateway unit :=
  let! _ := new_sn (MQTTSNPacket_setDISCONNECT 0) in
  client c Client_disconnected ;!
  client c (put f_networkValid false).
End Handlers.

(** ** What the handlers do *)

Section Runs.
Context `{CharSign} `{ByteOrder} `{HeapSpace} `{PointerBytes} `{GatewayParams}.
Hypothesis Hheap : forall n, heap_has n = true.
Implicit Types (g : Gateway) (cl : Client) (v : client_view).

(** *** The stored messages *)

Lemma sendStored_loop_run n c cl v g : client_holds cl v -> (length (v_sleeping v) < n)%nat ->
  exists q, sendStoredPublish_loop n c (set_client c cl g) =
    Some (tt, set_client c (fset f_sleepQue q cl) (posted_all f_packetEventQue (EtBrokerRecv c <$> v_sleeping v) g)) /\
    client_holds (fset f_sleepQue q cl) (v_set_sleeping [] v).
Proof.
  revert cl v g. induction n as [|n IH]; intros cl v g Hv Hn; [lia|]. cbn [sendStoredPublish_loop].
  erewrite sbind_run by (apply client_run, (getSleepPacket_run _ _ Hv)).
  destruct (deleteSleepPacket_run cl v Hv) as (q & Hdel & Hq).
  destruct (v_sleeping v) as [|msg msgs] eqn:E; cbn [head].
  { exists (cl_sleepQue cl). replace (fset f_sleepQue (cl_sleepQue cl) cl) with cl by by destruct cl. split; [done|].
    rewrite <- E. by destruct v. }
  erewrite sbind_run by (apply client_run, Hdel). erewrite sbind_run by (by apply post_at).
  destruct (IH (fset f_sleepQue q cl) (v_set_sleeping msgs v) (posted f_packetEventQue (EtBrokerRecv c msg) g) Hq)
    as (q' & Hrun & Hq'); [simpl in *; lia|].
  exists q'. split; [exact Hrun|exact Hq'].
Qed.

Lemma sendStoredPublish_run c cl v g : client_holds cl v ->
  exists q, sendStoredPublish c (set_client c cl g) =
    Some (tt, set_client c (fset f_sleepQue q cl) (posted_all f_packetEventQue (EtBrokerRecv c <$> v_sleeping v) g)) /\
    client_holds (fset f_sleepQue q cl) (v_set_sleeping [] v).
Proof.
  intros Hv. unfold sendStoredPublish, set_client at 1. cbn [gw_clients]. rewrite lookup_insert_eq.
  apply sendStored_loop_run; [done|]. destruct Hv as ((l & [(Hn & Hs & _) _] & Hl & _) & _).
  pose proof (seg_length _ _ _ _ _ Hn Hs). rewrite <- Hl, length_fmap. unfold fuel_of. lia.
Qed.

(** *** The Connect structure *)

(** The credentials of the gateway: both or none. *)
Definition par_user : option (list byte) :=
  match par_loginId, par_password with Some u, Some _ => Some u | _, _ => None end.
Definition par_pass : option (list byte) :=
  match par_loginId, par_password with Some _, Some p => Some p | _, _ => None end.

Definition connect_options (id : list byte) (clean duration : Z) (will : option will_info) : connect_info :=
  {| ci_version := par_mqttVersion; ci_clean := clean; ci_keepalive := duration; ci_client := id; ci_will := will;
     ci_user := par_user; ci_password := par_pass |}.

Lemma credentials_flags f clean : 0 <= f < 8 -> f / 2 mod 2 = 0 ->
  let flags := match par_loginId, par_password with
    | Some _, Some _ => set_flag_username (set_flag_password f 1) 1 | _, _ => f end in
  (if negb (clean mod 2 =? 0) then set_flag_cleansession flags 1 else flags) =
    f + clean mod 2 * 2 + (if given par_user then 128 else 0) + (if given par_pass then 64 else 0).
Proof.
  intros Hf Hbit. unfold par_user, par_pass, set_flag_cleansession, set_flag_username, set_flag_password. cbv zeta.
  destruct par_loginId, par_password; cbn [given];
    rewrite ?(bf_set_clear _ 6 1), ?(bf_set_clear _ 7 1) by (simpl; divmod_lia);
    (destruct (Z.eqb_spec (clean mod 2) 0); cbn [negb]; [|rewrite (bf_set_clear _ 1 1) by (simpl; divmod_lia)]); simpl; divmod_lia.
Qed.

Lemma connectData_denotes id data clean will duration : par_mqttVersion = 3 \/ par_mqttVersion = 4 -> 0 <= duration ->
  sc_cleansession data = clean mod 2 -> sc_willFlag data = will mod 2 -> sc_duration data = duration ->
  let co := connectData_of (Some id) data in
  (will mod 2 = 0 -> connect_denotes co par_loginId par_password (connect_options id clean duration None)) /\
  (will mod 2 = 1 -> forall topic msg qos retain,
     connect_denotes (co_set_willMsg (co_set_will co (Some topic) qos retain) (Some msg)) par_loginId par_password
       (connect_options id clean duration
          (Some {| wi_topic := topic; wi_message := msg; wi_qos := qos; wi_retained := retain |}))).
Proof.
  intros Hver Hd Hc Hw Hdu co. unfold co, connectData_of. rewrite Hc, Hw, Hdu.
  assert (Hf : set_flag_will 0 (will mod 2) = will mod 2 * 4).
  { unfold set_flag_will. rewrite bf_set_clear by (simpl; divmod_lia). simpl. divmod_lia. }
  rewrite Hf, credentials_flags by divmod_lia.
  assert (Hcred : (given par_user = true -> par_loginId = par_user) /\ (given par_pass = true -> par_password = par_pass)).
  { unfold par_user, par_pass. by destruct par_loginId, par_password. }
  split.
  - intros H0'. unfold connect_denotes. cbn. split_and!; try done; try apply Hcred.
    unfold connect_flags_byte. cbn. rewrite H0'. simpl. lia.
  - intros H1' topic msg qos retain. unfold connect_denotes, co_set_willMsg, co_set_will. cbn. split_and!; try done; try apply Hcred.
    unfold connect_flags_byte, set_flag_willRetain, set_flag_willQoS. cbn. rewrite H1'.
    rewrite (bf_set_clear _ 3 2) by (simpl; repeat case_match; divmod_lia).
    rewrite (bf_set_clear _ 5 1) by (simpl; repeat case_match; divmod_lia). simpl. divmod_lia.
Qed.

(** *** CONNECT *)

(** What a clean session leaves: the predefined topics. *)
Definition v_clean v : client_view :=
  View (v_sleeping v) (v_regack v) (v_lastId v) (List.filter (fun t => negb (is_normal t)) (v_topics v)) ∅ ∅.

Lemma clean_tables_run c cl v g : client_holds cl v ->
  exists p s t, let cl' := fset f_sessionStatus true (fset f_topics t (fset f_subMap s (fset f_pubMap p cl))) in
    clean_tables c (set_client c cl g) = Some (tt, set_client c cl' g) /\ client_holds cl' (v_clean v).
Proof.
  intros (Hq & Hr & Ht & Hp & Hs).
  destruct (clearWaited_run f_pubMap cl _ Hp) as (p & Hpub & Hp').
  destruct (clearWaited_run f_subMap (fset f_pubMap p cl) _ Hs) as (s & Hsub & Hs').
  destruct (topics_erase_run _ _ _ Ht) as (t & Herase & Ht').
  exists p, s, t. cbv zeta. split; [|done]. unfold clean_tables.
  erewrite sbind_run by (apply client_run, Hpub). erewrite sbind_run by (apply client_run, Hsub).
  erewrite sbind_run by (apply client_run; by apply (inside_run f_topics)). by apply client_run.
Qed.

(** A client that is to be connected, with the identifier it was created with. *)
Definition connectable cl (name : list byte) : Prop :=
  cl_status cl <> Cstat_Asleep /\ cl_status cl <> Cstat_Awake /\ cl_type cl <> Ctype_Proxy /\
  cl_type cl <> Ctype_Aggregater /\ cl_clientId cl = Some name.

(** The state of the client once its CONNECT was taken. *)
Definition prepared cl cl' (co : Connect) : Prop :=
  cl_status cl' = Cstat_Disconnected /\ cl_waitWillMsgFlg cl' = false /\ cl_connectData cl' = co /\
  cl_type cl' = cl_type cl /\ cl_clientId cl' = cl_clientId cl /\ cl_networkValid cl' = cl_networkValid cl.

Lemma handleConnect_run c cl v g name packet data : connectable cl name -> client_holds cl v ->
  MQTTSNPacket_getCONNECT packet = Some (1, data) ->
  let co := connectData_of (Some name) data in
  exists cl', prepared cl cl' co /\ cl_sessionStatus cl' = negb (sc_cleansession data =? 0) /\
    client_holds cl' (if sc_cleansession data =? 0 then v else v_clean v) /\
    MQTTSN_handleConnect c packet (set_client c cl g) =
      (if negb (sc_willFlag data =? 0) then send_client c MQTTSNPacket_setWILLTOPICREQ
       else send_broker c (MQTTGWPacket_setCONNECT heap_has co par_loginId par_password)) (set_client c cl' g).
Proof.
  intros (Hns & Hna & Hnp & Hng & Hname) Hv Hget co. unfold MQTTSN_handleConnect.
  erewrite sbind_run by (by apply demand_run). cbn [Z.eqb].
  erewrite sbind_run by (by apply client_run). erewrite sbind_run by (by apply client_run).
  cbn [fget f_status]. rewrite !bool_decide_eq_false_2 by done. cbn [orb].
  erewrite sbind_run by (by apply client_run). erewrite sbind_run by (by apply client_run).
  cbn [fget fset f_type f_connectData cl_type]. rewrite !bool_decide_eq_false_2 by done. cbn [orb].
  erewrite sbind_run by (by apply client_run). erewrite sbind_run by (by apply client_run).
  cbn [fget fset f_clientId f_status f_waitWillMsgFlg f_connectData cl_clientId]. rewrite Hname. fold co.
  erewrite sbind_run by (by apply client_run). erewrite sbind_run by (by apply client_run).
  set (cl1 := fset f_sessionStatus false _).
  assert (Hv1 : client_holds cl1 v) by (apply (same_tables_holds cl); [by split_and!|done]).
  destruct (sc_cleansession data =? 0); cbn [negb].
  - exists cl1. by split_and!.
  - destruct (clean_tables_run c cl1 v g Hv1) as (p & s & t & Hrun & Hv').
    rewrite (sbind_run _ _ _ _ _ Hrun).
    exists (fset f_sessionStatus true (fset f_topics t (fset f_subMap s (fset f_pubMap p cl1)))).
    split; [by split_and!|done].
Qed.

(** Without a will the CONNECT for the broker is made at once. *)
Lemma handleConnect_plain c cl v g name clean duration id : connectable cl name -> client_holds cl v ->
  par_mqttVersion = 3 \/ par_mqttVersion = 4 -> 0 <= duration < 65536 ->
  let body := sn_connect_body clean 0 duration id in
  sn_readable body ->
  exists cl' co m, prepared cl cl' co /\ client_holds cl' (if clean mod 2 =? 0 then v else v_clean v) /\
    gw_wire m = Some (mqtt_packet (mqtt_header CONNECT 0 0 0) (connect_body (connect_options name clean duration None))) /\
    gp_header m = mqtt_header CONNECT 0 0 0 /\
    MQTTSN_handleConnect c (sn_object (sn_packet MQTTSN_CONNECT body)) (set_client c cl g) =
      Some (tt, set_client c cl' (posted f_brokerSendQue (EtBrokerSend c m) g)).
Proof.
  intros Hcl Hv Hver Hd body Hb. destruct (getCONNECT_run clean 0 duration id Hb Hd) as (data & Hget & Hc & Hw & Hdu).
  destruct (handleConnect_run c cl v g name _ data Hcl Hv Hget) as (cl' & Hprep & _ & Hv' & Hrun).
  destruct (connectData_denotes name data clean 0 duration Hver (proj1 Hd) Hc Hw Hdu) as [Hden _].
  specialize (Hden eq_refl).
  pose proof (setCONNECT_run heap_has newMQTTGWPacket _ _ _ _ ltac:(done) Hden (Hheap _)) as Hset.
  exists cl', (connectData_of (Some name) data). eexists. split; [done|]. rewrite <- Hc. split; [done|].
  fold body in Hrun. rewrite Hrun, Hw. split; [apply gw_wire_owned|]. split; [done|]. cbn [Z.eqb negb Z.modulo]. change (negb (0 mod 2 =? 0)) with false.
  cbv iota. by apply (send_broker_at _ _ 1).
Qed.

(** With one, the client is asked for the topic. *)
Lemma handleConnect_will c cl v g name clean duration id : connectable cl name -> client_holds cl v ->
  par_mqttVersion = 3 \/ par_mqttVersion = 4 -> 0 <= duration < 65536 ->
  let body := sn_connect_body clean 1 duration id in
  sn_readable body ->
  exists cl' co, prepared cl cl' co /\ client_holds cl' (if clean mod 2 =? 0 then v else v_clean v) /\
    (forall topic msg qos retain,
      connect_denotes (co_set_willMsg (co_set_will co (Some topic) qos retain) (Some msg)) par_loginId par_password
        (connect_options name clean duration
          (Some {| wi_topic := topic; wi_message := msg; wi_qos := qos; wi_retained := retain |}))) /\
    MQTTSN_handleConnect c (sn_object (sn_packet MQTTSN_CONNECT body)) (set_client c cl g) =
      Some (tt, set_client c cl' (posted f_clientSendQue (EtClientSend c (sn_object (sn_packet MQTTSN_WILLTOPICREQ []))) g)).
Proof.
  intros Hcl Hv Hver Hd body Hb. destruct (getCONNECT_run clean 1 duration id Hb Hd) as (data & Hget & Hc & Hw & Hdu).
  destruct (handleConnect_run c cl v g name _ data Hcl Hv Hget) as (cl' & Hprep & _ & Hv' & Hrun).
  destruct (connectData_denotes name data clean 1 duration Hver (proj1 Hd) Hc Hw Hdu) as [_ Hden].
  exists cl', (connectData_of (Some name) data). split; [done|]. rewrite <- Hc. split; [done|].
  split; [by apply Hden|]. fold body in Hrun. rewrite Hrun, Hw. change (negb (1 mod 2 =? 0)) with true. cbv iota.
  apply send_client_at. by apply (sn_request_set Hheap 2 MQTTSN_WILLTOPICREQ).
Qed.

(** *** The will *)

Lemma handleWilltopic_run c cl v g qos retain topic : client_holds cl v ->
  let body := sn_willtopic_body qos retain topic in
  sn_readable body ->
  exists cl', client_holds cl' v /\ cl_status cl' = cl_status cl /\ cl_waitWillMsgFlg cl' = true /\
    cl_connectData cl' = co_set_will (cl_connectData cl) (Some (c_str topic)) (qos mod 4) (retain mod 2) /\
    cl_type cl' = cl_type cl /\
    MQTTSN_handleWilltopic c (sn_object (sn_packet MQTTSN_WILLTOPIC body)) (set_client c cl g) =
      Some (tt, set_client c cl' (posted f_clientSendQue (EtClientSend c (sn_object (sn_packet MQTTSN_WILLMSGREQ []))) g)).
Proof.
  intros Hv body Hb. destruct (getWILLTOPIC_run qos retain topic Hb) as (will & Hget & Hq & Hr & Hbytes).
  unfold MQTTSN_handleWilltopic. erewrite sbind_run by (by apply demand_run). cbn [Z.eqb].
  erewrite sbind_run by (by apply demand_run). erewrite sbind_run by (by apply client_run).
  erewrite sbind_run by (by apply client_run). erewrite sbind_run by (by apply client_run).
  erewrite sbind_run by (by apply client_run). erewrite sbind_run by (by apply client_run).
  eexists. split; [|split; [|split; [|split; [|split; [|by apply send_client_at, (sn_request_set Hheap 2 MQTTSN_WILLMSGREQ)]]]]].
  - by apply (same_tables_holds cl).
  - done.
  - done.
  - cbn. by rewrite Hq, Hr.
  - done.
Qed.

Lemma handleWillmsg_run c cl v g co info msg : client_holds cl v ->
  cl_waitWillMsgFlg cl = true -> cl_status cl = Cstat_Disconnected ->
  cl_connectData cl = co -> connect_denotes (co_set_willMsg co (Some (c_str msg))) par_loginId par_password info ->
  sn_readable msg ->
  exists cl' m, client_holds cl' v /\ cl_status cl' = Cstat_Disconnected /\ cl_type cl' = cl_type cl /\
    gw_wire m = Some (mqtt_packet (mqtt_header CONNECT 0 0 0) (connect_body info)) /\
    gp_header m = mqtt_header CONNECT 0 0 0 /\
    MQTTSN_handleWillmsg c (sn_object (sn_packet MQTTSN_WILLMSG msg)) (set_client c cl g) =
      Some (tt, set_client c cl' (posted f_brokerSendQue (EtBrokerSend c m) g)).
Proof.
  intros Hv Hwait Hst Hco Hden Hb. destruct (getWILLMSG_run msg Hb) as (str & Hget & Hbytes).
  pose proof (setCONNECT_run heap_has newMQTTGWPacket _ _ _ _ ltac:(done) Hden (Hheap _)) as Hset.
  unfold MQTTSN_handleWillmsg. erewrite sbind_run by (by apply client_run). cbn [fget f_waitWillMsgFlg]. rewrite Hwait.
  cbn [negb]. erewrite sbind_run by (by apply client_run). cbn [fget f_status]. rewrite Hst.
  rewrite !bool_decide_eq_false_2 by done. cbn [orb negb].
  erewrite sbind_run by (by apply demand_run). cbn [Z.eqb].
  erewrite sbind_run by (by apply demand_run). erewrite sbind_run by (by apply client_run).
  erewrite sbind_run by (by apply client_run). cbn [fget fset f_connectData f_willMsg cl_connectData]. rewrite Hco.
  erewrite sbind_run by (by apply client_run). cbn [fget f_willMsg cl_willMsg].
  erewrite sbind_run by (by apply client_run). erewrite sbind_run by (by eapply new_gw_run).
  erewrite sbind_run by (by apply client_run). eexists _, _. rewrite post_at by apply _.
  split; [|split; [|split; [|split; [|split; [|reflexivity]]]]].
  - by apply (same_tables_holds cl).
  - exact Hst.
  - done.
  - apply gw_wire_owned.
  - done.
Qed.

(** *** CONNACK *)

Lemma handleConnack_run c cl v g h flags rc : client_holds cl v -> header_type h = CONNACK -> 0 <= rc < 256 ->
  exists cl', client_holds cl' v /\ cl_type cl' = cl_type cl /\
    cl_status cl' = (if rc =? MQTT_CONNECTION_ACCEPTED then Cstat_Active else Cstat_Disconnected) /\
    MQTTGW_handleConnack c (mkMQTTGWPacket h 2 (Owned [byte_of_Z flags; byte_of_Z rc])) (set_client c cl g) =
      Some (tt, set_client c cl' (posted f_clientSendQue
        (EtClientSend c (sn_object (sn_packet MQTTSN_CONNACK [byte_of_Z (sn_returnCode rc)]))) g)).
Proof.
  intros Hv Hh Hrc. unfold MQTTGW_handleConnack.
  assert (Hget : MQTTGWPacket_getCONNACK (mkMQTTGWPacket h 2 (Owned [byte_of_Z flags; byte_of_Z rc])) =
    Some (Some (Z_of_byte (byte_of_Z flags), rc), mkMQTTGWPacket h 2 (Owned [byte_of_Z flags; byte_of_Z rc]))).
  { unfold MQTTGWPacket_getCONNACK. sprim. cbn [gp_header]. rewrite Hh. cbn [negb Z.eqb]. rewrite Z.eqb_refl. cbn [negb].
    unfold gw_readChar. erewrite sbind_run by (by apply gp_at_run). rewrite sbind_assoc.
    erewrite sbind_run by (by apply gp_at_run). rewrite (Z_of_byte_small rc) by done. done. }
  erewrite sbind_run by (by eapply read_gw_run). erewrite sbind_run by (by apply demand_run). cbv iota beta.
  erewrite sbind_run by (by apply new_sn_run, (sn_response_set Hheap 3 MQTTSN_CONNACK)).
  destruct (rc =? MQTT_CONNECTION_ACCEPTED) eqn:E.
  - apply Z.eqb_eq in E as ->. erewrite sbind_run by (by apply client_run). rewrite post_at by apply _.
    eexists. split; [|split; [|split; [|reflexivity]]]; [|done|done]. by apply (same_tables_holds cl).
  - assert (Hrej : (sn_returnCode rc =? MQTTSN_RC_ACCEPTED) = false).
    { unfold sn_returnCode. rewrite E. by repeat case_match. }
    unfold Client_connackSended. rewrite Hrej. erewrite sbind_run by (by apply client_run). rewrite post_at by apply _.
    eexists. split; [|split; [|split; [|reflexivity]]]; [|done|done]. by apply (same_tables_holds cl).
Qed.

(** *** DISCONNECT *)

(** The body of a DISCONNECT: a sleep duration or none. *)
Definition disconnect_body (duration : Z) : list byte := if 0 <? duration then int_bytes duration else [].

Lemma handleDisconnect_run c cl g duration : 0 <= duration < 65536 ->
  exists p, gw_wire p = Some (mqtt_packet (mqtt_header DISCONNECT 0 0 0) []) /\
    MQTTSN_handleDisconnect c (sn_object (sn_packet MQTTSN_DISCONNECT (disconnect_body duration))) (set_client c cl g) =
      Some (tt, set_client c cl (posted f_clientSendQue (EtClientSend c (sn_object (sn_packet MQTTSN_DISCONNECT [])))
        (if duration =? 0 then posted f_brokerSendQue (EtBrokerSend c p) g else g))).
Proof.
  intros Hd. exists (mkMQTTGWPacket (mqtt_header DISCONNECT 0 0 0) 0 Null). split; [done|].
  unfold MQTTSN_handleDisconnect. erewrite sbind_run by (apply demand_run, getDISCONNECT_run, Hd). cbn [Z.eqb negb andb].
  destruct (duration =? 0).
  - erewrite sbind_run by (by eapply send_broker_at, setHeader_run). apply send_client_at, (setDISCONNECT_run Hheap).
  - erewrite sbind_run by reflexivity. apply send_client_at, (setDISCONNECT_run Hheap).
Qed.

(** *** PINGREQ *)

Lemma has_stored_run c cl v g : client_holds cl v ->
  has_stored c (set_client c cl g) =
    Some ((bool_decide (cl_status cl = Cstat_Asleep) || bool_decide (cl_status cl = Cstat_Awake)) &&
      negb (bool_decide (v_sleeping v = [])), set_client c cl g).
Proof.
  intros Hv. unfold has_stored. erewrite sbind_run by (by apply client_run). erewrite sbind_run by (by apply client_run).
  cbn [fget f_status]. destruct (_ || _); [|done]. cbn [andb].
  erewrite sbind_run by (apply client_run, (getSleepPacket_run _ _ Hv)). by destruct (v_sleeping v).
Qed.

(** A sleeping client with stored messages gets them, any other PINGREQ goes to
    the broker. *)
Lemma handlePingreq_run c cl v g : client_holds cl v ->
  let replay := (bool_decide (cl_status cl = Cstat_Asleep) || bool_decide (cl_status cl = Cstat_Awake)) &&
      negb (bool_decide (v_sleeping v = [])) in
  exists cl', cl_status cl' = cl_status cl /\ cl_type cl' = cl_type cl /\ cl_holdPingRequest cl' = replay /\
    client_holds cl' (if replay then v_set_sleeping [] v else v) /\
    MQTTSN_handlePingreq c (set_client c cl g) = Some (tt, set_client c cl'
      (if replay then posted_all f_packetEventQue (EtBrokerRecv c <$> v_sleeping v) g
       else posted f_brokerSendQue (EtBrokerSend c (mkMQTTGWPacket (mqtt_header PINGREQ 0 0 0) 0 Null)) g)).
Proof.
  intros Hv replay. unfold MQTTSN_handlePingreq. erewrite sbind_run by (by apply has_stored_run). fold replay.
  destruct replay.
  - destruct (sendStoredPublish_run c cl v g Hv) as (q & Hrun & Hv'). rewrite (sbind_run _ _ _ _ _ Hrun).
    exists (fset f_holdPingRequest true (fset f_sleepQue q cl)). split_and!; try done. by apply client_run.
  - exists (fset f_holdPingRequest false cl). split; [done|]. split; [done|]. split; [done|]. split; [by apply (same_tables_holds cl)|].
    erewrite sbind_run by (by apply client_run). by eapply send_broker_at, setHeader_run.
Qed.
End Runs.
