(* ===== verification/GWPublish.v ===== *)
(** * Messages and registrations: MQTTSNGWPublishHandler.cpp and MQTTGWPublishHandler.cpp

    The handlers of PUBLISH, of its acknowledgements and of REGISTER and REGACK,
    in both directions. *)

From S2P Require Import Prelude CMem MQTTPacket MQTTPublish SNPacket SNPublish SNConnect SNSubscribe GWHeap GWTables GWTopic GWPacket GWSNPacket GWClient GWGateway.

Section Handlers.
Context `{CharSign} `{ByteOrder} `{HeapSpace} `{PointerBytes} `{GatewayParams}.

(** ** MQTTSNPublishHandler: from the client *)

(** Adapter::savePacket of the proxy for clients that only publish with QoS -1. *)
Definition savePacket (c : loc) (packet : MQTTSNPacket) : st Gateway unit :=
  let! secure := client c (the f_secureNetwork) in
  post (if secure : bool then f_suspendedSecure else f_suspended) (EtClientRecv c packet).

(** A QoS that waits for an acknowledgement. *)
Definition acknowledged (qos : Z) : bool := (0 <? qos) && (qos <? 3).

(** The topic of an identifier: the client's, or a predefined one of the
    gateway, which is added to the client's. *)
Definition find_topic (c : loc) (t : MQTTSN_topicid) : st Gateway (option Topic) :=
  let! topic := client c (inside f_topics (Topics_byId t)) in
  match topic with
  | Some topic => sret (Some topic)
  | None =>
      let! topic := inside f_gwTopics (Topics_byId t) in
      match topic with
      | Some topic => client c (inside f_topics (Topics_insert (c_str (topic_name topic)) (topic_id topic)))
      | None => sret None
      end
  end.

(** From the topic name on; its length is the length of [name]. *)
Definition forward_publish (c : loc) (packet : MQTTSNPacket) (out : sn_publish_out) (name : list byte) :
    st Gateway (option MQTTGWPacket) :=
  let qos := sp_qos out in
  let msgId := sp_packetid out in
  let! id := demand (topicid_id (sp_topic out)) in
  (if negb (msgId =? 0) && acknowledged qos
   then client c (Client_setWaitedPubTopicId msgId id (tid_type (sp_topic out))) else sret tt) ;!
  let! payload := demand (sn_bytes packet (sp_payload out) (Z.max 0 (sp_payloadlen out))) in
  let header :=
    set_header_retain (set_header_qos (set_header_dup 0 (sp_dup out)) (if qos =? 3 then 0 else qos)) (sp_retained out) in
  let! publish := new_gw (MQTTGWPacket_setPUBLISH heap_has
    (mkPublish header name (zlen name) msgId payload (sp_payloadlen out))) in
  let! aggregated := client c Client_isAggregated in
  if aggregater_active && aggregated then sret (Some publish)
  else post f_brokerSendQue (EtBrokerSend c publish) ;! sret None.

Definition MQTTSN_handlePublish (c : loc) (packet : MQTTSNPacket) : st Gateway (option MQTTGWPacket) :=
  let! qosm1 := (if qosm1Proxy_active then sret false else client c Client_isQoSm1) in
  if qosm1 : bool then savePacket c packet ;! sret None
  else
    let! (rc, out) := demand (MQTTSNPacket_getPUBLISH packet) in
    if rc =? 0 then sret None
    else
      let t := sp_topic out in
      if tid_type t =? MQTTSN_TOPIC_TYPE_SHORT then
        let! name := demand (topicid_short t) in forward_publish c packet out name
      else
        let! topic := find_topic c t in
        match topic with
        | Some topic => forward_publish c packet out (topic_name topic)
        | None =>
            if sp_qos out =? 3 then sret None
            else if negb (sp_packetid out =? 0) && acknowledged (sp_qos out) then
              let! id := demand (topicid_id t) in
              send_client c (MQTTSNPacket_setPUBACK id (sp_packetid out) MQTTSN_RC_REJECTED_INVALID_TOPIC_ID) ;!
              sret None
            else forward_publish c packet out []
        end.

Definition MQTTSN_handlePuback (c : loc) (packet : MQTTSNPacket) : st Gateway unit :=
  let! active := client c Client_isActive in
  if active then
    let! (rc, ack) := demand (MQTTSNPacket_getPUBACK packet) in
    if rc =? 0 then sret tt
    else if (sa_returncode ack =? MQTTSN_RC_ACCEPTED) && negb aggregater_active
    then send_broker c (MQTTGWPacket_setAck heap_has PUBACK (sa_packetid ack))
    else sret tt
  else sret tt.

Definition MQTTSN_handleAck (c : loc) (packet : MQTTSNPacket) (packetType : Z) : st Gateway unit :=
  let! active := client c Client_isActive in
  if active then
    let! (rc, msgId) := demand (MQTTSNPacket_getACK packet) in
    if rc =? 0 then sret tt else send_broker c (MQTTGWPacket_setAck heap_has packetType msgId)
  else sret tt.

(** [client->isActive() || client->isAwake()] *)
Definition is_reachable (c : loc) : st Gateway bool :=
  let! active := client c Client_isActive in
  let! awake := client c Client_isAwake in
  sret (active || awake).

(** The pointer [add] returns is followed without a test. *)
Definition MQTTSN_handleRegister (c : loc) (packet : MQTTSNPacket) : st Gateway unit :=
  let! reachable := is_reachable c in
  if reachable then
    let! (rc, reg) := demand (MQTTSNPacket_getREGISTER packet) in
    if rc =? 0 then sret tt
    else
      let! name := demand (sn_bytes packet (data (lenstring (sr_topicname reg))) (len (lenstring (sr_topicname reg)))) in
      let! topic := client c (inside f_topics (Topics_register MQTTSN_TOPIC_TYPE_NORMAL name)) in
      let! topic := demand topic in
      send_client c (MQTTSNPacket_setREGACK (topic_id topic) (sr_packetid reg) MQTTSN_RC_ACCEPTED)
  else sret tt.

Definition MQTTSN_handleRegAck (c : loc) (packet : MQTTSNPacket) : st Gateway unit :=
  let! reachable := is_reachable c in
  if reachable then
    let! (rc, ack) := demand (MQTTSNPacket_getREGACK packet) in
    if rc =? 0 then sret tt
    else
      let msgId := sa_packetid ack in
      let! regAck := client c (inside f_regack (WaitREGACK_getPacket msgId)) in
      match regAck with
      | Some regAck =>
          client c (inside f_regack (WaitREGACK_erase msgId)) ;!
          post f_clientSendQue (EtClientSend c regAck)
      | None => sret tt
      end ;!
      let! hold := client c Client_isHoldPringReqest in
      let! cnt := client c (inside f_regack WaitREGACK_getCount) in
      if hold && (cnt =? 0) then
        client c Client_resetPingRequest ;!
        send_broker c (MQTTGWPacket_setHeader PINGREQ)
      else sret tt
  else sret tt.

(** The identifier of the aggregater for a message of a client. *)
Definition aggregated_msgId (c : loc) (packet : MQTTSNPacket) : st Gateway Z :=
  let! dup := demand (MQTTSNPacket_isDuplicate packet) in
  let! id := demand (MQTTSNPacket_getMsgId packet) in
  inside f_msgIdTable (if dup then MessageIdTable_getMsgId c id else addMessageIdTable c id).

(** [publish->setMsgId(msgId)] *)
Definition with_msgId (packet : MQTTGWPacket) (msgId : Z) : st Gateway MQTTGWPacket :=
  let! (_, packet) := demand (MQTTGWPacket_setMsgId msgId packet) in sret packet.

Definition MQTTSN_handleAggregatePublish (c : loc) (packet : MQTTSNPacket) : st Gateway unit :=
  let! publish := MQTTSN_handlePublish c packet in
  match publish with
  | None => sret tt
  | Some publish =>
      let! id := read_gw publish MQTTGWPacket_getMsgId in
      let! publish :=
        if 0 <? id then let! msgId := aggregated_msgId c packet in with_msgId publish msgId else sret publish in
      post f_brokerSendQue (EtBrokerSend c publish)
  end.

Definition MQTTSN_handleAggregateAck (c : loc) (packet : MQTTSNPacket) (type : Z) : st Gateway unit :=
  if type =? MQTTSN_PUBREC then
    let! (rc, msgId) := demand (MQTTSNPacket_getACK packet) in
    if rc =? 0 then sret tt else send_client c (MQTTSNPacket_setPUBREL msgId)
  else sret tt.

(** ** MQTTGWPublishHandler: from the broker *)

Definition MQTTGW_replyACK (c : loc) (pub : Publish) (type : Z) : st Gateway unit :=
  send_broker c (MQTTGWPacket_setAck heap_has type (u16 (gpub_msgId pub))).

(** PUBACK or PUBREC, for the QoS of the message. *)
Definition reply_for_qos (c : loc) (pub : Publish) : st Gateway unit :=
  if header_qos (gpub_header pub) =? 1 then MQTTGW_replyACK c pub PUBACK
  else if header_qos (gpub_header pub) =? 2 then MQTTGW_replyACK c pub PUBREC
  else sret tt.

(** [*msg = *packet] on a new packet. *)
Definition copy_packet (packet : MQTTGWPacket) : st Gateway MQTTGWPacket :=
  let! (_, msg) := demand (MQTTGWPacket_assign heap_has packet newMQTTGWPacket) in sret msg.

(** [packet->getPUBLISH(&pub)]; for another packet [pub] stays uninitialised. *)
Definition read_publish (packet : MQTTGWPacket) : st Gateway Publish :=
  let! pub := read_gw packet MQTTGWPacket_getPUBLISH in demand pub.

Definition save_publish (c : loc) (packet : MQTTGWPacket) : st Gateway unit :=
  let! pub := read_publish packet in
  reply_for_qos c pub ;!
  let! msg := copy_packet packet in
  let! type := read_gw msg MQTTGWPacket_getType in
  if type =? 0 then sret tt else client c (Client_setClientSleepPacket msg) ;! sret tt.

(** A topic identifier of this type. *)
Definition topicid_of (type id : Z) : MQTTSN_topicid := set_tid_id (set_tid_type no_topicid type) id.

Definition sn_publish (pub : Publish) (t : MQTTSN_topicid) : option (Z * MQTTSNPacket) :=
  MQTTSNPacket_setPUBLISH (header_dup (gpub_header pub)) (header_qos (gpub_header pub))
    (header_retain (gpub_header pub)) (u16 (gpub_msgId pub)) t [] (gpub_payload pub) (gpub_payloadlen pub).

(** The message waits until the client has acknowledged the identifier. *)
Definition register_and_wait (c : loc) (pub : Publish) (name : list byte) : st Gateway unit :=
  let! topic := client c (inside f_topics (Topics_register MQTTSN_TOPIC_TYPE_NORMAL name)) in
  let! topic := demand topic in
  let id := topic_id topic in
  if 0 <? id then
    let! regackMsgId := client c Client_getNextSnMsgId in
    send_client c (MQTTSNPacket_setREGISTER id regackMsgId name) ;!
    let! snPacket := new_sn (sn_publish pub (topicid_of MQTTSN_TOPIC_TYPE_NORMAL id)) in
    client c (inside f_regack (WaitREGACK_setPacket snPacket regackMsgId)) ;!
    sret tt
  else sret tt.

Definition MQTTGW_handlePublish (c : loc) (packet : MQTTGWPacket) : st Gateway unit :=
  let! active := client c Client_isActive in
  let! sleep := client c Client_isSleep in
  let! awake := client c Client_isAwake in
  if negb active && negb sleep && negb awake then sret tt
  else if sleep then save_publish c packet
  else
    let! pub := read_publish packet in
    if gpub_topiclen pub <=? 2 then
      let! c0 := demand (gpub_topic pub !! 0%nat) in
      let! c1 := demand (gpub_topic pub !! 1%nat) in
      let t := set_tid_short (set_tid_type no_topicid MQTTSN_TOPIC_TYPE_SHORT) (Z_of_byte c0) (Z_of_byte c1) in
      send_client c (sn_publish pub t)
    else
      let! name := demand (if gpub_topiclen pub <=? zlen (gpub_topic pub)
        then Some (take (Z.to_nat (gpub_topiclen pub)) (gpub_topic pub)) else None) in
      let! tp := client c (inside f_topics (Topics_byName name)) in
      match tp with
      | Some tp => send_client c (sn_publish pub (topicid_of (topic_type tp) (topic_id tp)))
      | None =>
          let! topic := client c (inside f_topics (Topics_matching MQTTSN_TOPIC_TYPE_NORMAL name)) in
          match topic with
          | None => reply_for_qos c pub
          | Some _ => register_and_wait c pub name
          end
      end.

(** [packet->getAck(&ack)] *)
Definition read_ack (packet : MQTTGWPacket) : st Gateway Z :=
  let! ack := read_gw packet MQTTGWPacket_getAck in
  let! (_, msgId) := demand ack in sret msgId.

Definition MQTTGW_handlePuback (c : loc) (packet : MQTTGWPacket) : st Gateway unit :=
  let! msgId := read_ack packet in
  let! topicId := client c (Client_getWaitedPubTopicId (u16 msgId)) in
  match topicId with
  | Some (id, _) =>
      let! mqttsnPacket := new_sn (MQTTSNPacket_setPUBACK id (u16 msgId) 0) in
      client c (Client_eraseWaitedPubTopicId (u16 msgId)) ;!
      post f_clientSendQue (EtClientSend c mqttsnPacket)
  | None => sret tt
  end.

(** A packet of another type is sent empty. *)
Definition MQTTGW_handleAck (c : loc) (packet : MQTTGWPacket) (type : Z) : st Gateway unit :=
  let! msgId := read_ack packet in
  let! reachable := is_reachable c in
  let! sleep := client c Client_isSleep in
  if reachable then
    if type =? PUBREC then send_client c (MQTTSNPacket_setPUBREC (u16 msgId))
    else if type =? PUBREL then send_client c (MQTTSNPacket_setPUBREL (u16 msgId))
    else if type =? PUBCOMP then send_client c (MQTTSNPacket_setPUBCOMP (u16 msgId))
    else post f_clientSendQue (EtClientSend c newMQTTSNPacket)
  else if sleep && (type =? PUBREL) then send_broker c (MQTTGWPacket_setAck heap_has PUBCOMP (u16 msgId))
  else sret tt.

(** For an aggregated message: the client it came from, and its identifier. *)
Definition convert (packet : MQTTGWPacket) (handle : loc -> MQTTGWPacket -> st Gateway unit) : st Gateway unit :=
  let! msgId := read_gw packet MQTTGWPacket_getMsgId in
  let! (newClient, clientMsgId) := inside f_msgIdTable (MessageIdTable_getClientMsgId (u16 msgId)) in
  match newClient with
  | Some c => let! packet := with_msgId packet clientMsgId in handle c packet
  | None => sret tt
  end.

Definition MQTTGW_handleAggregatePuback (packet : MQTTGWPacket) : st Gateway unit := convert packet MQTTGW_handlePuback.
Definition MQTTGW_handleAggregateAck (packet : MQTTGWPacket) (type : Z) : st Gateway unit :=
  convert packet (fun c packet => MQTTGW_handleAck c packet type).

(** It reads a PUBREL as a PUBLISH. *)
Definition MQTTGW_handleAggregatePubrel (c : loc) (packet : MQTTGWPacket) : st Gateway unit :=
  let! pub := read_publish packet in MQTTGW_replyACK c pub PUBCOMP.

(** createClientList returns a null pointer so far: no client gets the message. *)
Definition MQTTGW_handleAggregatePublish (c : loc) (packet : MQTTGWPacket) : st Gateway unit :=
  let! pub := read_publish packet in reply_for_qos c pub.
End Handlers.

(** ** What the handlers do *)

Section Runs.
Context `{CharSign} `{ByteOrder} `{HeapSpace} `{PointerBytes} `{GatewayParams}.
Hypothesis Hheap : forall n, heap_has n = true.
Implicit Types (g : Gateway) (cl : Client) (v : client_view).

(** *** PUBLISH from a client *)

(** A client whose messages go to the broker on its own connection. *)
Definition direct cl : Prop :=
  (aggregater_active && bool_decide (cl_type cl = Ctype_Aggregated)) = false /\
  (negb qosm1Proxy_active && bool_decide (cl_type cl = Ctype_QoS_1)) = false.

(** The topic a message is for and what looking for it leaves, [predefined]
    being the topics of the gateway. *)
Definition resolve (ty id : Z) v (predefined : list Topic) : option Topic * client_view :=
  match by_id ty id (v_topics v) with
  | Some t => (Some t, v)
  | None =>
      match by_id ty id predefined with
      | Some t =>
          let '(r, (n, ts)) := added (v_lastId v) (topic_id t) (c_str (topic_name t)) (v_topics v) in
          (r, v_set_topics n ts v)
      | None => (None, v)
      end
  end.

Lemma find_topic_run c cl v g t id n predefined : client_holds cl v -> topics_hold (gw_topics g) n predefined ->
  topicid_id t = Some id ->
  exists s, client_holds (fset f_topics s cl) (resolve (tid_type t) id v predefined).2 /\
    find_topic c t (set_client c cl g) =
      Some ((resolve (tid_type t) id v predefined).1, set_client c (fset f_topics s cl) g).
Proof.
  intros Hv Hg Hid. unfold find_topic, resolve. assert (Hsame : fset f_topics (cl_topics cl) cl = cl) by by destruct cl.
  erewrite sbind_run by (by apply client_run, (client_byId_run cl v)).
  destruct (by_id (tid_type t) id (v_topics v)); [exists (cl_topics cl); by rewrite Hsame|].
  assert (Hgw : inside f_gwTopics (Topics_byId t) (set_client c cl g) =
    Some (by_id (tid_type t) id predefined, set_client c cl g)).
  { apply inside_id; [|done]. by apply (Topics_byId_run _ n). }
  rewrite (sbind_run _ _ _ _ _ Hgw). destruct (by_id _ _ predefined) as [topic|]; [|exists (cl_topics cl); by rewrite Hsame].
  pose proof (client_insert_run cl v (c_str (topic_name topic)) (topic_id topic) Hv) as Hins.
  destruct (added _ _ _ _) as [r [n' ts]]. destruct Hins as (s & Hins & Hv'). exists s. split; [done|].
  by apply client_run.
Qed.

(** The table of the messages that wait for PUBACK. *)
Definition awaiting (qos msgId id ty : Z) v : client_view :=
  if negb (msgId =? 0) && acknowledged qos then
    if (2 * MAX_INFLIGHTMESSAGES <? Z.of_nat (size (v_pub v))) || ((id =? 0) && negb (ty =? MQTTSN_TOPIC_TYPE_SHORT))
    then v else v_set_pub (<[msgId := (id, ty)]> (v_pub v)) v
  else v.

(** The packet for the broker: the same flags, a QoS of -1 becoming 0. *)
Definition upward_publish (dup qos retained msgId : Z) (name payload : list byte) : list byte :=
  publish_packet dup (if qos =? 3 then 0 else qos) retained msgId name payload.

Lemma upward_header d q r : 0 <= q < 4 ->
  let h := set_header_retain (set_header_qos (set_header_dup 0 d) q) r in
  0 <= h < 256 /\ header_dup h = d mod 2 /\ header_qos h = q /\ header_retain h = r mod 2.
Proof.
  intros Hq. unfold set_header_retain, set_header_qos, set_header_dup, header_dup, header_qos, header_retain. cbv zeta.
  rewrite (bf_set_clear 0 3 1) by (simpl; divmod_lia). rewrite (bf_set_clear _ 1 2) by (simpl; divmod_lia).
  rewrite (bf_set_clear _ 0 1) by (simpl; divmod_lia). rewrite !bf_get_div by lia. simpl. divmod_lia.
Qed.

Lemma forward_publish_run c cl v g packet out name payload id : client_holds cl v -> direct cl ->
  topicid_id (sp_topic out) = Some id -> 0 <= sp_qos out < 4 -> 0 <= sp_packetid out < 65536 ->
  sp_payloadlen out = zlen payload -> sn_bytes packet (sp_payload out) (zlen payload) = Some payload ->
  exists s m, let cl' := fset f_pubMap s cl in
    client_holds cl' (awaiting (sp_qos out) (sp_packetid out) id (tid_type (sp_topic out)) v) /\
    gw_wire m = Some (upward_publish (sp_dup out mod 2) (sp_qos out) (sp_retained out mod 2) (sp_packetid out) name payload) /\
    forward_publish c packet out name (set_client c cl g) =
      Some (None, set_client c cl' (posted f_brokerSendQue (EtBrokerSend c m) g)).
Proof.
  intros Hv [Hdir _] Hid Hq Hm Hlen Hpay. unfold forward_publish.
  erewrite sbind_run by (by apply demand_run).
  assert (exists s, (if negb (sp_packetid out =? 0) && acknowledged (sp_qos out)
      then client c (Client_setWaitedPubTopicId (sp_packetid out) id (tid_type (sp_topic out))) else sret tt)
      (set_client c cl g) = Some (tt, set_client c (fset f_pubMap s cl) g) /\
      client_holds (fset f_pubMap s cl) (awaiting (sp_qos out) (sp_packetid out) id (tid_type (sp_topic out)) v))
    as (s & Hmap & Hv').
  { unfold awaiting. destruct (negb (sp_packetid out =? 0) && acknowledged (sp_qos out)); [|exists (cl_pubMap cl); replace (fset f_pubMap (cl_pubMap cl) cl) with cl by (by destruct cl); done].
    destruct (setWaitedPub_run cl v (sp_packetid out) id (tid_type (sp_topic out)) Hv) as (cl' & Hrun & (s & ->) & Hh).
    exists s. split; [by apply client_run|done]. }
  rewrite (sbind_run _ _ _ _ _ Hmap). rewrite Hlen, Z.max_r by lia. erewrite sbind_run by (by apply demand_run).
  destruct (upward_header (sp_dup out) (if sp_qos out =? 3 then 0 else sp_qos out) (sp_retained out))
    as (Hh & Hd & Hq' & Hr); [case_test; lia|].
  set (h := set_header_retain _ _) in *. set (pub := mkPublish _ _ _ _ _ _).
  pose proof (setPUBLISH_run heap_has newMQTTGWPacket pub name payload ltac:(done)
    ltac:(split_and!; [by exists []; rewrite app_nil_r|done|by exists []; rewrite app_nil_r|done]) Hh (proj1 Hm) (Hheap _)) as Hset.
  erewrite sbind_run by (by eapply new_gw_run). erewrite sbind_run by (by apply client_run).
  cbn [fget fset f_type cl_type f_pubMap]. rewrite Hdir. exists s. eexists. cbv zeta. split; [exact Hv'|].
  erewrite sbind_run by (by apply post_at; apply _). split; [|reflexivity].
  rewrite gw_wire_run. cbn [gpub_header gpub_msgId pub]. rewrite Hd, Hq', Hr. done.
Qed.

(** A packet that was read. *)
Lemma getPUBLISH_flags dup : (if dup mod 2 =? 0 then 0 else 255) mod 2 = dup mod 2.
Proof. destruct (Z.eqb_spec (dup mod 2) 0) as [->|]; [done|]. change (255 mod 2) with 1. divmod_lia. Qed.

Section Upward.
Context (c : loc) (cl : Client) (v : client_view) (g : Gateway) (n : Z) (predefined : list Topic).
Context (dup qos retained msgId : Z) (payload : list byte).
Hypotheses (Hv : client_holds cl v) (Hdirect : direct cl) (Hg : topics_hold (gw_topics g) n predefined).
Hypotheses (Hqos : 0 <= qos < 4) (HmsgId : 0 <= msgId < 65536).

Lemma handlePublish_start topic : topic_ok qos topic ->
  let body := sn_publish_body dup qos retained msgId topic payload in
  let packet := sn_object (sn_packet MQTTSN_PUBLISH body) in
  sn_readable body ->
  exists out, sp_dup out mod 2 = dup mod 2 /\ sp_qos out = qos /\ sp_retained out = retained mod 2 /\
    sp_packetid out = msgId /\ (exists P, topic_denotes P qos (sp_topic out) topic) /\ sp_payloadlen out = zlen payload /\
    sn_bytes packet (sp_payload out) (zlen payload) = Some payload /\
    MQTTSN_handlePublish c packet (set_client c cl g) =
      (let t := sp_topic out in
       if tid_type t =? MQTTSN_TOPIC_TYPE_SHORT then
         let! name := demand (topicid_short t) in forward_publish c packet out name
       else
         let! topic := find_topic c t in
         match topic with
         | Some topic => forward_publish c packet out (GWTopic.topic_name topic)
         | None =>
             if qos =? 3 then sret None
             else if negb (msgId =? 0) && acknowledged qos then
               let! id := demand (topicid_id t) in
               send_client c (MQTTSNPacket_setPUBACK id msgId MQTTSN_RC_REJECTED_INVALID_TOPIC_ID) ;!
               sret None
             else forward_publish c packet out []
         end) (set_client c cl g).
Proof.
  intros Ht body packet Hb. destruct (getPUBLISH_sn_run dup qos retained msgId topic payload Hb Ht Hqos HmsgId)
    as (out & Hget & Hd & Hq & Hr & Hi & Hto & Hpl & Hpay).
  exists out. rewrite Hd, Hr, getPUBLISH_flags. split_and!; try done; [by eexists|].
  unfold MQTTSN_handlePublish.
  assert (Hdir : (if qosm1Proxy_active then sret false else client c Client_isQoSm1) (set_client c cl g) =
    Some (false, set_client c cl g)).
  { destruct Hdirect as [_ Hd2]. destruct qosm1Proxy_active; [done|]. erewrite client_run; [|reflexivity].
    cbn [fget f_type]. cbn [negb andb] in Hd2. by rewrite Hd2. }
  rewrite (sbind_run _ _ _ _ _ Hdir). erewrite sbind_run by (by apply demand_run). cbn [Z.eqb].
  by rewrite Hq, Hi.
Qed.

(** A message for a known identifier goes to the broker under its name. *)
Lemma handlePublish_known ty id t v' : ty <> MQTTSN_TOPIC_TYPE_SHORT -> topic_ok qos (TopicId ty id) ->
  let body := sn_publish_body dup qos retained msgId (TopicId ty id) payload in
  sn_readable body -> resolve ty id v predefined = (Some t, v') ->
  exists s s' m, let cl' := fset f_pubMap s (fset f_topics s' cl) in
    client_holds cl' (awaiting qos msgId id ty v') /\
    gw_wire m = Some (upward_publish (dup mod 2) qos (retained mod 2) msgId (GWTopic.topic_name t) payload) /\
    MQTTSN_handlePublish c (sn_object (sn_packet MQTTSN_PUBLISH body)) (set_client c cl g) =
      Some (None, set_client c cl' (posted f_brokerSendQue (EtBrokerSend c m) g)).
Proof.
  intros Hty Ht body Hb Hres. destruct (handlePublish_start _ Ht Hb) as (out & Hd & Hq & Hr & Hi & (P & Hden) & Hpl & Hpay & Hrun).
  destruct (topicid_id_of P qos _ ty id Hden) as [Hid Htid].
  fold body in Hrun, Hpay. rewrite Hrun. cbv zeta. rewrite Htid, (proj2 (Z.eqb_neq _ _) Hty).
  destruct (find_topic_run c cl v g (sp_topic out) id n predefined Hv Hg Hid) as (s' & Hv' & Hfind).
  rewrite Htid, Hres in Hv', Hfind. cbn [fst snd] in Hv', Hfind. rewrite (sbind_run _ _ _ _ _ Hfind).
  destruct (forward_publish_run c (fset f_topics s' cl) v' g (sn_object (sn_packet MQTTSN_PUBLISH body)) out
    (GWTopic.topic_name t) payload id Hv' Hdirect Hid) as (s & m & Hcl & Hm & Hfwd); [lia|lia|done|done|].
  exists s, s', m. cbv zeta. rewrite Hq, Hi, Htid in Hcl. split; [done|]. split; [|exact Hfwd].
  by rewrite Hm, Hd, Hq, Hr, Hi, Zmod_mod.
Qed.

(** A short topic is a name of two characters. *)
Lemma handlePublish_short c0 c1 : 0 <= c0 < 256 -> 0 <= c1 < 256 ->
  let body := sn_publish_body dup qos retained msgId (TopicShort c0 c1) payload in
  sn_readable body ->
  exists s m, let cl' := fset f_pubMap s cl in
    client_holds cl' (awaiting qos msgId (short_of_bytes c0 c1) MQTTSN_TOPIC_TYPE_SHORT v) /\
    gw_wire m = Some (upward_publish (dup mod 2) qos (retained mod 2) msgId [byte_of_Z c0; byte_of_Z c1] payload) /\
    MQTTSN_handlePublish c (sn_object (sn_packet MQTTSN_PUBLISH body)) (set_client c cl g) =
      Some (None, set_client c cl' (posted f_brokerSendQue (EtBrokerSend c m) g)).
Proof.
  intros Hc0 Hc1 body Hb.
  destruct (handlePublish_start (TopicShort c0 c1) (conj Hc0 Hc1) Hb) as (out & Hd & Hq & Hr & Hi & (P & Hden) & Hpl & Hpay & Hrun).
  destruct (topicid_short_of P qos _ c0 c1 Hden) as (Hs & Hid & Htid).
  fold body in Hrun, Hpay. rewrite Hrun. cbv zeta. rewrite Htid, Z.eqb_refl.
  erewrite sbind_run by (by apply demand_run).
  destruct (forward_publish_run c cl v g (sn_object (sn_packet MQTTSN_PUBLISH body)) out
    [byte_of_Z c0; byte_of_Z c1] payload _ Hv Hdirect Hid) as (s & m & Hcl & Hm & Hfwd); [lia|lia|done|done|].
  exists s, m. cbv zeta. rewrite Hq, Hi, Htid in Hcl. split; [done|]. split; [|exact Hfwd].
  by rewrite Hm, Hd, Hq, Hr, Hi, Zmod_mod.
Qed.

(** An identifier nobody knows: rejected when an acknowledgement is due, dropped
    with QoS -1, and otherwise forwarded without a topic name. *)
Lemma handlePublish_unknown ty id v' : ty <> MQTTSN_TOPIC_TYPE_SHORT -> topic_ok qos (TopicId ty id) ->
  let body := sn_publish_body dup qos retained msgId (TopicId ty id) payload in
  sn_readable body -> resolve ty id v predefined = (None, v') ->
  exists cl' g', client_holds cl' v' /\ (exists s s', cl' = fset f_pubMap s (fset f_topics s' cl)) /\
    (if qos =? 3 then g' = g
     else if negb (msgId =? 0) && acknowledged qos then
       g' = posted f_clientSendQue (EtClientSend c (sn_object (sn_packet MQTTSN_PUBACK
              (sn_ack_body id msgId MQTTSN_RC_REJECTED_INVALID_TOPIC_ID)))) g
     else exists m, gw_wire m = Some (upward_publish (dup mod 2) qos (retained mod 2) msgId [] payload) /\
            g' = posted f_brokerSendQue (EtBrokerSend c m) g) /\
    MQTTSN_handlePublish c (sn_object (sn_packet MQTTSN_PUBLISH body)) (set_client c cl g) =
      Some (None, set_client c cl' g').
Proof.
  intros Hty Ht body Hb Hres. destruct (handlePublish_start _ Ht Hb) as (out & Hd & Hq & Hr & Hi & (P & Hden) & Hpl & Hpay & Hrun).
  destruct (topicid_id_of P qos _ ty id Hden) as [Hid Htid]. destruct Ht as [_ Hidr].
  fold body in Hrun, Hpay. rewrite Hrun. cbv zeta. rewrite Htid, (proj2 (Z.eqb_neq _ _) Hty).
  destruct (find_topic_run c cl v g (sp_topic out) id n predefined Hv Hg Hid) as (s' & Hv' & Hfind).
  rewrite Htid, Hres in Hv', Hfind. cbn [fst snd] in Hv', Hfind. rewrite (sbind_run _ _ _ _ _ Hfind).
  assert (Hsame : fset f_pubMap (cl_pubMap cl) (fset f_topics s' cl) = fset f_topics s' cl) by by destruct cl.
  destruct (qos =? 3) eqn:E3.
  { exists (fset f_topics s' cl), g. split_and!; [done|by exists (cl_pubMap cl), s'|done|done]. }
  destruct (negb (msgId =? 0) && acknowledged qos) eqn:Eack.
  - exists (fset f_topics s' cl). eexists. split; [done|]. split; [by exists (cl_pubMap cl), s'|]. split; [reflexivity|].
    erewrite sbind_run by (by apply demand_run).
    erewrite sbind_run by (apply send_client_at, (setPUBACK_run Hheap); lia). done.
  - destruct (forward_publish_run c (fset f_topics s' cl) v' g (sn_object (sn_packet MQTTSN_PUBLISH body)) out
      [] payload id Hv' Hdirect Hid) as (s & m & Hcl & Hm & Hfwd); [lia|lia|done|done|].
    rewrite Hq, Hi, Htid in Hcl. unfold awaiting in Hcl. rewrite Eack in Hcl.
    eexists _, _. split; [exact Hcl|]. split; [by exists s, s'|]. split; [|exact Hfwd].
    exists m. split; [|done]. by rewrite Hm, Hd, Hq, Hr, Hi, Zmod_mod.
Qed.
End Upward.

(** *** PUBACK from the broker *)

Lemma handlePuback_down c cl v g h id ty msgId : client_holds cl v -> header_type h = PUBACK -> 0 <= msgId < 65536 ->
  0 <= id -> v_pub v !! msgId = Some (id, ty) ->
  exists s, let cl' := fset f_pubMap s cl in client_holds cl' (v_set_pub (delete msgId (v_pub v)) v) /\
    MQTTGW_handlePuback c (mkMQTTGWPacket h 2 (Owned (int_bytes msgId))) (set_client c cl g) =
      Some (tt, set_client c cl' (posted f_clientSendQue (EtClientSend c (sn_object
        (sn_packet MQTTSN_PUBACK (sn_ack_body id msgId MQTTSN_RC_ACCEPTED)))) g)).
Proof.
  intros Hv Hh Hm Hid Hin. unfold MQTTGW_handlePuback, read_ack. rewrite sbind_assoc.
  erewrite sbind_run by (eapply read_gw_run; pose proof (getAck_run h msgId [] 2 Hm) as Ha; rewrite app_nil_r in Ha;
    apply Ha; rewrite Hh; by left). rewrite sbind_assoc.
  erewrite sbind_run by reflexivity. cbv iota beta. erewrite sbind_run by reflexivity. rewrite (u16_small msgId) by done.
  erewrite sbind_run by (apply client_run, (getWaitedPub_run cl v _ Hv)). rewrite Hin.
  erewrite sbind_run by (apply new_sn_run, (setPUBACK_run Hheap); lia).
  destruct (eraseWaitedPub_run cl v msgId Hv) as (cl' & Herase & (s & ->) & Hv'); [by rewrite Hin|].
  erewrite sbind_run by (apply client_run, Herase). exists s. cbv zeta. split; [done|].
  by rewrite post_at by apply _.
Qed.

(** *** PUBLISH from the broker *)

(** A received packet: the block holds its body. *)
Definition gw_object (h : Z) (body : list byte) : MQTTGWPacket := mkMQTTGWPacket h (zlen body) (Owned body).

Definition broker_ack (t id : Z) : MQTTGWPacket := gw_object (mqtt_header t 0 (if t =? PUBREL then 1 else 0) 0) (int_bytes id).

(** What the gateway answers for the client when it cannot pass a message on. *)
Definition answered (c : loc) (qos id : Z) g : Gateway :=
  if qos =? 1 then posted f_brokerSendQue (EtBrokerSend c (broker_ack PUBACK id)) g
  else if qos =? 2 then posted f_brokerSendQue (EtBrokerSend c (broker_ack PUBREC id)) g
  else g.

Lemma answered_at c qos id k cl g : answered c qos id (set_client k cl g) = set_client k cl (answered c qos id g).
Proof. unfold answered. by repeat case_match. Qed.

Lemma reply_for_qos_run c pub qos id g : header_qos (gpub_header pub) = qos -> gpub_msgId pub = (if 0 <? qos then id else 0) ->
  0 <= id < 65536 -> reply_for_qos c pub g = Some (tt, answered c qos id g).
Proof.
  intros Hq Hi Hid. unfold reply_for_qos, MQTTGW_replyACK, answered. rewrite Hq, Hi.
  assert (Hack : forall t, MQTTGWPacket_setAck heap_has t (u16 id) newMQTTGWPacket = Some (1, broker_ack t id)).
  { intros t. rewrite u16_small by done. rewrite setAck_run by (done || lia || apply Hheap). done. }
  destruct (Z.eqb_spec qos 1) as [->|]; [by eapply send_broker_run|].
  destruct (Z.eqb_spec qos 2) as [->|]; [by eapply send_broker_run|done].
Qed.

Lemma assign_run h body : MQTTGWPacket_assign heap_has (gw_object h body) newMQTTGWPacket = Some (tt, gw_object h body).
Proof.
  unfold MQTTGWPacket_assign. destruct (clearData_run newMQTTGWPacket) as [d Hd]; [done|]. srun Hd. sprim. sprim.
  cbn [gw_object gp_header gp_remainingLength gp_data].
  erewrite sbind_run by (apply gp_calloc_run; [lia|apply Hheap]). cbn [gp_header gp_remainingLength].
  pose proof (gw_memcpy_run h (zlen body) [] (Z.to_nat (zlen body)) body [] ltac:(lia)) as Hcopy.
  rewrite app_nil_r in Hcopy. unfold filled in Hcopy. cbn [app] in Hcopy. change (zlen []) with 0 in Hcopy. srun Hcopy.
  unfold sret, gw_object. rewrite Nat2Z.id, Nat.sub_diag. cbn [replicate]. by rewrite app_nil_r.
Qed.

Section Downward.
Context (c : loc) (cl : Client) (v : client_view) (g : Gateway) (h msgId : Z) (topic payload : list byte).
Let qos := header_qos h.
Let body := publish_body qos msgId topic payload.
Let packet := gw_object h body.
Hypotheses (Hv : client_holds cl v) (Hh : header_type h = PUBLISH) (Htopic : zlen topic < 65536)
  (HmsgId : 0 <= msgId < 65536).

Lemma read_publish_run : exists pub, publish_denotes pub topic payload /\ gpub_header pub = h /\
  gpub_msgId pub = (if 0 <? qos then msgId else 0) /\ (forall g, read_publish packet g = Some (pub, g)).
Proof.
  pose proof (getPUBLISH_run h qos msgId topic payload [] Hh eq_refl Htopic HmsgId) as Hget. cbv zeta in Hget. rewrite app_nil_r in Hget.
  destruct Hget as (pub & Hget & Hden & Hph & Hpi). exists pub. split_and!; try done. intros g'. unfold read_publish.
  erewrite sbind_run by (by eapply read_gw_run). done.
Qed.

(** A sleeping client: the message is acknowledged and saved, unless 20 are. *)
Lemma handlePublish_asleep : cl_status cl = Cstat_Asleep ->
  exists q, let cl' := fset f_sleepQue q cl in
    client_holds cl' (v_set_sleeping (if zlen (v_sleeping v) <? MAX_SAVED_PUBLISH then v_sleeping v ++ [packet]
      else v_sleeping v) v) /\
    MQTTGW_handlePublish c packet (set_client c cl g) = Some (tt, set_client c cl' (answered c qos msgId g)).
Proof.
  intros Hst. unfold MQTTGW_handlePublish. do 3 (erewrite sbind_run by (by apply client_run)). cbn [fget f_status].
  rewrite Hst. known_tests. destruct read_publish_run as (pub & _ & Hph & Hpi & Hread). unfold save_publish.
  rewrite (sbind_run _ _ _ _ _ (Hread _)).
  erewrite sbind_run by (apply (reply_for_qos_run c pub qos msgId); [by rewrite Hph|done|done]). rewrite answered_at.
  erewrite sbind_run; [|unfold copy_packet; erewrite sbind_run by (apply demand_run, assign_run); reflexivity].
  erewrite sbind_run by (by eapply read_gw_run). cbn [gp_header gw_object]. rewrite Hh. cbn [Z.eqb].
  destruct (setSleepPacket_run cl v packet Hv) as (r & q & Hset & Hv' & _). exists q. cbv zeta. split; [done|].
  change (PUBLISH =? 0) with false. cbv iota. by erewrite sbind_run by (apply client_run, Hset).
Qed.

Hypothesis (Hst : cl_status cl = Cstat_Active \/ cl_status cl = Cstat_Awake).

(** The packet for the client. *)
Definition downward_publish (t : sn_topic) : MQTTSNPacket :=
  sn_object (sn_packet MQTTSN_PUBLISH (sn_publish_body (header_dup h) qos (header_retain h)
    (if 0 <? qos then msgId else 0) t payload)).

Lemma sn_publish_run pub t t' : publish_denotes pub topic payload -> gpub_header pub = h ->
  gpub_msgId pub = (if 0 <? qos then msgId else 0) -> (exists P, topic_denotes P qos t t') -> plain_topic t' ->
  sn_fits (sn_publish_body (header_dup h) qos (header_retain h) (if 0 <? qos then msgId else 0) t' payload) ->
  zlen payload < 65536 ->
  sets (sn_publish pub t) (sn_packet MQTTSN_PUBLISH (sn_publish_body (header_dup h) qos (header_retain h)
    (if 0 <? qos then msgId else 0) t' payload)).
Proof.
  intros (_ & _ & (rest & Hpay) & Hlen) Hph Hpi (P & Hden) Hplain Hfit Hmax. unfold sn_publish. rewrite Hph, Hpi, Hpay, Hlen.
  rewrite u16_small by (case_test; lia).
  eapply (setPUBLISH_sn_run Hheap); [done|done|case_test; lia|done|done].
Qed.

Lemma handlePublish_reachable : exists pub, publish_denotes pub topic payload /\ gpub_header pub = h /\
  gpub_msgId pub = (if 0 <? qos then msgId else 0) /\
  MQTTGW_handlePublish c packet (set_client c cl g) =
    (if gpub_topiclen pub <=? 2 then
      let! c0 := demand (gpub_topic pub !! 0%nat) in
      let! c1 := demand (gpub_topic pub !! 1%nat) in
      let t := set_tid_short (set_tid_type no_topicid MQTTSN_TOPIC_TYPE_SHORT) (Z_of_byte c0) (Z_of_byte c1) in
      send_client c (sn_publish pub t)
    else
      let! name := demand (if gpub_topiclen pub <=? zlen (gpub_topic pub)
        then Some (take (Z.to_nat (gpub_topiclen pub)) (gpub_topic pub)) else None) in
      let! tp := client c (inside f_topics (Topics_byName name)) in
      match tp with
      | Some tp => send_client c (sn_publish pub (topicid_of (GWTopic.topic_type tp) (topic_id tp)))
      | None =>
          let! topic := client c (inside f_topics (Topics_matching MQTTSN_TOPIC_TYPE_NORMAL name)) in
          match topic with
          | None => reply_for_qos c pub
          | Some _ => register_and_wait c pub name
          end
      end) (set_client c cl g).
Proof.
  destruct read_publish_run as (pub & Hden & Hph & Hpi & Hread). exists pub. split_and!; try done.
  unfold MQTTGW_handlePublish. do 3 (erewrite sbind_run by (by apply client_run)). cbn [fget f_status].
  destruct Hst as [-> | ->]; known_tests; by rewrite (sbind_run _ _ _ _ _ (Hread _)).
Qed.

Definition downward_fits (t : sn_topic) : Prop := sn_fits (sn_publish_body (header_dup h) qos (header_retain h)
  (if 0 <? qos then msgId else 0) t payload).

Lemma fits_payload t : downward_fits t -> zlen payload < 65536.
Proof.
  intros [Hs _]. revert Hs. unfold sn_size, sn_publish_body, MQTTSNGW_MAX_PACKET_SIZE. case_test; zlen_lia.
Qed.

(** A topic of two characters goes out as a short name. *)
Lemma handlePublish_two x y : topic = [x; y] -> let t := TopicShort (Z_of_byte x) (Z_of_byte y) in downward_fits t ->
  MQTTGW_handlePublish c packet (set_client c cl g) =
    Some (tt, set_client c cl (posted f_clientSendQue (EtClientSend c (downward_publish t)) g)).
Proof.
  intros Ht t Hfit. pose proof (fits_payload _ Hfit) as Hmax.
  destruct handlePublish_reachable as (pub & Hden & Hph & Hpi & Hrun). rewrite Hrun.
  pose proof Hden as ((rest & Hpt) & Hlen & _). rewrite Hlen, Ht, Hpt, Ht. change (zlen [x; y] <=? 2) with true. cbv iota.
  erewrite sbind_run by reflexivity. erewrite sbind_run by reflexivity.
  apply send_client_at. eapply sn_publish_run; try done. exists (fun _ _ => True).
  pose proof (Z_of_byte_range x). pose proof (Z_of_byte_range y).
  split_and!; try done; try lia; unfold set_tid_short; cbn [tid_byte0 tid_byte1]; unfold u8; by rewrite Z.mod_small by lia.
Qed.

Hypothesis (Hlong : 2 < zlen topic).

Lemma handlePublish_long : exists pub, publish_denotes pub topic payload /\ gpub_header pub = h /\
  gpub_msgId pub = (if 0 <? qos then msgId else 0) /\
  MQTTGW_handlePublish c packet (set_client c cl g) =
    (match find (has_name topic) (v_topics v) with
     | Some tp => send_client c (sn_publish pub (topicid_of (GWTopic.topic_type tp) (topic_id tp)))
     | None =>
         match find (matches topic) (v_topics v) with
         | None => reply_for_qos c pub
         | Some _ => register_and_wait c pub topic
         end
     end) (set_client c cl g).
Proof.
  destruct handlePublish_reachable as (pub & Hden & Hph & Hpi & Hrun). exists pub. split_and!; try done. rewrite Hrun.
  pose proof Hden as ((rest & Hpt) & Hlen & _). rewrite Hlen, Hpt. test_false (zlen topic <=? 2).
  test_true (zlen topic <=? zlen (topic ++ rest)). rewrite Nat2Z.id, take_app_length.
  erewrite sbind_run by reflexivity. erewrite sbind_run by (apply client_run, (client_byName_run cl v topic Hv)).
  destruct (find (has_name topic) (v_topics v)); [done|].
  erewrite sbind_run by (apply client_run, (client_matching_run cl v topic Hv)).
  by destruct (find (matches topic) (v_topics v)).
Qed.

(** A name the client knows goes out under its identifier. *)
Lemma handlePublish_named tp : find (has_name topic) (v_topics v) = Some tp ->
  let t := TopicId (GWTopic.topic_type tp) (topic_id tp) in topic_ok qos t -> downward_fits t ->
  MQTTGW_handlePublish c packet (set_client c cl g) =
    Some (tt, set_client c cl (posted f_clientSendQue (EtClientSend c (downward_publish t)) g)).
Proof.
  intros Hfind t [Hty Hid] Hfit. pose proof (fits_payload _ Hfit) as Hmax.
  destruct handlePublish_long as (pub & Hden & Hph & Hpi & Hrun). rewrite Hrun, Hfind.
  apply send_client_at. eapply sn_publish_run; try done. exists (fun _ _ => True).
  unfold topicid_of, set_tid_id. destruct (short_bytes (topic_id tp)) as [b0 b1] eqn:E.
  unfold t. cbn [topic_denotes tid_type tid_byte0 tid_byte1 set_tid_type]. by rewrite E.
Qed.

(** A name no topic of the client matches is dropped, and acknowledged. *)
Lemma handlePublish_unmatched : find (has_name topic) (v_topics v) = None -> find (matches topic) (v_topics v) = None ->
  MQTTGW_handlePublish c packet (set_client c cl g) = Some (tt, set_client c cl (answered c qos msgId g)).
Proof.
  intros Hname Hmatch. destruct handlePublish_long as (pub & Hden & Hph & Hpi & Hrun). rewrite Hrun, Hname, Hmatch.
  rewrite <- answered_at. apply reply_for_qos_run; [by rewrite Hph|done|done].
Qed.

(** A name that only a wildcard matches is registered: the identifier goes out
    and the message waits for its acknowledgement. *)
Lemma handlePublish_register wild : find (has_name topic) (v_topics v) = None -> find (matches topic) (v_topics v) = Some wild ->
  zlen (v_topics v) < MAX_TOPIC_PAR_CLIENT -> (Corelib.Init.Byte.x00 ∉ topic) -> qos <> 3 -> 0 <= cl_snMsgId cl < 256 ->
  let id := v_lastId v mod 65534 + 1 in
  let regId := cl_snMsgId cl mod 255 + 1 in
  let t := TopicId MQTTSN_TOPIC_TYPE_NORMAL id in
  sn_fits (sn_register_body id regId topic) -> downward_fits t ->
  exists cl', cl_status cl' = cl_status cl /\ cl_type cl' = cl_type cl /\ cl_holdPingRequest cl' = cl_holdPingRequest cl /\
    cl_snMsgId cl' = regId /\
    client_holds cl' (v_set_regack (v_regack v ++ [(regId, downward_publish t)])
      (v_set_topics id (v_topics v ++ [mkTopic MQTTSN_TOPIC_TYPE_NORMAL id topic]) v)) /\
    MQTTGW_handlePublish c packet (set_client c cl g) =
      Some (tt, set_client c cl' (posted f_clientSendQue
        (EtClientSend c (sn_object (sn_packet MQTTSN_REGISTER (sn_register_body id regId topic)))) g)).
Proof.
  intros Hname Hmatch Hroom Hnul Hq3 Hsn id regId t Hreg Hfit. pose proof (fits_payload _ Hfit) as Hmax.
  destruct handlePublish_long as (pub & Hden & Hph & Hpi & Hrun). rewrite Hrun, Hname, Hmatch.
  assert (Hid : 1 <= id <= 65534) by (unfold id; divmod_lia).
  assert (Hri : 1 <= regId <= 255) by (unfold regId; divmod_lia).
  pose proof (client_register_run cl v topic Hv) as Hadd. unfold registered, added in Hadd. rewrite Hname in Hadd.
  rewrite (c_str_whole topic Hnul), Hname, (proj2 (Z.leb_gt _ _) Hroom) in Hadd. destruct Hadd as (s & Hadd & Hv').
  unfold new_topic, new_last in Hadd, Hv'. cbn [Z.eqb] in Hadd, Hv'. fold id in Hadd, Hv'.
  unfold register_and_wait. erewrite sbind_run by (apply client_run, Hadd). erewrite sbind_run by reflexivity.
  cbn [topic_id]. test_true (0 <? id).
  assert (Hnext : Client_getNextSnMsgId (fset f_topics s cl) = Some (regId, fset f_snMsgId regId (fset f_topics s cl))).
  { unfold Client_getNextSnMsgId, the, put, sbind, sret. cbn [fget f_snMsgId fset f_topics cl_snMsgId].
    unfold regId, u8. destruct (Z.eqb_spec ((cl_snMsgId cl + 1) mod 256) 0).
    - replace (cl_snMsgId cl) with 255 by divmod_lia. done.
    - replace (cl_snMsgId cl mod 255 + 1) with ((cl_snMsgId cl + 1) mod 256) by divmod_lia. done. }
  erewrite sbind_run by (apply client_run, Hnext).
  erewrite sbind_run by (apply send_client_at, (setREGISTER_run Hheap); [lia|lia|done]).
  assert (Hset : sets (sn_publish pub (topicid_of MQTTSN_TOPIC_TYPE_NORMAL id)) (sn_packet MQTTSN_PUBLISH
    (sn_publish_body (header_dup h) qos (header_retain h) (if 0 <? qos then msgId else 0) t payload))).
  { eapply sn_publish_run; try done. exists (fun _ _ => True). unfold topicid_of, set_tid_id.
    destruct (short_bytes id) as [b0 b1] eqn:E. unfold t. cbn [topic_denotes tid_type tid_byte0 tid_byte1 set_tid_type].
    rewrite E. split_and!; try done; [by left|lia|lia]. }
  erewrite sbind_run by (by apply new_sn_run). pose proof Hv' as (Hq & Hr & Hrest).
  destruct (regack_set_run _ _ (downward_publish t) regId Hr) as (l & Hwait & Hl).
  erewrite sbind_run by (apply client_run, (inside_run f_regack), Hwait).
  eexists. split; [|split; [|split; [|split; [|split; [|reflexivity]]]]]; [done|done|done|done|].
  split; [exact Hq|]. split; [exact Hl|exact Hrest].
Qed.
End Downward.

(** *** Registration *)

Definition reachable cl : Prop := cl_status cl = Cstat_Active \/ cl_status cl = Cstat_Awake.

Lemma is_reachable_run c cl g :
  is_reachable c (set_client c cl g) = Some (bool_decide (reachable cl), set_client c cl g).
Proof.
  unfold is_reachable. do 2 (erewrite sbind_run by (by apply client_run)). cbn [fget f_status]. unfold sret.
  rewrite <- bool_decide_or. done.
Qed.

(** REGISTER is answered with the identifier of the name, new or old; with 50
    topics the pointer followed is null. *)
Lemma handleRegister_run c cl v g id0 msgId name : client_holds cl v -> reachable cl -> 0 <= id0 < 65536 -> 0 <= msgId < 65536 ->
  let body := sn_register_body id0 msgId name in
  let packet := sn_object (sn_packet MQTTSN_REGISTER body) in
  sn_readable body ->
  (forall t, t ∈ v_topics v -> has_name name t || has_name (c_str name) t = true -> 0 <= topic_id t) ->
  match registered (v_lastId v) name (v_topics v) with
  | (Some t, (n, ts)) => exists s, let cl' := fset f_topics s cl in client_holds cl' (v_set_topics n ts v) /\
      MQTTSN_handleRegister c packet (set_client c cl g) =
        Some (tt, set_client c cl' (posted f_clientSendQue (EtClientSend c (sn_object (sn_packet MQTTSN_REGACK
          (sn_ack_body (topic_id t) msgId MQTTSN_RC_ACCEPTED)))) g))
  | (None, _) => MQTTSN_handleRegister c packet (set_client c cl g) = None
  end.
Proof.
  intros Hv Hreach Hid Hm body packet Hb Hids.
  destruct (getREGISTER_run id0 msgId name Hb Hid Hm) as (out & Hget & _ & Hpi & Hbytes).
  assert (Hstart : MQTTSN_handleRegister c packet (set_client c cl g) =
    (let! topic := client c (inside f_topics (Topics_register MQTTSN_TOPIC_TYPE_NORMAL name)) in
     let! topic := demand topic in
     send_client c (MQTTSNPacket_setREGACK (topic_id topic) msgId MQTTSN_RC_ACCEPTED)) (set_client c cl g)).
  { unfold MQTTSN_handleRegister. erewrite sbind_run by apply is_reachable_run. rewrite bool_decide_eq_true_2 by done.
    erewrite sbind_run by (by apply demand_run). cbn [Z.eqb]. erewrite sbind_run by (by apply demand_run). by rewrite Hpi. }
  rewrite Hstart. pose proof (client_register_run cl v name Hv) as Hreg.
  destruct (registered (v_lastId v) name (v_topics v)) as [t [n ts]] eqn:Ereg. destruct Hreg as (s & Hreg & Hv').
  destruct t as [t|].
  - exists s. cbv zeta. split; [done|]. erewrite sbind_run by (apply client_run, Hreg). erewrite sbind_run by reflexivity.
    apply send_client_at, (setREGACK_run Hheap); [|lia]. unfold registered, added, new_topic in Ereg.
    pose proof Hv as (_ & _ & (_ & _ & _ & _ & _ & Hok) & _). destruct Hok as (_ & _ & _ & Hn).
    repeat case_match; simplify_eq; cbn [topic_id] in *; try divmod_lia;
      match goal with Hf : find _ _ = Some ?t |- _ =>
        apply find_some in Hf as [Hin Hf]; apply (Hids t); [by apply list_elem_of_In|by rewrite Hf, ?orb_true_r] end.
  - by erewrite sbind_run by (apply client_run, Hreg).
Qed.

Lemma handleRegAck_run c cl v g id0 msgId rc : client_holds cl v -> reachable cl ->
  0 <= id0 < 65536 -> 0 <= msgId < 65536 -> 0 <= rc < 256 ->
  let waiting := regack_remove msgId (v_regack v) in
  let ping := cl_holdPingRequest cl && (u8 (zlen waiting) =? 0) in
  let g1 := match regack_find msgId (v_regack v) with
            | Some packet => posted f_clientSendQue (EtClientSend c packet) g
            | None => g
            end in
  exists cl', client_holds cl' (v_set_regack waiting v) /\ cl_status cl' = cl_status cl /\ cl_type cl' = cl_type cl /\
    cl_holdPingRequest cl' = cl_holdPingRequest cl && negb ping /\
    MQTTSN_handleRegAck c (sn_object (sn_packet MQTTSN_REGACK (sn_ack_body id0 msgId rc))) (set_client c cl g) =
      Some (tt, set_client c cl' (if ping
        then posted f_brokerSendQue (EtBrokerSend c (mkMQTTGWPacket (mqtt_header PINGREQ 0 0 0) 0 Null)) g1 else g1)).
Proof.
  intros Hv Hreach Hid Hm Hrc waiting ping g1. pose proof Hv as (Hq & Hr & Hrest). unfold MQTTSN_handleRegAck.
  erewrite sbind_run by apply is_reachable_run. rewrite bool_decide_eq_true_2 by done.
  erewrite sbind_run by (apply demand_run, (sn_ack_get MQTTSN_REGACK); done). cbn [Z.eqb sa_packetid].
  pose proof (regack_get_run _ _ msgId Hr) as Hget.
  erewrite sbind_run by (apply client_run, (inside_id f_regack); [exact Hget|by destruct cl]).
  assert (exists l, let cl1 := fset f_regack l cl in client_holds cl1 (v_set_regack waiting v) /\
    (match regack_find msgId (v_regack v) with
     | Some regAck => client c (inside f_regack (WaitREGACK_erase msgId)) ;! post f_clientSendQue (EtClientSend c regAck)
     | None => sret tt
     end) (set_client c cl g) = Some (tt, set_client c cl1 g1)) as (l & Hv1 & Hsend).
  { destruct (regack_find msgId (v_regack v)) as [packet|] eqn:E.
    - destruct (regack_erase_run _ _ msgId Hr) as (l & Herase & Hl). exists l. cbv zeta. split; [done|].
      erewrite sbind_run by (apply client_run, (inside_run f_regack), Herase). by rewrite post_at by apply _.
    - exists (cl_regack cl). replace (fset f_regack (cl_regack cl) cl) with cl by (by destruct cl). cbv zeta.
      split; [|done]. unfold waiting. replace (regack_remove msgId (v_regack v)) with (v_regack v); [by destruct v|].
      clear -E. induction (v_regack v) as [|[i p] ps IH]; [done|]. cbn in *. destruct (i =? msgId); [done|].
      f_equal. by apply IH. }
  cbv zeta in Hv1, Hsend. rewrite (sbind_run _ _ _ _ _ Hsend). erewrite sbind_run by (by apply client_run).
  pose proof Hv1 as (_ & (l1 & _ & _ & Hcnt) & _). cbn [v_regack v_set_regack] in Hcnt.
  erewrite sbind_run by (apply client_run, (inside_id f_regack); [unfold WaitREGACK_getCount, get_cnt; cbn [fget fset f_regack cl_regack] in Hcnt |- *; by rewrite Hcnt|done]).
  cbn [fget fset f_regack f_holdPingRequest cl_holdPingRequest]. fold ping. destruct ping eqn:E.
  - exists (fset f_holdPingRequest false (fset f_regack l cl)). split; [exact Hv1|]. split; [done|]. split; [done|].
    split; [by rewrite andb_false_r|].
    erewrite sbind_run by (by apply client_run). by eapply send_broker_at, setHeader_run.
  - exists (fset f_regack l cl). split; [exact Hv1|]. split; [done|]. split; [done|]. split; [by rewrite andb_true_r|done].
Qed.

(** *** PUBACK, PUBREC, PUBREL and PUBCOMP *)

Lemma handlePuback_up c cl g id msgId rc : cl_status cl = Cstat_Active ->
  0 <= id < 65536 -> 0 <= msgId < 65536 -> 0 <= rc < 256 ->
  MQTTSN_handlePuback c (sn_object (sn_packet MQTTSN_PUBACK (sn_ack_body id msgId rc))) (set_client c cl g) =
    Some (tt, set_client c cl (if (rc =? MQTTSN_RC_ACCEPTED) && negb aggregater_active
      then posted f_brokerSendQue (EtBrokerSend c (broker_ack PUBACK msgId)) g else g)).
Proof.
  intros Hst Hid Hm Hrc. unfold MQTTSN_handlePuback. erewrite sbind_run by (by apply client_run).
  cbn [fget f_status]. rewrite Hst. known_tests.
  erewrite sbind_run by (apply demand_run, (sn_ack_get MQTTSN_PUBACK); done). cbn [Z.eqb sa_returncode sa_packetid].
  destruct (_ && _); [|done]. eapply send_broker_at. rewrite setAck_run by (done || lia || apply Hheap). done.
Qed.

Lemma handleAck_up c cl g (ty : MQTTSN_msgTypes) t msgId : cl_status cl = Cstat_Active -> 0 <= msgId < 65536 ->
  ty = MQTTSN_PUBREC \/ ty = MQTTSN_PUBREL \/ ty = MQTTSN_PUBCOMP ->
  MQTTSN_handleAck c (sn_object (sn_packet ty (int_bytes msgId))) t (set_client c cl g) =
    Some (tt, set_client c cl (posted f_brokerSendQue (EtBrokerSend c (broker_ack t msgId)) g)).
Proof.
  intros Hst Hm Hty. unfold MQTTSN_handleAck. erewrite sbind_run by (by apply client_run).
  cbn [fget f_status]. rewrite Hst. known_tests.
  erewrite sbind_run by (by apply demand_run, getACK_run). cbn [Z.eqb].
  eapply send_broker_at. rewrite setAck_run by (done || lia || apply Hheap). done.
Qed.

Lemma read_ack_run h msgId rest g : 0 <= msgId < 65536 -> header_type h ∈ [4; 5; 6; 7; 11] ->
  read_ack (mkMQTTGWPacket h 2 (Owned (int_bytes msgId ++ rest))) g = Some (msgId, g).
Proof.
  intros Hm Hh. unfold read_ack. erewrite sbind_run by (by eapply read_gw_run, getAck_run).
  by erewrite sbind_run by reflexivity.
Qed.

(** The acknowledgements of the broker, for a client that can be reached. *)
Lemma handleAck_down c cl g h msgId t (ty : MQTTSN_msgTypes) : reachable cl -> 0 <= msgId < 65536 -> header_type h = t ->
  (t = PUBREC /\ ty = MQTTSN_PUBREC \/ t = PUBREL /\ ty = MQTTSN_PUBREL \/ t = PUBCOMP /\ ty = MQTTSN_PUBCOMP) ->
  MQTTGW_handleAck c (gw_object h (int_bytes msgId)) t (set_client c cl g) =
    Some (tt, set_client c cl (posted f_clientSendQue (EtClientSend c (sn_object (sn_packet ty (int_bytes msgId)))) g)).
Proof.
  intros Hreach Hm Hh Hty. unfold MQTTGW_handleAck, gw_object.
  erewrite sbind_run; [|rewrite <- (app_nil_r (int_bytes msgId)) at 2; apply read_ack_run; [done|]; rewrite Hh;
    destruct Hty as [[-> _]|[[-> _]|[-> _]]]; apply list_elem_of_In; vm_compute; tauto].
  erewrite sbind_run by apply is_reachable_run. erewrite sbind_run by (by apply client_run).
  rewrite bool_decide_eq_true_2 by done. rewrite (u16_small msgId) by done.
  destruct Hty as [[-> ->]|[[-> ->]|[-> ->]]]; known_eqs; apply send_client_at.
  - apply (sn_ack_set Hheap MQTTSN_PUBREC); lia.
  - apply (sn_ack_set Hheap MQTTSN_PUBREL); lia.
  - apply (sn_ack_set Hheap MQTTSN_PUBCOMP); lia.
Qed.
End Runs.
