(* ===== verification/GWSubscribe.v ===== *)
(** * Subscriptions: MQTTSNGWSubscribeHandler.cpp and MQTTGWSubscribeHandler.cpp *)

From S2P Require Import Prelude CMem MQTTPacket MQTTSubscribe SNPacket SNPublish SNConnect SNSubscribe GWHeap GWTables GWTopic GWPacket GWSNPacket GWClient GWGateway GWPublish.

Section Handlers.
Context `{CharSign} `{ByteOrder} `{HeapSpace} `{PointerBytes} `{GatewayParams}.

(** ** MQTTSNSubscribeHandler: from the client *)

(** The end both requests share: an aggregated client's packet is returned. *)
Definition forward_request (c : loc) (request : MQTTGWPacket) : st Gateway (option MQTTGWPacket) :=
  let! aggregated := client c Client_isAggregated in
  if negb aggregated then post f_brokerSendQue (EtBrokerSend c request) ;! sret None
  else sret (Some request).

(** From the topic filter on. *)
Definition forward_subscribe (c : loc) (filter : list byte) (qos msgId topicId type : Z) :
    st Gateway (option MQTTGWPacket) :=
  let! subscribe := new_gw (MQTTGWPacket_setSUBSCRIBE heap_has (c_str filter) (u8 qos) (u16 msgId)) in
  client c (Client_setWaitedSubTopicId msgId topicId type) ;!
  forward_request c subscribe.

(** The name is looked up before [add] is asked to look it up again. *)
Definition topic_for_filter (c : loc) (name : list byte) : st Gateway (option Topic) :=
  let! topic := client c (inside f_topics (Topics_byName name)) in
  match topic with
  | Some topic => sret (Some topic)
  | None => client c (inside f_topics (Topics_register MQTTSN_TOPIC_TYPE_NORMAL name))
  end.

(** The last but one branch follows a null pointer. *)
Definition MQTTSN_handleSubscribe (c : loc) (packet : MQTTSNPacket) : st Gateway (option MQTTGWPacket) :=
  let! (rc, out) := demand (MQTTSNPacket_getSUBSCRIBE packet) in
  let t := ss_filter out in
  let msgId := ss_packetid out in
  if rc =? 0 then sret None
  else if msgId =? 0 then sret None
  else if tid_type t =? MQTTSN_TOPIC_TYPE_PREDEFINED then
    let! topic := client c (inside f_topics (Topics_byId t)) in
    match topic with
    | Some topic => forward_subscribe c (topic_name topic) (ss_qos out) msgId (topic_id topic) (tid_type t)
    | None =>
        let! topic := inside f_gwTopics (Topics_byId t) in
        match topic with
        | None => undefined
        | Some _ =>
            let! id := demand (topicid_id t) in
            send_client c (MQTTSNPacket_setSUBACK (ss_qos out) id msgId MQTTSN_RC_NOT_SUPPORTED) ;!
            sret None
        end
    end
  else if tid_type t =? MQTTSN_TOPIC_TYPE_NORMAL then
    let! name := demand (topicid_name packet t) in
    let! topic := topic_for_filter c name in
    match topic with
    | Some topic => forward_subscribe c (topic_name topic) (ss_qos out) msgId (topic_id topic) (tid_type t)
    | None => sret None
    end
  else
    let! name := demand (topicid_short t) in
    forward_subscribe c name (ss_qos out) msgId 0 (tid_type t).

Definition MQTTSN_handleUnsubscribe (c : loc) (packet : MQTTSNPacket) : st Gateway (option MQTTGWPacket) :=
  let! (rc, msgId, t) := demand (MQTTSNPacket_getUNSUBSCRIBE packet) in
  if rc =? 0 then sret None
  else if msgId =? 0 then sret None
  else
    let! topic := client c (inside f_topics (Topics_byId t)) in
    if tid_type t =? MQTTSN_TOPIC_TYPE_SHORT then
      let! name := demand (topicid_short t) in
      let! unsubscribe := new_gw (MQTTGWPacket_setUNSUBSCRIBE heap_has (c_str name) msgId) in
      forward_request c unsubscribe
    else
      match topic with
      | None => send_client c (MQTTSNPacket_setUNSUBACK msgId) ;! sret None
      | Some topic =>
          let! unsubscribe := new_gw (MQTTGWPacket_setUNSUBSCRIBE heap_has (c_str (topic_name topic)) msgId) in
          forward_request c unsubscribe
      end.

(** The request of an aggregated client gets an identifier of the aggregater;
    addAggregateTopic and removeAggregateTopic do nothing yet. *)
Definition forward_aggregated (c : loc) (packet : MQTTSNPacket) (request : option MQTTGWPacket) : st Gateway unit :=
  match request with
  | None => sret tt
  | Some request =>
      read_gw request MQTTGWPacket_getTopic ;!
      let! msgId := aggregated_msgId c packet in
      if msgId =? 0 then sret tt
      else let! request := with_msgId request msgId in post f_brokerSendQue (EtBrokerSend c request)
  end.

Definition MQTTSN_handleAggregateSubscribe (c : loc) (packet : MQTTSNPacket) : st Gateway unit :=
  let! subscribe := MQTTSN_handleSubscribe c packet in forward_aggregated c packet subscribe.
Definition MQTTSN_handleAggregateUnsubscribe (c : loc) (packet : MQTTSNPacket) : st Gateway unit :=
  let! unsubscribe := MQTTSN_handleUnsubscribe c packet in forward_aggregated c packet unsubscribe.

(** ** MQTTGWSubscribeHandler: from the broker *)

(** For another packet [msgId] and [rc] stay uninitialised. *)
Definition MQTTGW_handleSuback (c : loc) (packet : MQTTGWPacket) : st Gateway unit :=
  let! suback := read_gw packet MQTTGWPacket_getSUBACK in
  let! (msgId, rc) := demand suback in
  let! topicId := client c (Client_getWaitedSubTopicId msgId) in
  match topicId with
  | Some (id, _) =>
      let '(qos, returnCode) :=
        if rc =? 128 then (0, MQTTSN_RC_REJECTED_INVALID_TOPIC_ID) else (rc, MQTTSN_RC_ACCEPTED) in
      send_client c (MQTTSNPacket_setSUBACK qos id msgId returnCode) ;!
      client c (Client_eraseWaitedSubTopicId msgId)
  | None => sret tt
  end.

Definition MQTTGW_handleUnsuback (c : loc) (packet : MQTTGWPacket) : st Gateway unit :=
  let! msgId := read_ack packet in
  send_client c (MQTTSNPacket_setUNSUBACK msgId).

Definition MQTTGW_handleAggregateSuback (packet : MQTTGWPacket) : st Gateway unit := convert packet MQTTGW_handleSuback.
Definition MQTTGW_handleAggregateUnsuback (packet : MQTTGWPacket) : st Gateway unit :=
  convert packet MQTTGW_handleUnsuback.
End Handlers.

(** ** What the handlers do *)

Lemma c_str_c_str s : c_str (c_str s) = c_str s.
Proof. induction s as [|x s IH]; [done|]. cbn. case_bool_decide; [done|]. cbn. rewrite bool_decide_eq_false_2 by done. by f_equal. Qed.

Section Runs.
Context `{CharSign} `{ByteOrder} `{HeapSpace} `{PointerBytes} `{GatewayParams}.
Hypothesis Hheap : forall n, heap_has n = true.
Implicit Types (g : Gateway) (cl : Client) (v : client_view).

(** *** SUBSCRIBE *)

(** The table of the subscriptions that wait for SUBACK. *)
Definition awaiting_sub (msgId id ty : Z) v : client_view :=
  if (2 * MAX_INFLIGHTMESSAGES <? Z.of_nat (size (v_sub v))) || ((id =? 0) && negb (ty =? MQTTSN_TOPIC_TYPE_SHORT))
  then v else v_set_sub (<[msgId := (id, ty)]> (v_sub v)) v.

(** The SUBSCRIBE for the broker. *)
Definition upward_subscribe (msgId : Z) (filter : list byte) (qos : Z) : list byte :=
  mqtt_packet (mqtt_header SUBSCRIBE 0 1 0) (subscribe_body msgId [(c_str filter, qos)]).

Section Up.
Context (c : loc) (g : Gateway) (dup qos msgId : Z).
Hypotheses (Hqos : 0 <= qos < 3) (HmsgId : 0 < msgId < 65536).

Lemma forward_subscribe_run cl v filter id ty : client_holds cl v -> cl_type cl <> Ctype_Aggregated ->
  exists s m, let cl' := fset f_subMap s cl in client_holds cl' (awaiting_sub msgId id ty v) /\
    gw_wire m = Some (upward_subscribe msgId filter qos) /\
    forward_subscribe c filter qos msgId id ty (set_client c cl g) =
      Some (None, set_client c cl' (posted f_brokerSendQue (EtBrokerSend c m) g)).
Proof.
  intros Hv Hty. unfold forward_subscribe. rewrite (u16_small msgId) by lia. unfold u8. rewrite (Z.mod_small qos) by lia.
  erewrite sbind_run by (eapply new_gw_run, setSUBSCRIBE_run; [done|lia|apply Hheap]).
  destruct (setWaitedSub_run cl v msgId id ty Hv) as (cl' & Hset & (s & ->) & Hv').
  erewrite sbind_run by (apply client_run, Hset). unfold forward_request.
  erewrite sbind_run by (by apply client_run). cbn [fget fset f_type f_subMap cl_type].
  rewrite bool_decide_eq_false_2 by done. cbn [negb]. exists s. eexists. cbv zeta. split; [exact Hv'|].
  split; [|by erewrite sbind_run by (by apply post_at; apply _)]. apply gw_wire_owned.
Qed.

Lemma handleSubscribe_start cl filter : topic_ok 3 filter ->
  let body := sn_subscribe_body dup qos msgId filter in
  let packet := sn_object (sn_packet MQTTSN_SUBSCRIBE body) in
  sn_readable body ->
  exists out, filter_denotes (in_block (mem (sn_mem packet)) 1) (ss_filter out) filter /\ ss_qos out = qos /\
    MQTTSNPacket_getSUBSCRIBE packet = Some (1, out) /\ ss_packetid out = msgId.
Proof.
  intros Hf body packet Hb. destruct (getSUBSCRIBE_run dup qos msgId filter Hb Hf ltac:(lia)) as (out & Hget & Hq & Hi & Hden).
  exists out. rewrite Hq, Z.mod_small by lia. by split_and!.
Qed.

(** A filter given by its name is registered, unless it is already. *)
Lemma handleSubscribe_name cl v name t n ts : client_holds cl v -> cl_type cl <> Ctype_Aggregated -> zlen name <= 65535 ->
  let body := sn_subscribe_body dup qos msgId (TopicLong name) in
  sn_readable body -> registered (v_lastId v) name (v_topics v) = (Some t, (n, ts)) ->
  exists s s' m, let cl' := fset f_subMap s (fset f_topics s' cl) in
    client_holds cl' (awaiting_sub msgId (topic_id t) MQTTSN_TOPIC_TYPE_NORMAL (v_set_topics n ts v)) /\
    gw_wire m = Some (upward_subscribe msgId name qos) /\
    MQTTSN_handleSubscribe c (sn_object (sn_packet MQTTSN_SUBSCRIBE body)) (set_client c cl g) =
      Some (None, set_client c cl' (posted f_brokerSendQue (EtBrokerSend c m) g)).
Proof.
  intros Hv Hty Hlen body Hb Hreg.
  destruct (handleSubscribe_start cl (TopicLong name) (conj eq_refl Hlen) Hb) as (out & Hden & Hq & Hget & Hi).
  destruct Hden as (Htid & _ & _ & Hll & p & Hln & Hin).
  unfold MQTTSN_handleSubscribe. erewrite sbind_run by (by apply demand_run). cbn [Z.eqb].
  rewrite Hi, Htid. test_false (msgId =? 0). known_eqs.
  assert (Hname : topicid_name (sn_object (sn_packet MQTTSN_SUBSCRIBE body)) (ss_filter out) = Some name).
  { unfold topicid_name. rewrite Hln, Hll. by apply sn_bytes_in_block. }
  erewrite sbind_run by (by apply demand_run).
  pose proof (client_register_run cl v name Hv) as Hadd. rewrite Hreg in Hadd. destruct Hadd as (s' & Hadd & Hv').
  assert (Hfind : topic_for_filter c name (set_client c cl g) = Some (Some t, set_client c (fset f_topics s' cl) g) \/
    (topic_for_filter c name (set_client c cl g) = Some (Some t, set_client c cl g) /\ v_set_topics n ts v = v)).
  { unfold topic_for_filter. erewrite sbind_run by (apply client_run, (client_byName_run cl v name Hv)).
    unfold registered in Hreg. destruct (find (has_name name) (v_topics v)) as [t'|] eqn:E.
    - injection Hreg as <- <- <-. right. split; [done|by destruct v].
    - left. by apply client_run. }
  assert (Hnm : c_str (GWTopic.topic_name t) = c_str name).
  { unfold registered, added, new_topic in Hreg. repeat case_match; simplify_eq; cbn; try apply c_str_c_str;
      match goal with Hf : find (has_name ?x) _ = Some ?t |- _ =>
        apply find_some in Hf as [_ Hf]; unfold has_name in Hf; apply bool_decide_eq_true_1 in Hf; rewrite Hf end;
      [done|apply c_str_c_str]. }
  rewrite Hq. destruct Hfind as [Hfind|[Hfind Heq]]; rewrite (sbind_run _ _ _ _ _ Hfind).
  - destruct (forward_subscribe_run (fset f_topics s' cl) _ (GWTopic.topic_name t) (topic_id t) MQTTSN_TOPIC_TYPE_NORMAL Hv' Hty)
      as (s & m & Hcl & Hm & Hrun). exists s, s', m. cbv zeta. unfold upward_subscribe in Hm. rewrite Hnm in Hm. by split_and!.
  - destruct (forward_subscribe_run cl _ (GWTopic.topic_name t) (topic_id t) MQTTSN_TOPIC_TYPE_NORMAL Hv Hty)
      as (s & m & Hcl & Hm & Hrun). exists s, (cl_topics cl), m. cbv zeta.
    replace (fset f_topics (cl_topics cl) cl) with cl by by destruct cl. unfold upward_subscribe in Hm. rewrite Hnm in Hm.
    rewrite Heq. by split_and!.
Qed.

(** A filter of two characters. *)
Lemma handleSubscribe_short cl v c0 c1 : client_holds cl v -> cl_type cl <> Ctype_Aggregated ->
  0 <= c0 < 256 -> 0 <= c1 < 256 ->
  let body := sn_subscribe_body dup qos msgId (TopicShort c0 c1) in
  sn_readable body ->
  exists s m, let cl' := fset f_subMap s cl in client_holds cl' (awaiting_sub msgId 0 MQTTSN_TOPIC_TYPE_SHORT v) /\
    gw_wire m = Some (upward_subscribe msgId [byte_of_Z c0; byte_of_Z c1] qos) /\
    MQTTSN_handleSubscribe c (sn_object (sn_packet MQTTSN_SUBSCRIBE body)) (set_client c cl g) =
      Some (None, set_client c cl' (posted f_brokerSendQue (EtBrokerSend c m) g)).
Proof.
  intros Hv Hty Hc0 Hc1 body Hb.
  destruct (handleSubscribe_start cl (TopicShort c0 c1) (conj Hc0 Hc1) Hb) as (out & Hden & Hq & Hget & Hi).
  unfold filter_denotes in Hden. destruct (topicid_short_of _ _ _ c0 c1 Hden) as (Hs & _ & Htid).
  destruct (forward_subscribe_run cl v [byte_of_Z c0; byte_of_Z c1] 0 MQTTSN_TOPIC_TYPE_SHORT Hv Hty) as (s & m & Hcl & Hm & Hrun).
  exists s, m. split; [done|]. split; [done|]. unfold MQTTSN_handleSubscribe.
  erewrite sbind_run by (by apply demand_run). cbn [Z.eqb].
  rewrite Hi, Htid. test_false (msgId =? 0). known_eqs. erewrite sbind_run by (by apply demand_run). by rewrite Hq.
Qed.

(** A predefined identifier: known to the client, known to the gateway only, and
    unknown, where a null pointer is followed. *)
Lemma handleSubscribe_predefined cl v id n predefined : client_holds cl v -> cl_type cl <> Ctype_Aggregated ->
  topics_hold (gw_topics g) n predefined -> 0 <= id < 65536 ->
  let filter := TopicId MQTTSN_TOPIC_TYPE_PREDEFINED id in
  let body := sn_subscribe_body dup qos msgId filter in
  let packet := sn_object (sn_packet MQTTSN_SUBSCRIBE body) in
  sn_readable body ->
  match by_id MQTTSN_TOPIC_TYPE_PREDEFINED id (v_topics v) with
  | Some t => exists s m, let cl' := fset f_subMap s cl in
      client_holds cl' (awaiting_sub msgId id MQTTSN_TOPIC_TYPE_PREDEFINED v) /\
      gw_wire m = Some (upward_subscribe msgId (GWTopic.topic_name t) qos) /\
      MQTTSN_handleSubscribe c packet (set_client c cl g) =
        Some (None, set_client c cl' (posted f_brokerSendQue (EtBrokerSend c m) g))
  | None =>
      match by_id MQTTSN_TOPIC_TYPE_PREDEFINED id predefined with
      | Some _ => MQTTSN_handleSubscribe c packet (set_client c cl g) =
          Some (None, set_client c cl (posted f_clientSendQue (EtClientSend c (sn_object (sn_packet MQTTSN_SUBACK
            (sn_suback_body qos id msgId MQTTSN_RC_NOT_SUPPORTED)))) g))
      | None => MQTTSN_handleSubscribe c packet (set_client c cl g) = None
      end
  end.
Proof.
  intros Hv Hty Hg Hid filter body packet Hb.
  destruct (handleSubscribe_start cl filter ltac:(split; [by right|done]) Hb) as (out & Hden & Hq & Hget & Hi).
  unfold filter_denotes in Hden. destruct (topicid_id_of _ _ _ _ _ Hden) as [Hti Htt].
  assert (Hstart : MQTTSN_handleSubscribe c packet (set_client c cl g) =
    (match by_id MQTTSN_TOPIC_TYPE_PREDEFINED id (v_topics v) with
     | Some topic => forward_subscribe c (GWTopic.topic_name topic) qos msgId (topic_id topic) MQTTSN_TOPIC_TYPE_PREDEFINED
     | None =>
         match by_id MQTTSN_TOPIC_TYPE_PREDEFINED id predefined with
         | None => undefined
         | Some _ => send_client c (MQTTSNPacket_setSUBACK qos id msgId MQTTSN_RC_NOT_SUPPORTED) ;! sret None
         end
     end) (set_client c cl g)).
  { unfold MQTTSN_handleSubscribe. erewrite sbind_run by (by apply demand_run). cbn [Z.eqb].
    rewrite Hi, Htt. test_false (msgId =? 0). known_eqs.
    erewrite sbind_run by (apply client_run, (client_byId_run cl v _ _ Hv Hti)). rewrite Htt, Hq.
    destruct (by_id _ _ (v_topics v)); [done|].
    assert (Hgw : inside f_gwTopics (Topics_byId (ss_filter out)) (set_client c cl g) =
      Some (by_id MQTTSN_TOPIC_TYPE_PREDEFINED id predefined, set_client c cl g)).
    { apply inside_id; [|done]. rewrite <- Htt. by apply (Topics_byId_run _ n). }
    rewrite (sbind_run _ _ _ _ _ Hgw). destruct (by_id _ _ predefined); [|done].
    by erewrite sbind_run by (by apply demand_run). }
  rewrite Hstart. destruct (by_id _ _ (v_topics v)) as [t|] eqn:E.
  - assert (topic_id t = id) as ->.
    { apply find_some in E as [_ E]. apply andb_true_iff in E as [_ E]. by apply Z.eqb_eq. }
    by apply forward_subscribe_run.
  - destruct (by_id _ _ predefined); [|done].
    by erewrite sbind_run by (apply send_client_at, (setSUBACK_run Hheap); lia).
Qed.
End Up.

(** *** SUBACK *)

Lemma handleSuback_run c cl v g h msgId rc id ty : client_holds cl v -> header_type h = SUBACK -> 0 <= msgId < 65536 ->
  0 <= rc < 256 -> 0 <= id -> v_sub v !! msgId = Some (id, ty) ->
  exists s, let cl' := fset f_subMap s cl in client_holds cl' (v_set_sub (delete msgId (v_sub v)) v) /\
    MQTTGW_handleSuback c (gw_object h (int_bytes msgId ++ [byte_of_Z rc])) (set_client c cl g) =
      Some (tt, set_client c cl' (posted f_clientSendQue (EtClientSend c (sn_object (sn_packet MQTTSN_SUBACK
        (if rc =? 128 then sn_suback_body 0 id msgId MQTTSN_RC_REJECTED_INVALID_TOPIC_ID
         else sn_suback_body rc id msgId MQTTSN_RC_ACCEPTED)))) g)).
Proof.
  intros Hv Hh Hm Hrc Hid Hin. unfold MQTTGW_handleSuback.
  assert (Hget : MQTTGWPacket_getSUBACK (gw_object h (int_bytes msgId ++ [byte_of_Z rc])) =
    Some (Some (msgId, rc), gw_object h (int_bytes msgId ++ [byte_of_Z rc]))).
  { unfold MQTTGWPacket_getSUBACK, gw_object. sprim. cbn [gp_header]. rewrite Hh. known_eqs.
    erewrite sbind_run by (by apply (gw_readInt_run h _ [])). cbv iota beta. unfold gw_readChar. rewrite sbind_assoc.
    erewrite sbind_run; [|apply gp_at_run; apply (lookupZ_app (int_bytes msgId))]. by rewrite Z_of_byte_small. }
  erewrite sbind_run by (by eapply read_gw_run). erewrite sbind_run by reflexivity. cbv iota beta.
  erewrite sbind_run by (apply client_run, (getWaitedSub_run cl v _ Hv)). rewrite Hin.
  destruct (eraseWaitedSub_run cl v msgId Hv) as (cl' & Herase & (s & ->) & Hv'); [by rewrite Hin|].
  exists s. cbv zeta. split; [done|]. destruct (rc =? 128);
    (erewrite sbind_run by (apply send_client_at, (setSUBACK_run Hheap); lia)); by apply client_run.
Qed.

(** *** UNSUBSCRIBE *)

(** A filter given by its name is looked up with the bytes of the pointer to
    it: the client gets UNSUBACK and the broker nothing. *)
Lemma handleUnsubscribe_name c cl v g msgId name : client_holds cl v -> 0 < msgId < 65536 -> zlen name <= 65535 ->
  let body := sn_subscribe_body 0 0 msgId (TopicLong name) in
  sn_readable body -> (forall o, by_id MQTTSN_TOPIC_TYPE_NORMAL (ptr_id (Ptr 1 o)) (v_topics v) = None) ->
  MQTTSN_handleUnsubscribe c (sn_object (sn_packet MQTTSN_UNSUBSCRIBE body)) (set_client c cl g) =
    Some (None, set_client c cl (posted f_clientSendQue
      (EtClientSend c (sn_object (sn_packet MQTTSN_UNSUBACK (int_bytes msgId)))) g)).
Proof.
  intros Hv Hm Hlen body Hb Hno.
  destruct (getUNSUBSCRIBE_run msgId (TopicLong name) Hb (conj eq_refl Hlen) ltac:(lia)) as (t & Hget & Hden & Hptr).
  destruct Hden as (Htid & _ & _ & _ & p & Hln & (o & -> & _)). cbn [holds_pointer] in Hptr.
  assert (Hti : topicid_id t = Some (ptr_id (Ptr 1 o))) by (unfold topicid_id; by rewrite Hptr, Hln).
  unfold MQTTSN_handleUnsubscribe. erewrite sbind_run by (by apply demand_run). cbn [Z.eqb]. test_false (msgId =? 0).
  erewrite sbind_run by (apply client_run, (client_byId_run cl v _ _ Hv Hti)). rewrite Htid, Hno. known_eqs.
  by erewrite sbind_run by (apply send_client_at, (setUNSUBACK_run Hheap); lia).
Qed.

(** By its predefined identifier, it is found. *)
Lemma handleUnsubscribe_predefined c cl v g msgId id t : client_holds cl v -> cl_type cl <> Ctype_Aggregated ->
  0 < msgId < 65536 -> 0 <= id < 65536 ->
  let body := sn_subscribe_body 0 0 msgId (TopicId MQTTSN_TOPIC_TYPE_PREDEFINED id) in
  sn_readable body -> by_id MQTTSN_TOPIC_TYPE_PREDEFINED id (v_topics v) = Some t ->
  exists m, gw_wire m = Some (mqtt_packet (mqtt_header UNSUBSCRIBE 0 1 0) (unsubscribe_body msgId [c_str (GWTopic.topic_name t)])) /\
    MQTTSN_handleUnsubscribe c (sn_object (sn_packet MQTTSN_UNSUBSCRIBE body)) (set_client c cl g) =
      Some (None, set_client c cl (posted f_brokerSendQue (EtBrokerSend c m) g)).
Proof.
  intros Hv Hty Hm Hid body Hb Hin.
  destruct (getUNSUBSCRIBE_run msgId (TopicId MQTTSN_TOPIC_TYPE_PREDEFINED id) Hb ltac:(split; [by right|done]) ltac:(lia))
    as (tid & Hget & Hden & _).
  unfold filter_denotes in Hden. destruct (topicid_id_of _ _ _ _ _ Hden) as [Hti Htt].
  unfold MQTTSN_handleUnsubscribe. erewrite sbind_run by (by apply demand_run). cbn [Z.eqb]. test_false (msgId =? 0).
  erewrite sbind_run by (apply client_run, (client_byId_run cl v _ _ Hv Hti)). rewrite Htt, Hin. known_eqs.
  erewrite sbind_run by (eapply new_gw_run, setUNSUBSCRIBE_run; [done|lia|apply Hheap]). unfold forward_request.
  erewrite sbind_run by (by apply client_run). cbn [fget f_type]. rewrite bool_decide_eq_false_2 by done. cbn [negb].
  eexists. split; [apply gw_wire_owned|]. by erewrite sbind_run by (by apply post_at; apply _).
Qed.
End Runs.
