(* ===== verification/GWTask.v ===== *)
(** * The task that handles packets: MQTTSNGWPacketHandleTask.cpp

    It takes the events of the packet queue and calls the handlers; the tasks
    that send to the broker (MQTTSNGWBrokerSendTask.cpp) run beside it. *)

From S2P Require Import Prelude CMem MQTTPacket SNPacket SNPublish SNConnect SNSubscribe GWHeap GWTables GWTopic GWPacket GWSNPacket GWClient GWGateway GWConnect GWPublish GWSubscribe.

Section Task.
Context `{CharSign} `{ByteOrder} `{HeapSpace} `{PointerBytes} `{GatewayParams}.

(** ** The handler of a packet *)

Definition ignore {R} (m : st Gateway R) : st Gateway unit := m ;! sret tt.

Definition transparentPacketHandler_sn (c : loc) (packet : MQTTSNPacket) : st Gateway unit :=
  let! type := demand (MQTTSNPacket_getType packet) in
  if type =? MQTTSN_CONNECT then MQTTSN_handleConnect c packet
  else if type =? MQTTSN_WILLTOPIC then MQTTSN_handleWilltopic c packet
  else if type =? MQTTSN_WILLMSG then MQTTSN_handleWillmsg c packet
  else if type =? MQTTSN_DISCONNECT then MQTTSN_handleDisconnect c packet
  else if type =? MQTTSN_WILLMSGUPD then MQTTSN_handleWillmsgupd c
  else if type =? MQTTSN_PINGREQ then MQTTSN_handlePingreq c
  else if type =? MQTTSN_PUBLISH then ignore (MQTTSN_handlePublish c packet)
  else if type =? MQTTSN_PUBACK then MQTTSN_handlePuback c packet
  else if type =? MQTTSN_PUBREC then MQTTSN_handleAck c packet PUBREC
  else if type =? MQTTSN_PUBREL then MQTTSN_handleAck c packet PUBREL
  else if type =? MQTTSN_PUBCOMP then MQTTSN_handleAck c packet PUBCOMP
  else if type =? MQTTSN_REGISTER then MQTTSN_handleRegister c packet
  else if type =? MQTTSN_REGACK then MQTTSN_handleRegAck c packet
  else if type =? MQTTSN_SUBSCRIBE then ignore (MQTTSN_handleSubscribe c packet)
  else if type =? MQTTSN_UNSUBSCRIBE then ignore (MQTTSN_handleUnsubscribe c packet)
  else sret tt.

Definition aggregatePacketHandler_sn (c : loc) (packet : MQTTSNPacket) : st Gateway unit :=
  let! type := demand (MQTTSNPacket_getType packet) in
  if type =? MQTTSN_CONNECT then Aggregate_handleConnect c packet
  else if type =? MQTTSN_WILLTOPIC then MQTTSN_handleWilltopic c packet
  else if type =? MQTTSN_WILLMSG then Aggregate_handleWillmsg c packet
  else if type =? MQTTSN_DISCONNECT then Aggregate_handleDisconnect c
  else if type =? MQTTSN_WILLMSGUPD then MQTTSN_handleWillmsgupd c
  else if type =? MQTTSN_PINGREQ then Aggregate_handlePingreq c
  else if type =? MQTTSN_PUBLISH then MQTTSN_handleAggregatePublish c packet
  else if (type =? MQTTSN_PUBACK) || (type =? MQTTSN_PUBREC) || (type =? MQTTSN_PUBREL) || (type =? MQTTSN_PUBCOMP)
  then MQTTSN_handleAggregateAck c packet type
  else if type =? MQTTSN_REGISTER then MQTTSN_handleRegister c packet
  else if type =? MQTTSN_REGACK then MQTTSN_handleRegAck c packet
  else if type =? MQTTSN_SUBSCRIBE then MQTTSN_handleAggregateSubscribe c packet
  else if type =? MQTTSN_UNSUBSCRIBE then MQTTSN_handleAggregateUnsubscribe c packet
  else sret tt.

Definition transparentPacketHandler_gw (c : loc) (packet : MQTTGWPacket) : st Gateway unit :=
  let! type := read_gw packet MQTTGWPacket_getType in
  if type =? CONNACK then MQTTGW_handleConnack c packet
  else if type =? PINGRESP then MQTTGW_handlePingresp c
  else if type =? PUBLISH then MQTTGW_handlePublish c packet
  else if type =? PUBACK then MQTTGW_handlePuback c packet
  else if type =? PUBREC then MQTTGW_handleAck c packet PUBREC
  else if type =? PUBREL then MQTTGW_handleAck c packet PUBREL
  else if type =? PUBCOMP then MQTTGW_handleAck c packet PUBCOMP
  else if type =? SUBACK then MQTTGW_handleSuback c packet
  else if type =? UNSUBACK then MQTTGW_handleUnsuback c packet
  else sret tt.

Definition aggregatePacketHandler_gw (c : loc) (packet : MQTTGWPacket) : st Gateway unit :=
  let! type := read_gw packet MQTTGWPacket_getType in
  if type =? CONNACK then MQTTGW_handleConnack c packet
  else if type =? PINGRESP then MQTTGW_handlePingresp c
  else if type =? PUBLISH then MQTTGW_handleAggregatePublish c packet
  else if type =? PUBACK then MQTTGW_handleAggregatePuback packet
  else if type =? PUBREC then MQTTGW_handleAggregateAck packet PUBREC
  else if type =? PUBREL then MQTTGW_handleAggregatePubrel c packet
  else if type =? PUBCOMP then MQTTGW_handleAggregateAck packet PUBCOMP
  else if type =? SUBACK then MQTTGW_handleAggregateSuback packet
  else if type =? UNSUBACK then MQTTGW_handleAggregateUnsuback packet
  else sret tt.

(** ** One event *)

(** AdapterManager::isAggregatedClient *)
Definition isAggregatedClient (c : loc) : st Gateway bool :=
  let! qosm1 := client c Client_isQoSm1 in
  let! aggregater := client c Client_isAggregater in
  let! proxy := client c Client_isQoSm1Proxy in
  sret (aggregater_active && negb qosm1 && negb aggregater && negb proxy).

(** The events of clients and of the broker; the timeout is a step of its own. *)
Definition handle_event (ev : Event) : st Gateway unit :=
  match ev with
  | EtBroadcast packet => handleSearchgw packet
  | EtClientRecv c packet =>
      let! aggregated := isAggregatedClient c in
      (if aggregated then aggregatePacketHandler_sn c packet else transparentPacketHandler_sn c packet) ;!
      client c (Client_updateStatus packet)
  | EtBrokerRecv c packet =>
      let! aggregater := client c Client_isAggregater in
      if aggregater then aggregatePacketHandler_gw c packet else transparentPacketHandler_gw c packet
  | _ => sret tt
  end.

(** ** The task that sends to the broker *)

(** AdapterManager::getClient: the client on whose connection a packet goes.
    Both branches of getAdapterClient return the adapter's first client. *)
Definition adapter_client (c : loc) : st Gateway loc :=
  let! qosm1 := client c Client_isQoSm1 in
  let! aggregated := client c Client_isAggregated in
  sret (if qosm1 then qosm1Proxy_client else if aggregated then aggregater_client else c).

(** One event of BrokerSendTask::run; [connected] and [sent] are what the
    network answers to [connect] and [send]. *)
Definition broker_send_event (connected : bool) (sent : Z) (ev : Event) : st Gateway unit :=
  match ev with
  | EtBrokerSend c packet =>
      let! c := adapter_client c in
      let! type := read_gw packet MQTTGWPacket_getType in
      let! valid := client c (the f_networkValid) in
      (if (type =? CONNECT) && valid then client c (put f_networkValid false) else sret tt) ;!
      let! valid := client c (the f_networkValid) in
      (if valid : bool then sret tt else client c (put f_networkValid connected)) ;!
      let! valid := client c (the f_networkValid) in
      if negb valid then sret tt
      else if 0 <? sent then (if type =? CONNECT then client c Client_connectSended else sret tt)
      else
        client c (put f_networkValid false) ;!
        let! packet := new_gw (MQTTGWPacket_setHeader DISCONNECT) in
        post f_packetEventQue (EtBrokerRecv c packet)
  | _ => sret tt
  end.

(** ** Steps of the gateway *)

(** The tasks take events from their queues; the receiving tasks put them into
    the packet queue, for a client that exists; clients come to be by CONNECT. *)
Inductive gw_step : Gateway -> Gateway -> Prop :=
  | step_packet g ev q g' : EventQue_wait (gw_packetEventQue g) = Some (ev, q) ->
      handle_event ev (fset f_packetEventQue q g) = Some (tt, g') -> gw_step g g'
  | step_advertise g g' : sendADVERTISE g = Some (tt, g') -> gw_step g g'
  | step_broker_send g ev q connected sent g' : EventQue_wait (gw_brokerSendQue g) = Some (ev, q) ->
      broker_send_event connected sent ev (fset f_brokerSendQue q g) = Some (tt, g') -> gw_step g g'
  | step_client_send g ev q : EventQue_wait (gw_clientSendQue g) = Some (ev, q) ->
      gw_step g (fset f_clientSendQue q g)
  | step_client_recv g c cl packet : gw_clients g !! c = Some cl ->
      gw_step g (posted f_packetEventQue (EtClientRecv c packet) g)
  | step_broker_recv g c cl packet : gw_clients g !! c = Some cl ->
      gw_step g (posted f_packetEventQue (EtBrokerRecv c packet) g)
  | step_new_client g c secure id cl : gw_clients g !! c = None ->
      Client_setClientId id (newClient secure) = Some (tt, cl) -> gw_step g (set_client c cl g).

Inductive gw_reach (topics : Topics) : Gateway -> Prop :=
  | reach_start : gw_reach topics (newGateway topics)
  | reach_step g g' : gw_reach topics g -> gw_step g g' -> gw_reach topics g'.
End Task.

(** ** What every step keeps *)

Definition client_ok (cl : Client) : Prop :=
  exists v, client_holds cl v /\ zlen (v_sleeping v) <= MAX_SAVED_PUBLISH.

Definition que_ok (q : EventQue) : Prop :=
  eq_maxSize q = MAX_INFLIGHTMESSAGES * MAX_CLIENTS /\ zlen (eq_events q) <= eq_maxSize q.

Definition gateway_ok (g : Gateway) : Prop :=
  (forall c cl, gw_clients g !! c = Some cl -> client_ok cl) /\
  (exists n ts, topics_hold (gw_topics g) n ts) /\ que_ok (gw_packetEventQue g).

(** The events for the clients of [S]; a broadcast is for no client. *)
Definition addressed (S : loc -> Prop) (ev : Event) : Prop :=
  match ev with
  | EtBrokerRecv c _ | EtBrokerSend c _ | EtClientRecv c _ | EtClientSend c _ => S c
  | _ => True
  end.
Definition grows (S : loc -> Prop) (q q' : EventQue) : Prop :=
  exists evs, eq_events q' = eq_events q ++ evs /\ Forall (addressed S) evs.

(** An operation keeps the clients in order, touches none but those of [S] and
    posts events for those only. *)
Definition client_keeps {R} (m : st Client R) : Prop :=
  forall cl r cl', client_ok cl -> m cl = Some (r, cl') -> client_ok cl'.
Definition others_same (S : loc -> Prop) (g g' : Gateway) : Prop :=
  (forall k, ~ S k -> gw_clients g' !! k = gw_clients g !! k) /\
  grows S (gw_packetEventQue g) (gw_packetEventQue g') /\ grows S (gw_brokerSendQue g) (gw_brokerSendQue g') /\
  grows S (gw_clientSendQue g) (gw_clientSendQue g') /\ grows S (gw_suspended g) (gw_suspended g') /\
  grows S (gw_suspendedSecure g) (gw_suspendedSecure g').
Definition keeps {R} (S : loc -> Prop) (m : st Gateway R) : Prop :=
  forall g r g', gateway_ok g -> m g = Some (r, g') -> gateway_ok g' /\ others_same S g g'.

Create HintDb gateway.

Lemma client_keeps_bind {R Q} (m : st Client R) (k : R -> st Client Q) :
  client_keeps m -> (forall r, client_keeps (k r)) -> client_keeps (sbind m k).
Proof. intros Hm Hk cl q cl' Hcl. unfold sbind. destruct (m cl) as [[r cl1]|] eqn:E; [|done]. intros E'.
  eapply (Hk r); [|exact E']. by eapply Hm.
Qed.

Lemma client_keeps_ret {R} (r : R) : client_keeps (sret r).
Proof. by intros cl ? ? ? [= _ <-]. Qed.

Lemma client_keeps_undefined {R} : client_keeps (undefined (R := R)).
Proof. by intros ????. Qed.

Lemma client_keeps_demand {R} (o : option R) : client_keeps (demand o).
Proof. intros cl r cl' Hcl. unfold demand. destruct o; [by intros [= _ <-]|done]. Qed.

Lemma client_keeps_the {T} (f : field Client T) : client_keeps (the f).
Proof. by intros cl ? ? ? [= _ <-]. Qed.

Lemma client_keeps_put {T} (f : field Client T) x : (forall cl, same_tables cl (fset f x cl)) -> client_keeps (put f x).
Proof.
  intros Hf cl r cl' (v & Hv & Hl) [= _ <-]. exists v. split; [|done]. by apply (same_tables_holds cl).
Qed.

#[export] Hint Resolve client_keeps_ret client_keeps_undefined client_keeps_demand client_keeps_the : gateway.
#[export] Hint Extern 1 (client_keeps (put _ _)) => apply client_keeps_put; intros; by split_and! : gateway.

Lemma grows_refl S q : grows S q q.
Proof. exists []. by rewrite app_nil_r. Qed.

Lemma grows_trans S q q1 q2 : grows S q q1 -> grows S q1 q2 -> grows S q q2.
Proof.
  intros (evs & E1 & H1) (evs' & E2 & H2). exists (evs ++ evs'). rewrite E2, E1, app_assoc. split; [done|].
  by apply Forall_app.
Qed.

Lemma grows_post (S : loc -> Prop) ev q : addressed S ev -> grows S q (EventQue_post ev q).
Proof.
  intros Hev. unfold EventQue_post. destruct (_ || _); [|apply grows_refl]. exists [ev]. split; [done|].
  by apply Forall_singleton.
Qed.
#[export] Hint Resolve grows_refl grows_post : gateway.

Lemma others_same_refl S g : others_same S g g.
Proof. unfold others_same. split_and!; auto using grows_refl. Qed.

Lemma others_same_trans S g g1 g2 : others_same S g g1 -> others_same S g1 g2 -> others_same S g g2.
Proof.
  intros (Hc & Hp & Hb & Hs & Hu & Hv) (Hc' & Hp' & Hb' & Hs' & Hu' & Hv').
  split; [intros k Hk; by rewrite Hc', Hc|]. split_and!; by eapply grows_trans.
Qed.

Lemma others_same_client (S : loc -> Prop) c cl g : S c -> others_same S g (set_client c cl g).
Proof.
  intros HS. split; [|split_and!; apply grows_refl]. intros k Hk. unfold set_client. cbn [gw_clients].
  rewrite lookup_insert_ne; [done|]. by intros <-.
Qed.

Lemma keeps_bind {R Q} S (m : st Gateway R) (k : R -> st Gateway Q) :
  keeps S m -> (forall r, keeps S (k r)) -> keeps S (sbind m k).
Proof.
  intros Hm Hk g q g' Hg. unfold sbind. destruct (m g) as [[r g1]|] eqn:E; [|done]. intros E'.
  destruct (Hm _ _ _ Hg E) as [Hg1 Hs1]. destruct (Hk _ _ _ _ Hg1 E') as [Hg2 Hs2]. split; [done|].
  by eapply others_same_trans.
Qed.

Lemma keeps_pure {R} S (m : st Gateway R) : (forall g r g', m g = Some (r, g') -> g' = g) -> keeps S m.
Proof. intros Hm g r g' Hg E. rewrite (Hm _ _ _ E). split; [done|apply others_same_refl]. Qed.

Lemma keeps_pure_ok {R} S (m : st Gateway R) : (forall g r g', gateway_ok g -> m g = Some (r, g') -> g' = g) -> keeps S m.
Proof. intros Hm g r g' Hg E. rewrite (Hm _ _ _ Hg E). split; [done|apply others_same_refl]. Qed.

Lemma keeps_ret {R} S (r : R) : keeps S (sret r).
Proof. apply keeps_pure. by intros g ? ? [= _ <-]. Qed.

Lemma keeps_undefined {R} S : keeps S (undefined (R := R)).
Proof. by intros ????. Qed.

Lemma keeps_demand {R} S (o : option R) : keeps S (demand o).
Proof. apply keeps_pure. intros g r g'. unfold demand. destruct o; [by intros [= _ <-]|done]. Qed.

Lemma keeps_client {R} (S : loc -> Prop) c (m : st Client R) : S c -> client_keeps m -> keeps S (client c m).
Proof.
  intros HS Hm g r g' (Hc & Ht & Hq). unfold client. destruct (gw_clients g !! c) as [cl|] eqn:E; [|done].
  destruct (m cl) as [[r1 cl1]|] eqn:Em; [|done]. intros [= -> <-]. split; [split; [|done]|by apply others_same_client].
  intros k cl2. unfold set_client. cbn [gw_clients]. destruct (decide (k = c)) as [->|Hk].
  - rewrite lookup_insert_eq. intros [= <-]. eapply Hm; [|exact Em]. by eapply Hc.
  - rewrite lookup_insert_ne by done. apply Hc.
Qed.

Lemma que_ok_post ev q : que_ok q -> que_ok (EventQue_post ev q).
Proof.
  intros [Hm Hl]. unfold EventQue_post. destruct ((_ =? 0) || _) eqn:E; [|done]. split; [done|].
  cbn [eq_events eq_maxSize]. rewrite Hm in E. change (MAX_INFLIGHTMESSAGES * MAX_CLIENTS) with 1000 in *.
  change (1000 =? 0) with false in E. cbn [orb] in E. rewrite Hm. zlen_lia.
Qed.

Lemma keeps_post S (q : field Gateway EventQue) ev : addressed S ev ->
  (forall g, others_same S g (posted q ev g)) ->
  (forall g, gateway_ok g -> que_ok (gw_packetEventQue (posted q ev g))) ->
  (forall g, gw_clients (posted q ev g) = gw_clients g /\ gw_topics (posted q ev g) = gw_topics g) -> keeps S (post q ev).
Proof.
  intros Hev Hsame Hque Hrest g r g' Hg [= _ <-]. destruct (Hrest g) as [Hc Ht]. split; [|apply Hsame].
  split; [|split; [|by apply Hque]]; pose proof Hg as (Hcl & Htp & _); unfold posted in *; [by rewrite Hc|by rewrite Ht].
Qed.

Ltac keeps_post_tac := intros; apply keeps_post; [done|
  intros; unfold others_same, posted; split_and!; first [done|apply grows_refl|by apply grows_post]|intros ? (? & ? & ?); first [done|by apply que_ok_post]|done].

Lemma keeps_post_packet S ev : addressed S ev -> keeps S (post f_packetEventQue ev).
Proof. keeps_post_tac. Qed.
Lemma keeps_post_broker S ev : addressed S ev -> keeps S (post f_brokerSendQue ev).
Proof. keeps_post_tac. Qed.
Lemma keeps_post_client S ev : addressed S ev -> keeps S (post f_clientSendQue ev).
Proof. keeps_post_tac. Qed.
Lemma keeps_post_suspended S ev : addressed S ev -> keeps S (post f_suspended ev).
Proof. keeps_post_tac. Qed.
Lemma keeps_post_suspendedSecure S ev : addressed S ev -> keeps S (post f_suspendedSecure ev).
Proof. keeps_post_tac. Qed.

Lemma keeps_new_sn S set : keeps S (new_sn set).
Proof. apply keeps_bind; [apply keeps_demand|]. intros [? ?]. apply keeps_ret. Qed.
Lemma keeps_new_gw S set : keeps S (new_gw set).
Proof. apply keeps_bind; [apply keeps_demand|]. intros [? ?]. apply keeps_ret. Qed.
Lemma keeps_read_gw {R} S p (get : st MQTTGWPacket R) : keeps S (read_gw p get).
Proof. apply keeps_bind; [apply keeps_demand|]. intros [? ?]. apply keeps_ret. Qed.
Lemma keeps_send_client (S : loc -> Prop) c set : S c -> keeps S (send_client c set).
Proof. intros. apply keeps_bind; [apply keeps_new_sn|]. intros ?. by apply keeps_post_client. Qed.
Lemma keeps_send_broker (S : loc -> Prop) c set : S c -> keeps S (send_broker c set).
Proof. intros. apply keeps_bind; [apply keeps_new_gw|]. intros ?. by apply keeps_post_broker. Qed.

#[export] Hint Extern 1 (addressed _ _) => simpl; auto : gateway.

#[export] Hint Resolve keeps_ret keeps_undefined keeps_demand keeps_client keeps_post_packet keeps_post_broker
  keeps_post_client keeps_post_suspended keeps_post_suspendedSecure keeps_new_sn keeps_new_gw keeps_read_gw keeps_send_client
  keeps_send_broker : gateway.

(** What only reads, or makes a packet. *)
Lemma sbind_inv {S R Q} (m : st S R) (k : R -> st S Q) s q s' : sbind m k s = Some (q, s') ->
  exists r s1, m s = Some (r, s1) /\ k r s1 = Some (q, s').
Proof. unfold sbind. destruct (m s) as [[r s1]|]; [|done]. by exists r, s1. Qed.

Lemma demand_pure {S R} (o : option R) (s : S) r s' : demand o s = Some (r, s') -> s' = s.
Proof. unfold demand. destruct o; [by intros [= _ <-]|done]. Qed.

Lemma read_gw_pure {R} p (get : st MQTTGWPacket R) g r g' : read_gw p get g = Some (r, g') -> g' = g.
Proof. intros ([? ?] & g1 & Hd & Hr)%sbind_inv. apply demand_pure in Hd as ->. by injection Hr as _ <-. Qed.

Lemma new_sn_pure set g r g' : new_sn set g = Some (r, g') -> g' = g.
Proof. intros ([? ?] & g1 & Hd & Hr)%sbind_inv. apply demand_pure in Hd as ->. by injection Hr as _ <-. Qed.

Lemma read_ack_pure p g r g' : read_ack p g = Some (r, g') -> g' = g.
Proof.
  intros (a & g1 & Ha & Hr)%sbind_inv. apply read_gw_pure in Ha as ->.
  apply sbind_inv in Hr as ([? ?] & g1 & Hd & Hr). apply demand_pure in Hd as ->. by injection Hr as _ <-.
Qed.

Lemma send_client_clients c set g r g' : send_client c set g = Some (r, g') -> gw_clients g' = gw_clients g.
Proof. intros (p & g1 & Hn & Hp)%sbind_inv. apply new_sn_pure in Hn as ->. by injection Hp as _ <-. Qed.

(** Walks through a handler: binds, tests and matches, the rest by the hints. *)
Ltac walk_step :=
  match goal with
  | |- keeps _ (sbind _ _) => apply keeps_bind; [|intros]
  | |- client_keeps (sbind _ _) => apply client_keeps_bind; [|intros]
  | |- keeps _ (match ?x with _ => _ end) => destruct x
  | |- client_keeps (match ?x with _ => _ end) => destruct x
  | |- keeps _ (client _ _) => apply keeps_client; [by auto|]
  | |- keeps _ (post (match ?x with _ => _ end) _) => destruct x
  | |- _ => progress cbv beta zeta
  end.
Ltac walk := repeat (autounfold with gateway; repeat walk_step); eauto with gateway.

(** *** The operations of a client *)

Lemma client_keeps_run {R} (m : st Client R) :
  (forall cl v, client_holds cl v -> zlen (v_sleeping v) <= MAX_SAVED_PUBLISH ->
     m cl = None \/ exists r cl' v', m cl = Some (r, cl') /\ client_holds cl' v' /\ zlen (v_sleeping v') <= MAX_SAVED_PUBLISH) ->
  client_keeps m.
Proof.
  intros Hm cl r cl' (v & Hv & Hl) E. destruct (Hm cl v Hv Hl) as [E'|(r1 & cl1 & v1 & E' & Hv1 & Hl1)].
  - by rewrite E in E'.
  - rewrite E in E'. injection E' as _ <-. by exists v1.
Qed.

Lemma client_keeps_waited msgId :
  client_keeps (Client_getWaitedPubTopicId msgId) /\ client_keeps (Client_getWaitedSubTopicId msgId).
Proof.
  split; apply client_keeps_run; intros cl v Hv Hl; right.
  - exists (v_pub v !! msgId), cl, v. by rewrite (getWaitedPub_run cl v).
  - exists (v_sub v !! msgId), cl, v. by rewrite (getWaitedSub_run cl v).
Qed.

Lemma client_keeps_getPub msgId : client_keeps (Client_getWaitedPubTopicId msgId).
Proof. apply client_keeps_waited. Qed.
Lemma client_keeps_getSub msgId : client_keeps (Client_getWaitedSubTopicId msgId).
Proof. apply client_keeps_waited. Qed.

Lemma client_keeps_setPub msgId id ty : client_keeps (Client_setWaitedPubTopicId msgId id ty).
Proof.
  apply client_keeps_run. intros cl v Hv Hl. right.
  destruct (setWaitedPub_run cl v msgId id ty Hv) as (cl' & Hrun & _ & Hv'). eexists _, cl', _. split; [exact Hrun|].
  split; [exact Hv'|]. by destruct (_ || _).
Qed.

Lemma client_keeps_setSub msgId id ty : client_keeps (Client_setWaitedSubTopicId msgId id ty).
Proof.
  apply client_keeps_run. intros cl v Hv Hl. right.
  destruct (setWaitedSub_run cl v msgId id ty Hv) as (cl' & Hrun & _ & Hv'). eexists _, cl', _. split; [exact Hrun|].
  split; [exact Hv'|]. by destruct (_ || _).
Qed.

Lemma client_keeps_clear : client_keeps Client_clearWaitedPubTopicId /\ client_keeps Client_clearWaitedSubTopicId.
Proof.
  split; apply client_keeps_run; intros cl v (Hq & Hr & Ht & Hp & Hs) Hl; right.
  - destruct (clearWaited_run f_pubMap cl _ Hp) as (t & Hrun & Ht'). eexists _, _, (v_set_pub ∅ v). by split; [exact Hrun|].
  - destruct (clearWaited_run f_subMap cl _ Hs) as (t & Hrun & Ht'). eexists _, _, (v_set_sub ∅ v). by split; [exact Hrun|].
Qed.

Lemma client_keeps_clearPub : client_keeps Client_clearWaitedPubTopicId.
Proof. apply client_keeps_clear. Qed.
Lemma client_keeps_clearSub : client_keeps Client_clearWaitedSubTopicId.
Proof. apply client_keeps_clear. Qed.

Lemma client_keeps_eraseNormal : client_keeps (inside f_topics eraseNormal).
Proof.
  apply client_keeps_run. intros cl v (Hq & Hr & Ht & Hp & Hs) Hl. right.
  destruct (topics_erase_run _ _ _ Ht) as (t & Hrun & Ht').
  eexists _, (fset f_topics t cl), (v_set_topics _ _ v). split; [apply (inside_run f_topics), Hrun|]. split; [|done].
  split; [exact Hq|]. split; [exact Hr|]. split; [exact Ht'|by split].
Qed.

Lemma client_keeps_sleepQue packet :
  client_keeps Client_getClientSleepPacket /\ client_keeps Client_deleteFirstClientSleepPacket /\
  client_keeps (Client_setClientSleepPacket packet).
Proof.
  split_and!; apply client_keeps_run; intros cl v Hv Hl; right.
  - exists (head (v_sleeping v)), cl, v. by rewrite (getSleepPacket_run cl v).
  - destruct (deleteSleepPacket_run cl v Hv) as (q & Hrun & Hv'). eexists _, _, _. split; [exact Hrun|].
    split; [exact Hv'|]. cbn. destruct (v_sleeping v); simpl in *; lia.
  - destruct (setSleepPacket_run cl v packet Hv) as (r & q & Hrun & Hv' & _). eexists _, _, _. split; [exact Hrun|].
    split; [exact Hv'|]. cbn. destruct (_ <? _) eqn:E; [|done]. apply Z.ltb_lt in E. zlen_lia.
Qed.

Lemma client_keeps_getSleep : client_keeps Client_getClientSleepPacket.
Proof. apply (client_keeps_sleepQue newMQTTGWPacket). Qed.
Lemma client_keeps_deleteSleep : client_keeps Client_deleteFirstClientSleepPacket.
Proof. apply (client_keeps_sleepQue newMQTTGWPacket). Qed.
Lemma client_keeps_setSleep packet : client_keeps (Client_setClientSleepPacket packet).
Proof. apply client_keeps_sleepQue. Qed.

Lemma client_keeps_regack packet msgId :
  client_keeps (inside f_regack (WaitREGACK_getPacket msgId)) /\ client_keeps (inside f_regack (WaitREGACK_erase msgId)) /\
  client_keeps (inside f_regack WaitREGACK_getCount) /\ client_keeps (inside f_regack (WaitREGACK_setPacket packet msgId)).
Proof.
  split_and!; apply client_keeps_run; intros cl v (Hq & Hr & Ht & Hp & Hs) Hl; right.
  - eexists _, _, v. split; [apply (inside_run f_regack), regack_get_run, Hr|]. split; [unfold client_holds; by split_and!|done].
  - destruct (regack_erase_run _ _ msgId Hr) as (l & Hrun & Hl').
    eexists _, _, (v_set_regack _ v). split; [apply (inside_run f_regack), Hrun|]. split; [|done].
    split; [exact Hq|]. split; [exact Hl'|by split].
  - exists (l_cnt (cl_regack cl)), (fset f_regack (cl_regack cl) cl), v. split; [done|].
    split; [unfold client_holds; by split_and!|done].
  - destruct (regack_set_run _ _ packet msgId Hr) as (l & Hrun & Hl').
    eexists _, _, (v_set_regack _ v). split; [apply (inside_run f_regack), Hrun|]. split; [|done].
    split; [exact Hq|]. split; [exact Hl'|by split].
Qed.

Lemma client_keeps_regack_get msgId : client_keeps (inside f_regack (WaitREGACK_getPacket msgId)).
Proof. apply (client_keeps_regack newMQTTSNPacket). Qed.
Lemma client_keeps_regack_erase msgId : client_keeps (inside f_regack (WaitREGACK_erase msgId)).
Proof. apply (client_keeps_regack newMQTTSNPacket). Qed.
Lemma client_keeps_regack_count : client_keeps (inside f_regack WaitREGACK_getCount).
Proof. apply (client_keeps_regack newMQTTSNPacket 0). Qed.
Lemma client_keeps_regack_set packet msgId : client_keeps (inside f_regack (WaitREGACK_setPacket packet msgId)).
Proof. apply client_keeps_regack. Qed.

#[export] Hint Resolve client_keeps_getPub client_keeps_getSub client_keeps_setPub client_keeps_setSub client_keeps_clearPub
  client_keeps_clearSub client_keeps_eraseNormal client_keeps_getSleep client_keeps_deleteSleep client_keeps_setSleep
  client_keeps_regack_get client_keeps_regack_erase client_keeps_regack_count client_keeps_regack_set : gateway.

Section Keeps.
Context `{CharSign} `{ByteOrder} `{HeapSpace} `{PointerBytes} `{GatewayParams}.

Lemma client_keeps_byId t : client_keeps (inside f_topics (Topics_byId t)).
Proof.
  apply client_keeps_run. intros cl v Hv Hl. destruct (topicid_id t) as [id|] eqn:E.
  - right. eexists _, cl, v. by split; [apply (client_byId_run cl v t id)|].
  - left. unfold inside, Topics_byId, sbind at 1, demand. by rewrite E.
Qed.

Lemma client_keeps_byName name : client_keeps (inside f_topics (Topics_byName name)).
Proof. apply client_keeps_run. intros cl v Hv Hl. right. eexists _, cl, v. by split; [apply (client_byName_run cl v)|]. Qed.

Lemma client_keeps_matching name : client_keeps (inside f_topics (Topics_matching MQTTSN_TOPIC_TYPE_NORMAL name)).
Proof. apply client_keeps_run. intros cl v Hv Hl. right. eexists _, cl, v. by split; [apply (client_matching_run cl v)|]. Qed.

Lemma client_keeps_insert name id : client_keeps (inside f_topics (Topics_insert name id)).
Proof.
  apply client_keeps_run. intros cl v Hv Hl. right. pose proof (client_insert_run cl v name id Hv) as Hins.
  destruct (added _ _ _ _) as [t [n ts]]. destruct Hins as (s & Hrun & Hv'). by eexists _, _, _.
Qed.

Lemma client_keeps_register name : client_keeps (inside f_topics (Topics_register MQTTSN_TOPIC_TYPE_NORMAL name)).
Proof.
  apply client_keeps_run. intros cl v Hv Hl. right. pose proof (client_register_run cl v name Hv) as Hins.
  destruct (registered _ _ _) as [t [n ts]]. destruct Hins as (s & Hrun & Hv'). by eexists _, _, _.
Qed.

Lemma client_keeps_updateStatus packet : client_keeps (Client_updateStatus packet).
Proof.
  unfold Client_updateStatus, Client_setKeepAlive, start_keepAlive, Client_disconnected. walk.
Qed.
End Keeps.
#[export] Hint Resolve client_keeps_byId client_keeps_byName client_keeps_matching client_keeps_insert client_keeps_register
  client_keeps_updateStatus : gateway.
#[export] Hint Unfold Client_isDisconnect Client_isActive Client_isSleep Client_isAwake Client_isConnecting Client_connectSended
  Client_disconnected Client_connackSended Client_isConnectSendable Client_setSessionStatus Client_getNextSnMsgId
  Client_setWaitWillMsgFlg Client_isWaitWillMsg Client_setWillTopic Client_setWillMsg is_type Client_isQoSm1Proxy
  Client_isAggregated Client_isAggregater Client_isQoSm1 Client_isAdapter Client_holdPingRequest Client_resetPingRequest
  Client_isHoldPringReqest : gateway.

(** *** The handlers *)

Section HandlersKeep.
Context `{CharSign} `{ByteOrder} `{HeapSpace} `{PointerBytes} `{GatewayParams}.
Context (S : loc -> Prop) (c : loc) (HS : S c).

Lemma keeps_sendStored : keeps S (sendStoredPublish c).
Proof.
  assert (Hloop : forall n, keeps S (sendStoredPublish_loop n c)).
  { induction n as [|n IH]; cbn [sendStoredPublish_loop]; walk. }
  intros g r g' Hg. unfold sendStoredPublish. destruct (gw_clients g !! c); [by apply Hloop|done].
Qed.

Lemma keeps_gwTopics t : keeps S (inside f_gwTopics (Topics_byId t)).
Proof.
  apply keeps_pure_ok. intros g r g' (_ & (n & ts & Ht) & _) E. destruct (topicid_id t) as [id|] eqn:Et.
  - erewrite inside_id in E; [by injection E as _ <-|by eapply Topics_byId_run|by destruct g].
  - unfold inside, Topics_byId, sbind at 1, demand in E. by rewrite Et in E.
Qed.

#[local] Hint Resolve keeps_sendStored keeps_gwTopics : gateway.
#[local] Hint Unfold wake_up clean_tables string_of has_stored is_reachable savePacket find_topic forward_publish reply_for_qos
  MQTTGW_replyACK copy_packet read_publish save_publish register_and_wait forward_request forward_subscribe
  topic_for_filter read_ack with_msgId : gateway.

(** From the client. *)
Lemma keeps_handlePublish packet : keeps S (MQTTSN_handlePublish c packet).
Proof. unfold MQTTSN_handlePublish. walk. Qed.
Lemma keeps_handleSubscribe packet : keeps S (MQTTSN_handleSubscribe c packet).
Proof. unfold MQTTSN_handleSubscribe. walk. Qed.
Lemma keeps_handleUnsubscribe packet : keeps S (MQTTSN_handleUnsubscribe c packet).
Proof. unfold MQTTSN_handleUnsubscribe. walk. Qed.
Lemma keeps_handleConnect packet : keeps S (MQTTSN_handleConnect c packet).
Proof. unfold MQTTSN_handleConnect. walk. Qed.
Lemma keeps_handleWilltopic packet : keeps S (MQTTSN_handleWilltopic c packet).
Proof. unfold MQTTSN_handleWilltopic. walk. Qed.
Lemma keeps_handleWillmsg packet : keeps S (MQTTSN_handleWillmsg c packet).
Proof. unfold MQTTSN_handleWillmsg. walk. Qed.
Lemma keeps_handleRegister packet : keeps S (MQTTSN_handleRegister c packet).
Proof. unfold MQTTSN_handleRegister. walk. Qed.
Lemma keeps_handleRegAck packet : keeps S (MQTTSN_handleRegAck c packet).
Proof. unfold MQTTSN_handleRegAck. walk. Qed.

Lemma keeps_transparent_sn packet : keeps S (transparentPacketHandler_sn c packet).
Proof.
  unfold transparentPacketHandler_sn, ignore.
  unfold MQTTSN_handleDisconnect, MQTTSN_handleWillmsgupd, MQTTSN_handlePingreq, MQTTSN_handlePuback, MQTTSN_handleAck.
  pose proof keeps_handlePublish. pose proof keeps_handleSubscribe. pose proof keeps_handleUnsubscribe.
  pose proof keeps_handleConnect. pose proof keeps_handleWilltopic. pose proof keeps_handleWillmsg.
  pose proof keeps_handleRegister. pose proof keeps_handleRegAck. walk.
Qed.

(** What waits for an acknowledgement is erased only after it was found. *)
Lemma erase_found_ok g id x (g1 : Gateway) : gateway_ok g ->
  (client c (Client_getWaitedPubTopicId id) g = Some (Some x, g1) -> g1 = g /\
     forall g2 u g3, gw_clients g2 = gw_clients g -> gateway_ok g2 ->
       client c (Client_eraseWaitedPubTopicId id) g2 = Some (u, g3) -> gateway_ok g3 /\ others_same S g2 g3) /\
  (client c (Client_getWaitedSubTopicId id) g = Some (Some x, g1) -> g1 = g /\
     forall g2 u g3, gw_clients g2 = gw_clients g -> gateway_ok g2 ->
       client c (Client_eraseWaitedSubTopicId id) g2 = Some (u, g3) -> gateway_ok g3 /\ others_same S g2 g3).
Proof.
  intros (Hc & _). destruct (gw_clients g !! c) as [cl0|] eqn:E; [|by split; unfold client; rewrite E].
  destruct (Hc _ _ E) as (v & Hv & Hl). rewrite <- (set_client_id c cl0 g E) at 1 3.
  rewrite (client_run _ _ _ _ _ _ (getWaitedPub_run cl0 v id Hv)), (client_run _ _ _ _ _ _ (getWaitedSub_run cl0 v id Hv)).
  rewrite set_client_id by done. split; intros [= Hx <-]; (split; [done|]); intros g2 u g3 Hsame (Hc2 & Hrest);
    unfold client; rewrite Hsame, E.
  - destruct (eraseWaitedPub_run cl0 v id Hv) as (cl' & -> & (t & ->) & Hv'); [by rewrite Hx|]. intros [= _ <-].
    split; [split; [|exact Hrest]|by apply others_same_client].
    + intros k cl2. unfold set_client. cbn [gw_clients]. destruct (decide (k = c)) as [->|Hk].
      * rewrite lookup_insert_eq. intros [= <-]. by exists (v_set_pub (delete id (v_pub v)) v).
      * rewrite lookup_insert_ne by done. apply Hc2.
  - destruct (eraseWaitedSub_run cl0 v id Hv) as (cl' & -> & (t & ->) & Hv'); [by rewrite Hx|]. intros [= _ <-].
    split; [split; [|exact Hrest]|by apply others_same_client].
    + intros k cl2. unfold set_client. cbn [gw_clients]. destruct (decide (k = c)) as [->|Hk].
      * rewrite lookup_insert_eq. intros [= <-]. by exists (v_set_sub (delete id (v_sub v)) v).
      * rewrite lookup_insert_ne by done. apply Hc2.
Qed.

Lemma keeps_gw_handlePuback packet : keeps S (MQTTGW_handlePuback c packet).
Proof.
  intros g r g' Hg E. unfold MQTTGW_handlePuback, read_ack in E.
  apply sbind_inv in E as (id & g1 & Hread & E). apply read_ack_pure in Hread as ->.
  apply sbind_inv in E as (x & g1 & Hget & E). destruct x as [[i ty]|].
  - destruct (proj1 (erase_found_ok g (u16 id) (i, ty) g1 Hg) Hget) as [-> Herase].
    apply sbind_inv in E as (p & g1 & Hnew & E). apply new_sn_pure in Hnew as ->.
    apply sbind_inv in E as (u & g1 & He & E). destruct (Herase g u g1 eq_refl Hg He) as [Hg1 Hs].
    destruct (keeps_post_client S (EtClientSend c p) HS _ _ _ Hg1 E) as [Hg' Hs']. split; [done|].
    by eapply others_same_trans.
  - injection E as _ <-. by apply (keeps_client S c _ HS (client_keeps_getPub _) _ _ _ Hg Hget).
Qed.

Lemma keeps_gw_handleSuback packet : keeps S (MQTTGW_handleSuback c packet).
Proof.
  intros g r g' Hg E. unfold MQTTGW_handleSuback in E.
  apply sbind_inv in E as (a & g1 & Hread & E). apply read_gw_pure in Hread as ->.
  apply sbind_inv in E as ([id rc] & g1 & Hread & E). apply demand_pure in Hread as ->.
  apply sbind_inv in E as (x & g1 & Hget & E). destruct x as [[i ty]|].
  - destruct (proj2 (erase_found_ok g id (i, ty) g1 Hg) Hget) as [-> Herase].
    destruct (if rc =? 128 then _ else _) as [qos code].
    apply sbind_inv in E as (u & g1 & Hsend & E). destruct (keeps_send_client S c _ HS _ _ _ Hg Hsend) as [Hg1 Hs1].
    destruct (Herase _ _ _ (send_client_clients _ _ _ _ _ Hsend) Hg1 E) as [Hg' Hs']. split; [done|].
    by eapply others_same_trans.
  - injection E as _ <-. by apply (keeps_client S c _ HS (client_keeps_getSub _) _ _ _ Hg Hget).
Qed.

Lemma keeps_gw_handlePublish packet : keeps S (MQTTGW_handlePublish c packet).
Proof. unfold MQTTGW_handlePublish. walk. Qed.
Lemma keeps_gw_handleAck packet type : keeps S (MQTTGW_handleAck c packet type).
Proof. unfold MQTTGW_handleAck. walk. Qed.
Lemma keeps_gw_handleUnsuback packet : keeps S (MQTTGW_handleUnsuback c packet).
Proof. unfold MQTTGW_handleUnsuback. walk. Qed.
Lemma keeps_gw_handleConnack packet : keeps S (MQTTGW_handleConnack c packet).
Proof. unfold MQTTGW_handleConnack. walk. Qed.
Lemma keeps_gw_handlePingresp : keeps S (MQTTGW_handlePingresp c).
Proof. unfold MQTTGW_handlePingresp. walk. Qed.

#[local] Hint Resolve keeps_gw_handlePuback keeps_gw_handleSuback keeps_gw_handlePublish keeps_gw_handleAck
  keeps_gw_handleUnsuback keeps_gw_handleConnack keeps_gw_handlePingresp : gateway.

Lemma keeps_transparent_gw packet : keeps S (transparentPacketHandler_gw c packet).
Proof. unfold transparentPacketHandler_gw. walk. Qed.
End HandlersKeep.

(** The handlers of aggregated clients may reach any client the table names. *)
Section AggregateKeep.
Context `{CharSign} `{ByteOrder} `{HeapSpace} `{PointerBytes} `{GatewayParams}.
Definition anyone : loc -> Prop := fun _ => True.
#[local] Abbreviation keeps_all := (keeps anyone).

Lemma keeps_table {R} S (m : step MessageIdElement MessageIdMore R) : keeps S (inside f_msgIdTable m).
Proof.
  intros g r g' Hg. unfold inside. destruct (m _) as [[r1 t]|]; [|done]. intros [= _ <-].
  split; [done|]. unfold others_same. split_and!; auto with gateway.
Qed.

Lemma keeps_any_client {R} c (m : st Client R) : client_keeps m -> keeps_all (client c m).
Proof. by apply keeps_client. Qed.

Lemma keeps_any_sendStored c : keeps_all (sendStoredPublish c).
Proof. by apply keeps_sendStored. Qed.

#[local] Hint Resolve keeps_table keeps_any_client keeps_any_sendStored : gateway.
#[local] Hint Extern 1 (anyone _) => exact I : gateway.
#[local] Hint Extern 1 (addressed _ _) => exact I : gateway.
#[local] Hint Unfold wake_up clean_tables string_of has_stored read_publish reply_for_qos MQTTGW_replyACK
  with_msgId aggregated_msgId convert : gateway.

Lemma keeps_convert packet handle : (forall c p, keeps_all (handle c p)) -> keeps_all (convert packet handle).
Proof. intros Hh. walk. Qed.

Lemma keeps_aggregate_sn c packet : keeps_all (aggregatePacketHandler_sn c packet).
Proof.
  unfold aggregatePacketHandler_sn, Aggregate_handleConnect, Aggregate_handleWillmsg, Aggregate_handleDisconnect,
    Aggregate_handlePingreq, MQTTSN_handleWillmsgupd, MQTTSN_handleAggregateAck, MQTTSN_handleAggregatePublish,
    MQTTSN_handleAggregateSubscribe, MQTTSN_handleAggregateUnsubscribe, forward_aggregated.
  pose proof (keeps_handlePublish anyone c I). pose proof (keeps_handleSubscribe anyone c I).
  pose proof (keeps_handleUnsubscribe anyone c I). pose proof (keeps_handleWilltopic anyone c I).
  pose proof (keeps_handleRegister anyone c I). pose proof (keeps_handleRegAck anyone c I). walk.
Qed.

Lemma keeps_aggregate_gw c packet : keeps_all (aggregatePacketHandler_gw c packet).
Proof.
  unfold aggregatePacketHandler_gw, MQTTGW_handleAggregatePublish, MQTTGW_handleAggregatePubrel.
  pose proof (keeps_gw_handleConnack anyone c I). pose proof (keeps_gw_handlePingresp anyone c I).
  assert (forall p, keeps_all (MQTTGW_handleAggregatePuback p)) by (intros; apply keeps_convert; intros; by apply keeps_gw_handlePuback).
  assert (forall p t, keeps_all (MQTTGW_handleAggregateAck p t)) by (intros; apply keeps_convert; intros; by apply keeps_gw_handleAck).
  assert (forall p, keeps_all (MQTTGW_handleAggregateSuback p)) by (intros; apply keeps_convert; intros; by apply keeps_gw_handleSuback).
  assert (forall p, keeps_all (MQTTGW_handleAggregateUnsuback p)) by (intros; apply keeps_convert; intros; by apply keeps_gw_handleUnsuback).
  walk.
Qed.

Lemma keeps_handle_event ev : keeps_all (handle_event ev).
Proof.
  destruct ev as [| |c packet|c packet|c packet|c packet|packet]; cbn [handle_event].
  - walk.
  - walk.
  - pose proof (keeps_transparent_gw anyone c I). pose proof keeps_aggregate_gw. walk.
  - walk.
  - pose proof (keeps_transparent_sn anyone c I). pose proof keeps_aggregate_sn. unfold isAggregatedClient. walk.
  - walk.
  - unfold handleSearchgw. walk.
Qed.

Lemma keeps_broker_send connected sent ev : keeps_all (broker_send_event connected sent ev).
Proof. destruct ev as [| |c packet|c packet|c packet|c packet|packet]; cbn [broker_send_event]; unfold adapter_client; walk. Qed.

Lemma keeps_sendADVERTISE : keeps_all sendADVERTISE.
Proof. unfold sendADVERTISE. walk. Qed.

Lemma que_ok_wait q ev q' : que_ok q -> EventQue_wait q = Some (ev, q') -> que_ok q'.
Proof.
  intros [Hm Hl]. unfold EventQue_wait. destruct (eq_events q) as [|e evs] eqn:E; [done|]. intros [= _ <-].
  split; [exact Hm|]. cbn [eq_events eq_maxSize]. zlen_lia.
Qed.

Lemma client_ok_new secure id cl : Client_setClientId id (newClient secure) = Some (tt, cl) -> client_ok cl.
Proof.
  intros [= <-]. exists (View [] [] 0 [] ∅ ∅). split; [|done].
  apply (same_tables_holds (newClient secure)); [by split_and!|apply newClient_holds].
Qed.

Lemma gw_step_ok g g' : gateway_ok g -> gw_step g g' -> gateway_ok g'.
Proof.
  intros Hg Hs. destruct Hs as [g ev q g' Hw Hh|g g' Hh|g ev q con sent g' Hw Hh|g ev q Hw|g c cl p Hc|g c cl p Hc|g c secure id cl Hc Hn].
  - eapply keeps_handle_event; [|exact Hh]. destruct Hg as (Hc & Ht & Hq). split; [exact Hc|]. split; [exact Ht|].
    by eapply que_ok_wait.
  - by eapply keeps_sendADVERTISE.
  - by eapply keeps_broker_send; [|exact Hh].
  - done.
  - destruct Hg as (Hcl & Ht & Hq). split; [exact Hcl|]. split; [exact Ht|]. by apply que_ok_post.
  - destruct Hg as (Hcl & Ht & Hq). split; [exact Hcl|]. split; [exact Ht|]. by apply que_ok_post.
  - destruct Hg as (Hcl & Ht & Hq). split; [|by split]. intros k cl2. unfold set_client. cbn [gw_clients].
    destruct (decide (k = c)) as [->|Hk].
    + rewrite lookup_insert_eq. intros [= <-]. by eapply client_ok_new.
    + rewrite lookup_insert_ne by done. apply Hcl.
Qed.

Lemma gw_reach_ok topics n ts g : topics_hold topics n ts -> gw_reach topics g -> gateway_ok g.
Proof.
  intros Ht Hr. induction Hr as [|g g' Hr IH Hs]; [|by eapply gw_step_ok].
  split; [|split; [by exists n, ts|by split]]. intros c cl. cbn. by rewrite lookup_empty.
Qed.

(** What holds of a client in every state: the structures it owns are well
    formed, at most 20 messages wait for it while it sleeps, it has at most 50
    topics, with different names, those it registered with different
    identifiers, and at most 21 acknowledgements of each kind are awaited. *)
Definition client_invariant (cl : Client) : Prop :=
  exists v, client_holds cl v /\ zlen (v_sleeping v) <= MAX_SAVED_PUBLISH /\
    zlen (v_topics v) <= MAX_TOPIC_PAR_CLIENT /\ NoDup (GWTopic.topic_name <$> v_topics v) /\
    NoDup (topic_id <$> normals (v_topics v)) /\
    Z.of_nat (size (v_pub v)) <= 2 * MAX_INFLIGHTMESSAGES + 1 /\ Z.of_nat (size (v_sub v)) <= 2 * MAX_INFLIGHTMESSAGES + 1.

Lemma tm_holds_size s m : tm_holds s m -> Z.of_nat (size m) <= 2 * MAX_INFLIGHTMESSAGES + 1.
Proof. intros (l & _ & Hn & <- & _ & _ & Hlen). by rewrite keyed_size. Qed.

Lemma client_ok_invariant cl : client_ok cl -> client_invariant cl.
Proof.
  intros (v & Hv & Hl). exists v. split; [done|]. split; [done|]. pose proof Hv as (_ & _ & (_ & _ & _ & _ & _ & Hok) & Hp & Hs).
  pose proof Hok as (Hlen & Hnames & _). split; [done|]. split; [done|]. split; [by eapply normal_ids_nodup|].
  split; by eapply tm_holds_size.
Qed.

(** Whatever packets arrive from clients and brokers, in whatever order the
    tasks run and whatever the network answers: in every state the gateway
    reaches every client is in order, and at most 1000 events wait for the
    packet task. *)
Theorem gateway_invariant topics n ts g : topics_hold topics n ts -> gw_reach topics g ->
  (forall c cl, gw_clients g !! c = Some cl -> client_invariant cl) /\ (exists n' ts', topics_hold (gw_topics g) n' ts') /\
  zlen (eq_events (gw_packetEventQue g)) <= MAX_INFLIGHTMESSAGES * MAX_CLIENTS.
Proof.
  intros Ht Hr. destruct (gw_reach_ok _ _ _ _ Ht Hr) as (Hc & Htp & Hm & Hl). split; [|split; [done|by rewrite Hm in Hl]].
  intros c cl Hcl. by eapply client_ok_invariant, Hc.
Qed.

(** The client an event is about. *)
Definition event_client (ev : Event) : option loc :=
  match ev with
  | EtClientRecv c _ | EtBrokerRecv c _ => Some c
  | _ => None
  end.

(** C6: Without aggregation a packet of a client, or of the broker for it, changes
    no other client, and all that is sent or queued because of it is for this
    client or on its connection. *)
Theorem client_isolation topics n ts g ev c g' : topics_hold topics n ts -> gw_reach topics g ->
  aggregater_active = false -> event_client ev = Some c ->
  (forall cl, gw_clients g !! c = Some cl -> cl_type cl <> Ctype_Aggregater) ->
  handle_event ev g = Some (tt, g') -> others_same (eq c) g g'.
Proof.
  intros Ht Hr Htr Hev Hty Hrun. pose proof (gw_reach_ok _ _ _ _ Ht Hr) as Hg.
  destruct ev as [| |k packet|k packet|k packet|k packet|packet]; try done; injection Hev as ->; cbn [handle_event] in Hrun.
  - apply sbind_inv in Hrun as (b & g1 & Hb & Hrun). unfold client in Hb.
    destruct (gw_clients g !! c) as [cl|] eqn:E; [|done]. injection Hb as <- <-. rewrite set_client_id in Hrun by done.
    cbn [fget f_type] in Hrun. rewrite bool_decide_eq_false_2 in Hrun by by apply Hty.
    by apply (keeps_transparent_gw (eq c) c eq_refl packet _ _ _ Hg Hrun).
  - unfold isAggregatedClient in Hrun. revert Hrun. rewrite Htr. cbn [andb]. intros Hrun.
    assert (Hk : keeps (eq c) ((let! _ := client c Client_isQoSm1 in let! _ := client c Client_isAggregater in
      let! _ := client c Client_isQoSm1Proxy in sret false))) by walk.
    apply sbind_inv in Hrun as (b & g1 & Hb & Hrun). destruct (Hk _ _ _ Hg Hb) as [Hg1 Hs1].
    assert (b = false) as ->.
    { apply sbind_inv in Hb as (? & ? & _ & Hb). apply sbind_inv in Hb as (? & ? & _ & Hb).
      apply sbind_inv in Hb as (? & ? & _ & Hb). by injection Hb as <- _. }
    apply sbind_inv in Hrun as (u & g2 & Hh & Hrun).
    destruct (keeps_transparent_sn (eq c) c eq_refl packet _ _ _ Hg1 Hh) as [Hg2 Hs2].
    destruct (keeps_client (eq c) c _ eq_refl (client_keeps_updateStatus packet) _ _ _ Hg2 Hrun) as [_ Hs3].
    eapply others_same_trans; [exact Hs1|]. by eapply others_same_trans.
Qed.
End AggregateKeep.

(** ** A concrete gateway *)

Section Sample.
#[local] Existing Instance little_endian_order.
#[local] Existing Instance ample_heap.
#[local] Instance sample_char : CharSign := true.
#[local] Instance sample_pointers : PointerBytes := fun _ => 65535.

Definition sample_params : GatewayParams := {|
  par_gatewayId := 1; par_keepAlive := 60; par_mqttVersion := 4; par_loginId := None; par_password := None;
  qosm1Proxy_active := false; aggregater_active := false; qosm1Proxy_client := 100%positive;
  aggregater_client := 101%positive; aggregater_secureClient := 102%positive |}.
#[local] Existing Instance sample_params.

(** A client "d" with nothing registered, in the state given. *)
Definition sample_client (s : ClientStatus) : Client := fset f_status s (fset f_clientId (Some (ch [100])) (newClient false)).

(** Two clients. *)
Definition sample_two : Gateway :=
  set_client 2%positive (sample_client Cstat_Disconnected) (set_client 1%positive (sample_client Cstat_Disconnected) (newGateway newTopics)).

Lemma sample_two_reach : gw_reach newTopics sample_two.
Proof.
  eapply reach_step; [eapply reach_step; [apply reach_start|]|].
  - by eapply (step_new_client _ 1%positive false (ch [100])).
  - by eapply (step_new_client _ 2%positive false (ch [100])).
Qed.

Lemma gateway_invariant_witness : gw_reach newTopics sample_two /\
  exists cl, gw_clients sample_two !! 1%positive = Some cl /\ client_invariant cl.
Proof.
  split; [exact sample_two_reach|]. exists (sample_client Cstat_Disconnected). split; [vm_compute; reflexivity|].
  apply (proj1 (gateway_invariant newTopics 0 [] sample_two topics_new_hold sample_two_reach) 1%positive).
  vm_compute. reflexivity.
Defined.

Lemma client_isolation_witness : exists g',
  handle_event (EtClientRecv 1%positive (sn_object (sn_packet MQTTSN_PINGREQ []))) sample_two = Some (tt, g') /\
  gw_clients g' !! 2%positive = Some (sample_client Cstat_Disconnected).
Proof.
  destruct (handle_event (EtClientRecv 1%positive (sn_object (sn_packet MQTTSN_PINGREQ []))) sample_two) as [[[] g']|] eqn:E;
    [|by vm_compute in E].
  exists g'. split; [reflexivity|].
  destruct (client_isolation newTopics 0 [] sample_two (EtClientRecv 1%positive (sn_object (sn_packet MQTTSN_PINGREQ [])))
    1%positive g' topics_new_hold sample_two_reach eq_refl eq_refl) as [Hsame _].
  - intros cl Hcl. vm_compute in Hcl. injection Hcl as <-. done.
  - exact E.
  - rewrite Hsame by done. vm_compute. reflexivity.
Defined.
End Sample.
