(* ===== verification/GWFlow.v ===== *)
(** * Exchanges: events in sequence

    What the gateway makes of whole exchanges between a client and the broker:
    connecting, registering and publishing, subscribing, sleeping. Between two
    events of a client any other events may be handled: each step starts from
    an arbitrary state of the rest of the gateway. *)

From S2P Require Import Prelude CMem MQTTPacket MQTTPublish MQTTConnect MQTTSubscribe SNPacket SNPublish SNConnect SNSubscribe GWHeap GWTables GWTopic GWPacket GWSNPacket GWClient GWGateway GWConnect GWPublish GWSubscribe GWTask.

(** A client that talks to the broker on a connection of its own. *)
Definition regular (cl : Client) : Prop := cl_type cl = Ctype_Regular \/ cl_type cl = Ctype_Forwarded.

Lemma regular_not cl : regular cl -> cl_type cl <> Ctype_QoS_1 /\ cl_type cl <> Ctype_Aggregated /\
  cl_type cl <> Ctype_Proxy /\ cl_type cl <> Ctype_Aggregater.
Proof. intros [-> | ->]; by split_and!. Qed.

Section Events.
Context `{CharSign} `{ByteOrder} `{HeapSpace} `{PointerBytes} `{GatewayParams}.
Hypothesis Htransparent : aggregater_active = false.
Implicit Types (g : Gateway) (cl : Client).

Lemma regular_direct cl : regular cl -> direct cl.
Proof.
  intros (Hq & Ha & _)%regular_not. unfold direct. rewrite !bool_decide_eq_false_2 by done.
  by rewrite !andb_false_r.
Qed.

(** ** One event *)

Lemma not_aggregated_run c cl g : isAggregatedClient c (set_client c cl g) = Some (false, set_client c cl g).
Proof.
  unfold isAggregatedClient. do 3 (erewrite sbind_run by (by apply client_run)). by rewrite Htransparent.
Qed.

(** A packet of the client: its handler, then the status. *)
Lemma handle_sn_run c cl cl1 cl2 g g1 (ty : Z) body : sn_readable body -> 0 <= ty < 256 ->
  let packet := sn_object (sn_packet ty body) in
  transparentPacketHandler_sn c packet (set_client c cl g) = Some (tt, set_client c cl1 g1) ->
  Client_updateStatus packet cl1 = Some (tt, cl2) ->
  handle_event (EtClientRecv c packet) (set_client c cl g) = Some (tt, set_client c cl2 g1).
Proof.
  intros Hb Hty packet Hh Hu. cbn [handle_event]. erewrite sbind_run by apply not_aggregated_run.
  erewrite sbind_run by exact Hh. by apply client_run.
Qed.

(** A packet of the broker. *)
Lemma handle_gw_run c cl g packet : regular cl ->
  handle_event (EtBrokerRecv c packet) (set_client c cl g) = transparentPacketHandler_gw c packet (set_client c cl g).
Proof.
  intros (_ & _ & _ & Ha)%regular_not. cbn [handle_event]. erewrite sbind_run by (by apply client_run).
  cbn [fget f_type]. by rewrite bool_decide_eq_false_2.
Qed.

Lemma transparent_gw_type c p g h : gp_header p = h ->
  transparentPacketHandler_gw c p g = (let type := header_type h in
    if type =? CONNACK then MQTTGW_handleConnack c p
    else if type =? PINGRESP then MQTTGW_handlePingresp c
    else if type =? PUBLISH then MQTTGW_handlePublish c p
    else if type =? PUBACK then MQTTGW_handlePuback c p
    else if type =? PUBREC then MQTTGW_handleAck c p PUBREC
    else if type =? PUBREL then MQTTGW_handleAck c p PUBREL
    else if type =? PUBCOMP then MQTTGW_handleAck c p PUBCOMP
    else if type =? SUBACK then MQTTGW_handleSuback c p
    else if type =? UNSUBACK then MQTTGW_handleUnsuback c p
    else sret tt) g.
Proof. intros <-. unfold transparentPacketHandler_gw. by erewrite sbind_run by (by eapply read_gw_run). Qed.

(** *** The status after the packet *)

Lemma update_connect cl clean will duration id : cl_status cl = Cstat_Disconnected -> 0 <= duration < 65536 ->
  let body := sn_connect_body clean will duration id in sn_readable body ->
  exists msec timer, Client_updateStatus (sn_object (sn_packet MQTTSN_CONNECT body)) cl =
    Some (tt, fset f_keepAliveTimer timer (fset f_keepAliveMsec msec cl)).
Proof.
  intros Hst Hd body Hb. destruct (getCONNECT_run clean will duration id Hb Hd) as (data & Hget & _).
  unfold Client_updateStatus. erewrite sbind_run by reflexivity. erewrite sbind_run by reflexivity.
  erewrite sbind_run by (by apply demand_run, getType_run). cbn [fget f_status]. rewrite Hst. known_tests. known_eqs.
  unfold Client_setKeepAlive. erewrite sbind_run by (by apply demand_run). by eexists _, _.
Qed.

Lemma update_active cl (ty : MQTTSN_msgTypes) body : cl_status cl = Cstat_Active -> sn_readable body ->
  ty <> MQTTSN_DISCONNECT -> exists timer, Client_updateStatus (sn_object (sn_packet ty body)) cl =
    Some (tt, fset f_keepAliveTimer timer cl).
Proof.
  intros Hst Hb Hty. assert (Hsame : fset f_keepAliveTimer (cl_keepAliveTimer cl) cl = cl) by by destruct cl.
  unfold Client_updateStatus. erewrite sbind_run by reflexivity. erewrite sbind_run by reflexivity.
  erewrite sbind_run by (apply demand_run, getType_run; [done|by destruct ty]). cbn [fget f_status]. rewrite Hst. known_tests.
  destruct (keeps_alive ty).
  - destruct (bool_decide (fget f_type cl = Ctype_Proxy)); [exists (cl_keepAliveTimer cl); by rewrite Hsame|by eexists].
  - exists (cl_keepAliveTimer cl). rewrite Hsame. by destruct ty.
Qed.

Lemma update_idle cl (ty : MQTTSN_msgTypes) body : cl_status cl = Cstat_Disconnected -> sn_readable body ->
  ty <> MQTTSN_CONNECT -> Client_updateStatus (sn_object (sn_packet ty body)) cl = Some (tt, cl).
Proof.
  intros Hst Hb Hty. unfold Client_updateStatus. erewrite sbind_run by reflexivity. erewrite sbind_run by reflexivity.
  erewrite sbind_run by (apply demand_run, getType_run; [done|by destruct ty]). cbn [fget f_status]. rewrite Hst. known_tests.
  by destruct ty.
Qed.
End Events.

(** ** Topics that were registered *)

Lemma by_id_normal n ts t : topics_ok n ts -> t ∈ ts -> is_normal t = true ->
  by_id MQTTSN_TOPIC_TYPE_NORMAL (topic_id t) ts = Some t.
Proof.
  intros Hok Hin Ht. rewrite <- (find_unique topic_id is_normal ts t) by (done || by eapply normal_ids_nodup).
  unfold by_id. clear. induction ts as [|u ts IH]; [done|]. cbn [find].
  rewrite (eqb_bool_decide (topic_id u)). unfold is_normal at 1. by destruct (_ && _).
Qed.

Lemma normal_id_range n ts t : topics_ok n ts -> t ∈ ts -> is_normal t = true -> 1 <= topic_id t <= 65534.
Proof.
  intros (_ & _ & Hids & _) Hin Ht. apply (recent_ids_range n (length (normals ts))). rewrite <- Hids.
  apply list_elem_of_fmap. exists t. split; [done|]. apply elem_of_reverse, list_elem_of_In, filter_In.
  split; [by apply list_elem_of_In|done].
Qed.

(** A name the client may register: it has no 0, is not that of a predefined
    topic, and there is room for it unless it is known. *)
Definition registrable (name : list byte) (ts : list Topic) : Prop :=
  (Corelib.Init.Byte.x00 ∉ name) /\
  match find (has_name name) ts with
  | Some t => is_normal t = true
  | None => zlen ts < MAX_TOPIC_PAR_CLIENT
  end.

Lemma find_unique_name ts name u : NoDup (GWTopic.topic_name <$> ts) -> u ∈ ts -> has_name name u = true ->
  find (has_name name) ts = Some u.
Proof.
  intros Hn Hin Hu%bool_decide_eq_true. rewrite <- Hu.
  apply (find_unique GWTopic.topic_name (fun _ => true) ts u); [by rewrite filter_true|done|done].
Qed.

Lemma find_name_last ts t : find (has_name (GWTopic.topic_name t)) ts = None ->
  find (has_name (GWTopic.topic_name t)) (ts ++ [t]) = Some t.
Proof.
  induction ts as [|u ts IH]; cbn; [by unfold has_name; rewrite bool_decide_eq_true_2|].
  by destruct (has_name (GWTopic.topic_name t) u).
Qed.

Lemma registered_spec n0 ts0 name : topics_ok n0 ts0 -> registrable name ts0 ->
  exists t n ts, registered n0 name ts0 = (Some t, (n, ts)) /\ GWTopic.topic_name t = name /\ is_normal t = true /\
    1 <= topic_id t <= 65534 /\ by_id MQTTSN_TOPIC_TYPE_NORMAL (topic_id t) ts = Some t /\
    find (has_name name) ts = Some t.
Proof.
  intros Hok [Hnul Hreg]. unfold registered. rewrite (c_str_whole name Hnul).
  destruct (find (has_name name) ts0) as [t|] eqn:E.
  - pose proof E as [Hin Hname]%find_some. apply bool_decide_eq_true in Hname. apply list_elem_of_In in Hin.
    exists t, n0, ts0. split_and!; try done; try by eapply normal_id_range. by eapply by_id_normal.
  - unfold added. rewrite E, (proj2 (Z.leb_gt _ _) Hreg).
    pose proof (topics_ok_add n0 ts0 0 name Hok Hreg E) as Hok'.
    assert (Hin : new_topic n0 0 name ∈ ts0 ++ [new_topic n0 0 name]) by (apply elem_of_app; right; by left).
    pose proof (normal_id_range _ _ _ Hok' Hin eq_refl) as Hrange.
    exists (new_topic n0 0 name), (new_last n0 0), (ts0 ++ [new_topic n0 0 name]).
    split; [done|]. split; [done|]. split; [done|]. split; [lia|]. split; [by eapply by_id_normal|].
    exact (find_name_last ts0 (new_topic n0 0 name) E).
Qed.

Section Flows.
Context `{CharSign} `{ByteOrder} `{HeapSpace} `{PointerBytes} `{GatewayParams}.
Hypothesis Htransparent : aggregater_active = false.
Hypothesis Hheap : forall n, heap_has n = true.
Implicit Types (g : Gateway) (cl : Client) (v : client_view).

Lemma same_holds cl cl' v : client_holds cl v -> same_tables cl cl' -> client_holds cl' v.
Proof. intros. by eapply same_tables_holds. Qed.

(** Runs the handler of a packet of the client. *)
Ltac sn_dispatch := unfold transparentPacketHandler_sn;
  erewrite sbind_run by (apply demand_run, getType_run; [done|by vm_compute]); known_eqs.

Ltac gw_dispatch := rewrite handle_gw_run by done; erewrite transparent_gw_type by reflexivity;
  cbn [gp_header gw_object broker_ack]; cbv zeta.

(** ** Connecting *)

(** What the broker task makes of a CONNECT for a regular client. *)
Lemma broker_connect_run c cl m g sent : regular cl -> header_type (gp_header m) = CONNECT -> 0 < sent ->
  broker_send_event true sent (EtBrokerSend c m) (set_client c cl g) =
    Some (tt, set_client c (fset f_status Cstat_Connecting (fset f_networkValid true cl)) g).
Proof.
  intros Hreg Hm Hsent. destruct (regular_not cl Hreg) as (Hq & Ha & _). cbn [broker_send_event].
  assert (Hc : adapter_client c (set_client c cl g) = Some (c, set_client c cl g)).
  { unfold adapter_client. do 2 (erewrite sbind_run by (by apply client_run)). cbn [fget f_type].
    by rewrite !bool_decide_eq_false_2. }
  rewrite (sbind_run _ _ _ _ _ Hc). erewrite sbind_run by (by eapply read_gw_run). rewrite Hm. known_eqs.
  erewrite sbind_run by (by apply client_run). cbn [fget f_networkValid andb].
  destruct (cl_networkValid cl) eqn:E.
  - erewrite sbind_run by (by apply client_run). erewrite sbind_run by (by apply client_run). cbn.
    erewrite sbind_run by (by apply client_run). erewrite sbind_run by (by apply client_run).
    cbn [fget fset f_networkValid cl_networkValid negb]. test_true (0 <? sent).
    rewrite (client_run _ _ (fset f_status Cstat_Connecting (fset f_networkValid true (fset f_networkValid false cl))) _ tt)
      by done. done.
  - erewrite sbind_run by reflexivity. erewrite sbind_run by (by apply client_run). cbn [fget f_networkValid]. rewrite E.
    erewrite sbind_run by (by apply client_run). erewrite sbind_run by (by apply client_run).
    cbn [fget fset f_networkValid cl_networkValid negb]. test_true (0 <? sent). by apply client_run.
Qed.

(** Its CONNACK, translated, goes to the client. *)
Lemma connack_handled c cl v g flags rc : regular cl -> client_holds cl v -> 0 <= rc < 256 ->
  exists cl', client_holds cl' v /\ cl_type cl' = cl_type cl /\
    cl_status cl' = (if rc =? MQTT_CONNECTION_ACCEPTED then Cstat_Active else Cstat_Disconnected) /\
    handle_event (EtBrokerRecv c (gw_object (mqtt_header CONNACK 0 0 0) [byte_of_Z flags; byte_of_Z rc])) (set_client c cl g) =
      Some (tt, set_client c cl' (posted f_clientSendQue
        (EtClientSend c (sn_object (sn_packet MQTTSN_CONNACK [byte_of_Z (sn_returnCode rc)]))) g)).
Proof.
  intros Hreg Hv Hrc. rewrite handle_gw_run by done.
  erewrite transparent_gw_type by reflexivity. cbn [gp_header gw_object]. cbv zeta.
  change (header_type (mqtt_header CONNACK 0 0 0)) with (CONNACK : Z). known_eqs.
  exact (handleConnack_run Hheap c cl v g (mqtt_header CONNACK 0 0 0) flags rc Hv eq_refl Hrc).
Qed.

(** A CONNECT of the client becomes one for the broker. *)
Lemma connect_handled c cl v name clean duration id g : connectable cl name -> regular cl -> client_holds cl v ->
  par_mqttVersion = 3 \/ par_mqttVersion = 4 -> 0 <= duration < 65536 ->
  let body := sn_connect_body clean 0 duration id in sn_readable body ->
  exists cl1 m, gw_wire m = Some (mqtt_packet (mqtt_header CONNECT 0 0 0) (connect_body (connect_options name clean duration None))) /\
    gp_header m = mqtt_header CONNECT 0 0 0 /\ regular cl1 /\ client_holds cl1 (if clean mod 2 =? 0 then v else v_clean v) /\
    handle_event (EtClientRecv c (sn_object (sn_packet MQTTSN_CONNECT body))) (set_client c cl g) =
      Some (tt, set_client c cl1 (posted f_brokerSendQue (EtBrokerSend c m) g)).
Proof.
  intros Hcl Hreg Hv Hver Hd body Hb.
  destruct (handleConnect_plain Hheap c cl v g name clean duration id Hcl Hv Hver Hd Hb)
    as (cl1 & co & m & (Hst & _ & _ & Hty & _) & Hv1 & Hwire & Hm & Hrun).
  destruct (update_connect cl1 clean 0 duration id Hst Hd Hb) as (msec & timer & Hu).
  exists (fset f_keepAliveTimer timer (fset f_keepAliveMsec msec cl1)), m. split; [done|]. split; [done|]. split_and!.
  - unfold regular in *. cbn. by rewrite Hty.
  - by eapply same_holds.
  - eapply handle_sn_run; [done|done|by vm_compute| |exact Hu]. sn_dispatch. exact Hrun.
Qed.

(** The second half of connecting: the CONNECT is sent, CONNACK comes back. *)
Lemma connect_answered c cl v m : regular cl -> client_holds cl v -> gp_header m = mqtt_header CONNECT 0 0 0 ->
  forall g sent, 0 < sent ->
  exists cl2, cl_status cl2 = Cstat_Connecting /\
    broker_send_event true sent (EtBrokerSend c m) (set_client c cl g) = Some (tt, set_client c cl2 g) /\
  forall g' flags rc, 0 <= rc < 256 ->
  exists cl3, client_holds cl3 v /\ (cl_status cl3 = Cstat_Active <-> rc = MQTT_CONNECTION_ACCEPTED) /\
    handle_event (EtBrokerRecv c (gw_object (mqtt_header CONNACK 0 0 0) [byte_of_Z flags; byte_of_Z rc])) (set_client c cl2 g') =
      Some (tt, set_client c cl3 (posted f_clientSendQue
        (EtClientSend c (sn_object (sn_packet MQTTSN_CONNACK [byte_of_Z (sn_returnCode rc)]))) g')).
Proof.
  intros Hreg Hv Hm g sent Hsent. exists (fset f_status Cstat_Connecting (fset f_networkValid true cl)).
  split; [done|]. split; [apply broker_connect_run; [done|by rewrite Hm|done]|].
  intros g' flags rc Hrc. destruct (connack_handled c (fset f_status Cstat_Connecting (fset f_networkValid true cl)) v g' flags rc)
    as (cl3 & Hv3 & _ & Hst3 & Hrun); [done|by eapply same_holds|done|].
  exists cl3. split; [done|]. split; [|exact Hrun]. rewrite Hst3.
  destruct (Z.eqb_spec rc MQTT_CONNECTION_ACCEPTED) as [->|Hne]; [done|]. by split.
Qed.

(** A client without a will connects: its CONNECT goes to the broker with
    its identifier, keep-alive time and the credentials of the gateway; what
    CONNACK the broker sends the client gets, translated, and it is active
    exactly when it was accepted. A clean session leaves the predefined topics
    only and nothing that waits. *)
Theorem connect_flow c cl v name clean duration id g : connectable cl name -> regular cl -> client_holds cl v ->
  par_mqttVersion = 3 \/ par_mqttVersion = 4 -> 0 <= duration < 65536 ->
  let body := sn_connect_body clean 0 duration id in sn_readable body ->
  exists cl1 m, gw_wire m = Some (mqtt_packet (mqtt_header CONNECT 0 0 0) (connect_body (connect_options name clean duration None))) /\
    handle_event (EtClientRecv c (sn_object (sn_packet MQTTSN_CONNECT body))) (set_client c cl g) =
      Some (tt, set_client c cl1 (posted f_brokerSendQue (EtBrokerSend c m) g)) /\
  forall g1 sent, 0 < sent ->
  exists cl2, cl_status cl2 = Cstat_Connecting /\
    broker_send_event true sent (EtBrokerSend c m) (set_client c cl1 g1) = Some (tt, set_client c cl2 g1) /\
  forall g2 flags rc, 0 <= rc < 256 ->
  exists cl3, client_holds cl3 (if clean mod 2 =? 0 then v else v_clean v) /\
    (cl_status cl3 = Cstat_Active <-> rc = MQTT_CONNECTION_ACCEPTED) /\
    handle_event (EtBrokerRecv c (gw_object (mqtt_header CONNACK 0 0 0) [byte_of_Z flags; byte_of_Z rc])) (set_client c cl2 g2) =
      Some (tt, set_client c cl3 (posted f_clientSendQue
        (EtClientSend c (sn_object (sn_packet MQTTSN_CONNACK [byte_of_Z (sn_returnCode rc)]))) g2)).
Proof.
  intros Hcl Hreg Hv Hver Hd body Hb.
  destruct (connect_handled c cl v name clean duration id g Hcl Hreg Hv Hver Hd Hb) as (cl1 & m & Hwire & Hm & Hreg1 & Hv1 & Hrun).
  exists cl1, m. split; [done|]. split; [exact Hrun|]. by apply connect_answered.
Qed.

(** A client with a will is asked for its topic and then for its message
    before the CONNECT, which carries both, goes to the broker. *)
Theorem will_flow c cl v name clean duration id g qos retain topic msg : connectable cl name -> regular cl ->
  client_holds cl v -> par_mqttVersion = 3 \/ par_mqttVersion = 4 -> 0 <= duration < 65536 ->
  let body := sn_connect_body clean 1 duration id in
  let will := {| wi_topic := c_str topic; wi_message := c_str msg; wi_qos := qos mod 4; wi_retained := retain mod 2 |} in
  sn_readable body -> sn_readable (sn_willtopic_body qos retain topic) -> sn_readable msg ->
  exists cl1, handle_event (EtClientRecv c (sn_object (sn_packet MQTTSN_CONNECT body))) (set_client c cl g) =
      Some (tt, set_client c cl1 (posted f_clientSendQue (EtClientSend c (sn_object (sn_packet MQTTSN_WILLTOPICREQ []))) g)) /\
  forall g1, exists cl2,
    handle_event (EtClientRecv c (sn_object (sn_packet MQTTSN_WILLTOPIC (sn_willtopic_body qos retain topic)))) (set_client c cl1 g1) =
      Some (tt, set_client c cl2 (posted f_clientSendQue (EtClientSend c (sn_object (sn_packet MQTTSN_WILLMSGREQ []))) g1)) /\
  forall g2, exists cl3 m, client_holds cl3 (if clean mod 2 =? 0 then v else v_clean v) /\
    gw_wire m = Some (mqtt_packet (mqtt_header CONNECT 0 0 0) (connect_body (connect_options name clean duration (Some will)))) /\
    handle_event (EtClientRecv c (sn_object (sn_packet MQTTSN_WILLMSG msg))) (set_client c cl2 g2) =
      Some (tt, set_client c cl3 (posted f_brokerSendQue (EtBrokerSend c m) g2)).
Proof.
  intros Hcl Hreg Hv Hver Hd body will Hb Hbt Hbm.
  destruct (handleConnect_will Hheap c cl v g name clean duration id Hcl Hv Hver Hd Hb)
    as (cl1 & co & (Hst & _ & Hco & Hty & _) & Hv1 & Hden & Hrun).
  destruct (update_connect cl1 clean 1 duration id Hst Hd Hb) as (msec & timer & Hu).
  set (cl1' := fset f_keepAliveTimer timer (fset f_keepAliveMsec msec cl1)) in *.
  exists cl1'. split; [eapply handle_sn_run; [done|done|by vm_compute|sn_dispatch; exact Hrun|exact Hu]|]. intros g1.
  destruct (handleWilltopic_run Hheap c cl1' _ g1 qos retain topic (same_holds _ _ _ Hv1 ltac:(by split_and!)) Hbt)
    as (cl2 & Hv2 & Hst2 & Hwait & Hco2 & Hty2 & Hrun2).
  exists cl2. split.
  { eapply handle_sn_run; [done|done|by vm_compute|sn_dispatch; exact Hrun2|].
    apply update_idle; [by rewrite Hst2|done|done]. }
  intros g2. specialize (Hden (c_str topic) (c_str msg) (qos mod 4) (retain mod 2)).
  destruct (handleWillmsg_run Hheap c cl2 _ g2 (cl_connectData cl2) (connect_options name clean duration (Some will)) msg
    Hv2 Hwait) as (cl3 & m & Hv3 & Hst3 & _ & Hwire & _ & Hrun3); [by rewrite Hst2|done| |done|].
  { rewrite Hco2. cbn [cl_connectData cl1' fset f_keepAliveTimer f_keepAliveMsec]. rewrite Hco. exact Hden. }
  exists cl3, m. split; [done|]. split; [done|].
  eapply handle_sn_run; [done|done|by vm_compute|sn_dispatch; exact Hrun3|by apply update_idle].
Qed.

(** ** Registering and publishing *)

(** C30: A client registers a name and publishes to it with QoS 1: REGACK carries
    the identifier of the name, the broker gets the message under the name with
    the packet identifier of the client, and its PUBACK comes back with the
    identifier of the topic. Then nothing waits any more. *)
Theorem register_publish_flow c cl v g id0 regId name dup retained msgId payload n predefined :
  regular cl -> client_holds cl v -> cl_status cl = Cstat_Active -> registrable name (v_topics v) ->
  Z.of_nat (size (v_pub v)) <= 2 * MAX_INFLIGHTMESSAGES -> v_pub v !! msgId = None ->
  0 <= id0 < 65536 -> 0 <= regId < 65536 -> 0 < msgId < 65536 -> sn_readable (sn_register_body id0 regId name) ->
  exists id cl1, 1 <= id <= 65534 /\
    handle_event (EtClientRecv c (sn_object (sn_packet MQTTSN_REGISTER (sn_register_body id0 regId name)))) (set_client c cl g) =
      Some (tt, set_client c cl1 (posted f_clientSendQue (EtClientSend c (sn_object (sn_packet MQTTSN_REGACK
        (sn_ack_body id regId MQTTSN_RC_ACCEPTED)))) g)) /\
  forall g1, topics_hold (gw_topics g1) n predefined ->
  let body := sn_publish_body dup 1 retained msgId (TopicId MQTTSN_TOPIC_TYPE_NORMAL id) payload in sn_readable body ->
  exists cl2 m, gw_wire m = Some (publish_packet (dup mod 2) 1 (retained mod 2) msgId name payload) /\
    handle_event (EtClientRecv c (sn_object (sn_packet MQTTSN_PUBLISH body))) (set_client c cl1 g1) =
      Some (tt, set_client c cl2 (posted f_brokerSendQue (EtBrokerSend c m) g1)) /\
  forall g2, exists cl3 ts, client_holds cl3 (v_set_topics ts.1 ts.2 v) /\ cl_status cl3 = Cstat_Active /\
    handle_event (EtBrokerRecv c (gw_object (mqtt_header PUBACK 0 0 0) (int_bytes msgId))) (set_client c cl2 g2) =
      Some (tt, set_client c cl3 (posted f_clientSendQue (EtClientSend c (sn_object (sn_packet MQTTSN_PUBACK
        (sn_ack_body id msgId MQTTSN_RC_ACCEPTED)))) g2)).
Proof.
  intros Hreg Hv Hst Hname Hroom Hnew Hid0 Hri Hm Hb.
  pose proof Hv as (_ & _ & (_ & _ & _ & _ & _ & Hok) & _).
  destruct (registered_spec _ _ name Hok Hname) as (t & nt & ts & Ereg & Htn & Htt & Hidr & Hby & Hfind).
  pose proof (handleRegister_run Hheap c cl v g id0 regId name Hv (or_introl Hst) Hid0 Hri Hb) as Hrun.
  rewrite Ereg in Hrun. destruct Hrun as (s & Hv1 & Hrun).
  { intros u Hin Hu. destruct Hname as [Hnul Hname]. rewrite (c_str_whole name Hnul), orb_diag in Hu.
    pose proof Hok as (_ & Hnd & _).
    rewrite (find_unique_name _ _ u Hnd Hin Hu) in Hname. pose proof (normal_id_range _ _ _ Hok Hin Hname). lia. }
  set (cl1 := fset f_topics s cl) in *.
  destruct (update_active cl1 MQTTSN_REGISTER _ Hst Hb ltac:(done)) as (timer & Hu).
  exists (topic_id t), (fset f_keepAliveTimer timer cl1). split; [done|]. split.
  { eapply handle_sn_run; [done|done|by vm_compute|sn_dispatch; exact Hrun|exact Hu]. }
  intros g1 Hg1 body Hbp. set (cl1' := fset f_keepAliveTimer timer cl1) in *.
  assert (Hv1' : client_holds cl1' (v_set_topics nt ts v)) by by eapply same_holds.
  destruct (handlePublish_known Hheap c cl1' _ g1 n predefined dup 1 retained msgId payload Hv1'
    (regular_direct cl1' Hreg) Hg1 ltac:(lia) ltac:(lia) MQTTSN_TOPIC_TYPE_NORMAL (topic_id t) t (v_set_topics nt ts v))
    as (sp & s' & m & Hv2 & Hwire & Hrun2); [done|split; [by left|lia]|done| |].
  { unfold resolve. cbn [v_topics v_set_topics]. by rewrite Hby. }
  rewrite Htn in Hwire. set (cl2 := fset f_pubMap sp (fset f_topics s' cl1')) in *.
  destruct (update_active cl2 MQTTSN_PUBLISH _ Hst Hbp ltac:(done)) as (timer2 & Hu2).
  exists (fset f_keepAliveTimer timer2 cl2), m. split; [done|]. split.
  { eapply handle_sn_run; [done|done|by vm_compute| |exact Hu2]. sn_dispatch. unfold ignore.
    by rewrite (sbind_run _ _ _ _ _ Hrun2). }
  intros g2. assert (Haw : awaiting 1 msgId (topic_id t) MQTTSN_TOPIC_TYPE_NORMAL (v_set_topics nt ts v) =
    v_set_pub (<[msgId := (topic_id t, MQTTSN_TOPIC_TYPE_NORMAL)]> (v_pub v)) (v_set_topics nt ts v)).
  { unfold awaiting. test_false (msgId =? 0). cbn [negb andb acknowledged v_pub v_set_topics].
    change (acknowledged 1) with true. test_false (2 * MAX_INFLIGHTMESSAGES <? Z.of_nat (size (v_pub v))).
    by test_false (topic_id t =? 0). }
  rewrite Haw in Hv2.
  destruct (handlePuback_down Hheap c (fset f_keepAliveTimer timer2 cl2) _ g2 (mqtt_header PUBACK 0 0 0) (topic_id t)
    MQTTSN_TOPIC_TYPE_NORMAL msgId (same_holds _ _ _ Hv2 ltac:(by split_and!))) as (s3 & Hv3 & Hrun3);
    [done|lia|lia|apply lookup_insert_eq|].
  eexists _, (nt, ts). split; [|split; [|gw_dispatch; change (header_type (mqtt_header PUBACK 0 0 0)) with (PUBACK : Z); known_eqs; exact Hrun3]]; [|done].
  cbn [v_pub v_set_pub] in Hv3. rewrite delete_insert_id in Hv3 by done. by destruct v.
Qed.

(** ** Subscribing *)

(** C31: A client subscribes to a name: the broker gets the SUBSCRIBE, its SUBACK
    reaches the client with the identifier the name has now, a refusal as a
    rejection, and a message the broker sends for the name goes out under that
    identifier. *)
Theorem subscribe_flow c cl v g dup qos msgId name :
  regular cl -> client_holds cl v -> cl_status cl = Cstat_Active -> registrable name (v_topics v) ->
  Z.of_nat (size (v_sub v)) <= 2 * MAX_INFLIGHTMESSAGES -> 0 <= qos < 3 -> 0 < msgId < 65536 -> 2 < zlen name <= 65535 ->
  let body := sn_subscribe_body dup qos msgId (TopicLong name) in sn_readable body ->
  exists id cl1 m, 1 <= id <= 65534 /\
    gw_wire m = Some (mqtt_packet (mqtt_header SUBSCRIBE 0 1 0) (subscribe_body msgId [(name, qos)])) /\
    handle_event (EtClientRecv c (sn_object (sn_packet MQTTSN_SUBSCRIBE body))) (set_client c cl g) =
      Some (tt, set_client c cl1 (posted f_brokerSendQue (EtBrokerSend c m) g)) /\
  forall g1 rc, 0 <= rc < 256 -> exists cl2,
    handle_event (EtBrokerRecv c (gw_object (mqtt_header SUBACK 0 0 0) (int_bytes msgId ++ [byte_of_Z rc]))) (set_client c cl1 g1) =
      Some (tt, set_client c cl2 (posted f_clientSendQue (EtClientSend c (sn_object (sn_packet MQTTSN_SUBACK
        (if rc =? 128 then sn_suback_body 0 id msgId MQTTSN_RC_REJECTED_INVALID_TOPIC_ID
         else sn_suback_body rc id msgId MQTTSN_RC_ACCEPTED)))) g1)) /\
  forall g2 h pubId payload, let t := TopicId MQTTSN_TOPIC_TYPE_NORMAL id in
    header_type h = PUBLISH -> header_qos h <> 3 -> 0 <= pubId < 65536 -> downward_fits h pubId payload t ->
    handle_event (EtBrokerRecv c (gw_object h (publish_body (header_qos h) pubId name payload))) (set_client c cl2 g2) =
      Some (tt, set_client c cl2 (posted f_clientSendQue (EtClientSend c (downward_publish h pubId payload t)) g2)).
Proof.
  intros Hreg Hv Hst Hname Hroom Hqos Hm Hlen body Hb. destruct (regular_not cl Hreg) as (_ & Hna & _).
  pose proof Hv as (_ & _ & (_ & _ & _ & _ & _ & Hok) & _).
  destruct (registered_spec _ _ name Hok Hname) as (t & nt & ts & Ereg & Htn & Htt & Hidr & Hby & Hfind).
  destruct (handleSubscribe_name Hheap c g dup qos msgId Hqos Hm cl v name t nt ts Hv Hna ltac:(lia) Hb Ereg)
    as (s & s' & m & Hv1 & Hwire & Hrun). set (cl1 := fset f_subMap s (fset f_topics s' cl)) in *.
  destruct (update_active cl1 MQTTSN_SUBSCRIBE _ Hst Hb ltac:(done)) as (timer & Hu).
  exists (topic_id t), (fset f_keepAliveTimer timer cl1), m. split; [done|].
  split; [unfold upward_subscribe in Hwire; by rewrite c_str_whole in Hwire by apply Hname|]. split.
  { eapply handle_sn_run; [done|done|by vm_compute| |exact Hu]. sn_dispatch. unfold ignore.
    by rewrite (sbind_run _ _ _ _ _ Hrun). }
  intros g1 rc Hrc. assert (Haw : v_sub (awaiting_sub msgId (topic_id t) MQTTSN_TOPIC_TYPE_NORMAL (v_set_topics nt ts v)) !! msgId =
      Some (topic_id t, MQTTSN_TOPIC_TYPE_NORMAL) /\
    v_topics (awaiting_sub msgId (topic_id t) MQTTSN_TOPIC_TYPE_NORMAL (v_set_topics nt ts v)) = ts).
  { unfold awaiting_sub. cbn [v_sub v_set_topics]. test_false (2 * MAX_INFLIGHTMESSAGES <? Z.of_nat (size (v_sub v))).
    test_false (topic_id t =? 0). cbn [andb orb]. split; [apply lookup_insert_eq|done]. }
  destruct Haw as [Haw Hts].
  destruct (handleSuback_run Hheap c (fset f_keepAliveTimer timer cl1) _ g1 (mqtt_header SUBACK 0 0 0) msgId rc (topic_id t)
    MQTTSN_TOPIC_TYPE_NORMAL (same_holds _ _ _ Hv1 ltac:(by split_and!))) as (s2 & Hv2 & Hrun2); [done|lia|done|lia|exact Haw|].
  set (cl2 := fset f_subMap s2 _) in *. exists cl2.
  split; [gw_dispatch; change (header_type (mqtt_header SUBACK 0 0 0)) with (SUBACK : Z); known_eqs; exact Hrun2|].
  intros g2 h pubId payload tid Hh Hq3 Hp Hfit.
  gw_dispatch. rewrite Hh. known_eqs.
  assert (Hfind2 : find (has_name name) (v_topics (v_set_sub (delete msgId (v_sub (awaiting_sub msgId (topic_id t)
    MQTTSN_TOPIC_TYPE_NORMAL (v_set_topics nt ts v)))) (awaiting_sub msgId (topic_id t) MQTTSN_TOPIC_TYPE_NORMAL
    (v_set_topics nt ts v)))) = Some t) by (cbn [v_topics v_set_sub]; by rewrite Hts).
  apply Z.eqb_eq in Htt.
  pose proof (handlePublish_named Hheap c cl2 _ g2 h pubId name payload Hv2 Hh ltac:(lia) Hp (or_introl Hst) ltac:(lia) t Hfind2)
    as Hrun3. rewrite Htt in Hrun3. apply Hrun3; [split; [by left|lia]|exact Hfit].
Qed.

(** ** Messages for names the client does not know *)

Lemma regack_find_last {P} (ps : list (Z * P)) id p : regack_find id ps = None ->
  regack_find id (ps ++ [(id, p)]) = Some p /\ regack_remove id (ps ++ [(id, p)]) = ps.
Proof.
  induction ps as [|[i q] ps IH]; cbn; [by rewrite Z.eqb_refl|]. destruct (i =? id); [done|].
  intros Hnone. destruct (IH Hnone) as [-> ->]. done.
Qed.

(** C32: A message for a name that only a wildcard of the client matches: the name
    is registered and the client told its identifier; the message is held back
    until the client acknowledges it and then goes out under the identifier, as
    do all later messages for the name, without a new registration. *)
Theorem wildcard_flow c cl v g h pubId name payload wild :
  regular cl -> client_holds cl v -> cl_status cl = Cstat_Active -> cl_holdPingRequest cl = false ->
  header_type h = PUBLISH -> header_qos h <> 3 -> 0 <= pubId < 65536 -> 2 < zlen name < 65536 ->
  find (has_name name) (v_topics v) = None -> find (matches name) (v_topics v) = Some wild ->
  zlen (v_topics v) < MAX_TOPIC_PAR_CLIENT -> (Corelib.Init.Byte.x00 ∉ name) -> 0 <= cl_snMsgId cl < 256 ->
  let id := v_lastId v mod 65534 + 1 in
  let regId := cl_snMsgId cl mod 255 + 1 in
  let t := TopicId MQTTSN_TOPIC_TYPE_NORMAL id in
  regack_find regId (v_regack v) = None -> sn_fits (sn_register_body id regId name) -> downward_fits h pubId payload t ->
  exists cl1,
    handle_event (EtBrokerRecv c (gw_object h (publish_body (header_qos h) pubId name payload))) (set_client c cl g) =
      Some (tt, set_client c cl1 (posted f_clientSendQue
        (EtClientSend c (sn_object (sn_packet MQTTSN_REGISTER (sn_register_body id regId name)))) g)) /\
  forall g1, exists cl2,
    client_holds cl2 (v_set_topics id (v_topics v ++ [mkTopic MQTTSN_TOPIC_TYPE_NORMAL id name]) v) /\
    handle_event (EtClientRecv c (sn_object (sn_packet MQTTSN_REGACK (sn_ack_body id regId MQTTSN_RC_ACCEPTED)))) (set_client c cl1 g1) =
      Some (tt, set_client c cl2 (posted f_clientSendQue (EtClientSend c (downward_publish h pubId payload t)) g1)) /\
  forall g2 h' pubId' payload', header_type h' = PUBLISH -> header_qos h' <> 3 -> 0 <= pubId' < 65536 ->
    downward_fits h' pubId' payload' t ->
    handle_event (EtBrokerRecv c (gw_object h' (publish_body (header_qos h') pubId' name payload'))) (set_client c cl2 g2) =
      Some (tt, set_client c cl2 (posted f_clientSendQue (EtClientSend c (downward_publish h' pubId' payload' t)) g2)).
Proof.
  intros Hreg Hv Hst Hhold Hh Hq3 Hp Hlen Hnone Hwild Hroom Hnul Hsn id regId t Hnew Hfr Hfit.
  pose proof Hv as (_ & _ & (_ & _ & _ & _ & _ & Hok) & _). pose proof Hok as (_ & _ & _ & Hn).
  destruct (handlePublish_register Hheap c cl v g h pubId name payload Hv Hh ltac:(lia) Hp (or_introl Hst) ltac:(lia)
    wild Hnone Hwild Hroom Hnul Hq3 Hsn Hfr Hfit) as (cl1 & Hst1 & Hty1 & Hh1 & _ & Hv1 & Hrun).
  exists cl1. split; [gw_dispatch; rewrite Hh; known_eqs; exact Hrun|]. intros g1.
  destruct (regack_find_last (v_regack v) regId (downward_publish h pubId payload t) Hnew) as [Hf Hr].
  rewrite Hst in Hst1.
  destruct (handleRegAck_run c cl1 _ g1 id regId MQTTSN_RC_ACCEPTED Hv1 (or_introl Hst1)) as (cl2 & Hv2 & Hst2 & Hty2 & _ & Hrun2);
    [unfold id; divmod_lia|unfold regId; divmod_lia|done|].
  cbn [v_regack v_set_regack] in Hv2, Hrun2. fold id regId t in Hv2, Hrun2. rewrite Hf, Hh1, Hhold in Hrun2. cbn [andb] in Hrun2.
  rewrite Hr in Hv2. rewrite Hst1 in Hst2. destruct (update_active cl2 MQTTSN_REGACK (sn_ack_body id regId MQTTSN_RC_ACCEPTED) Hst2)
    as (timer & Hu); [done|done|].
  exists (fset f_keepAliveTimer timer cl2). split; [eapply same_holds; [|by split_and!]; by destruct v|]. split.
  { eapply handle_sn_run; [done|done|by vm_compute|sn_dispatch; exact Hrun2|exact Hu]. }
  intros g2 h' pubId' payload' Hh' Hq3' Hp' Hfit'. set (cl3 := fset f_keepAliveTimer timer cl2) in *.
  assert (regular cl3) by (unfold regular, cl3 in *; cbn; by rewrite Hty2, Hty1).
  rewrite handle_gw_run by done. erewrite transparent_gw_type by reflexivity. cbn [gp_header gw_object]. rewrite Hh'. cbv zeta. known_eqs.
  apply (handlePublish_named Hheap c cl3 _ g2 h' pubId' name payload' (same_holds _ _ _ Hv2 ltac:(by split_and!)) Hh' ltac:(lia) Hp'
    (or_introl Hst2) ltac:(lia) (mkTopic MQTTSN_TOPIC_TYPE_NORMAL id name)); [|split; [by left|unfold id; cbn; divmod_lia]|exact Hfit'].
  exact (find_name_last _ (mkTopic MQTTSN_TOPIC_TYPE_NORMAL id name) Hnone).
Qed.

(** ** Sleeping *)

(** A message of the broker as it is received. *)
Record message := Message { msg_header : Z; msg_pubId : Z; msg_name : list byte; msg_payload : list byte }.
Definition msg_packet (m : message) : MQTTGWPacket :=
  gw_object (msg_header m) (publish_body (header_qos (msg_header m)) (msg_pubId m) (msg_name m) (msg_payload m)).
Definition msg_ok (m : message) : Prop :=
  header_type (msg_header m) = PUBLISH /\ zlen (msg_name m) < 65536 /\ 0 <= msg_pubId m < 65536.

Fixpoint handle_all (evs : list Event) : st Gateway unit :=
  match evs with
  | [] => sret tt
  | ev :: evs => handle_event ev ;! handle_all evs
  end.

(** The acknowledgements of the gateway on behalf of the client. *)
Definition answered_all (c : loc) (msgs : list message) g : Gateway :=
  foldl (fun g m => answered c (header_qos (msg_header m)) (msg_pubId m) g) g msgs.

(** Of the messages, as many as there is room for are kept. *)
Lemma asleep_messages c cl v g msgs : regular cl -> client_holds cl v -> cl_status cl = Cstat_Asleep ->
  Forall msg_ok msgs -> zlen (v_sleeping v) <= MAX_SAVED_PUBLISH ->
  exists q, let cl' := fset f_sleepQue q cl in
    client_holds cl' (v_set_sleeping (take (Z.to_nat MAX_SAVED_PUBLISH) (v_sleeping v ++ (msg_packet <$> msgs))) v) /\
    handle_all ((fun m => EtBrokerRecv c (msg_packet m)) <$> msgs) (set_client c cl g) =
      Some (tt, set_client c cl' (answered_all c msgs g)).
Proof.
  intros Hreg Hv Hst Hok. revert cl v g Hreg Hv Hst. induction msgs as [|m msgs IH]; intros cl v g Hreg Hv Hst Hlen.
  { exists (cl_sleepQue cl). replace (fset f_sleepQue (cl_sleepQue cl) cl) with cl by by destruct cl. cbv zeta.
    split; [|done]. cbn [fmap list_fmap]. rewrite app_nil_r, take_ge by zlen_lia. by destruct v. }
  apply Forall_cons_1 in Hok as [(Hh & Hn & Hp) Hok]. cbn [fmap list_fmap handle_all answered_all foldl].
  destruct (handlePublish_asleep Hheap c cl v g (msg_header m) (msg_pubId m) (msg_name m) (msg_payload m) Hv Hh Hn Hp Hst)
    as (q & Hv1 & Hrun). fold (msg_packet m) in Hv1, Hrun.
  assert (Hev : handle_event (EtBrokerRecv c (msg_packet m)) (set_client c cl g) =
    Some (tt, set_client c (fset f_sleepQue q cl) (answered c (header_qos (msg_header m)) (msg_pubId m) g))).
  { rewrite handle_gw_run by done. erewrite transparent_gw_type by reflexivity. cbn [gp_header gw_object msg_packet].
    rewrite Hh. cbv zeta. known_eqs. exact Hrun. }
  rewrite (sbind_run _ _ _ _ _ Hev).
  destruct (IH Hok (fset f_sleepQue q cl) _ (answered c (header_qos (msg_header m)) (msg_pubId m) g) Hreg Hv1 Hst)
    as (q' & Hv2 & Hrun2).
  { cbn [v_sleeping v_set_sleeping]. case_test; [|done]. zlen_lia. }
  exists q'. cbv zeta. split; [|exact Hrun2]. cbn [v_sleeping v_set_sleeping] in Hv2. revert Hv2.
  destruct (zlen (v_sleeping v) <? MAX_SAVED_PUBLISH) eqn:E.
  - by rewrite <- app_assoc.
  - apply Z.ltb_ge in E. rewrite !take_app_le by zlen_lia. done.
Qed.

(** C33: A client goes to sleep: its DISCONNECT is answered and the broker not told.
    The messages that come meanwhile are acknowledged and the first 20 of them
    kept; PINGREQ hands these, in order, to the packet queue, and the client is
    awake. *)
Theorem sleep_flow c cl v g duration msgs pingreq : regular cl -> client_holds cl v -> cl_status cl = Cstat_Active ->
  v_sleeping v = [] -> 0 < duration < 65536 -> Forall msg_ok msgs -> msgs <> [] -> sn_readable pingreq ->
  exists cl1, cl_status cl1 = Cstat_Asleep /\
    handle_event (EtClientRecv c (sn_object (sn_packet MQTTSN_DISCONNECT (disconnect_body duration)))) (set_client c cl g) =
      Some (tt, set_client c cl1 (posted f_clientSendQue (EtClientSend c (sn_object (sn_packet MQTTSN_DISCONNECT []))) g)) /\
  forall g1, exists cl2,
    handle_all ((fun m => EtBrokerRecv c (msg_packet m)) <$> msgs) (set_client c cl1 g1) =
      Some (tt, set_client c cl2 (answered_all c msgs g1)) /\
  forall g2, exists cl3, client_holds cl3 v /\ cl_status cl3 = Cstat_Awake /\
    handle_event (EtClientRecv c (sn_object (sn_packet MQTTSN_PINGREQ pingreq))) (set_client c cl2 g2) =
      Some (tt, set_client c cl3 (posted_all f_packetEventQue
        ((fun m => EtBrokerRecv c (msg_packet m)) <$> take (Z.to_nat MAX_SAVED_PUBLISH) msgs) g2)).
Proof.
  intros Hreg Hv Hst Hempty Hd Hok Hne Hb.
  assert (Hbd : sn_readable (disconnect_body duration)) by (unfold disconnect_body; by case_test).
  destruct (handleDisconnect_run Hheap c cl g duration ltac:(lia)) as (p & _ & Hrun). rewrite (proj2 (Z.eqb_neq _ _)) in Hrun by lia.
  exists (fset f_status Cstat_Asleep cl). split; [done|]. split.
  { eapply handle_sn_run; [done|done|by vm_compute|sn_dispatch; exact Hrun|].
    unfold Client_updateStatus. do 2 (erewrite sbind_run by reflexivity).
    erewrite sbind_run by (apply demand_run, getType_run; [done|by vm_compute]). cbn [fget f_status]. rewrite Hst. known_tests.
    known_eqs. change (keeps_alive MQTTSN_DISCONNECT) with false. cbv iota.
    erewrite sbind_run by (apply demand_run, getDISCONNECT_run; lia). cbv iota beta. by test_false (duration =? 0). }
  intros g1. destruct (asleep_messages c (fset f_status Cstat_Asleep cl) v g1 msgs Hreg (same_holds _ _ _ Hv ltac:(by split_and!))
    eq_refl Hok ltac:(by rewrite Hempty)) as (q & Hv2 & Hrun2). set (cl2 := fset f_sleepQue q _) in *.
  exists cl2. split; [exact Hrun2|]. intros g2. rewrite Hempty in Hv2. cbn [app] in Hv2.
  destruct (handlePingreq_run c cl2 _ g2 Hv2) as (cl3 & Hst3 & Hty3 & _ & Hv3 & Hrun3).
  change (cl_status cl2) with Cstat_Asleep in *. cbn [v_sleeping v_set_sleeping] in *.
  rewrite (bool_decide_eq_false_2 (take _ _ = [])) in Hv3, Hrun3 by by destruct msgs. cbn [negb andb orb] in Hv3, Hrun3.
  revert Hv3 Hrun3. known_tests. intros Hv3 Hrun3. exists (fset f_status Cstat_Awake cl3).
  split; [|split; [done|]].
  - eapply same_holds; [|by split_and!]. destruct v. cbn in *. by rewrite Hempty in Hv3 |- *.
  - rewrite <- fmap_take, <- list_fmap_compose in Hrun3.
    eapply handle_sn_run; [done|done|by vm_compute|sn_dispatch; exact Hrun3|].
    unfold Client_updateStatus. do 2 (erewrite sbind_run by reflexivity).
    erewrite sbind_run by (apply demand_run, getType_run; [done|by vm_compute]). cbn [fget f_status]. rewrite Hst3. known_tests.
    by known_eqs.
Qed.

(** ** Acknowledgements *)

(** The packets of the QoS 2 handshake, in MQTT-SN and in MQTT. *)
Definition handshake (ty : MQTTSN_msgTypes) (t : msgTypes) : Prop :=
  ty = MQTTSN_PUBREC /\ t = PUBREC \/ ty = MQTTSN_PUBREL /\ t = PUBREL \/ ty = MQTTSN_PUBCOMP /\ t = PUBCOMP.

(** The handshake of QoS 2 passes through the gateway, in both directions and
    with the packet identifier unchanged. *)
Theorem ack_relay c cl g ty t msgId : regular cl -> cl_status cl = Cstat_Active -> handshake ty t -> 0 <= msgId < 65536 ->
  let packet := sn_object (sn_packet ty (int_bytes msgId)) in
  gw_wire (broker_ack t msgId) = Some (mqtt_packet (mqtt_header t 0 (if t =? PUBREL then 1 else 0) 0) (int_bytes msgId)) /\
  (exists cl', same_tables cl cl' /\ cl_status cl' = Cstat_Active /\
    handle_event (EtClientRecv c packet) (set_client c cl g) =
      Some (tt, set_client c cl' (posted f_brokerSendQue (EtBrokerSend c (broker_ack t msgId)) g))) /\
  handle_event (EtBrokerRecv c (broker_ack t msgId)) (set_client c cl g) =
    Some (tt, set_client c cl (posted f_clientSendQue (EtClientSend c packet) g)).
Proof.
  intros Hreg Hst Hty Hm packet. split; [apply gw_wire_owned|].
  assert (Hb : sn_readable (int_bytes msgId)) by done.
  split.
  - destruct (update_active cl ty _ Hst Hb) as (timer & Hu); [by destruct Hty as [[-> _]|[[-> _]|[-> _]]]|].
    exists (fset f_keepAliveTimer timer cl). split; [by split_and!|]. split; [done|].
    assert (Hup : ty = MQTTSN_PUBREC \/ ty = MQTTSN_PUBREL \/ ty = MQTTSN_PUBCOMP) by (unfold handshake in Hty; tauto).
    pose proof (handleAck_up Hheap c cl g ty t msgId Hst Hm Hup) as Hrun.
    eapply handle_sn_run; [done|done|by destruct ty| |exact Hu].
    destruct Hty as [[-> ->]|[[-> ->]|[-> ->]]]; sn_dispatch; exact Hrun.
  - assert (Hh : header_type (mqtt_header t 0 (if t =? PUBREL then 1 else 0) 0) = t) by (by destruct t).
    assert (Hdown : t = PUBREC /\ ty = MQTTSN_PUBREC \/ t = PUBREL /\ ty = MQTTSN_PUBREL \/ t = PUBCOMP /\ ty = MQTTSN_PUBCOMP)
      by (unfold handshake in Hty; tauto).
    pose proof (handleAck_down Hheap c cl g _ msgId t ty (or_introl Hst) Hm Hh) as Hrun.
    gw_dispatch. rewrite Hh.
    destruct Hdown as [[-> ->]|[[-> ->]|[-> ->]]]; known_eqs; apply Hrun; auto.
Qed.
End Flows.

(** ** Concrete exchanges *)

Section Samples.
#[local] Existing Instance little_endian_order.
#[local] Existing Instance ample_heap.
#[local] Existing Instance sample_char.
#[local] Existing Instance sample_pointers.
#[local] Existing Instance sample_params.

Definition sample_view : client_view := View [] [] 0 [] ∅ ∅.

Lemma sample_holds s : client_holds (sample_client s) sample_view.
Proof. apply (same_tables_holds (newClient false)); [by split_and!|apply newClient_holds]. Qed.

Lemma sample_connectable : connectable (sample_client Cstat_Disconnected) (ch [100]).
Proof. by split_and!. Qed.

Definition sample_gateway : Gateway := newGateway newTopics.

Lemma sample_transparent : aggregater_active = false.
Proof. done. Qed.
Lemma sample_heap n : heap_has n = true.
Proof. done. Qed.

Lemma sample_registrable : registrable (ch [97; 47; 98]) [].
Proof. split; [|done]. apply (bool_decide_unpack _). vm_compute. exact I. Qed.

Lemma connect_flow_witness : exists cl1 m,
  gw_wire m = Some (mqtt_packet (mqtt_header CONNECT 0 0 0) (connect_body (connect_options (ch [100]) 1 60 None))) /\
  handle_event (EtClientRecv 1%positive (sn_object (sn_packet MQTTSN_CONNECT (sn_connect_body 1 0 60 (ch [100])))))
    (set_client 1%positive (sample_client Cstat_Disconnected) sample_gateway) =
    Some (tt, set_client 1%positive cl1 (posted f_brokerSendQue (EtBrokerSend 1%positive m) sample_gateway)).
Proof.
  destruct (connect_flow sample_transparent sample_heap 1%positive (sample_client Cstat_Disconnected) sample_view (ch [100]) 1 60 (ch [100])
    sample_gateway sample_connectable (or_introl eq_refl) (sample_holds _) (or_intror eq_refl))
    as (cl1 & m & Hwire & Hrun & _); [lia|by vm_compute|].
  exists cl1, m. split; [exact Hwire|exact Hrun].
Defined.

Lemma will_flow_witness : exists cl1,
  handle_event (EtClientRecv 1%positive (sn_object (sn_packet MQTTSN_CONNECT (sn_connect_body 0 1 60 (ch [100])))))
    (set_client 1%positive (sample_client Cstat_Disconnected) sample_gateway) =
    Some (tt, set_client 1%positive cl1 (posted f_clientSendQue
      (EtClientSend 1%positive (sn_object (sn_packet MQTTSN_WILLTOPICREQ []))) sample_gateway)).
Proof.
  destruct (will_flow sample_transparent sample_heap 1%positive (sample_client Cstat_Disconnected) sample_view (ch [100]) 0 60 (ch [100])
    sample_gateway 1 0 (ch [116]) (ch [109]) sample_connectable (or_introl eq_refl) (sample_holds _) (or_intror eq_refl))
    as (cl1 & Hrun & _); [lia|by vm_compute|by vm_compute|by vm_compute|].
  by exists cl1.
Defined.

Lemma register_publish_flow_witness : exists id cl1, 1 <= id <= 65534 /\
  handle_event (EtClientRecv 1%positive (sn_object (sn_packet MQTTSN_REGISTER (sn_register_body 0 7 (ch [97; 47; 98])))))
    (set_client 1%positive (sample_client Cstat_Active) sample_gateway) =
    Some (tt, set_client 1%positive cl1 (posted f_clientSendQue
      (EtClientSend 1%positive (sn_object (sn_packet MQTTSN_REGACK (sn_ack_body id 7 MQTTSN_RC_ACCEPTED)))) sample_gateway)).
Proof.
  destruct (register_publish_flow sample_transparent sample_heap 1%positive (sample_client Cstat_Active) sample_view sample_gateway
    0 7 (ch [97; 47; 98]) 0 0 9 (ch [120]) 0 [] (or_introl eq_refl) (sample_holds _) eq_refl sample_registrable)
    as (id & cl1 & Hid & Hrun & _); [by vm_compute|done|lia|lia|lia|by vm_compute|].
  exists id, cl1. split; [exact Hid|exact Hrun].
Defined.

Lemma subscribe_flow_witness : exists id cl1 m, 1 <= id <= 65534 /\
  gw_wire m = Some (mqtt_packet (mqtt_header SUBSCRIBE 0 1 0) (subscribe_body 9 [(ch [97; 47; 98], 1)])) /\
  handle_event (EtClientRecv 1%positive (sn_object (sn_packet MQTTSN_SUBSCRIBE (sn_subscribe_body 0 1 9 (TopicLong (ch [97; 47; 98]))))))
    (set_client 1%positive (sample_client Cstat_Active) sample_gateway) =
    Some (tt, set_client 1%positive cl1 (posted f_brokerSendQue (EtBrokerSend 1%positive m) sample_gateway)).
Proof.
  destruct (subscribe_flow sample_transparent sample_heap 1%positive (sample_client Cstat_Active) sample_view sample_gateway
    0 1 9 (ch [97; 47; 98]) (or_introl eq_refl) (sample_holds _) eq_refl sample_registrable)
    as (id & cl1 & m & Hid & Hwire & Hrun & _); [by vm_compute|lia|lia|by vm_compute|by vm_compute|].
  exists id, cl1, m. split; [exact Hid|]. split; [exact Hwire|exact Hrun].
Defined.

(** A client that has subscribed to "a/+". *)
Definition wild_view : client_view := v_set_topics 1 [mkTopic MQTTSN_TOPIC_TYPE_NORMAL 1 (ch [97; 47; 43])] sample_view.

Lemma wild_client : exists cl, cl_type cl = Ctype_Regular /\ cl_status cl = Cstat_Active /\ cl_holdPingRequest cl = false /\
  cl_snMsgId cl = 0 /\ client_holds cl wild_view.
Proof.
  pose proof (client_register_run (sample_client Cstat_Active) sample_view (ch [97; 47; 43]) (sample_holds _)) as Hreg.
  cbn in Hreg. destruct Hreg as (s & _ & Hv). by exists (fset f_topics s (sample_client Cstat_Active)).
Qed.

Lemma wildcard_flow_witness : exists cl cl1, client_holds cl wild_view /\
  handle_event (EtBrokerRecv 1%positive (gw_object (mqtt_header PUBLISH 0 1 0) (publish_body 1 5 (ch [97; 47; 98]) (ch [120]))))
    (set_client 1%positive cl sample_gateway) =
    Some (tt, set_client 1%positive cl1 (posted f_clientSendQue
      (EtClientSend 1%positive (sn_object (sn_packet MQTTSN_REGISTER (sn_register_body 2 1 (ch [97; 47; 98]))))) sample_gateway)).
Proof.
  destruct wild_client as (cl & Hty & Hst & Hhold & Hsn & Hv).
  destruct (wildcard_flow sample_transparent sample_heap 1%positive cl wild_view sample_gateway (mqtt_header PUBLISH 0 1 0) 5
    (ch [97; 47; 98]) (ch [120]) (mkTopic MQTTSN_TOPIC_TYPE_NORMAL 1 (ch [97; 47; 43])) (or_introl Hty) Hv Hst Hhold eq_refl)
    as (cl1 & Hrun & _).
  - by vm_compute.
  - lia.
  - by vm_compute.
  - by vm_compute.
  - by vm_compute.
  - by vm_compute.
  - apply (bool_decide_unpack _). vm_compute. exact I.
  - rewrite Hsn. lia.
  - done.
  - rewrite Hsn. by vm_compute.
  - by vm_compute.
  - exists cl, cl1. split; [exact Hv|]. rewrite Hsn in Hrun. exact Hrun.
Defined.

Lemma sleep_flow_witness : exists cl1, cl_status cl1 = Cstat_Asleep /\
  handle_event (EtClientRecv 1%positive (sn_object (sn_packet MQTTSN_DISCONNECT (disconnect_body 30))))
    (set_client 1%positive (sample_client Cstat_Active) sample_gateway) =
    Some (tt, set_client 1%positive cl1 (posted f_clientSendQue
      (EtClientSend 1%positive (sn_object (sn_packet MQTTSN_DISCONNECT []))) sample_gateway)).
Proof.
  destruct (sleep_flow sample_transparent sample_heap 1%positive (sample_client Cstat_Active) sample_view sample_gateway 30
    [Message (mqtt_header PUBLISH 0 1 0) 5 (ch [97; 47; 98]) (ch [120])] [] (or_introl eq_refl) (sample_holds _) eq_refl eq_refl)
    as (cl1 & Hst & Hrun & _); [lia|by repeat constructor|done|by vm_compute|].
  exists cl1. split; [exact Hst|exact Hrun].
Defined.

Lemma ack_relay_witness :
  handle_event (EtBrokerRecv 1%positive (broker_ack PUBREC 9)) (set_client 1%positive (sample_client Cstat_Active) sample_gateway) =
    Some (tt, set_client 1%positive (sample_client Cstat_Active) (posted f_clientSendQue
      (EtClientSend 1%positive (sn_object (sn_packet MQTTSN_PUBREC (int_bytes 9)))) sample_gateway)).
Proof.
  apply (ack_relay sample_transparent sample_heap 1%positive (sample_client Cstat_Active) sample_gateway MQTTSN_PUBREC PUBREC 9
    (or_introl eq_refl) eq_refl); [by left|lia].
Defined.
End Samples.
