(* ===== verification/GWEncap.v ===== *)
(** * Packets behind a forwarder: MQTTSNGWEncapsulatedPacket.cpp

    A forwarder wraps the packet of a wireless node: length, type and control
    byte, the identifier of the node, the packet.  The length byte covers what is
    before the packet, so an identifier has at most 252 bytes; the code checks
    neither this nor the size of its array. *)

From S2P Require Import Prelude CMem MQTTPacket SNPacket GWHeap GWPacket GWSNPacket.

(** ** Identifiers of wireless nodes *)

(** [_nodeId] and [_len]: no block, or a block of [_len] bytes. *)
Record WirelessNodeId := mkWirelessNodeId { wn_nodeId : option (list byte) }.

Definition newWirelessNodeId : WirelessNodeId := mkWirelessNodeId None.

Definition wn_bytes (id : WirelessNodeId) : list byte := default [] (wn_nodeId id).
Definition wn_len (id : WirelessNodeId) : Z := zlen (wn_bytes id).

(** memcmp of as many bytes. *)
Definition same_bytes (a b : list byte) : bool := bool_decide (a = b).

(** [operator ==] *)
Definition WirelessNodeId_eqb (a b : WirelessNodeId) : bool :=
  if wn_len a =? wn_len b then same_bytes (wn_bytes a) (wn_bytes b) else false.

Section Encapsulated.
Context `{HeapSpace}.

(** [setId(id, len)] on what follows the pointer; the length is an [uint8_t].
    Reading behind the object is undefined. *)
Definition WirelessNodeId_setId (id : list byte) (len : Z) : option WirelessNodeId :=
  let len := u8 len in
  if heap_has len then
    if len <=? zlen id then Some (mkWirelessNodeId (Some (take (Z.to_nat len) id))) else None
  else Some newWirelessNodeId.

(** [setId(id)] *)
Definition WirelessNodeId_setId_from (id : WirelessNodeId) : option WirelessNodeId :=
  WirelessNodeId_setId (wn_bytes id) (wn_len id).

(** ** The packet *)

Record MQTTSNGWEncapsulatedPacket := mkEncapsulated {
  en_mqttsn : option MQTTSNPacket;
  en_id : WirelessNodeId;
  en_ctrl : Z;
}.

Definition newEncapsulated (packet : option MQTTSNPacket) : MQTTSNGWEncapsulatedPacket :=
  mkEncapsulated packet newWirelessNodeId 0.

Definition Encapsulated_setWirelessNodeId (id : WirelessNodeId) (e : MQTTSNGWEncapsulatedPacket) :
    option MQTTSNGWEncapsulatedPacket :=
  id ← WirelessNodeId_setId_from id; Some (mkEncapsulated (en_mqttsn e) id (en_ctrl e)).

(** [memcpy(buf + o, bs, n)] inside the array. *)
Definition array_put (buf : list byte) (o : Z) (bs : list byte) : option (list byte) :=
  if (0 <=? o) && (o + zlen bs <=? zlen buf) then Some (splice buf o bs) else None.

(** The length byte, [buf[0]] after the assignment. *)
Definition encap_length (e : MQTTSNGWEncapsulatedPacket) : Z := u8 (wn_len (en_id e) + 3).

(** The bytes of the packet inside. *)
Definition encap_data (e : MQTTSNGWEncapsulatedPacket) : list byte :=
  match en_mqttsn e with Some p => default [] (gs_buf p) | None => [] end.

(** The result, and the array behind the pointer. *)
Definition MQTTSNGWEncapsulatedPacket_serialize (e : MQTTSNGWEncapsulatedPacket) (buf : list byte) :
    option (Z * list byte) :=
  buf ← array_put buf 0 [byte_of_Z (encap_length e)];
  buf ← array_put buf 1 [byte_of_Z MQTTSN_ENCAPSULATED];
  buf ← array_put buf 2 [byte_of_Z (en_ctrl e)];
  buf ← array_put buf 3 (wn_bytes (en_id e));
  buf ← match en_mqttsn e with
        | Some _ => array_put buf (encap_length e) (encap_data e)
        | None => Some buf
        end;
  Some (encap_length e + zlen (encap_data e), buf).

(** [unicast] sends what [serialize] writes into an array of its own: the bytes
    given to the network. *)
Definition MQTTSNGWEncapsulatedPacket_unicast (e : MQTTSNGWEncapsulatedPacket) : option (list byte) :=
  '(len, buf) ← MQTTSNGWEncapsulatedPacket_serialize e
    (replicate (Z.to_nat MQTTSNGW_MAX_PACKET_SIZE) Corelib.Init.Byte.x00);
  Some (take (Z.to_nat len) buf).

(** [desirialize] of [len] bytes behind [buf]: its result and the object.  The
    new packet copies as many bytes as an [unsigned short] makes of the
    difference of the lengths. *)
Definition MQTTSNGWEncapsulatedPacket_desirialize (buf : list byte) (len : Z) : option (Z * MQTTSNGWEncapsulatedPacket) :=
  ctrl ← buf !! 2%nat;
  first ← buf !! 0%nat;
  let n := Z_of_byte first in
  id ← WirelessNodeId_setId (drop 3 buf) (n - 3);
  '(_, packet) ← MQTTSNPacket_desirialize (drop (Z.to_nat n) buf) (len - n);
  Some (n, mkEncapsulated (Some packet) id (Z_of_byte ctrl)).
End Encapsulated.

(** ** What is sent *)

(** The packet on the wire. *)
Definition encapsulated (ctrl : Z) (id data : list byte) : list byte :=
  byte_of_Z (zlen id + 3) :: byte_of_Z MQTTSN_ENCAPSULATED :: byte_of_Z ctrl :: id ++ data.

Lemma encapsulated_length ctrl id data : zlen (encapsulated ctrl id data) = 3 + zlen id + zlen data.
Proof. unfold encapsulated. zlen_lia. Qed.

Lemma WirelessNodeId_eqb_spec a b : WirelessNodeId_eqb a b = true <-> wn_bytes a = wn_bytes b.
Proof.
  unfold WirelessNodeId_eqb, wn_len, same_bytes. destruct (Z.eqb_spec (zlen (wn_bytes a)) (zlen (wn_bytes b))) as [E|E].
  - apply bool_decide_eq_true.
  - split; [done|]. by intros E'; rewrite E' in E.
Qed.

Section Wire.
Context `{HeapSpace}.
Hypothesis Hheap : forall n, heap_has n = true.

Lemma setId_run id rest n : zlen id = n -> n < 256 ->
  WirelessNodeId_setId (id ++ rest) n = Some (mkWirelessNodeId (Some id)).
Proof.
  intros <- Hn. unfold WirelessNodeId_setId, u8. rewrite Z.mod_small by lia. rewrite Hheap.
  test_true (zlen id <=? zlen (id ++ rest)). by rewrite Nat2Z.id, take_app_length.
Qed.

Lemma setId_from_run id : wn_len id < 256 ->
  WirelessNodeId_setId_from id = Some (mkWirelessNodeId (Some (wn_bytes id))).
Proof.
  intros Hn. unfold WirelessNodeId_setId_from. rewrite <- (app_nil_r (wn_bytes id)) at 1. by apply setId_run.
Qed.

(** The array as it is filled from its start. *)
Lemma array_put_next (buf w bs : list byte) n : n = zlen w -> zlen w <= zlen buf ->
  array_put (splice buf 0 w) n bs =
    if zlen (w ++ bs) <=? zlen buf then Some (splice buf 0 (w ++ bs)) else None.
Proof.
  intros -> Hw. unfold array_put. rewrite splice_length by lia. test_true (0 <=? zlen w). cbn [andb].
  rewrite length_app, Nat2Z.inj_add. case_test; [|done].
  by rewrite <- (splice_app buf 0 w bs) by lia.
Qed.

(** serialize fills the array with the packet, if it fits. *)
Lemma serialize_run p id ctrl buf : wn_len id <= 252 -> 3 <= zlen buf ->
  let wire := encapsulated ctrl (wn_bytes id) (default [] (gs_buf p)) in
  MQTTSNGWEncapsulatedPacket_serialize (mkEncapsulated (Some p) id ctrl) buf =
    if zlen wire <=? zlen buf then Some (zlen wire, splice buf 0 wire) else None.
Proof.
  intros Hid Hbuf wire. unfold wire. rewrite encapsulated_length.
  unfold MQTTSNGWEncapsulatedPacket_serialize, encap_length, encap_data, encapsulated. cbn [en_id en_mqttsn en_ctrl].
  assert (Hn : u8 (wn_len id + 3) = 3 + zlen (wn_bytes id)).
  { unfold u8. rewrite Z.mod_small; unfold wn_len in *; lia. }
  rewrite Hn. replace (byte_of_Z (3 + zlen (wn_bytes id))) with (byte_of_Z (zlen (wn_bytes id) + 3)) by (f_equal; lia).
  set (x0 := byte_of_Z (zlen (wn_bytes id) + 3)). set (data := default [] (gs_buf p)).
  rewrite <- (splice_nil buf 0) at 1.
  rewrite array_put_next by (cbn; lia). test_true (zlen ([] ++ [x0]) <=? zlen buf). cbn [mbind option_bind app].
  rewrite array_put_next by (cbn; lia). test_true (zlen ([x0] ++ [byte_of_Z MQTTSN_ENCAPSULATED]) <=? zlen buf).
  cbn [mbind option_bind app].
  rewrite array_put_next by (cbn; lia).
  test_true (zlen ([x0; byte_of_Z MQTTSN_ENCAPSULATED] ++ [byte_of_Z ctrl]) <=? zlen buf). cbn [mbind option_bind app].
  rewrite array_put_next by (cbn; lia). case_test; [|cbn [mbind option_bind]; test_false (3 + zlen (wn_bytes id) + zlen data <=? zlen buf); done].
  cbn [mbind option_bind app].
  rewrite array_put_next by zlen_lia. cbn [app].
  replace (zlen (x0 :: byte_of_Z MQTTSN_ENCAPSULATED :: byte_of_Z ctrl :: wn_bytes id ++ data))
    with (3 + zlen (wn_bytes id) + zlen data) by zlen_lia.
  by case_test.
Qed.

(** What goes out: the packet, or undefined behaviour when the array of 1024
    bytes is too small. *)
Lemma unicast_run p id ctrl : wn_len id <= 252 ->
  let wire := encapsulated ctrl (wn_bytes id) (default [] (gs_buf p)) in
  MQTTSNGWEncapsulatedPacket_unicast (mkEncapsulated (Some p) id ctrl) =
    if zlen wire <=? MQTTSNGW_MAX_PACKET_SIZE then Some wire else None.
Proof.
  intros Hid wire. unfold MQTTSNGWEncapsulatedPacket_unicast.
  rewrite serialize_run; [|done|rewrite zlen_array; unfold MQTTSNGW_MAX_PACKET_SIZE; lia].
  fold wire. rewrite zlen_array by (unfold MQTTSNGW_MAX_PACKET_SIZE; lia). case_test; [|done].
  cbn [mbind option_bind]. f_equal. unfold splice. change (take (Z.to_nat 0) _) with (@nil byte). cbn [app].
  by rewrite Nat2Z.id, take_app_length.
Qed.

End Wire.

(** ** Reading an encapsulated packet *)

Section Parse.
Context `{HeapSpace}.
Hypothesis Hheap : forall n, heap_has n = true.

(** The three ways the length byte [n] of a packet of [len] bytes can be: it
    covers the header; it exceeds the packet, which is read beyond its end; it is
    less than 3, which wraps around to an identifier of 253 to 255 bytes. *)
Lemma desirialize_run n type ctrl rest :
  let buf := n :: type :: ctrl :: rest in
  let k := Z_of_byte n in
  zlen buf < 65536 ->
  MQTTSNGWEncapsulatedPacket_desirialize buf (zlen buf) =
    if 3 <=? k then
      if k <=? zlen buf then
        Some (k, mkEncapsulated (Some (sn_object (drop (Z.to_nat k) buf)))
          (mkWirelessNodeId (Some (take (Z.to_nat (k - 3)) rest))) (Z_of_byte ctrl))
      else None
    else if 256 + k <=? zlen buf then
        Some (k, mkEncapsulated (Some (sn_object (drop (Z.to_nat k) buf)))
          (mkWirelessNodeId (Some (take (Z.to_nat (253 + k)) rest))) (Z_of_byte ctrl))
    else None.
Proof.
  intros buf k Hmax. unfold MQTTSNGWEncapsulatedPacket_desirialize, buf. cbn [lookup list_lookup mbind option_bind drop].
  fold k. pose proof (Z_of_byte_range n) as Hk. fold k in Hk. fold buf.
  assert (Hbuf : zlen buf = 3 + zlen rest) by (unfold buf; zlen_lia).
  assert (Hlen : k <= zlen buf -> MQTTSNPacket_desirialize (drop (Z.to_nat k) buf) (zlen buf - k) =
    Some (zlen buf - k, sn_object (drop (Z.to_nat k) buf))).
  { intros Hle. unfold MQTTSNPacket_desirialize. rewrite u16_small, Hheap by lia.
    test_true (zlen buf - k <=? zlen (drop (Z.to_nat k) buf)). unfold sn_object.
    rewrite (take_ge (drop _ _)); [done|]. rewrite length_drop. lia. }
  unfold WirelessNodeId_setId. rewrite Hheap, drop_0. destruct (Z.leb_spec 3 k).
  - unfold u8. rewrite Z.mod_small by lia. destruct (Z.leb_spec (k - 3) (zlen rest)).
    + test_true (k <=? zlen buf). cbn [mbind option_bind]. by rewrite Hlen by lia.
    + by test_false (k <=? zlen buf).
  - replace (u8 (k - 3)) with (253 + k) by (unfold u8; Z.div_mod_to_equations; lia).
    destruct (Z.leb_spec (253 + k) (zlen rest)).
    + test_true (256 + k <=? zlen buf). cbn [mbind option_bind]. by rewrite Hlen by lia.
    + by test_false (256 + k <=? zlen buf).
Qed.

Lemma desirialize_encapsulated ctrl id data : zlen id <= 252 -> 0 <= ctrl < 256 ->
  zlen (encapsulated ctrl id data) < 65536 ->
  MQTTSNGWEncapsulatedPacket_desirialize (encapsulated ctrl id data) (zlen (encapsulated ctrl id data)) =
    Some (3 + zlen id, mkEncapsulated (Some (sn_object data)) (mkWirelessNodeId (Some id)) ctrl).
Proof.
  intros Hid Hctrl Hmax. unfold encapsulated in *. rewrite desirialize_run by done.
  rewrite !Z_of_byte_small by lia. test_true (3 <=? zlen id + 3).
  test_true (zlen id + 3 <=? zlen (byte_of_Z (zlen id + 3) :: byte_of_Z MQTTSN_ENCAPSULATED :: byte_of_Z ctrl :: id ++ data)).
  replace (Z.to_nat (zlen id + 3)) with (S (S (S (length id)))) by lia.
  replace (Z.to_nat (zlen id + 3 - 3)) with (length id) by lia. cbn [drop].
  rewrite take_app_length, drop_app_length. by rewrite (Z.add_comm (zlen id)).
Qed.

(** a packet of at most 1024 bytes for a wireless node, wrapped and sent by the
    gateway, is unwrapped by the receiver to the same control byte, node and
    packet; a packet that does not fit is written behind the array. *)
Theorem encap_roundtrip p id ctrl :
  wn_len id <= 252 -> 0 <= ctrl < 256 ->
  let wire := encapsulated ctrl (wn_bytes id) (default [] (gs_buf p)) in
  (zlen wire <= MQTTSNGW_MAX_PACKET_SIZE ->
   MQTTSNGWEncapsulatedPacket_unicast (mkEncapsulated (Some p) id ctrl) = Some wire /\
   exists e, MQTTSNGWEncapsulatedPacket_desirialize wire (zlen wire) = Some (3 + wn_len id, e) /\
     en_ctrl e = ctrl /\ WirelessNodeId_eqb (en_id e) id = true /\
     encap_data e = default [] (gs_buf p)) /\
  (MQTTSNGW_MAX_PACKET_SIZE < zlen wire ->
   MQTTSNGWEncapsulatedPacket_unicast (mkEncapsulated (Some p) id ctrl) = None).
Proof.
  intros Hid Hctrl wire. split; intros Hw; rewrite unicast_run by done; fold wire.
  - test_true (zlen wire <=? MQTTSNGW_MAX_PACKET_SIZE). split; [done|].
    unfold wire in *. rewrite desirialize_encapsulated; [|done|done|unfold MQTTSNGW_MAX_PACKET_SIZE in *; lia].
    eexists. split; [reflexivity|]. split_and!; [done|by apply WirelessNodeId_eqb_spec|done].
  - by test_false (zlen wire <=? MQTTSNGW_MAX_PACKET_SIZE).
Qed.

(** unwrapping a received packet of [len] bytes goes wrong for every length
    byte above [len] and, in packets of less than 256 bytes, for those below 3:
    bytes behind the packet are read.  In larger packets a length byte below 3
    makes an identifier of up to 255 bytes out of what follows. *)
Theorem encap_parse n type ctrl rest :
  let buf := n :: type :: ctrl :: rest in
  let k := Z_of_byte n in
  zlen buf < 65536 ->
  (MQTTSNGWEncapsulatedPacket_desirialize buf (zlen buf) = None <->
   zlen buf < k \/ k < 3 /\ zlen buf < 256 + k) /\
  (3 <= k <= zlen buf -> exists e, MQTTSNGWEncapsulatedPacket_desirialize buf (zlen buf) = Some (k, e) /\
     en_ctrl e = Z_of_byte ctrl /\ wn_bytes (en_id e) ++ encap_data e = rest /\ wn_len (en_id e) = k - 3).
Proof.
  intros buf k Hmax. pose proof (desirialize_run n type ctrl rest Hmax) as Hrun. fold buf in Hrun. fold k in Hrun.
  rewrite Hrun. pose proof (Z_of_byte_range n) as Hk. fold k in Hk. split.
  - repeat case_test; split; intros; first [done|lia].
  - intros [H3 Hle]. test_true (3 <=? k). test_true (k <=? zlen buf). eexists. split; [reflexivity|].
    cbn [en_ctrl en_id encap_data en_mqttsn gs_buf sn_object wn_len wn_bytes wn_nodeId default from_option].
    replace (Z.to_nat k) with (S (S (S (Z.to_nat (k - 3))))) by lia. cbn [drop buf]. split_and!; [done|apply take_drop|].
    unfold wn_len, wn_bytes. cbn. rewrite length_take. unfold buf in Hle. autorewrite with zlen in Hle. lia.
Qed.
End Parse.

(** ** Witnesses *)

Definition sample_node : WirelessNodeId := mkWirelessNodeId (Some (map byte_of_Z [7; 8])).
Definition sample_inner : MQTTSNPacket := sn_object (map byte_of_Z [2; 22]).

Lemma encap_roundtrip_witness :
  let wire := map byte_of_Z [5; 254; 1; 7; 8; 2; 22] in
  (zlen wire <= MQTTSNGW_MAX_PACKET_SIZE ->
   MQTTSNGWEncapsulatedPacket_unicast (mkEncapsulated (Some sample_inner) sample_node 1) = Some wire /\
   exists e, MQTTSNGWEncapsulatedPacket_desirialize (H := ample_heap) wire (zlen wire) = Some (5, e) /\
     en_ctrl e = 1 /\ WirelessNodeId_eqb (en_id e) sample_node = true /\ encap_data e = map byte_of_Z [2; 22]) /\
  (MQTTSNGW_MAX_PACKET_SIZE < zlen wire ->
   MQTTSNGWEncapsulatedPacket_unicast (mkEncapsulated (Some sample_inner) sample_node 1) = None).
Proof. apply (encap_roundtrip (H := ample_heap) (fun _ => eq_refl) sample_inner sample_node 1); [done|split; done]. Defined.

Lemma encap_parse_witness :
  let buf := map byte_of_Z [9; 254; 1; 7] in
  (MQTTSNGWEncapsulatedPacket_desirialize (H := ample_heap) buf (zlen buf) = None <->
   zlen buf < 9 \/ 9 < 3 /\ zlen buf < 256 + 9) /\
  (3 <= 9 <= zlen buf -> exists e, MQTTSNGWEncapsulatedPacket_desirialize (H := ample_heap) buf (zlen buf) = Some (9, e) /\
     en_ctrl e = 1 /\ wn_bytes (en_id e) ++ encap_data e = [byte_of_Z 7] /\ wn_len (en_id e) = 9 - 3).
Proof. apply (encap_parse (H := ample_heap) (fun _ => eq_refl) (byte_of_Z 9) (byte_of_Z 254) (byte_of_Z 1) [byte_of_Z 7]). done. Defined.
