(* ===== verification/GWStrings.v ===== *)
(** * Strings and files as the gateway reads them

    What the gateway uses of the C and C++ standard libraries to read its
    configuration: strings as lists of bytes, comparison of prefixes, conversion
    of numbers, lines of a file. *)

From Stdlib Require Import Strings.String.
From S2P Require Import Prelude.
Export StringSyntax.

(** A literal. *)
Definition lit (s : string) : list byte := list_byte_of_string s.

Arguments lit s%_string.

Definition nul : byte := byte_of_Z 0.
Definition newline : byte := byte_of_Z 10.

(** ** Characters *)

Definition isspace (c : byte) : bool :=
  let z := Z_of_byte c in (z =? 32) || (9 <=? z) && (z <=? 13).
Definition isdigit (c : byte) : bool := let z := Z_of_byte c in (48 <=? z) && (z <=? 57).

(** The C string in an array: what is before the first 0. *)
Fixpoint until_nul (s : list byte) : list byte :=
  match s with
  | [] => []
  | c :: s => if bool_decide (c = nul) then [] else c :: until_nul s
  end.

(** ** Comparison *)

(** Does [strncmp(a, b, n)] return 0?  A string ends with its list. *)
Fixpoint strncmp_eq (n : nat) (a b : list byte) : bool :=
  match n with
  | O => true
  | S n =>
      let x := default nul (head a) in
      let y := default nul (head b) in
      if bool_decide (x = y) then
        if bool_decide (x = nul) then true else strncmp_eq n (tail a) (tail b)
      else false
  end.

(** [strcasecmp] *)
Definition tolower (c : byte) : byte :=
  let z := Z_of_byte c in if (65 <=? z) && (z <=? 90) then byte_of_Z (z + 32) else c.
Definition strcasecmp_eq (a b : list byte) : bool := bool_decide (map tolower a = map tolower b).

(** ** std::string *)

(** [find_first_of] from the position 0; the characters are bytes. *)
Definition find_first_of (s chars : list byte) : option nat :=
  fst <$> list_find (fun c => c ∈ chars) s.

Definition erase_at (s : list byte) (pos : nat) : list byte := take pos s ++ drop (S pos) s.

(** [string_substr(pos, n)] and [string_substr(pos)]; a position behind the string is thrown
    as an exception. *)
Definition string_substr (s : list byte) (pos n : nat) : option (list byte) :=
  if decide (pos <= length s)%nat then Some (take n (drop pos s)) else None.
Definition substr_from (s : list byte) (pos : nat) : option (list byte) :=
  if decide (pos <= length s)%nat then Some (drop pos s) else None.

(** Does [s] begin with [t]? *)
Fixpoint starts_with (s t : list byte) {struct t} : bool :=
  match t, s with
  | [], _ => true
  | y :: t, x :: s => bool_decide (x = y) && starts_with s t
  | _ :: _, [] => false
  end.

(** [s.find(t, pos)] for a position in the string. *)
Fixpoint str_find_from (s t : list byte) (pos : nat) : option nat :=
  if starts_with s t then Some pos
  else match s with [] => None | _ :: s => str_find_from s t (S pos) end.
Definition string_find (s t : list byte) (pos : nat) : option nat :=
  if decide (pos <= length s)%nat then str_find_from (drop pos s) t pos else None.

Definition contains (s t : list byte) : bool := match string_find s t 0 with Some _ => true | None => false end.

(** ** Numbers *)

Fixpoint skip_space (s : list byte) : list byte :=
  match s with [] => [] | c :: s' => if isspace c then skip_space s' else s end.

(** The sign, and what follows it. *)
Definition sign_of (s : list byte) : bool * list byte :=
  match s with
  | c :: s' => if Z_of_byte c =? 45 then (true, s') else if Z_of_byte c =? 43 then (false, s') else (false, s)
  | [] => (false, [])
  end.

Fixpoint digits (s : list byte) : list byte :=
  match s with [] => [] | c :: s => if isdigit c then c :: digits s else [] end.

Definition decimal (ds : list byte) : Z := foldl (fun n c => n * 10 + (Z_of_byte c - 48)) 0 ds.

(** [atoi]: undefined when the number is not an [int]. *)
Definition atoi (s : list byte) : option Z :=
  let '(neg, s) := sign_of (skip_space (until_nul s)) in
  let n := decimal (digits s) in
  let n := if neg : bool then - n else n in
  if in_int n then Some n else None.

(** [stoul]: an exception when there is no number or it is not an [unsigned
    long]. *)
Definition ULONG_MAX : Z := 4294967295.
Definition stoul (s : list byte) : option Z :=
  let '(neg, s) := sign_of (skip_space (until_nul s)) in
  let ds := digits s in
  if bool_decide (ds = []) then None
  else if ULONG_MAX <? decimal ds then None
  else Some (if neg : bool then u32 (- decimal ds) else decimal ds).

(** ** Files *)

(** [fgets(buf, size, fp)] on what is left of the file: the string in the array
    without its 0, and the rest. *)
Fixpoint line_of (n : nat) (file : list byte) : list byte * list byte :=
  match n, file with
  | S n, c :: file =>
      if bool_decide (c = newline) then ([c], file)
      else let '(line, rest) := line_of n file in (c :: line, rest)
  | _, _ => ([], file)
  end.
Definition fgets (size : nat) (file : list byte) : option (list byte * list byte) :=
  match file with [] => None | _ => Some (line_of (pred size) file) end.

(** ** Facts *)

Lemma find_first_of_spec s chars pos : find_first_of s chars = Some pos ->
  exists c, s = take pos s ++ c :: drop (S pos) s /\ c ∈ chars /\ Forall (fun x => x ∉ chars) (take pos s).
Proof.
  unfold find_first_of. intros [[i c] [Hf Hi]]%fmap_Some. cbn [fst] in Hi. subst i.
  apply list_find_Some in Hf as (Hl & Hc & Hmin).
  exists c. split; [by rewrite take_drop_middle|]. split; [done|].
  apply Forall_lookup. intros j y Hy. destruct (decide (j < pos)%nat) as [Hj|Hj].
  - rewrite lookup_take_lt in Hy by done. by apply (Hmin j y).
  - rewrite lookup_take_ge in Hy by lia. done.
Qed.

Lemma find_first_of_none s chars : find_first_of s chars = None <-> Forall (fun x => x ∉ chars) s.
Proof.
  unfold find_first_of. rewrite fmap_None, list_find_None. done.
Qed.

Lemma find_first_of_app s1 c s2 chars : Forall (fun x => x ∉ chars) s1 -> c ∈ chars ->
  find_first_of (s1 ++ c :: s2) chars = Some (length s1).
Proof.
  intros H1 Hc. unfold find_first_of. rewrite list_find_app_r by by apply list_find_None.
  cbn [list_find]. rewrite decide_True by done. done.
Qed.

Lemma until_nul_free s : Forall (fun c => c <> nul) (until_nul s).
Proof. induction s as [|c s IH]; cbn; [constructor|]. case_bool_decide; constructor; done. Qed.

Lemma until_nul_id s : Forall (fun c => c <> nul) s -> until_nul s = s.
Proof.
  induction 1 as [|c s Hc Hs IH]; [done|]. cbn. rewrite bool_decide_false by done. by rewrite IH.
Qed.

(** Comparing as many characters as a string has is asking for a prefix. *)
Lemma strncmp_eq_prefix a b : Forall (fun c => c <> nul) b ->
  strncmp_eq (length b) a b = true <-> exists rest, a = b ++ rest.
Proof.
  revert a. induction b as [|y b IH]; intros a Hb.
  { split; [by exists a|done]. }
  apply list.Forall_cons in Hb as [Hy Hb]. cbn [strncmp_eq length head tail default from_option].
  destruct a as [|x a]; cbn [head tail default from_option].
  - rewrite bool_decide_false by done. split; [done|by intros [? ?]].
  - case_bool_decide as Hxy; simpl in Hxy.
    + subst y. rewrite bool_decide_false by done. rewrite IH by done. split; intros [r Hr]; exists r.
      * by subst.
      * by injection Hr.
    + split; [done|]. intros [r [= -> _]]. done.
Qed.

Lemma strncmp_eq_zero a b : strncmp_eq 0 a b = true.
Proof. done. Qed.

Lemma starts_with_spec s t : starts_with s t = true <-> exists rest, s = t ++ rest.
Proof.
  revert s. induction t as [|y t IH]; intros s; [split; [by exists s|done]|].
  destruct s as [|x s]; cbn; [split; [done|by intros [? ?]]|].
  rewrite andb_true_iff, bool_decide_eq_true, IH. split.
  - intros [-> [r ->]]. by exists r.
  - intros [r [= -> ->]]. eauto.
Qed.

(** A line ends with its newline, with the array or with the file. *)
Lemma line_of_spec n file line rest : line_of n file = (line, rest) ->
  file = line ++ rest /\ (length line <= n)%nat /\ Forall (fun c => c <> newline) (removelast line) /\
  ((exists l, line = l ++ [newline]) \/ length line = n \/ rest = []).
Proof.
  revert file line rest. induction n as [|n IH]; intros file line rest; cbn [line_of].
  { intros [= <- <-]. split_and!; [done|done|constructor|auto]. }
  destruct file as [|c file]; [intros [= <- <-]; split_and!; [done|cbn; lia|constructor|auto]|].
  case_bool_decide as Hc.
  { intros [= <- <-]. subst c. split_and!; [done|cbn; lia|constructor|]. left. by exists []. }
  destruct (line_of n file) as [l r] eqn:E. intros [= <- <-].
  destruct (IH _ _ _ E) as (-> & Hl & Hf & Hend). split_and!; [done|cbn; lia| |].
  - destruct l as [|x l]; [constructor|]. change (removelast (c :: x :: l)) with (c :: removelast (x :: l)).
    by constructor.
  - destruct Hend as [[l' ->]|[Hn|Hr]]; [left; by exists (c :: l')|right; left; cbn; lia|auto].
Qed.

(** The loop over the lines of a file ends: each takes a character. *)
Lemma fgets_shorter size file line rest : (1 < size)%nat -> fgets size file = Some (line, rest) ->
  (length rest < length file)%nat.
Proof.
  intros Hs. unfold fgets. destruct file as [|c file]; [done|]. intros [= E].
  destruct size as [|[|n]]; [lia|lia|]. cbn [pred line_of] in E. case_bool_decide.
  - injection E as <- <-. cbn. lia.
  - destruct (line_of n file) as [l r] eqn:E'. injection E as <- <-.
    destruct (line_of_spec _ _ _ _ E') as (-> & _). cbn. rewrite length_app. lia.
Qed.
