(* ===== verification/GWSensorNet.v ===== *)
(** * The sensor network of the gateway over UDP: linux/udp/SensorNetwork.cpp

    Addresses of clients, and the port with its two sockets: one for packets of
    single clients, one for the multicast group.  The socket functions of the
    operating system and inet_addr are parameters. *)

From S2P Require Import Prelude CMem GWHeap GWStrings.

(** ** Addresses *)

(** Port and IP address as they are in a packet, in network byte order. *)
Record SensorNetAddress := mkAddress { sa_portNo : Z; sa_IpAddr : Z }.

#[export] Instance SensorNetAddress_eq_dec : EqDecision SensorNetAddress.
Proof. solve_decision. Defined.

Definition newSensorNetAddress : SensorNetAddress := mkAddress 0 0.
Definition SensorNetAddress_setAddress (IpAddr port : Z) : SensorNetAddress := mkAddress (u16 port) (u32 IpAddr).

Definition SensorNetAddress_isMatch (a b : SensorNetAddress) : bool :=
  (sa_portNo a =? sa_portNo b) && (sa_IpAddr a =? sa_IpAddr b).

Definition INADDR_NONE : Z := 4294967295.
Definition INADDR_ANY : Z := 0.

(** The parameters: [inet_addr], and a client's number in network order. *)
Class InetAddr := inet_addr : list byte -> Z.
Definition htons `{ByteOrder} (x : Z) : Z :=
  let x := u16 x in if big_endian then x else x mod 256 * 256 + x / 256.

(** [setAddress] of a string: the result and the address afterwards.  The number of
    the port is cut down to 16 bits after it was tested. *)
Definition SensorNetAddress_setString `{ByteOrder} `{InetAddr} (a : SensorNetAddress) (ip_port : list byte) :
    option (Z * SensorNetAddress) :=
  match find_first_of ip_port (lit ":") with
  | None => Some (-1, mkAddress 0 INADDR_NONE)
  | Some pos =>
      ip ← string_substr ip_port 0 pos;
      port ← substr_from ip_port (S pos);
      portNo ← atoi port;
      if portNo =? 0 then Some (-1, a)
      else
        let addr := u32 (inet_addr (until_nul ip)) in
        if addr =? INADDR_NONE then Some (-1, mkAddress (sa_portNo a) addr)
        else Some (0, mkAddress (htons portNo) addr)
  end.

(** ** The port *)

Inductive SockOpt := SO_REUSEADDR | IP_MULTICAST_LOOP | IP_ADD_MEMBERSHIP (group : Z).

(** The functions of the operating system on its state.  [os_select] says which
    of two sockets can be read; [os_recvfrom] returns its status, whether [errno]
    is EAGAIN, the bytes and the sender, as far as it was filled in. *)
Class UdpSockets (E : Type) := {
  os_socket : E -> Z * E;
  os_setsockopt : Z -> SockOpt -> E -> Z * E;
  os_bind : Z -> SensorNetAddress -> E -> Z * E;
  os_close : Z -> E -> E;
  os_sendto : Z -> list byte -> SensorNetAddress -> E -> Z * E;
  os_select : Z -> Z -> E -> (Z * bool * bool) * E;
  os_recvfrom : Z -> Z -> E -> (Z * bool * list byte * SensorNetAddress) * E;
}.

Record SensorNetwork (E : Type) := mkSensorNetwork {
  un_sockfdUnicast : Z;
  un_sockfdMulticast : Z;
  un_grpAddr : SensorNetAddress;
  un_portClientAddr : SensorNetAddress;
  un_clientAddr : SensorNetAddress;
  un_os : E;
}.
Arguments mkSensorNetwork {E}.
Arguments un_sockfdUnicast {E}.
Arguments un_sockfdMulticast {E}.
Arguments un_grpAddr {E}.
Arguments un_portClientAddr {E}.
Arguments un_clientAddr {E}.
Arguments un_os {E}.

Section Port.
Context `{ByteOrder} `{InetAddr} {E : Type} `{UdpSockets E}.
Abbreviation SN := (SensorNetwork E).

Definition newSensorNetwork (e : E) : SN :=
  mkSensorNetwork (-1) (-1) newSensorNetAddress newSensorNetAddress newSensorNetAddress e.

Definition os {R} (f : E -> R * E) : st SN R := fun s =>
  let '(r, e) := f (un_os s) in
  Some (r, mkSensorNetwork (un_sockfdUnicast s) (un_sockfdMulticast s) (un_grpAddr s) (un_portClientAddr s)
    (un_clientAddr s) e).
Definition un_get {R} (f : SN -> R) : st SN R := fun s => Some (f s, s).
Definition set_unicast (fd : Z) : st SN unit := fun s =>
  Some (tt, mkSensorNetwork fd (un_sockfdMulticast s) (un_grpAddr s) (un_portClientAddr s) (un_clientAddr s) (un_os s)).
Definition set_multicast (fd : Z) : st SN unit := fun s =>
  Some (tt, mkSensorNetwork (un_sockfdUnicast s) fd (un_grpAddr s) (un_portClientAddr s) (un_clientAddr s) (un_os s)).
Definition set_grpAddr (a : SensorNetAddress) : st SN unit := fun s =>
  Some (tt, mkSensorNetwork (un_sockfdUnicast s) (un_sockfdMulticast s) a (un_portClientAddr s) (un_clientAddr s) (un_os s)).
Definition set_portClientAddr (a : SensorNetAddress) : st SN unit := fun s =>
  Some (tt, mkSensorNetwork (un_sockfdUnicast s) (un_sockfdMulticast s) (un_grpAddr s) a (un_clientAddr s) (un_os s)).
Definition set_clientAddr (a : SensorNetAddress) : st SN unit := fun s =>
  Some (tt, mkSensorNetwork (un_sockfdUnicast s) (un_sockfdMulticast s) (un_grpAddr s) (un_portClientAddr s) a (un_os s)).

Definition UDPPort_close : st SN unit :=
  let! fd := un_get un_sockfdUnicast in
  (if 0 <? fd then os (fun e => (tt, os_close fd e)) ;! set_unicast (-1) else sret tt) ;!
  let! fd := un_get un_sockfdMulticast in
  (if 0 <? fd then os (fun e => (tt, os_close fd e)) ;! set_multicast (-1) else sret tt).

(** [if (f(...) < 0) { close(); return -1; }] and the same without close. *)
Definition or_close (f : E -> Z * E) (k : st SN Z) : st SN Z :=
  let! rc := os f in if rc <? 0 then UDPPort_close ;! sret (-1) else k.
Definition or_fail (f : E -> Z * E) (k : st SN Z) : st SN Z :=
  let! rc := os f in if rc <? 0 then sret (-1) else k.

(** The last four steps, for the two sockets. *)
Definition join_group (u m group : Z) : st SN Z :=
  or_close (os_setsockopt m IP_MULTICAST_LOOP) (
  or_close (os_setsockopt m (IP_ADD_MEMBERSHIP group)) (
  or_close (os_setsockopt u (IP_ADD_MEMBERSHIP group)) (
  sret 0))).

Definition UDPPort_open (ipAddress : list byte) (multiPortNo uniPortNo : Z) : st SN Z :=
  if (u16 uniPortNo =? 0) || (u16 multiPortNo =? 0) then sret (-1)
  else
    let ip := inet_addr ipAddress in
    set_grpAddr (SensorNetAddress_setAddress ip (htons multiPortNo)) ;!
    set_portClientAddr (SensorNetAddress_setAddress ip (htons uniPortNo)) ;!
    let! u := os os_socket in
    set_unicast u ;!
    if u <? 0 then sret (-1)
    else
      os (os_setsockopt u SO_REUSEADDR) ;!
      or_fail (os_bind u (mkAddress (htons uniPortNo) INADDR_ANY)) (
      or_close (os_setsockopt u IP_MULTICAST_LOOP) (
        let! m := os os_socket in
        set_multicast m ;!
        if m <? 0 then UDPPort_close ;! sret (-1)
        else
          os (os_setsockopt m SO_REUSEADDR) ;!
          let! grp := un_get un_grpAddr in
          or_fail (os_bind m (mkAddress (sa_portNo grp) INADDR_ANY)) (
          join_group u m (sa_IpAddr grp)))).

Definition UDPPort_unicast (buf : list byte) (addr : SensorNetAddress) : st SN Z :=
  let! fd := un_get un_sockfdUnicast in os (os_sendto fd buf addr).

Definition UDPPort_broadcast (buf : list byte) : st SN Z :=
  let! grp := un_get un_grpAddr in UDPPort_unicast buf grp.

(** [recvfrom(sockfd, buf, len, flags, addr)]: the status, the bytes, and what
    the address is set to, if it is. *)
Definition UDPPort_recvfrom (sockfd len : Z) : st SN (Z * list byte * option SensorNetAddress) :=
  let! (status, eagain, bs, sender) := os (os_recvfrom sockfd len) in
  if (status <? 0) && negb eagain then sret (-1, bs, None)
  else sret (status, bs, Some (SensorNetAddress_setAddress (sa_IpAddr sender) (sa_portNo sender))).

Definition assign (set : SensorNetAddress -> st SN unit) (a : option SensorNetAddress) : st SN unit :=
  match a with Some a => set a | None => sret tt end.

(** [recv(buf, len, addr)], [addr] being the member of SensorNetwork.  A packet
    that arrives at the second socket sets the address of the group. *)
Definition UDPPort_recv (len : Z) : st SN (Z * list byte) :=
  let! u := un_get un_sockfdUnicast in
  let! m := un_get un_sockfdMulticast in
  let! (n, ready_u, ready_m) := os (os_select u m) in
  if 0 <? n then
    if ready_u : bool then
      let! (rc, bs, a) := UDPPort_recvfrom u len in assign set_clientAddr a ;! sret (rc, bs)
    else if ready_m : bool then
      let! (rc, bs, a) := UDPPort_recvfrom m len in assign set_grpAddr a ;! sret (rc, bs)
    else sret (0, [])
  else sret (0, []).

Definition SensorNetwork_unicast := UDPPort_unicast.
Definition SensorNetwork_broadcast := UDPPort_broadcast.
Definition SensorNetwork_read (bufLen : Z) : st SN (Z * list byte) := UDPPort_recv (u16 bufLen).
Definition SensorNetwork_getSenderAddress : st SN SensorNetAddress := un_get un_clientAddr.
End Port.

(** ** Addresses of clients *)

Lemma address_match_spec a b : SensorNetAddress_isMatch a b = true <-> a = b.
Proof.
  unfold SensorNetAddress_isMatch. rewrite andb_true_iff, !Z.eqb_eq. destruct a, b. cbn. split.
  - by intros [-> ->].
  - by intros [= -> ->].
Qed.

Definition address_ok (a : SensorNetAddress) : Prop := 0 <= sa_portNo a < 65536 /\ 0 <= sa_IpAddr a < 4294967296.

Lemma setAddress_same a : address_ok a -> SensorNetAddress_setAddress (sa_IpAddr a) (sa_portNo a) = a.
Proof.
  intros [Hp Hi]. unfold SensorNetAddress_setAddress, u16, u32. rewrite !Z.mod_small by lia. by destruct a.
Qed.

Lemma isdigit_spec c : isdigit c = true -> 48 <= Z_of_byte c <= 57.
Proof. unfold isdigit. rewrite andb_true_iff, !Z.leb_le. done. Qed.

Lemma isdigit_plain c : isdigit c = true -> isspace c = false /\ c <> nul /\ Z_of_byte c <> 45 /\ Z_of_byte c <> 43.
Proof.
  intros Hc%isdigit_spec. split_and!; try lia.
  - unfold isspace. apply orb_false_iff. split; [lia|]. apply andb_false_iff. right. lia.
  - intros ->. change (Z_of_byte nul) with 0 in Hc. lia.
Qed.

Lemma until_nul_app s rest : Forall (fun c => c <> nul) s -> until_nul (s ++ rest) = s ++ until_nul rest.
Proof. induction 1 as [|c s Hc _ IH]; [done|]. cbn [app until_nul]. rewrite bool_decide_false by done. by rewrite IH. Qed.

Lemma digits_then ds rest : Forall (fun c => isdigit c = true) ds -> digits rest = [] -> digits (ds ++ rest) = ds.
Proof. intros Hds Hr. induction Hds as [|c ds Hc _ IH]; [done|]. cbn [app digits]. by rewrite Hc, IH. Qed.

Lemma digits_until_nul rest : digits rest = [] -> digits (until_nul rest) = [].
Proof.
  destruct rest as [|c rest]; [done|]. cbn. destruct (isdigit c) eqn:Hc; [done|]. intros _.
  case_bool_decide; [done|]. cbn. by rewrite Hc.
Qed.

(** A number ends where its digits end. *)
Lemma atoi_digits ds rest : ds <> [] -> Forall (fun c => isdigit c = true) ds -> digits rest = [] ->
  in_int (decimal ds) = true -> atoi (ds ++ rest) = Some (decimal ds).
Proof.
  intros Hne Hds Hrest Hint. unfold atoi. rewrite until_nul_app.
  - destruct ds as [|c ds]; [done|]. pose proof Hds as [Hc _]%list.Forall_cons.
    destruct (isdigit_plain c Hc) as (Hsp & _ & Hm & Hp). cbn [app skip_space]. rewrite Hsp. cbn [sign_of].
    rewrite (proj2 (Z.eqb_neq _ _) Hm), (proj2 (Z.eqb_neq _ _) Hp).
    change (c :: ds ++ until_nul rest) with ((c :: ds) ++ until_nul rest).
    by rewrite digits_then, Hint by (done || by apply digits_until_nul).
  - eapply list.Forall_impl; [exact Hds|]. intros c Hc. by apply isdigit_plain.
Qed.

Section Address.
Context `{ByteOrder} `{InetAddr}.

(** a text "IP:port" with a decimal port becomes the address in network byte
    order, whatever follows the number; what exceeds 16 bits of the port is
    dropped. *)
Theorem address_of_string a ip ds rest :
  Forall (fun c => c <> nul) ip -> byte_of_Z 58 ∉ ip -> Forall (fun c => isdigit c = true) ds -> digits rest = [] ->
  0 < decimal ds <= INT_MAX -> u32 (inet_addr ip) <> INADDR_NONE ->
  SensorNetAddress_setString a (ip ++ lit ":" ++ ds ++ rest) =
    Some (0, mkAddress (htons (decimal ds mod 65536)) (u32 (inet_addr ip))).
Proof.
  intros Hip Hcolon Hds Hrest Hn Hnone. unfold SensorNetAddress_setString.
  change (lit ":") with [byte_of_Z 58]. cbn [app].
  assert (Hfree : Forall (fun x => x ∉ [byte_of_Z 58]) ip).
  { apply list.Forall_forall. by intros x Hx ->%list_elem_of_singleton. }
  rewrite (find_first_of_app _ _ _ _ Hfree) by left. cbn [mbind option_bind].
  unfold string_substr, substr_from. rewrite !decide_True by (rewrite ?length_app; cbn; lia).
  cbn [mbind option_bind]. rewrite drop_0, take_app_length.
  change (byte_of_Z 58 :: ds ++ rest) with ([byte_of_Z 58] ++ ds ++ rest).
  replace (S (length ip)) with (length (ip ++ [byte_of_Z 58])) by (rewrite length_app; cbn; lia).
  rewrite app_assoc, drop_app_length, atoi_digits; [|intros ->; cbn in Hn; lia|done|done|apply in_int_spec; unfold INT_MIN in *; lia].
  cbn [mbind option_bind]. test_false (decimal ds =? 0). rewrite (until_nul_id ip Hip).
  rewrite (proj2 (Z.eqb_neq _ _) Hnone). do 2 f_equal. unfold htons, u16. by rewrite Z.mod_mod.
Qed.
End Address.

(** ** The sockets *)

Section Reading.
Context `{ByteOrder} `{InetAddr} {E : Type} `{UdpSockets E}.
Implicit Types s : SensorNetwork E.

(** A packet waits at the socket for single clients, or at the second one only,
    and is handed over with its sender. *)
Definition arrives (multicast : bool) (len : Z) (bs : list byte) (sender : SensorNetAddress) (e e' : E) s : Prop :=
  exists n ready_m e1 eagain, os_select (un_sockfdUnicast s) (un_sockfdMulticast s) e = ((n, negb multicast, ready_m), e1) /\
    0 < n /\ (multicast = true -> ready_m = true) /\
    os_recvfrom (if multicast then un_sockfdMulticast s else un_sockfdUnicast s) len e1 =
      ((zlen bs, eagain, bs, sender), e').

Lemma read_run multicast len bs sender e' s :
  arrives multicast (u16 len) bs sender (un_os s) e' s -> address_ok sender ->
  SensorNetwork_read len s = Some ((zlen bs, bs),
    if multicast then mkSensorNetwork (un_sockfdUnicast s) (un_sockfdMulticast s) sender (un_portClientAddr s) (un_clientAddr s) e'
    else mkSensorNetwork (un_sockfdUnicast s) (un_sockfdMulticast s) (un_grpAddr s) (un_portClientAddr s) sender e').
Proof.
  intros (n & ready_m & e1 & eagain & Hsel & Hn & Hm & Hrecv) Ha. unfold SensorNetwork_read, UDPPort_recv.
  unfold sbind at 1, un_get at 1. unfold sbind at 1, un_get at 1. unfold sbind at 1, os at 1. rewrite Hsel.
  test_true (0 <? n). destruct multicast; cbn [negb] in *; [rewrite Hm by done|];
    unfold sbind at 1, UDPPort_recvfrom; unfold sbind at 1, os; cbn [un_os]; rewrite Hrecv;
    test_false (zlen bs <? 0); cbn [andb]; unfold sret, assign; rewrite (setAddress_same _ Ha); reflexivity.
Qed.

(** what the gateway answers to a packet from a single client goes to its
    sender; but a packet that arrives over the multicast group does not make its
    sender known, it makes it the group: broadcasts go to it from then on. *)
Theorem udp_senders len bs sender e' s :
  address_ok sender ->
  (arrives false (u16 len) bs sender (un_os s) e' s ->
   exists s', SensorNetwork_read len s = Some ((zlen bs, bs), s') /\
     SensorNetwork_getSenderAddress s' = Some (sender, s') /\
     forall reply, SensorNetwork_broadcast reply s' =
       os (os_sendto (un_sockfdUnicast s) reply (un_grpAddr s)) s') /\
  (arrives true (u16 len) bs sender (un_os s) e' s ->
   exists s', SensorNetwork_read len s = Some ((zlen bs, bs), s') /\
     SensorNetwork_getSenderAddress s' = Some (un_clientAddr s, s') /\
     forall reply, SensorNetwork_broadcast reply s' = os (os_sendto (un_sockfdUnicast s) reply sender) s').
Proof.
  intros Ha. split; intros Har; rewrite (read_run _ _ _ _ _ _ Har Ha); eexists; (split; [reflexivity|]);
    split; [done|done|done|done].
Qed.
End Reading.

(** ** Opening *)

Section Opening.
Context `{ByteOrder} `{InetAddr} {E : Type} `{UdpSockets E}.

Implicit Types s : SensorNetwork E.

(** The step returns, in a state with the property. *)
Definition ends {R} (m : st (SensorNetwork E) R) s (P : R -> SensorNetwork E -> Prop) : Prop :=
  exists r s', m s = Some (r, s') /\ P r s'.

Lemma ends_ret {R} (r : R) s (P : R -> SensorNetwork E -> Prop) : P r s -> ends (sret r) s P.
Proof. intros HP. by exists r, s. Qed.

Lemma ends_bind {R Q} (m : st (SensorNetwork E) R) (k : R -> st (SensorNetwork E) Q) s P (T : R -> SensorNetwork E -> Prop) :
  ends m s T -> (forall r s', T r s' -> ends (k r) s' P) -> ends (sbind m k) s P.
Proof. intros (r & s' & Hm & HT) Hk. unfold sbind, ends. rewrite Hm. by apply Hk. Qed.

(** The sockets and the group, which the calls of the system do not change. *)
Definition sockets s : Z * Z * SensorNetAddress := (un_sockfdUnicast s, un_sockfdMulticast s, un_grpAddr s).

Lemma ends_os {R} (f : E -> R * E) s : ends (os f) s (fun _ s' => sockets s' = sockets s).
Proof. unfold ends, os. destruct (f (un_os s)) as [r e]. by eexists _, _. Qed.

Lemma ends_close s : ends UDPPort_close s (fun _ _ => True).
Proof.
  unfold ends, UDPPort_close, sbind, un_get, os, set_unicast, set_multicast. cbn.
  destruct (0 <? un_sockfdUnicast s); cbn; destruct (0 <? un_sockfdMulticast s); cbn; by eexists _, _.
Qed.

Section Checked.
(** The result is -1, or the state is as [G] says. *)
Context (G : Z * Z * SensorNetAddress -> Prop).
Definition opened (rc : Z) s : Prop := rc = -1 \/ rc = 0 /\ G (sockets s).

Lemma ends_or_close f k s :
  (forall s', sockets s' = sockets s -> ends k s' opened) -> ends (or_close f k) s opened.
Proof.
  intros Hk. eapply ends_bind; [apply ends_os|]. intros rc s' Hs. destruct (rc <? 0).
  - eapply ends_bind; [apply ends_close|]. intros ? ? _. apply ends_ret. by left.
  - by apply Hk.
Qed.

Lemma ends_or_fail f k s :
  (forall s', sockets s' = sockets s -> ends k s' opened) -> ends (or_fail f k) s opened.
Proof.
  intros Hk. eapply ends_bind; [apply ends_os|]. intros rc s' Hs. destruct (rc <? 0).
  - apply ends_ret. by left.
  - by apply Hk.
Qed.

Lemma ends_join_group u m group s : G (sockets s) -> ends (join_group u m group) s opened.
Proof.
  intros HG. unfold join_group.
  apply ends_or_close; intros s1 K1. apply ends_or_close; intros s2 K2. apply ends_or_close; intros s3 K3.
  apply ends_ret. right. by rewrite K3, K2, K1.
Qed.
End Checked.

Lemma ends_open ip multi uni s : u16 uni <> 0 -> u16 multi <> 0 ->
  ends (UDPPort_open ip multi uni) s (opened (fun x => 0 <= x.1.1 /\ 0 <= x.1.2 /\
    x.2 = SensorNetAddress_setAddress (inet_addr ip) (htons multi))).
Proof.
  intros Hu Hm. unfold UDPPort_open. rewrite (proj2 (Z.eqb_neq _ _) Hu), (proj2 (Z.eqb_neq _ _) Hm). cbn [orb].
  set (grp := SensorNetAddress_setAddress (inet_addr ip) (htons multi)).
  eapply (ends_bind _ _ _ _ (fun _ s' => un_grpAddr s' = grp)); [by eexists _, _|]. intros ? s1 K1.
  eapply (ends_bind _ _ _ _ (fun _ s' => un_grpAddr s' = grp)); [by eexists _, _|]. intros ? s2 K2.
  eapply ends_bind; [apply ends_os|]. intros u s3 K3.
  eapply (ends_bind _ _ _ _ (fun _ s' => un_grpAddr s' = grp /\ un_sockfdUnicast s' = u)).
  { eexists _, _. split; [reflexivity|]. split; [|done]. cbn. unfold sockets in K3. congruence. }
  intros ? s4 [Hg4 Hu4]. destruct (Z.ltb_spec u 0); [apply ends_ret; by left|].
  eapply ends_bind; [apply ends_os|]. intros ? s5 K5.
  apply ends_or_fail. intros s6 K6. apply ends_or_close. intros s7 K7.
  eapply ends_bind; [apply ends_os|]. intros m s8 K8.
  assert (Hs8 : un_grpAddr s8 = grp /\ un_sockfdUnicast s8 = u) by (unfold sockets in *; split; congruence).
  eapply (ends_bind _ _ _ _ (fun _ s' => sockets s' = (u, m, grp))).
  { eexists _, _. split; [reflexivity|]. unfold sockets. cbn. by destruct Hs8 as [-> ->]. }
  intros ? s9 K9. destruct (Z.ltb_spec m 0).
  { eapply ends_bind; [apply ends_close|]. intros ? ? _. apply ends_ret. by left. }
  eapply ends_bind; [apply ends_os|]. intros ? s10 K10.
  eapply (ends_bind _ _ _ _ (fun g s' => sockets s' = (u, m, grp))).
  { eexists _, _. split; [reflexivity|]. congruence. }
  intros g s11 K11. apply ends_or_fail. intros s12 K12. apply ends_join_group. rewrite K12, K11. by split_and!.
Qed.

(** open fails without a call for a port 0; otherwise it fails or both sockets
    are made and the group is the configured one. *)
Theorem udp_open_result ip multi uni s :
  exists rc s', UDPPort_open ip multi uni s = Some (rc, s') /\
    ((u16 uni = 0 \/ u16 multi = 0) -> rc = -1 /\ s' = s) /\
    (rc = -1 \/ rc = 0 /\ 0 <= un_sockfdUnicast s' /\ 0 <= un_sockfdMulticast s' /\
       un_grpAddr s' = SensorNetAddress_setAddress (inet_addr ip) (htons multi)).
Proof.
  destruct (decide (u16 uni = 0 \/ u16 multi = 0)) as [K0'|Hne].
  - exists (-1), s. unfold UDPPort_open. replace ((u16 uni =? 0) || (u16 multi =? 0)) with true by lia.
    split_and!; [done|done|by left].
  - destruct (ends_open ip multi uni s) as (rc & s' & Hrun & Hres); [tauto|tauto|].
    exists rc, s'. split; [done|]. split; [tauto|]. destruct Hres as [?|(? & ? & ? & ?)]; [by left|by right].
Qed.
End Opening.
