(* ===== verification/GWForwarder.v ===== *)
(** * Forwarders: MQTTSNGWForwarder.cpp

    A forwarder stands between the gateway and wireless nodes; it keeps the list
    of the clients behind it with the identifier of their node.  The gateway keeps
    the list of the forwarders its configuration names.  Both lists are linked in
    one direction and have a pointer to their first element only. *)

From S2P Require Import Prelude CMem GWHeap GWSNPacket GWEncap GWSensorNet.

(** ** Data *)

(** [_client] and [_wirelessNodeId]; the identifier is an object of the
    element. *)
Record ForwarderElement := mkForwarderElement { fe_client : loc; fe_nodeId : WirelessNodeId }.

Record ForwarderId := mkForwarderId { fw_name : list byte; fw_addr : SensorNetAddress }.

(** [_headClient] is the first pointer. *)
Abbreviation Forwarder := (linked ForwarderElement ForwarderId).
Abbreviation ForwarderList := (linked Forwarder unit).

(** [Forwarder(addr, forwarderId)]: the name is a C string. *)
Definition newForwarder (addr : SensorNetAddress) (name : list byte) : Forwarder :=
  Linked ∅ None None 0 (mkForwarderId name addr).

Definition newForwarderList : ForwarderList := Linked ∅ None None 0 tt.

Definition Forwarder_getId (f : Forwarder) : list byte := fw_name (l_more f).
Definition Forwarder_getName (f : Forwarder) : list byte := fw_name (l_more f).
Definition Forwarder_getSensorNetAddr (f : Forwarder) : SensorNetAddress := fw_addr (l_more f).

(** ** Operations *)

Section Operations.
Context {A X : Type}.

(** The loop of the functions that append: the element that is looked for, or
    null and the last element. *)
Fixpoint find_or_last (n : nat) (ok : A -> bool) (prev p : option loc) : step A X (option loc * option loc) :=
  match n with
  | O => undefined
  | S n =>
      if null p then sret (None, prev)
      else
        let! c := deref p in
        if ok (c_val c) then sret (p, prev) else find_or_last n ok p (c_next c)
  end.

(** [if (prev) prev->_next = p; else _head = p;] *)
Definition append_behind (prev p : option loc) : step A X unit :=
  if null prev then set_first p else set_next prev p.

Definition walk (ok : A -> bool) : step A X (option loc * option loc) := fun s =>
  (let! p := get_first in find_or_last (fuel_of s) ok None p) s.
End Operations.

Section ForwarderClass.
Context `{HeapSpace}.
Abbreviation stepF := (step ForwarderElement ForwarderId).

(** [new ForwarderElement()], [setClient], [setWirelessNodeId]. *)
Definition ForwarderElement_new (client : loc) (id : WirelessNodeId) : stepF (option loc) :=
  match WirelessNodeId_setId_from id with
  | Some id => new (mkForwarderElement client id)
  | None => undefined
  end.

(** The list part of [addClient]; a client that is known keeps its node. *)
Definition Forwarder_addElement (client : loc) (id : WirelessNodeId) : stepF unit :=
  let! (found, prev) := walk (fun e => bool_decide (fe_client e = client)) in
  if negb (null found) then sret tt
  else
    let! p := ForwarderElement_new client id in
    append_behind prev p.

Definition Forwarder_getClient (id : WirelessNodeId) : stepF (option loc) :=
  let! p := search (fun e => WirelessNodeId_eqb (fe_nodeId e) id) in
  if null p then sret None else let! c := deref p in sret (Some (fe_client (c_val c))).

Definition Forwarder_getWirelessNodeId (client : loc) : stepF (option WirelessNodeId) :=
  let! p := search (fun e => bool_decide (fe_client e = client)) in
  if null p then sret None else let! c := deref p in sret (Some (fe_nodeId (c_val c))).

(** The loop of [eraseClient]; [prev] is not moved on. *)
Fixpoint erase_from (n : nat) (client : loc) (prev p : option loc) : stepF unit :=
  match n with
  | O => undefined
  | S n =>
      if null p then sret tt
      else
        let! c := deref p in
        if bool_decide (fe_client (c_val c) = client) then
          (if null prev then set_first (c_next c) else set_next prev (c_next c)) ;!
          delete_cell p
        else erase_from n client prev (c_next c)
  end.
Definition Forwarder_eraseClient (client : loc) : stepF unit := fun s =>
  (let! p := get_first in erase_from (fuel_of s) client None p) s.

(** The destructor. *)
Definition destroyForwarder : stepF unit := delete_all.

(** *** The list of forwarders *)

Definition ForwarderList_getForwarder (addr : SensorNetAddress) : step Forwarder unit (option loc) :=
  search (fun f => SensorNetAddress_isMatch (Forwarder_getSensorNetAddr f) addr).

(** The loop looks for the element without a successor. *)
Definition ForwarderList_addForwarder (addr : SensorNetAddress) (name : list byte) : step Forwarder unit (option loc) :=
  let! p := new (newForwarder addr name) in
  let! (_, last) := walk (fun _ => false) in
  append_behind last p ;!
  sret p.

(** A member function of the forwarder behind a pointer. *)
Definition at_forwarder {R} (f : option loc) (m : stepF R) : step Forwarder unit R := fun s =>
  match f with
  | None => None
  | Some p =>
      match cells s !! p with
      | None => None
      | Some c =>
          match m (c_val c) with
          | Some (r, v) => Some (r, set_cells s (<[p := Cell (c_next c) (c_prev c) v]> (cells s)))
          | None => None
          end
      end
  end.

(** The destructor of the list runs that of every forwarder. *)
Fixpoint destroy_from (n : nat) (p : option loc) : step Forwarder unit unit :=
  match n with
  | O => undefined
  | S n =>
      if null p then sret tt
      else
        let! c := deref p in
        at_forwarder p destroyForwarder ;! delete_cell p ;!
        destroy_from n (c_next c)
  end.
Definition destroyForwarderList : step Forwarder unit unit := fun s =>
  (let! p := get_first in destroy_from (fuel_of s) p) s.
End ForwarderClass.

(** ** Appending without a pointer to the last element *)

Section Append.
Context {A X : Type}.
Implicit Types (l : elems A) (s : linked A X).

Lemma find_or_last_run n ok s pr l : seg false (cells s) pr l None -> (length l < n)%nat ->
  exists prev, find_or_last n ok pr (head_loc l None) s = Some ((fst <$> first_where ok l, prev), s) /\
    (first_where ok l = None -> prev = last_loc l pr).
Proof.
  revert pr l. induction n as [|n IH]; intros pr l Hs Hn; [lia|].
  destruct l as [|[p a] l]; [by exists pr|]. destruct Hs as [(q & _ & Hp) Hs]. rewrite first_where_cons.
  cbn [head_loc find_or_last null]. unfold sbind, deref. rewrite Hp. cbn [c_val c_next].
  destruct (ok a); [by exists pr|]. apply (IH (Some p)); [done|cbn in Hn; lia].
Qed.

(** The walk finds the element or the end. *)
Lemma walk_run ok s l : represents false false s l ->
  exists prev, walk ok s = Some ((fst <$> first_where ok l, prev), s) /\
    (first_where ok l = None -> prev = last_loc l None).
Proof.
  intros (Hn & Hs & Hf & _). unfold walk, sbind, get_first. rewrite Hf.
  apply find_or_last_run; [done|]. unfold fuel_of. pose proof (seg_length _ _ _ _ _ Hn Hs). lia.
Qed.

Lemma append_behind_run s l p a : represents false false s l -> (p ∉ l.*1) -> cells s !! p = Some (Cell None None a) ->
  exists s', append_behind (last_loc l None) (Some p) s = Some (tt, s') /\ represents false false s' (l ++ [(p, a)]) /\
    dom (cells s') = dom (cells s) /\ l_cnt s' = l_cnt s /\ l_more s' = l_more s.
Proof.
  intros (Hn & Hs & Hf & _) Hp Hc. unfold append_behind.
  destruct (relink_next_run false s l None (Some p) Hn Hs) as (s' & -> & (Hcnt & Hm & Hd) & Hseg & _ & Hfirst & Hsame).
  exists s'. split; [done|]. split; [|done]. split_and!.
  - rewrite fmap_app. apply list.NoDup_app. split_and!; [done| |apply list.NoDup_singleton].
    intros q Hq ->%list_elem_of_singleton. done.
  - apply seg_app. split; [done|]. split; [|done]. exists None. split; [done|].
    cbn [head_loc]. by rewrite Hsame.
  - rewrite head_loc_app. by apply (Hfirst None).
  - done.
Qed.

(** A new element at the end. *)
Lemma append_new_run s l a : represents false false s l ->
  exists p s1 s', new a s = Some (Some p, s1) /\ (p ∉ l.*1) /\ represents false false s1 l /\
    append_behind (last_loc l None) (Some p) s1 = Some (tt, s') /\
    represents false false s' (l ++ [(p, a)]) /\ l_more s' = l_more s /\ dom (cells s') = {[p]} ∪ dom (cells s).
Proof.
  intros Hr. destruct (new_run false false s l a Hr) as (p & s1 & Hnew & Hp & Hpl & Hr1 & Hc & Hcnt & Hm).
  destruct (append_behind_run s1 l p a Hr1 Hpl) as (s' & Hrun & Hr' & Hd & _ & Hm').
  { by rewrite Hc, lookup_insert_eq. }
  exists p, s1, s'. split_and!; try done; [congruence|]. by rewrite Hd, Hc, dom_insert_L.
Qed.
End Append.

(** ** What a forwarder holds *)

(** The clients behind it, with the identifiers of their nodes, in the order in
    which they connected. *)
Definition fwd_entry (e : ForwarderElement) : loc * list byte := (fe_client e, wn_bytes (fe_nodeId e)).
Definition fwd_holds (f : Forwarder) (es : list (loc * list byte)) : Prop :=
  exists l, represents false false f l /\ es = (fun e => fwd_entry e.2) <$> l.

(** The first entry with the property. *)
Definition first_entry (ok : loc * list byte -> bool) (es : list (loc * list byte)) : option (loc * list byte) :=
  snd <$> list_find (fun e => ok e = true) es.

(** What is behind the entry of a client. *)
Fixpoint behind_client (c : loc) (es : list (loc * list byte)) : list (loc * list byte) :=
  match es with
  | [] => []
  | e :: es => if bool_decide (e.1 = c) then es else behind_client c es
  end.

Lemma first_entry_run ok okE (l : elems ForwarderElement) : (forall e, okE e = ok (fwd_entry e)) ->
  first_entry ok ((fun e => fwd_entry e.2) <$> l) = (fun e => fwd_entry e.2) <$> first_where okE l.
Proof.
  intros Hok. induction l as [|[p a] l IH]; [done|]. rewrite first_where_cons.
  unfold first_entry. cbn [fmap list_fmap list_find snd]. rewrite Hok. case_decide as Hd.
  - by rewrite Hd.
  - rewrite (not_true_is_false _ Hd). rewrite <- IH. unfold first_entry, fmap. by destruct (list_find _ _) as [[??]|].
Qed.

Lemma fwd_new_holds addr name : fwd_holds (newForwarder addr name) [].
Proof. exists []. split; [|done]. split; [constructor|]. by split_and!. Qed.

Section ForwarderRuns.
Context `{HeapSpace}.
Hypothesis Hheap : forall n, heap_has n = true.
Implicit Types (f : Forwarder) (es : list (loc * list byte)).

(** A search, and the element it finds. *)
Lemma fwd_search_run {R} f es ok okE (get : ForwarderElement -> R) : fwd_holds f es ->
  (forall e, okE e = ok (fwd_entry e)) ->
  exists r, (let! p := search okE in if null p then sret None else let! c := deref p in sret (Some (get (c_val c)))) f =
      Some (r, f) /\
    match first_entry ok es with
    | None => r = None
    | Some e => exists x, r = Some (get x) /\ fwd_entry x = e
    end.
Proof.
  intros (l & Hr & ->) Hok. rewrite (first_entry_run _ _ _ Hok).
  unfold sbind. rewrite (search_run _ _ okE f l Hr).
  destruct (first_where okE l) as [[p a]|] eqn:Hw; cbn [fmap option_fmap option_map fst snd null]; [|by exists None].
  apply first_where_elem in Hw as [Hin _].
  destruct (represents_deref _ _ _ _ _ _ Hr Hin) as (c & -> & Hc). exists (Some (get a)). rewrite Hc. split; [done|]. by exists a.
Qed.

Lemma fwd_getClient_run f es id : fwd_holds f es ->
  Forwarder_getClient id f = Some (fst <$> first_entry (fun e => bool_decide (e.2 = wn_bytes id)) es, f).
Proof.
  intros Hf.
  destruct (fwd_search_run f es (fun e => bool_decide (e.2 = wn_bytes id))
    (fun e => WirelessNodeId_eqb (fe_nodeId e) id) fe_client Hf) as (r & Hrun & Hres).
  { intros e. apply eq_true_iff_eq. by rewrite WirelessNodeId_eqb_spec, bool_decide_eq_true. }
  unfold Forwarder_getClient. rewrite Hrun. destruct (first_entry _ es); [|by rewrite Hres].
  destruct Hres as (x & -> & <-). done.
Qed.

Lemma fwd_getWirelessNodeId_run f es c : fwd_holds f es ->
  exists r, Forwarder_getWirelessNodeId c f = Some (r, f) /\
    wn_bytes <$> r = snd <$> first_entry (fun e => bool_decide (e.1 = c)) es.
Proof.
  intros Hf.
  destruct (fwd_search_run f es (fun e => bool_decide (e.1 = c))
    (fun e => bool_decide (fe_client e = c)) fe_nodeId Hf) as (r & Hrun & Hres); [done|].
  exists r. split; [done|]. destruct (first_entry _ es); [|by rewrite Hres].
  destruct Hres as (x & -> & <-). done.
Qed.

Lemma fwd_addElement_run f es c id : fwd_holds f es -> wn_len id < 256 ->
  exists f', Forwarder_addElement c id f = Some (tt, f') /\ l_more f' = l_more f /\
    fwd_holds f' (if bool_decide (c ∈ es.*1) then es else es ++ [(c, wn_bytes id)]).
Proof.
  intros (l & Hr & ->) Hid. unfold Forwarder_addElement.
  destruct (walk_run (fun e => bool_decide (fe_client e = c)) f l Hr) as (prev & Hw & Hprev). srun Hw.
  destruct (first_where _ l) as [[p a]|] eqn:Hfw; cbn [fmap option_fmap option_map fst null negb].
  - exists f. split; [done|]. split; [done|]. rewrite bool_decide_true; [by exists l|].
    apply first_where_elem in Hfw as [Hin Hc]. apply bool_decide_eq_true in Hc. subst c.
    apply list_elem_of_fmap. exists (fwd_entry a). split; [done|]. apply list_elem_of_fmap. by exists (p, a).
  - rewrite (Hprev eq_refl). unfold ForwarderElement_new. rewrite setId_from_run by done.
    destruct (append_new_run f l (mkForwarderElement c (mkWirelessNodeId (Some (wn_bytes id)))) Hr)
      as (p & s1 & f' & Hnew & Hp & _ & Hrun & Hr' & Hm & _).
    srun Hnew. exists f'. split; [done|]. split; [done|].
    rewrite bool_decide_false.
    + exists (l ++ [(p, mkForwarderElement c (mkWirelessNodeId (Some (wn_bytes id))))]). split; [done|]. by rewrite fmap_app.
    + apply first_where_none in Hfw. intros (e & -> & (x & -> & Hx)%list_elem_of_fmap)%list_elem_of_fmap.
      rewrite list.Forall_forall in Hfw. specialize (Hfw x Hx). apply bool_decide_eq_false in Hfw. done.
Qed.

(** The loop leaves the elements behind the one it takes out. *)
Lemma erase_from_run n c f pr l : NoDup l.*1 -> seg false (cells f) pr l None -> (length l < n)%nat ->
  exists f', erase_from n c None (head_loc l None) f = Some (tt, f') /\ l_more f' = l_more f /\
    match first_where (fun e => bool_decide (fe_client e = c)) l with
    | None => f' = f
    | Some _ => exists l2, represents false false f' l2 /\
        (fun e => fwd_entry e.2) <$> l2 = behind_client c ((fun e => fwd_entry e.2) <$> l)
    end.
Proof.
  revert pr l. induction n as [|n IH]; intros pr l Hn Hs Hlen; [lia|].
  destruct l as [|[p a] l]; [by exists f|]. destruct Hs as [(q & _ & Hp) Hs].
  apply list.NoDup_cons in Hn as [Hpl Hn]. rewrite first_where_cons.
  cbn [head_loc erase_from null fmap list_fmap behind_client fwd_entry fst snd]. unfold sbind at 1, deref at 1. rewrite Hp.
  cbn [c_val c_next]. destruct (bool_decide (fe_client a = c)) eqn:Hc.
  - unfold sbind, set_first, delete_cell. cbn [cells]. rewrite Hp. eexists. split; [reflexivity|]. split; [done|].
    exists l. split; [|done]. split; [done|]. split_and!; [|done|done].
    apply (seg_singly _ _ (Some p)); [done|]. by apply seg_delete.
  - apply (IH (Some p)); [done|done|cbn in Hlen; lia].
Qed.

Lemma fwd_eraseClient_run f es c : fwd_holds f es ->
  exists f', Forwarder_eraseClient c f = Some (tt, f') /\ l_more f' = l_more f /\
    fwd_holds f' (if bool_decide (c ∈ es.*1) then behind_client c es else es).
Proof.
  intros (l & Hr & ->). pose proof Hr as (Hn & Hs & Hf & _).
  destruct (erase_from_run (fuel_of f) c f None l Hn Hs) as (f' & Hrun & Hm & Hres).
  { unfold fuel_of. pose proof (seg_length _ _ _ _ _ Hn Hs). lia. }
  exists f'. unfold Forwarder_eraseClient, sbind, get_first. rewrite Hf. split; [done|]. split; [done|].
  destruct (first_where _ l) as [[p a]|] eqn:Hfw.
  - destruct Hres as (l2 & Hr2 & Heq). rewrite bool_decide_true; [exists l2; by rewrite Heq|].
    apply first_where_elem in Hfw as [Hin Hc]. apply bool_decide_eq_true in Hc. subst c.
    apply list_elem_of_fmap. exists (fwd_entry a). split; [done|]. apply list_elem_of_fmap. by exists (p, a).
  - rewrite bool_decide_false; [subst f'; by exists l|].
    apply first_where_none in Hfw. intros (e & -> & (x & -> & Hx)%list_elem_of_fmap)%list_elem_of_fmap.
    rewrite list.Forall_forall in Hfw. specialize (Hfw x Hx). apply bool_decide_eq_false in Hfw. done.
Qed.
End ForwarderRuns.

(** ** Members of forwarders, and the list *)

Section Members.
Context {A X : Type}.
Implicit Types (l : elems A) (s : linked A X).

(** An element gets another value. *)
Lemma seg_value back h pr l1 l2 p a a' nx nxt pre : NoDup (l1 ++ (p, a) :: l2).*1 ->
  seg back h pr (l1 ++ (p, a) :: l2) nx -> h !! p = Some (Cell nxt pre a) ->
  seg back (<[p := Cell nxt pre a']> h) pr (l1 ++ (p, a') :: l2) nx.
Proof.
  intros Hn [Hs1 [(q & Hq & Hc) Hs2]]%seg_app Hp. apply nodup_middle in Hn as (_ & _ & _ & _ & Hp1 & Hp2 & _).
  rewrite Hp in Hc. injection Hc as -> ->. apply seg_app. split; [by apply seg_insert|].
  split; [|by apply seg_insert]. exists q. by rewrite lookup_insert_eq.
Qed.

Lemma represents_value back tail s l1 l2 p a a' : represents back tail s (l1 ++ (p, a) :: l2) ->
  exists c, cells s !! p = Some c /\ c_val c = a /\
    represents back tail (set_cells s (<[p := Cell (c_next c) (c_prev c) a']> (cells s))) (l1 ++ (p, a') :: l2).
Proof.
  intros (Hn & Hs & Hf & Hl).
  destruct (seg_lookup _ _ _ _ _ p a Hs) as ([nxt pre v] & Hc & Hv); [apply elem_of_app; right; left|].
  cbn in Hv. subst v. exists (Cell nxt pre a). split; [done|]. split; [done|]. cbn [c_next c_prev]. split_and!.
  - by rewrite fmap_app in *.
  - by eapply seg_value.
  - cbn [l_first set_cells]. rewrite Hf. by destruct l1.
  - intros Ht. cbn [l_last set_cells]. rewrite (Hl Ht), !last_loc_app. done.
Qed.
End Members.

Section ForwarderLists.
Context `{HeapSpace}.
Implicit Types (fs : elems Forwarder) (s : ForwarderList).

Lemma at_forwarder_run {R} s fs1 fs2 p f (m : step ForwarderElement ForwarderId R) r f' :
  represents false false s (fs1 ++ (p, f) :: fs2) -> m f = Some (r, f') ->
  exists s', at_forwarder (Some p) m s = Some (r, s') /\ represents false false s' (fs1 ++ (p, f') :: fs2) /\
    dom (cells s') = dom (cells s).
Proof.
  intros Hr Hm. destruct (represents_value _ _ _ _ _ _ _ f' Hr) as (c & Hc & Hv & Hr').
  unfold at_forwarder. rewrite Hc, Hv, Hm. eexists. split; [reflexivity|]. split; [done|].
  cbn [cells set_cells]. apply dom_insert_lookup_L. by exists c.
Qed.

Lemma getForwarder_run s fs addr : represents false false s fs ->
  ForwarderList_getForwarder addr s =
    Some (fst <$> first_where (fun f => SensorNetAddress_isMatch (fw_addr (l_more f)) addr) fs, s).
Proof. intros Hr. by apply (search_run false false). Qed.

Lemma addForwarder_run s fs addr name : represents false false s fs ->
  exists p s', ForwarderList_addForwarder addr name s = Some (Some p, s') /\ (p ∉ fs.*1) /\
    represents false false s' (fs ++ [(p, newForwarder addr name)]) /\ dom (cells s') = {[p]} ∪ dom (cells s).
Proof.
  intros Hr. destruct (append_new_run s fs (newForwarder addr name) Hr) as (p & s1 & s' & Hnew & Hp & Hr1 & Hrun & Hr' & _ & Hd).
  exists p, s'. unfold ForwarderList_addForwarder. srun Hnew.
  destruct (walk_run (fun _ => false) s1 fs Hr1) as (prev & Hw & Hprev).
  assert (Hnone : first_where (fun _ : Forwarder => false) fs = None) by (apply first_where_none, list.Forall_true; done).
  rewrite Hnone in Hw. srun Hw. rewrite (Hprev Hnone). unfold sbind. by rewrite Hrun.
Qed.

(** The destructor frees every forwarder and what it holds. *)
Definition owns_forwarders s fs : Prop :=
  owns false false s fs /\ Forall (fun e => exists l, owns false false e.2 l) fs.

Lemma destroy_from_run n s pr fs : NoDup fs.*1 -> seg false (cells s) pr fs None -> (length fs < n)%nat ->
  Forall (fun e => exists l, owns false false e.2 l) fs ->
  exists s', destroy_from n (head_loc fs None) s = Some (tt, s') /\ dom (cells s') = dom (cells s) ∖ list_to_set fs.*1.
Proof.
  revert s pr fs. induction n as [|n IH]; intros s pr fs Hn Hs Hlen Hall; [lia|].
  destruct fs as [|[p f] fs]; [exists s; split; [done|symmetry; apply difference_empty_L]|].
  destruct Hs as [(q & _ & Hp) Hs]. apply list.NoDup_cons in Hn as [Hp' Hn].
  apply list.Forall_cons in Hall as [[l Hf] Hall]. destruct (clear_run _ _ _ _ Hf) as (f' & Hclear & _).
  cbn [head_loc destroy_from null]. unfold sbind at 1, deref. rewrite Hp. cbn [c_next].
  unfold sbind at 1, at_forwarder. rewrite Hp. cbn [c_val]. cbn [snd] in Hclear. unfold destroyForwarder. rewrite Hclear.
  unfold sbind at 1, delete_cell. cbn [cells set_cells c_next c_prev]. rewrite lookup_insert_eq.
  edestruct (IH (set_cells s (delete p (cells s))) (Some p) fs Hn) as (s' & Hrun & Hdom);
    [by apply seg_delete|cbn in Hlen; lia|done|].
  exists s'. rewrite delete_insert_eq. split; [exact Hrun|]. rewrite Hdom. cbn [cells set_cells list_to_set fmap list_fmap fst].
  by rewrite dom_delete_L, difference_difference_l_L.
Qed.

Lemma destroyForwarderList_run s fs : owns_forwarders s fs ->
  exists s', destroyForwarderList s = Some (tt, s') /\ cells s' = ∅.
Proof.
  intros [[(Hn & Hs & Hf & _) Hd] Hall]. unfold destroyForwarderList, sbind, get_first. rewrite Hf.
  destruct (destroy_from_run (fuel_of s) s None fs Hn Hs) as (s' & Hrun & Hdom); [|done|].
  { unfold fuel_of. pose proof (seg_length _ _ _ _ _ Hn Hs). lia. }
  exists s'. split; [done|]. apply dom_empty_inv_L. rewrite Hdom, Hd. apply difference_diag_L.
Qed.
End ForwarderLists.

(** ** Properties *)

Section Properties.
Context `{HeapSpace}.

(** the list of a forwarder refines the list of its clients with their nodes:
    a new client goes to the end and a known one keeps the node it first came
    from; both searches find the first entry; eraseClient takes out the client
    and with it every client that connected before it. *)
Theorem forwarder_spec f es : (forall n, heap_has n = true) -> fwd_holds f es ->
  (forall c id, wn_len id < 256 -> exists f', Forwarder_addElement c id f = Some (tt, f') /\
     fwd_holds f' (if bool_decide (c ∈ es.*1) then es else es ++ [(c, wn_bytes id)])) /\
  (forall id, Forwarder_getClient id f = Some (fst <$> first_entry (fun e => bool_decide (e.2 = wn_bytes id)) es, f)) /\
  (forall c, exists r, Forwarder_getWirelessNodeId c f = Some (r, f) /\
     wn_bytes <$> r = snd <$> first_entry (fun e => bool_decide (e.1 = c)) es) /\
  (forall c, exists f', Forwarder_eraseClient c f = Some (tt, f') /\
     fwd_holds f' (if bool_decide (c ∈ es.*1) then behind_client c es else es)).
Proof.
  intros Hheap Hf. split_and!.
  - intros c id Hid. destruct (fwd_addElement_run Hheap f es c id Hf Hid) as (f' & ? & _ & ?). by exists f'.
  - intros id. by apply fwd_getClient_run.
  - intros c. by apply fwd_getWirelessNodeId_run.
  - intros c. destruct (fwd_eraseClient_run f es c Hf) as (f' & ? & _ & ?). by exists f'.
Qed.

(** the list of forwarders keeps them in the order they were declared, finds
    the first with an address, and frees all when it is destroyed. *)
Theorem forwarder_list_spec s fs : represents false false s fs ->
  (forall addr, ForwarderList_getForwarder addr s =
     Some (fst <$> first_where (fun f => bool_decide (fw_addr (l_more f) = addr)) fs, s)) /\
  (forall addr name, exists p s', ForwarderList_addForwarder addr name s = Some (Some p, s') /\ (p ∉ fs.*1) /\
     represents false false s' (fs ++ [(p, newForwarder addr name)])) /\
  (owns_forwarders s fs -> exists s', destroyForwarderList s = Some (tt, s') /\ cells s' = ∅).
Proof.
  intros Hr. split_and!.
  - intros addr. rewrite (getForwarder_run s fs addr Hr). do 3 f_equal. unfold first_where. f_equal.
    apply list_find_ext. intros [p f]. cbn. by rewrite address_match_spec, bool_decide_eq_true.
  - intros addr name. destruct (addForwarder_run s fs addr name Hr) as (p & s' & ? & ? & ? & _). by exists p, s'.
  - apply destroyForwarderList_run.
Qed.
End Properties.

(** ** Witnesses *)

Definition node_of (zs : list Z) : WirelessNodeId := mkWirelessNodeId (Some (map byte_of_Z zs)).
Definition sample_forwarder : Forwarder :=
  Linked {[1%positive := Cell (Some 2%positive) None (mkForwarderElement 11 (node_of [1; 2]));
           2%positive := Cell None None (mkForwarderElement 12 (node_of [3]))]} (Some 1%positive) None 0
    (mkForwarderId [] (mkAddress 1 2)).
Definition sample_entries : list (loc * list byte) := [(11%positive, map byte_of_Z [1; 2]); (12%positive, map byte_of_Z [3])].

Lemma sample_forwarder_holds : fwd_holds sample_forwarder sample_entries.
Proof.
  exists [(1%positive, mkForwarderElement 11 (node_of [1; 2])); (2%positive, mkForwarderElement 12 (node_of [3]))].
  split; [|done]. split; [|split; [|done]].
  - apply list.NoDup_cons. split; [|apply list.NoDup_singleton]. by intros [=]%list_elem_of_singleton.
  - split; [by exists None|]. split; [by exists None|done].
Qed.

Lemma forwarder_spec_witness :
  exists f', Forwarder_eraseClient 12 sample_forwarder = Some (tt, f') /\ fwd_holds f' [].
Proof.
  destruct (forwarder_spec (H := ample_heap) sample_forwarder sample_entries (fun _ => eq_refl) sample_forwarder_holds)
    as (_ & _ & _ & Herase).
  exact (Herase 12%positive).
Defined.

Definition sample_forwarders : ForwarderList :=
  Linked {[1%positive := Cell None None sample_forwarder]} (Some 1%positive) None 0 tt.

Lemma forwarder_list_spec_witness :
  ForwarderList_getForwarder (mkAddress 1 2) sample_forwarders = Some (Some 1%positive, sample_forwarders).
Proof.
  refine (proj1 (forwarder_list_spec sample_forwarders [(1%positive, sample_forwarder)] _) (mkAddress 1 2)).
  split; [apply list.NoDup_singleton|]. split; [|done]. split; [by exists None|done].
Defined.
