(* ===== verification/GWClientList.v ===== *)
(** * The clients of the gateway: MQTTSNGWClientList.cpp

    The doubly linked list of all clients.  A client is a cell of this list, which
    holds its address, its line and its forwarder, and the members of the class
    Client in the shared state of the handlers, at the same address. *)

From S2P Require Import Prelude CMem GWHeap GWTables GWTopic GWPacket GWSNPacket GWClient GWGateway GWEncap GWStrings GWSensorNet GWForwarder.

(** ** State *)

Definition TRANSPEARENT_TYPE : Z := 0.
Definition QOSM1PROXY_TYPE : Z := 1.
Definition AGGREGATER_TYPE : Z := 2.
Definition FORWARDER_TYPE : Z := 3.

(** The members of a client the packet handlers do not use. *)
Record ClientNode := mkClientNode { cn_addr : SensorNetAddress; cn_stable : bool; cn_forwarder : option loc }.

(** [_authorize] is what the class has besides its list. *)
Abbreviation ClientList := (linked ClientNode bool).

Record Sensors := mkSensors { se_gw : Gateway; se_list : ClientList; se_forwarders : ForwarderList }.

Definition f_gw : field Sensors Gateway := Field se_gw (fun v s => mkSensors v (se_list s) (se_forwarders s)).
Definition f_list : field Sensors ClientList := Field se_list (fun v s => mkSensors (se_gw s) v (se_forwarders s)).
Definition f_forwarders : field Sensors ForwarderList := Field se_forwarders (fun v s => mkSensors (se_gw s) (se_list s) v).

Definition newClientList : ClientList := Linked ∅ None None 0 false.

(** A member function of the client at [c]; a new entry for it, and none. *)
Definition member {R} (c : loc) (m : st Client R) : st Sensors R := inside f_gw (client c m).
Definition construct (c : loc) (cl : Client) : st Sensors unit := inside f_gw (fun g => Some (tt, set_client c cl g)).
Definition destruct_client (c : loc) : st Sensors unit := inside f_gw (fun g =>
  Some (tt, mkGateway (delete c (gw_clients g)) (gw_topics g) (gw_packetEventQue g) (gw_brokerSendQue g)
    (gw_clientSendQue g) (gw_suspended g) (gw_suspendedSecure g) (gw_msgIdTable g))).

(** The members in the cell. *)
Definition node (c : option loc) : st Sensors ClientNode :=
  let! cell := inside f_list (deref c) in sret (c_val cell).
Definition set_node (c : option loc) (f : ClientNode -> ClientNode) : st Sensors unit :=
  inside f_list (write c (fun cell => Cell (c_next cell) (c_prev cell) (f (c_val cell)))).

Definition Client_setClientAddress (c : option loc) (addr : SensorNetAddress) : st Sensors unit :=
  set_node c (fun n => mkClientNode addr (cn_stable n) (cn_forwarder n)).
Definition Client_setSensorNetType (c : option loc) (stable : bool) : st Sensors unit :=
  set_node c (fun n => mkClientNode (cn_addr n) stable (cn_forwarder n)).

(** [client->f()] through a pointer that may be null. *)
Definition arrow {R} (c : option loc) (m : loc -> st Sensors R) : st Sensors R :=
  match c with Some c => m c | None => undefined end.

Section Class.
Context `{HeapSpace}.

(** [setForwarder]: the pointer and the type of the client. *)
Definition Client_setForwarder_to (c : option loc) (f : option loc) : st Sensors unit :=
  arrow c (fun p =>
    set_node c (fun n => mkClientNode (cn_addr n) (cn_stable n) f) ;!
    member p Client_setForwarder).

(** [Forwarder::addClient], with what it does to the client. *)
Definition Forwarder_addClient (f : option loc) (c : option loc) (id : WirelessNodeId) : st Sensors unit :=
  Client_setForwarder_to c f ;!
  arrow c (fun p => inside f_forwarders (at_forwarder f (Forwarder_addElement p id))).

(** ** Searching *)

(** The three overloads of [getClient]; the argument of the first may be null. *)
Definition ClientList_getClient (addr : option SensorNetAddress) : st Sensors (option loc) :=
  match addr with
  | None => sret None
  | Some a => inside f_list (search (fun n => SensorNetAddress_isMatch (cn_addr n) a))
  end.

Fixpoint at_index (n : nat) (p : option loc) (i : Z) : st Sensors (option loc) :=
  match n with
  | O => undefined
  | S n =>
      if null p then sret None
      else if i =? 0 then sret p
      else let! cell := inside f_list (deref p) in at_index n (c_next cell) (i - 1)
  end.
Definition ClientList_getClient_index (index : Z) : st Sensors (option loc) := fun s =>
  at_index (fuel_of (se_list s)) (l_first (se_list s)) index s.

(** The identifier is compared in its own length. *)
Fixpoint with_id (n : nat) (clientId : list byte) (p : option loc) : st Sensors (option loc) :=
  match n with
  | O => undefined
  | S n =>
      if null p then sret None
      else
        let! cell := inside f_list (deref p) in
        let! id := arrow p (fun c => member c (the f_clientId)) in
        let! id := demand id in
        if strncmp_eq (length clientId) id clientId then sret p else with_id n clientId (c_next cell)
  end.
Definition ClientList_getClient_id (clientId : list byte) : st Sensors (option loc) := fun s =>
  with_id (fuel_of (se_list s)) clientId (l_first (se_list s)) s.

Definition ClientList_getClientCount : st Sensors Z := inside f_list get_cnt.
Definition ClientList_isAuthorized : st Sensors bool := inside f_list get_more.

(** ** Creating and erasing *)

(** [new Client(secure)]: a cell and the members. *)
Definition ClientList_newClient (secure : bool) : st Sensors (option loc) :=
  let! p := inside f_list (new (mkClientNode newSensorNetAddress true None)) in
  arrow p (fun c => construct c (newClient secure)) ;!
  sret p.

(** "add the list" *)
Definition ClientList_link (p : option loc) : st Sensors unit :=
  inside f_list (
    (let! first := get_first in
     if null first then set_first p ;! set_last p
     else
       let! last := get_last in
       set_next last p ;! set_prev p last ;! set_last p) ;!
    let! n := get_cnt in set_cnt (u16 (n + 1))).

Definition ClientList_createClient (addr : option SensorNetAddress) (clientId : list byte)
    (unstableLine secure : bool) (type : Z) : st Sensors (option loc) :=
  let! cnt := inside f_list get_cnt in
  if MAX_CLIENTS <? cnt then sret None
  else
    let! found := ClientList_getClient addr in
    if negb (null found) then sret found
    else
      let! p := ClientList_newClient secure in
      match addr with Some a => Client_setClientAddress p a | None => sret tt end ;!
      Client_setSensorNetType p unstableLine ;!
      arrow p (fun c => member c (Client_setClientId clientId)) ;!
      (if type =? AGGREGATER_TYPE then arrow p (fun c => member c Client_setAggregated)
       else if type =? QOSM1PROXY_TYPE then arrow p (fun c => member c Client_setQoSm1)
       else sret tt) ;!
      ClientList_link p ;!
      sret p.

(** The overload without a line and security. *)
Definition ClientList_createClient_plain (addr : option SensorNetAddress) (clientId : list byte) (type : Z) :
    st Sensors (option loc) :=
  ClientList_createClient addr clientId false false type.

(** [erase(client)]: the pointer afterwards. *)
Definition ClientList_erase (client : option loc) : st Sensors (option loc) :=
  let! authorize := inside f_list get_more in
  let! erasable := if authorize then sret false else arrow client (fun c => member c Client_erasable) in
  if erasable : bool then
    inside f_list (unlink client ;! let! n := get_cnt in set_cnt (u16 (n - 1))) ;!
    let! n := node client in
    (if null (cn_forwarder n) then sret tt
     else arrow client (fun c => inside f_forwarders (at_forwarder (cn_forwarder n) (Forwarder_eraseClient c)))) ;!
    inside f_list (delete_cell client) ;!
    arrow client destruct_client ;!
    sret None
  else sret client.

(** [createPredefinedTopic]; [common] says whether the pointer of the identifier
    is that of the string for all clients, whose topics are reached through a
    member that is never set. *)
Definition ClientList_createPredefinedTopic (common : bool) (clientId topicName : list byte) (topicId : Z)
    (aggregate : bool) : st Sensors (option loc) :=
  if common then undefined
  else
    let! found := ClientList_getClient_id clientId in
    let! authorize := inside f_list get_more in
    if authorize && null found then sret None
    else
      let! cnt := inside f_list get_cnt in
      if MAX_CLIENTS <? cnt then sret None
      else
        let! p :=
          if null found then
            let! p := ClientList_newClient false in
            arrow p (fun c => member c (Client_setClientId clientId)) ;!
            (if aggregate then arrow p (fun c => member c Client_setAggregated) else sret tt) ;!
            ClientList_link p ;!
            sret p
          else sret found in
        arrow p (fun c => member c (inside f_topics (Topics_add_name (until_nul topicName) topicId))) ;!
        arrow p (fun c => member c (put f_hasPredefTopic true)) ;!
        sret p.

(** The destructor deletes every client. *)
Fixpoint destroy_clients (n : nat) (p : option loc) : st Sensors unit :=
  match n with
  | O => undefined
  | S n =>
      if null p then sret tt
      else
        let! cell := inside f_list (deref p) in
        inside f_list (delete_cell p) ;!
        arrow p destruct_client ;!
        destroy_clients n (c_next cell)
  end.
Definition destroyClientList : st Sensors unit := fun s =>
  destroy_clients (fuel_of (se_list s)) (l_first (se_list s)) s.
End Class.

(** ** What the list holds *)

(** The clients in order; their members are in the shared state, under an
    identifier. *)
Definition clients_hold (s : Sensors) (l : elems ClientNode) : Prop :=
  owns true true (se_list s) l /\ l_cnt (se_list s) = zlen l /\ zlen l <= MAX_CLIENTS + 1 /\
  dom (gw_clients (se_gw s)) = list_to_set l.*1 /\
  (forall p cl, gw_clients (se_gw s) !! p = Some cl -> is_Some (cl_clientId cl)).

(** Does the identifier of the client at [p] begin with these bytes? *)
Definition begins (g : Gateway) (id : list byte) (p : loc) : bool :=
  match gw_clients g !! p with
  | Some cl => match cl_clientId cl with Some i => strncmp_eq (length id) i id | None => false end
  | None => false
  end.

(** The first client with the property. *)
Definition first_client (ok : loc * ClientNode -> bool) (l : elems ClientNode) : option loc :=
  (fun x => fst x.2) <$> list_find (fun e => ok e = true) l.

Lemma first_client_cons ok e l : first_client ok (e :: l) = if ok e then Some e.1 else first_client ok l.
Proof.
  unfold first_client. cbn [list_find]. case_decide as Hd; [by rewrite Hd|]. rewrite (not_true_is_false _ Hd).
  by destruct (list_find _ l) as [[??]|].
Qed.

Lemma first_client_where ok (l : elems ClientNode) : first_client (fun e => ok e.2) l = fst <$> first_where ok l.
Proof.
  induction l as [|[p a] l IH]; [done|]. rewrite first_client_cons, first_where_cons. cbn [fst snd].
  destruct (ok a); [done|exact IH].
Qed.

Lemma first_client_elem ok l p : first_client ok l = Some p -> exists n, (p, n) ∈ l /\ ok (p, n) = true.
Proof.
  induction l as [|[q n] l IH]; [done|]. rewrite first_client_cons. destruct (ok (q, n)) eqn:E.
  - intros [= <-]. exists n. split; [left|done].
  - intros (n' & Hin & Hok)%IH. exists n'. split; [by right|done].
Qed.

Lemma first_client_none ok l : first_client ok l = None <-> Forall (fun e => ok e = false) l.
Proof.
  induction l as [|e l IH]; [done|]. rewrite first_client_cons, list.Forall_cons. destruct (ok e); [|tauto].
  split; [done|by intros []].
Qed.

(** A part that stays as it is. *)
Lemma f_list_same s : fset f_list (se_list s) s = s.
Proof. by destruct s. Qed.
Lemma f_gw_same s : fset f_gw (se_gw s) s = s.
Proof. by destruct s. Qed.

Lemma inside_same {S T R} (f : field S T) (m : st T R) s r : fset f (fget f s) s = s ->
  m (fget f s) = Some (r, fget f s) -> inside f m s = Some (r, s).
Proof. intros Hs Hm. unfold inside. by rewrite Hm, Hs. Qed.

Lemma member_read {T} p cl (f : field Client T) s : gw_clients (se_gw s) !! p = Some cl ->
  fset f (fget f cl) cl = cl -> member p (the f) s = Some (fget f cl, s).
Proof.
  intros Hp Hf. apply inside_same; [apply f_gw_same|]. cbn. unfold client, the. rewrite Hp. by rewrite set_client_id.
Qed.

Section Searching.
Implicit Types (s : Sensors) (l : elems ClientNode).

Lemma clients_hold_seg s l : clients_hold s l ->
  NoDup l.*1 /\ seg true (cells (se_list s)) None l None /\ l_first (se_list s) = head_loc l None /\
  (length l < fuel_of (se_list s))%nat.
Proof.
  intros [[(Hn & Hs & Hf & _) _] _]. split_and!; try done. unfold fuel_of.
  pose proof (seg_length _ _ _ _ _ Hn Hs). lia.
Qed.

Lemma getClient_run s l addr : clients_hold s l ->
  ClientList_getClient addr s =
    Some (match addr with Some a => first_client (fun e => SensorNetAddress_isMatch (cn_addr e.2) a) l | None => None end, s).
Proof.
  intros [[Hr _] _]. destruct addr as [a|]; [|done].
  rewrite (first_client_where (fun n => SensorNetAddress_isMatch (cn_addr n) a)).
  apply inside_same; [apply f_list_same|]. by apply (search_run true true).
Qed.

Lemma at_index_run n pr l s i : seg true (cells (se_list s)) pr l None -> (length l < n)%nat -> 0 <= i ->
  at_index n (head_loc l None) i s = Some (fst <$> l !! Z.to_nat i, s).
Proof.
  revert pr l i. induction n as [|n IH]; intros pr l i Hs Hn Hi; [lia|].
  destruct l as [|[p a] l]; [done|]. destruct Hs as [(q & _ & Hp) Hs]. cbn [head_loc at_index null].
  destruct (Z.eqb_spec i 0) as [->|Hne]; [done|].
  rewrite (sbind_run _ _ _ (Cell (head_loc l None) q a) s).
  - cbn [c_next]. rewrite (IH (Some p)) by (done || (cbn in Hn; lia)).
    replace (Z.to_nat i) with (S (Z.to_nat (i - 1))) by lia. done.
  - apply inside_same; [apply f_list_same|]. cbn. by rewrite Hp.
Qed.

Lemma with_id_run n id pr l s : seg true (cells (se_list s)) pr l None -> (length l < n)%nat ->
  (forall p, p ∈ l.*1 -> exists cl, gw_clients (se_gw s) !! p = Some cl /\ is_Some (cl_clientId cl)) ->
  with_id n id (head_loc l None) s = Some (first_client (fun e => begins (se_gw s) id e.1) l, s).
Proof.
  revert pr l. induction n as [|n IH]; intros pr l Hs Hn Hcl; [lia|].
  destruct l as [|[p a] l]; [done|]. destruct Hs as [(q & _ & Hp) Hs]. rewrite first_client_cons.
  cbn [head_loc with_id null fst].
  rewrite (sbind_run _ _ _ (Cell (head_loc l None) q a) s);
    [|apply inside_same; [apply f_list_same|]; cbn; by rewrite Hp].
  destruct (Hcl p) as (cl & Hp' & [i Hi]); [left|]. cbn [arrow].
  rewrite (sbind_run _ _ _ (cl_clientId cl) s); [|apply member_read; [done|by destruct cl]].
  rewrite Hi. unfold sbind, demand. unfold begins. rewrite Hp', Hi. destruct (strncmp_eq _ _ _); [done|].
  apply (IH (Some p)); [done|cbn in Hn; lia|]. intros r Hr. apply Hcl. by right.
Qed.

Lemma clients_have_ids s l : clients_hold s l ->
  forall p, p ∈ l.*1 -> exists cl, gw_clients (se_gw s) !! p = Some cl /\ is_Some (cl_clientId cl).
Proof.
  intros (_ & _ & _ & Hd & Hid) p Hp.
  assert (Hin : p ∈ dom (gw_clients (se_gw s))) by by rewrite Hd, elem_of_list_to_set.
  apply elem_of_dom in Hin as [cl Hcl]. exists cl. split; [done|]. by eapply Hid.
Qed.

Lemma getClient_id_run s l id : clients_hold s l ->
  ClientList_getClient_id id s = Some (first_client (fun e => begins (se_gw s) id e.1) l, s).
Proof.
  intros Hl. destruct (clients_hold_seg s l Hl) as (_ & Hs & Hf & Hlen). unfold ClientList_getClient_id. rewrite Hf.
  eapply with_id_run; [exact Hs|done|]. by apply clients_have_ids.
Qed.
End Searching.

(** ** A client under construction *)

(** The state with a cell for a new client that is not linked yet. *)
Definition raw (s : Sensors) (p : loc) (n : ClientNode) (cl : Client) : Sensors :=
  mkSensors (set_client p cl (se_gw s))
    (set_cells (se_list s) (<[p := Cell None None n]> (cells (se_list s)))) (se_forwarders s).

Definition fresh_client (s : Sensors) : loc := fresh (dom (cells (se_list s))).

Lemma dom_snoc {A} (l : elems A) p a :
  list_to_set (C := gset loc) (l ++ [(p, a)]).*1 = {[p]} ∪ list_to_set l.*1.
Proof. rewrite fmap_app, list_to_set_app_L. cbn. by rewrite union_empty_r_L, union_comm_L. Qed.

Section Construction.
Implicit Types (s : Sensors) (l : elems ClientNode).

Lemma raw_new secure s :
  ClientList_newClient secure s =
    Some (Some (fresh_client s), raw s (fresh_client s) (mkClientNode newSensorNetAddress true None) (newClient secure)).
Proof. reflexivity. Qed.

Lemma raw_node s p n cl f : set_node (Some p) f (raw s p n cl) = Some (tt, raw s p (f n) cl).
Proof.
  unfold set_node, inside, write, raw, fget, fset, f_list. cbn. rewrite lookup_insert_eq. cbn.
  unfold set_cells. cbn. by rewrite insert_insert_eq.
Qed.

Lemma raw_member {R} s p n cl cl' (m : st Client R) r : m cl = Some (r, cl') ->
  member p m (raw s p n cl) = Some (r, raw s p n cl').
Proof.
  intros Hm. unfold member, inside, raw. cbn [fget f_gw se_gw]. by rewrite (client_run p cl cl' m r (se_gw s) Hm).
Qed.

Lemma raw_link s l p n cl : clients_hold s l -> zlen l <= MAX_CLIENTS -> (p ∉ dom (cells (se_list s))) ->
  is_Some (cl_clientId cl) ->
  exists s', ClientList_link (Some p) (raw s p n cl) = Some (tt, s') /\ clients_hold s' (l ++ [(p, n)]) /\
    se_gw s' = set_client p cl (se_gw s) /\ se_forwarders s' = se_forwarders s /\
    l_more (se_list s') = l_more (se_list s).
Proof.
  intros ([Hr Hleak] & Hcnt & Hmax & Hdom & Hids) Hroom Hp Hid.
  assert (Hpl : (p ∉ l.*1)) by (intros Hin; apply Hp; rewrite Hleak; by apply elem_of_list_to_set).
  set (s0 := set_cells (se_list s) (<[p := Cell None None n]> (cells (se_list s)))).
  assert (Hr0 : represents true true s0 l).
  { destruct Hr as (Hn & Hs & Hf & Hl). split_and!; [done|by apply seg_insert|done|done]. }
  assert (Hc0 : cells s0 !! p = Some (Cell None None n)) by apply lookup_insert_eq.
  destruct (link_last_run true true s0 l p n eq_refl Hr0 Hpl Hc0) as (s1 & Hrun & Hr1 & Hk).
  assert (Hcode : (let! first := get_first in
     if null first then set_first (Some p) ;! set_last (Some p)
     else let! last := get_last in set_next last (Some p) ;! set_prev (Some p) last ;! set_last (Some p)) s0 =
     Some (tt, s1)).
  { rewrite <- Hrun. destruct Hr0 as (_ & _ & Hf & Hl). specialize (Hl eq_refl).
    unfold sbind at 1, get_first at 1. destruct l as [|[q a] l'].
    - unfold link_last, sbind, get_first. by rewrite Hf.
    - rewrite Hf. cbn [head_loc null].
      destruct (last_loc_elem ((q, a) :: l') None) as [?|(q' & Hq' & Hin)]; [done|].
      refine (link_last_next_first s0 p q' _ _ _ _ Hc0); [by rewrite Hf|by rewrite Hl|by intros ->]. }
  destruct Hk as (Hk1 & Hk2 & Hk3).
  exists (mkSensors (set_client p cl (se_gw s)) (Linked (cells s1) (l_first s1) (l_last s1) (zlen l + 1) (l_more s1)) (se_forwarders s)).
  split; [|split; [|done]].
  - unfold ClientList_link, inside. cbn [fget f_list raw se_list]. fold s0.
    rewrite (sbind_run _ _ _ _ _ Hcode). unfold sbind, get_cnt, set_cnt. rewrite Hk1. cbn [l_cnt s0 set_cells].
    rewrite Hcnt. rewrite u16_small by (unfold MAX_CLIENTS in *; lia). done.
  - split; [split|split_and!]; cbn [se_list se_gw l_cnt].
    + by apply (represents_members true true s1).
    + unfold no_leak. cbn [cells]. rewrite Hk3. cbn [cells s0 set_cells]. by rewrite dom_insert_L, Hleak, dom_snoc.
    + zlen_lia.
    + rewrite length_app. cbn. lia.
    + cbn [set_client gw_clients]. by rewrite dom_insert_L, Hdom, dom_snoc.
    + intros q cl'. cbn [set_client gw_clients]. rewrite lookup_insert. case_decide; [by intros [= <-]|apply Hids].
Qed.

Lemma fresh_client_new s : (fresh_client s ∉ dom (cells (se_list s))).
Proof. unfold fresh_client. exact (is_fresh (dom (cells (se_list s)))). Qed.

(** What createClient makes. *)
Definition created_client (clientId : list byte) (secure : bool) (type : Z) : Client :=
  let cl := fset f_clientId (Some (c_str clientId)) (newClient secure) in
  if type =? AGGREGATER_TYPE then fset f_type Ctype_Aggregated cl
  else if type =? QOSM1PROXY_TYPE then fset f_type Ctype_QoS_1 cl else cl.

Lemma createClient_new_run s l addr clientId unstable secure type :
  clients_hold s l -> zlen l <= MAX_CLIENTS ->
  ClientList_getClient addr s = Some (None, s) ->
  let p := fresh_client s in
  let cl := created_client clientId secure type in
  exists s', ClientList_createClient addr clientId unstable secure type s = Some (Some p, s') /\
    clients_hold s' (l ++ [(p, mkClientNode (default newSensorNetAddress addr) unstable None)]) /\
    se_gw s' = set_client p cl (se_gw s) /\ se_forwarders s' = se_forwarders s /\
    l_more (se_list s') = l_more (se_list s).
Proof.
  intros Hl Hroom Hget p cl. unfold ClientList_createClient.
  assert (Hcnt : inside f_list get_cnt s = Some (zlen l, s)).
  { destruct Hl as (_ & Hcnt & _). apply inside_same; [apply f_list_same|]. unfold get_cnt. cbn [fget f_list]. by rewrite Hcnt. }
  srun Hcnt. test_false (MAX_CLIENTS <? zlen l). srun Hget. cbn [null negb].
  rewrite (sbind_run _ _ _ _ _ (raw_new secure s)). fold p.
  set (n0 := mkClientNode newSensorNetAddress true None).
  set (n1 := mkClientNode (default newSensorNetAddress addr) true None).
  set (n2 := mkClientNode (default newSensorNetAddress addr) unstable None).
  set (cl1 := fset f_clientId (Some (c_str clientId)) (newClient secure)).
  rewrite (sbind_run _ _ _ tt (raw s p n1 (newClient secure))); [|by destruct addr; [apply (raw_node s p n0)|]].
  rewrite (sbind_run _ _ _ tt (raw s p n2 (newClient secure))); [|apply (raw_node s p n1)].
  rewrite (sbind_run _ _ _ tt (raw s p n2 cl1)); [|by apply raw_member].
  assert (Hty : (if type =? AGGREGATER_TYPE then arrow (Some p) (fun c => member c Client_setAggregated)
      else if type =? QOSM1PROXY_TYPE then arrow (Some p) (fun c => member c Client_setQoSm1) else sret tt)
      (raw s p n2 cl1) = Some (tt, raw s p n2 cl)).
  { unfold cl, created_client. fold cl1. destruct (type =? AGGREGATER_TYPE); [by apply raw_member|].
    destruct (type =? QOSM1PROXY_TYPE); [by apply raw_member|done]. }
  rewrite (sbind_run _ _ _ _ _ Hty).
  destruct (raw_link s l p n2 cl Hl Hroom (fresh_client_new s)) as (s' & Hrun & Hrest).
  { unfold cl, created_client. destruct (type =? _); [|destruct (type =? _)]; by eexists. }
  exists s'. split; [|done]. by rewrite (sbind_run _ _ _ _ _ Hrun).
Qed.
End Construction.

(** ** Erasing *)

Definition without (c : loc) (g : Gateway) : Gateway :=
  mkGateway (delete c (gw_clients g)) (gw_topics g) (gw_packetEventQue g) (gw_brokerSendQue g)
    (gw_clientSendQue g) (gw_suspended g) (gw_suspendedSecure g) (gw_msgIdTable g).

Definition erasable_client (cl : Client) : bool :=
  cl_sessionStatus cl && negb (cl_hasPredefTopic cl) && negb (cl_forwarded cl).

Section Erasing.
Implicit Types (s : Sensors) (l : elems ClientNode).

Lemma clients_hold_member s l p n : clients_hold s l -> (p, n) ∈ l ->
  exists cl, gw_clients (se_gw s) !! p = Some cl.
Proof.
  intros Hl Hin. destruct (clients_have_ids s l Hl p) as (cl & ? & _); [|by exists cl].
  apply list_elem_of_fmap. by exists (p, n).
Qed.

Lemma erase_run s l1 l2 p n cl : clients_hold s (l1 ++ (p, n) :: l2) -> gw_clients (se_gw s) !! p = Some cl ->
  cn_forwarder n = None -> l_more (se_list s) = false -> erasable_client cl = true ->
  exists s', ClientList_erase (Some p) s = Some (None, s') /\ clients_hold s' (l1 ++ l2) /\
    se_gw s' = without p (se_gw s) /\ se_forwarders s' = se_forwarders s /\ l_more (se_list s') = false.
Proof.
  intros ([Hr Hleak] & Hcnt & Hmax & Hdom & Hids) Hcl Hfwd Hauth Her.
  unfold ClientList_erase.
  assert (H0 : inside f_list get_more s = Some (false, s)).
  { apply inside_same; [apply f_list_same|]. unfold get_more. cbn [fget f_list]. by rewrite Hauth. }
  srun H0. cbn [arrow].
  assert (H1 : member p Client_erasable s = Some (true, s)).
  { apply inside_same; [apply f_gw_same|]. cbn [fget f_gw]. unfold client. rewrite Hcl.
    unfold Client_erasable, sbind, the, sret. cbn [fget f_sessionStatus f_hasPredefTopic f_forwarded].
    fold (erasable_client cl). rewrite Her. by rewrite set_client_id. }
  srun H1.
  destruct (unlink_run true true (se_list s) l1 l2 p n eq_refl eq_refl Hr) as (t & Hun & Hrt & (Hk1 & Hk2 & Hk3) & Hpt).
  assert (Hp : exists c, cells (se_list s) !! p = Some c /\ c_val c = n).
  { destruct Hr as (_ & Hs & _). eapply seg_lookup; [exact Hs|]. apply elem_of_app. right. left. }
  destruct Hp as (c & Hc & Hv).
  set (t1 := Linked (cells t) (l_first t) (l_last t) (zlen (l1 ++ l2)) (l_more t)).
  set (s1 := mkSensors (se_gw s) t1 (se_forwarders s)).
  assert (H2 : inside f_list (unlink (Some p) ;! let! k := get_cnt in set_cnt (u16 (k - 1))) s = Some (tt, s1)).
  { unfold inside. cbn [fget f_list]. srun Hun. unfold sbind, get_cnt, set_cnt. rewrite Hk1, Hcnt.
    replace (u16 (zlen (l1 ++ (p, n) :: l2) - 1)) with (zlen (l1 ++ l2)); [done|].
    unfold MAX_CLIENTS in Hmax. rewrite !length_app in *. cbn [length] in *. rewrite u16_small; lia. }
  srun H2.
  assert (H3 : node (Some p) s1 = Some (n, s1)).
  { unfold node, sbind, inside. cbn [fget f_list s1 se_list]. unfold deref. cbn [cells t1]. rewrite Hpt, Hc.
    unfold sret. rewrite Hv. done. }
  srun H3. rewrite Hfwd. cbn [null]. unfold sbind at 1, sret at 1.
  assert (Hr1 : represents true true t1 (l1 ++ l2)) by by apply (represents_members true true t).
  destruct (nodup_middle _ _ _ _ (represents_nodup _ _ _ _ Hr)) as (_ & Hpn & _).
  destruct (delete_run true true t1 (l1 ++ l2) p Hr1 Hpn) as (t2 & Hdel & Hr2 & Hd2 & Hc2 & Hm2).
  { cbn [cells t1]. rewrite Hk3. by apply elem_of_dom_2 in Hc. }
  exists (mkSensors (without p (se_gw s)) t2 (se_forwarders s)). split; [|split; [split; [split|split_and!]|split_and!]]; try done.
  - unfold sbind at 1, inside at 1. cbn [fget f_list s1 se_list]. rewrite Hdel. done.
  - cbn [se_list]. unfold no_leak. rewrite Hd2. cbn [cells t1]. rewrite Hk3, Hleak. by apply dom_app_elem.
  - rewrite !length_app in *. cbn [length] in *. lia.
  - cbn [se_gw without gw_clients]. rewrite dom_delete_L, Hdom. by apply dom_app_elem.
  - intros q cl'. cbn [se_gw without gw_clients]. intros [_ Hq]%lookup_delete_Some. by eapply Hids.
  - cbn [se_list]. rewrite Hm2. cbn. congruence.
Qed.

(** A client that may not be erased stays. *)
Lemma erase_kept s p cl : gw_clients (se_gw s) !! p = Some cl ->
  l_more (se_list s) || negb (erasable_client cl) = true -> ClientList_erase (Some p) s = Some (Some p, s).
Proof.
  intros Hcl Hk. unfold ClientList_erase.
  assert (H0 : inside f_list get_more s = Some (l_more (se_list s), s)) by (apply inside_same; [apply f_list_same|done]).
  srun H0. destruct (l_more (se_list s)); [done|]. cbn [orb] in Hk. cbn [arrow].
  assert (H1 : member p Client_erasable s = Some (false, s)).
  { apply inside_same; [apply f_gw_same|]. cbn [fget f_gw]. unfold client. rewrite Hcl.
    unfold Client_erasable, sbind, the, sret. cbn [fget f_sessionStatus f_hasPredefTopic f_forwarded].
    fold (erasable_client cl). apply negb_true_iff in Hk. rewrite Hk. by rewrite set_client_id. }
  by srun H1.
Qed.
End Erasing.

(** ** Predefined topics *)

Definition put_client (p : loc) (cl : Client) (s : Sensors) : Sensors :=
  mkSensors (set_client p cl (se_gw s)) (se_list s) (se_forwarders s).

Section Predefined.
Implicit Types (s : Sensors) (l : elems ClientNode).

Lemma member_run {R} p cl cl' (m : st Client R) r s : gw_clients (se_gw s) !! p = Some cl -> m cl = Some (r, cl') ->
  member p m s = Some (r, put_client p cl' s).
Proof. intros Hp Hm. unfold member, inside, client. cbn [fget f_gw]. by rewrite Hp, Hm. Qed.

Lemma put_client_hold s l p cl cl' : clients_hold s l -> gw_clients (se_gw s) !! p = Some cl ->
  is_Some (cl_clientId cl') -> clients_hold (put_client p cl' s) l.
Proof.
  intros (Ho & Hcnt & Hmax & Hdom & Hids) Hp Hid. split_and!; try done; cbn [put_client se_gw set_client gw_clients].
  - rewrite dom_insert_lookup_L by by exists cl. done.
  - intros q c. rewrite lookup_insert. case_decide; [by intros [= <-]|apply Hids].
Qed.

(** The topic goes to the first client whose identifier begins with the given
    one. *)
Lemma predefined_known_run s l p cl name id aggregate clientId r t :
  clients_hold s l -> zlen l <= MAX_CLIENTS ->
  first_client (fun e => begins (se_gw s) clientId e.1) l = Some p -> gw_clients (se_gw s) !! p = Some cl ->
  Topics_add_name (until_nul name) id (cl_topics cl) = Some (r, t) ->
  ClientList_createPredefinedTopic false clientId name id aggregate s =
    Some (Some p, put_client p (fset f_hasPredefTopic true (fset f_topics t cl)) s).
Proof.
  intros Hl Hroom Hfind Hp Ht. unfold ClientList_createPredefinedTopic.
  pose proof (getClient_id_run s l clientId Hl) as Hget. rewrite Hfind in Hget. srun Hget.
  assert (H0 : inside f_list get_more s = Some (l_more (se_list s), s)) by (apply inside_same; [apply f_list_same|done]).
  srun H0. cbn [null]. rewrite andb_false_r.
  assert (H1 : inside f_list get_cnt s = Some (zlen l, s)).
  { destruct Hl as (_ & Hcnt & _). apply inside_same; [apply f_list_same|]. unfold get_cnt. cbn [fget f_list]. by rewrite Hcnt. }
  srun H1. test_false (MAX_CLIENTS <? zlen l). unfold sbind at 1, sret at 1. cbn [arrow].
  assert (H2 : member p (inside f_topics (Topics_add_name (until_nul name) id)) s = Some (r, put_client p (fset f_topics t cl) s)).
  { apply (member_run p cl); [done|]. unfold inside. cbn [fget f_topics]. by rewrite Ht. }
  srun H2.
  rewrite (sbind_run _ _ _ tt (put_client p (fset f_hasPredefTopic true (fset f_topics t cl)) s)); [done|].
  erewrite (member_run p (fset f_topics t cl)); [|apply lookup_insert_eq|reflexivity].
  do 2 f_equal. unfold put_client, set_client. cbn. by rewrite insert_insert_eq.
Qed.

(** For an identifier no client has, a client is made, unless the list is closed. *)
Lemma predefined_new_run s l name id aggregate clientId :
  clients_hold s l -> zlen l <= MAX_CLIENTS -> l_more (se_list s) = false ->
  first_client (fun e => begins (se_gw s) clientId e.1) l = None ->
  let p := fresh_client s in
  exists s' t r, ClientList_createPredefinedTopic false clientId name id aggregate s = Some (Some p, s') /\
    Topics_add_name (until_nul name) id newTopics = Some (r, t) /\
    clients_hold s' (l ++ [(p, mkClientNode newSensorNetAddress true None)]) /\
    se_gw s' = set_client p (fset f_hasPredefTopic true (fset f_topics t
      (created_client clientId false (if aggregate then AGGREGATER_TYPE else TRANSPEARENT_TYPE)))) (se_gw s) /\
    se_forwarders s' = se_forwarders s.
Proof.
  intros Hl Hroom Hauth Hfind p. unfold ClientList_createPredefinedTopic.
  pose proof (getClient_id_run s l clientId Hl) as Hget. rewrite Hfind in Hget. srun Hget.
  assert (H0 : inside f_list get_more s = Some (false, s)).
  { apply inside_same; [apply f_list_same|]. unfold get_more. cbn [fget f_list]. by rewrite Hauth. }
  srun H0. cbn [andb].
  assert (H1 : inside f_list get_cnt s = Some (zlen l, s)).
  { destruct Hl as (_ & Hcnt & _). apply inside_same; [apply f_list_same|]. unfold get_cnt. cbn [fget f_list]. by rewrite Hcnt. }
  srun H1. test_false (MAX_CLIENTS <? zlen l). cbn [null].
  set (cl := created_client clientId false (if aggregate then AGGREGATER_TYPE else TRANSPEARENT_TYPE)).
  set (n := mkClientNode newSensorNetAddress true None).
  destruct (raw_link s l p n cl Hl Hroom (fresh_client_new s)) as (s1 & Hlink & Hl1 & Hg1 & Hf1 & Hm1).
  { unfold cl, created_client. by destruct aggregate; eexists. }
  assert (H2 : (let! p := ClientList_newClient false in
     arrow p (fun c => member c (Client_setClientId clientId)) ;!
     (if aggregate then arrow p (fun c => member c Client_setAggregated) else sret tt) ;!
     ClientList_link p ;! sret p) s = Some (Some p, s1)).
  { rewrite (sbind_run _ _ _ _ _ (raw_new false s)). fold p n. cbn [arrow].
    rewrite (sbind_run _ _ _ tt (raw s p n (fset f_clientId (Some (c_str clientId)) (newClient false)))); [|by apply raw_member].
    rewrite (sbind_run _ _ _ tt (raw s p n cl)); [|destruct aggregate; [by apply raw_member|done]].
    by srun Hlink. }
  srun H2. cbn [arrow].
  destruct (topics_add_run newTopics 0 [] (until_nul name) id topics_new_hold) as (r & t & Hadd & _).
  assert (Hc1 : gw_clients (se_gw s1) !! p = Some cl) by (rewrite Hg1; apply lookup_insert_eq).
  assert (H3 : member p (inside f_topics (Topics_add_name (until_nul name) id)) s1 = Some (r, put_client p (fset f_topics t cl) s1)).
  { apply (member_run p cl); [done|]. unfold inside. cbn [fget f_topics].
    replace (cl_topics cl) with newTopics by by destruct aggregate. by rewrite Hadd. }
  srun H3. set (cl' := fset f_hasPredefTopic true (fset f_topics t cl)).
  exists (put_client p cl' s1), t, r. split; [|split; [done|split; [|split; [|exact Hf1]]]].
  - rewrite (sbind_run _ _ _ tt (put_client p cl' s1)); [done|].
    erewrite (member_run p (fset f_topics t cl)); [|apply lookup_insert_eq|reflexivity].
    do 2 f_equal. unfold put_client, set_client. cbn. by rewrite insert_insert_eq.
  - apply (put_client_hold _ _ p cl); [done|done|]. by destruct aggregate; eexists.
  - cbn [put_client se_gw]. rewrite Hg1. unfold set_client. cbn. by rewrite insert_insert_eq.
Qed.
End Predefined.

(** ** Properties *)

Section Properties.
Implicit Types (s : Sensors) (l : elems ClientNode).

(** C25: the list of clients refines a list: it is searched by address, by place and
    by identifier; a new client is made at its end unless its address is known
    or more than 100 clients are there, so that 101 fit; a client is taken out
    only where the list is open and the client has a clean session, no
    predefined topic and no forwarder. *)
Theorem client_list_spec s l : clients_hold s l ->
  (forall addr, ClientList_getClient (Some addr) s =
     Some (first_client (fun e => SensorNetAddress_isMatch (cn_addr e.2) addr) l, s)) /\
  (forall i, 0 <= i -> ClientList_getClient_index i s = Some (fst <$> l !! Z.to_nat i, s)) /\
  (forall id, ClientList_getClient_id id s = Some (first_client (fun e => begins (se_gw s) id e.1) l, s)) /\
  (forall addr id unstable secure type,
     (MAX_CLIENTS < zlen l -> ClientList_createClient addr id unstable secure type s = Some (None, s)) /\
     (zlen l <= MAX_CLIENTS -> forall p, ClientList_getClient addr s = Some (Some p, s) ->
        ClientList_createClient addr id unstable secure type s = Some (Some p, s)) /\
     (zlen l <= MAX_CLIENTS -> ClientList_getClient addr s = Some (None, s) ->
        let p := fresh_client s in
        exists s', ClientList_createClient addr id unstable secure type s = Some (Some p, s') /\ (p ∉ l.*1) /\
          clients_hold s' (l ++ [(p, mkClientNode (default newSensorNetAddress addr) unstable None)]) /\
          se_gw s' = set_client p (created_client id secure type) (se_gw s))) /\
  (forall l1 l2 p n cl, l = l1 ++ (p, n) :: l2 -> gw_clients (se_gw s) !! p = Some cl -> cn_forwarder n = None ->
     if l_more (se_list s) || negb (erasable_client cl)
     then ClientList_erase (Some p) s = Some (Some p, s)
     else exists s', ClientList_erase (Some p) s = Some (None, s') /\ clients_hold s' (l1 ++ l2) /\
            se_gw s' = without p (se_gw s)).
Proof.
  intros Hl. assert (Hcnt : inside f_list get_cnt s = Some (zlen l, s)).
  { destruct Hl as (_ & Hcnt & _). apply inside_same; [apply f_list_same|]. unfold get_cnt. cbn [fget f_list]. by rewrite Hcnt. }
  split_and!.
  - intros addr. apply (getClient_run s l (Some addr) Hl).
  - intros i Hi. destruct (clients_hold_seg s l Hl) as (_ & Hs & Hf & Hlen). unfold ClientList_getClient_index. rewrite Hf.
    by eapply at_index_run.
  - intros id. by apply getClient_id_run.
  - intros addr id unstable secure type. split_and!.
    + intros Hfull. unfold ClientList_createClient. srun Hcnt. by test_true (MAX_CLIENTS <? zlen l).
    + intros Hroom p Hget. unfold ClientList_createClient. srun Hcnt. test_false (MAX_CLIENTS <? zlen l). by srun Hget.
    + intros Hroom Hget p. destruct (createClient_new_run s l addr id unstable secure type Hl Hroom Hget)
        as (s' & Hrun & Hl' & Hg & _). exists s'. split_and!; try done.
      intros Hin. apply (fresh_client_new s). destruct Hl as ([_ Hleak] & _). rewrite Hleak.
      by apply elem_of_list_to_set.
  - intros l1 l2 p n cl -> Hcl Hfwd. destruct (_ || _) eqn:E.
    + by eapply erase_kept.
    + apply orb_false_iff in E as [Ha He]. apply negb_false_iff in He.
      destruct (erase_run s l1 l2 p n cl Hl Hcl Hfwd Ha He) as (s' & Hrun & Hl' & Hg & _). by exists s'.
Qed.

(** the client found for an identifier is the first one whose own begins with
    it: with the empty identifier the first client of the list. *)
Theorem client_id_prefix s l id : clients_hold s l -> Forall (fun c => c <> nul) id ->
  exists r, ClientList_getClient_id id s = Some (r, s) /\
    (forall p, r = Some p -> exists cl rest, gw_clients (se_gw s) !! p = Some cl /\ cl_clientId cl = Some (id ++ rest)) /\
    (forall p cl rest, r = None -> p ∈ l.*1 -> gw_clients (se_gw s) !! p = Some cl -> cl_clientId cl <> Some (id ++ rest)) /\
    (id = [] -> r = fst <$> head l).
Proof.
  intros Hl Hid. eexists. split; [by apply getClient_id_run|]. split_and!.
  - intros p (n & Hin & Hb)%first_client_elem. cbn [fst] in Hb. unfold begins in Hb.
    destruct (gw_clients (se_gw s) !! p) as [cl|]; [|done]. destruct (cl_clientId cl) as [i|] eqn:Hi; [|done].
    apply strncmp_eq_prefix in Hb as [rest ->]; [|done]. by exists cl, rest.
  - intros p cl rest Hnone Hp Hcl Hi. apply first_client_none in Hnone. rewrite list.Forall_forall in Hnone.
    apply list_elem_of_fmap in Hp as ([q n] & -> & Hin). specialize (Hnone _ Hin). cbn [fst] in *.
    unfold begins in Hnone. rewrite Hcl, Hi in Hnone.
    rewrite (proj2 (strncmp_eq_prefix (id ++ rest) id Hid)) in Hnone; [done|by exists rest].
  - intros ->. destruct l as [|[p n] l]; [done|]. rewrite first_client_cons. cbn [fst].
    destruct (clients_have_ids s _ Hl p) as (cl & Hcl & [i Hi]); [left|]. unfold begins. by rewrite Hcl, Hi.
Qed.

(** a predefined topic goes to the client with the identifier, which is made if
    there is none; a closed list makes none.  The entries for all clients, marked
    by "*", would go through a null pointer. *)
Theorem predefined_spec s l id name topicId aggregate : clients_hold s l -> zlen l <= MAX_CLIENTS ->
  ClientList_createPredefinedTopic true id name topicId aggregate s = None /\
  match first_client (fun e => begins (se_gw s) id e.1) l with
  | Some p => forall cl n ts, gw_clients (se_gw s) !! p = Some cl -> topics_hold (cl_topics cl) n ts ->
      exists cl' r t, ClientList_createPredefinedTopic false id name topicId aggregate s = Some (Some p, put_client p cl' s) /\
        Topics_add_name (until_nul name) topicId (cl_topics cl) = Some (r, t) /\
        cl' = fset f_hasPredefTopic true (fset f_topics t cl)
  | None =>
      if l_more (se_list s)
      then ClientList_createPredefinedTopic false id name topicId aggregate s = Some (None, s)
      else exists s' cl, ClientList_createPredefinedTopic false id name topicId aggregate s = Some (Some (fresh_client s), s') /\
        clients_hold s' (l ++ [(fresh_client s, mkClientNode newSensorNetAddress true None)]) /\
        se_gw s' = set_client (fresh_client s) cl (se_gw s) /\ cl_clientId cl = Some (c_str id) /\
        cl_hasPredefTopic cl = true
  end.
Proof.
  intros Hl Hroom. split; [done|]. destruct (first_client _ l) as [p|] eqn:Hfind.
  - intros cl n ts Hcl Hts. destruct (topics_add_run (cl_topics cl) n ts (until_nul name) topicId Hts) as (r & t & Hadd & _).
    eexists _, r, t. split; [by eapply predefined_known_run|done].
  - destruct (l_more (se_list s)) eqn:Hauth.
    + unfold ClientList_createPredefinedTopic. pose proof (getClient_id_run s l id Hl) as Hget. rewrite Hfind in Hget.
      srun Hget. assert (H0 : inside f_list get_more s = Some (true, s)).
      { apply inside_same; [apply f_list_same|]. unfold get_more. cbn [fget f_list]. by rewrite Hauth. }
      by srun H0.
    + destruct (predefined_new_run s l name topicId aggregate id Hl Hroom Hauth Hfind) as (s' & t & r & Hrun & _ & Hl' & Hg & _).
      eexists s', _. split_and!; [done|done|exact Hg| |done]. by destruct aggregate.
Qed.
End Properties.

(** ** The end of the list *)

Definition newSensors (topics : Topics) : Sensors := mkSensors (newGateway topics) newClientList newForwarderList.

Lemma newSensors_hold topics : clients_hold (newSensors topics) [].
Proof. split; [by apply owns_empty|]. split_and!; [done|done|done|]. intros p cl. cbn. by rewrite lookup_empty. Qed.

Lemma destroy_clients_run n pr l s : NoDup l.*1 -> seg true (cells (se_list s)) pr l None -> (length l < n)%nat ->
  exists s', destroy_clients n (head_loc l None) s = Some (tt, s') /\
    dom (cells (se_list s')) = dom (cells (se_list s)) ∖ list_to_set l.*1 /\
    dom (gw_clients (se_gw s')) = dom (gw_clients (se_gw s)) ∖ list_to_set l.*1.
Proof.
  revert s pr l. induction n as [|n IH]; intros s pr l Hn Hs Hlen; [lia|].
  destruct l as [|[p a] l]; [exists s; split_and!; [done|symmetry; apply difference_empty_L..]|].
  destruct Hs as [(q & _ & Hp) Hs]. apply list.NoDup_cons in Hn as [Hp' Hn]. cbn [head_loc destroy_clients null].
  rewrite (sbind_run _ _ _ (Cell (head_loc l None) q a) s);
    [|apply inside_same; [apply f_list_same|]; cbn; by rewrite Hp].
  set (s1 := mkSensors (without p (se_gw s)) (set_cells (se_list s) (delete p (cells (se_list s)))) (se_forwarders s)).
  destruct (IH s1 (Some p) l Hn) as (s' & Hrun & Hd & Hg); [by apply seg_delete|cbn in Hlen; lia|].
  exists s'. split; [|split].
  - rewrite (sbind_run _ _ _ tt (fset f_list (set_cells (se_list s) (delete p (cells (se_list s)))) s));
      [|unfold inside, delete_cell; cbn; by rewrite Hp].
    rewrite (sbind_run _ _ _ tt s1); [|done]. exact Hrun.
  - rewrite Hd. cbn [s1 se_list cells set_cells list_to_set fmap list_fmap fst].
    by rewrite dom_delete_L, difference_difference_l_L.
  - rewrite Hg. cbn [s1 se_gw without gw_clients list_to_set fmap list_fmap fst].
    by rewrite dom_delete_L, difference_difference_l_L.
Qed.

(** The destructor frees every client. *)
Lemma destroyClientList_run s l : clients_hold s l ->
  exists s', destroyClientList s = Some (tt, s') /\ cells (se_list s') = ∅ /\ gw_clients (se_gw s') = ∅.
Proof.
  intros Hl. destruct (clients_hold_seg s l Hl) as (Hn & Hs & Hf & Hlen).
  destruct (destroy_clients_run _ None l s Hn Hs Hlen) as (s' & Hrun & Hd & Hg).
  destruct Hl as ([_ Hleak] & _ & _ & Hdom & _). exists s'. unfold destroyClientList. rewrite Hf. split; [done|].
  split; apply dom_empty_inv_L; [rewrite Hd, Hleak|rewrite Hg, Hdom]; apply difference_diag_L.
Qed.

(** ** Witnesses *)

(** Two clients, "ab" and "b". *)
Definition after {S R} (m : st S R) (s : S) : S := match m s with Some (_, s') => s' | None => s end.
Definition sample_one : Sensors :=
  after (ClientList_createClient_plain (Some (mkAddress 1 1)) (lit "ab") TRANSPEARENT_TYPE) (newSensors newTopics).
Definition sample_clients : Sensors :=
  after (ClientList_createClient_plain (Some (mkAddress 2 2)) (lit "b") TRANSPEARENT_TYPE) sample_one.
Definition sample_nodes : elems ClientNode :=
  [(fresh_client (newSensors newTopics), mkClientNode (mkAddress 1 1) false None);
   (fresh_client sample_one, mkClientNode (mkAddress 2 2) false None)].

Lemma sample_clients_hold : clients_hold sample_clients sample_nodes.
Proof.
  destruct (createClient_new_run (newSensors newTopics) [] (Some (mkAddress 1 1)) (lit "ab") false false TRANSPEARENT_TYPE)
    as (s1 & Hrun & Hl & _); [apply newSensors_hold|done|done|].
  assert (Hs1 : s1 = sample_one) by (unfold sample_one, after, ClientList_createClient_plain; by rewrite Hrun).
  subst s1. cbn [app] in Hl.
  destruct (createClient_new_run sample_one _ (Some (mkAddress 2 2)) (lit "b") false false TRANSPEARENT_TYPE Hl)
    as (s2 & Hrun2 & Hl2 & _); [done|by rewrite (getClient_run _ _ _ Hl)|].
  assert (Hs2 : s2 = sample_clients) by (unfold sample_clients, after, ClientList_createClient_plain; by rewrite Hrun2).
  subst s2. exact Hl2.
Qed.

Lemma client_list_spec_witness :
  ClientList_getClient (Some (mkAddress 2 2)) sample_clients = Some (Some (fresh_client sample_one), sample_clients) /\
  ClientList_getClient_index 2 sample_clients = Some (None, sample_clients).
Proof.
  destruct (client_list_spec sample_clients sample_nodes sample_clients_hold) as (Ha & Hi & _).
  split; [exact (Ha (mkAddress 2 2))|exact (Hi 2 ltac:(done))].
Defined.

Lemma client_id_prefix_witness :
  exists r, ClientList_getClient_id (lit "a") sample_clients = Some (r, sample_clients) /\
    (forall p, r = Some p -> exists cl rest, gw_clients (se_gw sample_clients) !! p = Some cl /\ cl_clientId cl = Some (lit "a" ++ rest)).
Proof.
  destruct (client_id_prefix sample_clients sample_nodes (lit "a") sample_clients_hold) as (r & Hr & Hp & _).
  - apply list.Forall_cons. split; [done|constructor].
  - exists r. split; [exact Hr|exact Hp].
Defined.

Lemma predefined_spec_witness :
  exists s' cl, ClientList_createPredefinedTopic false (lit "c") (lit "t") 7 false sample_clients =
      Some (Some (fresh_client sample_clients), s') /\
    clients_hold s' (sample_nodes ++ [(fresh_client sample_clients, mkClientNode newSensorNetAddress true None)]) /\
    se_gw s' = set_client (fresh_client sample_clients) cl (se_gw sample_clients) /\ cl_clientId cl = Some (lit "c") /\
    cl_hasPredefTopic cl = true.
Proof. exact (proj2 (predefined_spec sample_clients sample_nodes (lit "c") (lit "t") 7 false sample_clients_hold ltac:(done))). Defined.
