(* ===== verification/GWConfig.v ===== *)
(** * Configuration of the gateway: MQTTSNGWProcess.cpp, MQTTSNGateway.cpp and
      the files of MQTTSNGWClientList.cpp

    Parameters are looked up in a file of lines "Key=value"; further files name
    the clients, the forwarders and the predefined topics.  Where the code throws
    an exception nobody catches, or reads outside an array, there is no result. *)

From S2P Require Import Prelude CMem GWHeap GWTables GWTopic GWPacket GWSNPacket GWClient GWGateway GWEncap GWStrings GWSensorNet GWForwarder GWClientList.

(** ** The parameters of a process *)

Definition MQTTSNGW_PARAM_MAX : Z := 128.

Definition equals : byte := byte_of_Z 61.

(** The array [str] after [fgets(str, n, fp)], and the rest of the file. *)
Definition fgets_into (n : nat) (arr file : list byte) : option (list byte * list byte) :=
  '(line, rest) ← fgets n file;
  Some (splice arr 0 (line ++ [nul]), rest).

(** The index of a character from [i] on; searching behind the array is
    undefined. *)
Definition index_from (c : byte) (i : nat) (arr : list byte) : option nat :=
  (fun x => (i + fst x)%nat) <$> list_find (fun x => x = c) (drop i arr).

(** Without the spaces at the end, and at both ends. *)
Fixpoint skip_back (s : list byte) : list byte :=
  match s with [] => [] | c :: s' => if isspace c then skip_back s' else s end.
Definition trim_end (s : list byte) : list byte := reverse (skip_back (reverse s)).
Definition trim (s : list byte) : list byte := skip_space (trim_end s).

(** The value in the array, from behind the first '=' to the end of the line. *)
Definition param_value (arr : list byte) : option (list byte) :=
  i ← index_from equals 0 arr;
  j ← index_from newline (S i) arr;
  Some (trim (until_nul (take (j - S i) (drop (S i) arr)))).

(** The loop over the lines. *)
Fixpoint param_loop (n : nat) (parameter arr file : list byte) : option (Z * list byte) :=
  match n with
  | O => None
  | S n =>
      match fgets_into (Z.to_nat (MQTTSNGW_PARAM_MAX - 1)) arr file with
      | None => Some (-3, [])
      | Some (arr, file) =>
          if strncmp_eq (length parameter) arr parameter then
            v ← param_value arr; Some (0, v)
          else param_loop n parameter arr file
      end
  end.

(** [file] is the configuration file, if it can be opened; [arr] what the array
    holds before.  The result, and what is stored behind [value]. *)
Definition Process_getParam (arr : list byte) (file : option (list byte)) (parameter : list byte) :
    option (Z * list byte) :=
  match file with
  | None => Some (-1, [])
  | Some file => param_loop (S (length file)) parameter arr file
  end.

(** Without a file an exception is thrown. *)
Definition MultiTaskProcess_getParam (arr : list byte) (file : option (list byte)) (parameter : list byte) :
    option (Z * list byte) :=
  '(rc, v) ← Process_getParam arr file parameter;
  if rc =? -1 then None else Some (rc, v).

(** ** What the gateway is started with *)

(** The contents of the files by their names; the configuration file with its
    directory; what the arrays hold. *)
Class Files := {
  file_at : list byte -> option (list byte);
  configDir : list byte;
  configFile : list byte;
  stack_bytes : list byte;
}.

Record GWParams := mkGWParams {
  par_brokerName : option (list byte);
  par_port : option (list byte);
  par_portSecure : option (list byte);
  par_certKey : option (list byte);
  par_privateKey : option (list byte);
  par_rootCApath : option (list byte);
  par_rootCAfile : option (list byte);
  par_gatewayNo : Z;
  par_gatewayName : option (list byte);
  par_version : Z;
  par_maxInflightMsgs : Z;
  par_keepAliveTime : Z;
  par_login : option (list byte);
  par_pass : option (list byte);
  par_clientAuthentication : bool;
}.

Definition DEFAULT_KEEP_ALIVE_TIME : Z := 900.
Definition DEFAULT_MQTT_VERSION : Z := 4.

Section Configuration.
Context `{HeapSpace} `{ByteOrder} `{InetAddr} `{Files}.

Definition Gateway_getParam (parameter : list byte) : option (Z * list byte) :=
  MultiTaskProcess_getParam stack_bytes (file_at (configDir ++ configFile)) parameter.

(** [if (getParam(key, param) == 0) v = strdup(param);] and with [atoi], whose
    result is cut down to the type of the member, and the answer YES. *)
Definition param_string (key : list byte) : option (option (list byte)) :=
  '(rc, v) ← Gateway_getParam key; Some (if rc =? 0 then Some v else None).
Definition param_int (key : list byte) (width : Z -> Z) (old : Z) : option Z :=
  '(rc, v) ← Gateway_getParam key;
  if rc =? 0 then n ← atoi v; Some (width n) else Some old.
Definition param_yes (key : list byte) : option bool :=
  '(rc, v) ← Gateway_getParam key; Some ((rc =? 0) && strcasecmp_eq v (lit "YES")).

(** The first part of Gateway::initialize. *)
Definition Gateway_readParams : option GWParams :=
  brokerName ← param_string (lit "BrokerName");
  port ← param_string (lit "BrokerPortNo");
  portSecure ← param_string (lit "BrokerSecurePortNo");
  certKey ← param_string (lit "CertKey");
  privateKey ← param_string (lit "PrivateKey");
  rootCApath ← param_string (lit "RootCApath");
  rootCAfile ← param_string (lit "RootCAfile");
  gatewayId ← param_int (lit "GatewayID") u8 0;
  if (gatewayId =? 0) || (255 <? gatewayId) then None
  else
    gatewayName ← param_string (lit "GatewayName");
    if bool_decide (gatewayName = None) then None
    else
      version ← param_int (lit "MQTTVersion") u8 DEFAULT_MQTT_VERSION;
      inflight ← param_int (lit "MaxInflightMsgs") u16 DEFAULT_MQTT_VERSION;
      keepAlive ← param_int (lit "KeepAlive") u16 DEFAULT_KEEP_ALIVE_TIME;
      loginId ← param_string (lit "LoginID");
      password ← param_string (lit "Password");
      authentication ← param_yes (lit "ClientAuthentication");
      Some (mkGWParams brokerName port portSecure certKey privateKey rootCApath rootCAfile gatewayId gatewayName
        version inflight keepAlive loginId password authentication).

(** SensorNetwork::initialize, without the text it describes itself with. *)
Definition SensorNetwork_initialize {E : Type} `{UdpSockets E} : st (SensorNetwork E) Z :=
  let! ip := demand (param_string (lit "MulticastIP")) in
  let! multicastPortNo := demand (param_int (lit "MulticastPortNo") u16 0) in
  let! unicastPortNo := demand (param_int (lit "GatewayPortNo") u16 0) in
  UDPPort_open (default [] ip) multicastPortNo unicastPortNo.

Definition is_set {T} (o : option T) : bool := match o with Some _ => true | None => false end.
Definition Gateway_hasSecureConnection (p : GWParams) : bool :=
  is_set (par_certKey p) && is_set (par_privateKey p) && is_set (par_rootCApath p) && is_set (par_rootCAfile p).

(** ** The list of clients *)

Definition MAX_CLIENTID_LENGTH : Z := 64.
Definition line_size : nat := Z.to_nat (MAX_CLIENTID_LENGTH + 254).

(** The characters that are taken out of a line: space, the three bytes of a
    space of double width, tab and newline. *)
Definition blanks : list byte := map byte_of_Z [32; 227; 128; 128; 9; 10].

(** [while ((pos = data.find_first_of(...)) != npos) data.erase(pos, 1);] *)
Fixpoint strip_loop (n : nat) (data : list byte) : list byte :=
  match n with
  | O => data
  | S n => match find_first_of data blanks with Some pos => strip_loop n (erase_at data pos) | None => data end
  end.
Definition strip (data : list byte) : list byte := strip_loop (length data) data.

(** Positions are [size_t]; none is [npos], and adding 1 to it gives 0. *)
Definition npos : Z := ULONG_MAX.
Definition pos_of (p : option nat) : Z := match p with Some p => Z.of_nat p | None => npos end.
Definition substr_z (s : list byte) (pos n : Z) : option (list byte) := string_substr s (Z.to_nat pos) (Z.to_nat (Z.min n (zlen s))).
Definition find_z (s t : list byte) (pos : Z) : option nat :=
  if pos <=? zlen s then string_find s t (Z.to_nat pos) else None.

(** The text of a line that is neither a comment nor blank. *)
Definition line_data (line : list byte) : option (list byte) :=
  if bool_decide (head line = Some (byte_of_Z 35)) then None
  else
    let data := strip (until_nul line) in
    if bool_decide (data = []) then None else Some data.

(** One entry of the list of clients; the variable for the address lives as long
    as the loop. *)
Definition create_entry (type : Z) (netAddr : SensorNetAddress) (data : list byte) :
    st Sensors (bool * SensorNetAddress) :=
  let pos := pos_of (find_first_of data (lit ",")) in
  let! id := demand (substr_z data 0 pos) in
  let! addr := demand (substr_z data (u32 (pos + 1)) npos) in
  let! (rc, netAddr) := demand (SensorNetAddress_setString netAddr addr) in
  if rc =? 0 then
    let qos_1 := contains data (lit "QoS-1") in
    let forwarder := contains data (lit "forwarder") in
    let secure := contains data (lit "secureConnection") in
    let stable := negb (contains data (lit "unstableLine")) in
    (if qos_1 && (type =? QOSM1PROXY_TYPE) || negb qos_1 && (type =? AGGREGATER_TYPE)
     then ClientList_createClient (Some netAddr) id stable secure type ;! sret tt
     else if forwarder && (type =? FORWARDER_TYPE)
     then inside f_forwarders (ForwarderList_addForwarder netAddr id) ;! sret tt
     else if type =? TRANSPEARENT_TYPE
     then ClientList_createClient (Some netAddr) id stable secure type ;! sret tt
     else sret tt) ;!
    sret (true, netAddr)
  else sret (false, netAddr).

Fixpoint create_lines (n : nat) (type : Z) (netAddr : SensorNetAddress) (rc : bool) (file : list byte) : st Sensors bool :=
  match n with
  | O => undefined
  | S n =>
      match fgets line_size file with
      | None => sret rc
      | Some (line, file) =>
          match line_data line with
          | None => create_lines n type netAddr rc file
          | Some data =>
              let! (ok, netAddr) := create_entry type netAddr data in
              create_lines n type netAddr (rc && ok) file
          end
      end
  end.

(** A file that cannot be opened is no error. *)
Definition ClientList_createList (fileName : list byte) (type : Z) : st Sensors bool :=
  match file_at fileName with
  | None => sret true
  | Some file => create_lines (S (length file)) type newSensorNetAddress true file
  end.

Definition ClientList_setClientList (type : Z) : st Sensors unit :=
  let! name := demand (param_string (lit "ClientsList")) in
  let! ok := ClientList_createList (default (configDir ++ lit "clients.conf") name) type in
  if ok : bool then sret tt else undefined.

Definition ClientList_initialize (authentication aggregate : bool) : st Sensors unit :=
  if authentication then
    ClientList_setClientList (if aggregate then AGGREGATER_TYPE else TRANSPEARENT_TYPE) ;!
    inside f_list (set_more true)
  else sret tt.

Definition ForwarderList_initialize : st Sensors unit :=
  let! yes := demand (param_yes (lit "Forwarder")) in
  if yes : bool then ClientList_setClientList FORWARDER_TYPE else sret tt.

(** ** Predefined topics *)

Definition predefined_entry (aggregate : bool) (data : list byte) : st Sensors unit :=
  let pos0 := pos_of (find_first_of data (lit ",")) in
  let pos1 := pos_of (find_z data (lit ",") (u32 (pos0 + 1))) in
  let! id := demand (substr_z data 0 pos0) in
  let! topicName := demand (substr_z data (u32 (pos0 + 1)) (u32 (pos1 - pos0 - 1))) in
  let! number := demand (substr_z data (u32 (pos1 + 1)) npos) in
  let! topicID := demand (stoul number) in
  ClientList_createPredefinedTopic false id topicName (u16 topicID) aggregate ;! sret tt.

Fixpoint predefined_lines (n : nat) (aggregate : bool) (file : list byte) : st Sensors unit :=
  match n with
  | O => undefined
  | S n =>
      match fgets line_size file with
      | None => sret tt
      | Some (line, file) =>
          match line_data line with
          | None => predefined_lines n aggregate file
          | Some data => predefined_entry aggregate data ;! predefined_lines n aggregate file
          end
      end
  end.

Definition ClientList_readPredefinedList (fileName : list byte) (aggregate : bool) : st Sensors bool :=
  match file_at fileName with
  | None => sret false
  | Some file => predefined_lines (S (length file)) aggregate file ;! sret true
  end.

Definition ClientList_setPredefinedTopics (aggregate : bool) : st Sensors bool :=
  let! name := demand (param_string (lit "PredefinedTopicList")) in
  ClientList_readPredefinedList (default (configDir ++ lit "predefinedTopic.conf") name) aggregate.
End Configuration.

(** ** Looking up a parameter *)

(** A line of a file: short enough for the array, without a newline or a 0. *)
Definition plain_line (l : list byte) : Prop :=
  (length l <= 125)%nat /\ Forall (fun c => c <> newline) l /\ Forall (fun c => c <> nul) l.
Definition lines (ls : list (list byte)) : list byte := concat ((fun l => l ++ [newline]) <$> ls).

Lemma line_of_newline n l rest : Forall (fun c => c <> newline) l -> (length l < n)%nat ->
  line_of n (l ++ newline :: rest) = (l ++ [newline], rest).
Proof.
  intros Hl. revert n. induction Hl as [|c l Hc _ IH]; intros n Hn; (destruct n as [|n]; [cbn in Hn; lia|]).
  - done.
  - cbn [app line_of]. rewrite bool_decide_false by done. by rewrite IH by (cbn in Hn; lia).
Qed.

Lemma splice_front (arr w : list byte) : (length w <= length arr)%nat -> splice arr 0 w = w ++ drop (length w) arr.
Proof. intros. unfold splice. change (Z.to_nat 0) with 0%nat. done. Qed.

Lemma fgets_into_line arr l rest : plain_line l -> length arr = 128%nat ->
  exists tl, fgets_into (Z.to_nat (MQTTSNGW_PARAM_MAX - 1)) arr (l ++ newline :: rest) =
    Some (l ++ newline :: nul :: tl, rest) /\ length (l ++ newline :: nul :: tl) = 128%nat.
Proof.
  intros (Hlen & Hnl & _) Harr. exists (drop (length (l ++ [newline; nul])) arr). unfold fgets_into, fgets.
  replace (match l ++ newline :: rest with [] => None | _ => Some (line_of (pred (Z.to_nat (MQTTSNGW_PARAM_MAX - 1))) (l ++ newline :: rest)) end)
    with (Some (l ++ [newline], rest)).
  2:{ rewrite line_of_newline; [by destruct l|done|]. change (pred _) with 126%nat. lia. }
  cbn [mbind option_bind]. rewrite <- app_assoc. cbn [app].
  rewrite splice_front by (rewrite length_app; cbn; lia). rewrite <- app_assoc. cbn [app]. split; [done|].
  rewrite length_app, !length_cons, length_drop, length_app. cbn. lia.
Qed.

(** A key is a prefix of the array if it is one of the line. *)
Lemma prefix_of_line (key l : list byte) tl : Forall (fun c => c <> newline) key ->
  (exists r, l ++ newline :: tl = key ++ r) <-> (exists r, l = key ++ r).
Proof.
  intros Hk. revert l. induction Hk as [|c key Hc _ IH]; intros l.
  - split; intros _; by eexists.
  - destruct l as [|x l]; cbn.
    + split; [intros [r [= E _]]; by subst|by intros [r ?]].
    + split; intros [r [= -> E]].
      * destruct (proj1 (IH l)) as [r' ->]; [by exists r|]. by exists r'.
      * subst l. exists (r ++ newline :: tl). by rewrite <- app_assoc.
Qed.

Lemma index_from_run c (a b rest : list byte) : Forall (fun x => x <> c) b ->
  index_from c (length a) (a ++ b ++ c :: rest) = Some (length a + length b)%nat.
Proof.
  intros Hb. unfold index_from. rewrite drop_app_length.
  rewrite list_find_app_r by by apply list_find_None. cbn [list_find]. rewrite decide_True by done. done.
Qed.

Lemma param_value_run (pre v tl : list byte) : Forall (fun c => c <> equals) pre -> Forall (fun c => c <> newline) v ->
  Forall (fun c => c <> nul) v -> param_value (pre ++ equals :: v ++ newline :: tl) = Some (trim v).
Proof.
  intros Hp Hn H0. unfold param_value.
  pose proof (index_from_run equals [] pre (v ++ newline :: tl) Hp) as Hi. cbn [length app Nat.add] in Hi. rewrite Hi.
  cbn [mbind option_bind].
  replace (S (length pre)) with (length (pre ++ [equals])) by (rewrite length_app; cbn; lia).
  replace (pre ++ equals :: v ++ newline :: tl) with ((pre ++ [equals]) ++ v ++ newline :: tl) by by rewrite <- app_assoc.
  rewrite index_from_run by done. cbn [mbind option_bind]. rewrite drop_app_length.
  replace (_ - _)%nat with (length v) by lia. by rewrite take_app_length, until_nul_id.
Qed.

(** The first line that begins with the key. *)
Fixpoint line_for (key : list byte) (ls : list (list byte)) : option (list byte) :=
  match ls with
  | [] => None
  | l :: ls => if starts_with l key then Some l else line_for key ls
  end.

Lemma param_loop_run n key arr ls : Forall plain_line ls -> Forall (fun c => c <> newline /\ c <> nul) key ->
  length arr = 128%nat -> (length (lines ls) < n)%nat ->
  match line_for key ls with
  | None => param_loop n key arr (lines ls) = Some (-3, [])
  | Some l => forall pre v, l = pre ++ equals :: v -> Forall (fun c => c <> equals) pre ->
      param_loop n key arr (lines ls) = Some (0, trim v)
  end.
Proof.
  intros Hls Hkey. assert (Hk1 : Forall (fun c => c <> newline) key) by (eapply list.Forall_impl; [exact Hkey|by intros ? []]).
  assert (Hk2 : Forall (fun c => c <> nul) key) by (eapply list.Forall_impl; [exact Hkey|by intros ? []]).
  revert n arr. induction Hls as [|l ls Hl Hls IH]; intros n arr Harr Hn; (destruct n as [|n]; [lia|]); [done|].
  assert (Hline : lines (l :: ls) = l ++ newline :: lines ls) by (unfold lines; cbn; by rewrite <- app_assoc).
  rewrite Hline in *. cbn [line_for param_loop].
  destruct (fgets_into_line arr l (lines ls) Hl Harr) as (tl & Hget & Hlen). rewrite Hget.
  destruct (starts_with l key) eqn:Hs.
  - apply starts_with_spec in Hs. intros pre v -> Hpre.
    replace (strncmp_eq _ _ _) with true; [|symmetry; apply strncmp_eq_prefix; [done|by apply prefix_of_line]].
    destruct Hl as (_ & H1 & H2). apply list.Forall_app in H1 as [_ [_ H1]%list.Forall_cons].
    apply list.Forall_app in H2 as [_ [_ H2]%list.Forall_cons].
    replace ((pre ++ equals :: v) ++ newline :: nul :: tl) with (pre ++ equals :: v ++ newline :: nul :: tl)
      by by rewrite <- app_assoc.
    by rewrite param_value_run.
  - replace (strncmp_eq _ _ _) with false.
    + apply IH; [done|]. rewrite length_app in Hn. cbn in Hn. lia.
    + symmetry. apply not_true_is_false. intros Hp%strncmp_eq_prefix; [|done].
      apply prefix_of_line in Hp; [|done]. by rewrite (proj2 (starts_with_spec l key) Hp) in Hs.
Qed.

(** a parameter has the value behind the first '=' of the first line that begins
    with its name, without the spaces around it; comments and other lines do not
    matter, and a parameter without a line is reported as missing. *)
Theorem getParam_spec arr ls key : length arr = Z.to_nat MQTTSNGW_PARAM_MAX -> Forall plain_line ls ->
  Forall (fun c => c <> newline /\ c <> nul) key ->
  match line_for key ls with
  | None => Process_getParam arr (Some (lines ls)) key = Some (-3, [])
  | Some l => forall pre v, l = pre ++ equals :: v -> Forall (fun c => c <> equals) pre ->
      Process_getParam arr (Some (lines ls)) key = Some (0, trim v)
  end.
Proof. intros Harr Hls Hkey. apply param_loop_run; [done|done|done|lia]. Qed.

Lemma line_of_last n l : Forall (fun c => c <> newline) l -> (length l <= n)%nat -> line_of n l = (l, []).
Proof.
  intros Hl. revert n. induction Hl as [|c l Hc _ IH]; intros n Hn; [by destruct n|].
  destruct n as [|n]; [cbn in Hn; lia|]. cbn [line_of]. rewrite bool_decide_false by done. by rewrite IH by (cbn in Hn; lia).
Qed.

(** the search does not stop at the end of a line: where the file is one line
    without a newline, the value is looked for behind it, and in an array of zeros
    beyond the array. *)
Theorem getParam_overrun l key : (0 < length l <= 125)%nat -> Forall (fun c => c <> newline) l ->
  Forall (fun c => c <> newline /\ c <> nul) key -> starts_with l key = true ->
  Process_getParam (replicate 128 nul) (Some l) key = None.
Proof.
  intros Hlen Hnl Hkey Hs. destruct l as [|c l]; [cbn in Hlen; lia|]. unfold Process_getParam. cbn [length param_loop].
  unfold fgets_into, fgets. rewrite line_of_last; [|done|change (pred _) with 126%nat; cbn in *; lia].
  cbn [mbind option_bind]. rewrite splice_front by (rewrite length_app, length_replicate; cbn in *; lia).
  rewrite <- app_assoc. cbn [app]. set (tl := drop _ _).
  assert (Htl : Forall (fun x => x <> newline) tl).
  { unfold tl. rewrite drop_replicate. by apply Forall_replicate. }
  replace (strncmp_eq _ _ _) with true.
  - unfold param_value. destruct (index_from equals 0 _) as [i|]; [|done]. cbn [mbind option_bind].
    unfold index_from. replace (list_find _ _) with (@None (nat * byte)); [done|].
    symmetry. apply list_find_None, Forall_drop. change (c :: l ++ nul :: tl) with ((c :: l) ++ nul :: tl).
    apply list.Forall_app. split; [done|]. by constructor.
  - symmetry. apply strncmp_eq_prefix; [by eapply list.Forall_impl; [exact Hkey|intros ? []]|].
    apply starts_with_spec in Hs as [r Hr]. exists (r ++ nul :: tl). change (c :: l ++ nul :: tl) with ((c :: l) ++ nul :: tl).
    by rewrite Hr, <- app_assoc.
Qed.

(** ** Reading the list of clients *)

(** The entries of a file, without comments and blank lines. *)
Fixpoint entries_loop (n : nat) (file : list byte) : list (list byte) :=
  match n with
  | O => []
  | S n =>
      match fgets line_size file with
      | None => []
      | Some (line, file) =>
          match line_data line with None => entries_loop n file | Some data => data :: entries_loop n file end
      end
  end.
Definition entries (file : list byte) : list (list byte) := entries_loop (S (length file)) file.

(** What is before and behind the first comma; all of it, twice, without one. *)
Definition entry_id (data : list byte) : list byte :=
  match find_first_of data (lit ",") with Some p => take p data | None => data end.
Definition entry_addr (data : list byte) : list byte :=
  match find_first_of data (lit ",") with Some p => drop (S p) data | None => data end.

Lemma find_first_of_lt s chars p : find_first_of s chars = Some p -> (p < length s)%nat.
Proof.
  unfold find_first_of. intros [[i c] [Hf Hi]]%fmap_Some. cbn in Hi. subst p.
  apply list_find_Some in Hf as (Hl & _). by apply lookup_lt_Some in Hl.
Qed.

Lemma substr_z_take s p : (p <= length s)%nat -> substr_z s 0 (Z.of_nat p) = Some (take p s).
Proof.
  intros Hp. unfold substr_z, string_substr. change (Z.to_nat 0) with 0%nat. rewrite decide_True by lia.
  rewrite drop_0, Z.min_l by lia. by rewrite Nat2Z.id.
Qed.
Lemma substr_z_drop s (p : nat) n : (p <= length s)%nat -> zlen s <= n -> substr_z s (Z.of_nat p) n = Some (drop p s).
Proof.
  intros Hp Hn. unfold substr_z, string_substr. rewrite Nat2Z.id, decide_True by lia.
  rewrite Z.min_r, Nat2Z.id by lia. rewrite take_ge; [done|]. rewrite length_drop. lia.
Qed.

Lemma entry_id_run data : zlen data < npos -> substr_z data 0 (pos_of (find_first_of data (lit ","))) = Some (entry_id data).
Proof.
  intros Hl. unfold entry_id. destruct (find_first_of data _) as [p|] eqn:Hf; cbn [pos_of].
  - apply find_first_of_lt in Hf. apply substr_z_take. lia.
  - unfold substr_z, string_substr. change (Z.to_nat 0) with 0%nat. rewrite decide_True by lia.
    rewrite drop_0, Z.min_r, Nat2Z.id by lia. by rewrite take_ge.
Qed.

Lemma entry_addr_run data : zlen data < npos ->
  substr_z data (u32 (pos_of (find_first_of data (lit ",")) + 1)) npos = Some (entry_addr data).
Proof.
  intros Hl. unfold npos, ULONG_MAX in *. unfold entry_addr. destruct (find_first_of data _) as [p|] eqn:Hf; cbn [pos_of].
  - apply find_first_of_lt in Hf. unfold u32. rewrite Z.mod_small by lia.
    replace (Z.of_nat p + 1) with (Z.of_nat (S p)) by lia. apply substr_z_drop; lia.
  - change (u32 (npos + 1)) with (Z.of_nat 0). rewrite substr_z_drop by lia. by rewrite drop_0.
Qed.

Section ClientFile.
Context `{HeapSpace} `{ByteOrder} `{InetAddr} `{Files}.
Implicit Types (s : Sensors) (l : elems ClientNode).

(** The address of an entry is read: its port is a number that fits an [int]. *)
Definition entry_defined (data : list byte) : Prop :=
  zlen data < npos /\ forall a, is_Some (SensorNetAddress_setString a (entry_addr data)).
Definition entry_valid (data : list byte) : bool :=
  match SensorNetAddress_setString newSensorNetAddress (entry_addr data) with Some (rc, _) => rc =? 0 | None => false end.

Lemma setString_result a b addr rc a' : SensorNetAddress_setString a addr = Some (rc, a') ->
  exists b', SensorNetAddress_setString b addr = Some (rc, b') /\ (rc = 0 -> a' = b').
Proof.
  unfold SensorNetAddress_setString. destruct (find_first_of addr _) as [pos|]; [|intros [= <- <-]; by eexists].
  destruct (string_substr addr 0 pos); [|done]. destruct (substr_from addr (S pos)); [|done].
  cbn [mbind option_bind]. destruct (atoi l0); [|done]. cbn [mbind option_bind].
  destruct (_ =? 0); [intros [= <- <-]; by eexists|].
  destruct (_ =? INADDR_NONE); intros [= <- <-]; by eexists.
Qed.

(** The list is in order, and so is that of the forwarders. *)
Definition sensors_ok s l : Prop := clients_hold s l /\ exists fs, represents false false (se_forwarders s) fs.

Lemma createClient_ok s l addr id unstable secure type : sensors_ok s l ->
  exists p s', ClientList_createClient addr id unstable secure type s = Some (p, s') /\ exists l', sensors_ok s' (l ++ l').
Proof.
  intros [Hl Hf]. assert (Hcnt : inside f_list get_cnt s = Some (zlen l, s)).
  { destruct Hl as (_ & Hcnt & _). apply inside_same; [apply f_list_same|]. unfold get_cnt. cbn [fget f_list]. by rewrite Hcnt. }
  destruct (Z.ltb_spec MAX_CLIENTS (zlen l)) as [Hfull|Hroom].
  { exists None, s. unfold ClientList_createClient. srun Hcnt. test_true (MAX_CLIENTS <? zlen l). split; [done|].
    exists []. by rewrite app_nil_r. }
  pose proof (getClient_run s l addr Hl) as Hget. destruct (match addr with Some a => _ | None => None end) as [p|] eqn:E.
  - exists (Some p), s. unfold ClientList_createClient. srun Hcnt. test_false (MAX_CLIENTS <? zlen l). srun Hget.
    split; [done|]. exists []. by rewrite app_nil_r.
  - destruct (createClient_new_run s l addr id unstable secure type Hl Hroom Hget) as (s' & Hrun & Hl' & _ & Hfw & _).
    eexists _, s'. split; [exact Hrun|]. eexists. split; [exact Hl'|]. by rewrite Hfw.
Qed.

Lemma create_entry_run type a data s l : sensors_ok s l -> entry_defined data ->
  exists a' s', create_entry type a data s = Some ((entry_valid data, a'), s') /\ exists l', sensors_ok s' (l ++ l').
Proof.
  intros Hs [Hlen Hdef]. destruct (Hdef a) as [[rc a'] Haddr].
  unfold create_entry. rewrite entry_id_run, entry_addr_run by done. unfold sbind at 1, demand at 1. unfold sbind at 1, demand at 1.
  rewrite Haddr. unfold sbind at 1, demand at 1. unfold entry_valid.
  destruct (setString_result a newSensorNetAddress _ _ _ Haddr) as (b' & -> & _).
  destruct (rc =? 0); [|exists a', s; split; [done|exists []; by rewrite app_nil_r]].
  set (create := ClientList_createClient (Some a') (entry_id data) _ _ type).
  assert (Hcreate : exists s', (create ;! sret tt) s = Some (tt, s') /\ exists l', sensors_ok s' (l ++ l')).
  { destruct (createClient_ok s l (Some a') (entry_id data) (negb (contains data (lit "unstableLine")))
      (contains data (lit "secureConnection")) type Hs) as (p & s' & Hrun & Hok).
    exists s'. split; [|done]. unfold create. by srun Hrun. }
  destruct (_ || _).
  { destruct Hcreate as (s' & Hrun & Hok). exists a', s'. split; [|done]. by srun Hrun. }
  destruct (_ && _).
  { destruct Hs as [Hl [fs Hf]]. destruct (addForwarder_run (se_forwarders s) fs a' (entry_id data) Hf) as (p & fw & Hadd & _ & Hf' & _).
    exists a', (mkSensors (se_gw s) (se_list s) fw). split.
    - unfold sbind at 1. unfold sbind at 1. unfold inside. cbn [fget f_forwarders]. by rewrite Hadd.
    - exists []. rewrite app_nil_r. split; [exact Hl|]. by eexists. }
  destruct (_ =? TRANSPEARENT_TYPE).
  { destruct Hcreate as (s' & Hrun & Hok). exists a', s'. split; [|done]. by srun Hrun. }
  exists a', s. split; [done|]. exists []. by rewrite app_nil_r.
Qed.

Lemma create_lines_run n type a rc file s l : (length file < n)%nat -> sensors_ok s l ->
  Forall entry_defined (entries_loop n file) ->
  exists s', create_lines n type a rc file s = Some (rc && forallb entry_valid (entries_loop n file), s') /\
    exists l', sensors_ok s' (l ++ l').
Proof.
  revert a rc file s l. induction n as [|n IH]; intros a rc file s l Hn Hs Hall; [lia|].
  cbn [create_lines entries_loop] in *. destruct (fgets line_size file) as [[line rest]|] eqn:Hget.
  2:{ exists s. cbn. rewrite andb_true_r. split; [done|]. exists []. by rewrite app_nil_r. }
  assert (Hrest : (length rest < n)%nat).
  { pose proof (fgets_shorter line_size file line rest ltac:(unfold line_size, MAX_CLIENTID_LENGTH; lia) Hget). lia. }
  destruct (line_data line) as [data|]; [|by apply IH].
  apply list.Forall_cons in Hall as [Hd Hall]. destruct (create_entry_run type a data s l Hs Hd) as (a' & s1 & Hrun & l1 & Hs1).
  srun Hrun. cbn [forallb]. rewrite andb_assoc.
  destruct (IH a' (rc && entry_valid data) rest s1 (l ++ l1) Hrest Hs1 Hall) as (s2 & Hrun2 & l2 & Hs2).
  exists s2. split; [done|]. exists (l1 ++ l2). by rewrite app_assoc.
Qed.

(** reading the list of clients ends, says whether every entry had a valid
    address, and leaves the lists in order with the clients in front that were
    there before; a file that does not exist is not an error. *)
Theorem create_list_ok fileName type s l : sensors_ok s l ->
  match file_at fileName with
  | None => ClientList_createList fileName type s = Some (true, s)
  | Some file => Forall entry_defined (entries file) ->
      exists s', ClientList_createList fileName type s = Some (forallb entry_valid (entries file), s') /\
        exists l', sensors_ok s' (l ++ l')
  end.
Proof.
  intros Hs. unfold ClientList_createList. destruct (file_at fileName) as [file|]; [|done]. intros Hall.
  apply create_lines_run; [lia|done|exact Hall].
Qed.

(** an entry "id,IP:port" with what may follow makes a client with this
    identifier at this address; "secureConnection" and "unstableLine" anywhere in
    the entry set its network and its line, so those of its identifier count
    too. *)
Theorem client_entry_spec a id ip ds rest s l :
  let data := id ++ lit "," ++ ip ++ lit ":" ++ ds ++ rest in
  let addr := mkAddress (htons (decimal ds mod 65536)) (u32 (inet_addr ip)) in
  zlen data < npos -> byte_of_Z 44 ∉ id -> Forall (fun c => c <> nul) ip -> byte_of_Z 58 ∉ ip ->
  Forall (fun c => isdigit c = true) ds -> digits rest = [] -> 0 < decimal ds <= INT_MAX -> u32 (inet_addr ip) <> INADDR_NONE ->
  clients_hold s l -> zlen l <= MAX_CLIENTS -> ClientList_getClient (Some addr) s = Some (None, s) ->
  exists s', create_entry TRANSPEARENT_TYPE a data s = Some ((true, addr), s') /\
    clients_hold s' (l ++ [(fresh_client s, mkClientNode addr (negb (contains data (lit "unstableLine"))) None)]) /\
    se_gw s' = set_client (fresh_client s)
      (created_client id (contains data (lit "secureConnection")) TRANSPEARENT_TYPE) (se_gw s).
Proof.
  intros data addr Hlen Hid Hip Hcolon Hds Hrest Hn Hnone Hl Hroom Hget.
  assert (Hpos : find_first_of data (lit ",") = Some (length id)).
  { unfold data. change (lit ",") with [byte_of_Z 44]. cbn [app]. apply find_first_of_app; [|left].
    apply list.Forall_forall. by intros x Hx ->%list_elem_of_singleton. }
  unfold create_entry. rewrite entry_id_run, entry_addr_run by done. unfold sbind at 1, demand at 1. unfold sbind at 1, demand at 1.
  assert (Haddr : entry_addr data = ip ++ lit ":" ++ ds ++ rest).
  { unfold entry_addr. rewrite Hpos. unfold data. change (lit ",") with [byte_of_Z 44]. rewrite app_assoc.
    replace (S (length id)) with (length (id ++ [byte_of_Z 44])) by (rewrite length_app; cbn; lia). apply drop_app_length. }
  assert (Heid : entry_id data = id) by (unfold entry_id; rewrite Hpos; unfold data; apply take_app_length).
  rewrite Haddr, Heid, address_of_string by done. unfold sbind at 1, demand at 1. cbn [Z.eqb].
  change (TRANSPEARENT_TYPE =? QOSM1PROXY_TYPE) with false. change (TRANSPEARENT_TYPE =? AGGREGATER_TYPE) with false.
  change (TRANSPEARENT_TYPE =? FORWARDER_TYPE) with false. change (TRANSPEARENT_TYPE =? TRANSPEARENT_TYPE) with true.
  rewrite !andb_false_r. cbn [orb]. fold addr.
  destruct (createClient_new_run s l (Some addr) id (negb (contains data (lit "unstableLine")))
    (contains data (lit "secureConnection")) TRANSPEARENT_TYPE Hl Hroom Hget) as (s' & Hrun & Hl' & Hg & _).
  exists s'. split; [|by split]. unfold sbind at 1. unfold sbind at 1. rewrite Hrun. done.
Qed.
End ClientFile.

(** ** Predefined topics and parameters *)

Section More.
Context `{HeapSpace} `{ByteOrder} `{InetAddr} `{Files}.
Implicit Types (s : Sensors) (l : elems ClientNode).

Lemma str_find_char c (a b s : list byte) : Forall (fun x => x <> c) b ->
  string_find (a ++ b ++ c :: s) [c] (length a) = Some (length a + length b)%nat.
Proof.
  intros Hb. unfold string_find. rewrite decide_True by (rewrite length_app; lia). rewrite drop_app_length.
  generalize (length a) as n. induction Hb as [|x b Hx _ IH]; intros n.
  - cbn. rewrite bool_decide_true by done. f_equal. cbn. lia.
  - cbn [app str_find_from starts_with]. rewrite bool_decide_false by done. cbn [andb]. rewrite IH. f_equal. cbn. lia.
Qed.

Lemma stoul_digits ds rest : ds <> [] -> Forall (fun c => isdigit c = true) ds -> digits rest = [] ->
  decimal ds <= ULONG_MAX -> stoul (ds ++ rest) = Some (decimal ds).
Proof.
  intros Hne Hds Hrest Hmax. unfold stoul. rewrite until_nul_app.
  - destruct ds as [|c ds]; [done|]. pose proof Hds as [Hc _]%list.Forall_cons.
    destruct (isdigit_plain c Hc) as (Hsp & _ & Hm & Hp). cbn [app skip_space]. rewrite Hsp. cbn [sign_of].
    rewrite (proj2 (Z.eqb_neq _ _) Hm), (proj2 (Z.eqb_neq _ _) Hp).
    change (c :: ds ++ until_nul rest) with ((c :: ds) ++ until_nul rest).
    rewrite digits_then by (done || by apply digits_until_nul). rewrite bool_decide_false by done.
    by test_false (ULONG_MAX <? decimal (c :: ds)).
  - eapply list.Forall_impl; [exact Hds|]. intros c Hc. by apply isdigit_plain.
Qed.

(** a line "id,name,number" of the list of predefined topics gives the client
    with the identifier this topic under the number, cut down to 16 bits. *)
Theorem predefined_entry_spec aggregate id name ds rest s :
  let data := id ++ lit "," ++ name ++ lit "," ++ ds ++ rest in
  zlen data < npos -> byte_of_Z 44 ∉ id -> byte_of_Z 44 ∉ name ->
  ds <> [] -> Forall (fun c => isdigit c = true) ds -> digits rest = [] -> decimal ds <= ULONG_MAX ->
  predefined_entry aggregate data s =
    (ClientList_createPredefinedTopic false id name (u16 (decimal ds)) aggregate ;! sret tt) s.
Proof.
  intros data Hlen Hid Hname Hne Hds Hrest Hmax. unfold npos, ULONG_MAX in *.
  assert (Hc1 : Forall (fun x => x ∉ [byte_of_Z 44]) id).
  { apply list.Forall_forall. by intros x Hx ->%list_elem_of_singleton. }
  assert (Hc2 : Forall (fun x => x <> byte_of_Z 44) name).
  { apply list.Forall_forall. by intros x Hx ->. }
  set (c := byte_of_Z 44) in *. set (a := id ++ [c]).
  assert (Hdata : data = a ++ name ++ c :: ds ++ rest) by (unfold data, a; rewrite <- !app_assoc; done).
  assert (Hla : length a = S (length id)) by (unfold a; rewrite length_app; cbn; lia).
  assert (Hpos0 : find_first_of data (lit ",") = Some (length id)).
  { unfold data. change (lit ",") with [c]. apply find_first_of_app; [done|left]. }
  assert (Hlen' : zlen a + zlen name + 1 + zlen ds + zlen rest < 4294967295).
  { rewrite Hdata in Hlen. rewrite !length_app in Hlen. cbn [length] in Hlen. rewrite length_app in Hlen. lia. }
  unfold predefined_entry. rewrite Hpos0. cbn [pos_of].
  assert (Hp0 : u32 (Z.of_nat (length id) + 1) = zlen a) by (unfold u32; rewrite Z.mod_small by lia; lia).
  rewrite Hp0. unfold find_z. replace (zlen a <=? zlen data) with true by (symmetry; apply Z.leb_le; rewrite Hdata, length_app; lia).
  rewrite Nat2Z.id. assert (Hpos1 : string_find data (lit ",") (length a) = Some (length a + length name)%nat).
  { rewrite Hdata. change (lit ",") with [c]. by apply str_find_char. }
  rewrite Hpos1. cbn [pos_of].
  replace (u32 (Z.of_nat (length a + length name) - Z.of_nat (length id) - 1)) with (zlen name)
    by (unfold u32; rewrite Z.mod_small by lia; lia).
  replace (u32 (Z.of_nat (length a + length name) + 1)) with (Z.of_nat (length (a ++ name ++ [c])))
    by (unfold u32; rewrite Z.mod_small by lia; rewrite !length_app; cbn; lia).
  rewrite (substr_z_take data (length id)) by (rewrite Hdata, length_app; lia).
  unfold sbind at 1, demand at 1.
  assert (Hname' : substr_z data (zlen a) (zlen name) = Some name).
  { unfold substr_z, string_substr. rewrite Nat2Z.id, decide_True by (rewrite Hdata, length_app; lia).
    rewrite Hdata, drop_app_length, Z.min_l by (rewrite !length_app; lia). by rewrite Nat2Z.id, take_app_length. }
  rewrite Hname'. unfold sbind at 1, demand at 1.
  rewrite substr_z_drop.
  3: { unfold npos, ULONG_MAX. lia. }
  2: { rewrite Hdata, !length_app. cbn [length]. rewrite ?length_app. lia. }
  unfold sbind at 1, demand at 1.
  replace (drop (length (a ++ name ++ [c])) data) with (ds ++ rest).
  2:{ rewrite Hdata. replace (a ++ name ++ c :: ds ++ rest) with ((a ++ name ++ [c]) ++ ds ++ rest)
      by by rewrite <- !app_assoc. by rewrite drop_app_length. }
  rewrite stoul_digits by done. unfold sbind at 1, demand at 1. unfold data. by rewrite take_app_length.
Qed.

(** the number of the gateway is the low byte of the number in the file, so the
    test for a number above 255 never fails; 0 is rejected. *)
Theorem gateway_id_wraps p : Gateway_readParams = Some p ->
  exists v n, Gateway_getParam (lit "GatewayID") = Some (0, v) /\ atoi v = Some n /\ par_gatewayNo p = n mod 256 /\
    0 < par_gatewayNo p < 256.
Proof.
  unfold Gateway_readParams.
  repeat match goal with
  | |- (param_string ?k ≫= _) = Some p -> _ => destruct (param_string k); cbn [mbind option_bind]; [|done]
  end.
  destruct (param_int (lit "GatewayID") u8 0) as [k|] eqn:Hk; cbn [mbind option_bind]; [|done].
  destruct ((k =? 0) || (255 <? k)) eqn:E; [done|]. intros Hp.
  assert (Hno : par_gatewayNo p = k).
  { revert Hp. repeat match goal with
    | |- (?m ≫= _) = Some p -> _ => destruct m; cbn [mbind option_bind]; [|done]
    | |- (if ?b then _ else _) = Some p -> _ => destruct b; [done|]
    end. by intros [= <-]. }
  unfold param_int in Hk. destruct (Gateway_getParam (lit "GatewayID")) as [[rc v]|]; cbn [mbind option_bind] in Hk; [|done].
  destruct (Z.eqb_spec rc 0) as [->|_]; [|injection Hk as <-; done].
  destruct (atoi v) as [n|] eqn:Ha; cbn [mbind option_bind] in Hk; [|done]. injection Hk as <-.
  exists v, n. rewrite Hno. pose proof (u8_range n). unfold u8 in *. split_and!; try done; lia.
Qed.
(** The sensor network is open on the ports of the file, or it is not: without a
    port for the gateway no socket is made. *)
Lemma sensor_network_initialize {E : Type} `{UdpSockets E} rc (s s' : SensorNetwork E) :
  SensorNetwork_initialize s = Some (rc, s') ->
  (rc = -1 \/ rc = 0 /\ 0 <= un_sockfdUnicast s' /\ 0 <= un_sockfdMulticast s') /\
  (param_int (lit "GatewayPortNo") u16 0 = Some 0 -> rc = -1 /\ s' = s).
Proof.
  unfold SensorNetwork_initialize, demand, sbind.
  destruct (param_string _) as [ip|]; [|done]. destruct (param_int (lit "MulticastPortNo") _ _) as [multi|]; [|done].
  destruct (param_int (lit "GatewayPortNo") _ _) as [uni|]; [|done]. intros Hrun.
  destruct (udp_open_result (default [] ip) multi uni s) as (rc1 & s1 & Hrun1 & Hport & Hres).
  rewrite Hrun in Hrun1. injection Hrun1 as <- <-. split; [tauto|]. intros [= ->]. apply Hport. by left.
Qed.
End More.

(** ** Witnesses *)

Definition sample_lines : list (list byte) := [lit "# a comment"; lit "GatewayID = 1 "; lit "KeepAlive=900"].

Lemma getParam_spec_witness :
  Process_getParam (replicate 128 nul) (Some (lines sample_lines)) (lit "GatewayID") = Some (0, lit "1").
Proof.
  refine (getParam_spec (replicate 128 nul) sample_lines (lit "GatewayID") _ _ _ (lit "GatewayID ") (lit " 1 ") _ _).
  - done.
  - repeat constructor; cbn; lia || done.
  - repeat constructor; done.
  - done.
  - repeat constructor; done.
Defined.

Lemma getParam_overrun_witness : Process_getParam (replicate 128 nul) (Some (lit "KeepAlive=900")) (lit "KeepAlive") = None.
Proof.
  apply (getParam_overrun (lit "KeepAlive=900") (lit "KeepAlive")).
  - cbn. lia.
  - repeat constructor; done.
  - repeat constructor; done.
  - done.
Defined.

Definition sample_clients_file : list byte :=
  lines [lit "# clients"; lit "c1, 10.0.0.1:1000"; lit "f1,10.0.0.2:1000,forwarder"].

(** A gateway whose files are these. *)
Definition sample_files : Files := {|
  file_at name :=
    if bool_decide (name = lit "./gateway.conf") then Some (lines [lit "GatewayID=257"; lit "GatewayName=g"; lit "Forwarder=yes"])
    else if bool_decide (name = lit "./clients.conf") then Some sample_clients_file
    else None;
  configDir := lit "./";
  configFile := lit "gateway.conf";
  stack_bytes := replicate 128 nul;
|}.
(** inet_addr as far as the samples need it. *)
Definition sample_inet : InetAddr := fun s => foldl (fun n c => n * 256 + Z_of_byte c) 0 (filter (fun c => isdigit c = true) s).

Lemma gateway_id_wraps_witness :
  exists v n, Gateway_getParam (H2 := sample_files) (lit "GatewayID") = Some (0, v) /\ atoi v = Some n /\ 1 = n mod 256 /\ 0 < 1 < 256.
Proof.
  exact (gateway_id_wraps (H2 := sample_files) (mkGWParams None None None None None None None 1 (Some (lit "g")) 4 4 900 None None false)
    ltac:(vm_compute; reflexivity)).
Defined.

Definition sample_start : Sensors := newSensors newTopics.

Lemma client_entry_spec_witness :
  let data := lit "c1" ++ lit "," ++ lit "10.0.0.1" ++ lit ":" ++ lit "1000" ++ lit ",secureConnection" in
  let addr := mkAddress (htons (H := false) (1000 mod 65536)) (u32 (inet_addr (InetAddr := sample_inet) (lit "10.0.0.1"))) in
  exists s', create_entry (H0 := false) (H1 := sample_inet) TRANSPEARENT_TYPE newSensorNetAddress data sample_start = Some ((true, addr), s') /\
    clients_hold s' ([] ++ [(fresh_client sample_start, mkClientNode addr true None)]) /\
    se_gw s' = set_client (fresh_client sample_start) (created_client (lit "c1") true TRANSPEARENT_TYPE) (se_gw sample_start).
Proof.
  refine (client_entry_spec (H0 := false) (H1 := sample_inet) newSensorNetAddress (lit "c1") (lit "10.0.0.1") (lit "1000")
    (lit ",secureConnection") sample_start [] _ _ _ _ _ _ _ _ _ _ _).
  - done.
  - apply (bool_decide_unpack _). reflexivity.
  - repeat constructor; done.
  - apply (bool_decide_unpack _). reflexivity.
  - repeat constructor; done.
  - done.
  - split; done.
  - done.
  - apply newSensors_hold.
  - done.
  - done.
Defined.

Lemma create_list_ok_witness :
  forallb (entry_valid (H0 := false) (H1 := sample_inet)) (entries sample_clients_file) = true /\
  exists s', ClientList_createList (H0 := false) (H1 := sample_inet) (H2 := sample_files) (lit "./clients.conf") TRANSPEARENT_TYPE sample_start =
      Some (forallb (entry_valid (H0 := false) (H1 := sample_inet)) (entries sample_clients_file), s') /\
    exists l', sensors_ok s' ([] ++ l').
Proof.
  assert (Hfile : file_at (Files := sample_files) (lit "./clients.conf") = Some sample_clients_file) by (vm_compute; reflexivity).
  assert (Hok : sensors_ok sample_start []).
  { split; [apply newSensors_hold|]. exists []. split; [constructor|]. by split_and!. }
  pose proof (create_list_ok (H0 := false) (H1 := sample_inet) (H2 := sample_files) (lit "./clients.conf") TRANSPEARENT_TYPE
    sample_start [] Hok) as Hrun.
  rewrite Hfile in Hrun. split; [vm_compute; reflexivity|]. apply Hrun.
  assert (Hentries : entries sample_clients_file = [lit "c1,10.0.0.1:1000"; lit "f1,10.0.0.2:1000,forwarder"]) by (vm_compute; reflexivity).
  rewrite Hentries. repeat constructor; eexists; vm_compute; reflexivity.
Defined.

Lemma predefined_entry_spec_witness :
  predefined_entry false (lit "c1" ++ lit "," ++ lit "t/1" ++ lit "," ++ lit "7" ++ []) sample_start =
    (ClientList_createPredefinedTopic false (lit "c1") (lit "t/1") 7 false ;! sret tt) sample_start.
Proof.
  refine (predefined_entry_spec false (lit "c1") (lit "t/1") (lit "7") [] sample_start _ _ _ _ _ _ _).
  - done.
  - apply (bool_decide_unpack _). reflexivity.
  - apply (bool_decide_unpack _). reflexivity.
  - done.
  - repeat constructor; done.
  - done.
  - done.
Defined.
