(* ===== verification/GWAdapter.v ===== *)
(** * Adapters of the gateway: MQTTSNGWAdapter.cpp, MQTTSNGWQoSm1Proxy.cpp, the
      start of MQTTSNGWAggregater.cpp and of the gateway

    An adapter is a client of the broker on behalf of others: the proxy for clients
    that publish without a connection (QoS -1), and the aggregater.  Its two
    proxies, for plain and for TLS connections, keep the connection alive. *)

From S2P Require Import Prelude CMem MQTTPacket MQTTConnect SNPacket SNPublish SNConnect GWHeap GWTables GWTopic GWPacket GWSNPacket GWClient GWGateway GWConnect GWPublish GWSubscribe GWTask GWEncap GWStrings GWSensorNet GWForwarder GWClientList GWConfig.

(** ** Timers: linux/Timer.cpp *)

(** The clock counts microseconds; [tm_start] is 0 seconds for a timer that does
    not run.  Times are those of gettimeofday, seconds and the rest. *)
Record Timer := mkTimer { tm_sec : Z; tm_usec : Z; tm_millis : Z }.

Definition Timer_stop (t : Timer) : Timer := mkTimer 0 (tm_usec t) 0.
Definition newTimer : Timer := mkTimer 0 0 0.
Definition Timer_start (now msecs : Z) (t : Timer) : Timer := mkTimer (now / 1000000) (now mod 1000000) (u32 msecs).

(** The difference of the microseconds is divided as a [double] and cut off. *)
Definition Timer_isTimeup (now : Z) (t : Timer) : bool :=
  if tm_sec t =? 0 then false
  else
    let secs := (now / 1000000 - tm_sec t) * 1000 in
    let usecs := Z.quot (now mod 1000000 - tm_usec t) 1000 in
    tm_millis t <? secs + usecs.

(** ** More of MQTTSNPacket *)

Section SNPackets.
Context `{CharSign} `{ByteOrder} `{HeapSpace}.

(** The copy constructor, of a packet with a block. *)
Definition MQTTSNPacket_copy (p : MQTTSNPacket) : MQTTSNPacket :=
  if heap_has (gs_bufLen p) then mkMQTTSNPacket (Some (default [] (gs_buf p))) else newMQTTSNPacket.

Definition MQTTSNPacket_isAccepted (p : MQTTSNPacket) : option bool :=
  t ← MQTTSNPacket_getType p;
  if t =? MQTTSN_CONNACK then
    x ← default [] (gs_buf p) !! 2%nat; Some (Z_of_byte x =? MQTTSN_RC_ACCEPTED)
  else Some false.

(** The identifier is a C string in block 2, or a null pointer. *)
Definition cstring_in (b : block) : MQTTSNString := {| cstring := Ptr b 0; lenstring := {| len := 0; data := NULL |} |}.
Definition MQTTSNPacket_setCONNECT (clientID : option (list byte)) (duration : Z) :=
  sn_set MQTTSNGW_MAX_PACKET_SIZE {[2%positive := default [] clientID ++ [nul]]} (fun buf buflen =>
    MQTTSNSerialize_connect buf buflen
      (set_sc_client MQTTSNPacket_connectData_initializer duration
        (match clientID with Some _ => cstring_in 2 | None => no_string end))).
Definition MQTTSNPacket_setPINGREQ :=
  sn_set MQTTSNGW_MAX_PACKET_SIZE ∅ (fun buf buflen => MQTTSNSerialize_pingreq buf buflen no_string).
End SNPackets.

(** ** Proxies *)

Definition QOSM1_PROXY_KEEPALIVE_DURATION : Z := 900.
Definition QOSM1_PROXY_RESPONSE_DURATION : Z := 10.
Definition QOSM1_PROXY_MAX_RETRY_CNT : Z := 3.

Record Proxy := mkProxy {
  px_keepAliveTimer : Timer;
  px_responseTimer : Timer;
  px_isWaitingResp : bool;
  px_retryCnt : Z;
}.
Definition newProxy : Proxy := mkProxy newTimer newTimer false 0.

Section ProxyClass.
Context `{CharSign} `{ByteOrder} `{HeapSpace}.

Definition Proxy_resetPingTimer (now : Z) (p : Proxy) : Proxy :=
  mkProxy (Timer_start now (QOSM1_PROXY_KEEPALIVE_DURATION * 1000) (px_keepAliveTimer p)) (px_responseTimer p)
    (px_isWaitingResp p) (px_retryCnt p).

Definition response_start (now : Z) (p : Proxy) : Proxy :=
  mkProxy (px_keepAliveTimer p) (Timer_start now (QOSM1_PROXY_RESPONSE_DURATION * 1000) (px_responseTimer p))
    (px_isWaitingResp p) (px_retryCnt p).

(** [checkConnection(client)] at the time [now]: the proxy afterwards. *)
Definition Proxy_checkConnection (now : Z) (c : loc) (p : Proxy) : st Gateway Proxy :=
  let! disconnected := client c Client_isDisconnect in
  let! connecting := client c Client_isConnecting in
  if disconnected || connecting && Timer_isTimeup now (px_responseTimer p) then
    client c Client_connectSended ;!
    let! id := client c (the f_clientId) in
    let! packet := new_sn (MQTTSNPacket_setCONNECT id QOSM1_PROXY_KEEPALIVE_DURATION) in
    post f_packetEventQue (EtClientRecv c packet) ;!
    sret (response_start now p)
  else
    let! active := client c Client_isActive in
    if active && Timer_isTimeup now (px_keepAliveTimer p) || px_isWaitingResp p && Timer_isTimeup now (px_responseTimer p) then
      let! packet := new_sn MQTTSNPacket_setPINGREQ in
      post f_packetEventQue (EtClientRecv c packet) ;!
      let retry := px_retryCnt p + 1 in
      (if negb (in_int retry) then undefined
       else if QOSM1_PROXY_MAX_RETRY_CNT <? retry then client c Client_disconnected else sret tt) ;!
      sret (Proxy_resetPingTimer now
        (mkProxy (px_keepAliveTimer p) (px_responseTimer (response_start now p)) true retry))
    else sret p.

(** [sendSuspendedPacket]: [que] is the queue of the proxy. *)
Fixpoint suspended_loop (n : nat) (que : field Gateway EventQue) : st Gateway unit :=
  match n with
  | O => undefined
  | S n => fun g =>
      if EventQue_size (fget que g) =? 0 then Some (tt, g)
      else
        match EventQue_wait (fget que g) with
        | Some (ev, q) => (post f_packetEventQue ev ;! suspended_loop n que) (fset que q g)
        | None => None
        end
  end.
Definition Proxy_sendSuspendedPacket (que : field Gateway EventQue) : st Gateway unit := fun g =>
  suspended_loop (S (length (eq_events (fget que g)))) que g.

(** [recv(packet, client)] *)
Definition Proxy_recv (now : Z) (que : field Gateway EventQue) (packet : MQTTSNPacket) (p : Proxy) : st Gateway Proxy :=
  let! type := demand (MQTTSNPacket_getType packet) in
  if type =? MQTTSN_CONNACK then
    let! ok := demand (MQTTSNPacket_isAccepted packet) in
    if ok : bool then
      let p := Proxy_resetPingTimer now (mkProxy (px_keepAliveTimer p) (Timer_stop (px_responseTimer p)) (px_isWaitingResp p) 0) in
      Proxy_sendSuspendedPacket que ;! sret p
    else sret p
  else if type =? MQTTSN_PINGRESP then
    sret (Proxy_resetPingTimer now (mkProxy (px_keepAliveTimer p) (Timer_stop (px_responseTimer p)) false 0))
  else sret p.
End ProxyClass.

(** ** Adapters *)

(** The members of the base class; [ad_isActive] is that of the derived class,
    which hides the one of the base class. *)
Record Adapter := mkAdapter {
  ad_proxy : Proxy;
  ad_proxySecure : Proxy;
  ad_client : option loc;
  ad_clientSecure : option loc;
  ad_isSecure : bool;
  ad_isActive : bool;
}.
Definition newAdapter : Adapter := mkAdapter newProxy newProxy None None false false.

(** The state of the gateway with its adapters. *)
Record Tasks := mkTasks { tk_sensors : Sensors; tk_qosm1 : Adapter; tk_aggregater : Adapter }.
Definition f_sensors : field Tasks Sensors := Field tk_sensors (fun v t => mkTasks v (tk_qosm1 t) (tk_aggregater t)).
Definition f_qosm1 : field Tasks Adapter := Field tk_qosm1 (fun v t => mkTasks (tk_sensors t) v (tk_aggregater t)).
Definition f_aggregater : field Tasks Adapter := Field tk_aggregater (fun v t => mkTasks (tk_sensors t) (tk_qosm1 t) v).

Definition gw {R} (m : st Gateway R) : st Tasks R := inside f_sensors (inside f_gw m).
Definition sensors {R} (m : st Sensors R) : st Tasks R := inside f_sensors m.

(** The queue for suspended packets of an aggregater's proxy: nothing is saved with
    it, so it stays empty. *)
Definition no_que : field Gateway EventQue := Field (fun _ => newEventQue) (fun _ g => g).

Section AdapterClass.
Context `{CharSign} `{ByteOrder} `{HeapSpace}.

Definition set_proxy (p : Proxy) (a : Adapter) : Adapter :=
  mkAdapter p (ad_proxySecure a) (ad_client a) (ad_clientSecure a) (ad_isSecure a) (ad_isActive a).
Definition set_proxySecure (p : Proxy) (a : Adapter) : Adapter :=
  mkAdapter (ad_proxy a) p (ad_client a) (ad_clientSecure a) (ad_isSecure a) (ad_isActive a).
Definition set_isActive (b : bool) (a : Adapter) : Adapter :=
  mkAdapter (ad_proxy a) (ad_proxySecure a) (ad_client a) (ad_clientSecure a) (ad_isSecure a) b.

Definition Adapter_setClient (c : option loc) (secure : bool) (a : Adapter) : Adapter :=
  if secure then mkAdapter (ad_proxy a) (ad_proxySecure a) (ad_client a) c (ad_isSecure a) (ad_isActive a)
  else mkAdapter (ad_proxy a) (ad_proxySecure a) c (ad_clientSecure a) (ad_isSecure a) (ad_isActive a).
Definition Adapter_getSecureClient (a : Adapter) : option loc := ad_clientSecure a.

(** [setup(name, type)] *)
Definition Adapter_setup (secureConnection : bool) (name : list byte) (type : AdapterType) (a : Adapter) : st Sensors Adapter :=
  let a := mkAdapter (ad_proxy a) (ad_proxySecure a) (ad_client a) (ad_clientSecure a) secureConnection (ad_isActive a) in
  let! c := ClientList_createClient None name true false TRANSPEARENT_TYPE in
  let a := Adapter_setClient c false a in
  arrow c (fun p => member p (Client_setAdapterType (Some type))) ;!
  let! c := ClientList_createClient None (name ++ lit "-S") true true TRANSPEARENT_TYPE in
  let a := Adapter_setClient c true a in
  arrow c (fun p => member p (Client_setAdapterType (Some type))) ;!
  sret a.

(** [getClient(addr)], [getClientId(addr)] and [isSecure(addr)] *)
Definition Adapter_getClient (addr : SensorNetAddress) : st Sensors (option loc) :=
  let! c := ClientList_getClient (Some addr) in
  match c with
  | None => sret None
  | Some p => let! qosm1 := member p Client_isQoSm1 in sret (if qosm1 : bool then c else None)
  end.
Definition Adapter_getClientId (addr : SensorNetAddress) : st Sensors (option (list byte)) :=
  let! c := Adapter_getClient addr in
  match c with
  | None => sret None
  | Some p =>
      let! qosm1 := member p Client_isQoSm1 in
      if qosm1 : bool then member p (the f_clientId) else sret None
  end.
Definition Adapter_isSecure (addr : SensorNetAddress) : st Sensors bool :=
  let! c := Adapter_getClient addr in
  match c with None => sret false | Some p => member p (the f_secureNetwork) end.

Definition Adapter_resetPingTimer (now : Z) (secure : bool) (a : Adapter) : Adapter :=
  if secure then set_proxySecure (Proxy_resetPingTimer now (ad_proxySecure a)) a
  else set_proxy (Proxy_resetPingTimer now (ad_proxy a)) a.

Definition Adapter_checkConnection (now : Z) (a : Adapter) : st Gateway Adapter :=
  let! p := match ad_client a with Some c => Proxy_checkConnection now c (ad_proxy a) | None => undefined end in
  let a := set_proxy p a in
  if ad_isSecure a then
    let! p := match ad_clientSecure a with Some c => Proxy_checkConnection now c (ad_proxySecure a) | None => undefined end in
    sret (set_proxySecure p a)
  else sret a.

(** [send(packet, client)]: the inner test cannot hold, so the proxy is always the
    first one.  The log entry of the other branch has a conversion without an
    argument, which is undefined. *)
Definition Adapter_send (now : Z) (que : field Gateway EventQue) (packet : MQTTSNPacket) (c : loc) (a : Adapter) :
    st Gateway Adapter :=
  let! secure := client c (the f_secureNetwork) in
  if secure && negb (ad_isSecure a) then undefined
  else
    let! p := Proxy_recv now que packet (ad_proxy a) in
    sret (set_proxy p a).
End AdapterClass.

(** ** The manager of the adapters, and the start *)

Section Manager.
Context `{CharSign} `{ByteOrder} `{HeapSpace} `{InetAddr} `{Files}.

(** An adapter that the configuration switches on: its clients from the list, its
    own two. *)
Definition adapter_initialize (key : list byte) (clientsType : Z) (secureConnection : bool) (name : list byte)
    (type : AdapterType) (ad : field Tasks Adapter) : st Tasks unit :=
  let! yes := demand (param_yes key) in
  if yes : bool then
    sensors (ClientList_setClientList clientsType) ;!
    let! a := the ad in
    let! a := sensors (Adapter_setup secureConnection name type a) in
    put ad (set_isActive true a)
  else sret tt.

Definition Aggregater_initialize (p : GWParams) : st Tasks unit :=
  adapter_initialize (lit "AggregatingGateway") AGGREGATER_TYPE (Gateway_hasSecureConnection p)
    (default [] (par_gatewayName p)) Atype_Aggregater f_aggregater.
Definition QoSm1Proxy_initialize (p : GWParams) : st Tasks unit :=
  adapter_initialize (lit "QoS-1") QOSM1PROXY_TYPE (Gateway_hasSecureConnection p)
    (default [] (par_gatewayName p) ++ lit "QoS-1") Atype_QoSm1Proxy f_qosm1.

Definition AdapterManager_initialize (p : GWParams) : st Tasks unit :=
  Aggregater_initialize p ;!
  sensors ForwarderList_initialize ;!
  QoSm1Proxy_initialize p.

Definition AdapterManager_checkConnection (now : Z) : st Tasks unit :=
  let! a := the f_aggregater in
  (if ad_isActive a then let! a := gw (Adapter_checkConnection now a) in put f_aggregater a else sret tt) ;!
  let! a := the f_qosm1 in
  (if ad_isActive a then let! a := gw (Adapter_checkConnection now a) in put f_qosm1 a else sret tt).

(** AdapterManager::getClient: the client that stands for another one towards the
    broker; the timer of its proxy starts anew. *)
Definition AdapterManager_getClient (now : Z) (c : loc) : st Tasks (option loc) :=
  let! secure := gw (client c (the f_secureNetwork)) in
  let! qosm1 := gw (client c Client_isQoSm1) in
  let! aggregated := gw (client c Client_isAggregated) in
  if qosm1 : bool then
    let! a := the f_qosm1 in put f_qosm1 (Adapter_resetPingTimer now secure a) ;! sret (ad_client a)
  else if aggregated : bool then
    let! a := the f_aggregater in put f_aggregater (Adapter_resetPingTimer now secure a) ;! sret (ad_client a)
  else sret (Some c).

(** The constructors of the gateway and its parts. *)
Definition newTasks : Tasks := mkTasks (newSensors newTopics) newAdapter newAdapter.

(** Gateway::initialize. *)
Definition Gateway_initialize : st Tasks GWParams :=
  let! p := demand Gateway_readParams in
  AdapterManager_initialize p ;!
  let! a := the f_aggregater in
  let aggregate := ad_isActive a in
  sensors (ClientList_initialize (par_clientAuthentication p) aggregate) ;!
  sensors (ClientList_setPredefinedTopics aggregate) ;!
  sret p.
End Manager.

(** ** Timers *)

(** A timer is not up before its time has passed, and is up at most a
    millisecond later; a timer that was stopped, or started at second 0, never. *)
Lemma timer_spec now start msecs t : 1000000 <= start -> start <= now -> 0 <= msecs < 4294967296 ->
  let t' := Timer_start start msecs t in
  (Timer_isTimeup now t' = true -> start + msecs * 1000 < now) /\
  (start + (msecs + 1) * 1000 <= now -> Timer_isTimeup now t' = true) /\
  Timer_isTimeup now (Timer_stop t') = false.
Proof.
  intros Hs Hn Hm t'. unfold t', Timer_start, Timer_isTimeup. cbn [tm_sec tm_usec tm_millis].
  assert (Hs0 : start / 1000000 <> 0) by (Z.div_mod_to_equations; lia).
  rewrite (proj2 (Z.eqb_neq _ _) Hs0). unfold u32. rewrite (Z.mod_small msecs) by lia.
  set (d := now mod 1000000 - start mod 1000000).
  assert (Hd : now - start = 1000000 * (now / 1000000 - start / 1000000) + d) by (unfold d; Z.div_mod_to_equations; lia).
  assert (Hq : 1000 * Z.quot d 1000 <= d + 999 /\ d - 999 <= 1000 * Z.quot d 1000).
  { clearbody d. Z.quot_rem_to_equations. lia. }
  split_and!; [|intros; apply Z.ltb_lt; lia|done]. intros Hup%Z.ltb_lt. 
  assert (Hneg : d < 0 -> 1000 * Z.quot d 1000 <= d + 999) by lia. lia.
Qed.

(** ** The CONNECT of a proxy *)

Section ProxyRuns.
Context `{CharSign} `{ByteOrder} `{HeapSpace} `{PointerBytes} `{GatewayParams}.
Hypothesis Hheap : forall n, heap_has n = true.
Implicit Types (g : Gateway) (cl : Client) (p : Proxy).

(** The length announced is that of the identifier, but its length field is
    written as well: as the packet announces it, the identifier begins with its
    length and lacks its last two bytes, which follow the packet. *)
Definition proxy_id (id : list byte) : list byte := take (length id) (utf_bytes id).
Definition proxy_connect (id : list byte) : list byte :=
  sn_packet MQTTSN_CONNECT (sn_connect_body 1 0 QOSM1_PROXY_KEEPALIVE_DURATION (proxy_id id)) ++
  drop (length id) (utf_bytes id).

Lemma proxy_id_length id : zlen (proxy_id id) = zlen id.
Proof. unfold proxy_id. pose proof (utf_bytes_length id). rewrite length_take. lia. Qed.

Lemma proxy_body_length id d : zlen (sn_connect_body 1 0 d (proxy_id id)) = 4 + zlen id.
Proof.
  unfold sn_connect_body. rewrite !length_cons, length_app. pose proof (proxy_id_length id).
  change (length (int_bytes _)) with 2%nat. lia.
Qed.

Lemma sn_setCONNECT_run id : nul ∉ id -> zlen id < 250 ->
  sets (MQTTSNPacket_setCONNECT (Some id) QOSM1_PROXY_KEEPALIVE_DURATION) (proxy_connect id).
Proof.
  intros Hnul Hid. set (d := QOSM1_PROXY_KEEPALIVE_DURATION).
  assert (Heq : proxy_connect id = sn_length (sn_size (5 + zlen id)) ++ byte_of_Z MQTTSN_CONNECT :: sn_connect_body 1 0 d (utf_bytes id)).
  { unfold proxy_connect, sn_packet. fold d. rewrite proxy_body_length. replace (1 + (4 + zlen id)) with (5 + zlen id) by lia.
    rewrite <- app_assoc. cbn [app]. unfold sn_connect_body. cbn [app]. rewrite <- app_assoc. unfold proxy_id.
    by rewrite take_drop. }
  set (n := MQTTSNGW_MAX_PACKET_SIZE).
  set (s := State (<[1%positive := replicate (Z.to_nat n) Corelib.Init.Byte.x00]> {[2%positive := id ++ [nul]]}) NULL tt : state unit).
  destruct (sn_connect_cstring s 1 0 (replicate (Z.to_nat n) Corelib.Init.Byte.x00) n
    (set_sc_client MQTTSNPacket_connectData_initializer d (cstring_in 2)) 2 0 id) as [Hw Hrun]; try done; try lia.
  - exists 2%positive, 0. split_and!; [done| |done]. split; [done|]. exists (id ++ [nul]). split; [done|]. done.
  - change (zlen (replicate (Z.to_nat n) Corelib.Init.Byte.x00)) with 1024. unfold sn_size. case_test; change n with 1024; lia.
  - assert (Hw' : zlen (proxy_connect id) = sn_size (5 + zlen id) + 2) by (rewrite Heq; exact Hw).
    assert (Hsz : sn_size (5 + zlen id) + 2 <= 1024) by (unfold sn_size; case_test; lia).
    apply (sn_set_run Hheap); [|done|rewrite Hw'; change MQTTSNGW_MAX_PACKET_SIZE with 1024; lia].
    etransitivity; [exact Hrun|]. change (zlen (replicate (Z.to_nat n) Corelib.Init.Byte.x00)) with 1024.
    change (0 + sn_size (5 + zlen id) + 2) with (sn_size (5 + zlen id) + 2).
    rewrite (proj2 (Z.leb_le _ _) Hsz), Hw', Heq. done.
Qed.

Lemma proxy_frame id : zlen id < 250 ->
  sn_readable (sn_connect_body 1 0 QOSM1_PROXY_KEEPALIVE_DURATION (proxy_id id)).
Proof. intros Hid. unfold sn_readable. rewrite proxy_body_length. lia. Qed.

Lemma proxy_connect_at id : bytes_at (mem (sn_mem (sn_object (proxy_connect id)))) 1 0
  (sn_packet MQTTSN_CONNECT (sn_connect_body 1 0 QOSM1_PROXY_KEEPALIVE_DURATION (proxy_id id)) ++
   (drop (length id) (utf_bytes id) ++ [])).
Proof. rewrite app_assoc. apply sn_mem_at. Qed.

Lemma proxy_connect_long id : zlen id < 250 ->
  sn_size (1 + zlen (sn_connect_body 1 0 QOSM1_PROXY_KEEPALIVE_DURATION (proxy_id id))) <= zlen (proxy_connect id).
Proof.
  intros Hid. unfold proxy_connect. rewrite length_app. pose proof (sn_readable_length MQTTSN_CONNECT _ (proxy_frame id Hid)). lia.
Qed.

(** The type of a packet with something behind it. *)
Lemma getType_more (ty : Z) body rest : sn_readable body -> 0 <= ty < 256 ->
  MQTTSNPacket_getType (sn_object (sn_packet ty body ++ rest)) = Some ty.
Proof.
  intros Hb Hty. pose proof (sn_readable_length ty body Hb) as Hl. destruct Hb as [H255 Hmax].
  pose proof (sn_size_bounds (1 + zlen body)) as Hs.
  assert (Hlong : sn_size (1 + zlen body) <= zlen (sn_packet ty body ++ rest)) by (rewrite length_app; lia).
  unfold MQTTSNPacket_getType. cbn [gs_bufLen sn_object gs_buf].
  rewrite (proj2 (Z.eqb_neq (zlen (sn_packet ty body ++ rest)) 0)) by lia.
  assert (Hat : bytes_at (mem (sn_mem (sn_object (sn_packet ty body ++ rest)))) 1 0 (sn_packet ty body ++ (rest ++ [])))
    by (rewrite app_assoc; apply sn_mem_at).
  eapply sn_get_run. erewrite bind_done by (eapply sn_decode_packet; [exact Hat|done|done|done]). cbv beta iota.
  apply sn_packet_at in Hat as (_ & Hat & _). cbn [padd]. rewrite Z.add_0_r.
  rewrite <- (Z_of_byte_small ty Hty) at 2. by apply (load_at _ _ _ _ _ Hat).
Qed.

Lemma proxy_connect_type id : zlen id < 250 ->
  MQTTSNPacket_getType (sn_object (proxy_connect id)) = Some (MQTTSN_CONNECT : Z).
Proof. intros Hid. by apply (getType_more MQTTSN_CONNECT _ _ (proxy_frame id Hid)). Qed.

Lemma proxy_connect_read id : zlen id < 250 ->
  exists data, MQTTSNPacket_getCONNECT (sn_object (proxy_connect id)) = Some (1, data) /\
    sc_cleansession data = 1 /\ sc_willFlag data = 0 /\ sc_duration data = QOSM1_PROXY_KEEPALIVE_DURATION.
Proof.
  intros Hid. destruct (proxy_frame id Hid) as [H255 Hmax].
  destruct (sn_deserialize_connect_packet _ 1 0 MQTTSNPacket_connectData_initializer (zlen (proxy_connect id)) _ _ _ _ _
    (proxy_connect_at id) ltac:(done) H255 Hmax (proxy_connect_long id Hid) eq_refl) as (data & Hrun & Hc & Hw & Hd & _).
  exists data. split; [by eapply sn_get_run|done].
Qed.

(** The packet task keeps an adapter in its state and sends the CONNECT on. *)
Lemma proxy_handled c cl v g id : cl_type cl = Ctype_Proxy \/ cl_type cl = Ctype_Aggregater -> cl_status cl = Cstat_Connecting ->
  cl_clientId cl = Some id -> zlen id < 250 -> client_holds cl v -> par_mqttVersion = 3 \/ par_mqttVersion = 4 ->
  exists cl' m, client_holds cl' (v_clean v) /\ cl_status cl' = Cstat_Connecting /\ cl_type cl' = cl_type cl /\
    gw_wire m = Some (mqtt_packet (mqtt_header CONNECT 0 0 0)
      (connect_body (connect_options id 1 QOSM1_PROXY_KEEPALIVE_DURATION None))) /\
    handle_event (EtClientRecv c (sn_object (proxy_connect id))) (set_client c cl g) =
      Some (tt, set_client c cl' (posted f_brokerSendQue (EtBrokerSend c m) g)).
Proof.
  intros Hty Hst Hname Hid Hv Hver. destruct (proxy_connect_read id Hid) as (data & Hget & Hc & Hw & Hd).
  set (cl1 := fset f_sessionStatus false (fset f_connectData (connectData_of (Some id) data) (fset f_connectData no_Connect cl))).
  assert (Hv1 : client_holds cl1 v) by (apply (same_tables_holds cl); [by split_and!|done]).
  destruct (clean_tables_run c cl1 v g Hv1) as (p & s & t & Hrun & Hv').
  destruct (connectData_denotes id data 1 0 QOSM1_PROXY_KEEPALIVE_DURATION Hver ltac:(done) Hc Hw Hd) as [Hden _].
  pose proof (GWPacket.setCONNECT_run heap_has newMQTTGWPacket _ _ _ _ ltac:(done) (Hden eq_refl) (Hheap _)) as Hset.
  set (m := mkMQTTGWPacket _ _ _) in Hset.
  eexists _, m. split; [exact Hv'|]. split; [exact Hst|]. split; [done|]. split; [apply gw_wire_owned|].
  cbn [handle_event].
  assert (Hagg : isAggregatedClient c (set_client c cl g) = Some (false, set_client c cl g)).
  { unfold isAggregatedClient. do 3 (erewrite sbind_run by (by apply client_run)). cbn [fget f_type].
    unfold sret. do 2 f_equal. destruct Hty as [-> | ->]; cbn; by destruct aggregater_active. }
  rewrite (sbind_run _ _ _ _ _ Hagg). cbv iota.
  set (cl' := fset f_sessionStatus true (fset f_topics t (fset f_subMap s (fset f_pubMap p cl1)))) in *.
  assert (Hupd : Client_updateStatus (sn_object (proxy_connect id)) cl' = Some (tt, cl')).
  { unfold Client_updateStatus, sbind, the, demand. cbn [fget f_status f_type]. rewrite (proxy_connect_type id Hid).
    change (cl_status cl') with (cl_status cl). rewrite Hst. done. }
  enough (Hh : transparentPacketHandler_sn c (sn_object (proxy_connect id)) (set_client c cl g) =
    Some (tt, set_client c cl' (posted f_brokerSendQue (EtBrokerSend c m) g))).
  { rewrite (sbind_run _ _ _ _ _ Hh). by apply client_run. }
  unfold transparentPacketHandler_sn. erewrite sbind_run by (by apply demand_run, proxy_connect_type).
  change (MQTTSN_CONNECT =? MQTTSN_CONNECT) with true. cbv iota. unfold MQTTSN_handleConnect.
  erewrite sbind_run by (by apply demand_run). cbn [Z.eqb].
  erewrite sbind_run by (by apply client_run). erewrite sbind_run by (by apply client_run).
  cbn [fget f_status]. rewrite Hst. rewrite !bool_decide_eq_false_2 by done. cbn [orb].
  erewrite sbind_run by (by apply client_run). erewrite sbind_run by (by apply client_run).
  assert (Had : bool_decide (fget f_type (fset f_connectData no_Connect cl) = Ctype_Proxy) ||
    bool_decide (fget f_type (fset f_connectData no_Connect cl) = Ctype_Aggregater) = true).
  { cbn [fget fset f_type f_connectData cl_type]. by destruct Hty as [-> | ->]. }
  rewrite Had. erewrite sbind_run by reflexivity.
  erewrite sbind_run by (by apply client_run). erewrite sbind_run by (by apply client_run).
  assert (Hnm : fget f_clientId (fset f_connectData no_Connect cl) = Some id) by exact Hname. rewrite Hnm.
  erewrite sbind_run by (by apply client_run). rewrite Hc. cbn [Z.eqb negb]. fold cl1.
  rewrite (sbind_run _ _ _ _ _ Hrun), Hw. cbn [Z.eqb negb]. by apply (send_broker_at _ _ 1).
Qed.

(** *** Checks *)

Definition with_status (s : ClientStatus) (cl : Client) : Client := fset f_status s cl.
Definition disconnected_client (cl : Client) : Client := fset f_waitWillMsgFlg false (fset f_status Cstat_Disconnected cl).

Lemma client_read {R} c cl (m : st Client R) r g : m cl = Some (r, cl) ->
  client c m (set_client c cl g) = Some (r, set_client c cl g).
Proof. apply client_run. Qed.

(** A client that is not connected gets a CONNECT. *)
Lemma check_connects now c cl p g id : cl_clientId cl = Some id -> nul ∉ id -> zlen id < 250 ->
  cl_status cl = Cstat_Disconnected \/ cl_status cl = Cstat_Connecting /\ Timer_isTimeup now (px_responseTimer p) = true ->
  Proxy_checkConnection now c p (set_client c cl g) =
    Some (response_start now p, set_client c (with_status Cstat_Connecting cl)
      (posted f_packetEventQue (EtClientRecv c (sn_object (proxy_connect id))) g)).
Proof.
  intros Hname Hnul Hid Hst. unfold Proxy_checkConnection.
  erewrite sbind_run by (by apply client_read). erewrite sbind_run by (by apply client_read).
  assert (Hdue : bool_decide (fget f_status cl = Cstat_Disconnected) ||
    bool_decide (fget f_status cl = Cstat_Connecting) && Timer_isTimeup now (px_responseTimer p) = true).
  { cbn [fget f_status]. destruct Hst as [-> | [-> ->]]; done. }
  rewrite Hdue. erewrite sbind_run by (by apply client_run). erewrite sbind_run by (by apply client_run).
  change (fget f_clientId (fset f_status Cstat_Connecting cl)) with (cl_clientId cl). rewrite Hname.
  rewrite (sbind_run _ _ _ _ _ (new_sn_run _ _ _ (sn_setCONNECT_run id Hnul Hid))).
  erewrite sbind_run by (by apply post_at). done.
Qed.

(** A connected one that was silent for the keep-alive time, or did not answer,
    gets a PINGREQ, and is given up with the fourth. *)
Definition ping : MQTTSNPacket := sn_object (sn_packet MQTTSN_PINGREQ []).
Definition pinged (now : Z) (p : Proxy) : Proxy :=
  Proxy_resetPingTimer now (mkProxy (px_keepAliveTimer p) (px_responseTimer (response_start now p)) true (px_retryCnt p + 1)).
Definition ping_due (now : Z) (p : Proxy) : bool :=
  Timer_isTimeup now (px_keepAliveTimer p) || px_isWaitingResp p && Timer_isTimeup now (px_responseTimer p).

Lemma setPINGREQ_run : sets MQTTSNPacket_setPINGREQ (sn_packet MQTTSN_PINGREQ []).
Proof. apply (sn_set_run Hheap); [reflexivity|done|done]. Qed.

Lemma check_active now c cl p g : cl_status cl = Cstat_Active -> 0 <= px_retryCnt p < INT_MAX ->
  Proxy_checkConnection now c p (set_client c cl g) =
    if ping_due now p then
      Some (pinged now p, set_client c (if QOSM1_PROXY_MAX_RETRY_CNT <? px_retryCnt p + 1 then disconnected_client cl else cl)
        (posted f_packetEventQue (EtClientRecv c ping) g))
    else Some (p, set_client c cl g).
Proof.
  intros Hst Hretry. unfold Proxy_checkConnection.
  erewrite sbind_run by (by apply client_read). erewrite sbind_run by (by apply client_read).
  cbn [fget f_status]. rewrite Hst. rewrite !bool_decide_eq_false_2 by done. cbn [orb andb].
  erewrite sbind_run by (by apply client_read). cbn [fget f_status]. rewrite Hst.
  rewrite bool_decide_eq_true_2 by done. cbn [andb]. fold (ping_due now p). destruct (ping_due now p); [|done].
  rewrite (sbind_run _ _ _ _ _ (new_sn_run _ _ _ setPINGREQ_run)).
  erewrite sbind_run by (by apply post_at).
  assert (Hint : in_int (px_retryCnt p + 1) = true) by (unfold in_int, INT_MIN, INT_MAX in *; lia).
  rewrite Hint. cbn [negb]. destruct (QOSM1_PROXY_MAX_RETRY_CNT <? _).
  - erewrite sbind_run by (by apply client_run). done.
  - done.
Qed.

(** Checks at these times, without an answer between them. *)
Fixpoint proxy_checks (times : list Z) (c : loc) (p : Proxy) : st Gateway Proxy :=
  match times with
  | [] => sret p
  | now :: times => let! p := Proxy_checkConnection now c p in proxy_checks times c p
  end.

(** A check at [u] finds that a PINGREQ sent at [t] should have been answered. *)
Definition late (t u : Z) : bool := Timer_isTimeup u (Timer_start t (QOSM1_PROXY_RESPONSE_DURATION * 1000) newTimer).

(** The checks among these that send a PINGREQ, the one before having been sent at
    [t]: the next late one, and from it on. *)
Fixpoint pings (t : Z) (times : list Z) : list Z :=
  match times with
  | [] => []
  | u :: us => if late t u then u :: pings u us else pings t us
  end.

Fixpoint ascending (t : Z) (times : list Z) : Prop :=
  match times with [] => True | u :: us => t <= u /\ ascending u us end.
Lemma ascending_skip t u us : ascending t (u :: us) -> ascending t us.
Proof. destruct us as [|w us]; [done|]. intros (? & ? & ?). split; [lia|done]. Qed.

(** More than ten seconds later, and at the latest a millisecond after them. *)
Lemma late_spec t u : 1000000 <= t <= u ->
  (late t u = true -> t + 10000000 < u) /\ (t + 10001000 <= u -> late t u = true).
Proof.
  intros Ht. destruct (timer_spec u t (QOSM1_PROXY_RESPONSE_DURATION * 1000) newTimer) as (Hup & Hdue & _); [lia..|done|].
  unfold QOSM1_PROXY_RESPONSE_DURATION in *. split; intros Hu; [specialize (Hup Hu); lia|apply Hdue; lia].
Qed.

(** The keep-alive time, which starts anew with the PINGREQ, is the longer one. *)
Lemma pinged_due t u p : 1000000 <= t <= u -> ping_due u (pinged t p) = late t u.
Proof.
  intros Ht. unfold ping_due. cbn [pinged Proxy_resetPingTimer px_isWaitingResp px_responseTimer px_keepAliveTimer response_start andb].
  change (Timer_isTimeup u (Timer_start t (QOSM1_PROXY_RESPONSE_DURATION * 1000) (px_responseTimer p))) with (late t u).
  destruct (Timer_isTimeup u _) eqn:Hkeep; [|done]. symmetry. apply late_spec; [lia|].
  apply timer_spec in Hkeep; [|lia..|done]. unfold QOSM1_PROXY_KEEPALIVE_DURATION in Hkeep. lia.
Qed.

Lemma proxy_checks_early times c cl p g more : cl_status cl = Cstat_Active -> 0 <= px_retryCnt p < INT_MAX ->
  Forall (fun u => ping_due u p = false) times ->
  proxy_checks (times ++ more) c p (set_client c cl g) = proxy_checks more c p (set_client c cl g).
Proof.
  intros Hst Hr. induction 1 as [|u us Hu _ IH]; [done|]. cbn [app proxy_checks].
  assert (Hcheck := check_active u c cl p g Hst Hr). rewrite Hu in Hcheck. by rewrite (sbind_run _ _ _ _ _ Hcheck).
Qed.

Lemma proxy_checks_run times t c cl p g : cl_status cl = Cstat_Active -> 1000000 <= t -> ascending t times ->
  0 <= px_retryCnt p -> px_retryCnt p + 1 + zlen (pings t (removelast times)) <= QOSM1_PROXY_MAX_RETRY_CNT ->
  let n := length (pings t times) in
  exists p', proxy_checks times c (pinged t p) (set_client c cl g) =
    Some (p', set_client c
      (if px_retryCnt p + 1 + Z.of_nat n =? QOSM1_PROXY_MAX_RETRY_CNT + 1 then disconnected_client cl else cl)
      (posted_all f_packetEventQue (replicate n (EtClientRecv c ping)) g)) /\
    px_isWaitingResp p' = true /\ px_retryCnt p' = px_retryCnt p + 1 + Z.of_nat n.
Proof.
  intros Hst. revert t p g. induction times as [|u us IH]; intros t p g Ht Hup H0' Hn n.
  { exists (pinged t p). cbn in Hn. unfold n, QOSM1_PROXY_MAX_RETRY_CNT in *. cbn [pings length replicate].
    test_false (px_retryCnt p + 1 + Z.of_nat 0 =? 3 + 1). by split_and!; [|done|cbn; lia]. }
  assert (Hus : us <> [] -> removelast (u :: us) = u :: removelast us) by (by destruct us).
  assert (Hlow : px_retryCnt p + 1 <= QOSM1_PROXY_MAX_RETRY_CNT) by lia.
  destruct Hup as [Htu Hup']. unfold n. cbn [pings proxy_checks].
  assert (Hcheck := check_active u c cl (pinged t p) g Hst). rewrite pinged_due in Hcheck by lia.
  change (px_retryCnt (pinged t p)) with (px_retryCnt p + 1) in Hcheck.
  specialize (Hcheck ltac:(unfold INT_MAX, QOSM1_PROXY_MAX_RETRY_CNT in *; lia)).
  destruct (late t u) eqn:Hlate; rewrite (sbind_run _ _ _ _ _ Hcheck).
  - destruct (decide (us = [])) as [->|Hne].
    + exists (pinged u (pinged t p)). cbn [pings proxy_checks length replicate posted_all foldl]. unfold sret.
      replace (QOSM1_PROXY_MAX_RETRY_CNT <? px_retryCnt p + 1 + 1)
        with (px_retryCnt p + 1 + Z.of_nat 1 =? QOSM1_PROXY_MAX_RETRY_CNT + 1)
        by (apply eq_true_iff_eq; rewrite Z.eqb_eq, Z.ltb_lt; lia).
      split_and!; [done|done|]. cbn. lia.
    + rewrite (Hus Hne) in Hn. cbn [pings] in Hn. rewrite Hlate in Hn. cbn [length] in Hn.
      test_false (QOSM1_PROXY_MAX_RETRY_CNT <? px_retryCnt p + 1 + 1).
      destruct (IH u (pinged t p) (posted f_packetEventQue (EtClientRecv c ping) g)) as (p' & Hrun & Hw & Hr);
        [lia|done|cbn; lia|change (px_retryCnt (pinged t p)) with (px_retryCnt p + 1); lia|].
      change (px_retryCnt (pinged t p)) with (px_retryCnt p + 1) in *. exists p'. cbn [length].
      replace (px_retryCnt p + 1 + Z.of_nat (S (length (pings u us))))
        with (px_retryCnt p + 1 + 1 + Z.of_nat (length (pings u us))) by lia.
      split_and!; [exact Hrun|exact Hw|exact Hr].
  - apply IH; [lia|apply (ascending_skip t u us); by split|lia|].
    destruct us as [|w us]; [cbn; cbn in Hn; lia|]. rewrite Hus in Hn by done. cbn [pings] in Hn. by rewrite Hlate in Hn.
Qed.

(** *** Answers *)

(** A queue beside the one for packets. *)
Class Beside (que : field Gateway EventQue) := {
  beside_get v g : fget que (fset que v g) = v;
  beside_set v w g : fset que v (fset que w g) = fset que v g;
  beside_packet_get ev g : fget que (posted f_packetEventQue ev g) = fget que g;
  beside_packet_set ev v g : posted f_packetEventQue ev (fset que v g) = fset que v (posted f_packetEventQue ev g);
}.
#[export] Instance beside_suspended : Beside f_suspended.
Proof. by split. Qed.
#[export] Instance beside_suspendedSecure : Beside f_suspendedSecure.
Proof. by split. Qed.

Lemma posted_all_beside que `{!Beside que} evs v g :
  posted_all f_packetEventQue evs (fset que v g) = fset que v (posted_all f_packetEventQue evs g).
Proof.
  revert g. induction evs as [|ev evs IH]; intros g; [done|]. cbn [posted_all foldl]. rewrite beside_packet_set. apply IH.
Qed.

Lemma suspended_loop_run que `{!Beside que} n evs g : (length evs < n)%nat -> eq_events (fget que g) = evs ->
  suspended_loop n que g =
    Some (tt, if decide (evs = []) then g
              else fset que (mkEventQue (eq_maxSize (fget que g)) []) (posted_all f_packetEventQue evs g)).
Proof.
  revert evs g. induction n as [|n IH]; intros evs g Hn Hev; [lia|]. cbn [suspended_loop]. unfold EventQue_size, EventQue_wait.
  rewrite Hev. destruct evs as [|ev evs]; [done|]. rewrite decide_False by done. cbn in Hn. cbn [length].
  test_false (Z.of_nat (S (length evs)) =? 0).
  unfold sbind, post. fold (posted f_packetEventQue ev (fset que (mkEventQue (eq_maxSize (fget que g)) evs) g)).
  rewrite (IH evs); [|lia|by rewrite beside_packet_get, beside_get].
  rewrite beside_packet_get, beside_get, beside_packet_set. cbn [eq_maxSize posted_all foldl].
  case_decide as Hnil; [by subst evs|]. do 2 f_equal.
  by rewrite posted_all_beside, beside_set.
Qed.
End ProxyRuns.

(** ** Properties *)

Section Properties.
Context `{CharSign} `{ByteOrder} `{HeapSpace} `{PointerBytes} `{GatewayParams}.
Hypothesis Hheap : forall n, heap_has n = true.
Implicit Types (g : Gateway) (cl : Client) (p : Proxy).

(** an adapter's client that is not connected is connected again: the next check
    queues a CONNECT of its name, and the packet task makes of it the CONNECT to
    the broker with this name, a clean session and 900 seconds, although the
    packet in between announces two bytes less than it has. *)
Theorem proxy_connects now c cl v p g id : cl_type cl = Ctype_Proxy \/ cl_type cl = Ctype_Aggregater ->
  cl_status cl = Cstat_Disconnected \/ cl_status cl = Cstat_Connecting /\ Timer_isTimeup now (px_responseTimer p) = true ->
  cl_clientId cl = Some id -> nul ∉ id -> zlen id < 250 -> client_holds cl v -> par_mqttVersion = 3 \/ par_mqttVersion = 4 ->
  let ev := EtClientRecv c (sn_object (proxy_connect id)) in
  Proxy_checkConnection now c p (set_client c cl g) =
    Some (response_start now p, set_client c (with_status Cstat_Connecting cl) (posted f_packetEventQue ev g)) /\
  forall g1, exists cl' m,
    handle_event ev (set_client c (with_status Cstat_Connecting cl) g1) =
      Some (tt, set_client c cl' (posted f_brokerSendQue (EtBrokerSend c m) g1)) /\
    gw_wire m = Some (mqtt_packet (mqtt_header CONNECT 0 0 0) (connect_body (connect_options id 1 900 None))) /\
    client_holds cl' (v_clean v) /\ cl_status cl' = Cstat_Connecting.
Proof.
  intros Hty Hst Hname Hnul Hid Hv Hver ev. split; [by apply check_connects|]. intros g1.
  destruct (proxy_handled Hheap c (with_status Cstat_Connecting cl) v g1 id) as (cl' & m & Hv' & Hst' & _ & Hw & Hrun); try done.
  exists cl', m. by split_and!.
Qed.

(** C26: a connection that does not answer is found out, whenever the gateway
    checks: checks before the keep-alive time has passed do nothing; the first one after
    it sends a PINGREQ, and of the later ones exactly those send another that come more than ten
    seconds (up to a millisecond of rounding) after the last PINGREQ, while the
    others neither send nor count.  The client stays connected through the first
    three PINGREQs and counts as disconnected with the fourth (how it is connected
    again is [proxy_connects]). *)
Theorem proxy_gives_up early t times c cl p g : cl_status cl = Cstat_Active -> 1000000 <= t -> ascending t times ->
  px_retryCnt p = 0 -> Forall (fun u => ping_due u p = false) early -> ping_due t p = true ->
  (length (pings t (removelast times)) < 3)%nat ->
  let n := length (pings t times) in
  (exists p', proxy_checks (early ++ t :: times) c p (set_client c cl g) =
    Some (p', set_client c (if (n =? 3)%nat then disconnected_client cl else cl)
      (posted_all f_packetEventQue (replicate (S n) (EtClientRecv c ping)) g)) /\
    px_isWaitingResp p' = true /\ px_retryCnt p' = 1 + Z.of_nat n) /\
  (forall a u, 1000000 <= a <= u -> (late a u = true -> a + 10000000 < u) /\ (a + 10001000 <= u -> late a u = true)).
Proof.
  intros Hst Ht Hup Hretry Hearly Hdue Hlen n. split; [|apply late_spec].
  rewrite (proxy_checks_early Hheap) by (done || (rewrite Hretry; done)). cbn [proxy_checks].
  assert (Hcheck := check_active Hheap t c cl p g Hst). rewrite Hdue, Hretry in Hcheck. specialize (Hcheck ltac:(done)).
  rewrite (sbind_run _ _ _ _ _ Hcheck). change (QOSM1_PROXY_MAX_RETRY_CNT <? 0 + 1) with false. cbv iota.
  destruct (proxy_checks_run Hheap times t c cl p (posted f_packetEventQue (EtClientRecv c ping) g) Hst Ht Hup)
    as (p' & Hrun & Hw & Hr); [lia|rewrite Hretry; unfold QOSM1_PROXY_MAX_RETRY_CNT; lia|].
  rewrite Hretry in *. exists p'. split_and!; [|done|unfold n; lia]. rewrite Hrun.
  replace (0 + 1 + Z.of_nat (length (pings t times)) =? QOSM1_PROXY_MAX_RETRY_CNT + 1) with (n =? 3)%nat; [done|].
  unfold n, QOSM1_PROXY_MAX_RETRY_CNT. apply eq_true_iff_eq. rewrite Nat.eqb_eq, Z.eqb_eq. lia.
Qed.

(** once the broker accepts the connection the packets that waited for it are
    handled, in the order they came, and the count of PINGREQs without answer
    starts anew, as it does with each PINGRESP; a refusal changes nothing. *)
Theorem proxy_answered now que `{!Beside que} p g rc : 0 <= rc < 256 ->
  let evs := eq_events (fget que g) in
  (exists p', Proxy_recv now que (sn_object (sn_packet MQTTSN_CONNACK [byte_of_Z rc])) p g =
     Some (p', if decide (rc <> MQTTSN_RC_ACCEPTED \/ evs = []) then g
               else fset que (mkEventQue (eq_maxSize (fget que g)) []) (posted_all f_packetEventQue evs g)) /\
     if decide (rc = MQTTSN_RC_ACCEPTED)
     then px_retryCnt p' = 0 /\ px_responseTimer p' = Timer_stop (px_responseTimer p) else p' = p) /\
  (exists p', Proxy_recv now que (sn_object (sn_packet MQTTSN_PINGRESP [])) p g = Some (p', g) /\
     px_retryCnt p' = 0 /\ px_isWaitingResp p' = false /\ px_responseTimer p' = Timer_stop (px_responseTimer p)).
Proof.
  intros Hrc evs. split.
  - assert (Hacc : MQTTSNPacket_isAccepted (sn_object (sn_packet MQTTSN_CONNACK [byte_of_Z rc])) = Some (rc =? MQTTSN_RC_ACCEPTED)).
    { unfold MQTTSNPacket_isAccepted. rewrite (getType_run MQTTSN_CONNACK) by done. cbn [mbind option_bind].
      change (MQTTSN_CONNACK =? MQTTSN_CONNACK) with true. cbv iota.
      change (default [] (gs_buf (sn_object (sn_packet MQTTSN_CONNACK [byte_of_Z rc]))) !! 2%nat) with (Some (byte_of_Z rc)).
      cbn [mbind option_bind]. by rewrite Z_of_byte_small. }
    unfold Proxy_recv. erewrite sbind_run by (apply demand_run, (getType_run MQTTSN_CONNACK); done).
    change (MQTTSN_CONNACK =? MQTTSN_CONNACK) with true. cbv iota. rewrite (sbind_run _ _ _ _ _ (demand_run _ _ _ Hacc)).
    destruct (Z.eqb_spec rc MQTTSN_RC_ACCEPTED) as [->|Hne].
    + eexists. unfold Proxy_sendSuspendedPacket. split.
      * unfold sbind. rewrite (suspended_loop_run que _ (eq_events (fget que g)) g (Nat.lt_succ_diag_r _) eq_refl).
        unfold sret. fold evs. do 2 f_equal.
        destruct (decide (evs = [])) as [Hnil|Hnil]; [by rewrite decide_True by auto|]. rewrite decide_False by tauto. done.
      * rewrite decide_True by done. by split.
    + eexists. rewrite decide_True by auto. split; [reflexivity|]. by rewrite decide_False.
  - eexists. unfold Proxy_recv. erewrite sbind_run by (apply demand_run, (getType_run MQTTSN_PINGRESP); done).
    change (MQTTSN_PINGRESP =? MQTTSN_CONNACK) with false. change (MQTTSN_PINGRESP =? MQTTSN_PINGRESP) with true. cbv iota.
    split; [reflexivity|]. done.
Qed.
End Properties.

(** ** Witnesses *)

Section Sample.
#[local] Existing Instance little_endian_order.
#[local] Existing Instance ample_heap.
#[local] Instance adapter_char : CharSign := true.
#[local] Instance adapter_pointers : PointerBytes := fun _ => 65535.
#[local] Existing Instance sample_params.

(** The client "d" of a proxy. *)
Definition sample_proxy_client (s : ClientStatus) : Client := fset f_type Ctype_Proxy (sample_client s).

Lemma proxy_connects_witness :
  Proxy_checkConnection 5000000 1 newProxy (set_client 1 (sample_proxy_client Cstat_Disconnected) sample_two) =
    Some (response_start 5000000 newProxy, set_client 1 (sample_proxy_client Cstat_Connecting)
      (posted f_packetEventQue (EtClientRecv 1 (sn_object (proxy_connect (ch [100])))) sample_two)).
Proof.
  refine (proj1 (proxy_connects (fun _ => eq_refl) 5000000 1 (sample_proxy_client Cstat_Disconnected) (View [] [] 0 [] ∅ ∅) newProxy
    sample_two (ch [100]) _ _ _ _ _ _ _)).
  - by left.
  - by left.
  - reflexivity.
  - apply (bool_decide_unpack _). reflexivity.
  - reflexivity.
  - apply (same_tables_holds (newClient false)); [by split_and!|apply newClient_holds].
  - by right.
Defined.

Definition running_proxy : Proxy := Proxy_resetPingTimer 1000000 newProxy.

(** The times of the gateway: a check every two seconds. *)
Definition every_two_seconds (t : Z) (n : nat) : list Z := (fun i => t + 2000000 * Z.of_nat i) <$> seq 1 n.

(** A check half way; 900 seconds after the last packet a PINGREQ, and the next one with
    the sixth check from then on, twelve seconds later. *)
Lemma proxy_gives_up_witness : exists p',
  proxy_checks ([451000000] ++ 902000000 :: every_two_seconds 902000000 18) 1 running_proxy
    (set_client 1 (sample_proxy_client Cstat_Active) sample_two) =
    Some (p', set_client 1 (disconnected_client (sample_proxy_client Cstat_Active))
      (posted_all f_packetEventQue (replicate 4 (EtClientRecv 1 ping)) sample_two)) /\
  pings 902000000 (every_two_seconds 902000000 18) = [914000000; 926000000; 938000000].
Proof.
  destruct (proxy_gives_up (fun _ => eq_refl) [451000000] 902000000 (every_two_seconds 902000000 18) 1
    (sample_proxy_client Cstat_Active) running_proxy sample_two) as [(p' & Hrun & _) _].
  - reflexivity.
  - lia.
  - vm_compute. repeat split; discriminate.
  - reflexivity.
  - repeat constructor.
  - vm_compute. reflexivity.
  - vm_compute. lia.
  - exists p'. split; [exact Hrun|vm_compute; reflexivity].
Defined.

Definition sample_suspended : Gateway :=
  fset f_suspended (mkEventQue 0 [EtClientRecv 2 ping]) sample_two.

Lemma proxy_answered_witness : exists p',
  Proxy_recv 1000000 f_suspended (sn_object (sn_packet MQTTSN_CONNACK [byte_of_Z 0])) newProxy sample_suspended =
    Some (p', fset f_suspended (mkEventQue 0 []) (posted_all f_packetEventQue [EtClientRecv 2 ping] sample_suspended)).
Proof.
  destruct (proj1 (proxy_answered 1000000 f_suspended newProxy sample_suspended 0 ltac:(lia))) as (p' & Hrun & _).
  exists p'. rewrite decide_False in Hrun; [exact Hrun|].
  intros [Hne|Hnil]; [by apply Hne|discriminate Hnil].
Defined.
End Sample.
