(* ===== verification/GWEntrance.v ===== *)
(** * The tasks at the two networks: MQTTSNGWClientRecvTask.cpp, MQTTSNGWClientSendTask.cpp and MQTTSNGWBrokerRecvTask.cpp

    One turn of each task: a datagram from the sensor network, an event for it, a
    look at the connections to the broker.  What the networks deliver are
    arguments; the text of log entries is left out, except where its preparation
    writes into an array. *)

From S2P Require Import Prelude CMem MQTTPacket SNPacket SNPublish SNConnect GWHeap GWTables GWTopic GWPacket GWSNPacket GWClient GWGateway GWConnect GWPublish GWSubscribe GWTask GWEncap GWStrings GWSensorNet GWForwarder GWClientList GWConfig GWAdapter.

(** ** What the gateway sends to the sensor network *)

Inductive Output :=
  | Unicast (data : list byte) (addr : SensorNetAddress)
  | Broadcast (data : list byte).

Definition MQTTSNPacket_bytes (p : MQTTSNPacket) : list byte := default [] (gs_buf p).
Definition MQTTSNPacket_unicast (p : MQTTSNPacket) (addr : SensorNetAddress) : Output := Unicast (MQTTSNPacket_bytes p) addr.
Definition MQTTSNPacket_broadcast (p : MQTTSNPacket) : Output := Broadcast (MQTTSNPacket_bytes p).

Section Entrance.
Context `{CharSign} `{ByteOrder} `{HeapSpace}.

(** ** ClientRecvTask *)

(** [recv(network)]: [rc] and [bs] are what the network returned and wrote. *)
Definition MQTTSNPacket_recv (rc : Z) (bs : list byte) : option (Z * MQTTSNPacket) :=
  if 1 <? rc then MQTTSNPacket_desirialize bs rc else Some (0, newMQTTSNPacket).

(** [log] copies an identifier into [char cstr[MAX_CLIENTID_LENGTH + 1]]: of a C
    string without its 0, of another string after it set one byte more to 0. *)
Definition log_name (name : list byte) : st Tasks unit :=
  if zlen name <=? MAX_CLIENTID_LENGTH + 1 then sret tt else undefined.
Definition log_id (str : MQTTSNString) : st Tasks unit :=
  if (0 <=? len (lenstring str)) && (len (lenstring str) + 1 <=? MAX_CLIENTID_LENGTH + 1) then sret tt else undefined.

Definition post_packet (ev : Event) : st Tasks unit := gw (post f_packetEventQue ev).

(** The packet of a client that is not known; [fwd] is the forwarder and [nodeId]
    the node it came from. *)
Definition ClientRecvTask_newClient (packet : MQTTSNPacket) (fwd : option loc) (nodeId : WirelessNodeId)
    (senderAddr : SensorNetAddress) : st Tasks unit :=
  let! isAggrActive := the f_aggregater in
  let type := if ad_isActive isAggrActive then 1 else 0 in
  let! (rc, connect) := demand (MQTTSNPacket_getCONNECT packet) in
  if rc =? 0 then log_id (sc_clientID connect)
  else
    let! id := demand (sn_bytes packet (data (lenstring (sc_clientID connect))) (len (lenstring (sc_clientID connect)))) in
    let! client := sensors (ClientList_getClient_id id) in
    let! client :=
      match fwd with
      | Some _ =>
          let! client := if null client then sensors (ClientList_createClient_plain None id type) else sret client in
          sensors (Forwarder_addClient fwd client nodeId) ;!
          sret client
      | None =>
          if negb (null client) then sensors (Client_setClientAddress client senderAddr) ;! sret client
          else sensors (ClientList_createClient_plain (Some senderAddr) id type)
      end in
    log_id (sc_clientID connect) ;!
    match client with
    | None => sret tt
    | Some c => post_packet (EtClientRecv c packet)
    end.

(** What follows once the packet is taken out of its envelope. *)
Definition ClientRecvTask_dispatch (packet : MQTTSNPacket) (fwd : option loc) (nodeId : WirelessNodeId)
    (senderAddr : SensorNetAddress) : st Tasks unit :=
  let! client := sensors (ClientList_getClient (Some senderAddr)) in
  match client with
  | Some c => post_packet (EtClientRecv c packet)
  | None =>
      let! type := demand (MQTTSNPacket_getType packet) in
      if type =? MQTTSN_CONNECT then ClientRecvTask_newClient packet fwd nodeId senderAddr else sret tt
  end.

(** "Check the client belonging to QoS-1Proxy": is the packet to be discarded? *)
Definition ClientRecvTask_refused (packet : MQTTSNPacket) (senderAddr : SensorNetAddress) : st Tasks bool :=
  let! qosm1Proxy := the f_qosm1 in
  if ad_isActive qosm1Proxy then
    let! clientName := sensors (Adapter_getClientId senderAddr) in
    match clientName with
    | None => sret false
    | Some _ => let! publish := demand (MQTTSNPacket_isQoSMinusPUBLISH packet) in sret (negb publish)
    end
  else sret false.

(** One turn; [rc] and [bs] are what reading the network gave, [senderAddr] is the
    address it has for the sender. *)
Definition ClientRecvTask_turn (rc : Z) (bs : list byte) (senderAddr : SensorNetAddress) : st Tasks unit :=
  let! (packetLen, packet) := demand (MQTTSNPacket_recv rc bs) in
  if packetLen <? 2 then sret tt
  else
    let! type := demand (MQTTSNPacket_getType packet) in
    if (type <=? MQTTSN_ADVERTISE) || (type =? MQTTSN_GWINFO) then sret tt
    else if type =? MQTTSN_SEARCHGW then post_packet (EtBroadcast packet)
    else if type =? MQTTSN_ENCAPSULATED then
      let! fwd := sensors (inside f_forwarders (ForwarderList_getForwarder senderAddr)) in
      match fwd with
      | None => ClientRecvTask_dispatch packet None newWirelessNodeId senderAddr
      | Some _ =>
          let! fwdName := sensors (inside f_forwarders (at_forwarder fwd (let! i := get_more in sret (fw_name i)))) in
          log_name fwdName ;!
          let! (_, encap) := demand (MQTTSNGWEncapsulatedPacket_desirialize (MQTTSNPacket_bytes packet) (gs_bufLen packet)) in
          let! nodeId := demand (WirelessNodeId_setId_from (en_id encap)) in
          sensors (inside f_forwarders (at_forwarder fwd (Forwarder_getClient nodeId))) ;!
          let! packet := demand (en_mqttsn encap) in
          ClientRecvTask_dispatch packet fwd nodeId senderAddr
      end
    else
      let! refused := ClientRecvTask_refused packet senderAddr in
      if refused : bool then sret tt
      else ClientRecvTask_dispatch packet None newWirelessNodeId senderAddr.

(** ** ClientSendTask *)

(** [unicastToClient]: what goes to the network. *)
Definition AdapterManager_unicastToClient (now : Z) (c : loc) (packet : MQTTSNPacket) : st Tasks (list Output) :=
  let! n := sensors (node (Some c)) in
  match cn_forwarder n with
  | Some _ =>
      let! wnId := sensors (inside f_forwarders (at_forwarder (cn_forwarder n) (Forwarder_getWirelessNodeId c))) in
      let! wnId := demand wnId in
      let! encap := demand (Encapsulated_setWirelessNodeId wnId (newEncapsulated (Some packet))) in
      let! data := demand (MQTTSNGWEncapsulatedPacket_unicast encap) in
      let! addr := sensors (inside f_forwarders (at_forwarder (cn_forwarder n) (let! i := get_more in sret (fw_addr i)))) in
      sret [Unicast data addr]
  | None =>
      let! proxy := gw (client c Client_isQoSm1Proxy) in
      let! aggregater := gw (client c Client_isAggregater) in
      if proxy : bool then
        let! a := the f_qosm1 in
        let! a := gw (Adapter_send now f_suspended packet c a) in
        put f_qosm1 a ;! sret []
      else if aggregater : bool then
        let! a := the f_aggregater in
        let! a := gw (Adapter_send now no_que packet c a) in
        put f_aggregater a ;! sret []
      else sret [MQTTSNPacket_unicast packet (cn_addr n)]
  end.

(** One event of ClientSendTask::run; no part of the gateway makes an event of
    type EtSensornetSend. *)
Definition client_send_event (now : Z) (ev : Event) : st Tasks (list Output) :=
  match ev with
  | EtClientSend c packet => AdapterManager_unicastToClient now c packet
  | EtBroadcast packet => sret [MQTTSNPacket_broadcast packet]
  | _ => sret []
  end.

Definition ClientSendTask_turn (now : Z) : st Tasks (list Output) := fun t =>
  match EventQue_wait (gw_clientSendQue (se_gw (tk_sensors t))) with
  | Some (ev, q) => (gw (put f_clientSendQue q) ;! client_send_event now ev) t
  | None => None
  end.

(** ** BrokerRecvTask *)

(** Does [log] know the type? *)
Definition BrokerRecvTask_log (type : Z) : Z :=
  if (type =? CONNACK) || (type =? PUBLISH) || (type =? PUBACK) || (type =? PUBREC) || (type =? PUBREL) ||
     (type =? PUBCOMP) || (type =? SUBACK) || (type =? UNSUBACK) || (type =? PINGRESP) then 0 else -1.

(** A client whose socket can be read; [rc] and [packet] are the results of
    [recv].  Returns the pointer afterwards. *)
Definition BrokerRecvTask_read (c : loc) (rc : Z) (packet : MQTTGWPacket) : st Tasks (option loc) :=
  if 0 <? rc then
    let! type := gw (read_gw packet MQTTGWPacket_getType) in
    (if BrokerRecvTask_log type =? -1 then sret tt else post_packet (EtBrokerRecv c packet)) ;!
    sret (Some c)
  else if rc =? 0 then
    gw (client c (put f_networkValid false)) ;!
    sensors (ClientList_erase (Some c))
  else
    let! active := gw (client c Client_isActive) in
    (if ((rc =? -1) || (rc =? -2)) && active then
       let! packet := gw (new_gw (MQTTGWPacket_setHeader DISCONNECT)) in
       post_packet (EtBrokerRecv c packet)
     else sret tt) ;!
    sret (Some c).

(** The pass over all clients, from the one at [p]; [arrived] says for which of
    them something can be read, and what.  After an erased client the pass
    ends. *)
Fixpoint broker_pass (n : nat) (arrived : loc -> option (Z * MQTTGWPacket)) (p : option loc) : st Tasks unit :=
  match n with
  | O => undefined
  | S n =>
      match p with
      | None => sret tt
      | Some c =>
          let! valid := gw (client c (the f_networkValid)) in
          let! p :=
            match (if valid : bool then arrived c else None) with
            | Some (rc, packet) => BrokerRecvTask_read c rc packet
            | None => sret p
            end in
          if null p then sret tt
          else let! cell := sensors (inside f_list (deref p)) in broker_pass n arrived (c_next cell)
      end
  end.
Definition BrokerRecvTask_turn (arrived : loc -> option (Z * MQTTGWPacket)) : st Tasks unit := fun t =>
  let l := se_list (tk_sensors t) in broker_pass (fuel_of l) arrived (l_first l) t.
End Entrance.

(** ** Running the turns *)

(** A packet waits for the packet task. *)
Definition queued (ev : Event) (t : Tasks) : Tasks :=
  fset f_sensors (fset f_gw (posted f_packetEventQue ev (se_gw (tk_sensors t))) (tk_sensors t)) t.

Lemma sensors_run {R} (m : st Sensors R) t r s : m (tk_sensors t) = Some (r, s) ->
  sensors m t = Some (r, fset f_sensors s t).
Proof. apply (inside_run f_sensors). Qed.

Lemma sensors_read {R} (m : st Sensors R) t r : m (tk_sensors t) = Some (r, tk_sensors t) -> sensors m t = Some (r, t).
Proof. intros Hm. rewrite (sensors_run _ _ _ _ Hm). by destruct t. Qed.

Lemma gw_read {R} (m : st Gateway R) t r : m (se_gw (tk_sensors t)) = Some (r, se_gw (tk_sensors t)) -> gw m t = Some (r, t).
Proof. intros Hm. apply sensors_read. by apply inside_same; [apply f_gw_same|]. Qed.

Lemma forwarders_read {R} (m : step Forwarder unit R) t r :
  m (se_forwarders (tk_sensors t)) = Some (r, se_forwarders (tk_sensors t)) ->
  sensors (inside f_forwarders m) t = Some (r, t).
Proof. intros Hm. apply sensors_read, inside_same; [by destruct (tk_sensors t)|done]. Qed.

Lemma post_packet_run ev t : post_packet ev t = Some (tt, queued ev t).
Proof. reflexivity. Qed.

(** A client of the list, read. *)
Lemma gw_client_read {R} c cl (m : st Client R) r t : gw_clients (se_gw (tk_sensors t)) !! c = Some cl -> m cl = Some (r, cl) ->
  gw (client c m) t = Some (r, t).
Proof. intros Hc Hm. apply gw_read. unfold client. rewrite Hc, Hm. by rewrite set_client_id. Qed.

Section Runs.
Context `{CharSign} `{ByteOrder} `{HeapSpace}.
Hypothesis Hheap : forall n, heap_has n = true.
Implicit Types (t : Tasks) (l : elems ClientNode) (a : SensorNetAddress).

Lemma recv_run wire : 2 <= zlen wire < 65536 -> MQTTSNPacket_recv (zlen wire) wire = Some (zlen wire, sn_object wire).
Proof.
  intros Hw. unfold MQTTSNPacket_recv. test_true (1 <? zlen wire). unfold MQTTSNPacket_desirialize.
  rewrite u16_small, Hheap by lia. test_true (zlen wire <=? zlen wire). by rewrite Nat2Z.id, take_ge by lia.
Qed.

Lemma readable_packet ty body : sn_readable body -> zlen (sn_packet ty body) < 65536 -> 2 <= zlen (sn_packet ty body) < 65536.
Proof. intros Hb. rewrite (sn_readable_length ty body Hb). pose proof (sn_size_bounds (1 + zlen body)). lia. Qed.

(** The identifier of a CONNECT. *)
Lemma getCONNECT_id clean will duration id :
  let body := sn_connect_body clean will duration id in
  let p := sn_object (sn_packet MQTTSN_CONNECT body) in
  sn_readable body -> 0 <= duration < 65536 ->
  exists connect, MQTTSNPacket_getCONNECT p = Some (1, connect) /\ len (lenstring (sc_clientID connect)) = zlen id /\
    sn_bytes p (data (lenstring (sc_clientID connect))) (len (lenstring (sc_clientID connect))) = Some id.
Proof.
  intros body p Hb Hd. pose proof (sn_readable_length MQTTSN_CONNECT body Hb) as Hl. destruct Hb as [H255 Hmax].
  destruct (sn_deserialize_connect_packet (sn_mem p) 1 0 MQTTSNPacket_connectData_initializer
    (zlen (sn_packet MQTTSN_CONNECT body)) clean will duration id [] (sn_mem_at _) Hd H255 Hmax ltac:(fold body; lia) eq_refl)
    as (connect & Hrun & _ & _ & _ & _ & Hlen & Hheld).
  exists connect. split; [by eapply sn_get_run|]. split; [done|]. by apply sn_bytes_held.
Qed.

(** The first client at an address. *)
Definition client_at (a : SensorNetAddress) (l : elems ClientNode) : option loc :=
  first_client (fun e => SensorNetAddress_isMatch (cn_addr e.2) a) l.

Lemma dispatch_run t l packet fwd nodeId a type : clients_hold (tk_sensors t) l ->
  MQTTSNPacket_getType packet = Some type ->
  ClientRecvTask_dispatch packet fwd nodeId a t =
    match client_at a l with
    | Some c => Some (tt, queued (EtClientRecv c packet) t)
    | None => if type =? MQTTSN_CONNECT then ClientRecvTask_newClient packet fwd nodeId a t else Some (tt, t)
    end.
Proof.
  intros Hl Hty. unfold ClientRecvTask_dispatch.
  rewrite (sbind_run _ _ _ (client_at a l) t); [|by apply sensors_read, (getClient_run _ _ (Some a))].
  destruct (client_at a l); [apply post_packet_run|]. rewrite (sbind_run _ _ _ _ _ (demand_run _ _ _ Hty)).
  by destruct (type =? MQTTSN_CONNECT).
Qed.

(** A client that is known by its identifier, or is made. *)
Definition new_type (t : Tasks) : Z := if ad_isActive (tk_aggregater t) then 1 else 0.

(** The members in the cell of a client are changed. *)
Lemma set_node_run s l1 l2 c n f : clients_hold s (l1 ++ (c, n) :: l2) ->
  exists s', set_node (Some c) f s = Some (tt, s') /\ clients_hold s' (l1 ++ (c, f n) :: l2) /\
    se_gw s' = se_gw s /\ se_forwarders s' = se_forwarders s.
Proof.
  intros ([Hr Hleak] & Hcnt & Hmax & Hdom & Hids).
  destruct (represents_value _ _ _ _ _ _ _ (f n) Hr) as (cell & Hc & Hv & Hr').
  eexists (mkSensors (se_gw s) _ (se_forwarders s)). split; [|split; [split; [split; [exact Hr'|]|]|done]].
  - unfold set_node, inside, write. cbn [fget f_list]. rewrite Hc. by rewrite Hv.
  - unfold no_leak in *. cbn [se_list cells set_cells]. rewrite dom_insert_lookup_L by by exists cell.
    rewrite Hleak, !fmap_app. done.
  - split_and!; cbn [se_list se_gw l_cnt set_cells].
    + rewrite Hcnt, !length_app. done.
    + rewrite length_app in *. done.
    + rewrite Hdom, !fmap_app. done.
    + exact Hids.
Qed.

Lemma setClientAddress_run s l1 l2 c n a : clients_hold s (l1 ++ (c, n) :: l2) ->
  exists s', Client_setClientAddress (Some c) a s = Some (tt, s') /\
    clients_hold s' (l1 ++ (c, mkClientNode a (cn_stable n) (cn_forwarder n)) :: l2) /\
    se_gw s' = se_gw s /\ se_forwarders s' = se_forwarders s.
Proof. apply (set_node_run s l1 l2 c n (fun n => mkClientNode a (cn_stable n) (cn_forwarder n))). Qed.

Lemma queued_hold ev t l : clients_hold (tk_sensors t) l -> clients_hold (tk_sensors (queued ev t)) l.
Proof. done. Qed.

Lemma log_id_run str (n : Z) t : len (lenstring str) = n -> 0 <= n ->
  log_id str t = if n <=? MAX_CLIENTID_LENGTH then Some (tt, t) else None.
Proof.
  intros Hn Hpos. unfold log_id. rewrite Hn. test_true (0 <=? n). cbn [andb].
  replace (n + 1 <=? MAX_CLIENTID_LENGTH + 1) with (n <=? MAX_CLIENTID_LENGTH) by (repeat case_test; lia).
  by case_test.
Qed.

(** A client behind no forwarder: what its CONNECT does, up to the log entry. *)
Definition taken (t : Tasks) l (a : SensorNetAddress) (id : list byte) (c : option loc) (t' : Tasks) : Prop :=
  match first_client (fun e => begins (se_gw (tk_sensors t)) id e.1) l with
  | Some p => c = Some p /\ exists l1 n l2, l = l1 ++ (p, n) :: l2 /\
      clients_hold (tk_sensors t') (l1 ++ (p, mkClientNode a (cn_stable n) (cn_forwarder n)) :: l2) /\
      se_gw (tk_sensors t') = se_gw (tk_sensors t)
  | None =>
      if MAX_CLIENTS <? zlen l then c = None /\ t' = t
      else let p := fresh_client (tk_sensors t) in c = Some p /\
        clients_hold (tk_sensors t') (l ++ [(p, mkClientNode a false None)]) /\
        se_gw (tk_sensors t') = set_client p (created_client id false (new_type t)) (se_gw (tk_sensors t))
  end.

Lemma first_client_split ok l p : first_client ok l = Some p -> exists l1 n l2, l = l1 ++ (p, n) :: l2.
Proof.
  intros (n & Hin & _)%first_client_elem. apply list_elem_of_split in Hin as (l1 & l2 & ->). by exists l1, n, l2.
Qed.

Lemma count_run s l : clients_hold s l -> inside f_list get_cnt s = Some (zlen l, s).
Proof.
  intros (_ & Hcnt & _). apply inside_same; [apply f_list_same|]. unfold get_cnt. cbn [fget f_list]. by rewrite Hcnt.
Qed.

Lemma createClient_full s l addr id type : clients_hold s l -> MAX_CLIENTS < zlen l ->
  ClientList_createClient_plain addr id type s = Some (None, s).
Proof.
  intros Hl Hfull. unfold ClientList_createClient_plain, ClientList_createClient. srun (count_run s l Hl).
  by test_true (MAX_CLIENTS <? zlen l).
Qed.

Lemma newClient_run t l packet connect a id : clients_hold (tk_sensors t) l -> client_at a l = None ->
  MQTTSNPacket_getCONNECT packet = Some (1, connect) -> len (lenstring (sc_clientID connect)) = zlen id ->
  sn_bytes packet (data (lenstring (sc_clientID connect))) (len (lenstring (sc_clientID connect))) = Some id ->
  exists c t', taken t l a id c t' /\
    ClientRecvTask_newClient packet None newWirelessNodeId a t =
      if zlen id <=? MAX_CLIENTID_LENGTH then
        Some (tt, match c with Some p => queued (EtClientRecv p packet) t' | None => t' end)
      else None.
Proof.
  intros Hl Hat Hget Hlen Hid. unfold ClientRecvTask_newClient.
  rewrite (sbind_run _ _ _ (tk_aggregater t) t) by done. rewrite (sbind_run _ _ _ _ _ (demand_run _ _ _ Hget)).
  cbn [Z.eqb]. rewrite (sbind_run _ _ _ _ _ (demand_run _ _ _ Hid)).
  rewrite (sbind_run _ _ _ (first_client (fun e => begins (se_gw (tk_sensors t)) id e.1) l) t)
    by by apply sensors_read, getClient_id_run.
  assert (Hend : forall c t', (log_id (sc_clientID connect) ;! match c with None => sret tt | Some p => post_packet (EtClientRecv p packet) end) t' =
    if zlen id <=? MAX_CLIENTID_LENGTH then Some (tt, match c with Some p => queued (EtClientRecv p packet) t' | None => t' end) else None).
  { intros c t'. unfold sbind. rewrite (log_id_run _ (zlen id)) by (done || lia). case_test; [|done]. by destruct c. }
  unfold taken. destruct (first_client (fun e => begins _ id e.1) l) as [p|] eqn:Hfind; cbn [null negb].
  - destruct (first_client_split _ _ _ Hfind) as (l1 & n & l2 & ->).
    destruct (setClientAddress_run _ l1 l2 p n a Hl) as (s' & Hrun & Hl' & Hg & _).
    exists (Some p), (fset f_sensors s' t). split.
    + split; [done|]. exists l1, n, l2. by split_and!.
    + unfold sbind at 1. unfold sbind at 1. rewrite (sensors_run _ _ _ _ Hrun). cbn [sret]. apply (Hend (Some p)).
  - fold (new_type t). destruct (Z.ltb_spec MAX_CLIENTS (zlen l)) as [Hfull|Hroom].
    + exists None, t. split; [done|].
      rewrite (sbind_run _ _ _ None t); [apply (Hend None)|]. by eapply sensors_read, createClient_full.
    + assert (Hgeta : ClientList_getClient (Some a) (tk_sensors t) = Some (None, tk_sensors t)).
      { rewrite (getClient_run _ _ (Some a) Hl). by fold (client_at a l); rewrite Hat. }
      destruct (createClient_new_run _ l (Some a) id false false (new_type t) Hl Hroom Hgeta) as (s' & Hrun & Hl' & Hg & _).
      exists (Some (fresh_client (tk_sensors t))), (fset f_sensors s' t). split; [by split_and!|].
      rewrite (sbind_run _ _ _ _ _ (sensors_run _ _ _ _ Hrun)). apply (Hend (Some _)).
Qed.

(** A turn gets as far as the client's address when the packet is no broadcast and
    not refused. *)
Lemma turn_run t ty body a : sn_readable body -> zlen (sn_packet ty body) < 65536 -> 0 <= ty < 256 ->
  ty <> MQTTSN_ENCAPSULATED -> ad_isActive (tk_qosm1 t) = false ->
  ClientRecvTask_turn (zlen (sn_packet ty body)) (sn_packet ty body) a t =
    if (ty <=? MQTTSN_ADVERTISE) || (ty =? MQTTSN_GWINFO) then Some (tt, t)
    else if ty =? MQTTSN_SEARCHGW then Some (tt, queued (EtBroadcast (sn_object (sn_packet ty body))) t)
    else ClientRecvTask_dispatch (sn_object (sn_packet ty body)) None newWirelessNodeId a t.
Proof.
  intros Hb Hmax Hty Henc Hq. pose proof (readable_packet ty body Hb Hmax) as Hw. unfold ClientRecvTask_turn.
  rewrite (sbind_run _ _ _ _ _ (demand_run _ _ _ (recv_run _ Hw))). test_false (zlen (sn_packet ty body) <? 2).
  rewrite (sbind_run _ _ _ _ _ (demand_run _ _ _ (getType_run ty body Hb Hty))).
  destruct (_ || _); [done|]. destruct (ty =? MQTTSN_SEARCHGW); [apply post_packet_run|].
  rewrite (proj2 (Z.eqb_neq ty MQTTSN_ENCAPSULATED) Henc).
  rewrite (sbind_run _ _ _ false t); [done|]. unfold ClientRecvTask_refused.
  rewrite (sbind_run _ _ _ (tk_qosm1 t) t) by done. by rewrite Hq.
Qed.

(** *** Behind a forwarder *)

Definition forwarded_client (cl : Client) : Client := fset f_type Ctype_Forwarded (fset f_forwarded true cl).

(** A client is attached to a forwarder. *)
Lemma addClient_run s l1 l2 c n cl fs1 fs2 p f es id :
  clients_hold s (l1 ++ (c, n) :: l2) -> gw_clients (se_gw s) !! c = Some cl -> is_Some (cl_clientId cl) ->
  represents false false (se_forwarders s) (fs1 ++ (p, f) :: fs2) -> fwd_holds f es -> wn_len id < 256 ->
  exists s' f', Forwarder_addClient (Some p) (Some c) id s = Some (tt, s') /\
    clients_hold s' (l1 ++ (c, mkClientNode (cn_addr n) (cn_stable n) (Some p)) :: l2) /\
    se_gw s' = set_client c (forwarded_client cl) (se_gw s) /\
    represents false false (se_forwarders s') (fs1 ++ (p, f') :: fs2) /\ l_more f' = l_more f /\
    fwd_holds f' (if bool_decide (c ∈ es.*1) then es else es ++ [(c, wn_bytes id)]) /\
    dom (cells (se_forwarders s')) = dom (cells (se_forwarders s)).
Proof.
  intros Hl Hcl Hname Hr Hf Hid. unfold Forwarder_addClient, Client_setForwarder_to. cbn [arrow].
  destruct (set_node_run s l1 l2 c n (fun n => mkClientNode (cn_addr n) (cn_stable n) (Some p)) Hl)
    as (s1 & Hrun1 & Hl1 & Hg1 & Hf1).
  assert (Hcl1 : gw_clients (se_gw s1) !! c = Some cl) by by rewrite Hg1.
  pose proof (member_run c cl (forwarded_client cl) Client_setForwarder tt s1 Hcl1 eq_refl) as Hrun2.
  destruct (fwd_addElement_run Hheap f es c id Hf Hid) as (f' & Hadd & Hm & Hf').
  assert (Hr1 : represents false false (se_forwarders (put_client c (forwarded_client cl) s1)) (fs1 ++ (p, f) :: fs2)).
  { cbn [put_client se_forwarders]. by rewrite Hf1. }
  destruct (at_forwarder_run _ _ _ _ _ _ _ _ Hr1 Hadd) as (fw & Hat & Hr' & Hdom).
  eexists (fset f_forwarders fw _), f'. split; [|split; [|split; [|split; [exact Hr'|split; [done|split; [done|]]]]]].
  - unfold sbind at 1. unfold sbind at 1. rewrite Hrun1. cbn. rewrite Hrun2. unfold inside. cbn [fget f_forwarders].
    by rewrite Hat.
  - apply (put_client_hold s1 _ c cl); [done|done|done].
  - cbn. by rewrite Hg1.
  - cbn [fset f_forwarders se_forwarders]. rewrite Hdom. cbn [put_client se_forwarders]. by rewrite Hf1.
Qed.

(** The packet in its envelope, as the library sees it. *)
Lemma encapsulated_packet ctrl node inner : zlen node <= 252 ->
  encapsulated ctrl node inner = sn_packet MQTTSN_ENCAPSULATED (byte_of_Z ctrl :: node) ++ inner.
Proof.
  intros Hn. unfold encapsulated, sn_packet, sn_length, sn_size. rewrite length_cons.
  test_false (255 <? 1 + Z.of_nat (S (length node))).
  replace (1 + Z.of_nat (S (length node)) + 1) with (zlen node + 3) by lia. test_false (255 <? zlen node + 3).
  cbn. done.
Qed.

(** The forwarders of a state: the one at [p] holds these entries. *)
Definition forwarder_at (t : Tasks) (fs1 fs2 : elems Forwarder) (p : loc) (f : Forwarder) (es : list (loc * list byte)) : Prop :=
  represents false false (se_forwarders (tk_sensors t)) (fs1 ++ (p, f) :: fs2) /\ fwd_holds f es.

Lemma represents_member fw fs1 fs2 p (f : Forwarder) : represents false false (X := unit) fw (fs1 ++ (p, f) :: fs2) ->
  exists c, cells fw !! p = Some c /\ c_val c = f.
Proof. intros (_ & Hs & _). eapply seg_lookup; [exact Hs|]. apply elem_of_app. right. left. Qed.

Lemma at_forwarder_read {R} t fs1 fs2 p f es (m : step ForwarderElement ForwarderId R) r :
  forwarder_at t fs1 fs2 p f es -> m f = Some (r, f) ->
  sensors (inside f_forwarders (at_forwarder (Some p) m)) t = Some (r, t).
Proof.
  intros [Hr _] Hm. apply forwarders_read. destruct (represents_member _ _ _ _ _ Hr) as ([nx pr v] & Hc & Hv).
  cbn in Hv. subst v. unfold at_forwarder. rewrite Hc. cbn [c_val]. rewrite Hm. cbn [c_next c_prev].
  rewrite insert_id by done. by destruct (se_forwarders (tk_sensors t)).
Qed.

(** The forwarder an address belongs to. *)
Definition forwards (fs : elems Forwarder) (a : SensorNetAddress) : option loc :=
  fst <$> first_where (fun f => SensorNetAddress_isMatch (fw_addr (l_more f)) a) fs.

Lemma envelope_run t fs1 fs2 p f es a ctrl node inner : forwarder_at t fs1 fs2 p f es ->
  forwards (fs1 ++ (p, f) :: fs2) a = Some p -> zlen (fw_name (l_more f)) <= MAX_CLIENTID_LENGTH + 1 ->
  zlen node <= 252 -> 0 <= ctrl < 256 -> zlen (encapsulated ctrl node inner) < 65536 ->
  ClientRecvTask_turn (zlen (encapsulated ctrl node inner)) (encapsulated ctrl node inner) a t =
    ClientRecvTask_dispatch (sn_object inner) (Some p) (mkWirelessNodeId (Some node)) a t.
Proof.
  intros Hf Hfor Hname Hnode Hctrl Hmax. set (wire := encapsulated ctrl node inner) in *.
  assert (Hlen : 2 <= zlen wire < 65536) by (unfold wire in *; rewrite encapsulated_length in *; lia).
  assert (Hty : MQTTSNPacket_getType (sn_object wire) = Some (MQTTSN_ENCAPSULATED : Z)).
  { unfold wire. rewrite encapsulated_packet by done. apply (getType_more MQTTSN_ENCAPSULATED); [|done].
    unfold sn_readable. rewrite length_cons. lia. }
  unfold ClientRecvTask_turn. rewrite (sbind_run _ _ _ _ _ (demand_run _ _ _ (recv_run _ Hlen))). test_false (zlen wire <? 2).
  rewrite (sbind_run _ _ _ _ _ (demand_run _ _ _ Hty)).
  change ((MQTTSN_ENCAPSULATED <=? MQTTSN_ADVERTISE) || (MQTTSN_ENCAPSULATED =? MQTTSN_GWINFO)) with false.
  change (MQTTSN_ENCAPSULATED =? MQTTSN_SEARCHGW) with false. change (MQTTSN_ENCAPSULATED =? MQTTSN_ENCAPSULATED) with true.
  cbv iota. destruct Hf as [Hr Hes] eqn:E. clear E.
  rewrite (sbind_run _ _ _ (Some p) t); [|apply forwarders_read; rewrite (getForwarder_run _ _ _ Hr); by rewrite <- Hfor].
  rewrite (sbind_run _ _ _ (fw_name (l_more f)) t) by (by apply (at_forwarder_read _ fs1 fs2 p f es)).
  rewrite (sbind_run _ _ _ tt t) by (unfold log_name; by test_true (zlen (fw_name (l_more f)) <=? MAX_CLIENTID_LENGTH + 1)).
  rewrite (sbind_run _ _ _ _ _ (demand_run _ _ _ (desirialize_encapsulated Hheap ctrl node inner Hnode Hctrl ltac:(fold wire; lia)))).
  cbn [en_id en_mqttsn].
  assert (Hn : wn_len (mkWirelessNodeId (Some node)) < 256) by (unfold wn_len; cbn; lia).
  rewrite (sbind_run _ _ _ _ _ (demand_run _ _ _ (setId_from_run Hheap _ Hn))). cbn [wn_bytes wn_nodeId default from_option].
  erewrite sbind_run by (by apply (at_forwarder_read _ fs1 fs2 p f es), fwd_getClient_run).
  reflexivity.
Qed.

(** A client that is known by its identifier, or the one that is made. *)
Definition called (t : Tasks) l (id : list byte) (l1 l2 : elems ClientNode) (c : loc) (n : ClientNode) (cl : Client) : Prop :=
  match first_client (fun e => begins (se_gw (tk_sensors t)) id e.1) l with
  | Some p => c = p /\ l = l1 ++ (c, n) :: l2 /\ gw_clients (se_gw (tk_sensors t)) !! c = Some cl
  | None => c = fresh_client (tk_sensors t) /\ l1 = l /\ l2 = [] /\ n = mkClientNode newSensorNetAddress false None /\
      cl = created_client id false (new_type t)
  end.

Lemma called_run t l id : clients_hold (tk_sensors t) l -> zlen l <= MAX_CLIENTS ->
  let found := first_client (fun e => begins (se_gw (tk_sensors t)) id e.1) l in
  exists l1 l2 c n cl s, called t l id l1 l2 c n cl /\
    (if null found then sensors (ClientList_createClient_plain None id (new_type t)) else sret found) t =
      Some (Some c, fset f_sensors s t) /\
    clients_hold s (l1 ++ (c, n) :: l2) /\ gw_clients (se_gw s) !! c = Some cl /\ is_Some (cl_clientId cl) /\
    se_forwarders s = se_forwarders (tk_sensors t) /\
    (forall cl', set_client c cl' (se_gw s) = set_client c cl' (se_gw (tk_sensors t))).
Proof.
  intros Hl Hroom found. unfold called. fold found. destruct found as [c|] eqn:Hfind; cbn [null].
  - destruct (first_client_split _ _ _ Hfind) as (l1 & n & l2 & ->).
    destruct (clients_have_ids _ _ Hl c) as (cl & Hcl & Hname).
    { rewrite fmap_app. apply elem_of_app. right. left. }
    exists l1, l2, c, n, cl, (tk_sensors t). split_and!; try done. by destruct t.
  - destruct (createClient_new_run _ l None id false false (new_type t) Hl Hroom eq_refl) as (s' & Hrun & Hl' & Hg & Hfw & _).
    eexists l, [], _, _, _, s'. split; [by split_and!|]. split; [by apply sensors_run|]. split; [exact Hl'|].
    rewrite Hg. split_and!; [apply lookup_insert_eq| |done|].
    + unfold created_client. repeat case_match; by eexists.
    + intros cl'. unfold set_client. cbn. by rewrite insert_insert_eq.
Qed.

Lemma newClient_forwarded_run t l fs1 fs2 p f es packet connect a id node : clients_hold (tk_sensors t) l ->
  forwarder_at t fs1 fs2 p f es -> wn_len node < 256 ->
  MQTTSNPacket_getCONNECT packet = Some (1, connect) -> len (lenstring (sc_clientID connect)) = zlen id ->
  zlen id <= MAX_CLIENTID_LENGTH -> zlen l <= MAX_CLIENTS ->
  sn_bytes packet (data (lenstring (sc_clientID connect))) (len (lenstring (sc_clientID connect))) = Some id ->
  exists l1 l2 c n cl f' t', called t l id l1 l2 c n cl /\
    ClientRecvTask_newClient packet (Some p) node a t = Some (tt, queued (EtClientRecv c packet) t') /\
    clients_hold (tk_sensors t') (l1 ++ (c, mkClientNode (cn_addr n) (cn_stable n) (Some p)) :: l2) /\
    se_gw (tk_sensors t') = set_client c (forwarded_client cl) (se_gw (tk_sensors t)) /\
    forwarder_at t' fs1 fs2 p f' (if bool_decide (c ∈ es.*1) then es else es ++ [(c, wn_bytes node)]) /\ l_more f' = l_more f.
Proof.
  intros Hl [Hr Hes] Hnode Hget Hlen Hmax Hroom Hid. unfold ClientRecvTask_newClient.
  rewrite (sbind_run _ _ _ (tk_aggregater t) t) by done. rewrite (sbind_run _ _ _ _ _ (demand_run _ _ _ Hget)).
  cbn [Z.eqb]. rewrite (sbind_run _ _ _ _ _ (demand_run _ _ _ Hid)).
  rewrite (sbind_run _ _ _ (first_client (fun e => begins (se_gw (tk_sensors t)) id e.1) l) t)
    by by apply sensors_read, getClient_id_run.
  fold (new_type t). destruct (called_run t l id Hl Hroom) as (l1 & l2 & c & n & cl & s1 & Hcalled & Hrun1 & Hl1 & Hcl & Hname & Hfw & Hset).
  destruct (addClient_run s1 l1 l2 c n cl fs1 fs2 p f es node Hl1 Hcl Hname) as (s2 & f' & Hrun2 & Hl2 & Hg2 & Hr2 & Hm & Hes2 & _);
    [by rewrite Hfw|done|done|].
  exists l1, l2, c, n, cl, f', (fset f_sensors s2 t). split; [exact Hcalled|]. split; [|split; [exact Hl2|]].
  - unfold sbind at 1. unfold sbind at 1. rewrite Hrun1. unfold sbind at 1.
    rewrite (sensors_run _ (fset f_sensors s1 t) tt s2 Hrun2). cbn [sret]. unfold sbind.
    rewrite (log_id_run _ (zlen id)) by (done || lia). by test_true (zlen id <=? MAX_CLIENTID_LENGTH).
  - cbn [tk_sensors fset f_sensors]. rewrite Hg2, Hset. split; [done|]. by split.
Qed.

(** *** Sending *)

(** The cell of a client, read. *)
Lemma node_run t l1 l2 c n : clients_hold (tk_sensors t) (l1 ++ (c, n) :: l2) ->
  sensors (node (Some c)) t = Some (n, t).
Proof.
  intros [[(_ & Hs & _) _] _]. apply sensors_read.
  destruct (seg_lookup _ _ _ _ _ c n Hs) as ([nx pr v] & Hc & Hv); [apply elem_of_app; right; left|]. cbn in Hv. subst v.
  unfold node. rewrite (sbind_run _ _ _ (Cell nx pr n) (tk_sensors t)); [done|].
  apply inside_same; [apply f_list_same|]. unfold deref. cbn [fget f_list]. by rewrite Hc.
Qed.

Lemma unicast_plain now t l1 l2 c n cl packet : clients_hold (tk_sensors t) (l1 ++ (c, n) :: l2) ->
  cn_forwarder n = None -> gw_clients (se_gw (tk_sensors t)) !! c = Some cl ->
  cl_type cl <> Ctype_Proxy -> cl_type cl <> Ctype_Aggregater ->
  AdapterManager_unicastToClient now c packet t = Some ([Unicast (MQTTSNPacket_bytes packet) (cn_addr n)], t).
Proof.
  intros Hl Hfwd Hcl Hp Ha. unfold AdapterManager_unicastToClient. rewrite (sbind_run _ _ _ _ _ (node_run t l1 l2 c n Hl)), Hfwd.
  rewrite (sbind_run _ _ _ (bool_decide (cl_type cl = Ctype_Proxy)) t) by (by apply (gw_client_read c cl)).
  rewrite (sbind_run _ _ _ (bool_decide (cl_type cl = Ctype_Aggregater)) t) by (by apply (gw_client_read c cl)).
  by rewrite !bool_decide_eq_false_2.
Qed.

Lemma unicast_forwarded now t l1 l2 c n fs1 fs2 p f es packet node : clients_hold (tk_sensors t) (l1 ++ (c, n) :: l2) ->
  cn_forwarder n = Some p -> forwarder_at t fs1 fs2 p f es ->
  first_entry (fun e => bool_decide (e.1 = c)) es = Some (c, node) -> zlen node <= 252 ->
  zlen (encapsulated 0 node (MQTTSNPacket_bytes packet)) <= MQTTSNGW_MAX_PACKET_SIZE ->
  AdapterManager_unicastToClient now c packet t =
    Some ([Unicast (encapsulated 0 node (MQTTSNPacket_bytes packet)) (fw_addr (l_more f))], t).
Proof.
  intros Hl Hfwd Hf Hentry Hnode Hmax. unfold AdapterManager_unicastToClient.
  rewrite (sbind_run _ _ _ _ _ (node_run t l1 l2 c n Hl)), Hfwd.
  destruct Hf as [Hr Hes]. destruct (fwd_getWirelessNodeId_run f es c Hes) as (r & Hrun & Hres). rewrite Hentry in Hres.
  destruct r as [id|]; [|done]. cbn in Hres. injection Hres as Hid.
  rewrite (sbind_run _ _ _ (Some id) t) by (apply (at_forwarder_read _ fs1 fs2 p f es); done).
  rewrite (sbind_run _ _ _ id t) by done.
  assert (Hlen : wn_len id < 256) by (unfold wn_len; rewrite Hid; lia).
  unfold Encapsulated_setWirelessNodeId. rewrite (setId_from_run Hheap id Hlen), Hid. cbn [mbind option_bind newEncapsulated en_mqttsn en_ctrl].
  rewrite (sbind_run _ _ _ (mkEncapsulated (Some packet) (mkWirelessNodeId (Some node)) 0) t) by done.
  assert (Hn : wn_len (mkWirelessNodeId (Some node)) <= 252) by done.
  rewrite (unicast_run packet _ 0 Hn).
  cbv zeta. change (encapsulated 0 (wn_bytes (mkWirelessNodeId (Some node))) (default [] (gs_buf packet)))
    with (encapsulated 0 node (MQTTSNPacket_bytes packet)).
  test_true (zlen (encapsulated 0 node (MQTTSNPacket_bytes packet)) <=? MQTTSNGW_MAX_PACKET_SIZE).
  rewrite (sbind_run _ _ _ (encapsulated 0 node (MQTTSNPacket_bytes packet)) t) by done.
  rewrite (sbind_run _ _ _ (fw_addr (l_more f)) t) by (by apply (at_forwarder_read _ fs1 fs2 p f es)). done.
Qed.

(** *** Receiving from the broker *)

(** A packet of the broker that is handed on: its types are those a log entry
    exists for. *)
Definition logged (packet : MQTTGWPacket) : bool := negb (BrokerRecvTask_log (header_type (gp_header packet)) =? -1).

Lemma read_posts t c rc packet : 0 < rc ->
  BrokerRecvTask_read c rc packet t =
    Some (Some c, if logged packet then queued (EtBrokerRecv c packet) t else t).
Proof.
  intros Hrc. unfold BrokerRecvTask_read. test_true (0 <? rc).
  rewrite (sbind_run _ _ _ (header_type (gp_header packet)) t) by by apply gw_read.
  unfold logged. by destruct (BrokerRecvTask_log _ =? -1).
Qed.

(** What a client's socket has to say in a pass, if it says anything. *)
Definition news (g : Gateway) (arrived : loc -> option (Z * MQTTGWPacket)) (c : loc) : option (Z * MQTTGWPacket) :=
  match gw_clients g !! c with Some cl => if cl_networkValid cl then arrived c else None | None => None end.
Definition news_event (g : Gateway) (arrived : loc -> option (Z * MQTTGWPacket)) (c : loc) : option Event :=
  match news g arrived c with
  | Some (_, packet) => if logged packet then Some (EtBrokerRecv c packet) else None
  | None => None
  end.
Definition queued_all (evs : list Event) (t : Tasks) : Tasks := foldl (fun t ev => queued ev t) t evs.

Lemma broker_pass_run n arrived pr l t : seg true (cells (se_list (tk_sensors t))) pr l None -> (length l < n)%nat ->
  (forall c, c ∈ l.*1 -> is_Some (gw_clients (se_gw (tk_sensors t)) !! c)) ->
  (forall c rc packet, c ∈ l.*1 -> news (se_gw (tk_sensors t)) arrived c = Some (rc, packet) -> 0 < rc) ->
  broker_pass n arrived (head_loc l None) t =
    Some (tt, queued_all (omap (news_event (se_gw (tk_sensors t)) arrived) l.*1) t).
Proof.
  revert pr l t. induction n as [|n IH]; intros pr l t Hs Hn Hcl Hok; [lia|].
  destruct l as [|[c a] l]; [done|]. destruct Hs as [(q & _ & Hp) Hs]. cbn [head_loc broker_pass].
  destruct (Hcl c) as [cl Hc]; [left|].
  rewrite (sbind_run _ _ _ (cl_networkValid cl) t) by (by apply (gw_client_read c cl)).
  set (t1 := match news_event (se_gw (tk_sensors t)) arrived c with Some ev => queued ev t | None => t end).
  assert (Hread : match (if cl_networkValid cl then arrived c else None) with
    | Some (rc, packet) => BrokerRecvTask_read c rc packet | None => sret (Some c) end t = Some (Some c, t1)).
  { unfold t1, news_event. pose proof (fun rc packet => Hok c rc packet (list_elem_of_here _ _)) as Hc'. unfold news in *.
    rewrite Hc in *. destruct (if cl_networkValid cl then arrived c else None) as [[rc packet]|]; [|done].
    rewrite read_posts by by eapply Hc'. by destruct (logged packet). }
  rewrite (sbind_run _ _ _ _ _ Hread). cbn [null].
  assert (Hsame : se_list (tk_sensors t1) = se_list (tk_sensors t) /\
    gw_clients (se_gw (tk_sensors t1)) = gw_clients (se_gw (tk_sensors t))).
  { unfold t1. by destruct (news_event _ _ _). }
  destruct Hsame as [Hlist Hclients].
  rewrite (sbind_run _ _ _ (Cell (head_loc l None) q a) t1).
  2:{ apply sensors_read, inside_same; [apply f_list_same|]. unfold deref. cbn [fget f_list]. by rewrite Hlist, Hp. }
  cbn [c_next]. rewrite (IH (Some c) l t1); [|by rewrite Hlist|cbn in Hn; lia| |].
  - assert (Hev : forall k, news_event (se_gw (tk_sensors t1)) arrived k = news_event (se_gw (tk_sensors t)) arrived k)
      by (intros k; unfold news_event, news; by rewrite Hclients).
    rewrite (list_omap_ext _ (news_event (se_gw (tk_sensors t)) arrived) l.*1 l.*1) by (apply Forall_Forall2_diag, Forall_true, Hev).
    cbn [omap list_omap fmap list_fmap fst]. fold t1. unfold t1. by destruct (news_event _ _ c).
  - intros k Hk. rewrite Hclients. apply Hcl. by right.
  - intros k rc packet Hk. unfold news. rewrite Hclients. apply Hok. by right.
Qed.
End Runs.

(** ** Properties *)

Section Properties.
Context `{CharSign} `{ByteOrder} `{HeapSpace}.
Hypothesis Hheap : forall n, heap_has n = true.
Implicit Types (t : Tasks) (l : elems ClientNode) (a : SensorNetAddress).

(** a packet from an address a client has is handed to this client, whatever the
    packet is; announcements of gateways are ignored, a search for one is always
    handed on, and of the packets from unknown addresses only a CONNECT leads
    anywhere. *)
Theorem client_recv_spec t l ty body a : clients_hold (tk_sensors t) l -> sn_readable body ->
  zlen (sn_packet ty body) < 65536 -> 0 <= ty < 256 -> ty <> MQTTSN_ENCAPSULATED -> ad_isActive (tk_qosm1 t) = false ->
  let packet := sn_object (sn_packet ty body) in
  let turn := ClientRecvTask_turn (zlen (sn_packet ty body)) (sn_packet ty body) a t in
  (ty <= MQTTSN_ADVERTISE \/ ty = MQTTSN_GWINFO -> turn = Some (tt, t)) /\
  (ty = MQTTSN_SEARCHGW -> turn = Some (tt, queued (EtBroadcast packet) t)) /\
  (MQTTSN_ADVERTISE < ty -> ty <> MQTTSN_GWINFO -> ty <> MQTTSN_SEARCHGW ->
     match client_at a l with
     | Some c => turn = Some (tt, queued (EtClientRecv c packet) t)
     | None => ty <> MQTTSN_CONNECT -> turn = Some (tt, t)
     end).
Proof.
  intros Hl Hb Hmax Hty Henc Hq packet turn. unfold turn. rewrite turn_run by done.
  assert (Hle : (ty <=? MQTTSN_ADVERTISE) || (ty =? MQTTSN_GWINFO) = true <-> ty <= MQTTSN_ADVERTISE \/ ty = MQTTSN_GWINFO)
    by by rewrite orb_true_iff, Z.leb_le, Z.eqb_eq.
  split_and!.
  - intros Hi. by rewrite (proj2 Hle Hi).
  - intros ->. done.
  - intros Ha Hg Hs. destruct (_ || _); [destruct (proj1 Hle eq_refl); [lia|done]|].
    rewrite (proj2 (Z.eqb_neq ty MQTTSN_SEARCHGW) Hs).
    rewrite (dispatch_run t l _ None _ a ty Hl (getType_run ty body Hb Hty)). destruct (client_at a l); [done|].
    intros Hc. by rewrite (proj2 (Z.eqb_neq ty MQTTSN_CONNECT) Hc).
Qed.

(** C22: a CONNECT from an unknown address is for the first client whose identifier
    begins with the one given, which moves to this address, or for a new client,
    unless the list is full; an identifier of more than 64 characters is written
    beyond an array before that is noticed. *)
Theorem connect_received t l a clean will duration id : clients_hold (tk_sensors t) l ->
  let body := sn_connect_body clean will duration id in
  let wire := sn_packet MQTTSN_CONNECT body in
  sn_readable body -> zlen wire < 65536 -> 0 <= duration < 65536 -> ad_isActive (tk_qosm1 t) = false ->
  client_at a l = None ->
  if zlen id <=? MAX_CLIENTID_LENGTH then
    exists c t', ClientRecvTask_turn (zlen wire) wire a t = 
        Some (tt, match c with Some p => queued (EtClientRecv p (sn_object wire)) t' | None => t' end) /\
      taken t l a id c t'
  else ClientRecvTask_turn (zlen wire) wire a t = None.
Proof.
  intros Hl body wire Hb Hmax Hd Hq Hat. destruct (getCONNECT_id clean will duration id Hb Hd) as (connect & Hget & Hlen & Hid).
  destruct (newClient_run t l _ connect a id Hl Hat Hget Hlen Hid) as (c & t' & Ht & Hrun).
  assert (Hturn : ClientRecvTask_turn (zlen wire) wire a t =
    ClientRecvTask_newClient (sn_object wire) None newWirelessNodeId a t).
  { unfold wire. rewrite (turn_run Hheap t MQTTSN_CONNECT body a) by done.
    change ((MQTTSN_CONNECT <=? MQTTSN_ADVERTISE) || (MQTTSN_CONNECT =? MQTTSN_GWINFO)) with false.
    change (MQTTSN_CONNECT =? MQTTSN_SEARCHGW) with false. cbv iota.
    rewrite (dispatch_run t l _ None _ a MQTTSN_CONNECT Hl (getType_run MQTTSN_CONNECT body Hb ltac:(done))), Hat. done. }
  rewrite Hturn. unfold wire, body. rewrite Hrun. destruct (zlen id <=? MAX_CLIENTID_LENGTH); [|done]. by exists c, t'.
Qed.

(** C23: behind a forwarder a CONNECT attaches the client to the forwarder, with its
    node, unless the client was attached before; every other packet a forwarder
    passes on is dropped. *)
Theorem forwarded_received t l fs1 fs2 p f es a ctrl node : clients_hold (tk_sensors t) l ->
  forwarder_at t fs1 fs2 p f es -> forwards (fs1 ++ (p, f) :: fs2) a = Some p ->
  zlen (fw_name (l_more f)) <= MAX_CLIENTID_LENGTH + 1 -> zlen node <= 252 -> 0 <= ctrl < 256 -> client_at a l = None ->
  (forall ty body, let wire := encapsulated ctrl node (sn_packet ty body) in
     sn_readable body -> 0 <= ty < 256 -> zlen wire < 65536 -> ty <> MQTTSN_CONNECT ->
     ClientRecvTask_turn (zlen wire) wire a t = Some (tt, t)) /\
  (forall clean will duration id, let body := sn_connect_body clean will duration id in
     let wire := encapsulated ctrl node (sn_packet MQTTSN_CONNECT body) in
     sn_readable body -> 0 <= duration < 65536 -> zlen wire < 65536 -> zlen id <= MAX_CLIENTID_LENGTH -> zlen l <= MAX_CLIENTS ->
     exists l1 l2 c n cl f' t', called t l id l1 l2 c n cl /\
       ClientRecvTask_turn (zlen wire) wire a t = Some (tt, queued (EtClientRecv c (sn_object (sn_packet MQTTSN_CONNECT body))) t') /\
       clients_hold (tk_sensors t') (l1 ++ (c, mkClientNode (cn_addr n) (cn_stable n) (Some p)) :: l2) /\
       se_gw (tk_sensors t') = set_client c (forwarded_client cl) (se_gw (tk_sensors t)) /\
       forwarder_at t' fs1 fs2 p f' (if bool_decide (c ∈ es.*1) then es else es ++ [(c, node)])).
Proof.
  intros Hl Hf Hfor Hname Hnode Hctrl Hat. split.
  - intros ty body wire Hb Hty Hmax Hne. unfold wire. rewrite (envelope_run Hheap t fs1 fs2 p f es a ctrl node _ Hf) by done.
    rewrite (dispatch_run t l _ _ _ a ty Hl (getType_run ty body Hb Hty)), Hat.
    by rewrite (proj2 (Z.eqb_neq ty MQTTSN_CONNECT) Hne).
  - intros clean will duration id body wire Hb Hd Hmax Hid Hroom.
    destruct (getCONNECT_id clean will duration id Hb Hd) as (connect & Hget & Hlen & Hbytes).
    assert (Hn : wn_len (mkWirelessNodeId (Some node)) < 256) by (unfold wn_len; cbn; lia).
    destruct (newClient_forwarded_run Hheap t l fs1 fs2 p f es _ connect a id _ Hl Hf Hn Hget Hlen Hid Hroom Hbytes)
      as (l1 & l2 & c & n & cl & f' & t' & Hcalled & Hrun & Hl' & Hg & Hf' & _).
    exists l1, l2, c, n, cl, f', t'. split; [exact Hcalled|]. split; [|by split_and!].
    unfold wire. rewrite (envelope_run Hheap t fs1 fs2 p f es a ctrl node _ Hf) by done.
    rewrite (dispatch_run t l _ _ _ a MQTTSN_CONNECT Hl (getType_run MQTTSN_CONNECT body Hb ltac:(done))), Hat. exact Hrun.
Qed.

(** C24: a packet for a client goes to its address as it is, or, for a client behind
    a forwarder, to the forwarder's address, in an envelope with the client's
    node, which the receiver unwraps to the node and the packet. *)
Theorem client_send_spec now t l1 l2 c n packet : clients_hold (tk_sensors t) (l1 ++ (c, n) :: l2) ->
  let data := MQTTSNPacket_bytes packet in
  (forall cl, gw_clients (se_gw (tk_sensors t)) !! c = Some cl -> cn_forwarder n = None ->
     cl_type cl <> Ctype_Proxy -> cl_type cl <> Ctype_Aggregater ->
     client_send_event now (EtClientSend c packet) t = Some ([Unicast data (cn_addr n)], t)) /\
  (forall fs1 fs2 p f es node, cn_forwarder n = Some p -> forwarder_at t fs1 fs2 p f es ->
     first_entry (fun e => bool_decide (e.1 = c)) es = Some (c, node) -> zlen node <= 252 ->
     zlen data + zlen node + 3 <= MQTTSNGW_MAX_PACKET_SIZE ->
     exists wire, client_send_event now (EtClientSend c packet) t = Some ([Unicast wire (fw_addr (l_more f))], t) /\
       exists e, MQTTSNGWEncapsulatedPacket_desirialize wire (zlen wire) = Some (3 + zlen node, e) /\
         wn_bytes (en_id e) = node /\ encap_data e = data).
Proof.
  intros Hl data. split.
  - intros cl Hcl Hfwd Hp Ha. by eapply unicast_plain.
  - intros fs1 fs2 p f es node Hfwd Hf Hentry Hnode Hmax. exists (encapsulated 0 node data).
    assert (Hlen : zlen (encapsulated 0 node data) <= MQTTSNGW_MAX_PACKET_SIZE) by (rewrite encapsulated_length; lia).
    split; [by eapply unicast_forwarded|]. eexists. split; [|split; [|]].
    + apply (desirialize_encapsulated Hheap); [done|done|unfold MQTTSNGW_MAX_PACKET_SIZE in *; lia].
    + done.
    + done.
Qed.

(** one pass over the connections to the broker hands on what they deliver, in
    the order of the clients, each packet for the client whose connection it came
    on. *)
Theorem broker_recv_spec t l arrived : clients_hold (tk_sensors t) l ->
  (forall c rc packet, c ∈ l.*1 -> news (se_gw (tk_sensors t)) arrived c = Some (rc, packet) -> 0 < rc) ->
  BrokerRecvTask_turn arrived t =
    Some (tt, queued_all (omap (news_event (se_gw (tk_sensors t)) arrived) l.*1) t).
Proof.
  intros Hl Hok. destruct (clients_hold_seg _ _ Hl) as (_ & Hs & Hf & Hlen). unfold BrokerRecvTask_turn. rewrite Hf.
  eapply broker_pass_run; [exact Hs|exact Hlen| |exact Hok].
  intros c Hc. destruct (clients_have_ids _ _ Hl c Hc) as (cl & Hcl & _). by exists cl.
Qed.

(** when the broker closes the connection of a client that may be erased, the
    client is deleted at once: an event for it that still waits makes the packet
    task use the deleted object. *)
Theorem erased_client_dangles `{PointerBytes} `{GatewayParams} t l1 l2 c n cl packet :
  clients_hold (tk_sensors t) (l1 ++ (c, n) :: l2) -> gw_clients (se_gw (tk_sensors t)) !! c = Some cl ->
  cn_forwarder n = None -> l_more (se_list (tk_sensors t)) = false -> erasable_client cl = true -> 
  exists t', BrokerRecvTask_read c 0 packet t = Some (None, t') /\ clients_hold (tk_sensors t') (l1 ++ l2) /\
    eq_events (gw_packetEventQue (se_gw (tk_sensors t'))) = eq_events (gw_packetEventQue (se_gw (tk_sensors t))) /\
    forall ev, event_client ev = Some c -> handle_event ev (se_gw (tk_sensors t')) = None.
Proof.
  intros Hl Hcl Hfwd Hauth Her. set (cl' := fset f_networkValid false cl).
  destruct (clients_have_ids _ _ Hl c) as (cl0 & Hcl0 & Hname); [rewrite fmap_app; apply elem_of_app; right; left|].
  rewrite Hcl in Hcl0. injection Hcl0 as <-.
  pose proof (put_client_hold (tk_sensors t) _ c cl cl' Hl Hcl Hname) as Hl'.
  assert (Hcl' : gw_clients (se_gw (put_client c cl' (tk_sensors t))) !! c = Some cl') by apply lookup_insert_eq.
  destruct (erase_run _ l1 l2 c n cl' Hl' Hcl' Hfwd Hauth Her) as (s' & Hrun & Hl'' & Hg & _).
  exists (fset f_sensors s' t). split; [|split; [exact Hl''|]].
  - unfold BrokerRecvTask_read. change (0 <? 0) with false. change (0 =? 0) with true. cbv iota.
    rewrite (sbind_run _ _ _ tt (fset f_sensors (put_client c cl' (tk_sensors t)) t)).
    2:{ apply sensors_run, (member_run c cl cl' (put f_networkValid false) tt); done. }
    by rewrite (sensors_run _ (fset f_sensors (put_client c cl' (tk_sensors t)) t) None s' Hrun).
  - cbn [tk_sensors fset f_sensors]. rewrite Hg. split; [done|].
    assert (Hnone : gw_clients (without c (se_gw (put_client c cl' (tk_sensors t)))) !! c = None) by apply lookup_delete_eq.
    intros [| |k packet'|k packet'|k packet'|k packet'|packet'] Hev; try done; injection Hev as ->; cbn [handle_event].
    + unfold sbind, client. by rewrite Hnone.
    + unfold isAggregatedClient, sbind, client. by rewrite Hnone.
Qed.
End Properties.

(** ** Witnesses *)

Section Sample.
#[local] Existing Instance little_endian_order.
#[local] Existing Instance ample_heap.
#[local] Instance entrance_char : CharSign := true.
#[local] Instance entrance_pointers : PointerBytes := fun _ => 65535.
#[local] Existing Instance sample_params.

(** The clients "ab" and "b". *)
Definition sample_tasks : Tasks := mkTasks sample_clients newAdapter newAdapter.

Lemma client_recv_spec_witness :
  ClientRecvTask_turn 2 (sn_packet MQTTSN_PINGREQ []) (mkAddress 2 2) sample_tasks =
    Some (tt, queued (EtClientRecv (fresh_client sample_one) ping) sample_tasks).
Proof.
  destruct (client_recv_spec (fun _ => eq_refl) sample_tasks sample_nodes MQTTSN_PINGREQ [] (mkAddress 2 2) sample_clients_hold)
    as (_ & _ & Hrecv); [by split|done|done|done|done|].
  exact (Hrecv eq_refl ltac:(done) ltac:(done)).
Defined.

(** The identifier "a" takes the client "ab" over. *)
Lemma connect_received_witness :
  let wire := sn_packet MQTTSN_CONNECT (sn_connect_body 1 0 60 (lit "a")) in
  exists c t', ClientRecvTask_turn (zlen wire) wire (mkAddress 3 3) sample_tasks =
      Some (tt, match c with Some p => queued (EtClientRecv p (sn_object wire)) t' | None => t' end) /\
    taken sample_tasks sample_nodes (mkAddress 3 3) (lit "a") c t'.
Proof.
  refine (connect_received (fun _ => eq_refl) sample_tasks sample_nodes (mkAddress 3 3) 1 0 60 (lit "a") sample_clients_hold _ _ _ _ _).
  - by split.
  - done.
  - done.
  - done.
  - reflexivity.
Defined.

(** A gateway without clients but with a forwarder. *)
Definition sample_behind : Tasks :=
  mkTasks (mkSensors (newGateway newTopics) newClientList sample_forwarders) newAdapter newAdapter.

Lemma sample_behind_hold : clients_hold (tk_sensors sample_behind) [].
Proof. exact (newSensors_hold newTopics). Qed.

Lemma sample_behind_forwarder : forwarder_at sample_behind [] [] 1 sample_forwarder sample_entries.
Proof.
  split; [|exact sample_forwarder_holds]. split; [apply list.NoDup_singleton|]. split; [|done]. split; [by exists None|done].
Qed.

Lemma forwarded_received_witness :
  ClientRecvTask_turn 6 (encapsulated 0 (map byte_of_Z [9]) (sn_packet MQTTSN_PINGREQ [])) (mkAddress 1 2) sample_behind =
    Some (tt, sample_behind).
Proof.
  destruct (forwarded_received (fun _ => eq_refl) sample_behind [] [] [] 1 sample_forwarder sample_entries (mkAddress 1 2) 0
    (map byte_of_Z [9]) sample_behind_hold sample_behind_forwarder) as [Hdrop _]; [done|done|done|done|done|].
  apply (Hdrop MQTTSN_PINGREQ []); [by split|done|done|done].
Defined.

Lemma client_send_spec_witness :
  client_send_event 0 (EtClientSend (fresh_client sample_one) ping) sample_tasks =
    Some ([Unicast (MQTTSNPacket_bytes ping) (mkAddress 2 2)], sample_tasks).
Proof.
  destruct (client_send_spec (fun _ => eq_refl) 0 sample_tasks [(fresh_client (newSensors newTopics), mkClientNode (mkAddress 1 1) false None)]
    [] (fresh_client sample_one) (mkClientNode (mkAddress 2 2) false None) ping sample_clients_hold) as [Hplain _].
  apply (Hplain (created_client (lit "b") false TRANSPEARENT_TYPE)); [vm_compute; reflexivity|done|done|done].
Defined.

(** The client "b", connected with a clean session. *)
Definition sample_connected : Client :=
  fset f_sessionStatus true (fset f_networkValid true (created_client (lit "b") false TRANSPEARENT_TYPE)).
Definition sample_online : Tasks := mkTasks (put_client (fresh_client sample_one) sample_connected sample_clients) newAdapter newAdapter.

Lemma sample_online_hold : clients_hold (tk_sensors sample_online) sample_nodes.
Proof.
  apply (put_client_hold sample_clients sample_nodes _ (created_client (lit "b") false TRANSPEARENT_TYPE));
    [exact sample_clients_hold|vm_compute; reflexivity|by eexists].
Qed.

Definition sample_puback : MQTTGWPacket := mkMQTTGWPacket (mqtt_header PUBACK 0 0 0) 2 (Owned (int_bytes 7)).

Lemma broker_recv_spec_witness :
  BrokerRecvTask_turn (fun _ => Some (4, sample_puback)) sample_online =
    Some (tt, queued (EtBrokerRecv (fresh_client sample_one) sample_puback) sample_online).
Proof.
  assert (Hev : omap (news_event (se_gw (tk_sensors sample_online)) (fun _ => Some (4, sample_puback))) sample_nodes.*1 =
    [EtBrokerRecv (fresh_client sample_one) sample_puback]) by (vm_compute; reflexivity).
  rewrite (broker_recv_spec sample_online sample_nodes (fun _ => Some (4, sample_puback)) sample_online_hold), Hev; [reflexivity|].
  intros c rc packet _. unfold news. destruct (gw_clients _ !! c) as [cl|]; [|done]. destruct (cl_networkValid cl); [|done].
  by intros [= <- _].
Defined.

Lemma erased_client_dangles_witness : exists t',
  BrokerRecvTask_read (fresh_client sample_one) 0 newMQTTGWPacket sample_online = Some (None, t') /\
  handle_event (EtClientRecv (fresh_client sample_one) ping) (se_gw (tk_sensors t')) = None.
Proof.
  destruct (erased_client_dangles sample_online [(fresh_client (newSensors newTopics), mkClientNode (mkAddress 1 1) false None)] []
    (fresh_client sample_one) (mkClientNode (mkAddress 2 2) false None) sample_connected newMQTTGWPacket sample_online_hold)
    as (t' & Hrun & _ & _ & Hnone).
  - apply lookup_insert_eq.
  - done.
  - vm_compute. reflexivity.
  - reflexivity.
  - exists t'. split; [exact Hrun|]. by apply Hnone.
Defined.
End Sample.
