(* ===== verification/GWSystem.v ===== *)
(** * The gateway as a whole: its tasks, one turn after the other

    The turns of the tasks that handle packets, send and receive on both sides and
    check the adapters, in any order, from the state that the configuration sets
    up; what holds in every state. *)

From S2P Require Import Prelude CMem MQTTPacket SNPacket SNPublish SNConnect SNSubscribe GWHeap GWTables GWTopic GWPacket GWSNPacket GWClient GWGateway GWConnect GWPublish GWSubscribe GWTask GWEncap GWStrings GWSensorNet GWForwarder GWClientList GWConfig GWAdapter GWEntrance.

(** ** Who a client is *)

(** No handler makes or deletes a client, renames one or detaches it from its
    forwarder. *)
Definition same_client (cl cl' : Client) : Prop :=
  cl_clientId cl' = cl_clientId cl /\ cl_forwarded cl' = cl_forwarded cl.
Definition lasting (g g' : Gateway) : Prop :=
  forall c, option_Forall2 same_client (gw_clients g !! c) (gw_clients g' !! c).

Definition client_lasts {R} (m : st Client R) : Prop := forall cl r cl', m cl = Some (r, cl') -> same_client cl cl'.
Definition lasts {R} (m : st Gateway R) : Prop := forall g r g', m g = Some (r, g') -> lasting g g'.

Create HintDb lasts.

#[export] Instance same_client_preorder : PreOrder same_client.
Proof. split; [by intros ?|]. intros ??? [E1 E2] [E3 E4]. split; congruence. Qed.

#[export] Instance lasting_preorder : PreOrder lasting.
Proof.
  split.
  - intros g c. destruct (gw_clients g !! c); constructor. done.
  - intros g1 g2 g3 H12 H23 c. specialize (H12 c). specialize (H23 c).
    destruct H12; inversion H23; subst; constructor. by etrans.
Qed.

Lemma lasting_same g g' : gw_clients g' = gw_clients g -> lasting g g'.
Proof. intros E c. rewrite E. destruct (gw_clients g !! c); constructor. done. Qed.

Lemma lasting_set g c cl cl' : gw_clients g !! c = Some cl -> same_client cl cl' -> lasting g (set_client c cl' g).
Proof.
  intros Hc Hs k. cbn [set_client gw_clients]. rewrite lookup_insert. case_decide as E.
  - subst k. rewrite Hc. by constructor.
  - destruct (gw_clients g !! k); constructor. done.
Qed.

Section Walk.
Lemma client_lasts_bind {R Q} (m : st Client R) (k : R -> st Client Q) :
  client_lasts m -> (forall r, client_lasts (k r)) -> client_lasts (sbind m k).
Proof. intros Hm Hk cl q cl' (r & cl1 & E1 & E2)%sbind_inv. etrans; [by eapply Hm|by eapply Hk]. Qed.
Lemma client_lasts_ret {R} (r : R) : client_lasts (sret r).
Proof. by intros cl ? ? [= _ <-]. Qed.
Lemma client_lasts_undefined {R} : client_lasts (undefined (R := R)).
Proof. by intros ???. Qed.
Lemma client_lasts_demand {R} (o : option R) : client_lasts (demand o).
Proof. intros cl r cl' ->%demand_pure. done. Qed.
Lemma client_lasts_the {T} (f : field Client T) : client_lasts (the f).
Proof. by intros cl ? ? [= _ <-]. Qed.
Lemma client_lasts_put {T} (f : field Client T) x : (forall cl, same_client cl (fset f x cl)) -> client_lasts (put f x).
Proof. intros Hf cl r cl' [= _ <-]. apply Hf. Qed.
Lemma client_lasts_inside {T R} (f : field Client T) (m : st T R) :
  (forall cl x, same_client cl (fset f x cl)) -> client_lasts (inside f m).
Proof. intros Hf cl r cl'. unfold inside. destruct (m _) as [[r1 x]|]; [|done]. intros [= _ <-]. apply Hf. Qed.

Lemma lasts_bind {R Q} (m : st Gateway R) (k : R -> st Gateway Q) : lasts m -> (forall r, lasts (k r)) -> lasts (sbind m k).
Proof. intros Hm Hk g q g' (r & g1 & E1 & E2)%sbind_inv. etrans; [by eapply Hm|by eapply Hk]. Qed.
Lemma lasts_ret {R} (r : R) : lasts (sret r).
Proof. by intros g ? ? [= _ <-]. Qed.
Lemma lasts_undefined {R} : lasts (undefined (R := R)).
Proof. by intros ???. Qed.
Lemma lasts_demand {R} (o : option R) : lasts (demand o).
Proof. intros g r g' ->%demand_pure. done. Qed.
Lemma lasts_client {R} c (m : st Client R) : client_lasts m -> lasts (client c m).
Proof.
  intros Hm g r g'. unfold client. destruct (gw_clients g !! c) as [cl|] eqn:E; [|done].
  destruct (m cl) as [[r1 cl1]|] eqn:Em; [|done]. intros [= _ <-]. eapply lasting_set; [done|by eapply Hm].
Qed.
Lemma lasts_inside {T R} (f : field Gateway T) (m : st T R) :
  (forall g x, gw_clients (fset f x g) = gw_clients g) -> lasts (inside f m).
Proof. intros Hf g r g'. unfold inside. destruct (m _) as [[r1 x]|]; [|done]. intros [= _ <-]. apply lasting_same, Hf. Qed.
Lemma lasts_post (q : field Gateway EventQue) ev : (forall g x, gw_clients (fset q x g) = gw_clients g) -> lasts (post q ev).
Proof. intros Hq g r g' [= _ <-]. apply lasting_same, Hq. Qed.
Lemma lasts_put {T} (q : field Gateway T) x : (forall g x, gw_clients (fset q x g) = gw_clients g) -> lasts (put q x).
Proof. intros Hq g r g' [= _ <-]. apply lasting_same, Hq. Qed.
Lemma lasts_the {T} (f : field Gateway T) : lasts (the f).
Proof. by intros g ? ? [= _ <-]. Qed.
End Walk.

#[export] Hint Resolve client_lasts_ret client_lasts_undefined client_lasts_demand client_lasts_the
  lasts_ret lasts_undefined lasts_demand lasts_the : lasts.
#[export] Hint Extern 1 (client_lasts (put _ _)) => apply client_lasts_put; intros; by split : lasts.
#[export] Hint Extern 1 (client_lasts (inside _ _)) => apply client_lasts_inside; intros; by split : lasts.
#[export] Hint Extern 1 (lasts (inside _ _)) => apply lasts_inside; done : lasts.
#[export] Hint Extern 1 (lasts (post _ _)) => apply lasts_post; done : lasts.
#[export] Hint Extern 1 (lasts (put _ _)) => apply lasts_put; done : lasts.

Ltac lasts_step :=
  match goal with
  | |- lasts (sbind _ _) => apply lasts_bind; [|intros]
  | |- client_lasts (sbind _ _) => apply client_lasts_bind; [|intros]
  | |- lasts (client _ _) => apply lasts_client
  | |- lasts (post (match ?x with _ => _ end) _) => destruct x
  | |- lasts (match ?x with _ => _ end) => destruct x
  | |- client_lasts (match ?x with _ => _ end) => destruct x
  | |- _ => progress cbv beta zeta
  end.
Ltac walk_lasts := repeat (autounfold with lasts; repeat lasts_step); eauto with lasts.

#[export] Hint Unfold Client_getWaitedPubTopicId Client_getWaitedSubTopicId Client_eraseWaitedPubTopicId
  Client_eraseWaitedSubTopicId Client_clearWaitedPubTopicId Client_clearWaitedSubTopicId Client_setWaitedPubTopicId
  Client_setWaitedSubTopicId Client_getClientSleepPacket Client_deleteFirstClientSleepPacket Client_setClientSleepPacket
  Client_isDisconnect Client_isActive Client_isSleep Client_isAwake Client_isConnecting Client_connectSended
  Client_disconnected Client_connackSended Client_tryConnect Client_isConnectSendable Client_setKeepAlive start_keepAlive
  Client_updateStatus Client_updateStatus_to Client_setSessionStatus Client_getNextPacketId Client_getNextSnMsgId
  Client_setWaitWillMsgFlg Client_isWaitWillMsg Client_setWillTopic Client_setWillMsg is_type Client_isQoSm1Proxy
  Client_isForwarded Client_isAggregated Client_isAggregater Client_isQoSm1 Client_isAdapter Client_holdPingRequest
  Client_resetPingRequest new_sn new_gw read_gw send_client send_broker sendADVERTISE handleSearchgw clean_tables wake_up
  MQTTSN_handleConnect string_of MQTTSN_handleWilltopic MQTTSN_handleWillmsg MQTTSN_handleDisconnect MQTTSN_handleWillmsgupd
  has_stored MQTTSN_handlePingreq Aggregate_handleConnect Aggregate_handleWillmsg Aggregate_handleDisconnect
  Aggregate_handlePingreq MQTTGW_handleConnack MQTTGW_handlePingresp savePacket find_topic MQTTSN_handlePublish
  MQTTSN_handlePuback MQTTSN_handleAck is_reachable MQTTSN_handleRegister MQTTSN_handleRegAck aggregated_msgId with_msgId
  MQTTSN_handleAggregatePublish MQTTSN_handleAggregateAck MQTTGW_replyACK reply_for_qos copy_packet read_publish save_publish
  register_and_wait MQTTGW_handlePublish read_ack MQTTGW_handlePuback MQTTGW_handleAck MQTTGW_handleAggregatePuback
  MQTTGW_handleAggregateAck MQTTGW_handleAggregatePubrel MQTTGW_handleAggregatePublish forward_request topic_for_filter
  MQTTSN_handleSubscribe MQTTSN_handleUnsubscribe forward_aggregated MQTTSN_handleAggregateSubscribe
  MQTTSN_handleAggregateUnsubscribe MQTTGW_handleSuback MQTTGW_handleUnsuback MQTTGW_handleAggregateSuback
  forward_publish forward_subscribe convert waited MQTTGW_handleAggregateUnsuback ignore isAggregatedClient adapter_client : lasts.

Section Handlers.
Context `{CharSign} `{ByteOrder} `{HeapSpace} `{PointerBytes} `{GatewayParams}.

Lemma lasts_sendStored_loop n c : lasts (sendStoredPublish_loop n c).
Proof. induction n as [|n IH]; cbn [sendStoredPublish_loop]; walk_lasts. Qed.
Lemma lasts_sendStored c : lasts (sendStoredPublish c).
Proof. intros g r g'. unfold sendStoredPublish. destruct (gw_clients g !! c); [|done]. apply lasts_sendStored_loop. Qed.
#[local] Hint Resolve lasts_sendStored : lasts.

Lemma lasts_sn c packet : lasts (transparentPacketHandler_sn c packet) /\ lasts (aggregatePacketHandler_sn c packet).
Proof. unfold transparentPacketHandler_sn, aggregatePacketHandler_sn. split; walk_lasts. Qed.

Lemma lasts_gw c packet : lasts (transparentPacketHandler_gw c packet) /\ lasts (aggregatePacketHandler_gw c packet).
Proof.
  unfold transparentPacketHandler_gw, aggregatePacketHandler_gw.
  split; walk_lasts.
Qed.

Lemma lasts_handle_event ev : lasts (handle_event ev).
Proof.
  destruct ev as [| |c packet|c packet|c packet|c packet|packet]; cbn [handle_event]; walk_lasts;
    first [apply lasts_sn|apply lasts_gw].
Qed.

Lemma lasts_broker_send connected sent ev : lasts (broker_send_event connected sent ev).
Proof. destruct ev as [| |c packet|c packet|c packet|c packet|packet]; cbn [broker_send_event]; walk_lasts. Qed.

Lemma lasts_advertise : lasts sendADVERTISE.
Proof. walk_lasts. Qed.
End Handlers.

(** ** The clients and forwarders *)

Definition forwarders_ok (fw : ForwarderList) : Prop :=
  exists fs, owns false false fw fs /\ Forall (fun e => exists es, fwd_holds e.2 es) fs.

(** A client behind a forwarder knows that it is. *)
Definition attached (g : Gateway) (l : elems ClientNode) : Prop :=
  forall p n, (p, n) ∈ l -> cn_forwarder n <> None -> exists cl, gw_clients g !! p = Some cl /\ cl_forwarded cl = true.

Definition sensors_inv (s : Sensors) : Prop :=
  gateway_ok (se_gw s) /\ forwarders_ok (se_forwarders s) /\ exists l, clients_hold s l /\ attached (se_gw s) l.

Definition se_keeps {R} (m : st Sensors R) : Prop :=
  forall s r s', sensors_inv s -> m s = Some (r, s') -> sensors_inv s'.

Create HintDb sensors.

Section SensorsKeep.
Context `{CharSign} `{ByteOrder} `{HeapSpace}.
Hypothesis Hheap : forall n, heap_has n = true.
Implicit Types (s : Sensors) (l : elems ClientNode).

Lemma se_keeps_bind {R Q} (m : st Sensors R) (k : R -> st Sensors Q) :
  se_keeps m -> (forall r, se_keeps (k r)) -> se_keeps (sbind m k).
Proof. intros Hm Hk s q s' Hs (r & s1 & E1 & E2)%sbind_inv. eapply Hk; [|exact E2]. by eapply Hm. Qed.

Lemma se_keeps_pure {R} (m : st Sensors R) : (forall s r s', sensors_inv s -> m s = Some (r, s') -> s' = s) -> se_keeps m.
Proof. intros Hm s r s' Hs E. by rewrite (Hm _ _ _ Hs E). Qed.

Lemma se_keeps_ret {R} (r : R) : se_keeps (sret r).
Proof. by intros s ? ? Hs [= _ <-]. Qed.
Lemma se_keeps_undefined {R} : se_keeps (undefined (R := R)).
Proof. by intros ????. Qed.
Lemma se_keeps_demand {R} (o : option R) : se_keeps (demand o).
Proof. intros s r s' Hs ->%demand_pure. done. Qed.

(** What the handlers do. *)
Definition ok_keeps {R} (m : st Gateway R) : Prop := forall g r g', gateway_ok g -> m g = Some (r, g') -> gateway_ok g'.
Lemma keeps_ok {R} S (m : st Gateway R) : keeps S m -> ok_keeps m.
Proof. intros Hm g r g' Hg E. by eapply Hm. Qed.

Lemma lasting_hold s g' l : lasting (se_gw s) g' -> clients_hold s l -> attached (se_gw s) l ->
  clients_hold (fset f_gw g' s) l /\ attached g' l.
Proof.
  intros Hlast (Ho & Hcnt & Hmax & Hdom & Hids) Hatt. split.
  - split_and!; try done; cbn [fset f_gw se_gw].
    + rewrite <- Hdom. apply set_eq. intros k. rewrite !elem_of_dom. specialize (Hlast k).
      destruct Hlast; [|done]. split; by eexists.
    + intros p cl Hp. specialize (Hlast p). rewrite Hp in Hlast. inversion Hlast as [cl0 ? [Hn _] E|]; subst.
      rewrite Hn. by eapply Hids.
  - intros p n Hin Hf. destruct (Hatt p n Hin Hf) as (cl & Hcl & Hfw). specialize (Hlast p). rewrite Hcl in Hlast.
    inversion Hlast as [? cl' [_ Hn] E1 E2|]; subst. exists cl'. split; [done|]. congruence.
Qed.

Lemma se_keeps_gw {R} (m : st Gateway R) : ok_keeps m -> lasts m -> se_keeps (inside f_gw m).
Proof.
  intros Hk Hl s r s' (Hg & Hf & l & Hh & Ha). unfold inside. destruct (m _) as [[r1 g']|] eqn:E; [|done]. intros [= _ <-].
  split; [by eapply Hk|]. split; [exact Hf|]. exists l. apply lasting_hold; [by eapply Hl|done|done].
Qed.

(** *** The list of clients *)

Lemma inside_inv {S T R} (f : field S T) (m : st T R) (s : S) (r : R) (s' : S) : inside f m s = Some (r, s') ->
  exists x, m (fget f s) = Some (r, x) /\ s' = fset f x s.
Proof. unfold inside. destruct (m _) as [[r1 x]|]; [|done]. intros [= -> <-]. by exists x. Qed.

Lemma se_keeps_getClient addr : se_keeps (ClientList_getClient addr).
Proof. apply se_keeps_pure. intros s r s' (_ & _ & l & Hl & _). rewrite (getClient_run s l addr Hl). by intros [= _ <-]. Qed.
Lemma se_keeps_getClient_id id : se_keeps (ClientList_getClient_id id).
Proof. apply se_keeps_pure. intros s r s' (_ & _ & l & Hl & _). rewrite (getClient_id_run s l id Hl). by intros [= _ <-]. Qed.

Lemma client_ok_same cl cl' : same_tables cl cl' -> client_ok cl -> client_ok cl'.
Proof. intros Hs (v & Hv & Hn). exists v. split; [|done]. by eapply same_tables_holds. Qed.

Lemma created_ok id secure type : client_ok (created_client id secure type).
Proof.
  apply (client_ok_same (newClient secure)); [unfold created_client; repeat case_match; by split_and!|].
  exists (View [] [] 0 [] ∅ ∅). split; [apply newClient_holds|done].
Qed.

Lemma gateway_ok_set g c cl : gateway_ok g -> client_ok cl -> gateway_ok (set_client c cl g).
Proof.
  intros (Hc & Ht & Hq) Hcl. split; [|by split]. intros k cl'. cbn [set_client gw_clients]. rewrite lookup_insert.
  case_decide; [by intros [= <-]|apply Hc].
Qed.

(** A new client at the end of the list. *)
Lemma inv_new s s' l p n cl : sensors_inv s -> clients_hold s l -> attached (se_gw s) l ->
  clients_hold s' (l ++ [(p, n)]) -> cn_forwarder n = None -> client_ok cl ->
  se_gw s' = set_client p cl (se_gw s) -> se_forwarders s' = se_forwarders s -> sensors_inv s'.
Proof.
  intros (Hg & Hf & _) Hl Ha Hl' Hn Hcl Hg' Hf'. split; [rewrite Hg'; by apply gateway_ok_set|]. split; [by rewrite Hf'|].
  exists (l ++ [(p, n)]). split; [done|]. intros q m [Hin|Heq%list_elem_of_singleton]%elem_of_app Hm.
  - destruct (Ha q m Hin Hm) as (cl' & Hq & Hfw). exists cl'. split; [|done]. rewrite Hg'. cbn [set_client gw_clients].
    rewrite lookup_insert_ne; [done|]. intros <-. destruct Hl' as [[(Hnd & _) _] _].
    rewrite fmap_app in Hnd. apply list.NoDup_app in Hnd as (_ & Hnd & _). apply (Hnd p); [|left].
    apply list_elem_of_fmap. by exists (p, m).
  - injection Heq as -> ->. done.
Qed.

Lemma se_keeps_createClient addr id unstable secure type : se_keeps (ClientList_createClient addr id unstable secure type).
Proof.
  intros s r s' Hs E. pose proof Hs as (Hg & Hf & l & Hl & Ha).
  destruct (Z.ltb_spec MAX_CLIENTS (zlen l)) as [Hfull|Hroom].
  { unfold ClientList_createClient in E. rewrite (sbind_run _ _ _ _ _ (count_run s l Hl)) in E.
    revert E. test_true (MAX_CLIENTS <? zlen l). by intros [= _ <-]. }
  pose proof (getClient_run s l addr Hl) as Hget. destruct (match addr with Some a => _ | None => None end) as [p|].
  - unfold ClientList_createClient in E. rewrite (sbind_run _ _ _ _ _ (count_run s l Hl)) in E.
    revert E. test_false (MAX_CLIENTS <? zlen l). srun Hget. by intros [= _ <-].
  - destruct (createClient_new_run s l addr id unstable secure type Hl Hroom Hget) as (s1 & Hrun & Hl1 & Hg1 & Hf1 & _).
    rewrite Hrun in E. injection E as _ <-. eapply inv_new; try done. apply created_ok.
Qed.

(** The members of a client's cell, but not its forwarder. *)
Lemma se_keeps_set_node c f : (forall n, cn_forwarder (f n) = cn_forwarder n) -> se_keeps (set_node c f).
Proof.
  intros Hf s r s' Hs E. pose proof Hs as (Hg & Hfw & l & Hl & Ha). destruct c as [c|]; [|done].
  pose proof E as (x & Hw & _)%inside_inv. unfold write in Hw. cbn [fget f_list] in Hw.
  destruct (cells (se_list s) !! c) as [cell|] eqn:Hc; [|done].
  assert (Hin : c ∈ l.*1).
  { destruct Hl as [[_ Hleak] _]. apply elem_of_dom_2 in Hc. rewrite Hleak in Hc. by apply elem_of_list_to_set in Hc. }
  apply list_elem_of_fmap in Hin as ([q n] & Hq & Hin). cbn in Hq. subst q.
  apply list_elem_of_split in Hin as (l1 & l2 & ->).
  destruct (set_node_run s l1 l2 c n f Hl) as (s1 & Hrun & Hl1 & Hg1 & Hf1). rewrite Hrun in E. injection E as _ <-.
  split; [by rewrite Hg1|]. split; [by rewrite Hf1|]. eexists. split; [exact Hl1|]. rewrite Hg1.
  intros p m Hp Hm. rewrite elem_of_app, list.elem_of_cons in Hp. destruct Hp as [Hp|[Hp|Hp]].
  - apply (Ha p m); [|done]. rewrite elem_of_app. by left.
  - injection Hp as -> ->. apply (Ha c n); [|by rewrite Hf in Hm]. rewrite elem_of_app, list.elem_of_cons. auto.
  - apply (Ha p m); [|done]. rewrite elem_of_app, list.elem_of_cons. auto.
Qed.

(** *** Forwarders *)

Lemma forwarders_ok_member (fw : ForwarderList) p c : forwarders_ok fw -> cells fw !! p = Some c ->
  exists fs1 f fs2 es, owns false false fw (fs1 ++ (p, f) :: fs2) /\ fwd_holds f es /\
    Forall (fun e => exists es, fwd_holds e.2 es) (fs1 ++ fs2).
Proof.
  intros (fs & Ho & Hall) Hc. assert (Hin : p ∈ fs.*1).
  { destruct Ho as [_ Hleak]. apply elem_of_dom_2 in Hc. rewrite Hleak in Hc. by apply elem_of_list_to_set in Hc. }
  apply list_elem_of_fmap in Hin as ([q f] & Hq & Hin). cbn in Hq. subst q.
  apply list_elem_of_split in Hin as (fs1 & fs2 & ->).
  apply list.Forall_app in Hall as [Hall1 [[es Hes] Hall2]%list.Forall_cons].
  exists fs1, f, fs2, es. split; [done|]. split; [done|]. by apply list.Forall_app.
Qed.

Lemma forwarders_ok_value (fw fw' : ForwarderList) fs1 fs2 p (f f' : Forwarder) es : owns false false fw (fs1 ++ (p, f) :: fs2) ->
  Forall (fun e => exists es, fwd_holds e.2 es) (fs1 ++ fs2) -> fwd_holds f' es ->
  represents false false fw' (fs1 ++ (p, f') :: fs2) -> dom (cells fw') = dom (cells fw) -> forwarders_ok fw'.
Proof.
  intros [_ Hleak] Hall Hf' Hr Hd. exists (fs1 ++ (p, f') :: fs2). split.
  - split; [done|]. unfold no_leak in *. rewrite Hd, Hleak, !fmap_app. done.
  - apply list.Forall_app in Hall as [Hall1 Hall2]. apply list.Forall_app. split; [done|]. constructor; [by exists es|done].
Qed.

Lemma se_keeps_addForwarder addr name : se_keeps (inside f_forwarders (ForwarderList_addForwarder addr name)).
Proof.
  intros s r s' (Hg & (fs & [Hr Hleak] & Hall) & Hl) (fw & E & ->)%inside_inv. cbn [fget f_forwarders] in E.
  destruct (addForwarder_run (se_forwarders s) fs addr name Hr) as (p & fw' & Hrun & _ & Hr' & Hd).
  rewrite Hrun in E. injection E as _ <-. split; [exact Hg|]. split; [|exact Hl].
  exists (fs ++ [(p, newForwarder addr name)]). split; [split; [exact Hr'|]|].
  - unfold no_leak in *. cbn [fset f_forwarders se_forwarders]. rewrite Hd, Hleak. symmetry. apply dom_snoc.
  - apply list.Forall_app. split; [done|]. apply list.Forall_singleton. exists [], []. split; [|done].
    split; [constructor|]. by split_and!.
Qed.

(** A client goes behind a forwarder; the identifier of its node fits a byte. *)
Lemma se_keeps_addClient f c id : wn_len id < 256 -> se_keeps (Forwarder_addClient f c id).
Proof.
  intros Hid s r s' Hs E. pose proof Hs as (Hg & Hfw & l & Hl & Ha).
  destruct c as [c|]; [|by unfold Forwarder_addClient, Client_setForwarder_to, sbind in E].
  pose proof E as (u & s1 & E1 & E2)%sbind_inv. destruct u.
  pose proof E1 as ([] & s0 & E0 & Em)%sbind_inv. 
  assert (Hin : exists n, (c, n) ∈ l).
  { apply inside_inv in E0 as (x & Hw & _). unfold write in Hw. cbn [fget f_list] in Hw.
    destruct (cells (se_list s) !! c) as [cell|] eqn:Hc; [|done]. destruct Hl as [[_ Hleak] _].
    apply elem_of_dom_2 in Hc. rewrite Hleak in Hc. apply elem_of_list_to_set, list_elem_of_fmap in Hc as ([q n] & Hq & Hin).
    cbn in Hq. subst q. by exists n. }
  destruct Hin as [n Hin]. apply list_elem_of_split in Hin as (l1 & l2 & ->).
  destruct (clients_have_ids _ _ Hl c) as (cl & Hcl & Hname); [rewrite fmap_app; apply elem_of_app; right; left|].
  (* the forwarder *)
  assert (Hfs : se_forwarders s1 = se_forwarders s).
  { apply inside_inv in E0 as (x & _ & ->). apply inside_inv in Em as (y & _ & ->). done. }
  cbn [arrow] in E2. apply inside_inv in E2 as (fw' & E2 & _). cbn [fget f_forwarders] in E2. rewrite Hfs in E2.
  unfold at_forwarder in E2. destruct f as [p|]; [|done]. destruct (cells (se_forwarders s) !! p) as [pc|] eqn:Hp; [|done].
  destruct (forwarders_ok_member _ _ _ Hfw Hp) as (fs1 & f & fs2 & es & Ho & Hes & Hall).
  destruct (addClient_run Hheap s l1 l2 c n cl fs1 fs2 p f es id Hl Hcl Hname (proj1 Ho) Hes Hid)
    as (s2 & f' & Hrun & Hl2 & Hg2 & Hr2 & _ & Hes2 & Hd2).
  rewrite Hrun in E. injection E as _ <-. split; [|split].
  - rewrite Hg2. apply gateway_ok_set; [done|]. apply (client_ok_same cl); [by split_and!|]. by eapply Hg.
  - eapply forwarders_ok_value; [exact Ho|exact Hall|exact Hes2|exact Hr2|exact Hd2].
  - eexists. split; [exact Hl2|]. rewrite Hg2. intros q m Hq Hm. cbn [set_client gw_clients].
    destruct (decide (c = q)) as [<-|Eq]; [exists (forwarded_client cl); by rewrite lookup_insert_eq|].
    rewrite lookup_insert_ne by done. apply (Ha q m); [|done].
    rewrite elem_of_app, list.elem_of_cons in Hq |- *. destruct Hq as [Hq|[Hq|Hq]]; [by left| |by right; right].
    injection Hq as -> _. done.
Qed.

(** *** Erasing and predefined topics *)

Lemma attached_without g l1 l2 p n : NoDup (l1 ++ (p, n) :: l2).*1 -> attached g (l1 ++ (p, n) :: l2) ->
  attached (without p g) (l1 ++ l2).
Proof.
  intros Hnd Ha q m Hq Hm. destruct (Ha q m) as (cl & Hcl & Hfw); [|done|].
  { rewrite elem_of_app in Hq. rewrite elem_of_app, list.elem_of_cons. tauto. }
  exists cl. split; [|done]. cbn [without gw_clients]. rewrite lookup_delete_ne; [done|]. intros <-.
  apply nodup_middle in Hnd as (_ & Hp & _). apply Hp. apply list_elem_of_fmap. by exists (p, m).
Qed.

Lemma se_keeps_erase c : se_keeps (ClientList_erase c).
Proof.
  intros s r s' Hs E. pose proof Hs as (Hg & Hfw & l & Hl & Ha).
  assert (Hmore : inside f_list get_more s = Some (l_more (se_list s), s)) by (apply inside_same; [apply f_list_same|done]).
  destruct c as [c|].
  2:{ unfold ClientList_erase in E. rewrite (sbind_run _ _ _ _ _ Hmore) in E.
      destruct (l_more (se_list s)); [|done]. by injection E as _ <-. }
  destruct (gw_clients (se_gw s) !! c) as [cl|] eqn:Hcl.
  2:{ unfold ClientList_erase in E. rewrite (sbind_run _ _ _ _ _ Hmore) in E.
      destruct (l_more (se_list s)); [by injection E as _ <-|]. cbn [arrow] in E.
      unfold sbind at 1, member, inside, client in E. cbn [fget f_gw] in E. by rewrite Hcl in E. }
  destruct (l_more (se_list s) || negb (erasable_client cl)) eqn:Hkept.
  { rewrite (erase_kept s c cl Hcl Hkept) in E. by injection E as _ <-. }
  apply orb_false_iff in Hkept as [Hauth Her]. apply negb_false_iff in Her.
  assert (Hin : c ∈ l.*1).
  { destruct Hl as (_ & _ & _ & Hdom & _). apply elem_of_dom_2 in Hcl. rewrite Hdom in Hcl. by apply elem_of_list_to_set in Hcl. }
  apply list_elem_of_fmap in Hin as ([q n] & Hq & Hin). cbn in Hq. subst q.
  assert (Hnone : cn_forwarder n = None).
  { destruct (cn_forwarder n) as [f|] eqn:Hf; [|done]. destruct (Ha c n Hin) as (cl0 & Hcl0 & Hfw0); [by rewrite Hf|].
    rewrite Hcl in Hcl0. injection Hcl0 as <-. unfold erasable_client in Her. by rewrite Hfw0, andb_false_r in Her. }
  apply list_elem_of_split in Hin as (l1 & l2 & ->).
  destruct (erase_run s l1 l2 c n cl Hl Hcl Hnone Hauth Her) as (s1 & Hrun & Hl1 & Hg1 & Hf1 & _).
  rewrite Hrun in E. injection E as _ <-. split; [|split; [by rewrite Hf1|]].
  - rewrite Hg1. destruct Hg as (Hc & Ht & Hq). split; [|by split]. intros k cl'. cbn [without gw_clients].
    intros [_ Hk]%lookup_delete_Some. by eapply Hc.
  - exists (l1 ++ l2). split; [done|]. rewrite Hg1. destruct Hl as [[(Hnd & _) _] _]. by eapply attached_without.
Qed.

(** The client that gets a topic stays in order. *)
Lemma with_topic_ok cl name id r t b : client_ok cl -> Topics_add_name name id (cl_topics cl) = Some (r, t) ->
  client_ok (fset f_hasPredefTopic b (fset f_topics t cl)).
Proof.
  intros (v & Hv & Hlen) Hadd. pose proof Hv as (Hq & Hr & Ht & Hp & Hs).
  assert (exists n ts, topics_hold t n ts) as (n & ts & Ht').
  { destruct (topics_add_run _ _ _ name id Ht) as (r' & t' & Hadd' & Hres). rewrite Hadd in Hadd'. injection Hadd' as <- <-.
    destruct (_ <=? _); [destruct Hres as [_ ->]; by eexists _, _|].
    destruct (find _ _); [destruct Hres as [-> _]|destruct Hres as [Hres _]]; by eexists _, _. }
  exists (v_set_topics n ts v). split; [|done]. by split_and!.
Qed.

Lemma attached_client s c cl cl' l : gw_clients (se_gw s) !! c = Some cl -> cl_forwarded cl' = cl_forwarded cl ->
  attached (se_gw s) l -> attached (se_gw (put_client c cl' s)) l.
Proof.
  intros Hc Hf Ha p n Hin Hn. destruct (Ha p n Hin Hn) as (cl0 & Hp & Hfw). cbn [put_client se_gw set_client gw_clients].
  destruct (decide (c = p)) as [<-|Hne].
  - exists cl'. rewrite lookup_insert_eq. split; [done|]. congruence.
  - exists cl0. by rewrite lookup_insert_ne.
Qed.

Lemma se_keeps_predefined common id name topicId aggregate :
  se_keeps (ClientList_createPredefinedTopic common id name topicId aggregate).
Proof.
  intros s r s' Hs E. pose proof Hs as (Hg & Hfw & l & Hl & Ha). destruct common; [done|].
  destruct (Z.ltb_spec MAX_CLIENTS (zlen l)) as [Hfull|Hroom].
  { unfold ClientList_createPredefinedTopic in E. rewrite (sbind_run _ _ _ _ _ (getClient_id_run s l id Hl)) in E.
    apply sbind_inv in E as (b & s1 & E1 & E). rewrite inside_same with (r := l_more (se_list s)) in E1; [|by destruct s|done].
    injection E1 as <- <-. destruct (_ && _); [by injection E as _ <-|].
    rewrite (sbind_run _ _ _ _ _ (count_run s l Hl)) in E. revert E. test_true (MAX_CLIENTS <? zlen l). by intros [= _ <-]. }
  destruct (first_client (fun e => begins (se_gw s) id e.1) l) as [p|] eqn:Hfind.
  - destruct (first_client_split _ _ _ Hfind) as (l1 & n & l2 & ->).
    destruct (clients_have_ids _ _ Hl p) as (cl & Hcl & Hname); [rewrite fmap_app; apply elem_of_app; right; left|].
    pose proof Hg as (Hok & _). destruct (Hok p cl Hcl) as (v & Hv & Hlen).
    destruct (topics_add_run (cl_topics cl) _ _ (until_nul name) topicId ltac:(apply Hv)) as (r0 & t & Hadd & _).
    rewrite (predefined_known_run s _ p cl name topicId aggregate id r0 t Hl Hroom Hfind Hcl Hadd) in E. injection E as _ <-.
    set (cl' := fset f_hasPredefTopic true (fset f_topics t cl)).
    split; [|split; [done|]].
    + apply gateway_ok_set; [done|]. eapply with_topic_ok; [|exact Hadd]. by exists v.
    + eexists. split; [by apply (put_client_hold s _ p cl)|]. by apply (attached_client s p cl).
  - destruct (l_more (se_list s)) eqn:Hauth.
    { unfold ClientList_createPredefinedTopic in E. pose proof (getClient_id_run s l id Hl) as Hget. rewrite Hfind in Hget.
      rewrite (sbind_run _ _ _ _ _ Hget) in E. apply sbind_inv in E as (b & s1 & E1 & E).
      rewrite inside_same with (r := l_more (se_list s)) in E1; [|by destruct s|done]. injection E1 as <- <-.
      rewrite Hauth in E. by injection E as _ <-. }
    destruct (predefined_new_run s l name topicId aggregate id Hl Hroom Hauth Hfind) as (s1 & t & r0 & Hrun & Hadd & Hl1 & Hg1 & Hf1).
    rewrite Hrun in E. injection E as _ <-. eapply inv_new; [exact Hs|exact Hl|exact Ha|exact Hl1|done| |exact Hg1|exact Hf1].
    eapply with_topic_ok; [apply created_ok|]. by destruct aggregate.
Qed.

Lemma se_keeps_authorize b : se_keeps (inside f_list (set_more b)).
Proof.
  intros s r s' (Hg & Hf & l & Hl & Ha) [= _ <-]. split; [exact Hg|]. split; [exact Hf|]. exists l. split; [exact Hl|exact Ha].
Qed.

Lemma se_keeps_member {R} c (m : st Client R) : client_keeps m -> client_lasts m -> se_keeps (arrow c (fun p => member p m)).
Proof.
  intros Hk Hl. destruct c as [c|]; [|apply se_keeps_undefined]. apply se_keeps_gw; [|by apply lasts_client].
  by eapply (keeps_ok anyone), keeps_client.
Qed.
End SensorsKeep.

#[export] Hint Resolve se_keeps_ret se_keeps_undefined se_keeps_demand se_keeps_getClient se_keeps_getClient_id
  se_keeps_createClient se_keeps_addForwarder se_keeps_erase se_keeps_predefined se_keeps_authorize : sensors.

Ltac sensors_step :=
  match goal with
  | |- se_keeps (sbind _ _) => apply se_keeps_bind; [|intros]
  | |- se_keeps (match ?x with _ => _ end) => destruct x
  | |- _ => progress cbv beta zeta
  end.
Ltac walk_sensors := repeat (autounfold with sensors; repeat sensors_step); eauto with sensors.

(** *** The configuration *)

Section ConfigurationKeeps.
Context `{CharSign} `{ByteOrder} `{HeapSpace} `{InetAddr} `{Files}.
Hypothesis Hheap : forall n, heap_has n = true.

Lemma se_keeps_entry type a data : se_keeps (create_entry type a data).
Proof. unfold create_entry. walk_sensors. Qed.

Lemma se_keeps_lines n type a rc file : se_keeps (create_lines n type a rc file).
Proof.
  revert a rc file. induction n as [|n IH]; intros a rc file; cbn [create_lines]; [apply se_keeps_undefined|].
  pose proof se_keeps_entry. walk_sensors.
Qed.

Lemma se_keeps_setClientList type : se_keeps (ClientList_setClientList type).
Proof. pose proof se_keeps_lines. unfold ClientList_setClientList, ClientList_createList. walk_sensors. Qed.

Lemma se_keeps_predefined_lines n aggregate file : se_keeps (predefined_lines n aggregate file).
Proof. revert file. induction n as [|n IH]; intros file; cbn [predefined_lines]; unfold predefined_entry; walk_sensors. Qed.

Lemma se_keeps_initialize authentication aggregate :
  se_keeps (ClientList_initialize authentication aggregate) /\ se_keeps ForwarderList_initialize /\
  se_keeps (ClientList_setPredefinedTopics aggregate).
Proof.
  pose proof se_keeps_setClientList. pose proof se_keeps_predefined_lines.
  unfold ClientList_initialize, ForwarderList_initialize, ClientList_setPredefinedTopics, ClientList_readPredefinedList.
  split_and!; walk_sensors.
Qed.

Lemma se_keeps_setup secure name type a : se_keeps (Adapter_setup secure name type a).
Proof.
  assert (Hty : forall c, se_keeps (arrow c (fun p => member p (Client_setAdapterType (Some type))))).
  { intros c. apply se_keeps_member; destruct type; unfold Client_setAdapterType; [walk|walk|walk_lasts|walk_lasts]. }
  unfold Adapter_setup. walk_sensors.
Qed.
End ConfigurationKeeps.

(** ** The tasks *)

Definition tasks_inv (t : Tasks) : Prop := sensors_inv (tk_sensors t).
Definition tk_keeps {R} (m : st Tasks R) : Prop := forall t r t', tasks_inv t -> m t = Some (r, t') -> tasks_inv t'.

Create HintDb tasks.

Section TasksKeep.
Lemma tk_keeps_bind {R Q} (m : st Tasks R) (k : R -> st Tasks Q) :
  tk_keeps m -> (forall r, tk_keeps (k r)) -> tk_keeps (sbind m k).
Proof. intros Hm Hk s q s' Hs (r & s1 & E1 & E2)%sbind_inv. eapply Hk; [|exact E2]. by eapply Hm. Qed.
Lemma tk_keeps_ret {R} (r : R) : tk_keeps (sret r).
Proof. by intros s ? ? Hs [= _ <-]. Qed.
Lemma tk_keeps_undefined {R} : tk_keeps (undefined (R := R)).
Proof. by intros ????. Qed.
Lemma tk_keeps_demand {R} (o : option R) : tk_keeps (demand o).
Proof. intros s r s' Hs ->%demand_pure. done. Qed.
Lemma tk_keeps_the {T} (f : field Tasks T) : tk_keeps (the f).
Proof. by intros s ? ? Hs [= _ <-]. Qed.
Lemma tk_keeps_put {T} (f : field Tasks T) x : (forall t, tk_sensors (fset f x t) = tk_sensors t) -> tk_keeps (put f x).
Proof. intros Hf s r s' Hs [= _ <-]. unfold tasks_inv. by rewrite Hf. Qed.
Lemma tk_keeps_sensors {R} (m : st Sensors R) : se_keeps m -> tk_keeps (sensors m).
Proof. intros Hm t r t' Ht (s & E & ->)%inside_inv. by eapply Hm. Qed.
Lemma tk_keeps_gw {R} (m : st Gateway R) : ok_keeps m -> lasts m -> tk_keeps (gw m).
Proof. intros Hk Hl. by apply tk_keeps_sensors, se_keeps_gw. Qed.
End TasksKeep.

#[export] Hint Resolve tk_keeps_ret tk_keeps_undefined tk_keeps_demand tk_keeps_the : tasks.
#[export] Hint Extern 1 (tk_keeps (put _ _)) => apply tk_keeps_put; done : tasks.

Ltac tasks_step :=
  match goal with
  | |- tk_keeps (sbind _ _) => apply tk_keeps_bind; [|intros]
  | |- tk_keeps (match ?x with _ => _ end) => destruct x
  | |- _ => progress cbv beta zeta
  end.
Ltac walk_tasks := repeat (autounfold with tasks; repeat tasks_step); eauto with tasks sensors.

(** *** Adapters *)

Section AdaptersKeep.
Context `{CharSign} `{ByteOrder} `{HeapSpace}.
#[local] Hint Extern 1 (anyone _) => exact I : gateway.
#[local] Hint Extern 1 (addressed _ _) => exact I : gateway.

Lemma keeps_any {R} c (m : st Client R) : client_keeps m -> keeps anyone (client c m).
Proof. by apply keeps_client. Qed.
#[local] Hint Resolve keeps_any : gateway.

Lemma check_ok now c p : ok_keeps (Proxy_checkConnection now c p) /\ lasts (Proxy_checkConnection now c p).
Proof.
  split; [eapply (keeps_ok anyone)|]; unfold Proxy_checkConnection.
  - unfold Client_isDisconnect, Client_isConnecting, Client_isActive, Client_disconnected. walk.
  - walk_lasts.
Qed.

Lemma adapter_check_ok now a : ok_keeps (Adapter_checkConnection now a) /\ lasts (Adapter_checkConnection now a).
Proof.
  unfold Adapter_checkConnection. split.
  - intros g r g' Hg E. apply sbind_inv in E as (p & g1 & E1 & E). destruct (ad_client a) as [c|]; [|done].
    pose proof (proj1 (check_ok now c _) _ _ _ Hg E1) as Hg1. destruct (ad_isSecure (set_proxy p a)); [|by injection E as _ <-].
    apply sbind_inv in E as (q & g2 & E2 & E). destruct (ad_clientSecure (set_proxy p a)) as [c'|]; [|done].
    injection E as _ <-. exact (proj1 (check_ok now c' _) _ _ _ Hg1 E2).
  - pose proof (fun c p => proj2 (check_ok now c p)). walk_lasts.
Qed.

Lemma gateway_ok_posted ev g : gateway_ok g -> gateway_ok (posted f_packetEventQue ev g).
Proof. intros (Hc & Ht & Hq). split; [exact Hc|]. split; [exact Ht|]. by apply que_ok_post. Qed.
Lemma gateway_ok_posted_all evs g : gateway_ok g -> gateway_ok (posted_all f_packetEventQue evs g).
Proof. revert g. induction evs as [|ev evs IH]; intros g Hg; [done|]. apply IH. by apply gateway_ok_posted. Qed.
Lemma clients_posted_all evs g : gw_clients (posted_all f_packetEventQue evs g) = gw_clients g.
Proof. revert g. induction evs as [|ev evs IH]; intros g; [done|]. exact (IH (posted f_packetEventQue ev g)). Qed.

Lemma suspended_ok : (ok_keeps (Proxy_sendSuspendedPacket f_suspended) /\ lasts (Proxy_sendSuspendedPacket f_suspended)) /\
  (ok_keeps (Proxy_sendSuspendedPacket no_que) /\ lasts (Proxy_sendSuspendedPacket no_que)).
Proof.
  assert (Hrun : forall g r g', Proxy_sendSuspendedPacket f_suspended g = Some (r, g') ->
    (gateway_ok g -> gateway_ok g') /\ gw_clients g' = gw_clients g).
  { intros g r g' E. unfold Proxy_sendSuspendedPacket in E.
    rewrite (suspended_loop_run f_suspended _ (eq_events (fget f_suspended g)) g (Nat.lt_succ_diag_r _) eq_refl) in E.
    injection E as _ <-. destruct (decide _); [done|]. cbn [fset f_suspended gw_clients]. split; [|apply clients_posted_all].
    intros Hg. apply (gateway_ok_posted_all (eq_events (fget f_suspended g))) in Hg as (Hc & Ht & Hq). by split_and!. }
  split_and!.
  - intros g r g' Hg E. by apply (Hrun g r g').
  - intros g r g' E. apply lasting_same. by apply (Hrun g r g').
  - intros g r g' Hg [= _ <-]. done.
  - by intros g r g' [= _ <-].
Qed.

Lemma recv_ok now que packet p : que = f_suspended \/ que = no_que ->
  ok_keeps (Proxy_recv now que packet p) /\ lasts (Proxy_recv now que packet p).
Proof.
  intros Hque. assert (Hs : ok_keeps (Proxy_sendSuspendedPacket que) /\ lasts (Proxy_sendSuspendedPacket que))
    by (destruct Hque as [-> | ->]; apply suspended_ok).
  split.
  - intros g r g' Hg E. unfold Proxy_recv in E. apply sbind_inv in E as (ty & g1 & ->%demand_pure & E).
    destruct (ty =? MQTTSN_CONNACK).
    + apply sbind_inv in E as (ok & g2 & ->%demand_pure & E). destruct ok; [|by injection E as _ <-].
      apply sbind_inv in E as (u & g3 & E3 & E). injection E as _ <-. by eapply Hs.
    + by destruct (ty =? MQTTSN_PINGRESP); injection E as _ <-.
  - destruct Hs as [_ Hs]. unfold Proxy_recv. walk_lasts.
Qed.

Lemma adapter_send_ok now que packet c a : que = f_suspended \/ que = no_que ->
  ok_keeps (Adapter_send now que packet c a) /\ lasts (Adapter_send now que packet c a).
Proof.
  intros Hque. unfold Adapter_send. split.
  - intros g r g' Hg E. apply sbind_inv in E as (secure & g1 & E1 & E).
    apply (keeps_any c (the f_secureNetwork) (client_keeps_the _)) in E1 as [Hg1 _]; [|done].
    destruct (_ && _); [done|]. apply sbind_inv in E as (p & g2 & E2 & E). injection E as _ <-.
    by eapply (recv_ok now que packet _ Hque).
  - pose proof (recv_ok now que packet (ad_proxy a) Hque) as [_ Hl]. walk_lasts.
Qed.
End AdaptersKeep.

(** *** The turns *)

Section TurnsKeep.
Context `{CharSign} `{ByteOrder} `{HeapSpace}.
Hypothesis Hheap : forall n, heap_has n = true.
#[local] Hint Extern 1 (anyone _) => exact I : gateway.
#[local] Hint Extern 1 (addressed _ _) => exact I : gateway.
#[local] Hint Resolve keeps_any tk_keeps_sensors : gateway.

Lemma tk_keeps_demand_bind {R Q} (o : option R) (k : R -> st Tasks Q) :
  (forall r, o = Some r -> tk_keeps (k r)) -> tk_keeps (sbind (demand o) k).
Proof. intros Hk t q t' Ht E. destruct o as [r|]; [|done]. by eapply Hk. Qed.

Lemma tk_keeps_gw_client {R} c (m : st Client R) : client_keeps m -> client_lasts m -> tk_keeps (gw (client c m)).
Proof. intros Hk Hl. apply tk_keeps_gw; [|by apply lasts_client]. by eapply (keeps_ok anyone), keeps_any. Qed.

Lemma tk_keeps_post ev : tk_keeps (post_packet ev).
Proof. apply tk_keeps_gw; [eapply (keeps_ok anyone); by apply keeps_post_packet; destruct ev|by apply lasts_post]. Qed.

Lemma tk_keeps_addClient f c id : wn_len id < 256 -> tk_keeps (sensors (Forwarder_addClient f c id)).
Proof. intros. by apply tk_keeps_sensors, se_keeps_addClient. Qed.

Lemma tk_keeps_setClientAddress c a : tk_keeps (sensors (Client_setClientAddress c a)).
Proof. by apply tk_keeps_sensors, se_keeps_set_node. Qed.

(** Reading a forwarder. *)
Lemma tk_keeps_getForwarder a : tk_keeps (sensors (inside f_forwarders (ForwarderList_getForwarder a))).
Proof.
  apply tk_keeps_sensors, se_keeps_pure. intros s r s' (_ & (fs & [Hr _] & _) & _) (fw & E & ->)%inside_inv.
  cbn [fget f_forwarders] in E. rewrite (getForwarder_run _ fs a Hr) in E. injection E as _ <-. by destruct s.
Qed.

Lemma tk_keeps_at_forwarder {R} p (m : step ForwarderElement ForwarderId R) :
  (forall f es r f', fwd_holds f es -> m f = Some (r, f') -> f' = f) ->
  tk_keeps (sensors (inside f_forwarders (at_forwarder p m))).
Proof.
  intros Hm. apply tk_keeps_sensors, se_keeps_pure. intros s r s' (_ & Hok & _) (fw & E & ->)%inside_inv.
  unfold at_forwarder in E. destruct p as [p|]; [|done]. cbn [fget f_forwarders] in E.
  destruct (cells (se_forwarders s) !! p) as [[nx pr v]|] eqn:Hp; [|done]. cbn [c_val c_next c_prev] in E.
  destruct (forwarders_ok_member _ _ _ Hok Hp) as (fs1 & f & fs2 & es & [Hr _] & Hes & _).
  destruct (represents_member _ _ _ _ _ Hr) as (c & Hc & Hv). rewrite Hp in Hc. injection Hc as <-. cbn in Hv. subst v.
  destruct (m f) as [[r1 f1]|] eqn:Ef; [|done]. injection E as _ <-. rewrite (Hm f es r1 f1 Hes Ef), insert_id by done.
  destruct s as [g l fw]. by destruct fw.
Qed.

Lemma getClient_pure id (f : Forwarder) es r f' : fwd_holds f es -> Forwarder_getClient id f = Some (r, f') -> f' = f.
Proof. intros Hf. rewrite (fwd_getClient_run f es id Hf). by intros [= _ <-]. Qed.
Lemma getNodeId_pure c (f : Forwarder) es r f' : fwd_holds f es -> Forwarder_getWirelessNodeId c f = Some (r, f') -> f' = f.
Proof. intros Hf. destruct (fwd_getWirelessNodeId_run f es c Hf) as (r0 & -> & _). by intros [= _ <-]. Qed.
Lemma more_pure {R} (get : ForwarderId -> R) (f : Forwarder) (es : list (loc * list byte)) r f' : fwd_holds f es ->
  (let! i := get_more in sret (get i)) f = Some (r, f') -> f' = f.
Proof. by intros _ [= _ <-]. Qed.

Lemma setId_length bs n id : WirelessNodeId_setId bs n = Some id -> wn_len id < 256.
Proof.
  unfold WirelessNodeId_setId. rewrite Hheap. destruct (_ <=? _); [|done]. intros [= <-]. unfold wn_len. cbn.
  rewrite length_take. pose proof (u8_range n). lia.
Qed.

#[local] Hint Resolve tk_keeps_sensors tk_keeps_post tk_keeps_addClient tk_keeps_setClientAddress tk_keeps_getForwarder : tasks.
#[local] Hint Unfold log_name log_id Adapter_getClientId Adapter_getClient : tasks.
#[local] Hint Unfold ClientList_createClient_plain Adapter_getClientId Adapter_getClient : sensors.

Lemma newClient_ok packet fwd nodeId a : wn_len nodeId < 256 -> tk_keeps (ClientRecvTask_newClient packet fwd nodeId a).
Proof. intros Hn. unfold ClientRecvTask_newClient. walk_tasks. Qed.

Lemma dispatch_ok packet fwd nodeId a : wn_len nodeId < 256 -> tk_keeps (ClientRecvTask_dispatch packet fwd nodeId a).
Proof. intros Hn. pose proof (newClient_ok packet fwd nodeId a Hn). unfold ClientRecvTask_dispatch. walk_tasks. Qed.

Lemma se_keeps_read_client {R} c (m : st Client R) : (forall cl r cl', m cl = Some (r, cl') -> cl' = cl) -> se_keeps (member c m).
Proof.
  intros Hm. apply se_keeps_pure. intros s r s' _ (g & E & ->)%inside_inv. unfold client in E. cbn [fget f_gw] in E.
  destruct (gw_clients (se_gw s) !! c) as [cl|] eqn:Hc; [|done]. destruct (m cl) as [[r1 cl1]|] eqn:Em; [|done].
  injection E as _ <-. rewrite (Hm _ _ _ Em), set_client_id by done. by destruct s.
Qed.

Lemma refused_ok packet a : tk_keeps (ClientRecvTask_refused packet a).
Proof.
  assert (Hq : forall c, se_keeps (member c Client_isQoSm1)) by (intros; apply se_keeps_read_client; by intros ??? [= _ <-]).
  assert (Hi : forall c, se_keeps (member c (the f_clientId))) by (intros; apply se_keeps_read_client; by intros ??? [= _ <-]).
  assert (Hid : forall a, se_keeps (Adapter_getClientId a)) by (intros; walk_sensors).
  unfold ClientRecvTask_refused. apply tk_keeps_bind; [walk_tasks|]. intros ad. destruct (ad_isActive ad); [|walk_tasks].
  apply tk_keeps_bind; [by apply tk_keeps_sensors|]. intros. walk_tasks.
Qed.

Lemma client_recv_ok rc bs a : tk_keeps (ClientRecvTask_turn rc bs a).
Proof.
  assert (Hnew : wn_len newWirelessNodeId < 256) by done.
  pose proof (fun p => dispatch_ok p None newWirelessNodeId a Hnew). pose proof (fun p => refused_ok p a).
  unfold ClientRecvTask_turn. apply tk_keeps_bind; [walk_tasks|]. intros [packetLen packet]. destruct (packetLen <? 2); [walk_tasks|].
  apply tk_keeps_bind; [walk_tasks|]. intros type. destruct (_ || _); [walk_tasks|]. destruct (type =? MQTTSN_SEARCHGW); [walk_tasks|].
  destruct (type =? MQTTSN_ENCAPSULATED); [|walk_tasks]. apply tk_keeps_bind; [walk_tasks|]. intros fwd.
  destruct fwd as [p|]; [|done]. apply tk_keeps_bind; [apply tk_keeps_at_forwarder; by eapply more_pure|]. intros name.
  apply tk_keeps_bind; [walk_tasks|]. intros _. apply tk_keeps_bind; [walk_tasks|]. intros [? encap].
  apply tk_keeps_demand_bind. intros nodeId Hid%setId_length.
  apply tk_keeps_bind; [apply tk_keeps_at_forwarder; by eapply getClient_pure|]. intros _.
  apply tk_keeps_bind; [walk_tasks|]. intros packet'. by apply dispatch_ok.
Qed.

Lemma node_ok c : tk_keeps (sensors (node c)).
Proof.
  apply tk_keeps_sensors, se_keeps_pure. intros s r s' _ (cell & s1 & E1 & E2)%sbind_inv. injection E2 as _ <-.
  apply inside_inv in E1 as (l & E & ->). unfold deref in E. destruct c as [c|]; [|done]. cbn [fget f_list] in E.
  destruct (cells (se_list s) !! c); [|done]. injection E as _ <-. by destruct s.
Qed.

Lemma client_send_ok now ev : tk_keeps (client_send_event now ev).
Proof.
  destruct ev as [| |c packet|c packet|c packet|c packet|packet]; cbn [client_send_event]; [walk_tasks..| |walk_tasks].
  assert (Hty : forall t, tk_keeps (gw (client c (is_type t)))).
  { intros t. apply tk_keeps_gw_client; [unfold is_type; walk|walk_lasts]. }
  assert (Hsend : forall que a, que = f_suspended \/ que = no_que -> tk_keeps (gw (Adapter_send now que packet c a))).
  { intros que a Hque. apply tk_keeps_gw; by apply adapter_send_ok. }
  pose proof (Hsend f_suspended). pose proof (Hsend no_que).
  unfold AdapterManager_unicastToClient. apply tk_keeps_bind; [apply node_ok|]. intros n. destruct (cn_forwarder n) as [p|].
  - apply tk_keeps_bind; [apply tk_keeps_at_forwarder; intros f es r f'; apply getNodeId_pure|]. intros id.
    apply tk_keeps_bind; [walk_tasks|]. intros. apply tk_keeps_bind; [walk_tasks|]. intros.
    apply tk_keeps_bind; [walk_tasks|]. intros. apply tk_keeps_bind; [apply tk_keeps_at_forwarder; by eapply more_pure|].
    intros. walk_tasks.
  - unfold Client_isQoSm1Proxy, Client_isAggregater. walk_tasks.
Qed.

Lemma broker_read_ok c rc packet : tk_keeps (BrokerRecvTask_read c rc packet).
Proof.
  assert (Hactive : tk_keeps (gw (client c Client_isActive))) by (apply tk_keeps_gw_client; [unfold Client_isActive; walk|walk_lasts]).
  assert (Hclose : tk_keeps (gw (client c (put f_networkValid false)))) by (apply tk_keeps_gw_client; [walk|walk_lasts]).
  assert (Hread : forall p, tk_keeps (gw (read_gw p MQTTGWPacket_getType))).
  { intros p. apply tk_keeps_gw; [eapply (keeps_ok anyone), keeps_read_gw|walk_lasts]. }
  assert (Hnew : tk_keeps (gw (new_gw (MQTTGWPacket_setHeader DISCONNECT)))).
  { apply tk_keeps_gw; [eapply (keeps_ok anyone), keeps_new_gw|walk_lasts]. }
  unfold BrokerRecvTask_read. walk_tasks.
Qed.

Lemma broker_pass_ok n arrived p : tk_keeps (broker_pass n arrived p).
Proof.
  revert p. induction n as [|n IH]; intros p; cbn [broker_pass]; [apply tk_keeps_undefined|].
  destruct p as [c|]; [|walk_tasks]. pose proof broker_read_ok.
  apply tk_keeps_bind; [apply tk_keeps_gw_client; [walk|walk_lasts]|]. intros valid.
  apply tk_keeps_bind; [walk_tasks|]. intros [q|]; [|walk_tasks]. cbn [null].
  apply tk_keeps_bind; [|done]. apply tk_keeps_sensors, se_keeps_pure. intros s r s' _ (l & E & ->)%inside_inv.
  unfold deref in E. cbn [fget f_list] in E. destruct (cells (se_list s) !! q); [|done]. injection E as _ <-. by destruct s.
Qed.

Lemma broker_recv_ok arrived : tk_keeps (BrokerRecvTask_turn arrived).
Proof. intros t r t' Ht E. by eapply broker_pass_ok. Qed.

Lemma manager_check_ok now : tk_keeps (AdapterManager_checkConnection now).
Proof.
  assert (Hc : forall a, tk_keeps (gw (Adapter_checkConnection now a))) by (intros; apply tk_keeps_gw; apply adapter_check_ok).
  unfold AdapterManager_checkConnection. walk_tasks.
Qed.

Lemma manager_getClient_ok now c : tk_keeps (AdapterManager_getClient now c).
Proof.
  assert (Hty : forall t, tk_keeps (gw (client c (is_type t)))).
  { intros t. apply tk_keeps_gw_client; [unfold is_type; walk|walk_lasts]. }
  assert (Hsec : tk_keeps (gw (client c (the f_secureNetwork)))) by (apply tk_keeps_gw_client; [walk|walk_lasts]).
  unfold AdapterManager_getClient, Client_isQoSm1, Client_isAggregated. walk_tasks.
Qed.
End TurnsKeep.

(** ** The system *)

(** The state of all, with the timer of the packet task; what the configuration
    gave. *)
Record System := mkSystem { sy_tasks : Tasks; sy_advertiseTimer : Timer }.
Definition f_tasks : field System Tasks := Field sy_tasks (fun v s => mkSystem v (sy_advertiseTimer s)).
Definition f_advertiseTimer : field System Timer := Field sy_advertiseTimer (fun v s => mkSystem (sy_tasks s) v).

(** What the handlers see of the parameters and adapters.  A null pointer is an
    address without a client. *)
Definition no_client (t : Tasks) : loc := fresh (dom (gw_clients (se_gw (tk_sensors t)))).
Definition params_of (p : GWParams) (t : Tasks) : GatewayParams := {|
  par_gatewayId := par_gatewayNo p; par_keepAlive := par_keepAliveTime p; par_mqttVersion := par_version p;
  par_loginId := par_login p; par_password := GWConfig.par_pass p;
  qosm1Proxy_active := ad_isActive (tk_qosm1 t); aggregater_active := ad_isActive (tk_aggregater t);
  qosm1Proxy_client := default (no_client t) (ad_client (tk_qosm1 t));
  aggregater_client := default (no_client t) (ad_client (tk_aggregater t));
  aggregater_secureClient := default (no_client t) (ad_clientSecure (tk_aggregater t));
|}.

Section System.
Context `{CharSign} `{ByteOrder} `{HeapSpace} `{PointerBytes}.

(** PacketHandleTask::run, one event. *)
Definition PacketHandleTask_timeout (p : GWParams) (now : Z) : st System unit :=
  let! timer := the f_advertiseTimer in
  (if Timer_isTimeup now timer then
     let! t := the f_tasks in
     inside f_tasks (gw (sendADVERTISE (H3 := params_of p t))) ;!
     put f_advertiseTimer (Timer_start now (par_keepAliveTime p * 1000) timer)
   else sret tt) ;!
  inside f_tasks (AdapterManager_checkConnection now).

Definition PacketHandleTask_turn (p : GWParams) (now : Z) : st System unit :=
  let! t := the f_tasks in
  let '(ev, q) := EventQue_timedwait (gw_packetEventQue (se_gw (tk_sensors t))) in
  inside f_tasks (gw (put f_packetEventQue q)) ;!
  match ev with
  | EtTimeout => PacketHandleTask_timeout p now
  | _ => inside f_tasks (gw (handle_event (H3 := params_of p t) ev))
  end.

(** BrokerSendTask::run, one event. *)
Definition BrokerSendTask_turn (p : GWParams) (now : Z) (connected : bool) (sent : Z) : st Tasks unit :=
  let! t := the (Field (fun t => t) (fun t _ => t)) in
  match EventQue_wait (gw_brokerSendQue (se_gw (tk_sensors t))) with
  | None => undefined
  | Some (ev, q) =>
      gw (put f_brokerSendQue q) ;!
      match ev with EtBrokerSend c _ => AdapterManager_getClient now c ;! sret tt | _ => sret tt end ;!
      gw (broker_send_event (H3 := params_of p t) connected sent ev)
  end.

(** One turn of one task; [now] is the time, the other arguments are what the
    networks deliver and answer.  A task whose queue is empty has no turn. *)
Inductive Turn :=
  | TkPacketHandle (now : Z)
  | TkBrokerSend (now : Z) (connected : bool) (sent : Z)
  | TkBrokerRecv (arrived : loc -> option (Z * MQTTGWPacket))
  | TkClientSend (now : Z)
  | TkClientRecv (rc : Z) (bs : list byte) (senderAddr : SensorNetAddress).

Definition run_turn (p : GWParams) (u : Turn) : st System (list Output) :=
  match u with
  | TkPacketHandle now => PacketHandleTask_turn p now ;! sret []
  | TkBrokerSend now connected sent => inside f_tasks (BrokerSendTask_turn p now connected sent) ;! sret []
  | TkBrokerRecv arrived => inside f_tasks (BrokerRecvTask_turn arrived) ;! sret []
  | TkClientSend now => inside f_tasks (ClientSendTask_turn now)
  | TkClientRecv rc bs a => inside f_tasks (ClientRecvTask_turn rc bs a) ;! sret []
  end.

(** Several, and what they send. *)
Fixpoint run_turns (p : GWParams) (us : list Turn) : st System (list Output) :=
  match us with
  | [] => sret []
  | u :: us =>
      let! out := run_turn p u in
      let! outs := run_turns p us in
      sret (out ++ outs)
  end.

(** The start: the configuration, and the timer of the packet task. *)
Context `{InetAddr} `{Files}.
Definition system_start (now : Z) : option (GWParams * System) :=
  match Gateway_initialize newTasks with
  | Some (p, t) => Some (p, mkSystem t (Timer_start now (par_keepAliveTime p * 1000) newTimer))
  | None => None
  end.
End System.

(** ** Invariants of the system *)

Section Invariant.
Context `{CharSign} `{ByteOrder} `{HeapSpace} `{PointerBytes} `{InetAddr} `{Files}.
Hypothesis Hheap : forall n, heap_has n = true.

Lemma initialize_ok : tk_keeps Gateway_initialize.
Proof.
  assert (Hset : forall type, tk_keeps (sensors (ClientList_setClientList type)))
    by (intros; by apply tk_keeps_sensors, se_keeps_setClientList).
  assert (Hsetup : forall secure name type a, tk_keeps (sensors (Adapter_setup secure name type a)))
    by (intros; by apply tk_keeps_sensors, se_keeps_setup).
  assert (Hfw : tk_keeps (sensors ForwarderList_initialize)) by (apply tk_keeps_sensors, (se_keeps_initialize false false)).
  assert (Hcl : forall a b, tk_keeps (sensors (ClientList_initialize a b))) by (intros; by apply tk_keeps_sensors, se_keeps_initialize).
  assert (Hpre : forall a, tk_keeps (sensors (ClientList_setPredefinedTopics a)))
    by (intros a; apply tk_keeps_sensors, (se_keeps_initialize a a)).
  unfold Gateway_initialize, AdapterManager_initialize, Aggregater_initialize, QoSm1Proxy_initialize, adapter_initialize.
  walk_tasks.
Qed.

Lemma newTasks_ok : tasks_inv newTasks.
Proof.
  split; [|split].
  - split; [|split; [by exists 0, []; apply topics_new_hold|by split]]. intros c cl. cbn. by rewrite lookup_empty.
  - exists []. split; [by apply owns_empty|constructor].
  - exists []. split; [apply newSensors_hold|]. intros p n Hin. by apply elem_of_nil in Hin.
Qed.

Definition sy_keeps {R} (m : st System R) : Prop :=
  forall s r s', tasks_inv (sy_tasks s) -> m s = Some (r, s') -> tasks_inv (sy_tasks s').

Lemma sy_keeps_bind {R Q} (m : st System R) (k : R -> st System Q) :
  sy_keeps m -> (forall r, sy_keeps (k r)) -> sy_keeps (sbind m k).
Proof. intros Hm Hk s q s' Hs (r & s1 & E1 & E2)%sbind_inv. eapply Hk; [|exact E2]. by eapply Hm. Qed.
Lemma sy_keeps_ret {R} (r : R) : sy_keeps (sret r).
Proof. by intros s ? ? Hs [= _ <-]. Qed.
Lemma sy_keeps_the {T} (f : field System T) : sy_keeps (the f).
Proof. by intros s ? ? Hs [= _ <-]. Qed.
Lemma sy_keeps_tasks {R} (m : st Tasks R) : tk_keeps m -> sy_keeps (inside f_tasks m).
Proof. intros Hm s r s' Hs (t & E & ->)%inside_inv. by eapply Hm. Qed.

Lemma tk_keeps_que {R} (m : st Gateway R) : keeps anyone m -> lasts m -> tk_keeps (gw m).
Proof. intros Hk. apply tk_keeps_gw. by eapply keeps_ok. Qed.

Lemma put_packetQue_ok ev q t : tasks_inv t -> EventQue_timedwait (gw_packetEventQue (se_gw (tk_sensors t))) = (ev, q) ->
  forall r t', gw (put f_packetEventQue q) t = Some (r, t') -> tasks_inv t'.
Proof.
  intros ((Hc & Ht & Hq) & Hf & l & Hl & Ha) Hw r t' [= _ <-]. split; [|by split; [|exists l]].
  split; [exact Hc|]. split; [exact Ht|]. cbn. unfold EventQue_timedwait in Hw. destruct Hq as [Hm Hlen].
  destruct (eq_events _) as [|e evs] eqn:E; injection Hw as _ <-; [split; [done|by rewrite E]|].
  split; [exact Hm|]. cbn [eq_events eq_maxSize]. zlen_lia.
Qed.

Lemma packet_turn_ok p now : sy_keeps (PacketHandleTask_turn p now).
Proof.
  intros s r s' Hs E. unfold PacketHandleTask_turn in E. rewrite (sbind_run _ _ _ (sy_tasks s) s) in E by done.
  destruct (EventQue_timedwait _) as [ev q] eqn:Hw. apply sbind_inv in E as (u & s1 & E1 & E).
  apply inside_inv in E1 as (t1 & E1 & ->). pose proof (put_packetQue_ok ev q _ Hs Hw _ _ E1) as Hs1.
  assert (Htimeout : sy_keeps (PacketHandleTask_timeout p now)).
  { unfold PacketHandleTask_timeout. apply sy_keeps_bind; [apply sy_keeps_the|]. intros timer.
    apply sy_keeps_bind; [|intros; apply sy_keeps_tasks, manager_check_ok].
    destruct (Timer_isTimeup now timer); [|apply sy_keeps_ret]. apply sy_keeps_bind; [apply sy_keeps_the|]. intros t.
    apply sy_keeps_bind; [|by intros; intros ? ? ? Hk [= _ <-]].
    apply sy_keeps_tasks, tk_keeps_que; [apply keeps_sendADVERTISE|apply lasts_advertise]. }
  assert (Hev : forall ev, sy_keeps (inside f_tasks (gw (handle_event (H3 := params_of p (sy_tasks s)) ev)))).
  { intros e. apply sy_keeps_tasks, tk_keeps_que; [apply keeps_handle_event|apply lasts_handle_event]. }
  destruct ev; first [eapply Htimeout; [|exact E]; exact Hs1|eapply Hev; [|exact E]; exact Hs1].
Qed.

Lemma broker_send_turn_ok p now connected sent : tk_keeps (BrokerSendTask_turn p now connected sent).
Proof.
  intros t r t' Ht E. unfold BrokerSendTask_turn in E. rewrite (sbind_run _ _ _ t t) in E by done.
  destruct (EventQue_wait _) as [[ev q]|]; [|done].
  assert (Hput : tk_keeps (gw (put f_brokerSendQue q))).
  { apply tk_keeps_gw; [|by apply lasts_put]. intros g u g' (Hc & Htp & Hq) [= _ <-]. by split_and!. }
  assert (Hsend : tk_keeps (gw (broker_send_event (H3 := params_of p t) connected sent ev))).
  { apply tk_keeps_que; [apply keeps_broker_send|apply lasts_broker_send]. }
  apply sbind_inv in E as (u & t1 & E1 & E). pose proof (Hput _ _ _ Ht E1) as Ht1.
  apply sbind_inv in E as (u2 & t2 & E2 & E). eapply Hsend; [|exact E].
  destruct ev; try (by injection E2 as _ <-). apply sbind_inv in E2 as (c & t3 & E3 & E4). injection E4 as _ <-.
  by eapply manager_getClient_ok.
Qed.

Lemma client_send_turn_ok now : tk_keeps (ClientSendTask_turn now).
Proof.
  intros t r t' Ht E. unfold ClientSendTask_turn in E. destruct (EventQue_wait _) as [[ev q]|]; [|done].
  assert (Hput : tk_keeps (gw (put f_clientSendQue q))).
  { apply tk_keeps_gw; [|by apply lasts_put]. intros g u g' (Hc & Htp & Hq) [= _ <-]. by split_and!. }
  eapply (tk_keeps_bind _ _ Hput); [|exact Ht|exact E]. intros. apply client_send_ok.
Qed.

Lemma turn_ok p u : sy_keeps (run_turn p u).
Proof.
  destruct u as [now|now connected sent|arrived|now|rc bs a]; cbn [run_turn].
  - apply sy_keeps_bind; [apply packet_turn_ok|]. intros. apply sy_keeps_ret.
  - apply sy_keeps_bind; [apply sy_keeps_tasks, broker_send_turn_ok|]. intros. apply sy_keeps_ret.
  - apply sy_keeps_bind; [apply sy_keeps_tasks, broker_recv_ok|]. intros. apply sy_keeps_ret.
  - apply sy_keeps_tasks, client_send_turn_ok.
  - apply sy_keeps_bind; [by apply sy_keeps_tasks, client_recv_ok|]. intros. apply sy_keeps_ret.
Qed.

Lemma turns_ok p us : sy_keeps (run_turns p us).
Proof.
  induction us as [|u us IH]; cbn [run_turns]; [apply sy_keeps_ret|].
  apply sy_keeps_bind; [apply turn_ok|]. intros out. apply sy_keeps_bind; [exact IH|]. intros. apply sy_keeps_ret.
Qed.

(** C5: from whatever configuration the gateway starts, whatever its tasks do in
    whatever order and whatever arrives: the list of clients is in order and
    holds at most 101, with an object for each client and for no other; what each
    client owns is in order; the forwarders' lists are; and at most 1000 packets
    wait. *)
Theorem system_invariant start p s0 us out s : system_start start = Some (p, s0) -> run_turns p us s0 = Some (out, s) ->
  let t := sy_tasks s in let g := se_gw (tk_sensors t) in
  (exists l, clients_hold (tk_sensors t) l) /\
  (forall c cl, gw_clients g !! c = Some cl -> client_invariant cl) /\
  forwarders_ok (se_forwarders (tk_sensors t)) /\
  zlen (eq_events (gw_packetEventQue g)) <= MAX_INFLIGHTMESSAGES * MAX_CLIENTS.
Proof.
  intros Hstart Hrun t g. unfold system_start in Hstart. destruct (Gateway_initialize newTasks) as [[p0 t0]|] eqn:Hinit; [|done].
  injection Hstart as <- <-. pose proof (initialize_ok _ _ _ newTasks_ok Hinit) as Ht0.
  destruct (turns_ok p0 us (mkSystem t0 (Timer_start start (par_keepAliveTime p0 * 1000) newTimer)) out s Ht0 Hrun) as (Hg & Hf & l & Hl & _).
  split; [by exists l|]. split; [|split; [exact Hf|]].
  - intros c cl Hc. by eapply client_ok_invariant, Hg.
  - destruct Hg as (_ & _ & Hm & Hlen). fold g in Hm, Hlen. by rewrite Hm in Hlen.
Qed.
End Invariant.

(** ** Witness *)

Section Sample.
#[local] Existing Instance little_endian_order.
#[local] Existing Instance ample_heap.
#[local] Existing Instance sample_files.
#[local] Existing Instance sample_inet.
#[local] Instance system_char : CharSign := true.
#[local] Instance system_pointers : PointerBytes := fun _ => 65535.

Definition sample_address : SensorNetAddress := mkAddress 2000 2000.
Definition sample_connect : list byte := sn_packet MQTTSN_CONNECT (sn_connect_body 1 0 60 (lit "dev")).
Definition sample_connack : MQTTGWPacket := gw_object (mqtt_header CONNACK 0 0 0) [byte_of_Z 0; byte_of_Z 0].

(** The configuration of the sample files, then a client that connects. *)
Definition sample_turns : list Turn := [
  TkClientRecv (zlen sample_connect) sample_connect sample_address; TkPacketHandle 6000000;
  TkBrokerSend 6100000 true 1; TkBrokerRecv (fun k => if decide (k = 1%positive) then Some (1, sample_connack) else None);
  TkPacketHandle 6200000; TkClientSend 6300000 ].

Lemma system_invariant_witness : exists p s0 out s, system_start 5000000 = Some (p, s0) /\
  run_turns p sample_turns s0 = Some (out, s) /\ out = [Unicast (sn_packet MQTTSN_CONNACK [byte_of_Z 0]) sample_address] /\
  exists l, clients_hold (tk_sensors (sy_tasks s)) l.
Proof.
  destruct (system_start 5000000) as [[p s0]|] eqn:Hstart; [|vm_compute in Hstart; discriminate].
  destruct (run_turns p sample_turns s0) as [[out s]|] eqn:Hrun.
  - exists p, s0, out, s. split; [done|]. split; [done|].
    pose proof (system_invariant (fun _ => eq_refl) 5000000 p s0 sample_turns out s Hstart Hrun) as [Hl _].
    split; [|exact Hl]. vm_compute in Hstart. injection Hstart as <- <-. vm_compute in Hrun. by injection Hrun as <- _.
  - exfalso. vm_compute in Hstart. injection Hstart as <- <-. vm_compute in Hrun. discriminate.
Defined.
End Sample.
