(* ===== verification/GWSession.v ===== *)
(** * A client connects, through all tasks of the gateway

    The turns that a CONNECT and its answer cause, composed: from the datagram in
    the sensor network to the event for the packet task, from there to the broker
    and back, and to the datagram for the client. *)

From S2P Require Import Prelude CMem MQTTPacket MQTTConnect SNPacket SNPublish SNConnect GWHeap GWTables GWTopic GWPacket GWSNPacket GWClient GWGateway GWConnect GWPublish GWSubscribe GWTask GWFlow GWEncap GWStrings GWSensorNet GWForwarder GWClientList GWConfig GWAdapter GWEntrance GWSystem.

(** ** The gateway within the system *)

Definition f_all_gw : field System Gateway :=
  Field (fun s => se_gw (tk_sensors (sy_tasks s)))
    (fun g s => fset f_tasks (fset f_sensors (fset f_gw g (tk_sensors (sy_tasks s))) (sy_tasks s)) s).
Abbreviation sys_gw := (fget f_all_gw).
Abbreviation set_gw := (fset f_all_gw).

Lemma set_gw_twice g g' s : set_gw g (set_gw g' s) = set_gw g s.
Proof. done. Qed.
Lemma set_gw_same s : set_gw (sys_gw s) s = s.
Proof. by destruct s as [[[? ? ?] ? ?] ?]. Qed.

(** A queue without events takes one and gives it back. *)
Definition empty_que (q : EventQue) : Prop := eq_events q = [] /\ 0 <= eq_maxSize q.

Lemma post_empty ev q : empty_que q -> EventQue_post ev q = mkEventQue (eq_maxSize q) [ev].
Proof.
  intros [Hq Hmax]. unfold EventQue_post. rewrite Hq. cbn [length app].
  by destruct (Z.eqb_spec (eq_maxSize q) 0), (Z.ltb_spec (Z.of_nat 0) (eq_maxSize q)); try lia.
Qed.

Lemma timedwait_post ev q : empty_que q -> EventQue_timedwait (EventQue_post ev q) = (ev, q).
Proof. intros Hq. rewrite post_empty by done. destruct q, Hq. cbn in *. by subst. Qed.
Lemma wait_post ev q : empty_que q -> EventQue_wait (EventQue_post ev q) = Some (ev, q).
Proof. intros Hq. rewrite post_empty by done. destruct q, Hq. cbn in *. by subst. Qed.

Definition quiet (g : Gateway) : Prop :=
  empty_que (gw_packetEventQue g) /\ empty_que (gw_brokerSendQue g) /\ empty_que (gw_clientSendQue g).

Section Turns.
Context `{CharSign} `{ByteOrder} `{HeapSpace} `{PointerBytes}.
Hypothesis Hheap : forall n, heap_has n = true.
Implicit Types (s : System) (g : Gateway).

(** *** One turn with one event *)

Lemma tasks_gw_run {R} (m : st Gateway R) g r g' s : m g = Some (r, g') ->
  gw m (sy_tasks (set_gw g s)) = Some (r, sy_tasks (set_gw g' s)).
Proof.
  intros Hm. apply (inside_run f_sensors _ (sy_tasks (set_gw g s)) _ (tk_sensors (sy_tasks (set_gw g' s)))).
  exact (inside_run f_gw m (tk_sensors (sy_tasks (set_gw g s))) r g' Hm).
Qed.

Lemma all_gw_run {R} (m : st Gateway R) g r g' s : m g = Some (r, g') ->
  inside f_tasks (gw m) (set_gw g s) = Some (r, set_gw g' s).
Proof.
  intros Hm. apply (inside_run f_tasks _ (set_gw g s) _ (sy_tasks (set_gw g' s))). by apply tasks_gw_run.
Qed.

Lemma put_back {T} (f : field Gateway T) v g g' s : fset f v g = g' ->
  gw (put f v) (sy_tasks (set_gw g s)) = Some (tt, sy_tasks (set_gw g' s)).
Proof. intros Hf. apply tasks_gw_run. unfold put. by rewrite Hf. Qed.

Lemma next_turn p u us out outs s s1 s' : run_turn p u s = Some (out, s1) -> run_turns p us s1 = Some (outs, s') ->
  run_turns p (u :: us) s = Some (out ++ outs, s').
Proof. intros Hu Hus. cbn [run_turns]. rewrite (sbind_run _ _ _ _ _ Hu). by rewrite (sbind_run _ _ _ _ _ Hus). Qed.

(** An event that was posted is taken. *)
Lemma packet_turn p now ev g g' s : empty_que (gw_packetEventQue g) -> ev <> EtTimeout ->
  handle_event (H3 := params_of p (sy_tasks (set_gw g s))) ev g = Some (tt, g') ->
  run_turn p (TkPacketHandle now) (set_gw (posted f_packetEventQue ev g) s) = Some ([], set_gw g' s).
Proof.
  intros Hq Hev Hrun. cbn [run_turn].
  assert (Ht : PacketHandleTask_turn p now (set_gw (posted f_packetEventQue ev g) s) = Some (tt, set_gw g' s)).
  { unfold PacketHandleTask_turn. erewrite sbind_run by reflexivity.
    change (gw_packetEventQue _) with (EventQue_post ev (gw_packetEventQue g)). rewrite (timedwait_post ev _ Hq). cbv beta iota.
    erewrite sbind_run by (apply all_gw_run; reflexivity).
    replace (fset f_packetEventQue _ _) with g by by destruct g.
    destruct ev; first [done|exact (all_gw_run _ g _ g' s Hrun)]. }
  by rewrite (sbind_run _ _ _ _ _ Ht).
Qed.

Lemma broker_turn p now sent c m g g' s : empty_que (gw_brokerSendQue g) ->
  (exists cl, gw_clients g !! c = Some cl /\ cl_type cl <> Ctype_QoS_1 /\ cl_type cl <> Ctype_Aggregated) ->
  broker_send_event (H3 := params_of p (sy_tasks (set_gw g s))) true sent (EtBrokerSend c m) g = Some (tt, g') ->
  run_turn p (TkBrokerSend now true sent) (set_gw (posted f_brokerSendQue (EtBrokerSend c m) g) s) = Some ([], set_gw g' s).
Proof.
  intros Hq (cl & Hc & Hty & Hag) Hrun. cbn [run_turn].
  assert (Hback : fset f_brokerSendQue (gw_brokerSendQue g) (posted f_brokerSendQue (EtBrokerSend c m) g) = g) by by destruct g.
  assert (Ht : inside f_tasks (BrokerSendTask_turn p now true sent) (set_gw (posted f_brokerSendQue (EtBrokerSend c m) g) s) =
    Some (tt, set_gw g' s)).
  { apply (inside_run f_tasks _ (set_gw (posted f_brokerSendQue (EtBrokerSend c m) g) s) tt (sy_tasks (set_gw g' s))).
    unfold BrokerSendTask_turn.
    erewrite sbind_run by reflexivity.
    change (gw_brokerSendQue _) with (EventQue_post (EtBrokerSend c m) (gw_brokerSendQue g)). rewrite (wait_post _ _ Hq).
    rewrite (sbind_run _ _ _ tt (sy_tasks (set_gw g s))) by (exact (put_back _ _ _ _ s Hback)).
    rewrite (sbind_run _ _ _ tt (sy_tasks (set_gw g s))).
    2:{ unfold AdapterManager_getClient. 
        rewrite (sbind_run _ _ _ (Some c) (sy_tasks (set_gw g s))); [done|].
        rewrite (sbind_run _ _ _ (cl_secureNetwork cl) (sy_tasks (set_gw g s))) by (by apply (gw_client_read c cl)).
        rewrite (sbind_run _ _ _ false (sy_tasks (set_gw g s)))
          by (apply (gw_client_read c cl); [done|]; unfold Client_isQoSm1; cbn; by rewrite bool_decide_eq_false_2).
        rewrite (sbind_run _ _ _ false (sy_tasks (set_gw g s)))
          by (apply (gw_client_read c cl); [done|]; unfold Client_isAggregated; cbn; by rewrite bool_decide_eq_false_2).
        done. }
    exact (tasks_gw_run _ g _ g' s Hrun). }
  by rewrite (sbind_run _ _ _ _ _ Ht).
Qed.

(** Only the client's connection has something to say. *)
Lemma news_turn p l1 l2 c n cl packet s : clients_hold (tk_sensors (sy_tasks s)) (l1 ++ (c, n) :: l2) ->
  gw_clients (sys_gw s) !! c = Some cl -> cl_networkValid cl = true -> logged packet = true ->
  run_turn p (TkBrokerRecv (fun k => if decide (k = c) then Some (1, packet) else None)) s =
    Some ([], set_gw (posted f_packetEventQue (EtBrokerRecv c packet) (sys_gw s)) s).
Proof.
  intros Hl Hc Hv Hlog. cbn [run_turn]. set (arrived := fun k : loc => _).
  destruct (clients_hold_seg _ _ Hl) as (Hnd & Hs & Hf & Hlen).
  assert (Hc' : gw_clients (se_gw (tk_sensors (sy_tasks s))) !! c = Some cl) by done.
  assert (Hne : forall l, c ∉ l -> omap (news_event (se_gw (tk_sensors (sy_tasks s))) arrived) l = []).
  { induction l as [|k l IH]; intros Hk; [done|]. apply list.not_elem_of_cons in Hk as [Hk Hkl]. 
    assert (Hnone : news_event (se_gw (tk_sensors (sy_tasks s))) arrived k = None).
    { unfold news_event, news, arrived. rewrite decide_False by congruence.
      destruct (gw_clients _ !! k) as [clk|]; [|done]. by destruct (cl_networkValid clk). }
    cbn [omap list_omap]. rewrite Hnone. by apply IH. }
  rewrite fmap_app in Hnd. apply list.NoDup_app in Hnd as (_ & Hd1 & Hd2). cbn [fmap list_fmap fst] in Hd1, Hd2.
  apply list.NoDup_cons in Hd2 as [Hc2 _].
  assert (Hevs : omap (news_event (se_gw (tk_sensors (sy_tasks s))) arrived) (l1 ++ (c, n) :: l2).*1 = [EtBrokerRecv c packet]).
  { rewrite fmap_app, omap_app. cbn [fmap list_fmap fst omap list_omap]. rewrite (Hne l2.*1 Hc2).
    rewrite Hne by (intros Hin; apply (Hd1 c Hin); left). unfold news_event, news. rewrite Hc', Hv. unfold arrived.
    by rewrite decide_True, Hlog. }
  assert (Ht : inside f_tasks (BrokerRecvTask_turn arrived) s =
    Some (tt, set_gw (posted f_packetEventQue (EtBrokerRecv c packet) (sys_gw s)) s)).
  { rewrite (inside_run f_tasks _ _ tt (queued (EtBrokerRecv c packet) (sy_tasks s))); [done|].
    unfold BrokerRecvTask_turn. cbn [fget f_tasks]. rewrite Hf. rewrite (broker_pass_run _ arrived None _ _ Hs Hlen).
    - by rewrite Hevs.
    - intros k Hk. destruct (clients_have_ids _ _ Hl k Hk) as (clk & Hclk & _). by exists clk.
    - intros k rc pk _. unfold news, arrived. destruct (gw_clients _ !! k) as [clk|]; [|done].
      destruct (cl_networkValid clk); [|done]. destruct (decide (k = c)); [|done]. intros [= <- _]. lia. }
  by rewrite (sbind_run _ _ _ _ _ Ht).
Qed.

Lemma client_turn p now l1 l2 c n cl packet g s :
  clients_hold (tk_sensors (sy_tasks (set_gw g s))) (l1 ++ (c, n) :: l2) -> gw_clients g !! c = Some cl -> cn_forwarder n = None ->
  cl_type cl <> Ctype_Proxy -> cl_type cl <> Ctype_Aggregater -> empty_que (gw_clientSendQue g) ->
  run_turn p (TkClientSend now) (set_gw (posted f_clientSendQue (EtClientSend c packet) g) s) =
    Some ([Unicast (MQTTSNPacket_bytes packet) (cn_addr n)], set_gw g s).
Proof.
  intros Hl Hc Hfwd Hp Ha Hq. cbn [run_turn].
  apply (inside_run f_tasks _ (set_gw (posted f_clientSendQue (EtClientSend c packet) g) s) _ (sy_tasks (set_gw g s))).
  unfold ClientSendTask_turn.
  change (gw_clientSendQue _) with (EventQue_post (EtClientSend c packet) (gw_clientSendQue g)). rewrite (wait_post _ _ Hq).
  assert (Hback : fset f_clientSendQue (gw_clientSendQue g) (posted f_clientSendQue (EtClientSend c packet) g) = g) by by destruct g.
  rewrite (sbind_run _ _ _ tt (sy_tasks (set_gw g s))) by (exact (put_back _ _ _ _ s Hback)).
  cbn [client_send_event]. by eapply unicast_plain.
Qed.
End Turns.

(** ** Connecting *)

Section Connect.
Context `{CharSign} `{ByteOrder} `{HeapSpace} `{PointerBytes}.
Hypothesis Hheap : forall n, heap_has n = true.
Implicit Types (s : System) (g : Gateway).

(** A system with one more client, which is at [a]. *)
Definition joined s0 l (a : SensorNetAddress) (c : loc) cl s : Prop :=
  clients_hold (tk_sensors (sy_tasks s)) (l ++ [(c, mkClientNode a false None)]) /\
  sys_gw s = set_client c cl (sys_gw s0).

Lemma joined_set s0 l a c cl cl' s : joined s0 l a c cl s -> cl_clientId cl' = cl_clientId cl ->
  joined s0 l a c cl' (set_gw (set_client c cl' (sys_gw s0)) s).
Proof.
  intros [Hl Hg] Hid. split; [|done].
  assert (Hc : gw_clients (sys_gw s) !! c = Some cl) by (rewrite Hg; apply lookup_insert_eq).
  assert (Hname : is_Some (cl_clientId cl')).
  { rewrite Hid. destruct Hl as (_ & _ & _ & _ & Hids). by eapply Hids. }
  pose proof (put_client_hold _ _ c cl cl' Hl Hc Hname) as Hl'.
  replace (set_client c cl' (sys_gw s0)) with (set_client c cl' (sys_gw s)); [exact Hl'|].
  rewrite Hg. unfold set_client. cbn [gw_clients gw_topics]. by rewrite insert_insert_eq.
Qed.

(** The handlers keep the identifier. *)
Lemma handled_id `{GatewayParams} ev c cl cl' g g' : handle_event ev (set_client c cl g) = Some (tt, set_client c cl' g') ->
  cl_clientId cl' = cl_clientId cl.
Proof.
  intros Hrun. pose proof (lasts_handle_event ev _ _ _ Hrun c) as Hsame. cbn [set_client gw_clients] in Hsame.
  rewrite !lookup_insert_eq in Hsame. inversion Hsame as [x y Hxy Hx Hy|]; subst. exact (proj1 Hxy).
Qed.

Lemma new_client_turn p s l a clean duration id : clients_hold (tk_sensors (sy_tasks s)) l ->
  client_at a l = None -> first_client (fun e => begins (sys_gw s) id e.1) l = None ->
  zlen l <= MAX_CLIENTS -> zlen id <= MAX_CLIENTID_LENGTH -> 0 <= duration < 65536 ->
  ad_isActive (tk_qosm1 (sy_tasks s)) = false -> ad_isActive (tk_aggregater (sy_tasks s)) = false ->
  let body := sn_connect_body clean 0 duration id in
  let wire := sn_packet MQTTSN_CONNECT body in
  sn_readable body -> zlen wire < 65536 ->
  let c := fresh_client (tk_sensors (sy_tasks s)) in
  exists s1, joined s l a c (created_client id false TRANSPEARENT_TYPE) s1 /\
    sy_advertiseTimer s1 = sy_advertiseTimer s /\ tk_aggregater (sy_tasks s1) = tk_aggregater (sy_tasks s) /\
    run_turn p (TkClientRecv (zlen wire) wire a) s =
      Some ([], set_gw (posted f_packetEventQue (EtClientRecv c (sn_object wire)) (sys_gw s1)) s1).
Proof.
  intros Hl Hat Hnew Hroom Hlen Hd Hq Hag body wire Hb Hmax c. set (t := sy_tasks s).
  destruct (getCONNECT_id clean 0 duration id Hb Hd) as (connect & Hget & Hclen & Hid).
  destruct (createClient_new_run _ l (Some a) id false false TRANSPEARENT_TYPE Hl Hroom) as (s' & Hrun & Hl' & Hg & _).
  { by rewrite (getClient_run _ _ (Some a) Hl), <- Hat. }
  exists (fset f_tasks (fset f_sensors s' t) s). split; [by split|]. split; [done|]. split; [done|].
  cbn [run_turn].
  assert (Ht : inside f_tasks (ClientRecvTask_turn (zlen wire) wire a) s =
    Some (tt, fset f_tasks (queued (EtClientRecv c (sn_object wire)) (fset f_sensors s' t)) s)).
  { apply (inside_run f_tasks). change (fget f_tasks s) with t. unfold wire. rewrite (turn_run Hheap t MQTTSN_CONNECT body a) by done.
    change ((MQTTSN_CONNECT <=? MQTTSN_ADVERTISE) || (MQTTSN_CONNECT =? MQTTSN_GWINFO)) with false.
    change (MQTTSN_CONNECT =? MQTTSN_SEARCHGW) with false. cbv iota.
    rewrite (dispatch_run t l _ None _ a MQTTSN_CONNECT Hl (getType_run MQTTSN_CONNECT body Hb ltac:(done))), Hat.
    change (MQTTSN_CONNECT =? MQTTSN_CONNECT) with true. cbv iota. unfold ClientRecvTask_newClient.
    rewrite (sbind_run _ _ _ (tk_aggregater t) t) by done. rewrite (sbind_run _ _ _ _ _ (demand_run _ _ _ Hget)).
    cbn [Z.eqb]. rewrite (sbind_run _ _ _ _ _ (demand_run _ _ _ Hid)).
    rewrite (sbind_run _ _ _ None t) 
      by (apply sensors_read; etrans; [exact (getClient_id_run _ _ id Hl)|exact (f_equal (fun o => Some (o, tk_sensors t)) Hnew)]).
    cbn [null negb]. change (tk_aggregater t) with (tk_aggregater (sy_tasks s)). rewrite Hag. rewrite (sbind_run _ _ _ _ _ (sensors_run _ _ _ _ Hrun)).
    erewrite sbind_run; [by apply post_packet_run|]. rewrite (log_id_run _ (zlen id)) by (done || lia).
    by test_true (zlen id <=? MAX_CLIENTID_LENGTH). }
  by rewrite (sbind_run _ _ _ _ _ Ht).
Qed.
(** From the CONNECT for the broker on. *)
Lemma answered_turns p s l a c cl0 cl1 v s0 m now2 now3 now4 sent flags rc : joined s l a c cl0 s0 -> quiet (sys_gw s) ->
  cl_clientId cl1 = cl_clientId cl0 -> regular cl1 -> client_holds cl1 v -> gp_header m = mqtt_header CONNECT 0 0 0 ->
  0 <= rc < 256 -> 0 < sent ->
  let g := sys_gw s in let connack := gw_object (mqtt_header CONNACK 0 0 0) [byte_of_Z flags; byte_of_Z rc] in
  exists cl3, joined s l a c cl3 (set_gw (set_client c cl3 g) s0) /\ cl_clientId cl3 = cl_clientId cl0 /\
    cl_status cl3 = (if rc =? MQTT_CONNECTION_ACCEPTED then Cstat_Active else Cstat_Disconnected) /\
    run_turns p [TkBrokerSend now2 true sent; TkBrokerRecv (fun k => if decide (k = c) then Some (1, connack) else None);
        TkPacketHandle now3; TkClientSend now4] (set_gw (posted f_brokerSendQue (EtBrokerSend c m) (set_client c cl1 g)) s0) =
      Some ([Unicast (sn_packet MQTTSN_CONNACK [byte_of_Z (sn_returnCode rc)]) a], set_gw (set_client c cl3 g) s0).
Proof.
  intros Hjoin (Hqp & Hqb & Hqc) Hid1 Hreg1 Hv1 Hm Hrc Hsent g connack. set (P := fun g => params_of p (sy_tasks (set_gw g s0))).
  destruct (regular_not cl1 Hreg1) as (Hnq & Hna & _).
  set (cl2 := fset f_status Cstat_Connecting (fset f_networkValid true cl1)).
  pose proof (broker_connect_run (H3 := P (set_client c cl1 g)) c cl1 m g sent Hreg1 ltac:(by rewrite Hm) Hsent) as Hrun3.
  fold cl2 in Hrun3. assert (Hv2 : client_holds cl2 v) by by eapply same_holds.
  destruct (connack_handled (H3 := P (set_client c cl2 g)) Hheap c cl2 v g flags rc) as (cl3 & _ & Hty3 & Hst3 & Hrun5);
    [by destruct Hreg1; [left|right]|done|done|].
  pose proof (handled_id _ c cl2 cl3 _ _ Hrun5) as Hid3. pose proof (joined_set s l a c cl0 cl2 s0 Hjoin Hid1) as Hj2.
  assert (Hj3 : joined s l a c cl3 (set_gw (set_client c cl3 g) s0)) by (apply (joined_set s l a c cl0 cl3 s0 Hjoin); by rewrite Hid3).
  assert (Hreg3 : regular cl3) by (destruct Hreg1; [left|right]; by rewrite Hty3).
  destruct (regular_not cl3 Hreg3) as (_ & _ & Hp3 & Ha3).
  assert (Hc : forall cl, gw_clients (set_client c cl g) !! c = Some cl) by (intros cl; apply lookup_insert_eq).
  exists cl3. split; [exact Hj3|]. split; [by rewrite Hid3|]. split; [exact Hst3|].
  refine (next_turn p _ _ [] _ _ _ _ (broker_turn p now2 sent c m (set_client c cl1 g) _ s0 Hqb (ex_intro _ cl1 (conj (Hc cl1) (conj Hnq Hna))) Hrun3) _).
  refine (next_turn p _ _ [] _ _ _ _ (news_turn p l [] c _ cl2 connack (set_gw (set_client c cl2 g) s0) (proj1 Hj2) (Hc cl2) eq_refl eq_refl) _).
  refine (next_turn p _ _ [] _ _ _ _ (packet_turn p now3 (EtBrokerRecv c connack) (set_client c cl2 g) _ s0 Hqp ltac:(done) Hrun5) _).
  rewrite <- (posted_at f_clientSendQue).
  exact (next_turn p _ [] [_] [] _ _ _ (client_turn p now4 l [] c (mkClientNode a false None) cl3 _ (set_client c cl3 g) s0 (proj1 Hj3)
    (Hc cl3) eq_refl Hp3 Ha3 Hqc) eq_refl).
Qed.

(** C4: a client that is new to a gateway at rest connects: its CONNECT makes a
    client of it, at the address it came from, and goes to the broker with its
    identifier; the CONNACK of the broker goes, translated, to that address; then
    the gateway is at rest again, and the client active if the broker accepted it. *)
Theorem client_connects p s l a clean duration id now1 now2 now3 now4 sent flags rc :
  clients_hold (tk_sensors (sy_tasks s)) l -> quiet (sys_gw s) ->
  client_at a l = None -> first_client (fun e => begins (sys_gw s) id e.1) l = None ->
  zlen l <= MAX_CLIENTS -> zlen id <= MAX_CLIENTID_LENGTH ->
  ad_isActive (tk_qosm1 (sy_tasks s)) = false -> ad_isActive (tk_aggregater (sy_tasks s)) = false ->
  par_version p = 3 \/ par_version p = 4 -> 0 <= duration < 65536 -> 0 <= rc < 256 -> 0 < sent ->
  let body := sn_connect_body clean 0 duration id in
  let wire := sn_packet MQTTSN_CONNECT body in
  sn_readable body -> zlen wire < 65536 ->
  let c := fresh_client (tk_sensors (sy_tasks s)) in
  let options := connect_options (H3 := params_of p (sy_tasks s)) (c_str id) clean duration None in
  let connack := gw_object (mqtt_header CONNACK 0 0 0) [byte_of_Z flags; byte_of_Z rc] in
  exists m s1 cl s2, gw_wire m = Some (mqtt_packet (mqtt_header CONNECT 0 0 0) (connect_body options)) /\
    run_turns p [TkClientRecv (zlen wire) wire a; TkPacketHandle now1] s = Some ([], s1) /\
    eq_events (gw_brokerSendQue (sys_gw s1)) = [EtBrokerSend c m] /\
    run_turns p [TkBrokerSend now2 true sent; TkBrokerRecv (fun k => if decide (k = c) then Some (1, connack) else None);
        TkPacketHandle now3; TkClientSend now4] s1 =
      Some ([Unicast (sn_packet MQTTSN_CONNACK [byte_of_Z (sn_returnCode rc)]) a], s2) /\
    joined s l a c cl s2 /\ cl_clientId cl = Some (c_str id) /\
    (cl_status cl = Cstat_Active <-> rc = MQTT_CONNECTION_ACCEPTED).
Proof.
  intros Hl Hquiet Hat Hnew Hroom Hlen Hq Hag Hver Hd Hrc Hsent body wire Hb Hmax c options connack.
  destruct (new_client_turn p s l a clean duration id Hl Hat Hnew Hroom Hlen Hd Hq Hag Hb Hmax)
    as (s0 & Hjoin & _ & Hag0 & Hturn1).
  fold c in Hjoin, Hturn1. set (cl0 := created_client id false TRANSPEARENT_TYPE) in *.
  assert (Hreg0 : regular cl0) by by left.
  assert (Hv0 : client_holds cl0 (View [] [] 0 [] ∅ ∅)) by (apply (same_holds (newClient false)); [apply newClient_holds|by split_and!]).
  assert (Hcon : connectable cl0 (c_str id)) by by split_and!.
  set (g0 := sys_gw s). pose proof (proj2 Hjoin) as Hg. fold g0 in Hg.
  set (P := fun g => params_of p (sy_tasks (set_gw g s0))).
  assert (HP : forall g, aggregater_active (GatewayParams := P g) = false) by (intros g; exact (eq_trans (f_equal ad_isActive Hag0) Hag)).
  destruct (connect_handled (H3 := P (set_client c cl0 g0)) (HP _) Hheap c cl0 _ (c_str id) clean duration id g0 Hcon Hreg0 Hv0 Hver Hd Hb)
    as (cl1 & m & Hwire & Hm & Hreg1 & Hv1 & Hrun2).
  destruct (answered_turns p s l a c cl0 cl1 _ s0 m now2 now3 now4 sent flags rc Hjoin Hquiet (handled_id _ c cl0 cl1 _ _ Hrun2)
    Hreg1 Hv1 Hm Hrc Hsent) as (cl3 & Hj3 & Hid3 & Hst3 & Hrun3).
  exists m, (set_gw (posted f_brokerSendQue (EtBrokerSend c m) (set_client c cl1 g0)) s0), cl3, (set_gw (set_client c cl3 g0) s0).
  split; [exact Hwire|]. split; [|split; [|split; [exact Hrun3|split; [exact Hj3|split; [by rewrite Hid3|]]]]].
  - apply (next_turn p _ _ [] [] _ _ _ Hturn1). rewrite Hg. eapply (next_turn p _ _ [] []); [|done].
    apply packet_turn; [apply Hquiet|done|]. rewrite (posted_at f_brokerSendQue). exact Hrun2.
  - change (gw_brokerSendQue _) with (EventQue_post (EtBrokerSend c m) (gw_brokerSendQue g0)). by rewrite post_empty by apply Hquiet.
  - rewrite Hst3. destruct (Z.eqb_spec rc MQTT_CONNECTION_ACCEPTED); done.
Qed.
End Connect.

(** ** Witnesses *)

Section Sample.
#[local] Existing Instance little_endian_order.
#[local] Existing Instance ample_heap.
#[local] Instance session_char : CharSign := true.
#[local] Instance session_pointers : PointerBytes := fun _ => 65535.

(** A gateway at rest, without clients. *)
Definition sample_rest : System := mkSystem newTasks newTimer.
Definition sample_gateway : GWParams :=
  mkGWParams None None None None None None None 1 (Some (lit "g")) 4 4 900 None None false.

Lemma client_connects_witness :
  exists m s1 cl s2,
    run_turns sample_gateway [TkClientRecv (zlen sample_connect) sample_connect sample_address; TkPacketHandle 6000000] sample_rest = Some ([], s1) /\
    eq_events (gw_brokerSendQue (sys_gw s1)) = [EtBrokerSend (fresh_client (tk_sensors newTasks)) m] /\
    joined sample_rest [] sample_address (fresh_client (tk_sensors newTasks)) cl s2 /\ cl_status cl = Cstat_Active.
Proof.
  destruct (client_connects (fun _ => eq_refl) sample_gateway sample_rest [] sample_address 1 60 (lit "dev")
    6000000 6100000 6200000 6300000 1 0 0) as (m & s1 & cl & s2 & _ & Hrun1 & Hq & _ & Hj & _ & Hst).
  - apply newSensors_hold.
  - done.
  - done.
  - done.
  - done.
  - done.
  - done.
  - done.
  - by right.
  - done.
  - done.
  - done.
  - by split.
  - done.
  - exists m, s1, cl, s2. split; [exact Hrun1|]. split; [exact Hq|]. split; [exact Hj|]. by apply Hst.
Defined.
End Sample.
