(* ===== verification/GWXBee.v ===== *)
(** * The sensor network over XBee: linux/xbee/SensorNetwork.cpp

    Frames of an XBee module on a serial line: escaping, the length and the
    checksum, sending with its wait for the transmit status, receiving.  The line
    is what it delivers and what was written to it. *)

From S2P Require Import Prelude CMem MQTTPacket GWHeap GWStrings.

Definition API_XMITREQUEST : Z := 16.
Definition API_RESPONSE : Z := 144.
Definition API_XMITSTATUS : Z := 139.
Definition START_BYTE : byte := byte_of_Z 126.
Definition ESCAPE : byte := byte_of_Z 125.
Definition XON : byte := byte_of_Z 17.
Definition XOFF : byte := byte_of_Z 19.

(** ** Addresses *)

Record XBeeAddress := mkXBeeAddress { xa_address64 : list byte; xa_address16 : list byte }.

Definition newXBeeAddress : XBeeAddress := mkXBeeAddress (replicate 8 nul) (replicate 2 nul).
Definition XBeeAddress_setAddress (address64 address16 : list byte) : option XBeeAddress :=
  if bool_decide (8 <= length address64 /\ 2 <= length address16)%nat
  then Some (mkXBeeAddress (take 8 address64) (take 2 address16)) else None.
(** [setAddress] of a string takes its first eight bytes, the 0 behind it included. *)
Definition XBeeAddress_setString (s : list byte) : option (Z * XBeeAddress) :=
  if bool_decide (8 <= length s + 1)%nat
  then Some (0, mkXBeeAddress (take 8 (s ++ [nul])) (replicate 2 nul)) else None.
Definition XBeeAddress_broadcast : XBeeAddress :=
  mkXBeeAddress (replicate 6 nul ++ map byte_of_Z [255; 255]) (map byte_of_Z [255; 254]).
Definition XBeeAddress_isMatch (a b : XBeeAddress) : bool :=
  bool_decide (xa_address64 a = xa_address64 b) && bool_decide (xa_address16 a = xa_address16 b).

Definition address_whole (a : XBeeAddress) : Prop := length (xa_address64 a) = 8%nat /\ length (xa_address16 a) = 2%nat.

(** ** The module and its line *)

(** [xb_in] is what the line will deliver, [None] for half a second without a byte;
    [xb_sem] the semaphore, which is 0 or 1. *)
Record XBee := mkXBee {
  xb_respCd : Z;
  xb_respId : Z;
  xb_frameId : Z;
  xb_apiMode : Z;
  xb_sem : bool;
  xb_in : list (option byte);
  xb_out : list byte;
}.
Definition newXBee (line : list (option byte)) : XBee := mkXBee 0 0 0 2 false line [].

Definition xb_get {R} (f : XBee -> R) : st XBee R := fun s => Some (f s, s).
Definition set_resp (cd id : Z) : st XBee unit := fun s =>
  Some (tt, mkXBee cd id (xb_frameId s) (xb_apiMode s) (xb_sem s) (xb_in s) (xb_out s)).
Definition set_frameId (id : Z) : st XBee unit := fun s =>
  Some (tt, mkXBee (xb_respCd s) (xb_respId s) id (xb_apiMode s) (xb_sem s) (xb_in s) (xb_out s)).
Definition XBee_setApiMode (mode : Z) : st XBee unit := fun s =>
  Some (tt, mkXBee (xb_respCd s) (xb_respId s) (xb_frameId s) (u8 mode) (xb_sem s) (xb_in s) (xb_out s)).
(** [post] leaves the semaphore at 1; the wait that ends takes it back to 0. *)
Definition set_sem (b : bool) : st XBee unit := fun s =>
  Some (tt, mkXBee (xb_respCd s) (xb_respId s) (xb_frameId s) (xb_apiMode s) b (xb_in s) (xb_out s)).
Definition with_in (line : list (option byte)) (s : XBee) : XBee :=
  mkXBee (xb_respCd s) (xb_respId s) (xb_frameId s) (xb_apiMode s) (xb_sem s) line (xb_out s).

(** What a flush leaves of the line: the bytes that had come in are dropped. *)
Class Flush := flushed : list (option byte) -> list (option byte).

Section Module.
Context `{Flush}.

Definition SerialPort_recv : st XBee (option byte) := fun s =>
  match xb_in s with [] => Some (None, s) | x :: line => Some (x, with_in line s) end.
Definition SerialPort_flush : st XBee unit := fun s => Some (tt, with_in (flushed (xb_in s)) s).
(** The result of writing is not looked at. *)
Definition SerialPort_send (b : byte) : st XBee unit := fun s =>
  Some (tt, mkXBee (xb_respCd s) (xb_respId s) (xb_frameId s) (xb_apiMode s) (xb_sem s) (xb_in s) (xb_out s ++ [b])).

(** ** Receiving *)

Definition xor20 (b : byte) : byte := byte_of_Z (Z.lxor 32 (Z_of_byte b)).

(** [recv(&buf)]: the result and [buf] afterwards.  Whether the byte after an
    escape arrives is not looked at. *)
Definition XBee_recv_byte (buf : byte) : st XBee (Z * byte) :=
  let! got := SerialPort_recv in
  match got with
  | None => sret (-1, buf)
  | Some b =>
      let! mode := xb_get xb_apiMode in
      if bool_decide (b = ESCAPE) && (mode =? 2) then
        let! next := SerialPort_recv in sret (0, xor20 (default b next))
      else sret (0, b)
  end.

Fixpoint find_start (n : nat) : st XBee bool :=
  match n with
  | O => undefined
  | S n =>
      let! got := SerialPort_recv in
      match got with
      | None => sret false
      | Some b => if bool_decide (b = START_BYTE) then sret true else find_start n
      end
  end.

(** [while ( len-- )]: whether it got to the end, the array behind the pointer, the
    position, the sum and the last byte. *)
Fixpoint read_data (len : nat) (data : list byte) (pos checksum : Z) (buf : byte) :
    st XBee (bool * list byte * Z * Z * byte) :=
  match len with
  | O => sret (true, data, pos, checksum, buf)
  | S len =>
      let! (rc, buf) := XBee_recv_byte buf in
      if rc <? 0 then sret (false, data, pos, checksum, buf)
      else if zlen data <=? pos then undefined
      else read_data len (<[Z.to_nat pos := buf]> data) (u8 (pos + 1)) (u8 (checksum + Z_of_byte buf)) buf
  end.

Definition frame_error (data : list byte) : st XBee (Z * list byte) := SerialPort_flush ;! sret (-1, data).

Definition XBee_readApiFrame (data : list byte) : st XBee (Z * list byte) := fun s => (
  let! found := find_start (S (length (xb_in s))) in
  if negb found then frame_error data
  else
    let! (rc, buf) := XBee_recv_byte START_BYTE in
    if rc <? 0 then frame_error data
    else
      let! (rc, buf) := XBee_recv_byte buf in
      if rc <? 0 then frame_error data
      else
        let! (ok, data, pos, checksum, buf) := read_data (Z.to_nat (Z_of_byte buf)) data 0 0 buf in
        if negb ok then frame_error data
        else
          let! (_, buf) := XBee_recv_byte buf in
          if 255 - checksum =? Z_of_byte buf then sret (pos, data) else frame_error data) s.

(** What [recv] does with a frame: whether it returns, with the bytes for the
    caller and the address. *)
Definition XBee_frame (len : Z) (data : list byte) : st XBee (option (Z * list byte * XBeeAddress)) :=
  let! type := (fun s => match data !! 0%nat with Some b => Some (Z_of_byte b, s) | None => None end) in
  if type =? API_RESPONSE then
    let len := len - 12 in
    if len <? 0 then undefined
    else sret (Some (len, take (Z.to_nat len) (drop 12 data), mkXBeeAddress (take 8 (drop 1 data)) (take 2 (drop 9 data))))
  else if type =? API_XMITSTATUS then
    match data !! 5%nat, data !! 1%nat with
    | Some cd, Some id => set_resp (Z_of_byte cd) (Z_of_byte id) ;! set_sem true ;! sret None
    | _, _ => undefined
    end
  else sret None.

Fixpoint recv_loop (n : nat) (data : list byte) : st XBee (Z * list byte * option XBeeAddress) :=
  match n with
  | O => undefined
  | S n =>
      let! (len, data) := XBee_readApiFrame data in
      if 0 <? len then
        let! done := XBee_frame len data in
        match done with
        | Some (len, bs, addr) => sret (len, bs, Some addr)
        | None => recv_loop n data
        end
      else sret (0, [], None)
  end.

(** [recv(buf, bufLen, addr)]; [stack] is what the array of 128 bytes holds. *)
Definition XBee_recv (stack : list byte) : st XBee (Z * list byte * option XBeeAddress) := fun s =>
  recv_loop (S (length (xb_in s))) (take 128 (stack ++ replicate 128 nul)) s.

(** ** Sending *)

Definition is_special (b : byte) : bool :=
  bool_decide (b = START_BYTE) || bool_decide (b = ESCAPE) || bool_decide (b = XON) || bool_decide (b = XOFF).

Definition XBee_send_byte (c : byte) : st XBee unit :=
  let! mode := xb_get xb_apiMode in
  if (mode =? 2) && is_special c then SerialPort_send ESCAPE ;! SerialPort_send (xor20 c) else SerialPort_send c.

(** [send(c); checksum += c;] for several bytes. *)
Fixpoint send_summed (cs : list byte) (checksum : Z) : st XBee Z :=
  match cs with
  | [] => sret checksum
  | c :: cs => XBee_send_byte c ;! send_summed cs (u8 (checksum + Z_of_byte c))
  end.

(** What is written; [pLen] is a number of 8 bits. *)
Definition XBee_transmit (payload : list byte) (pLen : Z) (addr : XBeeAddress) : st XBee unit :=
  let! id := xb_get xb_respId in
  set_resp (u8 (-1)) id ;!
  SerialPort_send START_BYTE ;!
  XBee_send_byte nul ;!
  XBee_send_byte (byte_of_Z (14 + pLen)) ;!
  SerialPort_send (byte_of_Z API_XMITREQUEST) ;!
  let! frameId := xb_get xb_frameId in
  set_frameId (if frameId =? 0 then 1 else u8 (frameId + 1)) ;!
  let! frameId := xb_get xb_frameId in
  let! checksum := send_summed [byte_of_Z frameId] API_XMITREQUEST in
  let! checksum := send_summed (xa_address64 addr) checksum in
  let! checksum := send_summed (xa_address16 addr) checksum in
  let! checksum := send_summed [nul; nul] checksum in
  let! checksum := send_summed (take (Z.to_nat pLen) payload) checksum in
  XBee_send_byte (byte_of_Z (255 - checksum)).

(** [_sem.timedwait]: [meanwhile] is what the receiving task does in this time. *)
Definition sem_timedwait (meanwhile : st XBee unit) : st XBee unit :=
  let! up := xb_get xb_sem in
  if up : bool then set_sem false
  else meanwhile ;! set_sem false.

Definition XBee_send (meanwhile : st XBee unit) (payload : list byte) (pLen : Z) (addr : XBeeAddress) : st XBee Z :=
  XBee_transmit payload pLen addr ;!
  sem_timedwait meanwhile ;!
  let! cd := xb_get xb_respCd in
  let! frameId := xb_get xb_frameId in
  let! id := xb_get xb_respId in
  sret (if negb (cd =? 0) || negb (frameId =? id) then -1 else pLen).

Definition XBee_unicast (meanwhile : st XBee unit) (payload : list byte) (addr : XBeeAddress) : st XBee Z :=
  XBee_send meanwhile payload (u8 (zlen payload)) addr.
Definition XBee_broadcast (meanwhile : st XBee unit) (payload : list byte) : st XBee Z :=
  XBee_send meanwhile payload (u8 (zlen payload)) XBeeAddress_broadcast.

(** A turn of the receiving task; what it returns goes elsewhere. *)
Definition receiving (stack : list byte) : st XBee unit := XBee_recv stack ;! sret tt.
End Module.

(** ** Frames on the line *)

Definition escaped_byte (mode : Z) (b : byte) : list byte := if (mode =? 2) && is_special b then [ESCAPE; xor20 b] else [b].
Definition escaped (mode : Z) (bs : list byte) : list byte := concat (map (escaped_byte mode) bs).
Definition bytes_sum (bs : list byte) : Z := foldr (fun b n => Z_of_byte b + n) 0 bs.
Definition frame_check (content : list byte) : byte := byte_of_Z (255 - u8 (bytes_sum content)).

(** A frame: the start, the length in two bytes, the content and the checksum. *)
Definition api_frame (mode : Z) (content : list byte) : list byte :=
  START_BYTE :: escaped mode ([nul; byte_of_Z (zlen content)] ++ content ++ [frame_check content]).

Definition incoming (bs : list byte) : list (option byte) := Some <$> bs.

Lemma xor20_twice b : xor20 (xor20 b) = b.
Proof. by destruct b. Qed.

Lemma escaped_app mode a b : escaped mode (a ++ b) = escaped mode a ++ escaped mode b.
Proof. unfold escaped. by rewrite map_app, concat_app. Qed.
Lemma escaped_cons mode b bs : escaped mode (b :: bs) = escaped_byte mode b ++ escaped mode bs.
Proof. done. Qed.

Lemma bytes_sum_app a b : bytes_sum (a ++ b) = bytes_sum a + bytes_sum b.
Proof. induction a as [|x a IH]; [done|]. cbn [app bytes_sum foldr]. fold (bytes_sum (a ++ b)) (bytes_sum a). lia. Qed.

Lemma u8_add a b : u8 (u8 a + b) = u8 (a + b).
Proof. unfold u8. by rewrite Z.add_mod_idemp_l. Qed.

Lemma frame_check_spec content : 255 - u8 (bytes_sum content) = Z_of_byte (frame_check content).
Proof. unfold frame_check. pose proof (u8_range (bytes_sum content)). rewrite Z_of_byte_small; lia. Qed.

Section Frames.
Context `{Flush}.
Implicit Types (s : XBee) (rest : list (option byte)).

Lemma xbee_recv_byte_run buf b rest s : XBee_recv_byte buf (with_in (incoming (escaped_byte (xb_apiMode s) b) ++ rest) s) =
  Some ((0, b), with_in rest s).
Proof.
  unfold escaped_byte. destruct ((xb_apiMode s =? 2) && is_special b) eqn:E.
  - apply andb_true_iff in E as [E _]. unfold XBee_recv_byte, sbind, SerialPort_recv, xb_get. cbn -[xor20].
    rewrite E. rewrite bool_decide_eq_true_2 by done. cbn -[xor20]. by rewrite xor20_twice.
  - unfold XBee_recv_byte, sbind, SerialPort_recv, xb_get. cbn. unfold is_special in E.
    destruct (bool_decide (b = ESCAPE)) eqn:E2; [|done]. rewrite !orb_true_r in E. cbn in E. by rewrite andb_true_r in E; rewrite E.
Qed.

Lemma find_start_run noise rest s n : Forall (fun b => b <> START_BYTE) noise -> (length noise < n)%nat ->
  find_start n (with_in (incoming noise ++ Some START_BYTE :: rest) s) = Some (true, with_in rest s).
Proof.
  revert n. induction noise as [|b noise IH]; intros n Hn Hlen; destruct n as [|n]; try (cbn in Hlen; lia); [done|].
  apply list.Forall_cons in Hn as [Hb Hn]. cbn [find_start incoming fmap list_fmap app].
  rewrite (sbind_run _ _ _ (Some b) (with_in (incoming noise ++ Some START_BYTE :: rest) s)) by done.
  rewrite bool_decide_eq_false_2 by done. apply IH; [done|]. cbn in Hlen. lia.
Qed.

Lemma read_data_run bs pre old c buf rest s : (length bs <= length old)%nat -> zlen pre + zlen bs < 256 -> 0 <= c < 256 ->
  exists buf', read_data (length bs) (pre ++ old) (zlen pre) c buf (with_in (incoming (escaped (xb_apiMode s) bs) ++ rest) s) =
    Some ((true, pre ++ bs ++ drop (length bs) old, zlen pre + zlen bs, u8 (c + bytes_sum bs), buf'), with_in rest s).
Proof.
  revert pre old c buf. induction bs as [|b bs IH]; intros pre old c buf Hold Hlen Hc.
  - exists buf. cbn [read_data length escaped bytes_sum foldr]. unfold u8. rewrite Z.mod_small by lia. rewrite Z.add_0_r.
    cbn [app map concat drop]. unfold sret. do 4 f_equal. lia.
  - destruct old as [|o old]; [cbn in Hold; lia|]. cbn [read_data length].
    rewrite escaped_cons. unfold incoming. rewrite fmap_app, <- app_assoc.
    rewrite (sbind_run _ _ _ _ _ (xbee_recv_byte_run buf b _ s)). change (0 <? 0) with false. cbv iota.
    test_false (zlen (pre ++ o :: old) <=? zlen pre). 
    replace (<[Z.to_nat (zlen pre) := b]> (pre ++ o :: old)) with ((pre ++ [b]) ++ old)
      by (rewrite Nat2Z.id, insert_app_r_alt by lia; rewrite Nat.sub_diag; by rewrite <- app_assoc).
    replace (u8 (zlen pre + 1)) with (zlen (pre ++ [b])) by (rewrite length_app; unfold u8; rewrite Z.mod_small; cbn [length] in *; lia).
    destruct (IH (pre ++ [b]) old (u8 (c + Z_of_byte b)) b) as (buf' & Hrun).
    + cbn in Hold. lia.
    + rewrite length_app. cbn [length] in *. lia.
    + apply u8_range.
    + exists buf'. unfold incoming in Hrun. rewrite Hrun. rewrite u8_add.
      replace (zlen (pre ++ [b]) + zlen bs) with (zlen pre + zlen (b :: bs)) by (rewrite length_app; cbn [length]; lia).
      replace (c + Z_of_byte b + bytes_sum bs) with (c + bytes_sum (b :: bs)) by (cbn [bytes_sum foldr]; fold (bytes_sum bs); lia).
      by rewrite <- app_assoc.
Qed.

(** Bytes beyond the end of the array are written outside of it. *)
Lemma read_data_outside bs pre old c buf rest s : (length old < length bs)%nat -> zlen pre + zlen bs < 256 ->
  read_data (length bs) (pre ++ old) (zlen pre) c buf (with_in (incoming (escaped (xb_apiMode s) bs) ++ rest) s) = None.
Proof.
  revert pre old c buf. induction bs as [|b bs IH]; intros pre old c buf Hold Hlen; [cbn in Hold; lia|]. cbn [read_data length].
  rewrite escaped_cons. unfold incoming. rewrite fmap_app, <- app_assoc.
  rewrite (sbind_run _ _ _ _ _ (xbee_recv_byte_run buf b _ s)). change (0 <? 0) with false. cbv iota.
  destruct old as [|o old]; [rewrite app_nil_r; by test_true (zlen pre <=? zlen pre)|].
  test_false (zlen (pre ++ o :: old) <=? zlen pre).
  replace (<[Z.to_nat (zlen pre) := b]> (pre ++ o :: old)) with ((pre ++ [b]) ++ old)
    by (rewrite Nat2Z.id, insert_app_r_alt by lia; rewrite Nat.sub_diag; by rewrite <- app_assoc).
  replace (u8 (zlen pre + 1)) with (zlen (pre ++ [b])) by (rewrite length_app; unfold u8; rewrite Z.mod_small; cbn [length] in *; lia).
  apply IH; [cbn in Hold; lia|]. rewrite length_app. cbn [length] in *. lia.
Qed.
(** What [readApiFrame] does up to the content of a frame. *)
Lemma frame_start noise content rest data s : Forall (fun b => b <> START_BYTE) noise -> zlen content < 256 ->
  XBee_readApiFrame data (with_in (incoming (noise ++ api_frame (xb_apiMode s) content) ++ rest) s) =
    (let! (ok, data, pos, checksum, buf) := read_data (length content) data 0 0 (byte_of_Z (zlen content)) in
     if negb ok then frame_error data
     else
       let! (_, buf) := XBee_recv_byte buf in
       if 255 - checksum =? Z_of_byte buf then sret (pos, data) else frame_error data)
    (with_in (incoming (escaped (xb_apiMode s) (content ++ [frame_check content])) ++ rest) s).
Proof.
  intros Hn Hlen. unfold XBee_readApiFrame, api_frame. set (m := xb_apiMode s).
  set (body := escaped m ([nul; byte_of_Z (zlen content)] ++ content ++ [frame_check content])).
  unfold incoming. rewrite fmap_app. cbn [fmap list_fmap]. rewrite <- app_assoc. cbn [app].
  assert (Hs : find_start (S (length (xb_in (with_in (incoming noise ++ Some START_BYTE :: incoming body ++ rest) s))))
    (with_in (incoming noise ++ Some START_BYTE :: incoming body ++ rest) s) = Some (true, with_in (incoming body ++ rest) s)).
  { apply find_start_run; [done|]. cbn [with_in xb_in]. unfold incoming. rewrite length_app, length_fmap. lia. }
  unfold incoming in Hs. rewrite (sbind_run _ _ _ _ _ Hs). unfold body. cbn [negb app]. rewrite !escaped_cons, !fmap_app, <- !app_assoc.
  rewrite (sbind_run _ _ _ _ _ (xbee_recv_byte_run START_BYTE nul _ s)). change (0 <? 0) with false. cbv iota.
  rewrite (sbind_run _ _ _ _ _ (xbee_recv_byte_run nul (byte_of_Z (zlen content)) _ s)). change (0 <? 0) with false. cbv iota.
  by rewrite Z_of_byte_small, Nat2Z.id by lia.
Qed.
(** A frame behind what is no start of one is read as it was written. *)
Lemma frame_run noise content rest data s : Forall (fun b => b <> START_BYTE) noise ->
  (length content <= length data)%nat -> zlen content < 256 ->
  XBee_readApiFrame data (with_in (incoming (noise ++ api_frame (xb_apiMode s) content) ++ rest) s) =
    Some ((zlen content, content ++ drop (length content) data), with_in rest s).
Proof.
  intros Hn Hdata Hlen. rewrite frame_start by done. set (m := xb_apiMode s).
  rewrite escaped_app. unfold incoming. rewrite fmap_app, <- app_assoc.
  destruct (read_data_run content [] data 0 (byte_of_Z (zlen content)) ((Some <$> escaped m [frame_check content]) ++ rest) s)
    as (buf' & Hrun); [done|cbn [length]; lia|lia|].
  unfold incoming in Hrun. cbn [app] in Hrun. change (zlen []) with 0 in Hrun. rewrite (sbind_run _ _ _ _ _ Hrun). cbn [negb].
  rewrite escaped_cons. rewrite fmap_app, <- app_assoc. cbn [escaped map concat fmap list_fmap app].
  rewrite (sbind_run _ _ _ _ _ (xbee_recv_byte_run buf' (frame_check content) rest s)). rewrite Z.add_0_l.
  rewrite frame_check_spec, Z.eqb_refl. done.
Qed.

(** A frame of more content than the array holds is written past its end. *)
Lemma frame_outside noise content rest data s : Forall (fun b => b <> START_BYTE) noise ->
  (length data < length content)%nat -> zlen content < 256 ->
  XBee_readApiFrame data (with_in (incoming (noise ++ api_frame (xb_apiMode s) content) ++ rest) s) = None.
Proof.
  intros Hn Hdata Hlen. rewrite frame_start, escaped_app by done. unfold incoming. rewrite fmap_app, <- app_assoc.
  pose proof (read_data_outside content [] data 0 (byte_of_Z (zlen content))
    ((Some <$> escaped (xb_apiMode s) [frame_check content]) ++ rest) s Hdata) as Hrun.
  unfold incoming in Hrun. cbn [app] in Hrun. change (zlen []) with 0 in Hrun. unfold sbind at 1. rewrite Hrun; [done|lia].
Qed.
End Frames.

(** ** Sending a frame *)

Definition next_frameId (frameId : Z) : Z := if frameId =? 0 then 1 else u8 (frameId + 1).
Definition xmit_content (frameId : Z) (payload : list byte) (addr : XBeeAddress) : list byte :=
  byte_of_Z API_XMITREQUEST :: byte_of_Z frameId :: xa_address64 addr ++ xa_address16 addr ++ [nul; nul] ++ payload.
(** The module after this was written. *)
Definition transmitted (bs : list byte) (s : XBee) : XBee :=
  mkXBee 255 (xb_respId s) (next_frameId (xb_frameId s)) (xb_apiMode s) (xb_sem s) (xb_in s) (xb_out s ++ bs).

Definition wrote (bs : list byte) (s : XBee) : XBee :=
  mkXBee (xb_respCd s) (xb_respId s) (xb_frameId s) (xb_apiMode s) (xb_sem s) (xb_in s) (xb_out s ++ bs).

Lemma wrote_wrote a b s : wrote b (wrote a s) = wrote (a ++ b) s.
Proof. unfold wrote. cbn. by rewrite app_assoc. Qed.
Lemma wrote_nil s : wrote [] s = s.
Proof. destruct s. unfold wrote. cbn. by rewrite app_nil_r. Qed.

Section Sending.
Context `{Flush}.
Implicit Types s : XBee.

Lemma send_byte_run b s : XBee_send_byte b s = Some (tt, wrote (escaped_byte (xb_apiMode s) b) s).
Proof.
  unfold XBee_send_byte, escaped_byte, sbind, xb_get. destruct ((xb_apiMode s =? 2) && is_special b); [|done].
  unfold SerialPort_send, wrote. cbn -[xor20]. by rewrite <- app_assoc.
Qed.

Lemma send_summed_run cs c s : 0 <= c < 256 ->
  send_summed cs c s = Some (u8 (c + bytes_sum cs), wrote (escaped (xb_apiMode s) cs) s).
Proof.
  revert c s. induction cs as [|b cs IH]; intros c s Hc.
  - cbn. rewrite Z.add_0_r, wrote_nil. unfold u8. by rewrite Z.mod_small.
  - cbn [send_summed]. rewrite (sbind_run _ _ _ _ _ (send_byte_run b s)). rewrite IH by apply u8_range.
    rewrite u8_add, wrote_wrote. cbn [bytes_sum foldr wrote xb_apiMode]. fold (bytes_sum cs).
    rewrite escaped_cons. do 3 f_equal. lia.
Qed.

Lemma next_frameId_range id : 0 <= next_frameId id < 256.
Proof. unfold next_frameId. destruct (id =? 0); [lia|apply u8_range]. Qed.

(** What is written is a frame, if the length fits. *)
Lemma transmit_run payload addr s : address_whole addr -> zlen payload <= 241 ->
  let content := xmit_content (next_frameId (xb_frameId s)) payload addr in
  XBee_transmit payload (zlen payload) addr s = Some (tt, transmitted (api_frame (xb_apiMode s) content) s).
Proof.
  intros [H8 H2] Hlen content. assert (Hcontent : zlen content = 14 + zlen payload).
  { unfold content, xmit_content. cbn [length]. rewrite !length_app, H8, H2. cbn [length]. lia. }
  set (m := xb_apiMode s). set (id := next_frameId (xb_frameId s)).
  set (at_ := fun fid bs => mkXBee 255 (xb_respId s) fid m (xb_sem s) (xb_in s) (xb_out s ++ bs)).
  assert (Hbyte : forall b fid bs, XBee_send_byte b (at_ fid bs) = Some (tt, at_ fid (bs ++ escaped_byte m b))).
  { intros b fid bs. rewrite send_byte_run. unfold wrote, at_. cbn. by rewrite app_assoc. }
  assert (Hsum : forall cs c fid bs, 0 <= c < 256 ->
    send_summed cs c (at_ fid bs) = Some (u8 (c + bytes_sum cs), at_ fid (bs ++ escaped m cs))).
  { intros cs c fid bs Hc. rewrite send_summed_run by done. unfold wrote, at_. cbn. by rewrite app_assoc. }
  assert (Hraw : forall b fid bs, SerialPort_send b (at_ fid bs) = Some (tt, at_ fid (bs ++ [b]))).
  { intros b fid bs. unfold SerialPort_send, at_. cbn. by rewrite app_assoc. }
  unfold XBee_transmit. do 2 (erewrite sbind_run by reflexivity).
  rewrite (sbind_run _ _ _ tt (at_ (xb_frameId s) [START_BYTE])) by done.
  rewrite (sbind_run _ _ _ _ _ (Hbyte _ _ _)), (sbind_run _ _ _ _ _ (Hbyte _ _ _)), (sbind_run _ _ _ _ _ (Hraw _ _ _)).
  erewrite sbind_run by reflexivity. rewrite (sbind_run _ _ _ tt (at_ id _)) by reflexivity. erewrite sbind_run by reflexivity.
  change (xb_frameId (at_ id _)) with id.
  rewrite (sbind_run _ _ _ _ _ (Hsum _ API_XMITREQUEST _ _ ltac:(done))).
  do 4 (rewrite (sbind_run _ _ _ _ _ (Hsum _ _ _ _ (u8_range _)))).
  rewrite Hbyte, Nat2Z.id, take_ge by done. unfold transmitted, at_. do 4 f_equal.
  unfold api_frame. rewrite Hcontent. cbn [app]. rewrite !escaped_cons, escaped_app. fold m.
  rewrite !u8_add, <- !app_assoc. cbn [app]. do 4 f_equal.
  assert (Htype : escaped_byte m (byte_of_Z API_XMITREQUEST) = [byte_of_Z API_XMITREQUEST]).
  { unfold escaped_byte. change (is_special _) with false. by rewrite andb_false_r. }
  assert (Hcheck : byte_of_Z (255 - u8 (u8 (u8 (API_XMITREQUEST + bytes_sum [byte_of_Z id]) +
    bytes_sum (xa_address64 addr) + bytes_sum (xa_address16 addr)) + bytes_sum [nul; nul] + bytes_sum payload)) = frame_check content).
  { unfold frame_check. do 2 f_equal.
    assert (Hs : bytes_sum content = API_XMITREQUEST + (bytes_sum [byte_of_Z id] + (bytes_sum (xa_address64 addr) +
      (bytes_sum (xa_address16 addr) + (bytes_sum [nul; nul] + bytes_sum payload))))).
    { unfold content, xmit_content. fold id. rewrite !(app_comm_cons _ _ _), <- !bytes_sum_app. done. }
    rewrite Hs. unfold u8. Z.div_mod_to_equations. lia. }
  rewrite Hcheck. unfold content at 2, xmit_content. fold id. rewrite !escaped_cons, !escaped_app, Htype.
  cbn [escaped map concat app]. rewrite <- ?app_assoc. cbn [app]. by rewrite ?app_nil_r.
Qed.


(** ** Receiving frames *)

Definition status_content (id a b retries cd discovery : byte) : list byte :=
  [byte_of_Z API_XMITSTATUS; id; a; b; retries; cd; discovery].
Definition rx_content (addr : XBeeAddress) (option : byte) (payload : list byte) : list byte :=
  byte_of_Z API_RESPONSE :: xa_address64 addr ++ xa_address16 addr ++ [option] ++ payload.

(** A frame that is not for the caller, and what it leaves behind. *)
Definition other_frame (content : list byte) : Prop :=
  (6 <= length content <= 128)%nat /\ head content <> Some (byte_of_Z API_RESPONSE).
Definition after_frame (s : XBee) (content : list byte) : XBee :=
  match content with
  | t :: id :: _ :: _ :: _ :: cd :: _ =>
      if Z_of_byte t =? API_XMITSTATUS
      then mkXBee (Z_of_byte cd) (Z_of_byte id) (xb_frameId s) (xb_apiMode s) true (xb_in s) (xb_out s) else s
  | _ => s
  end.

Lemma after_frame_in line s content : after_frame (with_in line s) content = with_in line (after_frame s content).
Proof. unfold after_frame. destruct content as [|t [|id [|? [|? [|? [|cd ?]]]]]]; try done. by destruct (_ =? _). Qed.
Lemma after_frame_mode s content : xb_apiMode (after_frame s content) = xb_apiMode s.
Proof. unfold after_frame. destruct content as [|t [|id [|? [|? [|? [|cd ?]]]]]]; try done. by destruct (_ =? _). Qed.

Lemma frame_other content data s : other_frame content ->
  XBee_frame (zlen content) (content ++ data) s = Some (None, after_frame s content).
Proof.
  intros [Hlen Ht]. destruct content as [|t [|id [|x [|y [|z [|cd content]]]]]]; cbn in Hlen; try lia.
  unfold XBee_frame, sbind. cbn [app lookup list_lookup head] in *.
  assert (Hne : (Z_of_byte t =? API_RESPONSE) = false).
  { apply Z.eqb_neq. intros E. apply Ht. f_equal. rewrite <- (byte_of_Z_of_byte t). by rewrite E. }
  rewrite Hne. unfold after_frame. by destruct (Z_of_byte t =? API_XMITSTATUS).
Qed.

Lemma frame_rx addr opt payload data s : address_whole addr ->
  XBee_frame (zlen (rx_content addr opt payload)) (rx_content addr opt payload ++ data) s =
    Some (Some (zlen payload, payload, addr), s).
Proof.
  intros [H8 H2]. destruct addr as [a64 a16]. cbn [xa_address64 xa_address16] in *.
  do 9 (destruct a64 as [|? a64]; try done). do 3 (destruct a16 as [|? a16]; try done).
  unfold XBee_frame, sbind, rx_content. cbn [app lookup list_lookup xa_address64 xa_address16].
  change (Z_of_byte (byte_of_Z API_RESPONSE) =? API_RESPONSE) with true. cbv iota.
  assert (Hlen : forall b0 b1 b2 b3 b4 b5 b6 b7 b8 b9 b10 b11 : byte,
    zlen (b0 :: b1 :: b2 :: b3 :: b4 :: b5 :: b6 :: b7 :: b8 :: b9 :: b10 :: b11 :: payload) - 12 = zlen payload)
    by (intros; cbn [length]; lia).
  rewrite Hlen. test_false (zlen payload <? 0). cbn [drop take app]. rewrite Nat2Z.id.
  unfold sret. rewrite drop_0. by rewrite take_app_length.
Qed.

(** One round of the loop. *)
Lemma recv_round n content rest data s : (length content <= length data)%nat -> zlen content < 256 -> content <> [] ->
  recv_loop (S n) data (with_in (incoming (api_frame (xb_apiMode s) content) ++ rest) s) =
    (let! done := XBee_frame (zlen content) (content ++ drop (length content) data) in
     match done with
     | Some (len, bs, addr) => sret (len, bs, Some addr)
     | None => recv_loop n (content ++ drop (length content) data)
     end) (with_in rest s).
Proof.
  intros Hdata Hlen Hne. cbn [recv_loop].
  rewrite (sbind_run _ _ _ _ _ (frame_run [] content rest data s (list.Forall_nil_2 _) Hdata Hlen)).
  destruct content; [done|]. by test_true (0 <? zlen (b :: content)).
Qed.

Lemma recv_others frames rest data s n : Forall other_frame frames -> length data = 128%nat ->
  exists data', length data' = 128%nat /\
    recv_loop (length frames + n) data (with_in (incoming (concat (api_frame (xb_apiMode s) <$> frames)) ++ rest) s) =
      recv_loop n data' (with_in rest (foldl after_frame s frames)).
Proof.
  intros Hf. revert s data. induction Hf as [|content frames [Hlen Ht] Hf IH]; intros s data Hdata; [by exists data|].
  cbn [fmap list_fmap concat foldl length]. unfold incoming. rewrite fmap_app, <- app_assoc. change (S ?a + n)%nat with (S (a + n)).
  cbn [Nat.add]. rewrite recv_round by (try lia; by destruct content; [cbn in Hlen; lia|]).
  rewrite (sbind_run _ _ _ _ _ (frame_other content _ _ (conj Hlen Ht))). rewrite after_frame_in, <- (after_frame_mode s content).
  apply IH. rewrite length_app, length_drop. lia.
Qed.
End Sending.

(** ** Properties *)

Section Properties.
Context `{Flush}.
Implicit Types (s : XBee) (rest : list (option byte)).

Lemma start_data stack : length (take 128 (stack ++ replicate 128 nul)) = 128%nat.
Proof. rewrite length_take, length_app, length_replicate. lia. Qed.

(** C29: what is written for a payload of at most 114 bytes is a frame that a module in
    the same mode reads whole, whatever was on the line before that holds no
    start byte, and with the content that was sent: the request, the number of
    the frame, the address, the payload. *)
Theorem xbee_frame_roundtrip payload addr s r noise rest data : address_whole addr -> zlen payload <= 114 ->
  xb_apiMode r = xb_apiMode s -> length data = 128%nat -> Forall (fun b => b <> START_BYTE) noise ->
  let content := xmit_content (next_frameId (xb_frameId s)) payload addr in
  exists wire, XBee_transmit payload (zlen payload) addr s = Some (tt, transmitted wire s) /\
    XBee_readApiFrame data (with_in (incoming (noise ++ wire) ++ rest) r) =
      Some ((zlen content, content ++ drop (length content) data), with_in rest r).
Proof.
  intros Haddr Hlen Hmode Hdata Hnoise content.
  assert (Hcontent : zlen content = 14 + zlen payload).
  { destruct Haddr as [H8 H2]. unfold content, xmit_content. cbn [length]. rewrite !length_app, H8, H2. cbn [length]. lia. }
  eexists. split; [apply transmit_run; [done|lia]|]. rewrite <- Hmode. apply frame_run; [done|lia|lia].
Qed.

(** Function recv returns the payload and the sender of the first receive frame; frames
    of other kinds before it are passed over, and a transmit status leaves its
    code and number and raises the semaphore. *)
Theorem xbee_recv_spec frames addr opt payload rest stack s : Forall other_frame frames -> address_whole addr ->
  zlen payload <= 116 -> let m := xb_apiMode s in
  XBee_recv stack (with_in (incoming (concat (api_frame m <$> frames) ++ api_frame m (rx_content addr opt payload)) ++ rest) s) =
    Some ((zlen payload, payload, Some addr), with_in rest (foldl after_frame s frames)).
Proof.
  intros Hf Haddr Hlen m. unfold XBee_recv. set (data := take 128 _). pose proof (start_data stack) as Hdata. fold data in Hdata.
  assert (Hcontent : zlen (rx_content addr opt payload) = 12 + zlen payload).
  { destruct Haddr as [H8 H2]. unfold rx_content. cbn [length]. rewrite !length_app, H8, H2. cbn [length]. lia. }
  unfold incoming. rewrite fmap_app, <- app_assoc. cbn [with_in xb_in].
  set (n := S _). assert (Hn : exists k, n = (length frames + S k)%nat).
  { exists (n - 1 - length frames)%nat. unfold n. rewrite !length_app, !length_fmap.
    assert (Hfr : (length frames <= length (concat (api_frame m <$> frames)))%nat).
    { clear. induction frames as [|c frames IH]; [done|]. cbn [fmap list_fmap concat length]. rewrite length_app.
      unfold api_frame at 1. cbn [length]. lia. }
    lia. }
  destruct Hn as [k ->].
  destruct (recv_others frames (incoming (api_frame m (rx_content addr opt payload)) ++ rest) data s (S k) Hf Hdata)
    as (data' & Hd' & Hrun). unfold incoming in Hrun. fold m in Hrun. rewrite Hrun.
  assert (Hm : xb_apiMode (foldl after_frame s frames) = m).
  { unfold m. clear. revert s. induction frames as [|c frames IH]; intros s; [done|]. cbn. by rewrite IH, after_frame_mode. }
  rewrite <- Hm. change (Some <$> ?x) with (incoming x). rewrite recv_round by (lia || done).
  rewrite (sbind_run _ _ _ _ _ (frame_rx addr opt payload _ _ Haddr)). done.
Qed.

(** The line is silent. *)
Lemma recv_silent n data s : recv_loop (S n) data (with_in [] s) = Some ((0, [], None), with_in (flushed []) s).
Proof. done. Qed.

(** What send returns, by the state after its wait. *)
Lemma xbee_unicast_run meanwhile payload addr s t : address_whole addr -> zlen payload <= 241 ->
  sem_timedwait meanwhile (transmitted (api_frame (xb_apiMode s) (xmit_content (next_frameId (xb_frameId s)) payload addr)) s) = Some (tt, t) ->
  XBee_unicast meanwhile payload addr s =
    Some (if bool_decide (xb_respCd t = 0 /\ xb_respId t = xb_frameId t) then zlen payload else -1, t).
Proof.
  intros Haddr Hlen Ht. unfold XBee_unicast, XBee_send, u8. rewrite Z.mod_small by lia.
  rewrite (sbind_run _ _ _ _ _ (transmit_run payload addr s Haddr Hlen)), (sbind_run _ _ _ _ _ Ht).
  unfold sbind, xb_get, sret. do 2 f_equal.
  destruct (Z.eqb_spec (xb_respCd t) 0), (Z.eqb_spec (xb_frameId t) (xb_respId t)); cbn;
    [rewrite bool_decide_eq_true_2 by done|rewrite bool_decide_eq_false_2 by lia..]; done.
Qed.

(** The receiving task takes a status off a line that is then silent. *)
Lemma receiving_status stack content s : other_frame content -> xb_in s = incoming (api_frame (xb_apiMode s) content) ->
  receiving stack s = Some (tt, with_in (flushed []) (after_frame s content)).
Proof.
  intros Hother Hin.
  assert (Ht : with_in (incoming (concat (api_frame (xb_apiMode s) <$> [content])) ++ []) s = s).
  { rewrite app_nil_r. cbn [fmap list_fmap concat]. rewrite app_nil_r, <- Hin. by destruct s. }
  unfold receiving. erewrite sbind_run; [reflexivity|]. unfold XBee_recv.
  assert (Hn : exists k, S (length (xb_in s)) = (length [content] + S k)%nat) by
    (exists (length (xb_in s) - 1)%nat; rewrite Hin; cbn; lia).
  destruct Hn as [k ->].
  destruct (recv_others [content] [] _ s (S k) (list.Forall_cons_2 _ _ _ Hother (list.Forall_nil_2 _)) (start_data stack)) as (data' & _ & Hrun).
  rewrite Ht in Hrun. cbn [length Nat.add] in Hrun |- *. rewrite Hrun. apply recv_silent.
Qed.

Lemma receiving_silent stack s : xb_in s = [] -> receiving stack s = Some (tt, with_in (flushed []) s).
Proof.
  intros Hin. unfold receiving. erewrite sbind_run; [reflexivity|]. unfold XBee_recv. rewrite Hin.
  replace s with (with_in [] s) at 1 by (destruct s; cbn in Hin; by subst). apply recv_silent.
Qed.

Definition sem_down (s : XBee) : XBee :=
  mkXBee (xb_respCd s) (xb_respId s) (xb_frameId s) (xb_apiMode s) false (xb_in s) (xb_out s).
Lemma wait_up meanwhile s : xb_sem s = true -> sem_timedwait meanwhile s = Some (tt, sem_down s).
Proof. intros Hs. unfold sem_timedwait, sbind, xb_get. by rewrite Hs. Qed.
Lemma wait_down meanwhile s t : xb_sem s = false -> meanwhile s = Some (tt, t) -> sem_timedwait meanwhile s = Some (tt, sem_down t).
Proof. intros Hs Ht. unfold sem_timedwait, sbind, xb_get. by rewrite Hs, Ht. Qed.

(** sending writes one frame and then waits for a status: it succeeds when the
    status has the number of the frame and the code 0. Without a status it
    fails, and with the semaphore still up from a status that came too late it
    fails at once, although the frame was written. *)
Theorem xbee_send_spec payload addr s stack : address_whole addr -> zlen payload <= 241 ->
  let m := xb_apiMode s in let id := next_frameId (xb_frameId s) in
  let wire := api_frame m (xmit_content id payload addr) in
  (forall rid a b retries cd discovery, xb_sem s = false ->
     xb_in s = incoming (api_frame m (status_content rid a b retries cd discovery)) ->
     exists s', XBee_unicast (receiving stack) payload addr s =
         Some (if bool_decide (Z_of_byte cd = 0 /\ Z_of_byte rid = id) then zlen payload else -1, s') /\
       xb_out s' = xb_out s ++ wire /\ xb_sem s' = false /\ xb_frameId s' = id) /\
  (xb_sem s = false -> xb_in s = [] ->
     exists s', XBee_unicast (receiving stack) payload addr s = Some (-1, s') /\ xb_out s' = xb_out s ++ wire) /\
  (xb_sem s = true -> forall meanwhile,
     exists s', XBee_unicast meanwhile payload addr s = Some (-1, s') /\ xb_out s' = xb_out s ++ wire /\ xb_sem s' = false).
Proof.
  intros Haddr Hlen m id wire.
  pose proof (fun meanwhile t => xbee_unicast_run meanwhile payload addr s t Haddr Hlen) as Hrun. fold m id wire in Hrun.
  split; [|split].
  - intros rid a b retries cd discovery Hsem Hin. set (content := status_content rid a b retries cd discovery) in *.
    assert (Hrecv : receiving stack (transmitted wire s) = Some (tt, with_in (flushed []) (after_frame (transmitted wire s) content))).
    { apply receiving_status; [split; [cbn; lia|done]|done]. }
    eexists. split; [rewrite (Hrun _ _ (wait_down _ (transmitted wire s) _ Hsem Hrecv)); reflexivity|]. done.
  - intros Hsem Hin. assert (Hrecv : receiving stack (transmitted wire s) = Some (tt, with_in (flushed []) (transmitted wire s))).
    { apply receiving_silent. done. }
    eexists. split; [rewrite (Hrun _ _ (wait_down _ (transmitted wire s) _ Hsem Hrecv)); reflexivity|]. done.
  - intros Hsem meanwhile. eexists. split; [rewrite (Hrun _ _ (wait_up _ (transmitted wire s) Hsem)); reflexivity|]. done.
Qed.

(** The frames that break the receiver: one of more than 128 bytes is written
    past the end of the array on the stack, and a receive frame of less than 12
    bytes makes the length of the copy negative. *)
Theorem xbee_recv_overrun noise content rest stack s : Forall (fun b => b <> START_BYTE) noise ->
  (128 < length content < 256)%nat \/ (head content = Some (byte_of_Z API_RESPONSE) /\ (length content < 12)%nat) ->
  XBee_recv stack (with_in (incoming (noise ++ api_frame (xb_apiMode s) content) ++ rest) s) = None.
Proof.
  intros Hn Hc. unfold XBee_recv. set (data := take 128 _). pose proof (start_data stack) as Hd. fold data in Hd.
  cbn [recv_loop]. destruct Hc as [Hc|[Ht Hc]].
  - unfold sbind at 1. rewrite frame_outside by (done || lia). done.
  - rewrite (sbind_run _ _ _ _ _ (frame_run noise content rest data s Hn ltac:(lia) ltac:(lia))).
    destruct content as [|t content]; [done|]. cbn in Ht. injection Ht as ->.
    test_true (0 <? zlen (byte_of_Z API_RESPONSE :: content)).
    unfold XBee_frame, sbind. cbn [app lookup list_lookup].
    change (Z_of_byte (byte_of_Z API_RESPONSE) =? API_RESPONSE) with true. cbv iota.
    by test_true (zlen (byte_of_Z API_RESPONSE :: content) - 12 <? 0).
Qed.
End Properties.

(** ** Examples *)

#[local] Instance drop_all : Flush := fun _ => [].

Definition xbee_node : XBeeAddress := mkXBeeAddress (map byte_of_Z [0; 19; 162; 0; 64; 125; 126; 17]) (map byte_of_Z [255; 254]).
Definition sample_payload : list byte := map byte_of_Z [4; 22; 126; 19].

(** A payload with bytes that are escaped, behind noise. *)
Lemma xbee_frame_roundtrip_witness :
  exists wire, XBee_transmit sample_payload 4 xbee_node (newXBee []) = Some (tt, transmitted wire (newXBee [])) /\
    length wire = 28%nat /\
    XBee_readApiFrame (replicate 128 nul) (with_in (incoming (map byte_of_Z [1; 2; 3] ++ wire) ++ []) (newXBee [])) =
      Some ((18, xmit_content 1 sample_payload xbee_node ++ replicate 110 nul), newXBee []).
Proof.
  destruct (xbee_frame_roundtrip sample_payload xbee_node (newXBee []) (newXBee []) (map byte_of_Z [1; 2; 3]) [] (replicate 128 nul))
    as (wire & Hsend & Hread).
  - split; reflexivity.
  - vm_compute. intros E. discriminate E.
  - reflexivity.
  - reflexivity.
  - repeat constructor; intros E; discriminate E.
  - exists wire. split; [exact Hsend|]. split; [|exact Hread].
    change (zlen sample_payload) with 4 in Hsend. injection Hsend as <-. reflexivity.
Defined.

Definition sent_sample : list byte := api_frame 2 (xmit_content 1 sample_payload xbee_node).
(** The status of frame 1 arrives, with code 0 and with another. *)
Lemma xbee_send_spec_witness :
  let status := fun cd => incoming (api_frame 2 (status_content (byte_of_Z 1) (byte_of_Z 255) (byte_of_Z 254) nul cd nul)) in
  fst <$> XBee_unicast (receiving []) sample_payload xbee_node (newXBee (status nul)) = Some 4 /\
  fst <$> XBee_unicast (receiving []) sample_payload xbee_node (newXBee (status (byte_of_Z 33))) = Some (-1).
Proof.
  intros status. assert (Haddr : address_whole xbee_node) by (split; reflexivity).
  assert (Hlen : zlen sample_payload <= 241) by (vm_compute; intros E; discriminate E).
  split.
  - destruct (proj1 (xbee_send_spec sample_payload xbee_node (newXBee (status nul)) [] Haddr Hlen) (byte_of_Z 1) (byte_of_Z 255)
      (byte_of_Z 254) nul nul nul eq_refl eq_refl) as (s' & Hs & _). rewrite Hs. reflexivity.
  - destruct (proj1 (xbee_send_spec sample_payload xbee_node (newXBee (status (byte_of_Z 33))) [] Haddr Hlen) (byte_of_Z 1) (byte_of_Z 255)
      (byte_of_Z 254) nul (byte_of_Z 33) nul eq_refl eq_refl) as (s' & Hs & _). rewrite Hs. reflexivity.
Defined.

(** A status, then a receive frame. *)
Lemma xbee_recv_spec_witness :
  fst <$> XBee_recv [] (newXBee (incoming (concat (api_frame 2 <$> [status_content (byte_of_Z 1) nul nul nul nul nul]) ++
    api_frame 2 (rx_content xbee_node nul sample_payload)) ++ [])) = Some (4, sample_payload, Some xbee_node).
Proof.
  pose proof (xbee_recv_spec [status_content (byte_of_Z 1) nul nul nul nul nul] xbee_node nul sample_payload [] [] (newXBee [])) as Hr.
  change (newXBee (?l)) with (with_in l (newXBee [])). change 2 with (xb_apiMode (newXBee [])). rewrite Hr.
  - reflexivity.
  - constructor; [|constructor]. split; [cbn; lia|]. intros E. discriminate E.
  - split; reflexivity.
  - vm_compute. intros E. discriminate E.
Defined.

Lemma xbee_recv_overrun_witness :
  XBee_recv [] (newXBee (incoming ([] ++ api_frame 2 (replicate 129 nul)) ++ [])) = None.
Proof.
  apply (xbee_recv_overrun [] (replicate 129 nul) [] [] (newXBee [])); [constructor|]. left. rewrite length_replicate. lia.
Defined.
