(* ===== verification/GWLog.v ===== *)
(** * Logs of the gateway: RingBuffer of linux/Threading.cpp, putLog and getLog of MQTTSNGWProcess.cpp

    The gateway writes its log into shared memory, from which the log monitor,
    a process of its own, reads it.  Pointers have 8 bytes, so the characters
    start 40 bytes behind the start of the memory. *)

From S2P Require Import Prelude CMem MQTTPacket GWHeap GWStrings.

Definition PROCESS_LOG_BUFFER_SIZE : Z := 16384.

(** ** The shared memory *)

(** The members are pointers into the memory; [rb_buffer] is what is left of it
    behind [_buffer]. *)
Record RingBuffer := mkRing { rb_length : Z; rb_start : Z; rb_end : Z; rb_buffer : list byte }.

Definition newRing : RingBuffer :=
  mkRing (PROCESS_LOG_BUFFER_SIZE - 8 * 3 - 16) 0 0 (replicate (Z.to_nat (PROCESS_LOG_BUFFER_SIZE - (8 * 2 + 8 * 2 + 8))) nul).

Definition rb_get {R} (f : RingBuffer -> R) : st RingBuffer R := fun s => Some (f s, s).
Definition set_start (v : Z) : st RingBuffer unit := fun s => Some (tt, mkRing (rb_length s) (u16 v) (rb_end s) (rb_buffer s)).
Definition set_end (v : Z) : st RingBuffer unit := fun s => Some (tt, mkRing (rb_length s) (rb_start s) (u16 v) (rb_buffer s)).

(** [strncpy(dst, src, n)]: the [n] bytes written. *)
Definition strncpy_bytes (src : list byte) (n : Z) : list byte :=
  let t := take (Z.to_nat n) (until_nul src) in t ++ replicate (Z.to_nat n - length t) nul.

Definition ring_store (pos : Z) (bs : list byte) : st RingBuffer unit := fun s =>
  if bool_decide (bs = []) then Some (tt, s)
  else if (0 <=? pos) && (pos + zlen bs <=? zlen (rb_buffer s))
  then Some (tt, mkRing (rb_length s) (rb_start s) (rb_end s) (splice (rb_buffer s) pos bs)) else None.
(** [strncpy(buf, _buffer + pos, n)]: it reads up to a 0 or [n] bytes. *)
Definition ring_load (pos n : Z) : st RingBuffer (list byte) := fun s =>
  let src := drop (Z.to_nat pos) (rb_buffer s) in
  if (n =? 0) || ((0 <? n) && (0 <=? pos) && ((pos + n <=? zlen (rb_buffer s)) || bool_decide (nul ∈ src)))
  then Some (strncpy_bytes src n, s) else None.

Definition errmsg : list byte :=
  map byte_of_Z [82; 105; 110; 103; 66; 117; 102; 102; 101; 114; 32; 69; 114; 114; 111; 114; 58; 32; 100; 97; 116; 97; 32; 105; 115;
    32; 116; 111; 111; 32; 108; 111; 110; 103].

Definition RingBuffer_put (data : list byte) : st RingBuffer unit :=
  let! length_ := rb_get rb_length in
  let! start := rb_get rb_start in
  let! end_ := rb_get rb_end in
  let dlen := u16 (zlen (until_nul data)) in
  let blen := u16 (length_ - end_) in
  if start <? end_ then
    if dlen <? blen then
      ring_store end_ (strncpy_bytes data dlen) ;!
      (if end_ - start =? 1 then set_start end_ else sret tt) ;!
      set_end (end_ + dlen)
    else
      ring_store end_ (strncpy_bytes data blen) ;!
      ring_store 0 (strncpy_bytes (drop (Z.to_nat blen) data) (dlen - blen)) ;!
      if end_ - start =? 1 then set_start end_ ;! set_end (dlen - blen)
      else set_end (dlen - blen) ;! let! end_ := rb_get rb_end in set_start (end_ + 1)
  else if end_ =? start then
    if dlen <? blen then ring_store end_ (strncpy_bytes data dlen) ;! set_end (end_ + dlen)
    else ring_store end_ (errmsg ++ [nul]) ;! set_end (end_ + zlen errmsg)
  else
    if dlen <? start - end_ then
      ring_store end_ (strncpy_bytes data dlen) ;! set_end (end_ + dlen) ;!
      let! end_ := rb_get rb_end in set_start (end_ + 1)
    else if dlen <? blen then
      ring_store end_ (strncpy_bytes data dlen) ;! set_end (end_ + dlen) ;!
      let! end_ := rb_get rb_end in set_start (end_ + 1)
    else
      ring_store end_ (strncpy_bytes data blen) ;!
      ring_store 0 (strncpy_bytes (drop (Z.to_nat blen) data) (dlen - blen)) ;!
      set_start end_ ;! set_end (dlen - blen).

(** The result of [get] and what it writes into the array of the caller. *)
Definition RingBuffer_get (length : Z) : st RingBuffer (Z * list byte) :=
  let! length_ := rb_get rb_length in
  let! start := rb_get rb_start in
  let! end_ := rb_get rb_end in
  if start <? end_ then
    if end_ - start <? length then
      let len := end_ - start in
      let len := if len =? 1 then 0 else len in
      let! bs := ring_load start len in
      set_start (end_ - 1) ;! sret (len, bs)
    else
      let! bs := ring_load start length in
      set_start (start + length) ;! sret (length, bs)
  else if end_ <? start then
    let blen := length_ - start in
    if blen <? length then
      let! bs := ring_load start blen in
      set_start 0 ;!
      if 0 <? length - (blen + end_) then
        let! bs' := ring_load 0 end_ in
        (if 0 <? end_ then set_start (end_ - 1) else sret tt) ;! sret (blen + end_, bs ++ bs')
      else
        let! bs' := ring_load 0 (length - blen) in
        set_start (length - blen) ;! sret (length, bs ++ bs')
    else
      let! bs := ring_load start length in
      set_start (start + length) ;! sret (length, bs)
  else sret (0, []).

Definition RingBuffer_reset : st RingBuffer unit := set_start 0 ;! set_end 0.

(** ** The process *)

(** [_log] and what was printed; [_rbdata] is an array of the size and one. *)
Record LogProcess := mkLog { lg_ring : RingBuffer; lg_log : Z; lg_printed : list byte }.
Definition in_ring {R} (c : st RingBuffer R) : st LogProcess R := fun s =>
  match c (lg_ring s) with Some (r, rb) => Some (r, mkLog rb (lg_log s) (lg_printed s)) | None => None end.
Definition log_print (bs : list byte) : st LogProcess unit := fun s => Some (tt, mkLog (lg_ring s) (lg_log s) (lg_printed s ++ bs)).

(** [text] is what vsprintf makes of the format and its arguments. *)
Definition Process_putLog (text : list byte) : st LogProcess unit := fun s => (
  if PROCESS_LOG_BUFFER_SIZE + 1 <? zlen text + 1 then undefined
  else if 0 <? zlen (until_nul text) then
    if 0 <? lg_log s then in_ring (RingBuffer_put text) else log_print (until_nul text)
  else sret tt) s.

(** [meanwhile] is what happens in each wait of a second, and whether SIGINT
    came. *)
Fixpoint Process_getLog (meanwhile : list (st RingBuffer unit * bool)) : st RingBuffer (list byte) :=
  let! (len, bs) := RingBuffer_get PROCESS_LOG_BUFFER_SIZE in
  if len =? 0 then
    match meanwhile with
    | [] => undefined
    | (others, sigint) :: meanwhile => others ;! if sigint : bool then sret [] else Process_getLog meanwhile
    end
  else sret (until_nul (take (Z.to_nat len) bs)).

Definition Process_resetRingBuffer : st LogProcess unit := in_ring RingBuffer_reset.

(** ** What waits to be read *)

Definition ring_room : Z := PROCESS_LOG_BUFFER_SIZE - (8 * 2 + 8 * 2 + 8).

Definition ring_slice (s : RingBuffer) : list byte :=
  if rb_start s <=? rb_end s
  then take (Z.to_nat (rb_end s) - Z.to_nat (rb_start s)) (drop (Z.to_nat (rb_start s)) (rb_buffer s))
  else drop (Z.to_nat (rb_start s)) (rb_buffer s) ++ take (Z.to_nat (rb_end s)) (rb_buffer s).
(** A single character counts as none. *)
Definition pending (s : RingBuffer) : list byte := if rb_end s - rb_start s =? 1 then [] else ring_slice s.

Definition no_nul (bs : list byte) : Prop := Forall (fun c => c <> nul) bs.

Record ring_ok (s : RingBuffer) : Prop := mk_ring_ok {
  ro_length : rb_length s = ring_room;
  ro_room : zlen (rb_buffer s) = ring_room;
  ro_start : 0 <= rb_start s <= ring_room;
  ro_end : 0 <= rb_end s < ring_room;
  ro_same : rb_start s = rb_end s -> rb_end s = 0;
  ro_text : no_nul (if rb_start s <=? rb_end s then take (Z.to_nat (rb_end s)) (rb_buffer s) else rb_buffer s);
}.

Ltac ring_nums := unfold ring_room, PROCESS_LOG_BUFFER_SIZE in *.

Lemma new_ring_ok : ring_ok newRing.
Proof.
  split; cbn [newRing rb_length rb_start rb_end rb_buffer]; ring_nums; try lia.
  - rewrite length_replicate. lia.
  - constructor.
Qed.

(** Writing behind the end, and around it. *)
Lemma splice_behind (b d : list byte) (e : nat) : (e <= length b)%nat ->
  take (e + length d) (splice b (Z.of_nat e) d) = take e b ++ d.
Proof. intros H. unfold splice. rewrite Nat2Z.id, app_assoc. apply take_app_length'. rewrite length_app, length_take. lia. Qed.

Lemma slice_splice (b d : list byte) (a e : nat) : (a <= e <= length b)%nat ->
  take (e - a + length d) (drop a (splice b (Z.of_nat e) d)) = take (e - a) (drop a b) ++ d.
Proof.
  intros H. rewrite !take_drop_commute. replace (a + (e - a + length d))%nat with (e + length d)%nat by lia.
  rewrite splice_behind by lia. replace (a + (e - a))%nat with e by lia. rewrite drop_app_le; [done|]. rewrite length_take. lia.
Qed.

Lemma splice_around (b d : list byte) (e n : nat) : (e + n = length b)%nat -> (n <= length d < length b)%nat ->
  splice (splice b (Z.of_nat e) (take n d)) 0 (drop n d) = drop n d ++ drop (length d - n) (take e b) ++ take n d.
Proof.
  intros H Hd. unfold splice. rewrite Nat2Z.id. rewrite length_take, Nat.min_l by lia. rewrite (drop_ge b) by lia.
  change (Z.to_nat 0) with 0%nat. cbn [take app]. rewrite app_nil_r, length_drop. cbn [Nat.add].
  rewrite drop_app_le; [done|]. rewrite length_take. lia.
Qed.

Lemma no_nul_splice b d o : no_nul b -> no_nul d -> no_nul (splice b o d).
Proof. intros Hb Hd. unfold splice, no_nul. by repeat apply Forall_app_2; [apply Forall_take| |apply Forall_drop]. Qed.

Lemma strncpy_prefix (src : list byte) (n : nat) : no_nul (take n src) -> (n <= length src)%nat ->
  strncpy_bytes src (Z.of_nat n) = take n src.
Proof.
  intros Hs Hn. unfold strncpy_bytes. rewrite Nat2Z.id.
  assert (E : take n (until_nul src) = take n src).
  { clear Hn. revert n Hs. induction src as [|c src IH]; intros [|n] Hs; try done. cbn [take] in Hs.
    apply list.Forall_cons in Hs as [Hc Hs]. cbn [until_nul]. rewrite bool_decide_eq_false_2 by done. cbn [take]. by rewrite IH. }
  rewrite E, length_take, Nat.min_l, Nat.sub_diag by done. apply app_nil_r.
Qed.
Lemma strncpy_text data : no_nul data -> strncpy_bytes data (zlen data) = data.
Proof. intros Hd. rewrite (strncpy_prefix data (length data)); rewrite ?firstn_all; done. Qed.

(** Storing where there is room, and what it leaves of the rest of the state. *)
Definition with_buffer (b : list byte) (s : RingBuffer) : RingBuffer := mkRing (rb_length s) (rb_start s) (rb_end s) b.
Lemma ring_store_run s pos bs : 0 <= pos -> pos + zlen bs <= zlen (rb_buffer s) ->
  ring_store pos bs s = Some (tt, with_buffer (splice (rb_buffer s) pos bs) s).
Proof.
  intros Hp Hfit. unfold ring_store. case_bool_decide as E; [subst; rewrite splice_nil; by destruct s|].
  test_true (0 <=? pos). by test_true (pos + zlen bs <=? zlen (rb_buffer s)).
Qed.

Lemma ring_load_run s pos n : 0 <= n -> 0 <= pos -> pos + n <= zlen (rb_buffer s) ->
  no_nul (take (Z.to_nat n) (drop (Z.to_nat pos) (rb_buffer s))) ->
  ring_load pos n s = Some (take (Z.to_nat n) (drop (Z.to_nat pos) (rb_buffer s)), s).
Proof.
  intros Hn Hp Hfit Htext. unfold ring_load.
  assert (Hc : (n =? 0) || (0 <? n) && (0 <=? pos) && ((pos + n <=? zlen (rb_buffer s)) ||
    bool_decide (nul ∈ drop (Z.to_nat pos) (rb_buffer s))) = true).
  { destruct (Z.eqb_spec n 0); [done|]. test_true (0 <? n). test_true (0 <=? pos). by test_true (pos + n <=? zlen (rb_buffer s)). }
  rewrite Hc. do 2 f_equal. rewrite <- (Z2Nat.id n) at 1 by lia. apply strncpy_prefix; [done|]. rewrite length_drop. lia.
Qed.

(** ** Putting *)

Section Put.
Context (s : RingBuffer) (Hok : ring_ok s) (data : list byte) (Hdata : no_nul data) (Hsize : 0 < zlen data < ring_room).

Lemma put_start : RingBuffer_put data s =
  (let dlen := zlen data in let blen := ring_room - rb_end s in
   if rb_start s <? rb_end s then
     if dlen <? blen then
       ring_store (rb_end s) data ;!
       (if rb_end s - rb_start s =? 1 then set_start (rb_end s) else sret tt) ;!
       set_end (rb_end s + dlen)
     else
       ring_store (rb_end s) (take (Z.to_nat blen) data) ;!
       ring_store 0 (drop (Z.to_nat blen) data) ;!
       if rb_end s - rb_start s =? 1 then set_start (rb_end s) ;! set_end (dlen - blen)
       else set_end (dlen - blen) ;! let! end_ := rb_get rb_end in set_start (end_ + 1)
   else if rb_end s =? rb_start s then ring_store (rb_end s) data ;! set_end (rb_end s + dlen)
   else
     if (dlen <? rb_start s - rb_end s) || (dlen <? blen) then
       ring_store (rb_end s) data ;! set_end (rb_end s + dlen) ;!
       let! end_ := rb_get rb_end in set_start (end_ + 1)
     else
       ring_store (rb_end s) (take (Z.to_nat blen) data) ;!
       ring_store 0 (drop (Z.to_nat blen) data) ;!
       set_start (rb_end s) ;! set_end (dlen - blen)) s.
Proof.
  destruct Hok as [Hlen Hroom Hs He Hsame _]. ring_nums. unfold RingBuffer_put. do 3 sprim. rewrite until_nul_id by done.
  rewrite Hlen. unfold u16. rewrite !Z.mod_small by lia. rewrite strncpy_text by done.
  change (16384 - (8 * 2 + 8 * 2 + 8)) with 16344 in *. cbv zeta.
  destruct (Z.ltb_spec (zlen data) (16344 - rb_end s)) as [Hfit|Hwrap].
  - rewrite orb_true_r. destruct (_ <? rb_end s); [done|]. destruct (rb_end s =? rb_start s); [done|]. by destruct (_ <? _).
  - rewrite orb_false_r.
    assert (Hf : strncpy_bytes data (16344 - rb_end s) = take (Z.to_nat (16344 - rb_end s)) data).
    { rewrite <- (Z2Nat.id (16344 - rb_end s)) at 1 by lia. apply strncpy_prefix; [by apply Forall_take|lia]. }
    assert (Hr : strncpy_bytes (drop (Z.to_nat (16344 - rb_end s)) data) (zlen data - (16344 - rb_end s)) = drop (Z.to_nat (16344 - rb_end s)) data).
    { replace (zlen data - (16344 - rb_end s)) with (zlen (drop (Z.to_nat (16344 - rb_end s)) data)) by (rewrite length_drop; lia).
      apply strncpy_text. by apply Forall_drop. }
    rewrite Hf, Hr. destruct (Z.ltb_spec (rb_start s) (rb_end s)); [done|].
    destruct (Z.eqb_spec (rb_end s) (rb_start s)) as [E|E]; [|by destruct (_ <? _)].
    exfalso. specialize (Hsame (eq_sym E)). lia.
Qed.

(** Behind what waits. *)
Definition put_behind (start : Z) : RingBuffer :=
  mkRing (rb_length s) start (rb_end s + zlen data) (splice (rb_buffer s) (rb_end s) data).
(** Around the end. *)
Definition put_around (start : Z) : RingBuffer :=
  let n := Z.to_nat (ring_room - rb_end s) in
  mkRing (rb_length s) start (zlen data - (ring_room - rb_end s)) (splice (splice (rb_buffer s) (rb_end s) (take n data)) 0 (drop n data)).

Definition fits : bool := zlen data <? ring_room - rb_end s.

Lemma put_cases : RingBuffer_put data s = Some (tt,
  if rb_start s <=? rb_end s then
    if fits then put_behind (if rb_end s - rb_start s =? 1 then rb_end s else rb_start s)
    else put_around (if rb_end s - rb_start s =? 1 then rb_end s else zlen data - (ring_room - rb_end s) + 1)
  else if fits then put_behind (rb_end s + zlen data + 1) else put_around (rb_end s)).
Proof.
  rewrite put_start. pose proof Hok as [Hlen Hroom Hs He Hsame _]. unfold fits. ring_nums.
  change (16384 - (8 * 2 + 8 * 2 + 8)) with 16344 in *. cbv zeta.
  destruct (Z.ltb_spec (zlen data) (16344 - rb_end s)) as [Hfit|Hwrap].
  - pose proof (ring_store_run s (rb_end s) data ltac:(lia) ltac:(lia)) as Hst.
    rewrite orb_true_r. destruct (Z.ltb_spec (rb_start s) (rb_end s)) as [Hlt|Hge].
    + test_true (rb_start s <=? rb_end s). srun Hst.
      destruct (_ =? 1); [unfold set_start|]; sprim; unfold set_end, put_behind, with_buffer, u16; cbn [rb_length rb_start rb_end rb_buffer];
        rewrite ?Z.mod_small by lia; done.
    + destruct (Z.eqb_spec (rb_end s) (rb_start s)) as [E|E].
      * test_true (rb_start s <=? rb_end s). test_false (rb_end s - rb_start s =? 1). srun Hst.
        unfold set_end, put_behind, with_buffer, u16; cbn [rb_length rb_start rb_end rb_buffer]. by rewrite Z.mod_small by lia.
      * test_false (rb_start s <=? rb_end s). srun Hst. do 2 sprim. unfold set_start, put_behind, with_buffer, u16.
        cbn [rb_length rb_start rb_end rb_buffer]. by rewrite !Z.mod_small by (try apply Z.mod_pos_bound; rewrite ?Z.mod_small; lia).
  - rewrite orb_false_r. set (n := Z.to_nat (16344 - rb_end s)).
    assert (Hn : length (take n data) = n) by (rewrite length_take; unfold n; lia).
    pose proof (ring_store_run s (rb_end s) (take n data) ltac:(lia) ltac:(rewrite Hn; unfold n; lia)) as Hst.
    set (s1 := with_buffer _ _) in Hst.
    assert (Hst2 : ring_store 0 (drop n data) s1 = Some (tt, with_buffer (splice (rb_buffer s1) 0 (drop n data)) s1)).
    { apply ring_store_run; [lia|]. unfold s1. cbn [with_buffer rb_buffer]. rewrite splice_length, length_drop; [lia|lia|lia]. }
    destruct (Z.ltb_spec (rb_start s) (rb_end s)) as [Hlt|Hge].
    + test_true (rb_start s <=? rb_end s). srun Hst. srun Hst2.
      destruct (_ =? 1); sprim; [|sprim]; unfold set_start, set_end, put_around, with_buffer, u16; cbn [rb_length rb_start rb_end rb_buffer s1 with_buffer];
        rewrite ?Z.mod_small by (rewrite ?Z.mod_small; lia); done.
    + destruct (Z.eqb_spec (rb_end s) (rb_start s)) as [E|E]; [exfalso; specialize (Hsame (eq_sym E)); lia|].
      test_false (rb_start s <=? rb_end s). test_false (zlen data <? rb_start s - rb_end s). srun Hst. srun Hst2. sprim.
      unfold set_start, set_end, put_around, with_buffer, u16; cbn [rb_length rb_start rb_end rb_buffer s1 with_buffer].
      by rewrite !Z.mod_small by lia.
Qed.
End Put.

(** A text of fewer characters than the buffer has never leaves the buffer. *)
Lemma behind_ok s data start : ring_ok s -> no_nul data -> 0 < zlen data -> rb_end s + zlen data < ring_room ->
  (if rb_start s <=? rb_end s then 0 <= start <= rb_end s else start = rb_end s + zlen data + 1) ->
  ring_ok (put_behind s data start).
Proof.
  intros [Hlen Hroom Hs He Hsame Htext] Hdata Hpos Hfit Hstart.
  assert (Hb : zlen (rb_buffer (put_behind s data start)) = ring_room) by (cbn [put_behind rb_buffer]; rewrite splice_length; lia).
  destruct (Z.leb_spec (rb_start s) (rb_end s)) as [Hle|Hgt]; split; cbn [put_behind rb_length rb_start rb_end] in *; try done; try lia.
  - test_true (start <=? rb_end s + zlen data). rewrite Z2Nat.inj_add, Nat2Z.id by lia. cbn [put_behind rb_buffer].
    replace (rb_end s) with (Z.of_nat (Z.to_nat (rb_end s))) at 2 by lia.
    rewrite splice_behind by lia. by apply Forall_app_2.
  - test_false (start <=? rb_end s + zlen data). cbn [put_behind rb_buffer]. by apply no_nul_splice.
Qed.

Lemma around_ok s data start : ring_ok s -> no_nul data -> zlen data < ring_room -> ring_room <= rb_end s + zlen data ->
  zlen data - (ring_room - rb_end s) < start <= rb_end s -> ring_ok (put_around s data start).
Proof.
  intros [Hlen Hroom Hs He Hsame Htext] Hdata Hpos Hwrap Hstart. set (n := Z.to_nat (ring_room - rb_end s)).
  assert (Hn : length (take n data) = n) by (rewrite length_take; unfold n; lia).
  assert (Hb : rb_buffer (put_around s data start) = drop n data ++ drop (length data - n) (take (Z.to_nat (rb_end s)) (rb_buffer s)) ++ take n data).
  { cbn [put_around rb_buffer]. fold n. rewrite <- splice_around by (unfold n; lia). by rewrite Z2Nat.id by lia. }
  split; cbn [put_around rb_length rb_start rb_end] in *; try done; try lia.
  - rewrite Hb, !length_app, !length_drop, length_take, Hn. unfold n. lia.
  - test_false (start <=? zlen data - (ring_room - rb_end s)). rewrite Hb.
    repeat apply Forall_app_2; [by apply Forall_drop|apply Forall_drop|by apply Forall_take].
    destruct (rb_start s <=? rb_end s); [done|by apply Forall_take].
Qed.

Lemma put_safe s data : ring_ok s -> no_nul data -> 0 < zlen data < ring_room ->
  exists s', RingBuffer_put data s = Some (tt, s') /\ ring_ok s'.
Proof.
  intros Hok Hdata Hsize. rewrite (put_cases s Hok data Hdata Hsize). eexists. split; [reflexivity|].
  pose proof Hok as [_ _ Hs He Hsame _]. unfold fits.
  destruct (Z.ltb_spec (zlen data) (ring_room - rb_end s)) as [Hfit|Hwrap]; destruct (Z.leb_spec (rb_start s) (rb_end s)) as [Hle|Hgt].
  - apply behind_ok; try done; try lia. test_true (rb_start s <=? rb_end s). destruct (_ =? 1); lia.
  - apply behind_ok; try done; try lia. by test_false (rb_start s <=? rb_end s).
  - apply around_ok; try done; try lia. destruct (Z.eqb_spec (rb_end s - rb_start s) 1); [lia|].
    destruct (decide (rb_start s = rb_end s)) as [E|E]; [specialize (Hsame E); lia|lia].
  - apply around_ok; try done; lia.
Qed.

(** What waits afterwards, while nothing is overwritten. *)
Lemma put_pending_behind s data : ring_ok s -> no_nul data -> 2 <= zlen data -> rb_end s + zlen data < ring_room ->
  rb_start s <= rb_end s ->
  exists s', RingBuffer_put data s = Some (tt, s') /\ ring_ok s' /\ pending s' = pending s ++ data /\
    rb_end s' = rb_end s + zlen data /\ rb_start s' <= rb_end s'.
Proof.
  intros Hok Hdata Hsize Hfit Hle. destruct (put_safe s data Hok Hdata ltac:(split; [lia|pose proof (ro_end _ Hok); lia])) as (s' & Hput & Hok').
  exists s'. split; [done|]. split; [done|]. rewrite (put_cases s Hok data Hdata) in Hput by (pose proof (ro_end _ Hok); lia).
  unfold fits in Hput. revert Hput. test_true (rb_start s <=? rb_end s). test_true (zlen data <? ring_room - rb_end s). intros [= <-].
  pose proof Hok as [_ Hroom Hs He _ _]. set (start := if _ =? 1 then _ else _).
  assert (Hstart : 0 <= start <= rb_end s) by (unfold start; destruct (_ =? 1); lia).
  split; [|cbn [put_behind rb_start rb_end]; lia].
  unfold pending at 1. unfold ring_slice. cbn [put_behind rb_start rb_end rb_buffer].
  test_false (rb_end s + zlen data - start =? 1). test_true (start <=? rb_end s + zlen data).
  replace (Z.to_nat (rb_end s + zlen data) - Z.to_nat start)%nat with (Z.to_nat (rb_end s) - Z.to_nat start + length data)%nat by lia.
  replace (rb_end s) with (Z.of_nat (Z.to_nat (rb_end s))) at 2 by lia. rewrite slice_splice by lia.
  f_equal. unfold pending, ring_slice, start. test_true (rb_start s <=? rb_end s). destruct (_ =? 1); [by rewrite Nat.sub_diag|done].
Qed.

Lemma put_pending_around s data : ring_ok s -> no_nul data -> zlen data < ring_room -> ring_room <= rb_end s + zlen data ->
  rb_start s <= rb_end s ->
  let rest := zlen data - (ring_room - rb_end s) in
  exists s', RingBuffer_put data s = Some (tt, s') /\ ring_ok s' /\
    pending s' = (if rb_end s - rb_start s =? 1 then [] else drop (Z.to_nat rest + 1) (take (Z.to_nat (rb_end s)) (rb_buffer s))) ++ data /\
    rb_end s' = rest.
Proof.
  intros Hok Hdata Hsize Hwrap Hle rest. pose proof Hok as [Hlen Hroom Hs He Hsame _].
  destruct (put_safe s data Hok Hdata ltac:(lia)) as (s' & Hput & Hok'). exists s'. split; [done|]. split; [done|].
  rewrite (put_cases s Hok data Hdata) in Hput by lia. unfold fits in Hput. revert Hput.
  test_true (rb_start s <=? rb_end s). test_false (zlen data <? ring_room - rb_end s). intros [= <-]. split; [|done].
  set (n := Z.to_nat (ring_room - rb_end s)). set (start := if _ =? 1 then _ else _).
  assert (Hstart : rest < start <= rb_end s).
  { unfold start, rest. destruct (Z.eqb_spec (rb_end s - rb_start s) 1); [lia|].
    destruct (decide (rb_start s = rb_end s)) as [E|E]; [specialize (Hsame E); lia|lia]. }
  assert (Hb : rb_buffer (put_around s data start) = drop n data ++ drop (length data - n) (take (Z.to_nat (rb_end s)) (rb_buffer s)) ++ take n data).
  { cbn [put_around rb_buffer]. fold n. rewrite <- splice_around by (unfold n; lia). by rewrite Z2Nat.id by lia. }
  unfold pending, ring_slice. rewrite Hb. cbn [put_around rb_start rb_end]. fold rest.
  test_false (rest - start =? 1). test_false (start <=? rest).
  assert (Hrest : length (drop n data) = Z.to_nat rest) by (rewrite length_drop; unfold n, rest; lia).
  assert (Htake : take (Z.to_nat rest) (drop n data ++ drop (length data - n) (take (Z.to_nat (rb_end s)) (rb_buffer s)) ++ take n data) = drop n data)
    by (by apply take_app_length').
  rewrite Htake. rewrite drop_app_ge by lia. rewrite Hrest.
  rewrite drop_app_le by (rewrite length_drop, length_take; unfold n; lia). rewrite drop_drop, <- app_assoc, take_drop. f_equal.
  replace (length data - n + (Z.to_nat start - Z.to_nat rest))%nat with (Z.to_nat start) by (unfold n, rest in *; lia).
  unfold start. destruct (_ =? 1).
  - apply drop_ge. rewrite length_take. lia.
  - f_equal. unfold rest in *. lia.
Qed.

(** ** Getting *)

(** Reading with the array of the process takes all that waits. *)
Lemma get_run s : ring_ok s ->
  exists s', RingBuffer_get PROCESS_LOG_BUFFER_SIZE s = Some ((zlen (pending s), pending s), s') /\ ring_ok s' /\
    pending s' = [] /\ rb_end s' = rb_end s /\ rb_start s' <= rb_end s'.
Proof.
  intros Hok. pose proof Hok as [Hlen Hroom Hs He Hsame Htext]. unfold RingBuffer_get. do 3 sprim. rewrite Hlen. ring_nums.
  set (s' := mkRing (rb_length s) (rb_end s - 1) (rb_end s) (rb_buffer s)).
  assert (Hp' : pending s' = []) by (unfold pending; cbn [s' rb_start rb_end]; by test_true (rb_end s - (rb_end s - 1) =? 1)).
  assert (Hok' : 0 < rb_end s -> ring_ok s').
  { intros Hpos. split; cbn [s' rb_length rb_start rb_end rb_buffer]; ring_nums; try done; try lia. test_true (rb_end s - 1 <=? rb_end s).
    destruct (rb_start s <=? rb_end s); [done|by apply Forall_take]. }
  destruct (Z.ltb_spec (rb_start s) (rb_end s)) as [Hlt|Hge].
  - revert Htext. test_true (rb_start s <=? rb_end s). intros Htext. test_true (rb_end s - rb_start s <? 16384).
    set (len := if rb_end s - rb_start s =? 1 then 0 else rb_end s - rb_start s).
    assert (Hrange : 0 <= len <= rb_end s - rb_start s) by (unfold len; destruct (_ =? 1); lia).
    assert (Hpend : take (Z.to_nat len) (drop (Z.to_nat (rb_start s)) (rb_buffer s)) = pending s).
    { unfold pending, ring_slice, len. test_true (rb_start s <=? rb_end s). destruct (_ =? 1); [done|]. f_equal. lia. }
    assert (Hzlen : zlen (pending s) = len) by (rewrite <- Hpend, length_take, length_drop; lia).
    srun (ring_load_run s (rb_start s) len ltac:(lia) ltac:(lia) ltac:(lia)
      ltac:(rewrite take_drop_commute; apply Forall_drop; rewrite <- (Nat.min_l (Z.to_nat (rb_start s) + Z.to_nat len) (Z.to_nat (rb_end s)))
        by lia; rewrite <- take_take; by apply Forall_take)).
    sprim. unfold u16. rewrite Z.mod_small by lia. fold s'. exists s'. rewrite Hpend, Hzlen. split; [done|].
    split; [apply Hok'; lia|]. split; [done|]. cbn [s' rb_start rb_end]. lia.
  - destruct (Z.ltb_spec (rb_end s) (rb_start s)) as [Hlt|Hge2].
    + revert Htext. test_false (rb_start s <=? rb_end s). intros Htext. change (16384 - (8 * 2 + 8 * 2 + 8)) with 16344 in *.
      test_true (16344 - rb_start s <? 16384).
      srun (ring_load_run s (rb_start s) (16344 - rb_start s) ltac:(lia) ltac:(lia) ltac:(lia) ltac:(by apply Forall_take, Forall_drop)).
      sprim. test_true (0 <? 16384 - (16344 - rb_start s + rb_end s)).
      set (s0 := mkRing (rb_length s) (u16 0) (rb_end s) (rb_buffer s)).
      srun (ring_load_run s0 0 (rb_end s) ltac:(lia) ltac:(lia) ltac:(cbn [s0 rb_buffer]; lia) ltac:(by apply Forall_take, Forall_drop)).
      change (Z.to_nat 0) with 0%nat. rewrite drop_0. cbn [s0 rb_buffer].
      assert (Hpend : take (Z.to_nat (16344 - rb_start s)) (drop (Z.to_nat (rb_start s)) (rb_buffer s)) ++ take (Z.to_nat (rb_end s)) (rb_buffer s) = pending s).
      { unfold pending, ring_slice. test_false (rb_end s - rb_start s =? 1). test_false (rb_start s <=? rb_end s). f_equal.
        apply take_ge. rewrite length_drop. lia. }
      rewrite Hpend. assert (Hzlen : zlen (pending s) = 16344 - rb_start s + rb_end s).
      { rewrite <- Hpend, length_app, !length_take, length_drop. lia. }
      rewrite Hzlen. destruct (Z.ltb_spec 0 (rb_end s)) as [Hpos|Hzero].
      * sprim. unfold u16. cbn [s0 rb_length rb_end rb_buffer]. rewrite Z.mod_small by lia. fold s'. exists s'. split; [done|].
        split; [by apply Hok'|]. split; [done|]. cbn [s' rb_start rb_end]. lia.
      * exists s0. split; [done|]. split; [|split; [|split; [done|cbn [s0 rb_start rb_end]; change (u16 0) with 0; lia]]].
        -- split; cbn [s0 rb_length rb_start rb_end rb_buffer]; ring_nums; change (u16 0) with 0; try done; try lia.
           test_true (0 <=? rb_end s). by apply Forall_take.
        -- unfold pending, ring_slice. cbn [s0 rb_start rb_end rb_buffer]. change (u16 0) with 0.
           replace (rb_end s) with 0 by lia. done.
    + exists s. assert (E : rb_start s = rb_end s) by lia.
      assert (Hnone : pending s = []) by (unfold pending, ring_slice; rewrite E, Z.sub_diag, Z.leb_refl, Nat.sub_diag; done).
      rewrite Hnone. split; [done|]. split; [done|]. split; [done|lia].
Qed.

(** ** Properties *)

(** What the gateway and the monitor do with the memory, in some order. *)
Inductive log_op := LPut (text : list byte) | LGet.
(** The texts the monitor reads. *)
Fixpoint log_run (ops : list log_op) : st RingBuffer (list byte) :=
  match ops with
  | [] => sret []
  | LPut text :: ops => RingBuffer_put text ;! log_run ops
  | LGet :: ops =>
      let! (_, bs) := RingBuffer_get PROCESS_LOG_BUFFER_SIZE in
      let! read := log_run ops in sret (bs ++ read)
  end.
Definition log_text (op : log_op) : list byte := match op with LPut text => text | LGet => [] end.
Definition logged_text (ops : list log_op) : list byte := concat (log_text <$> ops).
Definition op_ok (op : log_op) : Prop :=
  match op with LPut text => no_nul text /\ 0 < zlen text < ring_room | LGet => True end.

(** No text of a single character, and no text that reaches the end of the buffer
    while something waits or before what went around the end was read. *)
Definition put_smooth (text : list byte) (s : RingBuffer) : Prop :=
  2 <= zlen text /\ rb_start s <= rb_end s /\ (rb_end s + zlen text < ring_room \/ pending s = []).
Fixpoint smooth (ops : list log_op) (s : RingBuffer) : Prop :=
  match ops with
  | [] => True
  | LPut text :: ops => put_smooth text s /\ forall s', RingBuffer_put text s = Some (tt, s') -> smooth ops s'
  | LGet :: ops => forall r s', RingBuffer_get PROCESS_LOG_BUFFER_SIZE s = Some (r, s') -> smooth ops s'
  end.

Lemma put_pending s text : ring_ok s -> no_nul text -> zlen text < ring_room -> put_smooth text s ->
  exists s', RingBuffer_put text s = Some (tt, s') /\ ring_ok s' /\ pending s' = pending s ++ text.
Proof.
  intros Hok Htext Hsize (H2 & Hle & Hroom). destruct (decide (rb_end s + zlen text < ring_room)) as [Hfit|Hwrap].
  - destruct (put_pending_behind s text Hok Htext H2 Hfit Hle) as (s' & Hput & Hok' & Hp & _). by exists s'.
  - destruct Hroom as [?|Hnone]; [done|].
    destruct (put_pending_around s text Hok Htext Hsize ltac:(lia) Hle) as (s' & Hput & Hok' & Hp & _).
    exists s'. split; [done|]. split; [done|]. rewrite Hp, Hnone. f_equal. destruct (Z.eqb_spec (rb_end s - rb_start s) 1) as [E|E]; [done|].
    exfalso. destruct Hok as [_ Hb Hs He Hsame _].
    unfold pending, ring_slice in Hnone. revert Hnone. test_false (rb_end s - rb_start s =? 1). test_true (rb_start s <=? rb_end s).
    intros Hnone. apply (f_equal length) in Hnone. rewrite length_take, length_drop in Hnone. cbn [length] in Hnone.
    assert (E0 : rb_start s = rb_end s) by lia. specialize (Hsame E0). lia.
Qed.

Lemma log_run_from ops s : Forall op_ok ops -> ring_ok s ->
  exists read s', log_run ops s = Some (read, s') /\ ring_ok s' /\ (smooth ops s -> read ++ pending s' = pending s ++ logged_text ops).
Proof.
  intros Hops. revert s. induction Hops as [|op ops Hop Hops IH]; intros s Hok.
  - exists [], s. split; [done|]. split; [done|]. intros _. by rewrite app_nil_r.
  - unfold logged_text in *. cbn [fmap list_fmap concat] in *. destruct op as [text|].
    + destruct Hop as [Htext Hsize]. cbn [log_text smooth]. destruct (put_safe s text Hok Htext Hsize) as (s1 & Hput & Hok1).
      destruct (IH s1 Hok1) as (read & s' & Hrun & Hok' & Hread). exists read, s'. split; [cbn [log_run]; by srun Hput|].
      split; [done|]. intros [Hsm Hrest]. rewrite (Hread (Hrest _ Hput)).
      destruct (put_pending s text Hok Htext ltac:(lia) Hsm) as (s2 & Hput2 & _ & Hp). rewrite Hput in Hput2. injection Hput2 as <-.
      by rewrite Hp, app_assoc.
    + cbn [log_text app smooth]. destruct (get_run s Hok) as (s1 & Hget & Hok1 & Hp & _).
      destruct (IH s1 Hok1) as (read & s' & Hrun & Hok' & Hread). exists (pending s ++ read), s'.
      split; [cbn [log_run]; srun Hget; by srun Hrun|]. split; [done|]. intros Hsm. rewrite Hp in Hread.
      by rewrite <- app_assoc, (Hread (Hsm _ _ Hget)).
Qed.

(** Whatever the gateway logs in texts shorter than the buffer and whenever the
    monitor reads, nothing is written outside the shared memory; and what the
    monitor has read, with what waits for it, is what was logged, in order and
    once, as long as no text reaches the end of the buffer while others wait
    and none is a single character. *)
Theorem log_spec ops : Forall op_ok ops ->
  exists read s, log_run ops newRing = Some (read, s) /\ ring_ok s /\ (smooth ops newRing -> read ++ pending s = logged_text ops).
Proof. intros Hops. exact (log_run_from ops newRing Hops new_ring_ok). Qed.

(** Texts that are read before the next is logged all arrive, however many they
    are. *)
Theorem log_delivers texts : Forall (fun t => no_nul t /\ 2 <= zlen t < ring_room) texts ->
  exists s, log_run (concat ((fun t => [LPut t; LGet]) <$> texts)) newRing = Some (concat texts, s).
Proof.
  intros Ht. enough (H : forall s, ring_ok s -> pending s = [] -> rb_start s <= rb_end s ->
    exists s', log_run (concat ((fun t => [LPut t; LGet]) <$> texts)) s = Some (concat texts, s')).
  { apply H; [exact new_ring_ok|done|done]. }
  induction Ht as [|t texts [Htext Hsize] Ht IH]; intros s Hok Hp Hle; [by exists s|].
  destruct (put_pending s t Hok Htext ltac:(lia)) as (s1 & Hput & Hok1 & Hp1); [split; [lia|]; split; [done|by right]|].
  destruct (get_run s1 Hok1) as (s2 & Hget & Hok2 & Hp2 & _ & Hle2). rewrite Hp1, Hp in Hget.
  destruct (IH s2 Hok2 Hp2 Hle2) as (s' & Hrun). exists s'. cbn [fmap list_fmap concat app log_run].
  srun Hput. srun Hget. by srun Hrun.
Qed.

(** A text that reaches the end of the buffer while something waits: the monitor
    then reads everything from behind the new end on, also what it has read
    before. *)
Theorem log_rereads s data : ring_ok s -> no_nul data -> zlen data < ring_room ->
  rb_start s + 2 <= rb_end s -> ring_room <= rb_end s + zlen data ->
  let text := take (Z.to_nat (rb_end s)) (rb_buffer s) in
  pending s = drop (Z.to_nat (rb_start s)) text /\
  exists s', (RingBuffer_put data ;! RingBuffer_get PROCESS_LOG_BUFFER_SIZE) s =
    Some ((zlen (drop (Z.to_nat (zlen data - (ring_room - rb_end s)) + 1) text ++ data),
      drop (Z.to_nat (zlen data - (ring_room - rb_end s)) + 1) text ++ data), s').
Proof.
  intros Hok Hdata Hsize Hwait Hwrap text. split.
  - unfold pending, ring_slice, text. test_false (rb_end s - rb_start s =? 1). test_true (rb_start s <=? rb_end s).
    destruct Hok as [_ Hb [Hs _] _ _ _]. rewrite take_drop_commute. do 2 f_equal. lia.
  - destruct (put_pending_around s data Hok Hdata Hsize Hwrap ltac:(lia)) as (s1 & Hput & Hok1 & Hp & _).
    destruct (get_run s1 Hok1) as (s2 & Hget & _). exists s2. srun Hput. rewrite Hget. revert Hp.
    test_false (rb_end s - rb_start s =? 1). by intros ->.
Qed.

(** A text of one character that finds nothing waiting is lost. *)
Theorem single_char_lost s c : ring_ok s -> c <> nul -> rb_start s <= rb_end s -> pending s = [] -> rb_end s + 1 < ring_room ->
  exists s', RingBuffer_put [c] s = Some (tt, s') /\ pending s' = [].
Proof.
  intros Hok Hc Hle Hp Hroom. assert (Hdata : no_nul [c]) by (by repeat constructor).
  assert (Hsize : 0 < zlen [c] < ring_room) by (split; reflexivity).
  rewrite (put_cases s Hok [c] Hdata Hsize). eexists. split; [reflexivity|].
  unfold fits. test_true (rb_start s <=? rb_end s). test_true (zlen [c] <? ring_room - rb_end s).
  unfold pending. cbn [put_behind rb_start rb_end]. destruct Hok as [_ Hb Hs _ _ _].
  destruct (Z.eqb_spec (rb_end s - rb_start s) 1) as [E|E]; [by test_true (rb_end s + zlen [c] - rb_end s =? 1)|].
  assert (E0 : rb_start s = rb_end s).
  { unfold pending, ring_slice in Hp. revert Hp. test_false (rb_end s - rb_start s =? 1). test_true (rb_start s <=? rb_end s).
    intros Hp. apply (f_equal length) in Hp. rewrite length_take, length_drop in Hp. cbn [length] in Hp. lia. }
  rewrite E0. by test_true (rb_end s + zlen [c] - rb_end s =? 1).
Qed.

(** getLog waits until there is something to read and returns it. *)
Theorem getLog_waits text s others : ring_ok s -> pending s = [] -> no_nul text -> 2 <= zlen text < ring_room ->
  exists s', Process_getLog ((RingBuffer_put text, false) :: others) s = Some (text, s') /\ pending s' = [] /\ ring_ok s'.
Proof.
  intros Hok Hp Htext Hsize. destruct (get_run s Hok) as (s1 & Hget & Hok1 & Hp1 & _ & Hle). rewrite Hp in Hget.
  destruct (put_pending s1 text Hok1 Htext ltac:(lia)) as (s2 & Hput & Hok2 & Hp2); [split; [lia|]; split; [done|by right]|].
  rewrite Hp1 in Hp2. destruct (get_run s2 Hok2) as (s3 & Hget3 & Hok3 & Hp3 & _). rewrite Hp2 in Hget3. cbn [app] in Hget3.
  exists s3. split; [|done]. cbn [Process_getLog]. srun Hget. change (zlen [] =? 0) with true. cbv iota. srun Hput.
  destruct others as [|[other sig] others]; cbn [Process_getLog]; srun Hget3; test_false (zlen text =? 0);
    by rewrite Nat2Z.id, take_ge, until_nul_id by (done || lia).
Qed.

Lemma log_spec_witness :
  let text := map byte_of_Z [104; 105; 10] in
  let ops := [LPut text; LPut text; LGet; LPut text] in
  exists read s, log_run ops newRing = Some (read, s) /\ read ++ pending s = text ++ text ++ text.
Proof.
  intros text ops. assert (Ht : no_nul text) by (repeat constructor; intros E; discriminate E).
  assert (Hput : op_ok (LPut text)) by (split; [exact Ht|split; reflexivity]).
  assert (Hops : Forall op_ok ops) by (repeat (apply list.Forall_cons_2; [first [exact Hput|exact I]|]); constructor).
  destruct (log_spec ops Hops) as (read & s & Hrun & _ & Hread).
  exists read, s. split; [exact Hrun|]. apply Hread.
  assert (Hsize : 0 < zlen text < ring_room) by (split; reflexivity).
  assert (H2 : 2 <= zlen text) by (vm_compute; intros E; discriminate E).
  destruct (put_pending_behind newRing text new_ring_ok Ht H2 eq_refl) as (s1 & Hp1 & Hok1 & _ & He1 & Hle1); [reflexivity|].
  destruct (put_pending_behind s1 text Hok1 Ht H2 ltac:(rewrite He1; reflexivity) Hle1) as (s2 & Hp2 & Hok2 & _ & He2 & Hle2).
  destruct (get_run s2 Hok2) as (s3 & Hg & Hok3 & Hp3 & He3 & Hle3).
  unfold ops. cbn [smooth]. split; [split; [exact H2|split; [reflexivity|by left]]|]. intros s' Hs'. rewrite Hp1 in Hs'. injection Hs' as <-.
  split; [split; [exact H2|split; [exact Hle1|left; rewrite He1; reflexivity]]|]. intros s' Hs'. rewrite Hp2 in Hs'. injection Hs' as <-.
  intros r s' Hs'. rewrite Hg in Hs'. injection Hs' as _ <-.
  split; [split; [exact H2|split; [exact Hle3|by right]]|]. done.
Defined.
