(* ===== verification/GWAggregate.v ===== *)
(** * The clients of an aggregated topic: MQTTSNGWAggregateTopicTable.cpp

    AggregateTopicElement, a doubly linked list of the clients that have
    subscribed to a topic.  The table of these elements is a stub in the source:
    its operations do nothing. *)

From S2P Require Import Prelude GWHeap.

(** A client is known by its address. *)
Abbreviation ClientRef := (option loc).

(** ClientTopicElement is a cell; [_topic] is never set. *)
Abbreviation AggregateTopicElement := (linked ClientRef unit).

Definition newAggregateTopicElement : AggregateTopicElement := Linked ∅ None None 0 tt.
Definition newAggregateTopicElement_of (client : ClientRef) : AggregateTopicElement := single client tt.

Definition is_client (client : ClientRef) (c : ClientRef) : bool := bool_decide (c = client).

Definition AggregateTopicElement_find (client : ClientRef) : st AggregateTopicElement (option loc) := search (is_client client).

Definition AggregateTopicElement_add (client : ClientRef) : st AggregateTopicElement (option loc) :=
  let! elm := new client in
  let! head := get_first in
  if null head then set_first elm ;! set_last elm ;! sret elm
  else
    let! p := AggregateTopicElement_find client in
    if null p then
      let! p := get_last in
      set_last elm ;! set_prev elm p ;! set_next p elm ;! sret elm
    else delete_cell elm ;! sret None.

Definition AggregateTopicElement_getFirstElement : st AggregateTopicElement (option loc) := get_first.
Definition AggregateTopicElement_getNextElement (elm : option loc) : st AggregateTopicElement (option loc) :=
  let! c := deref elm in sret (c_next c).
Definition ClientTopicElement_getClient (elm : option loc) : st AggregateTopicElement ClientRef :=
  let! c := deref elm in sret (c_val c).

(** [delete p; p = pPrev->_prev;] where [pPrev] is [p]. *)
Fixpoint delete_back (n : nat) (p : option loc) : st AggregateTopicElement unit :=
  match n with
  | O => undefined
  | S n =>
      if null p then sret tt
      else delete_cell p ;! let! c := deref p in delete_back n (c_prev c)
  end.
Definition AggregateTopicElement_destroy : st AggregateTopicElement unit := fun s => (
  let! head := get_first in
  if null head then sret tt
  else
    let! tail := get_last in
    delete_back (fuel_of s) tail ;! set_first None ;! set_last None) s.

(** The clients from an element on, as a caller walks through them. *)
Fixpoint walk_clients (n : nat) (p : option loc) : st AggregateTopicElement (list ClientRef) :=
  match n with
  | O => undefined
  | S n =>
      if null p then sret []
      else
        let! client := ClientTopicElement_getClient p in
        let! next := AggregateTopicElement_getNextElement p in
        let! rest := walk_clients n next in sret (client :: rest)
  end.

(** ** Lemmas and properties *)

Implicit Types (s : AggregateTopicElement) (l : elems ClientRef).

Lemma walk_clients_run n s pr l : seg true (cells s) pr l None -> (length l < n)%nat ->
  walk_clients n (head_loc l None) s = Some (l.*2, s).
Proof.
  revert pr l. induction n as [|n IH]; intros pr l Hs Hn; [lia|].
  destruct l as [|[p a] l]; [done|]. destruct Hs as [(q & _ & Hp) Hs]. cbn [walk_clients head_loc null].
  assert (Hd : deref (Some p) s = Some (Cell (head_loc l None) q a, s)) by (unfold deref; by rewrite Hp).
  unfold ClientTopicElement_getClient, AggregateTopicElement_getNextElement. rewrite !sbind_assoc. srun Hd. sprim.
  rewrite sbind_assoc. srun Hd. sprim. cbn [c_next c_val]. srun (IH _ _ Hs ltac:(cbn in Hn; lia)). done.
Qed.

Lemma first_where_client client l : first_where (is_client client) l = None <-> (client ∉ l.*2).
Proof.
  rewrite first_where_none, list.Forall_forall. unfold is_client. split.
  - intros H [[p a] [-> Hin]]%list_elem_of_fmap. specialize (H _ Hin). by rewrite bool_decide_eq_true_2 in H.
  - intros H e He. apply bool_decide_eq_false_2. intros <-. apply H. apply list_elem_of_fmap. by exists e.
Qed.

(** Adding behind the others, and adding what is there. *)
Lemma add_new_run s l client : owns true true s l -> (client ∉ l.*2) ->
  exists q s', AggregateTopicElement_add client s = Some (Some q, s') /\ owns true true s' (l ++ [(q, client)]).
Proof.
  intros Ho Hn. destruct (append_run s l client true Ho) as (p & s1 & s' & Hnew & Hp & Hr1 & Hc & Hlink & Ho' & _).
  exists p, s'. split; [|done]. unfold AggregateTopicElement_add. srun Hnew. pose proof Hr1 as (_ & _ & Hf1 & _).
  assert (Hg : get_first s1 = Some (head_loc l None, s1)) by (unfold get_first; by rewrite Hf1). srun Hg.
  destruct l as [|[q a] l'].
  - unfold link_last in Hlink. rewrite (sbind_run _ _ _ _ _ Hg) in Hlink. cbn [head_loc null] in *.
    rewrite <- sbind_assoc. by srun Hlink.
  - cbn [head_loc null] in *. unfold AggregateTopicElement_find. srun (search_run true true (is_client client) s1 _ Hr1).
    rewrite (proj2 (first_where_client client _) Hn). cbn [null fmap option_fmap option_map].
    assert (Hl : (let! q := get_last in set_last (Some p) ;! set_prev (Some p) q ;! set_next q (Some p)) s1 = Some (tt, s')).
    { rewrite link_last_tail_first; [done|]. by rewrite Hf1. }
    unfold sbind, get_last, set_last in Hl |- *. cbv beta iota in Hl |- *.
    repeat match goal with |- context [match ?c with Some _ => _ | None => _ end] =>
      destruct c as [[[] ?]|] eqn:?; [cbv beta iota in Hl |- *|done] end.
    by injection Hl as ->.
Qed.

Lemma add_known_run s l client : owns true true s l -> client ∈ l.*2 ->
  exists s', AggregateTopicElement_add client s = Some (None, s') /\ owns true true s' l.
Proof.
  intros Ho Hin. destruct (owns_new s l client _ _ Ho) as (p & s1 & Hnew & Hp & Hpl & Hr1 & Hc & Hdom1 & _ & _).
  assert (Hpin : p ∈ dom (cells s1)) by (rewrite Hc, dom_insert_L; by apply elem_of_union_l, elem_of_singleton).
  destruct (delete_run true true s1 l p Hr1 Hpl Hpin) as (s' & Hdel & Hr' & Hdom' & _).
  exists s'. split.
  - unfold AggregateTopicElement_add. srun Hnew. pose proof Hr1 as (_ & _ & Hf1 & _).
    assert (Hg : get_first s1 = Some (head_loc l None, s1)) by (unfold get_first; by rewrite Hf1). srun Hg.
    destruct l as [|[q a] l']; [by apply not_elem_of_nil in Hin|]. cbn [head_loc null].
    unfold AggregateTopicElement_find. srun (search_run true true (is_client client) s1 _ Hr1).
    destruct (first_where (is_client client) ((q, a) :: l')) as [[q' a']|] eqn:E.
    + cbn [null fst fmap option_fmap option_map]. by srun Hdel.
    + by apply first_where_client in E.
  - split; [done|]. unfold no_leak. rewrite Hdom', Hc, dom_insert_L. destruct Ho as [_ Hd]. unfold no_leak in Hd.
    assert (Hps : p ∉ dom (cells s)) by done. rewrite Hd in Hps |- *. clear -Hps. set_solver.
Qed.

(** The destructor goes on from the element it has just deleted. *)
Lemma destroy_run s l : owns true true s l ->
  AggregateTopicElement_destroy s = match l with [] => Some (tt, s) | _ => None end.
Proof.
  intros [[Hnd [Hseg [Hfirst Hlast]]] Hdom]. unfold AggregateTopicElement_destroy.
  assert (Hg : get_first s = Some (head_loc l None, s)) by (unfold get_first; by rewrite Hfirst). srun Hg.
  destruct l as [|[q a] l']; [done|]. cbn [head_loc null]. sprim. unfold fuel_of.
  destruct (last_loc_elem ((q, a) :: l') None) as [?|(p & Hp & Hin)]; [done|].
  rewrite Hlast, Hp by done. cbn [delete_back null].
  assert (Hc : is_Some (cells s !! p)) by (apply elem_of_dom; by eapply seg_dom). destruct Hc as [c Hc].
  unfold sbind, delete_cell, deref. rewrite Hc. cbn [cells set_cells]. by rewrite lookup_delete_eq.
Qed.

(** The list of clients is a set in the order of addition: walking it gives the
    clients, adding one puts it behind the others unless it is there, in which
    case the new element is deleted again; and the destructor of a list that is
    not empty reads an element it has deleted. *)
Theorem aggregate_topic_spec s l client : owns true true s l ->
  (exists p, AggregateTopicElement_getFirstElement s = Some (p, s) /\ walk_clients (fuel_of s) p s = Some (l.*2, s)) /\
  (exists p s', AggregateTopicElement_add client s = Some (p, s') /\
     ((client ∈ l.*2) /\ p = None /\ owns true true s' l \/
      (client ∉ l.*2) /\ exists q, p = Some q /\ owns true true s' (l ++ [(q, client)]))) /\
  (AggregateTopicElement_destroy s = match l with [] => Some (tt, s) | _ => None end).
Proof.
  intros Ho. pose proof Ho as [[Hnd [Hseg [Hfirst Hlast]]] Hdom]. split_and!.
  - exists (l_first s). split; [done|]. rewrite Hfirst. eapply walk_clients_run; [done|]. unfold fuel_of.
    pose proof (seg_length true (cells s) None l None Hnd Hseg). lia.
  - destruct (decide (client ∈ l.*2)) as [Hin|Hn].
    + destruct (add_known_run s l client Ho Hin) as (s' & Hadd & Ho'). exists None, s'. split; [done|]. by left.
    + destruct (add_new_run s l client Ho Hn) as (q & s' & Hadd & Ho'). exists (Some q), s'. split; [done|]. right.
      split; [done|]. by exists q.
  - by apply destroy_run.
Qed.

Lemma aggregate_topic_spec_witness :
  let s := newAggregateTopicElement_of (Some 7%positive) in
  AggregateTopicElement_destroy s = None /\
  exists p s', AggregateTopicElement_add (Some 8%positive) s = Some (p, s') /\ p <> None.
Proof.
  intros s. destruct (aggregate_topic_spec s _ (Some 8%positive) (single_owns (Some 7%positive) tt true true))
    as (_ & (p & s' & Hadd & Hres) & Hdestroy).
  split; [exact Hdestroy|]. exists p, s'. split; [exact Hadd|].
  destruct Hres as [[Hin _]|[_ (q & -> & _)]]; [|intros E; discriminate E].
  apply list_elem_of_singleton in Hin. discriminate Hin.
Defined.
