(* ===== verification/GWNetwork.v ===== *)
(** * The connection to the broker: linux/Network.cpp

    TCPStack, a TCP connection, and Network, which is one with or without TLS.
    The operating system and the TLS library are the class [TlsHost]. *)

From S2P Require Import Prelude CMem MQTTPacket GWHeap GWPacket GWStrings.

(** ** The operating system and the TLS library *)

Inductive SslError := SSL_ERROR_NONE | SSL_ERROR_ZERO_RETURN | SSL_ERROR_WANT_READ | SSL_ERROR_WANT_WRITE | SSL_ERROR_other.

(** Results are whether the call succeeded, file descriptors, or pointers. *)
Class TlsHost (W : Type) := {
  os_getaddrinfo : option (list byte) -> list byte -> W -> bool * W;
  os_socket : W -> Z * W;
  os_reuseaddr : Z -> W -> bool * W;
  os_connect : Z -> W -> bool * W;
  os_bind : Z -> W -> bool * W;
  os_listen : Z -> W -> bool * W;
  os_accept : Z -> W -> Z * W;
  os_close : Z -> W -> unit * W;
  os_send : Z -> list byte -> W -> Z * W;
  os_recv : Z -> Z -> W -> (Z * list byte) * W;
  (** the result, and whether the socket can be read and written *)
  os_select : Z -> W -> (Z * bool * bool) * W;
  ssl_ctx_new : W -> bool * W;
  ssl_load_verify_locations : list byte -> list byte -> W -> bool * W;
  ssl_use_certificate_file : list byte -> W -> bool * W;
  ssl_use_PrivateKey_file : list byte -> W -> bool * W;
  ssl_new : W -> option loc * W;
  ssl_set_fd : loc -> Z -> W -> bool * W;
  ssl_set_session : loc -> W -> unit * W;
  ssl_connect : loc -> W -> bool * W;
  ssl_verified : loc -> W -> bool * W;
  (** the common name of the certificate of the peer, if it has one *)
  ssl_peer_name : loc -> W -> option (list byte) * W;
  ssl_write : loc -> list byte -> W -> (Z * SslError) * W;
  ssl_read : loc -> Z -> W -> (Z * list byte * SslError) * W;
  ssl_pending : loc -> W -> bool * W;
  ssl_shutdown : loc -> W -> unit * W;
  ssl_free : loc -> W -> unit * W;
}.

(** ** The object *)

(** What [_addrinfo] points to: nothing, a list of addresses, or one that was freed. *)
Inductive AddrInfo := ai_null | ai_held | ai_freed.

Record NetworkObject := mkNetwork {
  nw_sockfd : Z;
  nw_addrinfo : AddrInfo;
  nw_secureFlg : bool;
  nw_ssl : option loc;
  nw_busy : bool;
  nw_sslValid : bool;
}.
Definition newNetwork (secure : bool) : NetworkObject := mkNetwork 0 ai_null secure None false false.

(** The static members: is there a context, is there a session, the number of
    connections. *)
Record TlsShared := mkShared { sh_ctx : bool; sh_session : bool; sh_numOfInstance : Z }.
Definition newTlsShared : TlsShared := mkShared false false 0.

Record Net (W : Type) := mkNet { net_obj : NetworkObject; net_shared : TlsShared; net_world : W }.
Arguments mkNet {W} _ _ _.
Arguments net_obj {W} _.
Arguments net_shared {W} _.
Arguments net_world {W} _.

Section Operations.
Context {W : Type} `{TlsHost W}.

Definition the_net {R} (f : NetworkObject -> R) : st (Net W) R := fun s => Some (f (net_obj s), s).
Definition the_shared {R} (f : TlsShared -> R) : st (Net W) R := fun s => Some (f (net_shared s), s).
Definition upd_net (f : NetworkObject -> NetworkObject) : st (Net W) unit := fun s =>
  Some (tt, mkNet (f (net_obj s)) (net_shared s) (net_world s)).
Definition upd_shared (f : TlsShared -> TlsShared) : st (Net W) unit := fun s =>
  Some (tt, mkNet (net_obj s) (f (net_shared s)) (net_world s)).
(** A call of the system or of the library. *)
Definition call {R} (f : W -> R * W) : st (Net W) R := fun s =>
  let '(r, w) := f (net_world s) in Some (r, mkNet (net_obj s) (net_shared s) w).

Definition set_sockfd (fd : Z) := upd_net (fun n => mkNetwork fd (nw_addrinfo n) (nw_secureFlg n) (nw_ssl n) (nw_busy n) (nw_sslValid n)).
Definition set_addrinfo (a : AddrInfo) := upd_net (fun n => mkNetwork (nw_sockfd n) a (nw_secureFlg n) (nw_ssl n) (nw_busy n) (nw_sslValid n)).
Definition set_ssl (h : option loc) := upd_net (fun n => mkNetwork (nw_sockfd n) (nw_addrinfo n) (nw_secureFlg n) h (nw_busy n) (nw_sslValid n)).
Definition set_busy (b : bool) := upd_net (fun n => mkNetwork (nw_sockfd n) (nw_addrinfo n) (nw_secureFlg n) (nw_ssl n) b (nw_sslValid n)).
Definition set_sslValid (b : bool) := upd_net (fun n => mkNetwork (nw_sockfd n) (nw_addrinfo n) (nw_secureFlg n) (nw_ssl n) (nw_busy n) b).
Definition set_ctx (b : bool) := upd_shared (fun s => mkShared b (sh_session s) (sh_numOfInstance s)).
Definition set_tls_session (b : bool) := upd_shared (fun s => mkShared (sh_ctx s) b (sh_numOfInstance s)).
Definition add_instance (d : Z) := upd_shared (fun s => mkShared (sh_ctx s) (sh_session s) (sh_numOfInstance s + d)).

(** ** TCPStack *)

Definition TCPStack_isValid : st (Net W) bool := the_net (fun n => 0 <? nw_sockfd n).
Definition TCPStack_getSock : st (Net W) Z := the_net nw_sockfd.

(** [if (_addrinfo) freeaddrinfo(_addrinfo)], which leaves the pointer. *)
Definition free_addrinfo : st (Net W) unit :=
  let! a := the_net nw_addrinfo in
  match a with ai_null => sret tt | ai_held => set_addrinfo ai_freed | ai_freed => undefined end.

Definition TCPStack_close : st (Net W) unit :=
  let! fd := the_net nw_sockfd in
  if 0 <? fd then
    call (os_close fd) ;! set_sockfd 0 ;!
    let! a := the_net nw_addrinfo in
    match a with ai_null => sret tt | _ => free_addrinfo ;! set_addrinfo ai_null end
  else sret tt.
Definition TCPStack_destroy : st (Net W) unit := free_addrinfo.

Definition TCPStack_bind (service : list byte) : st (Net W) bool :=
  let! valid := TCPStack_isValid in
  if valid : bool then sret false
  else
    free_addrinfo ;!
    let! ok := call (os_getaddrinfo None service) in
    if negb ok then sret false
    else
      set_addrinfo ai_held ;!
      let! fd := call os_socket in
      set_sockfd fd ;!
      if fd <? 0 then sret false
      else
        let! ok := call (os_reuseaddr fd) in
        if negb ok then sret false else call (os_bind fd).

Definition TCPStack_listen : st (Net W) bool :=
  let! valid := TCPStack_isValid in
  if negb valid then sret false
  else let! fd := the_net nw_sockfd in call (os_listen fd).

(** [accept]: the descriptor the other object gets and the result. *)
Definition TCPStack_accept : st (Net W) (Z * bool) :=
  let! fd := the_net nw_sockfd in
  let! new := call (os_accept fd) in sret (new, negb (new <=? 0)).

Definition TCPStack_send (bs : list byte) : st (Net W) Z := let! fd := the_net nw_sockfd in call (os_send fd bs).
Definition TCPStack_recv (len : Z) : st (Net W) (Z * list byte) := let! fd := the_net nw_sockfd in call (os_recv fd len).

Definition TCPStack_connect (host service : list byte) : st (Net W) bool :=
  let! valid := TCPStack_isValid in
  if valid : bool then sret true
  else
    free_addrinfo ;!
    let! ok := call (os_getaddrinfo (Some host) service) in
    if negb ok then sret false
    else
      set_addrinfo ai_held ;!
      let! sockfd := call os_socket in
      if sockfd <? 0 then sret false
      else
        let! ok := call (os_reuseaddr sockfd) in
        if negb ok then sret false
        else
          let! ok := call (os_connect sockfd) in
          if negb ok then call (os_close sockfd) ;! sret false
          else set_sockfd sockfd ;! sret true.

(** ** Network *)

Definition Network_connect (host port : list byte) : st (Net W) bool :=
  let! secure := the_net nw_secureFlg in
  if secure : bool then sret false
  else
    let! fd := TCPStack_getSock in
    if fd =? 0 then TCPStack_connect host port else sret true.

Definition dot : byte := byte_of_Z 46.
Definition star : byte := byte_of_Z 42.

(** [while ( *host++ != '.')]: what is left; without a dot it goes past the end. *)
Fixpoint after_dot (host : list byte) : option (list byte) :=
  match host with
  | [] => None
  | c :: host => if bool_decide (c = dot) then Some host else after_dot host
  end.
(** Does the name in the certificate match that of the host? *)
Definition host_matches (host peer_CN : list byte) : option bool :=
  match peer_CN with
  | c :: rest =>
      if bool_decide (c = star) then
        match after_dot host, rest with
        | Some host, _ :: pos => Some (bool_decide (host = pos))
        | _, _ => None
        end
      else Some (bool_decide (host = peer_CN))
  | [] => Some (bool_decide (host = []))
  end.

Definition drop_ssl (h : loc) : st (Net W) bool := call (ssl_free h) ;! set_ssl None ;! sret false.
Definition load_file (load : list byte -> W -> bool * W) (file : option (list byte)) : st (Net W) bool :=
  match file with None => sret true | Some file => call (load file) end.

(** The context all connections share, made by the first. *)
Definition Network_context (caPath caFile : list byte) (certkey prvkey : option (list byte)) : st (Net W) bool :=
  let! ctx := the_shared sh_ctx in
  if ctx : bool then sret true
  else
    let! ok := call ssl_ctx_new in
    if negb ok then sret false
    else
      set_ctx true ;!
      let! ok := call (ssl_load_verify_locations caFile caPath) in
      if negb ok then sret false
      else
        let! ok := load_file ssl_use_certificate_file certkey in
        if negb ok then sret false else load_file ssl_use_PrivateKey_file prvkey.

(** From [SSL_new] on. *)
Definition Network_handshake (host : list byte) : st (Net W) bool :=
  let! ssl := call ssl_new in
  set_ssl ssl ;!
  match ssl with
  | None => sret false
  | Some h =>
      let! fd := TCPStack_getSock in
      let! ok := call (ssl_set_fd h fd) in
      if negb ok then drop_ssl h
      else
        let! session := the_shared sh_session in
        (if session : bool then call (ssl_set_session h) else sret tt) ;!
        let! ok := call (ssl_connect h) in
        if negb ok then drop_ssl h
        else
          let! ok := call (ssl_verified h) in
          if negb ok then drop_ssl h
          else
            let! peer := call (ssl_peer_name h) in
            match peer with
            | None => undefined
            | Some peer_CN =>
                match host_matches host peer_CN with
                | None => undefined
                | Some false => drop_ssl h
                | Some true =>
                    let! session := the_shared sh_session in
                    (if session : bool then sret tt else set_tls_session true) ;!
                    add_instance 1 ;! set_sslValid true ;! sret true
                end
            end
  end.

Definition Network_connect_tls (host port caPath caFile : list byte) (certkey prvkey : option (list byte)) : st (Net W) bool :=
  let! secure := the_net nw_secureFlg in
  if negb secure then sret false
  else
    let! ok := Network_context caPath caFile certkey prvkey in
    if negb ok then sret false
    else
      let! valid := TCPStack_isValid in
      let! ok := if valid : bool then sret true else TCPStack_connect host port in
      if negb ok then sret false else Network_handshake host.

(** The loop of [send]: [length] and [bpos] say what is left to write. *)
Fixpoint send_tls_loop (n : nat) (h : loc) (bs : list byte) (length bpos : Z) (writeBlockedOnRead : bool) : st (Net W) Z :=
  match n with
  | O => undefined
  | S n =>
      let! fd := TCPStack_getSock in
      let! (activity, rset, wset) := call (os_select fd) in
      if (0 <? activity) && (wset || (writeBlockedOnRead && rset)) then
        let! (r, err) := call (ssl_write h (take (Z.to_nat length) (drop (Z.to_nat bpos) bs))) in
        match err with
        | SSL_ERROR_NONE =>
            let length := u16 (length - r) in
            let bpos := bpos + r in
            if length =? 0 then set_busy false ;! sret bpos else send_tls_loop n h bs length bpos false
        | SSL_ERROR_WANT_WRITE => send_tls_loop n h bs length bpos false
        | SSL_ERROR_WANT_READ => send_tls_loop n h bs length bpos true
        | _ => set_busy false ;! sret (-1)
        end
      else send_tls_loop n h bs length bpos writeBlockedOnRead
  end.

Definition Network_send_obj (fuel : nat) (bs : list byte) : st (Net W) Z :=
  let length := u16 (zlen bs) in
  let! secure := the_net nw_secureFlg in
  if negb secure then TCPStack_send (take (Z.to_nat length) bs)
  else
    let! ssl := the_net nw_ssl in
    match ssl with
    | None => sret (-1)
    | Some h => set_busy true ;! send_tls_loop fuel h bs length 0 false
    end.

(** What a read stores at a position of the array of the caller. *)
Definition net_store (buf : list byte) (pos : Z) (data : list byte) : st (Net W) (list byte) :=
  if bool_decide (data = []) then sret buf
  else if (0 <=? pos) && (pos + zlen data <=? zlen buf) then sret (splice buf pos data) else undefined.

(** The loops of [recv]: reading, and waiting for the socket. *)
Fixpoint recv_tls_loop (n : nat) (h : loc) (len : Z) (buf : list byte) (bpos : Z) : st (Net W) (Z * list byte) :=
  match n with
  | O => undefined
  | S n =>
      let! (rlen, data, err) := call (ssl_read h (len - bpos)) in
      let! buf := net_store buf bpos data in
      match err with
      | SSL_ERROR_NONE => set_busy false ;! sret (rlen + bpos, buf)
      | SSL_ERROR_ZERO_RETURN =>
          call (ssl_shutdown h) ;! set_ssl None ;! add_instance (-1) ;! set_busy false ;! sret (-1, buf)
      | SSL_ERROR_other => set_busy false ;! sret (-1, buf)
      | SSL_ERROR_WANT_READ => call (ssl_pending h) ;! wait_tls_loop n h len buf (bpos + rlen) false
      | SSL_ERROR_WANT_WRITE =>
          let! more := call (ssl_pending h) in
          if more : bool then recv_tls_loop n h len buf bpos else wait_tls_loop n h len buf (bpos + rlen) true
      end
  end
with wait_tls_loop (n : nat) (h : loc) (len : Z) (buf : list byte) (bpos : Z) (readBlockedOnWrite : bool) : st (Net W) (Z * list byte) :=
  match n with
  | O => undefined
  | S n =>
      let! fd := TCPStack_getSock in
      let! (activity, rset, wset) := call (os_select fd) in
      if 0 <? activity then
        if rset || (readBlockedOnWrite && wset) then recv_tls_loop n h len buf bpos
        else wait_tls_loop n h len buf bpos readBlockedOnWrite
      else set_busy false ;! sret (-1, buf)
  end.

Definition Network_recv_obj (fuel : nat) (buf : list byte) (len : Z) : st (Net W) (Z * list byte) :=
  let len := u16 len in
  let! secure := the_net nw_secureFlg in
  if negb secure then
    let! (rc, data) := TCPStack_recv len in
    let! buf := net_store buf 0 data in sret (rc, buf)
  else
    let! busy := the_net nw_busy in
    if busy : bool then sret (0, buf)
    else
      let! ssl := the_net nw_ssl in
      match ssl with
      | None => sret (0, buf)
      | Some h => set_busy true ;! recv_tls_loop fuel h len buf 0
      end.

Definition Network_close : st (Net W) unit :=
  let! secure := the_net nw_secureFlg in
  (if secure : bool then
     let! ssl := the_net nw_ssl in
     match ssl with
     | None => sret tt
     | Some h =>
         call (ssl_shutdown h) ;! call (ssl_free h) ;! add_instance (-1) ;!
         set_ssl None ;! set_sslValid false ;! set_busy false
     end ;!
     let! shared := the_shared id in
     (if sh_session shared && (sh_numOfInstance shared =? 0) then set_tls_session false else sret tt) ;!
     (if sh_ctx shared && (sh_numOfInstance shared =? 0) then set_ctx false else sret tt)
   else sret tt) ;!
  TCPStack_close.
Definition Network_destroy : st (Net W) unit := Network_close ;! TCPStack_destroy.

Definition network_valid (n : NetworkObject) : bool :=
  (0 <? nw_sockfd n) && (if nw_secureFlg n then nw_sslValid n && negb (nw_busy n) else true).
Definition Network_isValid : st (Net W) bool := the_net network_valid.
Definition Network_isSecure : st (Net W) bool := the_net nw_secureFlg.
End Operations.

(** ** Without TLS: an implementation of the socket of the packets *)

Section Plain.
Context {W : Type} `{TlsHost W}.
Implicit Types s : Net W.

Definition with_world {W : Type} (w : W) (s : Net W) : Net W := mkNet (net_obj s) (net_shared s) w.

#[export] Instance plain_socket : Socket (Net W) := {
  sock_recv k s := let '(r, w) := os_recv (nw_sockfd (net_obj s)) k (net_world s) in (r, with_world w s);
  sock_send bs s := let '(r, w) := os_send (nw_sockfd (net_obj s)) bs (net_world s) in (r, with_world w s);
}.

(** A socket of the system that hands over what has arrived, in order. *)
Class OsStream := {
  arrived : Z -> W -> list byte;
  recv_arrived : forall fd k w, 0 <= k -> arrived fd w <> [] ->
    exists w', os_recv fd k w = ((zlen (take (Z.to_nat k) (arrived fd w)), take (Z.to_nat k) (arrived fd w)), w') /\
      arrived fd w' = drop (Z.to_nat k) (arrived fd w);
}.

#[export] Instance plain_stream `{OsStream} : StreamSocket (Net W).
Proof.
  exists (fun s => arrived (nw_sockfd (net_obj s)) (net_world s)). intros k s Hk Hne.
  destruct (recv_arrived (nw_sockfd (net_obj s)) k (net_world s) Hk Hne) as (w' & Hr & Hp).
  exists (with_world w' s). cbn. by rewrite Hr.
Defined.

(** without TLS, send and recv of the object are the ones the packets of the
    gateway are sent and received with, so what is proved of packets on a
    stream holds on a TCP connection. *)
Theorem plain_network_spec s bs len buf fuel : nw_secureFlg (net_obj s) = false -> zlen bs < 65536 ->
  Network_send_obj fuel bs s = Some (Network_send bs s) /\
  (let '((rc, data), s') := Network_recv len s in zlen data <= zlen buf ->
     Network_recv_obj fuel buf len s = Some ((rc, splice buf 0 data), s')).
Proof.
  intros Hplain Hlen. split.
  - unfold Network_send_obj, the_net, sbind at 1. rewrite Hplain. cbn [negb]. unfold Network_send, TCPStack_send, the_net, sbind, call.
    cbn. by destruct (os_send _ _ _).
  - unfold Network_recv. cbn [sock_recv plain_socket]. destruct (os_recv (nw_sockfd (net_obj s)) (u16 len) (net_world s)) as [[rc data] w] eqn:E.
    intros Hfit. unfold Network_recv_obj, the_net, sbind at 1. rewrite Hplain. cbn [negb].
    unfold TCPStack_recv, the_net, sbind, call. rewrite E. unfold net_store. case_bool_decide as Hd; [subst; by rewrite splice_nil|].
    test_true (0 + zlen data <=? zlen buf). done.
Qed.
End Plain.

(** ** Connecting *)

Section Connecting.
Context {W : Type} `{TlsHost W}.
Implicit Types s : Net W.

(** A connection that could not be made keeps its list of addresses; when the
    name of the broker is not resolved the next time, the pointer to the freed
    list stays, and the time after that it is freed again. *)
Theorem connect_after_failed_lookup host service host' service' s w : nw_sockfd (net_obj s) <= 0 -> nw_addrinfo (net_obj s) = ai_held ->
  os_getaddrinfo (Some host) service (net_world s) = (false, w) ->
  exists s', TCPStack_connect host service s = Some (false, s') /\
    TCPStack_connect host' service' s' = None /\ TCPStack_destroy s' = None.
Proof.
  intros Hfd Ha Hg. destruct s as [[fd a sec ssl busy v] sh w0]. cbn in Hfd, Ha, Hg. subst a.
  exists (mkNet (mkNetwork fd ai_freed sec ssl busy v) sh w).
  assert (Hv : (0 <? fd) = false) by (apply Z.ltb_ge; lia).
  unfold TCPStack_connect, TCPStack_isValid, TCPStack_destroy, free_addrinfo, the_net, set_addrinfo, upd_net, call, sbind.
  cbn. rewrite Hv. cbn. by rewrite Hg.
Qed.

(** The name in the certificate is that of the host, or begins with a star, and
    after its second character comes what the host has behind its first dot. *)
Theorem host_matches_spec host peer : host_matches host peer = Some true <->
  (host = peer /\ head peer <> Some star) \/
  (exists label rest c, host = label ++ dot :: rest /\ (dot ∉ label) /\ peer = star :: c :: rest).
Proof.
  assert (Hdot : forall h rest, after_dot h = Some rest <-> exists label, h = label ++ dot :: rest /\ (dot ∉ label)).
  { induction h as [|c h IH]; intros rest; cbn [after_dot].
    - split; [done|]. intros (label & Hl & _). by destruct label.
    - case_bool_decide as Hc; [subst c|].
      + split; [intros [= ->]; exists []; split; [done|apply not_elem_of_nil]|]. intros (label & Hl & Hn).
        destruct label as [|c label]; [by injection Hl as ->|]. injection Hl as Hd _. exfalso. apply Hn. rewrite Hd. left.
      + rewrite IH. split; intros (label & Hl & Hn).
        * exists (c :: label). subst h. split; [done|]. by apply list.not_elem_of_cons.
        * destruct label as [|c' label]; [by injection Hl as -> _|]. injection Hl as -> ->. exists label.
          apply list.not_elem_of_cons in Hn as [_ Hn]. done. }
  unfold host_matches. destruct peer as [|p peer]; [|case_bool_decide as Hp; [subst p|]].
  - split; [intros [= Hh]; left; by apply bool_decide_eq_true_1 in Hh|]. intros [[-> _]|(? & ? & ? & _ & _ & ?)]; done.
  - destruct (after_dot host) as [rest|] eqn:E.
    + destruct (proj1 (Hdot host rest) E) as (label & Hl & Hn). destruct peer as [|c pos].
      * split; [done|]. intros [[_ []]|(? & ? & ? & _ & _ & ?)]; done.
      * split.
        -- intros [= Hb]. apply bool_decide_eq_true_1 in Hb as ->. right. by exists label, pos, c.
        -- intros [[_ []]|(label' & rest' & c' & Hl' & Hn' & [= -> ->])]; [done|]. f_equal. apply bool_decide_eq_true_2.
           assert (E' : after_dot host = Some rest') by (apply Hdot; by exists label'). congruence.
    + split; [done|]. intros [[_ []]|(label' & rest' & c' & Hl' & Hn' & _)]; [done|].
      assert (E' : after_dot host = Some rest') by (apply Hdot; by exists label'). congruence.
  - split; [intros [= Hb]; left; apply bool_decide_eq_true_1 in Hb; split; [done|by intros [= ->]]|].
    intros [[-> _]|(? & ? & ? & _ & _ & [= -> _])]; [|done]. by rewrite bool_decide_eq_true_2.
Qed.
End Connecting.

(** ** Sending with TLS *)

Section Sending.
Context {W : Type} `{TlsHost W}.
Implicit Types s : Net W.

(** A connection on which every write goes through at last, in pieces. *)
Class TlsStream := {
  sent : loc -> W -> list byte;
  blocked : loc -> W -> nat;
  select_ready : forall fd w, exists w', os_select fd w = ((1, true, true), w') /\
    forall h, sent h w' = sent h w /\ blocked h w' = blocked h w;
  write_progress : forall h bs w, bs <> [] -> exists r err w', ssl_write h bs w = ((r, err), w') /\
    (err = SSL_ERROR_NONE /\ 0 < r <= zlen bs /\ sent h w' = sent h w ++ take (Z.to_nat r) bs /\ (blocked h w' <= blocked h w)%nat \/
     (err = SSL_ERROR_WANT_READ \/ err = SSL_ERROR_WANT_WRITE) /\ sent h w' = sent h w /\ (blocked h w' < blocked h w)%nat);
}.
Context `{TlsStream}.

Definition net_idle (n : NetworkObject) : NetworkObject :=
  mkNetwork (nw_sockfd n) (nw_addrinfo n) (nw_secureFlg n) (nw_ssl n) false (nw_sslValid n).

Lemma send_tls_loop_run n h pre rest b s : (blocked h (net_world s) + length rest < n)%nat -> rest <> [] -> zlen rest < 65536 ->
  exists s', send_tls_loop n h (pre ++ rest) (zlen rest) (zlen pre) b s = Some (zlen pre + zlen rest, s') /\
    sent h (net_world s') = sent h (net_world s) ++ rest /\ net_obj s' = net_idle (net_obj s) /\ net_shared s' = net_shared s.
Proof.
  revert pre rest b s. induction n as [|n IH]; intros pre rest b s Hn Hne Hlen; [lia|].
  cbn [send_tls_loop]. unfold TCPStack_getSock. sprim.
  destruct (select_ready (nw_sockfd (net_obj s)) (net_world s)) as (w1 & Hsel & Hsame). destruct (Hsame h) as [Hs1 Hb1].
  unfold sbind at 1, call at 1. rewrite Hsel. change ((0 <? 1) && (true || b && true)) with true. cbv iota.
  rewrite !Nat2Z.id, firstn_all2, drop_app_length by (rewrite drop_app_length; lia).
  destruct (write_progress h rest w1 Hne) as (r & err & w2 & Hw & Hres).
  unfold sbind at 1, call at 1. cbn [net_world]. rewrite Hw.
  destruct Hres as [(-> & Hr & Hs2 & Hb2)|([-> | ->] & Hs2 & Hb2)].
  - cbv zeta. unfold u16. rewrite Z.mod_small by lia. destruct (Z.eqb_spec (zlen rest - r) 0) as [E|E].
    + unfold set_busy, sbind, upd_net, sret. eexists. split; [do 2 f_equal; lia|]. cbn [net_world net_obj net_shared].
      split; [|done]. rewrite Hs2, Hs1, take_ge by lia. done.
    + set (s2 := mkNet _ _ w2).
      destruct (IH (pre ++ take (Z.to_nat r) rest) (drop (Z.to_nat r) rest) false s2) as (s' & Hrun & Hs' & Ho & Hsh).
      * cbn [s2 net_world]. rewrite length_drop. lia.
      * intros Hd. apply (f_equal length) in Hd. rewrite length_drop in Hd. cbn in Hd. lia.
      * rewrite length_drop. lia.
      * exists s'. rewrite <- app_assoc, take_drop in Hrun.
        replace (zlen rest - r) with (zlen (drop (Z.to_nat r) rest)) by (rewrite length_drop; lia).
        replace (zlen pre + r) with (zlen (pre ++ take (Z.to_nat r) rest)) by (rewrite length_app, length_take; lia).
        rewrite Hrun. split; [do 2 f_equal; rewrite length_app, length_take, length_drop; lia|]. split; [|done].
        rewrite Hs'. cbn [s2 net_world]. by rewrite Hs2, Hs1, <- app_assoc, take_drop.
  - set (s2 := mkNet _ _ w2). destruct (IH pre rest true s2) as (s' & Hrun & Hs' & Ho & Hsh); [cbn [s2 net_world]; lia|done|done|].
    exists s'. rewrite Hrun. split; [done|]. split; [|done]. rewrite Hs'. cbn [s2 net_world]. congruence.
  - set (s2 := mkNet _ _ w2). destruct (IH pre rest false s2) as (s' & Hrun & Hs' & Ho & Hsh); [cbn [s2 net_world]; lia|done|done|].
    exists s'. rewrite Hrun. split; [done|]. split; [|done]. rewrite Hs'. cbn [s2 net_world]. congruence.
Qed.

(** send over TLS writes the whole packet, however the library splits it and
    however often it asks to wait, and leaves the object as it was. *)
Theorem tls_send_spec s h bs fuel : nw_secureFlg (net_obj s) = true -> nw_ssl (net_obj s) = Some h -> nw_busy (net_obj s) = false ->
  0 < zlen bs < 65536 -> (blocked h (net_world s) + length bs < fuel)%nat ->
  exists w, Network_send_obj fuel bs s = Some (zlen bs, with_world w s) /\ sent h w = sent h (net_world s) ++ bs.
Proof.
  intros Hsec Hssl Hbusy Hlen Hfuel. unfold Network_send_obj, u16. rewrite Z.mod_small by lia.
  unfold the_net, sbind at 1. rewrite Hsec. cbn [negb]. unfold sbind at 1. rewrite Hssl. unfold set_busy at 1, upd_net at 1, sbind at 1.
  set (s1 := mkNet _ _ _). destruct (send_tls_loop_run fuel h [] bs false s1) as (s' & Hrun & Hs' & Ho & Hsh).
  - cbn [s1 net_world]. lia.
  - intros ->. cbn in Hlen. lia.
  - lia.
  - change (zlen []) with 0 in Hrun. cbn [app] in Hrun. exists (net_world s'). rewrite Hrun. split; [|exact Hs'].
    rewrite Z.add_0_l. do 2 f_equal. destruct s' as [o sh w], s as [[fd a sec ssl busy v] sh0 w0].
    cbn in Ho, Hsh, Hbusy |- *. unfold with_world. cbn. subst. done.
Qed.
End Sending.

(** ** Receiving with TLS *)

Section Receiving.
Context {W : Type} `{TlsHost W}.
Implicit Types s : Net W.

(** [recv] of an idle connection starts to read. *)
Lemma recv_started s h fuel buf len : nw_secureFlg (net_obj s) = true -> nw_ssl (net_obj s) = Some h -> nw_busy (net_obj s) = false ->
  Network_recv_obj fuel buf len s = (set_busy true ;! recv_tls_loop fuel h (u16 len) buf 0) s.
Proof.
  intros Hsec Hssl Hbusy. unfold Network_recv_obj, the_net, sbind at 1. rewrite Hsec. cbn [negb].
  unfold sbind at 1. rewrite Hbusy. unfold sbind at 1. by rewrite Hssl.
Qed.

(** C28: recv over TLS stores what is there; but when the library has nothing yet,
    its result -1 is added to the position, and what it delivers then is stored
    from the byte before the array on. *)
Theorem tls_recv_spec s h buf len n rlen data w : nw_secureFlg (net_obj s) = true -> nw_ssl (net_obj s) = Some h ->
  nw_busy (net_obj s) = false -> 0 <= len < 65536 -> zlen data = rlen -> zlen data <= zlen buf -> data <> [] ->
  (ssl_read h len (net_world s) = ((rlen, data, SSL_ERROR_NONE), w) ->
    Network_recv_obj (S n) buf len s = Some ((rlen, splice buf 0 data), with_world w s)) /\
  (forall more writable w1 w2 w3, ssl_read h len (net_world s) = ((-1, [], SSL_ERROR_WANT_READ), w1) ->
    ssl_pending h w1 = (more, w2) -> os_select (nw_sockfd (net_obj s)) w2 = ((1, true, writable), w3) ->
    ssl_read h (len + 1) w3 = ((rlen, data, SSL_ERROR_NONE), w) ->
    Network_recv_obj (S (S (S n))) buf len s = None).
Proof.
  intros Hsec Hssl Hbusy Hlen Hr Hfit Hne. destruct s as [[fd a sec ssl busy v] sh w0]. cbn in Hsec, Hssl, Hbusy. subst sec ssl busy.
  cbn [net_world net_obj nw_sockfd]. split.
  - intros Hread. rewrite (recv_started _ h) by done. rewrite u16_small by lia. unfold set_busy, upd_net, sbind at 1. cbn [recv_tls_loop].
    rewrite Z.sub_0_r. unfold sbind at 1, call. cbn [net_world net_obj net_shared]. rewrite Hread. unfold net_store.
    rewrite bool_decide_eq_false_2 by done. test_true (0 + zlen data <=? zlen buf).
    unfold sbind, sret, set_busy, upd_net, with_world. cbn. by rewrite Z.add_0_r.
  - intros more writable w1 w2 w3 Hread Hpend Hsel Hread2. rewrite (recv_started _ h) by done. rewrite u16_small by lia.
    unfold set_busy, upd_net, sbind at 1. cbn [recv_tls_loop wait_tls_loop].
    rewrite Z.sub_0_r. unfold sbind at 1, call at 1. cbn [net_world net_obj net_shared nw_sockfd nw_addrinfo nw_secureFlg nw_ssl nw_sslValid].
    rewrite Hread. unfold net_store at 1. rewrite bool_decide_eq_true_2 by done. sprim.
    unfold sbind at 1, call at 1. cbn [net_world]. rewrite Hpend. unfold TCPStack_getSock at 1. sprim.
    unfold sbind at 1, call at 1. cbn [net_world net_obj nw_sockfd]. rewrite Hsel. change (0 <? 1) with true. cbn [orb]. cbv iota.
    unfold sbind at 1, call at 1. cbn [net_world]. change (0 + -1) with (-1). replace (len - -1) with (len + 1) by lia.
    rewrite Hread2. unfold sbind at 1, net_store at 1. by rewrite bool_decide_eq_false_2.
Qed.

(** when the peer has closed the connection, recv fails once; from then on the
    object still counts as connected, but sends nothing and receives nothing,
    and its mark of a checked connection outlives close. *)
Theorem tls_eof s h buf len n w w' : nw_secureFlg (net_obj s) = true -> nw_ssl (net_obj s) = Some h ->
  nw_busy (net_obj s) = false -> nw_sslValid (net_obj s) = true -> 0 < nw_sockfd (net_obj s) -> 0 <= len < 65536 ->
  ssl_read h len (net_world s) = ((0, [], SSL_ERROR_ZERO_RETURN), w) -> ssl_shutdown h w = (tt, w') ->
  exists s', Network_recv_obj (S n) buf len s = Some ((-1, buf), s') /\ network_valid (net_obj s') = true /\
    (forall fuel bs, Network_send_obj fuel bs s' = Some (-1, s')) /\
    (forall fuel buf len, Network_recv_obj fuel buf len s' = Some ((0, buf), s')) /\
    (forall s'', Network_close s' = Some (tt, s'') -> nw_sslValid (net_obj s'') = true /\ nw_ssl (net_obj s'') = None).
Proof.
  intros Hsec Hssl Hbusy Hv Hfd Hlen Hread Hshut. destruct s as [[fd a sec ssl busy v] sh w0].
  cbn in Hsec, Hssl, Hbusy, Hv, Hfd. subst sec ssl busy v.
  exists (mkNet (mkNetwork fd a true None false true) (mkShared (sh_ctx sh) (sh_session sh) (sh_numOfInstance sh + -1)) w').
  split; [|split; [|split; [|split]]].
  - rewrite (recv_started _ h) by done. rewrite u16_small by lia. unfold set_busy, upd_net, sbind at 1. cbn [recv_tls_loop].
    rewrite Z.sub_0_r. unfold sbind at 1, call at 1. cbn [net_world net_obj net_shared] in *. rewrite Hread. unfold net_store.
    rewrite bool_decide_eq_true_2 by done. unfold sbind, sret, call, set_ssl, add_instance, set_busy, upd_net, upd_shared. cbn.
    by rewrite Hshut.
  - unfold network_valid. cbn. by rewrite (proj2 (Z.ltb_lt 0 fd) Hfd).
  - done.
  - done.
  - intros s''. unfold Network_close, TCPStack_close, free_addrinfo, the_net, the_shared, set_tls_session, set_ctx, set_sockfd, set_addrinfo, upd_shared, upd_net, call, sbind.
    cbn -[Z.ltb Z.eqb].
    destruct (sh_session sh && _), (sh_ctx sh && _); cbn -[Z.ltb Z.eqb]; rewrite (proj2 (Z.ltb_lt 0 fd) Hfd); cbn -[Z.ltb Z.eqb];
      destruct (os_close fd w') as [[] w2], a; cbn -[Z.ltb Z.eqb]; intros E; cbv [undefined] in E; try discriminate E; injection E as <-; done.
Qed.
End Receiving.

(** ** What every operation keeps *)

Section Invariant.
Context {W : Type} `{TlsHost W}.

(** Assertions on the object and the static members; [holds P m Q]: from [P], if
    [m] has a result, [Q] holds of it and the state after. *)
Abbreviation assertion := (NetworkObject -> TlsShared -> Prop).
Implicit Types (P : assertion) (k : Z).
Definition holds {R} (P : assertion) (m : st (Net W) R) (Q : R -> assertion) : Prop :=
  forall s r s', P (net_obj s) (net_shared s) -> m s = Some (r, s') -> Q r (net_obj s') (net_shared s').

Lemma holds_ret {R} (r : R) (Q : R -> assertion) : holds (Q r) (sret r) Q.
Proof. intros s r' s' HP [= <- <-]. done. Qed.
Lemma holds_bind {R T} P (m : st (Net W) R) (Q : R -> assertion) (k : R -> st (Net W) T) (Q' : T -> assertion) :
  holds P m Q -> (forall r, holds (Q r) (k r) Q') -> holds P (sbind m k) Q'.
Proof.
  intros Hm Hk s r s' HP. unfold sbind. destruct (m s) as [[r1 s1]|] eqn:E; [|done]. intros Hr.
  eapply Hk; [|done]. by eapply Hm.
Qed.
Lemma holds_call {R} P (f : W -> R * W) : holds P (call f) (fun _ => P).
Proof. intros s r s' HP. unfold call. destruct (f _) as [r1 w]. by intros [= _ <-]. Qed.
Lemma holds_net {R} P (f : NetworkObject -> R) : holds P (the_net f) (fun r o sh => P o sh /\ r = f o).
Proof. by intros s r s' HP [= <- <-]. Qed.
Lemma holds_shared {R} P (f : TlsShared -> R) : holds P (the_shared f) (fun r o sh => P o sh /\ r = f sh).
Proof. by intros s r s' HP [= <- <-]. Qed.
Lemma holds_upd_net (Q : assertion) f : holds (fun o sh => Q (f o) sh) (upd_net f) (fun _ => Q).
Proof. by intros s r s' HP [= _ <-]. Qed.
Lemma holds_upd_shared (Q : assertion) f : holds (fun o sh => Q o (f sh)) (upd_shared f) (fun _ => Q).
Proof. by intros s r s' HP [= _ <-]. Qed.
Lemma holds_undefined {R} P (Q : R -> assertion) : holds P undefined Q.
Proof. by intros s r s' _ E. Qed.
Lemma holds_pre {R} P P' (m : st (Net W) R) (Q : R -> assertion) : holds P' m Q -> (forall o sh, P o sh -> P' o sh) -> holds P m Q.
Proof. intros Hm HP s r s' Hs. apply Hm. by apply HP. Qed.
Lemma holds_post {R} P (m : st (Net W) R) (Q Q' : R -> assertion) : holds P m Q' -> (forall r o sh, Q' r o sh -> Q r o sh) -> holds P m Q.
Proof. intros Hm HP s r s' Hs Hr. apply HP. by eapply Hm. Qed.

(** [k] other connections are there.  An object has a TLS connection only on an
    open socket, marked as checked, and with the shared context; the number is
    that of the connections. *)
Definition tls_ok k : assertion := fun o sh =>
  nw_busy o = false /\
  (nw_ssl o <> None -> nw_sslValid o = true /\ 0 < nw_sockfd o /\ nw_secureFlg o = true) /\
  0 <= k /\ sh_numOfInstance sh = k + (if nw_ssl o is Some _ then 1 else 0) /\
  (0 < sh_numOfInstance sh -> sh_ctx sh = true).

(** No TLS connection of this object yet. *)
Definition no_ssl k : assertion := fun o sh => tls_ok k o sh /\ nw_ssl o = None.
(** While one is being made on a socket. *)
Definition making k : assertion := fun o sh =>
  nw_busy o = false /\ 0 <= k /\ sh_numOfInstance sh = k /\ sh_ctx sh = true /\ 0 < nw_sockfd o /\ nw_secureFlg o = true.
Definition made k h : assertion := fun o sh => making k o sh /\ nw_ssl o = Some h.

Ltac net_step :=
  lazymatch goal with
  | |- holds _ (sbind _ _) _ => eapply holds_bind; [|intros ?; cbv beta]
  | |- holds _ (sret _) _ => eapply holds_pre; [apply holds_ret|]
  | |- holds _ (call _) _ => apply holds_call
  | |- holds _ (the_net _) _ => apply holds_net
  | |- holds _ (the_shared _) _ => apply holds_shared
  | |- holds _ undefined _ => apply holds_undefined
  | |- holds _ (if ?b then _ else _) _ => destruct b eqn:?
  | |- holds _ (match ?x with _ => _ end) _ => destruct x eqn:?
  end.

Lemma keeps_free P : (forall o sh a, P o sh -> P (mkNetwork (nw_sockfd o) a (nw_secureFlg o) (nw_ssl o) (nw_busy o) (nw_sslValid o)) sh) ->
  holds P free_addrinfo (fun _ => P).
Proof.
  intros HP. unfold free_addrinfo, set_addrinfo. net_step; [net_step|]. destruct r.
  - eapply holds_pre; [apply holds_ret|]. by intros o sh [? _].
  - eapply holds_pre; [apply holds_upd_net|]. intros o sh [? _]. by apply HP.
  - net_step.
Qed.

(** Descriptor 0 is the standard input, so no socket has it. *)
Context (Hsocket : forall w, (os_socket w).1 <> 0).

Lemma holds_socket P : holds P (call os_socket) (fun r o sh => P o sh /\ r <> 0).
Proof. intros s r s' HP. unfold call. pose proof (Hsocket (net_world s)). destruct (os_socket _) as [r1 w]. by intros [= <- <-]. Qed.

Lemma holds_tcp_connect host service k secure (C : TlsShared -> Prop) :
  let P := fun o sh => no_ssl k o sh /\ nw_secureFlg o = secure /\ C sh in
  holds P (TCPStack_connect host service) (fun r o sh => P o sh /\ (r = true -> 0 < nw_sockfd o)).
Proof.
  intros P. unfold TCPStack_connect, TCPStack_isValid, set_addrinfo, set_sockfd.
  net_step; [net_step|]. net_step.
  { net_step. intros o sh [HP E]. split; [done|]. intros _. by apply Z.ltb_lt. }
  net_step. { eapply holds_pre; [apply (keeps_free P)|by intros o sh [? _]]. intros o sh a [[[? ?] ?] ?]. done. }
  net_step; [net_step|]. net_step; [by net_step|].
  net_step. { eapply holds_pre; [apply (holds_upd_net P)|]. intros o sh [[[? ?] ?] ?]. done. }
  net_step; [apply holds_socket|]. net_step; [net_step; by intros o sh [? _]|].
  net_step; [net_step|]. net_step; [net_step; by intros o sh [? _]|].
  net_step; [net_step|]. net_step; [net_step; [net_step|net_step; by intros o sh [? _]]|].
  net_step; [|net_step; intros o sh HQ; exact HQ].
  eapply holds_post; [eapply holds_pre; [apply (holds_upd_net (fun o sh => P o sh /\ 0 < nw_sockfd o))|]|by intros _ o sh [? ?]].
  intros o sh [HP Hr]. split; [|cbn; apply Z.ltb_ge in Heqb1; lia].
  destruct HP as [[(Hb & Hs & Hk & Hn & Hc) Hnone] Hsec]. split; [split; [|done]|done].
  split; [done|]. split; [|done]. cbn. by rewrite Hnone.
Qed.

Lemma holds_load_file P load file : holds P (load_file load file) (fun _ => P).
Proof. unfold load_file. destruct file; net_step. done. Qed.

(** The context is there when this succeeds, and stays when it fails. *)
Lemma holds_context k caPath caFile certkey prvkey :
  let P := fun o sh => no_ssl k o sh /\ nw_secureFlg o = true in
  holds P (Network_context caPath caFile certkey prvkey) (fun r o sh => P o sh /\ (r = true -> sh_ctx sh = true)).
Proof.
  intros P. set (Q := fun o sh => P o sh /\ sh_ctx sh = true). unfold Network_context, set_ctx.
  assert (Hfail : forall r o sh, Q o sh -> P o sh /\ (r = true -> sh_ctx sh = true)) by (by intros r o sh [? ?]).
  net_step; [net_step|]. net_step; [net_step; by intros o sh [? <-]|].
  net_step; [net_step|]. net_step; [net_step; by intros o sh [? _]|].
  net_step.
  { eapply holds_pre; [apply (holds_upd_shared Q)|]. intros o sh [[[(Hb & Hs & Hk & Hn & Hc) Hnone] Hsec] _].
    split; [|done]. split; [split; [|done]|done]. by split_and!. }
  net_step; [net_step|]. net_step; [net_step; by intros o sh [? _]|].
  net_step; [apply holds_load_file|]. net_step; [net_step; by intros o sh [? _]|].
  eapply holds_post; [apply holds_load_file|]. cbv beta. intros rr o sh HQ. by apply Hfail.
Qed.

Lemma holds_drop k h : holds (made k h) (drop_ssl h) (fun _ => tls_ok k).
Proof.
  unfold drop_ssl, set_ssl. net_step; [net_step|].
  net_step; [eapply holds_pre; [apply (holds_upd_net (fun o sh => making k o sh /\ nw_ssl o = None))|]; by intros o sh [? _]|].
  net_step. intros o sh [(Hb & Hk & Hn & Hc & Hf & Hsec) Hnone]. unfold tls_ok. rewrite Hnone, Z.add_0_r. by split_and!.
Qed.

Lemma holds_handshake k host :
  holds (fun o sh => making k o sh /\ nw_ssl o = None) (Network_handshake host) (fun _ => tls_ok k).
Proof.
  unfold Network_handshake, TCPStack_getSock, set_ssl, set_tls_session, add_instance, set_sslValid.
  net_step; [net_step|]. destruct r as [h|].
  - net_step; [eapply holds_pre; [apply (holds_upd_net (made k h))|]; by intros o sh [? _]|].
    net_step; [net_step|]. net_step; [eapply holds_pre; [apply (holds_call (made k h))|by intros o sh [? _]]|].
    net_step; [apply holds_drop|]. net_step; [net_step|].
    net_step; [net_step; [eapply holds_pre; [apply (holds_call (made k h))|by intros o sh [? _]]|net_step; intros o sh [HQ _]; exact HQ]|].
    net_step; [net_step|]. net_step; [apply holds_drop|]. net_step; [net_step|]. net_step; [apply holds_drop|].
    net_step; [net_step|]. net_step; [|net_step]. net_step; [net_step|net_step]. 2: { apply holds_drop. }
    net_step; [net_step|].
    eapply (holds_bind _ _ (fun _ => made k h));
      [net_step; [net_step; by intros o sh [? _]|eapply holds_pre; [apply (holds_upd_shared (made k h))|by intros o sh [? _]]]|intros ?; cbv beta].
    set (Q := fun o sh => nw_busy o = false /\ nw_ssl o = Some h /\ 0 <= k /\ sh_numOfInstance sh = k + 1 /\ sh_ctx sh = true /\
      0 < nw_sockfd o /\ nw_secureFlg o = true).
    net_step; [eapply holds_pre; [apply (holds_upd_shared Q)|]|].
    { intros o sh [(Hb & Hk & Hn & Hc & Hf & Hsec) Hs]. unfold Q. cbn. split_and!; try done. lia. }
    net_step; [eapply holds_pre; [apply (holds_upd_net (fun o sh => Q o sh /\ nw_sslValid o = true))|by intros o sh HQ]|].
    net_step. intros o sh [(Hb & Hs & Hk & Hn & Hc & Hf & Hsec) Hv]. unfold tls_ok. rewrite Hs. by split_and!.
  - net_step; [eapply holds_pre; [apply (holds_upd_net (fun o sh => making k o sh /\ nw_ssl o = None))|]; by intros o sh [? _]|].
    net_step. intros o sh [(Hb & Hk & Hn & Hc & Hf & Hsec) Hnone]. unfold tls_ok. rewrite Hnone, Z.add_0_r. by split_and!.
Qed.

Lemma tls_ok_valid k o sh : tls_ok k o sh -> network_valid o = false -> no_ssl k o sh.
Proof.
  intros Hok Hv. split; [done|]. destruct Hok as (Hb & Hs & _). destruct (nw_ssl o) as [h|]; [exfalso|done].
  destruct Hs as (Hvalid & Hf & Hsec); [done|]. unfold network_valid in Hv. rewrite Hvalid, Hb, Hsec in Hv.
  rewrite (proj2 (Z.ltb_lt 0 _) Hf) in Hv. done.
Qed.

Lemma holds_connect_tls k host port caPath caFile certkey prvkey :
  holds (fun o sh => tls_ok k o sh /\ network_valid o = false) (Network_connect_tls host port caPath caFile certkey prvkey) (fun _ => tls_ok k).
Proof.
  unfold Network_connect_tls, TCPStack_isValid. net_step; [net_step|]. net_step; [net_step; by intros o sh [[? _] _]|].
  set (P := fun o sh => no_ssl k o sh /\ nw_secureFlg o = true /\ sh_ctx sh = true).
  net_step.
  { eapply holds_pre; [apply (holds_context k)|]. intros o sh [[Hok Hv] Hr]. apply negb_false_iff in Heqb. subst r.
    split; [by apply tls_ok_valid|done]. }
  cbv beta. net_step; [net_step; by intros o sh [[[? _] _] _]|]. apply negb_false_iff in Heqb0. subst r0.
  eapply (holds_bind _ _ (fun r o sh => P o sh /\ r = (0 <? nw_sockfd o)));
    [eapply holds_pre; [apply holds_net|]; intros o sh [[? ?] Hc]; unfold P; by rewrite Hc|intros valid; cbv beta].
  eapply (holds_bind _ _ (fun r o sh => P o sh /\ (r = true -> 0 < nw_sockfd o))).
  { net_step; [net_step; intros o sh [? E]; split; [done|intros _; by apply Z.ltb_lt]|].
    eapply holds_pre; [apply (holds_tcp_connect host port k true (fun sh => sh_ctx sh = true))|by intros o sh [? _]]. }
  intros ok. cbv beta. net_step; [net_step; by intros o sh [[[? _] _] _]|]. apply negb_false_iff in Heqb0. subst ok.
  eapply holds_pre; [apply holds_handshake|]. intros o sh [[[(Hb & Hs & Hk & Hn & Hc) Hnone] [Hsec Hctx]] Hf]. split; [|done].
  rewrite Hnone, Z.add_0_r in Hn. split_and!; try done. by apply Hf.
Qed.

(** As [tls_ok], but for the mark of an operation in progress. *)
Definition busy_ok k : assertion := fun o sh => tls_ok k (net_idle o) sh.

Lemma tls_ok_busy k o sh b : tls_ok k o sh -> busy_ok k (mkNetwork (nw_sockfd o) (nw_addrinfo o) (nw_secureFlg o) (nw_ssl o) b (nw_sslValid o)) sh.
Proof. intros (Hb & Hs & Hk & Hn & Hc). by split_and!. Qed.

Lemma holds_idle k {R} (r : R) (P : assertion) : (forall o sh, P o sh -> busy_ok k o sh) ->
  holds P (set_busy false ;! sret r) (fun _ => tls_ok k).
Proof.
  intros HP. unfold set_busy. net_step; [eapply holds_pre; [apply (holds_upd_net (tls_ok k))|]|net_step; by intros o sh HQ].
  intros o sh Ho. exact (HP o sh Ho).
Qed.

Lemma holds_send_tls_loop k n h bs length bpos b : holds (busy_ok k) (send_tls_loop n h bs length bpos b) (fun _ => tls_ok k).
Proof.
  revert length bpos b. induction n as [|n IH]; intros length bpos b; cbn [send_tls_loop]; [net_step|].
  unfold TCPStack_getSock. net_step; [net_step|].
  net_step; [eapply holds_pre; [apply (holds_call (busy_ok k))|by intros o sh [? _]]|].
  destruct r0 as [[activity rset] wset]. net_step; [|apply IH]. net_step; [net_step|]. destruct r0 as [r0 err].
  destruct err; cbv zeta; [net_step|..]; try apply IH; by apply holds_idle.
Qed.

Lemma holds_send k fuel bs : holds (tls_ok k) (Network_send_obj fuel bs) (fun _ => tls_ok k).
Proof.
  unfold Network_send_obj, TCPStack_send. net_step; [net_step|]. net_step.
  { net_step; [net_step|]. eapply holds_pre; [apply (holds_call (tls_ok k))|]. by intros o sh [[? _] _]. }
  net_step; [net_step|]. net_step; [|net_step; by intros o sh [[? _] _]].
  net_step; [eapply holds_pre; [apply (holds_upd_net (busy_ok k))|]|apply holds_send_tls_loop].
  intros o sh [[Hok _] _]. by apply tls_ok_busy.
Qed.

Lemma holds_recv_loops k h len n :
  (forall buf bpos, holds (fun o sh => busy_ok k o sh /\ nw_ssl o = Some h) (recv_tls_loop n h len buf bpos) (fun _ => tls_ok k)) /\
  (forall buf bpos b, holds (fun o sh => busy_ok k o sh /\ nw_ssl o = Some h) (wait_tls_loop n h len buf bpos b) (fun _ => tls_ok k)).
Proof.
  set (P := fun o sh => busy_ok k o sh /\ nw_ssl o = Some h).
  induction n as [|n [IHr IHw]]; [by split; intros; cbn; net_step|]. split.
  - intros buf bpos. cbn [recv_tls_loop]. net_step; [net_step|]. destruct r as [[rlen data] err].
    eapply (holds_bind _ _ (fun _ => P)); [unfold net_store; net_step; [by net_step|net_step; by net_step]|intros buf'; cbv beta].
    destruct err.
    + apply holds_idle. by intros o sh [? _].
    + net_step; [net_step|]. unfold set_ssl, add_instance.
      set (Q := fun o sh => busy_ok (k + 1) o sh /\ nw_ssl o = None /\ 0 <= k).
      net_step; [eapply holds_pre; [apply (holds_upd_net Q)|]|].
      { intros o sh [(Hb & Hs & Hk & Hn & Hc) Hssl]. cbn in *. rewrite Hssl in *. unfold Q, busy_ok, tls_ok. cbn. split_and!; try done; lia. }
      net_step; [eapply holds_pre; [apply (holds_upd_shared (busy_ok k))|]|by apply holds_idle].
      intros o sh ((Hb & Hs & Hk & Hn & Hc) & Hnone & Hk0). unfold busy_ok, tls_ok. cbn in *. rewrite Hnone in *. split_and!; try done; try lia.
      intros Hpos. apply Hc. lia.
    + net_step; [net_step|]. apply IHw.
    + net_step; [net_step|]. net_step; [apply IHr|apply IHw].
    + apply holds_idle. by intros o sh [? _].
  - intros buf bpos b. cbn [wait_tls_loop]. unfold TCPStack_getSock. net_step; [net_step|].
    net_step; [eapply holds_pre; [apply (holds_call P)|by intros o sh [? _]]|]. destruct r0 as [[activity rset] wset].
    net_step; [net_step; [apply IHr|apply IHw]|]. apply holds_idle. by intros o sh [? _].
Qed.

Lemma holds_recv k fuel buf len : holds (tls_ok k) (Network_recv_obj fuel buf len) (fun _ => tls_ok k).
Proof.
  unfold Network_recv_obj, TCPStack_recv. net_step; [net_step|]. net_step.
  { net_step; [net_step; [net_step|eapply holds_pre; [apply (holds_call (tls_ok k))|]; by intros o sh [[? _] _]]|].
    destruct r0 as [rc data]. eapply (holds_bind _ _ (fun _ => tls_ok k)); [unfold net_store; net_step; [by net_step|net_step; by net_step]|].
    intros buf'. by net_step. }
  net_step; [net_step|]. net_step; [net_step; by intros o sh [[? _] _]|]. net_step; [net_step|].
  match goal with |- holds _ (match ?ssl with _ => _ end) _ => destruct ssl as [h|] end; [|net_step; by intros o sh [[[? _] _] _]].
  net_step; [eapply holds_pre; [apply (holds_upd_net (fun o sh => busy_ok k o sh /\ nw_ssl o = Some h))|]|apply holds_recv_loops].
  intros o sh [[[Hok _] _] Hssl]. split; [by apply tls_ok_busy|]. cbn. congruence.
Qed.

Lemma holds_tcp_close k : holds (no_ssl k) TCPStack_close (fun _ => no_ssl k).
Proof.
  unfold TCPStack_close, set_sockfd, set_addrinfo. net_step; [net_step|]. net_step; [|net_step; by intros o sh [? _]].
  net_step; [eapply holds_pre; [apply (holds_call (no_ssl k))|by intros o sh [? _]]|].
  assert (Hupd : forall fd a o sh, no_ssl k o sh -> no_ssl k (mkNetwork fd a (nw_secureFlg o) (nw_ssl o) (nw_busy o) (nw_sslValid o)) sh).
  { intros fd a o sh [(Hb & Hs & Hk & Hn & Hc) Hnone]. split; [split; [done|]|done]. split; [|done]. cbn. by rewrite Hnone. }
  net_step; [eapply holds_pre; [apply (holds_upd_net (no_ssl k))|]; intros o sh HQ; by apply Hupd|].
  net_step; [net_step|]. net_step; [net_step; by intros o sh [? _]|..].
  all: net_step; [eapply holds_pre; [apply (keeps_free (no_ssl k))|by intros o sh [? _]]; intros; by apply Hupd|].
  all: eapply holds_pre; [apply (holds_upd_net (no_ssl k))|]; intros o sh HQ; by apply Hupd.
Qed.

Lemma holds_close k : holds (tls_ok k) Network_close (fun _ => no_ssl k).
Proof.
  unfold Network_close, add_instance, set_ssl, set_sslValid, set_busy, set_tls_session, set_ctx.
  net_step; [net_step|]. eapply (holds_bind _ _ (fun _ => no_ssl k)); [|intros []; apply holds_tcp_close].
  net_step.
  - eapply (holds_bind _ _ (fun r0 o sh => tls_ok k o sh /\ r0 = nw_ssl o)); [eapply holds_pre; [apply holds_net|by intros o sh [? _]]|].
    intros ssl. cbv beta. eapply (holds_bind _ _ (fun _ => no_ssl k)).
    + destruct ssl as [h|]; [|net_step; by intros o sh [? ?]].
      net_step; [net_step|]. net_step; [net_step|].
      set (Q := (fun _ sh => 0 <= k /\ sh_numOfInstance sh = k /\ (0 < sh_numOfInstance sh -> sh_ctx sh = true)) : assertion).
      net_step; [eapply holds_pre; [apply (holds_upd_shared Q)|]|].
      { intros o sh [(Hb & Hs & Hk & Hn & Hc) Hssl]. rewrite <- Hssl in Hn. unfold Q. cbn. split_and!; [done|lia|intros ?; apply Hc; lia]. }
      do 2 (net_step; [eapply holds_pre; [apply (holds_upd_net (fun o sh => Q o sh /\ nw_ssl o = None))|]; first [by intros o sh HQ|by intros o sh [HQ _]]|]).
      eapply holds_pre; [apply (holds_upd_net (no_ssl k))|]. intros o sh [(Hk & Hn & Hc) Hnone].
      split; [|done]. unfold tls_ok. cbn. rewrite Hnone, Z.add_0_r. by split_and!.
    + intros []. cbv beta. net_step; [net_step|].
      set (P := fun o sh => no_ssl k o sh /\ sh_numOfInstance sh = sh_numOfInstance r0).
      eapply (holds_bind _ _ (fun _ => P)).
      { net_step; [|net_step; intros o sh [? ->]; by split].
        eapply holds_pre; [apply (holds_upd_shared P)|]. intros o sh [[(Hb & Hs & Hk & Hn & Hc) Hnone] ->].
        split; [split; [by split_and!|done]|done]. }
      intros []. cbv beta. net_step; [|net_step; by intros o sh [? _]].
      apply andb_true_iff in Heqb0 as [_ Hz]. apply Z.eqb_eq in Hz.
      eapply holds_pre; [apply (holds_upd_shared (no_ssl k))|]. intros o sh [[(Hb & Hs & Hk & Hn & Hc) Hnone] He].
      split; [|done]. split_and!; try done. intros Hpos. cbn in Hpos. lia.
  - net_step. intros o sh [Hok E]. split; [done|]. destruct Hok as (Hb & Hs & _). destruct (nw_ssl o); [|done].
    destruct Hs as (_ & _ & Hsec); [done|]. congruence.
Qed.

Lemma holds_destroy k : holds (tls_ok k) Network_destroy (fun _ => no_ssl k).
Proof.
  unfold Network_destroy, TCPStack_destroy. net_step; [apply holds_close|]. apply keeps_free.
  intros o sh a [(Hb & Hs & Hk & Hn & Hc) Hnone]. split; [|done]. split; [done|]. by split.
Qed.

Lemma holds_connect k host port : holds (tls_ok k) (Network_connect host port) (fun _ => tls_ok k).
Proof.
  unfold Network_connect, TCPStack_getSock. net_step; [net_step|]. destruct r; [net_step; by intros o sh [? _]|].
  net_step; [net_step|]. net_step; [|net_step; by intros o sh [[? _] _]].
  eapply holds_post; [eapply holds_pre; [apply (holds_tcp_connect host port k false (fun _ => True))|]|by intros ? o sh [[[? _] _] _]].
  intros o sh [[Hok Hsec] _]. split; [|done]. split; [done|]. destruct Hok as (_ & Hs & _).
  destruct (nw_ssl o); [|done]. destruct Hs as (_ & _ & Hsec'); [done|]. congruence.
Qed.

(** A TLS connection that was made is counted, whether or not there was one. *)
Lemma holds_tcp_connect_shared host service (C : TlsShared -> Prop) :
  holds (fun _ sh => C sh) (TCPStack_connect host service) (fun _ _ sh => C sh).
Proof.
  unfold TCPStack_connect, TCPStack_isValid, set_addrinfo, set_sockfd.
  net_step; [net_step|]. net_step; [net_step; by intros o sh [? _]|].
  net_step; [eapply holds_pre; [by apply (keeps_free (fun _ sh => C sh))|by intros o sh [? _]]|].
  net_step; [net_step|]. net_step; [by net_step|]. net_step; [eapply holds_pre; [apply (holds_upd_net (fun _ sh => C sh))|done]|].
  do 2 (net_step; [net_step|]; net_step; [by net_step|]).
  net_step; [net_step|]. net_step; [net_step; [net_step|by net_step]|].
  net_step; [eapply holds_pre; [apply (holds_upd_net (fun _ sh => C sh))|done]|by net_step].
Qed.

Definition counted (n : Z) : assertion := fun _ sh => sh_numOfInstance sh = n.
Definition counted_if (n : Z) (r : bool) : assertion := fun _ sh => sh_numOfInstance sh = n + (if r then 1 else 0).

Lemma counted_drop n h : holds (counted n) (drop_ssl h) (counted_if n).
Proof.
  unfold drop_ssl, set_ssl. net_step; [net_step|]. net_step; [eapply holds_pre; [apply (holds_upd_net (counted n))|done]|].
  net_step. unfold counted, counted_if. intros o sh E. lia.
Qed.

Lemma counted_handshake n host : holds (counted n) (Network_handshake host) (counted_if n).
Proof.
  unfold Network_handshake, TCPStack_getSock, set_ssl, set_tls_session, add_instance, set_sslValid.
  net_step; [net_step|]. net_step; [eapply holds_pre; [apply (holds_upd_net (counted n))|done]|].
  destruct r as [h|]; [|net_step; unfold counted, counted_if; intros o sh E; lia].
  net_step; [net_step|]. net_step; [eapply holds_pre; [apply (holds_call (counted n))|by intros o sh [? _]]|].
  net_step; [apply counted_drop|]. net_step; [net_step|].
  net_step; [net_step; [eapply holds_pre; [apply (holds_call (counted n))|by intros o sh [? _]]|net_step; by intros o sh [? _]]|].
  do 2 (net_step; [net_step|]; net_step; [apply counted_drop|]).
  net_step; [net_step|]. net_step; [|net_step]. net_step; [net_step|net_step]; [|apply counted_drop].
  net_step; [net_step|].
  eapply (holds_bind _ _ (fun _ => counted n));
    [net_step; [net_step; by intros o sh [? _]|eapply holds_pre; [apply (holds_upd_shared (counted n))|by intros o sh [? _]]]|intros []; cbv beta].
  net_step; [eapply holds_pre; [apply (holds_upd_shared (counted (n + 1)))|unfold counted; cbn; intros o sh E; lia]|].
  net_step; [eapply holds_pre; [apply (holds_upd_net (counted (n + 1)))|done]|]. by net_step.
Qed.

Lemma counted_connect n host port caPath caFile certkey prvkey :
  holds (counted n) (Network_connect_tls host port caPath caFile certkey prvkey) (counted_if n).
Proof.
  assert (Hno : forall o sh, counted n o sh -> counted_if n false o sh) by (unfold counted, counted_if; intros o sh E; lia).
  unfold Network_connect_tls, TCPStack_isValid, Network_context, set_ctx. net_step; [net_step|]. net_step; [net_step; intros o sh [? _]; by apply Hno|].
  eapply (holds_bind _ _ (fun _ => counted n)).
  { eapply holds_pre; [|intros o sh [HQ _]; exact HQ].
    net_step; [net_step|]. net_step; [net_step; by intros o sh [? _]|]. net_step; [eapply holds_pre; [apply (holds_call (counted n))|by intros o sh [? _]]|].
    net_step; [by net_step|]. net_step; [eapply holds_pre; [apply (holds_upd_shared (counted n))|done]|].
    net_step; [net_step|]. net_step; [by net_step|]. net_step; [apply holds_load_file|]. net_step; [by net_step|]. apply holds_load_file. }
  intros ok. cbv beta. net_step; [net_step; intros o sh ?; by apply Hno|]. net_step; [net_step|].
  eapply (holds_bind _ _ (fun _ => counted n)).
  { net_step; [net_step; by intros o sh [? _]|]. eapply holds_pre; [apply (holds_tcp_connect_shared host port (fun sh => sh_numOfInstance sh = n))|].
    by intros o sh [? _]. }
  intros ok'. cbv beta. net_step; [net_step; intros o sh ?; by apply Hno|]. apply counted_handshake.
Qed.

(** *** Several connections

    The objects of a process share the static members.  An operation acts on one
    of them; the gateway connects with TLS only an object that is not valid.  A call that comes
    back does so with some fuel; one that does not leads to no state.  Operations
    on one object follow each other; for those of two tasks at once see
    [connect_while_busy]. *)
Record NetSystem := mkSystem { ns_objects : list NetworkObject; ns_shared : TlsShared; ns_world : W }.

Definition at_object {R} (i : nat) (m : st (Net W) R) (s : NetSystem) : option NetSystem :=
  match ns_objects s !! i with
  | None => None
  | Some o =>
      match m (mkNet o (ns_shared s) (ns_world s)) with
      | Some (_, s') => Some (mkSystem (<[i := net_obj s']> (ns_objects s)) (net_shared s') (net_world s'))
      | None => None
      end
  end.

Inductive net_op :=
  | NNew (secure : bool)
  | NConnect (i : nat) (host port : list byte)
  | NConnectTls (i : nat) (host port caPath caFile : list byte) (certkey prvkey : option (list byte))
  | NSend (i : nat) (fuel : nat) (bs : list byte)
  | NRecv (i : nat) (fuel : nat) (buf : list byte) (len : Z)
  | NClose (i : nat)
  | NDelete (i : nat)
  | NElsewhere (w : W).

Definition net_do (op : net_op) (s : NetSystem) : option NetSystem :=
  match op with
  | NNew secure => Some (mkSystem (ns_objects s ++ [newNetwork secure]) (ns_shared s) (ns_world s))
  | NConnect i host port => at_object i (Network_connect host port) s
  | NConnectTls i host port caPath caFile certkey prvkey =>
      if default true (network_valid <$> ns_objects s !! i) then None
      else at_object i (Network_connect_tls host port caPath caFile certkey prvkey) s
  | NSend i fuel bs => at_object i (Network_send_obj fuel bs) s
  | NRecv i fuel buf len => at_object i (Network_recv_obj fuel buf len) s
  | NClose i => at_object i Network_close s
  | NDelete i =>
      match at_object i Network_destroy s with
      | Some s' => Some (mkSystem (delete i (ns_objects s')) (ns_shared s') (ns_world s'))
      | None => None
      end
  | NElsewhere w => Some (mkSystem (ns_objects s) (ns_shared s) w)
  end.
Definition net_moves (s s' : NetSystem) : Prop := exists op, net_do op s = Some s'.

(** The TLS connections there are. *)
Definition tls_of (o : NetworkObject) : Z := if nw_ssl o is Some _ then 1 else 0.
Definition tls_count (os : list NetworkObject) : Z := foldr (fun o n => tls_of o + n) 0 os.

Lemma tls_count_cons o os : tls_count (o :: os) = tls_of o + tls_count os.
Proof. done. Qed.
Lemma tls_count_nonneg os : 0 <= tls_count os.
Proof. induction os as [|o os IH]; [done|]. rewrite tls_count_cons. unfold tls_of. case_match; lia. Qed.
Lemma tls_count_app os os' : tls_count (os ++ os') = tls_count os + tls_count os'.
Proof. induction os as [|o os IH]; [done|]. rewrite <- app_comm_cons, !tls_count_cons, IH. lia. Qed.
Lemma tls_count_delete os i o : os !! i = Some o -> tls_count os = tls_of o + tls_count (delete i os).
Proof.
  revert i. induction os as [|x os IH]; intros [|i] Hi; [done..|by injection Hi as ->|].
  change (delete (S i) (x :: os)) with (x :: delete i os). rewrite !tls_count_cons, (IH i Hi). lia.
Qed.
Lemma tls_count_insert os i o o' : os !! i = Some o -> tls_count (<[i := o']> os) = tls_of o' + tls_count (delete i os).
Proof.
  revert i. induction os as [|x os IH]; intros [|i] Hi; [done..|].
  change (delete (S i) (x :: os)) with (x :: delete i os). change (<[S i := o']> (x :: os)) with (x :: <[i := o']> os).
  rewrite !tls_count_cons, (IH i Hi). lia.
Qed.

(** What holds of each object between two operations. *)
Definition object_sound (o : NetworkObject) : Prop :=
  nw_busy o = false /\ (nw_ssl o <> None -> nw_sslValid o = true /\ 0 < nw_sockfd o /\ nw_secureFlg o = true).

Definition system_sound (s : NetSystem) : Prop :=
  Forall object_sound (ns_objects s) /\ sh_numOfInstance (ns_shared s) = tls_count (ns_objects s) /\
  (0 < sh_numOfInstance (ns_shared s) -> sh_ctx (ns_shared s) = true).

Lemma system_object s i o : system_sound s -> ns_objects s !! i = Some o ->
  tls_ok (tls_count (delete i (ns_objects s))) o (ns_shared s).
Proof.
  intros (Hall & Hn & Hc) Hi. destruct (Forall_lookup_1 _ _ _ _ Hall Hi) as [Hb Hs].
  split_and!; [done|done|apply tls_count_nonneg| |done]. rewrite Hn, (tls_count_delete _ _ _ Hi). unfold tls_of. lia.
Qed.

(** An operation that is sound for one object, whatever the number of the others is. *)
Lemma at_object_sound {R} i (m : st (Net W) R) s s' (Q : assertion) :
  (forall k, holds (tls_ok k) m (fun _ o sh => tls_ok k o sh /\ Q o sh)) -> system_sound s -> at_object i m s = Some s' ->
  system_sound s' /\ exists o, ns_objects s' !! i = Some o /\ Q o (ns_shared s').
Proof.
  intros Hm Hs. unfold at_object. destruct (ns_objects s !! i) as [o|] eqn:Hi; [|done].
  destruct (m _) as [[r s1]|] eqn:Hrun; [|done]. intros [= <-].
  destruct (Hm _ (mkNet o (ns_shared s) (ns_world s)) r s1 (system_object s i o Hs Hi) Hrun) as [(Hb & Hv & Hk & Hn & Hc) HQ].
  destruct Hs as [Hall _]. split; [split_and!|].
  - apply Forall_insert; [done|]. by split.
  - cbn. rewrite (tls_count_insert _ _ _ _ Hi), Hn. unfold tls_of. lia.
  - exact Hc.
  - exists (net_obj s1). split; [|exact HQ]. cbn. apply list_lookup_insert_eq. by eapply lookup_lt_Some.
Qed.

Lemma at_object_keeps {R} i (m : st (Net W) R) s s' :
  (forall k, holds (tls_ok k) m (fun _ => tls_ok k)) -> system_sound s -> at_object i m s = Some s' -> system_sound s'.
Proof.
  intros Hm Hs Hrun. apply (at_object_sound i m s s' (fun _ _ => True)); [|done..].
  intros k. eapply holds_post; [apply Hm|]. by split.
Qed.

Lemma net_do_sound op s s' : system_sound s -> net_do op s = Some s' -> system_sound s'.
Proof.
  intros Hs. destruct op as [secure|i host port|i host port caPath caFile certkey prvkey|i n bs|i n buf len|i|i|w]; cbn [net_do].
  - intros [= <-]. destruct Hs as (Hall & Hn & Hc). split_and!; cbn; [|rewrite tls_count_app; cbn; lia|done].
    apply Forall_app. split; [done|]. by constructor.
  - apply at_object_keeps; [intros k; apply holds_connect|done].
  - destruct (ns_objects s !! i) as [o|] eqn:Hi; [|done]. cbn. destruct (network_valid o) eqn:Hv; [done|].
    intros Hrun. unfold at_object in Hrun. rewrite Hi in Hrun.
    apply (at_object_sound i (fun s0 => if network_valid (net_obj s0) then None
             else Network_connect_tls host port caPath caFile certkey prvkey s0) s s' (fun _ _ => True)); [|done|].
    + intros k s0 r s1 Hok. destruct (network_valid (net_obj s0)) eqn:Hv0; [done|]. intros Hr. split; [|done].
      by apply (holds_connect_tls k host port caPath caFile certkey prvkey s0 r s1).
    + unfold at_object. rewrite Hi. cbn [net_obj]. by rewrite Hv.
  - apply at_object_keeps; [intros k; apply holds_send|done].
  - apply at_object_keeps; [intros k; apply holds_recv|done].
  - apply at_object_keeps; [|done]. intros k. eapply holds_post; [apply holds_close|]. by intros _ o sh [? _].
  - destruct (at_object i Network_destroy s) as [s1|] eqn:Hrun; [|done]. intros [= <-].
    destruct (at_object_sound i Network_destroy s s1 (fun o _ => nw_ssl o = None)) as [(Hall & Hn & Hc) (o & Hi & Hnone)];
      [intros k; apply holds_destroy|done|done|].
    split_and!; cbn; [by apply Forall_delete| |done]. rewrite Hn, (tls_count_delete _ _ _ Hi). unfold tls_of. by rewrite Hnone.
  - intros [= <-]. exact Hs.
Qed.

(** C27: the connections of a process, made, connected, used, closed and deleted one
    operation after the other, in any order and with whatever answers of the
    system and the TLS library: whenever a call has come back, no object is marked as
    in use, an object that has a TLS connection is on an open socket and
    marked as checked, the shared number is that of the TLS connections,
    and the shared context is there as long as there is one.  Two conditions:
    no socket is descriptor 0, and an object is connected with TLS only when it is not
    valid, as the gateway does; connecting one that still has its connection makes the
    number too high. *)
Theorem tls_invariant w s : rtc net_moves (mkSystem [] newTlsShared w) s ->
  Forall (fun o => nw_busy o = false /\
    (nw_ssl o <> None -> nw_sslValid o = true /\ 0 < nw_sockfd o /\ nw_secureFlg o = true)) (ns_objects s) /\
  sh_numOfInstance (ns_shared s) = tls_count (ns_objects s) /\
  (0 < tls_count (ns_objects s) -> sh_ctx (ns_shared s) = true) /\
  (forall i o host port caPath caFile certkey prvkey s',
     ns_objects s !! i = Some o -> nw_ssl o <> None ->
     Network_connect_tls host port caPath caFile certkey prvkey (mkNet o (ns_shared s) (ns_world s)) = Some (true, s') ->
     tls_count (<[i := net_obj s']> (ns_objects s)) < sh_numOfInstance (net_shared s')).
Proof.
  intros Hreach. assert (Hs : system_sound s).
  { revert Hreach. generalize (mkSystem [] newTlsShared w) as s0, (ltac:(by split_and!) : system_sound (mkSystem [] newTlsShared w)).
    intros s0 H0s. induction 1 as [|s1 s2 s3 [op Hop] _ IH]; [done|]. apply IH. by eapply net_do_sound. }
  destruct Hs as (Hall & Hn & Hc). split_and!; [exact Hall|exact Hn|by rewrite <- Hn|].
  intros i o host port caPath caFile certkey prvkey s' Hi Hssl Hrun.
  pose proof (counted_connect (tls_count (ns_objects s)) host port caPath caFile certkey prvkey
    (mkNet o (ns_shared s) (ns_world s)) true s' Hn Hrun) as Hcount.
  unfold counted_if in Hcount. rewrite (tls_count_insert _ _ _ _ Hi), Hcount, (tls_count_delete _ _ _ Hi).
  unfold tls_of. destruct (nw_ssl o); [|done]. case_match; lia.
Qed.

(** A connection that is in use does not count as valid; the sending task then
    connects it again, which makes a second TLS connection on its socket and
    counts it: from then on the number is one too high. *)
Theorem connect_while_busy k s h host port caPath caFile certkey prvkey s' :
  busy_ok k (net_obj s) (net_shared s) -> nw_busy (net_obj s) = true -> nw_ssl (net_obj s) = Some h ->
  network_valid (net_obj s) = false /\
  (Network_connect_tls host port caPath caFile certkey prvkey s = Some (true, s') ->
     sh_numOfInstance (net_shared s') = k + 2).
Proof.
  intros (_ & Hs & Hk & Hn & _) Hbusy Hssl. cbn in Hs, Hn. rewrite Hssl in Hs, Hn. split.
  - unfold network_valid. destruct Hs as (Hv & _ & Hsec); [done|]. by rewrite Hsec, Hbusy, Hv, andb_false_r.
  - intros Hrun. pose proof (counted_connect (k + 1) host port caPath caFile certkey prvkey s true s' Hn Hrun) as E.
    unfold counted_if in E. lia.
Qed.
End Invariant.

(** ** A host *)

(** What reads give, what was written, and how often a write has to wait. *)
Record SampleWorld := mkSample { sw_reads : list (Z * list byte * SslError); sw_sent : list byte; sw_wait : nat }.

Definition sample_peer : list byte := map byte_of_Z [42; 46; 101].
Definition sample_host : list byte := map byte_of_Z [98; 46; 101].

Definition sample_read (len : Z) (w : SampleWorld) : (Z * list byte * SslError) * SampleWorld :=
  match sw_reads w with
  | [] => ((-1, [], SSL_ERROR_WANT_READ), w)
  | r :: rest => (r, mkSample rest (sw_sent w) (sw_wait w))
  end.
(** At most three bytes at a time. *)
Definition sample_write (bs : list byte) (w : SampleWorld) : (Z * SslError) * SampleWorld :=
  match sw_wait w with
  | O => ((zlen (take 3 bs), SSL_ERROR_NONE), mkSample (sw_reads w) (sw_sent w ++ take 3 bs) O)
  | S n => ((-1, SSL_ERROR_WANT_WRITE), mkSample (sw_reads w) (sw_sent w) n)
  end.

#[export] Instance sample_tls : TlsHost SampleWorld := {
  os_getaddrinfo _ _ w := (true, w); os_socket w := (5, w); os_reuseaddr _ w := (true, w); os_connect _ w := (true, w);
  os_bind _ w := (true, w); os_listen _ w := (true, w); os_accept _ w := (6, w); os_close _ w := (tt, w);
  os_send _ bs w := (zlen bs, mkSample (sw_reads w) (sw_sent w ++ bs) (sw_wait w));
  os_recv _ len w := let '((r, bs, _), w) := sample_read len w in ((r, bs), w);
  os_select _ w := ((1, true, true), w);
  ssl_ctx_new w := (true, w); ssl_load_verify_locations _ _ w := (true, w); ssl_use_certificate_file _ w := (true, w);
  ssl_use_PrivateKey_file _ w := (true, w); ssl_new w := (Some 1%positive, w); ssl_set_fd _ _ w := (true, w);
  ssl_set_session _ w := (tt, w); ssl_connect _ w := (true, w); ssl_verified _ w := (true, w);
  ssl_peer_name _ w := (Some sample_peer, w);
  ssl_write _ bs w := sample_write bs w; ssl_read _ len w := sample_read len w;
  ssl_pending _ w := (false, w); ssl_shutdown _ w := (tt, w); ssl_free _ w := (tt, w);
}.

#[export] Instance sample_stream : @TlsStream SampleWorld sample_tls.
Proof.
  refine {| sent := fun _ w => sw_sent w; blocked := fun _ w => sw_wait w |}.
  - intros fd w. exists w. done.
  - intros h bs w Hbs. cbn [ssl_write sample_tls]. unfold sample_write. destruct w as [reads out [|n]]; cbn [sw_wait sw_reads sw_sent].
    + exists (zlen (take 3 bs)), SSL_ERROR_NONE, (mkSample reads (out ++ take 3 bs) 0). split; [done|]. left. split; [done|].
      split; [rewrite length_take; destruct bs; [done|]; cbn [length]; lia|]. split; [|done]. cbn [sw_sent]. rewrite Nat2Z.id. by destruct bs as [|? [|? [|? ?]]].
    + exists (-1), SSL_ERROR_WANT_WRITE, (mkSample reads out n). split; [done|]. right. split; [by right|]. split; [done|]. cbn. lia.
Defined.

Definition sample_net (o : NetworkObject) (n : Z) (w : SampleWorld) : Net SampleWorld := mkNet o (mkShared true true n) w.
Definition sample_tls_object : NetworkObject := mkNetwork 5 ai_held true (Some 1%positive) false true.
Definition sample_bytes : list byte := map byte_of_Z [224; 0; 1; 2; 3; 4; 5].

Lemma plain_network_spec_witness :
  let s := mkNet (mkNetwork 5 ai_held false None false false) newTlsShared (mkSample [(2, map byte_of_Z [32; 2], SSL_ERROR_NONE)] [] 0) in
  fst <$> Network_send_obj 0 sample_bytes s = Some 7 /\
  fst <$> Network_recv_obj 0 (replicate 4 nul) 4 s = Some (2, map byte_of_Z [32; 2; 0; 0]).
Proof.
  intros s. destruct (plain_network_spec s sample_bytes 4 (replicate 4 nul) 0 eq_refl) as [Hsend Hrecv]; [reflexivity|].
  split; [rewrite Hsend; reflexivity|]. rewrite Hrecv; [reflexivity|]. vm_compute. intros E. discriminate E.
Defined.

Lemma tls_send_spec_witness :
  exists w, Network_send_obj 20 sample_bytes (sample_net sample_tls_object 1 (mkSample [] [] 4)) =
    Some (7, sample_net sample_tls_object 1 w) /\ sw_sent w = sample_bytes.
Proof.
  destruct (tls_send_spec (sample_net sample_tls_object 1 (mkSample [] [] 4)) 1%positive sample_bytes 20) as (w & Hrun & Hsent);
    [reflexivity|reflexivity|reflexivity|split; reflexivity|vm_compute; lia|].
  exists w. split; [exact Hrun|exact Hsent].
Defined.

(** A byte that is there, and one that comes after a wait. *)
Lemma tls_recv_spec_witness :
  let ready := mkSample [(1, map byte_of_Z [32], SSL_ERROR_NONE)] [] 0 in
  let late := mkSample [(-1, [], SSL_ERROR_WANT_READ); (1, map byte_of_Z [32], SSL_ERROR_NONE)] [] 0 in
  fst <$> Network_recv_obj 5 [nul] 1 (sample_net sample_tls_object 1 ready) = Some (1, map byte_of_Z [32]) /\
  Network_recv_obj 5 [nul] 1 (sample_net sample_tls_object 1 late) = None.
Proof.
  intros ready late.
  assert (Hlen : 0 <= 1 < 65536) by lia. assert (Hfit : zlen (map byte_of_Z [32]) <= zlen [nul]) by reflexivity || (cbn; lia).
  assert (Hne : map byte_of_Z [32] <> []) by discriminate.
  pose proof (fun w n => tls_recv_spec (sample_net sample_tls_object 1 w) 1%positive [nul] 1 n 1 (map byte_of_Z [32]) (mkSample [] [] 0)
    eq_refl eq_refl eq_refl Hlen eq_refl Hfit Hne) as Hspec.
  split.
  - rewrite (proj1 (Hspec ready 4%nat) eq_refl). reflexivity.
  - exact (proj2 (Hspec late 2%nat) false true ready ready ready eq_refl eq_refl eq_refl eq_refl).
Defined.

(** Two TLS connections; the peer of the first one closes it while it is read, the
    second one is used, closed and deleted. *)
Definition sample_system : NetSystem (W := SampleWorld) := mkSystem [] newTlsShared (mkSample [(0, [], SSL_ERROR_ZERO_RETURN)] [] 1).
Definition sample_ops : list (net_op (W := SampleWorld)) :=
  [NNew true; NNew true; NConnectTls 0 sample_host [] [] [] None None; NConnectTls 1 sample_host [] [] [] None None;
   NRecv 0 9 (replicate 4 nul) 4; NSend 1 9 sample_bytes].

Lemma net_moves_run ops (s s' : NetSystem (W := SampleWorld)) : foldl (fun o op => o ≫= net_do op) (Some s) ops = Some s' -> rtc net_moves s s'.
Proof.
  revert s. induction ops as [|op ops IH]; intros s; cbn [foldl]; [by intros [= ->]|]. cbn [mbind option_bind].
  destruct (net_do op s) as [s1|] eqn:Hop; [|].
  - intros Hrun. eapply rtc_l; [by exists op|by apply IH].
  - intros Hrun. exfalso. clear IH Hop. by induction ops.
Qed.

Lemma tls_invariant_witness : exists s,
  foldl (fun o op => o ≫= net_do op) (Some sample_system) sample_ops = Some s /\
  sh_numOfInstance (ns_shared s) = tls_count (ns_objects s) /\ tls_count (ns_objects s) = 1.
Proof.
  destruct (foldl (fun o op => o ≫= net_do op) (Some sample_system) sample_ops) as [s|] eqn:E; [|vm_compute in E; discriminate E].
  exists s. split; [reflexivity|]. split.
  - refine (proj1 (proj2 (tls_invariant _ _ s (net_moves_run sample_ops sample_system s E)))).
    intros w E0. discriminate E0.
  - vm_compute in E. injection E as <-. reflexivity.
Defined.
